(* ===== verification/_CoqProject ===== *)
-Q . S2P
Prelude.v
Base64.v
Crc32.v
MakeFal.v
Flash.v
Fal.v
CLib.v
EfEnv.v
EfStore.v
WlanCfg.v
SmtpClient.v
WebPath.v
FileSys.v
WebUpload.v
UlogTcp.v
RingBuffer.v
Heap.v
Telnet.v
Msh.v
Shell.v
TelnetShell.v
Calendar.v
Ntp.v
AppModules.v
Json.v
JsonParse.v
JsonMinify.v
Replies.v
Mqtt.v
MqttPacket.v
MqttClient.v
MqttApp.v
Record.v
Wol.v
WebQuery.v
WebRequest.v
WebMultipart.v
WebStored.v
WebServe.v
WebApp.v
WebAppUpload.v
WebNet.v
AppStart.v
