(* ===== verification/Prelude.v ===== *)
(** * W601 application: a verification library

    The repository is the firmware of a monitoring board: an application on
    the RT-Thread system that reads a temperature sensor, keeps its settings
    in flash, joins a wireless network, serves web pages, takes uploads,
    reports over MQTT, sends mails, records its readings, logs over TCP, takes
    its time from the network and can be operated through a telnet console.
    This library models its own code and the packages and parts of the system
    that carry its data, as executable definitions, and proves what they
    promise.

    ** The parts and how they interact

    Settings go through four layers.  [WlanCfg] (the list of known networks)
    encodes its list with [Base64] and stores it through the interface
    [EnvStore]; [EfStore] and [EfEnv] (EasyFlash) implement that interface with
    key=value texts in a RAM cache that is saved, with a checksum of [Crc32],
    alternately to two areas of a partition; [Fal] maps partitions to flash
    devices; [Flash] is the device with its erase blocks, given by the
    interface [FlashDevice].  [MakeFal] is the host tool that puts the
    partition table, which [Fal] looks for at start, into a firmware image.

    The web server goes through four layers, too.  [WebRequest] reads a request
    into the buffer of its session, with the query strings of [WebQuery];
    [WebServe] answers it: with a file through the interface [FileRead], with a
    function of the application, or by giving it to an upload; [WebMultipart]
    takes an uploaded body apart in the same buffer and calls the entry of the
    upload; [WebApp] is the application with its pages and its two uploads.
    Pages print the trees of [Replies] with the cJSON of [Json], which a
    browser reads back with [JsonParse]; they switch the lamps of [AppModules],
    configure its mail alarm, and send the packets of [Wol].  [WebPath]
    resolves the paths of uploaded files, and [WebUpload] stores files through
    the file system interface of [FileSys] and firmware through [Fal];
    [WebStored] is a multipart upload that ends in a file, and [WebAppUpload]
    the same from the first byte of the request on the server of [WebApp].
    [WebNet] is the thread of the server: the list of sessions, [select] and
    the accepting of connections around [WebServe].

    MQTT goes through three layers.  [MqttPacket] encodes and decodes packets in
    the buffers of the client; [MqttClient] reads and writes them on the socket
    and is the state machine of the client; [Mqtt] reads the configuration and
    the messages with [JsonParse] and [JsonMinify] and reports with [Json], and
    [MqttApp] is the module on the client.

    The console goes through three layers.  [Telnet] takes the bytes of a
    client apart and keeps the keys, and what goes back, in two rings of
    [RingBuffer]; [Shell] is the editor of the command line that reads the keys
    and prints; [Msh] splits a finished line, runs its command or script, and
    completes a word.  [TelnetShell] puts the three together: from the packets
    of a client to the command that runs and the bytes the client gets.  The
    clock is set by [Ntp] from the answer of a time server, through the
    broken-down time of [Calendar].  [Heap] is the memory that all parts
    allocate their blocks in.

    [AppStart] is the start of the application: it mounts the file system,
    starts [Fal] and [EfStore], joins the network, writes the upload page and
    starts the modules.  [Record] writes readings to a file a
    day through [FileSys].  Mail: [AppModules] raises the alarm and configures
    the client of [SmtpClient], which encodes credentials with [Base64].
    Logging: [UlogTcp].

    ** Files

    - [Prelude]: machine-width integers, C buffers and strings, little-endian
      words, and the lemmas and automation that the other files share.
    - [CLib]: decimal printing and reading.
    - [Base64]: [Wifi], the codec of src/ports/wifi/wifi_config.c, and [Smtp],
      the encoder of src/packages/smtp_client-latest/src.
    - [Crc32]: the table-driven checksums of src/tools/make_fal and of
      EasyFlash (src/packages/EasyFlash-v3.3.0/src/ef_utils.c) against the
      polynomial definition.
    - [MakeFal]: src/tools/make_fal, from the two input files to the image.
    - [Flash]: src/ports/fal and the flash driver; the device interface.
    - [Fal]: src/packages/fal-v0.3.0/src.
    - [EfEnv], [EfStore]: src/packages/EasyFlash-v3.3.0/src/ef_env.c and
      src/ports/easyflash/ef_fal_port.c; [EfEnv] is the cache (find, write,
      create, delete, set, get), [EfStore] saving, loading and start.
    - [WlanCfg]: src/rt-thread/components/drivers/wlan/wlan_cfg.c with
      src/ports/wifi/wifi_config.c.
    - [SmtpClient]: src/packages/smtp_client-latest/src/smtp_client.c.
    - [WebPath]: the path functions of src/module/web/web_utils.c.
    - [FileSys]: the file system as the application uses it.
    - [WebUpload]: [DirUpload] for src/module/web/wn_dir_upload.c,
      [FirmUpload] for src/module/web/wn_firm_upload.c.
    - [UlogTcp]: src/packages/ulog_tcp/ulog_tcp.c.
    - [RingBuffer]: src/rt-thread/components/drivers/src/ringbuffer.c.
    - [Heap]: src/rt-thread/src/mem.c.
    - [Telnet]: src/packages/netutils-v1.1.0/telnet/telnet.c.
    - [Msh], [Shell]: msh.c with msh_file.c, and shell.c of
      src/rt-thread/components/finsh; [TelnetShell] has [rt_kprintf] of
      src/rt-thread/src/kservice.c between the shell and the telnet device.
    - [Calendar]: gmtime_r.c of src/rt-thread/components/libc.
    - [Ntp]: src/packages/netutils-v1.1.0/ntp/ntp.c with soft_rtc.c and rtc.c of
      src/rt-thread/components/drivers/rtc.
    - [AppModules]: [Alarm] for src/module/smtp/smtp_module.c, [Aht10] for
      src/module/sensors/aht10_module.c, [Board] for
      src/module/board/board_module.c.
    - [Json], [JsonParse], [JsonMinify]: the trees and the printer, the parser
      and the minifier of src/packages/cJSON-latest/cJSON.c.
    - [Replies]: src/module/json/json_create.c and the [json_create_] functions
      of the other modules.
    - [Mqtt]: src/module/mqtt/mqtt_json.c and the callback of mqtt_module.c.
    - [MqttPacket]: src/packages/wolfMQTT-RTT/src/mqtt_packet.c.
    - [MqttClient]: mqtt_client.c and mqtt_socket.c next to it, with
      mqtt_net_port.c and wolfmqtt.c of src/packages/wolfMQTT-RTT/port.
    - [MqttApp]: src/module/mqtt/mqtt_module.c on that client.
    - [Record]: src/module/record/record_module.c.
    - [Wol]: src/packages/wol-v1.0.0/wol.c and src/module/wol/wol_app.c.
    - [WebQuery], [WebRequest]: src/packages/webnet-latest/src/wn_utils.c,
      wn_request.c and the reading half of wn_session.c.
    - [WebMultipart]: src/packages/webnet-latest/module/wn_module_upload.c.
    - [WebStored]: the entry of wn_dir_upload.c behind [WebMultipart].
    - [WebServe]: wn_module.c, the answering half of wn_session.c,
      wn_mimetype.c, wn_module_cgi.c and wn_module_auth.c.
    - [WebApp]: src/module/web/web_module.c; [WebAppUpload]: its file upload.
    - [WebNet]: the sessions of wn_session.c and the loop of webnet.c.
    - [AppStart]: src/applications, src/module/system, src/module/wifi, and
      what they use of src/module/utils and of the upload page of
      src/module/web/web_utils.c.

    Definitions carry the names of the C functions and types.  A function that
    changes static variables takes and returns the record of those variables;
    a buffer is the list of its bytes, a C string the list of its characters;
    undefined behaviour (an access out of bounds, a null pointer, a missing
    terminator) and a failed assertion give [None], so that a theorem with
    [Some] also says that none occurs; from [JsonParse] on the type [res] has
    [Undef] for it, [Hang] for a loop that does not end and [NoFuel].  The
    results of allocations, sockets and devices are arguments or the fields of
    an interface.

    ** What the theorems show

    - Storage: the cache of EasyFlash behaves as a finite map within its
      capacity; set-and-save survives a restart; a power failure at any point
      of a save leaves the old or the new settings; start always ends with a
      consistent cache; and what goes wrong when a set fails for lack of room
      or an erase fails.
    - Codecs: base64 round trip and the equality of the two encoders; the
      checksum tables compute the polynomial checksum, which detects bursts;
      the image tool produces an image that its own checks and the partition
      search accept.
    - Flash: accesses to partitions stay inside them unless a 32-bit sum
      wraps, and partitions do not disturb each other; the table is found and
      loaded.
    - WLAN: the list is in most-recently-used order without duplicates and
      survives a restart.
    - Mail: the dialogue with the server is exactly the protocol of the mail;
      credentials and receivers; the alarm is sent at most every 300 turns and
      at every opportunity after that.
    - JSON: the printer writes the text of a reference printer and stays within
      its buffer; the parser ends on every text, reads no byte behind the
      terminator, returns well-formed trees, and gives back what was printed;
      the minifier leaves a printed text as the unformatted printer writes it.
    - Web server: a request and a posted form are read in any pieces; reading
      ends and keeps the session well formed; a multipart body reaches the
      entry byte for byte; a browser that asks for a file gets its bytes; only
      files below the root are served to requests that do not go up; and what
      goes wrong (a body that makes the server hang, ranges that are one byte
      short, paths that leave the root).
    - Application: a page shows the state so that a browser gets the values
      back; a form that is saved is shown; a lamp is switched; a device is
      woken; uploads are stored piece by piece; path normalisation refines a
      stack of names; records go to the file of their day; settings survive any
      number of restarts of the whole start, which goes through when the network
      and the clock are ready some time.
    - MQTT: a message is encoded as the protocol says and decoded again; it is
      sent whole however long it is and however the network cuts it; one that
      arrives in any pieces is handed over whole; the start leaves a subscribed
      client that is ready; a property message switches the lamps it names and
      is answered with a report; and what goes wrong (a connection that is
      closed within a message).
    - Console: the ring buffer is a bounded queue; the telnet server is a
      terminal, whose client types exactly its keys and gets every option
      refused; the shell is a line editor with a history, and while a line is
      edited the terminal shows it; a line runs its command with exactly its
      words, also when a telnet client sends it in pieces; a tab extends a word
      to the longest common one; and what goes wrong (a forced block that
      empties the ring, keys without a notice, a line of 80 characters, a
      completion that passes the end of the line).
    - Memory: on the bytes of the heap, the calls keep every block that is held
      separate and unchanged, and what is given back becomes one block again;
      and what goes wrong (a size that wraps, a last place that is refused, a
      remainder that is forgotten).
    - Time: seconds are broken down into the one date they belong to; the
      clock is set to the time of an answer; the wait for one ends.
    - Logging: on every reachable state the open descriptors are those of the
      servers, each once; when lost connections are retried.

    ** Fuel and bounds

    Loops that are not structural take a fuel that is enough by proof: the
    length of the buffer for path and environment scans, the number of table
    entries plus one for the partition table, the length of a file for its
    transmission, the length of the text for the JSON parser and one more for
    the minifier, the length of the buffer for the lines of a request.  The
    loop over a multipart body has the number of received bytes plus one: it
    really does not end on some bodies, which [WebMultipart.upload_hangs]
    proves.  The [recv] loop of the log thread ends only if the peer stops
    sending, so a turn of the thread is a step only if it returns; the steps of
    the other components always return.  The MQTT client takes two: one more
    than the packets that a wait handles before the one it waits for, and the
    number of pieces a payload is moved in, for which its length plus one is
    enough; a connection that is closed within a message needs infinitely much,
    which [MqttClient.closed_in_message] proves.  The rings have the sizes of
    the telnet server, 256 and 4096, and any size below 2 ^ 15 in [RingBuffer].
    The command interpreter takes the depth of scripts that run scripts, which
    the code does not bound either: one is enough for a command.  The searches
    of the heap take the number of its bytes, which is more than the blocks.  The wait for a
    time server takes at most 501 turns of ten milliseconds
    ([Ntp.ntp_silence_ends]); the years and months of a date are bounded by its
    days.

    ** What is not modelled

    The rest of the kernel, the drivers, the file system, the network stack and
    the vendor libraries are third-party code below or beside the application, and what is compiled out of the MQTT client (TLS,
    protocol 5, sensor networks); texts of floating-point
    numbers are parameters; failed allocations in the web server (elsewhere the
    result of an allocation is an argument, whatever the heap holds); the
    interleaving of threads inside a call (the mutexes of the code make calls
    atomic, except for the log output, which reads its list without the
    mutex, for MQTT, whose two threads share the client without one, for the
    telnet server, which sends outside its lock, and for the time client, whose
    packet is static); what a command of the console does; the redirection of
    the standard input and output to the telnet device.

    ** Plan

    Published messages of a higher quality and the requests that close a
    connection, whose operations [MqttClient] has, but not their theorems; the
    printer of cJSON with a growing buffer; the file commands of the console and
    scripts that run scripts; a multipart body whose last boundary
    is cut; the user table of the web server and redirections; the reading of
    the sensors. *)

From stdpp Require Export base list numbers strings gmap.
From Stdlib Require Export ZArith Lia.

#[global] Open Scope Z_scope.

(** ** Machine-width integers

    The firmware runs on a 32-bit ARM core: [int], [long] and [size_t] are 32
    bits wide, [char] is unsigned.  A w-bit value is a [Z]; every place where
    the C program may wrap applies one of the functions below. *)
Definition u8 (x : Z) : Z := x `mod` 2 ^ 8.

Definition u16 (x : Z) : Z := x `mod` 2 ^ 16.

Definition u32 (x : Z) : Z := x `mod` 2 ^ 32.

Definition i32 (x : Z) : Z := (x + 2 ^ 31) `mod` 2 ^ 32 - 2 ^ 31.

(** A byte, and a list of bytes. *)
Definition is_byte (x : Z) : Prop := 0 <= x < 256.

Abbreviation bytes := (Forall is_byte).

(** A C string held as the list of its characters without the terminator. *)
Definition is_cchar (x : Z) : Prop := 0 < x < 256.

Abbreviation cstring := (Forall is_cchar).

#[export] Instance is_byte_dec x : Decision (is_byte x).
Proof. unfold is_byte. apply _. Defined.

#[export] Instance is_cchar_dec x : Decision (is_cchar x).
Proof. unfold is_cchar. apply _. Defined.

Fixpoint str (s : string) : list Z :=
  match s with
  | EmptyString => []
  | String c s' => Z.of_N (Ascii.N_of_ascii c) :: str s'
  end.

(** [zlen l] is the length of a buffer as the C code counts it. *)
Definition zlen {A} (l : list A) : Z := Z.of_nat (length l).

(** Indexed access to a C buffer; an access out of bounds is undefined
    behaviour and yields [None]. *)
Definition buf_get {A} (b : list A) (i : Z) : option A :=
  if 0 <=? i then b !! Z.to_nat i else None.

Definition buf_set {A} (b : list A) (i : Z) (v : A) : option (list A) :=
  if (0 <=? i) && (i <? zlen b) then Some (<[Z.to_nat i := v]> b) else None.

(** [memcpy] of [d] into the buffer [b] at offset [i]. *)
Definition buf_write {A} (b : list A) (i : Z) (d : list A) : option (list A) :=
  if (0 <=? i) && (i + zlen d <=? zlen b)
  then Some (take (Z.to_nat i) b ++ d ++ drop (Z.to_nat i + length d) b)
  else None.

(** The C string stored in a buffer: everything before the first NUL;
    [None] when the buffer holds no terminator. *)
Fixpoint buf_cstr (b : list Z) : option (list Z) :=
  match b with
  | [] => None
  | c :: b' => if c =? 0 then Some [] else (cons c) <$> buf_cstr b'
  end.

(** Little-endian words, as the ARM core stores them. *)
Fixpoint le_bytes (n : nat) (x : Z) : list Z :=
  match n with
  | O => []
  | S n => u8 x :: le_bytes n (x / 256)
  end.

Fixpoint le_val (l : list Z) : Z :=
  match l with
  | [] => 0
  | b :: l => b + 256 * le_val l
  end.

(** [buf_sub b i n]: the [n] bytes of [b] from offset [i]. *)
Definition buf_sub {A} (b : list A) (i n : Z) : list A :=
  take (Z.to_nat n) (drop (Z.to_nat i) b).

(** ** Automation *)
Create HintDb w601.

Create Rewrite HintDb zlen.

(** Decide a closed decidable goal by evaluation. *)
Ltac by_decide := apply (bool_decide_unpack _); vm_compute; exact I.

Ltac zify_divmod := Z.div_mod_to_equations; lia.

Ltac case_bool :=
  match goal with
  | |- context [ ?a =? ?b ] => destruct (Z.eqb_spec a b)
  | |- context [ ?a <=? ?b ] => destruct (Z.leb_spec a b)
  | |- context [ ?a <? ?b ] => destruct (Z.ltb_spec a b)
  end; simpl; try lia; try done.

(** ** Arithmetic lemmas *)
Lemma u8_id x : 0 <= x < 256 -> u8 x = x.
Proof. intros; unfold u8; apply Z.mod_small; lia. Qed.

Lemma u16_id x : 0 <= x < 2 ^ 16 -> u16 x = x.
Proof. intros; unfold u16; apply Z.mod_small; lia. Qed.

Lemma u32_id x : 0 <= x < 2 ^ 32 -> u32 x = x.
Proof. intros; unfold u32; apply Z.mod_small; lia. Qed.

Lemma u8_range x : 0 <= u8 x < 256.
Proof. unfold u8; apply Z.mod_pos_bound; lia. Qed.

Lemma u16_range x : 0 <= u16 x < 2 ^ 16.
Proof. unfold u16; apply Z.mod_pos_bound; lia. Qed.

Lemma u32_range x : 0 <= u32 x < 2 ^ 32.
Proof. unfold u32; apply Z.mod_pos_bound; lia. Qed.

Lemma i32_id x : - 2 ^ 31 <= x < 2 ^ 31 -> i32 x = x.
Proof. intros; unfold i32; rewrite Z.mod_small; lia. Qed.

#[export] Hint Resolve u8_range u16_range u32_range : w601.

(** Shifts, masks and disjoint unions as arithmetic. *)
Lemma land_mask a m n : 0 <= n -> m = Z.ones n -> Z.land a m = a `mod` 2 ^ n.
Proof. intros ? ->. by apply Z.land_ones. Qed.

Lemma shr_div a n : 0 <= n -> Z.shiftr a n = a / 2 ^ n.
Proof. apply Z.shiftr_div_pow2. Qed.

Lemma join_digit (k : Z) x y :
  0 <= k -> 0 <= y < 2 ^ k -> Z.lor (Z.shiftl x k) y = x * 2 ^ k + y.
Proof.
  intros Hk Hy. rewrite <- Z.shiftl_mul_pow2 by lia.
  symmetry. apply Z.add_nocarry_lor.
  apply Z.bits_inj'. intros n Hn. rewrite Z.land_spec, Z.bits_0.
  destruct (Z.lt_ge_cases n k).
  - by rewrite Z.shiftl_spec_low.
  - destruct (Z.eq_dec y 0) as [->|]; [by rewrite Z.bits_0, andb_false_r|].
    rewrite (Z.bits_above_log2 y n), andb_false_r; [done|lia|].
    apply Z.log2_lt_pow2; [lia|].
    apply Z.lt_le_trans with (2 ^ k); [lia|]. apply Z.pow_le_mono_r; lia.
Qed.

(** A boolean check evaluated on every byte holds of every byte. *)
Lemma forall_range (P : Z -> bool) (n : Z) :
  forallb P (seqZ 0 n) = true -> forall b, 0 <= b < n -> P b = true.
Proof.
  intros H b Hb. rewrite forallb_forall in H. apply H.
  apply list_elem_of_In, elem_of_seqZ. lia.
Qed.

Lemma forall_byte (P : Z -> bool) :
  forallb P (seqZ 0 256) = true -> forall b, is_byte b -> P b = true.
Proof. intros H b Hb. by apply (forall_range P 256). Qed.

(** The same for an equation, over one or two ranges. *)
Lemma forall_range_eq {A} `{!EqDecision A} (f g : Z -> A) (n : Z) :
  forallb (fun b => bool_decide (f b = g b)) (seqZ 0 n) = true ->
  forall b, 0 <= b < n -> f b = g b.
Proof.
  intros Hall b Hb.
  pose proof (forall_range (fun b => bool_decide (f b = g b)) n Hall b Hb) as E.
  by apply bool_decide_eq_true in E.
Qed.

Lemma forall_range_eq2 {A} `{!EqDecision A} (f g : Z -> Z -> A) (m n : Z) :
  forallb (fun a => forallb (fun b => bool_decide (f a b = g a b)) (seqZ 0 n)) (seqZ 0 m)
    = true ->
  forall a b, 0 <= a < m -> 0 <= b < n -> f a b = g a b.
Proof.
  intros Hall a b Ha. apply (forall_range_eq (f a) (g a)).
  exact (forall_range _ m Hall a Ha).
Qed.

(** ** Buffers *)
Lemma zlen_nonneg {A} (l : list A) : 0 <= zlen l.
Proof. unfold zlen; lia. Qed.

Lemma zlen_app {A} (l k : list A) : zlen (l ++ k) = zlen l + zlen k.
Proof. unfold zlen; rewrite length_app; lia. Qed.

Lemma zlen_cons {A} (x : A) (l : list A) : zlen (x :: l) = 1 + zlen l.
Proof. unfold zlen; simpl; lia. Qed.

Lemma zlen_nil {A} : zlen (@nil A) = 0.
Proof. reflexivity. Qed.

Lemma zlen_drop {A} n (l : list A) : zlen (drop n l) = Z.max 0 (zlen l - Z.of_nat n).
Proof. unfold zlen. rewrite length_drop. lia. Qed.

Lemma zlen_take {A} n (l : list A) : zlen (take n l) = Z.min (Z.of_nat n) (zlen l).
Proof. unfold zlen. rewrite length_take. lia. Qed.

Lemma zlen_replicate {A} n (x : A) : zlen (replicate n x) = Z.of_nat n.
Proof. unfold zlen. by rewrite length_replicate. Qed.

#[export] Hint Rewrite @zlen_app @zlen_cons @zlen_nil @zlen_drop @zlen_take
  @zlen_replicate : zlen.

#[export] Hint Resolve zlen_nonneg : w601.

Lemma buf_get_app_r {A} (l k : list A) i :
  0 <= i -> buf_get (l ++ k) (zlen l + i) = buf_get k i.
Proof.
  intros H. unfold buf_get, zlen. repeat case_bool.
  rewrite lookup_app_r by lia. f_equal. lia.
Qed.

Lemma buf_get_app_l {A} (l k : list A) i :
  i < zlen l -> buf_get (l ++ k) i = buf_get l i.
Proof.
  intros H. unfold buf_get, zlen in *. case_bool. apply lookup_app_l. lia.
Qed.

Lemma buf_set_some {A} (b : list A) i v :
  0 <= i < zlen b -> buf_set b i v = Some (<[Z.to_nat i := v]> b).
Proof. intros H. unfold buf_set. by repeat case_bool. Qed.

(** Writing at the boundary of a prefix advances the boundary. *)
Lemma buf_set_next {A} (p s : list A) (o v : A) :
  buf_set (p ++ o :: s) (zlen p) v = Some ((p ++ [v]) ++ s).
Proof.
  rewrite buf_set_some.
  - f_equal. unfold zlen. rewrite Nat2Z.id.
    rewrite insert_app_r_alt by lia. rewrite Nat.sub_diag. simpl.
    by rewrite <- app_assoc.
  - autorewrite with zlen. unfold zlen. lia.
Qed.

Lemma take_zlen_app {A} (a b : list A) : take (Z.to_nat (zlen a)) (a ++ b) = a.
Proof. unfold zlen. by rewrite Nat2Z.id, take_app_length. Qed.

Lemma zlen_pos {A} (l : list A) : l <> [] -> 0 < zlen l.
Proof. destruct l; [done|]. rewrite zlen_cons. pose proof (zlen_nonneg l). lia. Qed.

Lemma take_all {A} (a : list A) : take (Z.to_nat (zlen a)) a = a.
Proof. rewrite take_ge; [done|unfold zlen; lia]. Qed.

Lemma drop_zlen_app {A} (a b : list A) : drop (Z.to_nat (zlen a)) (a ++ b) = b.
Proof. unfold zlen. by rewrite Nat2Z.id, drop_app_length. Qed.

(** A split at a length. *)
Lemma take_split {A} (l : list A) n : 0 <= n <= zlen l ->
  exists l1 l2, l = l1 ++ l2 /\ zlen l1 = n.
Proof.
  intros Hn. exists (take (Z.to_nat n) l), (drop (Z.to_nat n) l). rewrite take_drop, zlen_take. split; [done|lia].
Qed.

Lemma get_here {A} (p : list A) c q i : zlen p = i -> buf_get (p ++ c :: q) i = Some c.
Proof. intros <-. rewrite <- (Z.add_0_r (zlen p)), buf_get_app_r by lia. done. Qed.

Lemma set_here (p q : list Z) o v i : zlen p = i -> buf_set (p ++ o :: q) i v = Some (p ++ v :: q).
Proof. intros <-. rewrite buf_set_next. by rewrite <- app_assoc. Qed.

Lemma drop_words p q n : zlen p = n -> drop (Z.to_nat n) (p ++ q) = q :> list Z.
Proof. intros <-. unfold zlen. by rewrite Nat2Z.id, drop_app_length. Qed.

Lemma buf_write_some {A} (b : list A) i d :
  0 <= i -> i + zlen d <= zlen b ->
  buf_write b i d = Some (take (Z.to_nat i) b ++ d ++ drop (Z.to_nat i + length d) b).
Proof. intros H1 H2. unfold buf_write. by repeat case_bool. Qed.

Lemma buf_write_none {A} (b : list A) i d : zlen b < i + zlen d -> buf_write b i d = None.
Proof.
  intros H. unfold buf_write. destruct (Z.leb_spec (i + zlen d) (zlen b)); [lia|].
  by rewrite andb_false_r.
Qed.

Lemma buf_write_len {A} (b b' : list A) i d :
  buf_write b i d = Some b' -> length b' = length b.
Proof.
  unfold buf_write. repeat case_bool. intros [= <-].
  rewrite !length_app, length_take, length_drop. unfold zlen in *. lia.
Qed.

(** A C string followed by its terminator reads back. *)
Lemma buf_cstr_app (s rest : list Z) :
  cstring s -> buf_cstr (s ++ 0 :: rest) = Some s.
Proof.
  induction 1 as [|c s Hc Hs IH]; [done|]. simpl.
  unfold is_cchar in Hc. case_bool. by rewrite IH.
Qed.

(** ** Little-endian words *)
Lemma le_bytes_len n x : length (le_bytes n x) = n.
Proof. revert x. induction n as [|n IH]; intros x; simpl; auto. Qed.

Lemma le_bytes_zlen n x : zlen (le_bytes n x) = Z.of_nat n.
Proof. unfold zlen. by rewrite le_bytes_len. Qed.

#[export] Hint Rewrite le_bytes_zlen : zlen.

Lemma le_bytes_bytes n x : bytes (le_bytes n x).
Proof.
  revert x. induction n as [|n IH]; intros x; simpl; constructor; [apply u8_range|apply IH].
Qed.

Lemma le_val_bytes n x : 0 <= x < 256 ^ Z.of_nat n -> le_val (le_bytes n x) = x.
Proof.
  revert x. induction n as [|n IH]; intros x Hx; [change (256 ^ Z.of_nat 0) with 1 in Hx; simpl; lia|].
  rewrite Nat2Z.inj_succ, Z.pow_succ_r in Hx by lia. cbn [le_bytes le_val].
  rewrite IH by (split; [apply Z.div_pos; lia|apply Z.div_lt_upper_bound; lia]).
  unfold u8. change (2 ^ 8) with 256. rewrite (Z.div_mod x 256) at 3 by lia. lia.
Qed.

Lemma le_val_bound l : bytes l -> 0 <= le_val l < 256 ^ zlen l.
Proof.
  induction 1 as [|b l Hb H IH]; [done|]. cbn [le_val]. rewrite zlen_cons.
  rewrite Z.pow_add_r by (unfold zlen; lia). unfold is_byte in Hb. nia.
Qed.

Lemma le_bytes_val l : bytes l -> le_bytes (length l) (le_val l) = l.
Proof.
  induction 1 as [|b l Hb H IH]; [done|]. cbn [le_bytes le_val length].
  unfold is_byte in Hb. f_equal.
  - unfold u8. change (2 ^ 8) with 256. rewrite (Z.mul_comm 256), Z.mod_add by lia.
    apply Z.mod_small. lia.
  - rewrite (Z.mul_comm 256), Z.div_add, Z.div_small, Z.add_0_l by lia. done.
Qed.

(** ** Reading back a window of a buffer *)
Lemma buf_sub_len {A} (b : list A) i n :
  0 <= i -> 0 <= n -> i + n <= zlen b -> zlen (buf_sub b i n) = n.
Proof.
  intros. unfold buf_sub, zlen in *. rewrite length_take, length_drop. lia.
Qed.

Lemma buf_sub_write_eq {A} (b b' : list A) i d :
  buf_write b i d = Some b' -> buf_sub b' i (zlen d) = d.
Proof.
  unfold buf_write. repeat case_bool. intros [= <-].
  unfold buf_sub. rewrite drop_app_length' by (rewrite length_take; unfold zlen in *; lia).
  rewrite take_app_length'; [done|unfold zlen; lia].
Qed.

(** A write at the boundary of a prefix. *)
Lemma buf_write_at {A} (p q : list A) i d :
  zlen p = i -> zlen d <= zlen q ->
  buf_write (p ++ q) i d = Some ((p ++ d) ++ drop (length d) q).
Proof.
  intros <- H. rewrite buf_write_some; [|apply zlen_nonneg|rewrite zlen_app; lia].
  unfold zlen. rewrite Nat2Z.id, take_app_length, drop_app_add'; [|done].
  by rewrite <- app_assoc.
Qed.

(** Two adjacent writes are one write. *)
Lemma buf_write_seq {A B} (b d1 d2 : list A) i j (K : list A -> option B) :
  0 <= i -> j = i + zlen d1 ->
  (c ← buf_write b i d1; c ← buf_write c j d2; K c) = (c ← buf_write b i (d1 ++ d2); K c).
Proof.
  intros Hi ->. pose proof (zlen_nonneg d1). pose proof (zlen_nonneg d2).
  destruct (Z.le_gt_cases (i + zlen (d1 ++ d2)) (zlen b)) as [Hfit|Hno]; rewrite zlen_app in *.
  - rewrite !buf_write_some by (try rewrite zlen_app; lia). cbn [mbind option_bind].
    rewrite app_assoc, buf_write_at.
    + cbn [mbind option_bind]. rewrite drop_drop, length_app, <- !app_assoc. do 5 f_equal. lia.
    + autorewrite with zlen. lia.
    + autorewrite with zlen. unfold zlen in *. lia.
  - rewrite (buf_write_none b i (d1 ++ d2)) by (rewrite zlen_app; lia).
    destruct (Z.le_gt_cases (i + zlen d1) (zlen b)); [|by rewrite buf_write_none by lia].
    destruct (buf_write b i d1) as [c|] eqn:E; [|done]. cbn [mbind option_bind].
    apply buf_write_len in E. rewrite buf_write_none; [done|]. unfold zlen in *. lia.
Qed.

(** A write leaves every window it does not meet. *)
Lemma buf_sub_write_ne {A} (b b' : list A) i d j n :
  buf_write b i d = Some b' -> 0 <= j -> 0 <= n ->
  j + n <= i \/ i + zlen d <= j -> buf_sub b' j n = buf_sub b j n.
Proof.
  unfold buf_write. repeat case_bool. intros [= <-] Hj Hn Hdisj.
  unfold buf_sub, zlen in *. apply list_eq. intros k.
  destruct (decide (k < Z.to_nat n)%nat); [|rewrite !lookup_ge_None_2; [done|rewrite length_take; lia..]].
  rewrite !lookup_take_lt, !lookup_drop by lia.
  destruct Hdisj.
  - rewrite lookup_app_l by (rewrite length_take; lia). apply lookup_take_lt. lia.
  - rewrite lookup_app_r by (rewrite length_take; lia). rewrite length_take.
    rewrite lookup_app_r by lia. rewrite lookup_drop. f_equal. lia.
Qed.

Lemma buf_write_bytes (b b' : list Z) i d :
  buf_write b i d = Some b' -> bytes b -> bytes d -> bytes b'.
Proof.
  unfold buf_write. repeat case_bool. intros [= <-] Hb Hd.
  rewrite !Forall_app. split_and!; [by apply Forall_take|done|by apply Forall_drop].
Qed.

Lemma buf_sub_bytes (b : list Z) i n : bytes b -> bytes (buf_sub b i n).
Proof. intros H. by apply Forall_take, Forall_drop. Qed.

Lemma buf_sub_skip {A} (p q : list A) i n :
  zlen p <= i -> buf_sub (p ++ q) i n = buf_sub q (i - zlen p) n.
Proof.
  intros H. unfold buf_sub, zlen in *. rewrite drop_app_ge by lia. do 2 f_equal. lia.
Qed.

Lemma buf_sub_here {A} (p q : list A) n : zlen p = n -> buf_sub (p ++ q) 0 n = p.
Proof.
  intros <-. unfold buf_sub, zlen. rewrite drop_0, Nat2Z.id. apply take_app_length.
Qed.

Lemma buf_sub_app_l {A} (p q : list A) i n :
  0 <= i -> 0 <= n -> i + n <= zlen p -> buf_sub (p ++ q) i n = buf_sub p i n.
Proof.
  intros Hi Hn H. unfold buf_sub, zlen in *. rewrite drop_app_le by lia.
  apply take_app_le. rewrite length_drop. lia.
Qed.

Lemma buf_sub_all {A} (b : list A) : buf_sub b 0 (zlen b) = b.
Proof. unfold buf_sub, zlen. rewrite Nat2Z.id. by rewrite take_ge. Qed.

#[export] Hint Resolve le_bytes_bytes buf_sub_bytes : w601.
