(* ===== verification/Base64.v ===== *)
(** * Base64: the encoders and the decoder of the firmware

    [Wifi] models the codec of src/ports/wifi/wifi_config.c that stores the
    WLAN configuration in the flash environment; [Smtp] models the bit-serial
    encoder of src/packages/smtp_client-latest/src/smtp_client_data.c.  The
    theorems show that the decoder inverts the encoder, that the buffer
    [write_cfg] allocates holds the encoding, and that the two encoders
    compute the same text. *)

From S2P Require Import Prelude.

Local Open Scope Z_scope.

Module Wifi.

(** [base64_table]: the alphabet (the C array also holds the terminator). *)
Definition base64_table : list Z :=
  str "ABCDEFGHIJKLMNOPQRSTUVWXYZabcdefghijklmnopqrstuvwxyz0123456789+/".

Definition base64_decode_table : list Z :=
  [
    0; 0; 0; 0; 0; 0; 0; 0; 0; 0; 0; 0; 0; 0; 0; 0;
    0; 0; 0; 0; 0; 0; 0; 0; 0; 0; 0; 0; 0; 0; 0; 0;
    0; 0; 0; 0; 0; 0; 0; 0; 0; 0; 0; 62; 0; 0; 0; 63;
    52; 53; 54; 55; 56; 57; 58; 59; 60; 61; 0; 0; 0; 0; 0; 0;
    0; 0; 1; 2; 3; 4; 5; 6; 7; 8; 9; 10; 11; 12; 13; 14;
    15; 16; 17; 18; 19; 20; 21; 22; 23; 24; 25; 0; 0; 0; 0; 0;
    0; 26; 27; 28; 29; 30; 31; 32; 33; 34; 35; 36; 37; 38; 39; 40;
    41; 42; 43; 44; 45; 46; 47; 48; 49; 50; 51; 0; 0; 0; 0; 0;
    0; 0; 0; 0; 0; 0; 0; 0; 0; 0; 0; 0; 0; 0; 0; 0;
    0; 0; 0; 0; 0; 0; 0; 0; 0; 0; 0; 0; 0; 0; 0; 0;
    0; 0; 0; 0; 0; 0; 0; 0; 0; 0; 0; 0; 0; 0; 0; 0;
    0; 0; 0; 0; 0; 0; 0; 0; 0; 0; 0; 0; 0; 0; 0; 0;
    0; 0; 0; 0; 0; 0; 0; 0; 0; 0; 0; 0; 0; 0; 0; 0;
    0; 0; 0; 0; 0; 0; 0; 0; 0; 0; 0; 0; 0; 0; 0; 0;
    0; 0; 0; 0; 0; 0; 0; 0; 0; 0; 0; 0; 0; 0; 0; 0;
    0; 0; 0; 0; 0; 0; 0; 0; 0; 0; 0; 0; 0; 0; 0; 0
  ].

(** Table accesses; both tables are indexed within their bounds whenever the
    index has the width of the access (6 and 8 bits). *)
Definition tbl (i : Z) : Z := nth (Z.to_nat i) base64_table 0.

Definition dec (c : Z) : Z := nth (Z.to_nat c) base64_decode_table 0.

Definition pad : Z := 61.

(** [str_base64_encode_len]: three bytes per turn of the [while] loop, then
    the one- or two-byte tail.  The result is the text before the NUL. *)
Fixpoint encode_chars (src : list Z) : list Z :=
  match src with
  | a :: b :: c :: rest =>
      tbl (Z.shiftr a 2)
      :: tbl (Z.lor (Z.shiftl (Z.land a 3) 4) (Z.shiftr b 4))
      :: tbl (Z.lor (Z.shiftl (Z.land b 15) 2) (Z.shiftr c 6))
      :: tbl (Z.land c 63)
      :: encode_chars rest
  | [a; b] =>
      [tbl (Z.shiftr a 2);
       tbl (Z.lor (Z.shiftl (Z.land a 3) 4) (Z.shiftr b 4));
       tbl (Z.shiftl (Z.land b 15) 2);
       pad]
  | [a] =>
      [tbl (Z.shiftr a 2); tbl (Z.shiftl (Z.land a 3) 4); pad; pad]
  | [] => []
  end.

(** The bytes the encoder stores in [out], terminator included. *)
Definition str_base64_encode_len (src : list Z) : list Z :=
  encode_chars src ++ [0].

Definition sextet (c : Z) : Z := if c =? pad then 0 else dec c.

Definition triple (a b c d : Z) : Z :=
  u32 (u32 (u32 (u32 (Z.shiftl (sextet a) 18) + u32 (Z.shiftl (sextet b) 12))
            + u32 (Z.shiftl (sextet c) 6)) + sextet d).

(** The [for] loop: four characters per turn, each of the three output bytes
    stored only while [j < out_len]. *)
Fixpoint decode_loop (data : list Z) (j out_len : Z) : list Z :=
  match data with
  | a :: b :: c :: d :: rest =>
      let t := triple a b c d in
      let w := take (Z.to_nat (out_len - j))
                 [Z.land (Z.shiftr t 16) 255; Z.land (Z.shiftr t 8) 255; Z.land t 255] in
      w ++ decode_loop rest (j + zlen w) out_len
  | _ => []
  end.

(** [str_base64_decode]: the return value and the bytes stored in
    [decoded_data].  [None] is the read of [data[-1]] the code makes on an
    empty text. *)
Definition str_base64_decode (data : list Z) : option (Z * list Z) :=
  let input_length := zlen data in
  if negb (input_length `mod` 4 =? 0) then Some (0, [])
  else
    let out_len := input_length / 4 * 3 in
    last1 ← buf_get data (input_length - 1);
    last2 ← buf_get data (input_length - 2);
    let out_len := if last1 =? pad then out_len - 1 else out_len in
    let out_len := if last2 =? pad then out_len - 1 else out_len in
    Some (out_len, decode_loop data 0 out_len).

(** The size [write_cfg] asks [rt_malloc] for. *)
Definition encode_alloc (len : Z) : Z := len * 4 / 3 + 4.


(** ** Digits *)
Lemma tbl_dec i : 0 <= i < 64 -> dec (tbl i) = i.
Proof.
  intros H. apply Z.eqb_eq.
  by apply (forall_range (fun i => dec (tbl i) =? i) 64).
Qed.

Lemma tbl_char i : 0 <= i < 64 -> is_cchar (tbl i) /\ tbl i <> pad.
Proof.
  intros H.
  assert ((0 <? tbl i) && (tbl i <? 256) && negb (tbl i =? pad) = true) as E
    by (by apply (forall_range
          (fun i => (0 <? tbl i) && (tbl i <? 256) && negb (tbl i =? pad)) 64)).
  unfold is_cchar. lia.
Qed.

Lemma sextet_tbl i : 0 <= i < 64 -> sextet (tbl i) = i.
Proof.
  intros H. unfold sextet. destruct (tbl_char i H) as [_ E].
  case_bool. by apply tbl_dec.
Qed.

Lemma sextet_pad : sextet pad = 0.
Proof. reflexivity. Qed.

(** ** One group of four characters *)
Lemma triple_digits i j k l :
  0 <= i < 64 -> 0 <= j < 64 -> 0 <= k < 64 -> 0 <= l < 64 ->
  forall a b c d, sextet a = i -> sextet b = j -> sextet c = k -> sextet d = l ->
  triple a b c d = i * 2 ^ 18 + j * 2 ^ 12 + k * 2 ^ 6 + l.
Proof.
  intros Hi Hj Hk Hl a b c d <- <- <- <-. unfold triple.
  rewrite !Z.shiftl_mul_pow2 by lia. 
  rewrite (u32_id (sextet a * 2 ^ 18)), (u32_id (sextet b * 2 ^ 12)),
    (u32_id (sextet c * 2 ^ 6)) by lia.
  rewrite (u32_id (_ * 2 ^ 18 + _)) by lia.
  rewrite (u32_id (_ + sextet c * 2 ^ 6)) by lia.
  apply u32_id; lia.
Qed.

Lemma encode_group_split a b c :
  is_byte a -> is_byte b -> is_byte c ->
  Z.shiftr a 2 = a / 4 /\
  Z.lor (Z.shiftl (Z.land a 3) 4) (Z.shiftr b 4) = a `mod` 4 * 16 + b / 16 /\
  Z.lor (Z.shiftl (Z.land b 15) 2) (Z.shiftr c 6) = b `mod` 16 * 4 + c / 64 /\
  Z.land c 63 = c `mod` 64 /\
  Z.shiftl (Z.land a 3) 4 = a `mod` 4 * 16 /\
  Z.shiftl (Z.land b 15) 2 = b `mod` 16 * 4.
Proof.
  intros Ha Hb Hc. unfold is_byte in *.
  rewrite !join_digit; rewrite ?shr_div by lia; try lia;
    try (change (2 ^ 4) with 16; change (2 ^ 6) with 64; zify_divmod).
  rewrite !Z.shiftl_mul_pow2 by lia.
  rewrite (land_mask a 3 2), (land_mask b 15 4), (land_mask c 63 6) by done.
  repeat split; reflexivity.
Qed.

(** The bytes a group of four digits stands for. *)
Lemma group_bytes a b c t :
  is_byte a -> is_byte b -> is_byte c -> t = a * 65536 + b * 256 + c ->
  Z.land (Z.shiftr t 16) 255 = a /\
  Z.land (Z.shiftr t 8) 255 = b /\ Z.land t 255 = c.
Proof.
  intros Ha Hb Hc ->. unfold is_byte in *.
  rewrite !shr_div by lia.
  rewrite !(land_mask _ 255 8) by done.
  change (2 ^ 16) with 65536; change (2 ^ 8) with 256.
  repeat split; zify_divmod.
Qed.

(** The induction scheme of the encoder: three bytes at a time. *)
Lemma list3_ind {A} (P : list A -> Prop) :
  P [] -> (forall a, P [a]) -> (forall a b, P [a; b]) ->
  (forall a b c l, P l -> P (a :: b :: c :: l)) -> forall l, P l.
Proof.
  intros H0 H1 H2 H3. fix IH 1.
  intros [|a [|b [|c l]]]; [apply H0|apply H1|apply H2|apply H3, IH].
Qed.

Lemma encode_chars_length src :
  zlen (encode_chars src) = 4 * ((zlen src + 2) / 3).
Proof.
  induction src as [| | |a b c l IH] using list3_ind; try reflexivity.
  cbn [encode_chars]. autorewrite with zlen. rewrite IH.
  replace (1 + (1 + (1 + zlen l)) + 2) with (zlen l + 2 + 1 * 3) by lia.
  rewrite Z.div_add by lia. lia.
Qed.

(** The encoder's three cases with its shifts and masks as arithmetic. *)
Lemma encode_chars_3 a b c l :
  is_byte a -> is_byte b -> is_byte c ->
  encode_chars (a :: b :: c :: l) =
  tbl (a / 4) :: tbl (a `mod` 4 * 16 + b / 16) :: tbl (b `mod` 16 * 4 + c / 64)
  :: tbl (c `mod` 64) :: encode_chars l.
Proof.
  intros Ha Hb Hc. cbn [encode_chars].
  by destruct (encode_group_split a b c Ha Hb Hc) as (-> & -> & -> & -> & _).
Qed.

Lemma encode_chars_2 a b :
  is_byte a -> is_byte b ->
  encode_chars [a; b] =
  [tbl (a / 4); tbl (a `mod` 4 * 16 + b / 16); tbl (b `mod` 16 * 4); pad].
Proof.
  intros Ha Hb. cbn [encode_chars].
  by destruct (encode_group_split a b b Ha Hb Hb) as (-> & -> & _ & _ & _ & ->).
Qed.

Lemma encode_chars_1 a :
  is_byte a -> encode_chars [a] = [tbl (a / 4); tbl (a `mod` 4 * 16); pad; pad].
Proof.
  intros Ha. cbn [encode_chars].
  by destruct (encode_group_split a a a Ha Ha Ha) as (-> & _ & _ & _ & -> & _).
Qed.

Ltac byte_cases H :=
  repeat (apply Forall_cons in H as [? H]);
  rewrite ?encode_chars_3, ?encode_chars_2, ?encode_chars_1 by assumption;
  unfold is_byte in *.

Lemma encode_chars_cstring src : bytes src -> cstring (encode_chars src).
Proof.
  assert (is_cchar pad) as Hpad by (unfold is_cchar, pad; lia).
  assert (forall i, 0 <= i < 64 -> is_cchar (tbl i)) as Ht
    by (intros i Hi; apply tbl_char, Hi).
  induction src as [|a|a b|a b c l IH] using list3_ind; intros H; byte_cases H;
    repeat (apply Forall_cons; split); auto; apply Ht; zify_divmod.
Qed.

(** Decoding an encoded text with an output budget of exactly the source
    length restores the source. *)
Lemma decode_loop_encode src j :
  bytes src -> decode_loop (encode_chars src) j (j + zlen src) = src.
Proof.
  revert j.
  induction src as [|a|a b|a b c l IH] using list3_ind; intros j H; [done|..];
    byte_cases H; cbn [decode_loop]; autorewrite with zlen.
  - destruct (group_bytes a 0 0 (triple (tbl (a / 4)) (tbl (a `mod` 4 * 16)) pad pad))
      as (E1 & _); [unfold is_byte; lia..| |].
    { rewrite (triple_digits (a / 4) (a `mod` 4 * 16) 0 0);
        rewrite ?sextet_tbl; try reflexivity; zify_divmod. }
    rewrite E1. by replace (Z.to_nat (j + (1 + 0) - j)) with 1%nat by lia.
  - destruct (group_bytes a b 0 (triple (tbl (a / 4)) (tbl (a `mod` 4 * 16 + b / 16))
               (tbl (b `mod` 16 * 4)) pad)) as (E1 & E2 & _); [unfold is_byte; lia..| |].
    { rewrite (triple_digits (a / 4) (a `mod` 4 * 16 + b / 16) (b `mod` 16 * 4) 0);
        rewrite ?sextet_tbl; try reflexivity; zify_divmod. }
    rewrite E1, E2. by replace (Z.to_nat (j + (1 + (1 + 0)) - j)) with 2%nat by lia.
  - destruct (group_bytes a b c (triple (tbl (a / 4)) (tbl (a `mod` 4 * 16 + b / 16))
               (tbl (b `mod` 16 * 4 + c / 64)) (tbl (c `mod` 64))))
      as (E1 & E2 & E3); [unfold is_byte; lia..| |].
    { rewrite (triple_digits (a / 4) (a `mod` 4 * 16 + b / 16)
                 (b `mod` 16 * 4 + c / 64) (c `mod` 64));
        rewrite ?sextet_tbl; try reflexivity; zify_divmod. }
    rewrite E1, E2, E3. pose proof (zlen_nonneg l).
    rewrite take_ge by (simpl; lia). cbn [app]. do 3 f_equal.
    autorewrite with zlen.
    transitivity (decode_loop (encode_chars l) (j + 3) (j + 3 + zlen l)); [f_equal; lia|].
    by apply IH.
Qed.

(** The padding of an encoded text tells the length of the source. *)
Definition padding (c : Z) : Z := if c =? pad then 1 else 0.

Lemma padding_tbl i : 0 <= i < 64 -> padding (tbl i) = 0.
Proof. intros H. unfold padding. destruct (tbl_char i H). by case_bool. Qed.

Lemma encode_chars_tail src :
  bytes src -> src <> [] ->
  exists l c2 c1, encode_chars src = l ++ [c2; c1] /\
    zlen src = zlen (encode_chars src) / 4 * 3 - padding c1 - padding c2.
Proof.
  induction src as [|a|a b|a b c l IH] using list3_ind; intros H Hne; [done|..];
    byte_cases H.
  - eexists [_; _], _, _. split; reflexivity.
  - eexists [_; _], _, _. split; [reflexivity|]. autorewrite with zlen.
    rewrite padding_tbl by zify_divmod. reflexivity.
  - destruct l as [|d l].
    + eexists [_; _], _, _. split; [reflexivity|]. cbn [encode_chars].
      autorewrite with zlen. rewrite !padding_tbl by zify_divmod. reflexivity.
    + destruct IH as (p & c2 & c1 & -> & E); [done..|].
      eexists (_ :: _ :: _ :: _ :: p), c2, c1. split; [reflexivity|].
      autorewrite with zlen in *. zify_divmod.
Qed.

Lemma decode_encode src :
  bytes src -> src <> [] ->
  str_base64_decode (encode_chars src) = Some (zlen src, src).
Proof.
  intros H Hne. destruct (encode_chars_tail src H Hne) as (l & c2 & c1 & E & Hlen).
  assert (buf_get (encode_chars src) (zlen (encode_chars src) - 1) = Some c1) as G1.
  { rewrite E. autorewrite with zlen.
    replace (zlen l + (1 + (1 + 0)) - 1) with (zlen l + 1) by lia.
    by rewrite buf_get_app_r by lia. }
  assert (buf_get (encode_chars src) (zlen (encode_chars src) - 2) = Some c2) as G2.
  { rewrite E. autorewrite with zlen.
    replace (zlen l + (1 + (1 + 0)) - 2) with (zlen l + 0) by lia.
    by rewrite buf_get_app_r by lia. }
  unfold str_base64_decode. rewrite G1, G2. cbn [mbind option_bind].
  rewrite encode_chars_length at 1. rewrite Z.mul_comm, Z.mod_mul by lia. simpl.
  assert ((if c2 =? pad
           then (if c1 =? pad then zlen (encode_chars src) / 4 * 3 - 1
                 else zlen (encode_chars src) / 4 * 3) - 1
           else if c1 =? pad then zlen (encode_chars src) / 4 * 3 - 1
                else zlen (encode_chars src) / 4 * 3) = 0 + zlen src) as ->
    by (unfold padding in Hlen; repeat case_bool).
  by rewrite decode_loop_encode.
Qed.

(** The buffer [write_cfg] allocates holds the encoding and its terminator. *)
Lemma encode_fits src : zlen (str_base64_encode_len src) <= encode_alloc (zlen src).
Proof.
  unfold str_base64_encode_len, encode_alloc. autorewrite with zlen.
  rewrite encode_chars_length. zify_divmod.
Qed.

(** [C40] For every non-empty byte string the encoder stores a NUL-terminated
    text that fits the buffer [write_cfg] allocates and that is again a C
    string, and decoding the text gives the source back. *)
Theorem base64_roundtrip src :
  bytes src -> src <> [] ->
  zlen (str_base64_encode_len src) <= encode_alloc (zlen src) /\
  exists text, buf_cstr (str_base64_encode_len src) = Some text /\
    str_base64_decode text = Some (zlen src, src).
Proof.
  intros H Hne. split; [apply encode_fits|]. exists (encode_chars src).
  split; [by apply buf_cstr_app, encode_chars_cstring|by apply decode_encode].
Qed.

Lemma base64_roundtrip_witness :
  str_base64_decode (str "AAEC/w==") = Some (4, [0; 1; 2; 255]).
Proof.
  destruct (base64_roundtrip [0; 1; 2; 255] ltac:(by_decide) ltac:(done)) as (_ & text & E & D).
  vm_compute in E. injection E as <-. exact D.
Defined.

End Wifi.

Module Smtp.

(** [smtp_base64_table]. *)
Definition smtp_base64_table : list Z :=
  str "ABCDEFGHIJKLMNOPQRSTUVWXYZabcdefghijklmnopqrstuvwxyz0123456789+/".

(** The variables the two nested loops share. *)
Record loop_state := LoopState {
  x : Z;
  current : Z;
  target_idx : Z;
  target : list Z
}.

(** One turn of the inner loop, for bit [j] of [b], its [x--] included. *)
Definition bit_step (b j : Z) (s : loop_state) : option loop_state :=
  let shift := if Z.land b (Z.shiftl 1 j) =? 0 then 0 else 1 in
  let cur := u8 (Z.lor (current s) (Z.shiftl shift (x s))) in
  if x s =? 0 then
    c ← buf_get smtp_base64_table cur;
    t ← buf_set (target s) (target_idx s) c;
    Some (LoopState (u8 (6 - 1)) 0 (u32 (target_idx s + 1)) t)
  else Some (LoopState (u8 (x s - 1)) cur (target_idx s) (target s)).

(** The inner loop [for (j = 7; j >= 0; j--, x--)]. *)
Definition byte_step (b : Z) (s : loop_state) : option loop_state :=
  foldl (fun o j => s ← o; bit_step b j s) (Some s) [7; 6; 5; 4; 3; 2; 1; 0].

(** The outer loop over [i = 0 .. source_len_b64 - 1]; the bytes past
    [source_len] read as 0. *)
Definition encode_loop (src : list Z) (s : loop_state) : option loop_state :=
  foldl (fun o b => s ← o; byte_step b s) (Some s) src.

(** [for (i = from; i < len; i++) target[i] = '=';] as [n] turns. *)
Fixpoint pad_loop (n : nat) (i : Z) (t : list Z) : option (list Z) :=
  match n with
  | O => Some t
  | S n => t' ← buf_set t i 61; pad_loop n (i + 1) t'
  end.

Definition longer (source_len : Z) : Z :=
  if 3 - source_len `mod` 3 =? 3 then 0 else 3 - source_len `mod` 3.

Definition encoded_len (source_len : Z) : Z :=
  u32 (u32 (source_len + longer source_len) * 4) / 3.

(** [smtp_base64_encode]: the returned length and the final contents of
    [target]. *)
Definition smtp_base64_encode (target : list Z) (target_len : Z) (source : list Z)
  : option (Z * list Z) :=
  let source_len := zlen source in
  let lng := longer source_len in
  let len := encoded_len source_len in
  if target_len <? len then Some (0, target)
  else
    s ← encode_loop (source ++ replicate (Z.to_nat lng) 0) (LoopState 5 0 0 target);
    t ← pad_loop (Z.to_nat lng) (len - lng) (Smtp.target s);
    Some (len, t).

(** ** The inner loop, one byte at a time *)

(** The characters a byte completes and the partial digit it leaves. *)
Fixpoint bits_core (b : Z) (js : list Z) (x cur : Z) : list Z * Z * Z :=
  match js with
  | [] => ([], x, cur)
  | j :: js =>
      let shift := if Z.land b (Z.shiftl 1 j) =? 0 then 0 else 1 in
      let cur := u8 (Z.lor cur (Z.shiftl shift x)) in
      if x =? 0 then
        let '(out, x', cur') := bits_core b js (u8 (6 - 1)) 0 in (cur :: out, x', cur')
      else bits_core b js (u8 (x - 1)) cur
  end.

Abbreviation byte_bits := [7; 6; 5; 4; 3; 2; 1; 0].

Lemma table_get i : 0 <= i < 64 -> buf_get smtp_base64_table i = Some (Wifi.tbl i).
Proof.
  apply (forall_range_eq (buf_get smtp_base64_table) (fun i => Some (Wifi.tbl i)) 64).
  by vm_compute.
Qed.

(** Running the inner loop at the boundary of the written prefix [p]. *)
Lemma bits_run b js x cur out x' cur' p w s :
  bits_core b js x cur = (out, x', cur') ->
  Forall (fun d => 0 <= d < 64) out -> length w = length out ->
  zlen p + zlen out < 2 ^ 32 ->
  foldl (fun o j => s ← o; bit_step b j s)
    (Some (LoopState x cur (zlen p) (p ++ w ++ s))) js =
  Some (LoopState x' cur' (zlen p + zlen out) ((p ++ map Wifi.tbl out) ++ s)).
Proof.
  revert x cur out p w. induction js as [|j js IH]; intros x cur out p w; simpl.
  - intros [= <- <- <-] _ Hw _. destruct w; [|done].
    rewrite zlen_nil, Z.add_0_r, app_nil_r. done.
  - unfold bit_step at 2. simpl.
    destruct (Z.eqb_spec x 0).
    + destruct (bits_core b js (u8 (6 - 1)) 0) as [[out1 x1] cur1] eqn:E.
      intros [= <- <- <-] Hout Hw Hlen.
      apply Forall_cons in Hout as [Hd Hout].
      destruct w as [|o w]; [done|]. simpl in Hw. autorewrite with zlen in Hlen.
      pose proof (zlen_nonneg p). pose proof (zlen_nonneg out1).
      rewrite table_get by done. simpl. rewrite buf_set_next. simpl.
      rewrite u32_id by lia.
      replace (zlen p + 1) with (zlen (p ++ [Wifi.tbl (u8 (Z.lor cur (Z.shiftl
        (if Z.land b (Z.shiftl 1 j) =? 0 then 0 else 1) x)))]))
        by (autorewrite with zlen; lia).
      rewrite (IH _ _ out1 _ w E Hout); [|lia|autorewrite with zlen; lia].
      f_equal. f_equal; [autorewrite with zlen; lia|].
      simpl. by rewrite <- !app_assoc.
    + intros E Hout Hw Hlen. by apply IH.
Qed.

(** The three positions a byte can take in a group, checked on every byte. *)
Lemma byte_first a :
  is_byte a -> bits_core a byte_bits 5 0 = ([a / 4], 3, a `mod` 4 * 16).
Proof.
  apply (forall_range_eq (fun a => bits_core a byte_bits 5 0)
    (fun a => ([a / 4], 3, a `mod` 4 * 16)) 256).
  by vm_compute.
Qed.

Lemma byte_second q b :
  0 <= q < 4 -> is_byte b ->
  bits_core b byte_bits 3 (q * 16) = ([q * 16 + b / 16], 1, b `mod` 16 * 4).
Proof.
  apply (forall_range_eq2 (fun q b => bits_core b byte_bits 3 (q * 16))
    (fun q b => ([q * 16 + b / 16], 1, b `mod` 16 * 4)) 4 256).
  by vm_compute.
Qed.

Lemma byte_third q c :
  0 <= q < 16 -> is_byte c ->
  bits_core c byte_bits 1 (q * 4) = ([q * 4 + c / 64; c `mod` 64], 5, 0).
Proof.
  apply (forall_range_eq2 (fun q c => bits_core c byte_bits 1 (q * 4))
    (fun q c => ([q * 4 + c / 64; c `mod` 64], 5, 0)) 16 256).
  by vm_compute.
Qed.

Lemma byte_run b x cur out x' cur' p w s :
  bits_core b byte_bits x cur = (out, x', cur') ->
  Forall (fun d => 0 <= d < 64) out -> length w = length out ->
  zlen p + zlen out < 2 ^ 32 ->
  byte_step b (LoopState x cur (zlen p) (p ++ w ++ s)) =
  Some (LoopState x' cur' (zlen (p ++ map Wifi.tbl out)) ((p ++ map Wifi.tbl out) ++ s)).
Proof.
  intros E Hout Hw Hp. unfold byte_step. rewrite (bits_run _ _ _ _ _ _ _ _ _ _ E) by done.
  rewrite zlen_app. unfold zlen. by rewrite length_map.
Qed.

Local Ltac side :=
  first [ done | autorewrite with zlen; lia | repeat constructor; zify_divmod ].

(** One group of three bytes fills the next four places of the target. *)
Lemma group_run a b c p w s :
  is_byte a -> is_byte b -> is_byte c -> length w = 4%nat -> zlen p + 4 < 2 ^ 32 ->
  encode_loop [a; b; c] (LoopState 5 0 (zlen p) (p ++ w ++ s)) =
  Some (LoopState 5 0 (zlen (p ++ Wifi.encode_chars [a; b; c]))
          ((p ++ Wifi.encode_chars [a; b; c]) ++ s)).
Proof.
  intros Ha Hb Hc Hw Hp. rewrite Wifi.encode_chars_3 by done.
  destruct w as [|w1 [|w2 [|w3 [|w4 []]]]]; try done. unfold is_byte in *.
  pose proof (byte_run a _ _ _ _ _ p [w1] ([w2; w3; w4] ++ s) (byte_first a Ha)) as E1.
  pose proof (byte_run b _ _ _ _ _ (p ++ [Wifi.tbl (a / 4)]) [w2] ([w3; w4] ++ s)
    (byte_second (a `mod` 4) b ltac:(zify_divmod) Hb)) as E2.
  pose proof (byte_run c _ _ _ _ _
    ((p ++ [Wifi.tbl (a / 4)]) ++ [Wifi.tbl (a `mod` 4 * 16 + b / 16)]) [w3; w4] s
    (byte_third (b `mod` 16) c ltac:(zify_divmod) Hc)) as E3.
  cbn [map app] in E1, E2, E3.
  unfold encode_loop. cbn [foldl mbind option_bind app].
  rewrite E1 by side.
  cbn [mbind option_bind].
  rewrite E2 by side.
  cbn [mbind option_bind].
  rewrite E3 by side.
  cbn [mbind option_bind Wifi.encode_chars]. by rewrite <- !app_assoc.
Qed.

Lemma encode_loop_app l1 l2 s :
  encode_loop (l1 ++ l2) s = (s' ← encode_loop l1 s; encode_loop l2 s').
Proof.
  unfold encode_loop. rewrite foldl_app.
  destruct (foldl _ (Some s) l1); simpl; [done|]. by induction l2.
Qed.

(** The outer loop over a multiple of three bytes. *)
Lemma encode_loop_groups src p w s :
  bytes src -> zlen src `mod` 3 = 0 -> length w = length (Wifi.encode_chars src) ->
  zlen p + zlen w < 2 ^ 32 ->
  encode_loop src (LoopState 5 0 (zlen p) (p ++ w ++ s)) =
  Some (LoopState 5 0 (zlen (p ++ Wifi.encode_chars src))
          ((p ++ Wifi.encode_chars src) ++ s)).
Proof.
  revert p w. induction src as [|a|a b|a b c l IH] using Wifi.list3_ind;
    intros p w H Hmod Hw Hp; try done.
  - destruct w; [|done]. cbn. by rewrite app_nil_r.
  - repeat (apply Forall_cons in H as [? H]).
    destruct w as [|w1 [|w2 [|w3 [|w4 w]]]]; try done. autorewrite with zlen in *.
    pose proof (zlen_nonneg p). pose proof (zlen_nonneg w).
    change (a :: b :: c :: l) with ([a; b; c] ++ l). rewrite encode_loop_app.
    change (p ++ (w1 :: w2 :: w3 :: w4 :: w) ++ s)
      with (p ++ [w1; w2; w3; w4] ++ (w ++ s)).
    rewrite group_run by (done || lia). cbn [mbind option_bind]. rewrite IH.
    + change (Wifi.encode_chars ([a; b; c] ++ l))
        with (Wifi.encode_chars [a; b; c] ++ Wifi.encode_chars l).
      by rewrite !zlen_app, <- !app_assoc, !Z.add_assoc.
    + done.
    + rewrite <- Hmod. zify_divmod.
    + simpl in Hw. lia.
    + rewrite zlen_app. change (zlen (Wifi.encode_chars [a; b; c])) with 4. lia.
Qed.

Lemma longer_group n : longer (1 + (1 + (1 + n))) = longer n.
Proof.
  unfold longer. replace (1 + (1 + (1 + n))) with (n + 1 * 3) by lia.
  by rewrite Z.mod_add.
Qed.

(** Padding a text to a multiple of three bytes changes only the characters
    the final loop overwrites. *)
Lemma encode_padded src :
  exists q w, Wifi.encode_chars (src ++ replicate (Z.to_nat (longer (zlen src))) 0) = q ++ w
    /\ length w = Z.to_nat (longer (zlen src))
    /\ Wifi.encode_chars src = q ++ replicate (Z.to_nat (longer (zlen src))) 61.
Proof.
  induction src as [|a|a b|a b c l IH] using Wifi.list3_ind.
  - by exists [], [].
  - exists [Wifi.tbl (Z.shiftr a 2); Wifi.tbl (Z.shiftl (Z.land a 3) 4)],
      [Wifi.tbl 0; Wifi.tbl 0]. split; [|done].
    change (Wifi.encode_chars _) with [Wifi.tbl (Z.shiftr a 2);
      Wifi.tbl (Z.lor (Z.shiftl (Z.land a 3) 4) 0); Wifi.tbl 0; Wifi.tbl 0].
    by rewrite Z.lor_0_r.
  - exists (take 3 (Wifi.encode_chars [a; b])), [Wifi.tbl 0]. split; [|done].
    transitivity (take 2 (Wifi.encode_chars [a; b]) ++
      [Wifi.tbl (Z.lor (Z.shiftl (Z.land b 15) 2) 0); Wifi.tbl 0]); [done|].
    by rewrite Z.lor_0_r.
  - destruct IH as (q & w & E1 & Hw & E2). autorewrite with zlen. rewrite longer_group.
    eexists (_ :: _ :: _ :: _ :: q), w. cbn [app Wifi.encode_chars]. by rewrite E1, E2.
Qed.

Lemma pad_loop_run n p w s :
  length w = n -> pad_loop n (zlen p) (p ++ w ++ s) = Some (p ++ replicate n 61 ++ s).
Proof.
  revert p w. induction n as [|n IH]; intros p w Hw; [by destruct w|].
  destruct w as [|o w]; [done|]. injection Hw as Hw.
  cbn [pad_loop app]. rewrite buf_set_next. cbn [mbind option_bind].
  replace (zlen p + 1) with (zlen (p ++ [61])) by (autorewrite with zlen; lia).
  rewrite IH by done. by rewrite <- app_assoc.
Qed.

Lemma encoded_len_chars src :
  zlen src < 2 ^ 30 - 2 -> encoded_len (zlen src) = zlen (Wifi.encode_chars src).
Proof.
  intros H. pose proof (zlen_nonneg src). rewrite Wifi.encode_chars_length.
  unfold encoded_len, longer. rewrite (u32_id (zlen src + _)) by (case_bool; zify_divmod).
  rewrite u32_id by (case_bool; zify_divmod). case_bool; zify_divmod.
Qed.

Lemma smtp_encode_run (tgt : list Z) (target_len : Z) (source : list Z) :
  bytes source -> zlen source < 2 ^ 30 - 2 -> target_len <= zlen tgt ->
  smtp_base64_encode tgt target_len source =
  let enc := Wifi.encode_chars source in
  if target_len <? zlen enc then Some (0, tgt)
  else Some (zlen enc, enc ++ drop (length enc) tgt).
Proof.
  intros Hb Hlen Ht. unfold smtp_base64_encode. rewrite encoded_len_chars by done.
  cbv zeta. case_bool.
  destruct (encode_padded source) as (q & w & E1 & Hw & E2).
  set (n := longer (zlen source)) in *.
  assert (length (q ++ w) = length (Wifi.encode_chars source)) as Hl
    by (rewrite E2, !length_app, length_replicate; lia).
  assert (length (Wifi.encode_chars source) <= length tgt)%nat by (unfold zlen in *; lia).
  pose proof (Wifi.encode_chars_length source) as Hz. pose proof (zlen_nonneg source).
  assert (Hn : n = 0 \/ n = 3 - zlen source `mod` 3) by (unfold n, longer; case_bool; lia).
  pose proof (encode_loop_groups (source ++ replicate (Z.to_nat n) 0) []
    (take (length (q ++ w)) tgt) (drop (length (q ++ w)) tgt)) as Hrun.
  cbn [app] in Hrun. rewrite take_drop, E1 in Hrun. change (zlen []) with 0 in Hrun.
  rewrite Hrun; clear Hrun.
  - cbn [mbind option_bind]. rewrite <- app_assoc.
    replace (zlen (Wifi.encode_chars source) - n) with (zlen q)
      by (rewrite E2, zlen_app; unfold zlen; rewrite length_replicate; unfold n, longer in *;
          case_bool; zify_divmod).
    cbn [target]. rewrite pad_loop_run by done. cbn [mbind option_bind].
    by rewrite app_assoc, <- E2, Hl.
  - apply Forall_app; split; [done|]. apply Forall_replicate. unfold is_byte; lia.
  - rewrite zlen_app. unfold zlen at 2. rewrite length_replicate.
    unfold n, longer. case_bool; zify_divmod.
  - rewrite length_take. lia.
  - unfold zlen in *. rewrite length_take. zify_divmod.
Qed.

(** The bit-serial encoder of the mail client stores exactly the text the
    table-driven encoder produces, which decodes to the source again, leaves
    the rest of the target alone and returns the length of the text; it refuses
    a short target by returning 0 without writing. *)
Theorem smtp_base64_encode_spec (tgt : list Z) (target_len : Z) (source : list Z) :
  bytes source -> source <> [] -> zlen source < 2 ^ 30 - 2 -> target_len <= zlen tgt ->
  exists enc, Wifi.str_base64_decode enc = Some (zlen source, source) /\
    smtp_base64_encode tgt target_len source =
      if target_len <? zlen enc then Some (0, tgt)
      else Some (zlen enc, enc ++ drop (length enc) tgt).
Proof.
  intros Hb Hne Hlen Ht. exists (Wifi.encode_chars source).
  split; [by apply Wifi.decode_encode|by apply smtp_encode_run].
Qed.

Lemma smtp_base64_encode_spec_witness :
  exists enc, Wifi.str_base64_decode enc = Some (5, str "admin") /\
    smtp_base64_encode (replicate 100 0) 100 (str "admin")
      = Some (zlen enc, enc ++ drop (length enc) (replicate 100 0)).
Proof.
  destruct (smtp_base64_encode_spec (replicate 100 0) 100 (str "admin")) as (enc & D & E);
    [by_decide|done|by_decide|by_decide|]. exists enc. split; [exact D|].
  rewrite E. destruct (100 <? zlen enc) eqn:Hb; [|reflexivity]. exfalso.
  assert (fst <$> smtp_base64_encode (replicate 100 0) 100 (str "admin") = Some 8) as E'
    by (vm_compute; reflexivity).
  rewrite E in E'. discriminate E'.
Defined.

End Smtp.
