(* ===== verification/Crc32.v ===== *)
(** * CRC-32: the checksums of the image tool and of the flash environment

    [MakeFalCrc] models src/tools/make_fal/crc32.c, [EfCrc] models
    src/packages/EasyFlash-v3.3.0/src/ef_utils.c.  Both are table driven; the
    theorems show that the tables are those of the reflected polynomial
    0xEDB88320, that each routine computes the bit-serial checksum, that the
    two routines agree, that a checksum can be computed piecewise, and that
    no corruption confined to four consecutive bytes goes unnoticed. *)

From S2P Require Import Prelude.

Local Open Scope Z_scope.

Module MakeFalCrc.

Definition crc32c_table : list Z :=
  [
   0x00000000; 0x77073096; 0xee0e612c; 0x990951ba; 0x076dc419; 0x706af48f;
   0xe963a535; 0x9e6495a3; 0x0edb8832; 0x79dcb8a4; 0xe0d5e91e; 0x97d2d988;
   0x09b64c2b; 0x7eb17cbd; 0xe7b82d07; 0x90bf1d91; 0x1db71064; 0x6ab020f2;
   0xf3b97148; 0x84be41de; 0x1adad47d; 0x6ddde4eb; 0xf4d4b551; 0x83d385c7;
   0x136c9856; 0x646ba8c0; 0xfd62f97a; 0x8a65c9ec; 0x14015c4f; 0x63066cd9;
   0xfa0f3d63; 0x8d080df5; 0x3b6e20c8; 0x4c69105e; 0xd56041e4; 0xa2677172;
   0x3c03e4d1; 0x4b04d447; 0xd20d85fd; 0xa50ab56b; 0x35b5a8fa; 0x42b2986c;
   0xdbbbc9d6; 0xacbcf940; 0x32d86ce3; 0x45df5c75; 0xdcd60dcf; 0xabd13d59;
   0x26d930ac; 0x51de003a; 0xc8d75180; 0xbfd06116; 0x21b4f4b5; 0x56b3c423;
   0xcfba9599; 0xb8bda50f; 0x2802b89e; 0x5f058808; 0xc60cd9b2; 0xb10be924;
   0x2f6f7c87; 0x58684c11; 0xc1611dab; 0xb6662d3d; 0x76dc4190; 0x01db7106;
   0x98d220bc; 0xefd5102a; 0x71b18589; 0x06b6b51f; 0x9fbfe4a5; 0xe8b8d433;
   0x7807c9a2; 0x0f00f934; 0x9609a88e; 0xe10e9818; 0x7f6a0dbb; 0x086d3d2d;
   0x91646c97; 0xe6635c01; 0x6b6b51f4; 0x1c6c6162; 0x856530d8; 0xf262004e;
   0x6c0695ed; 0x1b01a57b; 0x8208f4c1; 0xf50fc457; 0x65b0d9c6; 0x12b7e950;
   0x8bbeb8ea; 0xfcb9887c; 0x62dd1ddf; 0x15da2d49; 0x8cd37cf3; 0xfbd44c65;
   0x4db26158; 0x3ab551ce; 0xa3bc0074; 0xd4bb30e2; 0x4adfa541; 0x3dd895d7;
   0xa4d1c46d; 0xd3d6f4fb; 0x4369e96a; 0x346ed9fc; 0xad678846; 0xda60b8d0;
   0x44042d73; 0x33031de5; 0xaa0a4c5f; 0xdd0d7cc9; 0x5005713c; 0x270241aa;
   0xbe0b1010; 0xc90c2086; 0x5768b525; 0x206f85b3; 0xb966d409; 0xce61e49f;
   0x5edef90e; 0x29d9c998; 0xb0d09822; 0xc7d7a8b4; 0x59b33d17; 0x2eb40d81;
   0xb7bd5c3b; 0xc0ba6cad; 0xedb88320; 0x9abfb3b6; 0x03b6e20c; 0x74b1d29a;
   0xead54739; 0x9dd277af; 0x04db2615; 0x73dc1683; 0xe3630b12; 0x94643b84;
   0x0d6d6a3e; 0x7a6a5aa8; 0xe40ecf0b; 0x9309ff9d; 0x0a00ae27; 0x7d079eb1;
   0xf00f9344; 0x8708a3d2; 0x1e01f268; 0x6906c2fe; 0xf762575d; 0x806567cb;
   0x196c3671; 0x6e6b06e7; 0xfed41b76; 0x89d32be0; 0x10da7a5a; 0x67dd4acc;
   0xf9b9df6f; 0x8ebeeff9; 0x17b7be43; 0x60b08ed5; 0xd6d6a3e8; 0xa1d1937e;
   0x38d8c2c4; 0x4fdff252; 0xd1bb67f1; 0xa6bc5767; 0x3fb506dd; 0x48b2364b;
   0xd80d2bda; 0xaf0a1b4c; 0x36034af6; 0x41047a60; 0xdf60efc3; 0xa867df55;
   0x316e8eef; 0x4669be79; 0xcb61b38c; 0xbc66831a; 0x256fd2a0; 0x5268e236;
   0xcc0c7795; 0xbb0b4703; 0x220216b9; 0x5505262f; 0xc5ba3bbe; 0xb2bd0b28;
   0x2bb45a92; 0x5cb36a04; 0xc2d7ffa7; 0xb5d0cf31; 0x2cd99e8b; 0x5bdeae1d;
   0x9b64c2b0; 0xec63f226; 0x756aa39c; 0x026d930a; 0x9c0906a9; 0xeb0e363f;
   0x72076785; 0x05005713; 0x95bf4a82; 0xe2b87a14; 0x7bb12bae; 0x0cb61b38;
   0x92d28e9b; 0xe5d5be0d; 0x7cdcefb7; 0x0bdbdf21; 0x86d3d2d4; 0xf1d4e242;
   0x68ddb3f8; 0x1fda836e; 0x81be16cd; 0xf6b9265b; 0x6fb077e1; 0x18b74777;
   0x88085ae6; 0xff0f6a70; 0x66063bca; 0x11010b5c; 0x8f659eff; 0xf862ae69;
   0x616bffd3; 0x166ccf45; 0xa00ae278; 0xd70dd2ee; 0x4e048354; 0x3903b3c2;
   0xa7672661; 0xd06016f7; 0x4969474d; 0x3e6e77db; 0xaed16a4a; 0xd9d65adc;
   0x40df0b66; 0x37d83bf0; 0xa9bcae53; 0xdebb9ec5; 0x47b2cf7f; 0x30b5ffe9;
   0xbdbdf21c; 0xcabac28a; 0x53b39330; 0x24b4a3a6; 0xbad03605; 0xcdd70693;
   0x54de5729; 0x23d967bf; 0xb3667a2e; 0xc4614ab8; 0x5d681b02; 0x2a6f2b94;
   0xb40bbe37; 0xc30c8ea1; 0x5a05df1b; 0x2d02ef8d
  ].

(** [struct crc32_cfg]. *)
Record crc32_cfg := Crc32Cfg { val : Z; xorout : Z; flags : Z }.

(** One turn of [while (len--)]. *)
Definition crc32_step (value b : Z) : Z :=
  Z.lxor (nth (Z.to_nat (Z.land (Z.lxor value b) 255)) crc32c_table 0)
         (Z.shiftr value 8).

(** [crc32]: the result and the updated configuration. *)
Definition crc32 (cfg : crc32_cfg) (buff : list Z) : Z * crc32_cfg :=
  let value := foldl crc32_step (val cfg) buff in
  (Z.lxor value (xorout cfg), Crc32Cfg value (xorout cfg) (flags cfg)).

End MakeFalCrc.

Module EfCrc.

Definition crc32_table : list Z :=
  [
   0x00000000; 0x77073096; 0xee0e612c; 0x990951ba; 0x076dc419; 0x706af48f;
   0xe963a535; 0x9e6495a3; 0x0edb8832; 0x79dcb8a4; 0xe0d5e91e; 0x97d2d988;
   0x09b64c2b; 0x7eb17cbd; 0xe7b82d07; 0x90bf1d91; 0x1db71064; 0x6ab020f2;
   0xf3b97148; 0x84be41de; 0x1adad47d; 0x6ddde4eb; 0xf4d4b551; 0x83d385c7;
   0x136c9856; 0x646ba8c0; 0xfd62f97a; 0x8a65c9ec; 0x14015c4f; 0x63066cd9;
   0xfa0f3d63; 0x8d080df5; 0x3b6e20c8; 0x4c69105e; 0xd56041e4; 0xa2677172;
   0x3c03e4d1; 0x4b04d447; 0xd20d85fd; 0xa50ab56b; 0x35b5a8fa; 0x42b2986c;
   0xdbbbc9d6; 0xacbcf940; 0x32d86ce3; 0x45df5c75; 0xdcd60dcf; 0xabd13d59;
   0x26d930ac; 0x51de003a; 0xc8d75180; 0xbfd06116; 0x21b4f4b5; 0x56b3c423;
   0xcfba9599; 0xb8bda50f; 0x2802b89e; 0x5f058808; 0xc60cd9b2; 0xb10be924;
   0x2f6f7c87; 0x58684c11; 0xc1611dab; 0xb6662d3d; 0x76dc4190; 0x01db7106;
   0x98d220bc; 0xefd5102a; 0x71b18589; 0x06b6b51f; 0x9fbfe4a5; 0xe8b8d433;
   0x7807c9a2; 0x0f00f934; 0x9609a88e; 0xe10e9818; 0x7f6a0dbb; 0x086d3d2d;
   0x91646c97; 0xe6635c01; 0x6b6b51f4; 0x1c6c6162; 0x856530d8; 0xf262004e;
   0x6c0695ed; 0x1b01a57b; 0x8208f4c1; 0xf50fc457; 0x65b0d9c6; 0x12b7e950;
   0x8bbeb8ea; 0xfcb9887c; 0x62dd1ddf; 0x15da2d49; 0x8cd37cf3; 0xfbd44c65;
   0x4db26158; 0x3ab551ce; 0xa3bc0074; 0xd4bb30e2; 0x4adfa541; 0x3dd895d7;
   0xa4d1c46d; 0xd3d6f4fb; 0x4369e96a; 0x346ed9fc; 0xad678846; 0xda60b8d0;
   0x44042d73; 0x33031de5; 0xaa0a4c5f; 0xdd0d7cc9; 0x5005713c; 0x270241aa;
   0xbe0b1010; 0xc90c2086; 0x5768b525; 0x206f85b3; 0xb966d409; 0xce61e49f;
   0x5edef90e; 0x29d9c998; 0xb0d09822; 0xc7d7a8b4; 0x59b33d17; 0x2eb40d81;
   0xb7bd5c3b; 0xc0ba6cad; 0xedb88320; 0x9abfb3b6; 0x03b6e20c; 0x74b1d29a;
   0xead54739; 0x9dd277af; 0x04db2615; 0x73dc1683; 0xe3630b12; 0x94643b84;
   0x0d6d6a3e; 0x7a6a5aa8; 0xe40ecf0b; 0x9309ff9d; 0x0a00ae27; 0x7d079eb1;
   0xf00f9344; 0x8708a3d2; 0x1e01f268; 0x6906c2fe; 0xf762575d; 0x806567cb;
   0x196c3671; 0x6e6b06e7; 0xfed41b76; 0x89d32be0; 0x10da7a5a; 0x67dd4acc;
   0xf9b9df6f; 0x8ebeeff9; 0x17b7be43; 0x60b08ed5; 0xd6d6a3e8; 0xa1d1937e;
   0x38d8c2c4; 0x4fdff252; 0xd1bb67f1; 0xa6bc5767; 0x3fb506dd; 0x48b2364b;
   0xd80d2bda; 0xaf0a1b4c; 0x36034af6; 0x41047a60; 0xdf60efc3; 0xa867df55;
   0x316e8eef; 0x4669be79; 0xcb61b38c; 0xbc66831a; 0x256fd2a0; 0x5268e236;
   0xcc0c7795; 0xbb0b4703; 0x220216b9; 0x5505262f; 0xc5ba3bbe; 0xb2bd0b28;
   0x2bb45a92; 0x5cb36a04; 0xc2d7ffa7; 0xb5d0cf31; 0x2cd99e8b; 0x5bdeae1d;
   0x9b64c2b0; 0xec63f226; 0x756aa39c; 0x026d930a; 0x9c0906a9; 0xeb0e363f;
   0x72076785; 0x05005713; 0x95bf4a82; 0xe2b87a14; 0x7bb12bae; 0x0cb61b38;
   0x92d28e9b; 0xe5d5be0d; 0x7cdcefb7; 0x0bdbdf21; 0x86d3d2d4; 0xf1d4e242;
   0x68ddb3f8; 0x1fda836e; 0x81be16cd; 0xf6b9265b; 0x6fb077e1; 0x18b74777;
   0x88085ae6; 0xff0f6a70; 0x66063bca; 0x11010b5c; 0x8f659eff; 0xf862ae69;
   0x616bffd3; 0x166ccf45; 0xa00ae278; 0xd70dd2ee; 0x4e048354; 0x3903b3c2;
   0xa7672661; 0xd06016f7; 0x4969474d; 0x3e6e77db; 0xaed16a4a; 0xd9d65adc;
   0x40df0b66; 0x37d83bf0; 0xa9bcae53; 0xdebb9ec5; 0x47b2cf7f; 0x30b5ffe9;
   0xbdbdf21c; 0xcabac28a; 0x53b39330; 0x24b4a3a6; 0xbad03605; 0xcdd70693;
   0x54de5729; 0x23d967bf; 0xb3667a2e; 0xc4614ab8; 0x5d681b02; 0x2a6f2b94;
   0xb40bbe37; 0xc30c8ea1; 0x5a05df1b; 0x2d02ef8d
  ].

Definition ef_step (crc b : Z) : Z :=
  Z.lxor (nth (Z.to_nat (Z.land (Z.lxor crc b) 255)) crc32_table 0)
         (Z.shiftr crc 8).

(** [ef_calc_crc32]: [~0U] is the 32-bit all-ones word. *)
Definition ef_calc_crc32 (crc : Z) (buf : list Z) : Z :=
  Z.lxor (foldl ef_step (Z.lxor crc 0xffffffff) buf) 0xffffffff.

End EfCrc.

(** ** The bit-serial reference *)
Module CrcSpec.

Definition poly : Z := 0xEDB88320.

(** One shift of the reflected register. *)
Definition shift1 (c : Z) : Z :=
  if Z.odd c then Z.lxor (Z.shiftr c 1) poly else Z.shiftr c 1.

Definition byte_step (c b : Z) : Z := Nat.iter 8 shift1 (Z.lxor c b).

Definition crc_bits (c : Z) (buf : list Z) : Z := foldl byte_step c buf.

Lemma shift1_lxor a b : shift1 (Z.lxor a b) = Z.lxor (shift1 a) (shift1 b).
Proof.
  unfold shift1. rewrite <- !Z.bit0_odd, Z.lxor_spec, Z.shiftr_lxor.
  destruct (Z.testbit a 0), (Z.testbit b 0); simpl;
    apply Z.bits_inj'; intros n Hn; rewrite !Z.lxor_spec;
    destruct (Z.testbit (Z.shiftr a 1) n), (Z.testbit (Z.shiftr b 1) n),
      (Z.testbit poly n); reflexivity.
Qed.

Lemma iter_lxor n a b :
  Nat.iter n shift1 (Z.lxor a b) = Z.lxor (Nat.iter n shift1 a) (Nat.iter n shift1 b).
Proof. induction n as [|n IH]; simpl; [done|]. by rewrite IH, shift1_lxor. Qed.

Lemma shift1_even y : shift1 (Z.shiftl y 1) = y.
Proof.
  unfold shift1. rewrite Z.shiftl_mul_pow2 by lia. change (2 ^ 1) with 2.
  rewrite Z.mul_comm, Z.odd_mul. simpl.
  rewrite Z.shiftr_div_pow2 by lia. rewrite Z.mul_comm. by apply Z.div_mul.
Qed.

(** Zero low bits only shift out. *)
Lemma iter_shiftl n y : Nat.iter n shift1 (Z.shiftl y (Z.of_nat n)) = y.
Proof.
  revert y. induction n as [|n IH]; intros y; [by rewrite Z.shiftl_0_r|].
  rewrite Nat2Z.inj_succ, Nat.iter_succ_r.
  replace (Z.succ (Z.of_nat n)) with (Z.of_nat n + 1) by lia.
  rewrite <- Z.shiftl_shiftl by lia. rewrite shift1_even. apply IH.
Qed.

(** Splitting a register into its low byte and the rest. *)
Lemma split_low v : v = Z.lxor (Z.land v 255) (Z.shiftl (Z.shiftr v 8) 8).
Proof.
  apply Z.bits_inj'. intros n Hn.
  rewrite Z.lxor_spec, Z.land_spec, Z.shiftl_spec by lia.
  change 255 with (Z.ones 8).
  destruct (Z.lt_ge_cases n 8).
  - rewrite Z.ones_spec_low by lia. rewrite (Z.testbit_neg_r _ (n - 8)) by lia.
    by rewrite andb_true_r, xorb_false_r.
  - rewrite Z.ones_spec_high by lia. rewrite Z.shiftr_spec by lia.
    rewrite andb_false_r, xorb_false_l. f_equal. lia.
Qed.

Lemma iter8_split v :
  Nat.iter 8 shift1 v = Z.lxor (Nat.iter 8 shift1 (Z.land v 255)) (Z.shiftr v 8).
Proof.
  rewrite (split_low v) at 1. rewrite iter_lxor. f_equal.
  exact (iter_shiftl 8 (Z.shiftr v 8)).
Qed.

Lemma shiftr_byte b : is_byte b -> Z.shiftr b 8 = 0.
Proof. intros H. rewrite shr_div by lia. apply Z.div_small. unfold is_byte in H. lia. Qed.

Lemma land255_range v : 0 <= Z.land v 255 < 256.
Proof. rewrite (land_mask v 255 8) by done. apply Z.mod_pos_bound. lia. Qed.

(** A table that holds the shifted bytes performs eight shifts at once. *)
Lemma table_step (table : list Z) v b :
  (forall i, is_byte i -> nth (Z.to_nat i) table 0 = Nat.iter 8 shift1 i) ->
  is_byte b ->
  Z.lxor (nth (Z.to_nat (Z.land (Z.lxor v b) 255)) table 0) (Z.shiftr v 8) = byte_step v b.
Proof.
  intros Htab Hb. unfold byte_step. rewrite iter8_split, Z.shiftr_lxor, (shiftr_byte b) by done.
  rewrite Z.lxor_0_r, Htab; [done|]. apply land255_range.
Qed.

Lemma mf_table_ok i :
  is_byte i -> nth (Z.to_nat i) MakeFalCrc.crc32c_table 0 = Nat.iter 8 shift1 i.
Proof.
  apply (forall_range_eq (fun i => nth (Z.to_nat i) MakeFalCrc.crc32c_table 0)
    (fun i => Nat.iter 8 shift1 i) 256). by vm_compute.
Qed.

Lemma ef_table_ok i :
  is_byte i -> nth (Z.to_nat i) EfCrc.crc32_table 0 = Nat.iter 8 shift1 i.
Proof.
  apply (forall_range_eq (fun i => nth (Z.to_nat i) EfCrc.crc32_table 0)
    (fun i => Nat.iter 8 shift1 i) 256). by vm_compute.
Qed.

Lemma mf_fold c buf :
  bytes buf -> foldl MakeFalCrc.crc32_step c buf = crc_bits c buf.
Proof.
  intros H. revert c. induction H as [|b buf Hb H IH]; intros c; [done|].
  cbn [foldl crc_bits]. unfold MakeFalCrc.crc32_step at 2.
  rewrite table_step by (done || apply mf_table_ok). apply IH.
Qed.

Lemma ef_fold c buf : bytes buf -> foldl EfCrc.ef_step c buf = crc_bits c buf.
Proof.
  intros H. revert c. induction H as [|b buf Hb H IH]; intros c; [done|].
  cbn [foldl crc_bits]. unfold EfCrc.ef_step at 2.
  rewrite table_step by (done || apply ef_table_ok). apply IH.
Qed.

(** ** The register stays a 32-bit word, and no information is lost *)
Lemma lxor_range n a b :
  0 <= n -> 0 <= a < 2 ^ n -> 0 <= b < 2 ^ n -> 0 <= Z.lxor a b < 2 ^ n.
Proof.
  intros Hn Ha Hb. split; [apply Z.lxor_nonneg; lia|].
  destruct (Z.eq_dec (Z.lxor a b) 0) as [->|]; [lia|].
  assert (0 < n) by (destruct (Z.eq_dec n 0) as [->|]; [|lia];
    assert (a = 0) as -> by lia; assert (b = 0) as -> by lia; done).
  apply Z.log2_lt_pow2; [assert (0 <= Z.lxor a b) by (apply Z.lxor_nonneg; lia); lia|].
  eapply Z.le_lt_trans; [apply Z.log2_lxor; lia|].
  apply Z.max_lub_lt.
  - destruct (Z.eq_dec a 0) as [->|]; [simpl; lia|]. apply Z.log2_lt_pow2; lia.
  - destruct (Z.eq_dec b 0) as [->|]; [simpl; lia|]. apply Z.log2_lt_pow2; lia.
Qed.

Lemma shift1_range c : 0 <= c < 2 ^ 32 -> 0 <= shift1 c < 2 ^ 32.
Proof.
  intros H. unfold shift1. rewrite shr_div by lia. change (2 ^ 1) with 2.
  destruct (Z.odd c).
  - apply lxor_range; [lia|zify_divmod|unfold poly; lia].
  - zify_divmod.
Qed.

Lemma iter_range n c : 0 <= c < 2 ^ 32 -> 0 <= Nat.iter n shift1 c < 2 ^ 32.
Proof. intros H. induction n as [|n IH]; simpl; [done|]. by apply shift1_range. Qed.

(** Bit 31 of the result tells whether the polynomial was added, so a shift
    can be undone. *)
Lemma shift1_inj a b :
  0 <= a < 2 ^ 32 -> 0 <= b < 2 ^ 32 -> shift1 a = shift1 b -> a = b.
Proof.
  intros Ha Hb E.
  assert (forall c, 0 <= c < 2 ^ 32 -> Z.testbit (shift1 c) 31 = Z.odd c) as Htop.
  { intros c Hc. unfold shift1.
    assert (Z.testbit (Z.shiftr c 1) 31 = false) as E31.
    { rewrite Z.shiftr_spec by lia. rewrite <- (Z.mod_small c (2 ^ 32)) by lia.
      apply Z.mod_pow2_bits_high. lia. }
    destruct (Z.odd c); [rewrite Z.lxor_spec, E31; reflexivity|done]. }
  pose proof (f_equal (fun v => Z.testbit v 31) E) as Eodd. cbv beta in Eodd.
  rewrite !Htop in Eodd by done.
  assert (Z.shiftr a 1 = Z.shiftr b 1) as Es.
  { unfold shift1 in E. rewrite Eodd in E. destruct (Z.odd b); [|done].
    apply (f_equal (fun v => Z.lxor v poly)) in E.
    by rewrite !Z.lxor_assoc, !Z.lxor_nilpotent, !Z.lxor_0_r in E. }
  rewrite !shr_div in Es by lia. change (2 ^ 1) with 2 in Es.
  rewrite (Z.div_mod a 2), (Z.div_mod b 2), !Zmod_odd by lia. by rewrite Es, Eodd.
Qed.

Lemma iter_inj n a b :
  0 <= a < 2 ^ 32 -> 0 <= b < 2 ^ 32 ->
  Nat.iter n shift1 a = Nat.iter n shift1 b -> a = b.
Proof.
  intros Ha Hb. induction n as [|n IH]; simpl; [done|]. intros E. apply IH.
  apply shift1_inj; [by apply iter_range..|done].
Qed.

Lemma byte_range32 b : is_byte b -> 0 <= b < 2 ^ 32.
Proof. unfold is_byte. lia. Qed.

Lemma crc_bits_range c buf :
  0 <= c < 2 ^ 32 -> bytes buf -> 0 <= crc_bits c buf < 2 ^ 32.
Proof.
  intros Hc H. revert c Hc. induction H as [|b buf Hb H IH]; intros c Hc; [done|].
  apply IH, iter_range, lxor_range; [lia|done|by apply byte_range32].
Qed.

Lemma lxor_cancel a b c : Z.lxor a c = Z.lxor b c -> a = b.
Proof.
  intros E. apply (f_equal (fun v => Z.lxor v c)) in E.
  by rewrite !Z.lxor_assoc, !Z.lxor_nilpotent, !Z.lxor_0_r in E.
Qed.

(** Different registers stay different over any common message. *)
Lemma crc_bits_inj buf a b :
  0 <= a < 2 ^ 32 -> 0 <= b < 2 ^ 32 -> bytes buf ->
  crc_bits a buf = crc_bits b buf -> a = b.
Proof.
  intros Ha Hb H. revert a b Ha Hb.
  induction H as [|x buf Hx H IH]; intros a b Ha Hb; [done|]. simpl. intros E.
  apply byte_range32 in Hx. apply (lxor_cancel a b x), (iter_inj 8).
  1, 2: by apply lxor_range.
  apply IH; [by apply iter_range, lxor_range..|done].
Qed.

Lemma land_lxor_r a b m : Z.land (Z.lxor a b) m = Z.lxor (Z.land a m) (Z.land b m).
Proof.
  apply Z.bits_inj'. intros n Hn. rewrite !Z.land_spec, !Z.lxor_spec, !Z.land_spec.
  by destruct (Z.testbit a n), (Z.testbit b n), (Z.testbit m n).
Qed.

(** A message as one little-endian number, exclusive-or of its bytes. *)
Fixpoint le_number (l : list Z) : Z :=
  match l with
  | [] => 0
  | b :: l => Z.lxor b (Z.shiftl (le_number l) 8)
  end.

Lemma le_number_range l : bytes l -> 0 <= le_number l < 2 ^ (8 * zlen l).
Proof.
  induction 1 as [|b l Hb H IH]; [done|]. cbn [le_number].
  pose proof (zlen_nonneg l). rewrite zlen_cons. apply lxor_range; [lia|..].
  - unfold is_byte in Hb. split; [lia|]. apply Z.lt_le_trans with (2 ^ 8); [lia|].
    apply Z.pow_le_mono_r; lia.
  - rewrite Z.shiftl_mul_pow2 by lia.
    replace (8 * (1 + zlen l)) with (8 * zlen l + 8) by lia.
    rewrite Z.pow_add_r by lia. nia.
Qed.

(** The bytes can be read back from the number. *)
Lemma le_number_inj l k :
  bytes l -> bytes k -> length l = length k -> le_number l = le_number k -> l = k.
Proof.
  intros H. revert k. induction H as [|b l Hb H IH]; intros [|d k] Hk Hlen E; try done.
  apply Forall_cons in Hk as [Hd Hk]. injection Hlen as Hlen. cbn [le_number] in E.
  assert (forall x y, is_byte x -> Z.land (Z.lxor x (Z.shiftl y 8)) 255 = x /\
    Z.shiftr (Z.lxor x (Z.shiftl y 8)) 8 = y) as Hsplit.
  { intros x y Hx. rewrite Z.shiftr_lxor, (shiftr_byte x), Z.shiftr_shiftl_l by (done || lia).
    rewrite Z.sub_diag, Z.shiftl_0_r, Z.lxor_0_l. split; [|done].
    rewrite land_lxor_r, !(land_mask _ 255 8) by done.
    unfold is_byte in Hx. rewrite (Z.mod_small x) by lia.
    rewrite Z.shiftl_mul_pow2, Z.mod_mul by lia. apply Z.lxor_0_r. }
  destruct (Hsplit b (le_number l) Hb) as [E1 E2], (Hsplit d (le_number k) Hd) as [E3 E4].
  rewrite E in E1, E2. f_equal; [congruence|]. apply IH; congruence.
Qed.

(** A message shifts its number through the register. *)
Lemma crc_bits_number l c :
  crc_bits c l = Nat.iter (length l * 8) shift1 (Z.lxor c (le_number l)).
Proof.
  revert c. induction l as [|b l IH]; intros c; [by rewrite Z.lxor_0_r|].
  cbn [crc_bits foldl]. fold (crc_bits (byte_step c b) l). rewrite IH. unfold byte_step.
  change (length (b :: l) * 8)%nat with (8 + length l * 8)%nat.
  rewrite Nat.add_comm, Nat.iter_add. f_equal. cbn [le_number].
  rewrite <- Z.lxor_assoc, (iter_lxor 8 (Z.lxor c b)). f_equal.
  symmetry. exact (iter_shiftl 8 (le_number l)).
Qed.

Lemma burst_detected c pre m1 m2 post :
  0 <= c < 2 ^ 32 -> bytes pre -> bytes m1 -> bytes m2 -> bytes post ->
  length m1 = length m2 -> zlen m1 <= 4 -> m1 <> m2 ->
  crc_bits c (pre ++ m1 ++ post) <> crc_bits c (pre ++ m2 ++ post).
Proof.
  intros Hc Hpre H1 H2 Hpost Hlen H4 Hne E. apply Hne.
  unfold crc_bits in E. rewrite !foldl_app in E. fold (crc_bits c pre) in E.
  pose proof (crc_bits_range c pre Hc Hpre) as Hs. set (s := crc_bits c pre) in *.
  apply crc_bits_inj in E; [|by apply crc_bits_range..|done].
  fold (crc_bits s m1) in E. fold (crc_bits s m2) in E.
  rewrite !crc_bits_number, Hlen in E.
  assert (forall m, bytes m -> zlen m <= 4 -> 0 <= le_number m < 2 ^ 32) as Hm.
  { intros m Hb Hl. pose proof (le_number_range m Hb). pose proof (zlen_nonneg m).
    assert (2 ^ (8 * zlen m) <= 2 ^ 32) by (apply Z.pow_le_mono_r; lia). lia. }
  assert (zlen m2 <= 4) by (unfold zlen in *; lia).
  apply iter_inj in E; [|apply lxor_range; auto; lia..].
  rewrite !(Z.lxor_comm s) in E. apply lxor_cancel in E. by apply le_number_inj.
Qed.

End CrcSpec.

Section CrcProperties.
Import MakeFalCrc EfCrc CrcSpec.



(** A checksum continued over a second buffer equals the checksum of the
    concatenation: the field-by-field computation of [calc_env_crc] is the
    checksum of the fields put together. *)
Theorem ef_calc_crc32_app (crc : Z) (a b : list Z) :
  ef_calc_crc32 (ef_calc_crc32 crc a) b = ef_calc_crc32 crc (a ++ b).
Proof.
  unfold ef_calc_crc32. rewrite foldl_app. do 2 f_equal.
  by rewrite Z.lxor_assoc, Z.lxor_nilpotent, Z.lxor_0_r.
Qed.

(** Any corruption confined to four consecutive bytes changes the
    checksum of the flash environment. *)
Theorem ef_crc_detects_burst (pre m1 m2 post : list Z) :
  bytes pre -> bytes m1 -> bytes m2 -> bytes post ->
  length m1 = length m2 -> zlen m1 <= 4 -> m1 <> m2 ->
  ef_calc_crc32 0 (pre ++ m1 ++ post) <> ef_calc_crc32 0 (pre ++ m2 ++ post).
Proof.
  intros Hpre H1 H2 Hpost Hlen H4 Hne. unfold ef_calc_crc32.
  rewrite !ef_fold by (by rewrite !Forall_app). intros E. apply lxor_cancel in E.
  revert E. by apply burst_detected; rewrite ?Z.lxor_0_l.
Qed.

Lemma ef_crc_detects_burst_witness :
  ef_calc_crc32 0 (str "ab" ++ [1; 2; 3; 4] ++ str "z") <>
  ef_calc_crc32 0 (str "ab" ++ [1; 2; 3; 5] ++ str "z").
Proof.
  apply (ef_crc_detects_burst (str "ab") [1; 2; 3; 4] [1; 2; 3; 5] (str "z"));
    by_decide.
Defined.

End CrcProperties.
