(* ===== verification/MakeFal.v ===== *)
(** * The image tool: merging a partition table into a boot image

    Models src/tools/make_fal/make_fal.c, which copies an FLS boot image,
    places the partition table in its last bytes before offset 56 KiB and
    rewrites the 56-byte header with two checksums.  The theorems show what
    the produced image contains, that the boot loader's two checksum tests
    accept it, that running the tool again changes nothing, and that a boot
    image shorter than 56 KiB makes the tool write outside its buffer. *)

From S2P Require Import Prelude Crc32.

Local Open Scope Z_scope.

Definition SECBOOT_IMG_ADDR : Z := 0x2100.
Definition SECBOOT_HEADER_LEN : Z := 0x100.
Definition SECBOOT_IMG_TOTAL_LEN : Z := 1024 * 56.
Definition SECBOOT_MAGIC_NO : Z := 0xA0FFFF9F.
Definition FLS_FILE_MAX_SIZE : Z := 1024 * 1024 * 4.
Definition FAL_FILE_MAX_SIZE : Z := 1024 * 4.

(** [struct img_head]: byte offsets of the fields (no padding), [sizeof] 52. *)
Definition off_magic : Z := 0.
Definition off_img_type : Z := 4.
Definition off_zip_type : Z := 6.
Definition off_app_addr : Z := 8.
Definition off_app_len : Z := 12.
Definition off_head_crc : Z := 16.
Definition off_img_addr : Z := 20.
Definition off_img_len : Z := 24.
Definition off_img_crc : Z := 28.
Definition off_img_no : Z := 32.
Definition sizeof_img_head : Z := 52.

(** [file_read]: the contents of the file at [path], when it opens, copied to
    a zeroed buffer of [len] bytes.  [fseek] returns 0 on success, so the
    length test of the source never fires and a longer file is cut at [len].
    The result is the byte count and the buffer. *)
Definition file_read (file : option (list Z)) (len : Z) : Z * list Z :=
  match file with
  | None => (0, replicate (Z.to_nat len) 0)
  | Some data =>
      let f_len := 0 in
      if len <? f_len then (0, replicate (Z.to_nat len) 0)
      else
        let d := take (Z.to_nat len) data in
        (zlen d, d ++ replicate (Z.to_nat len - length d) 0)
  end.

Inductive outcome :=
| ErrMemory
| ErrOpenFls
| ErrOpenFal
| ErrNotFls
| Undefined              (* an access outside an allocated buffer *)
| Output (image : list Z).

(** The header stores of [main], in source order, each a little-endian store
    into the output buffer. *)
Definition write_head (m_out : list Z) (s_out crc_val : Z) : option (list Z) :=
  m ← buf_write m_out off_magic (le_bytes 4 SECBOOT_MAGIC_NO);
  m ← buf_write m off_img_type (le_bytes 2 0);
  m ← buf_write m off_zip_type (le_bytes 2 0);
  m ← buf_write m off_app_addr (le_bytes 4 (SECBOOT_IMG_ADDR - SECBOOT_HEADER_LEN));
  m ← buf_write m off_app_len (le_bytes 4 (s_out - 56));
  m ← buf_write m off_head_crc (le_bytes 4 crc_val);
  m ← buf_write m off_img_addr (le_bytes 4 0);
  m ← buf_write m off_img_len (le_bytes 4 0);
  m ← buf_write m off_img_crc (le_bytes 4 0);
  buf_write m off_img_no (le_bytes 4 0).

Definition tool_crc (buf : list Z) : Z :=
  fst (MakeFalCrc.crc32 (MakeFalCrc.Crc32Cfg 0xffffffff 0 0) buf).

(** The part of [main] from the allocation of [m_out] to the output. *)
Definition build_image (m_fls : list Z) (s_fls : Z) (m_fal : list Z) (s_fal : Z)
  : option (list Z) :=
  let s_out := s_fls in
  m ← buf_write (replicate (Z.to_nat s_out) 0) 0 (take (Z.to_nat s_fls) m_fls);
  m ← buf_write m (SECBOOT_IMG_TOTAL_LEN - s_fal) (take (Z.to_nat s_fal) m_fal);
  let crc_val := tool_crc (buf_sub m 56 (s_out - 56)) in
  m ← write_head m s_out crc_val;
  let crc_val := tool_crc (buf_sub m 0 sizeof_img_head) in
  buf_write m sizeof_img_head (le_bytes 4 crc_val).

(** [main] for a call with both input paths: [alloc] says which of the three
    [calloc] calls succeed. *)
Definition make_fal (alloc : bool * bool * bool) (fls fal : option (list Z)) : outcome :=
  let '(a1, a2, a3) := alloc in
  if negb a1 then ErrMemory else
  let '(s_fls, m_fls) := file_read fls FLS_FILE_MAX_SIZE in
  if s_fls =? 0 then ErrOpenFls else
  if negb a2 then ErrMemory else
  let '(s_fal, m_fal) := file_read fal FAL_FILE_MAX_SIZE in
  if s_fal =? 0 then ErrOpenFal else
  if negb (le_val (buf_sub m_fls off_magic 4) =? SECBOOT_MAGIC_NO) then ErrNotFls else
  if negb a3 then ErrMemory else
  match build_image m_fls s_fls m_fal s_fal with
  | Some image => Output image
  | None => Undefined
  end.

(** ** The header as the boot loader reads it *)
Definition head_word (image : list Z) (off : Z) : Z := le_val (buf_sub image off 4).

(** Both checksums of an image: the one over the body, kept in the header,
    and the one over the header, kept right after it. *)
Definition image_checks (image : list Z) : bool :=
  (head_word image off_magic =? SECBOOT_MAGIC_NO) &&
  (head_word image off_app_len =? zlen image - 56) &&
  (head_word image off_head_crc =? tool_crc (buf_sub image 56 (zlen image - 56))) &&
  (head_word image sizeof_img_head =? tool_crc (buf_sub image 0 sizeof_img_head)).

(** ** The image in closed form *)
Definition merged (fls fal : list Z) : list Z :=
  take (Z.to_nat (SECBOOT_IMG_TOTAL_LEN - zlen fal)) fls ++ fal
  ++ drop (Z.to_nat SECBOOT_IMG_TOTAL_LEN) fls.

Definition head_bytes (s_out crc_val : Z) : list Z :=
  le_bytes 4 SECBOOT_MAGIC_NO ++ le_bytes 2 0 ++ le_bytes 2 0
  ++ le_bytes 4 (SECBOOT_IMG_ADDR - SECBOOT_HEADER_LEN) ++ le_bytes 4 (s_out - 56)
  ++ le_bytes 4 crc_val ++ le_bytes 4 0 ++ le_bytes 4 0 ++ le_bytes 4 0 ++ le_bytes 4 0.

Definition image_of (m : list Z) : list Z :=
  let h := head_bytes (zlen m) (tool_crc (drop 56 m)) ++ take 16 (drop 36 m) in
  h ++ le_bytes 4 (tool_crc h) ++ drop 56 m.

Lemma head_bytes_len s c : length (head_bytes s c) = 36%nat.
Proof. unfold head_bytes. by rewrite !length_app, !le_bytes_len. Qed.

(** One field of the header: the write at the end of the prefix built so far. *)
Ltac write_field :=
  rewrite buf_write_at by (autorewrite with zlen; lia);
  cbn [mbind option_bind]; rewrite ?drop_drop, ?le_bytes_len.

Lemma write_head_eq m s c :
  56 <= zlen m -> write_head m s c = Some (head_bytes s c ++ drop 36 m).
Proof.
  intros Hm. unfold write_head, head_bytes, off_magic, off_img_type, off_zip_type,
    off_app_addr, off_app_len, off_head_crc, off_img_addr, off_img_len, off_img_crc, off_img_no.
  change m with ([] ++ m). do 10 write_field.
  by rewrite <- !app_assoc.
Qed.

(** The closed form of the second half of [main]. *)
Lemma build_image_eq fls fal zs zs' :
  SECBOOT_IMG_TOTAL_LEN <= zlen fls -> zlen fal <= FAL_FILE_MAX_SIZE ->
  build_image (fls ++ zs) (zlen fls) (fal ++ zs') (zlen fal) = Some (image_of (merged fls fal)).
Proof.
  unfold SECBOOT_IMG_TOTAL_LEN, FAL_FILE_MAX_SIZE. intros Hfls Hfal.
  pose proof (zlen_nonneg fal). unfold build_image.
  assert (take (Z.to_nat (zlen fls)) (fls ++ zs) = fls) as ->
    by (unfold zlen; rewrite Nat2Z.id; apply take_app_length).
  assert (take (Z.to_nat (zlen fal)) (fal ++ zs') = fal) as ->
    by (unfold zlen; rewrite Nat2Z.id; apply take_app_length).
  rewrite <- (app_nil_l (replicate (Z.to_nat (zlen fls)) 0)).
  rewrite (buf_write_at [] _ 0 fls) by (autorewrite with zlen; lia).
  cbn [mbind option_bind app]. rewrite drop_ge, app_nil_r
    by (rewrite length_replicate; unfold zlen; lia).
  unfold SECBOOT_IMG_TOTAL_LEN.
  rewrite buf_write_some by lia. cbn [mbind option_bind].
  replace (Z.to_nat (1024 * 56 - zlen fal) + length fal)%nat
    with (Z.to_nat SECBOOT_IMG_TOTAL_LEN)
    by (unfold SECBOOT_IMG_TOTAL_LEN, zlen in *; lia).
  fold SECBOOT_IMG_TOTAL_LEN. fold (merged fls fal). set (m := merged fls fal).
  assert (zlen m = zlen fls) as Hm.
  { unfold m, merged, SECBOOT_IMG_TOTAL_LEN. autorewrite with zlen. lia. }
  rewrite <- Hm.
  assert (buf_sub m 56 (zlen m - 56) = drop 56 m) as ->.
  { unfold buf_sub. apply take_ge. rewrite length_drop. unfold zlen. lia. }
  rewrite write_head_eq by lia. cbn [mbind option_bind].
  assert (zlen m >= 57344) as Hbig by lia.
  set (h := head_bytes (zlen m) (tool_crc (drop 56 m))).
  assert (length h = 36%nat) as Hh by apply head_bytes_len.
  assert (drop 36 m = take 16 (drop 36 m) ++ drop 52 m) as Em
    by (by rewrite <- (take_drop 16 (drop 36 m)) at 1; rewrite drop_drop).
  assert (length (h ++ take 16 (drop 36 m)) = 52%nat) as Hl.
  { rewrite length_app, length_take, length_drop, Hh. unfold zlen in Hbig. lia. }
  rewrite Em, app_assoc. unfold sizeof_img_head, buf_sub. rewrite drop_0.
  rewrite (take_app_length' _ _ (Z.to_nat 52)) by (rewrite Hl; lia).
  rewrite buf_write_at.
  - unfold image_of. fold h. by rewrite le_bytes_len, drop_drop, <- !app_assoc.
  - unfold zlen. by rewrite Hl.
  - autorewrite with zlen. lia.
Qed.

Lemma file_read_some (data : list Z) len :
  0 <= len -> zlen data <= len ->
  file_read (Some data) len = (zlen data, data ++ replicate (Z.to_nat len - length data) 0).
Proof.
  intros H0 H. unfold file_read. case_bool. unfold zlen in *. by rewrite take_ge by lia.
Qed.

Lemma make_fal_eq fls fal :
  SECBOOT_IMG_TOTAL_LEN <= zlen fls <= FLS_FILE_MAX_SIZE ->
  0 < zlen fal <= FAL_FILE_MAX_SIZE ->
  head_word fls off_magic = SECBOOT_MAGIC_NO ->
  make_fal (true, true, true) (Some fls) (Some fal) = Output (image_of (merged fls fal)).
Proof.
  intros Hfls Hfal Hmagic. unfold make_fal. cbn [negb].
  rewrite !file_read_some by (unfold FLS_FILE_MAX_SIZE, FAL_FILE_MAX_SIZE in *; lia).
  unfold SECBOOT_IMG_TOTAL_LEN in Hfls.
  destruct (Z.eqb_spec (zlen fls) 0); [lia|]. destruct (Z.eqb_spec (zlen fal) 0); [lia|].
  assert (le_val (buf_sub (fls ++ replicate (Z.to_nat FLS_FILE_MAX_SIZE - length fls) 0)
    off_magic 4) = SECBOOT_MAGIC_NO) as ->.
  { rewrite <- Hmagic. unfold head_word, buf_sub, off_magic. rewrite !drop_0.
    f_equal. apply take_app_le. unfold zlen in *. lia. }
  rewrite Z.eqb_refl. cbn [negb].
  rewrite build_image_eq; [done|unfold SECBOOT_IMG_TOTAL_LEN; lia|lia].
Qed.

(** ** What an image contains *)
Lemma image_of_len m : 56 <= zlen m -> zlen (image_of m) = zlen m.
Proof.
  intros H. unfold image_of. autorewrite with zlen.
  unfold zlen at 1. rewrite head_bytes_len. lia.
Qed.

Lemma tool_crc_range buf : bytes buf -> 0 <= tool_crc buf < 256 ^ 4.
Proof.
  intros H. unfold tool_crc, MakeFalCrc.crc32. simpl. rewrite Z.lxor_0_r, CrcSpec.mf_fold by done.
  by apply CrcSpec.crc_bits_range.
Qed.

(** Read a field of the header: skip the fields before it. *)
Ltac field :=
  repeat (rewrite buf_sub_skip by (autorewrite with zlen; lia));
  autorewrite with zlen; cbn [Z.sub Z.add Z.opp Z.pos_sub Pos.pred_double Z.succ_double
    Z.pred_double Z.of_nat Pos.of_succ_nat Pos.succ Z.double];
  rewrite buf_sub_here by (autorewrite with zlen; lia).

Lemma image_of_head m :
  56 <= zlen m < 2 ^ 32 -> bytes m ->
  head_word (image_of m) off_magic = SECBOOT_MAGIC_NO /\
  head_word (image_of m) off_app_addr = SECBOOT_IMG_ADDR - SECBOOT_HEADER_LEN /\
  head_word (image_of m) off_app_len = zlen m - 56 /\
  head_word (image_of m) off_head_crc = tool_crc (drop 56 m) /\
  head_word (image_of m) sizeof_img_head
    = tool_crc (buf_sub (image_of m) 0 sizeof_img_head).
Proof.
  intros Hm Hb. unfold image_of.
  set (crc := tool_crc (drop 56 m)). set (v := take 16 (drop 36 m)).
  set (h := head_bytes (zlen m) crc ++ v).
  assert (zlen h = 52) as Hh.
  { unfold h, v. autorewrite with zlen. unfold zlen at 1. rewrite head_bytes_len. lia. }
  assert (bytes h) as Hhb.
  { unfold h, head_bytes, v. rewrite !Forall_app. split_and!; auto with w601.
    by apply Forall_take, Forall_drop. }
  pose proof (tool_crc_range (drop 56 m) (Forall_drop _ _ _ Hb)) as Hc.
  pose proof (tool_crc_range h Hhb) as Hch.
  unfold head_word, off_magic, off_app_addr, off_app_len, off_head_crc, sizeof_img_head.
  split_and!.
  5: { rewrite buf_sub_here by done. rewrite buf_sub_skip by lia.
       rewrite Hh, buf_sub_here by done. by apply le_val_bytes. }
  all: unfold h, head_bytes; rewrite <- !app_assoc.
  - by rewrite buf_sub_here.
  - field. by vm_compute.
  - field. apply le_val_bytes. change (256 ^ Z.of_nat 4) with (2 ^ 32). lia.
  - field. by apply le_val_bytes.
Qed.

(** Byte [i] of the merged image: the partition table ends at 56 KiB. *)
Lemma merged_lookup fls fal (i : nat) :
  SECBOOT_IMG_TOTAL_LEN <= zlen fls -> zlen fal <= SECBOOT_IMG_TOTAL_LEN ->
  merged fls fal !! i =
  if decide (SECBOOT_IMG_TOTAL_LEN - zlen fal <= Z.of_nat i < SECBOOT_IMG_TOTAL_LEN)
  then fal !! (i - Z.to_nat (SECBOOT_IMG_TOTAL_LEN - zlen fal))%nat
  else fls !! i.
Proof.
  unfold SECBOOT_IMG_TOTAL_LEN. intros H1 H2. unfold merged, SECBOOT_IMG_TOTAL_LEN, zlen in *.
  destruct (decide (i < Z.to_nat (1024 * 56 - Z.of_nat (length fal)))%nat).
  { rewrite lookup_app_l by (rewrite length_take; lia). rewrite lookup_take_lt by lia.
    by rewrite decide_False by lia. }
  rewrite lookup_app_r by (rewrite length_take; lia). rewrite length_take.
  rewrite Nat.min_l by lia. case_decide.
  - by rewrite lookup_app_l by lia.
  - rewrite lookup_app_r by lia. rewrite lookup_drop. f_equal. lia.
Qed.

Lemma image_of_lookup m (i : nat) :
  56 <= zlen m -> (36 <= i < 52 \/ 56 <= i)%nat -> image_of m !! i = m !! i.
Proof.
  intros Hm Hi. unfold image_of. rewrite <- app_assoc.
  rewrite lookup_app_r by (rewrite head_bytes_len; lia). rewrite head_bytes_len.
  assert (length (take 16 (drop 36 m)) = 16)%nat as Hl
    by (rewrite length_take, length_drop; unfold zlen in Hm; lia).
  destruct Hi as [Hi|Hi].
  - rewrite lookup_app_l by lia. rewrite lookup_take_lt, lookup_drop by lia. f_equal. lia.
  - rewrite lookup_app_r by lia. rewrite Hl.
    rewrite lookup_app_r by (rewrite le_bytes_len; lia). rewrite le_bytes_len, lookup_drop.
    f_equal. lia.
Qed.

(** An image depends only on the bytes the header does not cover. *)
Lemma image_of_ext m m' :
  zlen m = zlen m' ->
  (forall i, (36 <= i < 52 \/ 56 <= i)%nat -> m !! i = m' !! i) -> image_of m = image_of m'.
Proof.
  intros Hz Hi. unfold image_of. rewrite Hz.
  assert (drop 56 m = drop 56 m') as ->.
  { apply list_eq. intros k. rewrite !lookup_drop. apply Hi. lia. }
  assert (take 16 (drop 36 m) = take 16 (drop 36 m')) as ->; [|done].
  apply list_eq. intros k. destruct (decide (k < 16)%nat).
  - rewrite !lookup_take_lt, !lookup_drop by lia. apply Hi. lia.
  - rewrite !lookup_ge_None_2; [done|rewrite length_take; lia..].
Qed.

Lemma merged_len fls fal :
  SECBOOT_IMG_TOTAL_LEN <= zlen fls -> zlen fal <= SECBOOT_IMG_TOTAL_LEN ->
  zlen (merged fls fal) = zlen fls.
Proof.
  intros. unfold merged. pose proof (zlen_nonneg fal).
  autorewrite with zlen. unfold SECBOOT_IMG_TOTAL_LEN in *. lia.
Qed.

Lemma merged_bytes fls fal : bytes fls -> bytes fal -> bytes (merged fls fal).
Proof.
  intros. unfold merged. rewrite !Forall_app.
  split_and!; [by apply Forall_take|done|by apply Forall_drop].
Qed.

Section MakeFalProperties.
Context (fls fal : list Z).
Hypothesis Hfls : SECBOOT_IMG_TOTAL_LEN <= zlen fls <= FLS_FILE_MAX_SIZE.
Hypothesis Hfal : 0 < zlen fal <= FAL_FILE_MAX_SIZE.
Hypothesis Hmagic : head_word fls off_magic = SECBOOT_MAGIC_NO.
Hypothesis Hbfls : bytes fls.
Hypothesis Hbfal : bytes fal.

(** For a boot image of at least 56 KiB and a partition table of at most
    4 KiB the tool succeeds; the image passes both checksum tests, carries the
    table in the bytes that end at 56 KiB and the boot address in its header,
    and every other byte outside the rewritten header fields is the input's. *)
Theorem make_fal_image :
  exists image, make_fal (true, true, true) (Some fls) (Some fal) = Output image /\
    zlen image = zlen fls /\ image_checks image = true /\
    head_word image off_app_addr = SECBOOT_IMG_ADDR - SECBOOT_HEADER_LEN /\
    buf_sub image (SECBOOT_IMG_TOTAL_LEN - zlen fal) (zlen fal) = fal /\
    (forall i : nat, (36 <= i < 52 \/ 56 <= i)%nat ->
       ~ (SECBOOT_IMG_TOTAL_LEN - zlen fal <= Z.of_nat i < SECBOOT_IMG_TOTAL_LEN) ->
       image !! i = fls !! i).
Proof.
  unfold FLS_FILE_MAX_SIZE, FAL_FILE_MAX_SIZE in Hfls, Hfal.
  assert (zlen fal <= SECBOOT_IMG_TOTAL_LEN) as Hs by (unfold SECBOOT_IMG_TOTAL_LEN; lia).
  pose proof (merged_len fls fal (proj1 Hfls) Hs) as Hm.
  assert (57344 <= zlen (merged fls fal)) by (unfold SECBOOT_IMG_TOTAL_LEN in Hfls; lia).
  exists (image_of (merged fls fal)). rewrite make_fal_eq by done.
  destruct (image_of_head (merged fls fal)) as (E1 & E2 & E3 & E4 & E5);
    [lia|by apply merged_bytes|].
  assert (buf_sub (image_of (merged fls fal)) 56 (zlen fls - 56) = drop 56 (merged fls fal)) as Eb.
  { unfold buf_sub. rewrite take_ge
      by (rewrite length_drop; pose proof (image_of_len (merged fls fal)); unfold zlen in *; lia).
    apply list_eq. intros k. rewrite !lookup_drop. apply image_of_lookup; lia. }
  split_and!; [done|rewrite image_of_len; lia| |done| |].
  - unfold image_checks. rewrite image_of_len by lia. rewrite E1, E3, E4, E5, Hm, Eb.
    by rewrite !Z.eqb_refl.
  - apply list_eq. intros k. unfold buf_sub, zlen. rewrite Nat2Z.id.
    destruct (decide (k < length fal)%nat);
      [|rewrite !lookup_ge_None_2; [done|rewrite ?length_take; lia..]].
    rewrite lookup_take_lt, lookup_drop by lia. unfold SECBOOT_IMG_TOTAL_LEN, zlen in *.
    rewrite image_of_lookup by (unfold zlen; lia). rewrite merged_lookup by (unfold SECBOOT_IMG_TOTAL_LEN, zlen; lia).
    rewrite decide_True by (unfold SECBOOT_IMG_TOTAL_LEN, zlen; lia).
    f_equal. unfold SECBOOT_IMG_TOTAL_LEN, zlen. lia.
  - intros i Hi Hno. rewrite image_of_lookup by lia. rewrite merged_lookup by lia.
    by rewrite decide_False.
Qed.

(** Running the tool on its own output with the same partition table
    reproduces the image. *)
Theorem make_fal_idempotent :
  forall image, make_fal (true, true, true) (Some fls) (Some fal) = Output image ->
  make_fal (true, true, true) (Some image) (Some fal) = Output image.
Proof.
  intros image. rewrite make_fal_eq by done. intros [= <-].
  assert (zlen fal <= SECBOOT_IMG_TOTAL_LEN) as Hs
    by (unfold SECBOOT_IMG_TOTAL_LEN, FAL_FILE_MAX_SIZE in *; lia).
  pose proof (merged_len fls fal (proj1 Hfls) Hs) as Hm.
  assert (56 <= zlen (merged fls fal) < 2 ^ 32) as H56
    by (unfold SECBOOT_IMG_TOTAL_LEN, FLS_FILE_MAX_SIZE in *; lia).
  destruct (image_of_head (merged fls fal) H56 (merged_bytes _ _ Hbfls Hbfal)) as (E1 & _).
  pose proof (image_of_len (merged fls fal) (proj1 H56)) as Hl.
  rewrite make_fal_eq; [|lia|done|done]. f_equal.
  apply image_of_ext; [rewrite merged_len; lia|]. intros i Hi.
  rewrite merged_lookup by lia. case_decide as Hd.
  - rewrite merged_lookup by lia. by rewrite decide_True.
  - by rewrite image_of_lookup by lia.
Qed.

End MakeFalProperties.

(** A boot image shorter than 56 KiB is not rejected: the tool copies the
    partition table beyond the end of the output buffer. *)
Theorem make_fal_short_image (fls fal : list Z) :
  4 <= zlen fls < SECBOOT_IMG_TOTAL_LEN -> 0 < zlen fal <= FAL_FILE_MAX_SIZE ->
  head_word fls off_magic = SECBOOT_MAGIC_NO ->
  make_fal (true, true, true) (Some fls) (Some fal) = Undefined.
Proof.
  unfold SECBOOT_IMG_TOTAL_LEN. intros Hfls Hfal Hmagic. unfold make_fal. cbn [negb].
  rewrite !file_read_some by (unfold FLS_FILE_MAX_SIZE, FAL_FILE_MAX_SIZE in *; lia).
  destruct (Z.eqb_spec (zlen fls) 0); [lia|]. destruct (Z.eqb_spec (zlen fal) 0); [lia|].
  assert (le_val (buf_sub (fls ++ replicate (Z.to_nat FLS_FILE_MAX_SIZE - length fls) 0)
    off_magic 4) = SECBOOT_MAGIC_NO) as ->.
  { rewrite <- Hmagic. unfold head_word, buf_sub, off_magic. rewrite !drop_0.
    f_equal. apply take_app_le. unfold zlen in *. lia. }
  rewrite Z.eqb_refl. cbn [negb]. unfold build_image.
  rewrite (buf_write_some _ 0) by (autorewrite with zlen; lia).
  cbn [mbind option_bind]. rewrite buf_write_none; [done|].
  autorewrite with zlen. rewrite length_take, length_app, length_replicate.
  unfold SECBOOT_IMG_TOTAL_LEN, zlen in *. lia.
Qed.

Definition sample_fls (n : nat) : list Z := le_bytes 4 SECBOOT_MAGIC_NO ++ replicate n 0.

Lemma sample_fls_len n : zlen (sample_fls n) = 4 + Z.of_nat n.
Proof. unfold sample_fls. by autorewrite with zlen. Qed.

Lemma sample_fls_ok n : head_word (sample_fls n) off_magic = SECBOOT_MAGIC_NO /\ bytes (sample_fls n).
Proof.
  split; [by vm_compute|]. apply Forall_app. split; [apply le_bytes_bytes|].
  apply Forall_replicate. by_decide.
Qed.

Lemma make_fal_image_witness :
  exists image, make_fal (true, true, true) (Some (sample_fls (Z.to_nat 60000))) (Some [1; 2; 3])
    = Output image /\ image_checks image = true.
Proof.
  destruct (make_fal_image (sample_fls (Z.to_nat 60000)) [1; 2; 3]) as (im & E & _ & C & _).
  - rewrite sample_fls_len. unfold SECBOOT_IMG_TOTAL_LEN, FLS_FILE_MAX_SIZE. lia.
  - unfold FAL_FILE_MAX_SIZE, zlen; simpl; lia.
  - exact (proj1 (sample_fls_ok (Z.to_nat 60000))).
  - exact (proj2 (sample_fls_ok (Z.to_nat 60000))).
  - by_decide.
  - exact (ex_intro _ im (conj E C)).
Defined.

Lemma make_fal_idempotent_witness :
  exists image, make_fal (true, true, true) (Some (sample_fls (Z.to_nat 60000))) (Some [1; 2; 3])
    = Output image /\ make_fal (true, true, true) (Some image) (Some [1; 2; 3]) = Output image.
Proof.
  assert (SECBOOT_IMG_TOTAL_LEN <= zlen (sample_fls (Z.to_nat 60000)) <= FLS_FILE_MAX_SIZE) as H1
    by (rewrite sample_fls_len; unfold SECBOOT_IMG_TOTAL_LEN, FLS_FILE_MAX_SIZE; lia).
  assert (0 < zlen [1; 2; 3] <= FAL_FILE_MAX_SIZE) as H2
    by (unfold FAL_FILE_MAX_SIZE, zlen; simpl; lia).
  destruct (sample_fls_ok (Z.to_nat 60000)) as [H3 H4].
  eexists. split; [apply (make_fal_eq _ _ H1 H2 H3)|].
  apply (make_fal_idempotent _ _ H1 H2 H3 H4 ltac:(by_decide)).
  apply (make_fal_eq _ _ H1 H2 H3).
Defined.

Lemma make_fal_short_image_witness :
  make_fal (true, true, true) (Some (sample_fls 100)) (Some [1; 2; 3]) = Undefined.
Proof.
  apply (make_fal_short_image (sample_fls 100) [1; 2; 3]);
    [rewrite sample_fls_len; unfold SECBOOT_IMG_TOTAL_LEN; lia
    |unfold FAL_FILE_MAX_SIZE, zlen; simpl; lia|exact (proj1 (sample_fls_ok 100))].
Defined.
