(* ===== verification/Flash.v ===== *)
(** * Flash drivers: the on-chip flash driver and the two FAL device ports

    [OnChip] models src/drivers/drv_flash.c and the [w60x_onchip]/[nor_flash0]
    operations of src/ports/fal/fal_flash_port.c over the vendor flash
    routines [tls_fls_read], [tls_fls_write] and [tls_fls_erase] and the SPI
    bus; [Sfud] models src/ports/fal/fal_flash_sfud_port.c over the SFUD
    library.  Both give [fal_flash_dev] values, the device type the Flash
    Abstraction Layer of Fal.v works with. *)

From S2P Require Import Prelude.

Local Open Scope Z_scope.

(** ** [struct fal_flash_dev]

    A device operation works on the state [F] of the storage hardware.  [read]
    returns the C result and the bytes stored in the caller's buffer; [write]
    and [erase] return the C result and the new state. *)
Record flash_ops (F : Type) := FlashOps {
  op_read : F -> Z -> Z -> Z * list Z;
  op_write : F -> Z -> list Z -> Z * F;
  op_erase : F -> Z -> Z -> Z * F
}.
Arguments FlashOps {F}.
Arguments op_read {F}.
Arguments op_write {F}.
Arguments op_erase {F}.

Record fal_flash_dev (F : Type) := FalFlashDev {
  dev_name : list Z;
  dev_addr : Z;
  dev_len : Z;
  dev_blk_size : Z;
  dev_ops : flash_ops F
}.
Arguments FalFlashDev {F}.
Arguments dev_name {F}.
Arguments dev_addr {F}.
Arguments dev_len {F}.
Arguments dev_blk_size {F}.
Arguments dev_ops {F}.

(** ** The on-chip flash driver *)
Section OnChip.
Context {C : Type}.
Context (tls_fls_read : C -> Z -> Z -> option (list Z)).
Context (tls_fls_write : C -> Z -> list Z -> option C).
Context (tls_fls_erase : C -> Z -> option C).
Context (flashtotalsize : Z).

Definition FLASH_BASE_ADDR : Z := 0x8000000.
Definition FLASH_SECTOR : Z := 4096.

(** The driver state: whether the SPI device is attached, how often the bus
    is held, and the chip. *)
Record wm_flash := WmFlash { spi0 : bool; bus : Z; chip : C }.

Definition take_bus (w : wm_flash) : wm_flash :=
  if spi0 w then WmFlash (spi0 w) (bus w + 1) (chip w) else w.

Definition release_bus (w : wm_flash) : wm_flash :=
  if spi0 w then WmFlash (spi0 w) (bus w - 1) (chip w) else w.

Definition set_chip (w : wm_flash) (c : C) : wm_flash := WmFlash (spi0 w) (bus w) c.

Definition wm_flash_total : Z := if flashtotalsize =? 0x200000 then 0x200000 else 0x100000.

Definition wm_flash_addr : Z := FLASH_BASE_ADDR.

Definition wm_flash_blksize : Z := FLASH_SECTOR.

Definition wm_flash_read (w : wm_flash) (offset size : Z) : (Z * list Z) * wm_flash :=
  let offset := i32 (offset + FLASH_BASE_ADDR) in
  let w := take_bus w in
  let r := match tls_fls_read (chip w) offset size with
           | Some d => (size, d)
           | None => (-1, [])
           end in
  (r, release_bus w).

Definition wm_flash_write (w : wm_flash) (offset : Z) (data : list Z) : Z * wm_flash :=
  let size := zlen data in
  let offset := i32 (offset + FLASH_BASE_ADDR) in
  let w := take_bus w in
  let '(size, w) := match tls_fls_write (chip w) offset data with
                    | Some c => (size, set_chip w c)
                    | None => (-1, w)
                    end in
  (size, release_bus w).

(** The sector loop of [wm_flash_erase]: [None] when a sector fails. *)
Fixpoint erase_sectors (c : C) (sector : Z) (count : nat) : option C * C :=
  match count with
  | O => (Some c, c)
  | S count =>
      match tls_fls_erase c sector with
      | None => (None, c)
      | Some c' => erase_sectors c' (sector + 1) count
      end
  end.

Definition wm_flash_erase (w : wm_flash) (offset size : Z) : Z * wm_flash :=
  let offset := i32 (offset + FLASH_BASE_ADDR) in
  let count := size / FLASH_SECTOR in
  let sector := offset / FLASH_SECTOR in
  let w := take_bus w in
  let '(r, c) := erase_sectors (chip w) sector (Z.to_nat count) in
  let size := match r with Some _ => size | None => -1 end in
  (size, release_bus (set_chip w c)).

(** [wm_flash_init]: [attach] is the result of allocating the SPI device and
    attaching it to the bus. *)
Definition wm_flash_init (attach : bool) (w : wm_flash) : Z * wm_flash :=
  if spi0 w then (0, w) else (0, WmFlash attach (bus w) (chip w)).

(** [read], [write] and [erase] of the [w60x_onchip] device. *)
Definition onchip_ops : flash_ops wm_flash := {|
  op_read w off n := fst (wm_flash_read w off n);
  op_write w off d := wm_flash_write w off d;
  op_erase w off n := wm_flash_erase w off n
|}.

(** [init]: the device description after [wm_flash_init]. *)
Definition onchip_dev : fal_flash_dev wm_flash :=
  FalFlashDev (str "w60x_onchip") wm_flash_addr wm_flash_total wm_flash_blksize onchip_ops.

(** [chip_read], [chip_write] and [chip_erase]: the upper megabyte of a 2 MB
    chip stands in for the external flash. *)
Definition chip_ops : flash_ops wm_flash := {|
  op_read w off n := op_read onchip_ops w (i32 (off + 0x100000)) n;
  op_write w off d := op_write onchip_ops w (i32 (off + 0x100000)) d;
  op_erase w off n := op_erase onchip_ops w (i32 (off + 0x100000)) n
|}.

(** The 2 MB branch of [nor_init]. *)
Definition nor_chip_dev : fal_flash_dev wm_flash :=
  FalFlashDev (str "norflash") 0 (wm_flash_total - 0x100000) wm_flash_blksize chip_ops.

(** *** The bus is released on every path *)
Lemma bus_balanced (w : wm_flash) off n d :
  bus (snd (wm_flash_read w off n)) = bus w /\
  bus (snd (wm_flash_write w off d)) = bus w /\
  bus (snd (wm_flash_erase w off n)) = bus w.
Proof.
  unfold wm_flash_read, wm_flash_write, wm_flash_erase, release_bus, take_bus, set_chip.
  destruct w as [s b c]. split_and!; simpl.
  - destruct s; simpl; lia.
  - destruct s; simpl; destruct (tls_fls_write c _ d); simpl; lia.
  - destruct s; simpl; destruct (erase_sectors c _ _) as [r c']; simpl; lia.
Qed.

Lemma i32_range x : - 2 ^ 31 <= i32 x < 2 ^ 31.
Proof. unfold i32. pose proof (Z.mod_pos_bound (x + 2 ^ 31) (2 ^ 32)). lia. Qed.

End OnChip.
Arguments WmFlash {C}.
Arguments chip {C}.
Arguments bus {C}.

(** ** The external NOR flash behind SFUD *)
Section Sfud.
Context {C : Type}.
Context (sfud_read : C -> Z -> Z -> list Z).
Context (sfud_write : C -> Z -> list Z -> option C).
Context (sfud_erase : C -> Z -> Z -> option C).

(** [read] ignores the SFUD result and reports success. *)
Definition sfud_ops : flash_ops C := {|
  op_read c off n := (n, sfud_read c (u32 (0 + off)) n);
  op_write c off d :=
    match sfud_write c (u32 (0 + off)) d with Some c' => (zlen d, c') | None => (-1, c) end;
  op_erase c off n :=
    match sfud_erase c (u32 (0 + off)) n with Some c' => (n, c') | None => (-1, c) end
|}.

(** [fal_sfud_init]: [found] is whether the SPI flash device exists. *)
Definition fal_sfud_init (found : bool) (flash : fal_flash_dev C)
  : Z * fal_flash_dev C :=
  if negb found then (-1, flash)
  else (0, FalFlashDev (dev_name flash) 0 (16 * 1024 * 1024) 4096 sfud_ops).

End Sfud.

(** ** What a flash device promises to its users

    The interface the upper layers are proved against: data written to an
    erased region is read back, and writing or erasing one erase block leaves
    the others alone. *)
Class FlashDevice {F : Type} (ops : flash_ops F) (size blk : Z) := {
  fd_blk_pos : 0 < blk;
  fd_read_len : forall f a n, 0 <= a -> 0 <= n -> a + n <= size ->
    fst (op_read ops f a n) = n /\ zlen (snd (op_read ops f a n)) = n /\
    bytes (snd (op_read ops f a n));
  (* a window of a read is the read of the window *)
  fd_read_sub : forall f a n j m, 0 <= a -> a + n <= size -> a <= j -> 0 <= m -> j + m <= a + n ->
    snd (op_read ops f j m) = buf_sub (snd (op_read ops f a n)) (j - a) m;
  (* a write or an erase reports the requested size or a negative code *)
  fd_write_result : forall f a d, fst (op_write ops f a d) = zlen d \/ fst (op_write ops f a d) < 0;
  fd_erase_result : forall f a n, fst (op_erase ops f a n) = n \/ fst (op_erase ops f a n) < 0;
  (* erasing the blocks that cover [a, a+n), then writing up to n bytes at a *)
  fd_program : forall f f1 f2 a n d, 0 <= a -> a `mod` blk = 0 -> 0 < n -> a + n <= size ->
    bytes d -> zlen d = n ->
    op_erase ops f a n = (n, f1) -> op_write ops f1 a d = (n, f2) ->
    forall j m, 0 <= j -> 0 <= m -> a <= j -> j + m <= a + n ->
    snd (op_read ops f2 j m) = buf_sub d (j - a) m;
  fd_write_frame : forall f f' a d r j m, 0 <= a -> a + zlen d <= size ->
    op_write ops f a d = (r, f') -> 0 <= j -> 0 <= m -> j + m <= size ->
    j + m <= a \/ a + zlen d <= j ->
    snd (op_read ops f' j m) = snd (op_read ops f j m);
  fd_erase_frame : forall f f' a n r j m, 0 <= a -> a `mod` blk = 0 -> 0 < n -> a + n <= size ->
    op_erase ops f a n = (r, f') -> 0 <= j -> 0 <= m -> j + m <= size ->
    j + m <= a \/ (a + n + blk - 1) / blk * blk <= j ->
    snd (op_read ops f' j m) = snd (op_read ops f j m)
}.

(** ** A NOR flash

    A device that meets the interface: a write clears bits, an erase sets the
    blocks that cover the range to all ones. *)
Section Nor.
Context (size blk : Z).
Context (blk_pos : 0 < blk).

Definition nor_read (f : Z -> Z) (a n : Z) : Z * list Z :=
  (n, map (fun k => u8 (f k)) (seqZ a n)).

Definition nor_write (f : Z -> Z) (a : Z) (d : list Z) : Z * (Z -> Z) :=
  (zlen d, fun k => if (a <=? k) && (k <? a + zlen d)
                    then Z.land (u8 (f k)) (nth (Z.to_nat (k - a)) d 0) else f k).

Definition nor_erase (f : Z -> Z) (a n : Z) : Z * (Z -> Z) :=
  (n, fun k => if (a / blk * blk <=? k) && (k <? (a + n + blk - 1) / blk * blk)
               then 255 else f k).

Definition nor_ops : flash_ops (Z -> Z) := FlashOps nor_read nor_write nor_erase.

Lemma land_255_byte x : is_byte x -> Z.land 255 x = x.
Proof.
  intros H. unfold is_byte in H. rewrite Z.land_comm, (land_mask x 255 8) by done.
  apply Z.mod_small. lia.
Qed.

Lemma map_seqZ_sub (d : list Z) a j m :
  0 <= a -> a <= j -> 0 <= m -> j + m <= a + zlen d ->
  map (fun k => nth (Z.to_nat (k - a)) d 0) (seqZ j m) = buf_sub d (j - a) m.
Proof.
  intros Ha Hj Hm Hr. unfold buf_sub, zlen in *. apply list_eq. intros i.
  rewrite list_lookup_fmap.
  destruct (decide (i < Z.to_nat m)%nat) as [Hi|Hi].
  - rewrite lookup_seqZ_lt by lia. simpl. rewrite lookup_take_lt, lookup_drop by lia.
    destruct (nth_lookup_or_length d (Z.to_nat (j - a) + i) 0) as [E|]; [|lia].
    rewrite E. do 2 f_equal. lia.
  - rewrite lookup_seqZ_ge by lia. symmetry. apply lookup_ge_None_2.
    rewrite length_take. lia.
Qed.

Lemma map_seqZ_ext (g h : Z -> Z) j m :
  (forall k, j <= k < j + m -> g k = h k) -> map g (seqZ j m) = map h (seqZ j m).
Proof.
  intros H. apply map_ext_in. intros k Hk.
  apply list_elem_of_In, elem_of_seqZ in Hk. apply H. lia.
Qed.

Lemma map_seqZ_window (g : Z -> Z) a n j m :
  a <= j -> 0 <= m -> j + m <= a + n ->
  map g (seqZ j m) = buf_sub (map g (seqZ a n)) (j - a) m.
Proof.
  intros Hj Hm Hr. unfold buf_sub. apply list_eq. intros i.
  destruct (decide (i < Z.to_nat m)%nat) as [Hi|Hi].
  - rewrite lookup_take_lt, lookup_drop, !list_lookup_fmap, !lookup_seqZ_lt by lia.
    simpl. do 2 f_equal. lia.
  - rewrite lookup_take_ge, list_lookup_fmap, lookup_seqZ_ge by lia. done.
Qed.

#[export] Instance nor_device : FlashDevice nor_ops size blk.
Proof.
  split; [done|..]; simpl.
  - intros f a n _ Hn _. split_and!; [done| |].
    + unfold zlen. rewrite length_map, length_seqZ. lia.
    + apply Forall_map, Forall_true. intros k. apply u8_range.
  - intros f a n j m Ha Hs Hj Hm Hr. by apply map_seqZ_window.
  - by left.
  - by left.
  - intros f f1 f2 a n d Ha Hal Hn Hs Hd Hlen [= <-] [= Hn' <-] j m Hj Hm Hlo Hhi.
    rewrite <- (map_seqZ_sub d a j m) by lia. apply map_seqZ_ext. intros k Hk.
    destruct (Z.leb_spec a k); [|lia]. destruct (Z.ltb_spec k (a + zlen d)); [|lia].
    simpl.
    assert (a / blk * blk <= k) as H1 by (pose proof (Z.mul_div_le a blk blk_pos); lia).
    assert (k < (a + n + blk - 1) / blk * blk) as H2.
    { pose proof (Z.mod_pos_bound (a + n + blk - 1) blk blk_pos).
      pose proof (Z.div_mod (a + n + blk - 1) blk). lia. }
    destruct (Z.leb_spec (a / blk * blk) k); [|lia].
    destruct (Z.ltb_spec k ((a + n + blk - 1) / blk * blk)); [|lia]. simpl.
    assert (is_byte (nth (Z.to_nat (k - a)) d 0)) as Hbyte.
    { destruct (nth_lookup_or_length d (Z.to_nat (k - a)) 0) as [E|]; [|unfold zlen in *; lia].
      by apply (Forall_lookup_1 _ _ _ _ Hd E). }
    rewrite (u8_id 255) by lia. rewrite land_255_byte by done. apply u8_id. exact Hbyte.
  - intros f f' a d r j m Ha Hs [= <- <-] Hj Hm Hjm Hdisj. apply map_seqZ_ext.
    intros k Hk. f_equal. repeat case_bool.
  - intros f f' a n r j m Ha Hal Hn Hs [= <- <-] Hj Hm Hjm Hdisj. apply map_seqZ_ext.
    intros k Hk. f_equal.
    assert (a / blk * blk = a) as -> by (pose proof (Z.div_mod a blk ltac:(lia)); lia).
    repeat case_bool.
Qed.

End Nor.

(** The on-chip driver erases whole sectors only, rounded down: a request
    smaller than one sector erases nothing, still reports success, and does so
    too through the device that stands in for the external flash. *)
Theorem wm_flash_erase_small {C} (tls_fls_erase : C -> Z -> option C)
    (tls_fls_read : C -> Z -> Z -> option (list Z)) (tls_fls_write : C -> Z -> list Z -> option C)
    (w : wm_flash) (off n : Z) :
  0 <= n < FLASH_SECTOR ->
  fst (wm_flash_erase tls_fls_erase w off n) = n /\
  chip (snd (wm_flash_erase tls_fls_erase w off n)) = chip w /\
  op_erase (chip_ops tls_fls_read tls_fls_write tls_fls_erase) w off n
    = wm_flash_erase tls_fls_erase w (i32 (off + 0x100000)) n.
Proof.
  unfold FLASH_SECTOR. intros Hn. split_and!; [..|done].
  all: unfold wm_flash_erase, FLASH_SECTOR; rewrite (Z.div_small n 4096) by lia; simpl.
  all: destruct w as [[] b c]; simpl; done.
Qed.

Lemma wm_flash_erase_small_witness :
  fst (wm_flash_erase (fun (c : nat) _ => Some (S c)) (WmFlash true 0 7%nat) 0 2048) = 2048 /\
  chip (snd (wm_flash_erase (fun (c : nat) _ => Some (S c)) (WmFlash true 0 7%nat) 0 2048)) = 7%nat.
Proof.
  destruct (wm_flash_erase_small (fun (c : nat) _ => Some (S c)) (fun _ _ _ => None)
    (fun _ _ _ => None) (WmFlash true 0 7%nat) 0 2048) as (H1 & H2 & _);
    [unfold FLASH_SECTOR; lia|]. exact (conj H1 H2).
Defined.
