(* ===== verification/Fal.v ===== *)
(** * The Flash Abstraction Layer

    Models src/packages/fal-v0.3.0/src/fal_flash.c, fal_partition.c and fal.c
    for the configuration of src/rtconfig.h: two flash devices, a partition
    table that is searched for in the [w60x_onchip] flash downwards from
    offset 65536.  The theorems show that initialisation loads exactly the
    table stored there, that every access to a partition stays inside it and
    inside its device unless the 32-bit sum [addr + size] wraps, what happens
    when it wraps, and that partitions do not disturb each other. *)

From S2P Require Import Prelude Flash.

Local Open Scope Z_scope.

Definition FAL_PART_MAGIC_WROD : Z := 0x45503130.
Definition FAL_DEV_NAME_MAX : nat := 24.
Definition FAL_PART_TABLE_FLASH_DEV_NAME : list Z := str "w60x_onchip".
Definition FAL_PART_TABLE_END_OFFSET : Z := 65536.

(** [strncmp(a, b, n) == 0] for strings given by their characters. *)
Definition strncmp_eq (n : nat) (a b : list Z) : bool := bool_decide (take n a = take n b).

(** [strcmp(s, mem) == 0] for the memory [mem] that follows a pointer. *)
Definition strcmp_mem (s mem : list Z) : bool :=
  bool_decide (take (S (length s)) mem = s ++ [0]).

(** The characters of a [char[n]] field, which need not be terminated. *)
Fixpoint cstr_upto (l : list Z) : list Z :=
  match l with
  | [] => []
  | c :: l => if c =? 0 then [] else c :: cstr_upto l
  end.

(** ** [struct fal_partition]: its 64 bytes as they lie in flash *)
Definition sizeof_fal_partition : Z := 64.

Abbreviation fal_partition := (list Z) (only parsing).

Definition magic_word (p : fal_partition) : Z := le_val (buf_sub p 0 4).
Definition part_name_mem (p : fal_partition) : list Z := drop 4 p.
Definition flash_name (p : fal_partition) : list Z := cstr_upto (buf_sub p 28 24).
Definition part_offset (p : fal_partition) : Z := i32 (le_val (buf_sub p 52 4)).
Definition part_len (p : fal_partition) : Z := le_val (buf_sub p 56 4).

(** A table entry as a linker or the image tool lays it out. *)
Definition name_field (s : list Z) : list Z := s ++ replicate (24 - length s) 0.

Definition mk_partition (name fname : list Z) (offset len : Z) : fal_partition :=
  le_bytes 4 FAL_PART_MAGIC_WROD ++ name_field name ++ name_field fname
  ++ le_bytes 4 offset ++ le_bytes 4 len ++ le_bytes 4 0.

(** ** State: the static variables of the three files *)
Record fal_state := FalState {
  flash_init_ok : bool;
  part_init_ok : bool;
  partition_table : list fal_partition;
  partition_table_len : Z;
  fal_init_ok : bool
}.

Definition fal_boot : fal_state := FalState false false [] 0 false.

Section Fal.
Context {F : Type}.
Context (device_table : list (fal_flash_dev F)).

(** [fal_flash_init]: marks the layer ready; the devices' [init] functions
    fill in the descriptions of [device_table]. *)
Definition fal_flash_init (s : fal_state) : Z * fal_state :=
  if flash_init_ok s then (0, s)
  else (0, FalState true (part_init_ok s) (partition_table s) (partition_table_len s)
             (fal_init_ok s)).

(** [fal_flash_device_find]: a failed assertion halts the program. *)
Definition find_device (name : list Z) : option (fal_flash_dev F) :=
  List.find (fun d => strncmp_eq FAL_DEV_NAME_MAX name (dev_name d)) device_table.

Definition fal_flash_device_find (s : fal_state) (name : list Z)
  : option (option (fal_flash_dev F)) :=
  if flash_init_ok s then Some (find_device name) else None.

(** The search loop: [part_table_offset] runs down from [n] to 0. *)
Fixpoint find_table (ops : flash_ops F) (f : F) (n : nat) : option Z :=
  let '(r, d) := op_read ops f (Z.of_nat n) 4 in
  if 0 <? r then
    if le_val d =? FAL_PART_MAGIC_WROD then Some (Z.of_nat n)
    else match n with O => None | S n => find_table ops f n end
  else None.

(** The load loop: entry after entry, each below the last.  [alloc k] is
    whether the reallocation for entry [k] succeeds.  The result is the table;
    it is empty when a read or an allocation fails ([table_num = 0]).  [None]
    when the fuel runs out. *)
Fixpoint load_table (fuel : nat) (ops : flash_ops F) (f : F) (alloc : nat -> bool)
    (offset : Z) (table : list fal_partition) : option (list fal_partition) :=
  match fuel with
  | O => None
  | S fuel =>
      let '(r, new_part) :=
        op_read ops f (i32 (offset - sizeof_fal_partition * zlen table)) sizeof_fal_partition in
      if r <? 0 then Some []
      else if negb (magic_word new_part =? FAL_PART_MAGIC_WROD) then Some table
      else if negb (alloc (length table)) then Some []
      else load_table fuel ops f alloc offset (table ++ [new_part])
  end.

(** The final loop: every entry names a device and starts inside it. *)
Definition entry_ok (p : fal_partition) : bool :=
  match find_device (flash_name p) with
  | None => false
  | Some d => part_offset p <? i32 (dev_len d)
  end.

(** [fal_partition_init]. *)
Definition fal_partition_init (fuel : nat) (buf_ok : bool) (alloc : nat -> bool) (f : F)
    (s : fal_state) : option (Z * fal_state) :=
  if part_init_ok s then Some (partition_table_len s, s) else
  let fail := Some (partition_table_len s, s) in
  dev ← fal_flash_device_find s FAL_PART_TABLE_FLASH_DEV_NAME;
  match dev with
  | None => fail
  | Some dev =>
      if i32 (dev_len dev) <=? FAL_PART_TABLE_END_OFFSET then fail
      else if negb buf_ok then fail
      else match find_table (dev_ops dev) f (Z.to_nat FAL_PART_TABLE_END_OFFSET) with
           | None => fail
           | Some off =>
               table ← load_table fuel (dev_ops dev) f alloc off [];
               if zlen table =? 0 then fail
               else if forallb entry_ok table
               then Some (zlen table,
                          FalState (flash_init_ok s) true table (zlen table) (fal_init_ok s))
               else Some (0, FalState (flash_init_ok s) false table 0 (fal_init_ok s))
           end
  end.

(** [fal_init]. *)
Definition fal_init (fuel : nat) (buf_ok : bool) (alloc : nat -> bool) (f : F) (s : fal_state)
  : option (Z * fal_state) :=
  let '(result, s) := fal_flash_init s in
  '(result, s) ← (if result <? 0 then Some (result, s)
                  else fal_partition_init fuel buf_ok alloc f s);
  let ok := if (0 <? result) && negb (fal_init_ok s) then true
            else if result <=? 0 then false else fal_init_ok s in
  Some (result, FalState (flash_init_ok s) (part_init_ok s) (partition_table s)
                  (partition_table_len s) ok).

(** [fal_partition_find]. *)
Definition fal_partition_find (s : fal_state) (name : list Z)
  : option (option fal_partition) :=
  if part_init_ok s
  then Some (List.find (fun p => strcmp_mem name (part_name_mem p))
               (take (Z.to_nat (partition_table_len s)) (partition_table s)))
  else None.

(** [fal_set_partition_table_temp]. *)
Definition fal_set_partition_table_temp (s : fal_state) (table : list fal_partition) (len : Z)
  : option fal_state :=
  if part_init_ok s
  then Some (FalState (flash_init_ok s) true table len (fal_init_ok s)) else None.

(** [fal_partition_read], [fal_partition_write], [fal_partition_erase],
    [fal_partition_erase_all]; [flash_init_ok] is asserted by the device
    search. *)
Definition fal_partition_read (p : fal_partition) (f : F) (addr size : Z) : Z * list Z :=
  if part_len p <? u32 (addr + size) then (-1, [])
  else match find_device (flash_name p) with
       | None => (-1, [])
       | Some d => op_read (dev_ops d) f (i32 (part_offset p + addr)) size
       end.

Definition fal_partition_write (p : fal_partition) (f : F) (addr : Z) (buf : list Z) : Z * F :=
  if part_len p <? u32 (addr + zlen buf) then (-1, f)
  else match find_device (flash_name p) with
       | None => (-1, f)
       | Some d => op_write (dev_ops d) f (i32 (part_offset p + addr)) buf
       end.

Definition fal_partition_erase (p : fal_partition) (f : F) (addr size : Z) : Z * F :=
  if part_len p <? u32 (addr + size) then (-1, f)
  else match find_device (flash_name p) with
       | None => (-1, f)
       | Some d => op_erase (dev_ops d) f (i32 (part_offset p + addr)) size
       end.

Definition fal_partition_erase_all (p : fal_partition) (f : F) : Z * F :=
  fal_partition_erase p f 0 (part_len p).

(** ** Entries laid out by [mk_partition] read back *)
Definition name_ok (s : list Z) : Prop := cstring s /\ zlen s < 24.

Lemma name_field_len s : zlen s < 24 -> zlen (name_field s) = 24.
Proof. intros H. unfold name_field. autorewrite with zlen. unfold zlen in *. lia. Qed.

Lemma cstr_upto_app s rest : cstring s -> cstr_upto (s ++ 0 :: rest) = s.
Proof.
  induction 1 as [|c s Hc H IH]; [done|]. simpl. unfold is_cchar in Hc.
  case_bool. by rewrite IH.
Qed.

Lemma name_field_app s :
  zlen s < 24 -> exists rest, name_field s = s ++ 0 :: rest.
Proof.
  intros H. unfold name_field. exists (replicate (23 - length s) 0).
  replace (24 - length s)%nat with (S (23 - length s))%nat by (unfold zlen in H; lia). done.
Qed.

Lemma mk_partition_fields name fname off len :
  name_ok name -> name_ok fname -> 0 <= off < 2 ^ 31 -> 0 <= len < 2 ^ 32 ->
  let p := mk_partition name fname off len in
  zlen p = 64 /\ magic_word p = FAL_PART_MAGIC_WROD /\ flash_name p = fname /\
  part_offset p = off /\ part_len p = len.
Proof.
  intros [Hn Hnl] [Hf Hfl] Hoff Hlen p. unfold p, mk_partition.
  pose proof (name_field_len name Hnl). pose proof (name_field_len fname Hfl).
  unfold magic_word, flash_name, part_offset, part_len.
  split_and!.
  - autorewrite with zlen. lia.
  - rewrite buf_sub_here by (autorewrite with zlen; lia). by vm_compute.
  - do 2 rewrite buf_sub_skip by (autorewrite with zlen; lia). autorewrite with zlen.
    replace (28 - Z.of_nat 4 - zlen (name_field name)) with 0 by lia.
    rewrite buf_sub_here by done. destruct (name_field_app fname Hfl) as [rest ->].
    by apply cstr_upto_app.
  - do 3 rewrite buf_sub_skip by (autorewrite with zlen; lia). autorewrite with zlen.
    replace (52 - Z.of_nat 4 - zlen (name_field name) - zlen (name_field fname)) with 0 by lia.
    rewrite buf_sub_here by (autorewrite with zlen; lia).
    rewrite le_val_bytes by (change (256 ^ Z.of_nat 4) with (2 ^ 32); lia). apply i32_id. lia.
  - do 4 rewrite buf_sub_skip by (autorewrite with zlen; lia). autorewrite with zlen.
    replace (56 - Z.of_nat 4 - zlen (name_field name) - zlen (name_field fname) - Z.of_nat 4)
      with 0 by lia.
    rewrite buf_sub_here by (autorewrite with zlen; lia).
    apply le_val_bytes. change (256 ^ Z.of_nat 4) with (2 ^ 32). lia.
Qed.

(** ** Finding and loading the table *)
Lemma find_table_spec (ops : flash_ops F) f (n : nat) (off : Z) :
  0 <= off <= Z.of_nat n ->
  (forall k, off < k <= Z.of_nat n -> 0 < fst (op_read ops f k 4) /\
     le_val (snd (op_read ops f k 4)) <> FAL_PART_MAGIC_WROD) ->
  0 < fst (op_read ops f off 4) -> le_val (snd (op_read ops f off 4)) = FAL_PART_MAGIC_WROD ->
  find_table ops f n = Some off.
Proof.
  intros Hoff Habove Hr Hm. revert Hoff Habove.
  induction n as [|n IH]; intros Hoff Habove.
  - assert (off = 0) as -> by lia. cbn [find_table]. change (Z.of_nat 0) with 0.
    destruct (op_read ops f 0 4) as [r d]. simpl in *. by repeat case_bool.
  - destruct (Z.eq_dec off (Z.of_nat (S n))) as [->|Hne].
    + cbn [find_table]. destruct (op_read ops f (Z.of_nat (S n)) 4) as [r d]. simpl in *.
      by repeat case_bool.
    + cbn [find_table]. destruct (Habove (Z.of_nat (S n)) ltac:(lia)) as [Hr' Hm'].
      destruct (op_read ops f (Z.of_nat (S n)) 4) as [r d]. simpl in *. repeat case_bool.
      apply IH; [lia|]. intros k Hk. apply Habove. lia.
Qed.

(** The flash holds the entries [ps] one below the other from [off], and no
    further entry below. *)
Definition stored (ops : flash_ops F) (f : F) (off : Z) (ps : list fal_partition) : Prop :=
  (forall i p, ps !! i = Some p ->
     op_read ops f (off - sizeof_fal_partition * Z.of_nat i) sizeof_fal_partition
       = (sizeof_fal_partition, p) /\ magic_word p = FAL_PART_MAGIC_WROD) /\
  exists d, op_read ops f (off - sizeof_fal_partition * zlen ps) sizeof_fal_partition
    = (sizeof_fal_partition, d) /\ magic_word d <> FAL_PART_MAGIC_WROD.

Lemma load_table_spec (ops : flash_ops F) f off ps fuel done rest :
  stored ops f off ps -> ps = done ++ rest -> (length rest < fuel)%nat ->
  0 <= off < 2 ^ 31 -> sizeof_fal_partition * zlen ps <= off ->
  load_table fuel ops f (fun _ => true) off done = Some ps.
Proof.
  intros [Hin (d & Hd & Hdm)] Hps Hfuel Hoff Hfit.
  unfold sizeof_fal_partition in *.
  revert done fuel Hps Hfuel. induction rest as [|p rest IH]; intros done fuel Hps Hfuel.
  - destruct fuel as [|fuel]; [simpl in Hfuel; lia|]. rewrite app_nil_r in Hps. subst done.
    cbn [load_table]. pose proof (zlen_nonneg ps).
    unfold sizeof_fal_partition. rewrite i32_id by lia. rewrite Hd.
    change (64 <? 0) with false. cbn [negb]. by destruct (Z.eqb_spec (magic_word d) FAL_PART_MAGIC_WROD).
  - destruct fuel as [|fuel]; [simpl in Hfuel; lia|].
    destruct (Hin (length done) p) as [Hr Hm];
      [by rewrite Hps, lookup_app_r, Nat.sub_diag by lia|].
    assert (zlen done < zlen ps) by (rewrite Hps; autorewrite with zlen;
      pose proof (zlen_nonneg rest); lia).
    pose proof (zlen_nonneg done).
    cbn [load_table]. unfold sizeof_fal_partition. rewrite i32_id by lia.
    unfold zlen at 1. rewrite Hr. change (64 <? 0) with false. rewrite Hm, Z.eqb_refl.
    cbn [negb]. apply IH; [by rewrite <- app_assoc|simpl in Hfuel; lia].
Qed.

(** The flash of [dev] holds a partition table: what [fal_init] reads. *)
Record table_stored (dev : fal_flash_dev F) (f : F) (off : Z) (ps : list fal_partition) : Prop := {
  table_above : forall k, off < k <= FAL_PART_TABLE_END_OFFSET -> 0 < fst (op_read (dev_ops dev) f k 4) /\
    le_val (snd (op_read (dev_ops dev) f k 4)) <> FAL_PART_MAGIC_WROD;
  table_read : 0 < fst (op_read (dev_ops dev) f off 4);
  table_magic : le_val (snd (op_read (dev_ops dev) f off 4)) = FAL_PART_MAGIC_WROD;
  table_entries : stored (dev_ops dev) f off ps
}.

Lemma table_stored_same dev f f' off ps :
  (forall a n, op_read (dev_ops dev) f' a n = op_read (dev_ops dev) f a n) ->
  table_stored dev f off ps -> table_stored dev f' off ps.
Proof.
  intros Hr [Ha Hrd Hm [Hin (d & Hd & Hdm)]]. split; [intros k Hk|..]; rewrite ?Hr; try done; [by apply Ha|].
  split; [intros i p Hi|exists d]; rewrite Hr; [by apply Hin|done].
Qed.

Lemma fal_init_table (dev : fal_flash_dev F) f off ps fuel :
  find_device FAL_PART_TABLE_FLASH_DEV_NAME = Some dev ->
  FAL_PART_TABLE_END_OFFSET < dev_len dev < 2 ^ 31 ->
  sizeof_fal_partition * zlen ps <= off <= FAL_PART_TABLE_END_OFFSET ->
  table_stored dev f off ps -> ps <> [] ->
  forallb entry_ok ps = true -> (length ps < fuel)%nat ->
  fal_init fuel true (fun _ => true) f fal_boot
    = Some (zlen ps, FalState true true ps (zlen ps) true).
Proof.
  unfold FAL_PART_TABLE_END_OFFSET. intros Hdev Hlen Hoff [Habove Hr Hm Hst] Hne Hok Hfuel.
  pose proof (zlen_nonneg ps). unfold sizeof_fal_partition in Hoff.
  assert (0 < zlen ps) by (unfold zlen; destruct ps; [done|simpl; lia]).
  unfold fal_init, fal_flash_init, fal_boot. cbn [flash_init_ok Z.ltb Z.compare].
  unfold fal_partition_init, fal_flash_device_find. cbn [part_init_ok flash_init_ok].
  cbn [mbind option_bind]. rewrite Hdev, i32_id by lia.
  destruct (Z.leb_spec (dev_len dev) FAL_PART_TABLE_END_OFFSET);
    [unfold FAL_PART_TABLE_END_OFFSET in *; lia|]. cbn [negb].
  rewrite (find_table_spec (dev_ops dev) f (Z.to_nat FAL_PART_TABLE_END_OFFSET) off);
    [|unfold FAL_PART_TABLE_END_OFFSET; lia| |done|done].
  2: { intros k Hk. apply Habove. unfold FAL_PART_TABLE_END_OFFSET in *. lia. }
  rewrite (load_table_spec (dev_ops dev) f off ps fuel [] ps);
    [|done..|unfold sizeof_fal_partition; lia|unfold sizeof_fal_partition; lia].
  cbn [mbind option_bind]. destruct (Z.eqb_spec (zlen ps) 0); [lia|]. rewrite Hok.
  cbn. destruct (Z.ltb_spec 0 (zlen ps)); [done|lia].
Qed.

(** Initialisation loads exactly the partition table stored in the
    on-chip flash: the entries found below the highest magic word, in order,
    as many as there are, provided each names a known device. *)
Theorem fal_init_loads (dev : fal_flash_dev F) f off ps fuel :
  find_device FAL_PART_TABLE_FLASH_DEV_NAME = Some dev ->
  FAL_PART_TABLE_END_OFFSET < dev_len dev < 2 ^ 31 ->
  sizeof_fal_partition * zlen ps <= off <= FAL_PART_TABLE_END_OFFSET ->
  (forall k, off < k <= FAL_PART_TABLE_END_OFFSET -> 0 < fst (op_read (dev_ops dev) f k 4) /\
     le_val (snd (op_read (dev_ops dev) f k 4)) <> FAL_PART_MAGIC_WROD) ->
  0 < fst (op_read (dev_ops dev) f off 4) ->
  le_val (snd (op_read (dev_ops dev) f off 4)) = FAL_PART_MAGIC_WROD ->
  stored (dev_ops dev) f off ps -> ps <> [] ->
  forallb entry_ok ps = true -> (length ps < fuel)%nat ->
  fal_init fuel true (fun _ => true) f fal_boot
    = Some (zlen ps, FalState true true ps (zlen ps) true).
Proof.
  intros Hdev Hlen Hoff Habove Hr Hm Hst Hne Hok Hfuel.
  by apply (fal_init_table dev f off ps fuel Hdev Hlen Hoff (Build_table_stored _ _ _ _ Habove Hr Hm Hst)).
Qed.

(** ** Accesses *)
Section Access.
Context (p : fal_partition) (d : fal_flash_dev F).
Hypothesis Hdev : find_device (flash_name p) = Some d.
Hypothesis Hfit : 0 <= part_offset p /\ part_offset p + part_len p <= dev_len d.
Hypothesis Hdevlen : dev_len d < 2 ^ 31.

(** An access inside the partition is the device operation at the translated
    offset. *)
Lemma partition_inside f addr size buf :
  0 <= addr -> 0 <= size -> zlen buf = size -> addr + size <= part_len p ->
  fal_partition_read p f addr size = op_read (dev_ops d) f (part_offset p + addr) size /\
  fal_partition_write p f addr buf = op_write (dev_ops d) f (part_offset p + addr) buf /\
  fal_partition_erase p f addr size = op_erase (dev_ops d) f (part_offset p + addr) size.
Proof.
  intros Ha Hs Hb Hin. unfold fal_partition_read, fal_partition_write, fal_partition_erase.
  rewrite Hb, u32_id, Hdev by lia.
  destruct (Z.ltb_spec (part_len p) (addr + size)); [lia|].
  rewrite i32_id by lia. done.
Qed.


(** The bound check is done in 32-bit arithmetic: an address close to
    2^32 passes it, and the write lands in front of the partition. *)
Theorem fal_partition_write_wraps f k buf :
  0 < k <= part_offset p -> k <= zlen buf -> zlen buf - k <= part_len p ->
  part_len p < 2 ^ 31 ->
  fal_partition_write p f (2 ^ 32 - k) buf
    = op_write (dev_ops d) f (part_offset p - k) buf.
Proof.
  intros Hk Hb Hl Hp. unfold fal_partition_write.
  assert (u32 (2 ^ 32 - k + zlen buf) = zlen buf - k) as ->.
  { unfold u32. replace (2 ^ 32 - k + zlen buf) with (zlen buf - k + 1 * 2 ^ 32) by lia.
    rewrite Z.mod_add by lia. apply Z.mod_small. lia. }
  destruct (Z.ltb_spec (part_len p) (zlen buf - k)); [lia|]. rewrite Hdev. f_equal.
  unfold i32. replace (part_offset p + (2 ^ 32 - k) + 2 ^ 31)
    with (part_offset p - k + 2 ^ 31 + 1 * 2 ^ 32) by lia.
  rewrite Z.mod_add by lia. rewrite Z.mod_small by lia. lia.
Qed.

End Access.

(** Partitions on one device do not disturb each other: when their ranges
    are disjoint and start on an erase block, no write into and no erase of
    the first changes what is read from the second. *)
Theorem fal_partition_isolated (d : fal_flash_dev F) (p q : fal_partition)
    `{!FlashDevice (dev_ops d) (dev_len d) (dev_blk_size d)} f addr size buf a n :
  find_device (flash_name p) = Some d -> find_device (flash_name q) = Some d ->
  dev_len d < 2 ^ 31 -> 0 < part_len p ->
  0 <= part_offset p /\ part_offset p + part_len p <= dev_len d ->
  0 <= part_offset q /\ part_offset q + part_len q <= dev_len d ->
  part_offset p `mod` dev_blk_size d = 0 -> part_offset q `mod` dev_blk_size d = 0 ->
  part_offset p + part_len p <= part_offset q \/ part_offset q + part_len q <= part_offset p ->
  0 <= addr -> addr `mod` dev_blk_size d = 0 -> 0 < size -> addr + size <= part_len p ->
  zlen buf = size ->
  0 <= a -> 0 <= n -> a + n <= part_len q ->
  snd (fal_partition_read q (snd (fal_partition_write p f addr buf)) a n)
    = snd (fal_partition_read q f a n) /\
  snd (fal_partition_read q (snd (fal_partition_erase p f addr size)) a n)
    = snd (fal_partition_read q f a n).
Proof.
  intros Hdp Hdq Hlen Hp Hfp Hfq Hap Haq Hdisj Hadr Hal Hsz Hfit Hb Ha Hn Hr.
  destruct (partition_inside p d Hdp Hfp Hlen f addr size buf) as (_ & Hw & He); [lia..|].
  assert (forall f', fal_partition_read q f' a n = op_read (dev_ops d) f' (part_offset q + a) n)
    as Hrd.
  { intros f'. apply (partition_inside q d Hdq Hfq Hlen f' a n (replicate (Z.to_nat n) 0));
      [lia..| |lia]. autorewrite with zlen. lia. }
  rewrite !Hrd, Hw, He. pose proof fd_blk_pos as Hblk. split.
  - destruct (op_write (dev_ops d) f (part_offset p + addr) buf) as [r f'] eqn:E.
    eapply fd_write_frame; [| |exact E|..]; lia.
  - destruct (op_erase (dev_ops d) f (part_offset p + addr) size) as [r f'] eqn:E.
    eapply fd_erase_frame; [| | | |exact E|..]; try lia.
    + rewrite Z.add_mod, Hap, Hal by lia. by rewrite Z.mod_0_l by lia.
    + destruct Hdisj as [Hd|Hd]; [|lia]. right.
      set (b := dev_blk_size d) in *.
      assert (part_offset q = part_offset q / b * b) as Eq
        by (pose proof (Z.div_mod (part_offset q) b ltac:(lia)); lia).
      assert ((part_offset p + addr + size + b - 1) / b <= part_offset q / b); [|nia].
      etransitivity; [apply (Z.div_le_mono _ (b - 1 + part_offset q / b * b)); lia|].
      rewrite Z.div_add, Z.div_small by lia. lia.
Qed.

End Fal.

(** The device searched for is the first of the table when the names agree. *)
Lemma find_device_head {F} (d : fal_flash_dev F) l name :
  strncmp_eq FAL_DEV_NAME_MAX name (dev_name d) = true -> find_device (d :: l) name = Some d.
Proof. intros H. unfold find_device. simpl. by rewrite H. Qed.

Lemma find_device_next {F} (d : fal_flash_dev F) l name :
  strncmp_eq FAL_DEV_NAME_MAX name (dev_name d) = false -> find_device (d :: l) name = find_device l name.
Proof. unfold find_device. cbn [List.find]. by intros ->. Qed.

(** ** Concrete inputs: a NOR flash with a two-entry table *)
Definition sample_dev : fal_flash_dev (Z -> Z) :=
  FalFlashDev (str "w60x_onchip") 0 (2 * 1024 * 1024) 4096 (nor_ops 4096).

Definition sample_app : fal_partition :=
  mk_partition (str "app") (str "w60x_onchip") 8192 4096.

Definition sample_env : fal_partition :=
  mk_partition (str "easyflash") (str "w60x_onchip") 16384 8192.

(** The entries at offsets 65536 and 65472 of an otherwise blank flash. *)
Definition sample_flash : Z -> Z := fun k =>
  if (65536 <=? k) && (k <? 65600) then nth (Z.to_nat (k - 65536)) sample_app 0
  else if (65472 <=? k) && (k <? 65536) then nth (Z.to_nat (k - 65472)) sample_env 0 else 255.

Lemma fal_init_loads_witness :
  fal_init [sample_dev] 3 true (fun _ => true) sample_flash fal_boot
    = Some (2, FalState true true [sample_app; sample_env] 2 true).
Proof.
  apply (fal_init_loads [sample_dev] sample_dev sample_flash 65536 [sample_app; sample_env] 3);
    [apply find_device_head; vm_compute; reflexivity|by_decide|by_decide| | | | | | |].
  - intros k Hk. unfold FAL_PART_TABLE_END_OFFSET in Hk. lia.
  - vm_compute; reflexivity.
  - vm_compute; reflexivity.
  - split.
    + intros [|[|i]] p H.
      1, 2: injection H as <-; split; vm_compute; reflexivity.
      discriminate H.
    + eexists. split; [vm_compute; reflexivity|vm_compute; discriminate].
  - discriminate.
  - vm_compute; reflexivity.
  - cbn [length]. lia.
Defined.


Lemma fal_partition_write_wraps_witness :
  fal_partition_write [sample_dev] sample_app sample_flash (2 ^ 32 - 16) (replicate 32 0)
    = op_write (nor_ops 4096) sample_flash (8192 - 16) (replicate 32 0).
Proof.
  apply (fal_partition_write_wraps [sample_dev] sample_app sample_dev);
    [apply find_device_head; vm_compute; reflexivity|by_decide..].
Defined.

Lemma fal_partition_isolated_witness :
  snd (fal_partition_read [sample_dev] sample_env
         (snd (fal_partition_erase [sample_dev] sample_app sample_flash 0 4096)) 0 8)
    = snd (fal_partition_read [sample_dev] sample_env sample_flash 0 8).
Proof.
  pose proof (nor_device (2 * 1024 * 1024) 4096 ltac:(lia)) as Hdev.
  apply (fal_partition_isolated [sample_dev] sample_dev sample_app sample_env
    sample_flash 0 4096 (replicate 4096 0) 0 8);
    [apply find_device_head; vm_compute; reflexivity
    |apply find_device_head; vm_compute; reflexivity|by_decide..].
Defined.
