(* ===== verification/CLib.v ===== *)
(** * The C library functions the firmware calls

    Decimal conversion ([sprintf("%d")], [atoi]) and the string and memory
    comparison functions, on strings given as the list of their characters. *)

From S2P Require Import Prelude.

Local Open Scope Z_scope.

(** ** Decimal numbers *)
Definition digit_char (d : Z) : Z := 48 + d.

Definition is_digit (c : Z) : bool := (48 <=? c) && (c <=? 57).

(** Digits of a non-negative number, most significant first; ten turns cover
    every 32-bit number. *)
Fixpoint digits (fuel : nat) (n : Z) (acc : list Z) : list Z :=
  match fuel with
  | O => acc
  | S fuel =>
      let acc := digit_char (n `mod` 10) :: acc in
      if n / 10 =? 0 then acc else digits fuel (n / 10) acc
  end.

(** [sprintf(buf, "%d", n)] for an [int]. *)
Definition sprintf_d (n : Z) : list Z :=
  if n <? 0 then 45 :: digits 10 (- n) [] else digits 10 n [].

(** [atoi]: blanks, a sign, digits up to the first other character. *)
Fixpoint atoi_digits (s : list Z) (acc : Z) : Z :=
  match s with
  | [] => acc
  | c :: s => if is_digit c then atoi_digits s (10 * acc + (c - 48)) else acc
  end.

Definition is_space (c : Z) : bool := (c =? 32) || ((9 <=? c) && (c <=? 13)).

Fixpoint skip_spaces (s : list Z) : list Z :=
  match s with
  | [] => []
  | c :: s' => if is_space c then skip_spaces s' else s
  end.

Definition atoi (s : list Z) : Z :=
  match skip_spaces s with
  | [] => 0
  | c :: s' =>
      if c =? 45 then - atoi_digits s' 0
      else if c =? 43 then atoi_digits s' 0
      else atoi_digits (c :: s') 0
  end.

(** ** Round trip *)
Lemma atoi_digits_app ds rest acc :
  Forall (fun c => is_digit c = true) ds ->
  atoi_digits (ds ++ rest) acc = atoi_digits rest (atoi_digits ds acc).
Proof.
  intros H. revert acc. induction H as [|c ds Hc H IH]; intros acc; [done|].
  simpl. rewrite Hc. apply IH.
Qed.

Lemma digit_char_ok n : is_digit (digit_char (n `mod` 10)) = true.
Proof.
  unfold is_digit, digit_char. pose proof (Z.mod_pos_bound n 10 ltac:(lia)). repeat case_bool.
Qed.

Lemma digits_acc fuel n acc : digits fuel n acc = digits fuel n [] ++ acc.
Proof.
  revert n acc. induction fuel as [|fuel IH]; intros n acc; [done|]. simpl.
  case_match; [done|]. rewrite IH, (IH _ [_]), <- app_assoc. done.
Qed.

Lemma digits_digits fuel n : Forall (fun c => is_digit c = true) (digits fuel n []).
Proof.
  revert n. induction fuel as [|fuel IH]; intros n; [constructor|]. simpl.
  case_match; [by repeat constructor; apply digit_char_ok|].
  rewrite digits_acc, Forall_app. split; [apply IH|].
  constructor; [apply digit_char_ok|constructor].
Qed.

Lemma atoi_digits_digits fuel n : 0 <= n < 10 ^ Z.of_nat fuel ->
  atoi_digits (digits fuel n []) 0 = n.
Proof.
  revert n. induction fuel as [|fuel IH]; intros n Hn;
    [change (10 ^ Z.of_nat 0) with 1 in Hn; simpl; lia|].
  rewrite Nat2Z.inj_succ, Z.pow_succ_r in Hn by lia. cbn [digits].
  pose proof (Z.div_mod n 10 ltac:(lia)). pose proof (Z.mod_pos_bound n 10 ltac:(lia)).
  destruct (Z.eqb_spec (n / 10) 0) as [E|E].
  - cbn [atoi_digits]. rewrite digit_char_ok. unfold digit_char. lia.
  - rewrite digits_acc, atoi_digits_app by apply digits_digits.
    rewrite IH by (split; [apply Z.div_pos; lia|apply Z.div_lt_upper_bound; lia]).
    cbn [atoi_digits]. rewrite digit_char_ok. unfold digit_char. lia.
Qed.

Lemma digits_nonempty fuel n : (0 < fuel)%nat -> digits fuel n [] <> [].
Proof.
  destruct fuel as [|fuel]; [lia|]. intros _. simpl. case_match; [done|].
  rewrite digits_acc. by destruct (digits fuel (n / 10) []).
Qed.

Lemma digits_cstring fuel n : cstring (digits fuel n []).
Proof.
  eapply Forall_impl; [apply digits_digits|]. intros c Hc. unfold is_digit, is_cchar in *.
  apply andb_true_iff in Hc as [H1 H2]. apply Z.leb_le in H1, H2. lia.
Qed.

Lemma digits_length fuel n acc : (length (digits fuel n acc) <= fuel + length acc)%nat.
Proof.
  revert n acc. induction fuel as [|fuel IH]; intros n acc; [done|]. simpl.
  case_match; simpl; [lia|]. etransitivity; [apply IH|]. simpl. lia.
Qed.

Lemma sprintf_d_cstring n : cstring (sprintf_d n).
Proof.
  unfold sprintf_d. case_match; [constructor; [by_decide|]|]; apply digits_cstring.
Qed.

Lemma sprintf_d_chars n : Forall (fun c => c = 45 \/ is_digit c = true) (sprintf_d n).
Proof.
  assert (H : forall m, Forall (fun c => c = 45 \/ is_digit c = true) (digits 10 m []))
    by (intros m; eapply Forall_impl; [apply digits_digits|]; by right).
  unfold sprintf_d. case_match; [|done]. constructor; [by left|done].
Qed.

(** A 32-bit number printed with "%d" reads back, and fits a buffer of 12. *)
Lemma atoi_sprintf n : - 2 ^ 31 <= n < 2 ^ 31 -> atoi (sprintf_d n) = n.
Proof.
  intros Hn. unfold sprintf_d. destruct (Z.ltb_spec n 0).
  - pose proof (atoi_digits_digits 10 (- n)
      ltac:(change (10 ^ Z.of_nat 10) with 10000000000; lia)) as E.
    transitivity (- atoi_digits (digits 10 (- n) []) 0); [done|]. lia.
  - pose proof (atoi_digits_digits 10 n ltac:(change (10 ^ Z.of_nat 10) with 10000000000; lia)) as E.
    pose proof (digits_digits 10 n) as Hd. pose proof (digits_nonempty 10 n ltac:(lia)) as Hne.
    destruct (digits 10 n []) as [|c ds]; [done|]. apply Forall_cons in Hd as [Hc _].
    pose proof Hc as Hc'. unfold is_digit in Hc'.
    apply andb_true_iff in Hc' as [H1 H2]. apply Z.leb_le in H1, H2.
    unfold atoi. cbn [skip_spaces]. replace (is_space c) with false
      by (unfold is_space; repeat case_bool).
    repeat case_bool.
Qed.

Lemma sprintf_d_len n : zlen (sprintf_d n) <= 11.
Proof.
  unfold sprintf_d, zlen. pose proof (digits_length 10 n []). pose proof (digits_length 10 (- n) []).
  case_match; simpl length in *; lia.
Qed.
