(* ===== verification/EfEnv.v ===== *)
(** * EasyFlash: environment variables kept in flash

    Models src/packages/EasyFlash-v3.3.0/src/ef_env.c in power-fail-safeguard
    mode (the mode src/rtconfig.h selects), its port
    src/ports/easyflash/ef_fal_port.c on a FAL partition and [easyflash_init].
    The RAM cache is the byte array of the source: three little-endian words
    (end address, save counter, checksum) and the entries "key=value\0", each
    padded with NUL to a multiple of four bytes. *)

From S2P Require Import Prelude Crc32 Flash Fal.

Local Open Scope Z_scope.

Definition ENV_USER_SETTING_SIZE : Z := 2048.
Definition EF_ERASE_MIN_SIZE : Z := 4096.
Definition ENV_AREA_SIZE : Z := 2 * EF_ERASE_MIN_SIZE.
Definition EF_START_ADDR : Z := 0.

(** Word indices of the system section. *)
Definition ENV_PARAM_INDEX_END_ADDR : Z := 0.
Definition ENV_PARAM_INDEX_SAVED_COUNT : Z := 1.
Definition ENV_PARAM_INDEX_DATA_CRC : Z := 2.
Definition ENV_PARAM_BYTE_SIZE : Z := 12.

Inductive EfErrCode :=
| EF_NO_ERR
| EF_ERASE_ERR
| EF_READ_ERR
| EF_WRITE_ERR
| EF_ENV_NAME_ERR
| EF_ENV_NAME_EXIST
| EF_ENV_FULL
| EF_ENV_INIT_FAILED.

#[export] Instance EfErrCode_eq_dec : EqDecision EfErrCode.
Proof. solve_decision. Defined.

(** The static variables of ef_env.c and the semaphore of the port. *)
Record env_state := EnvState {
  env_cache : list Z;
  env_start_addr : Z;
  env_cache_changed : bool;
  init_ok : bool;
  cur_load_area_addr : Z;
  next_save_area_addr : Z;
  env_cache_lock : Z
}.

Definition set_cache (s : env_state) (c : list Z) : env_state :=
  EnvState c (env_start_addr s) (env_cache_changed s) (init_ok s) (cur_load_area_addr s)
    (next_save_area_addr s) (env_cache_lock s).

Definition set_changed (s : env_state) (b : bool) : env_state :=
  EnvState (env_cache s) (env_start_addr s) b (init_ok s) (cur_load_area_addr s)
    (next_save_area_addr s) (env_cache_lock s).

Definition set_init_ok (s : env_state) (b : bool) : env_state :=
  EnvState (env_cache s) (env_start_addr s) (env_cache_changed s) b (cur_load_area_addr s)
    (next_save_area_addr s) (env_cache_lock s).

Definition set_areas (s : env_state) (cur next : Z) : env_state :=
  EnvState (env_cache s) (env_start_addr s) (env_cache_changed s) (init_ok s) cur next
    (env_cache_lock s).

Definition set_lock (s : env_state) (n : Z) : env_state :=
  EnvState (env_cache s) (env_start_addr s) (env_cache_changed s) (init_ok s)
    (cur_load_area_addr s) (next_save_area_addr s) n.

(** [env_cache[i]] as a 32-bit word, and its assignment. *)
Definition cache_word (c : list Z) (i : Z) : Z := le_val (buf_sub c (4 * i) 4).

Definition cache_set_word (c : list Z) (i v : Z) : list Z :=
  take (Z.to_nat (4 * i)) c ++ le_bytes 4 v ++ drop (Z.to_nat (4 * i + 4)) c.

(** ** Addresses and sizes *)
Definition get_env_system_addr (s : env_state) : Z := cur_load_area_addr s.

Definition get_env_data_addr (s : env_state) : Z :=
  u32 (get_env_system_addr s + ENV_PARAM_BYTE_SIZE).

Definition get_env_end_addr (s : env_state) : Z :=
  cache_word (env_cache s) ENV_PARAM_INDEX_END_ADDR.

Definition set_env_end_addr (s : env_state) (end_addr : Z) : env_state :=
  set_cache s (cache_set_word (env_cache s) ENV_PARAM_INDEX_END_ADDR end_addr).

Definition get_env_data_size (s : env_state) : Z :=
  if get_env_data_addr s <? get_env_end_addr s
  then get_env_end_addr s - get_env_data_addr s else 0.

Definition get_env_user_used_size (s : env_state) : Z :=
  if get_env_system_addr s <? get_env_end_addr s
  then get_env_end_addr s - get_env_system_addr s else 0.

Definition ef_get_env_write_bytes (s : env_state) : Z := u32 (get_env_user_used_size s * 2).

(** ** The cache operations

    [None] is undefined behaviour: an access outside the cache. *)

(** Round up to a multiple of four, as the source spells it. *)
Definition align4 (n : Z) : Z := if n `mod` 4 =? 0 then n else u32 ((n / 4 + 1) * 4).

Definition write_env (s : env_state) (key value : list Z) : option (EfErrCode * env_state) :=
  let key_len := zlen key in
  let value_len := zlen value in
  let env_str_len := align4 (u32 (key_len + value_len + 2)) in
  if ENV_USER_SETTING_SIZE <=? u32 (env_str_len + get_env_user_used_size s)
  then Some (EF_ENV_FULL, s)
  else
    let at0 := get_env_user_used_size s in
    c ← buf_write (env_cache s) at0 key;
    c ← buf_write c (at0 + key_len) [61];
    c ← buf_write c (at0 + key_len + 1) value;
    c ← buf_write c (at0 + key_len + 1 + value_len) [0];
    c ← buf_write c (at0 + key_len + 1 + value_len + 1)
          (replicate (Z.to_nat (env_str_len - (key_len + value_len + 2))) 0);
    let s := set_cache s c in
    let s := set_env_end_addr s (get_env_end_addr s + env_str_len) in
    Some (EF_NO_ERR, set_changed s true).

(** The search loop of [find_env] from offset [env]; each turn advances by at
    least four bytes. *)
Fixpoint find_loop (fuel : nat) (c key : list Z) (env env_end : Z) : option (option Z) :=
  match fuel with
  | O => None
  | S fuel =>
      if env_end <=? env then Some None
      else
        let here := drop (Z.to_nat env) c in
        if bool_decide (take (length key) here = key) &&
           bool_decide (here !! length key = Some 61)
        then Some (Some env)
        else
          str ← buf_cstr here;
          let env_len := zlen str + 1 in
          find_loop fuel c key
            (if env_len `mod` 4 =? 0 then env + env_len else env + (env_len / 4 + 1) * 4) env_end
  end.

Definition find_fuel : nat := 520.

(** [find_env]: the offset of the entry in the cache, [Some None] for NULL. *)
Definition find_env (s : env_state) (key : list Z) : option (option Z) :=
  if bool_decide (key = []) then Some None
  else
    let env_start := ENV_PARAM_BYTE_SIZE in
    let env_end := get_env_user_used_size s in
    if env_start =? env_end then Some None
    else find_loop find_fuel (env_cache s) key env_start env_end.

(** [strchr(key, '=') != NULL]. *)
Definition has_eq (key : list Z) : bool := bool_decide (61 ∈ key).

Definition create_env (s : env_state) (key value : list Z) : option (EfErrCode * env_state) :=
  if bool_decide (key = []) then Some (EF_ENV_NAME_ERR, s)
  else if has_eq key then Some (EF_ENV_NAME_ERR, s)
  else
    found ← find_env s key;
    match found with
    | Some _ => Some (EF_ENV_NAME_EXIST, s)
    | None => write_env s key value
    end.

Definition del_env (s : env_state) (key : list Z) : option (EfErrCode * env_state) :=
  if bool_decide (key = []) then Some (EF_ENV_NAME_ERR, s)
  else if has_eq key then Some (EF_ENV_NAME_ERR, s)
  else
    found ← find_env s key;
    match found with
    | None => Some (EF_ENV_NAME_ERR, s)
    | Some del =>
        str ← buf_cstr (drop (Z.to_nat del) (env_cache s));
        let del_env_length := align4 (zlen str + 1) in
        let remain := u32 (get_env_data_size s - (del + del_env_length - ENV_PARAM_BYTE_SIZE)) in
        if zlen (env_cache s) <? del + del_env_length + remain then None
        else
          c ← buf_write (env_cache s) del
                (buf_sub (env_cache s) (del + del_env_length) remain);
          let s := set_cache s c in
          let s := set_env_end_addr s (get_env_end_addr s - del_env_length) in
          Some (EF_NO_ERR, set_changed s true)
    end.

(** The port's lock; taking it when it is not free never returns. *)
Definition ef_port_env_lock (s : env_state) : option env_state :=
  if 0 <? env_cache_lock s then Some (set_lock s (env_cache_lock s - 1)) else None.

Definition ef_port_env_unlock (s : env_state) : env_state := set_lock s (env_cache_lock s + 1).

(** The value stored behind the first '=' at or after an offset: the text the
    pointer computed by [strchr(env, '=') + 1] points to. *)
Definition value_at (c : list Z) (env : Z) : option (list Z) :=
  str ← buf_cstr (drop (Z.to_nat env) c);
  '(i, _) ← list_find (eq 61) str;
  Some (drop (S i) str).

Definition ef_set_env (s : env_state) (key : list Z) (value : option (list Z))
  : option (EfErrCode * env_state) :=
  if negb (init_ok s) then Some (EF_ENV_INIT_FAILED, s) else
  s ← ef_port_env_lock s;
  '(r, s) ← match value with
            | None => del_env s key
            | Some value =>
                old ← find_env s key;
                match old with
                | Some old_env =>
                    old_value ← value_at (env_cache s) old_env;
                    if bool_decide (old_value = value) then Some (EF_NO_ERR, s)
                    else
                      '(r, s) ← del_env s key;
                      if decide (r = EF_NO_ERR) then create_env s key value else Some (r, s)
                | None => create_env s key value
                end
            end;
  Some (r, ef_port_env_unlock s).

Definition ef_del_env (s : env_state) (key : list Z) : option (EfErrCode * env_state) :=
  if negb (init_ok s) then Some (EF_ENV_INIT_FAILED, s) else
  s ← ef_port_env_lock s;
  '(r, s) ← del_env s key;
  Some (r, ef_port_env_unlock s).

(** [ef_get_env]: the text the returned pointer points to, [Some None] for a
    NULL result. *)
Definition ef_get_env (s : env_state) (key : list Z) : option (option (list Z)) :=
  if negb (init_ok s) then Some None else
  env ← find_env s key;
  match env with
  | None => Some None
  | Some env => v ← value_at (env_cache s) env; Some (Some v)
  end.

(** ** The layout of the cache

    [entry k v] is how one variable lies in the cache, [data es] the data
    section for the variables [es], and [env_rep s es] says that the cache of
    [s] holds exactly [es]. *)
Definition entry_len (k v : list Z) : Z := align4 (zlen k + zlen v + 2).

Definition entry (k v : list Z) : list Z :=
  (k ++ 61 :: v) ++ 0 :: replicate (Z.to_nat (entry_len k v - (zlen k + zlen v + 2))) 0.

Definition data (es : list (list Z * list Z)) : list Z :=
  concat (map (fun e => entry e.1 e.2) es).

Definition key_ok (k : list Z) : Prop := cstring k /\ k <> [] /\ 61 ∉ k.

Definition var_ok (e : list Z * list Z) : Prop := key_ok e.1 /\ cstring e.2.

Record env_rep (s : env_state) (es : list (list Z * list Z)) : Prop := {
  rep_cache : exists header tail, env_cache s = header ++ data es ++ tail /\
    zlen header = ENV_PARAM_BYTE_SIZE;
  rep_cache_len : zlen (env_cache s) = ENV_USER_SETTING_SIZE;
  rep_bytes : bytes (env_cache s);
  rep_end : get_env_end_addr s = cur_load_area_addr s + ENV_PARAM_BYTE_SIZE + zlen (data es);
  rep_fits : ENV_PARAM_BYTE_SIZE + zlen (data es) < ENV_USER_SETTING_SIZE;
  rep_area : 0 <= cur_load_area_addr s < 2 ^ 31;
  rep_entries : Forall var_ok es;
  rep_keys : NoDup es.*1
}.

(** The abstract state: a finite map from names to values of bounded size. *)
Abbreviation env_map := (gmap (list Z) (list Z)).

Definition map_size (m : env_map) : Z :=
  foldr Z.add 0 (map (fun e => entry_len e.1 e.2) (map_to_list m)).

Definition env_R (s : env_state) (m : env_map) : Prop :=
  exists es, env_rep s es /\ m = list_to_map es.

Ltac ef_lia := unfold ENV_PARAM_BYTE_SIZE, ENV_USER_SETTING_SIZE, ENV_PARAM_INDEX_END_ADDR,
  ENV_PARAM_INDEX_SAVED_COUNT, ENV_PARAM_INDEX_DATA_CRC in *; lia.

(** *** Sizes *)
Lemma align4_bounds n : 0 <= n < 2 ^ 31 -> n <= align4 n < n + 4 /\ align4 n `mod` 4 = 0.
Proof.
  intros H. unfold align4. case_bool.
  rewrite u32_id; zify_divmod.
Qed.

Lemma entry_zlen k v : zlen k + zlen v < 2 ^ 30 -> zlen (entry k v) = entry_len k v.
Proof.
  intros H. pose proof (zlen_nonneg k). pose proof (zlen_nonneg v).
  pose proof (align4_bounds (zlen k + zlen v + 2)). unfold entry, entry_len in *.
  autorewrite with zlen. lia.
Qed.

Lemma data_app a b : data (a ++ b) = data a ++ data b.
Proof. unfold data. by rewrite map_app, concat_app. Qed.

Lemma data_cons k v es : data ((k, v) :: es) = entry k v ++ data es.
Proof. done. Qed.

Lemma entry_lower k v : zlen k + zlen v + 2 <= zlen (entry k v).
Proof.
  unfold entry. autorewrite with zlen. lia.
Qed.

(** An entry that lies in a cache is short enough for its length not to wrap. *)
Lemma entry_zlen_small k v : zlen (entry k v) < 2 ^ 30 -> zlen (entry k v) = entry_len k v.
Proof. intros H. apply entry_zlen. pose proof (entry_lower k v). lia. Qed.

Lemma data_length es : zlen (data es) < 2 ^ 30 ->
  zlen (data es) = foldr Z.add 0 (map (fun e => entry_len e.1 e.2) es).
Proof.
  induction es as [|[k v] es IH]; intros H; [done|].
  rewrite data_cons, zlen_app in *. cbn [map foldr fst snd].
  pose proof (zlen_nonneg (data es)). pose proof (zlen_nonneg (entry k v)).
  rewrite IH, entry_zlen_small by lia. done.
Qed.

Lemma foldr_add_perm (l k : list Z) : l ≡ₚ k -> foldr Z.add 0 l = foldr Z.add 0 k.
Proof. induction 1; simpl; lia. Qed.

Lemma map_size_data es :
  NoDup es.*1 -> zlen (data es) < 2 ^ 30 -> map_size (list_to_map es) = zlen (data es).
Proof.
  intros Hnd Hlen. rewrite data_length by done. unfold map_size. apply foldr_add_perm.
  apply Permutation_map. by apply map_to_list_to_map.
Qed.

(** *** Characters *)
Lemma eq_not_in_split (a b x y : list Z) :
  61 ∉ a -> 61 ∉ b -> a ++ 61 :: x = b ++ 61 :: y -> a = b.
Proof.
  revert b. induction a as [|c a IH]; intros [|d b] Ha Hb; simpl; try done.
  - intros [= E _]. set_solver.
  - intros [= E _]. set_solver.
  - intros [= -> H]. f_equal. apply (IH b); [set_solver..|done].
Qed.

Lemma entry_cstring k v : var_ok (k, v) -> cstring (k ++ 61 :: v).
Proof.
  intros [(Hk & _ & _) Hv]. simpl in *. rewrite Forall_app. split; [done|].
  constructor; [by_decide|done].
Qed.

(** The comparison of [find_env] succeeds exactly on the entry of the key. *)
Lemma key_match k v key rest :
  key_ok k -> key_ok key ->
  (bool_decide (take (length key) (entry k v ++ rest) = key) &&
   bool_decide ((entry k v ++ rest) !! length key = Some 61)) = bool_decide (k = key).
Proof.
  intros (_ & _ & Hk) (_ & _ & Hkey).
  replace (entry k v ++ rest) with (k ++ 61 :: (v ++ 0 :: replicate
    (Z.to_nat (entry_len k v - (zlen k + zlen v + 2))) 0) ++ rest)
    by (unfold entry; by rewrite <- !app_assoc).
  set (X := (v ++ _) ++ rest).
  destruct (bool_decide_reflect (k = key)) as [<-|Hne].
  - rewrite take_app_length, lookup_app_r, Nat.sub_diag by lia.
    by rewrite !bool_decide_eq_true_2.
  - apply andb_false_iff. destruct (bool_decide_reflect (take (length key) (k ++ 61 :: X) = key)) as [Ht|];
      [|by left]. right. apply bool_decide_eq_false. intros Hl. apply Hne.
    apply (eq_not_in_split k key X (drop (S (length key)) (k ++ 61 :: X)) Hk Hkey).
    pose proof (take_drop_middle _ _ _ Hl) as E. rewrite Ht in E. by symmetry.
Qed.

Lemma entry_str k v rest : var_ok (k, v) -> buf_cstr (entry k v ++ rest) = Some (k ++ 61 :: v).
Proof.
  intros H. unfold entry. rewrite <- app_assoc. simpl. apply buf_cstr_app.
  by apply entry_cstring.
Qed.

(** *** What a represented state looks like *)
Lemma rep_used s es : env_rep s es ->
  get_env_user_used_size s = ENV_PARAM_BYTE_SIZE + zlen (data es) /\
  get_env_data_size s = zlen (data es) /\ get_env_system_addr s = cur_load_area_addr s.
Proof.
  intros []. unfold get_env_user_used_size, get_env_data_size, get_env_data_addr,
    get_env_system_addr, ENV_PARAM_BYTE_SIZE in *.
  pose proof (zlen_nonneg (data es)). rewrite u32_id by lia. rewrite rep_end0.
  split_and!; [..|done]; case_bool.
Qed.

Lemma rep_data_small s es : env_rep s es -> zlen (data es) < 2036.
Proof. intros []. unfold ENV_PARAM_BYTE_SIZE, ENV_USER_SETTING_SIZE in *. lia. Qed.

(** *** The search *)
Fixpoint assoc_pos (es : list (list Z * list Z)) (key : list Z) (pos : Z) : option Z :=
  match es with
  | [] => None
  | (k, v) :: es => if decide (k = key) then Some pos else assoc_pos es key (pos + entry_len k v)
  end.

Lemma find_loop_spec es h tail key fuel env_end :
  Forall var_ok es -> key_ok key -> zlen (data es) < 2 ^ 20 ->
  env_end = zlen h + zlen (data es) -> (length es < fuel)%nat ->
  find_loop fuel (h ++ data es ++ tail) key (zlen h) env_end
    = Some (assoc_pos es key (zlen h)).
Proof.
  intros Hes Hkey. revert h fuel. induction Hes as [|[k v] es Hkv Hes IH];
    intros h fuel Hlen Hend Hfuel; (destruct fuel as [|fuel]; [simpl in Hfuel; lia|]);
    cbn [find_loop assoc_pos].
  - change (data []) with (@nil Z) in Hend. rewrite zlen_nil in Hend. case_bool.
  - rewrite data_cons, zlen_app in *. pose proof (zlen_nonneg (data es)).
    pose proof (entry_lower k v) as Hlow. pose proof (zlen_nonneg k). pose proof (zlen_nonneg v).
    rewrite <- app_assoc.
    destruct (Z.leb_spec env_end (zlen h)); [lia|].
    replace (drop (Z.to_nat (zlen h)) (h ++ entry k v ++ data es ++ tail))
      with (entry k v ++ data es ++ tail)
      by (unfold zlen; by rewrite Nat2Z.id, drop_app_length).
    rewrite key_match by (destruct Hkv; done).
    destruct (bool_decide_reflect (k = key)) as [->|Hne]; [by rewrite decide_True|].
    rewrite decide_False, entry_str by done. cbn [mbind option_bind].
    assert (entry_len k v = zlen (entry k v)) as Hel by (symmetry; apply entry_zlen_small; lia).
    assert ((if (zlen (k ++ 61 :: v) + 1) `mod` 4 =? 0 then zlen h + (zlen (k ++ 61 :: v) + 1)
             else zlen h + ((zlen (k ++ 61 :: v) + 1) / 4 + 1) * 4) = zlen (h ++ entry k v)) as ->.
    { rewrite (zlen_app h), <- Hel. unfold entry_len, align4. autorewrite with zlen.
      replace (zlen k + (1 + zlen v) + 1) with (zlen k + zlen v + 2) by lia.
      case_bool. rewrite u32_id by zify_divmod. lia. }
    rewrite (app_assoc h), IH; [|lia|rewrite zlen_app; lia|simpl in Hfuel; lia].
    by rewrite zlen_app, Hel.
Qed.

Lemma data_count es : Forall var_ok es -> 4 * Z.of_nat (length es) <= zlen (data es) \/ 2 ^ 30 <= zlen (data es).
Proof.
  induction 1 as [|[k v] es [(_ & Hk & _) _] Hes IH]; [left; done|].
  rewrite data_cons, zlen_app. simpl in Hk.
  assert (0 < zlen k) by (destruct k; [done|rewrite zlen_cons; pose proof (zlen_nonneg k); lia]).
  pose proof (zlen_nonneg v). pose proof (zlen_nonneg (data es)).
  destruct (Z.lt_ge_cases (zlen (entry k v)) (2 ^ 30)) as [Hs|]; [|right; lia].
  pose proof (entry_zlen_small k v Hs) as E. rewrite E.
  destruct (align4_bounds (zlen k + zlen v + 2)) as [Hb Hm];
    [pose proof (entry_lower k v); lia|]. unfold entry_len in *.
  destruct IH; [|right; lia]. cbn [length]. left. zify_divmod.
Qed.

Lemma find_env_spec s es key : env_rep s es -> key_ok key ->
  find_env s key = Some (assoc_pos es key ENV_PARAM_BYTE_SIZE).
Proof.
  intros Hrep Hkey. pose proof (rep_used s es Hrep) as (Hu & _ & _).
  pose proof (rep_data_small s es Hrep) as Hlen.
  destruct Hrep as [(h & tail & Hc & Hh) _ _ _ _ _ Hes _].
  unfold find_env. rewrite bool_decide_eq_false_2 by (destruct Hkey as (_ & ? & _); done).
  rewrite Hu, Hc. destruct (Z.eqb_spec ENV_PARAM_BYTE_SIZE (ENV_PARAM_BYTE_SIZE + zlen (data es))) as [E|].
  - destruct es as [|[k v] es]; [done|]. rewrite data_cons, zlen_app in E.
    pose proof (entry_lower k v). pose proof (zlen_nonneg k). pose proof (zlen_nonneg v).
    pose proof (zlen_nonneg (data es)). lia.
  - rewrite <- Hh. apply find_loop_spec; [done|done|lia|lia|].
    destruct (data_count es Hes); unfold find_fuel; lia.
Qed.

(** *** The system section *)
Lemma cache_set_word_len c i v :
  0 <= i -> 4 * i + 4 <= zlen c -> zlen (cache_set_word c i v) = zlen c.
Proof. intros. unfold cache_set_word. autorewrite with zlen. lia. Qed.

Lemma cache_set_word_app h r i v :
  0 <= i -> 4 * i + 4 <= zlen h -> cache_set_word (h ++ r) i v = cache_set_word h i v ++ r.
Proof.
  intros Hi Hl. unfold cache_set_word, zlen in *.
  rewrite take_app_le, drop_app_le by lia. by rewrite <- !app_assoc.
Qed.

Lemma cache_set_word_bytes c i v : bytes c -> bytes (cache_set_word c i v).
Proof.
  intros H. unfold cache_set_word. rewrite !Forall_app.
  split_and!; [by apply Forall_take|apply le_bytes_bytes|by apply Forall_drop].
Qed.

Lemma cache_word_set_eq c i v :
  0 <= i -> 4 * i + 4 <= zlen c -> 0 <= v < 2 ^ 32 -> cache_word (cache_set_word c i v) i = v.
Proof.
  intros Hi Hl Hv. unfold cache_word, cache_set_word.
  rewrite buf_sub_skip by (autorewrite with zlen; lia). autorewrite with zlen.
  replace (4 * i - Z.min (Z.of_nat (Z.to_nat (4 * i))) (zlen c)) with 0 by lia.
  rewrite buf_sub_here by (autorewrite with zlen; lia).
  apply le_val_bytes. change (256 ^ Z.of_nat 4) with (2 ^ 32). lia.
Qed.

Lemma cache_word_set_ne c i j v :
  0 <= i -> 0 <= j -> i <> j -> 4 * i + 4 <= zlen c ->
  cache_word (cache_set_word c i v) j = cache_word c j.
Proof.
  intros Hi Hj Hne Hl. unfold cache_word. f_equal.
  apply (buf_sub_write_ne c _ (4 * i) (le_bytes 4 v)); [|lia|lia|autorewrite with zlen; lia].
  rewrite buf_write_some by (autorewrite with zlen; lia). unfold cache_set_word.
  rewrite le_bytes_len. do 4 f_equal. lia.
Qed.

Lemma cache_word_app h r i : 0 <= i -> 4 * i + 4 <= zlen h ->
  cache_word (h ++ r) i = cache_word h i.
Proof.
  intros Hi Hl. unfold cache_word, buf_sub, zlen in *. f_equal.
  rewrite drop_app_le by lia. apply take_app_le. rewrite length_drop. lia.
Qed.

(** Replacing the data section and the end address re-establishes the layout. *)
Lemma rep_update s h es' tail :
  zlen h = ENV_PARAM_BYTE_SIZE -> bytes h -> bytes (data es' ++ tail) ->
  zlen (h ++ data es' ++ tail) = ENV_USER_SETTING_SIZE ->
  ENV_PARAM_BYTE_SIZE + zlen (data es') < ENV_USER_SETTING_SIZE ->
  0 <= cur_load_area_addr s < 2 ^ 31 -> Forall var_ok es' -> NoDup es'.*1 ->
  env_rep (set_changed (set_env_end_addr (set_cache s (h ++ data es' ++ tail))
            (cur_load_area_addr s + ENV_PARAM_BYTE_SIZE + zlen (data es'))) true) es'.
Proof.
  unfold ENV_PARAM_BYTE_SIZE, ENV_USER_SETTING_SIZE. intros Hh Hbh Hbd Hlen Hfit Har Hes Hnd.
  pose proof (zlen_nonneg (data es')).
  unfold set_env_end_addr, ENV_PARAM_INDEX_END_ADDR. split; simpl; try done.
  - eexists _, tail. rewrite cache_set_word_app by lia. split; [done|].
    rewrite cache_set_word_len by lia. done.
  - rewrite cache_set_word_len; ef_lia.
  - apply cache_set_word_bytes. by rewrite Forall_app.
  - unfold get_env_end_addr, ENV_PARAM_INDEX_END_ADDR. simpl. apply cache_word_set_eq; ef_lia.
Qed.

(** *** Adding an entry *)
Lemma entry_bytes k v : var_ok (k, v) -> bytes (entry k v).
Proof.
  intros H. unfold entry. rewrite Forall_app. split.
  - eapply Forall_impl; [apply (entry_cstring k v H)|].
    intros x Hx. unfold is_cchar, is_byte in *. lia.
  - constructor; [unfold is_byte; lia|]. apply Forall_replicate. unfold is_byte; lia.
Qed.

Lemma write_env_full s es key value :
  env_rep s es -> zlen key + zlen value < 2 ^ 30 ->
  ENV_USER_SETTING_SIZE <= ENV_PARAM_BYTE_SIZE + zlen (data es) + entry_len key value ->
  write_env s key value = Some (EF_ENV_FULL, s).
Proof.
  intros Hrep Hlen Hfull. pose proof (rep_used s es Hrep) as (Hu & _ & _).
  pose proof (rep_data_small s es Hrep).
  pose proof (zlen_nonneg key). pose proof (zlen_nonneg value). pose proof (zlen_nonneg (data es)).
  pose proof (align4_bounds (zlen key + zlen value + 2) ltac:(lia)).
  unfold write_env, entry_len, ENV_PARAM_BYTE_SIZE in *.
  rewrite Hu, (u32_id (zlen key + zlen value + 2)), u32_id by lia.
  case_bool.
Qed.

Lemma write_env_ok s es key value :
  env_rep s es -> var_ok (key, value) -> key ∉ es.*1 -> zlen key + zlen value < 2 ^ 30 ->
  ENV_PARAM_BYTE_SIZE + zlen (data es) + entry_len key value < ENV_USER_SETTING_SIZE ->
  exists c, write_env s key value = Some (EF_NO_ERR, set_changed (set_cache s c) true) /\
    env_rep (set_changed (set_cache s c) true) (es ++ [(key, value)]).
Proof.
  intros Hrep Hkv Hnew Hlen Hroom. pose proof (rep_used s es Hrep) as (Hu & _ & _).
  destruct Hrep as [(h & tail & Hc & Hh) Hcl Hb Hend Hfit Har Hes Hnd].
  pose proof (zlen_nonneg key). pose proof (zlen_nonneg value). pose proof (zlen_nonneg (data es)).
  pose proof (align4_bounds (zlen key + zlen value + 2) ltac:(lia)) as [Hal _].
  pose proof (entry_zlen key value Hlen) as Hel.
  assert (zlen (entry key value) <= zlen tail) as Htail.
  { rewrite Hc, !zlen_app in Hcl. lia. }
  assert (write_env s key value = Some (EF_NO_ERR,
    set_changed (set_env_end_addr (set_cache s (h ++ data (es ++ [(key, value)]) ++
      drop (length (entry key value)) tail))
      (cur_load_area_addr s + ENV_PARAM_BYTE_SIZE + zlen (data (es ++ [(key, value)])))) true))
    as ->.
  { unfold write_env. rewrite (u32_id (zlen key + zlen value + 2)), Hu by lia.
    fold (entry_len key value). rewrite (u32_id (_ + _)) by (unfold entry_len in *; ef_lia).
    destruct (Z.leb_spec ENV_USER_SETTING_SIZE
      (entry_len key value + (ENV_PARAM_BYTE_SIZE + zlen (data es)))); [lia|].
    rewrite !buf_write_seq by (autorewrite with zlen; ef_lia).
    replace ((((key ++ [61]) ++ value) ++ [0]) ++ _) with (entry key value)
      by (unfold entry; by rewrite <- !app_assoc).
    rewrite Hc, app_assoc, (buf_write_at _ _ _ (entry key value)) by (rewrite ?zlen_app; lia).
    cbn [mbind option_bind]. change (get_env_end_addr (set_cache s ?c))
      with (cache_word c ENV_PARAM_INDEX_END_ADDR).
    rewrite data_app. change (data [(key, value)]) with (entry key value ++ []).
    rewrite app_nil_r, <- !app_assoc.
    rewrite cache_word_app by ef_lia.
    unfold get_env_end_addr in Hend. rewrite Hc, cache_word_app in Hend by ef_lia.
    rewrite Hend, zlen_app, Hel. do 4 f_equal. lia. }
  eexists. split; [reflexivity|].
  rewrite Hc, !Forall_app in Hb. destruct Hb as (Hbh & Hbd & Hbt).
  apply rep_update; try done.
  - rewrite data_app, !Forall_app. split_and!; [done| |by apply Forall_drop].
    change (data [(key, value)]) with (entry key value ++ []). rewrite app_nil_r.
    by apply entry_bytes.
  - rewrite Hc, !zlen_app in Hcl. rewrite data_app, !zlen_app.
    change (data [(key, value)]) with (entry key value ++ []). autorewrite with zlen.
    unfold zlen in *. lia.
  - rewrite data_app, zlen_app. change (data [(key, value)]) with (entry key value ++ []).
    autorewrite with zlen. lia.
  - rewrite Forall_app, Forall_singleton. done.
  - rewrite fmap_app. apply NoDup_app. split_and!; [done| |apply NoDup_singleton].
    intros x Hx Hx'. apply list_elem_of_singleton in Hx' as ->. done.
Qed.

(** *** Removing an entry *)
Lemma assoc_pos_split es key pos : Forall var_ok es -> zlen (data es) < 2 ^ 30 ->
  match assoc_pos es key pos with
  | None => key ∉ es.*1
  | Some p => exists pre v post, es = pre ++ (key, v) :: post /\ p = pos + zlen (data pre)
  end.
Proof.
  intros Hes. revert pos. induction Hes as [|[k v] es Hkv Hes IH]; intros pos Hlen; simpl;
    [set_solver|].
  rewrite data_cons, zlen_app in Hlen. pose proof (zlen_nonneg (data es)).
  destruct (decide (k = key)) as [->|Hne].
  - exists [], v, es. split; [done|]. change (data []) with (@nil Z). rewrite zlen_nil. lia.
  - specialize (IH (pos + entry_len k v) ltac:(pose proof (zlen_nonneg (entry k v)); lia)).
    destruct (assoc_pos es key (pos + entry_len k v)).
    + destruct IH as (pre & v' & post & -> & ->). exists ((k, v) :: pre), v', post.
      split; [done|]. rewrite data_cons, zlen_app, entry_zlen_small; [lia|].
      rewrite data_app, zlen_app in *. pose proof (zlen_nonneg (data pre)). lia.
    + rewrite not_elem_of_cons. by split.
Qed.

Lemma find_cases s es key : env_rep s es -> key_ok key ->
  (find_env s key = Some None /\ key ∉ es.*1) \/
  (exists pre v post, es = pre ++ (key, v) :: post /\
     find_env s key = Some (Some (ENV_PARAM_BYTE_SIZE + zlen (data pre)))).
Proof.
  intros Hrep Hkey. pose proof (rep_data_small s es Hrep).
  rewrite (find_env_spec s es key Hrep Hkey).
  pose proof (assoc_pos_split es key ENV_PARAM_BYTE_SIZE (rep_entries _ _ Hrep) ltac:(lia)) as Hp.
  destruct (assoc_pos es key ENV_PARAM_BYTE_SIZE) as [p|].
  - right. destruct Hp as (pre & v & post & -> & ->). eauto 6.
  - by left.
Qed.

(** The cache from the start of an entry on. *)
Lemma rep_drop s pre k v post : env_rep s (pre ++ (k, v) :: post) ->
  exists header tail, zlen header = ENV_PARAM_BYTE_SIZE + zlen (data pre) /\
    env_cache s = header ++ entry k v ++ data post ++ tail /\
    drop (Z.to_nat (ENV_PARAM_BYTE_SIZE + zlen (data pre))) (env_cache s)
      = entry k v ++ data post ++ tail /\
    exists h0, header = h0 ++ data pre /\ zlen h0 = ENV_PARAM_BYTE_SIZE.
Proof.
  intros Hrep. destruct (rep_cache _ _ Hrep) as (h & tail & Hc & Hh).
  exists (h ++ data pre), tail.
  assert (zlen (h ++ data pre) = ENV_PARAM_BYTE_SIZE + zlen (data pre)) as Hl
    by (rewrite zlen_app; lia).
  assert (env_cache s = (h ++ data pre) ++ entry k v ++ data post ++ tail) as E
    by (rewrite Hc, data_app, data_cons; by rewrite <- !app_assoc).
  split_and!; [done|done| |eauto].
  rewrite E, <- Hl. unfold zlen. by rewrite Nat2Z.id, drop_app_length.
Qed.

Lemma list_find_first (k v : list Z) :
  61 ∉ k -> list_find (eq 61) (k ++ 61 :: v) = Some (length k, 61).
Proof.
  intros Hk. rewrite list_find_app_r; [done|]. apply list_find_None, Forall_forall.
  intros x Hx <-. done.
Qed.

Lemma value_at_spec s pre k v post : env_rep s (pre ++ (k, v) :: post) ->
  value_at (env_cache s) (ENV_PARAM_BYTE_SIZE + zlen (data pre)) = Some v.
Proof.
  intros Hrep. destruct (rep_drop _ _ _ _ _ Hrep) as (_ & tail & _ & _ & Hd & _).
  pose proof (rep_entries _ _ Hrep) as Hes. rewrite Forall_app, Forall_cons in Hes.
  destruct Hes as (_ & Hkv & _). unfold value_at. rewrite Hd, entry_str by done.
  cbn [mbind option_bind]. rewrite list_find_first by (destruct Hkv as [(_ & _ & ?) _]; done).
  cbn [mbind option_bind]. change (S (length k)) with (1 + length k)%nat.
  rewrite Nat.add_comm, <- drop_drop, drop_app_length. done.
Qed.

Lemma assoc_pos_at pre key v post pos :
  key ∉ pre.*1 -> zlen (data pre) < 2 ^ 30 ->
  assoc_pos (pre ++ (key, v) :: post) key pos = Some (pos + zlen (data pre)).
Proof.
  revert pos. induction pre as [|[k w] pre IH]; intros pos Hno Hlen; simpl.
  - rewrite decide_True by done. f_equal. change (data []) with (@nil Z).
    rewrite zlen_nil. lia.
  - rewrite data_cons, zlen_app in *. pose proof (zlen_nonneg (data pre)).
    pose proof (zlen_nonneg (entry k w)). rewrite fmap_cons, not_elem_of_cons in Hno.
    destruct Hno as [Hne Hno]. simpl in Hne. rewrite decide_False by congruence.
    rewrite IH, entry_zlen_small by (done || lia). f_equal. lia.
Qed.

Lemma find_pos s pre key v post : env_rep s (pre ++ (key, v) :: post) ->
  find_env s key = Some (Some (ENV_PARAM_BYTE_SIZE + zlen (data pre))).
Proof.
  intros Hrep. pose proof (rep_entries _ _ Hrep) as Hes. pose proof (rep_keys _ _ Hrep) as Hnd.
  pose proof (rep_data_small _ _ Hrep) as Hsm.
  rewrite Forall_app, Forall_cons in Hes. destruct Hes as (_ & [Hkey _] & _).
  rewrite data_app, zlen_app in Hsm.
  rewrite (find_env_spec s _ key Hrep Hkey), assoc_pos_at; [done| |].
  - rewrite fmap_app, NoDup_app in Hnd. destruct Hnd as (_ & Hnd & _).
    intros Hin. apply (Hnd _ Hin). simpl. left.
  - pose proof (zlen_nonneg (data ((key, v) :: post))). lia.
Qed.

(** [del_env] on the key of an entry: the entry is cut out of the cache. *)
Lemma del_env_ok s pre key v post : env_rep s (pre ++ (key, v) :: post) ->
  exists c, del_env s key = Some (EF_NO_ERR, set_changed (set_cache s c) true) /\
    env_rep (set_changed (set_cache s c) true) (pre ++ post).
Proof.
  intros Hrep. pose proof (rep_used _ _ Hrep) as (_ & Hds & _).
  pose proof (rep_data_small _ _ Hrep) as Hsm.
  destruct (rep_drop _ _ _ _ _ Hrep) as (hd & tail & Hhd & Hc & Hd & h & -> & Hh).
  pose proof (find_pos s pre key v post Hrep) as Hf.
  destruct Hrep as [_ Hcl Hb Hend Hfit Har Hes Hnd].
  rewrite Forall_app, Forall_cons in Hes. destruct Hes as (Hpre & Hkv & Hpost).
  pose proof Hkv as [(_ & Hk1 & Hk2) _]. simpl in Hk1, Hk2.
  rewrite data_app, data_cons, !zlen_app in Hsm, Hds, Hend, Hfit.
  pose proof (zlen_nonneg (data pre)). pose proof (zlen_nonneg (data post)).
  pose proof (entry_zlen_small key v ltac:(pose proof (zlen_nonneg (entry key v)); lia)) as Hel.
  pose proof (entry_lower key v). pose proof (zlen_nonneg key). pose proof (zlen_nonneg v).
  set (del := ENV_PARAM_BYTE_SIZE + zlen (data pre)) in *.
  assert (del_env s key = Some (EF_NO_ERR,
    set_changed (set_env_end_addr (set_cache s (h ++ data (pre ++ post) ++
      drop (length (data post)) (entry key v ++ data post ++ tail)))
      (cur_load_area_addr s + ENV_PARAM_BYTE_SIZE + zlen (data (pre ++ post)))) true)) as ->.
  { unfold del_env, has_eq. rewrite !bool_decide_eq_false_2 by done. rewrite Hf.
    cbn [mbind option_bind]. rewrite Hd, entry_str by done. cbn [mbind option_bind].
    replace (align4 (zlen (key ++ 61 :: v) + 1)) with (zlen (entry key v))
      by (rewrite Hel; unfold entry_len; f_equal; autorewrite with zlen; lia).
    rewrite Hds.
    replace (u32 (_ - _)) with (zlen (data post)) by (symmetry; rewrite u32_id; ef_lia).
    destruct (Z.ltb_spec (zlen (env_cache s)) (del + zlen (entry key v) + zlen (data post))).
    { rewrite Hc in *. autorewrite with zlen in *. lia. }
    replace (buf_sub (env_cache s) (del + zlen (entry key v)) (zlen (data post)))
      with (data post).
    2:{ rewrite Hc, buf_sub_skip, buf_sub_skip by lia.
        rewrite Hhd. replace (del + _ - del - _) with 0 by lia. by rewrite buf_sub_here. }
    rewrite Hc, buf_write_at by (rewrite ?zlen_app; pose proof (zlen_nonneg tail); lia).
    cbn [mbind option_bind]. unfold get_env_end_addr in *.
    cbn [env_cache set_cache]. rewrite data_app, <- !app_assoc.
    rewrite cache_word_app by ef_lia.
    rewrite Hc, <- !app_assoc, cache_word_app in Hend by ef_lia. rewrite Hend, zlen_app.
    do 4 f_equal. lia. }
  rewrite Hc, !Forall_app in Hb. destruct Hb as ((Hbh & Hb1) & Hb2 & Hb3 & Hb4).
  eexists. split; [reflexivity|]. apply rep_update; try done.
  - rewrite data_app, !Forall_app. split_and!; [done|done|]. apply Forall_drop.
    by rewrite !Forall_app.
  - rewrite Hc in Hcl. rewrite data_app. autorewrite with zlen in *.
    unfold zlen in *. lia.
  - rewrite data_app, zlen_app. lia.
  - by rewrite Forall_app.
  - rewrite fmap_app in *. rewrite fmap_cons, <- Permutation_middle in Hnd.
    apply NoDup_cons in Hnd. by destruct Hnd.
Qed.

(** ** The abstract store

    A finite map whose data section must stay below the capacity.  Replacing
    a value removes the old one first, whether or not the new one fits. *)
Definition spec_set (m : env_map) (k v : list Z) : EfErrCode * env_map :=
  if decide (m !! k = Some v) then (EF_NO_ERR, m)
  else
    let m' := delete k m in
    if ENV_PARAM_BYTE_SIZE + map_size m' + entry_len k v <? ENV_USER_SETTING_SIZE
    then (EF_NO_ERR, <[k := v]> m') else (EF_ENV_FULL, m').

Definition spec_del (m : env_map) (k : list Z) : EfErrCode * env_map :=
  match m !! k with
  | Some _ => (EF_NO_ERR, delete k m)
  | None => (EF_ENV_NAME_ERR, m)
  end.

(** The calls clients make, and their results. *)
Inductive env_call :=
| CGet (k : list Z)
| CSet (k v : list Z)
| CDel (k : list Z)
| CSetNull (k : list Z).

Inductive env_result :=
| RValue (v : option (list Z))
| RCode (e : EfErrCode).

Definition spec_call (m : env_map) (c : env_call) : env_result * env_map :=
  match c with
  | CGet k => (RValue (m !! k), m)
  | CSet k v => let '(e, m) := spec_set m k v in (RCode e, m)
  | CDel k | CSetNull k => let '(e, m) := spec_del m k in (RCode e, m)
  end.

Definition code_call (s : env_state) (c : env_call) : option (env_result * env_state) :=
  match c with
  | CGet k => v ← ef_get_env s k; Some (RValue v, s)
  | CSet k v => '(e, s) ← ef_set_env s k (Some v); Some (RCode e, s)
  | CDel k => '(e, s) ← ef_del_env s k; Some (RCode e, s)
  | CSetNull k => '(e, s) ← ef_set_env s k None; Some (RCode e, s)
  end.

Definition call_ok (c : env_call) : Prop :=
  match c with
  | CGet k | CDel k | CSetNull k => key_ok k
  | CSet k v => key_ok k /\ cstring v /\ zlen k + zlen v < 2 ^ 30
  end.

Fixpoint spec_run (m : env_map) (cs : list env_call) : list env_result * env_map :=
  match cs with
  | [] => ([], m)
  | c :: cs => let '(r, m) := spec_call m c in let '(rs, m) := spec_run m cs in (r :: rs, m)
  end.

Fixpoint code_run (s : env_state) (cs : list env_call)
  : option (list env_result * env_state) :=
  match cs with
  | [] => Some ([], s)
  | c :: cs =>
      '(r, s) ← code_call s c;
      '(rs, s) ← code_run s cs;
      Some (r :: rs, s)
  end.

(** A set that succeeds is an insertion. *)
Lemma spec_set_ok m k v : fst (spec_set m k v) = EF_NO_ERR -> snd (spec_set m k v) = <[k := v]> m.
Proof.
  unfold spec_set. case_decide; [by rewrite insert_id|]. case_match; [|done].
  intros _. apply insert_delete_eq.
Qed.

(** *** Association lists and maps *)
Lemma map_split (pre post : list (list Z * list Z)) k v :
  NoDup (pre ++ (k, v) :: post).*1 ->
  (list_to_map (pre ++ (k, v) :: post) : env_map) !! k = Some v /\
  delete k (list_to_map (pre ++ (k, v) :: post) : env_map) = list_to_map (pre ++ post).
Proof.
  intros Hnd.
  assert ((list_to_map (pre ++ (k, v) :: post) : env_map) = list_to_map ((k, v) :: pre ++ post))
    as -> by (apply list_to_map_proper; [done|by rewrite Permutation_middle]).
  rewrite fmap_app, fmap_cons, <- Permutation_middle, NoDup_cons, <- fmap_app in Hnd.
  cbn [list_to_map foldr]. split; [apply lookup_insert_eq|].
  apply delete_insert_id. apply not_elem_of_list_to_map_1. by destruct Hnd.
Qed.

Lemma map_new (es : list (list Z * list Z)) k v :
  k ∉ es.*1 -> NoDup es.*1 ->
  (list_to_map (es ++ [(k, v)]) : env_map) = <[k := v]> (list_to_map es).
Proof.
  intros Hk Hnd. change (<[k := v]> (list_to_map es) : env_map)
    with (list_to_map ((k, v) :: es) : env_map).
  apply list_to_map_proper; [|by rewrite <- Permutation_cons_append].
  rewrite fmap_app. simpl. rewrite NoDup_app. split_and!; [done| |apply NoDup_singleton].
  intros x Hx Hx'. apply list_elem_of_singleton in Hx' as ->. done.
Qed.

Lemma rep_map_size s es : env_rep s es -> map_size (list_to_map es) = zlen (data es).
Proof.
  intros Hrep. apply map_size_data; [apply (rep_keys _ _ Hrep)|].
  pose proof (rep_data_small _ _ Hrep). lia.
Qed.

(** The lock does not matter to the representation. *)
Lemma rep_lock s es n : env_rep s es <-> env_rep (set_lock s n) es.
Proof. split; intros []; by split. Qed.

(** *** The calls leave the save counter alone *)
Definition saved_count (s : env_state) : Z :=
  cache_word (env_cache s) ENV_PARAM_INDEX_SAVED_COUNT.

Lemma buf_write_count c c' i x :
  buf_write c i x = Some c' -> ENV_PARAM_BYTE_SIZE <= i ->
  cache_word c' ENV_PARAM_INDEX_SAVED_COUNT = cache_word c ENV_PARAM_INDEX_SAVED_COUNT.
Proof.
  intros E Hi. unfold cache_word. f_equal.
  apply (buf_sub_write_ne _ _ _ _ _ _ E); ef_lia.
Qed.

Lemma end_addr_count s v : zlen (env_cache s) = ENV_USER_SETTING_SIZE ->
  saved_count (set_changed (set_env_end_addr s v) true) = saved_count s.
Proof.
  intros Hl. unfold saved_count. cbn [env_cache set_changed set_env_end_addr set_cache].
  apply cache_word_set_ne; ef_lia.
Qed.

Lemma write_env_count s es k v r s' : env_rep s es ->
  write_env s k v = Some (r, s') -> saved_count s' = saved_count s.
Proof.
  intros Hrep. pose proof (rep_used _ _ Hrep) as (Hu & _ & _).
  pose proof (rep_cache_len _ _ Hrep) as Hl. pose proof (zlen_nonneg (data es)).
  pose proof (zlen_nonneg k). pose proof (zlen_nonneg v).
  unfold write_env. destruct (_ <=? _); [congruence|]. rewrite Hu.
  rewrite !buf_write_seq by (autorewrite with zlen; ef_lia).
  destruct (buf_write (env_cache s) _ _) as [c|] eqn:E; [|done].
  cbn [mbind option_bind]. intros [= <- <-].
  rewrite end_addr_count; [by apply (buf_write_count _ _ _ _ E); ef_lia|].
  apply buf_write_len in E. unfold zlen in *. simpl. lia.
Qed.

Lemma create_env_count s es k v r s' : env_rep s es -> key_ok k ->
  create_env s k v = Some (r, s') -> saved_count s' = saved_count s.
Proof.
  intros Hrep Hk. unfold create_env. repeat (case_match; [congruence|]).
  destruct (find_cases s es k Hrep Hk) as [[-> _]|(pre & w & post & -> & ->)];
    cbn [mbind option_bind]; [by eapply write_env_count|congruence].
Qed.

Lemma del_env_count s es k r s' : env_rep s es -> key_ok k ->
  del_env s k = Some (r, s') -> saved_count s' = saved_count s.
Proof.
  intros Hrep Hk. pose proof (rep_cache_len _ _ Hrep) as Hl.
  unfold del_env. repeat (case_match; [congruence|]).
  destruct (find_cases s es k Hrep Hk) as [[-> _]|(pre & w & post & -> & ->)];
    cbn [mbind option_bind]; [congruence|].
  destruct (buf_cstr _) as [x|]; [|done]. cbn [mbind option_bind].
  destruct (_ <? _); [done|].
  destruct (buf_write (env_cache s) _ _) as [c|] eqn:E; [|done].
  cbn [mbind option_bind]. intros [= <- <-]. pose proof (zlen_nonneg (data pre)).
  rewrite end_addr_count; [by apply (buf_write_count _ _ _ _ E); ef_lia|].
  apply buf_write_len in E. unfold zlen in *. simpl. lia.
Qed.

(** *** The calls refine the map operations *)
Lemma create_env_refines s es k v :
  env_rep s es -> k ∉ es.*1 -> key_ok k -> cstring v -> zlen k + zlen v < 2 ^ 30 ->
  exists c b, let s' := set_changed (set_cache s c) b in
    create_env s k v
      = Some (if ENV_PARAM_BYTE_SIZE + map_size (list_to_map es) + entry_len k v
                 <? ENV_USER_SETTING_SIZE then EF_NO_ERR else EF_ENV_FULL, s') /\
    env_R s' (if ENV_PARAM_BYTE_SIZE + map_size (list_to_map es) + entry_len k v
                 <? ENV_USER_SETTING_SIZE then <[k := v]> (list_to_map es) else list_to_map es) /\
    (b = false -> env_cache_changed s = false /\
       (ENV_PARAM_BYTE_SIZE + map_size (list_to_map es) + entry_len k v
          <? ENV_USER_SETTING_SIZE) = false).
Proof.
  intros Hrep Hk Hkey Hv Hlen. rewrite (rep_map_size s) by done.
  unfold create_env, has_eq. pose proof Hkey as (_ & Hk1 & Hk2).
  rewrite !bool_decide_eq_false_2 by done.
  destruct (find_cases s es k Hrep Hkey) as [[-> _]|(pre & w & post & -> & _)].
  2:{ exfalso. apply Hk. rewrite fmap_app. set_solver. }
  cbn [mbind option_bind].
  destruct (Z.ltb_spec (ENV_PARAM_BYTE_SIZE + zlen (data es) + entry_len k v)
    ENV_USER_SETTING_SIZE).
  - destruct (write_env_ok s es k v) as (c & E & Hr); [done..|]. exists c, true.
    split_and!; [done| |done].
    eexists. split; [done|]. symmetry. apply map_new; [done|apply (rep_keys _ _ Hrep)].
  - exists (env_cache s), (env_cache_changed s).
    replace (set_changed (set_cache s (env_cache s)) (env_cache_changed s)) with s by by destruct s.
    split_and!; [by apply (write_env_full s es)|by eexists|done].
Qed.

Lemma del_env_refines s m k : env_R s m -> key_ok k ->
  exists c b, let s' := set_changed (set_cache s c) b in
    del_env s k = Some (fst (spec_del m k), s') /\ env_R s' (snd (spec_del m k)).
Proof.
  intros (es & Hrep & ->) Hkey. pose proof (rep_keys _ _ Hrep) as Hnd.
  destruct (find_cases s es k Hrep Hkey) as [[E Hk]|(pre & w & post & -> & _)].
  - exists (env_cache s), (env_cache_changed s).
    replace (set_changed (set_cache s (env_cache s)) (env_cache_changed s)) with s by by destruct s.
    unfold spec_del. rewrite not_elem_of_list_to_map_1 by done.
    unfold del_env, has_eq. pose proof Hkey as (_ & Hk1 & Hk2).
    rewrite !bool_decide_eq_false_2, E by done. split; [done|by exists es].
  - destruct (del_env_ok s pre k w post Hrep) as (c & E & Hr). exists c, true.
    destruct (map_split pre post k w Hnd) as [Hl Hdel]. unfold spec_del. rewrite Hl.
    split; [done|]. simpl. rewrite Hdel. by exists (pre ++ post).
Qed.

(** The part of [ef_set_env] between taking and releasing the lock. *)
Lemma set_env_refines s m k v :
  env_R s m -> key_ok k -> cstring v -> zlen k + zlen v < 2 ^ 30 ->
  exists c b, let s' := set_changed (set_cache s c) b in
    (old ← find_env s k;
     match old with
     | Some old_env =>
         old_value ← value_at (env_cache s) old_env;
         if bool_decide (old_value = v) then Some (EF_NO_ERR, s)
         else
           '(r, s) ← del_env s k;
           if decide (r = EF_NO_ERR) then create_env s k v else Some (r, s)
     | None => create_env s k v
     end) = Some (fst (spec_set m k v), s') /\ env_R s' (snd (spec_set m k v)) /\
    saved_count s' = saved_count s /\
    (b = false -> env_cache_changed s = false /\ snd (spec_set m k v) = m).
Proof.
  intros (es & Hrep & ->) Hkey Hv Hlen. pose proof (rep_keys _ _ Hrep) as Hnd.
  destruct (find_cases s es k Hrep Hkey) as [[-> Hk]|(pre & w & post & -> & ->)];
    cbn [mbind option_bind].
  - pose proof (not_elem_of_list_to_map_1 (M := gmap (list Z)) es k Hk) as Hnone.
    unfold spec_set. rewrite decide_False by (rewrite Hnone; done).
    rewrite delete_id by done.
    destruct (create_env_refines s es k v) as (c & b & E & HR & Hb); [done..|].
    pose proof (create_env_count _ _ _ _ _ _ Hrep Hkey E) as Hcnt.
    exists c, b. cbv zeta in *. rewrite E.
    destruct (_ <? _); split_and!; try done; intros ->; by destruct Hb.
  - rewrite (value_at_spec s pre k w post Hrep). cbn [mbind option_bind].
    destruct (map_split pre post k w Hnd) as [Hl Hdel]. unfold spec_set. rewrite Hl, Hdel.
    destruct (bool_decide_reflect (w = v)) as [->|Hne].
    + exists (env_cache s), (env_cache_changed s). cbv zeta.
      replace (set_changed (set_cache s (env_cache s)) (env_cache_changed s)) with s by by destruct s.
      rewrite decide_True by done. split_and!; [done|by eexists|done|done].
    + rewrite decide_False by congruence.
      destruct (del_env_ok s pre k w post Hrep) as (c & Ed & Hr).
      pose proof (del_env_count _ _ _ _ _ Hrep Hkey Ed) as Hcd.
      rewrite Ed. cbn [mbind option_bind]. rewrite decide_True by done.
      destruct (create_env_refines _ _ k v Hr) as (c' & b' & E & HR & Hb'); [|done..|].
      { rewrite fmap_app, fmap_cons, <- Permutation_middle, NoDup_cons, <- fmap_app in Hnd.
        by destruct Hnd. }
      pose proof (create_env_count _ _ _ _ _ _ Hr Hkey E) as Hcc. rewrite Hcd in Hcc.
      exists c', b'. cbv zeta in *. rewrite E.
      destruct (_ <? _); split_and!; try done; intros ->; by destruct Hb'.
Qed.

Lemma get_env_refines s m k : env_R s m -> init_ok s = true -> key_ok k ->
  ef_get_env s k = Some (m !! k).
Proof.
  intros (es & Hrep & ->) Hi Hkey. unfold ef_get_env. rewrite Hi. cbn [negb].
  destruct (find_cases s es k Hrep Hkey) as [[-> Hk]|(pre & w & post & -> & ->)];
    cbn [mbind option_bind].
  - by rewrite not_elem_of_list_to_map_1.
  - rewrite (value_at_spec s pre k w post Hrep). cbn [mbind option_bind].
    by destruct (map_split pre post k w (rep_keys _ _ Hrep)) as [-> _].
Qed.

(** The state the clients see: initialised, lock free, cache well-formed. *)
Definition env_ready (s : env_state) (m : env_map) : Prop :=
  env_R s m /\ init_ok s = true /\ env_cache_lock s = 1.

Lemma ready_step s m c b :
  env_ready s m -> forall m',
  env_R (set_changed (set_cache (set_lock s 0) c) b) m' ->
  env_ready (ef_port_env_unlock (set_changed (set_cache (set_lock s 0) c) b)) m'.
Proof.
  intros (_ & Hi & _) m' (es & Hrep & ->). split; [|done].
  exists es. split; [|done]. by apply rep_lock.
Qed.

Lemma ready_locked s m : env_ready s m ->
  ef_port_env_lock s = Some (set_lock s 0) /\ env_R (set_lock s 0) m.
Proof.
  intros ((es & Hrep & ->) & _ & Hl). unfold ef_port_env_lock. rewrite Hl. split; [done|].
  exists es. split; [|done]. by apply rep_lock.
Qed.

Lemma code_call_refines s m c : env_ready s m -> call_ok c ->
  exists s', code_call s c = Some (fst (spec_call m c), s') /\
    env_ready s' (snd (spec_call m c)).
Proof.
  intros Hr Hc. pose proof Hr as (HR & Hi & Hl). destruct (ready_locked s m Hr) as [Hlk HR0].
  destruct c as [k|k v|k|k]; cbn [code_call spec_call call_ok] in *.
  - rewrite (get_env_refines s m k) by done. by exists s.
  - destruct Hc as (Hk & Hv & Hlen). unfold ef_set_env. rewrite Hi, Hlk. cbn [negb mbind option_bind].
    destruct (set_env_refines (set_lock s 0) m k v) as (c & b & E & HR' & _);
      [done..|]. cbv zeta in *. destruct (spec_set m k v) as [e m']. cbn [mbind option_bind] in E.
    rewrite E. cbn [mbind option_bind]. eexists. split; [reflexivity|]. by eapply ready_step.
  - unfold ef_del_env. rewrite Hi, Hlk. cbn [negb mbind option_bind].
    destruct (del_env_refines (set_lock s 0) m k) as (c & b & E & HR'); [done..|].
    cbv zeta in *. destruct (spec_del m k) as [e m'].
    rewrite E. cbn [mbind option_bind]. eexists. split; [reflexivity|]. by eapply ready_step.
  - unfold ef_set_env. rewrite Hi, Hlk. cbn [negb mbind option_bind].
    destruct (del_env_refines (set_lock s 0) m k) as (c & b & E & HR'); [done..|].
    cbv zeta in *. destruct (spec_del m k) as [e m'].
    rewrite E. cbn [mbind option_bind]. eexists. split; [reflexivity|]. by eapply ready_step.
Qed.

(** [ef_set_env] in detail: only the cache and its change flag are touched. *)
Lemma ef_set_env_detail s m k v :
  env_ready s m -> key_ok k -> cstring v -> zlen k + zlen v < 2 ^ 30 ->
  exists c b, let s' := set_changed (set_cache s c) b in
    ef_set_env s k (Some v) = Some (fst (spec_set m k v), s') /\
    env_ready s' (snd (spec_set m k v)) /\ saved_count s' = saved_count s /\
    (b = false -> env_cache_changed s = false /\ snd (spec_set m k v) = m).
Proof.
  intros Hr Hk Hv Hlen. pose proof Hr as (HR & Hi & Hl).
  destruct (ready_locked s m Hr) as [Hlk HR0].
  unfold ef_set_env. rewrite Hi, Hlk. cbn [negb mbind option_bind].
  destruct (set_env_refines (set_lock s 0) m k v) as (c & b & E & HR' & Hcnt & Hb); [done..|].
  cbv zeta in *. cbn [mbind option_bind] in E. rewrite E. cbn [mbind option_bind].
  assert (ef_port_env_unlock (set_changed (set_cache (set_lock s 0) c) b)
    = set_changed (set_cache s c) b) as Es by (destruct s; cbn in *; by subst).
  exists c, b. rewrite <- Es. split_and!; [done|by eapply ready_step|exact Hcnt|done].
Qed.


(** A replacement that does not fit loses the old value: the call reports
    [EF_ENV_FULL] and the variable no longer exists afterwards. *)
Theorem ef_set_env_full_drops_old (s : env_state) (m : env_map) (k v w : list Z) :
  env_ready s m -> key_ok k -> cstring v -> zlen k + zlen v < 2 ^ 30 ->
  m !! k = Some w -> w <> v ->
  ENV_USER_SETTING_SIZE <= ENV_PARAM_BYTE_SIZE + map_size (delete k m) + entry_len k v ->
  exists s', ef_set_env s k (Some v) = Some (EF_ENV_FULL, s') /\ ef_get_env s' k = Some None.
Proof.
  intros Hr Hk Hv Hlen Hw Hne Hfull.
  destruct (code_call_refines s m (CSet k v) Hr) as (s' & E & HR); [done|].
  cbn [code_call spec_call] in *. unfold spec_set in *.
  rewrite decide_False in * by congruence.
  destruct (Z.ltb_spec (ENV_PARAM_BYTE_SIZE + map_size (delete k m) + entry_len k v)
    ENV_USER_SETTING_SIZE); [lia|]. cbn [fst snd] in *.
  destruct (ef_set_env s k (Some v)) as [[e s1]|]; [|done]. cbn [mbind option_bind] in E.
  injection E as -> ->. exists s'. split; [done|].
  destruct HR as (HR & Hi & _). rewrite (get_env_refines s' _ k HR Hi Hk).
  by rewrite lookup_delete_eq.
Qed.

(** ** A concrete environment *)
Definition sample_ready : env_state :=
  EnvState (le_bytes 4 12 ++ replicate 2044 0) 0 false true 0 4096 1.

Lemma sample_ready_ok : env_ready sample_ready ∅.
Proof.
  split; [|done]. exists []. split; [|done]. split; try by_decide.
  exists (take 12 (env_cache sample_ready)), (drop 12 (env_cache sample_ready)). by_decide.
Defined.


Lemma ef_set_env_full_drops_old_witness : exists s1 s2,
  ef_set_env sample_ready (str "ip") (Some (str "10.0.0.1")) = Some (EF_NO_ERR, s1) /\
  ef_set_env s1 (str "ip") (Some (replicate 2040 65)) = Some (EF_ENV_FULL, s2) /\
  ef_get_env s2 (str "ip") = Some None.
Proof.
  destruct (code_call_refines sample_ready ∅ (CSet (str "ip") (str "10.0.0.1")) sample_ready_ok)
    as (s1 & E & Hr); [repeat constructor; by_decide|]. exists s1.
  destruct (ef_set_env_full_drops_old s1 (snd (spec_call ∅ (CSet (str "ip") (str "10.0.0.1"))))
    (str "ip") (replicate 2040 65) (str "10.0.0.1")) as (s2 & E2 & E3);
    [done|repeat constructor; by_decide|by_decide..|].
  exists s2. split; [|done]. cbn [code_call] in E.
  replace (fst (spec_call ∅ (CSet (str "ip") (str "10.0.0.1")))) with (RCode EF_NO_ERR) in E
    by (vm_compute; reflexivity).
  destruct (ef_set_env sample_ready (str "ip") (Some (str "10.0.0.1"))) as [[e s']|];
    [|discriminate E]. cbn [mbind option_bind] in E. injection E as -> ->. reflexivity.
Defined.
