(* ===== verification/EfStore.v ===== *)
(** * EasyFlash: saving and loading the environment

    The flash half of src/packages/EasyFlash-v3.3.0/src/ef_env.c in
    power-fail-safeguard mode, on the port
    src/ports/easyflash/ef_fal_port.c.  The environment is kept in two areas
    of one erase block each; a save goes to the area that was not loaded.  The
    theorems show that a save followed by a load gives the same variables,
    that an interruption at any point of a save leaves the old variables
    loadable, and what an erase error does to the choice of the next area. *)

From S2P Require Import Prelude Crc32 Flash Fal EfEnv.

Local Open Scope Z_scope.

Definition FAL_EF_PART_NAME : list Z := str "easyflash".

(** [default_env_set] of the port. *)
Definition default_env_set : list (list Z * list Z) := [(str "boot_times", str "0")].

Definition ENV_PARAM_WORD_SIZE : Z := 3.

(** [calc_env_crc]; [None] when the data section reaches past the cache. *)
Definition calc_env_crc (s : env_state) : option Z :=
  let c := env_cache s in
  if zlen c <? 4 * ENV_PARAM_WORD_SIZE + get_env_data_size s then None
  else
    let crc32 := EfCrc.ef_calc_crc32 0 (buf_sub c (4 * ENV_PARAM_INDEX_END_ADDR) 4) in
    let crc32 := EfCrc.ef_calc_crc32 crc32 (buf_sub c (4 * ENV_PARAM_INDEX_SAVED_COUNT) 4) in
    Some (EfCrc.ef_calc_crc32 crc32 (buf_sub c (4 * ENV_PARAM_WORD_SIZE) (get_env_data_size s))).

Definition env_crc_is_ok (s : env_state) : option bool :=
  crc ← calc_env_crc s;
  Some (crc =? cache_word (env_cache s) ENV_PARAM_INDEX_DATA_CRC).

Section EfStore.
Context {F : Type}.
Context (device_table : list (fal_flash_dev F)).
Context (part : fal_partition).

(** ** The port *)

(** [ef_port_read]: the buffer after the call; the result of the FAL read is
    ignored, so a failed read leaves the buffer as it was. *)
Definition ef_port_read (f : F) (addr : Z) (buf : list Z) (size : Z) : option (list Z) :=
  let '(_, d) := fal_partition_read device_table part f addr size in buf_write buf 0 d.

(** [ef_port_erase]: a start address that is no multiple of the erase size
    fails an assertion, which halts. *)
Definition ef_port_erase (f : F) (addr size : Z) : option (EfErrCode * F) :=
  if negb (addr `mod` EF_ERASE_MIN_SIZE =? 0) then None
  else let '(r, f) := fal_partition_erase device_table part f addr size in
       Some (if r <? 0 then EF_ERASE_ERR else EF_NO_ERR, f).

Definition ef_port_write (f : F) (addr : Z) (buf : list Z) : EfErrCode * F :=
  let '(r, f) := fal_partition_write device_table part f addr buf in
  (if r <? 0 then EF_WRITE_ERR else EF_NO_ERR, f).

(** ** Saving *)

(** What [ef_save_env] does to the cache and the area addresses before it
    touches the flash. *)
Definition save_prepare (s : env_state) : option env_state :=
  let write_addr := next_save_area_addr s in
  let write_size := get_env_user_used_size s in
  let s := set_areas s write_addr (cur_load_area_addr s) in
  let s := set_env_end_addr s (u32 (write_addr + write_size)) in
  let s := set_cache s (cache_set_word (env_cache s) ENV_PARAM_INDEX_SAVED_COUNT
             (u32 (cache_word (env_cache s) ENV_PARAM_INDEX_SAVED_COUNT + 1))) in
  crc ← calc_env_crc s;
  Some (set_cache s (cache_set_word (env_cache s) ENV_PARAM_INDEX_DATA_CRC crc)).

Definition ef_save_env (s : env_state) (f : F) : option (EfErrCode * env_state * F) :=
  if negb (env_cache_changed s) then Some (EF_NO_ERR, s, f)
  else
    let write_addr := next_save_area_addr s in
    let write_size := get_env_user_used_size s in
    s ← save_prepare s;
    '(result, f) ← ef_port_erase f write_addr write_size;
    if decide (result = EF_ERASE_ERR) then Some (result, s, f)
    else if zlen (env_cache s) <? write_size then None
    else
      let '(result, f) := ef_port_write f write_addr (buf_sub (env_cache s) 0 write_size) in
      Some (result, set_changed s false, f).

(** ** Defaults *)

(** The loop over the default set; the results of [create_env] are ignored. *)
Fixpoint create_defaults (s : env_state) (es : list (list Z * list Z)) : option env_state :=
  match es with
  | [] => Some s
  | (k, v) :: es => '(_, s) ← create_env s k v; create_defaults s es
  end.

Definition ef_env_set_default (defaults : list (list Z * list Z)) (s : env_state) (f : F)
  : option (EfErrCode * env_state * F) :=
  if bool_decide (defaults = []) then None
  else
    s ← ef_port_env_lock s;
    let s := set_env_end_addr s (get_env_data_addr s) in
    let s := set_cache s (cache_set_word (env_cache s) ENV_PARAM_INDEX_SAVED_COUNT 0) in
    s ← create_defaults s defaults;
    let s := ef_port_env_unlock s in
    '(result, s, f) ← ef_save_env s f;
    if decide (result = EF_NO_ERR) then ef_save_env (set_changed s true) f
    else Some (result, s, f).

(** ** Loading *)

(** The range check on an area's end address. *)
Definition end_in_range (start end_addr : Z) : bool :=
  negb ((end_addr =? 0xFFFFFFFF) || (end_addr <? start)
        || (u32 (start + ENV_USER_SETTING_SIZE) <? end_addr)).

(** A 32-bit local variable after [ef_port_read]; [junk] is what it held. *)
Definition read_word (junk : list Z) (f : F) (addr : Z) : option Z :=
  le_val <$> ef_port_read f addr junk 4.

(** The block "check area CRC when it is valid", for either area. *)
Definition check_area (s : env_state) (f : F) (valid : bool) (start end_addr : Z)
  : option (bool * env_state) :=
  if valid then
    c ← ef_port_read f start (env_cache s) (end_addr - start);
    let s := set_areas (set_cache s c) start (next_save_area_addr s) in
    ok ← env_crc_is_ok s;
    Some (ok, s)
  else Some (false, s).

(** [ef_load_env]; [junk i] is what the i-th uninitialised local holds. *)
Definition ef_load_env (defaults : list (list Z * list Z)) (junk : nat -> list Z)
    (s : env_state) (f : F) : option (EfErrCode * env_state * F) :=
  let area0 := env_start_addr s in
  let area1 := u32 (env_start_addr s + ENV_AREA_SIZE / 2) in
  end0 ← read_word (junk 0%nat) f (area0 + ENV_PARAM_INDEX_END_ADDR * 4);
  end1 ← read_word (junk 1%nat) f (area1 + ENV_PARAM_INDEX_END_ADDR * 4);
  '(valid0, s) ← check_area s f (end_in_range area0 end0) area0 end0;
  '(valid1, s) ← check_area s f (end_in_range area1 end1) area1 end1;
  '(valid0, valid1) ←
    (if valid0 && valid1 then
       count0 ← read_word (junk 2%nat) f (area0 + ENV_PARAM_INDEX_SAVED_COUNT * 4);
       count1 ← read_word (junk 3%nat) f (area1 + ENV_PARAM_INDEX_SAVED_COUNT * 4);
       Some (if (count1 <? count0) || ((count0 =? 0) && (count1 =? 0xFFFFFFFF))
             then (true, false) else (false, true))
     else Some (valid0, valid1));
  if (valid0 : bool) then
    c ← ef_port_read f area0 (env_cache s) (end0 - area0);
    Some (EF_NO_ERR, set_areas (set_cache s c) area0 area1, f)
  else if (valid1 : bool) then
    Some (EF_NO_ERR, set_areas s (cur_load_area_addr s) area0, f)
  else ef_env_set_default defaults (set_areas s area1 area0) f.

(** ** Initialisation and the combined calls *)
Definition ef_env_init (defaults : list (list Z * list Z)) (junk : nat -> list Z)
    (s : env_state) (f : F) : option (EfErrCode * env_state * F) :=
  if ENV_USER_SETTING_SIZE <=? zlen defaults then None
  else
    let s := EnvState (env_cache s) EF_START_ADDR (env_cache_changed s) (init_ok s)
               (cur_load_area_addr s) (next_save_area_addr s) (env_cache_lock s) in
    '(result, s, f) ← ef_load_env defaults junk s f;
    Some (result, if decide (result = EF_NO_ERR) then set_init_ok s true else s, f).

Definition ef_set_and_save_env (s : env_state) (f : F) (key : list Z) (value : option (list Z))
  : option (EfErrCode * env_state * F) :=
  '(result, s) ← ef_set_env s key value;
  if decide (result = EF_NO_ERR) then ef_save_env s f else Some (result, s, f).

Definition ef_del_and_save_env (s : env_state) (f : F) (key : list Z)
  : option (EfErrCode * env_state * F) :=
  '(result, s) ← ef_del_env s key;
  if decide (result = EF_NO_ERR) then ef_save_env s f else Some (result, s, f).

End EfStore.

(** [ef_port_init]: the defaults, a free lock and the partition; a missing
    partition fails an assertion. *)
Definition ef_port_init (fal : fal_state) (s : env_state)
  : option (list (list Z * list Z) * fal_partition * env_state) :=
  found ← fal_partition_find fal FAL_EF_PART_NAME;
  match found with
  | Some p => Some (default_env_set, p, set_lock s 1)
  | None => None
  end.

Definition easyflash_init {F} (device_table : list (fal_flash_dev F)) (fal : fal_state)
    (junk : nat -> list Z) (s : env_state) (f : F)
  : option (EfErrCode * env_state * F) :=
  '(defaults, part, s) ← ef_port_init fal s;
  ef_env_init device_table part defaults junk s f.

(** ** Images

    [image a es cnt]: the bytes a save of the variables [es] with save counter
    [cnt] puts at the area [a]. *)
Definition image_end (a : Z) (es : list (list Z * list Z)) : Z :=
  a + ENV_PARAM_BYTE_SIZE + zlen (data es).

Definition image_crc (a : Z) (es : list (list Z * list Z)) (cnt : Z) : Z :=
  EfCrc.ef_calc_crc32 (EfCrc.ef_calc_crc32 (EfCrc.ef_calc_crc32 0 (le_bytes 4 (image_end a es)))
    (le_bytes 4 cnt)) (data es).

Definition image (a : Z) (es : list (list Z * list Z)) (cnt : Z) : list Z :=
  le_bytes 4 (image_end a es) ++ le_bytes 4 cnt ++ le_bytes 4 (image_crc a es cnt) ++ data es.

Lemma ef_crc_range crc buf : 0 <= crc < 2 ^ 32 -> bytes buf ->
  0 <= EfCrc.ef_calc_crc32 crc buf < 2 ^ 32.
Proof.
  intros Hc Hb. unfold EfCrc.ef_calc_crc32. rewrite CrcSpec.ef_fold by done.
  apply (CrcSpec.lxor_range 32); [lia| |lia].
  apply CrcSpec.crc_bits_range; [|done]. apply (CrcSpec.lxor_range 32); lia.
Qed.

Lemma data_bytes es : Forall var_ok es -> bytes (data es).
Proof.
  induction 1 as [|[k v] es Hkv Hes IH]; [constructor|]. rewrite data_cons, Forall_app.
  split; [by apply entry_bytes|done].
Qed.

Lemma image_crc_range a es cnt : Forall var_ok es -> 0 <= image_crc a es cnt < 2 ^ 32.
Proof.
  intros H. unfold image_crc. pose proof (data_bytes es H).
  repeat (apply ef_crc_range; [|auto using le_bytes_bytes]). lia.
Qed.

Lemma image_len a es cnt : zlen (image a es cnt) = ENV_PARAM_BYTE_SIZE + zlen (data es).
Proof. unfold image. autorewrite with zlen. ef_lia. Qed.

Lemma image_bytes a es cnt : Forall var_ok es -> bytes (image a es cnt).
Proof.
  intros H. unfold image. rewrite !Forall_app.
  split_and!; auto using le_bytes_bytes, data_bytes.
Qed.

(** Access to one word of a cache laid out as words. *)
Lemma word_get p x r i : zlen p = 4 * i -> zlen x = 4 -> cache_word (p ++ x ++ r) i = le_val x.
Proof.
  intros Hp Hx. unfold cache_word. rewrite buf_sub_skip by lia.
  replace (4 * i - zlen p) with 0 by lia. by rewrite buf_sub_here.
Qed.

Lemma word_set p x r i v : zlen p = 4 * i -> zlen x = 4 ->
  cache_set_word (p ++ x ++ r) i v = p ++ le_bytes 4 v ++ r.
Proof.
  intros Hp Hx. unfold cache_set_word, zlen in *.
  rewrite take_app_length' by lia.
  replace (Z.to_nat (4 * i + 4)) with (length p + length x)%nat by lia.
  rewrite drop_app_add', drop_app_length by done. done.
Qed.

Lemma word_get0 x r : zlen x = 4 -> cache_word (x ++ r) 0 = le_val x.
Proof. intros Hx. apply (word_get [] x r 0); [done|done]. Qed.

Lemma word_set0 x r v : zlen x = 4 -> cache_set_word (x ++ r) 0 v = le_bytes 4 v ++ r.
Proof. intros Hx. apply (word_set [] x r 0); [done|done]. Qed.

Lemma header_words (h : list Z) : zlen h = ENV_PARAM_BYTE_SIZE ->
  exists x0 x1 x2, h = x0 ++ x1 ++ x2 /\ zlen x0 = 4 /\ zlen x1 = 4 /\ zlen x2 = 4.
Proof.
  unfold ENV_PARAM_BYTE_SIZE. intros H. exists (take 4 h), (take 4 (drop 4 h)), (drop 8 h).
  split_and!; [|autorewrite with zlen; lia..].
  replace (drop 8 h) with (drop 4 (drop 4 h)) by by rewrite drop_drop.
  by rewrite !take_drop.
Qed.

(** The checksum of a cache laid out for the area it is loaded from. *)
Lemma calc_crc_layout s es a cnt x tail :
  env_cache s = le_bytes 4 (image_end a es) ++ le_bytes 4 cnt ++ x ++ data es ++ tail ->
  zlen x = 4 -> cur_load_area_addr s = a -> 0 <= a < 2 ^ 31 -> zlen (data es) < 2 ^ 20 ->
  calc_env_crc s = Some (image_crc a es cnt).
Proof.
  intros Hc Hx Hcur Ha Hlen. pose proof (zlen_nonneg (data es)). pose proof (zlen_nonneg tail).
  assert (get_env_end_addr s = image_end a es) as Hend.
  { unfold get_env_end_addr, ENV_PARAM_INDEX_END_ADDR. rewrite Hc.
    rewrite word_get0 by (autorewrite with zlen; lia).
    apply le_val_bytes. change (256 ^ Z.of_nat 4) with (2 ^ 32). unfold image_end. ef_lia. }
  assert (get_env_data_size s = zlen (data es)) as Hds.
  { unfold get_env_data_size, get_env_data_addr, get_env_system_addr.
    rewrite Hend, Hcur. unfold image_end. rewrite u32_id by ef_lia. case_bool. }
  unfold calc_env_crc, ENV_PARAM_WORD_SIZE, ENV_PARAM_INDEX_END_ADDR,
    ENV_PARAM_INDEX_SAVED_COUNT. rewrite Hds, Hc.
  destruct (Z.ltb_spec (zlen (le_bytes 4 (image_end a es) ++ le_bytes 4 cnt ++ x ++ data es ++ tail))
    (4 * 3 + zlen (data es))); [autorewrite with zlen in *; lia|].
  rewrite (buf_sub_here (le_bytes 4 _)) by (autorewrite with zlen; lia).
  rewrite (buf_sub_skip (le_bytes 4 (image_end a es)) _ (4 * 1))
    by (autorewrite with zlen; lia).
  rewrite le_bytes_zlen, (buf_sub_here (le_bytes 4 cnt)) by (autorewrite with zlen; lia).
  do 3 rewrite (buf_sub_skip _ _ _ (zlen (data es))) by (autorewrite with zlen; lia).
  rewrite !le_bytes_zlen. replace (4 * 3 - Z.of_nat 4 - Z.of_nat 4 - zlen x) with 0 by lia.
  by rewrite (buf_sub_here (data es)).
Qed.

Lemma save_prepare_spec s es cnt :
  env_rep s es -> cache_word (env_cache s) ENV_PARAM_INDEX_SAVED_COUNT = cnt ->
  0 <= next_save_area_addr s < 2 ^ 31 ->
  exists tail,
    let c := image (next_save_area_addr s) es (u32 (cnt + 1)) ++ tail in
    save_prepare s
      = Some (set_cache (set_areas s (next_save_area_addr s) (cur_load_area_addr s)) c) /\
    zlen c = ENV_USER_SETTING_SIZE /\ bytes tail.
Proof.
  intros Hrep Hcnt Hn. pose proof (rep_used s es Hrep) as (Hu & _ & _).
  pose proof (rep_data_small s es Hrep). pose proof (zlen_nonneg (data es)).
  destruct Hrep as [(h & tail & Hc & Hh) Hcl Hb _ Hfit Har Hes _].
  destruct (header_words h Hh) as (x0 & x1 & x2 & -> & Hx0 & Hx1 & Hx2).
  rewrite <- !app_assoc in Hc. exists tail. cbv zeta. split_and!.
  - unfold save_prepare, set_env_end_addr, ENV_PARAM_INDEX_END_ADDR, ENV_PARAM_INDEX_DATA_CRC.
    cbn [env_cache set_cache set_areas next_save_area_addr]. rewrite Hu.
    rewrite u32_id by ef_lia.
    replace (next_save_area_addr s + (ENV_PARAM_BYTE_SIZE + zlen (data es)))
      with (image_end (next_save_area_addr s) es) by (unfold image_end; lia).
    unfold ENV_PARAM_INDEX_SAVED_COUNT in *. rewrite Hc in Hcnt |- *.
    rewrite (word_get x0 x1 _ 1) in Hcnt by lia.
    rewrite word_set0 by done.
    rewrite (word_get (le_bytes 4 _) x1 _ 1) by (autorewrite with zlen; lia).
    rewrite Hcnt, (word_set (le_bytes 4 _) x1 _ 1) by (autorewrite with zlen; lia).
    erewrite (calc_crc_layout _ es (next_save_area_addr s) (u32 (cnt + 1)) x2 tail);
      [|done|done|done|lia|lia].
    cbn [mbind option_bind env_cache set_cache].
    rewrite (app_assoc _ (le_bytes 4 (u32 (cnt + 1)))).
    rewrite (word_set (_ ++ le_bytes 4 (u32 (cnt + 1))) x2 _ 2)
      by (autorewrite with zlen; lia). unfold image. by rewrite <- !app_assoc.
  - rewrite Hc in Hcl. rewrite zlen_app, image_len. autorewrite with zlen in *. ef_lia.
  - rewrite Hc, !Forall_app in Hb. by destruct Hb as (_ & _ & _ & _ & ?).
Qed.

(** What the port promises on a partition of a flash device. *)
Section Port.
Context {F : Type}.
Context (device_table : list (fal_flash_dev F)).
Context (part : fal_partition) (d : fal_flash_dev F).
Context `{!FlashDevice (dev_ops d) (dev_len d) (dev_blk_size d)}.
Hypothesis Hdev : find_device device_table (flash_name part) = Some d.
Hypothesis Hfit : 0 <= part_offset part /\ part_offset part + part_len part <= dev_len d.
Hypothesis Hdevlen : dev_len d < 2 ^ 31.
Hypothesis Hblk : dev_blk_size d = EF_ERASE_MIN_SIZE.
Hypothesis Haligned : part_offset part `mod` EF_ERASE_MIN_SIZE = 0.
Hypothesis Hsize : ENV_AREA_SIZE <= part_len part.

(** What a read of the partition returns. *)
Definition part_read (f : F) (a n : Z) : list Z :=
  snd (fal_partition_read device_table part f a n).

Lemma part_read_dev f a n : 0 <= a -> 0 <= n -> a + n <= part_len part ->
  fal_partition_read device_table part f a n = op_read (dev_ops d) f (part_offset part + a) n.
Proof.
  intros Ha Hn Hr. apply (partition_inside device_table part d Hdev Hfit Hdevlen f a n
    (replicate (Z.to_nat n) 0)); [lia..| |lia]. autorewrite with zlen. lia.
Qed.

Lemma part_read_len f a n : 0 <= a -> 0 <= n -> a + n <= part_len part ->
  zlen (part_read f a n) = n /\ bytes (part_read f a n).
Proof.
  intros Ha Hn Hr. unfold part_read. rewrite part_read_dev by done.
  destruct (fd_read_len f (part_offset part + a) n) as (_ & H1 & H2); [lia..|done].
Qed.

Lemma port_read_spec f a buf n : 0 <= a -> 0 <= n -> a + n <= part_len part -> n <= zlen buf ->
  ef_port_read device_table part f a buf n
    = Some (part_read f a n ++ drop (Z.to_nat n) buf).
Proof.
  intros Ha Hn Hr Hb. destruct (part_read_len f a n Ha Hn Hr) as [Hl _].
  unfold ef_port_read, part_read in *.
  destruct (fal_partition_read device_table part f a n) as [r x]. cbn [snd] in *.
  rewrite buf_write_some by lia. rewrite take_0. simpl. do 3 f_equal. unfold zlen in *. lia.
Qed.

Lemma read_word_spec junk f a : zlen junk = 4 -> 0 <= a -> a + 4 <= part_len part ->
  read_word device_table part junk f a = Some (le_val (part_read f a 4)).
Proof.
  intros Hj Ha Hr. unfold read_word. rewrite port_read_spec by lia. cbn. do 2 f_equal.
  rewrite drop_ge by (unfold zlen in *; lia). apply app_nil_r.
Qed.

(** Successful erase and write of an area: it reads back. *)
Lemma port_program f f1 f2 a x : 0 <= a -> a `mod` EF_ERASE_MIN_SIZE = 0 ->
  0 < zlen x -> a + zlen x <= part_len part -> bytes x ->
  ef_port_erase device_table part f a (zlen x) = Some (EF_NO_ERR, f1) ->
  ef_port_write device_table part f1 a x = (EF_NO_ERR, f2) ->
  part_read f2 a (zlen x) = x.
Proof.
  intros Ha Hal Hx Hr Hb He Hw. unfold ef_port_erase, ef_port_write in *.
  destruct (partition_inside device_table part d Hdev Hfit Hdevlen f a (zlen x) x)
    as (_ & _ & Ee); [lia..|].
  destruct (partition_inside device_table part d Hdev Hfit Hdevlen f1 a (zlen x) x)
    as (_ & Ew & _); [lia..|].
  rewrite Hal, Ee in He. rewrite Ew in Hw. cbn [Z.eqb negb] in He.
  pose proof (fd_erase_result f (part_offset part + a) (zlen x)) as Re.
  pose proof (fd_write_result f1 (part_offset part + a) x) as Rw.
  destruct (op_erase (dev_ops d) f _ _) as [re f1'] eqn:E1.
  destruct (op_write (dev_ops d) f1 _ _) as [rw f2'] eqn:E2. cbn [fst] in *.
  destruct (Z.ltb_spec re 0); [done|]. destruct (Z.ltb_spec rw 0); [done|].
  destruct Re as [->|]; [|lia]. destruct Rw as [->|]; [|lia].
  injection He as ->. injection Hw as ->.
  unfold part_read. rewrite part_read_dev by lia.
  rewrite (fd_program f f1 f2 (part_offset part + a) (zlen x) x) by
    (rewrite ?Hblk; try lia; try done; rewrite Z.add_mod, Haligned, Hal by done; done).
  rewrite Z.sub_diag. apply buf_sub_all.
Qed.

(** Erasing or writing in one area leaves the rest of the partition. *)
Definition agrees_outside (f f' : F) (a : Z) : Prop :=
  forall j m, 0 <= j -> 0 <= m -> j + m <= part_len part ->
  j + m <= a \/ a + EF_ERASE_MIN_SIZE <= j -> part_read f' j m = part_read f j m.

Lemma erase_outside f f' r a n : 0 <= a -> a `mod` EF_ERASE_MIN_SIZE = 0 ->
  0 < n <= EF_ERASE_MIN_SIZE -> a + n <= part_len part ->
  ef_port_erase device_table part f a n = Some (r, f') -> agrees_outside f f' a.
Proof.
  intros Ha Hal Hn Hr He j m Hj Hm Hjm Hout. unfold ef_port_erase in He.
  destruct (partition_inside device_table part d Hdev Hfit Hdevlen f a n
    (replicate (Z.to_nat n) 0)) as (_ & _ & Ee); [lia|lia|autorewrite with zlen; lia|lia|].
  rewrite Hal, Ee in He. cbn [Z.eqb negb] in He.
  destruct (op_erase (dev_ops d) f _ _) as [re f1] eqn:E1. injection He as _ ->.
  unfold part_read. rewrite !part_read_dev by lia.
  eapply fd_erase_frame; [| | | |exact E1|..]; try lia; rewrite ?Hblk in *.
  - by rewrite Z.add_mod, Haligned, Hal by done.
  - destruct Hout as [|Hout]; [lia|right]. unfold EF_ERASE_MIN_SIZE in *. zify_divmod.
Qed.

Lemma write_outside f f' r a x : 0 <= a -> zlen x <= EF_ERASE_MIN_SIZE ->
  a + zlen x <= part_len part ->
  ef_port_write device_table part f a x = (r, f') -> agrees_outside f f' a.
Proof.
  intros Ha Hx Hr Hw j m Hj Hm Hjm Hout. unfold ef_port_write in Hw.
  pose proof (zlen_nonneg x).
  destruct (partition_inside device_table part d Hdev Hfit Hdevlen f a (zlen x) x)
    as (_ & Ew & _); [lia..|].
  rewrite Ew in Hw. destruct (op_write (dev_ops d) f _ _) as [rw f1] eqn:E1.
  injection Hw as _ ->. unfold part_read. rewrite !part_read_dev by lia.
  eapply fd_write_frame; [| |exact E1|..]; lia.
Qed.

(** ** Accepted and rejected areas *)

(** The area [a] holds a complete save of [es]. *)
Record holds (f : F) (a : Z) (es : list (list Z * list Z)) (cnt : Z) : Prop := {
  holds_read : part_read f a (ENV_PARAM_BYTE_SIZE + zlen (data es)) = image a es cnt;
  holds_fits : ENV_PARAM_BYTE_SIZE + zlen (data es) < ENV_USER_SETTING_SIZE;
  holds_cnt : 0 <= cnt < 2 ^ 32;
  holds_entries : Forall var_ok es;
  holds_keys : NoDup es.*1
}.

(** The area [a] fails the checks: its end address is out of range, or it
    covers a header whose checksum does not match. *)
Definition rejected (f : F) (a : Z) : Prop :=
  let e := le_val (part_read f a 4) in
  end_in_range a e = false \/
  (a + ENV_PARAM_BYTE_SIZE <= e /\
   let x := part_read f a (e - a) in
   EfCrc.ef_calc_crc32 (EfCrc.ef_calc_crc32 (EfCrc.ef_calc_crc32 0 (buf_sub x 0 4))
     (buf_sub x 4 4)) (buf_sub x 12 (e - a - 12)) <> le_val (buf_sub x 8 4)).

Definition area_addr (a : Z) : Prop := a = 0 \/ a = EF_ERASE_MIN_SIZE.

(** A window of a read is the read of the window. *)
Lemma part_read_sub f a n i m : 0 <= a -> a + n <= part_len part -> 0 <= i -> 0 <= m ->
  i + m <= n -> part_read f (a + i) m = buf_sub (part_read f a n) i m.
Proof.
  intros Ha Hr Hi Hm Hin. unfold part_read. rewrite !part_read_dev by lia.
  rewrite (fd_read_sub f (part_offset part + a) n) by lia. f_equal. lia.
Qed.

Lemma area_bounds a n : area_addr a -> n <= EF_ERASE_MIN_SIZE ->
  0 <= a < 2 ^ 31 /\ a + n <= part_len part /\ a `mod` EF_ERASE_MIN_SIZE = 0.
Proof.
  unfold area_addr, ENV_AREA_SIZE, EF_ERASE_MIN_SIZE in *. intros [->| ->] Hn; split_and!; done || lia.
Qed.

(** The header words of a held area. *)
Lemma holds_words f a es cnt : area_addr a -> holds f a es cnt ->
  le_val (part_read f a 4) = image_end a es /\ le_val (part_read f (a + 4) 4) = cnt /\
  end_in_range a (image_end a es) = true.
Proof.
  intros Ha []. pose proof (zlen_nonneg (data es)).
  destruct (area_bounds a (ENV_PARAM_BYTE_SIZE + zlen (data es)) Ha) as (Hb & Hr & _);
    [unfold EF_ERASE_MIN_SIZE; ef_lia|].
  split_and!.
  - rewrite <- (Z.add_0_r a) at 1.
    rewrite (part_read_sub f a (ENV_PARAM_BYTE_SIZE + zlen (data es))), holds_read0 by ef_lia.
    unfold image. rewrite buf_sub_here by (autorewrite with zlen; lia).
    apply le_val_bytes. change (256 ^ Z.of_nat 4) with (2 ^ 32). unfold image_end. ef_lia.
  - rewrite (part_read_sub f a (ENV_PARAM_BYTE_SIZE + zlen (data es))), holds_read0 by ef_lia.
    unfold image. rewrite buf_sub_skip by (autorewrite with zlen; lia). autorewrite with zlen.
    rewrite buf_sub_here by (autorewrite with zlen; lia).
    apply le_val_bytes. change (256 ^ Z.of_nat 4) with (2 ^ 32). lia.
  - unfold end_in_range, image_end, ENV_USER_SETTING_SIZE, ENV_PARAM_BYTE_SIZE in *.
    rewrite u32_id by lia. repeat case_bool.
Qed.

(** ** Checking one area *)
Definition cache_ok (c : list Z) : Prop := zlen c = ENV_USER_SETTING_SIZE /\ bytes c.

Lemma cache_ok_read f a c n : cache_ok c -> area_addr a -> 0 <= n <= ENV_USER_SETTING_SIZE ->
  cache_ok (part_read f a n ++ drop (Z.to_nat n) c).
Proof.
  intros [Hl Hb] Ha Hn. destruct (area_bounds a n Ha) as (Ha' & Hr & _);
    [unfold EF_ERASE_MIN_SIZE; ef_lia|].
  destruct (part_read_len f a n) as [Hl' Hb']; [lia..|].
  split; [autorewrite with zlen; ef_lia|]. rewrite Forall_app. split; [done|by apply Forall_drop].
Qed.

Lemma area_port_read f a c n : cache_ok c -> area_addr a -> 0 <= n <= ENV_USER_SETTING_SIZE ->
  ef_port_read device_table part f a c n = Some (part_read f a n ++ drop (Z.to_nat n) c).
Proof.
  intros [Hl Hb] Ha Hn. destruct (area_bounds a n Ha) as (Ha' & Hr & _);
    [unfold EF_ERASE_MIN_SIZE; ef_lia|].
  apply port_read_spec; ef_lia.
Qed.

Lemma check_area_holds s f a es cnt :
  cache_ok (env_cache s) -> area_addr a -> holds f a es cnt ->
  exists c, check_area device_table part s f true a (image_end a es)
      = Some (true, set_areas (set_cache s c) a (next_save_area_addr s)) /\
    c = image a es cnt ++ drop (Z.to_nat (ENV_PARAM_BYTE_SIZE + zlen (data es))) (env_cache s) /\
    cache_ok c.
Proof.
  intros Hs Ha Hh. pose proof Hh as [Hread Hfits Hcnt Hes Hnd].
  pose proof (zlen_nonneg (data es)).
  destruct (area_bounds a 0 Ha) as (Hab & _ & _); [done|].
  eexists. split_and!; [|reflexivity|].
  - unfold check_area. replace (image_end a es - a) with (ENV_PARAM_BYTE_SIZE + zlen (data es))
      by (unfold image_end; lia).
    rewrite area_port_read by (done || ef_lia). cbn [mbind option_bind]. rewrite Hread.
    unfold env_crc_is_ok.
    erewrite (calc_crc_layout _ es a cnt (le_bytes 4 (image_crc a es cnt)));
      [|cbn [env_cache set_cache set_areas]; unfold image; by rewrite <- !app_assoc
       |autorewrite with zlen; lia|done|lia|ef_lia].
    cbn [mbind option_bind env_cache set_cache set_areas]. unfold image, ENV_PARAM_INDEX_DATA_CRC.
    rewrite <- !app_assoc, (app_assoc (le_bytes 4 (image_end a es))).
    rewrite (word_get (le_bytes 4 (image_end a es) ++ le_bytes 4 cnt) (le_bytes 4 (image_crc a es cnt)) _ 2)
      by (autorewrite with zlen; lia).
    rewrite le_val_bytes, Z.eqb_refl; [done|].
    change (256 ^ Z.of_nat 4) with (2 ^ 32). by apply image_crc_range.
  - rewrite <- Hread. apply cache_ok_read; [done|done|ef_lia].
Qed.

Lemma in_range_bound a e : area_addr a -> end_in_range a e = true -> e <= a + ENV_USER_SETTING_SIZE.
Proof.
  intros Ha He. destruct (area_bounds a 0 Ha) as (Hab & _ & _); [done|].
  unfold end_in_range in He. rewrite negb_true_iff, !orb_false_iff in He.
  destruct He as [_ He]. rewrite u32_id in He by ef_lia. apply Z.ltb_ge in He. lia.
Qed.

Lemma check_area_rejected s f a :
  cache_ok (env_cache s) -> area_addr a -> rejected f a ->
  let e := le_val (part_read f a 4) in
  exists c cur, check_area device_table part s f (end_in_range a e) a e
      = Some (false, set_areas (set_cache s c) cur (next_save_area_addr s)) /\ cache_ok c.
Proof.
  intros Hs Ha Hrej e. unfold rejected in Hrej. fold e in Hrej. unfold check_area.
  destruct (end_in_range a e) eqn:Her.
  2:{ exists (env_cache s), (cur_load_area_addr s). split; [by destruct s|done]. }
  destruct Hrej as [|[Hlo Hne]]; [done|].
  destruct (area_bounds a 0 Ha) as (Hab & _ & _); [done|].
  pose proof (in_range_bound a e Ha Her) as Hhi.
  set (x := part_read f a (e - a)) in *.
  destruct (area_bounds a (e - a) Ha) as (_ & Hr & _); [unfold EF_ERASE_MIN_SIZE; ef_lia|].
  destruct (part_read_len f a (e - a)) as [Hl _]; [ef_lia..|]. fold x in Hl.
  rewrite area_port_read by (done || ef_lia). cbn [mbind option_bind]. fold x.
  set (c := x ++ drop (Z.to_nat (e - a)) (env_cache s)).
  exists c, a. split; [|apply cache_ok_read; [done|done|ef_lia]].
  assert (le_val (buf_sub x 0 4) = e) as He.
  { unfold e, x. rewrite <- (Z.add_0_r a) at 3. symmetry. f_equal. apply part_read_sub; ef_lia. }
  unfold env_crc_is_ok, calc_env_crc, get_env_data_size, get_env_end_addr, get_env_data_addr,
    get_env_system_addr, cache_word, ENV_PARAM_WORD_SIZE.
  cbn [env_cache set_cache set_areas cur_load_area_addr].
  unfold c. rewrite !(buf_sub_app_l x) by ef_lia.
  change (4 * ENV_PARAM_INDEX_END_ADDR) with 0. rewrite He, u32_id by ef_lia.
  replace (if a + ENV_PARAM_BYTE_SIZE <? e then e - (a + ENV_PARAM_BYTE_SIZE) else 0)
    with (e - a - 12) by (unfold ENV_PARAM_BYTE_SIZE in *; case_bool).
  rewrite (buf_sub_app_l x) by ef_lia.
  destruct (Z.ltb_spec (zlen (x ++ drop (Z.to_nat (e - a)) (env_cache s))) (4 * 3 + (e - a - 12)));
    [rewrite zlen_app in *; pose proof (zlen_nonneg (drop (Z.to_nat (e - a)) (env_cache s))); lia|].
  cbn [mbind option_bind]. change (4 * 3) with 12.
  change (4 * ENV_PARAM_INDEX_SAVED_COUNT) with 4. change (4 * ENV_PARAM_INDEX_DATA_CRC) with 8.
  by rewrite (proj2 (Z.eqb_neq _ _) Hne).
Qed.

(** ** Loading *)

(** What a state looks like after loading [es] from the area [a]. *)
Record loaded (s s' : env_state) (a b : Z) (es : list (list Z * list Z)) (cnt : Z) : Prop := {
  loaded_rep : env_rep s' es;
  loaded_cnt : cache_word (env_cache s') ENV_PARAM_INDEX_SAVED_COUNT = cnt;
  loaded_cur : cur_load_area_addr s' = a;
  loaded_next : next_save_area_addr s' = b;
  loaded_changed : env_cache_changed s' = env_cache_changed s;
  loaded_init : init_ok s' = init_ok s;
  loaded_lock : env_cache_lock s' = env_cache_lock s
}.

Lemma loaded_image s a b es cnt f tail :
  area_addr a -> holds f a es cnt -> cache_ok (image a es cnt ++ tail) ->
  loaded s (set_areas (set_cache s (image a es cnt ++ tail)) a b) a b es cnt.
Proof.
  intros Ha [Hread Hfits Hcnt Hes Hnd] [Hl Hb].
  destruct (area_bounds a 0 Ha) as (Hab & _ & _); [done|]. pose proof (zlen_nonneg (data es)).
  split; try done; [split; cbn [env_cache set_cache set_areas cur_load_area_addr]; try done|].
  - exists (le_bytes 4 (image_end a es) ++ le_bytes 4 cnt ++ le_bytes 4 (image_crc a es cnt)), tail.
    unfold image. rewrite <- !app_assoc. split; [done|]. autorewrite with zlen. ef_lia.
  - unfold get_env_end_addr, image. cbn [env_cache set_cache set_areas].
    unfold ENV_PARAM_INDEX_END_ADDR. rewrite <- !app_assoc.
    rewrite word_get0 by (autorewrite with zlen; lia). apply le_val_bytes.
    change (256 ^ Z.of_nat 4) with (2 ^ 32). unfold image_end. ef_lia.
  - unfold image, ENV_PARAM_INDEX_SAVED_COUNT. cbn [env_cache set_cache set_areas].
    rewrite <- !app_assoc, (word_get (le_bytes 4 _) (le_bytes 4 cnt) _ 1)
      by (autorewrite with zlen; lia).
    apply le_val_bytes. change (256 ^ Z.of_nat 4) with (2 ^ 32). lia.
Qed.

(** What an area offers to a load: a save, or nothing. *)
Definition status (f : F) (a : Z) (st : option (list (list Z * list Z) * Z)) : Prop :=
  match st with
  | Some (es, cnt) => holds f a es cnt
  | None => rejected f a
  end.

Lemma check_area_status s f a st :
  cache_ok (env_cache s) -> area_addr a -> status f a st ->
  let e := le_val (part_read f a 4) in
  exists c cur, check_area device_table part s f (end_in_range a e) a e
      = Some (bool_decide (is_Some st), set_areas (set_cache s c) cur (next_save_area_addr s)) /\
    cache_ok c /\
    match st with
    | Some (es, cnt) => cur = a /\ exists tail, c = image a es cnt ++ tail
    | None => True
    end.
Proof.
  intros Hs Ha Hst e. destruct st as [[es cnt]|]; cbn [status] in Hst.
  - destruct (holds_words f a es cnt Ha Hst) as (He & _ & Hr). unfold e.
    rewrite He, Hr. destruct (check_area_holds s f a es cnt Hs Ha Hst) as (c & E & Hc & Hok).
    exists c, a. rewrite E. split_and!; [done|done|done|eauto].
  - destruct (check_area_rejected s f a Hs Ha Hst) as (c & cur & E & Hok). eauto.
Qed.

(** The area a load takes its variables from; [None] is the default set. *)
Definition pick (st0 st1 : option (list (list Z * list Z) * Z))
  : option (Z * Z * list (list Z * list Z) * Z) :=
  match st0, st1 with
  | Some (es0, c0), Some (es1, c1) =>
      if (c1 <? c0) || ((c0 =? 0) && (c1 =? 0xFFFFFFFF))
      then Some (0, EF_ERASE_MIN_SIZE, es0, c0) else Some (EF_ERASE_MIN_SIZE, 0, es1, c1)
  | Some (es0, c0), None => Some (0, EF_ERASE_MIN_SIZE, es0, c0)
  | None, Some (es1, c1) => Some (EF_ERASE_MIN_SIZE, 0, es1, c1)
  | None, None => None
  end.

Definition boot_ok (s : env_state) : Prop :=
  cache_ok (env_cache s) /\ env_start_addr s = 0.

(** The last branch of [ef_load_env]: area 0 is read again. *)
Lemma reload_area0 s f es cnt : cache_ok (env_cache s) -> holds f 0 es cnt ->
  exists s', (c ← ef_port_read device_table part f 0 (env_cache s) (image_end 0 es - 0);
    Some (EF_NO_ERR, set_areas (set_cache s c) 0 EF_ERASE_MIN_SIZE, f)) = Some (EF_NO_ERR, s', f) /\
    loaded s s' 0 EF_ERASE_MIN_SIZE es cnt.
Proof.
  intros Hs Hh. pose proof (holds_fits _ _ _ _ Hh). pose proof (zlen_nonneg (data es)).
  assert (area_addr 0) as Ha by by left.
  replace (image_end 0 es - 0) with (ENV_PARAM_BYTE_SIZE + zlen (data es))
    by (unfold image_end; lia).
  pose proof (cache_ok_read f 0 (env_cache s) (ENV_PARAM_BYTE_SIZE + zlen (data es)) Hs Ha
    ltac:(ef_lia)) as Hc.
  rewrite area_port_read by (done || ef_lia). cbn [mbind option_bind].
  eexists. split; [reflexivity|].
  rewrite (holds_read _ _ _ _ Hh) in *. by eapply loaded_image.
Qed.

Lemma loaded_trans s s1 s' a b es cnt :
  env_cache_changed s1 = env_cache_changed s -> init_ok s1 = init_ok s ->
  env_cache_lock s1 = env_cache_lock s -> loaded s1 s' a b es cnt -> loaded s s' a b es cnt.
Proof. intros E1 E2 E3 []. split; congruence. Qed.

Lemma load_spec defaults junk s f st0 st1 :
  boot_ok s -> (forall i, zlen (junk i) = 4) ->
  status f 0 st0 -> status f EF_ERASE_MIN_SIZE st1 ->
  match pick st0 st1 with
  | Some (a, b, es, cnt) =>
      exists s', ef_load_env device_table part defaults junk s f = Some (EF_NO_ERR, s', f) /\
        loaded s s' a b es cnt
  | None =>
      exists c, cache_ok c /\
        ef_load_env device_table part defaults junk s f
        = ef_env_set_default device_table part defaults
            (set_areas (set_cache s c) EF_ERASE_MIN_SIZE 0) f
  end.
Proof.
  intros [Hs Hst] Hj H0 H1.
  assert (area_addr 0 /\ area_addr EF_ERASE_MIN_SIZE) as [Ha0 Ha1] by (split; [by left|by right]).
  destruct (area_bounds 0 8 Ha0) as (_ & Hb0 & _); [done|].
  destruct (area_bounds _ 8 Ha1) as (_ & Hb1 & _); [done|].
  unfold ef_load_env. rewrite Hst. change (u32 (0 + ENV_AREA_SIZE / 2)) with EF_ERASE_MIN_SIZE.
  change (ENV_PARAM_INDEX_END_ADDR * 4) with 0. change (ENV_PARAM_INDEX_SAVED_COUNT * 4) with 4.
  rewrite !Z.add_0_r.
  rewrite !read_word_spec by (done || (unfold EF_ERASE_MIN_SIZE in *; lia)).
  cbn [mbind option_bind].
  destruct (check_area_status s f 0 st0 Hs Ha0 H0) as (c0 & cur0 & -> & Hc0 & P0).
  cbn [mbind option_bind].
  destruct (check_area_status (set_areas (set_cache s c0) cur0 (next_save_area_addr s)) f
    EF_ERASE_MIN_SIZE st1 Hc0 Ha1 H1) as (c1 & cur1 & -> & Hc1 & P1).
  cbn [mbind option_bind].
  destruct st0 as [[es0 n0]|], st1 as [[es1 n1]|]; cbn [pick status] in *.
  all: repeat first [rewrite bool_decide_eq_true_2 by eauto | rewrite bool_decide_eq_false_2
         by (intros [? ?]; done)]; cbn [andb mbind option_bind].
  - destruct (holds_words _ _ _ _ Ha0 H0) as (E0 & W0 & _).
    destruct (holds_words _ _ _ _ Ha1 H1) as (E1 & W1 & _).
    change (0 + 4) with 4 in W0 |- *. rewrite W0, W1, E0.
    destruct ((n1 <? n0) || ((n0 =? 0) && (n1 =? 0xFFFFFFFF))).
    + destruct (reload_area0 (set_areas (set_cache s c1) cur1 (next_save_area_addr s)) f es0 n0)
        as (s' & E & L); [done|done|]. exists s'. split; [exact E|]. by eapply loaded_trans, L.
    + destruct P1 as [-> [tail ->]]. eexists. split; [reflexivity|].
      by apply (loaded_image s _ _ _ _ f).
  - destruct (holds_words _ _ _ _ Ha0 H0) as (E0 & W0 & _). rewrite E0.
    destruct (reload_area0 (set_areas (set_cache s c1) cur1 (next_save_area_addr s)) f es0 n0)
        as (s' & E & L); [done|done|]. exists s'. split; [exact E|]. by eapply loaded_trans, L.
  - destruct P1 as [-> [tail ->]]. eexists. split; [reflexivity|].
    by apply (loaded_image s _ _ _ _ f).
  - exists c1. done.
Qed.

(** ** Saving *)
Lemma agrees_trans f1 f2 f3 a :
  agrees_outside f1 f2 a -> agrees_outside f2 f3 a -> agrees_outside f1 f3 a.
Proof. intros H1 H2 j m Hj Hm Hr Ho. rewrite H2, H1 by done. done. Qed.

Definition other_area (a : Z) : Z := if a =? 0 then EF_ERASE_MIN_SIZE else 0.

Lemma area_read_kept f f' a b n : area_addr a -> b = other_area a -> agrees_outside f f' b ->
  0 <= n <= ENV_USER_SETTING_SIZE -> part_read f' a n = part_read f a n.
Proof.
  intros Ha -> H Hn. destruct (area_bounds a n Ha) as (Ha' & Hr & _);
    [unfold EF_ERASE_MIN_SIZE; ef_lia|].
  apply H; try lia. unfold other_area, area_addr, EF_ERASE_MIN_SIZE in *. case_bool; ef_lia.
Qed.

Lemma holds_kept f f' a es cnt : area_addr a -> agrees_outside f f' (other_area a) ->
  holds f a es cnt -> holds f' a es cnt.
Proof.
  intros Ha Hag [Hread Hfits Hcnt Hes Hnd]. pose proof (zlen_nonneg (data es)).
  split; try done. by rewrite (area_read_kept f f' a (other_area a)) by (done || ef_lia).
Qed.

(** A save of a changed cache: it always returns, the areas are swapped, only
    the other area is touched, and on success that area holds the variables. *)
Lemma save_spec s f es :
  env_rep s es -> env_cache_changed s = true -> area_addr (next_save_area_addr s) ->
  exists r s' f', ef_save_env device_table part s f = Some (r, s', f') /\
    agrees_outside f f' (next_save_area_addr s) /\
    next_save_area_addr s' = cur_load_area_addr s /\
    (r = EF_ERASE_ERR -> env_cache_changed s' = true) /\
    (r <> EF_ERASE_ERR -> env_cache_changed s' = false) /\
    (r = EF_NO_ERR -> holds f' (next_save_area_addr s) es (u32 (saved_count s + 1)) /\
       loaded (set_changed s false) s' (next_save_area_addr s) (cur_load_area_addr s) es
         (u32 (saved_count s + 1))).
Proof.
  intros Hrep Hch Ha. pose proof (rep_used s es Hrep) as (Hu & _ & _).
  pose proof (rep_fits _ _ Hrep) as Hft. pose proof (zlen_nonneg (data es)).
  destruct (area_bounds _ (ENV_PARAM_BYTE_SIZE + zlen (data es)) Ha) as (Hab & Hr & Hal);
    [unfold EF_ERASE_MIN_SIZE; ef_lia|].
  destruct (save_prepare_spec s es (saved_count s) Hrep eq_refl Hab) as (tail & Hp & Hcl & Hbt).
  cbv zeta in *. set (cnt := u32 (saved_count s + 1)) in *.
  set (a := next_save_area_addr s) in *.
  unfold ef_save_env. rewrite Hch, Hp, Hu. cbn [negb mbind option_bind]. fold a.
  assert (forall n, ENV_PARAM_BYTE_SIZE + zlen (data es) = n -> buf_sub (image a es cnt ++ tail) 0 n
    = image a es cnt) as Hsub by (intros n <-; by rewrite buf_sub_here by by rewrite image_len).
  destruct (ef_port_erase device_table part f a _) as [[r1 f1]|] eqn:E1.
  2:{ unfold ef_port_erase in E1. rewrite Hal in E1. by destruct (fal_partition_erase _ _ _ _ _). }
  pose proof (erase_outside f f1 r1 a (ENV_PARAM_BYTE_SIZE + zlen (data es)) ltac:(lia) Hal
    ltac:(unfold EF_ERASE_MIN_SIZE; ef_lia) ltac:(lia) E1) as A1.
  cbn [mbind option_bind]. destruct (decide (r1 = EF_ERASE_ERR)) as [->|Hne].
  { eexists _, _, _. split; [reflexivity|]. split_and!; [done|done|done|done|done]. }
  destruct (Z.ltb_spec (zlen (env_cache (set_cache (set_areas s a (cur_load_area_addr s))
    (image a es cnt ++ tail)))) (ENV_PARAM_BYTE_SIZE + zlen (data es)));
    [cbn [env_cache set_cache] in *; ef_lia|].
  cbn [env_cache set_cache]. rewrite Hsub by done.
  destruct (ef_port_write device_table part f1 a (image a es cnt)) as [r2 f2] eqn:E2.
  pose proof (write_outside f1 f2 r2 a (image a es cnt) ltac:(lia)
    ltac:(rewrite image_len; unfold EF_ERASE_MIN_SIZE; ef_lia) ltac:(rewrite image_len; lia) E2) as A2.
  eexists _, _, _. split; [reflexivity|].
  split_and!; [by eapply agrees_trans|done| |done|].
  { intros ->. unfold ef_port_write in E2. destruct (fal_partition_write _ _ _ _ _).
    destruct (_ <? _); congruence. }
  intros ->.
  assert (r1 = EF_NO_ERR) as ->.
  { unfold ef_port_erase in E1. rewrite Hal in E1. cbn in E1.
    destruct (fal_partition_erase _ _ _ _ _). destruct (_ <? _); congruence. }
  assert (holds f2 a es cnt) as Hh.
  { split; [|done|apply u32_range|apply (rep_entries _ _ Hrep)|apply (rep_keys _ _ Hrep)].
    rewrite <- (image_len a es cnt) in E1 |- *.
    eapply port_program; [lia|done|rewrite image_len; ef_lia|rewrite image_len; lia| |exact E1|exact E2].
    apply image_bytes, (rep_entries _ _ Hrep). }
  split; [done|].
  apply (loaded_trans _ (set_changed s false)); [done..|].
  apply (loaded_image (set_changed s false) a _ es cnt f2 tail Ha Hh). split; [done|].
  rewrite Forall_app. split; [|done]. apply image_bytes, (rep_entries _ _ Hrep).
Qed.

(** ** The store: RAM and flash together *)
Lemma pick_picked f st0 st1 a b es cnt :
  status f 0 st0 -> status f EF_ERASE_MIN_SIZE st1 -> pick st0 st1 = Some (a, b, es, cnt) ->
  area_addr a /\ b = other_area a /\ area_addr b /\ holds f a es cnt.
Proof.
  intros H0 H1 Hp. assert (area_addr 0) by by left. assert (area_addr EF_ERASE_MIN_SIZE) by by right.
  destruct st0 as [[es0 c0]|], st1 as [[es1 c1]|]; cbn [pick status] in *;
    [destruct (_ || _)|..]; simplify_eq; done.
Qed.

(** RAM holds [m]; [es0] is what the flash holds as the last complete save. *)
Record store_inv (s : env_state) (f : F) (m : env_map) (es0 : list (list Z * list Z)) : Prop := {
  inv_ready : env_ready s m;
  inv_flash : exists st0 st1, status f 0 st0 /\ status f EF_ERASE_MIN_SIZE st1 /\
    pick st0 st1 = Some (cur_load_area_addr s, next_save_area_addr s, es0, saved_count s);
  inv_clean : env_cache_changed s = false -> m = list_to_map es0
}.

(** A processor start: zeroed statics, the lock just created. *)
Definition cold_start (s : env_state) : Prop :=
  cache_ok (env_cache s) /\ env_cache_lock s = 1 /\ env_cache_changed s = false.

Definition junk_ok (junk : nat -> list Z) : Prop := forall i, zlen (junk i) = 4.

(** A restart on flash [f] succeeds, changes nothing in flash and brings back
    the variables [m]. *)
Definition restarts_with (f : F) (m : env_map) : Prop :=
  forall s0 junk, cold_start s0 -> junk_ok junk ->
  exists s es, ef_env_init device_table part default_env_set junk s0 f = Some (EF_NO_ERR, s, f) /\
    store_inv s f m es.

Lemma restart_pick_inv f st0 st1 a b es cnt s0 junk :
  status f 0 st0 -> status f EF_ERASE_MIN_SIZE st1 -> pick st0 st1 = Some (a, b, es, cnt) ->
  cold_start s0 -> junk_ok junk ->
  exists s, ef_env_init device_table part default_env_set junk s0 f = Some (EF_NO_ERR, s, f) /\
    store_inv s f (list_to_map es) es.
Proof.
  intros H0 H1 Hp (Hc & Hl & Hch) Hj.
  destruct s0 as [c st ch ini cur nxt lk]. cbn in Hc, Hl, Hch. subst lk ch.
  pose proof (load_spec default_env_set junk (EnvState c EF_START_ADDR false ini cur nxt 1) f
    st0 st1 (conj Hc eq_refl) Hj H0 H1) as Hload. rewrite Hp in Hload.
  destruct Hload as (s' & E & []). exists (set_init_ok s' true). split.
  - unfold ef_env_init. cbn [env_cache env_start_addr env_cache_changed init_ok
      cur_load_area_addr next_save_area_addr env_cache_lock].
    change (ENV_USER_SETTING_SIZE <=? zlen default_env_set) with false. cbv iota.
    rewrite E. done.
  - destruct loaded_rep0. split.
    + split; [exists es; split; [by split|done]|done].
    + exists st0, st1. split_and!; [done..|]. rewrite Hp. cbn. subst a b cnt. done.
    + done.
Qed.

(** The flash holds the variables [m] as the newer of its complete saves. *)
Definition saved (f : F) (m : env_map) : Prop :=
  exists st0 st1 a b es cnt, status f 0 st0 /\ status f EF_ERASE_MIN_SIZE st1 /\
    pick st0 st1 = Some (a, b, es, cnt) /\ m = list_to_map es.

Lemma saved_restart f m s0 junk : saved f m -> cold_start s0 -> junk_ok junk ->
  exists s es, ef_env_init device_table part default_env_set junk s0 f = Some (EF_NO_ERR, s, f) /\
    store_inv s f m es.
Proof.
  intros (st0 & st1 & a & b & es & cnt & H0 & H1 & Hp & ->) Hc Hj.
  destruct (restart_pick_inv f st0 st1 a b es cnt s0 junk H0 H1 Hp Hc Hj) as (s & E & Hi). eauto.
Qed.

Lemma restart_pick f st0 st1 a b es cnt :
  status f 0 st0 -> status f EF_ERASE_MIN_SIZE st1 -> pick st0 st1 = Some (a, b, es, cnt) ->
  restarts_with f (list_to_map es).
Proof. intros H0 H1 Hp s0 junk. apply saved_restart. by exists st0, st1, a, b, es, cnt. Qed.

(** A flash that reads the same in the partition holds the same variables. *)
Definition reads_same (f f' : F) : Prop :=
  forall j n, 0 <= j -> 0 <= n -> j + n <= part_len part -> part_read f' j n = part_read f j n.

Lemma status_same f f' a st : area_addr a -> reads_same f f' -> status f a st -> status f' a st.
Proof.
  intros Ha Hr. destruct (area_bounds a ENV_USER_SETTING_SIZE Ha) as (H0 & H1 & _); [done|].
  destruct st as [[es cnt]|]; cbn [status].
  - intros []. pose proof (zlen_nonneg (data es)). split; try done.
    rewrite Hr; [done|ef_lia..].
  - unfold rejected. cbv zeta. rewrite (Hr a 4) by ef_lia.
    destruct (end_in_range a _) eqn:E; [|by left].
    pose proof (in_range_bound a _ Ha E).
    intros [?|[Hlo Hcrc]]; [done|]. right. split; [done|].
    rewrite Hr; [done|ef_lia..].
Qed.

Lemma saved_same f f' m : reads_same f f' -> saved f m -> saved f' m.
Proof.
  intros Hr (st0 & st1 & a & b & es & cnt & H0 & H1 & Hp & ->).
  exists st0, st1, a, b, es, cnt. split_and!; [..|done|done]; eapply status_same; try done; [by left|by right].
Qed.

(** The other area's save supersedes the current one. *)
Lemma pick_newer f st0 st1 cur nxt es0 cnt es :
  status f 0 st0 -> status f EF_ERASE_MIN_SIZE st1 -> pick st0 st1 = Some (cur, nxt, es0, cnt) ->
  forall f', agrees_outside f f' nxt -> holds f' nxt es (cnt + 1) ->
  exists st0' st1', status f' 0 st0' /\ status f' EF_ERASE_MIN_SIZE st1' /\
    pick st0' st1' = Some (nxt, cur, es, cnt + 1).
Proof.
  intros H0 H1 Hp f' Hag Hh.
  destruct (pick_picked f st0 st1 cur nxt es0 cnt H0 H1 Hp) as (Ha & -> & Hb & Hcur).
  pose proof (holds_kept f f' cur es0 cnt Ha Hag Hcur) as Hcur'.
  pose proof (holds_cnt _ _ _ _ Hcur). pose proof (holds_cnt _ _ _ _ Hh).
  destruct Ha as [->| ->]; unfold other_area in *; cbn [Z.eqb EF_ERASE_MIN_SIZE] in *.
  - exists (Some (es0, cnt)), (Some (es, cnt + 1)). split_and!; [done|done|].
    cbn [pick]. repeat case_bool.
  - exists (Some (es, cnt + 1)), (Some (es0, cnt)). split_and!; [done|done|].
    cbn [pick]. repeat case_bool.
Qed.

Lemma save_inv s f m es0 : store_inv s f m es0 -> saved_count s + 1 < 2 ^ 32 ->
  exists r s' f', ef_save_env device_table part s f = Some (r, s', f') /\
    agrees_outside f f' (next_save_area_addr s) /\
    (r = EF_NO_ERR -> saved_count s' <= saved_count s + 1 /\
       exists es, store_inv s' f' m es /\ m = list_to_map es).
Proof.
  intros [Hready (st0 & st1 & H0 & H1 & Hp) Hclean] Hcnt.
  destruct (env_cache_changed s) eqn:Hch.
  2:{ unfold ef_save_env. rewrite Hch. exists EF_NO_ERR, s, f. split_and!; [done| |].
      - intros j n _ _ _ _. done.
      - intros _. split; [lia|]. exists es0. split; [|by apply Hclean]. split; eauto. }
  destruct (pick_picked f st0 st1 _ _ _ _ H0 H1 Hp) as (Ha & Hn & Hb & Hcur).
  destruct Hready as ((es & Hrep & ->) & Hi & Hl).
  destruct (save_spec s f es Hrep Hch Hb) as (r & s' & f' & E & Hag & Hnx & _ & _ & Hok).
  exists r, s', f'. split_and!; [done..|]. intros ->. destruct (Hok eq_refl) as [Hh []].
  pose proof (holds_cnt _ _ _ _ Hcur). rewrite u32_id in * by lia.
  split; [unfold saved_count in *; lia|]. exists es. split; [|done]. split.
  - split; [by eexists|]. split; [by rewrite loaded_init0|by rewrite loaded_lock0].
  - destruct (pick_newer f st0 st1 _ _ _ _ es H0 H1 Hp f' Hag Hh) as (st0' & st1' & ? & ? & Hp').
    exists st0', st1'. split_and!; [done..|]. unfold saved_count in *.
    rewrite Hp', loaded_cur0, loaded_next0, loaded_cnt0. done.
  - done.
Qed.

Lemma set_and_save_saved (s : env_state) (f : F) (m : env_map) es0 (k v : list Z) :
  store_inv s f m es0 -> saved_count s + 1 < 2 ^ 32 ->
  key_ok k -> cstring v -> zlen k + zlen v < 2 ^ 30 ->
  exists r s' f', ef_set_and_save_env device_table part s f k (Some v) = Some (r, s', f') /\
    (r = EF_NO_ERR -> (exists es, store_inv s' f' (<[k := v]> m) es) /\
       saved f' (<[k := v]> m)) /\
    (r = EF_ENV_FULL -> f' = f).
Proof.
  intros Hinv Hcnt Hk Hv Hlen. pose proof Hinv as [Hready Hfl Hclean].
  destruct (ef_set_env_detail s m k v Hready Hk Hv Hlen) as (c & b & E & Hr & Hc & Hb).
  cbv zeta in *. unfold ef_set_and_save_env. rewrite E. cbn [mbind option_bind].
  assert (fst (spec_set m k v) = EF_NO_ERR \/ fst (spec_set m k v) = EF_ENV_FULL) as Hres.
  { unfold spec_set. case_decide; [by left|]. case_match; [by left|by right]. }
  destruct Hres as [Hres|Hres]; rewrite Hres.
  2:{ rewrite decide_False by done. eexists _, _, _. split; [reflexivity|]. done. }
  rewrite decide_True by done.
  rewrite (spec_set_ok m k v Hres) in *.
  assert (store_inv (set_changed (set_cache s c) b) f (<[k := v]> m) es0) as Hinv'.
  { split; [done|by rewrite Hc|]. intros Hb'. cbn in Hb'.
    destruct (Hb Hb') as [Hch ->]. by apply Hclean. }
  destruct (save_inv _ _ _ _ Hinv') as (r & s' & f' & E' & _ & Hok); [by rewrite Hc|].
  exists r, s', f'. split_and!; [done| |].
  - intros ->. destruct (Hok eq_refl) as (_ & es & Hi & Hme). split; [by exists es|].
    destruct Hi as [_ (st0 & st1 & H0 & H1 & Hp) _]. rewrite Hme. by exists st0, st1, (cur_load_area_addr s'), (next_save_area_addr s'), es, (saved_count s').
  - intros ->. unfold ef_save_env in E'. revert E'. case_match; [congruence|].
    destruct (save_prepare _); [|done]. cbn [mbind option_bind].
    destruct (ef_port_erase _ _ _ _ _) as [[r1 f1]|] eqn:Ee; [|done]. cbn [mbind option_bind].
    case_decide; [congruence|]. case_match; [done|]. unfold ef_port_write.
    destruct (fal_partition_write _ _ _ _ _) as [r2 f2]. case_match; congruence.
Qed.

(** [C2] Durability: from a consistent store, setting and saving a variable
    always returns; on success the store is consistent again with the variable
    updated, and every later restart from that flash brings back exactly the
    updated variables.  When the variable does not fit, the flash is not
    touched. *)
Theorem ef_set_and_save_durable (s : env_state) (f : F) (m : env_map) es0 (k v : list Z) :
  store_inv s f m es0 -> saved_count s + 1 < 2 ^ 32 ->
  key_ok k -> cstring v -> zlen k + zlen v < 2 ^ 30 ->
  exists r s' f', ef_set_and_save_env device_table part s f k (Some v) = Some (r, s', f') /\
    (r = EF_NO_ERR -> (exists es, store_inv s' f' (<[k := v]> m) es) /\
       restarts_with f' (<[k := v]> m)) /\
    (r = EF_ENV_FULL -> f' = f).
Proof.
  intros Hinv Hcnt Hk Hv Hlen.
  destruct (set_and_save_saved s f m es0 k v Hinv Hcnt Hk Hv Hlen) as (r & s' & f' & E & Hok & Hfull).
  exists r, s', f'. split_and!; [done| |done]. intros Hr. destruct (Hok Hr) as [Hi Hs].
  split; [done|]. intros s0 junk. by apply saved_restart.
Qed.

(** [C1] Power-fail safety: a save always returns and touches nothing outside
    the area that does not hold the last complete save; whatever an
    interrupted save leaves there, as long as the area fails the end-address
    or checksum test, a restart brings back the last saved variables. *)
Theorem ef_save_power_fail_safe (s : env_state) (f : F) (m : env_map) es0 :
  store_inv s f m es0 -> saved_count s + 1 < 2 ^ 32 ->
  (exists r s' f', ef_save_env device_table part s f = Some (r, s', f') /\
     agrees_outside f f' (next_save_area_addr s)) /\
  (forall f', agrees_outside f f' (next_save_area_addr s) ->
     rejected f' (next_save_area_addr s) -> restarts_with f' (list_to_map es0)).
Proof.
  intros Hinv Hcnt. split.
  { destruct (save_inv s f m es0 Hinv Hcnt) as (r & s' & f' & E & Hag & _). eauto. }
  intros f' Hag Hrej. destruct Hinv as [_ (st0 & st1 & H0 & H1 & Hp) _].
  destruct (pick_picked f st0 st1 _ _ _ _ H0 H1 Hp) as (Ha & Hn & _ & Hcur).
  rewrite Hn in Hag, Hrej. pose proof (holds_kept f f' _ _ _ Ha Hag Hcur) as Hcur'.
  set (cur := cur_load_area_addr s) in *. clearbody cur.
  destruct Ha as [->| ->]; unfold other_area in *; cbn [Z.eqb EF_ERASE_MIN_SIZE] in *.
  - by eapply (restart_pick f' (Some (es0, saved_count s)) None).
  - by eapply (restart_pick f' None (Some (es0, saved_count s))).
Qed.

(** An erase error swaps the areas all the same: the cache stays marked
    as changed, and the next save goes to the area that holds the only
    complete save. *)
Theorem ef_save_erase_error_swaps (s : env_state) (f : F) (m : env_map) es0 s' f' :
  store_inv s f m es0 ->
  ef_save_env device_table part s f = Some (EF_ERASE_ERR, s', f') ->
  env_cache_changed s' = true /\ next_save_area_addr s' = cur_load_area_addr s /\
  holds f' (next_save_area_addr s') es0 (saved_count s).
Proof.
  intros [Hready (st0 & st1 & H0 & H1 & Hp) Hclean] E.
  destruct (pick_picked f st0 st1 _ _ _ _ H0 H1 Hp) as (Ha & Hn & Hb & Hcur).
  destruct (env_cache_changed s) eqn:Hch; [|unfold ef_save_env in E; by rewrite Hch in E].
  destruct Hready as ((es & Hrep & ->) & Hi & Hl).
  destruct (save_spec s f es Hrep Hch Hb) as (r & s1 & f1 & E1 & Hag & Hnx & Herr & _).
  rewrite E1 in E. simplify_eq. split_and!; [by apply Herr|done|].
  rewrite Hnx. rewrite Hn in Hag. by eapply holds_kept.
Qed.

(** ** First start: the default set *)

(** A well-formed cache is an empty environment once the end address is reset. *)
Lemma empty_rep s c cur nxt : cache_ok c -> area_addr cur ->
  let s0 := set_lock (set_areas (set_cache s c) cur nxt) 0 in
  let s1 := set_env_end_addr s0 (get_env_data_addr s0) in
  let s2 := set_cache s1 (cache_set_word (env_cache s1) ENV_PARAM_INDEX_SAVED_COUNT 0) in
  env_rep s2 [] /\ saved_count s2 = 0.
Proof.
  intros [Hl Hb] Ha s0 s1 s2. destruct (area_bounds cur 0 Ha) as (Hab & _ & _); [done|].
  assert (get_env_data_addr s0 = cur + 12) as Hd
    by (unfold get_env_data_addr, get_env_system_addr; cbn; apply u32_id; lia).
  subst s2 s1. cbn [env_cache set_env_end_addr set_cache]. rewrite Hd.
  change (env_cache s0) with c.
  set (c1 := cache_set_word c ENV_PARAM_INDEX_END_ADDR (cur + 12)).
  assert (zlen c1 = ENV_USER_SETTING_SIZE) as Hl1 by (unfold c1; rewrite cache_set_word_len; ef_lia).
  assert (zlen (cache_set_word c1 ENV_PARAM_INDEX_SAVED_COUNT 0) = ENV_USER_SETTING_SIZE) as Hl2
    by (rewrite cache_set_word_len; ef_lia).
  split; [|unfold saved_count; cbn [env_cache set_cache]; apply cache_word_set_eq; ef_lia].
  split; cbn [env_cache set_cache cur_load_area_addr s0 set_lock set_areas]; try done.
  - exists (take 12 (cache_set_word c1 ENV_PARAM_INDEX_SAVED_COUNT 0)),
      (drop 12 (cache_set_word c1 ENV_PARAM_INDEX_SAVED_COUNT 0)).
    change (data []) with (@nil Z). rewrite app_nil_l, take_drop. split; [done|].
    rewrite zlen_take. ef_lia.
  - by apply cache_set_word_bytes, cache_set_word_bytes.
  - unfold get_env_end_addr. cbn [env_cache set_cache]. rewrite cache_word_set_ne by ef_lia.
    unfold c1. rewrite cache_word_set_eq by ef_lia.
    change (cur_load_area_addr _) with cur.
    change (data []) with (@nil Z). rewrite zlen_nil. ef_lia.
  - constructor.
Qed.

Lemma default_ok : Forall var_ok default_env_set /\ NoDup default_env_set.*1.
Proof. split; [repeat constructor; by_decide|by_decide]. Qed.

(** Both areas hold the default set after a successful first start. *)
Lemma set_default_spec s f c : cache_ok c -> env_cache_lock s = 1 ->
  exists r s' f', ef_env_set_default device_table part default_env_set
      (set_areas (set_cache s c) EF_ERASE_MIN_SIZE 0) f = Some (r, s', f') /\
    (r = EF_NO_ERR -> env_rep s' default_env_set /\ env_cache_lock s' = 1 /\
       init_ok s' = init_ok s /\ env_cache_changed s' = false /\
       exists st0 st1, status f' 0 st0 /\ status f' EF_ERASE_MIN_SIZE st1 /\
         pick st0 st1 = Some (cur_load_area_addr s', next_save_area_addr s', default_env_set,
                              saved_count s')).
Proof.
  intros Hc Hlk. destruct default_ok as [Hdef Hnd].
  assert (area_addr 0 /\ area_addr EF_ERASE_MIN_SIZE) as [Ha0 Ha1] by (split; [by left|by right]).
  unfold ef_env_set_default. rewrite bool_decide_eq_false_2 by done.
  unfold ef_port_env_lock. cbn [env_cache_lock set_areas set_cache]. rewrite Hlk.
  cbn [Z.ltb Z.compare Z.sub Z.add Z.opp Z.pos_sub mbind option_bind].
  destruct (empty_rep s c EF_ERASE_MIN_SIZE 0 Hc Ha1) as [Hrep0 Hcnt0]. cbv zeta in *.
  set (s0 := set_cache (set_env_end_addr _ _) _) in Hrep0, Hcnt0.
  change (set_cache (set_env_end_addr (set_lock (set_areas (set_cache s c) EF_ERASE_MIN_SIZE 0) (1 - 1))
     _) _) with s0.
  cbn [create_defaults default_env_set].
  assert (var_ok (str "boot_times", str "0")) as Hbt by exact (proj1 (proj1 (Forall_cons _ _ _) Hdef)).
  assert (create_env s0 (str "boot_times") (str "0")
    = write_env s0 (str "boot_times") (str "0")) as Ec.
  { unfold create_env. destruct (find_cases s0 [] (str "boot_times") Hrep0)
      as [[-> _]|(pre & v & post & E & _)]; [apply Hbt|done|by destruct pre]. }
  destruct (write_env_ok s0 [] (str "boot_times") (str "0") Hrep0) as (c1 & E1 & Hrep1);
    [apply Hbt|by apply not_elem_of_nil|by_decide|by_decide|].
  pose proof (write_env_count _ _ _ _ _ _ Hrep0 E1) as Hcnt1. rewrite Hcnt0 in Hcnt1.
  rewrite Ec, E1. cbn [mbind option_bind].
  change ([] ++ [(str "boot_times", str "0")]) with default_env_set in Hrep1.
  assert (env_rep (ef_port_env_unlock (set_changed (set_cache s0 c1) true)) default_env_set)
    as Hrep2 by (by apply rep_lock).
  set (s1 := ef_port_env_unlock (set_changed (set_cache s0 c1) true)) in *.
  destruct (save_spec s1 f default_env_set Hrep2 eq_refl Ha0)
    as (r & s2 & f2 & -> & _ & _ & _ & _ & Hok).
  cbn [mbind option_bind]. case_decide as Hr; [subst r|by exists r, s2, f2].
  destruct (Hok eq_refl) as [Hh2 []].
  change (saved_count s1) with (saved_count (set_changed (set_cache s0 c1) true)) in *.
  rewrite Hcnt1 in *. change (u32 (0 + 1)) with 1 in *.
  change (next_save_area_addr s1) with 0 in *.
  change (cur_load_area_addr s1) with EF_ERASE_MIN_SIZE in *.
  assert (env_rep (set_changed s2 true) default_env_set) as Hrep3 by (destruct loaded_rep0; by split).
  assert (next_save_area_addr (set_changed s2 true) = EF_ERASE_MIN_SIZE) as Hn3 by done.
  destruct (save_spec (set_changed s2 true) f2 default_env_set Hrep3 eq_refl
    ltac:(by rewrite Hn3)) as (r & s3 & f3 & E3 & Hag & _ & _ & Hch3 & Hok3).
  exists r, s3, f3. split; [exact E3|]. intros ->. destruct (Hok3 eq_refl) as [Hh3 L3].
  specialize (Hch3 ltac:(done)).
  change (saved_count (set_changed s2 true)) with (saved_count s2) in *.
  assert (saved_count s2 = 1) as Hc2 by done. rewrite Hc2, Hn3 in *.
  change (u32 (1 + 1)) with 2 in *.
  destruct L3 as [L31 L32 L33 L34 L35 L36 L37]. split_and!; [done| | |done|].
  - rewrite L37. cbn. rewrite loaded_lock0. done.
  - rewrite L36. cbn. rewrite loaded_init0. done.
  - exists (Some (default_env_set, 1)), (Some (default_env_set, 2)). split_and!; [|done|].
    + eapply holds_kept; [done| |exact Hh2]. exact Hag.
    + unfold saved_count. rewrite L33, L34, L32. cbn. by rewrite loaded_cur0.
Qed.

(** System start: whatever the two areas hold, initialisation returns.
    With at least one complete save it succeeds without touching the flash
    and takes the newer save; otherwise it installs the default set, and if
    the flash accepts it, in both areas.  On success the store is consistent. *)
Theorem easyflash_init_consistent (fal : fal_state) (junk : nat -> list Z) s f st0 st1 :
  fal_partition_find fal FAL_EF_PART_NAME = Some (Some part) ->
  cache_ok (env_cache s) -> env_cache_changed s = false -> junk_ok junk ->
  status f 0 st0 -> status f EF_ERASE_MIN_SIZE st1 ->
  exists r s' f', easyflash_init device_table fal junk s f = Some (r, s', f') /\
    match pick st0 st1 with
    | Some (_, _, es, _) => r = EF_NO_ERR /\ f' = f /\ store_inv s' f' (list_to_map es) es
    | None => r = EF_NO_ERR -> store_inv s' f' (list_to_map default_env_set) default_env_set
    end.
Proof.
  intros Hfind Hc Hch Hj H0 H1. unfold easyflash_init, ef_port_init. rewrite Hfind.
  cbn [mbind option_bind].
  assert (cold_start (set_lock s 1)) as Hcold by done.
  destruct (pick st0 st1) as [[[[a b] es] cnt]|] eqn:Hp.
  - destruct (restart_pick_inv f st0 st1 a b es cnt (set_lock s 1) junk H0 H1 Hp Hcold Hj)
      as (s' & E & Hinv). by exists EF_NO_ERR, s', f.
  - pose proof (load_spec default_env_set junk (EnvState (env_cache s) EF_START_ADDR false
      (init_ok s) (cur_load_area_addr s) (next_save_area_addr s) 1) f st0 st1
      (conj Hc eq_refl) Hj H0 H1) as Hload. rewrite Hp in Hload. destruct Hload as (c & Hcok & E).
    set (s0 := EnvState _ _ _ _ _ _ _) in E.
    destruct (set_default_spec s0 f c Hcok eq_refl) as (r & s' & f' & Ed & Hok).
    rewrite Ed in E. subst s0. unfold ef_env_init.
    change (ENV_USER_SETTING_SIZE <=? zlen default_env_set) with false. cbv iota.
    cbn [env_cache env_cache_changed init_ok cur_load_area_addr next_save_area_addr
      env_cache_lock set_lock]. rewrite Hch, E. cbn [mbind option_bind].
    eexists _, _, _. split; [reflexivity|]. intros ->. rewrite decide_True by done.
    destruct (Hok eq_refl) as (Hrep & Hl & _ & Hchf & Hst).
    split; [split; [exists default_env_set; split; [by destruct Hrep; split|done]|done]|done|done].
Qed.

End Port.

(** ** A concrete store: the default set saved in the first area of the
    [easyflash] partition of a NOR flash *)
Definition store_image : list Z := image 0 default_env_set 1.

Definition store_flash : Z -> Z := fun k =>
  if (16384 <=? k) && (k <? 16384 + zlen store_image)
  then nth (Z.to_nat (k - 16384)) store_image 0 else 255.

Definition store_state : env_state :=
  EnvState (store_image ++ replicate (2048 - length store_image) 0) 0 false true 0 4096 1.

Definition store_fal : fal_state := FalState true true [sample_app; sample_env] 2 true.

Lemma sample_env_hyps :
  find_device [sample_dev] (flash_name sample_env) = Some sample_dev /\
  (0 <= part_offset sample_env /\ part_offset sample_env + part_len sample_env <= dev_len sample_dev) /\
  dev_len sample_dev < 2 ^ 31 /\ dev_blk_size sample_dev = EF_ERASE_MIN_SIZE /\
  part_offset sample_env `mod` EF_ERASE_MIN_SIZE = 0 /\ ENV_AREA_SIZE <= part_len sample_env.
Proof. split; [apply find_device_head; vm_compute; reflexivity|]. by_decide. Defined.

Lemma sample_nor : FlashDevice (dev_ops sample_dev) (dev_len sample_dev) (dev_blk_size sample_dev).
Proof. apply (nor_device (2 * 1024 * 1024) 4096). lia. Defined.

Lemma store_holds : holds [sample_dev] sample_env store_flash 0 default_env_set 1.
Proof.
  split; [vm_compute; reflexivity|by_decide|by_decide|repeat constructor; by_decide|by_decide].
Defined.

Lemma blank_rejected table (f : Z -> Z) a :
  part_read table sample_env f a 4 = [255; 255; 255; 255] -> rejected table sample_env f a.
Proof. intros E. left. rewrite E. reflexivity. Defined.

Lemma store_consistent :
  store_inv [sample_dev] sample_env store_state store_flash
    (list_to_map default_env_set) default_env_set.
Proof.
  split; [|exists (Some (default_env_set, 1)), None|done].
  - split; [|done]. exists default_env_set. split; [|done].
    split; [|by_decide..| repeat constructor; by_decide|by_decide].
    exists (take 12 store_image), (replicate (2048 - length store_image) 0).
    by_decide.
  - split_and!; [apply store_holds|apply blank_rejected; vm_compute; reflexivity|].
    vm_compute. reflexivity.
Defined.

Lemma easyflash_init_consistent_witness : exists s f,
  easyflash_init [sample_dev] store_fal (fun _ => [0; 0; 0; 0]) store_state sample_flash
    = Some (EF_NO_ERR, s, f) /\
  store_inv [sample_dev] sample_env s f (list_to_map default_env_set) default_env_set.
Proof.
  destruct sample_env_hyps as (H1 & H2 & H3 & H4 & H5 & H6). pose proof sample_nor as Hnor.
  destruct (easyflash_init_consistent [sample_dev] sample_env sample_dev H1 H2 H3 H4 H5 H6
    store_fal (fun _ => [0; 0; 0; 0]) store_state sample_flash None None)
    as (r & s & f & E & Hr);
    [vm_compute; reflexivity|split; [by_decide|by_decide]|reflexivity|intros i; reflexivity
    |apply blank_rejected; vm_compute; reflexivity|apply blank_rejected; vm_compute; reflexivity|].
  assert (r = EF_NO_ERR) as ->.
  { assert ((fst ∘ fst) <$> easyflash_init [sample_dev] store_fal (fun _ => [0; 0; 0; 0])
      store_state sample_flash = Some EF_NO_ERR) as E' by (vm_compute; reflexivity).
    rewrite E in E'. by injection E'. }
  exists s, f. split; [exact E|]. by apply Hr.
Defined.

Lemma ef_set_and_save_durable_witness : exists s f,
  ef_set_and_save_env [sample_dev] sample_env store_state store_flash (str "ssid") (Some (str "lab"))
    = Some (EF_NO_ERR, s, f) /\
  restarts_with [sample_dev] sample_env f
    (<[str "ssid" := str "lab"]> (list_to_map default_env_set)).
Proof.
  destruct sample_env_hyps as (H1 & H2 & H3 & H4 & H5 & H6). pose proof sample_nor as Hnor.
  destruct (ef_set_and_save_durable [sample_dev] sample_env sample_dev H1 H2 H3 H4 H5 H6
    store_state store_flash _ _ (str "ssid") (str "lab") store_consistent)
    as (r & s & f & E & Hr & _); [by_decide|split_and!; by_decide|by_decide|by_decide|].
  assert (r = EF_NO_ERR) as ->.
  { assert ((fst ∘ fst) <$> ef_set_and_save_env [sample_dev] sample_env store_state store_flash
      (str "ssid") (Some (str "lab")) = Some EF_NO_ERR) as E' by (vm_compute; reflexivity).
    rewrite E in E'. by injection E'. }
  exists s, f. split; [exact E|]. by apply Hr.
Defined.

(** The second area is left half-written: the first bytes of a header. *)
Definition torn_flash : Z -> Z := fun k =>
  if (20480 <=? k) && (k <? 20488) then nth (Z.to_nat (k - 20480)) [40; 16; 0; 0; 2; 0; 0; 0] 0
  else store_flash k.

Lemma torn_agrees : agrees_outside [sample_dev] sample_env store_flash torn_flash 4096.
Proof.
  destruct sample_env_hyps as (H1 & H2 & H3 & H4 & H5 & H6).
  intros j m Hj Hm Hr Ho. unfold part_read.
  rewrite !(part_read_dev [sample_dev] sample_env sample_dev H1 H2 H3) by lia.
  apply map_seqZ_ext. intros k Hk. unfold torn_flash. f_equal.
  change (part_offset sample_env) with 16384 in Hk. unfold EF_ERASE_MIN_SIZE in Ho.
  repeat case_bool.
Defined.

Lemma ef_save_power_fail_safe_witness :
  restarts_with [sample_dev] sample_env torn_flash (list_to_map default_env_set).
Proof.
  destruct sample_env_hyps as (H1 & H2 & H3 & H4 & H5 & H6). pose proof sample_nor as Hnor.
  destruct (ef_save_power_fail_safe [sample_dev] sample_env sample_dev H1 H2 H3 H4 H5 H6
    store_state store_flash _ _ store_consistent) as [_ H]; [by_decide|].
  apply H; [exact torn_agrees|]. right. split; [by_decide|]. vm_compute. discriminate.
Defined.

(** A device whose erase always fails. *)
Definition stuck_dev : fal_flash_dev (Z -> Z) :=
  FalFlashDev (str "w60x_onchip") 0 (2 * 1024 * 1024) 4096
    (FlashOps nor_read nor_write (fun f _ _ => (-1, f))).

Lemma stuck_nor : FlashDevice (dev_ops stuck_dev) (dev_len stuck_dev) (dev_blk_size stuck_dev).
Proof.
  destruct (nor_device (2 * 1024 * 1024) 4096 ltac:(lia)) as [L1 L2 L3 L4 L5 L6 L7 L8].
  split; [done|exact L2|exact L3|exact L4|by right| |exact L7|].
  - intros f f1 f2 a n x Ha Hal Hn Hs Hb Hl [= <- _]. lia.
  - intros f f' a n r j m _ _ _ _ [= <- <-]. done.
Defined.

Definition dirty_state : env_state := set_changed store_state true.

Lemma ef_save_erase_error_swaps_witness : exists s f,
  ef_save_env [stuck_dev] sample_env dirty_state store_flash = Some (EF_ERASE_ERR, s, f) /\
  next_save_area_addr s = 0 /\ holds [stuck_dev] sample_env f 0 default_env_set 1.
Proof.
  destruct sample_env_hyps as (_ & H2 & H3 & H4 & H5 & H6). pose proof stuck_nor as Hnor.
  assert (find_device [stuck_dev] (flash_name sample_env) = Some stuck_dev) as H1
    by (apply find_device_head; vm_compute; reflexivity).
  assert (store_inv [stuck_dev] sample_env dirty_state store_flash
    (list_to_map default_env_set) default_env_set) as Hinv.
  { destruct store_consistent as [([es [Hrep Em]] & Hi & Hl) _ _].
    split; [|exists (Some (default_env_set, 1)), None|done].
    - split; [|done]. exists es. split; [by destruct Hrep; split|done].
    - split_and!; [|apply blank_rejected; vm_compute; reflexivity|vm_compute; reflexivity].
      destruct store_holds. split; [vm_compute; reflexivity|done..]. }
  assert ((fst ∘ fst) <$> ef_save_env [stuck_dev] sample_env dirty_state store_flash
    = Some EF_ERASE_ERR) as Er by (vm_compute; reflexivity).
  destruct (ef_save_env [stuck_dev] sample_env dirty_state store_flash) as [[[r s] f]|] eqn:E;
    [|discriminate Er]. injection Er as ->. exists s, f. split; [done|].
  destruct (ef_save_erase_error_swaps [stuck_dev] sample_env stuck_dev H1 H2 H3 H4 H5 H6
    dirty_state store_flash _ _ s f Hinv E) as (_ & Hn & Hh).
  split; [exact Hn|]. by rewrite Hn in Hh.
Defined.
