(* ===== verification/WlanCfg.v ===== *)
(** * Saved WLAN networks

    Models src/rt-thread/components/drivers/wlan/wlan_cfg.c, the list of known
    access points, and src/ports/wifi/wifi_config.c, which keeps it in two
    EasyFlash variables (length in decimal, contents in base64).  The
    environment is used through the interface [EnvStore], which EasyFlash
    implements ([ef_env_store]).  The theorems show that the list is kept in
    most-recently-used order without duplicates, that it survives a restart,
    and two operations that do not do what their names say. *)

From S2P Require Import Prelude CLib Base64 Crc32 Flash Fal EfEnv EfStore.

Local Open Scope Z_scope.

(** ** The environment as the clients see it *)
Record env_ops (S : Type) := EnvOps {
  env_get : S -> list Z -> option (option (list Z));
  env_set : S -> list Z -> list Z -> option (EfErrCode * S);
  env_save : S -> option (EfErrCode * S)
}.
Arguments EnvOps {S}.
Arguments env_get {S}.
Arguments env_set {S}.
Arguments env_save {S}.

(** [R n s m]: the store [s] holds the variables [m] and can be saved [n] more
    times; [P s m]: a restart brings back [m]. *)
Class EnvStore {S : Type} (ops : env_ops S) (R : Z -> S -> env_map -> Prop)
    (P : S -> env_map -> Prop) := {
  es_get : forall n s m k, R n s m -> key_ok k -> env_get ops s k = Some (m !! k);
  es_set : forall n s m k v, R n s m -> key_ok k -> cstring v -> zlen k + zlen v < 2 ^ 30 ->
    exists s', env_set ops s k v = Some (fst (spec_set m k v), s') /\
      R n s' (snd (spec_set m k v));
  es_save : forall n s m, 0 < n -> R n s m ->
    exists r s', env_save ops s = Some (r, s') /\ (r = EF_NO_ERR -> R (n - 1) s' m /\ P s' m)
}.

(** EasyFlash implements the interface. *)
Section EasyFlash.
Context {F : Type}.
Context (device_table : list (fal_flash_dev F)).
Context (part : fal_partition) (d : fal_flash_dev F).
Context `{!FlashDevice (dev_ops d) (dev_len d) (dev_blk_size d)}.
Context (Hdev : find_device device_table (flash_name part) = Some d).
Context (Hfit : 0 <= part_offset part /\ part_offset part + part_len part <= dev_len d).
Context (Hdevlen : dev_len d < 2 ^ 31).
Context (Hblk : dev_blk_size d = EF_ERASE_MIN_SIZE).
Context (Haligned : part_offset part `mod` EF_ERASE_MIN_SIZE = 0).
Context (Hsize : ENV_AREA_SIZE <= part_len part).

Definition ef_ops : env_ops (env_state * F) := {|
  env_get s k := ef_get_env (fst s) k;
  env_set s k v := '(r, e) ← ef_set_env (fst s) k (Some v); Some (r, (e, snd s));
  env_save s := '(r, e, f) ← ef_save_env device_table part (fst s) (snd s); Some (r, (e, f))
|}.

Definition ef_holds (n : Z) (s : env_state * F) (m : env_map) : Prop :=
  (exists es, store_inv device_table part (fst s) (snd s) m es) /\ saved_count (fst s) + n < 2 ^ 32.

Definition ef_durable (s : env_state * F) (m : env_map) : Prop :=
  restarts_with device_table part (snd s) m.

#[export] Instance ef_env_store : EnvStore ef_ops ef_holds ef_durable.
Proof.
  split.
  - intros n s m k [[es [(HR & Hi & _) _ _]] _] Hk. by apply get_env_refines.
  - intros n [s f] m k v [[es [Hr Hf Hc]] Hn] Hk Hv Hlen. cbn [fst snd] in *.
    destruct (ef_set_env_detail s m k v Hr Hk Hv Hlen) as (c & b & E & Hr' & Hcnt & Hb).
    cbv zeta in *. cbn [env_set ef_ops fst snd]. rewrite E. cbn [mbind option_bind].
    eexists. split; [reflexivity|]. split; cbn [fst snd]; [|by rewrite Hcnt].
    exists es. split; [done|by rewrite Hcnt|]. intros Hb'. cbn in Hb'.
    destruct (Hb Hb') as [Hch ->]. by apply Hc.
  - intros n [s f] m Hn [[es Hinv] Hcnt]. cbn [fst snd env_save ef_ops] in *.
    destruct (save_inv device_table part d Hdev Hfit Hdevlen Hblk Haligned Hsize s f m es Hinv)
      as (r & s' & f' & E & _ & Hok); [lia|]. rewrite E. cbn [mbind option_bind].
    eexists _, _. split; [reflexivity|]. intros ->.
    destruct (Hok eq_refl) as (Hle & es' & Hinv' & Hm).
    split; [split; [by exists es'|]|].
    + cbn [fst]. lia.
    + unfold ef_durable. cbn [snd].
      destruct Hinv' as [_ (st0 & st1 & H0 & H1 & Hp) _]. rewrite Hm.
      by eapply (restart_pick device_table part d).
Qed.

End EasyFlash.

(** ** [struct rt_wlan_cfg_info]: its 96 bytes *)
Definition sizeof_cfg_info : Z := 96.
Definition sizeof_cfg_save_info_head : Z := 16.
Definition RT_WLAN_BSSID_MAX_LENGTH : Z := 6.
Definition RT_WLAN_CFG_INFO_MAX : Z := 3.
Definition RT_WLAN_CFG_MAGIC : Z := 0x426f6d62.
Definition RT_EOK : Z := 0.
Definition RT_ERROR : Z := 1.
Definition RT_ENOMEM : Z := 5.
Definition RT_EINVAL : Z := 10.

Abbreviation cfg_entry := (list Z) (only parsing).

Definition ssid_len (e : cfg_entry) : Z := nth 16 e 0.
Definition ssid_val (e : cfg_entry) (n : Z) : list Z := buf_sub e 17 n.
Definition bssid (e : cfg_entry) : list Z := buf_sub e 50 RT_WLAN_BSSID_MAX_LENGTH.
Definition key_len (e : cfg_entry) : Z := nth 60 e 0.
Definition key_val (e : cfg_entry) (n : Z) : list Z := buf_sub e 61 n.

(** The comparison of an entry [c] of the cache with [e]: same network name
    and same access point. *)
Definition same_ap (c e : cfg_entry) : bool :=
  (ssid_len c =? ssid_len e) &&
  bool_decide (ssid_val c (ssid_len c) = ssid_val e (ssid_len c)) &&
  bool_decide (bssid c = bssid e).

(** The comparison of the keys, over the length of the new key. *)
Definition same_key (o e : cfg_entry) : bool :=
  (key_len o =? key_len e) && bool_decide (key_val o (key_len e) = key_val e (key_len e)).

(** CRC16-CCITT, bit by bit. *)
Definition crc16_bit (w : Z) : Z :=
  if negb (Z.land w 0x8000 =? 0) then Z.lxor (u16 (Z.shiftl w 1)) 0x1021 else u16 (Z.shiftl w 1).

Definition rt_wlan_cal_crc (buff : list Z) : Z :=
  foldl (fun w c => Nat.iter 8 crc16_bit (u16 (Z.lxor w (Z.shiftl c 8)))) 0 buff.

(** [struct rt_wlan_cfg_des]. *)
Record cfg_des := CfgDes { num : Z; cfg_info : list (list Z) }.

Section Ops.
Context {S : Type} (ops : env_ops S).

(** ** wifi_config.c *)
Definition wlan_cfg_info_key : list Z := str "wlan_cfg_info".
Definition wlan_cfg_len_key : list Z := str "wlan_cfg_len".

(** [read_cfg]: the result and the buffer; the decoder stores past the end of
    a buffer that is too small, which is undefined behaviour. *)
Definition read_cfg (s : S) (buff : list Z) : option (Z * list Z) :=
  info ← env_get ops s wlan_cfg_info_key;
  match info with
  | Some text =>
      '(_, decoded) ← Wifi.str_base64_decode text;
      buff' ← buf_write buff 0 decoded;
      Some (zlen buff, buff')
  | None => Some (0, buff)
  end.

Definition get_len (s : S) : option Z :=
  len ← env_get ops s wlan_cfg_len_key;
  Some (match len with None => 0 | Some text => atoi text end).

(** [write_cfg]: [mem] is whether the buffer can be allocated; the results of
    the three environment calls are ignored. *)
Definition write_cfg (mem : bool) (s : S) (buff : list Z) : option (Z * S) :=
  if negb mem then Some (- RT_ENOMEM, s)
  else
    '(_, s) ← env_set ops s wlan_cfg_len_key (sprintf_d (zlen buff));
    text ← buf_cstr (Wifi.str_base64_encode_len buff);
    '(_, s) ← env_set ops s wlan_cfg_info_key text;
    '(_, s) ← env_save ops s;
    Some (zlen buff, s).

(** ** wlan_cfg.c *)

(** [struct cfg_save_info_head]. *)
Definition save_head (len num crc : Z) : list Z :=
  le_bytes 4 RT_WLAN_CFG_MAGIC ++ le_bytes 4 len ++ le_bytes 4 num ++ le_bytes 4 crc.

Definition rt_wlan_cfg_cache_save (mem mem' : bool) (c : cfg_des) (s : S) : option (Z * S) :=
  if negb mem then Some (- RT_ENOMEM, s)
  else
    let body := concat (take (Z.to_nat (num c)) (cfg_info c)) in
    let len := i32 (sizeof_cfg_save_info_head + sizeof_cfg_info * num c) in
    let info_pkg := save_head len (num c) (rt_wlan_cal_crc body) ++ body in
    '(r, s) ← write_cfg mem' s info_pkg;
    Some (if negb (r =? len) then - RT_ERROR else RT_EOK, s).

(** The loop of [rt_wlan_cfg_cache_refresh]; [alloc i] is whether the i-th
    reallocation succeeds.  [None] in the first component is the error return. *)
Fixpoint refresh_loop (alloc : Z -> bool) (c : cfg_des) (infos : list (list Z))
  : Z * cfg_des :=
  match infos with
  | [] => (RT_EOK, c)
  | e :: infos =>
      let equal_flag := existsb (fun o => same_ap o e) (take (Z.to_nat (num c)) (cfg_info c)) in
      if RT_WLAN_CFG_INFO_MAX <=? num c then (RT_EOK, c)
      else if equal_flag then refresh_loop alloc c infos
      else if negb (alloc (num c)) then (- RT_ERROR, c)
      else refresh_loop alloc
             (CfgDes (num c + 1) (take (Z.to_nat (num c)) (cfg_info c) ++ [e])) infos
  end.

(** The entries of the data that follows the head. *)
Definition entries (data : list Z) (n : Z) : list (list Z) :=
  map (fun i => buf_sub data (sizeof_cfg_info * i) sizeof_cfg_info) (seqZ 0 n).

(** [rt_wlan_cfg_cache_refresh]: [junk] is the content of the fresh buffer. *)
Definition rt_wlan_cfg_cache_refresh (mem : bool) (alloc : Z -> bool) (junk : Z -> list Z)
    (c : cfg_des) (s : S) : option (Z * cfg_des) :=
  if RT_WLAN_CFG_INFO_MAX <=? num c then Some (- RT_ERROR, c)
  else
    len ← get_len s;
    if len <=? 0 then Some (- RT_ERROR, c)
    else if negb mem then Some (- RT_ERROR, c)
    else
      '(r, head) ← read_cfg s (junk len);
      if negb (r =? len) then Some (- RT_ERROR, c)
      else if len <? sizeof_cfg_save_info_head then None
      else
        let data := drop 16 head in
        let crc := rt_wlan_cal_crc (take (Z.to_nat (len - sizeof_cfg_save_info_head)) data) in
        let n := (len - sizeof_cfg_save_info_head) / sizeof_cfg_info in
        if negb ((le_val (buf_sub head 0 4) =? RT_WLAN_CFG_MAGIC)
                 && (le_val (buf_sub head 4 4) =? len)
                 && (le_val (buf_sub head 8 4) =? n)
                 && (le_val (buf_sub head 12 4) =? crc))
        then Some (- RT_ERROR, c)
        else Some (refresh_loop alloc c (entries data n)).

(** The search loop of [rt_wlan_cfg_save]: the index of the entry, or the
    number of entries. *)
Fixpoint find_ap (infos : list (list Z)) (e : cfg_entry) (i : Z) : Z :=
  match infos with
  | [] => i
  | o :: infos => if same_ap o e then i else find_ap infos e (i + 1)
  end.

(** [for (; i; i--) cfg_info[i] = cfg_info[i - 1]]. *)
Fixpoint shift_down (l : list (list Z)) (i : nat) : option (list (list Z)) :=
  match i with
  | O => Some l
  | Datatypes.S i' => x ← l !! i'; l ← buf_set l (Z.of_nat i) x; shift_down l i'
  end.

(** The part of [rt_wlan_cfg_save] under the lock; [junk] is the content of a
    freshly allocated entry.  The flag says whether the cache is to be saved. *)
Definition cfg_cache_add (mem : bool) (junk : cfg_entry) (c : cfg_des) (e : cfg_entry)
  : option (Z * bool * cfg_des) :=
  let infos := take (Z.to_nat (num c)) (cfg_info c) in
  let i := find_ap infos e 0 in
  let found := i <? num c in
  o ← (if found && (i =? 0) then Some <$> infos !! 0%nat else Some None);
  if match o with
     | Some o => same_key o e
     | None => false
     end
  then Some (RT_EOK, false, c)
  else
    let grow := negb found && (num c <? RT_WLAN_CFG_INFO_MAX) in
    if grow && negb mem then Some (- RT_ENOMEM, false, c)
    else
      let c := if grow then CfgDes (num c + 1) (infos ++ [junk]) else c in
      let i := if RT_WLAN_CFG_INFO_MAX <=? i then RT_WLAN_CFG_INFO_MAX - 1 else i in
      l ← shift_down (cfg_info c) (Z.to_nat i);
      l ← buf_set l 0 e;
      Some (RT_EOK, true, CfgDes (num c) l).

Definition rt_wlan_cfg_save (mem1 mem2 mem3 : bool) (junk : cfg_entry) (c : cfg_des)
    (e : cfg_entry) (s : S) : option (Z * cfg_des * S) :=
  if ssid_len e =? 0 then Some (- RT_EINVAL, c, s)
  else
    '(r, save, c) ← cfg_cache_add mem1 junk c e;
    if (save : bool) then
      '(r, s) ← rt_wlan_cfg_cache_save mem2 mem3 c s;
      Some (r, c, s)
    else Some (r, c, s).

(** [rt_wlan_cfg_read_index]: the result and the caller's structure. *)
Definition rt_wlan_cfg_read_index (c : cfg_des) (out : cfg_entry) (index : Z)
  : option (Z * cfg_entry) :=
  if index <? 0 then Some (0, out)
  else if num c <=? index then Some (0, out)
  else e ← buf_get (cfg_info c) index; Some (1, e).

(** [rt_wlan_cfg_read]: the result, the caller's array and the cache; the
    source copies from the array to the cache. *)
Definition rt_wlan_cfg_read (c : cfg_des) (out : list (list Z)) (n : Z)
  : option (Z * list (list Z) * cfg_des) :=
  if n <=? 0 then Some (0, out, c)
  else
    let n := if n <? num c then n else num c in
    if zlen out <? n then None else
    l ← buf_write (cfg_info c) 0 (take (Z.to_nat n) out);
    Some (n, out, CfgDes (num c) l).

Definition rt_wlan_cfg_get_num (c : cfg_des) : Z := num c.

(** [rt_malloc] of the small-memory allocator refuses a size of 0. *)
Definition rt_malloc_ok (mem : bool) (size : Z) : bool := mem && (0 <? size).

Definition rt_wlan_cfg_delete_index (mem : bool) (c : cfg_des) (index : Z) : Z * cfg_des :=
  if index <? 0 then (-1, c)
  else if num c <=? index then (-1, c)
  else if negb (rt_malloc_ok mem (sizeof_cfg_info * (num c - 1))) then (-1, c)
  else (0, CfgDes (num c - 1)
             (take (Z.to_nat index) (cfg_info c)
              ++ drop (Z.to_nat (index + 1)) (take (Z.to_nat (num c)) (cfg_info c)))).

Definition rt_wlan_cfg_delete_all (c : cfg_des) : cfg_des := CfgDes 0 [].

End Ops.

(** ** Identity of an access point *)
Definition ap_id (e : cfg_entry) : Z * list Z * list Z :=
  (ssid_len e, ssid_val e (ssid_len e), bssid e).

Lemma same_ap_id c e : same_ap c e = bool_decide (ap_id c = ap_id e).
Proof.
  unfold same_ap, ap_id. destruct (Z.eqb_spec (ssid_len c) (ssid_len e)) as [E|E]; simpl.
  - rewrite E, <- bool_decide_and. apply bool_decide_ext. intuition congruence.
  - symmetry. apply bool_decide_eq_false. congruence.
Qed.

(** ** The order of the list *)

(** The most recently used network comes first, at most three are kept; the
    list is left alone when the network is already first with the same key. *)
Definition mru (l : list (list Z)) (e : cfg_entry) : list (list Z) :=
  match l with
  | o :: _ => if same_ap o e && same_key o e then l
              else e :: take 2 (List.filter (fun o => negb (same_ap o e)) l)
  | [] => [e]
  end.

Definition entry_wf (e : cfg_entry) : Prop := zlen e = sizeof_cfg_info /\ bytes e.

Record cfg_inv (c : cfg_des) : Prop := {
  inv_num : num c = zlen (cfg_info c);
  inv_max : num c <= RT_WLAN_CFG_INFO_MAX;
  inv_entries : Forall entry_wf (cfg_info c);
  inv_distinct : NoDup (ap_id <$> cfg_info c)
}.

Lemma filter_same_ap_id l e : ap_id e ∉ ap_id <$> l ->
  List.filter (fun o => negb (same_ap o e)) l = l.
Proof.
  induction l as [|o l IH]; intros H; [done|]. rewrite fmap_cons, not_elem_of_cons in H.
  destruct H as [Hne H]. simpl. rewrite same_ap_id, bool_decide_eq_false_2 by congruence.
  simpl. by rewrite IH.
Qed.

Lemma short_list (l : list (list Z)) : zlen l <= RT_WLAN_CFG_INFO_MAX ->
  l = [] \/ (exists a, l = [a]) \/ (exists a b, l = [a; b]) \/ exists a b c, l = [a; b; c].
Proof.
  unfold RT_WLAN_CFG_INFO_MAX. destruct l as [|a [|b [|c [|d l]]]]; eauto 8.
  autorewrite with zlen. pose proof (zlen_nonneg l). lia.
Qed.

(** Two different entries of the list are not both the same access point. *)
Lemma distinct_ap l i j x y e : NoDup (ap_id <$> l) -> l !! i = Some x -> l !! j = Some y ->
  i <> j -> same_ap x e = true -> same_ap y e = true -> False.
Proof.
  intros Hnd Hx Hy Hij. rewrite !same_ap_id, !bool_decide_eq_true. intros Ex Ey. apply Hij.
  apply (NoDup_lookup _ _ _ (ap_id e) Hnd); rewrite list_lookup_fmap;
    [rewrite Hx|rewrite Hy]; simpl; congruence.
Qed.

Ltac case_ap :=
  repeat match goal with
  | |- context [same_ap ?a ?b] => destruct (same_ap a b) eqn:?
  | |- context [same_key ?a ?b] => destruct (same_key a b) eqn:?
  end.

Lemma cfg_cache_add_mru junk c e : cfg_inv c ->
  exists b, cfg_cache_add true junk c e
    = Some (RT_EOK, b, CfgDes (zlen (mru (cfg_info c) e)) (mru (cfg_info c) e)) /\
    (b = false -> mru (cfg_info c) e = cfg_info c).
Proof.
  destruct c as [n l]. intros [Hn Hm _ Hnd]. cbn [num cfg_info] in *. subst n.
  destruct (short_list l Hm) as [->|[(x & ->)|[(x & y & ->)|(x & y & z & ->)]]];
    [eexists; split; [reflexivity|]; done|..].
  all: cbv -[same_ap same_key]; case_ap.
  all: try (eexists; split; [reflexivity|done]).
  all: exfalso.
  all: first [eapply (distinct_ap _ 0 1); [exact Hnd|done|done|lia|done|done]
             |eapply (distinct_ap _ 0 2); [exact Hnd|done|done|lia|done|done]
             |eapply (distinct_ap _ 1 2); [exact Hnd|done|done|lia|done|done]].
Qed.

Lemma elem_of_filter_ap (f : list Z -> bool) l x : x ∈ List.filter f l <-> x ∈ l /\ f x = true.
Proof. rewrite !list_elem_of_In. apply filter_In. Qed.

Lemma mru_inv c e : cfg_inv c -> entry_wf e ->
  cfg_inv (CfgDes (zlen (mru (cfg_info c) e)) (mru (cfg_info c) e)).
Proof.
  intros [Hn Hm Hes Hnd] He. unfold mru. destruct (cfg_info c) as [|o l] eqn:El.
  { split; cbn [num cfg_info]; [done|by_decide|by apply Forall_singleton|apply NoDup_singleton]. }
  case_match; [split; cbn [num cfg_info]; try done; by rewrite <- Hn|].
  set (k := List.filter (fun o => negb (same_ap o e)) (o :: l)).
  assert (forall x, x ∈ k -> x ∈ o :: l /\ same_ap x e = false) as Hk.
  { intros x Hx. apply elem_of_filter_ap in Hx as [Hx Hs]. split; [done|].
    by apply negb_true_iff. }
  assert (NoDup (ap_id <$> k)) as Hndk.
  { unfold k. clear -Hnd. generalize dependent (o :: l). intros l' Hnd.
    induction l' as [|a l' IH]; [constructor|]. rewrite fmap_cons, NoDup_cons in Hnd.
    destruct Hnd as [Ha Hnd]. simpl. destruct (negb (same_ap a e)); [|by apply IH].
    rewrite fmap_cons, NoDup_cons. split; [|by apply IH].
    intros Hin. apply Ha. apply list_elem_of_fmap in Hin as (y & -> & Hy).
    apply list_elem_of_fmap. exists y. split; [done|]. by apply elem_of_filter_ap in Hy as [? _]. }
  split; cbn [num cfg_info]; [done| | |].
  - rewrite zlen_cons, zlen_take. unfold RT_WLAN_CFG_INFO_MAX. lia.
  - constructor; [done|]. apply Forall_take, Forall_forall. intros x Hx.
    rewrite Forall_forall in Hes. by apply Hes, Hk.
  - rewrite fmap_cons, NoDup_cons. rewrite fmap_take. split.
    + intros Hin. apply elem_of_take in Hin as (i & Hi & _).
      rewrite list_lookup_fmap in Hi. destruct (k !! i) as [x|] eqn:Ex; [|done].
      simpl in Hi. destruct (Hk x (list_elem_of_lookup_2 _ _ _ Ex)) as [_ Hs].
      rewrite same_ap_id, bool_decide_eq_false in Hs. congruence.
    + rewrite <- (take_drop 2 (ap_id <$> k)) in Hndk. apply NoDup_app in Hndk. by destruct Hndk.
Qed.

(** The list of known networks is kept in most-recently-used order: the
    cache update of [rt_wlan_cfg_save] never fails with memory available, puts
    the network first, drops its older entry or, when the list is full, the
    last one, keeps at most three and no duplicates; the list is unchanged
    exactly when no save to flash is asked for. *)
Theorem wlan_cfg_mru (c : cfg_des) (e junk : cfg_entry) :
  cfg_inv c -> entry_wf e ->
  exists b c', cfg_cache_add true junk c e = Some (RT_EOK, b, c') /\
    cfg_info c' = mru (cfg_info c) e /\ cfg_inv c' /\
    (b = false -> cfg_info c' = cfg_info c).
Proof.
  intros Hc He. destruct (cfg_cache_add_mru junk c e Hc) as (b & E & Hb).
  exists b. eexists. split_and!; [exact E|done|by apply mru_inv|done].
Qed.

(** ** Persistence *)
Lemma crc16_range buff : 0 <= rt_wlan_cal_crc buff < 2 ^ 32.
Proof.
  unfold rt_wlan_cal_crc.
  assert (forall w, 0 <= w < 2 ^ 16 -> 0 <= crc16_bit w < 2 ^ 16) as Hbit.
  { intros w Hw. unfold crc16_bit. pose proof (u16_range (Z.shiftl w 1)). case_match; [|done].
    apply (CrcSpec.lxor_range 16); lia. }
  assert (forall n w, 0 <= w < 2 ^ 16 -> 0 <= Nat.iter n crc16_bit w < 2 ^ 16) as Hit.
  { intros n w Hw. induction n; [done|]. by apply Hbit. }
  assert (forall w, 0 <= w < 2 ^ 16 ->
    0 <= foldl (fun w c => Nat.iter 8 crc16_bit (u16 (Z.lxor w (Z.shiftl c 8)))) w buff < 2 ^ 16)
    as H; [|specialize (H 0); lia].
  induction buff as [|x buff IH]; intros w Hw; [done|]. cbn [foldl]. apply IH, Hit, u16_range.
Qed.

Lemma concat_zlen l : Forall entry_wf l -> zlen (concat l) = sizeof_cfg_info * zlen l.
Proof.
  induction 1 as [|e l [He _] Hl IH]; [done|]. simpl. rewrite zlen_app, zlen_cons, IH, He. lia.
Qed.

Lemma entries_concat l : Forall entry_wf l -> entries (concat l) (zlen l) = l.
Proof.
  intros Hl. unfold entries. apply list_eq. intros i. rewrite list_lookup_fmap.
  destruct (decide (Z.of_nat i < zlen l)) as [Hi|Hi].
  2:{ rewrite lookup_seqZ_ge by lia. symmetry. apply lookup_ge_None_2. unfold zlen in *. lia. }
  rewrite lookup_seqZ_lt by lia. simpl.
  revert i Hi. induction Hl as [|e l [He Hb] Hl IH]; intros i Hi; [unfold zlen in *; simpl in *; lia|].
  simpl. unfold sizeof_cfg_info in *. destruct i as [|i].
  - by rewrite buf_sub_here.
  - rewrite buf_sub_skip by lia. change ((e :: l) !! S i) with (l !! i).
    rewrite <- (IH i) by (rewrite zlen_cons in Hi; lia). do 2 f_equal. lia.
Qed.

Lemma take_zlen {A} (l : list A) : take (Z.to_nat (zlen l)) l = l.
Proof. unfold zlen. rewrite Nat2Z.id. by apply take_ge. Qed.

Lemma refresh_loop_fresh p l :
  zlen (p ++ l) <= RT_WLAN_CFG_INFO_MAX -> NoDup (ap_id <$> p ++ l) ->
  refresh_loop (fun _ => true) (CfgDes (zlen p) p) l = (RT_EOK, CfgDes (zlen (p ++ l)) (p ++ l)).
Proof.
  revert p. induction l as [|e l IH]; intros p Hmax Hnd; [by rewrite app_nil_r|].
  cbn [refresh_loop num cfg_info negb]. pose proof (zlen_nonneg l).
  rewrite zlen_app, zlen_cons in Hmax.
  destruct (Z.leb_spec RT_WLAN_CFG_INFO_MAX (zlen p)); [lia|].
  rewrite take_zlen.
  destruct (existsb (fun o => same_ap o e) p) eqn:Ex.
  - exfalso. apply existsb_exists in Ex as (o & Ho & Hs). apply list_elem_of_In in Ho.
    rewrite same_ap_id, bool_decide_eq_true in Hs. rewrite fmap_app, fmap_cons in Hnd.
    apply NoDup_app in Hnd as (_ & Hnd & _). apply (Hnd (ap_id o)).
    + by apply list_elem_of_fmap_2.
    + rewrite Hs. by left.
  - replace (zlen p + 1) with (zlen (p ++ [e])) by (rewrite zlen_app; done).
    rewrite IH; [by rewrite <- app_assoc| |by rewrite <- app_assoc].
    autorewrite with zlen. lia.
Qed.

Section Persist.
Context {St : Type} (ops : env_ops St) (R : Z -> St -> env_map -> Prop).
Context (P : St -> env_map -> Prop) `{!EnvStore ops R P}.

(** The variables after [write_cfg]. *)
Definition cfg_vars (m : env_map) (buff : list Z) : env_map :=
  <[wlan_cfg_info_key := Wifi.encode_chars buff]>
    (<[wlan_cfg_len_key := sprintf_d (zlen buff)]> m).

(** There is room for both variables. *)
Definition cfg_room (m : env_map) (buff : list Z) : Prop :=
  fst (spec_set m wlan_cfg_len_key (sprintf_d (zlen buff))) = EF_NO_ERR /\
  fst (spec_set (<[wlan_cfg_len_key := sprintf_d (zlen buff)]> m) wlan_cfg_info_key
         (Wifi.encode_chars buff)) = EF_NO_ERR.

Lemma info_key_ok : key_ok wlan_cfg_info_key.
Proof. split_and!; by_decide. Qed.

Lemma len_key_ok : key_ok wlan_cfg_len_key.
Proof. split_and!; by_decide. Qed.

Lemma write_cfg_spec n s m buff :
  R n s m -> 0 < n -> bytes buff -> zlen buff < 2 ^ 20 -> cfg_room m buff ->
  exists r s1 s', R n s1 (cfg_vars m buff) /\ env_save ops s1 = Some (r, s') /\
    write_cfg ops true s buff = Some (zlen buff, s').
Proof.
  intros HR Hn Hb Hlen [Hr1 Hr2]. pose proof (zlen_nonneg buff).
  pose proof (sprintf_d_cstring (zlen buff)) as Hc1.
  pose proof (sprintf_d_len (zlen buff)) as Hl1.
  pose proof (Wifi.encode_chars_cstring buff Hb) as Hc2.
  pose proof (Wifi.encode_chars_length buff) as Hl2.
  destruct (es_set n s m wlan_cfg_len_key (sprintf_d (zlen buff)) HR len_key_ok Hc1) as (s1 & E1 & HR1).
  { change (zlen wlan_cfg_len_key) with 12. lia. }
  rewrite (spec_set_ok _ _ _ Hr1) in HR1.
  destruct (es_set n s1 _ wlan_cfg_info_key (Wifi.encode_chars buff) HR1 info_key_ok Hc2)
    as (s2 & E2 & HR2).
  { change (zlen wlan_cfg_info_key) with 13. zify_divmod. }
  rewrite (spec_set_ok _ _ _ Hr2) in HR2.
  destruct (es_save n s2 _ Hn HR2) as (r & s3 & E3 & _).
  exists r, s2, s3. split_and!; [done|done|].
  unfold write_cfg. cbn [negb]. rewrite E1. cbn [mbind option_bind].
  unfold Wifi.str_base64_encode_len. rewrite buf_cstr_app by done. cbn [mbind option_bind].
  rewrite E2. cbn [mbind option_bind]. rewrite E3. done.
Qed.

(** What a store with these variables gives back. *)
Lemma read_back n s m buff junk :
  R n s (cfg_vars m buff) -> bytes buff -> buff <> [] -> zlen buff < 2 ^ 20 ->
  zlen junk = zlen buff ->
  get_len ops s = Some (zlen buff) /\ read_cfg ops s junk = Some (zlen buff, buff).
Proof.
  intros HR Hb Hne Hlen Hj. pose proof (zlen_nonneg buff). split.
  - unfold get_len. rewrite (es_get n s _ _ HR len_key_ok). cbn [mbind option_bind].
    unfold cfg_vars. rewrite lookup_insert_ne by done. rewrite lookup_insert_eq.
    by rewrite atoi_sprintf by lia.
  - unfold read_cfg. rewrite (es_get n s _ _ HR info_key_ok). cbn [mbind option_bind].
    unfold cfg_vars. rewrite lookup_insert_eq, Wifi.decode_encode by done.
    cbn [mbind option_bind]. rewrite buf_write_some by lia. cbn [mbind option_bind].
    rewrite take_0, drop_ge by (unfold zlen in *; simpl; lia).
    by rewrite app_nil_l, app_nil_r, Hj.
Qed.

(** The package written for a cache. *)
Definition cfg_package (c : cfg_des) : list Z :=
  save_head (sizeof_cfg_save_info_head + sizeof_cfg_info * num c) (num c)
    (rt_wlan_cal_crc (concat (cfg_info c))) ++ concat (cfg_info c).

Lemma package_len c : cfg_inv c ->
  zlen (cfg_package c) = sizeof_cfg_save_info_head + sizeof_cfg_info * num c /\
  bytes (cfg_package c) /\ 0 <= num c <= 3.
Proof.
  intros [Hn Hm Hes _]. pose proof (zlen_nonneg (cfg_info c)).
  unfold RT_WLAN_CFG_INFO_MAX in Hm. split_and!; try lia.
  - unfold cfg_package, save_head. autorewrite with zlen. rewrite concat_zlen by done.
    unfold sizeof_cfg_save_info_head. rewrite Hn. lia.
  - unfold cfg_package, save_head. rewrite !Forall_app. split_and!; auto using le_bytes_bytes.
    apply Forall_concat. eapply Forall_impl; [exact Hes|]. by intros ? [].
Qed.

Lemma package_words c : cfg_inv c ->
  let p := cfg_package c in
  le_val (buf_sub p 0 4) = RT_WLAN_CFG_MAGIC /\
  le_val (buf_sub p 4 4) = sizeof_cfg_save_info_head + sizeof_cfg_info * num c /\
  le_val (buf_sub p 8 4) = num c /\
  le_val (buf_sub p 12 4) = rt_wlan_cal_crc (concat (cfg_info c)) /\
  drop 16 p = concat (cfg_info c) /\
  (zlen p - sizeof_cfg_save_info_head) / sizeof_cfg_info = num c.
Proof.
  intros Hc p. destruct (package_len c Hc) as (Hl & _ & Hnum).
  pose proof (crc16_range (concat (cfg_info c))) as Hcrc.
  assert (forall x, 0 <= x < 2 ^ 32 -> le_val (le_bytes 4 x) = x) as Hw
    by (intros x Hx; apply le_val_bytes; change (256 ^ Z.of_nat 4) with (2 ^ 32); lia).
  unfold p. split_and!.
  6:{ rewrite Hl. unfold sizeof_cfg_info. rewrite Z.add_simpl_l, Z.mul_comm. by apply Z.div_mul. }
  all: unfold cfg_package, save_head; rewrite <- !app_assoc.
  - rewrite buf_sub_here by (autorewrite with zlen; lia). by apply Hw.
  - rewrite buf_sub_skip by (autorewrite with zlen; lia). autorewrite with zlen.
    rewrite buf_sub_here by (autorewrite with zlen; lia). apply Hw.
    unfold sizeof_cfg_save_info_head, sizeof_cfg_info. lia.
  - do 2 rewrite buf_sub_skip by (autorewrite with zlen; lia). autorewrite with zlen.
    rewrite buf_sub_here by (autorewrite with zlen; lia). apply Hw. lia.
  - do 3 rewrite buf_sub_skip by (autorewrite with zlen; lia). autorewrite with zlen.
    rewrite buf_sub_here by (autorewrite with zlen; lia). apply Hw. lia.
  - done.
Qed.

(** [C31] The list of networks survives a restart: writing it out returns
    [RT_EOK] with a store that restarts with the two variables set, and reading
    it from any store with these variables into an empty cache gives exactly
    the same list. *)
Theorem wlan_cfg_survives_restart n s m c :
  R n s m -> 0 < n -> cfg_inv c -> cfg_room m (cfg_package c) ->
  (forall n s m r s', R n s m -> env_save ops s = Some (r, s') -> r = EF_NO_ERR) ->
  exists s' m', rt_wlan_cfg_cache_save ops true true c s = Some (RT_EOK, s') /\
    R (n - 1) s' m' /\ P s' m' /\
    forall n2 s2 junk, R n2 s2 m' -> (forall k, 0 <= k -> zlen (junk k) = k) ->
      rt_wlan_cfg_cache_refresh ops true (fun _ => true) junk (CfgDes 0 []) s2
        = Some (RT_EOK, c).
Proof.
  intros HR Hn Hc Hroom Hworks. destruct (package_len c Hc) as (Hl & Hb & Hnum).
  destruct (write_cfg_spec n s m (cfg_package c) HR Hn Hb) as (r & s1 & s' & HR1 & Es & Ew);
    [unfold sizeof_cfg_save_info_head, sizeof_cfg_info in *; lia|done|].
  assert (r = EF_NO_ERR) as -> by by eapply Hworks.
  destruct (es_save n s1 _ Hn HR1) as (r' & s'' & Es' & Hok). rewrite Es in Es'.
  injection Es' as <- <-. destruct (Hok eq_refl) as [HR' HP].
  exists s', (cfg_vars m (cfg_package c)). split_and!; [|done|done|].
  - unfold rt_wlan_cfg_cache_save. cbn [negb]. rewrite (inv_num c Hc), take_zlen.
    rewrite <- (inv_num c Hc). rewrite i32_id by (unfold sizeof_cfg_save_info_head, sizeof_cfg_info; lia).
    fold (cfg_package c). rewrite Ew. cbn [mbind option_bind]. by rewrite Hl, Z.eqb_refl.
  - intros n2 s2 junk HR2 Hj.
    assert (0 < zlen (cfg_package c)) as Hpos
      by (unfold sizeof_cfg_save_info_head, sizeof_cfg_info in *; lia).
    destruct (read_back n2 s2 m (cfg_package c) (junk (zlen (cfg_package c))) HR2 Hb)
      as [Eg Er]; [by intros E; rewrite E in Hpos|unfold sizeof_cfg_save_info_head, sizeof_cfg_info in *; lia
      |apply Hj; lia|].
    unfold rt_wlan_cfg_cache_refresh. cbn [num cfg_info].
    change (RT_WLAN_CFG_INFO_MAX <=? 0) with false. cbv iota. rewrite Eg.
    cbn [mbind option_bind negb]. destruct (Z.leb_spec (zlen (cfg_package c)) 0); [lia|].
    rewrite Er. cbn [mbind option_bind]. rewrite Z.eqb_refl. cbn [negb].
    destruct (package_words c Hc) as (W0 & W1 & W2 & W3 & Hd & Hq).
    destruct (Z.ltb_spec (zlen (cfg_package c)) sizeof_cfg_save_info_head);
      [unfold sizeof_cfg_save_info_head, sizeof_cfg_info in *; lia|].
    rewrite W0, W1, W2, W3, Hd, Hq, <- Hl, !Z.eqb_refl.
    rewrite take_ge by (unfold zlen, sizeof_cfg_save_info_head, sizeof_cfg_info in *;
      pose proof (concat_zlen _ (inv_entries _ Hc)); unfold zlen, sizeof_cfg_info in *;
      rewrite (inv_num c Hc) in *; unfold zlen in *; lia).
    rewrite Z.eqb_refl. cbn [andb negb]. rewrite (inv_num c Hc), entries_concat by apply Hc.
    pose proof (refresh_loop_fresh [] (cfg_info c)) as Hf. cbn [app] in Hf.
    change (zlen []) with 0 in Hf.
    rewrite Hf; [|rewrite <- (inv_num c Hc); apply Hc|apply Hc].
    rewrite <- (inv_num c Hc). by destruct c.
Qed.

End Persist.

(** [rt_wlan_cfg_read] copies in the wrong direction: the caller's array
    is left as it was and the first entries of the cache are overwritten with
    the caller's. *)
Theorem wlan_cfg_read_overwrites (c : cfg_des) (out : list (list Z)) (n : Z) :
  num c = zlen (cfg_info c) -> 0 < n -> n <= zlen out -> n <= num c ->
  exists c', rt_wlan_cfg_read c out n = Some (n, out, c') /\
    take (Z.to_nat n) (cfg_info c') = take (Z.to_nat n) out /\
    drop (Z.to_nat n) (cfg_info c') = drop (Z.to_nat n) (cfg_info c).
Proof.
  intros Hnum Hn Hout Hcap. unfold rt_wlan_cfg_read.
  destruct (Z.leb_spec n 0); [lia|].
  assert ((if n <? num c then n else num c) = n) as -> by (case_bool).
  destruct (Z.ltb_spec (zlen out) n); [lia|].
  assert (length (take (Z.to_nat n) out) = Z.to_nat n) as Hl
    by (rewrite length_take; unfold zlen in *; lia).
  rewrite buf_write_some by (unfold zlen in *; lia). cbn [mbind option_bind].
  eexists. split; [reflexivity|]. cbn [cfg_info]. rewrite take_0, app_nil_l, Hl. split.
  - by rewrite take_app_length' by lia.
  - by rewrite drop_app_length' by lia.
Qed.

(** Deleting by index removes exactly that entry and keeps the list well
    formed, except that the only remaining entry cannot be deleted: the
    allocation of 0 bytes for the shorter list fails and -1 is returned. *)
Theorem wlan_cfg_delete_spec (c : cfg_des) (i : Z) :
  cfg_inv c -> 0 <= i < num c ->
  rt_wlan_cfg_delete_index true c i =
    (if num c =? 1 then (-1, c)
     else (0, CfgDes (num c - 1) (delete (Z.to_nat i) (cfg_info c)))) /\
  (num c <> 1 -> cfg_inv (snd (rt_wlan_cfg_delete_index true c i))).
Proof.
  intros Hc Hi. pose proof (inv_num c Hc) as Hn.
  assert (rt_wlan_cfg_delete_index true c i =
    (if num c =? 1 then (-1, c)
     else (0, CfgDes (num c - 1) (delete (Z.to_nat i) (cfg_info c))))) as E.
  { unfold rt_wlan_cfg_delete_index, rt_malloc_ok, sizeof_cfg_info.
    destruct (Z.ltb_spec i 0); [lia|]. destruct (Z.leb_spec (num c) i); [lia|]. cbn [andb].
    destruct (Z.eqb_spec (num c) 1) as [E|E]; [by rewrite E|].
    destruct (Z.ltb_spec 0 (96 * (num c - 1))); [|lia]. cbn [negb].
    rewrite delete_take_drop. do 3 f_equal. rewrite Hn, take_zlen. f_equal. lia. }
  split; [done|]. intros Hne. rewrite E. destruct (Z.eqb_spec (num c) 1); [lia|].
  destruct Hc as [_ Hm Hes Hnd]. cbn [snd]. split; cbn [num cfg_info].
  - unfold zlen in *. rewrite length_delete; [lia|]. apply lookup_lt_is_Some. lia.
  - lia.
  - by apply Forall_delete.
  - rewrite list_fmap_delete. by apply (sublist_NoDup _ (ap_id <$> cfg_info c));
      [|apply sublist_delete].
Qed.

(** ** Concrete inputs *)
Definition sample_entry (name : list Z) : cfg_entry :=
  replicate 16 0 ++ [zlen name] ++ name ++ replicate (79 - length name) 0.

Definition sample_cfg : cfg_des := CfgDes 2 [sample_entry (str "lab"); sample_entry (str "home")].

Lemma sample_cfg_inv : cfg_inv sample_cfg.
Proof. split; [done|by_decide| |by_decide]. repeat constructor; by_decide. Defined.

Lemma wlan_cfg_mru_witness : exists b c',
  cfg_cache_add true [] sample_cfg (sample_entry (str "home")) = Some (RT_EOK, b, c') /\
  cfg_info c' = [sample_entry (str "home"); sample_entry (str "lab")].
Proof.
  destruct (wlan_cfg_mru sample_cfg (sample_entry (str "home")) [] sample_cfg_inv)
    as (b & c' & E & Hm & _); [split; by_decide|].
  exists b, c'. split; [exact E|]. rewrite Hm. vm_compute. reflexivity.
Defined.

(** A store without flash: the map itself. *)
Definition map_ops : env_ops env_map := {|
  env_get s k := Some (s !! k);
  env_set s k v := Some (spec_set s k v);
  env_save s := Some (EF_NO_ERR, s)
|}.

#[export] Instance map_env_store : EnvStore map_ops (fun _ s m => s = m) eq.
Proof.
  split.
  - by intros n s m k ->.
  - intros n s m k v -> _ _ _. exists (snd (spec_set m k v)). cbn. by destruct (spec_set m k v).
  - intros n s m _ ->. by exists EF_NO_ERR, m.
Defined.

Lemma wlan_cfg_survives_restart_witness : exists m,
  rt_wlan_cfg_cache_save map_ops true true sample_cfg ∅ = Some (RT_EOK, m) /\
  rt_wlan_cfg_cache_refresh map_ops true (fun _ => true) (fun k => replicate (Z.to_nat k) 7)
    (CfgDes 0 []) m = Some (RT_EOK, sample_cfg).
Proof.
  destruct (wlan_cfg_survives_restart map_ops (fun _ s m => s = m) eq 1 ∅ ∅ sample_cfg)
    as (s' & m' & E & HR & _ & H); [done|done|exact sample_cfg_inv|split; vm_compute; reflexivity
    |intros n s m r s' _ [= <- _]; done|].
  exists s'. split; [exact E|]. apply (H 0); [done|].
  intros k Hk. rewrite zlen_replicate. lia.
Defined.

Lemma wlan_cfg_read_overwrites_witness : exists c',
  rt_wlan_cfg_read sample_cfg [sample_entry []] 1 = Some (1, [sample_entry []], c') /\
  take 1 (cfg_info c') = [sample_entry []].
Proof.
  destruct (wlan_cfg_read_overwrites sample_cfg [sample_entry []] 1) as (c' & E & H & _);
    [done|lia|by_decide|by_decide|]. exists c'. split; [exact E|exact H].
Defined.

Lemma wlan_cfg_delete_spec_witness :
  rt_wlan_cfg_delete_index true (CfgDes 1 [sample_entry (str "lab")]) 0
    = (-1, CfgDes 1 [sample_entry (str "lab")]) /\
  rt_wlan_cfg_delete_index true sample_cfg 0 = (0, CfgDes 1 [sample_entry (str "home")]).
Proof.
  split.
  - apply (wlan_cfg_delete_spec (CfgDes 1 [sample_entry (str "lab")]) 0); [|by_decide].
    split; [done|by_decide| |by_decide]. repeat constructor; by_decide.
  - apply (wlan_cfg_delete_spec sample_cfg 0 sample_cfg_inv). by_decide.
Defined.
