(* ===== verification/SmtpClient.v ===== *)
(** * The SMTP client

    Models src/packages/smtp_client-latest/src/smtp_client.c as configured by
    src/rtconfig.h: attachments on, TLS off, so the only usable port is 25.
    The session is the C structure; sockets, name resolution and the file
    system are parameters.  Every function is a computation in a small state
    monad over the session, the network and a log of the system calls made;
    [None] is undefined behaviour (a null pointer, an unterminated string, a
    buffer overflow). *)

From S2P Require Import Prelude CLib Base64.

Local Open Scope Z_scope.

Definition SMTP_MAX_ADDR_LEN : Z := 100.
Definition SMTP_MAX_AUTH_LEN : Z := 50.
Definition SMTP_MAX_FILE_PATH_LEN : Z := 64.
Definition SMTP_ATTACHMENT_MAX_NAME_LEN : Z := 32.
Definition SMTP_SEND_DATA_HEAD_MAX_LENGTH : Z := 256.
Definition SMTP_SEND_DATA_MAX_LEN : Z := 512.
Definition SMTP_RESPONSE_MAX_LEN : Z := 512.
Definition SMTP_MAX_ATTACHMENTS : Z := 20.

Definition CRLF : list Z := [13; 10].
Definition SMTP_CMD_EHLO : list Z := str "EHLO DM11" ++ CRLF.
Definition SMTP_CMD_AUTHLOGIN : list Z := str "AUTH LOGIN" ++ CRLF.
Definition SMTP_CMD_MAIL_HEAD : list Z := str "MAIL FROM: <".
Definition SMTP_CMD_MAIL_END : list Z := str ">" ++ CRLF.
Definition SMTP_CMD_RCPT_HEAD : list Z := str "RCPT TO: <".
Definition SMTP_CMD_RCPT_END : list Z := str ">" ++ CRLF.
Definition SMTP_CMD_DATA : list Z := str "DATA" ++ CRLF.
Definition SMTP_CMD_BODY_FINISHED : list Z := CRLF ++ str "." ++ CRLF.
Definition SMTP_CMD_QUIT : list Z := str "QUIT" ++ CRLF.
Definition SMTP_MAIL_BOUNDARY : list Z := str "smtp_client_boundary".

Inductive smtp_session_state :=
| SMTP_NULL
| SMTP_HELO
| SMTP_START_TLS
| SMTP_FINISH_START_TLS
| SMTP_AUTH_LOGIN
| SMTP_MAIL
| SMTP_RCPT
| SMTP_DATA
| SMTP_BODY
| SMTP_QUIT
| SMTP_CLOSED.

#[export] Instance smtp_session_state_eq_dec : EqDecision smtp_session_state.
Proof. solve_decision. Defined.

(** [smtp_session_t]; pointers to strings are [option]s, the character arrays
    are byte lists of their declared size, the two linked lists are lists. *)
Record smtp_session_t := Session {
  state : smtp_session_state;
  server_domain : option (list Z);
  server_ip : option (list Z);
  server_port : option (list Z);
  username : list Z;
  password : list Z;
  address_from : list Z;
  address_to : list (list Z);
  subject : option (list Z);
  body : option (list Z);
  conn_fd : Z;
  attachments : list (list Z * list Z)
}.

(** [smtp_client_init]. *)
Definition smtp_client_init : smtp_session_t :=
  Session SMTP_NULL None None None (replicate 100 0) (replicate 100 0) (replicate 100 0)
    [] None None 0 [].

Definition set_state (x : smtp_session_state) (s : smtp_session_t) : smtp_session_t :=
  Session x (server_domain s) (server_ip s) (server_port s) (username s) (password s)
    (address_from s) (address_to s) (subject s) (body s) (conn_fd s) (attachments s).

Definition set_conn_fd (fd : Z) (s : smtp_session_t) : smtp_session_t :=
  Session (state s) (server_domain s) (server_ip s) (server_port s) (username s) (password s)
    (address_from s) (address_to s) (subject s) (body s) fd (attachments s).

Definition set_server (d i p : option (list Z)) (s : smtp_session_t) : smtp_session_t :=
  Session (state s) d i p (username s) (password s)
    (address_from s) (address_to s) (subject s) (body s) (conn_fd s) (attachments s).

Definition set_auth (u p f : list Z) (s : smtp_session_t) : smtp_session_t :=
  Session (state s) (server_domain s) (server_ip s) (server_port s) u p
    f (address_to s) (subject s) (body s) (conn_fd s) (attachments s).

Definition set_mail (sub bod : option (list Z)) (s : smtp_session_t) : smtp_session_t :=
  Session (state s) (server_domain s) (server_ip s) (server_port s) (username s) (password s)
    (address_from s) (address_to s) sub bod (conn_fd s) (attachments s).

Definition set_receivers (l : list (list Z)) (s : smtp_session_t) : smtp_session_t :=
  Session (state s) (server_domain s) (server_ip s) (server_port s) (username s) (password s)
    (address_from s) l (subject s) (body s) (conn_fd s) (attachments s).

Definition set_attachments (l : list (list Z * list Z)) (s : smtp_session_t) : smtp_session_t :=
  Session (state s) (server_domain s) (server_ip s) (server_port s) (username s) (password s)
    (address_from s) (address_to s) (subject s) (body s) (conn_fd s) l.

(** ** Operations on the session alone *)

(** A string copied into a zeroed character array. *)
Definition char_array (n : Z) (s : list Z) : option (list Z) :=
  buf_write (replicate (Z.to_nat n) 0) 0 s.

(** [smtp_add_attachment]: [readable] is whether [fopen] succeeds, [mem]
    whether the node can be allocated. *)
Definition smtp_add_attachment (readable mem : bool) (file_path file_name : list Z)
    (s : smtp_session_t) : option (Z * smtp_session_t) :=
  if SMTP_MAX_FILE_PATH_LEN <? zlen file_path then Some (-1, s)
  else if SMTP_ATTACHMENT_MAX_NAME_LEN <? zlen file_name then Some (-1, s)
  else if negb readable then Some (-1, s)
  else if negb mem then Some (-1, s)
  else
    p ← char_array SMTP_MAX_FILE_PATH_LEN file_path;
    n ← char_array SMTP_ATTACHMENT_MAX_NAME_LEN file_name;
    Some (0, set_attachments (attachments s ++ [(p, n)]) s).

Definition smtp_clear_attachments (s : smtp_session_t) : smtp_session_t := set_attachments [] s.

Definition ADDRESS_TYPE_DOMAIN : Z := 0.

(** [smtp_set_server_addr]: [dup1] and [dup2] are whether the two string
    copies can be allocated. *)
Definition smtp_set_server_addr (dup1 dup2 : bool) (server_addr : option (list Z))
    (addr_type : Z) (port : list Z) (s : smtp_session_t) : Z * smtp_session_t :=
  match server_addr with
  | None => (-1, s)
  | Some a =>
      let addr_len := u16 (zlen a) in
      let copy := if dup1 then Some a else None in
      if negb (addr_type =? ADDRESS_TYPE_DOMAIN) && (15 <? addr_len) then (-1, s)
      else
        let s := if addr_type =? ADDRESS_TYPE_DOMAIN
                 then set_server copy (server_ip s) (server_port s) s
                 else set_server (server_domain s) copy (server_port s) s in
        if zlen port <=? 0 then (-1, s)
        else (0, set_server (server_domain s) (server_ip s) (if dup2 then Some port else None) s)
  end.

Definition smtp_set_auth (user pass : list Z) (s : smtp_session_t)
  : option (Z * smtp_session_t) :=
  if (zlen user =? 0) || (zlen pass =? 0) then Some (-1, s)
  else if SMTP_MAX_ADDR_LEN <? zlen user then Some (-1, s)
  else
    from ← char_array SMTP_MAX_ADDR_LEN user;
    let zeros := replicate (Z.to_nat (SMTP_MAX_AUTH_LEN * 2)) 0 in
    '(r, u) ← Smtp.smtp_base64_encode zeros (SMTP_MAX_AUTH_LEN * 2) user;
    if r =? 0 then Some (-1, set_auth u zeros from s)
    else
      '(r, p) ← Smtp.smtp_base64_encode zeros (SMTP_MAX_AUTH_LEN * 2) pass;
      Some (if r =? 0 then -1 else 0, set_auth u p from s).

(** [smtp_add_receiver]: [mem1] and [mem2] are whether the node and the string
    can be allocated.  When the string of the first node cannot be allocated,
    the loop that looks for the preceding node runs off the list. *)
Definition smtp_add_receiver (mem1 mem2 : bool) (receiver_addr : option (list Z))
    (s : smtp_session_t) : option (Z * smtp_session_t) :=
  match receiver_addr with
  | None => Some (-1, s)
  | Some a =>
      if negb mem1 then Some (-1, s)
      else if mem2 then Some (0, set_receivers (address_to s ++ [a]) s)
      else match address_to s with
           | [] => None
           | _ => Some (-1, s)
           end
  end.

Definition smtp_clear_receiver (s : smtp_session_t) : smtp_session_t := set_receivers [] s.

(** [memcmp(addr, receiver_addr, strlen(receiver_addr)) == 0]: the texts differ
    at the latest where the terminator of [addr] meets a character. *)
Definition addr_matches (addr receiver_addr : list Z) : bool :=
  bool_decide (take (length receiver_addr) (addr ++ [0]) = receiver_addr).

(** The loop of [smtp_delete_receiver]. *)
Fixpoint remove_first (l : list (list Z)) (receiver_addr : list Z) : option (list (list Z)) :=
  match l with
  | [] => None
  | a :: l => if addr_matches a receiver_addr then Some l
              else cons a <$> remove_first l receiver_addr
  end.

Definition smtp_delete_receiver (receiver_addr : list Z) (s : smtp_session_t)
  : Z * smtp_session_t :=
  match remove_first (address_to s) receiver_addr with
  | Some l => (0, set_receivers l s)
  | None => (-1, s)
  end.

(** ** System calls

    [getaddrinfo] gives the candidate addresses, [net_read] the result and the
    bytes stored. *)
Record net_ops (N A : Type) := NetOps {
  net_getaddrinfo : N -> list Z -> list Z -> option (list A);
  net_socket : N -> A -> Z * N;
  net_connect : N -> Z -> A -> Z * N;
  net_read : N -> Z -> Z -> Z * list Z * N;
  net_write : N -> Z -> list Z -> Z * N;
  net_close : N -> Z -> Z * N;
  fs_open : N -> list Z -> option (list Z)
}.
Arguments net_getaddrinfo {N A}.
Arguments net_socket {N A}.
Arguments net_connect {N A}.
Arguments net_read {N A}.
Arguments net_write {N A}.
Arguments net_close {N A}.
Arguments fs_open {N A}.

(** The log: what was written to and which descriptors were closed. *)
Inductive event :=
| EWrite (fd : Z) (data : list Z)
| EClose (fd : Z).

Record world (N : Type) := World { sess : smtp_session_t; net : N; log : list event }.
Arguments World {N}.
Arguments sess {N}.
Arguments net {N}.
Arguments log {N}.

(** The monad. *)
Definition M (N B : Type) : Type := world N -> option (B * world N).

#[export] Instance M_ret N : MRet (M N) := fun B x w => Some (x, w).

#[export] Instance M_bind N : MBind (M N) := fun B C k e w =>
  match e w with
  | Some (x, w) => k x w
  | None => None
  end.

Section Client.
Context {N A : Type} (ops : net_ops N A).

Definition get_session : M N smtp_session_t := fun w => Some (sess w, w).

Definition modify (f : smtp_session_t -> smtp_session_t) : M N unit :=
  fun w => Some (tt, World (f (sess w)) (net w) (log w)).

Definition undefined {B} : M N B := fun _ => None.

(** A value whose absence is undefined behaviour. *)
Definition deref {B} (x : option B) : M N B :=
  match x with Some x => mret x | None => undefined end.

Definition do_read (fd n : Z) : M N (Z * list Z) := fun w =>
  let '(r, d, n') := net_read ops (net w) fd n in Some ((r, d), World (sess w) n' (log w)).

Definition do_write (fd : Z) (d : list Z) : M N Z := fun w =>
  let '(r, n') := net_write ops (net w) fd d in
  Some (r, World (sess w) n' (log w ++ [EWrite fd d])).

Definition do_close (fd : Z) : M N Z := fun w =>
  let '(r, n') := net_close ops (net w) fd in
  Some (r, World (sess w) n' (log w ++ [EClose fd])).

Definition do_socket (a : A) : M N Z := fun w =>
  let '(r, n') := net_socket ops (net w) a in Some (r, World (sess w) n' (log w)).

Definition do_connect (fd : Z) (a : A) : M N Z := fun w =>
  let '(r, n') := net_connect ops (net w) fd a in Some (r, World (sess w) n' (log w)).

Definition do_getaddrinfo (domain port : list Z) : M N (option (list A)) := fun w =>
  Some (net_getaddrinfo ops (net w) domain port, w).

Definition do_open (path : list Z) : M N (option (list Z)) := fun w =>
  Some (fs_open ops (net w) path, w).

(** [atoi(smtp_session.server_port)]. *)
Definition server_port_num : M N Z :=
  s ← get_session;
  p ← deref (server_port s);
  mret (atoi p).

(** [sprintf] of a text into a buffer of [cap] bytes. *)
Definition sprintf_into (cap : Z) (text : list Z) : M N (list Z) :=
  if zlen text + 1 <=? cap then mret text else undefined.

(** ** The protocol *)
Definition smtp_close_connection : M N Z :=
  p ← server_port_num;
  if p =? 25 then s ← get_session; do_close (conn_fd s) else mret (-1).

(** The loop over the addresses; [result] is the variable of the source. *)
Fixpoint connect_loop (addr_list : list A) (result : Z) : M N Z :=
  match addr_list with
  | [] => mret result
  | cur :: addr_list =>
      fd ← do_socket cur;
      _ ← modify (set_conn_fd fd);
      if fd <? 0 then connect_loop addr_list (-1)
      else
        c ← do_connect fd cur;
        if c =? 0 then
          '(r, buf) ← do_read fd 3;
          if r <? 3 then _ ← smtp_close_connection; mret (-1)
          else if bool_decide (buf = str "220") then mret 0
          else _ ← smtp_close_connection; mret (-1)
        else
          _ ← smtp_close_connection;
          connect_loop addr_list (-1)
  end.

Definition smtp_connect_server_by_hostname : M N Z :=
  s ← get_session;
  d ← deref (server_domain s);
  p ← deref (server_port s);
  l ← do_getaddrinfo d p;
  match l with
  | None => mret (-1)
  | Some l => connect_loop l (-1)
  end.

Definition smtp_connect_server_by_ip : M N Z := mret (-1).

(** [smtp_flush]: one read of up to 512 bytes, thrown away. *)
Definition smtp_flush : M N Z :=
  p ← server_port_num;
  if p =? 25 then
    s ← get_session;
    '(r, _) ← do_read (conn_fd s) SMTP_RESPONSE_MAX_LEN;
    mret (if r <=? 0 then -1 else r)
  else mret (-1).

Definition smtp_write (buf : list Z) : M N Z :=
  p ← server_port_num;
  if p =? 25 then s ← get_session; do_write (conn_fd s) buf else mret (-1).

Definition smtp_read (nbyte : Z) : M N (Z * list Z) :=
  p ← server_port_num;
  if p =? 25 then s ← get_session; do_read (conn_fd s) nbyte else mret (-1, []).

Definition smtp_connect_server : M N Z :=
  p ← server_port_num;
  if p =? 25 then
    s ← get_session;
    match server_ip s, server_domain s with
    | Some _, _ => smtp_connect_server_by_ip
    | None, Some _ => smtp_connect_server_by_hostname
    | None, None => mret (-1)
    end
  else mret (-1).

Definition smtp_send_data_with_response_check (buf response_code : list Z) : M N Z :=
  s ← get_session;
  if conn_fd s =? 0 then mret (-1)
  else
    _ ← smtp_flush;
    r ← smtp_write buf;
    if negb (r =? zlen buf) then _ ← smtp_close_connection; mret (-1)
    else
      '(r, response_code_buf) ← smtp_read 3;
      if r <? 3 then _ ← smtp_close_connection; mret (-1)
      else if negb (bool_decide (take 3 response_code_buf = response_code))
      then _ ← smtp_close_connection; mret (-1)
      else mret 0.

(** "if (check(...) != 0) { smtp_close_connection(); return -1; }", the shape
    of every step after the first. *)
Definition step (buf response_code : list Z) (next : M N Z) : M N Z :=
  r ← smtp_send_data_with_response_check buf response_code;
  if negb (r =? 0) then _ ← smtp_close_connection; mret (-1) else next.

Definition smtp_handshake : M N Z :=
  r ← smtp_send_data_with_response_check SMTP_CMD_EHLO (str "250");
  if negb (r =? 0) then mret (-1) else mret r.

Definition smtp_auth_login : M N Z :=
  step SMTP_CMD_AUTHLOGIN (str "334") (
    s ← get_session;
    u ← deref (buf_cstr (username s));
    auth_info_buf ← sprintf_into (SMTP_MAX_AUTH_LEN * 2 + 2) (u ++ CRLF);
    step auth_info_buf (str "334") (
      s ← get_session;
      p ← deref (buf_cstr (password s));
      auth_info_buf ← sprintf_into (SMTP_MAX_AUTH_LEN * 2 + 2) (p ++ CRLF);
      step auth_info_buf (str "235") (mret 0))).

(** The loop over the receivers. *)
Fixpoint rcpt_loop (buf_len : Z) (l : list (list Z)) : M N Z :=
  match l with
  | [] => mret 0
  | a :: l =>
      addr_info_buf ← sprintf_into buf_len (SMTP_CMD_RCPT_HEAD ++ a ++ SMTP_CMD_RCPT_END);
      step addr_info_buf (str "250") (rcpt_loop buf_len l)
  end.

Definition smtp_set_sender_receiver : M N Z :=
  let mail_buf_len := SMTP_MAX_ADDR_LEN + zlen SMTP_CMD_MAIL_HEAD + zlen SMTP_CMD_MAIL_END in
  let rcpt_buf_len := SMTP_MAX_ADDR_LEN + zlen SMTP_CMD_RCPT_HEAD + zlen SMTP_CMD_RCPT_END in
  let buf_len := if rcpt_buf_len <? mail_buf_len then mail_buf_len else rcpt_buf_len in
  s ← get_session;
  f ← deref (buf_cstr (address_from s));
  addr_info_buf ← sprintf_into buf_len (SMTP_CMD_MAIL_HEAD ++ f ++ SMTP_CMD_MAIL_END);
  step addr_info_buf (str "250") (rcpt_loop buf_len (address_to s)).

(** The header of an attachment. *)
Definition attachment_head (file_name : list Z) : list Z :=
  str "--" ++ SMTP_MAIL_BOUNDARY ++ CRLF
  ++ str "Content-Type: text/plain; name=" ++ [34] ++ file_name ++ [34] ++ CRLF
  ++ str "Content-Transfer-Encoding: binary" ++ CRLF
  ++ str "Content-Disposition: attachment; filename=" ++ [34] ++ file_name ++ [34] ++ CRLF ++ CRLF.

(** The data loop: full buffers while they last, then the rest.  The fuel is
    the length of the file. *)
Fixpoint send_file (fuel : nat) (data : list Z) : M N unit :=
  match fuel with
  | O => undefined
  | S fuel =>
      let chunk := take (Z.to_nat SMTP_SEND_DATA_MAX_LEN) data in
      if zlen chunk =? SMTP_SEND_DATA_MAX_LEN
      then _ ← smtp_write chunk; send_file fuel (drop (Z.to_nat SMTP_SEND_DATA_MAX_LEN) data)
      else _ ← smtp_write chunk; mret tt
  end.

(** The loop over the attachments; the result is [attachments_cnt]. *)
Fixpoint attachment_loop (l : list (list Z * list Z)) (cnt : Z) : M N Z :=
  match l with
  | [] => mret cnt
  | (p, n) :: l =>
      path ← deref (buf_cstr p);
      fp ← do_open path;
      match fp with
      | None => attachment_loop l cnt
      | Some data =>
          if cnt <? SMTP_MAX_ATTACHMENTS then
            name ← deref (buf_cstr n);
            head ← sprintf_into SMTP_SEND_DATA_MAX_LEN (attachment_head name);
            _ ← smtp_write head;
            _ ← send_file (S (length data)) data;
            _ ← smtp_write (CRLF ++ CRLF);
            attachment_loop l (cnt + 1)
          else mret cnt
      end
  end.

Definition smtp_send_attachment : M N unit :=
  s ← get_session;
  cnt ← attachment_loop (attachments s) 0;
  if 0 <? cnt
  then _ ← smtp_write (str "--" ++ SMTP_MAIL_BOUNDARY ++ str "--" ++ CRLF); mret tt
  else mret tt.

(** The mail without and with attachments. *)
Definition plain_content (from to sub bod : list Z) : list Z :=
  str "FROM: <" ++ from ++ str ">" ++ CRLF ++ str "TO: <" ++ to ++ str ">" ++ CRLF
  ++ str "SUBJECT:" ++ sub ++ CRLF ++ CRLF ++ bod ++ CRLF ++ CRLF.

Definition multipart_content (from to sub bod : list Z) : list Z :=
  str "FROM:<" ++ from ++ str ">" ++ CRLF ++ str "TO:<" ++ to ++ str ">" ++ CRLF
  ++ str "SUBJECT:" ++ sub ++ CRLF
  ++ str "Content-Type: multipart/mixed;boundary=" ++ [34] ++ str "smtp_client_boundary" ++ [34]
  ++ CRLF ++ CRLF ++ str "--" ++ SMTP_MAIL_BOUNDARY ++ CRLF
  ++ str "Content-Type: text/plain; charset=" ++ [34] ++ str "utf-8" ++ [34] ++ CRLF
  ++ str "Content-Transfer-Encoding: 7bit" ++ CRLF ++ CRLF ++ bod ++ CRLF ++ CRLF.

Definition smtp_send_content : M N Z :=
  step SMTP_CMD_DATA (str "354") (
    s ← get_session;
    from ← deref (buf_cstr (address_from s));
    to ← deref (head (address_to s));
    sub ← deref (subject s);
    bod ← deref (body s);
    content_buf ← sprintf_into (SMTP_SEND_DATA_HEAD_MAX_LENGTH + SMTP_SEND_DATA_MAX_LEN)
      (match attachments s with
       | [] => plain_content from to sub bod
       | _ => multipart_content from to sub bod
       end);
    _ ← smtp_write content_buf;
    _ ← smtp_send_attachment;
    step SMTP_CMD_BODY_FINISHED (str "250") (mret 0)).

Definition smtp_quit : M N Z :=
  step SMTP_CMD_QUIT (str "221") (_ ← smtp_close_connection; mret 0).

(** "if (phase() != 0) return -1;" in a state of the session. *)
Definition phase (st : smtp_session_state) (run next : M N Z) : M N Z :=
  _ ← modify (set_state st);
  r ← run;
  if negb (r =? 0) then mret (-1) else next.

Definition smtp_send : M N Z :=
  phase SMTP_NULL smtp_connect_server (
  phase SMTP_HELO smtp_handshake (
  phase SMTP_AUTH_LOGIN smtp_auth_login (
  phase SMTP_MAIL smtp_set_sender_receiver (
  phase SMTP_DATA smtp_send_content (
  phase SMTP_QUIT smtp_quit (mret 0)))))).

Definition smtp_send_mail (sub bod : option (list Z)) : M N Z :=
  match sub with
  | None => mret (-1)
  | Some _ =>
      s ← get_session;
      _ ← modify (set_mail sub (body s));
      match bod with
      | None => mret (-1)
      | Some _ => _ ← modify (set_mail sub bod); smtp_send
      end
  end.

End Client.

(** ** Sessions that are safe to send

    The sizes the fixed buffers can take. *)
Definition terminated (b : list Z) (n : Z) : Prop :=
  exists t, buf_cstr b = Some t /\ zlen t <= n.

Definition ctext (b : list Z) : list Z := default [] (buf_cstr b).

Definition mail_content (s : smtp_session_t) : list Z :=
  let from := ctext (address_from s) in
  let to := default [] (head (address_to s)) in
  let sub := default [] (subject s) in
  let bod := default [] (body s) in
  match attachments s with
  | [] => plain_content from to sub bod
  | _ => multipart_content from to sub bod
  end.

Record session_ok (s : smtp_session_t) : Prop := {
  ok_port : exists p, server_port s = Some p /\ atoi p = 25;
  ok_username : terminated (username s) 99;
  ok_password : terminated (password s) 99;
  ok_from : terminated (address_from s) 99;
  ok_to : address_to s <> [] /\ Forall (fun a => zlen a <= 101) (address_to s);
  ok_subject : is_Some (subject s);
  ok_body : is_Some (body s);
  ok_content : zlen (mail_content s) <= 767;
  ok_attachments : Forall (fun a => is_Some (buf_cstr a.1) /\
    exists n, buf_cstr a.2 = Some n /\ zlen (attachment_head n) <= 511) (attachments s)
}.

(** ** The dialogue

    What the client has to write, command by command; [Raw] data is not
    answered by the server. *)
Inductive item :=
| Cmd (buf response_code : list Z)
| Raw (buf : list Z).

Definition item_data (i : item) : list Z := match i with Cmd b _ => b | Raw b => b end.

Definition writes (fd : Z) (l : list item) : list event := map (fun i => EWrite fd (item_data i)) l.

(** The chunks of a file. *)
Fixpoint file_chunks (fuel : nat) (data : list Z) : list item :=
  match fuel with
  | O => []
  | S fuel =>
      let chunk := take 512 data in
      Raw chunk :: if zlen chunk =? 512 then file_chunks fuel (drop 512 data) else []
  end.

Section Dialogue.
Context (files : list Z -> option (list Z)).

Fixpoint attachment_items (l : list (list Z * list Z)) (cnt : Z) : list item * Z :=
  match l with
  | [] => ([], cnt)
  | (p, n) :: l =>
      match files (ctext p) with
      | None => attachment_items l cnt
      | Some data =>
          if cnt <? SMTP_MAX_ATTACHMENTS then
            let '(its, c) := attachment_items l (cnt + 1) in
            (Raw (attachment_head (ctext n)) :: file_chunks (S (length data)) data
               ++ Raw (CRLF ++ CRLF) :: its, c)
          else ([], cnt)
      end
  end.

Definition all_attachments (l : list (list Z * list Z)) : list item :=
  let '(its, c) := attachment_items l 0 in
  its ++ if 0 <? c then [Raw (str "--" ++ SMTP_MAIL_BOUNDARY ++ str "--" ++ CRLF)] else [].

Definition login_items (s : smtp_session_t) : list item :=
  [Cmd SMTP_CMD_AUTHLOGIN (str "334"); Cmd (ctext (username s) ++ CRLF) (str "334");
   Cmd (ctext (password s) ++ CRLF) (str "235")].

Definition envelope_items (s : smtp_session_t) : list item :=
  Cmd (SMTP_CMD_MAIL_HEAD ++ ctext (address_from s) ++ SMTP_CMD_MAIL_END) (str "250")
  :: map (fun a => Cmd (SMTP_CMD_RCPT_HEAD ++ a ++ SMTP_CMD_RCPT_END) (str "250")) (address_to s).

Definition content_items (s : smtp_session_t) : list item :=
  Cmd SMTP_CMD_DATA (str "354") :: Raw (mail_content s) :: all_attachments (attachments s)
  ++ [Cmd SMTP_CMD_BODY_FINISHED (str "250")].

Definition dialogue (s : smtp_session_t) : list item :=
  login_items s ++ envelope_items s ++ content_items s ++ [Cmd SMTP_CMD_QUIT (str "221")].

(** The data of the chunks is the file. *)
Lemma file_chunks_data fuel data : (length data < fuel)%nat ->
  concat (map item_data (file_chunks fuel data)) = data.
Proof.
  revert data. induction fuel as [|fuel IH]; intros data Hf; [lia|].
  cbn [file_chunks map concat item_data]. destruct (Z.eqb_spec (zlen (take 512 data)) 512) as [E|E].
  - rewrite IH; [apply take_drop|]. unfold zlen in E. rewrite length_take in E.
    rewrite length_drop. lia.
  - cbn [map concat]. rewrite app_nil_r. apply take_ge. unfold zlen in E.
    rewrite length_take in E. lia.
Qed.

Context {N A : Type} (ops : net_ops N A).
Hypothesis Hfiles : forall n p, fs_open ops n p = files p.

(** ** Running a part of the dialogue

    [runs e its fin]: from any world with the session [s], [e] returns; either
    0, with the items written and then the events [fin], or -1, with a
    response failing at some command, after which the connection is closed
    twice. *)
Section Runs.
Context (s : smtp_session_t).
Hypothesis Hport : exists p, server_port s = Some p /\ atoi p = 25.
Hypothesis Hfd : conn_fd s <> 0.

Abbreviation fd := (conn_fd s).

Definition failed_at (its : list item) (ev : list event) : Prop :=
  exists pre b c post, its = pre ++ Cmd b c :: post /\
    ev = writes fd (pre ++ [Cmd b c]) ++ [EClose fd; EClose fd].

Definition runs (e : M N Z) (its : list item) (fin : list event) : Prop :=
  forall w, sess w = s -> exists r w' ev, e w = Some (r, w') /\ sess w' = s /\
    log w' = log w ++ ev /\
    ((r = 0 /\ ev = writes fd its ++ fin) \/ (r = -1 /\ failed_at its ev)).

Lemma port_num (w : world N) : sess w = s -> server_port_num w = Some (25, w).
Proof.
  intros Hs. destruct Hport as (p & Hp & Ha).
  unfold server_port_num, get_session, mbind, M_bind. rewrite Hs, Hp. cbn. by rewrite Ha.
Qed.

Lemma close_run w : sess w = s -> exists r w', smtp_close_connection ops w = Some (r, w') /\
  sess w' = s /\ log w' = log w ++ [EClose fd].
Proof.
  intros Hs. unfold smtp_close_connection, mbind, M_bind. rewrite port_num by done.
  cbn. unfold get_session, do_close. rewrite Hs. destruct (net_close ops (net w) fd) as [r n'].
  eexists _, _. split; [reflexivity|]. done.
Qed.

Lemma flush_run w : sess w = s -> exists r w', smtp_flush ops w = Some (r, w') /\
  sess w' = s /\ log w' = log w.
Proof.
  intros Hs. unfold smtp_flush, mbind, M_bind. rewrite port_num by done.
  cbn. unfold get_session, do_read. rewrite Hs.
  destruct (net_read ops (net w) fd _) as [[r d] n']. eexists _, _. split; [reflexivity|]. done.
Qed.

Lemma write_run w d : sess w = s -> exists r w', smtp_write ops d w = Some (r, w') /\
  sess w' = s /\ log w' = log w ++ [EWrite fd d].
Proof.
  intros Hs. unfold smtp_write, mbind, M_bind. rewrite port_num by done.
  cbn. unfold get_session, do_write. rewrite Hs. destruct (net_write ops (net w) fd d) as [r n'].
  eexists _, _. split; [reflexivity|]. done.
Qed.

Lemma read_run w n : sess w = s -> exists r d w', smtp_read ops n w = Some ((r, d), w') /\
  sess w' = s /\ log w' = log w.
Proof.
  intros Hs. unfold smtp_read, mbind, M_bind. rewrite port_num by done.
  cbn. unfold get_session, do_read. rewrite Hs.
  destruct (net_read ops (net w) fd n) as [[r d] n']. eexists _, _, _. split; [reflexivity|]. done.
Qed.

Lemma check_run w b c : sess w = s -> exists r w',
  smtp_send_data_with_response_check ops b c w = Some (r, w') /\ sess w' = s /\
  ((r = 0 /\ log w' = log w ++ [EWrite fd b]) \/
   (r = -1 /\ log w' = log w ++ [EWrite fd b; EClose fd])).
Proof.
  intros Hs. unfold smtp_send_data_with_response_check. unfold mbind at 1, M_bind at 1.
  cbn [get_session]. rewrite Hs. destruct (Z.eqb_spec fd 0); [done|].
  unfold mbind, M_bind.
  destruct (flush_run w Hs) as (r1 & w1 & -> & S1 & L1).
  destruct (write_run w1 b S1) as (r2 & w2 & -> & S2 & L2). rewrite L1 in L2.
  destruct (close_run w2 S2) as (rc & wc & Ec & Sc & Lc). rewrite L2, <- app_assoc in Lc.
  destruct (negb (r2 =? zlen b)); [rewrite Ec; eexists _, _; split; [reflexivity|]; by eauto|].
  destruct (read_run w2 3 S2) as (r3 & d3 & w3 & -> & S3 & L3).
  destruct (close_run w3 S3) as (rd & wd & Ed & Sd & Ld). rewrite L3, L2, <- app_assoc in Ld.
  destruct (r3 <? 3); [rewrite Ed; eexists _, _; split; [reflexivity|]; by eauto|].
  case_match; [rewrite Ed; eexists _, _; split; [reflexivity|]; by eauto|].
  eexists _, _. split; [reflexivity|]. split; [done|]. left. by rewrite L3.
Qed.

(** Computations that only write. *)
Definition emits {B} (e : M N B) (its : list item) (P : B -> Prop) : Prop :=
  forall w, sess w = s -> exists x w', e w = Some (x, w') /\ sess w' = s /\
    log w' = log w ++ writes fd its /\ P x.

Lemma emits_bind {B C} (e : M N B) (k : B -> M N C) i1 i2 P Q :
  emits e i1 P -> (forall x, P x -> emits (k x) i2 Q) -> emits (e ≫= k) (i1 ++ i2) Q.
Proof.
  intros H1 H2 w Hs. unfold mbind, M_bind. destruct (H1 w Hs) as (x & w1 & -> & S1 & L1 & Px).
  destruct (H2 x Px w1 S1) as (y & w2 & -> & S2 & L2 & Qy). exists y, w2.
  split_and!; try done. rewrite L2, L1, <- app_assoc. unfold writes. by rewrite map_app.
Qed.

Lemma emits_ret {B} (x : B) (P : B -> Prop) : P x -> emits (mret x) [] P.
Proof. intros Px w Hs. exists x, w. split_and!; try done. by rewrite app_nil_r. Qed.

Lemma emits_write d : emits (smtp_write ops d) [Raw d] (fun _ => True).
Proof. intros w Hs. destruct (write_run w d Hs) as (r & w' & E & S & L). by exists r, w'. Qed.

Lemma emits_get : emits get_session [] (fun x => x = s).
Proof. intros w Hs. exists s, w. split_and!; try done; [by rewrite <- Hs|by rewrite app_nil_r]. Qed.

Lemma emits_deref {B} (o : option B) x : o = Some x -> emits (deref o) [] (fun y => y = x).
Proof. intros ->. by apply emits_ret. Qed.

Lemma emits_sprintf cap t : zlen t + 1 <= cap -> emits (sprintf_into cap t) [] (fun y => y = t).
Proof.
  intros H. unfold sprintf_into. destruct (Z.leb_spec (zlen t + 1) cap); [|lia].
  by apply emits_ret.
Qed.

Lemma emits_open p : emits (do_open ops p) [] (fun y => y = files p).
Proof.
  intros w Hs. eexists _, w. split_and!; [reflexivity|done|by rewrite app_nil_r|]. apply Hfiles.
Qed.

Lemma emits_file fuel data : (length data < fuel)%nat ->
  emits (send_file ops fuel data) (file_chunks fuel data) (fun _ => True).
Proof.
  revert data. induction fuel as [|fuel IH]; intros data Hf; [lia|].
  cbn [send_file file_chunks]. unfold SMTP_SEND_DATA_MAX_LEN.
  change (Z.to_nat 512) with 512%nat.
  destruct (Z.eqb_spec (zlen (take 512 data)) 512) as [E|E].
  - apply (emits_bind _ _ [Raw _] _ (fun _ => True)); [apply emits_write|]. intros _ _.
    apply IH. unfold zlen in E. rewrite length_take in E. rewrite length_drop. lia.
  - apply (emits_bind _ _ [Raw _] [] (fun _ => True)); [apply emits_write|]. intros _ _.
    by apply emits_ret.
Qed.

Lemma emits_attachments l cnt :
  Forall (fun a => is_Some (buf_cstr a.1) /\
    exists n, buf_cstr a.2 = Some n /\ zlen (attachment_head n) <= 511) l ->
  emits (attachment_loop ops l cnt) (fst (attachment_items l cnt))
    (fun c => c = snd (attachment_items l cnt)).
Proof.
  intros Hl. revert cnt. induction Hl as [|[p n] l [[tp Hp] (tn & Hn & Hlen)] Hl IH]; intros cnt;
    [by apply emits_ret|].
  cbn [attachment_loop attachment_items]. cbn [fst snd] in Hp, Hn.
  change (fst ?x) with ([] ++ ([] ++ fst x)).
  eapply emits_bind; [by apply emits_deref|]. intros ? ->.
  eapply emits_bind; [apply emits_open|]. intros ? ->.
  replace (ctext p) with tp by (unfold ctext; by rewrite Hp).
  destruct (files tp) as [data|]; [|apply IH].
  destruct (cnt <? SMTP_MAX_ATTACHMENTS); [|by apply emits_ret].
  replace (ctext n) with tn by (unfold ctext; by rewrite Hn).
  specialize (IH (cnt + 1)). destruct (attachment_items l (cnt + 1)) as [its c].
  cbn [fst snd] in *.
  eapply (emits_bind _ _ [] (_ :: _)); [by apply emits_deref|]. intros ? ->.
  eapply (emits_bind _ _ [] (_ :: _)); [apply emits_sprintf; unfold SMTP_SEND_DATA_MAX_LEN; lia|].
  intros ? ->.
  apply (emits_bind _ _ [Raw _] _ (fun _ => True)); [apply emits_write|]. intros _ _.
  apply (emits_bind _ _ _ _ (fun _ => True)); [apply emits_file; lia|]. intros _ _.
  apply (emits_bind _ _ [Raw _] _ (fun _ => True)); [apply emits_write|]. intros _ _.
  apply IH.
Qed.

Lemma emits_all_attachments :
  Forall (fun a => is_Some (buf_cstr a.1) /\
    exists n, buf_cstr a.2 = Some n /\ zlen (attachment_head n) <= 511) (attachments s) ->
  emits (smtp_send_attachment ops) (all_attachments (attachments s)) (fun _ => True).
Proof.
  intros Hl. pose proof (emits_attachments (attachments s) 0 Hl) as H.
  unfold smtp_send_attachment, all_attachments.
  destruct (attachment_items (attachments s) 0) as [its c]. cbn [fst snd] in H.
  eapply (emits_bind _ _ []); [apply emits_get|]. intros ? ->.
  eapply emits_bind; [exact H|]. intros ? ->.
  destruct (0 <? c); [|by apply emits_ret].
  apply (emits_bind _ _ [Raw _] [] (fun _ => True)); [apply emits_write|]. intros _ _.
  by apply emits_ret.
Qed.

(** *** Commands *)
Lemma failed_cons i its ev : failed_at its ev -> failed_at (i :: its) (writes fd [i] ++ ev).
Proof.
  intros (pre & b & c & post & -> & ->). exists (i :: pre), b, c, post. split; [done|].
  by rewrite app_assoc.
Qed.

Lemma failed_app i1 its ev : failed_at its ev -> failed_at (i1 ++ its) (writes fd i1 ++ ev).
Proof.
  intros H. induction i1 as [|i i1 IH]; [done|]. apply (failed_cons i) in IH. done.
Qed.

Lemma failed_app_r its i2 ev : failed_at its ev -> failed_at (its ++ i2) ev.
Proof.
  intros (pre & b & c & post & -> & ->). exists pre, b, c, (post ++ i2).
  by rewrite <- app_assoc.
Qed.

Lemma runs_step b c next its fin :
  runs next its fin -> runs (step ops b c next) (Cmd b c :: its) fin.
Proof.
  intros Hn w Hs. unfold step, mbind, M_bind.
  destruct (check_run w b c Hs) as (r & w1 & -> & S1 & [[-> L1]|[-> L1]]); cbn [negb Z.eqb].
  - destruct (Hn w1 S1) as (r2 & w2 & ev & -> & S2 & L2 & Hev). rewrite L1, <- app_assoc in L2.
    exists r2, w2, ([EWrite fd b] ++ ev). split_and!; [done..|].
    destruct Hev as [[-> ->]|[-> Hf]]; [left; done|right; split; [done|]].
    by apply (failed_cons (Cmd b c)) in Hf.
  - destruct (close_run w1 S1) as (rc & w2 & -> & S2 & L2). rewrite L1, <- app_assoc in L2.
    eexists _, _, _. split_and!; [reflexivity|done|exact L2|]. right. split; [done|].
    exists [], b, c, its. done.
Qed.

Lemma runs_emits {B} (e : M N B) (k : B -> M N Z) i1 i2 P fin :
  emits e i1 P -> (forall x, P x -> runs (k x) i2 fin) -> runs (e ≫= k) (i1 ++ i2) fin.
Proof.
  intros H1 H2 w Hs. unfold mbind, M_bind. destruct (H1 w Hs) as (x & w1 & -> & S1 & L1 & Px).
  destruct (H2 x Px w1 S1) as (r & w2 & ev & -> & S2 & L2 & Hev).
  exists r, w2, (writes fd i1 ++ ev). rewrite L1, <- app_assoc in L2. split_and!; [done..|].
  destruct Hev as [[-> ->]|[-> Hf]].
  - left. split; [done|]. unfold writes. by rewrite map_app, app_assoc.
  - right. split; [done|]. by apply failed_app.
Qed.

Lemma runs_ret : runs (mret 0) [] [].
Proof. intros w Hs. exists 0, w, []. split_and!; try done; [by rewrite app_nil_r|by left]. Qed.

(** *** The phases *)
Lemma runs_login : terminated (username s) 99 -> terminated (password s) 99 ->
  runs (smtp_auth_login ops) (login_items s) [].
Proof.
  intros (u & Hu & Hul) (p & Hp & Hpl). unfold smtp_auth_login, login_items, ctext.
  rewrite Hu, Hp. cbn [default from_option id]. apply runs_step.
  eapply (runs_emits _ _ []); [apply emits_get|]. intros ? ->.
  eapply (runs_emits _ _ []); [by apply emits_deref|]. intros ? ->.
  eapply (runs_emits _ _ []).
  { apply emits_sprintf. rewrite zlen_app. change (zlen CRLF) with 2.
    unfold SMTP_MAX_AUTH_LEN. lia. }
  intros ? ->. apply runs_step.
  eapply (runs_emits _ _ []); [apply emits_get|]. intros ? ->.
  eapply (runs_emits _ _ []); [by apply emits_deref|]. intros ? ->.
  eapply (runs_emits _ _ []).
  { apply emits_sprintf. rewrite zlen_app. change (zlen CRLF) with 2.
    unfold SMTP_MAX_AUTH_LEN. lia. }
  intros ? ->. apply runs_step, runs_ret.
Qed.

Lemma runs_rcpt l : Forall (fun a => zlen a <= 101) l ->
  runs (rcpt_loop ops 115 l)
    (map (fun a => Cmd (SMTP_CMD_RCPT_HEAD ++ a ++ SMTP_CMD_RCPT_END) (str "250")) l) [].
Proof.
  induction 1 as [|a l Ha Hl IH]; [apply runs_ret|]. cbn [rcpt_loop map].
  eapply (runs_emits _ _ []).
  { apply emits_sprintf. rewrite !zlen_app. change (zlen SMTP_CMD_RCPT_HEAD) with 10.
    change (zlen SMTP_CMD_RCPT_END) with 3. lia. }
  intros ? ->. by apply runs_step.
Qed.

Lemma runs_envelope : terminated (address_from s) 99 ->
  Forall (fun a => zlen a <= 101) (address_to s) ->
  runs (smtp_set_sender_receiver ops) (envelope_items s) [].
Proof.
  intros (f & Hf & Hfl) Hto. unfold smtp_set_sender_receiver, envelope_items, ctext.
  rewrite Hf. cbn [default from_option id]. cbv zeta.
  match goal with |- context [if ?b then ?x else ?y] =>
    change (if b then x else y) with 115 end.
  eapply (runs_emits _ _ []); [apply emits_get|]. intros ? ->.
  eapply (runs_emits _ _ []); [by apply emits_deref|]. intros ? ->.
  eapply (runs_emits _ _ []).
  { apply emits_sprintf. rewrite !zlen_app. change (zlen SMTP_CMD_MAIL_HEAD) with 12.
    change (zlen SMTP_CMD_MAIL_END) with 3. lia. }
  intros ? ->. by apply runs_step, runs_rcpt.
Qed.

Lemma runs_content : session_ok s -> runs (smtp_send_content ops) (content_items s) [].
Proof.
  intros [_ _ _ (f & Hf & _) [Hne _] [sub Hsub] [bod Hbod] Hlen Hatt].
  unfold smtp_send_content, content_items. apply runs_step.
  destruct (address_to s) as [|to rest] eqn:Eto; [done|].
  eapply (runs_emits _ _ []); [apply emits_get|]. intros ? ->.
  eapply (runs_emits _ _ []); [by apply emits_deref|]. intros ? ->.
  eapply (runs_emits _ _ []); [by apply emits_deref; rewrite Eto|]. intros ? ->.
  eapply (runs_emits _ _ []); [by apply emits_deref|]. intros ? ->.
  eapply (runs_emits _ _ []); [by apply emits_deref|]. intros ? ->.
  assert (mail_content s = match attachments s with
    | [] => plain_content f to sub bod | _ => multipart_content f to sub bod end) as Em
    by (unfold mail_content, ctext; by rewrite Hf, Eto, Hsub, Hbod).
  rewrite <- Em. eapply (runs_emits _ _ []).
  { apply emits_sprintf. unfold SMTP_SEND_DATA_HEAD_MAX_LENGTH, SMTP_SEND_DATA_MAX_LEN. lia. }
  intros ? ->.
  apply (runs_emits _ _ [Raw _] _ (fun _ => True)); [apply emits_write|]. intros _ _.
  apply (runs_emits _ _ _ _ (fun _ => True)); [by apply emits_all_attachments|]. intros _ _.
  apply runs_step, runs_ret.
Qed.

Lemma runs_quit : runs (smtp_quit ops) [Cmd SMTP_CMD_QUIT (str "221")] [EClose fd].
Proof.
  apply runs_step. intros w Hs. unfold mbind, M_bind.
  destruct (close_run w Hs) as (r & w1 & -> & S1 & L1). eexists _, _, _.
  split_and!; [reflexivity|done|exact L1|]. by left.
Qed.

End Runs.

(** ** Chaining the phases: only the phase variable of the session changes *)
Definition talks (s : smtp_session_t) (e : M N Z) (its : list item) (fin : list event) : Prop :=
  forall w x, sess w = set_state x s -> exists r w' ev y, e w = Some (r, w') /\
    sess w' = set_state y s /\ log w' = log w ++ ev /\
    ((r = 0 /\ ev = writes (conn_fd s) its ++ fin) \/ (r = -1 /\ failed_at s its ev)).

Lemma talks_ret s : talks s (mret 0) [] [].
Proof.
  intros w x Hs. exists 0, w, [], x. split_and!; try done; [by rewrite app_nil_r|by left].
Qed.

Lemma talks_phase s st run next i1 fin1 i2 fin :
  runs (set_state st s) run i1 fin1 -> talks s next i2 fin ->
  fin1 = [] \/ i2 = [] ->
  talks s (phase st run next) (i1 ++ i2) (fin1 ++ fin).
Proof.
  intros Hr Hn Hend w x Hs. unfold phase, mbind, M_bind. cbn [modify].
  destruct (Hr (World (set_state st (sess w)) (net w) (log w))) as (r & w1 & ev & -> & S1 & L1 & H1);
    [cbn; by rewrite Hs|]. cbn [log] in L1.
  destruct H1 as [[-> ->]|[-> Hf]]; cbn [negb Z.eqb].
  - destruct (Hn w1 st S1) as (r2 & w2 & ev2 & y & -> & S2 & L2 & H2). rewrite L1, <- app_assoc in L2.
    eexists r2, w2, _, y. split_and!; [done|done|exact L2|].
    change (conn_fd (set_state st s)) with (conn_fd s).
    destruct H2 as [[-> ->]|[-> Hf]].
    + left. split; [done|]. unfold writes. rewrite map_app.
      destruct Hend as [->| ->]; cbn [app map]; rewrite ?app_nil_r, <- ?app_assoc; done.
    + right. split; [done|]. destruct Hend as [->| ->]; [|by destruct Hf as ([|] & ? & ? & ? & ? & ?)].
      rewrite app_nil_r. by apply failed_app.
  - eexists (-1), w1, ev, st. split_and!; [done|done|done|]. right. split; [done|].
    by apply failed_app_r.
Qed.

Lemma ok_set_state x s : session_ok s -> session_ok (set_state x s).
Proof. intros []. by split. Qed.

Lemma ok_set_fd x s : session_ok s -> session_ok (set_conn_fd x s).
Proof. intros []. by split. Qed.

(** Everything after the greeting. *)
Lemma talks_session s : session_ok s -> conn_fd s <> 0 ->
  talks s (phase SMTP_AUTH_LOGIN (smtp_auth_login ops) (
           phase SMTP_MAIL (smtp_set_sender_receiver ops) (
           phase SMTP_DATA (smtp_send_content ops) (
           phase SMTP_QUIT (smtp_quit ops) (mret 0))))) (dialogue s) [EClose (conn_fd s)].
Proof.
  intros Hok Hfd. pose proof Hok as [Hport Hu Hp Hf [_ Hto] _ _ _ _]. unfold dialogue.
  apply (talks_phase s SMTP_AUTH_LOGIN _ _ _ []); [by apply (runs_login (set_state SMTP_AUTH_LOGIN s))| |by left].
  apply (talks_phase s SMTP_MAIL _ _ _ []); [by apply (runs_envelope (set_state SMTP_MAIL s))| |by left].
  apply (talks_phase s SMTP_DATA _ _ (content_items s) []);
    [apply (runs_content (set_state SMTP_DATA s)); [done|done|by apply ok_set_state]| |by left].
  apply (talks_phase s SMTP_QUIT _ _ [_] [EClose (conn_fd s)] [] []);
    [by apply (runs_quit (set_state SMTP_QUIT s))|apply talks_ret|by right].
Qed.

(** ** Connecting *)
Definition no_writes (ev : list event) : Prop :=
  Forall (fun e => match e with EClose _ => True | EWrite _ _ => False end) ev.

Lemma connect_loop_run l w res : (exists p, server_port (sess w) = Some p /\ atoi p = 25) ->
  res = -1 ->
  exists r w' ev x, connect_loop ops l res w = Some (r, w') /\
    sess w' = set_conn_fd x (sess w) /\ log w' = log w ++ ev /\ no_writes ev /\ (r = 0 \/ r = -1).
Proof.
  intros Hport ->. revert w Hport. induction l as [|a l IH]; intros w Hport; cbn [connect_loop].
  { exists (-1), w, [], (conn_fd (sess w)). rewrite app_nil_r.
    split_and!; [done|by destruct (sess w)|done|constructor|by right]. }
  unfold mbind, M_bind, do_socket. destruct (net_socket ops (net w) a) as [x n1].
  cbn [modify sess net log].
  set (s1 := set_conn_fd x (sess w)).
  assert (exists p, server_port s1 = Some p /\ atoi p = 25) as Hport1 by done.
  assert (forall w2, sess w2 = s1 -> log w2 = log w ->
    exists r w' ev y, connect_loop ops l (-1) w2 = Some (r, w') /\
    sess w' = set_conn_fd y (sess w) /\ log w' = log w ++ ev /\ no_writes ev /\
    (r = 0 \/ r = -1)) as Hnext0.
  { intros w2 S2 L2. destruct (IH w2) as (r & w' & ev & y & E & S & L & Hn & Hr);
      [by rewrite S2|]. exists r, w', ev, y. rewrite S2, L2 in *. by split_and!. }
  destruct (x <? 0); [by apply Hnext0|]. unfold do_connect. cbn [net log sess].
  destruct (net_connect ops n1 x a) as [c n2]. cbn [sess net log].
  assert (forall w3, sess w3 = s1 -> log w3 = log w -> exists rc w4,
    smtp_close_connection ops w3 = Some (rc, w4) /\ sess w4 = s1 /\ log w4 = log w ++ [EClose x])
    as Hclose.
  { intros w3 S3 L3. destruct (close_run s1 Hport1 w3 S3) as (rc & w4 & E4 & S4 & L4).
    exists rc, w4. rewrite L3 in L4. done. }
  destruct (c =? 0).
  - unfold do_read. cbn [net log sess]. destruct (net_read ops n2 x 3) as [[r d] n3].
    destruct (Hclose (World s1 n3 (log w)) eq_refl eq_refl) as (rc & w4 & E4 & S4 & L4).
    destruct (r <? 3); [|destruct (bool_decide (d = str "220"))].
    + rewrite E4. exists (-1), w4, [EClose x], x. split_and!; try done; [by repeat constructor|by right].
    + exists 0, (World s1 n3 (log w)), [], x. rewrite app_nil_r. split_and!; try done; [constructor|by left].
    + rewrite E4. exists (-1), w4, [EClose x], x. split_and!; try done; [by repeat constructor|by right].
  - destruct (Hclose (World s1 n2 (log w)) eq_refl eq_refl) as (rc & w4 & -> & S4 & L4).
    destruct (IH w4) as (r & w' & ev & y & E & S & L & Hn & Hr); [by rewrite S4|].
    exists r, w', ([EClose x] ++ ev), y. rewrite S4, L4, <- app_assoc in *.
    split_and!; try done. apply Forall_app. split; [by repeat constructor|done].
Qed.

Lemma connect_run w : session_ok (sess w) ->
  exists r w' ev x, smtp_connect_server ops w = Some (r, w') /\
    sess w' = set_conn_fd x (sess w) /\ log w' = log w ++ ev /\ no_writes ev /\ (r = 0 \/ r = -1).
Proof.
  intros [Hport _ _ _ _ _ _ _ _].
  assert (exists r w' ev x, Some (-1, w) = Some (r, w') /\
    sess w' = set_conn_fd x (sess w) /\ log w' = log w ++ ev /\ no_writes ev /\
    (r = 0 \/ r = -1)) as Hfail.
  { exists (-1), w, [], (conn_fd (sess w)). rewrite app_nil_r.
    split_and!; [done|by destruct (sess w)|done|constructor|by right]. }
  unfold smtp_connect_server, mbind, M_bind. rewrite (port_num (sess w)) by done.
  cbn [Z.eqb Pos.eqb get_session]. destruct (server_ip (sess w)); [done|].
  destruct (server_domain (sess w)) as [dom|] eqn:Ed; [|done].
  unfold smtp_connect_server_by_hostname, mbind, M_bind. cbn [get_session].
  destruct Hport as (p & Hp & Ha). rewrite Ed, Hp. cbn.
  destruct (net_getaddrinfo ops (net w) dom p) as [l|]; [|done].
  apply connect_loop_run; [by exists p|done].
Qed.


End Dialogue.

(** ** Credentials *)
Lemma char_array_ok n t : zlen t <= n ->
  char_array n t = Some (t ++ replicate (Z.to_nat n - length t) 0).
Proof.
  intros H. unfold char_array. rewrite buf_write_some;
    [|lia|rewrite zlen_replicate; pose proof (zlen_nonneg t); lia].
  rewrite take_0, drop_replicate. cbn [app]. do 3 f_equal.
Qed.

Lemma no_nul_cstr t : cstring t -> buf_cstr t = None.
Proof.
  induction 1 as [|c t Hc Ht IH]; [done|]. simpl. unfold is_cchar in Hc. case_bool.
  by rewrite IH.
Qed.

Lemma encode_zeros t : bytes t -> zlen t <= 75 ->
  Smtp.smtp_base64_encode (replicate 100 0) 100 t
    = Some (zlen (Wifi.encode_chars t),
            Wifi.encode_chars t ++ replicate (100 - length (Wifi.encode_chars t)) 0).
Proof.
  intros Hb Hl. pose proof (zlen_nonneg t).
  rewrite Smtp.smtp_encode_run by (done || lia || (rewrite zlen_replicate; lia)). cbv zeta.
  rewrite Wifi.encode_chars_length.
  destruct (Z.ltb_spec 100 (4 * ((zlen t + 2) / 3))); [zify_divmod|].
  by rewrite drop_replicate.
Qed.

Lemma cstring_bytes t : cstring t -> bytes t.
Proof. intros Ht. eapply Forall_impl; [exact Ht|]. unfold is_cchar, is_byte. lia. Qed.

(** Accepted credentials: what is stored. *)
Lemma set_auth_run user pass s :
  cstring user -> cstring pass -> 0 < zlen user <= 75 -> 0 < zlen pass <= 75 ->
  let stored t := Wifi.encode_chars t ++ replicate (100 - length (Wifi.encode_chars t)) 0 in
  smtp_set_auth user pass s
  = Some (0, set_auth (stored user) (stored pass) (user ++ replicate (100 - length user) 0) s).
Proof.
  intros Hu Hp Hlu Hlp stored. unfold smtp_set_auth, SMTP_MAX_ADDR_LEN, SMTP_MAX_AUTH_LEN.
  change (Z.to_nat (50 * 2)) with 100%nat. change (50 * 2) with 100.
  destruct (Z.eqb_spec (zlen user) 0); [lia|]. destruct (Z.eqb_spec (zlen pass) 0); [lia|].
  cbn [orb]. destruct (Z.ltb_spec 100 (zlen user)); [lia|].
  rewrite char_array_ok by lia. cbn [mbind option_bind].
  rewrite !encode_zeros by (lia || by apply cstring_bytes). cbn [mbind option_bind].
  pose proof (Wifi.encode_chars_length user). pose proof (Wifi.encode_chars_length pass).
  destruct (Z.eqb_spec (zlen (Wifi.encode_chars user)) 0); [zify_divmod|].
  cbn [mbind option_bind]. by destruct (Z.eqb_spec (zlen (Wifi.encode_chars pass)) 0); [zify_divmod|].
Qed.

(** A short text leaves room for its terminator and decodes. *)
Lemma stored_decodes t : cstring t -> 0 < zlen t <= 72 ->
  buf_cstr (Wifi.encode_chars t ++ replicate (100 - length (Wifi.encode_chars t)) 0)
    = Some (Wifi.encode_chars t) /\
  Wifi.str_base64_decode (Wifi.encode_chars t) = Some (zlen t, t).
Proof.
  intros Ht Hl. pose proof (Wifi.encode_chars_length t).
  assert (length (Wifi.encode_chars t) < 100)%nat by (unfold zlen in *; zify_divmod).
  replace (100 - length (Wifi.encode_chars t))%nat
    with (S (99 - length (Wifi.encode_chars t))) by lia.
  split.
  - apply buf_cstr_app. by apply Wifi.encode_chars_cstring, cstring_bytes.
  - apply Wifi.decode_encode; [by apply cstring_bytes|]. intros ->. by destruct Hl.
Qed.

(** Credentials of 1 to 75 characters are accepted and the buffers hold
    their base64 text, which decodes to them again; but only up to 72
    characters does the text leave room for its terminator: from 73 to 75 the
    buffer is not a C string, although 0 is returned.  A longer user name is
    refused. *)
Theorem smtp_set_auth_spec (user pass : list Z) (s : smtp_session_t) :
  cstring user -> cstring pass -> 0 < zlen user -> 0 < zlen pass ->
  (75 < zlen user -> exists s', smtp_set_auth user pass s = Some (-1, s')) /\
  (zlen user <= 75 -> zlen pass <= 75 ->
   exists s', smtp_set_auth user pass s = Some (0, s') /\
     (zlen user <= 72 -> exists u, buf_cstr (username s') = Some u /\
        Wifi.str_base64_decode u = Some (zlen user, user)) /\
     (72 < zlen user -> buf_cstr (username s') = None)).
Proof.
  intros Hu Hp Hlu Hlp. split.
  - intros Hlong. unfold smtp_set_auth, SMTP_MAX_ADDR_LEN, SMTP_MAX_AUTH_LEN.
    change (Z.to_nat (50 * 2)) with 100%nat. change (50 * 2) with 100.
    destruct (Z.eqb_spec (zlen user) 0); [lia|]. destruct (Z.eqb_spec (zlen pass) 0); [lia|].
    cbn [orb]. destruct (Z.ltb_spec 100 (zlen user)); [by eexists|].
    rewrite char_array_ok by lia. cbn [mbind option_bind].
    rewrite (Smtp.smtp_encode_run _ _ user); [|by apply cstring_bytes|lia|by_decide]. cbv zeta.
    rewrite Wifi.encode_chars_length.
    destruct (Z.ltb_spec 100 (4 * ((zlen user + 2) / 3))); [|zify_divmod].
    cbn [mbind option_bind]. by eexists.
  - intros Hlu' Hlp'. rewrite set_auth_run by (done || lia). eexists. split; [reflexivity|].
    cbn [username set_auth]. split.
    + intros H72. exists (Wifi.encode_chars user). by apply stored_decodes; [|lia].
    + intros H72. pose proof (Wifi.encode_chars_length user).
      assert (length (Wifi.encode_chars user) = 100)%nat as ->
        by (unfold zlen in *; zify_divmod).
      rewrite app_nil_r. by apply no_nul_cstr, Wifi.encode_chars_cstring, cstring_bytes.
Qed.

(** ** Receivers *)
Lemma addr_matches_prefix a r : cstring r ->
  addr_matches a r = true <-> r `prefix_of` a.
Proof.
  intros Hr. unfold addr_matches. rewrite bool_decide_eq_true. split.
  - revert a. induction Hr as [|c r Hc Hr IH]; intros a; [intros _; apply prefix_nil|].
    destruct a as [|x a]; simpl.
    + intros [= E _]. unfold is_cchar in Hc. lia.
    + intros [= -> E]. apply prefix_cons, IH, E.
  - intros [k ->]. rewrite <- app_assoc. by rewrite take_app_length.
Qed.

Lemma remove_first_spec pre a post r : cstring r ->
  Forall (fun x => ~ r `prefix_of` x) pre -> r `prefix_of` a ->
  remove_first (pre ++ a :: post) r = Some (pre ++ post).
Proof.
  intros Hr Hpre Ha. induction Hpre as [|x pre Hx Hpre IH]; cbn [remove_first app].
  - by rewrite (proj2 (addr_matches_prefix a r Hr) Ha).
  - destruct (addr_matches x r) eqn:E; [by apply addr_matches_prefix in E|]. by rewrite IH.
Qed.

(** Adding a receiver appends it.  Deleting removes the first receiver
    whose address begins with the given text, not the one that equals it: a
    shorter text deletes another address, and an added receiver is the one
    deleted only if no earlier address begins with it. *)
Theorem smtp_receivers_spec (s : smtp_session_t) (r a : list Z) (pre post : list (list Z)) :
  cstring r -> address_to s = pre ++ a :: post ->
  Forall (fun x => ~ r `prefix_of` x) pre -> r `prefix_of` a ->
  smtp_delete_receiver r s = (0, set_receivers (pre ++ post) s) /\
  exists s', smtp_add_receiver true true (Some r) s = Some (0, s') /\
    address_to s' = address_to s ++ [r] /\
    smtp_delete_receiver r s' = (0, set_receivers (pre ++ post ++ [r]) s').
Proof.
  intros Hr Hs Hpre Ha. unfold smtp_delete_receiver. rewrite Hs, remove_first_spec by done.
  split; [done|]. eexists. split; [reflexivity|]. cbn [address_to set_receivers].
  split; [by rewrite Hs|]. rewrite Hs, <- app_assoc. cbn [app].
  by rewrite remove_first_spec.
Qed.

(** ** Concrete inputs *)
Definition sample_session : smtp_session_t :=
  Session SMTP_NULL (Some (str "smtp.example.com")) None (Some (str "25"))
    (str "YWRtaW4=" ++ replicate 92 0) (str "c2VjcmV0" ++ replicate 92 0)
    (str "admin" ++ replicate 95 0) [str "bob@example.com"; str "bo"] (Some (str "alarm"))
    (Some (str "too hot")) 0 [].

(** A server that answers every read with the next prepared text. *)
Definition script_net : net_ops (list (list Z)) unit := {|
  net_getaddrinfo _ _ _ := Some [tt];
  net_socket n _ := (3, n);
  net_connect n _ _ := (0, n);
  net_read n _ _ := match n with d :: n => (zlen d, d, n) | [] => (-1, [], []) end;
  net_write n _ d := (zlen d, n);
  net_close n _ := (0, n);
  fs_open _ _ := None
|}.

(** One flush and one response per command. *)
Definition sample_script : list (list Z) :=
  str "220" :: concat (map (fun c => [[32]; str c])
    ["250"; "334"; "334"; "235"; "250"; "250"; "250"; "354"; "250"; "221"]%string).

Lemma sample_session_ok : session_ok sample_session.
Proof.
  split; cbn [sample_session server_port username password address_from address_to subject body
    attachments].
  - by exists (str "25").
  - by eexists.
  - by eexists.
  - by eexists.
  - split; [done|]. repeat constructor; by_decide.
  - by eexists.
  - by eexists.
  - by_decide.
  - constructor.
Defined.


Lemma smtp_set_auth_spec_witness : exists s',
  smtp_set_auth (replicate 74 65) (str "secret") smtp_client_init = Some (0, s') /\
  buf_cstr (username s') = None.
Proof.
  destruct (smtp_set_auth_spec (replicate 74 65) (str "secret") smtp_client_init) as [_ H];
    [by_decide|by_decide|by_decide|by_decide|].
  destruct H as (s' & E & _ & H); [by_decide|by_decide|].
  exists s'. split; [exact E|]. apply H. by_decide.
Defined.

Lemma smtp_receivers_spec_witness :
  smtp_delete_receiver (str "bo") sample_session
    = (0, set_receivers [str "bo"] sample_session).
Proof.
  apply (smtp_receivers_spec sample_session (str "bo") (str "bob@example.com") [] [str "bo"]);
    [by_decide|done|constructor|by_decide].
Defined.
