(* ===== verification/WebPath.v ===== *)
(** * Paths of uploaded files

    Models the path functions of src/module/web/web_utils.c:
    [_str_normalize_path], which rewrites a path in its own buffer, and
    [relative_path_2_absolute], which puts a prefix before a path and
    normalises the result.  The reference definition splits the path into
    names and resolves them on a stack; the theorems show that the in-place
    loops compute it, that a normalised path is a fixed point, where a
    relative path lands, and when the buffer is read out of bounds. *)

From S2P Require Import Prelude.

Local Open Scope Z_scope.

Definition MAX_FILENAME_LENGTH : Z := 128.

Abbreviation slash := 47 (only parsing).
Abbreviation dot := 46 (only parsing).

(** ** [_str_normalize_path]

    [src] and [dst] are offsets into the buffer.  A fuel of one more than the
    length of the buffer suffices for every loop. *)

(** [while ((c = *src) == '/' && c != 0) src++] *)
Fixpoint skip_slashes (fuel : nat) (buf : list Z) (src : Z) : option Z :=
  match fuel with
  | O => None
  | S fuel =>
      c ← buf_get buf src;
      if c =? slash then skip_slashes fuel buf (src + 1) else Some src
  end.

(** [while ((c = *src++) != 0 && c != '/') *dst++ = c]; the result holds the
    buffer, [src], [dst] and [c]. *)
Fixpoint copy_name (fuel : nat) (buf : list Z) (src dst : Z) : option (list Z * Z * Z * Z) :=
  match fuel with
  | O => None
  | S fuel =>
      c ← buf_get buf src;
      if (c =? 0) || (c =? slash) then Some (buf, src + 1, dst, c)
      else buf ← buf_set buf dst c; copy_name fuel buf (src + 1) (dst + 1)
  end.

(** [while (dst0 < dst && dst[-1] != '/') dst--] *)
Fixpoint back_up (fuel : nat) (buf : list Z) (dst : Z) : option Z :=
  match fuel with
  | O => None
  | S fuel =>
      if dst <=? 0 then Some dst
      else c ← buf_get buf (dst - 1);
           if c =? slash then Some dst else back_up fuel buf (dst - 1)
  end.

(** What the dots at [src] ask for, and where [src] goes. *)
Inductive dots :=
  | KeepName (src : Z)   (* go on with the copy *)
  | SkipName (src : Z)   (* the [./] case *)
  | UpOne (src : Z).     (* [goto up_one] *)

Definition read_dots (buf : list Z) (src : Z) : option dots :=
  let fuel := S (length buf) in
  c ← buf_get buf src;
  if negb (c =? dot) then Some (KeepName src) else
  c1 ← buf_get buf (src + 1);
  if c1 =? 0 then Some (KeepName (src + 1))
  else if c1 =? slash then SkipName <$> skip_slashes fuel buf (src + 2)
  else if c1 =? dot then
    c2 ← buf_get buf (src + 2);
    if c2 =? 0 then Some (UpOne (src + 2))
    else if c2 =? slash then UpOne <$> skip_slashes fuel buf (src + 3)
    else Some (KeepName src)
  else Some (KeepName src).

(** The main loop.  It ends with [(false, _, _)] for [return RT_NULL] and with
    [(true, buf, dst)] at [break]. *)
Fixpoint normalize_loop (fuel : nat) (buf : list Z) (src dst : Z)
  : option (bool * list Z * Z) :=
  match fuel with
  | O => None
  | S fuel =>
      let n := S (length buf) in
      d ← read_dots buf src;
      match d with
      | SkipName src => normalize_loop fuel buf src dst
      | KeepName src =>
          '(buf, src, dst, c) ← copy_name n buf src dst;
          if c =? slash then
            buf ← buf_set buf dst slash;
            src ← skip_slashes n buf src;
            normalize_loop fuel buf src (dst + 1)
          else Some (true, buf, dst)
      | UpOne src =>
          let dst := dst - 1 in
          if dst <? 0 then Some (false, buf, dst)
          else dst ← back_up n buf dst; normalize_loop fuel buf src dst
      end
  end.

(** The boolean is whether [fullpath] is returned rather than [RT_NULL]. *)
Definition _str_normalize_path (buf : list Z) : option (bool * list Z) :=
  '(ok, buf, dst) ← normalize_loop (S (length buf)) buf 0 0;
  if negb ok then Some (false, buf) else
  buf ← buf_set buf dst 0;
  let dst := dst - 1 in
  if dst =? 0 then Some (true, buf) else
  c ← buf_get buf dst;
  if c =? slash then buf ← buf_set buf dst 0; Some (true, buf) else Some (true, buf).

(** [relative_path_2_absolute] fills [path_to]; the strings are given by
    their characters, the buffer has [to_length] bytes. *)
Definition relative_path_2_absolute (path_from : list Z) (path_to : list Z)
    (absolute_prefix : list Z) : option (Z * list Z) :=
  let max_length := zlen path_from + zlen absolute_prefix + 1 + 1 in
  if zlen path_to <? max_length then Some (-1, path_to) else
  let path_to := replicate (length path_to) 0 in
  path_to ← buf_write path_to 0 (absolute_prefix ++ [slash] ++ path_from ++ [0]);
  '(_, path_to) ← _str_normalize_path path_to;
  Some (0, path_to).

(** ** Reference: names resolved on a stack *)
Fixpoint split_slash (s : list Z) : list (list Z) :=
  match s with
  | [] => [[]]
  | c :: s =>
      if c =? slash then [] :: split_slash s
      else match split_slash s with
           | n :: ns => (c :: n) :: ns
           | [] => [[c]]
           end
  end.

(** The names of a path; repeated slashes count once. *)
Definition names (s : list Z) : list (list Z) :=
  List.filter (fun n => negb (zlen n =? 0)) (split_slash s).

(** The stack holds the names resolved so far, the last first; the root is
    the empty name. *)
Fixpoint resolve (stack ns : list (list Z)) : option (list (list Z)) :=
  match ns with
  | [] => Some stack
  | n :: ns =>
      if bool_decide (n = [dot]) then resolve stack ns
      else if bool_decide (n = [dot; dot]) then
        match stack with
        | [] => None
        | _ :: stack => resolve stack ns
        end
      else resolve (n :: stack) ns
  end.

Definition root_of (s : list Z) : list (list Z) :=
  match s with
  | c :: _ => if c =? slash then [[]] else []
  | [] => []
  end.

Definition normal (s : list Z) : option (list (list Z)) := resolve (root_of s) (names s).

(** The text of a stack: every name closed by a slash, without the last. *)
Definition closed (stack : list (list Z)) : list Z :=
  concat (map (fun n => n ++ [slash]) (rev stack)).

Definition render (stack : list (list Z)) : list Z :=
  match stack with
  | [] => []
  | [[]] => [slash]
  | n :: stack => closed stack ++ n
  end.

(** ** Buffers as prefix, gap and rest *)
Definition no_slash (n : list Z) : Prop := Forall (fun c => c <> slash /\ c <> 0) n.

Definition opens (s : list Z) : Prop := forall c s', s = c :: s' -> c <> slash.

Lemma get_mid (p : list Z) c q : buf_get (p ++ c :: q) (zlen p) = Some c.
Proof.
  rewrite <- (Z.add_0_r (zlen p)), buf_get_app_r by lia. done.
Qed.

Lemma get_at (p : list Z) c q i : i = zlen p -> buf_get (p ++ c :: q) i = Some c.
Proof. intros ->. apply get_mid. Qed.

Lemma skip_slashes_spec k : forall fuel (p rest : list Z) c i,
  c <> slash -> (k < fuel)%nat -> i = zlen p ->
  skip_slashes fuel (p ++ replicate k slash ++ c :: rest) i = Some (zlen p + Z.of_nat k).
Proof.
  induction k as [|k IH]; intros [|fuel] p rest c i Hc Hf ->; [lia| |lia|]; cbn [skip_slashes].
  - cbn [replicate app]. rewrite get_mid. cbn [mbind option_bind]. case_bool. f_equal. lia.
  - cbn [replicate app]. rewrite get_mid. cbn [mbind option_bind].
    rewrite Z.eqb_refl.
    replace (p ++ slash :: replicate k slash ++ c :: rest)
      with ((p ++ [slash]) ++ replicate k slash ++ c :: rest) by by rewrite <- app_assoc.
    rewrite IH by (try rewrite zlen_app; try lia; try done).
    f_equal. rewrite zlen_app. unfold zlen. simpl. lia.
Qed.

(** The copy moves a name down by the width of the gap; the gap grows by the
    character that ended the name. *)
Lemma copy_name_spec n : forall fuel out gap c rest i,
  no_slash n -> c = 0 \/ c = slash -> (length n < fuel)%nat -> i = zlen (out ++ gap) ->
  exists gap', zlen gap' = zlen gap + 1 /\
  copy_name fuel (out ++ gap ++ n ++ c :: rest) i (zlen out)
  = Some ((out ++ n) ++ gap' ++ rest, i + zlen n + 1, zlen out + zlen n, c).
Proof.
  induction n as [|x n IH]; intros [|fuel] out gap c rest i Hn Hc Hf Hi;
    [simpl in Hf; lia| |simpl in Hf; lia|]; cbn [copy_name].
  - exists (gap ++ [c]). split; [by rewrite zlen_app|].
    cbn [app]. rewrite app_assoc, get_at by done. cbn [mbind option_bind].
    replace ((c =? 0) || (c =? slash)) with true by (destruct Hc as [-> | ->]; done).
    rewrite zlen_nil, !Z.add_0_r, app_nil_r, <- !app_assoc. done.
  - apply Forall_cons in Hn as [[Hx1 Hx2] Hn]. simpl in Hf.
    assert (Hg : buf_get (out ++ gap ++ (x :: n) ++ c :: rest) i = Some x).
    { rewrite app_assoc. cbn [app]. by apply get_at. }
    rewrite Hg. cbn [mbind option_bind].
    destruct (Z.eqb_spec x 0); [done|]. destruct (Z.eqb_spec x slash); [done|]. cbn [orb].
    destruct gap as [|g gap].
    + cbn [app]. rewrite buf_set_next. cbn [mbind option_bind].
      replace (zlen out + 1) with (zlen (out ++ [x])) by by rewrite zlen_app.
      destruct (IH fuel (out ++ [x]) [] c rest (i + 1)) as (gap' & Hg' & E);
        [done|done|lia|subst i; rewrite !zlen_app, zlen_nil; unfold zlen; simpl; lia|].
      exists gap'. split; [done|]. cbn [app] in E. rewrite E, <- !app_assoc. cbn [app].
      rewrite (zlen_app out), (zlen_cons x n). change (zlen [x]) with 1.
      replace (i + 1 + zlen n + 1) with (i + (1 + zlen n) + 1) by lia.
      by replace (zlen out + 1 + zlen n) with (zlen out + (1 + zlen n)) by lia.
    + cbn [app]. rewrite buf_set_next. cbn [mbind option_bind].
      replace (zlen out + 1) with (zlen (out ++ [x])) by by rewrite zlen_app.
      destruct (IH fuel (out ++ [x]) (gap ++ [x]) c rest (i + 1)) as (gap' & Hg' & E);
        [done|done|lia|subst i; rewrite !zlen_app, zlen_cons; unfold zlen; simpl; lia|].
      exists gap'. split; [rewrite Hg', zlen_app, !zlen_cons, zlen_nil; lia|].
      rewrite <- !app_assoc in E. cbn [app] in E. rewrite <- !app_assoc. cbn [app].
      rewrite E, (zlen_app out), (zlen_cons x n). change (zlen [x]) with 1.
      replace (i + 1 + zlen n + 1) with (i + (1 + zlen n) + 1) by lia.
      by replace (zlen out + 1 + zlen n) with (zlen out + (1 + zlen n)) by lia.
Qed.

Lemma closed_cons n st : closed (n :: st) = closed st ++ n ++ [slash].
Proof. unfold closed. simpl. rewrite map_app, concat_app. simpl. by rewrite app_nil_r. Qed.

(** Going up from the end of a name stops behind the name before it. *)
Lemma back_up_spec n : forall fuel st rest,
  no_slash n -> (length n < fuel)%nat ->
  back_up fuel (closed st ++ n ++ rest) (zlen (closed st ++ n)) = Some (zlen (closed st)).
Proof.
  induction n as [|x n IH] using rev_ind; intros [|fuel] st rest Hn Hf;
    [lia| |rewrite length_app in Hf; lia|]; cbn [back_up].
  - rewrite app_nil_r. cbn [app]. destruct st as [|m st]; [done|].
    destruct (Z.leb_spec (zlen (closed (m :: st))) 0) as [H|_].
    + rewrite closed_cons, !zlen_app in H. unfold zlen in H. simpl in H. lia.
    + replace (closed (m :: st) ++ rest) with ((closed st ++ m) ++ slash :: rest)
        by by rewrite closed_cons, <- !app_assoc.
      rewrite get_at by (rewrite closed_cons, app_assoc, (zlen_app (_ ++ _));
        unfold zlen; simpl; lia).
      cbn [mbind option_bind]. by rewrite Z.eqb_refl.
  - apply Forall_app in Hn as [Hn Hx]. apply Forall_cons in Hx as [[Hx _] _].
    rewrite length_app in Hf. simpl in Hf.
    destruct (Z.leb_spec (zlen (closed st ++ n ++ [x])) 0) as [H|_].
    { rewrite !zlen_app in H. unfold zlen in H. simpl in H. lia. }
    replace (zlen (closed st ++ n ++ [x]) - 1) with (zlen (closed st ++ n))
      by (rewrite !zlen_app; unfold zlen; simpl; lia).
    rewrite <- app_assoc. cbn [app].
    replace (closed st ++ n ++ x :: rest) with ((closed st ++ n) ++ x :: rest)
      by by rewrite <- app_assoc.
    rewrite get_mid. cbn [mbind option_bind]. destruct (Z.eqb_spec x slash); [done|].
    rewrite <- app_assoc. apply IH; [done|lia].
Qed.

(** ** Taking a path apart *)
Lemma split_slash_ne s : split_slash s <> [].
Proof. destruct s as [|c s]; [done|]. simpl. case_bool. by destruct (split_slash s). Qed.

Lemma split_slash_name n : no_slash n -> split_slash n = [n].
Proof.
  induction 1 as [|c n [Hc _] Hn IH]; [done|]. simpl. rewrite IH. by case_bool.
Qed.

Lemma split_slash_cons n t : no_slash n -> split_slash (n ++ slash :: t) = n :: split_slash t.
Proof.
  induction 1 as [|c n [Hc _] Hn IH]; [done|]. simpl. rewrite IH. by case_bool.
Qed.

Lemma names_slashes k s : names (replicate k slash ++ s) = names s.
Proof. induction k as [|k IH]; [done|]. exact IH. Qed.

Lemma zlen_ne0 {A} (n : list A) : n <> [] -> negb (zlen n =? 0) = true.
Proof. destruct n; [done|]. intros _. unfold zlen. simpl length. by case_bool. Qed.

Lemma names_one n : no_slash n -> n <> [] -> names n = [n].
Proof. intros H Hne. unfold names. rewrite split_slash_name by done. simpl. by rewrite zlen_ne0. Qed.

Lemma names_cons n k s :
  no_slash n -> n <> [] -> names (n ++ replicate (S k) slash ++ s) = n :: names s.
Proof.
  intros H Hne. unfold names. cbn [replicate app]. rewrite split_slash_cons by done.
  simpl. rewrite zlen_ne0 by done. f_equal. apply names_slashes.
Qed.

Lemma strip_slashes s : exists k s', s = replicate k slash ++ s' /\ opens s'.
Proof.
  induction s as [|c s (k & s' & -> & H)]; [by exists 0%nat, []|].
  destruct (decide (c = slash)) as [->|Hc]; [by exists (S k), s'|].
  exists 0%nat, (c :: replicate k slash ++ s'). split; [done|]. intros c' t [= -> _]. done.
Qed.

(** A path that does not start with a slash: empty, one name, or a name,
    slashes and the rest. *)
Lemma path_cases s : cstring s -> opens s ->
  s = [] \/ (s <> [] /\ no_slash s) \/
  exists n k s', n <> [] /\ no_slash n /\ opens s' /\ s = n ++ replicate (S k) slash ++ s'.
Proof.
  intros Hs. induction Hs as [|c s Hc Hs IH]; [by left|]. intros Ho. right.
  assert (Hcs : c <> slash /\ c <> 0) by (unfold is_cchar in Hc; split; [by apply (Ho c s)|lia]).
  destruct (strip_slashes s) as ([|k] & s' & E & Hs').
  - cbn [replicate app] in E. subst s'. destruct (IH Hs') as [->|[[Hne Hn]|IH']].
    + left. split; [done|]. by constructor.
    + left. split; [done|]. by constructor.
    + right. destruct IH' as (n & k & s' & Hne & Hn & Ho' & ->).
      exists (c :: n), k, s'. split_and!; [done|by constructor|done|done].
  - right. exists [c], k, s'. subst s. split_and!; [done|by apply Forall_singleton|done|done].
Qed.

(** What the dots mean: [k] slashes follow the name, then the rest [c :: r]. *)
Lemma read_dots_spec p n k c r :
  no_slash n -> n <> [] -> c <> slash -> (k = 0%nat -> c = 0) ->
  read_dots (p ++ n ++ replicate k slash ++ c :: r) (zlen p) =
  Some (if bool_decide (n = [dot])
        then (if bool_decide (k = 0%nat) then KeepName (zlen p + 1)
              else SkipName (zlen p + 1 + Z.of_nat k))
        else if bool_decide (n = [dot; dot]) then UpOne (zlen p + 2 + Z.of_nat k)
        else KeepName (zlen p)).
Proof.
  intros Hn Hne Hc Hk. unfold read_dots. set (buf := p ++ _).
  assert (Hget : forall l x q j, p ++ l ++ x :: q = buf -> j = zlen l ->
    buf_get buf (zlen p + j) = Some x).
  { intros l x q j <- ->. rewrite app_assoc. apply get_at. by rewrite zlen_app. }
  assert (Hskip : forall l m j, p ++ l ++ replicate m slash ++ c :: r = buf -> j = zlen l ->
    skip_slashes (S (length buf)) buf (zlen p + j) = Some (zlen p + j + Z.of_nat m)).
  { intros l m j <- ->. rewrite (app_assoc p l), skip_slashes_spec;
      [by rewrite zlen_app|done|rewrite !length_app, length_replicate; lia|by rewrite zlen_app]. }
  assert (Hgetk : forall l j, p ++ l ++ replicate k slash ++ c :: r = buf -> j = zlen l ->
    buf_get buf (zlen p + j) = Some (if bool_decide (k = 0%nat) then 0 else slash)).
  { intros l j El Ej. case_bool_decide as E0.
    - rewrite E0, (Hk E0) in El. by apply (Hget l 0 r).
    - destruct k as [|k']; [done|]. by apply (Hget l slash (replicate k' slash ++ c :: r)). }
  destruct n as [|x n]; [done|]. apply Forall_cons in Hn as [[Hx _] Hn].
  assert (Hx0 : buf_get buf (zlen p) = Some x) by (unfold buf; cbn [app]; apply get_mid).
  rewrite Hx0. cbn [mbind option_bind].
  destruct (Z.eqb_spec x dot) as [->|Hx']; cbn [negb].
  2: { rewrite !bool_decide_false by congruence. done. }
  destruct n as [|y n].
  { rewrite (Hgetk [dot] 1) by done. rewrite (bool_decide_true ([dot] = [dot])) by done. cbn [mbind option_bind].
    case_bool_decide as E0; [done|]. destruct k as [|k']; [done|].
    cbn [Z.eqb Pos.eqb]. rewrite (Hskip [dot; slash] k' 2) by done. cbn [fmap option_fmap option_map].
    do 2 f_equal. lia. }
  apply Forall_cons in Hn as [[Hy Hy0] Hn].
  rewrite (Hget [dot] y (n ++ replicate k slash ++ c :: r) 1) by done. cbn [mbind option_bind].
  rewrite (bool_decide_false (dot :: y :: n = [dot])) by done.
  destruct (Z.eqb_spec y 0); [done|]. destruct (Z.eqb_spec y slash); [done|].
  destruct (Z.eqb_spec y dot) as [->|Hy'].
  2: { rewrite !bool_decide_false by congruence. done. }
  destruct n as [|z n].
  { rewrite (Hgetk [dot; dot] 2) by done. cbn [mbind option_bind].
    rewrite (bool_decide_true ([dot; dot] = [dot; dot])) by done.
    destruct k as [|k']; [by rewrite Z.add_0_r|]. rewrite bool_decide_false by done.
    cbn [Z.eqb Pos.eqb]. rewrite (Hskip [dot; dot; slash] k' 3) by done.
    cbn [fmap option_fmap option_map]. do 2 f_equal. lia. }
  apply Forall_cons in Hn as [[Hz Hz0] Hn].
  rewrite (Hget [dot; dot] z (n ++ replicate k slash ++ c :: r) 2) by done.
  cbn [mbind option_bind]. rewrite bool_decide_false by done.
  destruct (Z.eqb_spec z 0); [done|]. by destruct (Z.eqb_spec z slash).
Qed.

(** ** The loop computes the reference *)
Definition loop_post (stack ns : list (list Z)) (size : Z) (tail : list Z)
    (r : option (bool * list Z * Z)) : Prop :=
  match resolve stack ns with
  | None => exists buf' dst, r = Some (false, buf', dst) /\ zlen buf' = size
  | Some st =>
      exists out gap, r = Some (true, out ++ gap ++ tail, zlen out) /\ gap <> [] /\
        zlen (out ++ gap ++ tail) = size /\
        (out = closed st \/
         exists n st', st = n :: st' /\ n <> [] /\ no_slash n /\ out = closed st' ++ n)
  end.

Lemma zlen_pos_ne {A} (l : list A) : 0 < zlen l -> l <> [].
Proof. by intros H ->. Qed.

(** The copy of the last name ends the loop. *)
Lemma loop_last fuel st n gap tail i src :
  no_slash n -> i = zlen (closed st ++ gap) ->
  read_dots (closed st ++ gap ++ n ++ 0 :: tail) src = Some (KeepName i) ->
  exists gap', gap' <> [] /\
    zlen ((closed st ++ n) ++ gap' ++ tail) = zlen (closed st ++ gap ++ n ++ 0 :: tail) /\
    normalize_loop (S fuel) (closed st ++ gap ++ n ++ 0 :: tail) src (zlen (closed st))
      = Some (true, (closed st ++ n) ++ gap' ++ tail, zlen (closed st ++ n)).
Proof.
  intros Hn Hi Hd. cbn [normalize_loop]. rewrite Hd. cbn [mbind option_bind].
  destruct (copy_name_spec n (S (length (closed st ++ gap ++ n ++ 0 :: tail))) (closed st) gap 0
              tail i Hn) as (gap' & Hg & ->);
    [by left|rewrite !length_app; lia|done|].
  exists gap'. pose proof (zlen_nonneg gap). split_and!; [apply zlen_pos_ne; lia| |].
  - autorewrite with zlen. lia.
  - cbn [mbind option_bind Z.eqb]. by rewrite zlen_app.
Qed.

(** The copy of a name that slashes follow pushes it. *)
Lemma loop_push fuel st n k gap c r i :
  no_slash n -> c <> slash -> i = zlen (closed st ++ gap) ->
  read_dots (closed st ++ gap ++ n ++ replicate (S k) slash ++ c :: r) i = Some (KeepName i) ->
  exists gap', zlen (closed (n :: st) ++ gap')
      = zlen (closed st ++ gap ++ n ++ replicate (S k) slash) /\
    normalize_loop (S fuel) (closed st ++ gap ++ n ++ replicate (S k) slash ++ c :: r) i
      (zlen (closed st))
    = normalize_loop fuel (closed (n :: st) ++ gap' ++ c :: r) (zlen (closed (n :: st) ++ gap'))
        (zlen (closed (n :: st))).
Proof.
  intros Hn Hc Hi Hd. cbn [normalize_loop]. rewrite Hd. cbn [mbind option_bind replicate app].
  destruct (copy_name_spec n
              (S (length (closed st ++ gap ++ n ++ slash :: replicate k slash ++ c :: r)))
              (closed st) gap slash (replicate k slash ++ c :: r) i Hn) as (gap1 & Hg & ->);
    [by right|rewrite !length_app; lia|done|].
  cbn [mbind option_bind]. rewrite Z.eqb_refl. pose proof (zlen_nonneg gap).
  destruct gap1 as [|g gap1]; [rewrite zlen_nil in Hg; lia|]. rewrite zlen_cons in Hg.
  replace (zlen (closed st) + zlen n) with (zlen (closed st ++ n)) by by rewrite zlen_app.
  cbn [app]. rewrite buf_set_next. cbn [mbind option_bind].
  exists (gap1 ++ replicate k slash). split.
  { rewrite closed_cons. autorewrite with zlen. lia. }
  rewrite (app_assoc _ gap1), skip_slashes_spec; [|done| |].
  - cbn [mbind option_bind]. rewrite closed_cons, <- !app_assoc. f_equal.
    + autorewrite with zlen. lia.
    + autorewrite with zlen. lia.
  - rewrite !length_app. simpl. rewrite ?length_app, ?length_replicate. lia.
  - subst i. autorewrite with zlen. lia.
Qed.

(** [up_one] pops a name, or reports that there is none. *)
Lemma loop_up fuel st rest src src' :
  Forall no_slash st -> read_dots (closed st ++ rest) src = Some (UpOne src') ->
  normalize_loop (S fuel) (closed st ++ rest) src (zlen (closed st)) =
  match st with
  | [] => Some (false, closed st ++ rest, -1)
  | m :: st' => normalize_loop fuel (closed st' ++ (m ++ [slash]) ++ rest) src' (zlen (closed st'))
  end.
Proof.
  intros Hst Hd. cbn [normalize_loop]. rewrite Hd. cbn [mbind option_bind].
  destruct st as [|m st]; [done|]. apply Forall_cons in Hst as [Hm Hst].
  rewrite closed_cons, <- !app_assoc.
  replace (zlen (closed st ++ m ++ [slash]) - 1) with (zlen (closed st ++ m))
    by (rewrite !zlen_app; unfold zlen; simpl; lia).
  destruct (Z.ltb_spec (zlen (closed st ++ m)) 0) as [H|_];
    [pose proof (zlen_nonneg (closed st ++ m)); lia|].
  by rewrite back_up_spec by (try done; rewrite !length_app; lia).
Qed.

Lemma rest_head (s' tail : list Z) k : opens s' -> (k = 0%nat -> s' = []) ->
  exists c r, s' ++ 0 :: tail = c :: r /\ c <> slash /\ (k = 0%nat -> c = 0).
Proof.
  intros Ho Hk. destruct s' as [|c s']; [by exists 0, tail|].
  exists c, (s' ++ 0 :: tail). split_and!; [done|by apply (Ho c s')|]. intros ->. by specialize (Hk eq_refl).
Qed.

Lemma path_cases' s : cstring s -> opens s -> s <> [] ->
  exists n k s', n <> [] /\ no_slash n /\ opens s' /\ (k = 0%nat -> s' = []) /\
    s = n ++ replicate k slash ++ s' /\ names s = n :: names s'.
Proof.
  intros Hs Ho Hne. destruct (path_cases s Hs Ho) as [->|[[_ Hn]|(n & k & s' & Hn0 & Hn & Ho' & ->)]].
  - done.
  - exists s, 0%nat, []. split_and!; [done..|by rewrite app_nil_r|by rewrite names_one].
  - exists n, (S k), s'. split_and!; [done..|by rewrite names_cons].
Qed.

(** The end of the path: nothing is left but the terminator. *)
Lemma loop_end fuel st gap tail src i :
  i = zlen (closed st ++ gap) ->
  read_dots (closed st ++ gap ++ 0 :: tail) src = Some (KeepName i) ->
  loop_post st [] (zlen (closed st ++ gap ++ 0 :: tail)) tail
    (normalize_loop (S fuel) (closed st ++ gap ++ 0 :: tail) src (zlen (closed st))).
Proof.
  intros Hi Hd. destruct (loop_last fuel st [] gap tail i src) as (gap' & Hg & Hl & E);
    [by constructor|done|done|].
  cbn [app] in *. rewrite E. exists (closed st ++ []), gap'.
  split_and!; [done..|]. left. apply app_nil_r.
Qed.

Lemma normalize_loop_spec fuel : forall s stack gap tail i,
  (length s < fuel)%nat -> cstring s -> opens s -> Forall no_slash stack ->
  i = zlen (closed stack ++ gap) ->
  loop_post stack (names s) (zlen (closed stack ++ gap ++ s ++ 0 :: tail)) tail
    (normalize_loop fuel (closed stack ++ gap ++ s ++ 0 :: tail) i (zlen (closed stack))).
Proof.
  induction fuel as [|fuel IH]; intros s st gap tail i Hf Hs Ho Hst Hi; [lia|].
  destruct (decide (s = [])) as [->|Hne].
  { cbn [app]. apply (loop_end fuel st gap tail i i); [done|].
    unfold read_dots. replace (buf_get _ i) with (Some 0); [done|].
    rewrite app_assoc. symmetry. by apply get_at. }
  destruct (path_cases' s Hs Ho Hne) as (n & k & s' & Hn0 & Hn & Ho' & Hk & -> & Hnames).
  destruct (rest_head s' tail k Ho' Hk) as (c & r & Hcr & Hc & Hc0).
  rewrite Hnames. clear Hnames. apply Forall_app in Hs as [_ Hs]. apply Forall_app in Hs as [_ Hs].
  rewrite !length_app, length_replicate in Hf.
  assert (Hlen : (length s' < fuel)%nat) by (destruct n; [done|simpl in Hf; lia]).
  pose proof (read_dots_spec (closed st ++ gap) n k c r Hn Hn0 Hc Hc0) as Hd.
  rewrite <- Hi, <- Hcr in Hd. rewrite <- !app_assoc in *.
  pose proof (fun st' g j => IH s' st' g tail j Hlen Hs Ho') as IH'. clear IH.
  unfold loop_post. cbn [resolve]. case_bool_decide as E1; [|case_bool_decide as E2].
  - subst n. destruct k as [|k].
    + rewrite (Hk eq_refl) in *. pose proof (loop_end fuel st (gap ++ [dot]) tail i (i + 1)) as H.
      rewrite <- !app_assoc in H. apply H; [|exact Hd]. subst i. autorewrite with zlen. lia.
    + cbn [normalize_loop]. rewrite Hd. cbn [mbind option_bind].
      specialize (IH' st (gap ++ [dot] ++ replicate (S k) slash) (i + 1 + Z.of_nat (S k)) Hst).
      rewrite <- !app_assoc in IH'. apply IH'. subst i. autorewrite with zlen. lia.
  - subst n. rewrite (loop_up fuel st _ i (i + 2 + Z.of_nat k)) by done.
    destruct st as [|m st]; [by eexists _, _|]. apply Forall_cons in Hst as [Hm Hst].
    specialize (IH' st ((m ++ [slash]) ++ gap ++ [dot; dot] ++ replicate k slash)
      (i + 2 + Z.of_nat k) Hst).
    rewrite closed_cons, <- !app_assoc in *. apply IH'. subst i. autorewrite with zlen. lia.
  - destruct k as [|k].
    + rewrite (Hk eq_refl) in *. change (names []) with (@nil (list Z)). cbn [resolve replicate app] in *.
      destruct (loop_last fuel st n gap tail i i Hn Hi Hd) as (gap' & Hg & Hl & ->).
      exists (closed st ++ n), gap'. split_and!; [done..|]. right. by exists n, st.
    + rewrite Hcr in Hd |- *. destruct (loop_push fuel st n k gap c r i Hn Hc Hi Hd) as (gap' & Hl & ->).
      specialize (IH' (n :: st) gap' _ ltac:(by constructor) eq_refl). rewrite Hcr in IH'.
      unfold loop_post in IH'.
      replace (zlen (closed st ++ gap ++ n ++ replicate (S k) slash ++ c :: r))
        with (zlen (closed (n :: st) ++ gap' ++ c :: r)); [done|].
      rewrite !zlen_app in *. lia.
Qed.

(** The whole loop, from the start of the path. *)
Lemma normalize_start s tail : cstring s ->
  loop_post (root_of s) (names s) (zlen (s ++ 0 :: tail)) tail
    (normalize_loop (S (length (s ++ 0 :: tail))) (s ++ 0 :: tail) 0 0).
Proof.
  intros Hs. destruct (strip_slashes s) as ([|k] & s' & -> & Ho).
  - cbn [replicate app] in *.
    replace (root_of s') with (@nil (list Z))
      by (destruct s' as [|c t]; [done|]; simpl; specialize (Ho c t eq_refl); by case_bool).
    apply (normalize_loop_spec _ s' [] [] tail 0); [rewrite length_app; lia|done..].
  - rewrite names_slashes. rewrite <- app_assoc. apply Forall_app in Hs as [_ Hs].
    destruct (rest_head s' tail (S k) Ho) as (c & r & Hcr & Hc & _); [done|].
    destruct (loop_push (length (replicate (S k) slash ++ s' ++ 0 :: tail)) [] [] k [] c r 0)
      as (gap' & Hl & E); [by constructor|done..|].
    change (closed [] ++ [] ++ [] ++ ?x) with x in Hl, E. change (zlen (closed [])) with 0 in E.
    change (root_of (replicate (S k) slash ++ s')) with [@nil Z]. rewrite Hcr in *. rewrite E.
    pose proof (normalize_loop_spec (length (replicate (S k) slash ++ c :: r)) s' [[]] gap' tail
      (zlen (closed [[]] ++ gap'))) as H. rewrite Hcr in H.
    replace (zlen (replicate (S k) slash ++ c :: r)) with (zlen (closed [[]] ++ gap' ++ c :: r)).
    + apply H; [|done|done|by repeat constructor|done].
      apply (f_equal length) in Hcr. rewrite !length_app in Hcr. rewrite length_app, length_replicate.
      simpl in *. lia.
    + rewrite app_assoc, zlen_app, Hl. autorewrite with zlen. lia.
Qed.

(** ** The function *)
Definition norm_result (s tail : list Z) (r : option (bool * list Z)) : Prop :=
  match normal s with
  | None => exists b, r = Some (false, b) /\ zlen b = zlen (s ++ 0 :: tail)
  | Some [] => r = None
  | Some st => exists junk, r = Some (true, render st ++ 0 :: junk ++ tail) /\
      zlen (render st ++ 0 :: junk ++ tail) = zlen (s ++ 0 :: tail)
  end.

Lemma render_open n st : (n = [] -> st <> []) -> render (n :: st) = closed st ++ n.
Proof. intros H. destruct n, st; try done. by specialize (H eq_refl). Qed.

Lemma closed_len_0 st n : zlen (closed st ++ n) = 0 -> st = [] /\ n = [].
Proof.
  intros H. destruct n; [|rewrite zlen_app in H; unfold zlen in H; simpl in H; lia].
  destruct st as [|m st]; [done|]. rewrite app_nil_r, closed_cons, !zlen_app in H.
  unfold zlen in H. simpl in H. lia.
Qed.

Lemma normalize_run s tail : cstring s -> norm_result s tail (_str_normalize_path (s ++ 0 :: tail)).
Proof.
  intros Hs. pose proof (normalize_start s tail Hs) as H. unfold loop_post in H.
  unfold norm_result, normal, _str_normalize_path.
  destruct (resolve (root_of s) (names s)) as [st|].
  2: { destruct H as (b & dst & -> & Hl). by exists b. }
  destruct H as (out & gap & -> & Hg & Hl & Hout). cbn [mbind option_bind negb].
  destruct gap as [|g gap]; [done|]. cbn [app] in *. rewrite buf_set_next. cbn [mbind option_bind].
  rewrite <- app_assoc. cbn [app].
  destruct Hout as [->|(n & st' & -> & Hn0 & Hn & ->)].
  - destruct st as [|n st]; [done|]. rewrite closed_cons in *.
    replace (zlen (closed st ++ n ++ [slash]) - 1) with (zlen (closed st ++ n))
      by (rewrite !zlen_app; change (zlen [slash]) with 1; lia).
    replace ((closed st ++ n ++ [slash]) ++ 0 :: gap ++ tail)
      with ((closed st ++ n) ++ slash :: 0 :: gap ++ tail) by by rewrite <- !app_assoc.
    destruct (Z.eqb_spec (zlen (closed st ++ n)) 0) as [E|E].
    + apply closed_len_0 in E as [-> ->]. exists gap. split; [done|]. rewrite <- Hl. done.
    + rewrite get_mid. cbn [mbind option_bind]. rewrite Z.eqb_refl, buf_set_next.
      cbn [mbind option_bind]. exists (0 :: gap).
      rewrite render_open by (intros -> ->; done). rewrite <- !app_assoc in *. split; [done|].
      rewrite <- Hl. autorewrite with zlen. lia.
  - exists gap. rewrite render_open by done.
    split; [|rewrite <- Hl; autorewrite with zlen; lia].
    destruct (Z.eqb_spec (zlen (closed st' ++ n) - 1) 0); [done|].
    destruct n as [|x n _] using rev_ind; [done|]. rewrite app_assoc.
    replace (zlen ((closed st' ++ n) ++ [x]) - 1) with (zlen (closed st' ++ n))
      by (rewrite (zlen_app (_ ++ _)); change (zlen [x]) with 1; lia).
    rewrite <- (app_assoc (_ ++ n)). cbn [app]. rewrite get_mid. cbn [mbind option_bind].
    apply Forall_app in Hn as [_ Hn]. apply Forall_cons in Hn as [[Hx _] _]. by case_bool.
Qed.

(** ** Properties of the reference *)
Definition clean (n : list Z) : Prop :=
  cstring n /\ no_slash n /\ n <> [] /\ n <> [dot] /\ n <> [dot; dot].

(** A resolved path: clean names, possibly on top of the root. *)
Definition resolved (st : list (list Z)) : Prop :=
  exists l base, st = l ++ base /\ Forall clean l /\ (base = [] \/ base = [[]]).

Lemma names_ok s : cstring s ->
  Forall (fun n => cstring n /\ no_slash n /\ n <> []) (names s).
Proof.
  intros Hs. unfold names.
  assert (H : Forall (fun n => cstring n /\ no_slash n) (split_slash s)).
  { induction Hs as [|c s Hc Hs IH]; simpl; [by repeat constructor|]. case_bool.
    - by repeat constructor.
    - destruct (split_slash s) as [|m ms] eqn:Es; [by destruct (split_slash_ne s)|].
      apply Forall_cons in IH as [[H1 H2] IH].
      constructor; [|done]. unfold is_cchar in Hc. split; constructor; try done. lia. }
  induction H as [|n ns [H1 H2] H IH]; simpl; [constructor|].
  destruct n; [done|]. simpl. constructor; [|done]. done.
Qed.

Lemma resolve_resolved ns : forall st st',
  Forall (fun n => cstring n /\ no_slash n /\ n <> []) ns -> resolved st ->
  resolve st ns = Some st' -> resolved st'.
Proof.
  induction ns as [|n ns IH]; intros st st' Hns Hst E; [by injection E as <-|].
  apply Forall_cons in Hns as [(H1 & H2 & H3) Hns]. cbn [resolve] in E.
  case_bool_decide; [by apply (IH st)|]. case_bool_decide.
  - destruct st as [|m st]; [done|]. apply (IH st); [done| |done].
    destruct Hst as (l & base & Hl & Hc & Hb). destruct l as [|x l].
    + destruct Hb as [-> | ->]; [done|]. injection Hl as -> ->. by exists [], []; eauto.
    + injection Hl as -> ->. apply Forall_cons in Hc as [_ Hc]. by exists l, base.
  - apply (IH (n :: st)); [done| |done]. destruct Hst as (l & base & -> & Hc & Hb).
    exists (n :: l), base. split_and!; [done| |done]. by constructor.
Qed.

Lemma resolve_all_clean ns : forall st st',
  Forall (fun n => cstring n /\ no_slash n /\ n <> []) ns -> Forall clean st ->
  resolve st ns = Some st' -> Forall clean st'.
Proof.
  induction ns as [|n ns IH]; intros st st' Hns Hst E; [by injection E as <-|].
  apply Forall_cons in Hns as [(H1 & H2 & H3) Hns]. cbn [resolve] in E.
  case_bool_decide; [by apply (IH st)|]. case_bool_decide.
  - destruct st as [|m st]; [done|]. apply (IH st); [done|by inversion Hst|done].
  - apply (IH (n :: st)); [done|by constructor|done].
Qed.

Lemma root_of_resolved s : resolved (root_of s).
Proof.
  exists [], (root_of s). split_and!; [done|constructor|].
  destruct s as [|c s]; [by left|]. simpl. case_bool; auto.
Qed.

Lemma normal_resolved s st : cstring s -> normal s = Some st -> resolved st.
Proof.
  intros Hs. apply resolve_resolved; [by apply names_ok|apply root_of_resolved].
Qed.

Lemma resolve_app a b : forall st,
  resolve st (a ++ b) = (st' ← resolve st a; resolve st' b).
Proof.
  induction a as [|n a IH]; intros st; [done|]. cbn [app resolve].
  repeat case_bool_decide; [apply IH|destruct st; [done|apply IH]|apply IH].
Qed.

(** Names that resolve on their own resolve on top of anything. *)
Lemma resolve_base ns : forall st st' base,
  resolve st ns = Some st' -> resolve (st ++ base) ns = Some (st' ++ base).
Proof.
  induction ns as [|n ns IH]; intros st st' base E; [by injection E as <-|].
  cbn [resolve] in *. repeat case_bool_decide; [by apply IH| |by apply (IH (n :: st))].
  destruct st as [|m st]; [done|]. by apply IH.
Qed.

Lemma clean_name n : clean n -> no_slash n /\ n <> [].
Proof. by intros (_ & H1 & H2 & _). Qed.

Lemma resolve_clean l base : Forall clean l -> resolve base (rev l) = Some (l ++ base).
Proof.
  induction 1 as [|n l (_ & _ & _ & H1 & H2) H IH]; [done|]. cbn [rev].
  rewrite resolve_app, IH. cbn [mbind option_bind resolve].
  by rewrite !bool_decide_false by done.
Qed.

Lemma names_closed l t : Forall clean l -> names (closed l ++ t) = rev l ++ names t.
Proof.
  intros H. revert t. induction H as [|n l Hn H IH]; intros t; [done|].
  destruct (clean_name n Hn). rewrite closed_cons, <- !app_assoc, IH. cbn [rev].
  rewrite <- app_assoc. cbn [app]. f_equal. by apply (names_cons n 0 t).
Qed.

Lemma closed_root l : closed (l ++ [[]]) = slash :: closed l.
Proof. unfold closed. by rewrite rev_app_distr. Qed.

Lemma closed_cstring l : Forall clean l -> cstring (closed l).
Proof.
  induction 1 as [|n l [Hn _] H IH]; [constructor|]. rewrite closed_cons, !Forall_app.
  split_and!; [done..|]. by repeat constructor.
Qed.

Lemma root_of_name l n : Forall clean (n :: l) -> root_of (closed l ++ n) = [].
Proof.
  intros H. revert n H. induction l as [|m l IH]; intros n H.
  - apply Forall_cons in H as [Hn _]. destruct (clean_name n Hn) as [Hs Hne].
    destruct n as [|c n]; [done|]. apply Forall_cons in Hs as [[Hc _] _]. simpl. by case_bool.
  - apply Forall_cons in H as [_ H]. specialize (IH m H). apply Forall_cons in H as [Hm _].
    destruct (clean_name m Hm) as [_ Hm0].
    rewrite closed_cons, <- !app_assoc.
    destruct (closed l) as [|c t]; [|done]. destruct m; [done|]. done.
Qed.

(** The text of a resolved path resolves to the path. *)
Lemma normal_render st : resolved st -> st <> [] ->
  cstring (render st) /\ normal (render st) = Some st.
Proof.
  intros (l & base & -> & Hl & Hb) Hne. destruct l as [|n l].
  { destruct Hb as [-> | ->]; [done|]. split; [by repeat constructor|done]. }
  pose proof (Forall_inv Hl) as Hn. destruct (clean_name n Hn) as [Hs Hn0].
  assert (Hnames : names (closed l ++ n) = rev (n :: l)).
  { rewrite names_closed by by inversion Hl. cbn [rev]. by rewrite names_one. }
  assert (Hc : cstring (closed l ++ n)).
  { apply Forall_app. split; [apply closed_cstring; by inversion Hl|apply Hn]. }
  cbn [app]. destruct Hb as [-> | ->]; rewrite render_open by done; unfold normal.
  - rewrite app_nil_r, root_of_name, Hnames by done. split; [done|].
    rewrite resolve_clean by done. by rewrite app_nil_r.
  - rewrite closed_root. cbn [app]. split; [by constructor|].
    change (root_of _) with [@nil Z].
    change (names (slash :: closed l ++ n)) with (names (closed l ++ n)).
    rewrite Hnames. by apply (resolve_clean (n :: l) [[]]).
Qed.

(** [C32] The in-place loops of the path normalisation compute the reference
    resolution on every C string: the call returns the buffer holding the text
    of the resolved names, which are free of [.], [..], empty names and
    slashes, without touching what lies behind the old terminator; it returns
    NULL exactly when a [..] climbs above the first name; and it reads the
    byte before the buffer exactly when nothing is left of the path. *)
Theorem normalize_path_spec s tail :
  cstring s ->
  match normal s with
  | None => exists b, _str_normalize_path (s ++ 0 :: tail) = Some (false, b)
  | Some [] => _str_normalize_path (s ++ 0 :: tail) = None
  | Some st => exists b, _str_normalize_path (s ++ 0 :: tail) = Some (true, b ++ tail) /\
      length b = S (length s) /\ buf_cstr b = Some (render st) /\ resolved st
  end.
Proof.
  intros Hs. pose proof (normalize_run s tail Hs) as H. pose proof (normal_resolved s) as Hr.
  unfold norm_result in H. destruct (normal s) as [[|n st]|]; [done| |by destruct H as (b & H & _); eauto].
  destruct H as (junk & E & Hl). specialize (Hr _ Hs eq_refl).
  destruct (normal_render (n :: st) Hr) as [Hc _]; [done|].
  exists (render (n :: st) ++ 0 :: junk). split_and!.
  - rewrite E, <- app_assoc. done.
  - unfold zlen in Hl. rewrite !length_app in *. simpl in *. rewrite length_app in Hl. lia.
  - by apply buf_cstr_app.
  - done.
Qed.

(** Normalising is idempotent: a path that a call has returned is left as
    it is by the next call. *)
Theorem normalize_path_idempotent s tail b p tail' :
  cstring s -> _str_normalize_path (s ++ 0 :: tail) = Some (true, b) -> buf_cstr b = Some p ->
  exists b', _str_normalize_path (p ++ 0 :: tail') = Some (true, b') /\ buf_cstr b' = Some p.
Proof.
  intros Hs E Hp. pose proof (normalize_run s tail Hs) as H. pose proof (normal_resolved s) as Hr.
  unfold norm_result in H. rewrite E in H.
  destruct (normal s) as [[|n st]|]; [done| |by destruct H as (b' & H & _)].
  destruct H as (junk & H & _). specialize (Hr _ Hs eq_refl).
  destruct (normal_render (n :: st) Hr) as [Hc Hn]; [done|].
  assert (b = render (n :: st) ++ 0 :: junk ++ tail) as -> by congruence.
  rewrite buf_cstr_app in Hp by done. assert (p = render (n :: st)) as -> by congruence.
  pose proof (normalize_run (render (n :: st)) tail' Hc) as H'. unfold norm_result in H'.
  rewrite Hn in H'. destruct H' as (junk' & -> & _). eexists. split; [done|]. by apply buf_cstr_app.
Qed.

(** ** [relative_path_2_absolute] *)
Lemma split_slash_join p f :
  split_slash (p ++ slash :: f) = split_slash p ++ split_slash f.
Proof.
  induction p as [|c p IH]; [done|]. simpl. rewrite IH. case_bool.
  by destruct (split_slash p) as [|m ms] eqn:E; [destruct (split_slash_ne p)|].
Qed.

Lemma names_join p f : names (p ++ slash :: f) = names p ++ names f.
Proof. unfold names. by rewrite split_slash_join, List.filter_app. Qed.

Lemma normal_join p f :
  normal (p ++ slash :: f) = (base ← normal (p ++ [slash]); resolve base (names f)).
Proof.
  unfold normal. rewrite !names_join. change (names []) with (@nil (list Z)). rewrite app_nil_r.
  replace (root_of (p ++ slash :: f)) with (root_of (p ++ [slash])) by by destruct p.
  apply resolve_app.
Qed.

Lemma relative_path_run f path_to p :
  zlen f + zlen p + 2 <= zlen path_to ->
  relative_path_2_absolute f path_to p =
  ('(_, b) ← _str_normalize_path
      ((p ++ slash :: f) ++ 0 :: replicate (length path_to - (length p + length f + 2)) 0);
   Some (0, b)).
Proof.
  intros Hfit. unfold relative_path_2_absolute.
  destruct (Z.ltb_spec (zlen path_to) (zlen f + zlen p + 1 + 1)); [lia|].
  rewrite buf_write_some by (autorewrite with zlen; unfold zlen in *; lia).
  cbn [mbind option_bind]. rewrite drop_replicate, !length_app. cbn [length take app].
  rewrite <- !app_assoc. cbn [app]. rewrite <- app_assoc. cbn [app].
  match goal with |- context [replicate (length path_to - ?a) 0] =>
    replace a with (length p + length f + 2)%nat by (simpl; lia) end. done.
Qed.

(** The buffer after a path that resolves. *)
Lemma relative_path_ok f path_to p base n st :
  cstring f -> cstring p -> normal (p ++ [slash]) = Some base ->
  resolve base (names f) = Some (n :: st) -> zlen f + zlen p + 2 <= zlen path_to ->
  resolved (n :: st) /\
  exists junk, relative_path_2_absolute f path_to p = Some (0, render (n :: st) ++ 0 :: junk) /\
    zlen (render (n :: st) ++ 0 :: junk) = zlen path_to.
Proof.
  intros Hf Hp Hbase Hres Hfit. rewrite relative_path_run by done.
  assert (Hs : cstring (p ++ slash :: f)) by (apply Forall_app; split; [done|by constructor]).
  assert (Hn : normal (p ++ slash :: f) = Some (n :: st)) by by rewrite normal_join, Hbase.
  pose proof (normalize_run (p ++ slash :: f)
    (replicate (length path_to - (length p + length f + 2)) 0) Hs) as H.
  unfold norm_result in H. rewrite Hn in H. destruct H as (junk & -> & Hl).
  split; [by apply (normal_resolved _ _ Hs)|]. cbn [mbind option_bind]. eexists. split; [done|].
  rewrite Hl, zlen_app, zlen_cons, zlen_replicate. autorewrite with zlen. unfold zlen in *. lia.
Qed.

Lemma closed_app l base : closed (l ++ base) = closed base ++ closed l.
Proof. unfold closed. by rewrite rev_app_distr, map_app, concat_app. Qed.

(** Putting a prefix before a path.  A buffer too small for the prefix, a
    slash, the path and the terminator is refused untouched.  Otherwise the
    buffer holds the names of the path resolved on top of the prefix: a path
    that resolves on its own lands below the prefix, one that climbs lands
    outside it, and one that climbs above the first name still reports
    success although the normalisation has failed. *)
Theorem relative_path_spec f path_to p base :
  cstring f -> cstring p -> normal (p ++ [slash]) = Some base ->
  (zlen path_to < zlen f + zlen p + 2 ->
     relative_path_2_absolute f path_to p = Some (-1, path_to)) /\
  (zlen f + zlen p + 2 <= zlen path_to ->
     (forall st, resolve base (names f) = Some st -> st <> [] ->
        exists b, relative_path_2_absolute f path_to p = Some (0, b) /\
          zlen b = zlen path_to /\ buf_cstr b = Some (render st)) /\
     (forall st, resolve [] (names f) = Some st -> st <> [] ->
        resolve base (names f) = Some (st ++ base) /\ closed base `prefix_of` render (st ++ base)) /\
     (resolve base (names f) = None ->
        exists b, relative_path_2_absolute f path_to p = Some (0, b))).
Proof.
  intros Hf Hp Hbase. split.
  { intros H. unfold relative_path_2_absolute. by destruct (Z.ltb_spec (zlen path_to)
      (zlen f + zlen p + 1 + 1)); [|lia]. }
  intros Hfit. split_and!.
  - intros st Est Hne. destruct st as [|n st]; [done|].
    destruct (relative_path_ok f path_to p base n st) as (Hr & junk & -> & Hl); [done..|].
    eexists. split_and!; [done|done|]. apply buf_cstr_app. by apply normal_render.
  - intros st Est Hne. split; [by apply (resolve_base _ [])|].
    destruct st as [|n st]; [done|]. cbn [app].
    assert (Hn : clean n) by (by eapply Forall_inv, resolve_all_clean, Est; [apply names_ok|]).
    apply clean_name in Hn as [_ Hn].
    rewrite render_open by done. rewrite closed_app, <- app_assoc. by eexists.
  - intros E. rewrite relative_path_run by done.
    assert (Hs : cstring (p ++ slash :: f)) by (apply Forall_app; split; [done|by constructor]).
    assert (Hn : normal (p ++ slash :: f) = None) by by rewrite normal_join, Hbase.
    pose proof (normalize_run (p ++ slash :: f)
      (replicate (length path_to - (length p + length f + 2)) 0) Hs) as H.
    unfold norm_result in H. rewrite Hn in H. destruct H as (b & -> & _). by eexists.
Qed.

Lemma normalize_path_spec_witness :
  cstring (str "/webnet/./a//../b/") /\
  exists b, _str_normalize_path (str "/webnet/./a//../b/" ++ 0 :: [7]) = Some (true, b ++ [7]) /\
    length b = 19%nat /\ buf_cstr b = Some (str "/webnet/b") /\ resolved [str "b"; str "webnet"; []].
Proof.
  assert (H : cstring (str "/webnet/./a//../b/")) by by_decide.
  split; [exact H|]. exact (normalize_path_spec (str "/webnet/./a//../b/") [7] H).
Defined.

Lemma normalize_path_idempotent_witness :
  exists b', _str_normalize_path (str "a/b" ++ 0 :: [9]) = Some (true, b') /\ buf_cstr b' = Some (str "a/b").
Proof.
  apply (normalize_path_idempotent (str "a//./b") []
    (str "a/b" ++ [0] ++ str "/b" ++ [0]) (str "a/b") [9]); [by_decide|by vm_compute..].
Defined.

(** Below the prefix, outside it, and above the root. *)
Lemma relative_path_spec_witness :
  (exists b, relative_path_2_absolute (str "x/../y") (replicate 128 0) (str "/webnet") = Some (0, b) /\
     zlen b = 128 /\ buf_cstr b = Some (str "/webnet/y")) /\
  (exists b, relative_path_2_absolute (str "../y") (replicate 128 0) (str "/webnet") = Some (0, b) /\
     zlen b = 128 /\ buf_cstr b = Some (str "/y")) /\
  (exists b, relative_path_2_absolute (str "../../../y") (replicate 128 0) (str "/webnet") = Some (0, b)).
Proof.
  split_and!.
  - destruct (relative_path_spec (str "x/../y") (replicate 128 0) (str "/webnet")
      [str "webnet"; []]) as [_ H]; [by_decide|by_decide|by vm_compute|].
    destruct H as [H _]; [by vm_compute|].
    exact (H [str "y"; str "webnet"; []] eq_refl ltac:(done)).
  - destruct (relative_path_spec (str "../y") (replicate 128 0) (str "/webnet")
      [str "webnet"; []]) as [_ H]; [by_decide|by_decide|by vm_compute|].
    destruct H as [H _]; [by vm_compute|]. exact (H [str "y"; []] eq_refl ltac:(done)).
  - destruct (relative_path_spec (str "../../../y") (replicate 128 0) (str "/webnet")
      [str "webnet"; []]) as [_ H]; [by_decide|by_decide|by vm_compute|].
    destruct H as (_ & _ & H); [by vm_compute|]. exact (H eq_refl).
Defined.
