(* ===== verification/FileSys.v ===== *)
(** * The file system interface

    The operations of the device file system (src/rt-thread/components/dfs)
    that the application calls, with what the application relies on: a
    directory operation leaves the files alone, an opened file keeps its
    contents and is written from its start, and a write that reports all its
    bytes has stored them at the position of the descriptor.  An in-memory
    file system meets the interface. *)

From S2P Require Import Prelude.

Local Open Scope Z_scope.

Abbreviation path := (list Z) (only parsing).

(** [write] of [d] at offset [off] of a file that holds [old]. *)
Definition overwrite (old : list Z) (off : Z) (d : list Z) : list Z :=
  take (Z.to_nat off) old ++ d ++ drop (Z.to_nat off + length d) old.

Class FileSys (F : Type) := {
  fs_opendir : F -> path -> bool;
  fs_mkdir : F -> path -> Z * F;
  (* [open(path, O_CREAT | O_RDWR)] *)
  fs_open : F -> path -> Z * F;
  fs_write : F -> Z -> list Z -> Z * F;
  fs_close : F -> Z -> F;
  (* what the operations are about: the contents of a file, and the file and
     position of an open descriptor *)
  fs_data : F -> path -> option (list Z);
  fs_cursor : F -> Z -> option (path * Z)
}.

Class FileSysLaws (F : Type) `{!FileSys F} := {
  mkdir_data : forall f p q, fs_data (snd (fs_mkdir f p)) q = fs_data f q;
  open_ok : forall f p fd f', fs_open f p = (fd, f') -> 0 < fd ->
    fs_cursor f' fd = Some (p, 0) /\ fs_data f' p = Some (default [] (fs_data f p));
  open_frame : forall f p fd f' q, fs_open f p = (fd, f') -> q <> p -> fs_data f' q = fs_data f q;
  write_ok : forall f fd d f' p off old, fs_write f fd d = (zlen d, f') ->
    fs_cursor f fd = Some (p, off) -> fs_data f p = Some old -> 0 <= off <= zlen old ->
    fs_data f' p = Some (overwrite old off d) /\ fs_cursor f' fd = Some (p, off + zlen d);
  write_frame : forall f fd d p off q, fs_cursor f fd = Some (p, off) -> q <> p ->
    fs_data (snd (fs_write f fd d)) q = fs_data f q;
  close_data : forall f fd q, fs_data (fs_close f fd) q = fs_data f q
}.

(** ** Overwriting *)
Lemma overwrite_len old off d :
  0 <= off <= zlen old -> off + zlen d <= zlen (overwrite old off d).
Proof. intros H. unfold overwrite. autorewrite with zlen. unfold zlen in *. lia. Qed.

(** Two consecutive writes are one. *)
Lemma overwrite_seq old off d1 d2 :
  0 <= off <= zlen old ->
  overwrite (overwrite old off d1) (off + zlen d1) d2 = overwrite old off (d1 ++ d2).
Proof.
  intros H. unfold overwrite, zlen in *.
  rewrite (app_assoc (take _ old) d1), take_app_length' by
    (rewrite length_app, length_take; lia).
  rewrite <- !app_assoc. do 3 f_equal.
  rewrite app_assoc, drop_app_ge by (rewrite length_app, length_take; lia).
  rewrite drop_drop, length_app, length_take, length_app. f_equal. lia.
Qed.

Lemma overwrite_nil old off : overwrite old off [] = old.
Proof. unfold overwrite. rewrite Nat.add_0_r. apply take_drop. Qed.

(** ** An in-memory file system *)
Record mem_fs := MemFs {
  mf_dirs : list path;
  mf_files : gmap path (list Z);
  mf_fds : gmap Z (path * Z);
  mf_next : Z
}.

Definition mem_mkdir (f : mem_fs) (p : path) : Z * mem_fs :=
  if bool_decide (p ∈ mf_dirs f) then (-1, f)
  else (0, MemFs (p :: mf_dirs f) (mf_files f) (mf_fds f) (mf_next f)).

Definition mem_open (f : mem_fs) (p : path) : Z * mem_fs :=
  let fd := mf_next f in
  (fd, MemFs (mf_dirs f) (<[p := default [] (mf_files f !! p)]> (mf_files f))
         (<[fd := (p, 0)]> (mf_fds f)) (fd + 1)).

Definition mem_write (f : mem_fs) (fd : Z) (d : list Z) : Z * mem_fs :=
  match mf_fds f !! fd with
  | Some (p, off) =>
      (zlen d, MemFs (mf_dirs f)
         (<[p := overwrite (default [] (mf_files f !! p)) off d]> (mf_files f))
         (<[fd := (p, off + zlen d)]> (mf_fds f)) (mf_next f))
  | None => (-1, f)
  end.

Definition mem_close (f : mem_fs) (fd : Z) : mem_fs :=
  MemFs (mf_dirs f) (mf_files f) (delete fd (mf_fds f)) (mf_next f).

#[export] Instance mem_filesys : FileSys mem_fs := {
  fs_opendir f p := bool_decide (p ∈ mf_dirs f);
  fs_mkdir := mem_mkdir;
  fs_open := mem_open;
  fs_write := mem_write;
  fs_close := mem_close;
  fs_data f p := mf_files f !! p;
  fs_cursor f fd := mf_fds f !! fd
}.

#[export] Instance mem_filesys_laws : FileSysLaws mem_fs.
Proof.
  split; cbn.
  - intros f p q. unfold mem_mkdir. by case_bool_decide.
  - intros f p fd f' [= <- <-] _. cbn. by rewrite !lookup_insert_eq.
  - intros f p fd f' q [= <- <-] Hq. cbn. by rewrite lookup_insert_ne.
  - intros f fd d f' p off old. unfold mem_write. intros E Hc Hd _. rewrite Hc in E.
    injection E as <-. cbn.
    by rewrite !lookup_insert_eq, Hd.
  - intros f fd d p off q. unfold mem_write. intros -> Hq. cbn. by rewrite lookup_insert_ne.
  - done.
Qed.
