(* ===== verification/WebUpload.v ===== *)
(** * Uploads through the web server

    Models the upload handlers of the application: [create_file_by_path] of
    src/module/web/web_utils.c, the directory upload of
    src/module/web/wn_dir_upload.c, which stores files below a path of the
    request, and the firmware upload of src/module/web/wn_firm_upload.c, which
    writes the partition [download].  The web server calls [upload_open], then
    [upload_write] for every piece of a file under its name, then
    [upload_done] and [upload_close].  The theorems show which directories and
    files a path creates, that the pieces of a file end up in it one after the
    other, that a name repeated in the next session is dropped, and which
    pieces of a firmware reach the flash. *)

From S2P Require Import Prelude Flash Fal CLib WebPath FileSys.

Local Open Scope Z_scope.

(** The reply of both handlers: [{"code":0,"filesize":n}]. *)
Definition quote : Z := 34.

Definition status_text (n : Z) : list Z :=
  str "{" ++ [quote] ++ str "code" ++ [quote] ++ str ":0," ++ [quote] ++ str "filesize" ++ [quote]
  ++ str ":" ++ sprintf_d n ++ str "}".

Module DirUpload.
Section DirUpload.
Context {F : Type} `{!FileSys F}.

(** ** Creating a file and its directories *)

(** The directory that opens is closed again, which changes nothing. *)
Definition _check_or_create_directory (dir_path : path) (f : F) : Z * F :=
  if fs_opendir f dir_path then (0, f)
  else let '(r, f) := fs_mkdir f dir_path in (if r <? 0 then -1 else 0, f).

(** The loop of [create_file_by_path] with [n] characters to go; [path] is
    the memory of the argument, [path_buff] the local copy. *)
Fixpoint create_loop (n : nat) (path path_buff : list Z) (i : Z) (f : F) : option (Z * F) :=
  match n with
  | O => Some (-1, f)
  | S n =>
      c ← buf_get path i;
      path_buff ← buf_set path_buff i c;
      next ← buf_get path (i + 1);
      if next =? slash then
        dir ← buf_cstr path_buff;
        let '(r, f) := _check_or_create_directory dir f in
        if r <? 0 then Some (-1, f) else create_loop n path path_buff (i + 1) f
      else if (next =? 0) && negb (c =? slash) then
        name ← buf_cstr path_buff;
        let '(fd, f) := fs_open f name in
        if 0 <? fd then Some (fd, f) else create_loop n path path_buff (i + 1) f
      else create_loop n path path_buff (i + 1) f
  end.

Definition create_file_by_path (path : list Z) (f : F) : option (Z * F) :=
  text ← buf_cstr path;
  create_loop (length text) path (replicate (Z.to_nat MAX_FILENAME_LENGTH) 0) 0 f.

(** ** The handler *)

(** [upload_mgr_t]; its field [total_file_size] is never read. *)
Record upload_mgr := UploadMgr {
  mgr_fd : Z;
  current_file_size : Z;
  base_path : option (list Z)
}.

(** [old_filename] is a static buffer: it outlives the session. *)
Record dir_state := DirState {
  old_filename : list Z;
  user_mgr : option upload_mgr;
  files : F
}.

(** [upload_open]: [mem_ok] is whether the manager can be allocated, [query]
    the [path] parameter of the request. *)
Definition upload_open (mem_ok : bool) (query : option (list Z)) (s : dir_state) : dir_state :=
  DirState (old_filename s) (if mem_ok then Some (UploadMgr 0 0 query) else None) (files s).

Definition upload_close (s : dir_state) : dir_state :=
  DirState (old_filename s) None (files s).

(** [upload_write]: [stack] is what the local buffer [filename] holds before
    it is filled; a missing [path] parameter is a null pointer. *)
Definition upload_write (stack fname data : list Z) (s : dir_state)
  : option (Z * dir_state) :=
  match user_mgr s with
  | None => Some (0, s)
  | Some mgr =>
      if 128 - 1 <? zlen fname then Some (0, s) else
      '(old, mgr, f) ←
        (if bool_decide (old_filename s = fname) then Some (old_filename s, mgr, files s)
         else
           let f := if 0 <? mgr_fd mgr then fs_close (files s) (mgr_fd mgr) else files s in
           base ← base_path mgr;
           '(_, filename) ← relative_path_2_absolute fname stack base;
           '(fd, f) ← create_file_by_path filename f;
           Some (fname, UploadMgr fd (current_file_size mgr) (base_path mgr), f));
      let f := if 0 <? mgr_fd mgr then snd (fs_write f (mgr_fd mgr) data) else f in
      Some (zlen data,
            DirState old (Some (UploadMgr (mgr_fd mgr) (i32 (current_file_size mgr + zlen data))
                                  (base_path mgr))) f)
  end.

(** [upload_done] closes the file and replies; no manager is a null pointer. *)
Definition upload_done (s : dir_state) : option (list Z * dir_state) :=
  mgr ← user_mgr s;
  Some (status_text (current_file_size mgr),
        DirState (old_filename s) (user_mgr s) (fs_close (files s) (mgr_fd mgr))).

(** The pieces of one file, one call each. *)
Fixpoint upload_pieces (stack fname : list Z) (ds : list (list Z)) (s : dir_state)
  : option (list Z * dir_state) :=
  match ds with
  | [] => Some ([], s)
  | d :: ds =>
      '(r, s) ← upload_write stack fname d s;
      '(rs, s) ← upload_pieces stack fname ds s;
      Some (r :: rs, s)
  end.

(** ** Reference: the directories of a path *)
Fixpoint make_dirs (ds : list (list Z)) (f : F) : bool * F :=
  match ds with
  | [] => (true, f)
  | d :: ds =>
      let '(r, f) := _check_or_create_directory d f in
      if r <? 0 then (false, f) else make_dirs ds f
  end.

(** The directories of a resolved path, from the top down. *)
Fixpoint dirs_of (st : list (list Z)) : list (list Z) :=
  match st with
  | [] => []
  | n :: st' =>
      match n, st' with
      | [], [] => []
      | _, _ => dirs_of st' ++ [render st]
      end
  end.

Definition make_and_open (ds : list (list Z)) (p : path) (f : F) : Z * F :=
  let '(ok, f) := make_dirs ds f in
  if ok then let '(fd, f) := fs_open f p in (if 0 <? fd then fd else -1, f) else (-1, f).

(** The prefixes of [pre ++ suf] inside [suf] that a slash follows. *)
Fixpoint prefix_dirs (pre suf : list Z) : list (list Z) :=
  match suf with
  | [] => []
  | c :: suf' =>
      match suf' with
      | x :: _ => if x =? slash then [pre ++ [c]] else []
      | [] => []
      end ++ prefix_dirs (pre ++ [c]) suf'
  end.

Lemma buf_zeros (p : list Z) (n : nat) : cstring p -> (length p < n)%nat ->
  buf_cstr (p ++ replicate (n - length p) 0) = Some p.
Proof.
  intros Hp H. replace (n - length p)%nat with (S (n - length p - 1)) by lia.
  cbn [replicate]. by apply buf_cstr_app.
Qed.

Lemma create_loop_spec suf : forall pre tail f x,
  cstring (pre ++ suf) -> (length (pre ++ suf) < 128)%nat -> last suf = Some x -> x <> slash ->
  create_loop (length suf) (pre ++ suf ++ 0 :: tail) (pre ++ replicate (128 - length pre) 0)
    (zlen pre) f
  = Some (make_and_open (prefix_dirs pre suf) (pre ++ suf) f).
Proof.
  induction suf as [|c suf IH]; intros pre tail f x Hc Hlen Hlast Hx; [done|].
  rewrite length_app in Hlen. cbn [length] in Hlen.
  assert (Hc' : cstring ((pre ++ [c]) ++ suf)) by by rewrite <- app_assoc.
  assert (Hlen' : (length ((pre ++ [c]) ++ suf) < 128)%nat)
    by (rewrite !length_app; cbn [length]; lia).
  assert (Hp : cstring (pre ++ [c])) by by apply Forall_app in Hc' as [? _].
  assert (Hb : buf_set (pre ++ replicate (128 - length pre) 0) (zlen pre) c
    = Some ((pre ++ [c]) ++ replicate (128 - length (pre ++ [c])) 0)).
  { replace (128 - length pre)%nat with (S (127 - length pre)) by lia. cbn [replicate].
    rewrite buf_set_next, length_app. cbn [length]. do 3 f_equal. lia. }
  assert (Hz : buf_cstr ((pre ++ [c]) ++ replicate (128 - length (pre ++ [c])) 0)
    = Some (pre ++ [c])) by (apply buf_zeros; [done|rewrite length_app; cbn [length]; lia]).
  assert (Hi : zlen pre + 1 = zlen (pre ++ [c])) by by rewrite zlen_app.
  cbn [create_loop length]. cbn [app]. rewrite get_mid. cbn [mbind option_bind]. rewrite Hb.
  cbn [mbind option_bind]. rewrite Hi.
  replace (pre ++ c :: suf ++ 0 :: tail) with ((pre ++ [c]) ++ suf ++ 0 :: tail)
    by by rewrite <- app_assoc.
  destruct suf as [|y suf].
  - cbn [app]. rewrite get_mid. cbn [mbind option_bind]. injection Hlast as ->.
    change (0 =? slash) with false. cbn [Z.eqb]. case_bool. rewrite Hz. cbn [mbind option_bind].
    unfold make_and_open. cbn [prefix_dirs make_dirs app create_loop length].
    destruct (fs_open f (pre ++ [x])) as [fd f']. by destruct (0 <? fd).
  - assert (Hy : buf_get ((pre ++ [c]) ++ (y :: suf) ++ 0 :: tail) (zlen (pre ++ [c])) = Some y)
      by apply get_mid.
    rewrite Hy. cbn [mbind option_bind]. specialize (IH (pre ++ [c]) tail).
    cbn [prefix_dirs].
    replace (pre ++ c :: y :: suf) with ((pre ++ [c]) ++ y :: suf) by by rewrite <- app_assoc.
    assert (Hy0 : y <> 0).
    { apply Forall_app in Hc' as [_ H]. apply Forall_cons in H as [H _]. unfold is_cchar in H. lia. }
    destruct (Z.eqb_spec y slash) as [->|Hys].
    + rewrite Hz. cbn [mbind option_bind]. unfold make_and_open. cbn [app make_dirs].
      destruct (_check_or_create_directory (pre ++ [c]) f) as [r f']. destruct (r <? 0); [done|].
      by apply (IH f' x).
    + destruct (Z.eqb_spec y 0); [done|]. cbn [andb]. by apply (IH f x).
Qed.

(** ** The directories are those of the resolved path *)
Lemma resolved_inv n st : resolved (n :: st) -> (n = [] /\ st = []) \/ (clean n /\ resolved st).
Proof.
  intros ([|x l] & base & E & Hl & Hb).
  - destruct Hb as [-> | ->]; [done|]. injection E as -> ->. by left.
  - injection E as -> ->. apply Forall_cons in Hl as [Hx Hl]. right. split; [done|]. by exists l, base.
Qed.

Lemma prefix_dirs_name n : forall pre, no_slash n -> prefix_dirs pre n = [].
Proof.
  induction n as [|c n IH]; intros pre Hn; [done|]. apply Forall_cons in Hn as [_ Hn].
  cbn [prefix_dirs]. rewrite IH by done. destruct n as [|x n]; [done|].
  apply Forall_cons in Hn as [[Hx _] _]. by case_bool.
Qed.

Lemma prefix_dirs_slash a : forall pre n, a <> [] -> no_slash n ->
  prefix_dirs pre (a ++ slash :: n) = prefix_dirs pre a ++ [pre ++ a].
Proof.
  induction a as [|c a IH]; intros pre n Ha Hn; [done|]. destruct a as [|y a].
  - cbn [app prefix_dirs]. rewrite Z.eqb_refl, prefix_dirs_name by done.
    destruct n as [|x n]; [done|]. apply Forall_cons in Hn as [[Hx _] _]. by case_bool.
  - specialize (IH (pre ++ [c]) n ltac:(done) Hn).
    cbn [app prefix_dirs] in *. rewrite IH, <- !app_assoc. done.
Qed.

Lemma prefix_dirs_closed st : forall n, resolved st -> clean n ->
  prefix_dirs [] (closed st ++ n) = dirs_of st.
Proof.
  induction st as [|m st IH]; intros n Hst Hn; destruct (clean_name n Hn) as [Hs Hn0].
  - by apply prefix_dirs_name.
  - rewrite closed_cons, <- !app_assoc. cbn [app].
    destruct (resolved_inv m st Hst) as [[-> ->]|[Hm Hst']].
    + cbn [closed app prefix_dirs]. change (closed []) with (@nil Z). cbn [app prefix_dirs].
      rewrite prefix_dirs_name by done. destruct n as [|x n]; [done|].
      apply Forall_cons in Hs as [[Hx _] _]. cbn [app dirs_of]. by case_bool.
    + destruct (clean_name m Hm) as [_ Hm0]. rewrite app_assoc, prefix_dirs_slash, IH; [|done..| |done].
      * cbn [dirs_of app]. rewrite render_open by done. by destruct m.
      * by destruct (closed st); [destruct m|].
Qed.

Lemma create_file_run n st tail (f : F) :
  resolved (n :: st) -> n <> [] -> zlen (render (n :: st)) < MAX_FILENAME_LENGTH ->
  create_file_by_path (render (n :: st) ++ 0 :: tail) f
  = Some (make_and_open (dirs_of st) (render (n :: st)) f).
Proof.
  intros Hr Hn Hlen. destruct (resolved_inv n st Hr) as [[-> _]|[Hc Hst]]; [done|].
  destruct (normal_render (n :: st) Hr) as [Hs _]; [done|].
  unfold create_file_by_path. rewrite buf_cstr_app by done. cbn [mbind option_bind].
  rewrite render_open in * by done. destruct (clean_name n Hc) as [Hns _].
  rewrite <- (prefix_dirs_closed st n) by done.
  destruct n as [|x n _] using rev_ind; [done|].
  apply Forall_app in Hns as [_ Hx]. apply Forall_cons in Hx as [[Hx _] _].
  apply (create_loop_spec (closed st ++ n ++ [x]) [] tail f x); [done| | |done].
  - unfold zlen, MAX_FILENAME_LENGTH in Hlen. cbn [app]. lia.
  - by rewrite app_assoc, last_snoc.
Qed.

(** ** Contents *)
Context `{!FileSysLaws F}.

Lemma check_dir_data d f q : fs_data (snd (_check_or_create_directory d f)) q = fs_data f q.
Proof.
  unfold _check_or_create_directory. destruct (fs_opendir f d); [done|].
  pose proof (mkdir_data f d q) as H. by destruct (fs_mkdir f d).
Qed.

Lemma make_dirs_data ds : forall f q, fs_data (snd (make_dirs ds f)) q = fs_data f q.
Proof.
  induction ds as [|d ds IH]; intros f q; [done|]. cbn [make_dirs].
  pose proof (check_dir_data d f q) as H. destruct (_check_or_create_directory d f) as [r f'].
  destruct (r <? 0); [done|]. by rewrite IH.
Qed.

Lemma make_and_open_data ds p f fd f' :
  make_and_open ds p f = (fd, f') ->
  (forall q, q <> p -> fs_data f' q = fs_data f q) /\
  (0 < fd -> fs_cursor f' fd = Some (p, 0) /\ fs_data f' p = Some (default [] (fs_data f p))) /\
  (fd <= 0 -> fd = -1).
Proof.
  unfold make_and_open. pose proof (make_dirs_data ds f) as H.
  destruct (make_dirs ds f) as [ok f1]. cbn [snd] in H. destruct ok.
  - destruct (fs_open f1 p) as [fd1 f2] eqn:E. intros [= <- <-]. split_and!.
    + intros q Hq. by rewrite (open_frame f1 p fd1 f2 q E Hq).
    + case_bool. intros _. destruct (open_ok f1 p fd1 f2 E) as [H1 H2]; [done|].
      by rewrite H1, H2, H.
    + by case_bool.
  - intros [= <- <-]. split_and!; [done|lia|done].
Qed.

(** Creating a file by its path: for a resolved path that fits the local
    buffer, every directory of the path is opened or made, from the top down
    and each once, and the file itself is opened last, with the contents it
    had; no other file changes; a directory that cannot be made or a file that
    cannot be opened gives -1. *)
Theorem create_file_by_path_spec n st tail (f : F) :
  resolved (n :: st) -> n <> [] -> zlen (render (n :: st)) < MAX_FILENAME_LENGTH ->
  let p := render (n :: st) in
  exists fd f', create_file_by_path (p ++ 0 :: tail) f = Some (fd, f') /\
    make_and_open (dirs_of st) p f = (fd, f') /\
    (forall q, q <> p -> fs_data f' q = fs_data f q) /\
    (0 < fd -> fs_cursor f' fd = Some (p, 0) /\ fs_data f' p = Some (default [] (fs_data f p))) /\
    (fd <= 0 -> fd = -1).
Proof.
  intros Hr Hn Hlen p. destruct (make_and_open (dirs_of st) p f) as [fd f'] eqn:E.
  exists fd, f'. unfold p. rewrite create_file_run by done. fold p. rewrite E.
  split_and!; [done|done|by eapply make_and_open_data..].
Qed.

(** Pieces after the first: the descriptor is open at [off]. *)
Lemma upload_more stack fname fd p ds : forall old f off data size b,
  0 < fd -> zlen fname <= 127 -> (forall f d, fs_cursor f fd <> None -> fst (fs_write f fd d) = zlen d) ->
  fs_cursor f fd = Some (p, off) -> fs_data f p = Some data -> 0 <= off <= zlen data ->
  0 <= size -> size + zlen (concat ds) < 2 ^ 31 -> old = fname ->
  exists f', upload_pieces stack fname ds (DirState old (Some (UploadMgr fd size b)) f)
    = Some (map zlen ds, DirState fname (Some (UploadMgr fd (size + zlen (concat ds)) b)) f') /\
    fs_data f' p = Some (overwrite data off (concat ds)) /\
    (forall q, q <> p -> fs_data f' q = fs_data f q).
Proof.
  induction ds as [|d ds IH]; intros old f off data size b Hfd Hfn Hw Hcur Hdata Hoff Hs Hsum ->.
  - exists f. cbn. rewrite zlen_nil, Z.add_0_r, overwrite_nil. done.
  - cbn [upload_pieces concat map] in *. rewrite zlen_app in Hsum |- *.
    pose proof (zlen_nonneg d). pose proof (zlen_nonneg (concat ds)).
    unfold upload_write. cbn [user_mgr old_filename files mgr_fd current_file_size base_path].
    destruct (Z.ltb_spec (128 - 1) (zlen fname)); [lia|].
    rewrite bool_decide_true by done. cbn [mbind option_bind mgr_fd current_file_size base_path].
    destruct (Z.ltb_spec 0 fd); [|lia]. rewrite i32_id by lia.
    destruct (fs_write f fd d) as [r f1] eqn:E.
    assert (r = zlen d) as -> by by rewrite <- (Hw f d), E by by rewrite Hcur.
    cbn [snd].
    destruct (write_ok f fd d f1 p off data E Hcur Hdata Hoff) as [Hd1 Hc1].
    destruct (IH fname f1 (off + zlen d) (overwrite data off d) (size + zlen d) b)
      as (f' & -> & Hd & Hq); try done; [|lia|lia|].
    { split; [lia|]. by apply overwrite_len. }
    cbn [mbind option_bind]. exists f'. split_and!.
    + by rewrite Z.add_assoc.
    + by rewrite Hd, overwrite_seq by lia.
    + intros q Hne. rewrite Hq by done. pose proof (write_frame f fd d p off q Hcur Hne) as H3.
      by rewrite E in H3.
Qed.

Lemma overwrite_start old d : overwrite old 0 d = d ++ drop (length d) old.
Proof. done. Qed.

(** A file uploaded under a new name is stored: when its path resolves
    below the base path, fits the buffer, can be opened and every write
    succeeds, the pieces are acknowledged with their lengths, the size
    counts them all, and the file at the resolved path holds them one after
    the other, followed by what an older, longer file held there; no other
    file changes. *)
Lemma file_stored stack fname p base n st d ds s mgr fd f1 :
  user_mgr s = Some mgr -> base_path mgr = Some p -> old_filename s <> fname ->
  cstring fname -> cstring p -> zlen stack = MAX_FILENAME_LENGTH ->
  zlen fname + zlen p + 2 <= MAX_FILENAME_LENGTH ->
  normal (p ++ [slash]) = Some base -> resolve base (names fname) = Some (n :: st) -> n <> [] ->
  make_and_open (dirs_of st) (render (n :: st))
    (if 0 <? mgr_fd mgr then fs_close (files s) (mgr_fd mgr) else files s) = (fd, f1) -> 0 < fd ->
  (forall f d, fs_cursor f fd <> None -> fst (fs_write f fd d) = zlen d) ->
  0 <= current_file_size mgr -> current_file_size mgr + zlen (concat (d :: ds)) < 2 ^ 31 ->
  let old := default [] (fs_data (files s) (render (n :: st))) in
  let body := concat (d :: ds) in
  exists f', upload_pieces stack fname (d :: ds) s
    = Some (map zlen (d :: ds),
            DirState fname (Some (UploadMgr fd (current_file_size mgr + zlen body) (Some p))) f') /\
    fs_data f' (render (n :: st)) = Some (body ++ drop (length body) old) /\
    (forall q, q <> render (n :: st) -> fs_data f' q = fs_data (files s) q).
Proof.
  intros Hmgr Hp Hold Hcf Hcp Hst Hfit Hbase Hres Hn Hopen Hfd Hw Hsz Hsum old body.
  destruct (relative_path_ok fname stack p base n st) as (Hr & junk & Hrel & Hl);
    [done..|by rewrite Hst|].
  assert (Hfirst : upload_pieces stack fname (d :: ds) s
    = upload_pieces stack fname (d :: ds)
        (DirState fname (Some (UploadMgr fd (current_file_size mgr) (Some p))) f1)).
  { cbn [upload_pieces]. unfold upload_write. rewrite Hmgr.
    destruct (Z.ltb_spec (128 - 1) (zlen fname)).
    { unfold MAX_FILENAME_LENGTH in Hfit. pose proof (zlen_nonneg p). lia. }
    cbn [user_mgr old_filename files]. rewrite (bool_decide_false _ Hold), Hp.
    rewrite bool_decide_true by done. cbn [mbind option_bind]. rewrite Hrel.
    cbn [mbind option_bind]. rewrite create_file_run, Hopen; [done|done|done|].
    autorewrite with zlen in Hl. pose proof (zlen_nonneg junk). lia. }
  rewrite Hfirst. destruct (make_and_open_data _ _ _ _ _ Hopen) as (Hframe & Hok & _).
  destruct (Hok Hfd) as [Hcur Hdata].
  assert (Hclose : forall q, fs_data (if 0 <? mgr_fd mgr then fs_close (files s) (mgr_fd mgr)
    else files s) q = fs_data (files s) q) by (intros q; destruct (0 <? mgr_fd mgr); [apply close_data|done]).
  rewrite Hclose in Hdata.
  destruct (upload_more stack fname fd (render (n :: st)) (d :: ds) fname f1 0 old
    (current_file_size mgr) (Some p)) as (f' & E & Hd & Hq); try done.
  { pose proof (zlen_nonneg p). unfold MAX_FILENAME_LENGTH in Hfit. lia. }
  { split; [lia|apply zlen_nonneg]. }
  exists f'. split_and!; [exact E|exact Hd|].
  intros q Hne. by rewrite Hq, Hframe, Hclose.
Qed.

(** The name of the last file outlives its session: when the next session
    starts with the same name, no file is opened and nothing is written,
    although every piece is acknowledged and the reply reports the full
    size. *)
Theorem upload_same_name_dropped stack fname query ds s :
  old_filename s = fname -> zlen fname <= 127 -> zlen (concat ds) < 2 ^ 31 ->
  exists s', upload_pieces stack fname ds (upload_open true query s) = Some (map zlen ds, s') /\
    files s' = files s /\
    exists s'', upload_done s' = Some (status_text (zlen (concat ds)), s'') /\
      files s'' = fs_close (files s) 0.
Proof.
  intros Hold Hfn Hsum. unfold upload_open.
  assert (H : forall ds size, 0 <= size -> size + zlen (concat ds) < 2 ^ 31 ->
    upload_pieces stack fname ds (DirState (old_filename s) (Some (UploadMgr 0 size query)) (files s))
    = Some (map zlen ds,
        DirState (old_filename s) (Some (UploadMgr 0 (size + zlen (concat ds)) query)) (files s))).
  { clear ds Hsum. intros ds. induction ds as [|d ds IH]; intros size Hs Hsum.
    - cbn [upload_pieces concat map]. change (zlen []) with 0. by rewrite Z.add_0_r.
    - cbn [upload_pieces concat map] in *. rewrite zlen_app in Hsum |- *.
      pose proof (zlen_nonneg d). pose proof (zlen_nonneg (concat ds)).
      unfold upload_write. cbn [user_mgr old_filename files mgr_fd current_file_size base_path].
      destruct (Z.ltb_spec (128 - 1) (zlen fname)); [lia|]. rewrite bool_decide_true by done.
      cbn [mbind option_bind mgr_fd current_file_size base_path Z.ltb Z.compare].
      rewrite i32_id by lia. rewrite IH by lia. cbn [mbind option_bind]. by rewrite Z.add_assoc. }
  rewrite H by lia. eexists. split_and!; [done|done|]. by eexists.
Qed.

End DirUpload.

(** ** A file system with the directory [/webnet] and one file *)
Definition sample_files : mem_fs :=
  MemFs [str "/webnet"] {[ str "/webnet/a.txt" := str "0123456789" ]} ∅ 3.

Lemma create_file_by_path_spec_witness :
  let p := str "/webnet/x/b" in
  exists fd f', create_file_by_path (p ++ 0 :: []) sample_files = Some (fd, f') /\
    make_and_open [str "/webnet"; str "/webnet/x"] p sample_files = (fd, f') /\
    (forall q, q <> p -> fs_data f' q = fs_data sample_files q) /\
    (0 < fd -> fs_cursor f' fd = Some (p, 0) /\
       fs_data f' p = Some (default [] (fs_data sample_files p))) /\
    (fd <= 0 -> fd = -1).
Proof.
  apply (create_file_by_path_spec (str "b") [str "x"; str "webnet"; []] [] sample_files).
  - exists [str "b"; str "x"; str "webnet"], [[]]. split_and!; [done| |by right].
    unfold clean, no_slash. by_decide.
  - done.
  - by vm_compute.
Defined.

(** A shorter file over a longer one keeps the end of the longer one. *)
Lemma file_stored_sample :
  exists f', upload_pieces (replicate 128 7) (str "a.txt") [str "ab"; str "cd"]
      (DirState [] (Some (UploadMgr 0 0 (Some (str "/webnet")))) sample_files)
    = Some ([2; 2], DirState (str "a.txt") (Some (UploadMgr 3 4 (Some (str "/webnet")))) f') /\
    fs_data f' (str "/webnet/a.txt") = Some (str "abcd456789") /\
    (forall q, q <> str "/webnet/a.txt" -> fs_data f' q = fs_data sample_files q).
Proof.
  edestruct (file_stored (replicate 128 7) (str "a.txt") (str "/webnet") [str "webnet"; []]
    (str "a.txt") [str "webnet"; []] (str "ab") [str "cd"]
    (DirState [] (Some (UploadMgr 0 0 (Some (str "/webnet")))) sample_files)
    (UploadMgr 0 0 (Some (str "/webnet"))) 3
    (snd (mem_open sample_files (str "/webnet/a.txt")))) as (f' & E & Hd & Hq);
    try done; try by_decide.
  - intros f d Hc. cbn in *. unfold mem_write. by destruct (mf_fds f !! 3) as [[]|].
  - exists f'. split_and!; [exact E| |exact Hq]. etransitivity; [exact Hd|by vm_compute].
Defined.

Lemma upload_same_name_dropped_witness :
  exists s', upload_pieces (replicate 128 7) (str "a.txt") [str "new"]
      (upload_open true (Some (str "/webnet")) (DirState (str "a.txt") None sample_files))
    = Some ([3], s') /\ files s' = sample_files /\
    exists s'', upload_done s' = Some (status_text 3, s'') /\
      files s'' = fs_close sample_files 0.
Proof.
  apply (upload_same_name_dropped (replicate 128 7) (str "a.txt") (Some (str "/webnet")) [str "new"]
    (DirState (str "a.txt") None sample_files)); [done|by vm_compute..].
Defined.

End DirUpload.

(** ** The firmware upload *)
Module FirmUpload.
Section FirmUpload.
Context {F : Type}.
Context (device_table : list (fal_flash_dev F)).

(** [file_size] is a static variable; [part] is the user data of the session;
    [reset] is the flag of src/module/system/system.c. *)
Record firm_state := FirmState {
  file_size : Z;
  part : option (list Z);
  flash : F;
  reset : bool
}.

Definition system_reset (s : firm_state) : firm_state :=
  FirmState (file_size s) (part s) (flash s) true.

(** [strrchr(s, c)] and one step further, or [s] without such a character. *)
Fixpoint after_last (c : Z) (s : list Z) : option (list Z) :=
  match s with
  | [] => None
  | x :: s =>
      match after_last c s with
      | Some t => Some t
      | None => if x =? c then Some s else None
      end
  end.

Definition get_file_name (filename : option (list Z)) : option (list Z) :=
  path_last ← filename;
  let path_last := default path_last (after_last 92 path_last) in
  Some (default path_last (after_last 47 path_last)).

(** [upload_open]; a failed assertion of the partition search halts.  Without
    a partition the session is closed and [file_size] keeps its value. *)
Definition upload_open (fal : fal_state) (filename : option (list Z)) (s : firm_state)
  : option firm_state :=
  match filename with
  | None => Some (FirmState 0 None (flash s) (reset s))
  | Some _ =>
      p ← fal_partition_find fal (str "download");
      match p with
      | None => Some (FirmState (file_size s) None (flash s) (reset s))
      | Some p => Some (FirmState 0 (Some p) (flash s) (reset s))
      end
  end.

Definition upload_write (data : list Z) (s : firm_state) : Z * firm_state :=
  match part s with
  | None => (0, s)
  | Some p =>
      let '(_, f) := fal_partition_write device_table p (flash s) (u32 (file_size s)) data in
      (zlen data, FirmState (i32 (file_size s + zlen data)) (part s) f (reset s))
  end.

Definition upload_done (s : firm_state) : list Z * firm_state :=
  (status_text (file_size s), system_reset s).

Definition upload_close (s : firm_state) : Z * firm_state := (0, s).

(** The pieces of the firmware, one call each. *)
Fixpoint upload_pieces (ds : list (list Z)) (s : firm_state) : list Z * firm_state :=
  match ds with
  | [] => ([], s)
  | d :: ds =>
      let '(r, s) := upload_write d s in
      let '(rs, s) := upload_pieces ds s in (r :: rs, s)
  end.

(** ** Reference *)

(** The pieces before the first that crosses the end of the partition. *)
Fixpoint fitting (len pos : Z) (ds : list (list Z)) : list (list Z) :=
  match ds with
  | [] => []
  | d :: ds => if pos + zlen d <=? len then d :: fitting len (pos + zlen d) ds else []
  end.

(** One write after the other on the device, from offset [a]. *)
Fixpoint write_seq (ops : flash_ops F) (f : F) (a : Z) (ds : list (list Z)) : F :=
  match ds with
  | [] => f
  | d :: ds => write_seq ops (snd (op_write ops f a d)) (a + zlen d) ds
  end.

Lemma after_last_plain c s t : after_last c s = Some t -> (c ∉ t) /\ exists u, s = u ++ c :: t.
Proof.
  revert t. induction s as [|x s IH]; intros t; [done|]. cbn [after_last].
  destruct (after_last c s) as [t'|] eqn:E.
  - intros [= <-]. destruct (IH t' eq_refl) as (H & u & ->). split; [done|]. by exists (x :: u).
  - case_bool. intros [= <-]. subst x. split; [|by exists []]. clear IH.
    induction s as [|y s IH]; [apply not_elem_of_nil|]. cbn [after_last] in E.
    destruct (after_last c s); [done|]. rewrite not_elem_of_cons. revert E. case_bool.
    intros _. split; [done|by apply IH].
Qed.

Section Partition.
Context (p : list Z) (d : fal_flash_dev F).
Hypothesis Hdev : find_device device_table (flash_name p) = Some d.
Hypothesis Hfit : 0 <= part_offset p /\ part_offset p + part_len p <= dev_len d.
Hypothesis Hdevlen : dev_len d < 2 ^ 31.

(** Once past the end, nothing more is written. *)
Lemma pieces_past ds : forall pos f r,
  part_len p < pos -> 0 <= pos -> pos + zlen (concat ds) < 2 ^ 31 ->
  upload_pieces ds (FirmState pos (Some p) f r)
  = (map zlen ds, FirmState (pos + zlen (concat ds)) (Some p) f r).
Proof.
  induction ds as [|x ds IH]; intros pos f r Hpos H0 Hsum.
  - cbn [upload_pieces concat map fitting write_seq]. change (zlen []) with 0. by rewrite Z.add_0_r.
  - cbn [upload_pieces concat map] in *. rewrite zlen_app in Hsum |- *.
    pose proof (zlen_nonneg x). pose proof (zlen_nonneg (concat ds)).
    unfold upload_write. cbn [part flash file_size reset]. unfold fal_partition_write.
    rewrite !u32_id by (rewrite ?u32_id; lia).
    destruct (Z.ltb_spec (part_len p) (pos + zlen x)); [|lia].
    rewrite i32_id by lia. rewrite IH by lia. by rewrite Z.add_assoc.
Qed.

Lemma pieces_written ds : forall pos f r,
  0 <= pos <= part_len p -> pos + zlen (concat ds) < 2 ^ 31 ->
  upload_pieces ds (FirmState pos (Some p) f r)
  = (map zlen ds, FirmState (pos + zlen (concat ds)) (Some p)
       (write_seq (dev_ops d) f (part_offset p + pos) (fitting (part_len p) pos ds)) r).
Proof.
  induction ds as [|x ds IH]; intros pos f r Hpos Hsum.
  - cbn [upload_pieces concat map fitting write_seq]. change (zlen []) with 0. by rewrite Z.add_0_r.
  - cbn [upload_pieces concat map fitting] in *. rewrite zlen_app in Hsum |- *.
    pose proof (zlen_nonneg x). pose proof (zlen_nonneg (concat ds)).
    unfold upload_write. cbn [part flash file_size reset]. rewrite u32_id by lia.
    destruct (Z.leb_spec (pos + zlen x) (part_len p)).
    + destruct (partition_inside device_table p d Hdev Hfit Hdevlen f pos (zlen x) x)
        as (_ & -> & _); [lia..|].
      cbn [write_seq]. destruct (op_write (dev_ops d) f (part_offset p + pos) x) as [w f'].
      rewrite i32_id by lia. rewrite IH by lia. by rewrite !Z.add_assoc.
    + unfold fal_partition_write. rewrite u32_id by lia.
      destruct (Z.ltb_spec (part_len p) (pos + zlen x)); [|lia].
      rewrite i32_id by lia. rewrite pieces_past by lia. cbn [write_seq]. by rewrite Z.add_assoc.
Qed.

(** What a firmware upload does to the flash: after the session is opened
    the pieces are written to the partition one after the other from its start,
    up to the first piece that crosses its end; that piece and all later ones
    are dropped, and yet every piece is acknowledged, the reply is code 0 with
    the full size and the reboot is requested. *)
Theorem firm_upload_written fal name ds s :
  fal_partition_find fal (str "download") = Some (Some p) -> 0 <= part_len p ->
  zlen (concat ds) < 2 ^ 31 ->
  exists s0 s1, upload_open fal (Some name) s = Some s0 /\
    upload_pieces ds s0 = (map zlen ds, s1) /\
    flash s1 = write_seq (dev_ops d) (flash s) (part_offset p) (fitting (part_len p) 0 ds) /\
    fst (upload_done s1) = status_text (zlen (concat ds)) /\ reset (snd (upload_done s1)) = true.
Proof.
  intros Hfind Hlen Hsum. unfold upload_open. rewrite Hfind. cbn [mbind option_bind].
  eexists _, _. split; [done|]. rewrite pieces_written by lia.
  split; [done|]. rewrite Z.add_0_r. done.
Qed.

End Partition.
End FirmUpload.

(** ** A small partition [download] on a NOR flash *)
Definition sample_download : list Z := mk_partition (str "download") (str "w60x_onchip") 8192 4.

Definition sample_fal : fal_state := FalState true true [sample_download] 1 true.

(** The second piece crosses the end: it and the third are dropped. *)
Lemma firm_upload_written_witness :
  exists s0 s1, upload_open sample_fal (Some (str "fw.bin")) (FirmState 9 None (fun _ => 255) false) = Some s0 /\
    upload_pieces [sample_dev] [[1; 2; 3]; [4; 5]; [6]] s0 = ([3; 2; 1], s1) /\
    flash s1 = snd (op_write (nor_ops 4096) (fun _ => 255) 8192 [1; 2; 3]) /\
    fst (upload_done s1) = status_text 6 /\ reset (snd (upload_done s1)) = true.
Proof.
  destruct (firm_upload_written [sample_dev] sample_download sample_dev
    ltac:(apply find_device_head; by vm_compute) ltac:(by_decide) ltac:(by_decide) sample_fal (str "fw.bin") [[1; 2; 3]; [4; 5]; [6]]
    (FirmState 9 None (fun _ => 255) false)) as (s0 & s1 & H1 & H2 & H3 & H4 & H5);
    [by vm_compute..|].
  exists s0, s1. split_and!; [exact H1|exact H2| |exact H4|exact H5]. rewrite H3.
  replace (part_offset sample_download) with 8192 by by vm_compute.
  replace (fitting (part_len sample_download) 0 [[1; 2; 3]; [4; 5]; [6]]) with [[1; 2; 3]]
    by by vm_compute.
  reflexivity.
Defined.

End FirmUpload.
