(* ===== verification/UlogTcp.v ===== *)
(** * The TCP log backend

    Models src/packages/ulog_tcp/ulog_tcp.c: the list of log servers, their
    connections, the thread that watches and reconnects them, the calls that
    add and delete servers and the output function.  A node of the linked list
    is a record with its address; the network is a parameter whose answers may
    differ at every step.  The component is a transition system: every call
    and every turn of the thread is a step.  The theorems show that on every
    reachable state each open descriptor belongs to exactly one server, which
    servers a call adds or deletes, when a lost connection is retried, and
    what an output sends. *)

From S2P Require Import Prelude CLib.

Local Open Scope Z_scope.

Definition ULOG_TCP_CONN_RETRY_TIMEOUT : Z := 1000 * 10.
Definition ULOG_TCP_MAX_SERVER_COUNT : Z := 3.
Definition RT_TICK_PER_SECOND : Z := 1000.
Definition RT_TICK_MAX : Z := 2 ^ 32 - 1.

(** [rt_tick_from_millisecond] of src/rt-thread/src/clock.c. *)
Definition rt_tick_from_millisecond (ms : Z) : Z :=
  if ms <? 0 then RT_TICK_MAX
  else u32 (u32 (RT_TICK_PER_SECOND * (ms / 1000))
            + (RT_TICK_PER_SECOND * (ms `mod` 1000) + 999) / 1000).

(** ** Data *)
Record ulog_tcp_t := UlogTcp {
  addr : Z;        (* where the node lies *)
  socket : Z;
  ip : list Z;
  port : Z;
  timeout : Z
}.

(** [opened] are the descriptors that [socket] has returned and that have not
    been closed; [sent] is what has been sent, the oldest first. *)
Record world := World {
  ulog_tcp_list : list ulog_tcp_t;
  ulog_tcp_shutdown : bool;
  running : bool;
  tick : Z;
  opened : list Z;
  sent : list (Z * list Z)
}.

Definition set_list (l : list ulog_tcp_t) (w : world) : world :=
  World l (ulog_tcp_shutdown w) (running w) (tick w) (opened w) (sent w).

Definition set_opened (o : list Z) (w : world) : world :=
  World (ulog_tcp_list w) (ulog_tcp_shutdown w) (running w) (tick w) o (sent w).

Definition set_socket (fd : Z) (c : ulog_tcp_t) : ulog_tcp_t :=
  UlogTcp (addr c) fd (ip c) (port c) (timeout c).

Definition set_timeout (t : Z) (c : ulog_tcp_t) : ulog_tcp_t :=
  UlogTcp (addr c) (socket c) (ip c) (port c) t.

(** A node by its address, and an assignment through a pointer to it. *)
Definition node (a : Z) (l : list ulog_tcp_t) : option ulog_tcp_t :=
  List.find (fun c => addr c =? a) l.

Definition update (a : Z) (f : ulog_tcp_t -> ulog_tcp_t) (w : world) : world :=
  set_list (map (fun c => if addr c =? a then f c else c) (ulog_tcp_list w)) w.

(** Unlinking: the node is the head, or the [next] of some node. *)
Fixpoint unlink (a : Z) (l : list ulog_tcp_t) : list ulog_tcp_t :=
  match l with
  | [] => []
  | c :: l => if addr c =? a then l else c :: unlink a l
  end.

(** ** Connections *)

(** [closesocket] gives the descriptor back. *)
Definition closesocket (fd : Z) (w : world) : world :=
  set_opened (List.filter (fun x => negb (x =? fd)) (opened w)) w.

Definition retry_at (w : world) : Z :=
  u32 (tick w + rt_tick_from_millisecond ULOG_TCP_CONN_RETRY_TIMEOUT).

Definition ulog_tcp_close_one_connection (conn : Z) (del : bool) (w : world) : world :=
  match node conn (ulog_tcp_list w) with
  | None => w
  | Some c =>
      let w := if del then set_list (unlink conn (ulog_tcp_list w)) w else w in
      let w := if 0 <? socket c
               then update conn (set_socket (-1)) (closesocket (socket c) w) else w in
      if del then w else update conn (set_timeout (retry_at w)) w
  end.

(** The walk reads [next] before a node may be freed: it meets the nodes of
    the list it starts with. *)
Definition ulog_tcp_close_all_connection (del : bool) (w : world) : world :=
  foldl (fun w c => ulog_tcp_close_one_connection (addr c) del w) w (ulog_tcp_list w).

(** The answers of the network.  [net_socket] depends on the open descriptors,
    [net_recv] on how many calls came before. *)
Record network := Network {
  net_socket : list Z -> Z;
  net_ioctl : Z -> Z;
  net_connect : Z -> list Z -> Z -> Z * bool;    (* result; errno is EINPROGRESS *)
  net_select : Z -> list Z -> Z * list Z;
  net_recv : Z -> nat -> Z * bool                (* result; errno is EWOULDBLOCK *)
}.

(** The address in network byte order, as it lies in memory. *)
Definition MAKEU32 (a b c d : Z) : Z :=
  Z.lor (Z.lor (Z.shiftl (Z.land a 0xff) 24) (Z.shiftl (Z.land b 0xff) 16))
        (Z.lor (Z.shiftl (Z.land c 0xff) 8) (Z.land d 0xff)).

Definition PP_HTONL (x : Z) : Z :=
  Z.lor (Z.lor (Z.shiftl (Z.land x 0x000000ff) 24) (Z.shiftl (Z.land x 0x0000ff00) 8))
        (Z.lor (Z.shiftr (Z.land x 0x00ff0000) 8) (Z.shiftr (Z.land x 0xff000000) 24)).

Definition s_addr (i : list Z) : list Z :=
  le_bytes 4 (PP_HTONL (MAKEU32 (nth 0 i 0) (nth 1 i 0) (nth 2 i 0) (nth 3 i 0))).

Definition ulog_tcp_connect (net : network) (utcp : Z) (w : world) : Z * world :=
  match node utcp (ulog_tcp_list w) with
  | None => (-1, w)
  | Some c =>
      let '(fd, w) :=
        if socket c <=? 0 then
          let fd := net_socket net (opened w) in
          (fd, update utcp (set_socket fd)
                 (if 0 <? fd then set_opened (fd :: opened w) w else w))
        else (socket c, w) in
      let err :=
        let w := ulog_tcp_close_one_connection utcp false w in
        (-1, update utcp (set_timeout (retry_at w)) w) in
      if fd <=? 0 then err
      else if net_ioctl net fd <? 0 then err
      else
        let '(r, in_progress) := net_connect net fd (s_addr (ip c)) (port c) in
        if (r <? 0) && negb in_progress then err else (0, w)
  end.

(** One node of the reconnection walk: it has no socket and its time has
    come, in wrap-around arithmetic. *)
Definition due (now : Z) (c : ulog_tcp_t) : bool :=
  (socket c <=? 0) && (u32 (now - timeout c) <? RT_TICK_MAX / 2).

Definition reconnect_one (net : network) (w : world) (a : Z) : world :=
  match node a (ulog_tcp_list w) with
  | None => w
  | Some c => if due (tick w) c then snd (ulog_tcp_connect net a w) else w
  end.

Definition ulog_tcp_handle_reconnect (net : network) (w : world) : world :=
  foldl (reconnect_one net) w (map addr (ulog_tcp_list w)).

(** ** Watching the connections *)
Definition ulog_tcp_list_set_fds (w : world) : Z * list Z :=
  foldl (fun '(maxfd, readset) c =>
           if socket c <=? 0 then (maxfd, readset)
           else (if maxfd <? socket c + 1 then socket c + 1 else maxfd, socket c :: readset))
    (0, []) (ulog_tcp_list w).

(** The [while (1)] around [recv]; [None] when the fuel runs out. *)
Fixpoint recv_loop (fuel : nat) (net : network) (a fd : Z) (k : nat) (w : world) : option world :=
  match fuel with
  | O => None
  | S fuel =>
      let '(ret, would_block) := net_recv net fd k in
      if ret =? 0 then Some (ulog_tcp_close_one_connection a false w)
      else if ret <? 0 then
        if would_block then Some w else Some (ulog_tcp_close_one_connection a false w)
      else recv_loop fuel net a fd (S k) w
  end.

Fixpoint handle_fds (fuel : nat) (net : network) (readset : list Z) (l : list Z) (w : world)
  : option world :=
  match l with
  | [] => Some w
  | a :: l =>
      match node a (ulog_tcp_list w) with
      | None => handle_fds fuel net readset l w
      | Some c =>
          if socket c <? 0 then handle_fds fuel net readset l w
          else if bool_decide (socket c ∈ readset)
          then w ← recv_loop fuel net a (socket c) 0 w; handle_fds fuel net readset l w
          else handle_fds fuel net readset l w
      end
  end.

Definition ulog_tcp_list_handle_fds (fuel : nat) (net : network) (readset : list Z) (w : world)
  : option world := handle_fds fuel net readset (map addr (ulog_tcp_list w)) w.

(** ** The backend *)
Definition _ulog_tcp_output (log : list Z) (w : world) : world :=
  World (ulog_tcp_list w) (ulog_tcp_shutdown w) (running w) (tick w) (opened w)
    (sent w ++ map (fun c => (socket c, log))
       (List.filter (fun c => 0 <? socket c) (ulog_tcp_list w))).

Definition _ulog_tcp_deinit (w : world) : world :=
  World (ulog_tcp_list w) true (running w) (tick w) (opened w) (sent w).

Definition set_tick (t : Z) (w : world) : world :=
  World (ulog_tcp_list w) (ulog_tcp_shutdown w) (running w) t (opened w) (sent w).

(** [_ulog_tcp_init] when the mutex and the thread can be created: the thread
    starts and clears the flag. *)
Definition _ulog_tcp_init (w : world) : world :=
  World (ulog_tcp_list w) false true (tick w) (opened w) (sent w).

(** One turn of [ulog_tcp_thread]. *)
Definition ulog_tcp_thread (fuel : nat) (net : network) (w : world) : option world :=
  if ulog_tcp_shutdown w then
    let w := ulog_tcp_close_all_connection true w in
    Some (World (ulog_tcp_list w) true false (tick w) (opened w) (sent w))
  else
    let '(maxfd, readset) := ulog_tcp_list_set_fds w in
    let '(sockfd, readset) := net_select net maxfd readset in
    let w := ulog_tcp_handle_reconnect net w in
    if sockfd =? 0 then Some w
    else
      let w := if sockfd <? 0
               then set_tick (u32 (tick w + rt_tick_from_millisecond 1000))
                      (ulog_tcp_close_all_connection false w)
               else w in
      ulog_tcp_list_handle_fds fuel net readset w.

(** ** The calls *)
Definition same_server (i : list Z) (p : Z) (c : ulog_tcp_t) : bool :=
  bool_decide (ip c = i) && (port c =? p).

(** [mutex_ok]: the mutex is taken in time; [mem]: the node [rt_malloc]
    returns. *)
Definition ulog_tcp_add_server (mutex_ok : bool) (mem : option Z) (net : network)
    (i : list Z) (p : Z) (w : world) : Z * world :=
  if ulog_tcp_shutdown w then (-1, w)
  else if negb mutex_ok then (-1, w)
  else if existsb (same_server i p) (ulog_tcp_list w) then (-1, w)
  else if ULOG_TCP_MAX_SERVER_COUNT <? zlen (ulog_tcp_list w) then (-1, w)
  else match mem with
       | None => (-1, w)
       | Some a =>
           let w := set_list (UlogTcp a 0 i p 0 :: ulog_tcp_list w) w in
           (0, snd (ulog_tcp_connect net a w))
       end.

Definition ulog_tcp_delete_server (mutex_ok : bool) (i : list Z) (p : Z) (w : world)
  : Z * world :=
  if ulog_tcp_shutdown w then (-1, w)
  else if negb mutex_ok then (-1, w)
  else match List.find (same_server i p) (ulog_tcp_list w) with
       | None => (-1, w)
       | Some c => (0, ulog_tcp_close_one_connection (addr c) true w)
       end.

(** ** The transition system *)

(** A network that never hands out a descriptor that is still open. *)
Definition net_ok (net : network) : Prop :=
  forall o, net_socket net o <= 0 \/ net_socket net o ∉ o.

Inductive step : world -> world -> Prop :=
  | step_init w : step w (_ulog_tcp_init w)
  | step_deinit w : step w (_ulog_tcp_deinit w)
  | step_tick w t : step w (set_tick (u32 t) w)
  | step_output w log : step w (_ulog_tcp_output log w)
  | step_thread w net fuel w' :
      running w = true -> net_ok net -> ulog_tcp_thread fuel net w = Some w' -> step w w'
  | step_add w net mutex_ok mem i p :
      net_ok net -> (forall a, mem = Some a -> a ∉ map addr (ulog_tcp_list w)) ->
      step w (snd (ulog_tcp_add_server mutex_ok mem net i p w))
  | step_delete w mutex_ok i p : step w (snd (ulog_tcp_delete_server mutex_ok i p w)).

Definition boot : world := World [] false false 0 [] [].

Inductive reachable : world -> Prop :=
  | reach_boot : reachable boot
  | reach_step w w' : reachable w -> step w w' -> reachable w'.

(** ** The invariant *)
Definition key (c : ulog_tcp_t) : list Z * Z := (ip c, port c).

Definition sockets (l : list ulog_tcp_t) : list Z :=
  List.filter (fun fd => 0 <? fd) (map socket l).

(** Nodes and servers are distinct, there are at most four, and the open
    descriptors are the sockets of the servers, each of one server. *)
Record inv (w : world) : Prop := Inv {
  inv_addr : NoDup (map addr (ulog_tcp_list w));
  inv_key : NoDup (map key (ulog_tcp_list w));
  inv_count : zlen (ulog_tcp_list w) <= ULOG_TCP_MAX_SERVER_COUNT + 1;
  inv_owned : opened w ≡ₚ sockets (ulog_tcp_list w);
  inv_opened : NoDup (opened w)
}.

(** ** A node among the others *)
Lemma node_split a l c :
  NoDup (map addr l) -> node a l = Some c ->
  exists l1 l2, l = l1 ++ c :: l2 /\ addr c = a /\
    (forall x, x ∈ l1 ++ l2 -> addr x <> a).
Proof.
  intros Hnd Hn. induction l as [|x l IH]; [done|]. unfold node in *. cbn [List.find] in Hn.
  cbn [map] in Hnd. apply NoDup_cons in Hnd as [Hx Hnd].
  destruct (Z.eqb_spec (addr x) a) as [E|E].
  - injection Hn as ->. exists [], l. split_and!; [done..|]. cbn [app]. intros y Hy Ey. apply Hx.
    rewrite E, <- Ey. by apply (list_elem_of_fmap_2 addr).
  - destruct (IH Hnd Hn) as (l1 & l2 & -> & Ha & Hothers). exists (x :: l1), l2.
    split_and!; [done..|]. cbn [app]. intros y Hy. apply elem_of_cons in Hy as [-> |Hy]; [done|].
    by apply Hothers.
Qed.

Lemma map_others {l1 l2 : list ulog_tcp_t} {a} (f : ulog_tcp_t -> ulog_tcp_t) :
  (forall x, x ∈ l1 ++ l2 -> addr x <> a) ->
  let g := fun c => if addr c =? a then f c else c in
  map g l1 = l1 /\ map g l2 = l2.
Proof.
  intros H g.
  assert (Hid : forall l, (forall x, x ∈ l -> addr x <> a) -> map g l = l).
  { intros l. induction l as [|x l IH]; intros Hl; [done|]. cbn [map]. unfold g at 1.
    destruct (Z.eqb_spec (addr x) a) as [E|_]; [by destruct (Hl x); [left|]|].
    f_equal. apply IH. intros y Hy. apply Hl. by right. }
  split; apply Hid; intros x Hx; apply H, elem_of_app; auto.
Qed.

Lemma update_split w l1 c l2 f :
  ulog_tcp_list w = l1 ++ c :: l2 -> (forall x, x ∈ l1 ++ l2 -> addr x <> addr c) ->
  update (addr c) f w = set_list (l1 ++ f c :: l2) w.
Proof.
  intros E H. unfold update. rewrite E, map_app. cbn [map]. rewrite Z.eqb_refl.
  destruct (map_others f H) as [H1 H2]. by rewrite H1, H2.
Qed.

Lemma unlink_split l1 c l2 :
  (forall x, x ∈ l1 ++ l2 -> addr x <> addr c) -> unlink (addr c) (l1 ++ c :: l2) = l1 ++ l2.
Proof.
  induction l1 as [|x l1 IH]; intros H; cbn [app unlink]; [by rewrite Z.eqb_refl|].
  destruct (Z.eqb_spec (addr x) (addr c)) as [E|_]; [by destruct (H x); [left|]|].
  f_equal. apply IH. intros y Hy. apply H. by right.
Qed.

Lemma sockets_app l1 l2 : sockets (l1 ++ l2) = sockets l1 ++ sockets l2.
Proof. unfold sockets. by rewrite map_app, List.filter_app. Qed.

Lemma sockets_cons c l :
  sockets (c :: l) = (if 0 <? socket c then [socket c] else []) ++ sockets l.
Proof. unfold sockets. cbn [map List.filter]. by destruct (0 <? socket c). Qed.

(** Giving back one of distinct descriptors. *)
Lemma filter_remove (o l1 l2 : list Z) s :
  NoDup o -> o ≡ₚ l1 ++ s :: l2 ->
  List.filter (fun x => negb (x =? s)) o ≡ₚ l1 ++ l2.
Proof.
  intros Hnd Hp.
  assert (Hnd' : NoDup (s :: l1 ++ l2)) by (rewrite Permutation_middle, <- Hp; exact Hnd).
  apply NoDup_cons in Hnd' as [Hs Hnd'].
  apply NoDup_Permutation; [by apply NoDup_ListNoDup, List.NoDup_filter, NoDup_ListNoDup|done|].
  intros x. rewrite !list_elem_of_In, List.filter_In, <- !list_elem_of_In, Hp, negb_true_iff, Z.eqb_neq.
  rewrite !elem_of_app, elem_of_cons. rewrite elem_of_app in Hs.
  split; [intros [[?|[?|?]] ?]; auto; done|]. intros Hx. split; [tauto|]. intros ->. tauto.
Qed.

(** ** Preservation *)

(** The invariant speaks of the list and the open descriptors only. *)
Lemma inv_ext w w' :
  ulog_tcp_list w' = ulog_tcp_list w -> opened w' = opened w -> inv w -> inv w'.
Proof. intros El Eo [H1 H2 H3 H4 H5]. split; by rewrite ?El, ?Eo. Qed.

(** One node is replaced by a node of the same address and server. *)
Lemma inv_replace w w' l1 c c' l2 :
  inv w -> ulog_tcp_list w = l1 ++ c :: l2 -> ulog_tcp_list w' = l1 ++ c' :: l2 ->
  addr c' = addr c -> key c' = key c ->
  opened w' ≡ₚ sockets (l1 ++ c' :: l2) -> NoDup (opened w') -> inv w'.
Proof.
  intros [H1 H2 H3 H4 H5] E E' Ha Hk Ho Hn. split; try done; rewrite E'.
  - rewrite E, map_app in H1. rewrite map_app. cbn [map] in *. by rewrite Ha.
  - rewrite E, map_app in H2. rewrite map_app. cbn [map] in *. by rewrite Hk.
  - rewrite E, zlen_app, zlen_cons in H3. by rewrite zlen_app, zlen_cons.
  - done.
Qed.

Lemma map_update {A} (proj : ulog_tcp_t -> A) f a l :
  (forall c, proj (f c) = proj c) ->
  map proj (map (fun c => if addr c =? a then f c else c) l) = map proj l.
Proof.
  intros H. rewrite map_map. apply map_ext. intros c. by destruct (addr c =? a).
Qed.

Lemma update_timeout_inv a t w : inv w -> inv (update a (set_timeout t) w).
Proof.
  intros [H1 H2 H3 H4 H5].
  split; cbn [update set_list ulog_tcp_list opened]; unfold sockets, zlen;
    rewrite ?map_update, ?length_map by done; done.
Qed.

(** Closing keeps the invariant, whether or not the server stays. *)
Lemma close_one_inv a del w : inv w -> inv (ulog_tcp_close_one_connection a del w).
Proof.
  intros Hw. unfold ulog_tcp_close_one_connection.
  destruct (node a (ulog_tcp_list w)) as [c|] eqn:En; [|done].
  destruct (node_split a _ c (inv_addr w Hw) En) as (l1 & l2 & E & <- & Ho).
  pose proof Hw as [H1 H2 H3 H4 H5]. rewrite E in *. rewrite sockets_app, sockets_cons in H4.
  destruct del.
  - rewrite unlink_split by done.
    assert (Hl : forall o, o ≡ₚ sockets (l1 ++ l2) -> NoDup o -> inv (set_opened o (set_list (l1 ++ l2) w))).
    { intros o Hp Hnd. rewrite map_app in H1, H2. cbn [map] in H1, H2.
      rewrite <- Permutation_middle in H1, H2. apply NoDup_cons in H1 as [_ H1], H2 as [_ H2].
      rewrite zlen_app, zlen_cons in H3.
      split; cbn [set_opened set_list ulog_tcp_list opened]; rewrite ?map_app, ?zlen_app; try done; lia. }
    destruct (Z.ltb_spec 0 (socket c)).
    + unfold update. cbn [closesocket set_opened set_list ulog_tcp_list opened].
      rewrite map_app. destruct (map_others (set_socket (-1)) Ho) as [-> ->].
      apply (Hl (List.filter (fun x => negb (x =? socket c)) (opened w))).
      * rewrite sockets_app. by apply filter_remove.
      * by apply NoDup_ListNoDup, List.NoDup_filter, NoDup_ListNoDup.
    + apply (Hl (opened w)); [by rewrite sockets_app|done].
  - apply update_timeout_inv. destruct (Z.ltb_spec 0 (socket c)) as [Hs|Hs]; [|done].
    rewrite (update_split _ l1 c l2) by done.
    eapply inv_replace; [exact Hw|exact E|done..| |].
    + cbn [closesocket set_opened set_list ulog_tcp_list opened].
      rewrite sockets_app, sockets_cons. by apply filter_remove.
    + by apply NoDup_ListNoDup, List.NoDup_filter, NoDup_ListNoDup.
Qed.

Lemma foldl_inv {A} (f : world -> A -> world) l w :
  (forall w x, inv w -> inv (f w x)) -> inv w -> inv (foldl f w l).
Proof. intros H. revert w. induction l as [|x l IH]; intros w Hw; [done|]. cbn. auto. Qed.

Lemma close_all_inv del w : inv w -> inv (ulog_tcp_close_all_connection del w).
Proof. apply foldl_inv. intros w' c. apply close_one_inv. Qed.

(** Opening a socket for a server that has none. *)
Lemma open_socket_inv net w c l1 l2 :
  inv w -> net_ok net -> ulog_tcp_list w = l1 ++ c :: l2 ->
  (forall x, x ∈ l1 ++ l2 -> addr x <> addr c) -> socket c <= 0 ->
  let fd := net_socket net (opened w) in
  inv (update (addr c) (set_socket fd) (if 0 <? fd then set_opened (fd :: opened w) w else w)).
Proof.
  intros Hw Hnet E Ho Hs fd. pose proof Hw as [H1 H2 H3 H4 H5].
  rewrite E, sockets_app, sockets_cons in H4. destruct (Z.ltb_spec 0 (socket c)); [lia|].
  destruct (Z.ltb_spec 0 fd) as [Hfd|Hfd]; rewrite (update_split _ l1 c l2) by done;
    (eapply inv_replace; [exact Hw|exact E|done..| |]); cbn [set_opened set_list ulog_tcp_list opened].
  - rewrite sockets_app, sockets_cons. cbn [set_socket socket]. destruct (Z.ltb_spec 0 fd); [|lia].
    cbn [app]. rewrite <- Permutation_middle. by constructor.
  - apply NoDup_cons. split; [|done]. destruct (Hnet (opened w)); [unfold fd in Hfd; lia|done].
  - rewrite sockets_app, sockets_cons. cbn [set_socket socket]. by destruct (Z.ltb_spec 0 fd); [lia|].
  - done.
Qed.

Lemma connect_inv net a w : net_ok net -> inv w -> inv (snd (ulog_tcp_connect net a w)).
Proof.
  intros Hnet Hw. unfold ulog_tcp_connect.
  destruct (node a (ulog_tcp_list w)) as [c|] eqn:En; [|done].
  destruct (node_split a _ c (inv_addr w Hw) En) as (l1 & l2 & E & <- & Ho).
  set (r := if socket c <=? 0 then _ else _).
  assert (Hr : inv (snd r)).
  { unfold r. destruct (Z.leb_spec (socket c) 0); [|done]. by apply (open_socket_inv net w c l1 l2). }
  destruct r as [fd w1]. cbn [snd] in Hr.
  assert (Herr : inv (update (addr c) (set_timeout (retry_at (ulog_tcp_close_one_connection (addr c) false w1)))
    (ulog_tcp_close_one_connection (addr c) false w1))) by by apply update_timeout_inv, close_one_inv.
  destruct (fd <=? 0); [done|]. destruct (net_ioctl net fd <? 0); [done|].
  destruct (net_connect net fd (s_addr (ip c)) (port c)) as [res prog].
  by destruct ((res <? 0) && negb prog).
Qed.

Lemma reconnect_inv net w : net_ok net -> inv w -> inv (ulog_tcp_handle_reconnect net w).
Proof.
  intros Hnet. apply foldl_inv. intros w' a Hw'. unfold reconnect_one.
  destruct (node a (ulog_tcp_list w')) as [c|]; [|done].
  destruct (due (tick w') c); [by apply connect_inv|done].
Qed.

Lemma recv_loop_inv fuel net a fd : forall k w w',
  inv w -> recv_loop fuel net a fd k w = Some w' -> inv w'.
Proof.
  induction fuel as [|fuel IH]; intros k w w' Hw E; [done|]. cbn [recv_loop] in E.
  destruct (net_recv net fd k) as [ret wb]. destruct (ret =? 0); [injection E as <-; by apply close_one_inv|].
  destruct (ret <? 0); [|by eapply IH].
  destruct wb; injection E as <-; [done|by apply close_one_inv].
Qed.

Lemma handle_fds_inv fuel net readset l : forall w w',
  inv w -> handle_fds fuel net readset l w = Some w' -> inv w'.
Proof.
  induction l as [|a l IH]; intros w w' Hw E; cbn [handle_fds] in E; [by injection E as <-|].
  destruct (node a (ulog_tcp_list w)) as [c|]; [|by eapply IH].
  destruct (socket c <? 0); [by eapply IH|]. case_bool_decide; [|by eapply IH].
  destruct (recv_loop fuel net a (socket c) 0 w) as [w1|] eqn:Er; [|done].
  apply (IH w1 w'); [by eapply recv_loop_inv|done].
Qed.

Lemma thread_inv fuel net w w' :
  net_ok net -> inv w -> ulog_tcp_thread fuel net w = Some w' -> inv w'.
Proof.
  intros Hnet Hw. unfold ulog_tcp_thread. destruct (ulog_tcp_shutdown w).
  - intros [= <-]. by apply (inv_ext (ulog_tcp_close_all_connection true w)); [..|apply close_all_inv].
  - destruct (ulog_tcp_list_set_fds w) as [maxfd rs]. destruct (net_select net maxfd rs) as [n rs'].
    pose proof (reconnect_inv net w Hnet Hw) as Hw1.
    destruct (n =? 0); [by intros [= <-]|]. destruct (n <? 0); apply handle_fds_inv; [|done].
    by apply (inv_ext (ulog_tcp_close_all_connection false (ulog_tcp_handle_reconnect net w)));
      [..|apply close_all_inv].
Qed.

Lemma existsb_key i p l : existsb (same_server i p) l = false -> (i, p) ∉ map key l.
Proof.
  induction l as [|c l IH]; intros H; [apply not_elem_of_nil|]. cbn [existsb map] in *.
  apply orb_false_iff in H as [H1 H2]. apply not_elem_of_cons. split; [|by apply IH].
  intros E. unfold key in E. injection E as -> ->. unfold same_server in H1.
  by rewrite bool_decide_true, Z.eqb_refl in H1.
Qed.

(** A new server before it is connected. *)
Lemma add_node_inv a i p w :
  inv w -> a ∉ map addr (ulog_tcp_list w) -> existsb (same_server i p) (ulog_tcp_list w) = false ->
  zlen (ulog_tcp_list w) <= ULOG_TCP_MAX_SERVER_COUNT ->
  inv (set_list (UlogTcp a 0 i p 0 :: ulog_tcp_list w) w).
Proof.
  intros [H1 H2 H3 H4 H5] Ha Hk Hc.
  split; cbn [set_list ulog_tcp_list opened map addr key ip port].
  - by apply NoDup_cons.
  - apply NoDup_cons. split; [by apply existsb_key|done].
  - rewrite zlen_cons. lia.
  - by rewrite sockets_cons.
  - done.
Qed.

Lemma add_inv mutex_ok mem net i p w :
  inv w -> net_ok net -> (forall a, mem = Some a -> a ∉ map addr (ulog_tcp_list w)) ->
  inv (snd (ulog_tcp_add_server mutex_ok mem net i p w)).
Proof.
  intros Hw Hnet Hmem. unfold ulog_tcp_add_server.
  destruct (ulog_tcp_shutdown w); [done|]. destruct (negb mutex_ok); [done|].
  destruct (existsb (same_server i p) (ulog_tcp_list w)) eqn:Ek; [done|].
  destruct (Z.ltb_spec ULOG_TCP_MAX_SERVER_COUNT (zlen (ulog_tcp_list w))); [done|].
  destruct mem as [a|]; [|done]. cbn [snd]. apply connect_inv; [done|].
  apply add_node_inv; [done|by apply Hmem|done|lia].
Qed.

Lemma step_inv w w' : step w w' -> inv w -> inv w'.
Proof.
  intros Hs Hw. destruct Hs as [| |w t|w log|w net fuel w' _ Hnet E|w net mutex_ok mem i p Hnet Hmem
    |w mutex_ok i p]; try by apply (inv_ext w).
  - by eapply thread_inv.
  - by apply add_inv.
  - unfold ulog_tcp_delete_server. destruct (ulog_tcp_shutdown w); [done|].
    destruct (negb mutex_ok); [done|].
    destruct (List.find (same_server i p) (ulog_tcp_list w)); [by apply close_one_inv|done].
Qed.

Lemma output_receivers log w :
  exists fds, sent (_ulog_tcp_output log w) = sent w ++ map (fun fd => (fd, log)) fds /\
    fds = sockets (ulog_tcp_list w).
Proof.
  exists (sockets (ulog_tcp_list w)). split; [|done]. cbn [_ulog_tcp_output sent]. f_equal.
  induction (ulog_tcp_list w) as [|c l IH]; [done|]. rewrite sockets_cons. cbn [List.filter].
  destruct (0 <? socket c); cbn [map app]; by rewrite IH.
Qed.

(** [C33] On every state reached by any interleaving of calls, thread turns,
    outputs and lost connections, the servers of the list are distinct, there
    are at most four of them, one more than the configured maximum, and the
    open descriptors are exactly the sockets of the servers, each owned by one
    server: no descriptor leaks and none is closed twice.  A line of log is
    sent to each open descriptor once. *)
Theorem ulog_tcp_descriptors_owned w log :
  reachable w ->
  inv w /\
  exists fds, sent (_ulog_tcp_output log w) = sent w ++ map (fun fd => (fd, log)) fds /\
    fds ≡ₚ opened w.
Proof.
  intros H.
  assert (Hinv : inv w).
  { induction H as [|w w' _ IH Hs]; [|by eapply step_inv].
    split; cbn; [constructor|constructor|done|done|constructor]. }
  split; [done|]. destruct (output_receivers log w) as (fds & E & ->).
  eexists. split; [exact E|]. symmetry. by apply inv_owned.
Qed.

(** ** Retrying *)
Lemma node_mid l1 c l2 :
  (forall x, x ∈ l1 ++ l2 -> addr x <> addr c) -> node (addr c) (l1 ++ c :: l2) = Some c.
Proof.
  unfold node. induction l1 as [|x l1 IH]; intros H; cbn [app List.find]; [by rewrite Z.eqb_refl|].
  destruct (Z.eqb_spec (addr x) (addr c)) as [E|_]; [by destruct (H x); [left|]|].
  apply IH. intros y Hy. apply H. by right.
Qed.

(** A server after its connection is closed. *)
Lemma close_one_node a w c :
  inv w -> node a (ulog_tcp_list w) = Some c ->
  node a (ulog_tcp_list (ulog_tcp_close_one_connection a false w))
  = Some (set_timeout (retry_at w) (if 0 <? socket c then set_socket (-1) c else c)).
Proof.
  intros Hw En. unfold ulog_tcp_close_one_connection. rewrite En.
  destruct (node_split a _ c (inv_addr w Hw) En) as (l1 & l2 & E & <- & Ho).
  destruct (0 <? socket c).
  - rewrite (update_split (closesocket (socket c) w) l1 c l2) by (exact E || exact Ho).
    change (addr c) with (addr (set_socket (-1) c)).
    rewrite (update_split _ l1 (set_socket (-1) c) l2) by (reflexivity || exact Ho).
    exact (node_mid l1 (set_timeout (retry_at w) (set_socket (-1) c)) l2 Ho).
  - rewrite (update_split _ l1 c l2) by (exact E || exact Ho).
    exact (node_mid l1 (set_timeout (retry_at w) c) l2 Ho).
Qed.

(** A connection that is closed and kept is retried in a window of tick
    counts, whatever the wrap-around of the counter: [e] ticks later (less
    than one round of the counter) the reconnection walk leaves the server
    alone for the first ten seconds and connects it from then on, until half
    the range of the counter has passed. *)
Theorem ulog_tcp_retry_window net a w c e :
  inv w -> node a (ulog_tcp_list w) = Some c -> 0 <= e < 2 ^ 32 ->
  let w' := set_tick (u32 (tick w + e)) (ulog_tcp_close_one_connection a false w) in
  reconnect_one net w' a =
  (if (10000 <=? e) && (e <? 10000 + (2 ^ 31 - 1)) then snd (ulog_tcp_connect net a w') else w').
Proof.
  intros Hw En He w'. unfold reconnect_one.
  assert (Hn : node a (ulog_tcp_list w')
    = Some (set_timeout (retry_at w) (if 0 <? socket c then set_socket (-1) c else c)))
    by by apply close_one_node.
  rewrite Hn. set (c' := set_timeout _ _).
  assert (Hs : (socket c' <=? 0) = true).
  { unfold c'. cbn [set_timeout socket]. destruct (Z.ltb_spec 0 (socket c)); [done|].
    by apply Z.leb_le. }
  unfold due. rewrite Hs. cbn [andb].
  assert (Ht : u32 (tick w' - timeout c') = (e - 10000) `mod` 2 ^ 32).
  { change (timeout c') with (u32 (tick w + 10000)).
    change (tick w') with (u32 (tick w + e)). unfold u32.
    rewrite <- Zminus_mod. f_equal. lia. }
  rewrite Ht. change (RT_TICK_MAX / 2) with (2 ^ 31 - 1).
  destruct (Z.leb_spec 10000 e).
  - rewrite Z.mod_small by lia. cbn [andb].
    destruct (Z.ltb_spec (e - 10000) (2 ^ 31 - 1)), (Z.ltb_spec e (10000 + (2 ^ 31 - 1))); try lia; done.
  - replace (e - 10000) with (e - 10000 + 2 ^ 32 + (-1) * 2 ^ 32) by lia.
    rewrite Z.mod_add, Z.mod_small by lia. cbn [andb].
    by destruct (Z.ltb_spec (e - 10000 + 2 ^ 32) (2 ^ 31 - 1)); [lia|].
Qed.

(** ** Adding and deleting *)
Lemma close_one_keys a w :
  map key (ulog_tcp_list (ulog_tcp_close_one_connection a false w)) = map key (ulog_tcp_list w).
Proof.
  unfold ulog_tcp_close_one_connection. destruct (node a (ulog_tcp_list w)) as [c|]; [|done].
  destruct (0 <? socket c); cbn [update set_list ulog_tcp_list closesocket set_opened];
    by rewrite !map_update.
Qed.

Lemma connect_keys net a w :
  map key (ulog_tcp_list (snd (ulog_tcp_connect net a w))) = map key (ulog_tcp_list w).
Proof.
  unfold ulog_tcp_connect. destruct (node a (ulog_tcp_list w)) as [c|]; [|done].
  set (r := if socket c <=? 0 then _ else _).
  assert (Hr : map key (ulog_tcp_list (snd r)) = map key (ulog_tcp_list w)).
  { unfold r. destruct (socket c <=? 0); [|done]. cbn [snd update set_list ulog_tcp_list].
    rewrite map_update by done. by destruct (0 <? net_socket net (opened w)). }
  destruct r as [fd w1]. cbn [snd] in Hr. rewrite <- Hr.
  destruct (fd <=? 0); [|destruct (net_ioctl net fd <? 0)].
  1-2: cbn [snd update set_list ulog_tcp_list]; rewrite map_update by done; apply close_one_keys.
  destruct (net_connect net fd (s_addr (ip c)) (port c)) as [res prog].
  destruct ((res <? 0) && negb prog); [|done].
  cbn [snd update set_list ulog_tcp_list]. rewrite map_update by done. apply close_one_keys.
Qed.

Lemma find_key i p l :
  match List.find (same_server i p) l with
  | Some c => c ∈ l /\ key c = (i, p)
  | None => (i, p) ∉ map key l
  end.
Proof.
  destruct (List.find (same_server i p) l) as [c|] eqn:E.
  - apply List.find_some in E as [Hin Hs]. split; [by apply list_elem_of_In|].
    unfold same_server in Hs. apply andb_prop in Hs as [H1 H2].
    apply bool_decide_eq_true in H1. apply Z.eqb_eq in H2. unfold key. by rewrite H1, H2.
  - apply existsb_key. destruct (existsb (same_server i p) l) eqn:Eb; [|done].
    apply existsb_exists in Eb as (x & Hx & Hs). by rewrite (List.find_none _ _ E x Hx) in Hs.
Qed.

Lemma node_in c l : NoDup (map addr l) -> c ∈ l -> node (addr c) l = Some c.
Proof.
  intros Hnd Hin. induction l as [|x l IH]; [by apply not_elem_of_nil in Hin|].
  unfold node in *. cbn [List.find map] in *. apply NoDup_cons in Hnd as [Hx Hnd].
  apply elem_of_cons in Hin as [-> |Hin]; [by rewrite Z.eqb_refl|].
  destruct (Z.eqb_spec (addr x) (addr c)) as [E|_]; [|by apply IH].
  exfalso. apply Hx. rewrite E. by apply (list_elem_of_fmap_2 addr).
Qed.

(** Deleting takes the server out of the list and closes its socket. *)
Lemma close_one_del_list w l1 c l2 :
  ulog_tcp_list w = l1 ++ c :: l2 -> (forall x, x ∈ l1 ++ l2 -> addr x <> addr c) ->
  ulog_tcp_list (ulog_tcp_close_one_connection (addr c) true w) = l1 ++ l2.
Proof.
  intros E Ho. unfold ulog_tcp_close_one_connection. rewrite E, node_mid, unlink_split by done.
  destruct (0 <? socket c); [|done].
  cbn [update closesocket set_opened set_list ulog_tcp_list]. rewrite map_app.
  by destruct (map_others (set_socket (-1)) Ho) as [-> ->].
Qed.

Lemma close_one_del_opened w c :
  inv w -> c ∈ ulog_tcp_list w ->
  socket c ∉ opened (ulog_tcp_close_one_connection (addr c) true w).
Proof.
  intros Hw Hc. unfold ulog_tcp_close_one_connection.
  rewrite (node_in c) by (by apply inv_addr || done).
  destruct (Z.ltb_spec 0 (socket c)); cbn [update closesocket set_opened set_list opened].
  - rewrite list_elem_of_In, List.filter_In. intros [_ Hx]. by rewrite Z.eqb_refl in Hx.
  - rewrite (inv_owned w Hw). unfold sockets. rewrite list_elem_of_In, List.filter_In.
    intros [_ Hx]. apply Z.ltb_lt in Hx. lia.
Qed.

Lemma filter_id {A} (P : A -> Prop) `{!forall x, Decision (P x)} (l : list A) :
  (forall x, x ∈ l -> P x) -> filter P l = l.
Proof.
  induction l as [|x l IH]; intros Hl; [done|].
  rewrite filter_cons_True by (apply Hl; by left). f_equal. apply IH. intros y Hy. apply Hl. by right.
Qed.

Lemma filter_key (l1 l2 : list (list Z * Z)) k :
  NoDup (l1 ++ k :: l2) -> filter (fun x => x <> k) (l1 ++ k :: l2) = l1 ++ l2.
Proof.
  intros H. rewrite <- Permutation_middle in H. apply NoDup_cons in H as [H _].
  rewrite elem_of_app in H. rewrite filter_app, filter_cons_False by tauto.
  f_equal; apply filter_id; intros x Hx ->; tauto.
Qed.

(** What the calls do to the set of servers.  Adding succeeds exactly when
    the server is not in the list and the list holds at most three others, and
    puts it in front; deleting succeeds exactly when the server is in the
    list, and takes it out, closing its socket; a call that fails changes
    nothing, and after the backend is shut down every call fails. *)
Theorem ulog_tcp_calls_spec net a i p w :
  inv w ->
  let keys := map key (ulog_tcp_list w) in
  let add := ulog_tcp_add_server true (Some a) net i p w in
  let del := ulog_tcp_delete_server true i p w in
  if ulog_tcp_shutdown w then add = (-1, w) /\ del = (-1, w)
  else
    (if decide ((i, p) ∈ keys \/ 3 < zlen keys) then add = (-1, w)
     else fst add = 0 /\ map key (ulog_tcp_list (snd add)) = (i, p) :: keys) /\
    (if decide ((i, p) ∈ keys)
     then fst del = 0 /\ map key (ulog_tcp_list (snd del)) = filter (fun k => k <> (i, p)) keys /\
          (forall c, c ∈ ulog_tcp_list w -> key c = (i, p) -> socket c ∉ opened (snd del))
     else del = (-1, w)).
Proof.
  intros Hw keys add del. unfold add, del, ulog_tcp_add_server, ulog_tcp_delete_server.
  destruct (ulog_tcp_shutdown w); [done|]. cbn [negb].
  assert (Hlen : zlen keys = zlen (ulog_tcp_list w)) by (unfold keys, zlen; by rewrite length_map).
  pose proof (find_key i p (ulog_tcp_list w)) as Hfind. split.
  - destruct (existsb (same_server i p) (ulog_tcp_list w)) eqn:Eb.
    { rewrite decide_True; [done|]. left. apply existsb_exists in Eb as (c & Hc & Hs).
      destruct (List.find (same_server i p) (ulog_tcp_list w)) as [x|] eqn:Ef.
      - destruct Hfind as [Hx <-]. by apply (list_elem_of_fmap_2 key).
      - by rewrite (List.find_none _ _ Ef c Hc) in Hs. }
    apply existsb_key in Eb. unfold ULOG_TCP_MAX_SERVER_COUNT.
    destruct (Z.ltb_spec 3 (zlen (ulog_tcp_list w))); [by rewrite decide_True by (right; lia)|].
    rewrite decide_False by (intros [?|?]; [done|lia]). split; [done|]. cbn [snd].
    by rewrite connect_keys.
  - destruct (List.find (same_server i p) (ulog_tcp_list w)) as [c|]; [|by rewrite decide_False].
    destruct Hfind as [Hc Hk].
    rewrite decide_True by (rewrite <- Hk; by apply (list_elem_of_fmap_2 key)).
    destruct (node_split (addr c) _ c (inv_addr w Hw)) as (l1 & l2 & E & _ & Ho);
      [by apply node_in; [apply inv_addr|]|].
    split_and!; [done| |].
    + cbn [snd]. rewrite (close_one_del_list w l1 c l2) by done. unfold keys.
      pose proof (inv_key w Hw) as Hnd. rewrite E in Hnd |- *.
      rewrite (map_app key l1 (c :: l2)) in Hnd |- *. rewrite map_app. cbn [map] in *.
      rewrite Hk in *. symmetry. by apply (filter_key (map key l1) (map key l2) (i, p)).
    + intros c' Hc' Hk'. cbn [snd].
      assert (c' = c) as ->; [|by apply close_one_del_opened].
      pose proof (inv_key w Hw) as Hnd. rewrite E, map_app in Hnd. cbn [map] in Hnd.
      rewrite <- Permutation_middle, <- map_app in Hnd. apply NoDup_cons in Hnd as [Hn _].
      rewrite E in Hc'. rewrite <- Permutation_middle in Hc'. apply elem_of_cons in Hc' as [|Hc']; [done|].
      exfalso. apply Hn. rewrite Hk, <- Hk'. by apply (list_elem_of_fmap_2 key).
Qed.

(** ** The address handed to [connect] *)
Lemma land_field y k : 0 <= k -> Z.land y (Z.shiftl 255 k) = Z.shiftl (Z.shiftr y k `mod` 256) k.
Proof.
  intros Hk. change 256 with (2 ^ 8). rewrite <- (Z.land_ones _ 8) by lia. change (Z.ones 8) with 255.
  apply Z.bits_inj'. intros n Hn. rewrite Z.land_spec.
  destruct (Z.lt_ge_cases n k); [rewrite !Z.shiftl_spec_low by lia; apply andb_false_r|].
  rewrite !Z.shiftl_spec, Z.land_spec, Z.shiftr_spec by lia. by rewrite Z.sub_add.
Qed.

Lemma MAKEU32_val a b c d :
  is_byte a -> is_byte b -> is_byte c -> is_byte d ->
  MAKEU32 a b c d = ((a * 256 + b) * 256 + c) * 256 + d.
Proof.
  unfold is_byte. intros Ha Hb Hc Hd. unfold MAKEU32.
  rewrite !(land_mask _ 0xff 8) by done. rewrite !Z.mod_small by (change (2 ^ 8) with 256; lia).
  rewrite (join_digit 8) by lia. rewrite (join_digit 24 a).
  - rewrite (Z.shiftl_mul_pow2 b) by lia.
    replace (a * 2 ^ 24 + b * 2 ^ 16) with ((a * 256 + b) * 2 ^ 16) by lia.
    rewrite <- Z.shiftl_mul_pow2, join_digit by lia. lia.
  - lia.
  - rewrite Z.shiftl_mul_pow2; lia.
Qed.

Lemma PP_HTONL_val a b c d :
  is_byte a -> is_byte b -> is_byte c -> is_byte d ->
  PP_HTONL (((a * 256 + b) * 256 + c) * 256 + d) = ((d * 256 + c) * 256 + b) * 256 + a.
Proof.
  unfold is_byte. intros Ha Hb Hc Hd. unfold PP_HTONL.
  set (x := ((a * 256 + b) * 256 + c) * 256 + d).
  change 0x0000ff00 with (Z.shiftl 255 8). change 0x00ff0000 with (Z.shiftl 255 16).
  change 0xff000000 with (Z.shiftl 255 24). change 0x000000ff with (Z.shiftl 255 0).
  rewrite !land_field, !shr_div, !Z.shiftl_mul_pow2 by lia.
  assert ((x / 2 ^ 0) `mod` 256 = d /\ (x / 2 ^ 8) `mod` 256 = c /\ (x / 2 ^ 16) `mod` 256 = b /\
    (x / 2 ^ 24) `mod` 256 = a) as (-> & -> & -> & ->).
  { unfold x. change (2 ^ 0) with 1. change (2 ^ 8) with 256. change (2 ^ 16) with 65536.
    change (2 ^ 24) with 16777216. split_and!; zify_divmod. }
  replace (b * 2 ^ 16 / 2 ^ 8) with (b * 2 ^ 8) by zify_divmod.
  replace (a * 2 ^ 24 / 2 ^ 24) with a by zify_divmod.
  replace (d * 2 ^ 0 * 2 ^ 24) with (Z.shiftl d 24) by (rewrite Z.shiftl_mul_pow2; lia).
  rewrite join_digit by lia.
  replace (b * 2 ^ 8) with (Z.shiftl b 8) by (rewrite Z.shiftl_mul_pow2; lia).
  rewrite (join_digit 8) by lia.
  replace (d * 2 ^ 24 + c * 2 ^ 8 * 2 ^ 8) with (Z.shiftl (d * 256 + c) 16)
    by (rewrite Z.shiftl_mul_pow2; lia).
  rewrite join_digit by lia. lia.
Qed.

(** The address in memory is that of the server, byte by byte. *)
Lemma s_addr_id a b c d :
  is_byte a -> is_byte b -> is_byte c -> is_byte d -> s_addr [a; b; c; d] = [a; b; c; d].
Proof.
  intros Ha Hb Hc Hd. unfold s_addr. cbn [nth]. rewrite MAKEU32_val, PP_HTONL_val by done.
  rewrite <- (le_bytes_val [a; b; c; d]) by (rewrite !Forall_cons; by split_and!).
  cbn [length le_val]. f_equal. lia.
Qed.

(** ** The shell command *)

(** [sscanf("%d")]: blanks, a sign, at least one digit; the number is not
    reduced to the width of an [int]. *)
Fixpoint scan_digits (s : list Z) (acc : Z) : Z * list Z :=
  match s with
  | [] => (acc, [])
  | c :: s' => if is_digit c then scan_digits s' (10 * acc + (c - 48)) else (acc, s)
  end.

Definition scan_d (s : list Z) : option (Z * list Z) :=
  let s := skip_spaces s in
  let '(neg, s) := match s with
                   | c :: s' => if c =? 45 then (true, s') else if c =? 43 then (false, s') else (false, s)
                   | [] => (false, s)
                   end in
  match s with
  | c :: _ => if is_digit c
              then let '(n, s) := scan_digits s 0 in Some (if neg then - n else n, s) else None
  | [] => None
  end.

Definition scan_char (c : Z) (s : list Z) : option (list Z) :=
  match s with
  | x :: s => if x =? c then Some s else None
  | [] => None
  end.

(** [sscanf(s, "%d.%d.%d.%d:%d") == 5] *)
Definition scan_server (s : list Z) : option (list Z * Z) :=
  '(i0, s) ← scan_d s; s ← scan_char 46 s;
  '(i1, s) ← scan_d s; s ← scan_char 46 s;
  '(i2, s) ← scan_d s; s ← scan_char 46 s;
  '(i3, s) ← scan_d s; s ← scan_char 58 s;
  '(p, _) ← scan_d s;
  Some ([i0; i1; i2; i3], p).

Definition in_byte (x : Z) : bool := (0 <=? x) && (x <=? 255).

(** [ulog_tcp]: the arguments after the name of the command; [None] is the
    message about bad parameters. *)
Definition ulog_tcp (mutex_ok : bool) (mem : option Z) (net : network) (args : list (list Z))
    (w : world) : option world :=
  match args with
  | [cmd] => if bool_decide (head cmd = Some 108) then Some w else None
  | [cmd; s] =>
      if negb (bool_decide (head cmd = Some 97)) && negb (bool_decide (head cmd = Some 100)) then None
      else
        '(i, p) ← scan_server s;
        if (nth 0 i 0 <=? 0) || negb (forallb in_byte i) || (p <? 0) || (65535 <? p) then None
        else if bool_decide (head cmd = Some 97)
        then Some (snd (ulog_tcp_add_server mutex_ok mem net i p w))
        else Some (snd (ulog_tcp_delete_server mutex_ok i p w))
  | _ => None
  end.

(** How [print_server_list] prints a server. *)
Definition server_text (i : list Z) (p : Z) : list Z :=
  sprintf_d (nth 0 i 0) ++ [46] ++ sprintf_d (nth 1 i 0) ++ [46] ++ sprintf_d (nth 2 i 0)
  ++ [46] ++ sprintf_d (nth 3 i 0) ++ [58] ++ sprintf_d p.

Lemma scan_digits_app ds rest acc :
  Forall (fun c => is_digit c = true) ds ->
  match rest with c :: _ => is_digit c = false | [] => True end ->
  scan_digits (ds ++ rest) acc = (atoi_digits ds acc, rest).
Proof.
  intros H Hr. revert acc. induction H as [|c ds Hc H IH]; intros acc.
  - cbn [app atoi_digits]. destruct rest as [|c rest]; [done|]. cbn [scan_digits]. by rewrite Hr.
  - cbn [app atoi_digits scan_digits]. by rewrite Hc.
Qed.

Lemma scan_d_sprintf n rest :
  0 <= n < 2 ^ 31 -> match rest with c :: _ => is_digit c = false | [] => True end ->
  scan_d (sprintf_d n ++ rest) = Some (n, rest).
Proof.
  intros Hn Hr. unfold sprintf_d. destruct (Z.ltb_spec n 0); [lia|].
  pose proof (atoi_digits_digits 10 n ltac:(change (10 ^ Z.of_nat 10) with 10000000000; lia)) as E.
  pose proof (digits_digits 10 n) as Hd. pose proof (digits_nonempty 10 n ltac:(lia)) as Hne.
  destruct (digits 10 n []) as [|c ds]; [done|].
  pose proof (scan_digits_app (c :: ds) rest 0 Hd Hr) as Hs. rewrite E in Hs.
  apply Forall_cons in Hd as [Hc _]. pose proof Hc as Hc'. unfold is_digit in Hc'.
  apply andb_true_iff in Hc' as [H1 H2]. apply Z.leb_le in H1, H2.
  unfold scan_d. cbn [app skip_spaces]. replace (is_space c) with false
    by (unfold is_space; repeat case_bool).
  destruct (Z.eqb_spec c 45); [lia|]. destruct (Z.eqb_spec c 43); [lia|].
  cbn [app] in Hs. by rewrite Hc, Hs.
Qed.

(** The shell command reads the servers it prints: for every address whose
    first byte is not 0 and every port, the text of the listing given to [a]
    or [d] adds or deletes that server. *)
Theorem ulog_tcp_command_roundtrip mutex_ok mem net cmd a b c d p w :
  1 <= a <= 255 -> is_byte b -> is_byte c -> is_byte d -> 0 <= p <= 65535 ->
  let i := [a; b; c; d] in
  ulog_tcp mutex_ok mem net [97 :: cmd; server_text i p] w
    = Some (snd (ulog_tcp_add_server mutex_ok mem net i p w)) /\
  ulog_tcp mutex_ok mem net [100 :: cmd; server_text i p] w
    = Some (snd (ulog_tcp_delete_server mutex_ok i p w)).
Proof.
  intros Ha Hb Hc Hd Hp i. unfold is_byte in *.
  assert (Hscan : scan_server (server_text i p) = Some (i, p)).
  { unfold scan_server, server_text, i. cbn [nth].
    do 4 (rewrite scan_d_sprintf by (lia || done); cbn [mbind option_bind app scan_char];
      rewrite Z.eqb_refl; cbn [mbind option_bind]).
    rewrite <- (app_nil_r (sprintf_d p)), scan_d_sprintf by (lia || done). done. }
  assert (Hok : (nth 0 i 0 <=? 0) || negb (forallb in_byte i) || (p <? 0) || (65535 <? p) = false).
  { unfold i, in_byte. cbn [nth forallb]. repeat case_bool. }
  unfold ulog_tcp. rewrite Hscan. cbn [mbind option_bind head]. rewrite Hok. done.
Qed.

(** ** Concrete inputs *)

(** A network that hands out the next free descriptor and connects at once. *)
Definition sample_net : network :=
  Network (fun o => 1 + foldr Z.max 0 o) (fun _ => 0) (fun _ _ _ => (0, false))
    (fun _ rs => (zlen rs, rs)) (fun _ _ => (0, false)).

Lemma sample_net_ok : net_ok sample_net.
Proof.
  intros o. right. cbn. intros Hin.
  assert (H : forall x, x ∈ o -> x <= foldr Z.max 0 o).
  { clear Hin. induction o as [|y o IH]; intros x Hx; [by apply not_elem_of_nil in Hx|]. cbn [foldr].
    apply elem_of_cons in Hx as [->|Hx]; [lia|]. specialize (IH x Hx). lia. }
  specialize (H _ Hin). lia.
Qed.

Definition sample_ip : list Z := [192; 168; 1; 10].

(** One server added, its connection lost, and the server deleted. *)
Definition sample_world : world :=
  snd (ulog_tcp_add_server true (Some 100) sample_net sample_ip 514 (_ulog_tcp_init boot)).

Lemma sample_reachable : reachable sample_world.
Proof.
  eapply reach_step; [eapply reach_step; [apply reach_boot|apply step_init]|].
  apply step_add; [apply sample_net_ok|]. intros a _. apply not_elem_of_nil.
Qed.

Lemma ulog_tcp_descriptors_owned_witness :
  inv sample_world /\
  exists fds, sent (_ulog_tcp_output (str "hello") sample_world)
      = sent sample_world ++ map (fun fd => (fd, str "hello")) fds /\
    fds ≡ₚ opened sample_world.
Proof. exact (ulog_tcp_descriptors_owned sample_world (str "hello") sample_reachable). Defined.

Lemma sample_inv : inv sample_world.
Proof.
  apply (step_inv (_ulog_tcp_init boot)).
  - apply step_add; [apply sample_net_ok|]. intros a _. apply not_elem_of_nil.
  - split; cbn; [constructor|constructor|done|done|constructor].
Qed.

Lemma ulog_tcp_retry_window_witness :
  let w' e := set_tick (u32 e) (ulog_tcp_close_one_connection 100 false sample_world) in
  reconnect_one sample_net (w' 9999) 100 = w' 9999 /\
  reconnect_one sample_net (w' 10000) 100 = snd (ulog_tcp_connect sample_net 100 (w' 10000)).
Proof.
  split.
  - exact (ulog_tcp_retry_window sample_net 100 sample_world (UlogTcp 100 1 sample_ip 514 0) 9999
      sample_inv eq_refl ltac:(lia)).
  - exact (ulog_tcp_retry_window sample_net 100 sample_world (UlogTcp 100 1 sample_ip 514 0) 10000
      sample_inv eq_refl ltac:(lia)).
Defined.

Lemma ulog_tcp_calls_spec_witness :
  fst (ulog_tcp_delete_server true sample_ip 514 sample_world) = 0 /\
  ulog_tcp_add_server true (Some 200) sample_net sample_ip 514 sample_world = (-1, sample_world).
Proof.
  pose proof (ulog_tcp_calls_spec sample_net 200 sample_ip 514 sample_world sample_inv) as [H1 H2].
  split; [exact (proj1 H2)|exact H1].
Defined.

Lemma ulog_tcp_command_roundtrip_witness :
  ulog_tcp true (Some 7) sample_net [str "a"; str "192.168.1.10:514"] boot
    = Some (snd (ulog_tcp_add_server true (Some 7) sample_net sample_ip 514 boot)).
Proof.
  exact (proj1 (ulog_tcp_command_roundtrip true (Some 7) sample_net [] 192 168 1 10 514 boot
    ltac:(lia) ltac:(by_decide) ltac:(by_decide) ltac:(by_decide) ltac:(lia))).
Defined.
