(* ===== verification/RingBuffer.v ===== *)
(** * Ring buffers

    Models src/rt-thread/components/drivers/src/ringbuffer.c: a pool of bytes
    with a read and a write index, each with a mirror bit that tells a full
    buffer from an empty one.  The theorems show that the buffer is a queue of
    bounded length, and what the two operations that discard old bytes do. *)

From S2P Require Import Prelude.

Local Open Scope Z_scope.

Inductive rt_ringbuffer_state := RT_RINGBUFFER_EMPTY | RT_RINGBUFFER_FULL | RT_RINGBUFFER_HALFFULL.

(** [struct rt_ringbuffer]; the indices have 15 bits. *)
Record rt_ringbuffer := RingBuffer {
  buffer_ptr : list Z;
  read_mirror : bool;
  read_index : Z;
  write_mirror : bool;
  write_index : Z;
  buffer_size : Z
}.

Definition i16 (x : Z) : Z := (x + 2 ^ 15) `mod` 2 ^ 16 - 2 ^ 15.

Definition index15 (x : Z) : Z := x `mod` 2 ^ 15.

Definition RT_ALIGN_SIZE : Z := 4.
Definition RT_ALIGN_DOWN (size align : Z) : Z := Z.land size (Z.lnot (align - 1)).

Definition rt_ringbuffer_status (rb : rt_ringbuffer) : rt_ringbuffer_state :=
  if read_index rb =? write_index rb then
    if Bool.eqb (read_mirror rb) (write_mirror rb) then RT_RINGBUFFER_EMPTY else RT_RINGBUFFER_FULL
  else RT_RINGBUFFER_HALFFULL.

(** [None] is the failed assertion on the size. *)
Definition rt_ringbuffer_init (pool : list Z) (size : Z) : option rt_ringbuffer :=
  if size <=? 0 then None else Some (RingBuffer pool false 0 false 0 (RT_ALIGN_DOWN size RT_ALIGN_SIZE)).

Definition rt_ringbuffer_data_len (rb : rt_ringbuffer) : Z :=
  match rt_ringbuffer_status rb with
  | RT_RINGBUFFER_EMPTY => 0
  | RT_RINGBUFFER_FULL => buffer_size rb
  | RT_RINGBUFFER_HALFFULL =>
      if read_index rb <? write_index rb then write_index rb - read_index rb
      else buffer_size rb - (read_index rb - write_index rb)
  end.

Definition rt_ringbuffer_space_len (rb : rt_ringbuffer) : Z := buffer_size rb - rt_ringbuffer_data_len rb.

Definition set_pool (b : list Z) (rb : rt_ringbuffer) : rt_ringbuffer :=
  RingBuffer b (read_mirror rb) (read_index rb) (write_mirror rb) (write_index rb) (buffer_size rb).
Definition set_read (m : bool) (i : Z) (rb : rt_ringbuffer) : rt_ringbuffer :=
  RingBuffer (buffer_ptr rb) m (index15 i) (write_mirror rb) (write_index rb) (buffer_size rb).
Definition set_write (m : bool) (i : Z) (rb : rt_ringbuffer) : rt_ringbuffer :=
  RingBuffer (buffer_ptr rb) (read_mirror rb) (read_index rb) m (index15 i) (buffer_size rb).

(** The copying of [ptr] behind the write index, which goes on at the start of
    the pool: the two halves of [put] and [put_force]. *)
Definition copy_in (ptr : list Z) (rb : rt_ringbuffer) : option rt_ringbuffer :=
  let length := zlen ptr in
  let room := buffer_size rb - write_index rb in
  if length <? room then
    b ← buf_write (buffer_ptr rb) (write_index rb) ptr;
    Some (set_write (write_mirror rb) (write_index rb + length) (set_pool b rb))
  else
    b ← buf_write (buffer_ptr rb) (write_index rb) (take (Z.to_nat room) ptr);
    b ← buf_write b 0 (drop (Z.to_nat room) ptr);
    Some (set_write (negb (write_mirror rb)) (length - room) (set_pool b rb)).

(** [rt_ringbuffer_put] of the first [length] bytes of [ptr]. *)
Definition rt_ringbuffer_put (rb : rt_ringbuffer) (ptr : list Z) (length : Z) : option (Z * rt_ringbuffer) :=
  let length := u16 length in
  if zlen ptr <? length then None
  else
    let size := u16 (rt_ringbuffer_space_len rb) in
    if size =? 0 then Some (0, rb)
    else
      let length := if size <? length then size else length in
      rb ← copy_in (take (Z.to_nat length) ptr) rb;
      Some (length, rb).

(** [rt_ringbuffer_put_force]: the last bytes of [ptr] if it is longer than the
    buffer. *)
Definition rt_ringbuffer_put_force (rb : rt_ringbuffer) (ptr : list Z) (length : Z) : option (Z * rt_ringbuffer) :=
  let length := u16 length in
  if zlen ptr <? length then None
  else
    let ptr := take (Z.to_nat length) ptr in
    let space_length := u16 (rt_ringbuffer_space_len rb) in
    let ptr := if buffer_size rb <? length then drop (Z.to_nat (length - buffer_size rb)) ptr else ptr in
    let length := if buffer_size rb <? length then buffer_size rb else length in
    let wraps := negb (length <? buffer_size rb - write_index rb) in
    rb ← copy_in ptr rb;
    Some (length,
      if space_length <? length
      then set_read (if wraps then negb (read_mirror rb) else read_mirror rb) (write_index rb) rb
      else rb).

(** [rt_ringbuffer_get]: the bytes that are stored to the caller. *)
Definition rt_ringbuffer_get (rb : rt_ringbuffer) (length : Z) : list Z * rt_ringbuffer :=
  let length := u16 length in
  let size := rt_ringbuffer_data_len rb in
  if size =? 0 then ([], rb)
  else
    let length := if size <? length then size else length in
    let room := buffer_size rb - read_index rb in
    if length <? room then
      (buf_sub (buffer_ptr rb) (read_index rb) length, set_read (read_mirror rb) (read_index rb + length) rb)
    else
      (buf_sub (buffer_ptr rb) (read_index rb) room ++ buf_sub (buffer_ptr rb) 0 (length - room),
       set_read (negb (read_mirror rb)) (length - room) rb).

(** The index after [i], with its mirror bit. *)
Definition next_index (rb : rt_ringbuffer) (m : bool) (i : Z) : bool * Z :=
  if i =? buffer_size rb - 1 then (negb m, 0) else (m, i + 1).

Definition rt_ringbuffer_putchar (rb : rt_ringbuffer) (ch : Z) : option (Z * rt_ringbuffer) :=
  if rt_ringbuffer_space_len rb =? 0 then Some (0, rb)
  else
    b ← buf_set (buffer_ptr rb) (write_index rb) ch;
    let '(m, i) := next_index rb (write_mirror rb) (write_index rb) in
    Some (1, set_write m i (set_pool b rb)).

Definition rt_ringbuffer_putchar_force (rb : rt_ringbuffer) (ch : Z) : option (Z * rt_ringbuffer) :=
  let old_state := rt_ringbuffer_status rb in
  b ← buf_set (buffer_ptr rb) (write_index rb) ch;
  let wraps := write_index rb =? buffer_size rb - 1 in
  let '(m, i) := next_index rb (write_mirror rb) (write_index rb) in
  let rb := set_write m i (set_pool b rb) in
  Some (1,
    match old_state with
    | RT_RINGBUFFER_FULL => set_read (if wraps then negb (read_mirror rb) else read_mirror rb) (write_index rb) rb
    | _ => rb
    end).

Definition rt_ringbuffer_getchar (rb : rt_ringbuffer) : option (option Z * rt_ringbuffer) :=
  if rt_ringbuffer_data_len rb =? 0 then Some (None, rb)
  else
    ch ← buf_get (buffer_ptr rb) (read_index rb);
    let '(m, i) := next_index rb (read_mirror rb) (read_index rb) in
    Some (Some ch, set_read m i rb).

Definition rt_ringbuffer_reset (rb : rt_ringbuffer) : rt_ringbuffer :=
  RingBuffer (buffer_ptr rb) false 0 false 0 (buffer_size rb).

(** [rt_ringbuffer_create] with a pool from the heap; [None] in the result if
    one of the two allocations fails. *)
Definition rt_ringbuffer_create (size : Z) (alloc : nat -> bool) (junk : list Z) : option (option rt_ringbuffer) :=
  if u16 size <=? 0 then None
  else
    let size := RT_ALIGN_DOWN (u16 size) RT_ALIGN_SIZE in
    if negb (alloc 0%nat && alloc 1%nat) then Some None
    else rb ← rt_ringbuffer_init (take (Z.to_nat size) (junk ++ replicate (Z.to_nat size) 0)) (i16 size); Some (Some rb).

(** ** The queue in the pool *)

(** The bytes [q] are in the buffer: in one piece behind the read index, or in
    two, the second at the start of the pool. *)
Inductive holds (rb : rt_ringbuffer) (q : list Z) : Prop :=
  | holds_straight a free rest :
      buffer_ptr rb = a ++ q ++ free ++ rest -> free <> [] -> write_mirror rb = read_mirror rb ->
      read_index rb = zlen a -> write_index rb = zlen a + zlen q -> buffer_size rb = zlen a + zlen q + zlen free -> holds rb q
  | holds_wrapped back free front rest :
      q = front ++ back -> buffer_ptr rb = back ++ free ++ front ++ rest -> front <> [] -> write_mirror rb = negb (read_mirror rb) ->
      write_index rb = zlen back -> read_index rb = zlen back + zlen free -> buffer_size rb = zlen back + zlen free + zlen front ->
      holds rb q.

(** A buffer that holds a queue; its size fits the 15 bits of an index. *)
Record ring (S : Z) (rb : rt_ringbuffer) (q : list Z) : Prop := {
  ring_size : buffer_size rb = S;
  ring_bits : 0 <= S < 2 ^ 15;
  ring_holds : holds rb q
}.

Lemma index15_id i : 0 <= i < 2 ^ 15 -> index15 i = i.
Proof. apply Z.mod_small. Qed.

Ltac ring_lens :=
  repeat match goal with
  | l : list Z |- _ => lazymatch goal with H : 0 <= zlen l |- _ => fail | _ => pose proof (zlen_nonneg l) end
  end;
  repeat match goal with
  | H : ?l <> [] |- _ => lazymatch type of l with
                         | list Z => lazymatch goal with H' : 0 < zlen l |- _ => fail | _ => pose proof (zlen_pos l H) end
                         end
  end.

Lemma data_len S rb q : ring S rb q -> rt_ringbuffer_data_len rb = zlen q.
Proof.
  intros [Hs Hb Hh]. unfold rt_ringbuffer_data_len, rt_ringbuffer_status.
  destruct Hh as [a free rest Ep Hf Em Er Ew Es|back free front rest -> Ep Hf Em Ew Er Es]; ring_lens; rewrite Er, Ew, Em, Es.
  - destruct (Z.eqb_spec (zlen a) (zlen a + zlen q)); [rewrite Bool.eqb_reflx; lia|].
    destruct (Z.ltb_spec (zlen a) (zlen a + zlen q)); lia.
  - rewrite zlen_app. destruct (Z.eqb_spec (zlen back + zlen free) (zlen back)).
    + destruct (read_mirror rb); cbn; lia.
    + destruct (Z.ltb_spec (zlen back + zlen free) (zlen back)); lia.
Qed.

Lemma ring_room S rb q : ring S rb q -> zlen q <= S.
Proof. intros [<- Hb Hh]. destruct Hh as [a free rest|back free front rest ->]; ring_lens; rewrite ?zlen_app; lia. Qed.

Lemma space_len S rb q : ring S rb q -> rt_ringbuffer_space_len rb = S - zlen q.
Proof. intros H. unfold rt_ringbuffer_space_len. by rewrite (data_len _ _ _ H), (ring_size _ _ _ H). Qed.

Lemma buf_write_start {A} (d b : list A) : zlen d <= zlen b -> buf_write b 0 d = Some (d ++ drop (length d) b).
Proof. intros H. exact (buf_write_at [] b 0 d eq_refl H). Qed.

Lemma copied_in S rb q d : ring S rb q -> zlen q + zlen d <= S -> 0 < S - zlen q ->
  exists rb', copy_in d rb = Some rb' /\ ring S rb' (q ++ d).
Proof.
  intros [Hs Hb Hh] Hd Hpos. unfold copy_in, set_write, set_pool.
  destruct Hh as [a free rest Ep Hf Em Er Ew Es|back free front rest -> Ep Hf Em Ew Er Es]; ring_lens;
    cbn [read_mirror read_index write_mirror write_index buffer_size buffer_ptr]; rewrite Ep, Ew, Es.
  - replace (zlen a + zlen q + zlen free - (zlen a + zlen q)) with (zlen free) by lia.
    destruct (Z.ltb_spec (zlen d) (zlen free)).
    + destruct (take_split free (zlen d) ltac:(lia)) as (f1 & f2 & -> & Hf1); ring_lens.
      rewrite (app_assoc a q), buf_write_at by (autorewrite with zlen; lia). cbn [mbind option_bind].
      eexists. split; [reflexivity|]. split; [cbn; lia|exact Hb|]. apply (holds_straight _ _ a f2 rest); cbn; try done.
      * rewrite <- !app_assoc. rewrite drop_app_length' by (unfold zlen in *; lia). done.
      * intros ->. rewrite zlen_app, zlen_nil in *. lia.
      * rewrite index15_id by lia. autorewrite with zlen. lia.
      * autorewrite with zlen in *. lia.
    + set (d1 := take (Z.to_nat (zlen free)) d). set (d2 := drop (Z.to_nat (zlen free)) d).
      assert (Ed : d = d1 ++ d2) by (symmetry; apply take_drop). assert (Hd1 : zlen d1 = zlen free) by (unfold d1; rewrite zlen_take; lia).
      assert (Hl : zlen d = zlen d1 + zlen d2) by (rewrite Ed at 1; apply zlen_app).
      destruct (take_split a (zlen d2) ltac:(lia)) as (a1 & a2 & -> & Ha1); ring_lens.
      rewrite (app_assoc (a1 ++ a2) q), buf_write_at by (autorewrite with zlen in *; lia). cbn [mbind option_bind].
      rewrite drop_app_length' by (unfold zlen in *; lia).
      rewrite <- !app_assoc, (buf_write_start d2) by (autorewrite with zlen in *; lia). cbn [mbind option_bind].
      eexists. split; [reflexivity|]. split; [cbn; lia|exact Hb|].
      apply (holds_wrapped _ _ d2 a2 (q ++ d1) rest); cbn; try done.
      * by rewrite Ed at 1; rewrite app_assoc.
      * rewrite drop_app_length' by (unfold zlen in *; lia). by rewrite <- !app_assoc.
      * intros E. apply app_eq_nil in E as [-> ->]. rewrite zlen_nil in *. lia.
      * by rewrite Em.
      * rewrite index15_id by lia. lia.
      * autorewrite with zlen in *. lia.
      * autorewrite with zlen in *. lia.
  - replace (zlen back + zlen free + zlen front - zlen back) with (zlen free + zlen front) by lia. rewrite zlen_app in *.
    destruct (Z.ltb_spec (zlen d) (zlen free + zlen front)); [|lia].
    destruct (take_split free (zlen d) ltac:(lia)) as (f1 & f2 & -> & Hf1); ring_lens.
    rewrite buf_write_at by (autorewrite with zlen; lia). cbn [mbind option_bind].
    eexists. split; [reflexivity|]. split; [cbn; lia|exact Hb|].
    apply (holds_wrapped _ _ (back ++ d) f2 front rest); cbn; try done.
    + by rewrite app_assoc.
    + rewrite <- !app_assoc, drop_app_length' by (unfold zlen in *; lia). done.
    + rewrite index15_id by lia. autorewrite with zlen. lia.
    + autorewrite with zlen in *. lia.
    + autorewrite with zlen in *. lia.
Qed.

Lemma got S rb q n : ring S rb q -> 0 <= n < 2 ^ 16 ->
  exists rb', rt_ringbuffer_get rb n = (take (Z.to_nat n) q, rb') /\ ring S rb' (drop (Z.to_nat n) q).
Proof.
  intros Hr Hn. pose proof (ring_room _ _ _ Hr) as Hroom. unfold rt_ringbuffer_get.
  rewrite u16_id, (data_len _ _ _ Hr) by done. pose proof (zlen_nonneg q) as Hq0.
  destruct (Z.eqb_spec (zlen q) 0) as [E|E].
  { assert (q = []) as -> by (apply nil_length_inv; unfold zlen in *; lia). rewrite take_nil, drop_nil. by exists rb. }
  set (k := if zlen q <? n then zlen q else n).
  assert (Hk : 0 <= k <= zlen q) by (unfold k; destruct (Z.ltb_spec (zlen q) n); lia).
  assert (Ht : take (Z.to_nat n) q = take (Z.to_nat k) q /\ drop (Z.to_nat n) q = drop (Z.to_nat k) q).
  { unfold k, zlen in *. destruct (Z.ltb_spec (Z.of_nat (length q)) n); [|done]. by rewrite !take_ge, !drop_ge by lia. }
  destruct Ht as [-> ->]. destruct (take_split q k Hk) as (q1 & q2 & Eq & Hq1).
  assert (Et : take (Z.to_nat k) q = q1 /\ drop (Z.to_nat k) q = q2).
  { rewrite Eq, <- Hq1. unfold zlen. by rewrite Nat2Z.id, take_app_length, drop_app_length. }
  destruct Et as [-> ->]. clearbody k. destruct Hr as [Hs Hb Hh]. unfold set_read.
  destruct Hh as [a free rest Ep Hf Em Er Ew Es|back free front rest E' Ep Hf Em Ew Er Es]; ring_lens;
    rewrite Ep, Er, Es; cbn [write_mirror read_mirror read_index write_index buffer_size buffer_ptr].
  - rewrite Eq, zlen_app in *. destruct (Z.ltb_spec k (zlen a + (zlen q1 + zlen q2) + zlen free - zlen a)); [|lia].
    eexists. split.
    + rewrite buf_sub_skip, Z.sub_diag by lia. rewrite <- !app_assoc, buf_sub_here by done. reflexivity.
    + split; [cbn; lia|done|]. apply (holds_straight _ _ (a ++ q1) free rest); cbn; autorewrite with zlen; try done; try lia.
      * by rewrite <- !app_assoc.
      * rewrite index15_id; lia.
  - replace (zlen back + zlen free + zlen front - (zlen back + zlen free)) with (zlen front) by lia.
    destruct (Z.ltb_spec k (zlen front)).
    + destruct (take_split front k ltac:(lia)) as (f1 & f2 & -> & Hf1). ring_lens.
      assert (q1 = f1 /\ q2 = f2 ++ back) as [-> ->].
      { apply app_inj_1; [unfold zlen in *; lia|]. by rewrite <- Eq, E', app_assoc. }
      eexists. split.
      * rewrite (app_assoc back free), buf_sub_skip, zlen_app by (rewrite zlen_app; lia).
        rewrite Z.sub_diag, <- !app_assoc, buf_sub_here by done. reflexivity.
      * split; [cbn; lia|done|].
        apply (holds_wrapped _ _ back (free ++ f1) f2 rest); cbn; autorewrite with zlen; try done; try lia.
        { by rewrite <- !app_assoc. }
        { intros ->. rewrite zlen_app, zlen_nil in *. lia. }
        { rewrite index15_id by lia. lia. }
    + destruct (take_split back (k - zlen front)) as (b1 & b2 & -> & Hb1);
        [rewrite E', zlen_app in *; lia|]. ring_lens.
      assert (q1 = front ++ b1 /\ q2 = b2) as [-> ->].
      { apply app_inj_1; [rewrite length_app; unfold zlen in *; lia|]. by rewrite <- Eq, E', app_assoc. }
      eexists. split.
      * rewrite (app_assoc (b1 ++ b2) free), buf_sub_skip, !zlen_app by (rewrite !zlen_app in *; lia).
        rewrite Z.sub_diag, buf_sub_here by done. rewrite <- !app_assoc, buf_sub_here by lia. reflexivity.
      * autorewrite with zlen in *. split; [cbn; lia|done|].
        apply (holds_straight _ _ b1 (free ++ front) rest); cbn; autorewrite with zlen; try done; try lia.
        { by rewrite <- !app_assoc. }
        { intros E2. apply app_eq_nil in E2 as [_ E2]. done. }
        { rewrite index15_id; lia. }
Qed.

Lemma put_in S rb q ptr n : ring S rb q -> 0 <= n < 2 ^ 16 -> n <= zlen ptr ->
  let k := Z.min n (S - zlen q) in
  exists rb', rt_ringbuffer_put rb ptr n = Some (k, rb') /\ ring S rb' (q ++ take (Z.to_nat k) ptr).
Proof.
  intros Hr Hn Hp k. pose proof (ring_room _ _ _ Hr) as Hroom. pose proof (ring_bits _ _ _ Hr) as Hb. pose proof (zlen_nonneg q).
  unfold rt_ringbuffer_put. rewrite (space_len _ _ _ Hr), !u16_id by lia.
  destruct (Z.ltb_spec (zlen ptr) n); [lia|]. destruct (Z.eqb_spec (S - zlen q) 0) as [E|E].
  { exists rb. replace k with 0 by lia. by rewrite take_0, app_nil_r. }
  replace (if S - zlen q <? n then S - zlen q else n) with k by (destruct (Z.ltb_spec (S - zlen q) n); lia).
  destruct (copied_in S rb q (take (Z.to_nat k) ptr) Hr) as (rb' & -> & Hr'); [rewrite zlen_take; lia|lia|].
  by exists rb'.
Qed.

Lemma set_write_one (b : list Z) i ch : 0 <= i -> buf_set b i ch = buf_write b i [ch].
Proof.
  intros Hi. unfold buf_set, buf_write. change (zlen [ch]) with 1.
  destruct (Z.leb_spec 0 i); [|lia]. cbn [andb]. destruct (Z.ltb_spec i (zlen b)), (Z.leb_spec (i + 1) (zlen b)); try lia; [|done].
  f_equal. rewrite insert_take_drop by (unfold zlen in *; lia). by rewrite Nat.add_1_r.
Qed.

(** The indices are inside the pool. *)
Lemma indices S rb q : ring S rb q -> 0 <= write_index rb <= S /\ 0 <= read_index rb <= S /\
  (0 < S -> write_index rb < S) /\ (zlen q > 0 -> read_index rb < S).
Proof. intros [<- Hb Hh]. destruct Hh as [|? ? ? ? ->]; ring_lens; lia. Qed.

(** One byte is written like a block of one. *)
Lemma copy_in_one S rb q ch : ring S rb q -> 0 < S ->
  copy_in [ch] rb =
    (b ← buf_set (buffer_ptr rb) (write_index rb) ch;
     let '(m, i) := next_index rb (write_mirror rb) (write_index rb) in Some (set_write m i (set_pool b rb))).
Proof.
  intros Hr HS. destruct (indices _ _ _ Hr) as (Hw & _ & Hw1 & _). pose proof (ring_size _ _ _ Hr) as Es.
  unfold copy_in, next_index. rewrite Es, set_write_one by lia. change (zlen [ch]) with 1.
  destruct (Z.ltb_spec 1 (S - write_index rb)), (Z.eqb_spec (write_index rb) (S - 1)); try lia; [done|].
  rewrite e. replace (S - (S - 1)) with 1 by lia. change (Z.to_nat 1) with 1%nat. cbn [take drop].
  destruct (buf_write _ _ _) as [b|] eqn:Eb; [|done]. cbn [mbind option_bind]. by rewrite buf_write_start by apply zlen_nonneg.
Qed.

Lemma char_in S rb q ch : ring S rb q ->
  exists rb', rt_ringbuffer_putchar rb ch = Some (if zlen q <? S then 1 else 0, rb') /\
    ring S rb' (if zlen q <? S then q ++ [ch] else q).
Proof.
  intros Hr. pose proof (ring_room _ _ _ Hr). pose proof (ring_bits _ _ _ Hr). pose proof (zlen_nonneg q).
  unfold rt_ringbuffer_putchar. rewrite (space_len _ _ _ Hr).
  destruct (Z.eqb_spec (S - zlen q) 0), (Z.ltb_spec (zlen q) S); try lia; [by exists rb|].
  destruct (copied_in S rb q [ch] Hr) as (rb' & E & Hr'); [change (zlen [ch]) with 1; lia|lia|].
  rewrite (copy_in_one _ _ _ _ Hr) in E by lia. exists rb'. split; [|done].
  destruct (buf_set _ _ _) as [b|]; [|done]. cbn [mbind option_bind] in *.
  destruct (next_index _ _ _) as [m i]. by injection E as ->.
Qed.

Lemma ring_get S rb q : ring S rb q -> 0 < zlen q -> buf_get (buffer_ptr rb) (read_index rb) = head q.
Proof.
  intros [Hs Hb Hh] Hq. destruct Hh as [a free rest Ep Hf Em Er Ew Es|back free front rest -> Ep Hf Em Ew Er Es]; rewrite Ep, Er.
  - destruct q as [|x q]; [unfold zlen in Hq; cbn in Hq; lia|]. rewrite <- (Z.add_0_r (zlen a)), buf_get_app_r by lia. done.
  - destruct front as [|x front]; [done|]. rewrite (app_assoc back), <- (Z.add_0_r (_ + _)), <- zlen_app, buf_get_app_r by lia. done.
Qed.

Lemma char_out S rb q : ring S rb q ->
  exists rb', rt_ringbuffer_getchar rb = Some (head q, rb') /\ ring S rb' (tail q).
Proof.
  intros Hr. unfold rt_ringbuffer_getchar. rewrite (data_len _ _ _ Hr). pose proof (zlen_nonneg q).
  destruct (Z.eqb_spec (zlen q) 0) as [E|E].
  { assert (q = []) as -> by (apply nil_length_inv; unfold zlen in *; lia). by exists rb. }
  rewrite (ring_get _ _ _ Hr) by lia. destruct q as [|x q]; [done|]. cbn [head mbind option_bind tail].
  destruct (got S rb (x :: q) 1 Hr ltac:(lia)) as (rb' & Eg & Hr'). destruct (indices _ _ _ Hr) as (_ & Hi & _ & Hi1).
  exists (let '(m, i) := next_index rb (read_mirror rb) (read_index rb) in set_read m i rb). split.
  - by destruct (next_index _ _ _).
  - change (drop (Z.to_nat 1) (x :: q)) with q in Hr'. revert Eg. unfold rt_ringbuffer_get, next_index.
    rewrite u16_id, (data_len _ _ _ Hr), (ring_size _ _ _ Hr) by lia.
    destruct (Z.eqb_spec (zlen (x :: q)) 0); [lia|]. destruct (Z.ltb_spec (zlen (x :: q)) 1); [lia|].
    destruct (Z.ltb_spec 1 (S - read_index rb)), (Z.eqb_spec (read_index rb) (S - 1)); try lia; intros [= _ <-]; [done|].
    rewrite e in Hr'. by replace (1 - (S - (S - 1))) with 0 in Hr' by lia.
Qed.

Lemma reset_empty S rb q : ring S rb q -> 0 < S -> ring S (rt_ringbuffer_reset rb) [].
Proof.
  intros Hr HS. pose proof (ring_size _ _ _ Hr) as Es. pose proof (ring_bits _ _ _ Hr) as Hb.
  assert (Hp : S <= zlen (buffer_ptr rb)).
  { destruct Hr as [_ _ [a free rest Ep|back free front rest ? Ep]]; rewrite Ep; ring_lens; autorewrite with zlen; lia. }
  split; [done|done|]. destruct (take_split (buffer_ptr rb) S ltac:(lia)) as (p1 & p2 & Ep & Hp1).
  apply (holds_straight _ _ [] p1 p2); cbn; try done; [intros ->; rewrite zlen_nil in *; lia|].
  change (@zlen Z []) with 0. lia.
Qed.

(** A buffer of a multiple of four bytes uses all of them. *)
Lemma ring_created S pool : 0 < S < 2 ^ 15 -> S `mod` 4 = 0 -> S <= zlen pool ->
  exists rb, rt_ringbuffer_init pool S = Some rb /\ ring S rb [].
Proof.
  intros HS H4 Hp. unfold rt_ringbuffer_init. destruct (Z.leb_spec S 0); [lia|].
  assert (Ea : RT_ALIGN_DOWN S RT_ALIGN_SIZE = S).
  { unfold RT_ALIGN_DOWN, RT_ALIGN_SIZE. change (4 - 1) with (Z.ones 2). rewrite <- Z.ldiff_land, Z.ldiff_ones_r, shr_div by lia.
    rewrite Z.shiftl_mul_pow2 by lia. change (2 ^ 2) with 4. pose proof (Z.div_mod S 4). lia. }
  rewrite Ea. eexists. split; [reflexivity|]. split; [done|lia|].
  destruct (take_split pool S ltac:(lia)) as (p1 & p2 & -> & Hp1).
  apply (holds_straight _ _ [] p1 p2); cbn; try done. intros ->. rewrite zlen_nil in *. lia.
Qed.

(** ** Operations that discard old bytes *)

(** The last [S] bytes. *)
Definition latest (S : Z) (q : list Z) : list Z := drop (Z.to_nat (zlen q - S)) q.

Lemma latest_app S p q : zlen q = S -> latest S (p ++ q) = q.
Proof.
  intros <-. unfold latest. rewrite zlen_app. replace (zlen p + zlen q - zlen q) with (zlen p) by lia.
  unfold zlen. by rewrite Nat2Z.id, drop_app_length.
Qed.

Lemma latest_all S q : zlen q <= S -> latest S q = q.
Proof. intros H. unfold latest. by replace (Z.to_nat (zlen q - S)) with 0%nat by lia. Qed.

(** Bytes that do not fit, written over the oldest ones. *)
Lemma forced_in S rb q d : ring S rb q -> S - zlen q < zlen d <= S ->
  exists rb', copy_in d rb = Some rb' /\
    ring S (set_read (if zlen d <? buffer_size rb - write_index rb then read_mirror rb else negb (read_mirror rb))
              (write_index rb') rb')
      (if Bool.eqb (write_mirror rb) (read_mirror rb) then [] else latest S (q ++ d)).
Proof.
  intros [Hs Hb Hh] Hd. unfold copy_in, set_write, set_pool, set_read.
  destruct Hh as [a free rest Ep Hf Em Er Ew Es|back free front rest -> Ep Hf Em Ew Er Es]; ring_lens;
    cbn [read_mirror read_index write_mirror write_index buffer_size buffer_ptr]; rewrite Ep, Ew, Es, Em.
  - rewrite Bool.eqb_reflx. replace (zlen a + zlen q + zlen free - (zlen a + zlen q)) with (zlen free) by lia.
    destruct (Z.ltb_spec (zlen d) (zlen free)); [lia|].
    destruct (take_split d (zlen free) ltac:(lia)) as (d1 & d2 & -> & Hd1). ring_lens.
    rewrite <- Hd1, take_zlen_app, drop_zlen_app.
    destruct (take_split (a ++ q) (zlen d2)) as (p1 & p2 & Epq & Hp1); [autorewrite with zlen in *; lia|]. ring_lens.
    assert (Hpq : zlen p1 + zlen p2 = zlen a + zlen q) by (rewrite <- !zlen_app; by rewrite Epq).
    rewrite (app_assoc a q), buf_write_at by (autorewrite with zlen in *; lia). cbn [mbind option_bind].
    rewrite drop_app_length' by (unfold zlen in *; lia). rewrite buf_write_start by (autorewrite with zlen in *; lia).
    cbn [mbind option_bind]. eexists. split; [reflexivity|]. autorewrite with zlen in *. split; [cbn; lia|done|].
    rewrite Epq, <- !app_assoc, drop_app_length' by (unfold zlen in *; lia).
    apply (holds_straight _ _ d2 (p2 ++ d1) rest); cbn; try done.
    + by rewrite <- !app_assoc.
    + intros E. apply app_eq_nil in E as [_ ->]. rewrite zlen_nil in *. lia.
    + rewrite !index15_id by (rewrite ?index15_id; lia). lia.
    + rewrite index15_id, (@zlen_nil Z) by lia. lia.
    + rewrite (@zlen_nil Z). autorewrite with zlen. lia.
  - replace (Bool.eqb (negb (read_mirror rb)) (read_mirror rb)) with false by (by destruct (read_mirror rb)).
    replace (zlen back + zlen free + zlen front - zlen back) with (zlen free + zlen front) by lia. rewrite zlen_app in *.
    destruct (Z.ltb_spec (zlen d) (zlen free + zlen front)).
    + destruct (take_split front (zlen d - zlen free) ltac:(lia)) as (f1 & f2 & -> & Hf1). ring_lens.
      replace (back ++ free ++ (f1 ++ f2) ++ rest) with (back ++ (free ++ f1) ++ f2 ++ rest) by (by rewrite <- !app_assoc).
      rewrite buf_write_at by (autorewrite with zlen in *; lia). cbn [mbind option_bind].
      eexists. split; [reflexivity|]. autorewrite with zlen in *. split; [cbn; lia|done|].
      rewrite drop_app_length' by (rewrite length_app; unfold zlen in *; lia).
      replace ((f1 ++ f2) ++ back) with (f1 ++ f2 ++ back) by (by rewrite app_assoc).
      replace ((f1 ++ f2 ++ back) ++ d) with (f1 ++ f2 ++ back ++ d) by (by rewrite <- !app_assoc).
      rewrite latest_app by (autorewrite with zlen; lia).
      apply (holds_wrapped _ _ (back ++ d) [] f2 rest); cbn; try done.
      * intros ->. rewrite zlen_nil in *. lia.
      * rewrite index15_id by lia. autorewrite with zlen. lia.
      * rewrite !index15_id by (rewrite ?index15_id; lia). autorewrite with zlen. lia.
      * autorewrite with zlen. lia.
    + destruct (take_split d (zlen free + zlen front) ltac:(lia)) as (d1 & d2 & -> & Hd1). ring_lens.
      rewrite <- Hd1, take_zlen_app, drop_zlen_app.
      destruct (take_split back (zlen d2)) as (b1 & b2 & -> & Hb1); [autorewrite with zlen in *; lia|]. ring_lens.
      rewrite (app_assoc free), (buf_write_at (b1 ++ b2)) by (autorewrite with zlen in *; lia). cbn [mbind option_bind].
      rewrite drop_app_length' by (rewrite length_app; unfold zlen in *; lia).
      rewrite buf_write_start by (autorewrite with zlen in *; lia).
      cbn [mbind option_bind]. eexists. split; [reflexivity|]. autorewrite with zlen in *. split; [cbn; lia|done|].
      rewrite <- !app_assoc, drop_app_length' by (unfold zlen in *; lia).
      replace (front ++ b1 ++ b2 ++ d1 ++ d2) with ((front ++ b1) ++ b2 ++ d1 ++ d2) by (by rewrite <- !app_assoc).
      rewrite latest_app by (autorewrite with zlen; lia).
      apply (holds_wrapped _ _ d2 [] (b2 ++ d1) rest); cbn; try done.
      * by rewrite app_assoc.
      * by rewrite <- !app_assoc.
      * intros E. apply app_eq_nil in E as [_ ->]. rewrite zlen_nil in *. lia.
      * rewrite index15_id by lia. lia.
      * rewrite !index15_id, (@zlen_nil Z) by (rewrite ?index15_id; lia). lia.
      * rewrite (@zlen_nil Z). autorewrite with zlen. lia.
Qed.

Lemma force_fits S rb q ptr n : ring S rb q -> 0 < S -> 0 <= n < 2 ^ 16 -> n <= zlen ptr ->
  let d := latest S (take (Z.to_nat n) ptr) in
  exists rb', rt_ringbuffer_put_force rb ptr n = Some (Z.min S n, rb') /\
    ring S rb' (if zlen q + zlen d <=? S then q ++ d
                else if Bool.eqb (write_mirror rb) (read_mirror rb) then [] else latest S (q ++ d)).
Proof.
  intros Hr HS Hn Hp d. pose proof (ring_room _ _ _ Hr) as Hroom. pose proof (ring_bits _ _ _ Hr) as Hb.
  pose proof (ring_size _ _ _ Hr) as Es. pose proof (zlen_nonneg q).
  unfold rt_ringbuffer_put_force. rewrite (space_len _ _ _ Hr), !u16_id, Es by lia.
  destruct (Z.ltb_spec (zlen ptr) n); [lia|].
  set (p := take (Z.to_nat n) ptr) in *. assert (Hlp : zlen p = n) by (unfold p; rewrite zlen_take; lia).
  replace (if S <? n then drop (Z.to_nat (n - S)) p else p) with d
    by (unfold d; destruct (Z.ltb_spec S n); [unfold latest; by rewrite Hlp|apply latest_all; lia]).
  replace (if S <? n then S else n) with (Z.min S n) by (destruct (Z.ltb_spec S n); lia).
  assert (Hd : zlen d = Z.min S n).
  { unfold d, latest. rewrite zlen_drop, Hlp. lia. }
  rewrite <- Hd. clearbody d. destruct (Z.leb_spec (zlen q + zlen d) S), (Z.ltb_spec (S - zlen q) (zlen d)); try lia.
  - destruct (Z.eq_dec (S - zlen q) 0) as [E0|E0].
    + assert (d = []) as -> by (apply nil_length_inv; unfold zlen in *; lia). rewrite app_nil_r.
      destruct (indices _ _ _ Hr) as (Hw & _ & Hw1 & _). unfold copy_in. rewrite Es. change (@zlen Z []) with 0.
      destruct (Z.ltb_spec 0 (S - write_index rb)); [|lia].
      assert (Hpool : write_index rb + 0 <= zlen (buffer_ptr rb)).
      { destruct Hr as [Hs _ Hh]. destruct Hh as [a free rest Ep|back free front rest ? Ep]; rewrite Ep; ring_lens; autorewrite with zlen; lia. }
      rewrite (buf_write_some _ _ []) by (change (@zlen Z []) with 0; lia). cbn [mbind option_bind length app].
      rewrite Nat.add_0_r, take_drop, Z.add_0_r. eexists. split; [reflexivity|].
      unfold set_write, set_pool. cbn. rewrite index15_id by lia. by destruct rb.
    + destruct (copied_in S rb q d Hr) as (rb' & -> & Hr'); [lia|lia|]. by exists rb'.
  - destruct (forced_in S rb q d Hr) as (rb' & E & Hr'); [lia|]. rewrite E. cbn [mbind option_bind].
    assert (Em : read_mirror rb' = read_mirror rb).
    { revert E. unfold copy_in. destruct (_ <? _).
      - destruct (buf_write _ _ _); [|done]. by intros [= <-].
      - destruct (buf_write _ _ _) as [b|]; [|done]. cbn [mbind option_bind]. destruct (buf_write b _ _); [|done]. by intros [= <-]. }
    eexists. split; [reflexivity|]. rewrite Em. rewrite Es in Hr'. by destruct (_ <? _).
Qed.

(** A full buffer is in two pieces. *)
Lemma full_wraps S rb q : ring S rb q -> zlen q = S -> write_mirror rb = negb (read_mirror rb).
Proof. intros [<- Hb Hh] E. destruct Hh as [a free rest|]; [ring_lens; lia|done]. Qed.

Lemma status_full S rb q : ring S rb q -> 0 < S ->
  match rt_ringbuffer_status rb with RT_RINGBUFFER_FULL => zlen q = S | _ => zlen q < S end.
Proof.
  intros Hr HS. pose proof (data_len _ _ _ Hr) as E. pose proof (ring_room _ _ _ Hr) as Hroom. pose proof (ring_size _ _ _ Hr) as Es.
  pose proof (ring_bits _ _ _ Hr). destruct (indices _ _ _ Hr) as (Hw & Hrd & _). revert E. unfold rt_ringbuffer_data_len.
  destruct (rt_ringbuffer_status rb) eqn:Est; [lia|lia|]. unfold rt_ringbuffer_status in Est.
  destruct (Z.eqb_spec (read_index rb) (write_index rb)); [by destruct (Bool.eqb _ _)|].
  destruct (Z.ltb_spec (read_index rb) (write_index rb)); [|lia]. intros E.
  destruct Hr as [_ _ [a free rest|back free front rest ->]]; ring_lens; rewrite ?zlen_app in *; lia.
Qed.

Lemma char_forced S rb q ch : ring S rb q -> 0 < S ->
  exists rb', rt_ringbuffer_putchar_force rb ch = Some (1, rb') /\ ring S rb' (latest S (q ++ [ch])).
Proof.
  intros Hr HS. pose proof (ring_room _ _ _ Hr) as Hroom. pose proof (status_full _ _ _ Hr HS) as Hst.
  pose proof (ring_size _ _ _ Hr) as Es. pose proof (copy_in_one S rb q ch Hr HS) as Ec.
  destruct (indices _ _ _ Hr) as (Hw & _ & Hw1 & _).
  assert (H1 : zlen [ch] = 1) by done. pose proof (zlen_nonneg q).
  unfold rt_ringbuffer_putchar_force. destruct (Z.eq_dec (zlen q) S) as [Eq|Eq].
  - destruct (rt_ringbuffer_status rb); [lia| |lia].
    destruct (forced_in S rb q [ch] Hr) as (rb' & E & Hr'); [lia|].
    rewrite (full_wraps _ _ _ Hr Eq) in Hr'. replace (Bool.eqb (negb (read_mirror rb)) (read_mirror rb)) with false in Hr' by (by destruct (read_mirror rb)).
    rewrite Ec in E. destruct (buf_set _ _ _) as [b|]; [|done]. cbn [mbind option_bind] in *.
    destruct (next_index _ _ _) as [m i]. injection E as <-. eexists. split; [reflexivity|].
    rewrite Es, H1 in *. destruct (Z.ltb_spec 1 (S - write_index rb)), (Z.eqb_spec (write_index rb) (S - 1)); try lia; exact Hr'.
  - destruct (copied_in S rb q [ch] Hr) as (rb' & E & Hr'); [lia|lia|].
    rewrite Ec in E. rewrite latest_all by (rewrite zlen_app; lia). exists rb'. split; [|done].
    destruct (buf_set _ _ _) as [b|]; [|done]. cbn [mbind option_bind] in *.
    destruct (next_index _ _ _) as [m i]. injection E as <-. destruct (rt_ringbuffer_status rb); [done|lia|done].
Qed.

(** ** A bounded queue *)

Inductive op :=
  | Put (ptr : list Z)
  | PutForce (ptr : list Z)
  | PutChar (ch : Z)
  | PutCharForce (ch : Z)
  | Get (length : Z)
  | GetChar
  | DataLen
  | Reset.

(** One call: the value it returns, the bytes it stores for the caller, the buffer. *)
Definition ring_step (rb : rt_ringbuffer) (o : op) : option (Z * list Z * rt_ringbuffer) :=
  match o with
  | Put ptr => '(n, rb) ← rt_ringbuffer_put rb ptr (zlen ptr); Some (n, [], rb)
  | PutForce ptr => '(n, rb) ← rt_ringbuffer_put_force rb ptr (zlen ptr); Some (n, [], rb)
  | PutChar ch => '(n, rb) ← rt_ringbuffer_putchar rb ch; Some (n, [], rb)
  | PutCharForce ch => '(n, rb) ← rt_ringbuffer_putchar_force rb ch; Some (n, [], rb)
  | Get n => let '(d, rb) := rt_ringbuffer_get rb n in Some (zlen d, d, rb)
  | GetChar => '(c, rb) ← rt_ringbuffer_getchar rb; Some (match c with Some ch => (1, [ch], rb) | None => (0, [], rb) end)
  | DataLen => Some (rt_ringbuffer_data_len rb, [], rb)
  | Reset => Some (0, [], rt_ringbuffer_reset rb)
  end.

(** The same calls on a queue of at most [S] bytes. *)
Definition queue_step (S : Z) (q : list Z) (o : op) : Z * list Z * list Z :=
  match o with
  | Put ptr => let k := Z.min (zlen ptr) (S - zlen q) in (k, [], q ++ take (Z.to_nat k) ptr)
  | PutForce ptr => (Z.min S (zlen ptr), [], q ++ ptr)
  | PutChar ch => if zlen q <? S then (1, [], q ++ [ch]) else (0, [], q)
  | PutCharForce ch => (1, [], latest S (q ++ [ch]))
  | Get n => (Z.min n (zlen q), take (Z.to_nat n) q, drop (Z.to_nat n) q)
  | GetChar => match q with x :: q => (1, [x], q) | [] => (0, [], []) end
  | DataLen => (zlen q, [], q)
  | Reset => (0, [], [])
  end.

(** What a caller may ask for: the lengths have 16 bits, and a forced block fits. *)
Definition op_ok (S : Z) (q : list Z) (o : op) : Prop :=
  match o with
  | Put ptr => zlen ptr < 2 ^ 16
  | PutForce ptr => zlen q + zlen ptr <= S
  | Get n => 0 <= n < 2 ^ 16
  | _ => True
  end.

Fixpoint ops_ok (S : Z) (q : list Z) (ops : list op) : Prop :=
  match ops with
  | [] => True
  | o :: ops => op_ok S q o /\ ops_ok S (queue_step S q o).2 ops
  end.

Fixpoint run_ring (rb : rt_ringbuffer) (ops : list op) : option (list (Z * list Z) * rt_ringbuffer) :=
  match ops with
  | [] => Some ([], rb)
  | o :: ops => '(out, rb) ← ring_step rb o; '(outs, rb) ← run_ring rb ops; Some (out :: outs, rb)
  end.

Fixpoint run_queue (S : Z) (q : list Z) (ops : list op) : list (Z * list Z) * list Z :=
  match ops with
  | [] => ([], q)
  | o :: ops => let '(out, q) := queue_step S q o in let '(outs, q) := run_queue S q ops in (out :: outs, q)
  end.

Lemma step_refines S rb q o : ring S rb q -> 0 < S -> op_ok S q o ->
  exists rb', ring_step rb o = Some ((queue_step S q o).1, rb') /\ ring S rb' (queue_step S q o).2.
Proof.
  intros Hr HS Ho. pose proof (ring_bits _ _ _ Hr) as Hb. destruct o as [ptr|ptr|ch|ch|n| | |]; cbn [ring_step queue_step op_ok] in *.
  - destruct (put_in S rb q ptr (zlen ptr) Hr) as (rb' & -> & Hr'); [pose proof (zlen_nonneg ptr); lia|lia|]. by exists rb'.
  - pose proof (zlen_nonneg ptr). pose proof (zlen_nonneg q).
    destruct (force_fits S rb q ptr (zlen ptr) Hr HS) as (rb' & -> & Hr'); [lia|lia|]. exists rb'. split; [done|].
    rewrite take_all, latest_all in Hr' by lia. by destruct (Z.leb_spec (zlen q + zlen ptr) S); [|lia].
  - destruct (char_in S rb q ch Hr) as (rb' & -> & Hr'). exists rb'. by destruct (_ <? _).
  - destruct (char_forced S rb q ch Hr HS) as (rb' & -> & Hr'). by exists rb'.
  - destruct (got S rb q n Hr Ho) as (rb' & -> & Hr'). exists rb'. split; [|done]. rewrite zlen_take. cbn. repeat f_equal. lia.
  - destruct (char_out S rb q Hr) as (rb' & -> & Hr'). exists rb'. by destruct q.
  - exists rb. by rewrite (data_len _ _ _ Hr).
  - exists (rt_ringbuffer_reset rb). split; [done|]. by apply (reset_empty S rb q).
Qed.

Lemma run_refines S ops : forall rb q, ring S rb q -> 0 < S -> ops_ok S q ops ->
  exists rb', run_ring rb ops = Some ((run_queue S q ops).1, rb') /\ ring S rb' (run_queue S q ops).2.
Proof.
  induction ops as [|o ops IH]; intros rb q Hr HS Ho; [by exists rb|]. destruct Ho as [Ho Hops]. cbn [run_ring run_queue].
  destruct (step_refines S rb q o Hr HS Ho) as (rb1 & -> & Hr1). destruct (queue_step S q o) as [out q1]. cbn [fst snd mbind option_bind] in *.
  destruct (IH rb1 q1 Hr1 HS Hops) as (rb2 & -> & Hr2). cbn [mbind option_bind]. exists rb2.
  by destruct (run_queue S q1 ops).
Qed.

(** [C21] A buffer initialised over a pool of [S] bytes is a queue of at most
    [S] bytes: whatever is put into it, singly or in blocks, taken out,
    counted, discarded for a newer byte, or reset, every call returns and
    stores what the same call on a queue returns, no call leaves the pool, and
    the queue of the end is the one in the pool.  A block that is forced in has
    to fit. *)
Theorem ring_refines_queue S pool ops : 0 < S < 2 ^ 15 -> S `mod` 4 = 0 -> S <= zlen pool -> ops_ok S [] ops ->
  exists rb, rt_ringbuffer_init pool S = Some rb /\
    exists rb', run_ring rb ops = Some ((run_queue S [] ops).1, rb') /\ ring S rb' (run_queue S [] ops).2.
Proof.
  intros HS H4 Hp Ho. destruct (ring_created S pool HS H4 Hp) as (rb & Hi & Hr). exists rb. split; [done|].
  apply run_refines; [done|lia|done].
Qed.

Lemma ring_refines_queue_witness :
  exists rb, rt_ringbuffer_init [0; 0; 0; 0; 0] 4 = Some rb /\
    exists rb', run_ring rb [Put [1; 2; 3]; Get 2; Put [4; 5; 6; 7]; PutCharForce 8; GetChar; PutChar 9; DataLen; Reset] =
      Some ([(3, []); (2, [1; 2]); (3, []); (1, []); (1, [4]); (1, []); (4, []); (0, [])], rb').
Proof.
  destruct (ring_refines_queue 4 [0; 0; 0; 0; 0] [Put [1; 2; 3]; Get 2; Put [4; 5; 6; 7]; PutCharForce 8; GetChar; PutChar 9; DataLen; Reset])
    as (rb & Hi & rb' & Hr & _); [split; reflexivity|reflexivity|discriminate|repeat split; discriminate|].
  exists rb. split; [exact Hi|]. exists rb'. exact Hr.
Defined.

(** A forced block that does not fit a buffer in one piece turns both mirror
    bits: nothing of the old or the new bytes is left. *)
Example put_force_loses_all :
  option_map (fun '(n, rb) => (n, rt_ringbuffer_data_len rb))
    (rt_ringbuffer_put_force (RingBuffer [1; 2; 0; 0] false 0 false 2 4) [3; 4; 5] 3) = Some (3, 0).
Proof. reflexivity. Qed.

(** One that does not fit a buffer in two pieces leaves the last bytes. *)
Lemma put_force_wrapped S rb q ptr : ring S rb q -> 0 < S -> zlen ptr < 2 ^ 16 -> write_mirror rb = negb (read_mirror rb) ->
  S < zlen q + zlen ptr ->
  exists rb', rt_ringbuffer_put_force rb ptr (zlen ptr) = Some (Z.min S (zlen ptr), rb') /\ ring S rb' (latest S (q ++ ptr)).
Proof.
  intros Hr HS Hp Hm Hl. pose proof (zlen_nonneg ptr). pose proof (ring_room _ _ _ Hr).
  destruct (force_fits S rb q ptr (zlen ptr) Hr HS) as (rb' & E & Hr'); [lia|lia|]. exists rb'. split; [done|].
  rewrite take_all, Hm in Hr'. replace (Bool.eqb (negb (read_mirror rb)) (read_mirror rb)) with false in Hr' by (by destruct (read_mirror rb)).
  destruct (Z.leb_spec (zlen q + zlen (latest S ptr)) S) as [Hle|Hgt].
  - destruct (Z.leb_spec (zlen ptr) S); [rewrite latest_all in Hle by lia; lia|].
    assert (Hls : zlen (latest S ptr) = S) by (unfold latest; rewrite zlen_drop; lia).
    assert (q = []) as -> by (apply nil_length_inv; pose proof (zlen_nonneg q); unfold zlen in *; lia). done.
  - destruct (Z.leb_spec (zlen ptr) S); [by rewrite (latest_all S ptr) in Hr' by lia|].
    assert (Hls : zlen (latest S ptr) = S) by (unfold latest; rewrite zlen_drop; lia).
    rewrite latest_app in Hr' by done. unfold latest at 1. rewrite zlen_app.
    rewrite drop_app_ge by (unfold zlen in *; lia).
    replace (Z.to_nat (zlen q + zlen ptr - S) - length q)%nat with (Z.to_nat (zlen ptr - S)) by (unfold zlen in *; lia). exact Hr'.
Qed.
