(* ===== verification/Heap.v ===== *)
(** * The system heap

    Models src/rt-thread/src/mem.c: the heap is an area of bytes that is cut
    into blocks, each behind a header with the offsets of its neighbours.  The
    theorems show that the calls implement a store of separate blocks: nothing
    that is handed out overlaps, moves or changes until it is given back, and
    what is given back becomes one block again. *)

From stdpp Require Import gmap.
From S2P Require Import Prelude RingBuffer.

Local Open Scope Z_scope.

(** ** The headers *)

Definition HEAP_MAGIC : Z := 0x1ea0.
Definition MIN_SIZE : Z := 12.
Definition RT_ALIGN (size align : Z) : Z := Z.land (u32 (size + align - 1)) (Z.lnot (align - 1)).
Definition MIN_SIZE_ALIGNED : Z := RT_ALIGN MIN_SIZE RT_ALIGN_SIZE.
Definition SIZEOF_STRUCT_MEM : Z := RT_ALIGN 12 RT_ALIGN_SIZE.

(** The static variables: [heap_bytes] are the bytes from [heap_ptr] on;
    [heap_end] and [lfree], pointers to headers, are offsets from [heap_ptr]. *)
Record heap := Heap {
  heap_ptr : Z;
  heap_bytes : list Z;
  heap_end : Z;
  lfree : Z;
  mem_size_aligned : Z;
  used_mem : Z;
  max_mem : Z
}.

Definition set_bytes (b : list Z) (h : heap) : heap :=
  Heap (heap_ptr h) b (heap_end h) (lfree h) (mem_size_aligned h) (used_mem h) (max_mem h).
Definition set_lfree (p : Z) (h : heap) : heap :=
  Heap (heap_ptr h) (heap_bytes h) (heap_end h) p (mem_size_aligned h) (used_mem h) (max_mem h).
Definition set_stats (used most : Z) (h : heap) : heap :=
  Heap (heap_ptr h) (heap_bytes h) (heap_end h) (lfree h) (mem_size_aligned h) used most.

(** A little-endian word of [n] bytes; outside of the heap there is nothing. *)
Definition load_word (n : nat) (h : heap) (at_ : Z) : option Z :=
  if (0 <=? at_) && (at_ + Z.of_nat n <=? zlen (heap_bytes h))
  then Some (le_val (buf_sub (heap_bytes h) at_ (Z.of_nat n))) else None.
Definition store_word (n : nat) (at_ v : Z) (h : heap) : option heap :=
  b ← buf_write (heap_bytes h) at_ (le_bytes n v); Some (set_bytes b h).

(** The fields of the [struct heap_mem] at an offset. *)
Definition magic (h : heap) (mem : Z) : option Z := load_word 2 h mem.
Definition used (h : heap) (mem : Z) : option Z := load_word 2 h (mem + 2).
Definition next (h : heap) (mem : Z) : option Z := load_word 4 h (mem + 4).
Definition prev (h : heap) (mem : Z) : option Z := load_word 4 h (mem + 8).
Definition set_magic (mem v : Z) (h : heap) : option heap := store_word 2 mem v h.
Definition set_used (mem v : Z) (h : heap) : option heap := store_word 2 (mem + 2) v h.
Definition set_next (mem v : Z) (h : heap) : option heap := store_word 4 (mem + 4) v h.
Definition set_prev (mem v : Z) (h : heap) : option heap := store_word 4 (mem + 8) v h.

(** ** The calls *)

(** "plug hole forward" *)
Definition plug_forward (mem : Z) (h : heap) : option heap :=
  nmem ← next h mem;
  if mem =? nmem then Some h
  else
    u ← used h nmem;
    if (u =? 0) && negb (nmem =? heap_end h) then
      let h := if lfree h =? nmem then set_lfree mem h else h in
      n ← next h nmem;
      h ← set_next mem n h;
      n ← next h nmem;
      set_prev n mem h
    else Some h.

(** "plug hole backward" *)
Definition plug_backward (mem : Z) (h : heap) : option heap :=
  pmem ← prev h mem;
  if pmem =? mem then Some h
  else
    u ← used h pmem;
    if u =? 0 then
      let h := if lfree h =? mem then set_lfree pmem h else h in
      n ← next h mem;
      h ← set_next pmem n h;
      n ← next h mem;
      set_prev n pmem h
    else Some h.

Definition plug_holes (mem : Z) (h : heap) : option heap :=
  if (0 <=? mem) && (mem <? heap_end h) then
    u ← used h mem;
    if u =? 0 then h ← plug_forward mem h; plug_backward mem h else None
  else None.

(** [rt_system_heap_init] on the bytes that are there; the inner [None] is the
    error message. *)
Definition rt_system_heap_init (begin_addr end_addr : Z) (bytes : list Z) : option (option heap) :=
  let begin_align := RT_ALIGN begin_addr RT_ALIGN_SIZE in
  let end_align := RT_ALIGN_DOWN end_addr RT_ALIGN_SIZE in
  if (2 * SIZEOF_STRUCT_MEM <? end_align) && (begin_align <=? end_align - 2 * SIZEOF_STRUCT_MEM) then
    let size := end_align - begin_align - 2 * SIZEOF_STRUCT_MEM in
    let last := size + SIZEOF_STRUCT_MEM in
    let h := Heap begin_align bytes last 0 size 0 0 in
    h ← set_magic 0 HEAP_MAGIC h;
    h ← set_next 0 last h;
    h ← set_prev 0 0 h;
    h ← set_used 0 0 h;
    h ← set_magic last HEAP_MAGIC h;
    h ← set_used last 1 h;
    h ← set_next last last h;
    h ← set_prev last last h;
    Some (Some h)
  else Some None.

(** The search of [rt_malloc], from [ptr] on: an offset, or none. *)
Fixpoint find_fit (fuel : nat) (h : heap) (size ptr : Z) : option (option Z) :=
  match fuel with
  | O => None
  | S fuel =>
      if ptr <? u32 (mem_size_aligned h - size) then
        u ← used h ptr;
        n ← next h ptr;
        if (u =? 0) && (size <=? u32 (n - (ptr + SIZEOF_STRUCT_MEM))) then Some (Some ptr)
        else find_fit fuel h size n
      else Some None
  end.

(** "Find next free block after mem" *)
Fixpoint next_free (fuel : nat) (h : heap) (p : Z) : option Z :=
  match fuel with
  | O => None
  | S fuel =>
      u ← used h p;
      if negb (u =? 0) && negb (p =? heap_end h) then n ← next h p; next_free fuel h n else Some p
  end.

(** The header [mem2] of what is left of the block at [ptr] behind [size] bytes. *)
Definition create_rest (ptr size : Z) (h : heap) : option heap :=
  let ptr2 := ptr + SIZEOF_STRUCT_MEM + size in
  n ← next h ptr;
  h ← set_magic ptr2 HEAP_MAGIC h;
  h ← set_used ptr2 0 h;
  h ← set_next ptr2 n h;
  h ← set_prev ptr2 ptr h;
  set_next ptr ptr2 h.

(** The block behind the new header points back to it, unless it is the end. *)
Definition link_rest (ptr2 : Z) (h : heap) : option heap :=
  n ← next h ptr2;
  if negb (n =? mem_size_aligned h + SIZEOF_STRUCT_MEM) then set_prev n ptr2 h else Some h.

Definition count_used (n : Z) (h : heap) : heap :=
  let used_mem := u32 (used_mem h + n) in
  set_stats used_mem (if max_mem h <? used_mem then used_mem else max_mem h) h.

(** What [rt_malloc] does with the block it has found. *)
Definition take_block (mem size : Z) (h : heap) : option heap :=
  n ← next h mem;
  h ← (if size + SIZEOF_STRUCT_MEM + MIN_SIZE_ALIGNED <=? u32 (n - (mem + SIZEOF_STRUCT_MEM)) then
         h ← create_rest mem size h;
         h ← set_used mem 1 h;
         h ← link_rest (mem + SIZEOF_STRUCT_MEM + size) h;
         Some (count_used (size + SIZEOF_STRUCT_MEM) h)
       else
         h ← set_used mem 1 h;
         Some (count_used (n - mem) h));
  h ← set_magic mem HEAP_MAGIC h;
  if mem =? lfree h then
    p ← next_free (length (heap_bytes h)) h (lfree h);
    Some (set_lfree p h)
  else Some h.

(** [rt_malloc]: the address, or 0. *)
Definition rt_malloc (size : Z) (h : heap) : option (Z * heap) :=
  if size =? 0 then Some (0, h)
  else
    let size := RT_ALIGN size RT_ALIGN_SIZE in
    if mem_size_aligned h <? size then Some (0, h)
    else
      let size := if size <? MIN_SIZE_ALIGNED then MIN_SIZE_ALIGNED else size in
      found ← find_fit (length (heap_bytes h)) h size (lfree h);
      match found with
      | None => Some (0, h)
      | Some mem =>
          h ← take_block mem size h;
          let addr := heap_ptr h + mem in
          if (mem + SIZEOF_STRUCT_MEM + size <=? heap_end h) && ((addr + SIZEOF_STRUCT_MEM) `mod` RT_ALIGN_SIZE =? 0)
             && (Z.land addr (RT_ALIGN_SIZE - 1) =? 0)
          then Some (addr + SIZEOF_STRUCT_MEM, h) else None
      end.

Definition rt_free (rmem : Z) (h : heap) : option heap :=
  if rmem =? 0 then Some h
  else if negb (Z.land rmem (RT_ALIGN_SIZE - 1) =? 0) then None
  else if negb ((heap_ptr h <=? rmem) && (rmem <? heap_ptr h + heap_end h)) then None
  else
    let mem := rmem - SIZEOF_STRUCT_MEM - heap_ptr h in
    u ← used h mem;
    m ← magic h mem;
    if (u =? 0) || negb (m =? HEAP_MAGIC) then None
    else
      h ← set_used mem 0 h;
      h ← set_magic mem HEAP_MAGIC h;
      let h := if mem <? lfree h then set_lfree mem h else h in
      n ← next h mem;
      plug_holes mem (set_stats (u32 (used_mem h - (n - mem))) (max_mem h) h).

(** The bytes at an address of the heap. *)
Definition read_at (h : heap) (addr n : Z) : option (list Z) :=
  let at_ := addr - heap_ptr h in
  if (0 <=? at_) && (at_ + n <=? zlen (heap_bytes h)) then Some (buf_sub (heap_bytes h) at_ n) else None.
Definition write_at (h : heap) (addr : Z) (d : list Z) : option heap :=
  b ← buf_write (heap_bytes h) (addr - heap_ptr h) d; Some (set_bytes b h).

Definition rt_realloc (rmem newsize : Z) (h : heap) : option (Z * heap) :=
  let newsize := RT_ALIGN newsize RT_ALIGN_SIZE in
  if mem_size_aligned h <? newsize then Some (0, h)
  else if newsize =? 0 then h ← rt_free rmem h; Some (0, h)
  else if rmem =? 0 then rt_malloc newsize h
  else if (rmem <? heap_ptr h) || (heap_ptr h + heap_end h <=? rmem) then Some (rmem, h)
  else
    let ptr := rmem - SIZEOF_STRUCT_MEM - heap_ptr h in
    n ← next h ptr;
    let size := u32 (n - ptr - SIZEOF_STRUCT_MEM) in
    if size =? newsize then Some (rmem, h)
    else if newsize + SIZEOF_STRUCT_MEM + MIN_SIZE <? size then
      let h := set_stats (u32 (used_mem h - (size - newsize))) (max_mem h) h in
      let ptr2 := ptr + SIZEOF_STRUCT_MEM + newsize in
      h ← create_rest ptr newsize h;
      h ← link_rest ptr2 h;
      h ← plug_holes ptr2 h;
      Some (rmem, h)
    else
      '(nmem, h) ← rt_malloc newsize h;
      if nmem =? 0 then Some (0, h)
      else
        d ← read_at h rmem (Z.min size newsize);
        h ← write_at h nmem d;
        h ← rt_free rmem h;
        Some (nmem, h).

Definition rt_calloc (count size : Z) (h : heap) : option (Z * heap) :=
  let n := u32 (count * size) in
  '(p, h) ← rt_malloc n h;
  if p =? 0 then Some (0, h)
  else h ← write_at h p (replicate (Z.to_nat n) 0); Some (p, h).

(** [rt_memory_info]: total, used and the most that was used. *)
Definition rt_memory_info (h : heap) : Z * Z * Z := (mem_size_aligned h, used_mem h, max_mem h).

(** ** Reading and writing headers *)

Definition hdr (u : Z) (n p : Z) : list Z := le_bytes 2 HEAP_MAGIC ++ le_bytes 2 u ++ le_bytes 4 n ++ le_bytes 4 p.

Definition word32 (x : Z) : Prop := 0 <= x < 2 ^ 32.

Lemma header_len u n p : zlen (hdr u n p) = 12.
Proof. reflexivity. Qed.

Lemma load_here k h a x b at_ : heap_bytes h = a ++ le_bytes k x ++ b -> zlen a = at_ -> 0 <= x < 256 ^ Z.of_nat k ->
  load_word k h at_ = Some x.
Proof.
  intros E Ha Hx. unfold load_word. pose proof (zlen_nonneg a). pose proof (zlen_nonneg b). rewrite E, !zlen_app, le_bytes_zlen.
  destruct (Z.leb_spec 0 at_), (Z.leb_spec (at_ + Z.of_nat k) (zlen a + (Z.of_nat k + zlen b))); try lia. cbn [andb].
  rewrite buf_sub_skip by lia. rewrite Ha, Z.sub_diag, buf_sub_here by apply le_bytes_zlen. by rewrite le_val_bytes.
Qed.

Lemma store_here k h a o b at_ v : heap_bytes h = a ++ o ++ b -> zlen a = at_ -> zlen o = Z.of_nat k ->
  store_word k at_ v h = Some (set_bytes (a ++ le_bytes k v ++ b) h).
Proof.
  intros E Ha Ho. unfold store_word. pose proof (zlen_nonneg b). rewrite E, buf_write_at; [|done|rewrite zlen_app, le_bytes_zlen; lia].
  cbn [mbind option_bind]. rewrite le_bytes_len, <- app_assoc. rewrite drop_app_length' by (unfold zlen in Ho; lia). done.
Qed.

Section Fields.
Context (h : heap) (a b : list Z) (mem u n p : Z).
Hypothesis here : heap_bytes h = a ++ hdr u n p ++ b.
Hypothesis at_mem : zlen a = mem.

Lemma magic_at : magic h mem = Some HEAP_MAGIC.
Proof using here at_mem.
  apply (load_here 2 h a HEAP_MAGIC (le_bytes 2 u ++ le_bytes 4 n ++ le_bytes 4 p ++ b)); [|done|by split].
  rewrite here. unfold hdr. by rewrite <- !app_assoc.
Qed.

Lemma used_at : 0 <= u < 2 -> used h mem = Some u.
Proof using here at_mem.
  intros Hu. apply (load_here 2 h (a ++ le_bytes 2 HEAP_MAGIC) u (le_bytes 4 n ++ le_bytes 4 p ++ b)); [|rewrite zlen_app, le_bytes_zlen; lia|lia].
  rewrite here. unfold hdr. by rewrite <- !app_assoc.
Qed.

Lemma next_at : word32 n -> next h mem = Some n.
Proof using here at_mem.
  intros Hn. apply (load_here 4 h (a ++ le_bytes 2 HEAP_MAGIC ++ le_bytes 2 u) n (le_bytes 4 p ++ b)); [|rewrite !zlen_app, !le_bytes_zlen; lia|done].
  rewrite here. unfold hdr. by rewrite <- !app_assoc.
Qed.

Lemma prev_at : word32 p -> prev h mem = Some p.
Proof using here at_mem.
  intros Hp. apply (load_here 4 h (a ++ le_bytes 2 HEAP_MAGIC ++ le_bytes 2 u ++ le_bytes 4 n) p b); [|rewrite !zlen_app, !le_bytes_zlen; lia|done].
  rewrite here. unfold hdr. by rewrite <- !app_assoc.
Qed.

Lemma set_magic_at : set_magic mem HEAP_MAGIC h = Some (set_bytes (a ++ hdr u n p ++ b) h).
Proof using here at_mem.
  unfold set_magic. rewrite (store_here 2 h a (le_bytes 2 HEAP_MAGIC) (le_bytes 2 u ++ le_bytes 4 n ++ le_bytes 4 p ++ b)); [|by rewrite here; unfold hdr; rewrite <- !app_assoc|done|done].
  unfold hdr. by rewrite <- !app_assoc.
Qed.

Lemma set_used_at v : set_used mem v h = Some (set_bytes (a ++ hdr v n p ++ b) h).
Proof using here at_mem.
  unfold set_used. rewrite (store_here 2 h (a ++ le_bytes 2 HEAP_MAGIC) (le_bytes 2 u) (le_bytes 4 n ++ le_bytes 4 p ++ b)); [|by rewrite here; unfold hdr; rewrite <- !app_assoc|rewrite zlen_app, le_bytes_zlen; lia|done].
  unfold hdr. by rewrite <- !app_assoc.
Qed.

Lemma set_next_at v : set_next mem v h = Some (set_bytes (a ++ hdr u v p ++ b) h).
Proof using here at_mem.
  unfold set_next. rewrite (store_here 4 h (a ++ le_bytes 2 HEAP_MAGIC ++ le_bytes 2 u) (le_bytes 4 n) (le_bytes 4 p ++ b)); [|by rewrite here; unfold hdr; rewrite <- !app_assoc|rewrite !zlen_app, !le_bytes_zlen; lia|done].
  unfold hdr. by rewrite <- !app_assoc.
Qed.

Lemma set_prev_at v : set_prev mem v h = Some (set_bytes (a ++ hdr u n v ++ b) h).
Proof using here at_mem.
  unfold set_prev. rewrite (store_here 4 h (a ++ le_bytes 2 HEAP_MAGIC ++ le_bytes 2 u ++ le_bytes 4 n) (le_bytes 4 p) b); [|by rewrite here; unfold hdr; rewrite <- !app_assoc|rewrite !zlen_app, !le_bytes_zlen; lia|done].
  unfold hdr. by rewrite <- !app_assoc.
Qed.
End Fields.

Lemma quarters (j : list Z) x y z : zlen j = 12 -> 0 <= x -> 0 <= y -> 0 <= z -> x + y + z <= 12 ->
  exists j1 j2 j3 j4, j = j1 ++ j2 ++ j3 ++ j4 /\ zlen j1 = x /\ zlen j2 = y /\ zlen j3 = z /\ zlen j4 = 12 - x - y - z.
Proof.
  intros Hj Hx Hy Hz H. destruct (take_split j x ltac:(lia)) as (j1 & r1 & -> & H1). rewrite zlen_app in Hj.
  destruct (take_split r1 y ltac:(lia)) as (j2 & r2 & -> & H2). rewrite zlen_app in Hj.
  destruct (take_split r2 z ltac:(lia)) as (j3 & j4 & -> & H3). rewrite zlen_app in Hj.
  exists j1, j2, j3, j4. repeat split; lia.
Qed.

(** Four stores make a header of any twelve bytes. *)
Lemma header_made h a j b mem u n p : heap_bytes h = a ++ j ++ b -> zlen a = mem -> zlen j = 12 ->
  (h ← set_magic mem HEAP_MAGIC h; h ← set_used mem u h; h ← set_next mem n h; set_prev mem p h)
    = Some (set_bytes (a ++ hdr u n p ++ b) h) /\
  (h ← set_magic mem HEAP_MAGIC h; h ← set_next mem n h; h ← set_prev mem p h; set_used mem u h)
    = Some (set_bytes (a ++ hdr u n p ++ b) h).
Proof.
  intros E Ha Hj. destruct (quarters j 2 2 4 Hj) as (j1 & j2 & j3 & j4 & -> & L1 & L2 & L3 & L4); [lia..|]. change (12 - 2 - 2 - 4) with 4 in L4.
  rewrite <- !app_assoc in E. unfold set_magic, set_used, set_next, set_prev, hdr.
  rewrite (store_here 2 h a j1 (j2 ++ j3 ++ j4 ++ b)) by done. cbn [mbind option_bind]. split.
  - rewrite (store_here 2 _ (a ++ le_bytes 2 HEAP_MAGIC) j2 (j3 ++ j4 ++ b)) by (done || (cbn [heap_bytes set_bytes]; by rewrite <- app_assoc) || (rewrite zlen_app, le_bytes_zlen; lia)).
    cbn [mbind option_bind].
    rewrite (store_here 4 _ (a ++ le_bytes 2 HEAP_MAGIC ++ le_bytes 2 u) j3 (j4 ++ b)) by (done || (cbn [heap_bytes set_bytes]; by rewrite <- !app_assoc) || (rewrite !zlen_app, !le_bytes_zlen; lia)).
    cbn [mbind option_bind].
    rewrite (store_here 4 _ (a ++ le_bytes 2 HEAP_MAGIC ++ le_bytes 2 u ++ le_bytes 4 n) j4 b) by (done || (cbn [heap_bytes set_bytes]; by rewrite <- !app_assoc) || (rewrite !zlen_app, !le_bytes_zlen; lia)).
    unfold set_bytes. cbn. by rewrite <- !app_assoc.
  - rewrite (store_here 4 _ (a ++ le_bytes 2 HEAP_MAGIC ++ j2) j3 (j4 ++ b)) by (done || (cbn [heap_bytes set_bytes]; by rewrite <- !app_assoc) || (rewrite !zlen_app, !le_bytes_zlen; lia)).
    cbn [mbind option_bind].
    rewrite (store_here 4 _ (a ++ le_bytes 2 HEAP_MAGIC ++ j2 ++ le_bytes 4 n) j4 b) by (done || (cbn [heap_bytes set_bytes]; by rewrite <- !app_assoc) || (rewrite !zlen_app, !le_bytes_zlen; lia)).
    cbn [mbind option_bind].
    rewrite (store_here 2 _ (a ++ le_bytes 2 HEAP_MAGIC) j2 (le_bytes 4 n ++ le_bytes 4 p ++ b)) by (done || (cbn [heap_bytes set_bytes]; by rewrite <- !app_assoc) || (rewrite !zlen_app, !le_bytes_zlen; lia)).
    unfold set_bytes. cbn. by rewrite <- !app_assoc.
Qed.

(** ** Blocks *)

Record block := Block { is_used : bool; data : list Z }.

Definition blen (b : block) : Z := 12 + zlen (data b).
Definition total (l : list block) : Z := foldr (fun b n => blen b + n) 0 l.

(** The bytes of blocks from offset [at_] on, the block before them being at [p]. *)
Fixpoint blocks_bytes (p at_ : Z) (l : list block) : list Z :=
  match l with
  | [] => []
  | b :: l => hdr (Z.b2z (is_used b)) (at_ + blen b) p ++ data b ++ blocks_bytes at_ (at_ + blen b) l
  end.

Fixpoint last_at (p at_ : Z) (l : list block) : Z :=
  match l with [] => p | b :: l => last_at at_ (at_ + blen b) l end.

(** With the header of the end, whose [prev] is [e]. *)
Definition layout (p at_ : Z) (l : list block) (e : Z) : list Z := blocks_bytes p at_ l ++ hdr 1 (at_ + total l) e.

(** The blocks in use: their addresses and contents. *)
Fixpoint live (at_ : Z) (l : list block) : list (Z * list Z) :=
  match l with
  | [] => []
  | b :: l => (if is_used b then [(at_ + 12, data b)] else []) ++ live (at_ + blen b) l
  end.

(** No two free blocks are neighbours; [u] tells whether the one before is used. *)
Fixpoint no_gaps (u : bool) (l : list block) : Prop :=
  match l with [] => True | b :: l => u || is_used b = true /\ no_gaps (is_used b) l end.

Fixpoint last_used (u : bool) (l : list block) : bool :=
  match l with [] => u | b :: l => last_used (is_used b) l end.

(** [p] is where a block begins or the end. *)
Fixpoint boundary (at_ p : Z) (l : list block) : Prop :=
  p = at_ \/ match l with [] => False | b :: l => boundary (at_ + blen b) p l end.

Definition block_ok (b : block) : Prop := 0 < zlen (data b) /\ zlen (data b) `mod` 4 = 0.

Definition used_total (l : list block) : Z := total (List.filter is_used l).

Lemma blen_pos b : 12 <= blen b.
Proof. unfold blen. pose proof (zlen_nonneg (data b)). lia. Qed.

Lemma total_app a b : total (a ++ b) = total a + total b.
Proof. induction a as [|x a IH]; cbn [total foldr app]; [done|]. unfold total in IH |- *. lia. Qed.

Lemma total_cons b l : total (b :: l) = blen b + total l.
Proof. done. Qed.

Lemma total_nonneg l : 0 <= total l.
Proof. induction l as [|b l IH]; [done|]. rewrite total_cons. pose proof (blen_pos b). lia. Qed.

Lemma used_total_app a b : used_total (a ++ b) = used_total a + used_total b.
Proof. unfold used_total. by rewrite List.filter_app, total_app. Qed.

Lemma used_total_mid a b c : used_total (a ++ b :: c) = used_total a + (if is_used b then blen b else 0) + used_total c.
Proof. rewrite used_total_app. unfold used_total at 2. cbn [List.filter]. destruct (is_used b); rewrite ?total_cons; unfold used_total; lia. Qed.

Lemma used_total_free d l : used_total (Block false d :: l) = used_total l.
Proof. done. Qed.

Lemma used_total_le l : 0 <= used_total l <= total l.
Proof.
  unfold used_total. induction l as [|b l IH]; [done|]. cbn [List.filter]. pose proof (blen_pos b).
  destruct (is_used b); rewrite ?total_cons; lia.
Qed.

Lemma blocks_len l : forall p at_, zlen (blocks_bytes p at_ l) = total l.
Proof.
  induction l as [|b l IH]; intros p at_; [done|]. cbn [blocks_bytes]. rewrite !zlen_app, header_len, IH, total_cons. unfold blen. lia.
Qed.

Lemma last_at_app l c : forall p at_, last_at p at_ (l ++ [c]) = at_ + total l.
Proof. induction l as [|x l IH]; intros p at_; cbn [last_at app]; [cbn; lia|]. rewrite IH, total_cons. lia. Qed.

Lemma last_used_app l c u : last_used u (l ++ [c]) = is_used c.
Proof. revert u. induction l as [|x l IH]; intros u; [done|]. apply IH. Qed.

Lemma blocks_app a b : forall p at_, blocks_bytes p at_ (a ++ b) = blocks_bytes p at_ a ++ blocks_bytes (last_at p at_ a) (at_ + total a) b.
Proof.
  induction a as [|x a IH]; intros p at_; cbn [blocks_bytes app last_at]; [by rewrite Z.add_0_r|].
  rewrite IH, total_cons, <- !app_assoc, Z.add_assoc. done.
Qed.

Lemma layout_app a b p at_ e : layout p at_ (a ++ b) e = blocks_bytes p at_ a ++ layout (last_at p at_ a) (at_ + total a) b e.
Proof. unfold layout. by rewrite blocks_app, total_app, <- app_assoc, Z.add_assoc. Qed.

Lemma layout_cons b l p at_ e :
  layout p at_ (b :: l) e = hdr (Z.b2z (is_used b)) (at_ + blen b) p ++ data b ++ layout at_ (at_ + blen b) l e.
Proof. unfold layout. cbn [blocks_bytes]. by rewrite total_cons, <- !app_assoc, Z.add_assoc. Qed.

Lemma live_app a b : forall at_, live at_ (a ++ b) = live at_ a ++ live (at_ + total a) b.
Proof.
  induction a as [|x a IH]; intros at_; cbn [live app]; [by rewrite Z.add_0_r|]. by rewrite IH, total_cons, <- app_assoc, Z.add_assoc.
Qed.

Lemma no_gaps_app a b : forall u, no_gaps u (a ++ b) <-> no_gaps u a /\ no_gaps (last_used u a) b.
Proof. induction a as [|x a IH]; intros u; cbn [no_gaps app last_used]; [tauto|]. rewrite IH. tauto. Qed.

Lemma no_gaps_true u l : no_gaps u l -> no_gaps true l.
Proof. destruct l; [done|]. by intros [_ H]. Qed.

Lemma boundary_app a b p : forall at_, boundary at_ p (a ++ b) <-> boundary at_ p a \/ boundary (at_ + total a) p b.
Proof.
  induction a as [|x a IH]; intros at_; cbn [boundary app].
  - rewrite Z.add_0_r. destruct b; cbn [boundary]; tauto.
  - rewrite IH, total_cons, Z.add_assoc. tauto.
Qed.

Lemma boundary_split p l : forall at_, boundary at_ p l -> exists a b, l = a ++ b /\ p = at_ + total a.
Proof.
  induction l as [|x l IH]; intros at_; cbn [boundary].
  - intros [->|[]]. exists [], []. split; [done|cbn; lia].
  - intros [->|H]; [exists [], (x :: l); split; [done|cbn; lia]|]. destruct (IH _ H) as (a & b & -> & ->).
    exists (x :: a), b. split; [done|]. rewrite total_cons. lia.
Qed.

Lemma boundary_here at_ l : boundary at_ at_ l.
Proof. destruct l; by left. Qed.

Lemma last_at_range l p at_ : l <> [] -> at_ <= last_at p at_ l < at_ + total l.
Proof.
  revert p at_. induction l as [|b l IH]; intros p at_ H; [done|]. cbn [last_at]. rewrite total_cons. pose proof (blen_pos b).
  destruct l as [|c l]; [cbn; lia|]. specialize (IH at_ (at_ + blen b) ltac:(done)). lia.
Qed.

(** The bytes of the heap are those of the blocks. *)
Record shape (h : heap) (bs : list block) : Prop := {
  shape_bytes : exists e, heap_bytes h = layout 0 0 bs e;
  shape_total : total bs = heap_end h /\ heap_end h = mem_size_aligned h + 12 /\ 12 <= mem_size_aligned h;
  shape_place : 0 < heap_ptr h /\ heap_ptr h `mod` 4 = 0 /\ heap_ptr h + heap_end h + 12 <= 2 ^ 32;
  shape_blocks : Forall block_ok bs;
  shape_lfree : boundary 0 (lfree h) bs;
  shape_used : used_mem h = used_total bs /\ used_mem h <= max_mem h
}.

Lemma b2z_bit u : 0 <= Z.b2z u < 2.
Proof. by destruct u. Qed.

Lemma block_here h l1 b l2 e : heap_bytes h = layout 0 0 (l1 ++ b :: l2) e ->
  heap_bytes h = blocks_bytes 0 0 l1 ++ hdr (Z.b2z (is_used b)) (total l1 + blen b) (last_at 0 0 l1) ++
    data b ++ layout (total l1) (total l1 + blen b) l2 e.
Proof. by rewrite layout_app, Z.add_0_l, layout_cons. Qed.

Lemma last_word l : total l < 2 ^ 32 -> word32 (last_at 0 0 l).
Proof. intros H. destruct l as [|b l]; [done|]. pose proof (last_at_range (b :: l) 0 0 ltac:(done)). unfold word32. lia. Qed.

(** The part of it that the fields need. *)
Definition laid (h : heap) (bs : list block) : Prop := (exists e, heap_bytes h = layout 0 0 bs e) /\ total bs < 2 ^ 32.

Lemma shape_laid h bs : shape h bs -> laid h bs.
Proof. intros [He (Ht & _) (Hp & _ & Hw) _ _ _]. split; [done|lia]. Qed.

Lemma laid_header h l1 b l2 : laid h (l1 ++ b :: l2) ->
  used h (total l1) = Some (Z.b2z (is_used b)) /\ next h (total l1) = Some (total l1 + blen b) /\
  prev h (total l1) = Some (last_at 0 0 l1) /\ magic h (total l1) = Some HEAP_MAGIC.
Proof.
  intros [[e He] Ht]. rewrite total_app, total_cons in Ht. apply block_here in He.
  pose proof (total_nonneg l1). pose proof (total_nonneg l2). pose proof (blen_pos b).
  repeat split; [eapply used_at|eapply next_at|eapply prev_at|eapply magic_at]; first [exact He|apply blocks_len|apply b2z_bit|idtac].
  - unfold word32. lia.
  - apply last_word. lia.
Qed.

Lemma hdr_fields h l1 b l2 : shape h (l1 ++ b :: l2) ->
  used h (total l1) = Some (Z.b2z (is_used b)) /\ next h (total l1) = Some (total l1 + blen b) /\
  prev h (total l1) = Some (last_at 0 0 l1) /\ magic h (total l1) = Some HEAP_MAGIC.
Proof. intros Hs. by apply (laid_header h l1 b l2), shape_laid. Qed.

Lemma end_used h bs : shape h bs -> used h (total bs) = Some 1.
Proof.
  intros [[e He] _ _ _ _ _]. unfold layout in He. rewrite Z.add_0_l in He.
  apply (used_at h (blocks_bytes 0 0 bs) [] (total bs) 1 (total bs) e); [by rewrite app_nil_r|apply blocks_len|lia].
Qed.

(** The pointer back from what lies behind the bytes [a]. *)
Lemma relink h a q at_ l e x : heap_bytes h = a ++ layout q at_ l e -> zlen a = at_ ->
  exists e', set_prev at_ x h = Some (set_bytes (a ++ layout x at_ l e') h).
Proof.
  intros E Ha. destruct l as [|b l].
  - exists x. unfold layout in *. cbn [blocks_bytes app total foldr] in *. rewrite <- (app_nil_r (hdr 1 _ e)) in E.
    rewrite (set_prev_at _ _ _ _ _ _ _ E Ha). by rewrite app_nil_r.
  - exists e. rewrite layout_cons in *. by rewrite (set_prev_at _ _ _ _ _ _ _ E Ha).
Qed.

(** Two free neighbours become one block when the first takes over the [next] of
    the second, and what lies behind it points back to the first. *)
Definition joined_block (d d2 : list Z) (p : Z) : block := Block false (d ++ hdr 0 (p + 12 + zlen d + 12 + zlen d2) p ++ d2).

Lemma joined h l1 d d2 l3 e : heap_bytes h = layout 0 0 (l1 ++ Block false d :: Block false d2 :: l3) e ->
  total (l1 ++ Block false d :: Block false d2 :: l3) < 2 ^ 32 -> let p := total l1 in let q := p + 12 + zlen d in
  exists e, (n ← next h q; h ← set_next p n h; n ← next h q; set_prev n p h) =
    Some (set_bytes (layout 0 0 (l1 ++ joined_block d d2 p :: l3) e) h).
Proof.
  intros He Ht p q. rewrite total_app, !total_cons in Ht. unfold blen in Ht. cbn [data] in Ht.
  set (r := q + 12 + zlen d2). pose proof (total_nonneg l1). pose proof (total_nonneg l3). pose proof (zlen_nonneg d). pose proof (zlen_nonneg d2).
  assert (Hr : word32 r) by (unfold word32; lia).
  apply block_here in He. unfold blen in He. cbn [is_used data Z.b2z] in He.
  rewrite layout_cons in He. unfold blen in He. cbn [is_used data Z.b2z] in He. fold p in He.
  replace (p + (12 + zlen d)) with q in He by lia. replace (q + (12 + zlen d2)) with r in He by lia.
  set (a0 := blocks_bytes 0 0 l1 ++ hdr 0 q (last_at 0 0 l1) ++ d).
  assert (Ha0 : zlen a0 = q) by (unfold a0; rewrite !zlen_app, header_len, blocks_len; lia).
  rewrite (next_at h a0 (d2 ++ layout q r l3 e) q 0 r p) by (done || (rewrite He; unfold a0; by rewrite <- !app_assoc)). cbn [mbind option_bind].
  rewrite (set_next_at _ _ _ _ _ _ _ He (blocks_len l1 0 0 : _ = p) r). cbn [mbind option_bind].
  set (h1 := set_bytes _ h). set (a1 := blocks_bytes 0 0 l1 ++ hdr 0 r (last_at 0 0 l1) ++ d).
  assert (Ha1 : zlen a1 = q) by (unfold a1; rewrite !zlen_app, header_len, blocks_len; lia).
  rewrite (next_at h1 a1 (d2 ++ layout q r l3 e) q 0 r p) by (done || (unfold h1, a1; cbn [heap_bytes set_bytes]; by rewrite <- !app_assoc)). cbn [mbind option_bind].
  set (a := a1 ++ hdr 0 r p ++ d2). assert (Ha : zlen a = r) by (unfold a; rewrite !zlen_app, header_len; lia).
  destruct (relink h1 a q r l3 e p) as (e' & ->); [unfold h1, a, a1; cbn [heap_bytes set_bytes]; by rewrite <- !app_assoc|done|].
  exists e'. unfold h1, set_bytes. cbn. do 2 f_equal. rewrite layout_app, Z.add_0_l, layout_cons. unfold joined_block, blen. cbn [is_used data Z.b2z].
  rewrite !zlen_app, header_len. fold p. replace (p + (12 + (zlen d + (12 + zlen d2)))) with r by lia.
  replace (p + 12 + zlen d + 12 + zlen d2) with r by lia. unfold a, a1. by rewrite <- !app_assoc.
Qed.

Lemma joined_len d d2 p : blen (joined_block d d2 p) = 12 + zlen d + (12 + zlen d2).
Proof. unfold joined_block, blen. cbn [data]. rewrite !zlen_app, header_len. lia. Qed.

(** The heap after it, with the free pointer moved off the second block. *)
Lemma join_shape h l1 d d2 l3 e : shape h (l1 ++ Block false d :: Block false d2 :: l3) ->
  let p := total l1 in
  let f := if lfree h =? p + 12 + zlen d then p else lfree h in
  shape (set_bytes (layout 0 0 (l1 ++ joined_block d d2 p :: l3) e) (set_lfree f h)) (l1 ++ joined_block d d2 p :: l3).
Proof.
  intros [_ (Ht & Hm & Hs) Hp Hb Hf [Hu Hmax]] p f. rewrite total_app, !total_cons in Ht. unfold blen in Ht. cbn [data] in Ht.
  split; cbn [heap_bytes heap_end mem_size_aligned heap_ptr lfree used_mem max_mem set_bytes set_lfree]; [by exists e| |done| | |].
  - rewrite total_app, total_cons, joined_len. lia.
  - rewrite !Forall_app, !Forall_cons in *. destruct Hb as (Hb1 & [Hd Hd'] & [Hd2 Hd2'] & Hb3). split; [done|]. split; [|done].
    cbn [data] in *. unfold block_ok, joined_block. cbn [data]. rewrite !zlen_app, header_len. split; [lia|].
    zify_divmod.
  - rewrite boundary_app in Hf. rewrite boundary_app. cbn [boundary] in *. rewrite joined_len. unfold blen in Hf. cbn [data] in Hf. rewrite Z.add_0_l in *. fold p in Hf |- *.
    unfold f. destruct (Z.eqb_spec (lfree h) (p + 12 + zlen d)) as [E|E]; [by right; left|].
    replace (p + (12 + zlen d) + (12 + zlen d2)) with (p + (12 + zlen d + (12 + zlen d2))) in Hf by lia. destruct Hf as [Hf|[Hf|[Hf|Hf]]]; [tauto|tauto|lia|tauto].
  - rewrite used_total_app in *. split; [exact Hu|done].
Qed.

Lemma set_same h : set_bytes (heap_bytes h) (set_lfree (lfree h) h) = h.
Proof. by destruct h. Qed.

(** The two fields of a free block that is taken in, with the free pointer. *)
Lemma joined_shape h l1 d d2 l3 : shape h (l1 ++ Block false d :: Block false d2 :: l3) ->
  let p := total l1 in let q := p + 12 + zlen d in
  exists b f, (let h := if lfree h =? q then set_lfree p h else h in
               n ← next h q; h ← set_next p n h; n ← next h q; set_prev n p h) = Some (set_bytes b (set_lfree f h)) /\
    shape (set_bytes b (set_lfree f h)) (l1 ++ joined_block d d2 p :: l3) /\ f <= lfree h.
Proof.
  intros Hs p q. destruct (shape_bytes _ _ Hs) as [e He]. destruct (shape_total _ _ Hs) as [Ht _]. destruct (shape_place _ _ Hs) as (Hp & _ & Hw).
  cbv zeta. set (h1 := if lfree h =? q then set_lfree p h else h). pose proof (zlen_nonneg d).
  destruct (joined h1 l1 d d2 l3 e) as (e' & Ej); [unfold h1; by destruct (_ =? _)|lia|]. fold p q in Ej. rewrite Ej.
  pose proof (join_shape h l1 d d2 l3 e' Hs) as Hj. cbv zeta in Hj. fold p q in Hj.
  exists (layout 0 0 (l1 ++ joined_block d d2 p :: l3) e'), (if lfree h =? q then p else lfree h). split; [|split; [exact Hj|]].
  - unfold h1. by destruct (_ =? _).
  - destruct (Z.eqb_spec (lfree h) q); lia.
Qed.

Lemma next_used h l1 d l2 : shape h (l1 ++ Block false d :: l2) ->
  used h (total l1 + 12 + zlen d) = Some (match l2 with Block false _ :: _ => 0 | _ => 1 end).
Proof.
  intros Hs. destruct l2 as [|b l2].
  - pose proof (end_used _ _ Hs) as Eu. rewrite total_app, total_cons in Eu. unfold blen in Eu. cbn [data total foldr] in Eu. by rewrite Z.add_0_r, Z.add_assoc in Eu.
  - assert (Hs' : shape h ((l1 ++ [Block false d]) ++ b :: l2)) by (by rewrite <- app_assoc).
    destruct (hdr_fields _ _ _ _ Hs') as (Eu & _). rewrite total_app, total_cons in Eu. unfold blen in Eu. cbn [data total foldr] in Eu.
    rewrite Z.add_0_r, Z.add_assoc in Eu. rewrite Eu. by destruct b as [[|] ?].
Qed.

Lemma plug_forward_ok h l1 d l2 : shape h (l1 ++ Block false d :: l2) -> no_gaps true l2 ->
  exists b f d' l2', plug_forward (total l1) h = Some (set_bytes b (set_lfree f h)) /\
    shape (set_bytes b (set_lfree f h)) (l1 ++ Block false d' :: l2') /\ no_gaps false l2' /\
    live (total l1 + 12 + zlen d') l2' = live (total l1 + 12 + zlen d) l2 /\ f <= lfree h.
Proof.
  intros Hs Hc. destruct (hdr_fields _ _ _ _ Hs) as (_ & En & _ & _). unfold plug_forward. rewrite En. cbn [mbind option_bind].
  unfold blen. cbn [data]. pose proof (zlen_nonneg d). rewrite Z.add_assoc.
  destruct (Z.eqb_spec (total l1) (total l1 + 12 + zlen d)); [lia|]. rewrite (next_used _ _ _ _ Hs). cbn [mbind option_bind].
  assert (Hsame : no_gaps false l2 -> exists b f d' l2', Some h = Some (set_bytes b (set_lfree f h)) /\
    shape (set_bytes b (set_lfree f h)) (l1 ++ Block false d' :: l2') /\ no_gaps false l2' /\
    live (total l1 + 12 + zlen d') l2' = live (total l1 + 12 + zlen d) l2 /\ f <= lfree h).
  { intros Hcl. exists (heap_bytes h), (lfree h), d, l2. rewrite set_same. split; [done|]. split; [done|]. split; [done|]. split; [done|lia]. }
  destruct l2 as [|[[|] d2] l3]; [by apply Hsame|apply Hsame; split; [done|apply Hc]|].
  destruct (shape_total _ _ Hs) as [Ht _]. rewrite total_app, !total_cons in Ht. unfold blen in Ht. cbn [data] in Ht.
  pose proof (total_nonneg l3). pose proof (zlen_nonneg d2). change (0 =? 0) with true.
  destruct (Z.eqb_spec (total l1 + 12 + zlen d) (heap_end h)); [lia|]. cbn [andb negb].
  destruct (joined_shape h l1 d d2 l3 Hs) as (b & f & Ej & Hj & Hf). cbv zeta in Ej. rewrite Ej.
  exists b, f, (data (joined_block d d2 (total l1))), l3. split; [done|]. split; [exact Hj|]. split; [apply Hc|]. split; [|done].
  cbn [live app is_used]. pose proof (joined_len d d2 (total l1)) as Hl. unfold blen in *. cbn [data] in *. f_equal. lia.
Qed.

Lemma plug_backward_ok h l1 d l2 : shape h (l1 ++ Block false d :: l2) -> no_gaps true l1 -> no_gaps false l2 ->
  exists b f bs, plug_backward (total l1) h = Some (set_bytes b (set_lfree f h)) /\
    shape (set_bytes b (set_lfree f h)) bs /\ no_gaps true bs /\ live 0 bs = live 0 (l1 ++ Block false d :: l2) /\ f <= lfree h.
Proof.
  intros Hs H1 H2. destruct (hdr_fields _ _ _ _ Hs) as (_ & _ & Ep & _). unfold plug_backward. rewrite Ep. cbn [mbind option_bind].
  assert (Hsame : last_used true l1 = true -> exists b f bs, Some h = Some (set_bytes b (set_lfree f h)) /\
    shape (set_bytes b (set_lfree f h)) bs /\ no_gaps true bs /\ live 0 bs = live 0 (l1 ++ Block false d :: l2) /\ f <= lfree h).
  { intros Hu. exists (heap_bytes h), (lfree h), (l1 ++ Block false d :: l2). rewrite set_same. split; [done|]. split; [done|].
    split; [|split; [done|lia]]. rewrite no_gaps_app. split; [done|]. by rewrite Hu. }
  destruct l1 as [|[u d0] l0 _] using rev_ind; [by apply Hsame|].
  rewrite last_at_app, total_app, ?Z.add_0_l in *. rewrite <- app_assoc in *. cbn [app] in *. destruct (hdr_fields _ _ _ _ Hs) as (Eu & _). cbn [is_used] in Eu.
  cbn [total foldr] in *. unfold blen in *. cbn [data] in *. pose proof (zlen_nonneg d0).
  destruct (Z.eqb_spec (total l0) (total l0 + (12 + zlen d0 + 0))); [lia|]. rewrite Eu. cbn [mbind option_bind].
  apply no_gaps_app in H1 as [H1 [Hu _]]. cbn [is_used] in Hu.
  destruct u; [apply Hsame, last_used_app|]. change (Z.b2z false =? 0) with true.
  replace (total l0 + (12 + zlen d0 + 0)) with (total l0 + 12 + zlen d0) in * by lia.
  destruct (joined_shape h l0 d0 d l2 Hs) as (b & f & Ej & Hj & Hf). cbv zeta in Ej. rewrite Ej.
  exists b, f, (l0 ++ joined_block d0 d (total l0) :: l2). split; [done|]. split; [exact Hj|]. split; [|split; [|done]].
  - apply no_gaps_app. split; [done|]. split; [|done]. unfold joined_block. cbn [is_used]. by rewrite orb_false_r in *.
  - rewrite !live_app. cbn [live app is_used]. unfold joined_block at 1. cbn [is_used app]. rewrite joined_len. unfold blen. cbn [data]. do 2 f_equal. lia.
Qed.

Lemma plug_ok h l1 d l2 : shape h (l1 ++ Block false d :: l2) -> no_gaps true l1 -> no_gaps true l2 ->
  exists b f bs, plug_holes (total l1) h = Some (set_bytes b (set_lfree f h)) /\
    shape (set_bytes b (set_lfree f h)) bs /\ no_gaps true bs /\ live 0 bs = live 0 (l1 ++ Block false d :: l2) /\ f <= lfree h.
Proof.
  intros Hs H1 H2. destruct (shape_total _ _ Hs) as [Ht _]. rewrite total_app, total_cons in Ht.
  pose proof (total_nonneg l1). pose proof (total_nonneg l2). pose proof (blen_pos (Block false d)).
  unfold plug_holes. destruct (Z.leb_spec 0 (total l1)), (Z.ltb_spec (total l1) (heap_end h)); try lia. cbn [andb].
  destruct (hdr_fields _ _ _ _ Hs) as (Eu & _). rewrite Eu. cbn [mbind option_bind is_used Z.b2z]. change (0 =? 0) with true.
  destruct (plug_forward_ok _ _ _ _ Hs H2) as (b1 & f1 & d' & l2' & -> & Hs1 & Hc1 & Hl1 & Hf1). cbn [mbind option_bind].
  destruct (plug_backward_ok _ _ _ _ Hs1 H1 Hc1) as (b & f & bs & -> & Hs2 & Hc2 & Hl2 & Hf2).
  exists b, f, bs. split; [done|]. split; [exact Hs2|]. split; [done|]. split; [|cbn in Hf2; lia].
  rewrite Hl2, !live_app. cbn [live app is_used]. unfold blen. cbn [data]. rewrite !Z.add_0_l, !Z.add_assoc. by rewrite Hl1.
Qed.

(** ** The heap between two calls *)

Record heap_of (h : heap) (bs : list block) : Prop := {
  of_shape : shape h bs;
  of_closed : no_gaps true bs;
  of_empty : Forall (fun b => is_used b = false) bs -> lfree h = 0
}.

(** What no call changes. *)
Definition same_place (h h' : heap) : Prop :=
  heap_ptr h' = heap_ptr h /\ heap_end h' = heap_end h /\ mem_size_aligned h' = mem_size_aligned h.

Lemma mark h l1 u d l2 v : shape h (l1 ++ Block u d :: l2) ->
  exists e, set_used (total l1) (Z.b2z v) h = Some (set_bytes (layout 0 0 (l1 ++ Block v d :: l2) e) h).
Proof.
  intros [[e He] _ _ _ _ _]. apply block_here in He. exists e. rewrite (set_used_at _ _ _ _ _ _ _ He (blocks_len l1 0 0)).
  by rewrite layout_app, layout_cons, Z.add_0_l.
Qed.

Lemma magic_same h l1 b l2 e : heap_bytes h = layout 0 0 (l1 ++ b :: l2) e -> set_magic (total l1) HEAP_MAGIC h = Some h.
Proof.
  intros He. apply block_here in He. rewrite (set_magic_at _ _ _ _ _ _ _ He (blocks_len l1 0 0)), <- He. by destruct h.
Qed.

Lemma total_aligned l : Forall block_ok l -> total l `mod` 4 = 0.
Proof.
  induction 1 as [|b l [_ Hb] _ IH]; [done|]. rewrite total_cons. unfold blen. zify_divmod.
Qed.

Lemma land3 x : Z.land x (RT_ALIGN_SIZE - 1) = x `mod` 4.
Proof. by apply (land_mask x 3 2). Qed.

Lemma free_single bs p : no_gaps true bs -> Forall (fun b => is_used b = false) bs -> boundary 0 p bs -> p < total bs -> p = 0.
Proof.
  destruct bs as [|b [|c bs]]; cbn [boundary].
  - intros _ _ [->|[]]. done.
  - intros _ _ [->|[->|[]]] H; [done|]. rewrite total_cons in H. cbn in H. lia.
  - intros (_ & H & _) Hf. apply Forall_cons in Hf as [Hb Hf]. apply Forall_cons in Hf as [Hc _]. by rewrite Hb, Hc in H.
Qed.

Lemma sizeof_12 : SIZEOF_STRUCT_MEM = 12.
Proof. done. Qed.

(** The blocks before and behind one that is in use may lie anyhow when it becomes free. *)
Lemma gaps_around l1 b l2 : no_gaps true (l1 ++ b :: l2) -> no_gaps true l1 /\ no_gaps true l2.
Proof. rewrite no_gaps_app. intros (H1 & _ & H2). split; [done|]. by apply (no_gaps_true (is_used b)). Qed.

(** A block in use is given back. *)
Lemma free_ok h l1 d l2 : heap_of h (l1 ++ Block true d :: l2) ->
  exists h' bs, rt_free (heap_ptr h + total l1 + 12) h = Some h' /\ heap_of h' bs /\ same_place h h' /\
    live 0 bs = live 0 l1 ++ live (total l1 + 12 + zlen d) l2.
Proof.
  intros [Hs Hc _]. destruct (gaps_around _ _ _ Hc) as [H1 H2]. destruct (hdr_fields _ _ _ _ Hs) as (Eu & En & _ & Em).
  destruct (mark h l1 true d l2 false Hs) as (e & Eset). cbn [Z.b2z is_used] in *.
  destruct Hs as [_ (Ht & Hm & Hsz) (Hp & Ha & Hw) Hb Hf [Hu Hmax]].
  assert (Hal : total l1 `mod` 4 = 0) by (apply total_aligned; by apply Forall_app in Hb as [? _]).
  assert (Hb' : Forall block_ok (l1 ++ Block false d :: l2)).
  { rewrite !Forall_app, !Forall_cons in *. destruct Hb as (Hb1 & Hbd & Hb2). split; [done|]. split; [exact Hbd|done]. }
  assert (Hd : 0 < zlen d) by (rewrite Forall_app, Forall_cons in Hb; apply Hb).
  rewrite total_app, total_cons in Ht. unfold blen in *. cbn [data] in *. pose proof (total_nonneg l1). pose proof (total_nonneg l2).
  unfold rt_free. rewrite land3, sizeof_12. replace (heap_ptr h + total l1 + 12 - 12 - heap_ptr h) with (total l1) by lia.
  destruct (Z.eqb_spec (heap_ptr h + total l1 + 12) 0); [lia|].
  destruct (Z.eqb_spec ((heap_ptr h + total l1 + 12) `mod` 4) 0); [|exfalso; zify_divmod]. cbn [negb].
  destruct (Z.leb_spec (heap_ptr h) (heap_ptr h + total l1 + 12)), (Z.ltb_spec (heap_ptr h + total l1 + 12) (heap_ptr h + heap_end h)); try lia.
  cbn [andb negb]. rewrite Eu, Em. cbn [mbind option_bind]. change (1 =? 0) with false. rewrite Z.eqb_refl. cbn [orb negb]. rewrite Eset. cbn [mbind option_bind].
  set (h1 := set_bytes _ h). rewrite (magic_same h1 l1 (Block false d) l2 e eq_refl). cbn [mbind option_bind].
  assert (Hs1 : shape (set_stats (u32 (used_mem h - (total l1 + (12 + zlen d) - total l1))) (max_mem h) (if total l1 <? lfree h1 then set_lfree (total l1) h1 else h1)) (l1 ++ Block false d :: l2)).
  { change (lfree h1) with (lfree h).
    assert (Hbd : boundary 0 (if total l1 <? lfree h then total l1 else lfree h) (l1 ++ Block false d :: l2)).
    { rewrite boundary_app in *. cbn [boundary] in *. destruct (total l1 <? lfree h); [right; by left|exact Hf]. }
    pose proof (used_total_le l1). pose proof (used_total_le l2).
    assert (Eused : used_mem h = used_total l1 + (12 + zlen d) + used_total l2) by (rewrite Hu, used_total_mid; unfold blen; cbn [is_used data]; lia).
    rewrite u32_id by lia.
    split; destruct (total l1 <? lfree h); cbn [h1 set_bytes set_lfree set_stats heap_bytes heap_end mem_size_aligned heap_ptr lfree used_mem max_mem]; try done; try (by exists e);
      rewrite ?used_total_mid, ?total_app, ?total_cons; unfold blen; cbn [data is_used]; lia. }
  assert (En1 : next (if total l1 <? lfree h1 then set_lfree (total l1) h1 else h1) (total l1) = Some (total l1 + (12 + zlen d))).
  { destruct (hdr_fields _ _ _ _ Hs1) as (_ & E & _). unfold blen in E. cbn [data] in E. exact E. }
  rewrite En1. cbn [mbind option_bind].
  assert (Est : used_mem (if total l1 <? lfree h1 then set_lfree (total l1) h1 else h1) = used_mem h /\
    max_mem (if total l1 <? lfree h1 then set_lfree (total l1) h1 else h1) = max_mem h) by (by destruct (_ <? _)).
  destruct Est as [-> ->].
  destruct (plug_ok _ _ _ _ Hs1 H1 H2) as (b & f & bs & -> & Hs2 & Hc2 & Hl2 & Hf2). eexists _, bs. split; [reflexivity|]. split; [|split].
  - split; [exact Hs2|done|]. intros Hall. apply (free_single bs); [done|done|apply (shape_lfree _ _ Hs2)|].
    destruct (shape_total _ _ Hs2) as [Ht2 _]. rewrite Ht2. change (lfree h1) with (lfree h) in *.
    destruct (Z.ltb_spec (total l1) (lfree h)); cbn in *; lia.
  - unfold same_place. by destruct (total l1 <? lfree h1).
  - rewrite Hl2, live_app, Z.add_0_l. cbn [live is_used app]. unfold blen. cbn [data]. by rewrite Z.add_assoc.
Qed.

Lemma align_down x : 0 <= x -> Z.land x (Z.lnot 3) = x - x `mod` 4.
Proof.
  intros Hx. rewrite <- Z.ldiff_land. change 3 with (Z.ones 2). rewrite Z.ldiff_ones_r, Z.shiftl_mul_pow2, Z.shiftr_div_pow2 by lia.
  change (2 ^ 2) with 4. pose proof (Z.div_mod x 4 ltac:(done)). lia.
Qed.

Lemma align_up n : 0 <= n <= 2 ^ 32 - 4 -> n <= RT_ALIGN n RT_ALIGN_SIZE <= n + 3 /\ RT_ALIGN n RT_ALIGN_SIZE `mod` 4 = 0.
Proof.
  intros Hn. unfold RT_ALIGN, RT_ALIGN_SIZE. change (4 - 1) with 3. rewrite u32_id by lia. rewrite align_down by lia. zify_divmod.
Qed.

Lemma blocks_count h bs : shape h bs -> (length bs < length (heap_bytes h))%nat.
Proof.
  intros [[e ->] _ _ _ _ _]. enough (H : zlen bs < zlen (layout 0 0 bs e)) by (unfold zlen in H; lia).
  unfold layout. rewrite zlen_app, header_len, blocks_len.
  assert (H : zlen bs <= total bs); [|lia]. clear. induction bs as [|b bs IH]; [done|]. rewrite zlen_cons, total_cons. pose proof (blen_pos b). lia.
Qed.

Lemma fit_found h size : 0 < size <= mem_size_aligned h -> forall l2 l1 fuel, shape h (l1 ++ l2) -> (length l2 < fuel)%nat ->
  (exists a d b, l2 = a ++ Block false d :: b /\ size <= zlen d /\ find_fit fuel h size (total l1) = Some (Some (total (l1 ++ a)))) \/
  (find_fit fuel h size (total l1) = Some None /\
   forall a d b, l2 = a ++ Block false d :: b -> size <= zlen d -> mem_size_aligned h - size <= total (l1 ++ a)).
Proof.
  intros Hsz l2. induction l2 as [|[u d] l2 IH]; intros l1 fuel Hs Hfuel; (destruct fuel as [|fuel]; [cbn in Hfuel; lia|]);
    destruct (shape_total _ _ Hs) as (Ht & Hm & _); destruct (shape_place _ _ Hs) as (Hp & _ & Hw); cbn [find_fit]; rewrite u32_id by lia.
  { right. rewrite app_nil_r in Ht. destruct (Z.ltb_spec (total l1) (mem_size_aligned h - size)); [lia|]. split; [done|]. by intros [|? ?] ? ?. }
  destruct (Z.ltb_spec (total l1) (mem_size_aligned h - size)) as [Hlt|Hge].
  - destruct (hdr_fields _ _ _ _ Hs) as (Eu & En & _). rewrite Eu, En. cbn [mbind option_bind is_used].
    assert (Hs' : shape h ((l1 ++ [Block u d]) ++ l2)) by (by rewrite <- app_assoc).
    rewrite total_app, total_cons in Ht. unfold blen in *. cbn [data] in *. pose proof (total_nonneg l1). pose proof (total_nonneg l2). pose proof (zlen_nonneg d).
    rewrite sizeof_12. replace (total l1 + (12 + zlen d) - (total l1 + 12)) with (zlen d) by lia. rewrite u32_id by lia.
    destruct ((Z.b2z u =? 0) && (size <=? zlen d)) eqn:Efit.
    + left. apply andb_true_iff in Efit as [E1 E2]. destruct u; [done|]. exists [], d, l2. rewrite app_nil_r. repeat split; lia || done.
    + assert (Hno : forall d', Block u d = Block false d' -> size <= zlen d' -> False).
      { intros d' [= -> ->] Hd. destruct (Z.leb_spec size (zlen d')); [done|lia]. }
      destruct (IH (l1 ++ [Block u d]) fuel Hs' ltac:(cbn in Hfuel; lia)) as [(a & d' & b & -> & Hd & E)|[E Hall]];
        rewrite total_app in E; unfold blen in E; cbn [total foldr data] in E; unfold blen in E; cbn [data] in E; rewrite Z.add_0_r in E; rewrite E.
      * left. exists (Block u d :: a), d', b. rewrite <- app_assoc. by repeat split.
      * right. split; [done|]. intros [|x a] d' b Eb Hd; [cbn [app] in Eb; by destruct (Hno d' ltac:(congruence) Hd)|].
        injection Eb as <- ->. specialize (Hall a d' b eq_refl Hd). by rewrite <- app_assoc in Hall.
  - right. split; [done|]. intros a d' b E Hd. rewrite total_app. pose proof (total_nonneg a). lia.
Qed.

Lemma free_found h : forall l2 l1 fuel, shape h (l1 ++ l2) -> (length l2 < fuel)%nat ->
  exists a b, l2 = a ++ b /\ next_free fuel h (total l1) = Some (total (l1 ++ a)) /\
    Forall (fun b => is_used b = true) a /\ match b with [] => True | b :: _ => is_used b = false end.
Proof.
  induction l2 as [|[u d] l2 IH]; intros l1 fuel Hs Hfuel; (destruct fuel as [|fuel]; [cbn in Hfuel; lia|]); cbn [next_free].
  - rewrite app_nil_r in Hs. rewrite (end_used _ _ Hs). cbn [mbind option_bind]. destruct (shape_total _ _ Hs) as (-> & _).
    rewrite Z.eqb_refl. cbn [negb andb]. rewrite andb_false_r. exists [], []. rewrite (app_nil_r l1). destruct (shape_total _ _ Hs) as (-> & _). by repeat split.
  - destruct (hdr_fields _ _ _ _ Hs) as (Eu & En & _). rewrite Eu, En. cbn [mbind option_bind is_used].
    destruct (shape_total _ _ Hs) as (Ht & _). rewrite total_app, total_cons in Ht. pose proof (blen_pos (Block u d)). pose proof (total_nonneg l2).
    destruct (Z.eqb_spec (total l1) (heap_end h)); [lia|]. destruct u; cbn [Z.b2z].
    + change (negb (1 =? 0) && negb false) with true. cbv iota.
      assert (Hs' : shape h ((l1 ++ [Block true d]) ++ l2)) by (by rewrite <- app_assoc).
      destruct (IH (l1 ++ [Block true d]) fuel Hs' ltac:(cbn in Hfuel; lia)) as (a & b & -> & E & Ha & Hb).
      rewrite total_app in E. cbn [total foldr] in E. rewrite Z.add_0_r in E. rewrite E. exists (Block true d :: a), b.
      rewrite <- app_assoc. repeat split; [|done]. by constructor.
    + exists [], (Block false d :: l2). rewrite (app_nil_r l1). by repeat split.
Qed.

(** The header of the rest of a block, before the block behind it is linked. *)
Definition half_cut (l1 l2 : list block) (v : bool) (d1 d3 : list Z) (e : Z) : list Z :=
  let p := total l1 in let q := p + 12 + zlen d1 in let r := q + 12 + zlen d3 in
  blocks_bytes 0 0 l1 ++ hdr (Z.b2z v) q (last_at 0 0 l1) ++ d1 ++ hdr 0 r p ++ d3 ++ layout p r l2 e.

Lemma rest_made h l1 u d1 j d3 l2 : laid h (l1 ++ Block u (d1 ++ j ++ d3) :: l2) -> zlen j = 12 ->
  exists e, create_rest (total l1) (zlen d1) h = Some (set_bytes (half_cut l1 l2 u d1 d3 e) h).
Proof.
  intros Hs Hj. destruct (laid_header _ _ _ _ Hs) as (_ & En & _). destruct Hs as [[e He] _]. exists e.
  unfold create_rest. rewrite En, sizeof_12. cbn [mbind option_bind]. apply block_here in He. unfold blen in *. cbn [is_used data] in *.
  rewrite !zlen_app, Hj in *. set (p := total l1) in *. set (q := p + 12 + zlen d1) in *.
  replace (p + (12 + (zlen d1 + (12 + zlen d3)))) with (q + 12 + zlen d3) in * by lia. set (r := q + 12 + zlen d3) in *.
  set (a := blocks_bytes 0 0 l1 ++ hdr (Z.b2z u) r (last_at 0 0 l1) ++ d1).
  assert (Ha : zlen a = q) by (unfold a; rewrite !zlen_app, header_len, blocks_len; lia).
  destruct (header_made h a j (d3 ++ layout p r l2 e) q 0 r p) as [E _]; [rewrite He; unfold a; by rewrite <- !app_assoc|done|done|].
  destruct (set_magic q HEAP_MAGIC h) as [h1|]; [cbn [mbind option_bind] in *|done].
  destruct (set_used q 0 h1) as [h2|]; [cbn [mbind option_bind] in *|done].
  destruct (set_next q r h2) as [h3|]; [cbn [mbind option_bind] in *|done]. rewrite E. cbn [mbind option_bind].
  rewrite (set_next_at (set_bytes (a ++ hdr 0 r p ++ d3 ++ layout p r l2 e) h) (blocks_bytes 0 0 l1) (d1 ++ hdr 0 r p ++ d3 ++ layout p r l2 e) p (Z.b2z u) r (last_at 0 0 l1));
    [done| |apply blocks_len]. cbn [heap_bytes set_bytes]. unfold a. by rewrite <- !app_assoc.
Qed.

Lemma rest_linked h l1 v d1 d3 l2 e : heap_bytes h = half_cut l1 l2 v d1 d3 e ->
  total l1 + 12 + zlen d1 + 12 + zlen d3 + total l2 = mem_size_aligned h + 12 -> mem_size_aligned h + 12 < 2 ^ 32 ->
  exists e, link_rest (total l1 + 12 + zlen d1) h = Some (set_bytes (layout 0 0 (l1 ++ Block v d1 :: Block false d3 :: l2) e) h).
Proof.
  intros He Ht Hw. unfold half_cut in He. set (p := total l1) in *. set (q := p + 12 + zlen d1) in *. set (r := q + 12 + zlen d3) in *.
  pose proof (total_nonneg l1). pose proof (total_nonneg l2). pose proof (zlen_nonneg d1). pose proof (zlen_nonneg d3).
  set (a := blocks_bytes 0 0 l1 ++ hdr (Z.b2z v) q (last_at 0 0 l1) ++ d1).
  assert (Ha : zlen a = q) by (unfold a; rewrite !zlen_app, header_len, blocks_len; lia).
  assert (Ea : heap_bytes h = a ++ hdr 0 r p ++ d3 ++ layout p r l2 e) by (rewrite He; unfold a; by rewrite <- !app_assoc).
  unfold link_rest. rewrite (next_at _ _ _ _ _ _ _ Ea Ha) by (unfold word32; lia). cbn [mbind option_bind]. rewrite sizeof_12.
  assert (Efinal : forall e', a ++ hdr 0 r p ++ d3 ++ layout q r l2 e' = layout 0 0 (l1 ++ Block v d1 :: Block false d3 :: l2) e').
  { intros e'. rewrite layout_app, !layout_cons, Z.add_0_l. unfold blen. cbn [is_used data Z.b2z]. fold p. rewrite !Z.add_assoc. fold q. fold r.
    unfold a. by rewrite <- !app_assoc. }
  destruct (Z.eqb_spec r (mem_size_aligned h + 12)) as [Er|Er]; cbn [negb].
  - assert (l2 = []) as -> by (destruct l2 as [|b l2]; [done|]; rewrite total_cons in Ht; pose proof (blen_pos b); pose proof (total_nonneg l2); lia).
    exists e. rewrite <- Efinal. change (layout q r [] e) with (layout p r [] e). rewrite <- Ea. by destruct h.
  - rewrite (app_assoc (hdr 0 r p)), (app_assoc a) in Ea. set (a2 := a ++ hdr 0 r p ++ d3) in *.
    assert (Ha2 : zlen a2 = r) by (unfold a2; rewrite !zlen_app, header_len; lia).
    destruct (relink h a2 p r l2 e q Ea Ha2) as (e' & ->). exists e'. rewrite <- Efinal. unfold a2. by rewrite <- !app_assoc.
Qed.

(** Marking the block between the two steps. *)
Lemma half_marked h l1 l2 u v d1 d3 e : heap_bytes h = half_cut l1 l2 u d1 d3 e ->
  set_used (total l1) (Z.b2z v) h = Some (set_bytes (half_cut l1 l2 v d1 d3 e) h).
Proof. intros He. unfold half_cut in He. by rewrite (set_used_at _ _ _ _ _ _ _ He (blocks_len l1 0 0)). Qed.

(** The shape of the cut heap. *)
Lemma cut_total l1 u d1 j d3 l2 : zlen j = 12 ->
  total (l1 ++ Block u (d1 ++ j ++ d3) :: l2) = total l1 + 12 + zlen d1 + 12 + zlen d3 + total l2.
Proof. intros Hj. rewrite total_app, total_cons. unfold blen. cbn [data]. rewrite !zlen_app. lia. Qed.

Lemma cut_shape h l1 u v d1 j d3 l2 e used most : shape h (l1 ++ Block u (d1 ++ j ++ d3) :: l2) -> zlen j = 12 ->
  block_ok (Block v d1) -> 0 < zlen d3 -> let bs := l1 ++ Block v d1 :: Block false d3 :: l2 in
  used = used_total bs -> used <= most -> shape (set_stats used most (set_bytes (layout 0 0 bs e) h)) bs.
Proof.
  intros [_ (Ht & Hm & Hsz) Hp Hb Hf _] Hj [Hd1 Hd1'] Hd3 bs Hu Hmost. cbn [data] in *.
  rewrite cut_total in Ht by done. split; cbn [heap_bytes heap_end mem_size_aligned heap_ptr lfree used_mem max_mem set_bytes set_stats]; try done.
  - by exists e.
  - unfold bs. rewrite total_app, !total_cons. unfold blen. cbn [data]. lia.
  - unfold bs. rewrite !Forall_app, !Forall_cons in *. destruct Hb as (Hb1 & [_ Hb] & Hb2). cbn [data] in Hb. rewrite !zlen_app in Hb.
    split; [done|]. split; [done|]. split; [|done]. split; cbn [data]; [done|]. zify_divmod.
  - unfold bs. rewrite boundary_app in *. cbn [boundary] in *. unfold blen in *. cbn [data] in *. rewrite !zlen_app, Z.add_0_l in *.
    replace (total l1 + (12 + (zlen d1 + (zlen j + zlen d3)))) with (total l1 + (12 + zlen d1) + (12 + zlen d3)) in Hf by lia. tauto.
Qed.

(** Taking a block whole. *)
Lemma whole_shape h l1 d l2 e used most : shape h (l1 ++ Block false d :: l2) -> let bs := l1 ++ Block true d :: l2 in
  used = used_total bs -> used <= most -> shape (set_stats used most (set_bytes (layout 0 0 bs e) h)) bs.
Proof.
  intros [_ Ht Hp Hb Hf _] bs Hu Hmost. split; cbn [heap_bytes heap_end mem_size_aligned heap_ptr lfree used_mem max_mem set_bytes set_stats]; try done.
  - by exists e.
  - unfold bs. by rewrite total_app, total_cons in *.
  - unfold bs. rewrite !Forall_app, !Forall_cons in *. destruct Hb as (Hb1 & Hb & Hb2). split; [done|]. split; [exact Hb|done].
  - unfold bs. by rewrite boundary_app in *.
Qed.

Lemma count_shape n h b used : used_mem h = used -> 0 <= used + n < 2 ^ 32 ->
  exists most, count_used n (set_bytes b h) = set_stats (used + n) most (set_bytes b h) /\ used + n <= most.
Proof.
  intros Hu Hn. unfold count_used. cbn [used_mem max_mem set_bytes]. rewrite Hu, u32_id by lia.
  eexists. split; [reflexivity|]. destruct (Z.ltb_spec (max_mem h) (used + n)); lia.
Qed.

(** The end of [take_block]: the free pointer leaves a block that is taken. *)
Lemma lfree_moved h l1 d l2 : shape h (l1 ++ Block true d :: l2) -> no_gaps true (l1 ++ Block true d :: l2) ->
  exists h', (h ← set_magic (total l1) HEAP_MAGIC h;
              if total l1 =? lfree h then p ← next_free (length (heap_bytes h)) h (lfree h); Some (set_lfree p h) else Some h) = Some h' /\
    heap_of h' (l1 ++ Block true d :: l2) /\ same_place h h'.
Proof.
  intros Hs Hc. destruct (shape_bytes _ _ Hs) as [e He]. rewrite (magic_same _ _ _ _ _ He). cbn [mbind option_bind].
  assert (Hno : ~ Forall (fun b => is_used b = false) (l1 ++ Block true d :: l2)) by (rewrite Forall_app, Forall_cons; by intros (_ & ? & _)).
  destruct (Z.eqb_spec (total l1) (lfree h)) as [<-|_]; [|by exists h].
  pose proof (blocks_count _ _ Hs) as Hcount. rewrite length_app in Hcount.
  destruct (free_found h (Block true d :: l2) l1 (length (heap_bytes h)) Hs ltac:(lia)) as (a & b & Eab & -> & _).
  cbn [mbind option_bind]. eexists. split; [reflexivity|]. split; [|done]. split; [|done|by intros ?].
  destruct Hs as [_ ? ? ? _ ?]. split; try done; [by exists e|]. cbn [lfree set_lfree]. rewrite Eab, app_assoc, boundary_app, Z.add_0_l. right. apply boundary_here.
Qed.

Lemma take_ok h l1 d l2 size : heap_of h (l1 ++ Block false d :: l2) -> 12 <= size <= zlen d -> size `mod` 4 = 0 ->
  exists h' d' l2', take_block (total l1) size h = Some h' /\ heap_of h' (l1 ++ Block true d' :: l2') /\ same_place h h' /\
    size <= zlen d' /\ live (total l1 + 12 + zlen d') l2' = live (total l1 + 12 + zlen d) l2.
Proof.
  intros [Hs Hc _] Hsz H4. destruct (hdr_fields _ _ _ _ Hs) as (_ & En & _). unfold take_block. rewrite En, sizeof_12. cbn [mbind option_bind].
  unfold blen. cbn [data]. destruct (shape_total _ _ Hs) as (Ht & Hm & _). destruct (shape_place _ _ Hs) as (Hp & _ & Hw).
  destruct (shape_used _ _ Hs) as [Hu Hmax]. rewrite used_total_mid in Hu. cbn [is_used] in Hu.
  pose proof (used_total_le l1) as Hul1. pose proof (used_total_le l2) as Hul2.
  assert (Hd4 : zlen d `mod` 4 = 0) by (pose proof (shape_blocks _ _ Hs) as Hb; rewrite Forall_app, Forall_cons in Hb; apply Hb).
  apply no_gaps_app in Hc as (Hc1 & _ & Hc2). cbn [is_used] in Hc2.
  assert (Htd : total l1 + (12 + zlen d) + total l2 = heap_end h) by (rewrite total_app, total_cons in Ht; unfold blen in Ht; cbn [data] in Ht; lia).
  rewrite u32_id by lia. change MIN_SIZE_ALIGNED with 12.
  replace (total l1 + (12 + zlen d) - (total l1 + 12)) with (zlen d) by lia. replace (total l1 + (12 + zlen d) - total l1) with (12 + zlen d) by lia.
  destruct (Z.leb_spec (size + 12 + 12) (zlen d)) as [Hbig|Hsmall].
  - destruct (take_split d size ltac:(lia)) as (d1 & d' & -> & E1). rewrite zlen_app in *.
    destruct (take_split d' 12 ltac:(lia)) as (j & d3 & -> & Ej). rewrite zlen_app in *. subst size.
    assert (Hb1 : block_ok (Block true d1)) by (split; cbn [data]; [lia|done]).
    destruct (rest_made h l1 false d1 j d3 l2 (shape_laid _ _ Hs) Ej) as (e & ->). cbn [mbind option_bind].
    rewrite (half_marked _ l1 l2 false true d1 d3 e) by done. cbn [mbind option_bind].
    destruct (rest_linked (set_bytes (half_cut l1 l2 true d1 d3 e) h) l1 true d1 d3 l2 e) as (e' & El); [done|cbn; lia|cbn; lia|].
    cbn [set_bytes heap_bytes] in *. unfold set_bytes in *. cbn [heap_bytes heap_ptr heap_end lfree mem_size_aligned used_mem max_mem] in *.
    rewrite El. cbn [mbind option_bind]. fold (set_bytes (layout 0 0 (l1 ++ Block true d1 :: Block false d3 :: l2) e') h).
    destruct (count_shape (zlen d1 + 12) h (layout 0 0 (l1 ++ Block true d1 :: Block false d3 :: l2) e') _ Hu) as (most & -> & Hmost); [lia|].
    destruct (lfree_moved _ l1 d1 (Block false d3 :: l2) (cut_shape h l1 false true d1 j d3 l2 e' (used_total l1 + 0 + used_total l2 + (zlen d1 + 12)) most Hs Ej Hb1 ltac:(lia)
      ltac:(rewrite used_total_mid, used_total_free; unfold blen; cbn [is_used data]; lia) Hmost)) as (h' & -> & Hh & Hpl).
    { rewrite no_gaps_app. split; [done|]. cbn [no_gaps is_used]. rewrite orb_true_r. by split. }
    exists h', d1, (Block false d3 :: l2). split; [done|]. split; [done|]. split; [exact Hpl|]. split; [lia|].
    cbn [live is_used app]. unfold blen. cbn [data]. f_equal. lia.
  - destruct (mark h l1 false d l2 true Hs) as (e & Eset). cbn [Z.b2z] in Eset. rewrite Eset. cbn [mbind option_bind].
    destruct (count_shape (12 + zlen d) h (layout 0 0 (l1 ++ Block true d :: l2) e) _ Hu) as (most & -> & Hmost); [lia|].
    destruct (lfree_moved _ l1 d l2 (whole_shape h l1 d l2 e (used_total l1 + 0 + used_total l2 + (12 + zlen d)) most Hs
      ltac:(rewrite used_total_mid; unfold blen; cbn [is_used data]; lia) Hmost)) as (h' & -> & Hh & Hpl).
    { rewrite no_gaps_app. split; [done|]. cbn [no_gaps is_used]. rewrite orb_true_r. split; [done|by eapply no_gaps_true]. }
    exists h', d, l2. split; [done|]. split; [done|]. split; [exact Hpl|]. split; [lia|done].
Qed.

(** ** What the calls do to the blocks *)

Definition request_size (n : Z) : Z := Z.max (RT_ALIGN n RT_ALIGN_SIZE) 12.

(** A block of at least [n] bytes is taken from a free one, or there is none
    from the free pointer on that the search accepts. *)
Definition malloc_outcome (n : Z) (h : heap) (bs : list block) (r : Z) (h' : heap) : Prop :=
  (exists l1 d0 l2 d l2', bs = l1 ++ Block false d0 :: l2 /\ r = heap_ptr h + total l1 + 12 /\ n <= zlen d /\
     heap_of h' (l1 ++ Block true d :: l2') /\ live (total l1 + 12 + zlen d) l2' = live (total l1 + 12 + zlen d0) l2) \/
  (r = 0 /\ h' = h /\ (n = 0 \/ mem_size_aligned h < RT_ALIGN n RT_ALIGN_SIZE \/
     exists l1 l2, bs = l1 ++ l2 /\ lfree h = total l1 /\
       forall a d b, l2 = a ++ Block false d :: b -> request_size n <= zlen d -> mem_size_aligned h - request_size n <= total (l1 ++ a))).

Lemma malloc_ok h bs n : heap_of h bs -> 0 <= n <= 2 ^ 32 - 4 ->
  exists r h', rt_malloc n h = Some (r, h') /\ same_place h h' /\ malloc_outcome n h bs r h'.
Proof.
  intros Hh Hn. unfold rt_malloc. destruct (Z.eqb_spec n 0) as [->|Hn0].
  { exists 0, h. split; [done|]. split; [done|]. right. split; [done|]. split; [done|by left]. }
  destruct (align_up n Hn) as [HA HA4]. destruct (Z.ltb_spec (mem_size_aligned h) (RT_ALIGN n RT_ALIGN_SIZE)).
  { exists 0, h. split; [done|]. split; [done|]. right. split; [done|]. split; [done|]. right. by left. }
  change MIN_SIZE_ALIGNED with 12.
  assert (Er : (if RT_ALIGN n RT_ALIGN_SIZE <? 12 then 12 else RT_ALIGN n RT_ALIGN_SIZE) = request_size n) by (unfold request_size; destruct (Z.ltb_spec (RT_ALIGN n RT_ALIGN_SIZE) 12); lia).
  rewrite Er. assert (Hreq : 12 <= request_size n /\ n <= request_size n /\ request_size n `mod` 4 = 0).
  { unfold request_size. destruct (Z.max_spec (RT_ALIGN n RT_ALIGN_SIZE) 12) as [[? ->]|[? ->]]; [by split; [|split; [lia|]]|split; [lia|split; [lia|done]]]. }
  destruct Hreq as (Hr12 & Hrn & Hr4). destruct Hh as [Hs Hc He]. destruct (shape_total _ _ Hs) as (Ht & Hm & Hsz). destruct (shape_place _ _ Hs) as (Hp & Hp4 & Hw).
  assert (Hrm : request_size n <= mem_size_aligned h) by (unfold request_size; lia).
  destruct (boundary_split _ _ _ (shape_lfree _ _ Hs)) as (l1 & l2 & E & El). rewrite Z.add_0_l in El.
  assert (Hs' : shape h (l1 ++ l2)) by (by rewrite <- E).
  pose proof (blocks_count _ _ Hs') as Hcount. rewrite length_app in Hcount.
  destruct (fit_found h (request_size n) ltac:(lia) l2 l1 (length (heap_bytes h)) Hs' ltac:(lia)) as [(a & d0 & b & -> & Hd & Ef)|[Ef Hall]]; rewrite El, Ef; cbn [mbind option_bind].
  - assert (Hb : bs = (l1 ++ a) ++ Block false d0 :: b) by (by rewrite <- app_assoc).
    assert (Hh' : heap_of h ((l1 ++ a) ++ Block false d0 :: b)) by (rewrite <- Hb; by split).
    destruct (take_ok h (l1 ++ a) d0 b (request_size n) Hh' ltac:(lia) Hr4) as (h' & d & l2' & -> & Hh2 & Hpl & Hd' & Hlive). cbn [mbind option_bind].
    pose proof Hpl as (Ep & Ee & _). rewrite Ep, Ee, sizeof_12, land3. change RT_ALIGN_SIZE with 4.
    pose proof (total_nonneg (l1 ++ a)). assert (Hal : total (l1 ++ a) `mod` 4 = 0).
    { apply total_aligned. pose proof (shape_blocks _ _ Hs) as Hbk. rewrite Hb in Hbk. by apply Forall_app in Hbk as [? _]. }
    assert (Hfit : total (l1 ++ a) + 12 + request_size n <= heap_end h).
    { rewrite Hb, total_app, total_cons in Ht. unfold blen in Ht. cbn [data] in Ht. pose proof (total_nonneg b). lia. }
    destruct (Z.leb_spec (total (l1 ++ a) + 12 + request_size n) (heap_end h)); [|lia].
    destruct (Z.eqb_spec ((heap_ptr h + total (l1 ++ a) + 12) `mod` 4) 0); [|exfalso; zify_divmod].
    destruct (Z.eqb_spec ((heap_ptr h + total (l1 ++ a)) `mod` 4) 0); [|exfalso; zify_divmod]. cbn [andb].
    eexists _, h'. split; [reflexivity|]. split; [done|]. left. exists (l1 ++ a), d0, b, d, l2'. split; [done|]. split; [lia|]. split; [lia|]. by split.
  - exists 0, h. split; [done|]. split; [done|]. right. split; [done|]. split; [done|]. right. right. exists l1, l2. by split.
Qed.

(** ** The blocks in use *)

Lemma live_shift l k : forall at_, live (k + at_) l = map (fun x => (k + x.1, x.2)) (live at_ l).
Proof.
  induction l as [|b l IH]; intros at_; [done|]. cbn [live]. rewrite map_app, <- IH, Z.add_assoc. f_equal.
  destruct (is_used b); [|done]. cbn. by rewrite Z.add_assoc.
Qed.

Lemma live_in l a d : forall at_, In (a, d) (live at_ l) -> exists l1 l2, l = l1 ++ Block true d :: l2 /\ a = at_ + total l1 + 12.
Proof.
  induction l as [|[u d'] l IH]; intros at_; cbn [live]; [done|]. rewrite in_app_iff. intros [H|H].
  - destruct u; [|done]. destruct H as [[= <- <-]|[]]. exists [], l. split; [done|]. cbn. lia.
  - destruct (IH _ H) as (l1 & l2 & -> & ->). exists (Block u d' :: l1), l2. split; [done|]. rewrite total_cons. lia.
Qed.

Lemma live_range l a d : forall at_, In (a, d) (live at_ l) -> at_ + 12 <= a /\ a + zlen d <= at_ + total l.
Proof.
  intros at_ H. destruct (live_in _ _ _ _ H) as (l1 & l2 & -> & ->). rewrite total_app, total_cons. unfold blen. cbn [data].
  pose proof (total_nonneg l1). pose proof (total_nonneg l2). lia.
Qed.

Lemma live_mid l1 d l2 at_ : live at_ (l1 ++ Block true d :: l2) = live at_ l1 ++ (at_ + total l1 + 12, d) :: live (at_ + total l1 + 12 + zlen d) l2.
Proof. rewrite live_app. cbn [live is_used app]. unfold blen. cbn [data]. by rewrite Z.add_assoc. Qed.

Lemma live_nodup l : forall at_, NoDup (map fst (live at_ l)).
Proof.
  induction l as [|[u d] l IH]; intros at_; [constructor|]. cbn [live]. rewrite map_app. destruct u; [|apply IH].
  cbn [map app fst]. constructor; [|apply IH]. rewrite list_elem_of_In, in_map_iff. intros ([a d'] & E & Hin). cbn in E. subst a.
  apply live_range in Hin. unfold blen in Hin. cbn [data] in Hin. pose proof (zlen_nonneg d). lia.
Qed.

(** What the program that calls the heap holds: its blocks, by their addresses. *)
Abbreviation blocks := (gmap Z (list Z)).

Definition block_map (base : Z) (bs : list block) : blocks := list_to_map (live base bs).

Definition shifted (base : Z) (l : list (Z * list Z)) : list (Z * list Z) := map (fun x => (base + x.1, x.2)) l.

Lemma map_shifted base bs : block_map base bs = list_to_map (shifted base (live 0 bs)).
Proof. unfold block_map, shifted. by rewrite <- live_shift, Z.add_0_r. Qed.

Lemma shifted_nodup base bs : NoDup (shifted base (live 0 bs)).*1.
Proof. unfold shifted. rewrite <- live_shift. apply live_nodup. Qed.

Lemma shifted_mid base x y p d : shifted base (x ++ (p, d) :: y) ≡ₚ (base + p, d) :: shifted base (x ++ y).
Proof. unfold shifted. rewrite !map_app. cbn [map fst snd]. by rewrite Permutation_middle. Qed.

Lemma map_found base bs a d : block_map base bs !! a = Some d <-> exists l1 l2, bs = l1 ++ Block true d :: l2 /\ a = base + total l1 + 12.
Proof.
  unfold block_map. rewrite <- elem_of_list_to_map by apply live_nodup. rewrite list_elem_of_In. split; [by apply live_in|].
  intros (l1 & l2 & -> & ->). rewrite live_mid. apply in_elt.
Qed.

Lemma map_add base bs bs' x y p d : live 0 bs = x ++ y -> live 0 bs' = x ++ (p, d) :: y ->
  block_map base bs !! (base + p) = None /\ block_map base bs' = <[base + p := d]> (block_map base bs).
Proof.
  intros E E'. rewrite !map_shifted, E, E'. pose proof (shifted_nodup base bs') as Hnd. rewrite E' in Hnd.
  rewrite (list_to_map_proper _ _ Hnd (shifted_mid base x y p d)). rewrite shifted_mid in Hnd. cbn in Hnd. apply NoDup_cons in Hnd as [Hn Hnd].
  split; [|done]. by apply not_elem_of_list_to_map_1.
Qed.

Lemma map_del base bs bs' x y p d : live 0 bs = x ++ (p, d) :: y -> live 0 bs' = x ++ y ->
  block_map base bs' = delete (base + p) (block_map base bs).
Proof. intros E E'. destruct (map_add base bs' bs x y p d E' E) as [Hn ->]. by rewrite delete_insert_id. Qed.

Lemma map_set base bs bs' x y p d d' : live 0 bs = x ++ (p, d) :: y -> live 0 bs' = x ++ (p, d') :: y ->
  block_map base bs' = <[base + p := d']> (block_map base bs).
Proof.
  intros E E'. rewrite !map_shifted, E, E'. pose proof (shifted_nodup base bs) as Hnd. pose proof (shifted_nodup base bs') as Hnd'. rewrite E in Hnd. rewrite E' in Hnd'.
  rewrite (list_to_map_proper _ _ Hnd (shifted_mid base x y p d)), (list_to_map_proper _ _ Hnd' (shifted_mid base x y p d')). cbn [list_to_map foldr fst snd].
  by rewrite insert_insert_eq.
Qed.

(** ** Reading and writing in a block *)

Lemma block_bytes h l1 u d l2 : shape h (l1 ++ Block u d :: l2) ->
  exists a b, heap_bytes h = a ++ d ++ b /\ zlen a = total l1 + 12.
Proof.
  intros Hs. destruct (shape_bytes _ _ Hs) as [e He]. apply block_here in He. cbn [data] in He.
  eexists (blocks_bytes 0 0 l1 ++ hdr _ _ _), _. rewrite <- app_assoc. split; [exact He|]. by rewrite zlen_app, header_len, blocks_len.
Qed.

Lemma read_ok h l1 u d l2 off n : shape h (l1 ++ Block u d :: l2) -> 0 <= off -> 0 <= n -> off + n <= zlen d ->
  read_at h (heap_ptr h + total l1 + 12 + off) n = Some (buf_sub d off n).
Proof.
  intros Hs Ho Hn Hd. destruct (block_bytes _ _ _ _ _ Hs) as (a & b & E & Ha). unfold read_at. rewrite E, !zlen_app.
  pose proof (total_nonneg l1). pose proof (zlen_nonneg b). replace (heap_ptr h + total l1 + 12 + off - heap_ptr h) with (zlen a + off) by lia.
  destruct (Z.leb_spec 0 (zlen a + off)), (Z.leb_spec (zlen a + off + n) (zlen a + (zlen d + zlen b))); try lia. cbn [andb].
  rewrite buf_sub_skip by lia. replace (zlen a + off - zlen a) with off by lia. by rewrite buf_sub_app_l.
Qed.

Lemma buf_write_over (p o q x : list Z) i : zlen p = i -> zlen o = zlen x -> buf_write (p ++ o ++ q) i x = Some (p ++ x ++ q).
Proof.
  intros Hp Ho. pose proof (zlen_nonneg q). rewrite buf_write_at by (rewrite ?zlen_app; lia). rewrite drop_app_length' by (unfold zlen in Ho; lia).
  by rewrite <- app_assoc.
Qed.

Lemma buf_write_mid (a d b x d' : list Z) i off : zlen a = i -> buf_write d off x = Some d' -> buf_write (a ++ d ++ b) (i + off) x = Some (a ++ d' ++ b).
Proof.
  intros Ha Hw. assert (H : 0 <= off /\ off + zlen x <= zlen d).
  { unfold buf_write in Hw. destruct (Z.leb_spec 0 off), (Z.leb_spec (off + zlen x) (zlen d)); try done. }
  pose proof (zlen_nonneg x). destruct (take_split d off ltac:(lia)) as (d1 & r & -> & H1). rewrite zlen_app in H.
  destruct (take_split r (zlen x) ltac:(lia)) as (o & d3 & -> & Ho). rewrite (buf_write_over d1 o d3 x off H1 Ho) in Hw. injection Hw as <-.
  replace (a ++ (d1 ++ o ++ d3) ++ b) with ((a ++ d1) ++ o ++ (d3 ++ b)) by (by rewrite <- !app_assoc).
  rewrite buf_write_over by (rewrite ?zlen_app; lia). by rewrite <- !app_assoc.
Qed.

Lemma write_ok h l1 d l2 off x d' : heap_of h (l1 ++ Block true d :: l2) -> buf_write d off x = Some d' ->
  exists h', write_at h (heap_ptr h + total l1 + 12 + off) x = Some h' /\ heap_of h' (l1 ++ Block true d' :: l2) /\ same_place h h' /\ zlen d' = zlen d.
Proof.
  intros [Hs Hc He] Hw. pose proof (buf_write_len _ _ _ _ Hw) as Hlen. assert (Hzl : zlen d' = zlen d) by (unfold zlen; lia).
  destruct (shape_bytes _ _ Hs) as [e Eb]. apply block_here in Eb. unfold blen in Eb. cbn [data is_used Z.b2z] in Eb.
  unfold write_at. replace (heap_ptr h + total l1 + 12 + off - heap_ptr h) with (total l1 + 12 + off) by lia. rewrite Eb, app_assoc.
  rewrite (buf_write_mid _ d _ x d' (total l1 + 12) off) by (done || (rewrite zlen_app, header_len, blocks_len; lia)). cbn [mbind option_bind].
  eexists. split; [reflexivity|]. split; [|done]. destruct Hs as [_ (Ht & Hm) Hp Hb Hf Hu].
  split; [|by rewrite no_gaps_app in *|rewrite Forall_app, Forall_cons; by intros (_ & ? & _)].
  split; cbn [heap_bytes heap_end mem_size_aligned heap_ptr lfree used_mem max_mem set_bytes]; try done.
  - exists e. rewrite layout_app, layout_cons, Z.add_0_l, <- !app_assoc. unfold blen. cbn [data is_used Z.b2z]. by rewrite Hzl.
  - rewrite total_app, total_cons in *. unfold blen in *. cbn [data] in *. by rewrite Hzl.
  - rewrite !Forall_app, !Forall_cons in *. unfold block_ok in *. cbn [data] in *. by rewrite Hzl.
  - rewrite boundary_app in *. cbn [boundary] in *. unfold blen in *. cbn [data] in *. by rewrite Hzl.
  - rewrite used_total_mid in *. unfold blen in *. cbn [data is_used] in *. by rewrite Hzl.
Qed.

(** ** The heap as a store of blocks *)

Definition represents (h : heap) (m : blocks) : Prop := exists bs, heap_of h bs /\ m = block_map (heap_ptr h) bs.

Lemma rep_malloc h m n : represents h m -> 0 <= n <= 2 ^ 32 - 4 ->
  exists r h', rt_malloc n h = Some (r, h') /\ same_place h h' /\
    ((r = 0 /\ h' = h) \/ (r <> 0 /\ exists d, n <= zlen d /\ m !! r = None /\ represents h' (<[r := d]> m))).
Proof.
  intros (bs & Hh & ->) Hn. destruct (malloc_ok h bs n Hh Hn) as (r & h' & E & Hpl & Ho). exists r, h'. split; [done|]. split; [done|].
  destruct Ho as [(l1 & d0 & l2 & d & l2' & -> & -> & Hd & Hh' & Hl)|(-> & -> & _)]; [right|by left].
  destruct (shape_place _ _ (of_shape _ _ Hh)) as (Hp & _). pose proof (total_nonneg l1). split; [lia|].
  assert (E1 : live 0 (l1 ++ Block false d0 :: l2) = live 0 l1 ++ live (total l1 + 12 + zlen d0) l2).
  { rewrite live_app. cbn [live is_used app]. unfold blen. cbn [data]. by rewrite Z.add_0_l, Z.add_assoc. }
  pose proof (live_mid l1 d l2' 0) as E2. rewrite Z.add_0_l, Hl in E2. destruct (map_add (heap_ptr h) _ _ _ _ _ _ E1 E2) as [Hnone Hins].
  rewrite Z.add_assoc in *. exists d. split; [done|]. split; [done|]. exists (l1 ++ Block true d :: l2'). split; [done|]. destruct Hpl as [-> _]. done.
Qed.

Lemma rep_free h m a d : represents h m -> m !! a = Some d ->
  exists h', rt_free a h = Some h' /\ same_place h h' /\ represents h' (delete a m).
Proof.
  intros (bs & Hh & ->) Ha. apply map_found in Ha as (l1 & l2 & -> & ->).
  destruct (free_ok h l1 d l2 Hh) as (h' & bs' & E & Hh' & Hpl & Hl). exists h'. split; [done|]. split; [done|]. exists bs'. split; [done|].
  destruct Hpl as [-> _]. pose proof (live_mid l1 d l2 0) as E2. rewrite Z.add_0_l in E2. by rewrite (map_del _ _ _ _ _ _ _ E2 Hl), Z.add_assoc.
Qed.

Lemma rep_write h m a d off x d' : represents h m -> m !! a = Some d -> buf_write d off x = Some d' ->
  exists h', write_at h (a + off) x = Some h' /\ same_place h h' /\ represents h' (<[a := d']> m).
Proof.
  intros (bs & Hh & ->) Ha Hw. apply map_found in Ha as (l1 & l2 & -> & ->).
  destruct (write_ok h l1 d l2 off x d' Hh Hw) as (h' & E & Hh' & Hpl & Hlen). exists h'. split; [done|]. split; [done|].
  exists (l1 ++ Block true d' :: l2). split; [done|]. destruct Hpl as [-> _].
  pose proof (live_mid l1 d l2 0) as E1. pose proof (live_mid l1 d' l2 0) as E2. rewrite Hlen in E2. by rewrite (map_set _ _ _ _ _ _ _ _ E1 E2), Z.add_assoc.
Qed.

Lemma rep_read h m a d off n : represents h m -> m !! a = Some d -> 0 <= off -> 0 <= n -> off + n <= zlen d ->
  read_at h (a + off) n = Some (buf_sub d off n).
Proof.
  intros (bs & [Hs _ _] & ->) Ha Ho Hn. apply map_found in Ha as (l1 & l2 & -> & ->). by apply (read_ok h l1 true d l2).
Qed.

(** A block that is cut. *)
Lemma cut_ok h l1 d1 j d3 l2 : heap_of h (l1 ++ Block true (d1 ++ j ++ d3) :: l2) -> zlen j = 12 -> 0 < zlen d1 -> zlen d1 `mod` 4 = 0 -> 0 < zlen d3 ->
  exists h' bs, (h ← create_rest (total l1) (zlen d1) (set_stats (u32 (used_mem h - (12 + zlen d3))) (max_mem h) h);
                 h ← link_rest (total l1 + 12 + zlen d1) h; plug_holes (total l1 + 12 + zlen d1) h) = Some h' /\
    heap_of h' bs /\ same_place h h' /\ live 0 bs = live 0 l1 ++ (total l1 + 12, d1) :: live (total l1 + 12 + zlen (d1 ++ j ++ d3)) l2.
Proof.
  intros [Hs Hc _] Hj Hd1 Hd14 Hd3. destruct (shape_total _ _ Hs) as (Ht & Hm & Hsz). destruct (shape_place _ _ Hs) as (Hp & _ & Hw).
  destruct (shape_used _ _ Hs) as [Hu Hmax]. rewrite used_total_mid in Hu. unfold blen in Hu. cbn [is_used data] in Hu. rewrite !zlen_app, Hj in Hu.
  pose proof (used_total_le l1). pose proof (used_total_le l2). rewrite cut_total in Ht by done.
  set (h0 := set_stats _ _ h). destruct (rest_made h0 l1 true d1 j d3 l2 (shape_laid _ _ Hs) Hj) as (e & ->). cbn [mbind option_bind].
  destruct (rest_linked (set_bytes (half_cut l1 l2 true d1 d3 e) h0) l1 true d1 d3 l2 e) as (e' & ->); [done|cbn; lia|cbn; lia|]. cbn [mbind option_bind].
  change (set_bytes ?b (set_bytes ?c ?k)) with (set_bytes b k).
  assert (Hs1 : shape (set_stats (u32 (used_mem h - (12 + zlen d3))) (max_mem h) (set_bytes (layout 0 0 (l1 ++ Block true d1 :: Block false d3 :: l2) e') h)) (l1 ++ Block true d1 :: Block false d3 :: l2)).
  { apply (cut_shape h l1 true true d1 j d3 l2 e'); try done; rewrite u32_id by lia; [|lia]. rewrite used_total_mid, used_total_free. unfold blen. cbn [is_used data]. lia. }
  apply no_gaps_app in Hc as (Hc1 & Hc2). cbn [no_gaps is_used] in Hc2.
  pose proof (plug_ok (set_bytes (layout 0 0 (l1 ++ Block true d1 :: Block false d3 :: l2) e') h0) (l1 ++ [Block true d1]) d3 l2) as Hplug.
  rewrite <- app_assoc in Hplug. cbn [app] in Hplug. rewrite total_app in Hplug. unfold blen in Hplug. cbn [total foldr data] in Hplug.
  unfold blen in Hplug. cbn [data] in Hplug. rewrite Z.add_0_r, Z.add_assoc in Hplug.
  destruct (Hplug Hs1) as (b & f & bs & -> & Hs2 & Hc3 & Hl & Hf); [by rewrite no_gaps_app; cbn; rewrite orb_true_r|apply Hc2|].
  eexists _, bs. split; [reflexivity|]. split; [|split; [done|]].
  - split; [exact Hs2|done|]. intros Hall. exfalso.
    assert (Hin : In (total l1 + 12, d1) (live 0 bs)) by (rewrite Hl, live_mid; apply in_elt).
    apply live_in in Hin as (k1 & k2 & -> & _). rewrite Forall_app, Forall_cons in Hall. by destruct Hall as (_ & ? & _).
  - rewrite Hl, live_mid, Z.add_0_l. cbn [live is_used app]. unfold blen. cbn [data]. rewrite !zlen_app. do 3 f_equal. lia.
Qed.

(** What [rt_realloc] promises for a block that holds [d]. *)
Definition reallocated (n a : Z) (d : list Z) (m : blocks) (r : Z) (m' : blocks) : Prop :=
  (n = 0 /\ r = 0 /\ m' = delete a m) \/ (0 < n /\ r = 0 /\ m' = m) \/
  (0 < n /\ r <> 0 /\ (r = a \/ m !! r = None) /\ exists d', n <= zlen d' /\
     take (Z.to_nat (Z.min n (zlen d))) d' = take (Z.to_nat (Z.min n (zlen d))) d /\ m' = <[r := d']> (delete a m)).

Lemma same_place_trans h1 h2 h3 : same_place h1 h2 -> same_place h2 h3 -> same_place h1 h3.
Proof. unfold same_place. intros (-> & -> & ->) (-> & -> & ->). done. Qed.

Lemma align_again n : 0 <= n <= 2 ^ 32 - 4 -> n `mod` 4 = 0 -> RT_ALIGN n RT_ALIGN_SIZE = n.
Proof. intros Hn H4. destruct (align_up n Hn) as [? ?]. zify_divmod. Qed.

(** A block that is moved: the new one begins with the bytes of the old one. *)
Lemma rep_move h m a d n : represents h m -> m !! a = Some d -> 0 < n <= 2 ^ 32 - 4 -> 
  exists r h', ('(nmem, h) ← rt_malloc n h;
    if nmem =? 0 then Some (0, h)
    else d ← read_at h a (Z.min (zlen d) n); h ← write_at h nmem d; h ← rt_free a h; Some (nmem, h)) = Some (r, h') /\ same_place h h' /\
    ((r = 0 /\ h' = h) \/ (r <> 0 /\ m !! r = None /\ exists d', n <= zlen d' /\
       take (Z.to_nat (Z.min n (zlen d))) d' = take (Z.to_nat (Z.min n (zlen d))) d /\ represents h' (<[r := d']> (delete a m)))).
Proof.
  intros Hr Ha Hn. destruct (rep_malloc h m n Hr ltac:(lia)) as (r & h1 & -> & Hp1 & [[-> ->]|(Hr0 & dn & Hdn & Hnone & Hr1)]); cbn [mbind option_bind].
  { exists 0, h. split; [done|]. split; [done|by left]. }
  destruct (Z.eqb_spec r 0); [done|]. assert (Hne : r <> a) by congruence. pose proof (zlen_nonneg d).
  assert (Ha1 : <[r := dn]> m !! a = Some d) by (by rewrite lookup_insert_ne).
  pose proof (rep_read h1 _ a d 0 (Z.min (zlen d) n) Hr1 Ha1 ltac:(lia) ltac:(lia) ltac:(lia)) as Erd. rewrite Z.add_0_r in Erd. rewrite Erd.
  unfold buf_sub. change (Z.to_nat 0) with 0%nat. rewrite drop_0. cbn [mbind option_bind]. set (x := take _ d).
  assert (Hx : zlen x = Z.min n (zlen d)) by (unfold x; rewrite zlen_take; lia).
  pose proof (buf_write_some dn 0 x ltac:(lia) ltac:(lia)) as Hw.
  destruct (rep_write h1 _ r dn 0 x _ Hr1 ltac:(by rewrite lookup_insert_eq) Hw) as (h2 & E2 & Hp2 & Hr2). rewrite Z.add_0_r in E2. rewrite E2. cbn [mbind option_bind].
  change (Z.to_nat 0) with 0%nat in *. rewrite take_0 in *. cbn [app plus] in *. rewrite insert_insert_eq in Hr2.
  destruct (rep_free h2 _ a d Hr2 ltac:(by rewrite lookup_insert_ne)) as (h3 & E3 & Hp3 & Hr3). rewrite E3. cbn [mbind option_bind].
  exists r, h3. split; [done|]. split; [by eapply same_place_trans, same_place_trans|]. right. split; [done|]. split; [done|].
  rewrite delete_insert_ne in Hr3 by done. exists (x ++ drop (length x) dn). split; [|split; [|done]].
  - rewrite zlen_app, zlen_drop. fold (zlen x). lia.
  - rewrite take_app_length' by (rewrite <- Hx; unfold zlen; lia). unfold x. do 2 f_equal. lia.
Qed.

Lemma rep_realloc h m a d n : represents h m -> m !! a = Some d -> 0 <= n <= 2 ^ 32 - 4 ->
  exists r h' m', rt_realloc a n h = Some (r, h') /\ same_place h h' /\ represents h' m' /\ reallocated n a d m r m'.
Proof.
  intros Hr Ha Hn. destruct (align_up n Hn) as [HA HA4]. unfold rt_realloc. set (A := RT_ALIGN n RT_ALIGN_SIZE) in *.
  pose proof Hr as (bs & Hh & Em). rewrite Em in Ha. apply map_found in Ha as (l1 & l2 & -> & Ea).
  assert (Ha : m !! a = Some d) by (rewrite Em; apply map_found; by exists l1, l2).
  destruct (shape_total _ _ (of_shape _ _ Hh)) as (Ht & Hm & Hsz). destruct (shape_place _ _ (of_shape _ _ Hh)) as (Hp & _ & Hw).
  pose proof (shape_blocks _ _ (of_shape _ _ Hh)) as Hb. apply Forall_app in Hb as [_ Hb]. apply Forall_cons in Hb as [[Hd0 Hd4] _]. cbn [data] in *.
  destruct (hdr_fields _ _ _ _ (of_shape _ _ Hh)) as (_ & En & _). rewrite total_app, total_cons in Ht. unfold blen in *. cbn [data] in *.
  pose proof (total_nonneg l1). pose proof (total_nonneg l2).
  destruct (Z.ltb_spec (mem_size_aligned h) A).
  { exists 0, h, m. split; [done|]. split; [done|]. split; [done|]. right. left. split; [|done]. lia. }
  destruct (Z.eqb_spec A 0).
  { destruct (rep_free h m a d Hr Ha) as (h' & -> & Hpl & Hr'). exists 0, h', (delete a m). split; [done|]. split; [done|]. split; [done|]. left. split; [lia|done]. }
  assert (Hn0 : 0 < n) by (destruct (Z.eq_dec n 0); [exfalso; zify_divmod|lia]).
  destruct (Z.eqb_spec a 0); [lia|]. destruct (Z.ltb_spec a (heap_ptr h)), (Z.leb_spec (heap_ptr h + heap_end h) a); try lia. cbn [orb].
  rewrite sizeof_12. replace (a - 12 - heap_ptr h) with (total l1) by lia. rewrite En. cbn [mbind option_bind].
  replace (total l1 + (12 + zlen d) - total l1 - 12) with (zlen d) by lia. rewrite u32_id by lia.
  destruct (Z.eqb_spec (zlen d) A) as [EA|EA].
  { exists a, h, m. split; [done|]. split; [done|]. split; [done|]. right. right. split; [lia|]. split; [lia|]. split; [by left|]. exists d.
    split; [lia|]. split; [done|]. by rewrite insert_delete_eq, insert_id. }
  change MIN_SIZE with 12. destruct (Z.ltb_spec (A + 12 + 12) (zlen d)) as [Hcut|Hno].
  - destruct (take_split d A ltac:(lia)) as (d1 & d' & -> & E1). rewrite zlen_app in *.
    destruct (take_split d' 12 ltac:(lia)) as (j & d3 & -> & Ej). rewrite zlen_app in *. clearbody A. subst A.
    replace (zlen d1 + (zlen j + zlen d3) - zlen d1) with (12 + zlen d3) by lia.
    destruct (cut_ok h l1 d1 j d3 l2 Hh Ej ltac:(lia) HA4 ltac:(lia)) as (h' & bs & E & Hh' & Hpl & Hl).
    destruct (create_rest _ _ _) as [h1|]; [cbn [mbind option_bind] in *|done].
    destruct (link_rest _ h1) as [h2|]; [cbn [mbind option_bind] in *|done]. rewrite E. cbn [mbind option_bind].
    exists a, h', (<[a := d1]> (delete a m)). split; [done|]. split; [done|]. split.
    + exists bs. split; [done|]. destruct Hpl as [-> _]. rewrite insert_delete_eq, Em, Ea.
      pose proof (live_mid l1 (d1 ++ j ++ d3) l2 0) as E0. rewrite Z.add_0_l in E0. by rewrite (map_set _ _ _ _ _ _ _ _ E0 Hl), Z.add_assoc.
    + right. right. split; [lia|]. split; [lia|]. split; [by left|]. exists d1. split; [lia|]. split; [|done].
      rewrite take_app_le; [done|]. unfold zlen in *. lia.
  - destruct (rep_move h m a d A Hr Ha ltac:(lia)) as (r & h' & -> & Hpl & Ho).
    destruct Ho as [[-> ->]|(Hr0 & Hnone & d' & Hd' & Htk & Hr')].
    + exists 0, h, m. split; [done|]. split; [done|]. split; [done|]. right. left. split; [lia|done].
    + exists r, h', (<[r := d']> (delete a m)). split; [done|]. split; [done|]. split; [done|]. right. right. split; [lia|]. split; [done|]. split; [by right|].
      exists d'. split; [lia|]. split; [|done].
      assert (Ht' : forall x : list Z, take (Z.to_nat (Z.min n (zlen d))) x = take (Z.to_nat (Z.min n (zlen d))) (take (Z.to_nat (Z.min A (zlen d))) x)).
      { intros x. rewrite take_take. f_equal. pose proof (zlen_nonneg d). lia. }
      by rewrite Ht', Htk, <- Ht'.
Qed.

(** ** The promise to the callers *)

Inductive heap_call :=
  | Malloc (size : Z)
  | Calloc (count size : Z)
  | Realloc (rmem newsize : Z)
  | Free (rmem : Z)
  | Write (rmem off : Z) (x : list Z)
  | Read (rmem off n : Z).

(** A call: its result, the bytes that are read, the heap. *)
Definition heap_step (c : heap_call) (h : heap) : option (Z * list Z * heap) :=
  match c with
  | Malloc n => '(r, h) ← rt_malloc n h; Some (r, [], h)
  | Calloc k n => '(r, h) ← rt_calloc k n h; Some (r, [], h)
  | Realloc a n => '(r, h) ← rt_realloc a n h; Some (r, [], h)
  | Free a => h ← rt_free a h; Some (0, [], h)
  | Write a off x => h ← write_at h (a + off) x; Some (0, [], h)
  | Read a off n => d ← read_at h (a + off) n; Some (0, d, h)
  end.

(** What a caller may do that holds the blocks [m]. *)
Definition heap_call_ok (m : blocks) (c : heap_call) : Prop :=
  match c with
  | Malloc n => 0 <= n <= 2 ^ 32 - 4
  | Calloc k n => 0 <= k * n <= 2 ^ 32 - 4
  | Realloc a n => 0 <= n <= 2 ^ 32 - 4 /\ (a = 0 \/ is_Some (m !! a))
  | Free a => a = 0 \/ is_Some (m !! a)
  | Write a off x => exists d, m !! a = Some d /\ 0 <= off /\ off + zlen x <= zlen d
  | Read a off n => exists d, m !! a = Some d /\ 0 <= off /\ 0 <= n /\ off + n <= zlen d
  end.

(** No block, or a new one of at least [n] bytes that begins with [z]. *)
Definition allocated (n : Z) (z : list Z) (m : blocks) (r : Z) (m' : blocks) : Prop :=
  (r = 0 /\ m' = m) \/ (r <> 0 /\ m !! r = None /\ exists d, n <= zlen d /\ take (length z) d = z /\ m' = <[r := d]> m).

(** What it gets for it. *)
Definition promised (m : blocks) (c : heap_call) (r : Z) (out : list Z) (m' : blocks) : Prop :=
  match c with
  | Malloc n => out = [] /\ allocated n [] m r m'
  | Calloc k n => out = [] /\ allocated (k * n) (replicate (Z.to_nat (k * n)) 0) m r m'
  | Realloc a n => out = [] /\ match m !! a with Some d => reallocated n a d m r m' | None => allocated n [] m r m' end
  | Free a => out = [] /\ m' = delete a m
  | Write a off x => exists d d', out = [] /\ m !! a = Some d /\ buf_write d off x = Some d' /\ m' = <[a := d']> m
  | Read a off n => exists d, m !! a = Some d /\ out = buf_sub d off n /\ m' = m
  end.

(** Blocks are inside the heap, aligned, and at least a header apart. *)
Definition separate (h : heap) (m : blocks) : Prop :=
  (forall a d, m !! a = Some d -> heap_ptr h + 12 <= a /\ a + zlen d <= heap_ptr h + heap_end h /\ a `mod` 4 = 0) /\
  (forall a d b d', m !! a = Some d -> m !! b = Some d' -> a <> b -> a + zlen d + 12 <= b \/ b + zlen d' + 12 <= a).

Lemma rep_separate h m : represents h m -> separate h m.
Proof.
  intros (bs & [Hs _ _] & ->). destruct (shape_total _ _ Hs) as (Ht & _). destruct (shape_place _ _ Hs) as (_ & Hp4 & _). split.
  - intros a d Ha. apply map_found in Ha as (l1 & l2 & -> & ->). pose proof (shape_blocks _ _ Hs) as Hb. apply Forall_app in Hb as [Hb _].
    pose proof (total_aligned _ Hb). rewrite total_app, total_cons in Ht. unfold blen in Ht. cbn [data] in Ht.
    pose proof (total_nonneg l1). pose proof (total_nonneg l2). split; [lia|]. split; [lia|]. zify_divmod.
  - intros a d b d' Ha Hb Hne. apply map_found in Ha as (l1 & l2 & E1 & ->). apply map_found in Hb as (k1 & k2 & E2 & ->).
    rewrite E1 in E2. clear -E2 Hne. revert k1 E2 Hne. generalize (heap_ptr h). induction l1 as [|x l1 IH]; intros base [|y k1] E Hne; cbn [app] in E.
    + cbn in Hne. lia.
    + injection E as <- _. rewrite total_cons. unfold blen. cbn. pose proof (total_nonneg k1). left. lia.
    + injection E as -> _. rewrite total_cons. unfold blen. cbn. pose proof (total_nonneg l1). right. lia.
    + injection E as <- E. rewrite !total_cons in *. destruct (IH (base + blen x) k1 E); lia.
Qed.

Lemma rep_calloc h m k n : represents h m -> 0 <= k * n <= 2 ^ 32 - 4 ->
  exists r h' m', rt_calloc k n h = Some (r, h') /\ same_place h h' /\ represents h' m' /\
    allocated (k * n) (replicate (Z.to_nat (k * n)) 0) m r m'.
Proof.
  intros Hr Hn. unfold rt_calloc. rewrite u32_id by lia.
  destruct (rep_malloc h m (k * n) Hr Hn) as (r & h1 & -> & Hp1 & [[-> ->]|(Hr0 & d & Hd & Hnone & Hr1)]); cbn [mbind option_bind].
  { exists 0, h, m. split; [done|]. split; [done|]. split; [done|]. by left. }
  destruct (Z.eqb_spec r 0); [done|]. set (z := replicate _ 0). assert (Hz : zlen z = k * n) by (unfold z; rewrite zlen_replicate; lia).
  pose proof (buf_write_some d 0 z ltac:(lia) ltac:(lia)) as Hw.
  destruct (rep_write h1 _ r d 0 z _ Hr1 ltac:(by rewrite lookup_insert_eq) Hw) as (h2 & E2 & Hp2 & Hr2). rewrite Z.add_0_r in E2. rewrite E2. cbn [mbind option_bind].
  change (Z.to_nat 0) with 0%nat in *. rewrite take_0 in *. cbn [app plus] in *. rewrite insert_insert_eq in Hr2.
  eexists r, h2, _. split; [done|]. split; [by eapply same_place_trans|]. split; [exact Hr2|]. right. split; [done|]. split; [done|].
  eexists. split; [|split; [|reflexivity]].
  - rewrite zlen_app, zlen_drop. fold (zlen z). lia.
  - apply take_app_length.
Qed.

Lemma heap_started begin_addr end_addr bytes :
  let base := RT_ALIGN begin_addr RT_ALIGN_SIZE in let last := RT_ALIGN_DOWN end_addr RT_ALIGN_SIZE in
  0 < begin_addr <= 2 ^ 32 - 4 -> 0 <= end_addr < 2 ^ 32 -> base + 36 <= last -> zlen bytes = last - base ->
  exists h, rt_system_heap_init begin_addr end_addr bytes = Some (Some h) /\ represents h ∅ /\ heap_ptr h = base /\ heap_end h = last - base - 12.
Proof.
  intros base last Hb He Hsz Hlen. destruct (align_up begin_addr ltac:(lia)) as [HA HA4]. fold base in HA, HA4.
  assert (Hlast : last <= end_addr /\ last `mod` 4 = 0).
  { unfold last, RT_ALIGN_DOWN, RT_ALIGN_SIZE. change (4 - 1) with 3. rewrite align_down by lia. zify_divmod. }
  unfold rt_system_heap_init. fold base. fold last. rewrite sizeof_12. change (2 * 12) with 24.
  destruct (Z.ltb_spec 24 last), (Z.leb_spec base (last - 24)); try lia. cbn [andb]. set (size := last - base - 24).
  destruct (take_split bytes 12 ltac:(lia)) as (j1 & r & -> & H1). rewrite zlen_app in Hlen.
  destruct (take_split r size ltac:(lia)) as (d & j2 & -> & H2). rewrite zlen_app in Hlen.
  set (h0 := Heap _ _ _ _ _ _ _). destruct (header_made h0 [] j1 (d ++ j2) 0 0 (size + 12) 0) as [_ E]; [done|done|done|].
  destruct (set_magic 0 _ _) as [h1|]; [cbn [mbind option_bind] in *|done]. destruct (set_next 0 _ h1) as [h2|]; [cbn [mbind option_bind] in *|done].
  destruct (set_prev 0 _ h2) as [h3|]; [cbn [mbind option_bind] in *|done]. rewrite E. cbn [mbind option_bind app]. clear E h1 h2 h3.
  set (a := hdr 0 (size + 12) 0 ++ d). assert (Ha : zlen a = size + 12) by (unfold a; rewrite zlen_app, header_len; lia).
  destruct (header_made (set_bytes (hdr 0 (size + 12) 0 ++ d ++ j2) h0) a j2 [] (size + 12) 1 (size + 12) (size + 12)) as [E _];
    [unfold a; cbn [heap_bytes set_bytes]; by rewrite app_nil_r, <- app_assoc|done|lia|].
  destruct (set_magic _ _ _) as [h1|]; [cbn [mbind option_bind] in *|done]. destruct (set_used _ _ h1) as [h2|]; [cbn [mbind option_bind] in *|done].
  destruct (set_next _ _ h2) as [h3|]; [cbn [mbind option_bind] in *|done]. rewrite E. cbn [mbind option_bind]. clear E h1 h2 h3.
  eexists. split; [reflexivity|]. split; [|split; [done|cbn; lia]]. exists [Block false d]. split; [|done].
  assert (Hbt : blen (Block false d) = size + 12) by (unfold blen; cbn [data]; lia).
  split; [|done|done]. split; cbn [heap_bytes heap_end mem_size_aligned heap_ptr lfree used_mem max_mem set_bytes h0].
  - exists (size + 12). unfold layout. cbn [blocks_bytes total foldr is_used data Z.b2z]. rewrite Hbt, !Z.add_0_l, Z.add_0_r, !app_nil_r. unfold a. by rewrite <- app_assoc.
  - cbn [total foldr]. rewrite Hbt. lia.
  - lia.
  - constructor; [|done]. split; cbn [data]; [lia|]. rewrite H2. unfold size. zify_divmod.
  - by left.
  - done.
Qed.

(** [C7] The heap is a store of separate blocks.  Started on an area of memory
    it holds none.  Whatever a caller then does within the blocks it was given
    (allocates, zeroed or not, resizes, gives back, reads, writes), every call
    returns, no assertion fails and no byte outside of the heap is touched: an
    allocation yields a null pointer or a new block of at least the size, the
    other blocks keep their places and bytes, a resized block keeps its
    beginning, and what is read is what was written; and all blocks lie inside
    the heap, aligned, at least a header apart. *)
Theorem heap_refines_store begin_addr end_addr bytes :
  let base := RT_ALIGN begin_addr RT_ALIGN_SIZE in let last := RT_ALIGN_DOWN end_addr RT_ALIGN_SIZE in
  0 < begin_addr <= 2 ^ 32 - 4 -> 0 <= end_addr < 2 ^ 32 -> base + 36 <= last -> zlen bytes = last - base ->
  (exists h, rt_system_heap_init begin_addr end_addr bytes = Some (Some h) /\ represents h ∅ /\ heap_ptr h = base /\ heap_end h = last - base - 12) /\
  (forall h m, represents h m -> separate h m /\ forall c, heap_call_ok m c ->
     exists r out h' m', heap_step c h = Some (r, out, h') /\ promised m c r out m' /\ represents h' m' /\ same_place h h').
Proof.
  intros base last Hb He Hsz Hlen. split; [by apply heap_started|]. intros h m Hr. pose proof (rep_separate h m Hr) as Hsep. split; [done|].
  assert (H0 : m !! 0 = None).
  { destruct (m !! 0) as [d|] eqn:E; [|done]. destruct Hr as (bs & [Hs _ _] & _). destruct (shape_place _ _ Hs) as (Hp & _).
    destruct (proj1 Hsep _ _ E) as [H _]. lia. }
  intros [n|k n|a n|a|a off x|a off n] Hok; cbn [heap_step heap_call_ok promised] in *.
  - destruct (rep_malloc h m n Hr Hok) as (r & h' & -> & Hpl & [[-> ->]|(Hr0 & d & Hd & Hn & Hr')]).
    + exists 0, [], h, m. split; [done|]. split; [|done]. split; [done|by left].
    + eexists r, [], h', _. split; [done|]. split; [|done]. split; [done|]. right. split; [done|]. split; [done|]. by exists d.
  - destruct (rep_calloc h m k n Hr Hok) as (r & h' & m' & -> & Hpl & Hr' & Ha). by exists r, [], h', m'.
  - destruct Hok as [Hn [->|[d Hd]]].
    + rewrite H0. unfold rt_realloc. destruct (align_up n Hn) as [HA HA4]. set (A := RT_ALIGN n RT_ALIGN_SIZE) in *.
      assert (Hnull : forall k, k = Some (0, [] : list Z, h) -> exists r out h' m', k = Some (r, out, h') /\ (out = [] /\ allocated n [] m r m') /\ represents h' m' /\ same_place h h').
      { intros k ->. exists 0, [], h, m. split; [done|]. split; [|done]. split; [done|by left]. }
      destruct (mem_size_aligned h <? A); [by apply Hnull|]. destruct (Z.eqb_spec A 0); [by apply Hnull|]. cbn [Z.eqb].
      destruct (rep_malloc h m A Hr) as (r & h' & -> & Hpl & [[-> ->]|(Hr0 & d & Hd & Hnn & Hr')]); [zify_divmod|by apply Hnull|].
      eexists r, [], h', _. split; [done|]. split; [|done]. split; [done|]. right. split; [done|]. split; [done|]. exists d. split; [lia|done].
    + rewrite Hd. destruct (rep_realloc h m a d n Hr Hd Hn) as (r & h' & m' & -> & Hpl & Hr' & Ha). by exists r, [], h', m'.
  - destruct Hok as [->|[d Hd]].
    + exists 0, [], h, m. split; [done|]. split; [|done]. split; [done|]. by rewrite delete_id.
    + destruct (rep_free h m a d Hr Hd) as (h' & -> & Hpl & Hr'). by exists 0, [], h', (delete a m).
  - destruct Hok as (d & Hd & Ho & Hx). pose proof (buf_write_some d off x Ho Hx) as Hw.
    destruct (rep_write h m a d off x _ Hr Hd Hw) as (h' & -> & Hpl & Hr'). eexists 0, [], h', _. split; [done|]. split; [|done]. by exists d, (take (Z.to_nat off) d ++ x ++ drop (Z.to_nat off + length x) d).
  - destruct Hok as (d & Hd & Ho & Hn & Hx). rewrite (rep_read h m a d off n Hr Hd Ho Hn Hx). exists 0, (buf_sub d off n), h, m. split; [done|]. split; [|done]. by exists d.
Qed.

(** 124 bytes from the first aligned address on: a block is allocated in them. *)
Lemma heap_refines_store_witness :
  exists h, rt_system_heap_init 0x20000001 0x20000080 (replicate 124 7) = Some (Some h) /\
    exists r out h' m', heap_step (Malloc 20) h = Some (r, out, h') /\ promised ∅ (Malloc 20) r out m' /\ separate h ∅.
Proof.
  destruct (heap_refines_store 0x20000001 0x20000080 (replicate 124 7)) as [(h & E & Hr & _) Hstep];
    [split; [reflexivity|discriminate]|split; [discriminate|reflexivity]|discriminate|reflexivity|].
  exists h. split; [exact E|]. destruct (Hstep h ∅ Hr) as [Hsep Hc]. destruct (Hc (Malloc 20)) as (r & out & h' & m' & Es & Hp & _); [split; discriminate|].
  exists r, out, h', m'. split; [exact Es|]. split; [exact Hp|exact Hsep].
Defined.


(** Two blocks are taken from a heap of 100 bytes and given back. *)
Definition demo_heap : option heap := h ← rt_system_heap_init 0x20000001 0x20000080 (replicate 124 7); h.

Definition after_use : heap :=
  default (Heap 0 [] 0 0 0 0 0)
    (h ← demo_heap; '(a, h) ← rt_malloc 20 h; '(b, h) ← rt_malloc 12 h; h ← rt_free a h; rt_free b h).


(** The rounding of the size wraps: the largest request gets the smallest block. *)
Example huge_request : (h ← demo_heap; '(a, h) ← rt_malloc (2 ^ 32 - 1) h; Some (a, used_mem h)) = Some (0x20000010, 24).
Proof. reflexivity. Qed.

(** So does the product of [rt_calloc]: 4 GiB and 20 bytes are 20 bytes. *)
Example calloc_wraps : (h ← demo_heap; '(a, h) ← rt_calloc (2 ^ 30 + 5) 4 h; Some (a, used_mem h)) = Some (0x20000010, 32).
Proof. reflexivity. Qed.

(** A block that ends where the heap ends is never the last choice: the whole
    heap is free, and a request for all of it is refused. *)
Example last_place_refused : (h ← demo_heap; '(a, h) ← rt_malloc 100 h; Some (mem_size_aligned h, a)) = Some (100, 0).
Proof. reflexivity. Qed.

(** What a block is cut off by [rt_realloc] is not found again: the free
    pointer stays behind it, and 44 free bytes are no room for 12. *)
Example cut_off_forgotten :
  (h ← demo_heap; '(a, h) ← rt_malloc 60 h; '(b, h) ← rt_malloc 16 h; '(a', h) ← rt_realloc a 4 h; '(c, h) ← rt_malloc 12 h;
   Some (bool_decide (a' = a), bool_decide (b = 0), c, lfree h, next h 16)) = Some (true, false, 0, 112, Some 72).
Proof. reflexivity. Qed.

(** With less than 12 bytes the search runs in circles at the end. *)
Example tiny_heap_hangs : (h ← (h ← rt_system_heap_init 0x20000000 0x20000020 (replicate 32 7); h); find_fit 1000 h 12 (lfree h)) = None.
Proof. reflexivity. Qed.
