(* ===== verification/Telnet.v ===== *)
(** * The telnet server

    Models src/packages/netutils-v1.1.0/telnet/telnet.c: the parser of what the
    client sends, the two ring buffers between the connection and the shell,
    the device functions the shell reads and writes with, and the thread that
    hands the console to a client and takes it back.  The theorems show what
    of a client's bytes reaches the shell and what is answered, and that the
    whole server behaves like a terminal with a bounded keyboard queue. *)

From Stdlib Require Import String.
From stdpp Require Import strings.
From S2P Require Import Prelude RingBuffer.

Local Open Scope Z_scope.

Definition RX_BUFFER_SIZE : Z := 256.
Definition TX_BUFFER_SIZE : Z := 4096.

Inductive telnet_state :=
  | STATE_NORMAL | STATE_IAC | STATE_WILL | STATE_WONT | STATE_DO | STATE_DONT | STATE_CLOSE.

Definition TELNET_IAC : Z := 255.
Definition TELNET_WILL : Z := 251.
Definition TELNET_WONT : Z := 252.
Definition TELNET_DO : Z := 253.
Definition TELNET_DONT : Z := 254.

(** [struct telnet_session]; [read_notice] is the value of the semaphore. *)
Record telnet_session := TelnetSession {
  rx_ringbuffer : rt_ringbuffer;
  tx_ringbuffer : rt_ringbuffer;
  client_fd : Z;
  state : telnet_state;
  echo_mode : Z;
  read_notice : Z
}.

Definition set_rx (rb : rt_ringbuffer) (t : telnet_session) : telnet_session :=
  TelnetSession rb (tx_ringbuffer t) (client_fd t) (state t) (echo_mode t) (read_notice t).
Definition set_tx (rb : rt_ringbuffer) (t : telnet_session) : telnet_session :=
  TelnetSession (rx_ringbuffer t) rb (client_fd t) (state t) (echo_mode t) (read_notice t).
Definition set_state (st : telnet_state) (t : telnet_session) : telnet_session :=
  TelnetSession (rx_ringbuffer t) (tx_ringbuffer t) (client_fd t) st (echo_mode t) (read_notice t).
Definition set_client (fd echo : Z) (t : telnet_session) : telnet_session :=
  TelnetSession (rx_ringbuffer t) (tx_ringbuffer t) fd (state t) echo (read_notice t).
Definition set_notice (n : Z) (t : telnet_session) : telnet_session :=
  TelnetSession (rx_ringbuffer t) (tx_ringbuffer t) (client_fd t) (state t) (echo_mode t) n.

(** [rt_sem_release] when no thread waits; the value has 16 bits. *)
Definition release_notice (t : telnet_session) : telnet_session := set_notice (u16 (read_notice t + 1)) t.

(** A [send] call: the socket and the bytes. *)
Definition sends := list (Z * list Z).

Fixpoint send_to_client_loop (fuel : nat) (t : telnet_session) : telnet_session * sends :=
  match fuel with
  | O => (t, [])
  | S fuel =>
      let '(tx_buffer, tx) := rt_ringbuffer_get (tx_ringbuffer t) 32 in
      let t := set_tx tx t in
      if 0 <? zlen tx_buffer then
        let '(t', out) := send_to_client_loop fuel t in (t', (client_fd t, tx_buffer) :: out)
      else (t, [])
  end.

(** [send_to_client]; every turn takes a byte, so the bytes bound the turns. *)
Definition send_to_client (t : telnet_session) : telnet_session * sends :=
  send_to_client_loop (S (Z.to_nat (rt_ringbuffer_data_len (tx_ringbuffer t)))) t.

Definition send_option_to_client (t : telnet_session) (opt value : Z) : option (telnet_session * sends) :=
  '(_, tx) ← rt_ringbuffer_put (tx_ringbuffer t) [TELNET_IAC; opt; value; 0] 3;
  Some (send_to_client (set_tx tx t)).

Definition rx_putchar (t : telnet_session) (c : Z) : option telnet_session :=
  '(_, rx) ← rt_ringbuffer_putchar (rx_ringbuffer t) c; Some (set_rx rx t).

(** One turn of the loop of [process_rx]. *)
Definition process_byte (t : telnet_session) (data : Z) : option (telnet_session * sends) :=
  match state t with
  | STATE_IAC =>
      if data =? TELNET_IAC then
        t ← rx_putchar t data; Some (set_state STATE_NORMAL t, [])
      else
        Some (set_state
          (if data =? TELNET_WILL then STATE_WILL
           else if data =? TELNET_WONT then STATE_WONT
           else if data =? TELNET_DO then STATE_DO
           else if data =? TELNET_DONT then STATE_DONT
           else STATE_NORMAL) t, [])
  | STATE_WILL | STATE_WONT =>
      '(t, out) ← send_option_to_client t TELNET_DONT data; Some (set_state STATE_NORMAL t, out)
  | STATE_DO | STATE_DONT =>
      '(t, out) ← send_option_to_client t TELNET_WONT data; Some (set_state STATE_NORMAL t, out)
  | STATE_NORMAL =>
      if data =? TELNET_IAC then Some (set_state STATE_IAC t, [])
      else if negb (data =? 13) then t ← rx_putchar t data; Some (release_notice t, [])
      else Some (t, [])
  | STATE_CLOSE => Some (t, [])
  end.

Fixpoint process_rx (t : telnet_session) (data : list Z) : option (telnet_session * sends) :=
  match data with
  | [] => Some (t, [])
  | c :: data => '(t, out) ← process_byte t c; '(t, out') ← process_rx t data; Some (t, out ++ out')
  end.

(** [telnet_read]: the inner [None] is the semaphore that is not released. *)
Definition telnet_read (t : telnet_session) (size : Z) : option (list Z * telnet_session) :=
  if read_notice t =? 0 then None
  else
    let t := set_notice (read_notice t - 1) t in
    let '(buffer, rx) := rt_ringbuffer_get (rx_ringbuffer t) size in
    let t := set_rx rx t in
    Some (if zlen buffer =? 0 then [0] else buffer, t).

(** The loop of [telnet_write]: the bytes that are left when it stops. *)
Fixpoint telnet_write_loop (tx : rt_ringbuffer) (ptr : list Z) : option (rt_ringbuffer * list Z) :=
  match ptr with
  | [] => Some (tx, [])
  | c :: rest =>
      tx ← (if c =? 10 then '(_, tx) ← rt_ringbuffer_putchar tx 13; Some tx else Some tx);
      '(n, tx) ← rt_ringbuffer_putchar tx c;
      if n =? 0 then Some (tx, ptr) else telnet_write_loop tx rest
  end.

Definition telnet_write (t : telnet_session) (buffer : list Z) : option (Z * telnet_session * sends) :=
  '(tx, rest) ← telnet_write_loop (tx_ringbuffer t) buffer;
  let '(t, out) := send_to_client (set_tx tx t) in
  Some (zlen buffer - zlen rest, t, out).

(** ** The server *)

(** The session, whether a client is connected (where the thread is), the
    device [rt_kprintf] writes to and the shell's echo mode. *)
Record server := Server {
  session : telnet_session;
  connected : bool;
  console : string;
  shell_echo : Z
}.

Definition RT_CONSOLE_DEVICE_NAME : string := "uart0".

Definition set_session (t : telnet_session) (s : server) : server := Server t (connected s) (console s) (shell_echo s).

(** The writes of the banner, one after the other. *)
Fixpoint write_all (t : telnet_session) (l : list (list Z)) : option (telnet_session * sends) :=
  match l with
  | [] => Some (t, [])
  | d :: l => '(_, t, out) ← telnet_write t d; '(t, out') ← write_all t l; Some (t, out ++ out')
  end.

Definition client_close (s : server) : server :=
  Server (release_notice (session s)) false RT_CONSOLE_DEVICE_NAME (echo_mode (session s)).

(** What happens to the server: a client is accepted, bytes of it arrive, it is
    gone, the shell reads and writes.  [telnet_thread_accept] gets the writes of the
    version and the prompt. *)
Inductive event :=
  | Accepted (fd : Z) (banner : list (list Z))
  | Received (recv_buf : list Z)
  | Closed
  | ShellReads (size : Z)
  | ShellWrites (buffer : list Z).

(** The inner loop's turn and the outer loop's one in [telnet_thread], and the
    two device functions: what the shell gets and what is sent.  [None]: the
    event cannot happen in this state. *)
Definition telnet_thread_accept (s : server) (fd : Z) (banner : list (list Z)) : option (server * sends) :=
  if connected s then None
  else
    let t := set_client fd (shell_echo s) (set_state STATE_NORMAL (session s)) in
    '(t, out) ← write_all t banner;
    let '(t, out') := send_to_client t in
    Some (Server t true "telnet" 0, out ++ out').

Definition telnet_thread_recv (s : server) (recv_buf : list Z) : option (server * sends) :=
  if connected s then
    '(t, out) ← process_rx (session s) recv_buf;
    let '(t, out') := send_to_client t in
    Some (set_session t s, out ++ out')
  else None.

Definition server_step (s : server) (e : event) : option (list Z * sends * server) :=
  match e with
  | Accepted fd banner => '(s, out) ← telnet_thread_accept s fd banner; Some ([], out, s)
  | Received recv_buf => '(s, out) ← telnet_thread_recv s recv_buf; Some ([], out, s)
  | Closed => if connected s then Some ([], [], client_close s) else None
  | ShellReads size => '(d, t) ← telnet_read (session s) size; Some (d, [], set_session t s)
  | ShellWrites buffer => '(_, t, out) ← telnet_write (session s) buffer; Some ([], out, set_session t s)
  end.

Fixpoint server_run (s : server) (es : list event) : option (list Z * sends * server) :=
  match es with
  | [] => Some ([], [], s)
  | e :: es =>
      '(d, out, s) ← server_step s e; '(d', out', s) ← server_run s es; Some (d ++ d', out ++ out', s)
  end.

(** [telnet_server]: [telnet] is the session of an earlier call, the rings
    [None] in it when an allocation failed; [true] if the thread is started. *)
Record telnet_server_result := { telnet : option (option rt_ringbuffer * option rt_ringbuffer); thread_started : bool }.

Definition telnet_server (r : telnet_server_result) (alloc : nat -> option (list Z)) (thread : bool) : telnet_server_result :=
  match telnet r with
  | Some _ => r
  | None =>
      match alloc 0%nat with
      | None => {| telnet := None; thread_started := false |}
      | Some _ =>
          match alloc 1%nat with
          | None => {| telnet := Some (None, None); thread_started := false |}
          | Some rx =>
              let rx := rt_ringbuffer_init rx RX_BUFFER_SIZE in
              match alloc 2%nat with
              | None => {| telnet := Some (rx, None); thread_started := false |}
              | Some tx => {| telnet := Some (rx, rt_ringbuffer_init tx TX_BUFFER_SIZE); thread_started := thread |}
              end
          end
      end
  end.

(** ** What a client types *)

(** What a client sends: a byte for the shell, a carriage return, an escaped
    255, an option command with its option, another command. *)
Inductive item :=
  | Key (c : Z)
  | Return
  | Escaped
  | Option (verb opt : Z)
  | Command (c : Z).

Definition item_ok (i : item) : Prop :=
  match i with
  | Key c => c <> 255 /\ c <> 13
  | Option verb _ => 251 <= verb <= 254
  | Command c => ~ 251 <= c <= 255
  | _ => True
  end.

Definition item_bytes (i : item) : list Z :=
  match i with
  | Key c => [c]
  | Return => [13]
  | Escaped => [255; 255]
  | Option verb opt => [255; verb; opt]
  | Command c => [255; c]
  end.

Definition item_typed (i : item) : list Z :=
  match i with Key c => [c] | Escaped => [255] | _ => [] end.

(** The option is refused: a WILL and a WONT with DONT, a DO and a DONT with WONT. *)
Definition item_reply (i : item) : list Z :=
  match i with Option verb opt => [255; if verb <=? 252 then 254 else 252; opt] | _ => [] end.

(** The bytes the reader is notified of. *)
Definition item_keys (i : item) : list Z := match i with Key c => [c] | _ => [] end.

(** The bytes on each socket, whatever the calls they are sent with. *)
Definition on_wire (out : sends) : list (Z * Z) := concat (map (fun '(fd, d) => map (pair fd) d) out).

(** ** The session holds a keyboard queue *)

(** A session between two operations: what waits in the keyboard's ring, and
    nothing waits to be sent. *)
Record session_holds (pending : list Z) (t : telnet_session) : Prop := {
  holds_rx : ring RX_BUFFER_SIZE (rx_ringbuffer t) pending;
  holds_tx : ring TX_BUFFER_SIZE (tx_ringbuffer t) [];
  holds_notice : 0 <= read_notice t < 2 ^ 16
}.

Lemma on_wire_app a b : on_wire (a ++ b) = on_wire a ++ on_wire b.
Proof. unfold on_wire. by rewrite map_app, concat_app. Qed.

(** Everything is sent, in order. *)
Lemma drained fuel : forall t S q, ring S (tx_ringbuffer t) q -> (length q < fuel)%nat ->
  exists tx out, send_to_client_loop fuel t = (set_tx tx t, out) /\ ring S tx [] /\ on_wire out = map (pair (client_fd t)) q.
Proof.
  induction fuel as [|fuel IH]; [lia|]. intros t S q Hr Hl. cbn [send_to_client_loop].
  destruct (got _ _ _ 32 Hr ltac:(lia)) as (tx & -> & Hr1). change (Z.to_nat 32) with 32%nat in *.
  destruct (Z.ltb_spec 0 (zlen (take 32 q))) as [Hp|Hp].
  - destruct (IH (set_tx tx t) S (drop 32 q) Hr1) as (tx' & out & -> & Hr' & Ho).
    { destruct q; [done|]. rewrite length_drop. cbn in *. lia. }
    exists tx', ((client_fd t, take 32 q) :: out). split; [done|]. split; [done|].
    change (on_wire ((client_fd t, take 32 q) :: out)) with (map (pair (client_fd t)) (take 32 q) ++ on_wire out).
    rewrite Ho, <- map_app. cbn [client_fd set_tx]. by rewrite take_drop.
  - destruct q; [|unfold zlen in Hp; cbn in Hp; lia]. exists tx, []. done.
Qed.

Lemma sent_all t S q : ring S (tx_ringbuffer t) q ->
  exists tx out, send_to_client t = (set_tx tx t, out) /\ ring S tx [] /\ on_wire out = map (pair (client_fd t)) q.
Proof.
  intros Hr. unfold send_to_client. apply (drained _ t S q Hr). rewrite (data_len _ _ _ Hr). unfold zlen. lia.
Qed.

(** With nothing to send, nothing is sent. *)
Lemma nothing_sent t S : ring S (tx_ringbuffer t) [] -> send_to_client t = (set_tx (tx_ringbuffer t) t, []).
Proof.
  intros Hr. unfold send_to_client. rewrite (data_len _ _ _ Hr). cbn [zlen length Z.of_nat Z.to_nat send_to_client_loop].
  unfold rt_ringbuffer_get. rewrite (data_len _ _ _ Hr). done.
Qed.

Ltac holds_session := match goal with |- session_holds _ ?t => split; cbn; [|try assumption|] end.

Lemma key_in pending t c : session_holds pending t ->
  exists rx, rx_putchar t c = Some (set_rx rx t) /\
    ring RX_BUFFER_SIZE rx (if zlen pending <? RX_BUFFER_SIZE then pending ++ [c] else pending).
Proof.
  intros [Hrx _ _]. destruct (char_in _ _ _ c Hrx) as (rx & E & Hr). exists rx. split; [|done].
  unfold rx_putchar. by rewrite E.
Qed.

(** The queue with a key, if there is room for it. *)
Definition typed_in (pending keys : list Z) : list Z := take (Z.to_nat RX_BUFFER_SIZE) (pending ++ keys).

Lemma typed_one pending t c : session_holds pending t ->
  (if zlen pending <? RX_BUFFER_SIZE then pending ++ [c] else pending) = typed_in pending [c].
Proof.
  intros [Hrx _ _]. pose proof (ring_room _ _ _ Hrx). unfold typed_in, zlen in *.
  destruct (Z.ltb_spec (Z.of_nat (length pending)) RX_BUFFER_SIZE).
  - rewrite take_ge; [done|]. rewrite length_app. cbn. lia.
  - by rewrite take_app_length' by lia.
Qed.

Lemma typed_more pending a b : typed_in (typed_in pending a) b = typed_in pending (a ++ b).
Proof.
  unfold typed_in. destruct (Nat.le_gt_cases (Z.to_nat RX_BUFFER_SIZE) (length (pending ++ a))) as [Hle|Hgt].
  - rewrite (take_app_le (take (Z.to_nat RX_BUFFER_SIZE) (pending ++ a)) b) by (rewrite length_take; lia). rewrite take_take, Nat.min_id.
    by rewrite (app_assoc pending), (take_app_le (pending ++ a) b) by lia.
  - rewrite (take_ge (pending ++ a)) by lia. by rewrite app_assoc.
Qed.

Lemma typed_none pending t : session_holds pending t -> typed_in pending [] = pending.
Proof.
  intros [Hrx _ _]. pose proof (ring_room _ _ _ Hrx). unfold typed_in. rewrite app_nil_r, take_ge; [done|]. unfold zlen in *. lia.
Qed.

(** A reply leaves at once. *)
Lemma option_replied pending t verb value : session_holds pending t ->
  exists tx out, send_option_to_client t verb value = Some (set_tx tx t, out) /\ ring TX_BUFFER_SIZE tx [] /\
    on_wire out = map (pair (client_fd t)) [255; verb; value].
Proof.
  intros [_ Htx _]. unfold send_option_to_client.
  destruct (put_in _ _ _ [TELNET_IAC; verb; value; 0] 3 Htx) as (tx & E & Hr); [lia|done|].
  rewrite E. cbn [mbind option_bind]. destruct (sent_all (set_tx tx t) _ _ Hr) as (tx' & out & E2 & Hr' & Ho).
  exists tx', out. rewrite E2. done.
Qed.

(** ** A terminal *)

(** What one byte does in a state of the parser: the next state, the byte for
    the keyboard, whether the reader is notified, the reply. *)
Record meaning := Meaning { next : telnet_state; typed : list Z; notices : Z; reply : list Z }.

Definition mean (st : telnet_state) (c : Z) : meaning :=
  match st with
  | STATE_NORMAL =>
      if c =? 255 then Meaning STATE_IAC [] 0 []
      else if c =? 13 then Meaning STATE_NORMAL [] 0 [] else Meaning STATE_NORMAL [c] 1 []
  | STATE_IAC =>
      if c =? 255 then Meaning STATE_NORMAL [255] 0 []
      else Meaning (if c =? 251 then STATE_WILL else if c =? 252 then STATE_WONT else if c =? 253 then STATE_DO
                    else if c =? 254 then STATE_DONT else STATE_NORMAL) [] 0 []
  | STATE_WILL | STATE_WONT => Meaning STATE_NORMAL [] 0 [255; 254; c]
  | STATE_DO | STATE_DONT => Meaning STATE_NORMAL [] 0 [255; 252; c]
  | STATE_CLOSE => Meaning STATE_CLOSE [] 0 []
  end.

Fixpoint means (st : telnet_state) (data : list Z) : meaning :=
  match data with
  | [] => Meaning st [] 0 []
  | c :: data =>
      let m := mean st c in let m' := means (next m) data in
      Meaning (next m') (typed m ++ typed m') (notices m + notices m') (reply m ++ reply m')
  end.

Lemma means_app st a b :
  means st (a ++ b) =
    let m := means st a in let m' := means (next m) b in
    Meaning (next m') (typed m ++ typed m') (notices m + notices m') (reply m ++ reply m').
Proof.
  revert st. induction a as [|c a IH]; intros st; cbn [means app next typed notices reply].
  - by destruct (means st b).
  - rewrite IH. cbn. by rewrite <- !app_assoc, Z.add_assoc.
Qed.

Lemma means_notices st data : 0 <= notices (means st data) <= zlen data.
Proof.
  revert st. induction data as [|c data IH]; intros st; cbn [means notices]; [done|].
  specialize (IH (next (mean st c))). rewrite zlen_cons. enough (0 <= notices (mean st c) <= 1) by lia.
  unfold mean. destruct st; cbn; repeat case_match; cbn; lia.
Qed.

(** What the rest of the session is after an operation. *)
Definition same_client (t t' : telnet_session) : Prop := client_fd t' = client_fd t /\ echo_mode t' = echo_mode t.

Lemma byte_in pending t c : session_holds pending t ->
  let m := mean (state t) c in
  exists t' out, process_byte t c = Some (t', out) /\ session_holds (typed_in pending (typed m)) t' /\ same_client t t' /\
    state t' = next m /\ read_notice t' = u16 (read_notice t + notices m) /\ on_wire out = map (pair (client_fd t)) (reply m).
Proof.
  intros H m. pose proof (typed_none _ _ H) as Hnone. pose proof H as [Hrx Htx Hn].
  assert (Hsame : u16 (read_notice t + 0) = read_notice t) by (rewrite Z.add_0_r; by apply u16_id).
  destruct (key_in _ _ c H) as (rx & Ek & Hk). rewrite (typed_one _ _ c H) in Hk.
  assert (Hreply : forall verb, exists t' out, ('(t, out) ← send_option_to_client t verb c; Some (set_state STATE_NORMAL t, out)) = Some (t', out) /\
    session_holds (typed_in pending []) t' /\ same_client t t' /\ state t' = STATE_NORMAL /\
    read_notice t' = u16 (read_notice t + 0) /\ on_wire out = map (pair (client_fd t)) [255; verb; c]).
  { intros verb. destruct (option_replied _ _ verb c H) as (tx & out & -> & Hr & Ho). eexists _, _. split; [reflexivity|].
    split; [by rewrite Hnone|]. done. }
  unfold process_byte. subst m. unfold mean. destruct (state t) eqn:Est.
  - change TELNET_IAC with 255. destruct (Z.eqb_spec c 255); cbn [typed next notices reply].
    { eexists _, _. split; [reflexivity|]. rewrite Hnone. done. }
    destruct (Z.eqb_spec c 13); cbn [negb typed next notices reply].
    { eexists _, _. split; [reflexivity|]. rewrite Hnone. by split. }
    rewrite Ek. cbn [mbind option_bind]. eexists _, _. split; [reflexivity|].
    split; [split; cbn; [done|done|apply u16_range]|]. done.
  - change TELNET_IAC with 255. destruct (Z.eqb_spec c 255) as [->|]; cbn [typed next notices reply].
    { rewrite Ek. cbn [mbind option_bind]. eexists _, _. split; [reflexivity|]. done. }
    eexists _, _. split; [reflexivity|]. rewrite Hnone. done.
  - apply Hreply.
  - apply Hreply.
  - apply Hreply.
  - apply Hreply.
  - cbn [typed next notices reply]. eexists _, _. split; [reflexivity|]. rewrite Hnone. done.
Qed.

Lemma u16_twice n a b : u16 (u16 (n + a) + b) = u16 (n + (a + b)).
Proof. unfold u16. by rewrite Zplus_mod_idemp_l, Z.add_assoc. Qed.

Lemma bytes_in data : forall pending t, session_holds pending t ->
  let m := means (state t) data in
  exists t' out, process_rx t data = Some (t', out) /\ session_holds (typed_in pending (typed m)) t' /\ same_client t t' /\
    state t' = next m /\ read_notice t' = u16 (read_notice t + notices m) /\ on_wire out = map (pair (client_fd t)) (reply m).
Proof.
  induction data as [|c data IH]; intros pending t H; cbn [process_rx means].
  - cbn [typed next notices reply]. exists t, []. rewrite (typed_none _ _ H), Z.add_0_r, u16_id by apply H. done.
  - destruct (byte_in _ _ c H) as (t1 & out1 & -> & H1 & [Hc1 He1] & Hs1 & Hn1 & Ho1). cbn [mbind option_bind].
    destruct (IH _ _ H1) as (t2 & out2 & -> & H2 & [Hc2 He2] & Hs2 & Hn2 & Ho2). cbn [mbind option_bind].
    rewrite Hs1 in *. eexists _, _. split; [reflexivity|]. cbn [typed next notices reply].
    rewrite <- typed_more, on_wire_app, Ho1, Ho2, map_app, Hc1, Hn2, Hn1, u16_twice. unfold same_client.
    by rewrite Hc2, He2.
Qed.

Lemma idle_sends pending t : session_holds pending t -> send_to_client t = (t, []).
Proof. intros [_ Htx _]. rewrite (nothing_sent _ _ Htx). by destruct t. Qed.

(** The items, one after the other, leave the parser where it was. *)
Lemma items_mean items : Forall item_ok items ->
  means STATE_NORMAL (concat (map item_bytes items)) =
    Meaning STATE_NORMAL (concat (map item_typed items)) (zlen (concat (map item_keys items))) (concat (map item_reply items)).
Proof.
  induction 1 as [|i items Hi _ IH]; [done|]. cbn [map concat]. rewrite means_app.
  assert (Em : means STATE_NORMAL (item_bytes i) = Meaning STATE_NORMAL (item_typed i) (zlen (item_keys i)) (item_reply i)).
  { destruct i as [c| | |verb opt|c]; try done; cbn [item_ok item_bytes item_typed item_keys item_reply means mean] in *.
    - destruct (Z.eqb_spec c 255), (Z.eqb_spec c 13); [lia|lia|lia|done].
    - change (255 =? 255) with true. cbn [next typed notices reply]. unfold mean.
      assert (verb = 251 \/ verb = 252 \/ verb = 253 \/ verb = 254) as [-> | [-> | [-> | ->]]] by lia; done.
    - change (255 =? 255) with true. cbn [next typed notices reply]. unfold mean.
      destruct (Z.eqb_spec c 255), (Z.eqb_spec c 251), (Z.eqb_spec c 252), (Z.eqb_spec c 253), (Z.eqb_spec c 254); try lia; done. }
  rewrite Em. cbn [typed next notices reply]. by rewrite IH, zlen_app.
Qed.

Lemma received data s pending : connected s = true -> session_holds pending (session s) ->
  let m := means (state (session s)) data in
  exists out s', telnet_thread_recv s data = Some (s', out) /\ session_holds (typed_in pending (typed m)) (session s') /\
    s' = set_session (session s') s /\ same_client (session s) (session s') /\ state (session s') = next m /\
    read_notice (session s') = u16 (read_notice (session s) + notices m) /\
    on_wire out = map (pair (client_fd (session s))) (reply m).
Proof.
  intros Hc H m. unfold telnet_thread_recv. rewrite Hc. destruct (bytes_in data _ _ H) as (t' & out & -> & H' & Hrest).
  cbn [mbind option_bind]. rewrite (idle_sends _ _ H'), app_nil_r. eexists _, _. split; [reflexivity|]. done.
Qed.

Lemma chunks_in chunks : forall s pending, connected s = true -> session_holds pending (session s) ->
  let m := means (state (session s)) (concat chunks) in
  exists out s', server_run s (map Received chunks) = Some ([], out, s') /\
    session_holds (typed_in pending (typed m)) (session s') /\ state (session s') = next m /\
    read_notice (session s') = u16 (read_notice (session s) + notices m) /\
    on_wire out = map (pair (client_fd (session s))) (reply m) /\ client_fd (session s') = client_fd (session s).
Proof.
  induction chunks as [|data chunks IH]; intros s pending Hc H; cbn [concat map server_run server_step].
  - cbn [means typed next notices reply]. exists [], s. rewrite (typed_none _ _ H), Z.add_0_r, u16_id by apply H. done.
  - rewrite means_app. cbn [typed next notices reply].
    destruct (received data s pending Hc H) as (out & s1 & -> & H1 & Es & [Ef _] & Est & En & Eo). cbn [mbind option_bind].
    destruct (IH s1 _ ltac:(by rewrite Es) H1) as (out' & s2 & -> & H2 & Est2 & En2 & Eo2 & Ef2). cbn [mbind option_bind].
    rewrite Est in *. eexists _, s2. split; [reflexivity|].
    by rewrite <- typed_more, on_wire_app, Eo, Eo2, Ef2, Ef, map_app, En2, En, u16_twice.
Qed.

(** ** What the shell writes *)

(** Text as it goes out to a client into [room] bytes, and the bytes that are
    not taken: a newline has a carriage return before it. *)
Definition newline (c : Z) : list Z := if c =? 10 then [13; 10] else [c].

Fixpoint typeset (room : Z) (text : list Z) : list Z * list Z :=
  match text with
  | [] => ([], [])
  | c :: rest =>
      if zlen (newline c) <=? room then
        let '(out, left_over) := typeset (room - zlen (newline c)) rest in (newline c ++ out, left_over)
      else (take (Z.to_nat room) (newline c), text)
  end.

Lemma typeset_fits text : forall room, zlen (concat (map newline text)) <= room ->
  typeset room text = (concat (map newline text), []).
Proof.
  induction text as [|c text IH]; intros room Hl; [done|]. cbn [map concat typeset] in *. rewrite zlen_app in Hl.
  pose proof (zlen_nonneg (concat (map newline text))). destruct (Z.leb_spec (zlen (newline c)) room); [|lia].
  by rewrite IH by lia.
Qed.

Lemma written text : forall tx q, ring TX_BUFFER_SIZE tx q ->
  let '(out, left_over) := typeset (TX_BUFFER_SIZE - zlen q) text in
  exists tx', telnet_write_loop tx text = Some (tx', left_over) /\ ring TX_BUFFER_SIZE tx' (q ++ out).
Proof.
  induction text as [|c text IH]; intros tx q Hr; cbn [typeset telnet_write_loop].
  { exists tx. by rewrite app_nil_r. }
  pose proof (ring_room _ _ _ Hr) as Hroom. unfold newline. destruct (Z.eqb_spec c 10) as [->|Hc].
  - destruct (char_in _ _ _ 13 Hr) as (tx1 & -> & Hr1). cbn [mbind option_bind].
    destruct (char_in _ _ _ 10 Hr1) as (tx2 & -> & Hr2). cbn [mbind option_bind]. change (zlen [13; 10]) with 2.
    destruct (Z.leb_spec 2 (TX_BUFFER_SIZE - zlen q)).
    + destruct (Z.ltb_spec (zlen q) TX_BUFFER_SIZE); [|lia]. rewrite zlen_app in Hr2 |- *. change (zlen [13]) with 1 in *.
      destruct (Z.ltb_spec (zlen q + 1) TX_BUFFER_SIZE); [|lia]. rewrite <- app_assoc in Hr2. change (1 =? 0) with false. cbn match.
      specialize (IH _ _ Hr2). rewrite zlen_app in IH. change (zlen ([13] ++ [10])) with 2 in IH.
      replace (TX_BUFFER_SIZE - zlen q - 2) with (TX_BUFFER_SIZE - (zlen q + 2)) by lia.
      destruct (typeset _ text) as [out left_over]. destruct IH as (tx' & -> & Hr'). exists tx'. split; [done|].
      by rewrite <- app_assoc in Hr'.
    + assert (Hz : (if zlen (if zlen q <? TX_BUFFER_SIZE then q ++ [13] else q) <? TX_BUFFER_SIZE then 1 else 0) = 0 /\
        (if zlen (if zlen q <? TX_BUFFER_SIZE then q ++ [13] else q) <? TX_BUFFER_SIZE
         then (if zlen q <? TX_BUFFER_SIZE then q ++ [13] else q) ++ [10]
         else if zlen q <? TX_BUFFER_SIZE then q ++ [13] else q) = q ++ take (Z.to_nat (TX_BUFFER_SIZE - zlen q)) [13; 10]).
      { destruct (Z.ltb_spec (zlen q) TX_BUFFER_SIZE).
        - rewrite zlen_app. change (zlen [13]) with 1. destruct (Z.ltb_spec (zlen q + 1) TX_BUFFER_SIZE); [lia|].
          replace (TX_BUFFER_SIZE - zlen q) with 1 by lia. done.
        - destruct (Z.ltb_spec (zlen q) TX_BUFFER_SIZE); [lia|]. replace (TX_BUFFER_SIZE - zlen q) with 0 by lia. by rewrite app_nil_r. }
      destruct Hz as [-> Hq]. rewrite Hq in Hr2. by exists tx2.
  - cbn [mbind option_bind]. change (zlen [c]) with 1. destruct (char_in _ _ _ c Hr) as (tx1 & -> & Hr1). cbn [mbind option_bind].
    destruct (Z.ltb_spec (zlen q) TX_BUFFER_SIZE), (Z.leb_spec 1 (TX_BUFFER_SIZE - zlen q)); try lia.
    + change (1 =? 0) with false. cbn match. specialize (IH _ _ Hr1). rewrite zlen_app in IH. change (zlen [c]) with 1 in IH.
      replace (TX_BUFFER_SIZE - zlen q - 1) with (TX_BUFFER_SIZE - (zlen q + 1)) by lia.
      destruct (typeset _ text) as [out left_over]. destruct IH as (tx' & -> & Hr'). exists tx'. split; [done|].
      by rewrite <- app_assoc in Hr'.
    + change (0 =? 0) with true. cbn match. exists tx1. split; [done|].
      replace (TX_BUFFER_SIZE - zlen q) with 0 by lia. by rewrite app_nil_r.
Qed.

Lemma wrote pending t text : session_holds pending t ->
  let '(shown, left_over) := typeset TX_BUFFER_SIZE text in
  exists tx out, telnet_write t text = Some (zlen text - zlen left_over, set_tx tx t, out) /\ ring TX_BUFFER_SIZE tx [] /\
    on_wire out = map (pair (client_fd t)) shown.
Proof.
  intros [_ Htx _]. pose proof (written text _ _ Htx) as Hw. change (TX_BUFFER_SIZE - zlen []) with TX_BUFFER_SIZE in Hw.
  unfold telnet_write. destruct (typeset TX_BUFFER_SIZE text) as [shown left_over]. destruct Hw as (tx & -> & Hr). cbn [mbind option_bind app] in *.
  destruct (sent_all (set_tx tx t) _ _ Hr) as (tx' & out & -> & Hr' & Ho). by exists tx', out.
Qed.

(** ** The server is a terminal *)

(** What waits at the keyboard, the parser, the notices, the socket, the saved
    echo mode, whether a client has the console, which device it is, the echo. *)
Record terminal := Terminal {
  pending : list Z;
  parser : telnet_state;
  notified : Z;
  socket : Z;
  saved_echo : Z;
  online : bool;
  screen : string;
  echo : Z
}.

(** The text of one write that a client sees. *)
Definition shown (text : list Z) : list Z := (typeset TX_BUFFER_SIZE text).1.

Definition terminal_step (s : terminal) (e : event) : option (list Z * list (Z * Z) * terminal) :=
  match e, s with
  | Accepted fd banner, Terminal p _ n _ _ false _ ec =>
      Some ([], map (pair fd) (concat (map shown banner)), Terminal p STATE_NORMAL n fd ec true "telnet" 0)
  | Received data, Terminal p st n fd se true sc ec =>
      let m := means st data in
      Some ([], map (pair fd) (reply m), Terminal (typed_in p (typed m)) (next m) (u16 (n + notices m)) fd se true sc ec)
  | Closed, Terminal p st n fd se true _ _ => Some ([], [], Terminal p st (u16 (n + 1)) fd se false RT_CONSOLE_DEVICE_NAME se)
  | ShellReads size, Terminal p st n fd se on sc ec =>
      if n =? 0 then None
      else
        let d := take (Z.to_nat (u16 size)) p in
        Some (if zlen d =? 0 then [0] else d, [], Terminal (drop (Z.to_nat (u16 size)) p) st (n - 1) fd se on sc ec)
  | ShellWrites text, Terminal _ _ _ fd _ _ _ _ => Some ([], map (pair fd) (shown text), s)
  | _, _ => None
  end.

Fixpoint terminal_run (s : terminal) (es : list event) : option (list Z * list (Z * Z) * terminal) :=
  match es with
  | [] => Some ([], [], s)
  | e :: es => '(d, out, s) ← terminal_step s e; '(d', out', s) ← terminal_run s es; Some (d ++ d', out ++ out', s)
  end.

(** What of a server is a terminal: everything but the rings. *)
Definition looks_like (p : list Z) (s : server) : terminal :=
  Terminal p (state (session s)) (read_notice (session s)) (client_fd (session s)) (echo_mode (session s))
    (connected s) (console s) (shell_echo s).

(** Two steps agree: neither is possible, or they give and send the same bytes
    and lead to a server that looks like the terminal. *)
Definition agree (r : option (list Z * sends * server)) (r' : option (list Z * list (Z * Z) * terminal)) : Prop :=
  match r, r' with
  | Some (d, out, s), Some (d', out', s') => d = d' /\ on_wire out = out' /\ exists p, session_holds p (session s) /\ s' = looks_like p s
  | None, None => True
  | _, _ => False
  end.

Lemma agree_write p t text : session_holds p t ->
  exists tx out, telnet_write t text = Some (zlen text - zlen (typeset TX_BUFFER_SIZE text).2, set_tx tx t, out) /\
    session_holds p (set_tx tx t) /\ on_wire out = map (pair (client_fd t)) (shown text).
Proof.
  intros H. pose proof (wrote p t text H) as Hw. unfold shown. destruct (typeset TX_BUFFER_SIZE text) as [out left_over].
  destruct Hw as (tx & sent & E & Hr & Ho). exists tx, sent. split; [exact E|]. split; [|done]. destruct H. by split.
Qed.

Lemma agree_banner banner : forall p t, session_holds p t ->
  exists tx out, write_all t banner = Some (set_tx tx t, out) /\ session_holds p (set_tx tx t) /\
    on_wire out = map (pair (client_fd t)) (concat (map shown banner)).
Proof.
  induction banner as [|d banner IH]; intros p t H; cbn [write_all].
  - exists (tx_ringbuffer t), []. destruct t. done.
  - destruct (agree_write p t d H) as (tx & out & -> & H1 & Ho). cbn [mbind option_bind].
    destruct (IH p _ H1) as (tx' & out' & -> & H2 & Ho2). cbn [mbind option_bind].
    exists tx', (out ++ out'). split; [done|]. split; [done|]. cbn [map concat]. by rewrite on_wire_app, Ho, Ho2, map_app.
Qed.

Lemma agree_step p s e : session_holds p (session s) -> agree (server_step s e) (terminal_step (looks_like p s) e).
Proof.
  intros H. destruct e as [fd banner|data| |size|text]; cbn [server_step terminal_step looks_like].
  - unfold telnet_thread_accept. destruct (connected s); [done|].
    set (t := set_client fd (shell_echo s) (set_state STATE_NORMAL (session s))).
    assert (Ht : session_holds p t) by (destruct H; by split).
    destruct (agree_banner banner p t Ht) as (tx & out & -> & H1 & Ho). cbn [mbind option_bind].
    rewrite (idle_sends _ _ H1), app_nil_r. split; [done|]. split; [done|]. by exists p.
  - destruct (connected s) eqn:Ec; [|unfold telnet_thread_recv; by rewrite Ec].
    destruct (received data s p Ec H) as (out & s' & -> & H' & Es & [Ef Ee] & Est & En & Eo). cbn [mbind option_bind agree].
    split; [done|]. split; [done|]. eexists. split; [exact H'|]. unfold looks_like.
    rewrite Est, En, Ef, Ee. by rewrite Es; cbn; rewrite Ec.
  - destruct (connected s); [|done]. split; [done|]. split; [done|]. exists p. split; [|done].
    destruct H. split; [done|done|apply u16_range].
  - unfold telnet_read. destruct (Z.eqb_spec (read_notice (session s)) 0); [done|].
    destruct H as [Hrx Htx Hn]. unfold set_notice at 1. cbn [rx_ringbuffer].
    pose proof (u16_range size) as Hu. destruct (got _ _ _ (u16 size) Hrx ltac:(lia)) as (rx & Eg & Hr).
    assert (Eg' : rt_ringbuffer_get (rx_ringbuffer (session s)) size = (take (Z.to_nat (u16 size)) p, rx)).
    { rewrite <- Eg. unfold rt_ringbuffer_get. by rewrite (u16_id (u16 size)) by lia. }
    rewrite Eg'. cbn [mbind option_bind agree]. split; [done|]. split; [done|]. eexists. split; [|reflexivity].
    split; cbn; [exact Hr|done|lia].
  - destruct (agree_write p _ text H) as (tx & out & -> & H1 & Ho). cbn [mbind option_bind agree]. split; [done|]. split; [done|]. by exists p.
Qed.

Lemma agree_run es : forall p s, session_holds p (session s) -> agree (server_run s es) (terminal_run (looks_like p s) es).
Proof.
  induction es as [|e es IH]; intros p s H; cbn [server_run terminal_run]; [split; [done|split; [done|by exists p]]|].
  pose proof (agree_step p s e H) as Hs.
  destruct (server_step s e) as [[[d out] s1]|], (terminal_step (looks_like p s) e) as [[[d' out'] s1']|]; try done.
  destruct Hs as (<- & Eo & p1 & H1 & ->). cbn [mbind option_bind]. specialize (IH p1 s1 H1).
  destruct (server_run s1 es) as [[[d2 out2] s2]|], (terminal_run (looks_like p1 s1) es) as [[[d2' out2'] s2']|]; try done.
  destruct IH as (<- & <- & Hp). cbn [mbind option_bind agree]. by rewrite on_wire_app, Eo.
Qed.

(** The session [telnet_server] makes: two rings and no notice. *)
Definition telnet_started (rx tx : rt_ringbuffer) (fd : Z) (st : telnet_state) (em echo : Z) : server :=
  Server (TelnetSession rx tx fd st em 0) false RT_CONSOLE_DEVICE_NAME echo.

(** [C14] The server is a terminal with a keyboard queue of 256 bytes: when its
    session and its two buffers are allocated, [telnet_server] makes the rings,
    and whatever then happens (clients are accepted and gone, bytes arrive in
    any pieces, the shell reads and writes), the server can do exactly what
    the terminal can, gives the shell the same bytes and sends the same bytes
    to the same sockets. *)
Theorem telnet_refines_terminal alloc m rxpool txpool fd st em echo es :
  alloc 0%nat = Some m -> alloc 1%nat = Some rxpool -> alloc 2%nat = Some txpool ->
  zlen rxpool = RX_BUFFER_SIZE -> zlen txpool = TX_BUFFER_SIZE ->
  exists rx tx, telnet_server {| telnet := None; thread_started := false |} alloc true =
      {| telnet := Some (Some rx, Some tx); thread_started := true |} /\
    agree (server_run (telnet_started rx tx fd st em echo) es)
          (terminal_run (Terminal [] st 0 fd em false RT_CONSOLE_DEVICE_NAME echo) es).
Proof.
  intros H0 H1 H2 Hrx Htx.
  destruct (ring_created RX_BUFFER_SIZE rxpool) as (rx & Ei & Hr); [done|done|lia|].
  destruct (ring_created TX_BUFFER_SIZE txpool) as (tx & Ei' & Hr'); [done|done|lia|].
  exists rx, tx. split.
  - unfold telnet_server. cbn [telnet]. by rewrite H0, H1, H2, Ei, Ei'.
  - by apply (agree_run es [] (telnet_started rx tx fd st em echo)).
Qed.

(** Whatever a client sends, cut into any pieces: the bytes it types and
    the escaped 255 are behind those that wait for the shell, up to the 256 the
    queue has room for; carriage returns and commands are left out; every
    option is refused, in the order of the requests; the reader is notified
    once for every key. *)
Theorem telnet_types s pending items chunks :
  connected s = true -> session_holds pending (session s) -> state (session s) = STATE_NORMAL ->
  Forall item_ok items -> concat chunks = concat (map item_bytes items) ->
  exists out s', server_run s (map Received chunks) = Some ([], out, s') /\
    session_holds (typed_in pending (concat (map item_typed items))) (session s') /\ state (session s') = STATE_NORMAL /\
    read_notice (session s') = u16 (read_notice (session s) + zlen (concat (map item_keys items))) /\
    on_wire out = map (pair (client_fd (session s))) (concat (map item_reply items)).
Proof.
  intros Hc H Hst Hi Hb. destruct (chunks_in chunks s pending Hc H) as (out & s' & Hr & Hh & Est & En & Eo & _).
  rewrite Hst, Hb, (items_mean _ Hi) in *. by exists out, s'.
Qed.

Definition ring_of (S : Z) : rt_ringbuffer := RingBuffer (replicate (Z.to_nat S) 0) false 0 false 0 S.

Lemma ring_of_empty S : 0 < S < 2 ^ 15 -> ring S (ring_of S) [].
Proof.
  intros HS. split; [done|lia|]. apply (holds_straight _ _ [] (replicate (Z.to_nat S) 0) []); cbn; try done.
  - by rewrite app_nil_r.
  - destruct (Z.to_nat S) eqn:E; [lia|done].
  - change (@zlen Z []) with 0. unfold zlen. rewrite length_replicate. lia.
Qed.

Definition demo_server : server :=
  Server (TelnetSession (ring_of RX_BUFFER_SIZE) (ring_of TX_BUFFER_SIZE) 3 STATE_NORMAL 1 0) true "telnet" 0.

(** [l], a carriage return, [s], WILL 1 in two pieces, an escaped 255, a newline. *)
Lemma telnet_types_witness :
  exists out s', server_run demo_server (map Received [[108; 13; 115; 255]; [251; 1; 255; 255; 10]]) = Some ([], out, s') /\
    on_wire out = [(3, 255); (3, 254); (3, 1)] /\ read_notice (session s') = 3 /\ session_holds [108; 115; 255; 10] (session s').
Proof.
  destruct (telnet_types demo_server [] [Key 108; Return; Key 115; Option 251 1; Escaped; Key 10]
    [[108; 13; 115; 255]; [251; 1; 255; 255; 10]]) as (out & s' & Hr & Hh & _ & Hn & Ho).
  - reflexivity.
  - split; [apply ring_of_empty; split; reflexivity|apply ring_of_empty; split; reflexivity|split; [discriminate|reflexivity]].
  - reflexivity.
  - repeat constructor; discriminate.
  - reflexivity.
  - exists out, s'. split; [exact Hr|]. split; [exact Ho|]. split; [exact Hn|exact Hh].
Defined.

Lemma telnet_refines_terminal_witness :
  exists rx tx, agree
    (server_run (telnet_started rx tx 0 STATE_NORMAL 0 1)
       [Accepted 5 [[62]]; Received [108; 115; 13; 10]; ShellReads 1; ShellReads 1; ShellWrites [97; 10]; Closed])
    (Some ([108; 115], [(5, 62); (5, 97); (5, 13); (5, 10)], Terminal [10] STATE_NORMAL 2 5 1 false "uart0" 1)).
Proof.
  destruct (telnet_refines_terminal (fun n => Some (replicate (match n with 1%nat => 256 | _ => 4096 end)%nat 0)) (replicate 4096 0)
    (replicate 256 0) (replicate 4096 0) 0 STATE_NORMAL 0 1
    [Accepted 5 [[62]]; Received [108; 115; 13; 10]; ShellReads 1; ShellReads 1; ShellWrites [97; 10]; Closed]
    eq_refl eq_refl eq_refl eq_refl eq_refl) as (rx & tx & _ & H).
  exists rx, tx. exact H.
Defined.

(** A notice for every key and one for every client that leaves, but none for
    an escaped 255; a read may take many keys with one notice.  So a read may
    find no key (and gives a zero), and a key may wait for the next notice. *)
Example read_finds_nothing :
  option_map (fun '(d, _, _) => d) (terminal_run (Terminal [] STATE_NORMAL 0 3 1 true "telnet" 0) [Received [97; 98]; ShellReads 8; ShellReads 8])
    = Some [97; 98; 0].
Proof. reflexivity. Qed.

Example key_waits :
  terminal_run (Terminal [] STATE_NORMAL 0 3 1 true "telnet" 0) [Received [255; 255]; ShellReads 1] = None.
Proof. reflexivity. Qed.

(** The content of a subnegotiation is typed: IAC SB 24 1 IAC SE. *)
Example subnegotiation_typed : typed (means STATE_NORMAL [255; 250; 24; 1; 255; 240]) = [24; 1].
Proof. reflexivity. Qed.

(** What one client has typed and the shell has not read is there for the next. *)
Example next_client_inherits :
  option_map (fun '(d, _, _) => d)
    (terminal_run (Terminal [] STATE_NORMAL 0 0 1 false "uart0" 1)
       [Accepted 3 []; Received [114; 109; 32]; Closed; Accepted 4 []; Received [120; 10]; ShellReads 8])
    = Some [114; 109; 32; 120; 10].
Proof. reflexivity. Qed.

(** A newline that does not fit leaves its carriage return. *)
Example newline_cut : typeset 3 [97; 98; 10; 99] = ([97; 98; 13], [10; 99]).
Proof. reflexivity. Qed.

(** The semaphore has 16 bits: 65536 unread keys are no notice at all. *)
Example notices_wrap : u16 (65535 + notices (mean STATE_NORMAL 97)) = 0.
Proof. reflexivity. Qed.

(** After a failed allocation every later call finds a server that never runs. *)
Example telnet_server_stuck :
  let r := telnet_server {| telnet := None; thread_started := false |} (fun n => if Nat.eqb n 1 then None else Some []) true in
  telnet_server r (fun _ => Some []) true = r /\ thread_started r = false.
Proof. split; reflexivity. Qed.
