(* ===== verification/Msh.v ===== *)
(** * The command interpreter

    Models src/rt-thread/components/finsh/msh.c and msh_file.c: the split of a
    line into arguments, the search of the command, scripts, and the
    completion of a command's name.  The theorems show that a line of words
    runs the command with exactly these words, and what a tab completes. *)

From S2P Require Import Prelude Fal.

Local Open Scope Z_scope.

Definition FINSH_ARG_MAX : Z := 10.

(** [' '] or ['\t']. *)
Definition is_blank (c : Z) : bool := (c =? 32) || (c =? 9).

(** ** The split of a line *)

(** "strip bank and tab"; a character is read before the position is compared. *)
Fixpoint strip (fuel : nat) (b : list Z) (ptr stop : Z) : option (list Z * Z) :=
  match fuel with
  | O => None
  | S fuel =>
      c ← buf_get b ptr;
      if is_blank c && (ptr <? stop) then b ← buf_set b ptr 0; strip fuel b (ptr + 1) stop
      else Some (b, ptr)
  end.

(** "skip this string" *)
Fixpoint skip_string (fuel : nat) (b : list Z) (ptr stop : Z) : option Z :=
  match fuel with
  | O => None
  | S fuel =>
      c ← buf_get b ptr;
      if negb (c =? 34) && (ptr <? stop) then
        if c =? 92 then
          c1 ← buf_get b (ptr + 1);
          skip_string fuel b (if c1 =? 34 then ptr + 2 else ptr + 1) stop
        else skip_string fuel b (ptr + 1) stop
      else Some ptr
  end.

Fixpoint skip_word (fuel : nat) (b : list Z) (ptr stop : Z) : option Z :=
  match fuel with
  | O => None
  | S fuel =>
      c ← buf_get b ptr;
      if negb (is_blank c) && (ptr <? stop) then skip_word fuel b (ptr + 1) stop else Some ptr
  end.

(** The loop of [msh_split] from [ptr] up to [stop], with the [argv] so far;
    [argv] holds offsets into the buffer.  Every turn but the last passes a
    character. *)
Fixpoint msh_split_loop (fuel : nat) (b : list Z) (ptr stop : Z) (argv : list Z) : option (list Z * list Z) :=
  match fuel with
  | O => None
  | S fuel =>
      if ptr <? stop then
        '(b, ptr) ← strip (S (Z.to_nat (stop - ptr))) b ptr stop;
        if FINSH_ARG_MAX <=? zlen argv then Some (b, argv)
        else if stop <=? ptr then Some (b, argv)
        else
          c ← buf_get b ptr;
          if c =? 34 then
            let ptr := ptr + 1 in let argv := argv ++ [ptr] in
            ptr ← skip_string (S (Z.to_nat (stop - ptr))) b ptr stop;
            if stop <=? ptr then Some (b, argv)
            else b ← buf_set b ptr 0; msh_split_loop fuel b (ptr + 1) stop argv
          else
            let argv := argv ++ [ptr] in
            ptr ← skip_word (S (Z.to_nat (stop - ptr))) b ptr stop;
            if stop <=? ptr then Some (b, argv) else msh_split_loop fuel b ptr stop argv
      else Some (b, argv)
  end.

Definition msh_split (b : list Z) (cmd length : Z) : option (list Z * list Z) :=
  msh_split_loop (S (Z.to_nat length)) b cmd (cmd + length) [].

(** The arguments as the command sees them. *)
Definition arguments (b argv : list Z) : option (list (list Z)) := mapM (fun a => buf_cstr (drop (Z.to_nat a) b)) argv.

(** ** Commands *)

(** [strstr(s, t) != NULL]. *)
Fixpoint has_sub (s t : list Z) : bool :=
  bool_decide (take (length t) s = t) || match s with [] => false | _ :: s => has_sub s t end.

(** The characters before the first space. *)
Fixpoint before_space (s : list Z) : list Z :=
  match s with c :: s => if c =? 32 then [] else c :: before_space s | [] => [] end.

(** What a line does: text for [rt_kprintf], and a call of a command. *)
Inductive out :=
  | Print (text : list Z)
  | Ran (func : Z) (argv : list (list Z)).

Definition newline_ch : Z := 10.
Definition cmd_prefix : list Z := str "__cmd_".

(** [struct finsh_syscall]. *)
Record finsh_syscall := FinshSyscall { name : list Z; desc : list Z; func : Z }.

(** The name of a command, without [__cmd_]. *)
Definition command_name (name : list Z) : option (list Z) :=
  if strncmp_eq 6 name cmd_prefix then Some (drop 6 name) else None.

Section Commands.
(** The table of the commands; what their functions return; a file's content, if it can be opened; whether the heap has
    room, and what is in the line buffer it gives. *)
Context (syscall_table : list finsh_syscall) (call : Z -> list (list Z) -> Z)
  (open_file : list Z -> option (list Z)) (mem : bool) (malloced : list Z).

(** [msh_get_cmd] for [size] bytes: the inner [None] is no command. *)
Fixpoint msh_get_cmd (table : list finsh_syscall) (cmd : list Z) (size : nat) : option (option Z) :=
  match table with
  | [] => Some None
  | index :: table =>
      match command_name (name index) with
      | None => msh_get_cmd table cmd size
      | Some n =>
          if strncmp_eq size n (default cmd (buf_cstr cmd)) then
            c ← buf_get (n ++ [0]) (Z.of_nat size);
            if c =? 0 then Some (Some (func index)) else msh_get_cmd table cmd size
          else msh_get_cmd table cmd size
      end
  end.

(** [_msh_exec_cmd]: the buffer, and the result of the command if it ran. *)
Definition _msh_exec_cmd (b : list Z) (cmd length : Z) : option (list Z * option (Z * out)) :=
  cmd0_end ← skip_word (S (Z.to_nat length)) b cmd (cmd + length);
  let cmd0_size := cmd0_end - cmd in
  if cmd0_size =? 0 then Some (b, None)
  else
    cmd_func ← msh_get_cmd syscall_table (buf_sub b cmd cmd0_size) (Z.to_nat cmd0_size);
    match cmd_func with
    | None => Some (b, None)
    | Some func =>
        '(b, argv) ← msh_split b cmd length;
        if zlen argv =? 0 then Some (b, None)
        else args ← arguments b argv; Some (b, Some (call func args, Ran func args))
    end.

(** ** Scripts *)

Definition RT_CONSOLEBUF_SIZE : Z := 128.

Definition is_eol (c : Z) : bool := (c =? 10) || (c =? 13).

Fixpoint skip_eols (content : list Z) : list Z :=
  match content with c :: rest => if is_eol c then skip_eols rest else content | [] => [] end.

(** The loop of [msh_readline] from [index]. *)
Fixpoint readline_loop (content line_buf : list Z) (index : Z) : option (Z * list Z * list Z) :=
  if index <? RT_CONSOLEBUF_SIZE then
    match content with
    | [] => line_buf ← buf_set line_buf index 0; Some (index, [], line_buf)
    | c :: rest =>
        if is_eol c then line_buf ← buf_set line_buf index 0; Some (index, rest, line_buf)
        else line_buf ← buf_set line_buf index c; readline_loop rest line_buf (index + 1)
    end
  else Some (index, content, line_buf).

(** [msh_readline]: the length, what is left of the file, the buffer. *)
Definition msh_readline (content line_buf : list Z) : option (Z * list Z * list Z) :=
  match skip_eols content with
  | [] => Some (0, [], line_buf)
  | c :: rest => line_buf ← buf_set line_buf 0 c; readline_loop rest line_buf 1
  end.

(** The first character of a line that is not blank, or its last one. *)
Fixpoint first_char (line : list Z) (ch : Z) : Z :=
  match line with c :: line => if is_blank c then first_char line c else c | [] => ch end.

(** "read line by line and then exec it"; every turn reads a character. *)
Fixpoint run_script (exec : list Z -> Z -> option (Z * list out * list Z)) (fuel : nat) (content line_buf : list Z) : option (list out) :=
  match fuel with
  | O => None
  | S fuel =>
      '(length, content, line_buf) ← msh_readline content line_buf;
      if 0 <? length then
        if first_char (take (Z.to_nat length) line_buf) 0 =? 35 then run_script exec fuel content line_buf
        else
          '(_, outs, line_buf) ← exec line_buf length;
          outs' ← run_script exec fuel content line_buf; Some (outs ++ outs')
      else Some []
  end.

(** [msh_exec_script]: the result and what the lines did. *)
Definition msh_exec_script (exec : list Z -> Z -> option (Z * list out * list Z)) (b : list Z) (cmd_line size : Z) : option (Z * list out) :=
  if size =? 0 then Some (-1, [])
  else
    cmd_end ← skip_word (S (Z.to_nat size)) b cmd_line (cmd_line + size);
    if negb mem then Some (-5, [])
    else
      let name := buf_sub b cmd_line (cmd_end - cmd_line) in
      let pg_name := default name (buf_cstr name) in
      let content :=
        if has_sub pg_name (str ".sh") || has_sub pg_name (str ".SH")
        then match open_file pg_name with Some content => Some content | None => open_file (str "/bin/" ++ pg_name) end
        else None in
      match content with
      | None => Some (-1, [])
      | Some content =>
          outs ← run_script exec (S (length content)) content malloced;
          Some (0, outs)
      end.

(** "strim the beginning of command" *)
Fixpoint trim (fuel : nat) (b : list Z) (cmd length : Z) : option (Z * Z) :=
  match fuel with
  | O => None
  | S fuel =>
      c ← buf_get b cmd;
      if is_blank c then trim fuel b (cmd + 1) (u32 (length - 1)) else Some (cmd, length)
  end.

(** "truncate the cmd at the first space": the name and the buffer. *)
Definition truncate (b : list Z) (cmd : Z) : option (list Z * list Z) :=
  s ← buf_cstr (drop (Z.to_nat cmd) b);
  let name := before_space s in
  b ← buf_set b (cmd + zlen name) 0; Some (name, b).

(** [msh_exec]; the depth bounds the scripts that run scripts. *)
Fixpoint msh_exec (depth : nat) (b : list Z) (length : Z) : option (Z * list out * list Z) :=
  match depth with
  | O => None
  | S depth =>
      '(cmd, length) ← trim (S (List.length b)) b 0 length;
      if length =? 0 then Some (0, [], b)
      else
        '(b, ran) ← _msh_exec_cmd b cmd length;
        match ran with
        | Some (ret, o) => Some (ret, [o], b)
        | None =>
            '(status, outs) ← msh_exec_script (msh_exec depth) b cmd length;
            if status =? 0 then Some (0, outs, b)
            else '(name, b) ← truncate b cmd; Some (-1, [Print (name ++ str ": command not found." ++ [newline_ch])], b)
        end
  end.
End Commands.

(** ** Completion *)

(** [str_common]: how many characters agree from the start. *)
Fixpoint str_common (str1 str2 : list Z) : Z :=
  match str1, str2 with a :: str1, b :: str2 => if a =? b then 1 + str_common str1 str2 else 0 | _, _ => 0 end.

Definition starts_with (s prefix : list Z) : bool := bool_decide (take (length prefix) s = prefix).

(** The loops over the candidates: the first one that has the prefix, and the
    length that all of them agree on; [min_length] is 0 before the first. *)
Fixpoint candidates (names : list (list Z)) (prefix first : list Z) (min_length : Z) : list Z * Z :=
  match names with
  | [] => (first, min_length)
  | n :: names =>
      if starts_with n prefix then
        let '(first, min_length) := if min_length =? 0 then (n, zlen n) else (first, min_length) in
        let length := str_common first n in
        candidates names prefix first (if length <? min_length then length else min_length)
      else candidates names prefix first min_length
  end.

(** The last ['/'] of a path: what is up to it, and the rest. *)
Fixpoint split_path (path : list Z) : list Z * list Z :=
  match path with
  | [] => ([], [])
  | c :: rest =>
      let '(parent, index) := split_path rest in
      match parent with
      | [] => if c =? 47 then ([c], index) else ([], c :: index)
      | _ => (c :: parent, index)
      end
  end.

Definition print_line (s : list Z) : out := Print (s ++ [newline_ch]).

Section Completion.
(** The working directory, the names in a directory, the heap. *)
Context (syscall_table : list finsh_syscall) (cwd : list Z) (readdir : list Z -> option (list (list Z))) (mem : bool).

(** [msh_auto_complete_path] for the path at [at_] in the line; [None] is a
    write past [full_path] or the line. *)
Definition msh_auto_complete_path (line : list Z) (at_ : Z) : option (list out * list Z) :=
  path ← buf_cstr (drop (Z.to_nat at_) line);
  if negb mem then Some ([], line)
  else
    let base := match path with 47 :: _ => [] | _ => if bool_decide (last cwd = Some 47) then cwd else cwd ++ [47] end in
    let '(parent, index) := split_path path in
    if 256 <=? zlen base + zlen parent then None
    else
      match readdir (base ++ parent) with
      | None => Some ([], line)
      | Some names =>
          match index with
          | [] => Some (map print_line names, line)
          | _ =>
              let '(first, min_length) := candidates names index [] 0 in
              if min_length =? 0 then Some ([], line)
              else
                let listed := if min_length <? zlen first then map print_line (List.filter (fun n => starts_with n index) names) else [] in
                line ← buf_write line (at_ + zlen parent) (take (Z.to_nat min_length) first);
                line ← buf_set line (at_ + zlen parent + min_length) 0;
                Some (listed, line)
          end
      end.

(** The last space of the line, the first character aside. *)
Fixpoint last_space (s : list Z) (i : Z) : option Z :=
  match s with
  | [] => None
  | c :: s => match last_space s (i + 1) with Some k => Some k | None => if (c =? 32) && (0 <? i) then Some i else None end
  end.

Definition command_names : list (list Z) := omap (fun index => command_name (name index)) syscall_table.

Definition pad16 (s : list Z) : list Z := s ++ replicate (16 - length s) 32.

(** [msh_help]. *)
Definition msh_help : list out :=
  Print (str "RT-Thread shell commands:" ++ [newline_ch]) ::
  omap (fun index => n ← command_name (name index); Some (print_line (pad16 n ++ str " - " ++ desc index))) syscall_table ++
  [Print [newline_ch]].

(** [msh_auto_complete]. *)
Definition msh_auto_complete (line : list Z) : option (list out * list Z) :=
  prefix ← buf_cstr line;
  match prefix with
  | [] => Some (msh_help, line)
  | _ =>
      '(outs, line) ← match last_space prefix 0 with
                      | Some k => msh_auto_complete_path line (k + 1)
                      | None => Some ([], line)
                      end;
      prefix ← buf_cstr line;
      let names := List.filter (fun n => starts_with n prefix) command_names in
      let '(name_ptr, min_length) := candidates command_names prefix [] 0 in
      line ← match names with [] => Some line | _ => buf_write line 0 (take (Z.to_nat min_length) name_ptr) end;
      Some (outs ++ map print_line names, line)
  end.
End Completion.

(** ** Lines of words *)

(** A word as it is typed: as it stands, or between quotes. *)
Inductive word := Plain (s : list Z) | Quoted (s : list Z).

Definition word_bytes (w : word) : list Z := match w with Plain s => s | Quoted s => 34 :: s ++ [34] end.

(** What the command gets; a backslash before a quote stays. *)
Definition word_text (w : word) : list Z := match w with Plain s => s | Quoted s => s end.

(** No quote that is not behind a backslash, and no backslash at the end. *)
Fixpoint quoted_ok (s : list Z) : bool :=
  match s with
  | [] => true
  | c :: s =>
      if c =? 34 then false
      else if c =? 92 then match s with [] => false | c1 :: s1 => if c1 =? 34 then quoted_ok s1 else quoted_ok s end
      else quoted_ok s
  end.

Definition word_ok (w : word) : Prop :=
  match w with
  | Plain s => cstring s /\ Forall (fun c => is_blank c = false) s /\ s <> [] /\ head s <> Some 34
  | Quoted s => cstring s /\ quoted_ok s = true
  end.

(** A word behind its blanks. *)
Abbreviation spaced := (list Z * word)%type.

Definition spaced_ok (x : spaced) : Prop := Forall (fun c => is_blank c = true) x.1 /\ word_ok x.2.

Definition spaced_bytes (x : spaced) : list Z := x.1 ++ word_bytes x.2.

(** The bytes after the split: zeros for the blanks and the closing quotes. *)
Definition split_bytes (x : spaced) : list Z :=
  replicate (length x.1) 0 ++ match x.2 with Plain s => s | Quoted s => 34 :: s ++ [0] end.

(** Where the text of a word behind [at_] begins. *)
Definition word_at (at_ : Z) (x : spaced) : Z := at_ + zlen x.1 + match x.2 with Plain _ => 0 | Quoted _ => 1 end.

Fixpoint words_at (at_ : Z) (l : list spaced) : list Z :=
  match l with [] => [] | x :: l => word_at at_ x :: words_at (at_ + zlen (spaced_bytes x)) l end.

Lemma split_bytes_len x : zlen (split_bytes x) = zlen (spaced_bytes x).
Proof.
  destruct x as [bl [s|s]]; unfold split_bytes, spaced_bytes; cbn [fst snd word_bytes]; rewrite !zlen_app; unfold zlen; rewrite length_replicate; [done|].
  cbn [length]. rewrite !length_app. done.
Qed.

(** Blanks become zeros, up to a character that is none or the end. *)
Lemma stripped bl : forall fuel p rest stop, Forall (fun c => is_blank c = true) bl -> zlen p + zlen bl <= stop ->
  (length bl < fuel)%nat ->
  match rest with c :: _ => is_blank c = false \/ zlen p + zlen bl = stop | [] => False end ->
  strip fuel (p ++ bl ++ rest) (zlen p) stop = Some (p ++ replicate (length bl) 0 ++ rest, zlen p + zlen bl).
Proof.
  induction bl as [|c bl IH]; intros fuel p rest stop Hb Hs Hf Hr; (destruct fuel as [|fuel]; [cbn in Hf; lia|]); cbn [strip app length replicate].
  - destruct rest as [|c rest]; [done|]. rewrite get_here by done. cbn [mbind option_bind].
    change (zlen []) with 0 in *. rewrite Z.add_0_r in *. destruct Hr as [->| <-]; [done|]. by rewrite Z.ltb_irrefl, andb_false_r.
  - apply Forall_cons in Hb as [Hc Hb]. rewrite get_here by done. cbn [mbind option_bind]. rewrite Hc, zlen_cons in *.
    pose proof (zlen_nonneg bl). destruct (Z.ltb_spec (zlen p) stop); [|lia]. cbn [andb]. rewrite set_here by done. cbn [mbind option_bind].
    specialize (IH fuel (p ++ [0]) rest stop Hb). rewrite <- !app_assoc, zlen_app in IH. cbn [app] in IH. change (zlen [0]) with 1 in IH.
    rewrite IH; [do 2 f_equal; lia|lia|cbn in Hf; lia|]. destruct rest; [done|]. destruct Hr; [by left|right; lia].
Qed.

Lemma word_skipped s : forall fuel p c rest stop, Forall (fun c => is_blank c = false) s ->
  zlen p + zlen s <= stop -> (length s < fuel)%nat -> is_blank c = true \/ zlen p + zlen s = stop ->
  skip_word fuel (p ++ s ++ c :: rest) (zlen p) stop = Some (zlen p + zlen s).
Proof.
  induction s as [|x s IH]; intros fuel p c rest stop Hs Hstop Hf Hc; (destruct fuel as [|fuel]; [cbn in Hf; lia|]); cbn [skip_word app].
  - rewrite get_here by done. cbn [mbind option_bind]. change (zlen []) with 0 in *. rewrite Z.add_0_r in *.
    destruct Hc as [-> | <-]; [done|]. by rewrite Z.ltb_irrefl, andb_false_r.
  - apply Forall_cons in Hs as [Hx Hs]. rewrite get_here by done. cbn [mbind option_bind]. rewrite Hx, zlen_cons in *.
    pose proof (zlen_nonneg s). destruct (Z.ltb_spec (zlen p) stop); [|lia]. cbn [negb andb].
    specialize (IH fuel (p ++ [x]) c rest stop Hs). rewrite <- !app_assoc, zlen_app in IH. cbn [app] in IH. change (zlen [x]) with 1 in IH.
    rewrite IH; [f_equal; lia|lia|cbn in Hf; lia|]. destruct Hc; [by left|right; lia].
Qed.

Lemma string_skipped n : forall s fuel p rest stop, (length s <= n)%nat -> quoted_ok s = true ->
  zlen p + zlen s < stop -> (length s < fuel)%nat ->
  skip_string fuel (p ++ s ++ 34 :: rest) (zlen p) stop = Some (zlen p + zlen s).
Proof.
  induction n as [|n IH]; intros s fuel p rest stop Hn Hq Hstop Hf; (destruct fuel as [|fuel]; [lia|]).
  all: destruct s as [|c s]; [cbn [skip_string app]; rewrite (get_here p 34 rest (zlen p) eq_refl), (@zlen_nil Z), Z.add_0_r; reflexivity|].
  { cbn in Hn. lia. }
  cbn [skip_string app].
  rewrite (get_here p c (s ++ 34 :: rest) (zlen p) eq_refl). cbn [mbind option_bind quoted_ok] in *. rewrite zlen_cons in *. pose proof (zlen_nonneg s).
  destruct (Z.eqb_spec c 34) as [->|Hc]; [done|]. destruct (Z.ltb_spec (zlen p) stop); [|lia]. cbn [negb andb].
  assert (Hone : quoted_ok s = true -> skip_string fuel (p ++ c :: s ++ 34 :: rest) (zlen p + 1) stop = Some (zlen p + (1 + zlen s))).
  { intros Hq'. specialize (IH s fuel (p ++ [c]) rest stop). rewrite <- !app_assoc, zlen_app in IH. cbn [app] in IH. change (zlen [c]) with 1 in IH.
    rewrite IH; [f_equal; lia|cbn in Hn; lia|done|lia|cbn in Hf; lia]. }
  destruct (Z.eqb_spec c 92); [|by apply Hone]. destruct s as [|c1 s]; [done|].
  assert (Eg : buf_get (p ++ c :: (c1 :: s) ++ 34 :: rest) (zlen p + 1) = Some c1).
  { pose proof (get_here (p ++ [c]) c1 (s ++ 34 :: rest) (zlen p + 1)) as H1. rewrite <- app_assoc, zlen_app in H1. by apply H1. }
  rewrite Eg. cbn [mbind option_bind]. destruct (Z.eqb_spec c1 34); [|by apply Hone].
  rewrite zlen_cons in *. specialize (IH s fuel (p ++ [c; c1]) rest stop). rewrite <- !app_assoc, zlen_app in IH. cbn [app] in *. change (zlen [c; c1]) with 2 in IH.
  rewrite IH; [f_equal; lia|cbn in Hn; lia|done|lia|cbn in Hf; lia].
Qed.

Definition is_plain (w : word) : bool := match w with Plain _ => true | Quoted _ => false end.

(** A word that is not quoted is followed by a blank. *)
Fixpoint apart (after_plain : bool) (l : list spaced) : Prop :=
  match l with [] => True | x :: l => (after_plain = true -> x.1 <> []) /\ apart (is_plain x.2) l end.

Definition line_bytes (l : list spaced) (tail : list Z) : list Z := concat (map spaced_bytes l) ++ tail.

Definition split_line (l : list spaced) (tail rest : list Z) : list Z := concat (map split_bytes l) ++ replicate (length tail) 0 ++ 0 :: rest.

(** What follows a word that is not quoted. *)
Lemma follows l tail rest : apart true l -> Forall spaced_ok l -> Forall (fun c => is_blank c = true) tail ->
  exists c q, line_bytes l tail ++ 0 :: rest = c :: q /\ (is_blank c = true \/ l = [] /\ tail = []).
Proof.
  intros Ha Ho Ht. unfold line_bytes. destruct l as [|[bl w] l].
  - destruct tail as [|c tail]; [by exists 0, rest; auto|]. apply Forall_cons in Ht as [Hc _]. eexists c, _. split; [reflexivity|by left].
  - destruct Ha as [Hbl _]. apply Forall_cons in Ho as [[Hb _] _]. destruct bl as [|c bl]; [by destruct (Hbl eq_refl)|].
    apply Forall_cons in Hb as [Hc _]. eexists c, _. split; [reflexivity|by left].
Qed.

Lemma word_bytes_start w : word_ok w -> exists c s, word_bytes w = c :: s /\ is_blank c = false.
Proof.
  destruct w as [s|s]; cbn [word_bytes]; [|by eexists _, _]. intros (_ & Hs & Hne & _). destruct s as [|c s]; [done|].
  apply Forall_cons in Hs as [Hc _]. by exists c, s.
Qed.

Lemma loop_done fuel b ptr argv : (0 < fuel)%nat -> msh_split_loop fuel b ptr ptr argv = Some (b, argv).
Proof. intros Hf. destruct fuel as [|fuel]; [lia|]. cbn [msh_split_loop]. by rewrite Z.ltb_irrefl. Qed.

Lemma split_bytes_app bl w q : split_bytes (bl, w) ++ q =
  replicate (length bl) 0 ++ match w with Plain s => s ++ q | Quoted s => 34 :: s ++ 0 :: q end.
Proof. unfold split_bytes. cbn [fst snd]. rewrite <- app_assoc. destruct w; [done|]. cbn [app]. by rewrite <- app_assoc. Qed.

(** One turn of the loop passes one word. *)
Lemma one_word fuel p bl w c q stop argv : spaced_ok (bl, w) -> zlen argv < FINSH_ARG_MAX -> (0 < fuel)%nat ->
  zlen p + zlen (spaced_bytes (bl, w)) <= stop ->
  (is_plain w = true -> is_blank c = true \/ zlen p + zlen (spaced_bytes (bl, w)) = stop) ->
  msh_split_loop (S fuel) (p ++ spaced_bytes (bl, w) ++ c :: q) (zlen p) stop argv =
    msh_split_loop fuel (p ++ split_bytes (bl, w) ++ c :: q) (zlen p + zlen (spaced_bytes (bl, w))) stop (argv ++ [word_at (zlen p) (bl, w)]).
Proof.
  intros [Hbl Hw] Hn Hf Hstop Hc. cbn [fst snd] in *. destruct (word_bytes_start w Hw) as (c0 & w' & Ew & Ec0).
  unfold spaced_bytes in *. cbn [fst snd] in *. rewrite zlen_app in *. rewrite split_bytes_app. rewrite <- app_assoc.
  assert (Hw1 : 0 < zlen (word_bytes w)) by (rewrite Ew, zlen_cons; pose proof (zlen_nonneg w'); lia).
  pose proof (zlen_nonneg bl). rewrite Z.add_assoc in *. cbn [msh_split_loop]. destruct (Z.ltb_spec (zlen p) stop); [|lia].
  rewrite stripped; [|done|lia|unfold zlen in *; lia|rewrite Ew; by left]. cbn [mbind option_bind].
  destruct (Z.leb_spec FINSH_ARG_MAX (zlen argv)); [lia|]. destruct (Z.leb_spec stop (zlen p + zlen bl)); [lia|].
  rewrite !(app_assoc p). set (p1 := p ++ replicate (length bl) 0).
  assert (Hp1 : zlen p + zlen bl = zlen p1) by (unfold p1; rewrite zlen_app; unfold zlen; by rewrite length_replicate).
  unfold word_at. cbn [fst snd]. rewrite Hp1 in *. clearbody p1.
  destruct w as [s|s]; cbn [word_bytes is_plain] in *.
  - destruct Hw as (_ & Hs & _ & Hq). rewrite Ew in Hq. rewrite Ew at 1. cbn [app head] in *.
    rewrite (get_here p1 c0 _ _ eq_refl). cbn [mbind option_bind]. destruct (Z.eqb_spec c0 34) as [->|_]; [done|].
    rewrite (word_skipped s); [|done|lia|unfold zlen in *; lia|by apply Hc]. cbn [mbind option_bind]. rewrite Z.add_0_r.
    destruct (Z.leb_spec stop (zlen p1 + zlen s)); [|done]. replace stop with (zlen p1 + zlen s) by lia. by rewrite loop_done.
  - destruct Hw as (_ & Hq). rewrite zlen_cons, zlen_app in *. change (zlen [34]) with 1 in *. cbn [app]. rewrite <- app_assoc. cbn [app].
    rewrite (get_here p1 34 _ _ eq_refl). cbn [mbind option_bind]. change (34 =? 34) with true. cbn match.
    pose proof (string_skipped (length s) s (S (Z.to_nat (stop - (zlen p1 + 1)))) (p1 ++ [34]) (c :: q) stop) as Hsk.
    rewrite <- !app_assoc, zlen_app in Hsk. cbn [app] in Hsk. change (zlen [34]) with 1 in Hsk.
    rewrite Hsk; [|lia|done|lia|unfold zlen in *; lia]. cbn [mbind option_bind].
    destruct (Z.leb_spec stop (zlen p1 + 1 + zlen s)); [lia|].
    assert (Hset : buf_set (p1 ++ 34 :: s ++ 34 :: c :: q) (zlen p1 + 1 + zlen s) 0 = Some (p1 ++ 34 :: s ++ 0 :: c :: q)).
    { rewrite !(app_comm_cons s), !(app_assoc p1). apply set_here. rewrite zlen_app, zlen_cons. lia. }
    rewrite Hset. cbn [mbind option_bind]. f_equal. lia.
Qed.

Lemma splits l : forall fuel p argv tail rest after, Forall spaced_ok l -> Forall (fun c => is_blank c = true) tail -> apart after l ->
  zlen argv + zlen l <= FINSH_ARG_MAX -> (length (line_bytes l tail) < fuel)%nat ->
  msh_split_loop fuel (p ++ line_bytes l tail ++ 0 :: rest) (zlen p) (zlen p + zlen (line_bytes l tail)) argv =
    Some (p ++ split_line l tail rest, argv ++ words_at (zlen p) l).
Proof.
  induction l as [|[bl w] l IH]; intros fuel p argv tail rest after Ho Ht Ha Hn Hf; (destruct fuel as [|fuel]; [lia|]).
  - unfold line_bytes, split_line. cbn [map concat app words_at msh_split_loop]. rewrite app_nil_r.
    destruct (Z.ltb_spec (zlen p) (zlen p + zlen tail)) as [Hp|Hp].
    + rewrite stripped; [|done|lia|unfold zlen; lia|by right]. cbn [mbind option_bind].
      by rewrite Z.leb_refl; destruct (_ <=? _).
    + destruct tail; [done|]. rewrite zlen_cons in Hp. pose proof (zlen_nonneg tail). lia.
  - apply Forall_cons in Ho as [Hw Ho]. destruct Ha as [_ Ha]. cbn [fst snd] in *.
    assert (Eline : line_bytes ((bl, w) :: l) tail = spaced_bytes (bl, w) ++ line_bytes l tail)
      by (unfold line_bytes; cbn [map concat]; by rewrite <- !app_assoc).
    assert (Esplit : split_line ((bl, w) :: l) tail rest = split_bytes (bl, w) ++ split_line l tail rest)
      by (unfold split_line; cbn [map concat]; by rewrite <- !app_assoc).
    pose proof (zlen_nonneg (line_bytes l tail)). pose proof (zlen_nonneg l).
    rewrite Eline in Hf |- *. rewrite Esplit. rewrite zlen_cons in Hn. rewrite length_app in Hf. rewrite zlen_app, <- app_assoc.
    assert (Hpos : (0 < length (spaced_bytes (bl, w)))%nat).
    { destruct (word_bytes_start w (proj2 Hw)) as (c & s & E & _). unfold spaced_bytes. cbn [fst snd]. rewrite E, length_app. cbn. lia. }
    destruct (line_bytes l tail ++ 0 :: rest) as [|c q] eqn:Eq; [by apply app_eq_nil in Eq as [_ ?]|].
    rewrite one_word; [|done|lia|lia|lia|].
    + rewrite <- Eq. specialize (IH fuel (p ++ split_bytes (bl, w)) (argv ++ [word_at (zlen p) (bl, w)]) tail rest (is_plain w) Ho Ht Ha).
      replace (zlen (p ++ split_bytes (bl, w))) with (zlen p + zlen (spaced_bytes (bl, w))) in IH by (by rewrite zlen_app, split_bytes_len).
      rewrite <- !app_assoc, <- Z.add_assoc in IH. apply IH; [|lia].
      rewrite zlen_app. change (zlen [word_at (zlen p) (bl, w)]) with 1. lia.
    + intros Hpl. rewrite Hpl in Ha. destruct (follows l tail rest Ha Ho Ht) as (c' & q' & Eq' & Hc'). rewrite Eq in Eq'.
      injection Eq' as -> ->. destruct Hc' as [Hc'|[-> ->]]; [by left|right]. change (zlen (line_bytes [] [])) with 0. lia.
Qed.

Lemma buf_cstr_more (s b : list Z) : cstring s -> buf_cstr (s ++ b) = (fun t => s ++ t) <$> buf_cstr b.
Proof.
  induction 1 as [|c s Hc _ IH]; cbn [app buf_cstr]; [by destruct (buf_cstr b)|].
  unfold is_cchar in Hc. destruct (Z.eqb_spec c 0); [lia|]. rewrite IH. by destruct (buf_cstr b).
Qed.

Lemma buf_cstr_none (s : list Z) : cstring s -> buf_cstr s = None.
Proof. intros Hs. rewrite <- (app_nil_r s), buf_cstr_more by done. done. Qed.

(** The split leaves a zero behind every word. *)
Lemma zero_follows l q : apart true l -> exists r, concat (map split_bytes l) ++ 0 :: q = 0 :: r.
Proof.
  intros Ha. destruct l as [|[bl w] l]; [by exists q|]. destruct Ha as [Hb _]. destruct bl as [|c bl]; [by destruct (Hb eq_refl)|].
  by eexists.
Qed.

Lemma args_read l : forall p q after, Forall spaced_ok l -> apart after l ->
  arguments (p ++ concat (map split_bytes l) ++ 0 :: q) (words_at (zlen p) l) = Some (map (fun x => word_text x.2) l).
Proof.
  induction l as [|[bl w] l IH]; intros p q after Ho Ha; [done|]. apply Forall_cons in Ho as [[_ Hw] Ho]. destruct Ha as [_ Ha]. cbn [fst snd] in *.
  assert (Hwa : buf_cstr (drop (Z.to_nat (word_at (zlen p) (bl, w))) (p ++ concat (map split_bytes ((bl, w) :: l)) ++ 0 :: q)) = Some (word_text w)).
  { cbn [map concat]. rewrite <- app_assoc, split_bytes_app. unfold word_at. cbn [fst snd].
    destruct w as [s|s]; cbn [word_text is_plain] in *.
    - destruct (zero_follows l q Ha) as (r & ->). rewrite (app_assoc p), drop_words by (rewrite zlen_app; unfold zlen; rewrite length_replicate; lia).
      apply buf_cstr_app. apply Hw.
    - rewrite (app_assoc p), (cons_middle 34), (app_assoc (p ++ _) [34]), drop_words by (rewrite !zlen_app; unfold zlen; rewrite length_replicate; cbn; lia).
      apply buf_cstr_app. apply Hw. }
  unfold arguments in *. cbn [words_at mapM]. rewrite Hwa. cbn [mbind option_bind].
  specialize (IH (p ++ split_bytes (bl, w)) q _ Ho Ha). rewrite zlen_app, split_bytes_len, <- app_assoc in IH.
  cbn [map concat]. rewrite <- app_assoc, IH. done.
Qed.

(** ** The command of a line *)

(** The first command of the table with that name. *)
Definition find_command (table : list finsh_syscall) (nm : list Z) : option Z :=
  func <$> List.find (fun index => bool_decide (command_name (name index) = Some nm)) table.

Lemma found_cmd table nm : cstring nm -> Forall (fun index => cstring (name index)) table ->
  msh_get_cmd table nm (length nm) = Some (find_command table nm).
Proof.
  intros Hn. unfold find_command. induction 1 as [|index table Hi _ IH]; [done|]. cbn [msh_get_cmd List.find].
  destruct (command_name (name index)) as [n|] eqn:En; [|by rewrite bool_decide_eq_false_2 by done].
  assert (Hc : cstring n).
  { unfold command_name in En. destruct (strncmp_eq _ _ _); [|done]. injection En as <-. by apply Forall_drop. }
  rewrite (buf_cstr_none nm Hn). cbn [default]. unfold strncmp_eq. rewrite (take_ge nm) by done.
  destruct (bool_decide_reflect (take (length nm) n = nm)) as [Et|Et].
  - assert (Hl : (length nm <= length n)%nat) by (rewrite <- Et at 1; rewrite length_take; lia).
    rewrite <- (take_drop (length nm) n), Et, <- app_assoc. destruct (drop (length nm) n) as [|c r] eqn:Ed; cbn [app].
    + rewrite get_here by done. cbn [mbind option_bind]. change (0 =? 0) with true. cbn match.
      by rewrite app_nil_r, bool_decide_eq_true_2.
    + rewrite get_here by done. cbn [mbind option_bind].
      assert (Hc0 : is_cchar c). { apply (Forall_drop _ (length nm)) in Hc. rewrite Ed in Hc. by apply Forall_cons in Hc as [? _]. }
      unfold is_cchar in Hc0. destruct (Z.eqb_spec c 0); [lia|]. rewrite bool_decide_eq_false_2; [done|].
      intros E. injection E as E. apply (f_equal length) in E. rewrite length_app in E. cbn in E. lia.
  - rewrite bool_decide_eq_false_2; [done|]. intros [= ->]. by rewrite take_ge in Et.
Qed.

Lemma trimmed bl : forall fuel p rest length, Forall (fun c => is_blank c = true) bl ->
  match rest with c :: _ => is_blank c = false | [] => False end -> (List.length bl < fuel)%nat -> zlen bl <= length < 2 ^ 32 ->
  trim fuel (p ++ bl ++ rest) (zlen p) length = Some (zlen p + zlen bl, length - zlen bl).
Proof.
  induction bl as [|c bl IH]; intros fuel p rest length Hb Hr Hf Hl; (destruct fuel as [|fuel]; [cbn in Hf; lia|]); cbn [trim app].
  - destruct rest as [|c rest]; [done|]. rewrite (get_here p c rest (zlen p) eq_refl). cbn [mbind option_bind].
    by rewrite Hr, (@zlen_nil Z), Z.add_0_r, Z.sub_0_r.
  - apply Forall_cons in Hb as [Hc Hb]. rewrite (get_here p c (bl ++ rest) (zlen p) eq_refl). cbn [mbind option_bind]. rewrite Hc, zlen_cons in *.
    pose proof (zlen_nonneg bl). rewrite u32_id by lia.
    specialize (IH fuel (p ++ [c]) rest (length - 1) Hb Hr ltac:(cbn in Hf; lia) ltac:(lia)).
    rewrite <- app_assoc, zlen_app in IH. cbn [app] in IH. change (zlen [c]) with 1 in IH. rewrite IH. do 2 f_equal; lia.
Qed.

(** A line for a command: its name behind blanks, and the other words. *)
Definition command_line (bl nm : list Z) (l : list spaced) (tail : list Z) : list Z := bl ++ nm ++ line_bytes l tail.

Definition command_ok (bl nm : list Z) (l : list spaced) (tail : list Z) : Prop :=
  Forall (fun c => is_blank c = true) bl /\ word_ok (Plain nm) /\ Forall spaced_ok l /\ apart true l /\
  Forall (fun c => is_blank c = true) tail /\ zlen l < FINSH_ARG_MAX /\ zlen (command_line bl nm l tail) < 2 ^ 32.

Section Executed.
Context (syscall_table : list finsh_syscall) (call : Z -> list (list Z) -> Z)
  (open_file : list Z -> option (list Z)) (mem : bool) (malloced : list Z).
Hypothesis names_ok : Forall (fun index => cstring (name index)) syscall_table.

Lemma name_found bl nm l tail rest : command_ok bl nm l tail ->
  let b := command_line bl nm l tail ++ 0 :: rest in let n := zlen (nm ++ line_bytes l tail) in
  trim (S (length b)) b 0 (zlen (command_line bl nm l tail)) = Some (zlen bl, n) /\
  skip_word (S (Z.to_nat n)) b (zlen bl) (zlen bl + n) = Some (zlen bl + zlen nm) /\
  buf_sub b (zlen bl) (zlen nm) = nm /\ 0 < zlen nm.
Proof.
  intros (Hbl & Hnm & Ho & Ha & Ht & _ & Hlen) b n. destruct (word_bytes_start _ Hnm) as (c & s & Ec & Hc). cbn [word_bytes] in Ec.
  destruct Hnm as (_ & Hplain & _ & _). unfold command_line in *.
  assert (Hnb : zlen bl + n = zlen (bl ++ nm ++ line_bytes l tail)) by (unfold n; by rewrite <- zlen_app).
  pose proof (zlen_nonneg bl). pose proof (zlen_nonneg (line_bytes l tail)).
  assert (Hn : n = zlen nm + zlen (line_bytes l tail)) by (unfold n; by rewrite zlen_app).
  assert (Hnm0 : 0 < zlen nm) by (rewrite Ec, zlen_cons; pose proof (zlen_nonneg s); lia).
  unfold b. rewrite <- !app_assoc. destruct (follows l tail rest Ha Ho Ht) as (c' & q & Eq & Hc'). split; [|split; [|split; [|done]]].
  - pose proof (trimmed bl (S (length (bl ++ nm ++ line_bytes l tail ++ 0 :: rest))) [] (nm ++ line_bytes l tail ++ 0 :: rest) (zlen (bl ++ nm ++ line_bytes l tail))) as Htr.
    cbn [app] in Htr. change (@zlen Z []) with 0 in Htr. rewrite Htr; [do 2 f_equal; lia|done|by rewrite Ec|rewrite length_app; lia|lia].
  - rewrite Eq. apply word_skipped; [done|lia|unfold zlen in *; lia|].
    destruct Hc' as [Hc'|[-> ->]]; [by left|right]. rewrite Hn. change (zlen (line_bytes [] [])) with 0. lia.
  - rewrite buf_sub_skip, Z.sub_diag by lia. by apply buf_sub_here.
Qed.

(** A line whose first word is the name of a command runs the first command of
    the table with that name, with the words of the line. *)
Lemma command_executed depth bl nm l tail rest f : command_ok bl nm l tail -> find_command syscall_table nm = Some f ->
  let args := nm :: map (fun x => word_text x.2) l in
  exists b, msh_exec syscall_table call open_file mem malloced (S depth) (command_line bl nm l tail ++ 0 :: rest) (zlen (command_line bl nm l tail))
    = Some (call f args, [Ran f args], b).
Proof using names_ok.
  intros Hok Hf args. destruct (name_found bl nm l tail rest Hok) as (Htr & Hsk & Hsub & Hpos).
  destruct Hok as (Hbl & Hnm & Ho & Ha & Ht & Hn & Hlen). pose proof (zlen_nonneg (line_bytes l tail)).
  cbn [msh_exec]. rewrite Htr. cbn [mbind option_bind]. rewrite zlen_app in *. destruct (Z.eqb_spec (zlen nm + zlen (line_bytes l tail)) 0); [lia|].
  unfold _msh_exec_cmd. rewrite Hsk. cbn [mbind option_bind]. replace (zlen bl + zlen nm - zlen bl) with (zlen nm) by lia.
  destruct (Z.eqb_spec (zlen nm) 0); [lia|]. rewrite Hsub. replace (Z.to_nat (zlen nm)) with (length nm) by (unfold zlen; by rewrite Nat2Z.id).
  rewrite found_cmd, Hf by (done || apply Hnm). cbn [mbind option_bind].
  assert (Ho' : Forall spaced_ok (([], Plain nm) :: l)) by (by constructor).
  assert (Ha' : apart false (([], Plain nm) :: l)) by done.
  assert (El : line_bytes (([], Plain nm) :: l) tail = nm ++ line_bytes l tail) by (unfold line_bytes; cbn [map concat]; by rewrite <- app_assoc).
  pose proof (splits (([], Plain nm) :: l) (S (Z.to_nat (zlen nm + zlen (line_bytes l tail)))) bl [] tail rest false Ho' Ht Ha') as Hs.
  rewrite El, zlen_app in Hs. unfold msh_split, command_line. rewrite <- !app_assoc in *. rewrite Hs;
    [|rewrite zlen_cons; change (@zlen Z []) with 0; lia|rewrite length_app; unfold zlen; lia]. cbn [mbind option_bind app].
  destruct (Z.eqb_spec (zlen (words_at (zlen bl) (([], Plain nm) :: l))) 0) as [E|_].
  { cbn [words_at] in E. rewrite zlen_cons in E. pose proof (zlen_nonneg (words_at (zlen bl + zlen (spaced_bytes ([], Plain nm))) l)). lia. }
  assert (Hargs : arguments (bl ++ split_line (([], Plain nm) :: l) tail rest) (words_at (zlen bl) (([], Plain nm) :: l)) = Some args).
  { unfold split_line. destruct tail as [|c tail]; [exact (args_read _ bl rest false Ho' Ha')|].
    exact (args_read _ bl (replicate (length tail) 0 ++ 0 :: rest) false Ho' Ha'). }
  rewrite Hargs. cbn [mbind option_bind]. by eexists.
Qed.

(** A line for no command and no script is answered with its start, up to the
    first space. *)
Lemma command_refused depth bl nm l tail rest : command_ok bl nm l tail -> find_command syscall_table nm = None ->
  has_sub nm (str ".sh") = false -> has_sub nm (str ".SH") = false -> cstring (line_bytes l tail) ->
  exists b, msh_exec syscall_table call open_file mem malloced (S depth) (command_line bl nm l tail ++ 0 :: rest) (zlen (command_line bl nm l tail))
    = Some (-1, [Print (before_space (nm ++ line_bytes l tail) ++ str ": command not found." ++ [newline_ch])], b).
Proof using names_ok.
  intros Hok Hf Hsh HSH Hcs. destruct (name_found bl nm l tail rest Hok) as (Htr & Hsk & Hsub & Hpos).
  destruct Hok as (Hbl & Hnm & Ho & Ha & Ht & Hn & Hlen). pose proof (zlen_nonneg (line_bytes l tail)). pose proof (zlen_nonneg bl).
  cbn [msh_exec]. rewrite Htr. cbn [mbind option_bind]. rewrite zlen_app in *. destruct (Z.eqb_spec (zlen nm + zlen (line_bytes l tail)) 0); [lia|].
  unfold _msh_exec_cmd. rewrite Hsk. cbn [mbind option_bind]. replace (zlen bl + zlen nm - zlen bl) with (zlen nm) by lia.
  destruct (Z.eqb_spec (zlen nm) 0); [lia|]. rewrite Hsub. replace (Z.to_nat (zlen nm)) with (length nm) by (unfold zlen; by rewrite Nat2Z.id).
  rewrite found_cmd, Hf by (done || apply Hnm). cbn [mbind option_bind].
  unfold msh_exec_script. destruct (Z.eqb_spec (zlen nm + zlen (line_bytes l tail)) 0); [lia|]. rewrite Hsk. cbn [mbind option_bind].
  replace (zlen bl + zlen nm - zlen bl) with (zlen nm) by lia. rewrite Hsub, (buf_cstr_none nm) by apply Hnm. cbn [default]. rewrite Hsh, HSH. cbn [orb].
  assert (Hno : exists st, (if negb mem then Some (-5, []) else Some (-1, [])) = Some (st, @nil out) /\ (st =? 0) = false)
    by (destruct mem; by eexists).
  destruct Hno as (st & -> & Hst). cbn [mbind option_bind]. rewrite Hst. unfold truncate, command_line.
  rewrite <- !app_assoc, drop_words by done. rewrite (app_assoc nm), buf_cstr_app by (by apply Forall_app; split; [apply Hnm|]). cbn [mbind option_bind].
  assert (Hb : forall s, zlen (before_space s) <= zlen s).
  { induction s as [|c s IH]; [done|]. cbn [before_space]. destruct (c =? 32); rewrite ?zlen_cons, ?(@zlen_nil Z); pose proof (zlen_nonneg s); lia. }
  specialize (Hb (nm ++ line_bytes l tail)). pose proof (zlen_nonneg (before_space (nm ++ line_bytes l tail))).
  rewrite buf_set_some; [cbn [mbind option_bind]; by eexists|]. rewrite !zlen_app, zlen_cons in *. pose proof (zlen_nonneg rest). lia.
Qed.

End Executed.

(** A line of at most ten words, each as it stands or between quotes,
    with any blanks before, between and after them, is split into exactly
    these words; the buffer behind its terminator is left alone. *)
Theorem msh_split_words l tail rest : Forall spaced_ok l -> apart false l -> Forall (fun c => is_blank c = true) tail ->
  zlen l <= FINSH_ARG_MAX ->
  exists b argv, msh_split (line_bytes l tail ++ 0 :: rest) 0 (zlen (line_bytes l tail)) = Some (b ++ 0 :: rest, argv) /\
    length b = length (line_bytes l tail) /\ arguments (b ++ 0 :: rest) argv = Some (map (fun x => word_text x.2) l).
Proof.
  intros Ho Ha Ht Hn. unfold msh_split.
  pose proof (splits l (S (Z.to_nat (zlen (line_bytes l tail)))) [] [] tail rest false Ho Ht Ha) as Hs. cbn [app] in Hs.
  exists (concat (map split_bytes l) ++ replicate (length tail) 0), (words_at 0 l).
  rewrite <- app_assoc. split; [apply Hs; [done|unfold zlen; lia]|]. split.
  - unfold line_bytes. rewrite !length_app, length_replicate. f_equal. clear. induction l as [|x l IH]; [done|].
    cbn [map concat]. rewrite !length_app, IH. pose proof (split_bytes_len x). unfold zlen in *. lia.
  - destruct tail as [|c tail]; [exact (args_read l [] rest false Ho Ha)|].
    exact (args_read l [] (replicate (length tail) 0 ++ 0 :: rest) false Ho Ha).
Qed.

(** [ls  -l "a b"] and a blank. *)
Lemma msh_split_words_witness :
  exists b argv, msh_split (str "ls  -l " ++ 34 :: str "a b" ++ [34; 32; 0]) 0 13 = Some (b ++ [0], argv) /\
    arguments (b ++ [0]) argv = Some [str "ls"; str "-l"; str "a b"].
Proof.
  destruct (msh_split_words [([], Plain (str "ls")); (str "  ", Plain (str "-l")); (str " ", Quoted (str "a b"))] [32] []) as (b & argv & E & _ & Ea).
  - repeat constructor; discriminate.
  - repeat split; discriminate.
  - repeat constructor.
  - discriminate.
  - exists b, argv. split; [exact E|exact Ea].
Defined.

(** The tenth blank is enough for the complaint about too many arguments: the
    eleventh word is dropped. *)
Example eleven_words :
  option_map (fun '(b, argv) => zlen argv) (msh_split (str "a b c d e f g h i j k" ++ [0]) 0 21) = Some 10.
Proof. reflexivity. Qed.

(** A quote that is not closed takes the rest of the line. *)
Example open_quote :
  (('(b, argv) ← msh_split (str "a " ++ 34 :: str "b c" ++ [0]) 0 6; arguments b argv) : option _) = Some [str "a"; str "b c"].
Proof. reflexivity. Qed.

Definition demo_commands : list finsh_syscall :=
  [FinshSyscall (str "hello") (str "not for msh") 1; FinshSyscall (str "__cmd_list_thread") (str "list thread") 2;
   FinshSyscall (str "__cmd_list_timer") (str "list timer") 3; FinshSyscall (str "__cmd_ls") (str "list files") 4].


(** A script runs its lines, comments and empty lines aside. *)
Example script_runs :
  option_map (fun '(_, outs, _) => outs)
    (msh_exec demo_commands (fun _ _ => 0) (fun n => if bool_decide (n = str "/bin/go.sh") then Some (str "# go" ++ [10; 10] ++ str "ls a" ++ [13; 10] ++ str "nothing") else None)
       true (replicate 128 7) 3 (str "go.sh" ++ [0]) 5)
  = Some [Ran 4 [str "ls"; str "a"]; Print (str "nothing: command not found." ++ [10])].
Proof. reflexivity. Qed.

(** A line of a script that fills the buffer is not terminated: the loop over
    its last word reads behind the buffer. *)
Example script_line_too_long :
  msh_exec demo_commands (fun _ _ => 0) (fun _ => Some (str "ls " ++ replicate 130 97)) true (replicate 128 7) 3 (str "go.sh" ++ [0]) 5 = None.
Proof. reflexivity. Qed.

(** ** What a tab completes *)

Lemma starts_prefix s p : starts_with s p = true <-> exists r, s = p ++ r.
Proof.
  unfold starts_with. rewrite bool_decide_eq_true. split.
  - intros <-. exists (drop (length p) s). by rewrite take_drop.
  - intros [r ->]. by rewrite take_app_length.
Qed.

Lemma common_agree a : forall b, take (Z.to_nat (str_common a b)) a = take (Z.to_nat (str_common a b)) b /\
  0 <= str_common a b <= zlen a /\ str_common a b <= zlen b.
Proof.
  induction a as [|x a IH]; intros b; [pose proof (zlen_nonneg b); destruct b; by repeat split|].
  destruct b as [|y b]; [pose proof (zlen_nonneg (x :: a)); by repeat split|]. cbn [str_common]. rewrite !zlen_cons.
  destruct (Z.eqb_spec x y) as [->|].
  - destruct (IH b) as (E & H1 & H2). split; [|lia].
    replace (Z.to_nat (1 + str_common a b)) with (S (Z.to_nat (str_common a b))) by lia. cbn [take]. by rewrite E.
  - pose proof (zlen_nonneg a). pose proof (zlen_nonneg b). split; [done|lia].
Qed.

Lemma common_longest p a b : zlen p <= str_common (p ++ a) (p ++ b).
Proof. induction p as [|x p IH]; cbn [app str_common]; [apply common_agree|]. rewrite Z.eqb_refl, zlen_cons. lia. Qed.

(** [p] is the longest text that all of [names] begin with. *)
Definition longest_common (p : list Z) (names : list (list Z)) : Prop :=
  Forall (fun n => starts_with n p = true) names /\ forall q, Forall (fun n => starts_with n q = true) names -> zlen q <= zlen p.

Lemma starts_take p q s : starts_with s p = true -> starts_with s q = true -> zlen q <= zlen p -> starts_with p q = true.
Proof.
  rewrite !starts_prefix. intros [r ->] [r' E] Hl. exists (drop (length q) p).
  apply (f_equal (take (length q))) in E. rewrite take_app_le, take_app_length in E by (unfold zlen in Hl; lia). by rewrite <- E at 1; rewrite take_drop.
Qed.

(** The loop keeps a text that all names so far begin with, the longest. *)
Lemma candidates_more names prefix : prefix <> [] -> forall first ml seen, In first seen -> starts_with first prefix = true ->
  zlen prefix <= ml <= zlen first -> longest_common (take (Z.to_nat ml) first) seen ->
  let '(f, k) := candidates names prefix first ml in
  f = first /\ zlen prefix <= k <= zlen first /\
  longest_common (take (Z.to_nat k) first) (seen ++ List.filter (fun n => starts_with n prefix) names).
Proof.
  intros Hp. induction names as [|n names IH]; intros first ml seen Hin Hs Hl [Hall Hlong]; cbn [candidates List.filter].
  { rewrite app_nil_r. by repeat split; try lia. }
  assert (0 < zlen prefix) by (destruct prefix as [|c p0]; [done|rewrite zlen_cons; pose proof (zlen_nonneg p0); lia]).
  destruct (starts_with n prefix) eqn:En; [|by apply IH].
  destruct (Z.eqb_spec ml 0); [lia|]. set (c := str_common first n).
  replace (if c <? ml then c else ml) with (Z.min c ml) by (destruct (Z.ltb_spec c ml); lia).
  destruct (common_agree first n) as (Eagree & Hc & Hcn). fold c in Eagree, Hc, Hcn.
  assert (Hpc : zlen prefix <= c).
  { apply starts_prefix in Hs as [r ->]. apply starts_prefix in En as [r' ->]. apply common_longest. }
  set (k := Z.min c ml). assert (Hk : Z.to_nat k = (Z.to_nat c `min` Z.to_nat ml)%nat) by lia.
  assert (Hlk : zlen (take (Z.to_nat k) first) = k) by (rewrite zlen_take; lia).
  assert (Hlml : zlen (take (Z.to_nat ml) first) = ml) by (rewrite zlen_take; lia).
  assert (Hin' : In first (seen ++ [n])) by (apply in_app_iff; by left).
  specialize (IH first k (seen ++ [n]) Hin' Hs ltac:(lia)). rewrite <- app_assoc in IH. apply IH. split.
  - apply Forall_app. split.
    + eapply Forall_impl; [exact Hall|]. intros m Hm. apply starts_prefix in Hm as [r ->]. apply starts_prefix.
      exists (drop (Z.to_nat k) (take (Z.to_nat ml) first) ++ r). rewrite app_assoc. f_equal.
      replace (take (Z.to_nat k) first) with (take (Z.to_nat k) (take (Z.to_nat ml) first)) by (rewrite take_take; f_equal; lia).
      by rewrite take_drop.
    + constructor; [|done]. apply starts_prefix. exists (drop (Z.to_nat k) n).
      replace (take (Z.to_nat k) first) with (take (Z.to_nat k) n); [by rewrite take_drop|].
      replace (take (Z.to_nat k) n) with (take (Z.to_nat k) (take (Z.to_nat c) n)) by (rewrite take_take; f_equal; lia).
      rewrite <- Eagree, take_take. f_equal. lia.
  - intros q Hq. apply Forall_app in Hq as [Hq Hqn]. apply Forall_cons in Hqn as [Hqn _]. rewrite Hlk.
    specialize (Hlong q Hq). rewrite Hlml in Hlong. rewrite Forall_forall in Hq. specialize (Hq first ltac:(by apply list_elem_of_In)).
    apply starts_prefix in Hq as [r Hqf]. apply starts_prefix in Hqn as [r' Hqn]. pose proof (common_longest q r r') as Hcl. rewrite <- Hqf, <- Hqn in Hcl. fold c in Hcl. lia.
Qed.

Lemma candidates_found names prefix : prefix <> [] -> List.filter (fun n => starts_with n prefix) names <> [] ->
  let '(f, k) := candidates names prefix [] 0 in
  zlen prefix <= k <= zlen f /\ In f (List.filter (fun n => starts_with n prefix) names) /\
  longest_common (take (Z.to_nat k) f) (List.filter (fun n => starts_with n prefix) names).
Proof.
  intros Hp. induction names as [|n names IH]; [done|]. cbn [candidates List.filter]. destruct (starts_with n prefix) eqn:En; [|done]. intros _.
  change (0 =? 0) with true. cbn match.
  assert (Hself : str_common n n = zlen n).
  { pose proof (common_longest n [] []) as H. rewrite app_nil_r in H. destruct (common_agree n n) as (_ & ? & _). lia. }
  rewrite Hself, Z.ltb_irrefl. assert (Hle : zlen prefix <= zlen n) by (apply starts_prefix in En as [r ->]; rewrite zlen_app; pose proof (zlen_nonneg r); lia).
  assert (Hall : take (Z.to_nat (zlen n)) n = n) by (rewrite take_ge; [done|unfold zlen; lia]).
  pose proof (candidates_more names prefix Hp n (zlen n) [n] ltac:(by left) En ltac:(lia)) as H. rewrite Hall in H.
  destruct (candidates names prefix n (zlen n)) as [f k]. destruct H as (-> & Hk & Hlc).
  - split; [constructor; [|done]; apply starts_prefix; exists []; by rewrite app_nil_r|].
    intros q Hq. apply Forall_cons in Hq as [Hq _]. apply starts_prefix in Hq as [r ->]. rewrite zlen_app. pose proof (zlen_nonneg r). lia.
  - split; [lia|]. split; [by left|]. exact Hlc.
Qed.

(** A line as it is kept: its text and zeros up to its size. *)
Definition padded (size : Z) (text : list Z) : list Z := text ++ replicate (Z.to_nat (size - zlen text)) 0.

Lemma padded_cstr size text : cstring text -> zlen text < size -> buf_cstr (padded size text) = Some text.
Proof. intros Hc Hl. unfold padded. destruct (Z.to_nat (size - zlen text)) eqn:E; [lia|]. by apply buf_cstr_app. Qed.

Lemma zlen_padded size text : zlen text <= size -> zlen (padded size text) = size.
Proof. intros H. unfold padded. rewrite zlen_app. unfold zlen in *. rewrite length_replicate. lia. Qed.

Lemma padded_over size text more : zlen text <= zlen more <= size -> starts_with more text = true ->
  buf_write (padded size text) 0 more = Some (padded size more).
Proof.
  intros Hl Hs. apply starts_prefix in Hs as [r ->]. unfold padded. rewrite zlen_app in *. pose proof (zlen_nonneg r). pose proof (zlen_nonneg text).
  assert (Hr : Z.to_nat (size - zlen text) = (length r + Z.to_nat (size - (zlen text + zlen r)))%nat) by (unfold zlen in *; lia).
  rewrite buf_write_some; [|lia|rewrite !zlen_app; unfold zlen in *; rewrite length_replicate; lia].
  change (Z.to_nat 0) with 0%nat. cbn [take app plus]. rewrite Hr, replicate_add, (length_app text r), (app_assoc text (replicate _ _)).
  rewrite drop_app_length' by (by rewrite length_app, length_replicate). by rewrite app_assoc.
Qed.

(** A tab behind a text without spaces lists the commands that begin with
    it and makes the line the longest text they all begin with; with no such
    command the line stays. *)
Theorem tab_completes table cwd readdir mem size text :
  text <> [] -> cstring text -> last_space text 0 = None -> zlen text < size ->
  let names := List.filter (fun n => starts_with n text) (command_names table) in
  Forall (fun n => zlen n <= size) names ->
  exists p, msh_auto_complete table cwd readdir mem (padded size text) = Some (map print_line names, padded size p) /\
    match names with [] => p = text | _ => longest_common p names end.
Proof.
  intros Hne Hc Hsp Hl names Hfit. unfold msh_auto_complete. rewrite padded_cstr by done. cbn [mbind option_bind].
  destruct text as [|c0 text0]; [done|]. rewrite Hsp. cbn [mbind option_bind]. rewrite padded_cstr by done. cbn [mbind option_bind].
  set (text := c0 :: text0) in *. fold names. pose proof (candidates_found (command_names table) text Hne) as Hf. fold names in Hf.
  destruct (candidates (command_names table) text [] 0) as [f k].
  destruct names as [|n ns] eqn:En; [by exists text|]. destruct (Hf ltac:(done)) as (Hk & Hin & Hlc).
  pose proof (zlen_nonneg text). assert (Hlt : zlen (take (Z.to_nat k) f) = k) by (rewrite zlen_take; lia).
  exists (take (Z.to_nat k) f). split; [|exact Hlc]. rewrite padded_over; [done| |].
  - rewrite Forall_forall in Hfit. specialize (Hfit f ltac:(by apply list_elem_of_In)). rewrite Hlt. lia.
  - destruct Hlc as [Hall _]. rewrite Forall_forall in Hall. specialize (Hall f ltac:(by apply list_elem_of_In)).
    apply (starts_take _ _ f); [done| |lia]. rewrite <- En in Hin. unfold names in Hin. by apply filter_In in Hin as [_ ?].
Qed.

(** [li] *)
Lemma tab_completes_witness :
  exists p, msh_auto_complete demo_commands [47] (fun _ => None) true (padded 80 (str "li")) =
      Some ([print_line (str "list_thread"); print_line (str "list_timer")], padded 80 p) /\
    longest_common p [str "list_thread"; str "list_timer"].
Proof.
  destruct (tab_completes demo_commands [47] (fun _ => None) true 80 (str "li")) as (p & E & Hp).
  - discriminate.
  - repeat constructor.
  - reflexivity.
  - reflexivity.
  - repeat constructor; discriminate.
  - exists p. split; [exact E|exact Hp].
Defined.

(** A name behind a path is completed from the directory. *)
Example tab_completes_path :
  option_map (fun '(_, line) => buf_cstr line)
    (msh_auto_complete demo_commands [47] (fun d => if bool_decide (d = str "/web/") then Some [str "index.html"; str "img"; str "css"] else None) true
       (padded 80 (str "ls web/in")))
  = Some (Some (str "ls web/index.html")).
Proof. reflexivity. Qed.

(** A completion that does not fit the line is written behind it. *)
Example tab_overflows :
  msh_auto_complete [FinshSyscall (str "__cmd_" ++ replicate 81 97) [] 1] [47] (fun _ => None) true (padded 80 (str "a")) = None.
Proof. reflexivity. Qed.
