(* ===== verification/Shell.v ===== *)
(** * The shell's line editor

    Models src/rt-thread/components/finsh/shell.c with the options of
    src/rtconfig.h: keys and escape sequences, the insertion and deletion of
    characters, the history, the tab, and the execution of a line by the
    interpreter of Msh.v.  The theorems show that the buffers and positions
    implement an editor of a text around a cursor, and what is on the screen. *)

From S2P Require Import Prelude Msh.

Local Open Scope Z_scope.

Definition FINSH_CMD_SIZE : Z := 80.
Definition FINSH_HISTORY_LINES : Z := 5.

Inductive input_stat := WAIT_NORMAL | WAIT_SPEC_KEY | WAIT_FUNC_KEY.

(** [struct finsh_shell]; the buffers have [FINSH_CMD_SIZE] bytes. *)
Record finsh_shell := FinshShell {
  stat : input_stat;
  echo_mode : bool;
  current_history : Z;
  history_count : Z;
  cmd_history : list (list Z);
  line : list Z;
  line_position : Z;
  line_curpos : Z
}.

Definition set_stat (st : input_stat) (sh : finsh_shell) : finsh_shell :=
  FinshShell st (echo_mode sh) (current_history sh) (history_count sh) (cmd_history sh) (line sh) (line_position sh) (line_curpos sh).
Definition set_current (i : Z) (sh : finsh_shell) : finsh_shell :=
  FinshShell (stat sh) (echo_mode sh) i (history_count sh) (cmd_history sh) (line sh) (line_position sh) (line_curpos sh).
Definition set_history (i n : Z) (h : list (list Z)) (sh : finsh_shell) : finsh_shell :=
  FinshShell (stat sh) (echo_mode sh) i n h (line sh) (line_position sh) (line_curpos sh).
Definition set_line (l : list Z) (pos cur : Z) (sh : finsh_shell) : finsh_shell :=
  FinshShell (stat sh) (echo_mode sh) (current_history sh) (history_count sh) (cmd_history sh) l (u8 pos) (u8 cur).

(** The string at [i] in the line. *)
Definition line_from (l : list Z) (i : Z) : option (list Z) := buf_cstr (drop (Z.to_nat i) l).

Definition backspaces (n : Z) : list out := replicate (Z.to_nat n) (Print [8]).

(** ["\033[2K\r"]: clear the row. *)
Definition clear_row : list Z := [27; 91; 50; 75; 13].

Section Shell.
(** The prompt; a tab's completion; what a line does. *)
Context (prompt : list Z) (auto_complete : list Z -> option (list out * list Z))
  (exec : list Z -> Z -> option (Z * list out * list Z)).

Definition shell_handle_history (sh : finsh_shell) : option (list out) :=
  text ← buf_cstr (line sh); Some [Print clear_row; Print (prompt ++ text)].

(** The entry of the history [memset] and [memcpy] make. *)
Definition history_entry (sh : finsh_shell) : option (list Z) :=
  buf_write (replicate (Z.to_nat FINSH_CMD_SIZE) 0) 0 (take (Z.to_nat (line_position sh)) (line sh)).

Definition shell_push_history (sh : finsh_shell) : option finsh_shell :=
  sh ← ((if line_position sh =? 0 then Some sh
        else if FINSH_HISTORY_LINES <=? history_count sh then
          last ← buf_get (cmd_history sh) (FINSH_HISTORY_LINES - 1);
          if bool_decide (last = line sh) then Some sh
          else
            entry ← history_entry sh;
            Some (set_history (current_history sh) FINSH_HISTORY_LINES (drop 1 (cmd_history sh) ++ [entry]) sh)
        else
          same ← ((if history_count sh =? 0 then Some false
                   else last ← buf_get (cmd_history sh) (history_count sh - 1); Some (bool_decide (last = line sh))) : option bool);
          match same with
          | true => Some sh
          | false =>
              entry ← history_entry sh;
              h ← buf_set (cmd_history sh) (history_count sh) entry;
              Some (set_history (history_count sh) (u16 (history_count sh + 1)) h sh)
          end) : option finsh_shell);
  Some (set_current (history_count sh) sh).

(** "copy the history command" *)
Definition recall (sh : finsh_shell) : option (finsh_shell * list out) :=
  l ← buf_get (cmd_history sh) (current_history sh);
  text ← buf_cstr l;
  let sh := set_line l (zlen text) (zlen text) sh in
  outs ← shell_handle_history sh; Some (sh, outs).

Definition up_key (sh : finsh_shell) : option (finsh_shell * list out) :=
  if 0 <? current_history sh then recall (set_current (current_history sh - 1) sh)
  else Some (set_current 0 sh, []).

Definition down_key (sh : finsh_shell) : option (finsh_shell * list out) :=
  if current_history sh <? history_count sh - 1 then recall (set_current (current_history sh + 1) sh)
  else if negb (history_count sh =? 0) then recall (set_current (history_count sh - 1) sh)
  else Some (sh, []).

Definition left_key (sh : finsh_shell) : option (finsh_shell * list out) :=
  if negb (line_curpos sh =? 0) then Some (set_line (line sh) (line_position sh) (line_curpos sh - 1) sh, [Print [8]])
  else Some (sh, []).

Definition right_key (sh : finsh_shell) : option (finsh_shell * list out) :=
  if line_curpos sh <? line_position sh then
    c ← buf_get (line sh) (line_curpos sh);
    Some (set_line (line sh) (line_position sh) (line_curpos sh + 1) sh, [Print [c]])
  else Some (sh, []).

Definition shell_auto_complete (prefix : list Z) : option (list out * list Z) :=
  '(outs, prefix) ← auto_complete prefix;
  text ← buf_cstr prefix;
  Some ([Print [10]] ++ outs ++ [Print (prompt ++ text)], prefix).

Definition tab_key (sh : finsh_shell) : option (finsh_shell * list out) :=
  '(outs, l) ← shell_auto_complete (line sh);
  text ← buf_cstr l;
  Some (set_line l (zlen text) (zlen text) sh, backspaces (line_curpos sh) ++ outs).

Definition backspace_key (sh : finsh_shell) : option (finsh_shell * list out) :=
  if line_curpos sh =? 0 then Some (sh, [])
  else
    let pos := line_position sh - 1 in let cur := line_curpos sh - 1 in
    if cur <? pos then
      l ← buf_write (line sh) cur (buf_sub (line sh) (cur + 1) (pos - cur));
      l ← buf_set l pos 0;
      text ← line_from l cur;
      Some (set_line l pos cur sh, Print ([8] ++ text ++ [32; 32; 8]) :: backspaces (pos - cur + 1))
    else
      l ← buf_set (line sh) pos 0; Some (set_line l pos cur sh, [Print [8; 32; 8]]).

Definition enter_key (sh : finsh_shell) : option (finsh_shell * list out) :=
  sh ← shell_push_history sh;
  '(_, outs, _) ← exec (line sh) (line_position sh);
  Some (set_line (replicate (Z.to_nat FINSH_CMD_SIZE) 0) 0 0 sh,
    (if echo_mode sh then [Print [10]] else []) ++ outs ++ [Print prompt]).

Definition char_key (sh : finsh_shell) (ch : Z) : option (finsh_shell * list out) :=
  let pos := if FINSH_CMD_SIZE <=? line_position sh then 0 else line_position sh in
  let cur := line_curpos sh in
  '(l, outs) ←
    ((if cur <? pos then
       l ← buf_write (line sh) (cur + 1) (buf_sub (line sh) cur (pos - cur));
       l ← buf_set l cur ch;
       echo ← ((if echo_mode sh then text ← line_from l cur; Some [Print text] else Some []) : option (list out));
       Some (l, echo ++ backspaces (pos - cur))
     else
       l ← buf_set (line sh) pos ch; Some (l, if echo_mode sh then [Print [ch]] else [])) : option (list Z * list out));
  let pos := u8 (pos + 1) in
  Some (if FINSH_CMD_SIZE <=? pos then set_line l 0 0 sh else set_line l pos (cur + 1) sh, outs).

(** A key that is no part of an escape sequence. *)
Definition normal_key (sh : finsh_shell) (ch : Z) : option (finsh_shell * list out) :=
  if (ch =? 0) || (ch =? 255) then Some (sh, [])
  else if ch =? 9 then tab_key sh
  else if (ch =? 127) || (ch =? 8) then backspace_key sh
  else if (ch =? 13) || (ch =? 10) then enter_key sh
  else char_key sh ch.

(** One turn of the loop of [finsh_thread_entry] with what [finsh_getchar] returns. *)
Definition finsh_key (sh : finsh_shell) (ch : Z) : option (finsh_shell * list out) :=
  if ch <? 0 then Some (sh, [])
  else if ch =? 27 then Some (set_stat WAIT_SPEC_KEY sh, [])
  else
    match stat sh with
    | WAIT_SPEC_KEY =>
        if ch =? 91 then Some (set_stat WAIT_FUNC_KEY sh, []) else normal_key (set_stat WAIT_NORMAL sh) ch
    | WAIT_FUNC_KEY =>
        let sh := set_stat WAIT_NORMAL sh in
        if ch =? 65 then up_key sh
        else if ch =? 66 then down_key sh
        else if ch =? 68 then left_key sh
        else if ch =? 67 then right_key sh
        else normal_key sh ch
    | WAIT_NORMAL => normal_key sh ch
    end.

Fixpoint finsh_keys (sh : finsh_shell) (chs : list Z) : option (finsh_shell * list out) :=
  match chs with
  | [] => Some (sh, [])
  | ch :: chs => '(sh, outs) ← finsh_key sh ch; '(sh, outs') ← finsh_keys sh chs; Some (sh, outs ++ outs')
  end.

(** The shell [finsh_system_init] allocates, and the first prompt. *)
Definition finsh_system_init : finsh_shell :=
  FinshShell WAIT_NORMAL true 0 0 (replicate 5 (replicate 80 0)) (replicate 80 0) 0 0.

Definition finsh_thread_entry (chs : list Z) : option (finsh_shell * list out) :=
  '(sh, outs) ← finsh_keys finsh_system_init chs; Some (sh, Print prompt :: outs).

(** ** An editor *)

(** The text before and after the cursor, the escape sequence, the history,
    the line of the history that is shown. *)
Record editor := Editor {
  before : list Z;
  after : list Z;
  sequence : input_stat;
  hist : list (list Z);
  shown : Z
}.

Definition text (ed : editor) : list Z := before ed ++ after ed.

(** The history with a line: not twice in a row, and at most five. *)
Definition remember (h : list (list Z)) (l : list Z) : list (list Z) :=
  if bool_decide (l = []) || bool_decide (last h = Some l) then h
  else (if FINSH_HISTORY_LINES <=? zlen h then drop 1 h else h) ++ [l].

Definition ed_recall (ed : editor) (i : Z) : option (editor * list out) :=
  l ← buf_get (hist ed) i;
  Some (Editor l [] WAIT_NORMAL (hist ed) i, [Print clear_row; Print (prompt ++ l)]).

(** A key that edits; [None] when the line gets too long. *)
Definition ed_normal (echo : bool) (ed : editor) (ch : Z) : option (editor * list out) :=
  let '(Editor b a _ h i) := ed in
  let ed := Editor b a WAIT_NORMAL h i in
  if (ch =? 0) || (ch =? 255) then Some (ed, [])
  else if ch =? 9 then
    '(outs, l) ← auto_complete (padded FINSH_CMD_SIZE (b ++ a));
    t ← buf_cstr l;
    if bool_decide (l = padded FINSH_CMD_SIZE t) && bool_decide (cstring t) then
      Some (Editor t [] WAIT_NORMAL h i, backspaces (zlen b) ++ [Print [10]] ++ outs ++ [Print (prompt ++ t)])
    else None
  else if (ch =? 127) || (ch =? 8) then
    match b with
    | [] => Some (ed, [])
    | _ => Some (Editor (removelast b) a WAIT_NORMAL h i,
             match a with [] => [Print [8; 32; 8]] | _ => Print ([8] ++ a ++ [32; 32; 8]) :: backspaces (zlen a + 1) end)
    end
  else if (ch =? 13) || (ch =? 10) then
    let h := remember h (b ++ a) in
    '(_, outs, _) ← exec (padded FINSH_CMD_SIZE (b ++ a)) (zlen (b ++ a));
    Some (Editor [] [] WAIT_NORMAL h (zlen h), (if echo then [Print [10]] else []) ++ outs ++ [Print prompt])
  else if zlen (b ++ a) + 1 <? FINSH_CMD_SIZE then
    Some (Editor (b ++ [ch]) a WAIT_NORMAL h i, (if echo then [Print (ch :: a)] else []) ++ backspaces (zlen a))
  else None.

Definition ed_key (echo : bool) (ed : editor) (ch : Z) : option (editor * list out) :=
  let '(Editor b a st h i) := ed in
  if ch =? 27 then Some (Editor b a WAIT_SPEC_KEY h i, [])
  else
    match st with
    | WAIT_SPEC_KEY => if ch =? 91 then Some (Editor b a WAIT_FUNC_KEY h i, []) else ed_normal echo ed ch
    | WAIT_FUNC_KEY =>
        let ed := Editor b a WAIT_NORMAL h i in
        if ch =? 65 then if 0 <? i then ed_recall ed (i - 1) else Some (ed, [])
        else if ch =? 66 then
          match h with [] => Some (ed, []) | _ => ed_recall ed (Z.min (i + 1) (zlen h - 1)) end
        else if ch =? 68 then
          match b with [] => Some (ed, []) | _ => Some (Editor (removelast b) (default 0 (last b) :: a) WAIT_NORMAL h i, [Print [8]]) end
        else if ch =? 67 then
          match a with [] => Some (ed, []) | c :: a => Some (Editor (b ++ [c]) a WAIT_NORMAL h i, [Print [c]]) end
        else ed_normal echo ed ch
    | WAIT_NORMAL => ed_normal echo ed ch
    end.

Fixpoint ed_keys (echo : bool) (ed : editor) (chs : list Z) : option (editor * list out) :=
  match chs with
  | [] => Some (ed, [])
  | ch :: chs => '(ed, outs) ← ed_key echo ed ch; '(ed, outs') ← ed_keys echo ed chs; Some (ed, outs ++ outs')
  end.
End Shell.

(** ** The shell implements the editor *)

Definition entry_ok (l : list Z) : Prop := cstring l /\ zlen l < FINSH_CMD_SIZE.

Record edits (echo : bool) (ed : editor) (sh : finsh_shell) : Prop := {
  edits_echo : echo_mode sh = echo;
  edits_stat : stat sh = sequence ed;
  edits_line : line sh = padded FINSH_CMD_SIZE (text ed);
  edits_pos : line_position sh = zlen (text ed);
  edits_cur : line_curpos sh = zlen (before ed);
  edits_text : entry_ok (text ed);
  edits_hist : exists free, cmd_history sh = map (padded FINSH_CMD_SIZE) (hist ed) ++ free /\ zlen (hist ed) + zlen free = FINSH_HISTORY_LINES;
  edits_entries : Forall entry_ok (hist ed);
  edits_count : history_count sh = zlen (hist ed);
  edits_shown : current_history sh = shown ed /\ 0 <= shown ed <= zlen (hist ed)
}.

Lemma entry_cstr l : entry_ok l -> buf_cstr (padded FINSH_CMD_SIZE l) = Some l.
Proof. intros [Hc Hl]. by apply padded_cstr. Qed.

Lemma padded_inj l l' : entry_ok l -> entry_ok l' -> padded FINSH_CMD_SIZE l = padded FINSH_CMD_SIZE l' -> l = l'.
Proof. intros H H' E. apply (f_equal buf_cstr) in E. rewrite !entry_cstr in E by done. by injection E. Qed.

(** The line at the cursor. *)
Lemma line_at b a : entry_ok (b ++ a) -> line_from (padded FINSH_CMD_SIZE (b ++ a)) (zlen b) = Some a.
Proof.
  intros [Hc Hl]. unfold line_from, padded. rewrite <- app_assoc, drop_words by done.
  assert (Hn : exists n, Z.to_nat (FINSH_CMD_SIZE - zlen (b ++ a)) = S n) by (exists (Z.to_nat (FINSH_CMD_SIZE - zlen (b ++ a) - 1)); lia).
  destruct Hn as [n ->]. cbn [replicate]. apply buf_cstr_app. by apply Forall_app in Hc as [_ ?].
Qed.

(** The entry for a line is the line. *)
Lemma entry_of l sh : line sh = padded FINSH_CMD_SIZE l -> line_position sh = zlen l -> zlen l < FINSH_CMD_SIZE ->
  history_entry sh = Some (padded FINSH_CMD_SIZE l).
Proof.
  intros El Ep Hl. unfold history_entry. rewrite El, Ep. unfold padded at 1. rewrite take_zlen_app.
  pose proof (padded_over FINSH_CMD_SIZE [] l) as Hp. change (@zlen Z []) with 0 in Hp. pose proof (zlen_nonneg l).
  apply Hp; [lia|by apply starts_prefix; exists l].
Qed.

Lemma last_get {A} (h : list A) n : zlen h = n -> buf_get h (n - 1) = last h.
Proof.
  intros <-. destruct h as [|x h _] using rev_ind; [done|]. rewrite last_snoc, zlen_app. change (zlen [x]) with 1.
  apply (get_here h x [] (zlen h + 1 - 1)). lia.
Qed.

Lemma zlen_map {A B} (f : A -> B) l : zlen (map f l) = zlen l.
Proof. unfold zlen. by rewrite length_map. Qed.

(** The comparison with the last line of the history. *)
Lemma same_as_last h free l : Forall entry_ok h -> entry_ok l -> h <> [] ->
  exists c, buf_get (map (padded FINSH_CMD_SIZE) h ++ free) (zlen h - 1) = Some c /\
    bool_decide (c = padded FINSH_CMD_SIZE l) = bool_decide (last h = Some l).
Proof.
  intros Hh Hl Hne. destruct h as [|x h _] using rev_ind; [done|]. apply Forall_app in Hh as [_ Hx]. apply Forall_cons in Hx as [Hx _].
  exists (padded FINSH_CMD_SIZE x). split.
  - rewrite map_app, zlen_app, <- app_assoc. change (zlen [x]) with 1. cbn [map app]. apply get_here. rewrite zlen_map. lia.
  - rewrite last_snoc. apply bool_decide_ext. split; [intros E; f_equal; by apply padded_inj|by intros [= ->]].
Qed.

Lemma pushed echo ed sh : edits echo ed sh ->
  let h := remember (hist ed) (text ed) in
  exists sh', shell_push_history sh = Some sh' /\ edits echo (Editor (before ed) (after ed) (sequence ed) h (zlen h)) sh'.
Proof.
  intros [Ee Es El Ep Ec Ht (free & Eh & Hf) Hh En _] h. unfold shell_push_history, remember in *.
  assert (Hdone : forall sh' h free', line sh' = line sh -> echo_mode sh' = echo_mode sh -> stat sh' = stat sh ->
    line_position sh' = line_position sh -> line_curpos sh' = line_curpos sh -> history_count sh' = zlen h ->
    cmd_history sh' = map (padded FINSH_CMD_SIZE) h ++ free' -> zlen h + zlen free' = FINSH_HISTORY_LINES -> Forall entry_ok h ->
    edits echo (Editor (before ed) (after ed) (sequence ed) h (zlen h)) (set_current (history_count sh') sh')).
  { intros sh' h' free' E1 E2 E3 E4 E5 E6 E7 E8 E9. pose proof (zlen_nonneg h').
    split; cbn; [by rewrite E2|by rewrite E3|by rewrite E1|by rewrite E4|by rewrite E5|done|by exists free'|done|done|lia]. }
  pose proof (zlen_nonneg (text ed)) as Ht0. pose proof (zlen_nonneg (hist ed)). pose proof (zlen_nonneg free).
  rewrite Ep. destruct (Z.eqb_spec (zlen (text ed)) 0) as [E0|E0].
  { assert (Et : text ed = []) by (apply nil_length_inv; unfold zlen in *; lia). subst h. rewrite Et. cbn [mbind option_bind].
    rewrite bool_decide_eq_true_2 by done. cbn [orb]. eexists. split; [reflexivity|]. by apply (Hdone sh (hist ed) free). }
  assert (Et : text ed <> []) by (intros Et; rewrite Et in E0; by apply E0). subst h.
  rewrite (bool_decide_eq_false_2 (text ed = [])) by done. cbn [orb].
  assert (Hentry : forall sh', line sh' = line sh -> line_position sh' = line_position sh -> history_entry sh' = Some (padded FINSH_CMD_SIZE (text ed))).
  { intros sh' E1 E2. apply entry_of; [by rewrite E1|by rewrite E2|apply Ht]. }
  rewrite En. destruct (Z.leb_spec FINSH_HISTORY_LINES (zlen (hist ed))) as [Hfull|Hroom].
  - assert (Hh5 : zlen (hist ed) = FINSH_HISTORY_LINES) by lia.
    destruct (same_as_last (hist ed) free (text ed) Hh Ht) as (c & Eg & Esame); [intros E; by rewrite E in Hh5|].
    rewrite Eh, <- Hh5, Eg. cbn [mbind option_bind]. rewrite El, Esame. destruct (bool_decide (last (hist ed) = _)).
    { eexists. split; [reflexivity|]. by apply (Hdone sh (hist ed) free). }
    rewrite Hentry by done. cbn [mbind option_bind]. eexists. split; [reflexivity|].
    assert (free = []) as -> by (apply nil_length_inv; unfold zlen in *; lia). rewrite app_nil_r in *.
    destruct (hist ed) as [|x h]; [done|]. cbn [drop map]. rewrite zlen_cons in *.
    apply Forall_cons in Hh as [_ Hh]. apply (Hdone _ (h ++ [text ed]) []); cbn; try done.
    + rewrite zlen_app. change (zlen [text ed]) with 1. lia.
    + by rewrite map_app, app_nil_r.
    + rewrite zlen_app. change (zlen [text ed]) with 1. change (@zlen (list Z) []) with 0. lia.
    + apply Forall_app. split; [done|by constructor].
  - assert (Hsame : (if zlen (hist ed) =? 0 then Some false
        else last ← buf_get (cmd_history sh) (zlen (hist ed) - 1); Some (bool_decide (last = line sh))) = Some (bool_decide (last (hist ed) = Some (text ed)))).
    { destruct (Z.eqb_spec (zlen (hist ed)) 0) as [E|E].
      - assert (hist ed = []) as -> by (apply nil_length_inv; unfold zlen in *; lia). done.
      - destruct (same_as_last (hist ed) free (text ed) Hh Ht) as (c & Eg & Esame); [intros E'; by rewrite E' in E|].
        rewrite Eh, Eg. cbn [mbind option_bind]. by rewrite El, Esame. }
    rewrite Hsame. cbn [mbind option_bind]. destruct (bool_decide (last (hist ed) = _)).
    { eexists. split; [reflexivity|]. by apply (Hdone sh (hist ed) free). }
    rewrite Hentry by done. cbn [mbind option_bind]. destruct free as [|f free]; [change (@zlen (list Z) []) with 0 in Hf; lia|].
    rewrite Eh, <- (zlen_map (padded FINSH_CMD_SIZE)), buf_set_next. cbn [mbind option_bind]. rewrite zlen_map, zlen_cons in *.
    eexists. split; [reflexivity|]. rewrite u16_id by (unfold FINSH_HISTORY_LINES in *; lia).
    pose proof (zlen_nonneg free).
    apply (Hdone _ (hist ed ++ [text ed]) free); cbn; try done.
    + rewrite zlen_app. change (zlen [text ed]) with 1. lia.
    + by rewrite map_app.
    + rewrite zlen_app. change (zlen [text ed]) with 1. lia.
    + apply Forall_app. split; [done|by constructor].
Qed.

(** A new text and cursor, the rest as it was. *)
Lemma edits_set echo ed sh st b a : edits echo ed sh -> entry_ok (b ++ a) -> st = sequence ed ->
  edits echo (Editor b a st (hist ed) (shown ed)) (set_line (padded FINSH_CMD_SIZE (b ++ a)) (zlen (b ++ a)) (zlen b) sh).
Proof.
  intros [Ee Es El Ep Ec Ht Hh Hf En Hc] Hok ->. pose proof (zlen_nonneg b). pose proof (zlen_nonneg a).
  destruct Hok as [Hcs Hl]. unfold FINSH_CMD_SIZE in Hl. pose proof (zlen_app b a).
  split; cbn; rewrite ?u8_id by lia; try done.
Qed.

Lemma edits_stat_set echo b a st h i sh st' : edits echo (Editor b a st h i) sh -> edits echo (Editor b a st' h i) (set_stat st' sh).
Proof. by intros []. Qed.

(** The line after an insertion: the rest is moved, then the character is set. *)
Lemma line_insert b a ch : zlen (b ++ a) + 1 < FINSH_CMD_SIZE ->
  buf_write (padded FINSH_CMD_SIZE (b ++ a)) (zlen b + 1) (buf_sub (padded FINSH_CMD_SIZE (b ++ a)) (zlen b) (zlen a)) ≫=
    (fun l => buf_set l (zlen b) ch) = Some (padded FINSH_CMD_SIZE (b ++ ch :: a)) /\
  buf_set (padded FINSH_CMD_SIZE b) (zlen b) ch = Some (padded FINSH_CMD_SIZE (b ++ [ch])).
Proof.
  intros Hl. unfold padded. rewrite zlen_app in *. pose proof (zlen_nonneg b). pose proof (zlen_nonneg a).
  assert (Hn : exists n, Z.to_nat (FINSH_CMD_SIZE - (zlen b + zlen a)) = S n) by (exists (Z.to_nat (FINSH_CMD_SIZE - (zlen b + zlen a) - 1)); lia).
  split.
  - destruct Hn as [n Hn]. rewrite Hn, <- app_assoc, buf_sub_skip, Z.sub_diag, buf_sub_here by lia. cbn [replicate].
    replace (Z.to_nat (FINSH_CMD_SIZE - zlen (b ++ ch :: a))) with n by (rewrite zlen_app, zlen_cons; lia).
    assert (Hc : exists c t, a ++ 0 :: replicate n 0 = c :: t /\ length t = (length a + n)%nat).
    { destruct a as [|c a]; eexists _, _; (split; [reflexivity|]); cbn; rewrite ?length_app, ?length_replicate; cbn; rewrite ?length_replicate; lia. }
    destruct Hc as (c & t & Et & Hlt). rewrite Et, (cons_middle c), (app_assoc b), buf_write_at;
      [|rewrite zlen_app; done|unfold zlen in *; lia].
    cbn [mbind option_bind]. rewrite <- !app_assoc. cbn [app]. rewrite set_here by done. do 4 f_equal. apply (f_equal (drop (S (length a)))) in Et. cbn [drop] in Et.
    rewrite <- Et, (cons_middle 0), app_assoc, drop_app_length' by (rewrite length_app; cbn; lia). done.
  - assert (Hm : exists n, Z.to_nat (FINSH_CMD_SIZE - zlen b) = S n) by (exists (Z.to_nat (FINSH_CMD_SIZE - zlen b - 1)); lia).
    destruct Hm as [n Hm]. rewrite Hm. cbn [replicate]. rewrite set_here by done. f_equal. rewrite <- app_assoc. cbn [app].
    do 2 f_equal. f_equal. rewrite zlen_app. change (zlen [ch]) with 1. lia.
Qed.

(** The line after a deletion. *)
Lemma line_erase b c a : zlen (b ++ c :: a) < FINSH_CMD_SIZE ->
  buf_write (padded FINSH_CMD_SIZE (b ++ c :: a)) (zlen b) (buf_sub (padded FINSH_CMD_SIZE (b ++ c :: a)) (zlen b + 1) (zlen a)) ≫=
    (fun l => buf_set l (zlen (b ++ a)) 0) = Some (padded FINSH_CMD_SIZE (b ++ a)).
Proof.
  intros Hl. unfold padded. rewrite <- app_assoc. pose proof (zlen_nonneg a). pose proof (zlen_nonneg b).
  set (n := Z.to_nat (FINSH_CMD_SIZE - zlen (b ++ c :: a))).
  assert (Hn : Z.to_nat (FINSH_CMD_SIZE - zlen (b ++ a)) = S n) by (unfold n; rewrite !zlen_app, zlen_cons in *; lia).
  assert (Hsub : buf_sub (b ++ (c :: a) ++ replicate n 0) (zlen b + 1) (zlen a) = a).
  { cbn [app]. rewrite (cons_middle c), (app_assoc b), buf_sub_skip by (rewrite zlen_app; change (zlen [c]) with 1; lia).
    rewrite zlen_app. change (zlen [c]) with 1. rewrite Z.sub_diag. by apply buf_sub_here. }
  rewrite Hsub, Hn. clearbody n. clear Hsub Hn. cbn [app].
  assert (Hc : exists t, c :: a ++ replicate n 0 = t ++ replicate n 0 /\ length t = S (length a)).
  { exists (c :: a). done. }
  rewrite buf_write_at by (done || (rewrite zlen_cons, zlen_app; pose proof (zlen_nonneg (replicate n 0)); lia)). cbn [mbind option_bind].
  assert (Hd : exists x, drop (length a) (c :: a ++ replicate n 0) = x :: replicate n 0).
  { destruct (Hc) as (t & -> & Ht). destruct t as [|x t _] using rev_ind; [done|]. rewrite length_app in Ht. cbn in Ht.
    exists x. rewrite <- app_assoc. rewrite drop_app_length' by lia. done. }
  destruct Hd as [x ->]. by rewrite set_here by done.
Qed.

(** The last character before the cursor. *)
Lemma split_last (b : list Z) : b <> [] -> exists b' c, b = b' ++ [c] /\ removelast b = b' /\ last b = Some c.
Proof.
  destruct b as [|c b _] using rev_ind; [done|]. intros _. exists b, c. by rewrite removelast_last, last_snoc.
Qed.

Lemma inserted echo b a st h i sh ch : edits echo (Editor b a st h i) sh -> is_cchar ch -> zlen (b ++ a) + 1 < FINSH_CMD_SIZE ->
  exists sh', char_key sh ch = Some (sh', (if echo then [Print (ch :: a)] else []) ++ backspaces (zlen a)) /\
    edits echo (Editor (b ++ [ch]) a st h i) sh'.
Proof.
  intros He Hch Hl. pose proof He as [Ee _ El Ep Ec [Hcs _] _ _ _ _]. unfold text in *. cbn [before after] in *.
  assert (Hok : entry_ok ((b ++ [ch]) ++ a)).
  { apply Forall_app in Hcs as [Hb Ha]. split; [by repeat (apply Forall_app; split); try constructor|].
    rewrite !zlen_app in *. change (zlen [ch]) with 1. lia. }
  pose proof (zlen_nonneg b). pose proof (zlen_nonneg a). unfold char_key. rewrite Ep, Ec, Ee, El.
  destruct (line_insert b a ch Hl) as [Hmid Hend]. destruct (Z.leb_spec FINSH_CMD_SIZE (zlen (b ++ a))); [lia|].
  pose proof (zlen_nonneg (b ++ a)). rewrite u8_id by (unfold FINSH_CMD_SIZE in *; lia).
  destruct (Z.leb_spec FINSH_CMD_SIZE (zlen (b ++ a) + 1)); [lia|].
  pose proof (edits_set echo (Editor b a st h i) sh st (b ++ [ch]) a He Hok eq_refl) as Hset. cbn [hist shown] in Hset.
  assert (Hz : zlen ((b ++ [ch]) ++ a) = zlen (b ++ a) + 1 /\ zlen (b ++ [ch]) = zlen b + 1) by (rewrite !zlen_app; change (zlen [ch]) with 1; lia).
  destruct Hz as [Hz1 Hz2]. rewrite Hz1, Hz2, <- app_assoc in Hset. cbn [app] in Hset.
  destruct a as [|c a].
  - rewrite app_nil_r in *. rewrite Z.ltb_irrefl, Hend. cbn [mbind option_bind]. eexists. split; [|exact Hset].
    change (backspaces (zlen [])) with (@nil out). by rewrite app_nil_r.
  - destruct (Z.ltb_spec (zlen b) (zlen (b ++ c :: a))) as [_|Hx]; [|rewrite zlen_app, zlen_cons in Hx; pose proof (zlen_nonneg a); lia].
    replace (zlen (b ++ c :: a) - zlen b) with (zlen (c :: a)) by (rewrite zlen_app; lia).
    destruct (buf_write _ _ _) as [l|]; [|done]. cbn [mbind option_bind] in *. rewrite Hmid. cbn [mbind option_bind].
    rewrite line_at by (by rewrite <- app_assoc in Hok). destruct echo; cbn [mbind option_bind]; eexists; (split; [reflexivity|exact Hset]).
Qed.

Lemma erased echo b c a st h i sh : edits echo (Editor (b ++ [c]) a st h i) sh ->
  exists sh', backspace_key sh = Some (sh', match a with [] => [Print [8; 32; 8]] | _ => Print ([8] ++ a ++ [32; 32; 8]) :: backspaces (zlen a + 1) end) /\
    edits echo (Editor b a st h i) sh'.
Proof.
  intros He. pose proof He as [Ee _ El Ep Ec [Hcs Hl] _ _ _ _]. unfold text in *. cbn [before after] in *. rewrite <- app_assoc in *. cbn [app] in *.
  assert (Hok : entry_ok (b ++ a)).
  { apply Forall_app in Hcs as [Hb Ha]. apply Forall_cons in Ha as [_ Ha]. split; [by apply Forall_app|]. rewrite !zlen_app, zlen_cons in *. lia. }
  pose proof (edits_set echo (Editor (b ++ [c]) a st h i) sh st b a He Hok eq_refl) as Hset. cbn [hist shown] in Hset.
  pose proof (zlen_nonneg b). pose proof (zlen_nonneg a). pose proof (line_erase b c a Hl) as Her.
  unfold backspace_key. rewrite Ec, Ep, El, zlen_app. change (zlen [c]) with 1. destruct (Z.eqb_spec (zlen b + 1) 0); [lia|].
  replace (zlen b + 1 - 1) with (zlen b) by lia. replace (zlen (b ++ c :: a) - 1) with (zlen (b ++ a)) by (rewrite !zlen_app, zlen_cons; lia).
  replace (zlen (b ++ a) - zlen b) with (zlen a) by (rewrite zlen_app; lia).
  destruct (Z.ltb_spec (zlen b) (zlen (b ++ a))) as [Hx|Hx]; rewrite zlen_app in Hx.
  - destruct (buf_write _ _ _) as [l|]; [|done]. cbn [mbind option_bind] in *. rewrite Her. cbn [mbind option_bind].
    rewrite line_at by done. cbn [mbind option_bind]. destruct a as [|c' a]; [rewrite (@zlen_nil Z) in Hx; lia|]. eexists. split; [reflexivity|exact Hset].
  - destruct a as [|c' a]; [|rewrite zlen_cons in Hx; pose proof (zlen_nonneg a); lia]. rewrite app_nil_r in *.
    unfold buf_sub in Her. change (@zlen Z []) with 0 in Her. change (Z.to_nat 0) with 0%nat in Her. rewrite take_0 in Her.
    assert (Hl' : zlen b + 1 < FINSH_CMD_SIZE) by (rewrite zlen_app in Hl; exact Hl).
    rewrite buf_write_some in Her by (rewrite ?zlen_padded by lia; change (@zlen Z []) with 0; lia).
    cbn [mbind option_bind length app] in Her. rewrite Nat.add_0_r, take_drop in Her. rewrite Her. cbn [mbind option_bind].
    eexists. split; [reflexivity|exact Hset].
Qed.

Section Refinement.
Context (prompt : list Z) (auto_complete : list Z -> option (list out * list Z))
  (exec : list Z -> Z -> option (Z * list out * list Z)).

Lemma recalled echo b a h i j sh : edits echo (Editor b a WAIT_NORMAL h i) sh -> 0 <= j < zlen h ->
  exists l sh' outs, ed_recall prompt (Editor b a WAIT_NORMAL h i) j = Some (Editor l [] WAIT_NORMAL h j, outs) /\
    recall prompt (set_current j sh) = Some (sh', outs) /\ edits echo (Editor l [] WAIT_NORMAL h j) sh'.
Proof.
  intros He Hj. pose proof He as [_ _ _ _ _ _ (free & Eh & _) Hh _ _]. cbn [hist] in *.
  destruct (take_split h j ltac:(lia)) as (h1 & h2 & -> & Hh1). rewrite zlen_app in Hj.
  destruct h2 as [|l h2]; [rewrite (@zlen_nil (list Z)) in Hj; lia|].
  assert (Hl : entry_ok l) by (apply Forall_app in Hh as [_ Hh]; by apply Forall_cons in Hh as [? _]).
  unfold ed_recall, recall. cbn [hist]. rewrite get_here by done. cbn [mbind option_bind current_history cmd_history set_current]. rewrite Eh, map_app, <- app_assoc. cbn [map app].
  rewrite get_here by (by rewrite zlen_map). cbn [mbind option_bind]. rewrite entry_cstr by done. cbn [mbind option_bind].
  unfold shell_handle_history. cbn [line set_line]. rewrite entry_cstr by done. cbn [mbind option_bind].
  exists l, (set_line (padded FINSH_CMD_SIZE l) (zlen l) (zlen l) (set_current j sh)). eexists. split; [reflexivity|]. split; [reflexivity|].
  destruct Hl as [Hcs Hlen]. pose proof (zlen_nonneg l). unfold FINSH_CMD_SIZE in Hlen. pose proof (zlen_nonneg h2).
  destruct He as [Ee Es El Ep Ec Ht Hh' Hf En Hcur]. rewrite zlen_cons in Hj. pose proof (zlen_nonneg h1).
  split; cbn; unfold text; cbn [before after]; rewrite ?app_nil_r, ?u8_id by lia; try done. rewrite zlen_app, zlen_cons. lia.
Qed.

Lemma tabbed echo b a h i sh t outs l : edits echo (Editor b a WAIT_NORMAL h i) sh ->
  auto_complete (padded FINSH_CMD_SIZE (b ++ a)) = Some (outs, l) -> buf_cstr l = Some t ->
  l = padded FINSH_CMD_SIZE t -> cstring t -> 
  exists sh', tab_key prompt auto_complete sh = Some (sh', backspaces (zlen b) ++ [Print [10]] ++ outs ++ [Print (prompt ++ t)]) /\
    edits echo (Editor t [] WAIT_NORMAL h i) sh'.
Proof.
  intros He Ha Hc Hl Ht. pose proof He as [_ _ El _ Ec _ _ _ _ _]. unfold text in *. cbn [before after] in *.
  unfold tab_key, shell_auto_complete. rewrite El, Ha. cbn [mbind option_bind]. rewrite Hc. cbn [mbind option_bind]. rewrite Hc. cbn [mbind option_bind]. rewrite Ec.
  eexists. split; [reflexivity|]. subst l.
  assert (Hok : entry_ok (t ++ [])).
  { rewrite app_nil_r. split; [done|]. destruct (Z.lt_ge_cases (zlen t) FINSH_CMD_SIZE) as [|Hge]; [done|]. exfalso.
    unfold padded in Hc. replace (Z.to_nat (FINSH_CMD_SIZE - zlen t)) with 0%nat in Hc by lia. cbn [replicate] in Hc.
    by rewrite app_nil_r, buf_cstr_none in Hc. }
  pose proof (edits_set echo _ sh WAIT_NORMAL t [] He Hok eq_refl) as Hset. cbn [hist shown] in Hset. by rewrite app_nil_r in Hset.
Qed.

Lemma entered echo b a h i sh r outs l : edits echo (Editor b a WAIT_NORMAL h i) sh ->
  exec (padded FINSH_CMD_SIZE (b ++ a)) (zlen (b ++ a)) = Some (r, outs, l) ->
  exists sh', enter_key prompt exec sh = Some (sh', (if echo then [Print [10]] else []) ++ outs ++ [Print prompt]) /\
    edits echo (Editor [] [] WAIT_NORMAL (remember h (b ++ a)) (zlen (remember h (b ++ a)))) sh'.
Proof.
  intros He Hx. destruct (pushed _ _ _ He) as (sh1 & Ep & He1). unfold text in *. cbn [before after hist sequence] in *.
  unfold enter_key. rewrite Ep. cbn [mbind option_bind]. pose proof He1 as [Ee1 _ El1 Ep1 _ _ _ _ _ _]. unfold text in *. cbn [before after] in *.
  rewrite El1, Ep1, Hx. cbn [mbind option_bind]. rewrite Ee1. eexists. split; [reflexivity|].
  pose proof (edits_set echo _ sh1 WAIT_NORMAL [] [] He1 ltac:(by split) eq_refl) as Hset. exact Hset.
Qed.

Lemma normal_refines echo ed sh ch ed' outs : edits echo ed sh -> 0 <= ch < 256 ->
  ed_normal prompt auto_complete exec echo ed ch = Some (ed', outs) ->
  exists sh', normal_key prompt auto_complete exec (set_stat WAIT_NORMAL sh) ch = Some (sh', outs) /\ edits echo ed' sh'.
Proof.
  destruct ed as [b a st h i]. intros He0 Hch. pose proof (edits_stat_set _ _ _ _ _ _ _ WAIT_NORMAL He0) as He. clear He0.
  set (sh1 := set_stat WAIT_NORMAL sh) in *. clearbody sh1. unfold ed_normal, normal_key.
  destruct (Z.eqb_spec ch 0); cbn [orb]; [intros [= <- <-]; by exists sh1|]. destruct (Z.eqb_spec ch 255); cbn [orb]; [intros [= <- <-]; by exists sh1|].
  destruct (ch =? 9) eqn:E9.
  { destruct (auto_complete _) as [[o l]|] eqn:Ea; [|done]. cbn [mbind option_bind]. destruct (buf_cstr l) as [t|] eqn:Et; [|done]. cbn [mbind option_bind].
    destruct (bool_decide_reflect (l = padded FINSH_CMD_SIZE t)) as [El|]; [|done]. destruct (bool_decide_reflect (cstring t)); [|done].
    intros [= <- <-]. by apply (tabbed echo b a h i sh1 t o l). }
  destruct ((ch =? 127) || (ch =? 8)).
  { destruct b as [|c0 b0] eqn:Eb.
    - intros [= <- <-]. exists sh1. split; [|done]. unfold backspace_key. by rewrite (edits_cur _ _ _ He).
    - rewrite <- Eb in *. destruct (split_last b) as (b' & c & -> & Er & _); [by rewrite Eb|]. rewrite Er. intros [= <- <-].
      by apply (erased echo b' c a WAIT_NORMAL h i sh1). }
  destruct ((ch =? 13) || (ch =? 10)).
  { destruct (exec _ _) as [[[r o] l]|] eqn:Ex; [|done]. cbn [mbind option_bind]. intros [= <- <-]. by apply (entered echo b a h i sh1 r o l). }
  destruct (Z.ltb_spec (zlen (b ++ a) + 1) FINSH_CMD_SIZE); [|done]. intros [= <- <-].
  apply inserted; [done|unfold is_cchar; lia|done].
Qed.

(** The four arrows. *)
Lemma up_refines echo b a h i sh ed' outs : edits echo (Editor b a WAIT_NORMAL h i) sh ->
  (if 0 <? i then ed_recall prompt (Editor b a WAIT_NORMAL h i) (i - 1) else Some (Editor b a WAIT_NORMAL h i, [])) = Some (ed', outs) ->
  exists sh', up_key prompt sh = Some (sh', outs) /\ edits echo ed' sh'.
Proof.
  intros Hn. pose proof (edits_shown _ _ _ Hn) as [Hcur Hi]. cbn [shown hist] in *. unfold up_key. rewrite Hcur. destruct (Z.ltb_spec 0 i).
  - intros Hk. destruct (recalled echo b a h i (i - 1) sh Hn ltac:(lia)) as (l & sh' & o & Er & Ec & He'). rewrite Er in Hk. injection Hk as <- <-. by exists sh'.
  - intros [= <- <-]. eexists. split; [reflexivity|]. destruct Hn. split; cbn in *; try done. lia.
Qed.

Lemma down_refines echo b a h i sh ed' outs : edits echo (Editor b a WAIT_NORMAL h i) sh ->
  match h with [] => Some (Editor b a WAIT_NORMAL h i, []) | _ => ed_recall prompt (Editor b a WAIT_NORMAL h i) (Z.min (i + 1) (zlen h - 1)) end = Some (ed', outs) ->
  exists sh', down_key prompt sh = Some (sh', outs) /\ edits echo ed' sh'.
Proof.
  intros Hn. pose proof (edits_shown _ _ _ Hn) as [Hcur Hi]. pose proof (edits_count _ _ _ Hn) as Hcnt. cbn [shown hist] in *.
  unfold down_key. rewrite Hcur, Hcnt. destruct h as [|x h].
  - change (@zlen (list Z) []) with 0 in *. destruct (Z.ltb_spec i (0 - 1)); [lia|]. intros [= <- <-]. by exists sh.
  - pose proof (zlen_nonneg h). rewrite zlen_cons in *. intros Hk.
    destruct (recalled echo b a (x :: h) i (Z.min (i + 1) (1 + zlen h - 1)) sh Hn) as (l & sh' & o & Er & Ec & He'); [rewrite zlen_cons; lia|].
    rewrite Er in Hk. injection Hk as <- <-. exists sh'. split; [|done].
    destruct (Z.ltb_spec i (1 + zlen h - 1)); [by replace (Z.min (i + 1) (1 + zlen h - 1)) with (i + 1) in Ec by lia|].
    destruct (Z.eqb_spec (1 + zlen h) 0); [lia|]. cbn [negb]. by replace (Z.min (i + 1) (1 + zlen h - 1)) with (1 + zlen h - 1) in Ec by lia.
Qed.

Lemma left_refines echo b a h i sh ed' outs : edits echo (Editor b a WAIT_NORMAL h i) sh ->
  match b with [] => Some (Editor b a WAIT_NORMAL h i, []) | _ => Some (Editor (removelast b) (default 0 (last b) :: a) WAIT_NORMAL h i, [Print [8]]) end = Some (ed', outs) ->
  exists sh', left_key sh = Some (sh', outs) /\ edits echo ed' sh'.
Proof.
  intros Hn. pose proof Hn as [_ _ Hll Hpp Hcp Hok _ _ _ _]. unfold text in *. cbn [before after] in *.
  unfold left_key. rewrite Hcp. destruct b as [|c0 b0] eqn:Eb; [intros [= <- <-]; by exists sh|]. rewrite <- Eb in *.
  destruct (split_last b) as (b' & c & -> & Er & Elast); [by rewrite Eb|]. rewrite Er, Elast. intros [= <- <-].
  rewrite (zlen_app b' [c]). change (zlen [c]) with 1. pose proof (zlen_nonneg b'). destruct (Z.eqb_spec (zlen b' + 1) 0); [lia|]. cbn [negb default].
  eexists. split; [reflexivity|]. rewrite <- app_assoc in *. cbn [app] in *.
  pose proof (edits_set echo _ sh WAIT_NORMAL b' (c :: a) Hn Hok eq_refl) as Hset. cbn [hist shown] in Hset.
  rewrite Hll, Hpp. by replace (zlen b' + 1 - 1) with (zlen b') by lia.
Qed.

Lemma right_refines echo b a h i sh ed' outs : edits echo (Editor b a WAIT_NORMAL h i) sh ->
  match a with [] => Some (Editor b a WAIT_NORMAL h i, []) | c :: a => Some (Editor (b ++ [c]) a WAIT_NORMAL h i, [Print [c]]) end = Some (ed', outs) ->
  exists sh', right_key sh = Some (sh', outs) /\ edits echo ed' sh'.
Proof.
  intros Hn. pose proof Hn as [_ _ Hll Hpp Hcp Hok _ _ _ _]. unfold text in *. cbn [before after] in *.
  unfold right_key. rewrite Hcp, Hpp. destruct a as [|c a].
  - rewrite app_nil_r in *. rewrite Z.ltb_irrefl. intros [= <- <-]. by exists sh.
  - intros [= <- <-]. destruct (Z.ltb_spec (zlen b) (zlen (b ++ c :: a))) as [_|Hx]; [|rewrite zlen_app, zlen_cons in Hx; pose proof (zlen_nonneg a); lia].
    assert (Eg : buf_get (padded FINSH_CMD_SIZE (b ++ c :: a)) (zlen b) = Some c) by (unfold padded; rewrite <- app_assoc; by apply get_here).
    rewrite Hll, Eg. cbn [mbind option_bind].
    eexists. split; [reflexivity|]. rewrite cons_middle, app_assoc in Hok.
    pose proof (edits_set echo _ sh WAIT_NORMAL (b ++ [c]) a Hn Hok eq_refl) as Hset. cbn [hist shown] in Hset.
    rewrite <- app_assoc in Hset. cbn [app] in Hset. rewrite (zlen_app b [c]) in Hset. by rewrite <- Hpp in Hset |- *.
Qed.

(** Every key the editor can take, the shell takes the same way. *)
Lemma key_refines echo ed sh ch ed' outs : edits echo ed sh -> 0 <= ch < 256 ->
  ed_key prompt auto_complete exec echo ed ch = Some (ed', outs) ->
  exists sh', finsh_key prompt auto_complete exec sh ch = Some (sh', outs) /\ edits echo ed' sh'.
Proof.
  intros He Hch. pose proof (edits_stat _ _ _ He) as Est. unfold finsh_key, ed_key. destruct (Z.ltb_spec ch 0); [lia|].
  destruct ed as [b a st h i]. cbn [sequence] in Est. rewrite Est. destruct (ch =? 27).
  { intros [= <- <-]. eexists. split; [reflexivity|]. by apply (edits_stat_set echo b a st). }
  destruct st.
  - intros Hk. destruct (normal_refines echo _ sh ch ed' outs He Hch Hk) as (sh' & Hn & He'). exists sh'. split; [|done].
    rewrite <- Hn. f_equal. unfold set_stat. rewrite <- Est. by destruct sh.
  - destruct (ch =? 91); [|by apply normal_refines]. intros [= <- <-]. eexists. split; [reflexivity|]. by apply (edits_stat_set echo b a WAIT_SPEC_KEY).
  - pose proof (edits_stat_set _ _ _ _ _ _ _ WAIT_NORMAL He) as Hn. destruct (ch =? 65); [by apply (up_refines echo b a h i)|].
    destruct (ch =? 66); [by apply (down_refines echo b a h i)|]. destruct (ch =? 68); [by apply (left_refines echo b a h i)|].
    destruct (ch =? 67); [by apply (right_refines echo b a h i)|]. intros Hk; exact (normal_refines echo _ sh ch ed' outs He Hch Hk).
Qed.

Lemma keys_refine echo chs : forall ed sh ed' outs, edits echo ed sh -> Forall is_byte chs ->
  ed_keys prompt auto_complete exec echo ed chs = Some (ed', outs) ->
  exists sh', finsh_keys prompt auto_complete exec sh chs = Some (sh', outs) /\ edits echo ed' sh'.
Proof.
  induction chs as [|ch chs IH]; intros ed sh ed' outs He Hb; cbn [ed_keys finsh_keys]; [intros [= <- <-]; by exists sh|].
  apply Forall_cons in Hb as [Hch Hb]. destruct (ed_key _ _ _ _ _ _) as [[ed1 o1]|] eqn:E1; [|done]. cbn [mbind option_bind].
  destruct (ed_keys _ _ _ _ ed1 chs) as [[ed2 o2]|] eqn:E2; [|done]. cbn [mbind option_bind]. intros [= <- <-].
  destruct (key_refines echo ed sh ch ed1 o1 He Hch E1) as (sh1 & -> & He1). cbn [mbind option_bind].
  destruct (IH ed1 sh1 ed2 o2 He1 Hb E2) as (sh2 & -> & He2). by exists sh2.
Qed.

(** [C13] From its start, whatever is typed (characters, arrows, backspaces,
    tabs, lines), the shell is an editor of a text around a cursor with a
    history of its last five different lines: as long as no line gets 80
    characters, every key leaves the text, the cursor and the history of the
    editor in the shell's buffers, prints what the editor prints, and hands
    the interpreter the editor's line. *)
Theorem shell_refines_editor chs ed' outs : Forall is_byte chs ->
  ed_keys prompt auto_complete exec true (Editor [] [] WAIT_NORMAL [] 0) chs = Some (ed', outs) ->
  exists sh', finsh_thread_entry prompt auto_complete exec chs = Some (sh', Print prompt :: outs) /\ edits true ed' sh'.
Proof.
  intros Hb Hk. destruct (keys_refine true chs (Editor [] [] WAIT_NORMAL [] 0) finsh_system_init ed' outs) as (sh' & E & He'); [|done|done|].
  - split; cbn; try done. by exists (replicate 5 (replicate 80 0)).
  - exists sh'. split; [|done]. unfold finsh_thread_entry. by rewrite E.
Qed.
End Refinement.

(** ** What is on the screen *)

(** The row of a terminal, to the left and to the right of its cursor. *)
Definition screen := (list Z * list Z)%type.

Fixpoint emit (s : screen) (cs : list Z) : screen :=
  match cs with
  | [] => s
  | 27 :: 91 :: 50 :: 75 :: cs => emit (replicate (length s.1) 32, []) cs
  | c :: cs =>
      if c =? 8 then match s.1 with [] => emit s cs | _ => emit (removelast s.1, default 0 (last s.1) :: s.2) cs end
      else if c =? 13 then emit ([], s.1 ++ s.2) cs
      else if c =? 10 then emit ([], []) cs
      else emit (s.1 ++ [c], drop 1 s.2) cs
  end.

Fixpoint show (outs : list out) (s : screen) : screen :=
  match outs with
  | [] => s
  | Print t :: outs => show outs (emit s t)
  | Ran _ _ :: outs => show outs s
  end.

(** The row is the prompt and the text, and blanks; the cursor is in its place. *)
Definition shows (prompt : list Z) (ed : editor) (s : screen) : Prop :=
  s.1 = prompt ++ before ed /\ exists n, s.2 = after ed ++ replicate n 32.

Definition printable (c : Z) : Prop := 32 <= c < 127.

(** The keys that stay in the line. *)
Definition line_key (c : Z) : Prop := printable c \/ c = 8 \/ c = 127 \/ c = 27.

Lemma emit_text p : forall l r cs, Forall printable p -> emit (l, r) (p ++ cs) = emit (l ++ p, drop (length p) r) cs.
Proof.
  induction p as [|c p IH]; intros l r cs Hp; [by rewrite app_nil_r|]. apply Forall_cons in Hp as [Hc Hp]. unfold printable in Hc.
  assert (E : emit (l, r) ((c :: p) ++ cs) = emit (l ++ [c], drop 1 r) (p ++ cs)).
  { cbn [app emit fst snd]. destruct (Z.eqb_spec c 8), (Z.eqb_spec c 13), (Z.eqb_spec c 10); try lia.
    destruct (Z.eq_dec c 27); [lia|]. destruct c as [|c|c]; try lia. do 6 (destruct c as [c|c|]; try done; try lia). }
  rewrite E, IH by done. rewrite <- app_assoc, drop_drop. done.
Qed.

Lemma show_app a : forall b s, show (a ++ b) s = show b (show a s).
Proof. induction a as [|[t|f args] a IH]; intros b s; [done|cbn [app show]..]; apply IH. Qed.

Lemma emit_back l c r cs : emit (l ++ [c], r) (8 :: cs) = emit (l, c :: r) cs.
Proof. cbn [emit fst snd]. change (8 =? 8) with true. cbn match. rewrite removelast_last, last_snoc. by destruct l. Qed.

Lemma show_backspaces p : forall l r, show (backspaces (zlen p)) (l ++ p, r) = (l, p ++ r).
Proof.
  unfold backspaces, zlen. rewrite Nat2Z.id. induction p as [|c p IH] using rev_ind; intros l r; [by rewrite app_nil_r|].
  rewrite length_app, Nat.add_1_r. cbn [replicate show]. rewrite app_assoc, emit_back. cbn [emit]. rewrite IH. by rewrite <- app_assoc.
Qed.

Section Screen.
Context (prompt : list Z) (auto_complete : list Z -> option (list out * list Z))
  (exec : list Z -> Z -> option (Z * list out * list Z)).
Hypothesis prompt_printable : Forall printable prompt.

Definition seen (ed : editor) (s : screen) : Prop :=
  shows prompt ed s /\ Forall printable (text ed) /\ Forall (Forall printable) (hist ed).

Lemma seen_recall b a h i ed' outs s : seen (Editor b a WAIT_NORMAL h i) s ->
  forall j, ed_recall prompt (Editor b a WAIT_NORMAL h i) j = Some (ed', outs) -> seen ed' (show outs s).
Proof using prompt_printable.
  intros [_ [_ Hh]] j. cbn [hist] in Hh. unfold ed_recall. cbn [hist]. destruct (buf_get h j) as [l|] eqn:E; [|done]. intros [= <- <-].
  assert (Hl : Forall printable l).
  { unfold buf_get in E. destruct (0 <=? j); [|done]. rewrite Forall_forall in Hh. apply Hh. by apply (list_elem_of_lookup_2 h (Z.to_nat j)). }
  destruct s as [sl sr]. cbn [show]. change (emit (sl, sr) clear_row) with (@nil Z, replicate (length sl) 32 ++ @nil Z).
  rewrite <- (app_nil_r (prompt ++ l)), emit_text by (by apply Forall_app). cbn [emit app].
  split; [|by unfold text; cbn; rewrite app_nil_r]. split; [done|]. cbn [snd after app]. rewrite app_nil_r, drop_replicate. by eexists.
Qed.

Lemma seen_normal ed ch ed' outs s : seen ed s -> line_key ch -> ch <> 27 ->
  ed_normal prompt auto_complete exec true ed ch = Some (ed', outs) -> seen ed' (show outs s).
Proof using Type.
  destruct ed as [b a st h i]. intros [[Hl [n Hr]] [Ht Hh]] Hk H27. unfold text in *. cbn [before after hist] in *. destruct s as [sl sr]. cbn [fst snd] in *. subst sl sr.
  apply Forall_app in Ht as [Hb Ha]. unfold ed_normal, line_key, printable in *. destruct (Z.eqb_spec ch 0); [lia|]. destruct (Z.eqb_spec ch 255); [lia|]. cbn [orb].
  destruct (Z.eqb_spec ch 9); [lia|]. destruct ((ch =? 127) || (ch =? 8)) eqn:Eb.
  - destruct b as [|c0 b0] eqn:E0.
    { intros [= <- <-]. split; [split; [done|by exists n]|split; [|done]]. unfold text. cbn. done. }
    rewrite <- E0 in *. destruct (split_last b) as (b' & c & -> & Er & _); [by rewrite E0|]. rewrite Er. apply Forall_app in Hb as [Hb' _].
    intros [= <- <-]. destruct (decide (a = [])) as [->|Ea].
    + cbn [show]. rewrite app_assoc, emit_back. cbn [app]. change (emit (prompt ++ b', c :: replicate n 32) [32; 8]) with (emit ((prompt ++ b') ++ [32], replicate n 32) [8]).
      rewrite emit_back. split; [split; [done|by exists (S n)]|]. unfold text. cbn. split; [by apply Forall_app|done].
    + replace (match a with [] => [Print [8; 32; 8]] | _ => Print (8 :: a ++ [32; 32; 8]) :: backspaces (zlen a + 1) end)
        with (Print (8 :: a ++ [32; 32; 8]) :: backspaces (zlen a + 1)) by (by destruct a).
      cbn [show]. rewrite app_assoc, emit_back, emit_text by done.
      change (emit ((prompt ++ b') ++ a, drop (length a) (c :: a ++ replicate n 32)) [32; 32; 8]) with
        (emit ((((prompt ++ b') ++ a) ++ [32]) ++ [32], drop 1 (drop 1 (drop (length a) (c :: a ++ replicate n 32)))) [8]).
      rewrite emit_back. cbn [emit].
      replace (zlen a + 1) with (zlen (a ++ [32])) by (by rewrite zlen_app). rewrite <- (app_assoc _ a), show_backspaces.
      rewrite !drop_drop. replace (length a + (1 + 1))%nat with (S (length a + 1)) by lia. cbn [drop].
      rewrite <- drop_drop, drop_app_length, drop_replicate.
      split; [split; [done|]|]; cbn [snd after]. { exists (S (S (n - 1))). rewrite <- app_assoc. done. }
      unfold text. cbn. split; [by apply Forall_app|done].
  - destruct (Z.eqb_spec ch 127); [done|]. destruct (Z.eqb_spec ch 8); [done|].
    destruct (Z.eqb_spec ch 13); [lia|]. destruct (Z.eqb_spec ch 10); [lia|]. cbn [orb]. destruct (_ <? _); [|done]. intros [= <- <-].
    assert (Hch : Forall printable (ch :: a)) by (constructor; [unfold printable; lia|done]).
    cbn [app show]. rewrite <- (app_nil_r (ch :: a)), emit_text by done. cbn [emit]. rewrite (cons_middle ch (prompt ++ b)), app_assoc, show_backspaces.
    split; [split; [by rewrite <- app_assoc|]|]; cbn [snd after].
    + exists (n - 1)%nat. cbn [length]. rewrite <- Nat.add_1_r, <- drop_drop, drop_app_length, drop_replicate. done.
    + unfold text. cbn. split; [|done]. rewrite <- app_assoc. apply Forall_app. split; [done|exact Hch].
Qed.

Lemma seen_key ed ch ed' outs s : seen ed s -> line_key ch ->
  ed_key prompt auto_complete exec true ed ch = Some (ed', outs) -> seen ed' (show outs s).
Proof using prompt_printable.
  destruct ed as [b a st h i]. intros Hs Hk. unfold ed_key. destruct (Z.eqb_spec ch 27) as [|H27]; [intros [= <- <-]; exact Hs|].
  destruct st; [by apply seen_normal| |].
  { destruct (ch =? 91); [intros [= <- <-]; exact Hs|by apply seen_normal]. }
  assert (Hs' : seen (Editor b a WAIT_NORMAL h i) s) by exact Hs. destruct (ch =? 65).
  { destruct (0 <? i); [by apply (seen_recall b a h i)|intros [= <- <-]; exact Hs]. }
  destruct (ch =? 66). { destruct h; [intros [= <- <-]; exact Hs|by apply (seen_recall b a (l :: h) i)]. }
  destruct Hs as [[Hl [n Hr]] [Ht Hh]]. unfold text in *. cbn [before after hist] in *. destruct s as [sl sr]. cbn [fst snd] in *. subst sl sr.
  destruct (ch =? 68).
  { destruct b as [|c0 b0] eqn:E0; [intros [= <- <-]; exact Hs'|]. rewrite <- E0 in *. destruct (split_last b) as (b' & c & -> & Er & El); [by rewrite E0|].
    rewrite Er, El. intros [= <- <-]. cbn [show]. rewrite app_assoc, emit_back. cbn [emit default].
    split; [split; [done|by exists n]|]. unfold text. cbn. by rewrite <- app_assoc in Ht. }
  destruct (ch =? 67); [|by apply (seen_normal (Editor b a WAIT_FUNC_KEY h i))].
  destruct a as [|c a]; [intros [= <- <-]; exact Hs'|]. intros [= <- <-]. cbn [show].
  assert (Hc : Forall printable [c]) by (apply Forall_app in Ht as [_ Ht]; apply Forall_cons in Ht as [? _]; by constructor).
  rewrite <- (app_nil_r [c]), emit_text by done. cbn [emit length app drop].
  split; [split; [by rewrite <- app_assoc|by exists n]|]. unfold text. cbn. by rewrite <- app_assoc.
Qed.

End Screen.

(** ** A command that is typed *)

Definition is_ran (o : out) : bool := match o with Ran _ _ => true | Print _ => false end.

Lemma no_ran_backspaces n : List.filter is_ran (backspaces n) = [].
Proof. unfold backspaces. induction (Z.to_nat n) as [|k IH]; [done|exact IH]. Qed.

Section Typed.
Context (prompt : list Z) (auto_complete : list Z -> option (list out * list Z))
  (exec : list Z -> Z -> option (Z * list out * list Z)).

Lemma ed_keys_app echo ca : forall cb ed, ed_keys prompt auto_complete exec echo ed (ca ++ cb) =
  ('(ed, outs) ← ed_keys prompt auto_complete exec echo ed ca; '(ed, outs') ← ed_keys prompt auto_complete exec echo ed cb; Some (ed, outs ++ outs')).
Proof.
  induction ca as [|c ca IH]; intros cb ed; cbn [ed_keys app mbind option_bind].
  - by destruct (ed_keys _ _ _ _ ed cb) as [[]|].
  - destruct (ed_key _ _ _ _ _ c) as [[ed1 o1]|]; [|done]. cbn [mbind option_bind]. rewrite IH.
    destruct (ed_keys _ _ _ _ ed1 ca) as [[ed2 o2]|]; [|done]. cbn [mbind option_bind].
    destruct (ed_keys _ _ _ _ ed2 cb) as [[ed3 o3]|]; [|done]. cbn [mbind option_bind]. by rewrite app_assoc.
Qed.

(** Printable characters are the text. *)
Lemma ed_types echo p : forall b h i, Forall printable p -> zlen (b ++ p) < FINSH_CMD_SIZE ->
  exists outs, ed_keys prompt auto_complete exec echo (Editor b [] WAIT_NORMAL h i) p = Some (Editor (b ++ p) [] WAIT_NORMAL h i, outs) /\
    List.filter is_ran outs = [].
Proof.
  induction p as [|c p IH]; intros b h i Hp Hl; cbn [ed_keys]; [exists []; by rewrite app_nil_r|].
  apply Forall_cons in Hp as [Hc Hp]. unfold printable in Hc. destruct (IH (b ++ [c]) h i Hp) as (outs & E & Ho); [by rewrite <- app_assoc|].
  assert (Ek : exists o, ed_key prompt auto_complete exec echo (Editor b [] WAIT_NORMAL h i) c = Some (Editor (b ++ [c]) [] WAIT_NORMAL h i, o) /\ List.filter is_ran o = []).
  { unfold ed_key, ed_normal. destruct (Z.eqb_spec c 27), (Z.eqb_spec c 0), (Z.eqb_spec c 255), (Z.eqb_spec c 9), (Z.eqb_spec c 127), (Z.eqb_spec c 8), (Z.eqb_spec c 13), (Z.eqb_spec c 10); try lia.
    cbn [orb]. rewrite app_nil_r. rewrite zlen_app, zlen_cons in Hl. pose proof (zlen_nonneg p). destruct (Z.ltb_spec (zlen b + 1) FINSH_CMD_SIZE); [|lia].
    eexists. split; [reflexivity|]. by destruct echo. }
  destruct Ek as (o & -> & Eo). cbn [mbind option_bind]. rewrite E. cbn [mbind option_bind]. exists (o ++ outs). rewrite <- app_assoc. split; [done|].
  by rewrite List.filter_app, Eo, Ho.
Qed.
End Typed.

Section Command.
Context (prompt : list Z) (syscall_table : list finsh_syscall) (call : Z -> list (list Z) -> Z)
  (open_file : list Z -> option (list Z)) (mem : bool) (malloced cwd : list Z) (readdir : list Z -> option (list (list Z))) (depth : nat).

(** The shell with the interpreter of Msh.v. *)
Definition shell_complete := msh_auto_complete syscall_table cwd readdir mem.
Definition shell_exec := msh_exec syscall_table call open_file mem malloced depth.

Hypothesis names_ok : Forall (fun index => cstring (name index)) syscall_table.

(** Typing a command and the end of the line runs it once. *)
Lemma ed_command echo h i bl nm l tail f : command_ok bl nm l tail -> Forall printable (command_line bl nm l tail) ->
  zlen (command_line bl nm l tail) < FINSH_CMD_SIZE -> find_command syscall_table nm = Some f -> (0 < depth)%nat ->
  let text := command_line bl nm l tail in
  exists outs, ed_keys prompt shell_complete shell_exec echo (Editor [] [] WAIT_NORMAL h i) (text ++ [10]) =
      Some (Editor [] [] WAIT_NORMAL (remember h text) (zlen (remember h text)), outs) /\
    List.filter is_ran outs = [Ran f (nm :: map (fun x => word_text x.2) l)].
Proof using names_ok.
  intros Hok Hp Hl Hf Hd t. change (zlen t < FINSH_CMD_SIZE) in Hl. destruct (ed_types prompt shell_complete shell_exec echo t [] h i Hp Hl) as (o1 & E1 & Ho1).
  rewrite ed_keys_app, E1. cbn [mbind option_bind ed_keys ed_key ed_normal app]. change ((10 =? 13) || (10 =? 10)) with true. cbn match.
  rewrite app_nil_r.
  assert (Hx : exists b', shell_exec (padded FINSH_CMD_SIZE t) (zlen t) = Some (call f (nm :: map (fun x => word_text x.2) l), [Ran f (nm :: map (fun x => word_text x.2) l)], b')).
  { unfold shell_exec, padded. destruct depth as [|d]; [lia|].
    assert (Hn : exists n, Z.to_nat (FINSH_CMD_SIZE - zlen t) = S n) by (exists (Z.to_nat (FINSH_CMD_SIZE - zlen t - 1)); lia).
    destruct Hn as [n ->]. exact (command_executed syscall_table call open_file mem malloced names_ok d bl nm l tail (replicate n 0) f Hok Hf). }
  destruct Hx as (b' & ->). cbn [mbind option_bind]. eexists. split; [reflexivity|].
  rewrite List.filter_app, Ho1. destruct echo; done.
Qed.
End Command.

Definition demo_prompt : list Z := str "msh />".
Definition demo_shell (chs : list Z) : option (finsh_shell * list out) :=
  finsh_thread_entry demo_prompt (shell_complete demo_commands true [47] (fun _ => None))
    (shell_exec demo_commands (fun _ _ => 0) (fun _ => None) true [] 1) chs.

(** [ls x], two arrows to the left, a backspace, [-], the end of the line; then the line again and a tab. *)
Lemma shell_refines_editor_witness :
  exists sh' outs, demo_shell (str "ls x" ++ [27; 91; 68; 27; 91; 68; 8; 115; 10; 27; 91; 65] ++ [10] ++ str "li" ++ [9]) = Some (sh', outs) /\
    edits true (Editor (str "list_t") [] WAIT_NORMAL [str "ls x"] 1) sh' /\
    List.filter is_ran outs = [Ran 4 [str "ls"; str "x"]; Ran 4 [str "ls"; str "x"]].
Proof.
  destruct (shell_refines_editor demo_prompt (shell_complete demo_commands true [47] (fun _ => None))
    (shell_exec demo_commands (fun _ _ => 0) (fun _ => None) true [] 1)
    (str "ls x" ++ [27; 91; 68; 27; 91; 68; 8; 115; 10; 27; 91; 65] ++ [10] ++ str "li" ++ [9])
    (Editor (str "list_t") [] WAIT_NORMAL [str "ls x"] 1) (tail (match demo_shell (str "ls x" ++ [27; 91; 68; 27; 91; 68; 8; 115; 10; 27; 91; 65] ++ [10] ++ str "li" ++ [9]) with Some (_, o) => o | None => [] end)))
    as (sh' & E & He).
  - repeat constructor; discriminate.
  - vm_compute. reflexivity.
  - eexists sh', _. split; [exact E|]. split; [exact He|]. vm_compute. reflexivity.
Defined.


(** The 80th character of a line discards it, but not from the buffer: a
    command that is typed then gets the old characters behind its last word. *)
Example long_line_left_over :
  (option_map (fun '(_, outs) => List.filter is_ran outs) (demo_shell (replicate 80 120 ++ str "ls -" ++ [10])))
    = None /\
  option_map (fun '(sh, _) => (line_position sh, take 6 (line sh))) (demo_shell (replicate 80 120 ++ str "ls"))
    = Some (2, str "lsxxxx").
Proof. split; vm_compute; reflexivity. Qed.

(** With the echo off an insertion still moves the cursor back. *)
Example no_echo_backspace :
  option_map snd (ed_normal [] (fun _ => None) (fun _ _ => None) false (Editor [97] [99] WAIT_NORMAL [] 0) 98) = Some [Print [8]].
Proof. reflexivity. Qed.
