(* ===== verification/TelnetShell.v ===== *)
(** * The shell behind the telnet server

    Puts Telnet.v and Shell.v together: the shell's thread takes its keys with
    [telnet_read], one at a time, and what it prints goes out with
    [telnet_write] (the console is the telnet device while a client is
    connected).  A command that a client types is run. *)

From S2P Require Import Prelude RingBuffer Telnet Msh Shell.

Local Open Scope Z_scope.

Section TelnetShell.
Context (prompt : list Z) (auto_complete : list Z -> option (list out * list Z))
  (exec : list Z -> Z -> option (Z * list out * list Z)).

(** [rt_kprintf] through its buffer: a longer text is cut, and its last byte
    is the terminator. *)
Definition rt_kprintf (t : list Z) : list Z :=
  let length := zlen t in
  if length <? RT_CONSOLEBUF_SIZE - 1 then t else take (Z.to_nat (RT_CONSOLEBUF_SIZE - 2)) t ++ [0].

(** Everything a key prints; what a command prints is its own. *)
Fixpoint print_all (s : server) (outs : list out) : option (server * sends) :=
  match outs with
  | [] => Some (s, [])
  | Print t :: outs => '(_, sent, s) ← server_step s (ShellWrites (rt_kprintf t)); '(s, sent') ← print_all s outs; Some (s, sent ++ sent')
  | Ran _ _ :: outs => print_all s outs
  end.

(** One turn of the shell's loop: [getchar] reads one byte from the device. *)
Definition shell_turn (s : server) (sh : finsh_shell) : option (server * finsh_shell * list out * sends) :=
  '(d, _, s) ← server_step s (ShellReads 1);
  ch ← head d;
  '(sh, outs) ← finsh_key prompt auto_complete exec sh ch;
  '(s, sent) ← print_all s outs;
  Some (s, sh, outs, sent).

Fixpoint shell_turns (n : nat) (s : server) (sh : finsh_shell) : option (server * finsh_shell * list out * sends) :=
  match n with
  | O => Some (s, sh, [], [])
  | S n => '(s, sh, outs, sent) ← shell_turn s sh; '(s, sh, outs', sent') ← shell_turns n s sh; Some (s, sh, outs ++ outs', sent ++ sent')
  end.

(** The texts a key prints. *)
Definition texts (outs : list out) : list (list Z) := omap (fun o => match o with Print t => Some t | Ran _ _ => None end) outs.

Definition on_screen (outs : list out) : list Z := concat (map (fun t => Telnet.shown (rt_kprintf t)) (texts outs)).

Lemma on_screen_app a b : on_screen (a ++ b) = on_screen a ++ on_screen b.
Proof. unfold on_screen, texts. by rewrite omap_app, map_app, concat_app. Qed.

(** A session that holds [keys], each with its notice. *)
Record waiting (keys : list Z) (s : server) : Prop := {
  waiting_holds : session_holds keys (session s);
  waiting_notice : read_notice (session s) = zlen keys
}.

Lemma prints outs : forall keys s, waiting keys s ->
  exists s' sent, print_all s outs = Some (s', sent) /\ waiting keys s' /\ client_fd (session s') = client_fd (session s) /\
    on_wire sent = map (pair (client_fd (session s))) (on_screen outs).
Proof.
  induction outs as [|[t|f args] outs IH]; intros keys s Hw; cbn [print_all]; [by exists s, []| |by apply IH].
  pose proof Hw as [Hh Hn]. destruct (agree_write keys (session s) (rt_kprintf t) Hh) as (tx & out & Ew & H1 & Ho).
  cbn [server_step]. rewrite Ew. cbn [mbind option_bind].
  destruct (IH keys (set_session (set_tx tx (session s)) s)) as (s' & sent & -> & Hw' & Ef & Hs); [by split|].
  cbn [mbind option_bind]. exists s', (out ++ sent). split; [done|]. split; [done|]. split; [done|].
  change (on_screen (Print t :: outs)) with (Telnet.shown (rt_kprintf t) ++ on_screen outs). by rewrite on_wire_app, Ho, Hs, map_app.
Qed.

Lemma turn keys c s echo ed sh ed' outs : waiting (c :: keys) s -> edits echo ed sh -> is_byte c ->
  ed_key prompt auto_complete exec echo ed c = Some (ed', outs) ->
  exists s' sh' sent, shell_turn s sh = Some (s', sh', outs, sent) /\ waiting keys s' /\ edits echo ed' sh' /\
    client_fd (session s') = client_fd (session s) /\ on_wire sent = map (pair (client_fd (session s))) (on_screen outs).
Proof.
  intros [[Hrx Htx Hnb] Hn] He Hc Hk. rewrite zlen_cons in *. pose proof (zlen_nonneg keys).
  unfold shell_turn. cbn [server_step]. unfold telnet_read. rewrite Hn. destruct (Z.eqb_spec (1 + zlen keys) 0); [lia|].
  destruct (got _ _ _ 1 Hrx ltac:(lia)) as (rx & Eg & Hr). change (Z.to_nat 1) with 1%nat in *. cbn [take drop] in *. rewrite take_0 in Eg. rewrite drop_0 in Hr.
  cbn [rx_ringbuffer set_notice]. rewrite Eg. change (zlen [c] =? 0) with false. cbn [mbind option_bind head].
  destruct (key_refines prompt auto_complete exec echo ed sh c ed' outs He Hc Hk) as (sh' & -> & He'). cbn [mbind option_bind].
  set (s1 := set_session _ _).
  assert (Hw : waiting keys s1) by (split; [split; cbn; [exact Hr|done|lia]|cbn; lia]).
  destruct (prints outs keys s1 Hw) as (s' & sent & -> & Hw' & Ef & Hs). cbn [mbind option_bind]. by exists s', sh', sent.
Qed.

Lemma turns keys : forall s echo ed sh ed' outs, waiting keys s -> edits echo ed sh -> Forall is_byte keys ->
  ed_keys prompt auto_complete exec echo ed keys = Some (ed', outs) ->
  exists s' sh' sent, shell_turns (length keys) s sh = Some (s', sh', outs, sent) /\ waiting [] s' /\ edits echo ed' sh' /\
    on_wire sent = map (pair (client_fd (session s))) (on_screen outs).
Proof.
  induction keys as [|c keys IH]; intros s echo ed sh ed' outs Hw He Hb Hk; cbn [ed_keys length shell_turns] in *.
  { injection Hk as <- <-. by exists s, sh, []. }
  apply Forall_cons in Hb as [Hc Hb]. destruct (ed_key _ _ _ _ _ _) as [[ed1 o1]|] eqn:E1; [|done]. cbn [mbind option_bind] in Hk.
  destruct (ed_keys _ _ _ _ ed1 keys) as [[ed2 o2]|] eqn:E2; [|done]. cbn [mbind option_bind] in Hk. injection Hk as <- <-.
  destruct (turn keys c s echo ed sh ed1 o1 Hw He Hc E1) as (s1 & sh1 & sent1 & -> & Hw1 & He1 & Ef1 & Hs1). cbn [mbind option_bind].
  destruct (IH s1 echo ed1 sh1 ed2 o2 Hw1 He1 Hb E2) as (s2 & sh2 & sent2 & -> & Hw2 & He2 & Hs2). cbn [mbind option_bind].
  exists s2, sh2, (sent1 ++ sent2). split; [done|]. split; [done|]. split; [done|].
  by rewrite on_wire_app, on_screen_app, Hs1, Hs2, Ef1, map_app.
Qed.
End TelnetShell.

Section Session.
Context (prompt : list Z) (syscall_table : list finsh_syscall) (call : Z -> list (list Z) -> Z)
  (open_file : list Z -> option (list Z)) (mem : bool) (malloced cwd : list Z) (readdir : list Z -> option (list (list Z))) (depth : nat).
Hypothesis names_ok : Forall (fun index => cstring (name index)) syscall_table.

Abbreviation complete := (shell_complete syscall_table mem cwd readdir).
Abbreviation exec := (shell_exec syscall_table call open_file mem malloced depth).

End Session.

Definition quiet_shell : finsh_shell := FinshShell WAIT_NORMAL false 0 0 (replicate 5 (replicate 80 0)) (replicate 80 0) 0 0.

