(* ===== verification/Calendar.v ===== *)
(** * The calendar

    Models src/rt-thread/components/libc/compilers/common/gmtime_r.c: the broken
    down time of a number of seconds since 1970.  The reference counts the days
    of years and months; the theorems show that [gmtime_r] gives the one valid
    date and time that the reference takes back to its argument. *)

From S2P Require Import Prelude.

Local Open Scope Z_scope.

(** [struct tm], the fields that are set. *)
Record tm := Tm {
  tm_sec : Z;
  tm_min : Z;
  tm_hour : Z;
  tm_mday : Z;
  tm_mon : Z;
  tm_year : Z;
  tm_wday : Z;
  tm_yday : Z
}.

Definition SPD : Z := 24 * 60 * 60.

Definition __spm : list Z :=
  [0; 31; 31 + 28; 31 + 28 + 31; 31 + 28 + 31 + 30; 31 + 28 + 31 + 30 + 31; 31 + 28 + 31 + 30 + 31 + 30;
   31 + 28 + 31 + 30 + 31 + 30 + 31; 31 + 28 + 31 + 30 + 31 + 30 + 31 + 31; 31 + 28 + 31 + 30 + 31 + 30 + 31 + 31 + 30;
   31 + 28 + 31 + 30 + 31 + 30 + 31 + 31 + 30 + 31; 31 + 28 + 31 + 30 + 31 + 30 + 31 + 31 + 30 + 31 + 30;
   31 + 28 + 31 + 30 + 31 + 30 + 31 + 31 + 30 + 31 + 30 + 31].

Definition __isleap (year : Z) : bool :=
  (Z.rem year 4 =? 0) && (negb (Z.rem year 100 =? 0) || (Z.rem year 400 =? 0)).

(** "for (i = 1970;; ++i)" from [i] with [work] days left. *)
Fixpoint year_loop (fuel : nat) (i work : Z) : option (Z * Z) :=
  match fuel with
  | O => None
  | S fuel =>
      let k := if __isleap i then 366 else 365 in
      if k <=? work then year_loop fuel (i + 1) (work - k) else Some (i, work)
  end.

(** "for (i = 11; i && (__spm[i] > work); --i)" *)
Fixpoint month_loop (i : nat) (work : Z) : nat :=
  match i with
  | O => O
  | S j => if work <? nth i __spm 0 then month_loop j work else i
  end.

(** [gmtime_r]; the days bound the years. *)
Definition gmtime_r (timep : Z) : option tm :=
  let work := Z.rem timep SPD in
  let sec := Z.rem work 60 in
  let work := Z.quot work 60 in
  let min := Z.rem work 60 in
  let hour := Z.quot work 60 in
  let days := Z.quot timep SPD in
  '(year, yday) ← year_loop (S (Z.to_nat days)) 1970 days;
  let late := __isleap year && (58 <? yday) in
  let mday := if late && (yday =? 59) then 2 else 1 in
  let work := if late then yday - 1 else yday in
  let mon := month_loop 11 work in
  Some (Tm sec min hour (mday + (work - nth mon __spm 0)) (Z.of_nat mon) (year - 1900) (Z.rem (4 + days) 7) yday).

(** ** The reference *)

Definition leap (y : Z) : bool := (y `mod` 4 =? 0) && (negb (y `mod` 100 =? 0) || (y `mod` 400 =? 0)).

Definition year_len (y : Z) : Z := if leap y then 366 else 365.

(** The days of the month [m], counted from 0. *)
Definition month_len (y : Z) (m : nat) : Z :=
  match m with 1%nat => if leap y then 29 else 28 | 3%nat | 5%nat | 8%nat | 10%nat => 30 | _ => 31 end.

Fixpoint days_before_year (n : nat) : Z :=
  match n with O => 0 | S n => days_before_year n + year_len (1970 + Z.of_nat n) end.

Fixpoint days_before_month (y : Z) (m : nat) : Z :=
  match m with O => 0 | S m => days_before_month y m + month_len y m end.

(** A date: years since 1970, month from 0, day from 1. *)
Record date := Date { years : nat; month : nat; day : Z }.

Definition date_ok (d : date) : Prop :=
  (month d < 12)%nat /\ 1 <= day d <= month_len (1970 + Z.of_nat (years d)) (month d).

Definition day_number (d : date) : Z :=
  days_before_year (years d) + days_before_month (1970 + Z.of_nat (years d)) (month d) + day d - 1.

(** The broken down time of a date and a second of the day. *)
Definition broken_down (d : date) (s : Z) : tm :=
  Tm (s `mod` 60) ((s / 60) `mod` 60) (s / 3600) (day d) (Z.of_nat (month d)) (1970 + Z.of_nat (years d) - 1900)
    ((4 + day_number d) `mod` 7) (day_number d - days_before_year (years d)).

Lemma isleap_leap y : 0 <= y -> __isleap y = leap y.
Proof. intros Hy. unfold __isleap, leap. by rewrite !Z.rem_mod_nonneg by lia. Qed.

Lemma year_len_pos y : 365 <= year_len y.
Proof. unfold year_len. destruct (leap y); lia. Qed.

Lemma month_len_pos y m : 28 <= month_len y m.
Proof. unfold month_len. destruct (leap y); repeat case_match; lia. Qed.

Lemma year_loop_ends fuel : forall n work, 0 <= work -> (Z.to_nat work < fuel)%nat ->
  exists k yday, year_loop fuel (1970 + Z.of_nat n) work = Some (1970 + Z.of_nat k, yday) /\
    days_before_year n + work = days_before_year k + yday /\ 0 <= yday < year_len (1970 + Z.of_nat k).
Proof.
  induction fuel as [|fuel IH]; intros n work Hw Hf; [lia|]. cbn [year_loop]. rewrite isleap_leap by lia.
  change (if leap (1970 + Z.of_nat n) then 366 else 365) with (year_len (1970 + Z.of_nat n)).
  pose proof (year_len_pos (1970 + Z.of_nat n)). destruct (Z.leb_spec (year_len (1970 + Z.of_nat n)) work).
  - destruct (IH (S n) (work - year_len (1970 + Z.of_nat n))) as (k & yday & E & Ed & Hy); [lia|lia|].
    exists k, yday. rewrite <- E, <- Ed. split; [f_equal; lia|]. cbn [days_before_year]. split; [lia|done].
  - exists n, work. split; [done|]. split; [done|lia].
Qed.

(** The month of a day of a year, with the correction for 29 February. *)
Lemma month_found y yday : 0 <= yday < year_len y ->
  let late := leap y && (58 <? yday) in
  let work := if late then yday - 1 else yday in
  let mon := month_loop 11 work in
  (mon < 12)%nat /\ 1 <= (if late && (yday =? 59)%Z then 2 else 1) + (work - nth mon __spm 0) <= month_len y mon /\
  days_before_month y mon + ((if late && (yday =? 59)%Z then 2 else 1) + (work - nth mon __spm 0)) - 1 = yday.
Proof.
  intros Hy. unfold year_len in Hy. cbn zeta. destruct (leap y) eqn:El; cbn [andb]; unfold month_loop; cbn [nth __spm].
  - destruct (Z.ltb_spec 58 yday); cbn [andb]; [destruct (Z.eqb_spec yday 59)|].
    all: repeat (match goal with |- context [?a <? ?b] => destruct (Z.ltb_spec a b); try lia end).
    all: cbn [days_before_month month_len]; unfold month_len; rewrite ?El; cbn; lia.
  - repeat (match goal with |- context [?a <? ?b] => destruct (Z.ltb_spec a b); try lia end).
    all: cbn [days_before_month month_len]; unfold month_len; rewrite ?El; cbn; lia.
Qed.

Lemma year_starts n k : (n < k)%nat -> days_before_year n + year_len (1970 + Z.of_nat n) <= days_before_year k.
Proof.
  induction k as [|k IH]; [lia|]. intros H. cbn [days_before_year]. pose proof (year_len_pos (1970 + Z.of_nat k)).
  destruct (Nat.eq_dec n k) as [->|]; [lia|]. specialize (IH ltac:(lia)). lia.
Qed.

Lemma month_starts y m k : (m < k)%nat -> days_before_month y m + month_len y m <= days_before_month y k.
Proof.
  induction k as [|k IH]; [lia|]. intros H. cbn [days_before_month]. pose proof (month_len_pos y k).
  destruct (Nat.eq_dec m k) as [->|]; [lia|]. specialize (IH ltac:(lia)). lia.
Qed.

Lemma year_months y : days_before_month y 12 = year_len y.
Proof. unfold year_len. cbn [days_before_month]. unfold month_len. destruct (leap y); reflexivity. Qed.

Lemma in_year d : date_ok d -> 0 <= day_number d - days_before_year (years d) < year_len (1970 + Z.of_nat (years d)).
Proof.
  intros [Hm Hd]. unfold day_number. set (y := 1970 + Z.of_nat (years d)) in *. rewrite <- year_months.
  assert (0 <= days_before_month y (month d)).
  { clear. induction (month d) as [|m IH]; cbn [days_before_month]; [lia|]. pose proof (month_len_pos y m). lia. }
  destruct (Nat.eq_dec (month d) 11) as [E|E].
  - change (days_before_month y 12) with (days_before_month y 11 + month_len y 11). rewrite E in *. lia.
  - pose proof (month_starts y (month d) (S (month d)) ltac:(lia)). cbn [days_before_month] in *.
    assert (days_before_month y (S (month d)) <= days_before_month y 12).
    { pose proof (month_starts y (S (month d)) 12 ltac:(lia)). pose proof (month_len_pos y (S (month d))). lia. }
    cbn [days_before_month] in *. lia.
Qed.

(** Different dates have different numbers. *)
Lemma day_number_inj d d' : date_ok d -> date_ok d' -> day_number d = day_number d' -> d = d'.
Proof.
  intros Hok Hok' E. pose proof (in_year d Hok) as H1. pose proof (in_year d' Hok') as H2.
  assert (Ey : years d = years d').
  { destruct (Nat.lt_trichotomy (years d) (years d')) as [Hl|[|Hl]]; [|done|]; apply year_starts in Hl; lia. }
  destruct Hok as [Hm Hd], Hok' as [Hm' Hd']. unfold day_number in E. rewrite <- Ey in *. set (y := 1970 + Z.of_nat (years d)) in *.
  assert (Em : month d = month d').
  { destruct (Nat.lt_trichotomy (month d) (month d')) as [Hl|[|Hl]]; [|done|]; apply (month_starts y) in Hl; lia. }
  rewrite <- Em in *. destruct d, d'. cbn in *. subst. f_equal. lia.
Qed.

Lemma gmtime_found t : 0 <= t ->
  exists d, date_ok d /\ day_number d = t / SPD /\ gmtime_r t = Some (broken_down d (t `mod` SPD)).
Proof.
  intros Ht. unfold gmtime_r. pose proof (Z.mod_pos_bound t SPD ltac:(done)) as Hs. pose proof (Z.div_pos t SPD Ht ltac:(done)) as Hd.
  rewrite (Z.rem_mod_nonneg t), (Z.quot_div_nonneg t) by (done || lia). set (s := t `mod` SPD) in *. set (days := t / SPD) in *.
  destruct (year_loop_ends (S (Z.to_nat days)) 0 days Hd ltac:(lia)) as (k & yday & E & Ed & Hy).
  change (1970 + Z.of_nat 0) with 1970 in E. rewrite E. cbn [mbind option_bind]. rewrite isleap_leap by lia.
  destruct (month_found (1970 + Z.of_nat k) yday Hy) as (Hm & Hday & Hnum). cbn zeta in *.
  set (late := leap (1970 + Z.of_nat k) && (58 <? yday)) in *. set (work := if late then yday - 1 else yday) in *.
  set (mon := month_loop 11 work) in *. set (mday := (if late && (yday =? 59) then 2 else 1) + (work - nth mon __spm 0)) in *.
  exists (Date k mon mday).
  assert (Hn : day_number (Date k mon mday) = days) by (unfold day_number; cbn [years month day days_before_year] in *; lia).
  split; [done|]. split; [done|]. unfold broken_down. rewrite Hn. cbn [years month day].
  pose proof (Z.div_pos s 60 ltac:(lia) ltac:(done)). rewrite (Z.quot_div_nonneg s 60), (Z.quot_div_nonneg (s / 60) 60) by lia.
  rewrite !Z.rem_mod_nonneg by lia.
  change 3600 with (60 * 60). rewrite <- Z.div_div by lia. do 2 f_equal. cbn [days_before_year] in *. lia.
Qed.

(** [C30] For every number of seconds from 1970 on, [gmtime_r] ends with a
    date of the calendar (month lengths, 29 February in the leap years) and the
    time of day, the weekday and the day of the year; the reference takes the
    date and the time back to the number of seconds, and no other date has that
    day's number. *)
Theorem gmtime_r_correct t : 0 <= t ->
  exists d, gmtime_r t = Some (broken_down d (t `mod` SPD)) /\ date_ok d /\ day_number d * SPD + t `mod` SPD = t /\
    forall d', date_ok d' -> day_number d' = day_number d -> d' = d.
Proof.
  intros Ht. destruct (gmtime_found t Ht) as (d & Hok & Hn & E). exists d. split; [done|]. split; [done|]. split.
  - rewrite Hn. unfold SPD. pose proof (Z.div_mod t (24 * 60 * 60) ltac:(done)). lia.
  - intros d' Hok' E'. by apply day_number_inj.
Qed.

(** 29 February 2020, 23:59:58, a Saturday. *)
Lemma gmtime_r_correct_witness :
  exists d, gmtime_r 1583020798 = Some (broken_down d 86398) /\ day_number d = 18321 /\ broken_down d 86398 = Tm 58 59 23 29 1 120 6 59.
Proof.
  destruct (gmtime_r_correct 1583020798) as (d & E & _ & Hn & Hu); [discriminate|]. exists d. split; [exact E|].
  assert (Hd : d = Date 50 1 29).
  { symmetry. apply Hu; [split; [repeat constructor|split; discriminate]|].
    change (1583020798 `mod` SPD) with 86398 in Hn. unfold SPD in Hn. assert (day_number d = 18321) as -> by lia. vm_compute. reflexivity. }
  rewrite Hd. split; vm_compute; reflexivity.
Defined.

(** The broken down time of a date. *)
Lemma gmtime_of d s : date_ok d -> 0 <= s < SPD -> gmtime_r (day_number d * SPD + s) = Some (broken_down d s).
Proof.
  intros Hok Hs. assert (Hn : 0 <= day_number d).
  { pose proof (in_year d Hok) as H. assert (0 <= days_before_year (years d)); [|lia]. clear.
    induction (years d) as [|n IH]; cbn [days_before_year]; [lia|]. pose proof (year_len_pos (1970 + Z.of_nat n)). lia. }
  destruct (gmtime_found (day_number d * SPD + s)) as (d' & Hok' & Hn' & E); [unfold SPD in *; lia|].
  rewrite Z.div_add_l, (Z.div_small s), Z.add_0_r in Hn' by (done || lia).
  rewrite (Z.add_comm (day_number d * SPD)), Z.mod_add, Z.mod_small in E by (done || lia).
  by rewrite Z.add_comm, E, (day_number_inj d' d).
Qed.
