(* ===== verification/Ntp.v ===== *)
(** * Network time

    Models src/packages/netutils-v1.1.0/ntp/ntp.c, the software clock of
    src/rt-thread/components/drivers/rtc/soft_rtc.c and [set_date] and
    [set_time] of rtc.c: a request goes to up to three servers, the first
    datagram that comes back within five seconds gives the time, and the clock
    is set to it in two steps.  The theorems show when the clock then shows the
    server's time. *)

From S2P Require Import Prelude Calendar.

Local Open Scope Z_scope.

Definition RT_TICK_PER_SECOND : Z := 1000.

(** ** The software clock *)

(** [init_tick] and [init_time]. *)
Record soft_rtc := SoftRtc { init_tick : Z; init_time : Z }.

(** The seconds of the tick counter since the clock's start. *)
Definition elapsed (rtc : soft_rtc) (tick : Z) : Z := u32 (tick - init_tick rtc) / RT_TICK_PER_SECOND.

(** [soft_rtc_control] at a tick; [time_t] has 32 bits. *)
Definition rtc_get_time (rtc : soft_rtc) (tick : Z) : Z := i32 (init_time rtc + elapsed rtc tick).
Definition rtc_set_time (rtc : soft_rtc) (tick time : Z) : soft_rtc := SoftRtc (init_tick rtc) (i32 (time - elapsed rtc tick)).

(** [mktime] of a date and time in their ranges. *)
Definition tm_date (t : tm) : date := Date (Z.to_nat (tm_year t + 1900 - 1970)) (Z.to_nat (tm_mon t)) (tm_mday t).
Definition mktime (t : tm) : Z := i32 (day_number (tm_date t) * SPD + tm_hour t * 3600 + tm_min t * 60 + tm_sec t).

(** [localtime], which is [gmtime_r] on the device. *)
Definition localtime (t : Z) : option tm := gmtime_r t.

(** [rt_soft_rtc_init] at a tick: the first of January 2018. *)
Definition rt_soft_rtc_init (tick : Z) : soft_rtc := SoftRtc tick (mktime (Tm 0 0 0 1 0 118 0 0)).

(** [set_time]; the clock is read at [tick] and set at [tick']. *)
Definition set_time (rtc : soft_rtc) (tick tick' hour minute second : Z) : option soft_rtc :=
  t ← localtime (rtc_get_time rtc tick);
  Some (rtc_set_time rtc tick' (mktime (Tm second minute hour (tm_mday t) (tm_mon t) (tm_year t) (tm_wday t) (tm_yday t)))).

Definition set_date (rtc : soft_rtc) (tick tick' year month day : Z) : option soft_rtc :=
  t ← localtime (rtc_get_time rtc tick);
  Some (rtc_set_time rtc tick' (mktime (Tm (tm_sec t) (tm_min t) (tm_hour t) day (month - 1) (year - 1900) (tm_wday t) (tm_yday t)))).

(** ** The request *)

Definition NTP_PACKET : Z := 48.
Definition NTP_TIMESTAMP_DELTA : Z := 2208988800.
Definition NTP_TIMEZONE : Z := 8.
Definition NTP_GET_TIMEOUT : Z := 5.
Definition NTP_SERVER_NUM : nat := 3.

Definition months : list (list Z) :=
  [str "Jan"; str "Feb"; str "Mar"; str "Apr"; str "May"; str "Jun"; str "Jul"; str "Aug"; str "Sep"; str "Oct"; str "Nov"; str "Dec"].

Fixpoint month_index (l : list (list Z)) (date : list Z) (i : Z) : Z :=
  match l with [] => 0 | m :: l => if bool_decide (take 3 date = m) then i + 1 else month_index l date (i + 1) end.

(** The bytes that go with the request: the hardware address, each byte with
    the month of the build added, the version of RT-Thread, and a sum. *)
Definition send_data (hwaddr build_date : list Z) : option (list Z) :=
  let moth_num := month_index months build_date 0 in
  b ← buf_write (2 :: replicate 17 0) 1 (map (fun x => u8 (x + moth_num)) hwaddr);
  b ← buf_write b 9 [4; 0; 2; 0; 0; 0; 0];
  let check := u16 (foldr Z.add 0 (take 16 b)) in
  buf_write b 16 [Z.shiftr check 8; Z.land check 255].

(** The packet before it is sent. *)
Definition ntp_request (hwaddr build_date : list Z) : option (list Z) :=
  b ← send_data hwaddr build_date; buf_write (27 :: replicate 47 0) 4 b.

(** ** The reply *)

(** A turn of the receive loop: what [recvfrom] gives for every server, the
    ticks that pass until the check behind the loop if a datagram has come, and
    the ticks of the whole turn if none has. *)
Record turn := Turn { answers : list (option (list Z)); late : Z; took : Z }.

Fixpoint first_answer (l : list (option (list Z))) : option (list Z) :=
  match l with [] => None | Some d :: _ => Some d | None :: l => first_answer l end.

(** A datagram over the static packet; what it does not cover stays. *)
Definition receive (packet d : list Z) : list Z :=
  let d := take (Z.to_nat NTP_PACKET) d in d ++ drop (length d) packet.

Definition be32 (b : list Z) : Z :=
  match b with [b3; b2; b1; b0] => b3 * 2 ^ 24 + b2 * 2 ^ 16 + b1 * 2 ^ 8 + b0 | _ => 0 end.

(** [(time_t)(ntohl(txTm_s) - NTP_TIMESTAMP_DELTA)] *)
Definition packet_time (packet : list Z) : Z := i32 (be32 (buf_sub packet 40 4) - NTP_TIMESTAMP_DELTA).

(** The loop from a tick; the result is the tick of the check behind the loop
    and the packet. *)
Fixpoint ntp_receive (fuel : nat) (server_num : nat) (deadline tick : Z) (packet : list Z) (turns : nat -> turn) (k : nat) : option (Z * list Z) :=
  match fuel with
  | O => None
  | S fuel =>
      if tick <=? deadline then
        match first_answer (take server_num (answers (turns k))) with
        | Some d => Some (u32 (tick + late (turns k)), receive packet d)
        | None => ntp_receive fuel server_num deadline (u32 (tick + took (turns k))) packet turns (S k)
        end
      else Some (tick, packet)
  end.

(** What the network does for a call. *)
Record network := Network {
  socket_ok : bool;
  sent_ok : list bool;
  turns_of : nat -> turn
}.

(** The servers a request is sent to: the one of the caller, or those of the
    three names that can be resolved and sent to. *)
Definition servers (host : bool) (net : network) : nat :=
  length (List.filter id (take (if host then 1 else NTP_SERVER_NUM)%nat (sent_ok net))).

(** [ntp_get_time]; a turn takes ten ticks at least, so 502 turns are enough. *)
Definition ntp_fuel : nat := 502.

Definition ntp_get_time (host : bool) (request : list Z) (net : network) (start : Z) : option Z :=
  if negb (socket_ok net) then Some 0
  else if (servers host net =? 0)%nat then Some 0
  else
    let deadline := u32 (start + NTP_GET_TIMEOUT * RT_TICK_PER_SECOND) in
    '(tick, packet) ← ntp_receive ntp_fuel (servers host net) deadline start request (turns_of net) 0;
    Some (if tick <=? deadline then packet_time packet else 0).

Definition ntp_get_local_time (host : bool) (request : list Z) (net : network) (start : Z) : option Z :=
  cur_time ← ntp_get_time host request net start;
  Some (if cur_time =? 0 then 0 else i32 (cur_time + NTP_TIMEZONE * 3600)).

(** The two steps of the setting, [set_time] and [set_date]. *)
Definition set_clock (rtc : soft_rtc) (t1 t1' t2 t2' : Z) (cur_tm : tm) : option soft_rtc :=
  rtc ← set_time rtc t1 t1' (tm_hour cur_tm) (tm_min cur_tm) (tm_sec cur_tm);
  set_date rtc t2 t2' (tm_year cur_tm + 1900) (tm_mon cur_tm + 1) (tm_mday cur_tm).

(** [ntp_sync_to_rtc]; the four ticks are those of [set_time] and [set_date]. *)
Definition ntp_sync_to_rtc (host : bool) (request : list Z) (net : network) (start : Z) (rtc : soft_rtc) (t1 t1' t2 t2' : Z) : option (Z * soft_rtc) :=
  cur_time ← ntp_get_local_time host request net start;
  if cur_time =? 0 then Some (0, rtc)
  else
    cur_tm ← localtime cur_time;
    rtc ← set_clock rtc t1 t1' t2 t2' cur_tm;
    Some (cur_time, rtc).

(** ** The wait for an answer *)

(** The tick of turn [k], without a wrap. *)
Fixpoint tick_of (turns : nat -> turn) (start : Z) (k : nat) : Z :=
  match k with O => start | S k => tick_of turns start k + took (turns k) end.

Definition quiet (n : nat) (t : turn) : Prop := first_answer (take n (answers t)) = None.

Lemma tick_of_grows turns start k : (forall j, (j < k)%nat -> 10 <= took (turns j)) -> start + 10 * Z.of_nat k <= tick_of turns start k.
Proof.
  induction k as [|k IH]; intros Ht; cbn [tick_of]; [lia|]. specialize (IH ltac:(intros j Hj; apply Ht; lia)). pose proof (Ht k ltac:(lia)). lia.
Qed.

(** Quiet turns only pass the time. *)
Lemma quiet_turns n turns deadline packet fuel start k : (forall j, (j < k)%nat -> quiet n (turns j) /\ 10 <= took (turns j) /\ tick_of turns start j <= deadline) ->
  0 <= start -> tick_of turns start k < 2 ^ 32 -> (k <= fuel)%nat ->
  ntp_receive fuel n deadline start packet turns 0 = ntp_receive (fuel - k) n deadline (tick_of turns start k) packet turns k.
Proof.
  intros Hq Hs Hw Hf. induction k as [|k IH]; [by rewrite Nat.sub_0_r|]. cbn [tick_of] in *.
  destruct (Hq k ltac:(lia)) as (Hk & Ht & Hd). rewrite IH; [|intros j Hj; apply Hq; lia|lia|lia].
  destruct (fuel - k)%nat as [|m] eqn:Em; [lia|]. replace (fuel - S k)%nat with m by lia. cbn [ntp_receive].
  destruct (Z.leb_spec (tick_of turns start k) deadline); [|lia]. rewrite Hk.
  pose proof (tick_of_grows turns start k ltac:(intros j Hj; apply Hq; lia)). by rewrite u32_id by lia.
Qed.

(** The datagram of turn [k] is the first one, in time. *)
Record answered (n : nat) (turns : nat -> turn) (start : Z) (k : nat) (d : list Z) : Prop := {
  answered_start : 0 <= start /\ start + NTP_GET_TIMEOUT * RT_TICK_PER_SECOND < 2 ^ 32;
  answered_quiet : forall j, (j < k)%nat -> quiet n (turns j) /\ 10 <= took (turns j);
  answered_first : first_answer (take n (answers (turns k))) = Some d;
  answered_late : 0 <= late (turns k);
  answered_time : tick_of turns start k + late (turns k) <= start + NTP_GET_TIMEOUT * RT_TICK_PER_SECOND
}.

Lemma tick_mono turns start k j : (forall i, (i < k)%nat -> 10 <= took (turns i)) -> (j <= k)%nat -> tick_of turns start j <= tick_of turns start k.
Proof.
  induction k as [|k IH]; intros Ht Hj; [by replace j with 0%nat by lia|]. destruct (Nat.eq_dec j (S k)) as [->|]; [lia|].
  specialize (IH ltac:(intros i Hi; apply Ht; lia) ltac:(lia)). pose proof (Ht k ltac:(lia)). cbn [tick_of]. lia.
Qed.

Lemma answer_received host request net start k d : socket_ok net = true -> servers host net <> 0%nat ->
  answered (servers host net) (turns_of net) start k d ->
  ntp_get_time host request net start = Some (packet_time (receive request d)).
Proof.
  intros Hok Hn [[Hs Hd] Hq Hf Hl Ht]. unfold ntp_get_time. rewrite Hok. cbn [negb].
  destruct (Nat.eqb_spec (servers host net) 0); [done|].
  assert (Htook : forall j, (j < k)%nat -> 10 <= took (turns_of net j)) by (intros j Hj; apply Hq; lia).
  pose proof (tick_of_grows (turns_of net) start k Htook) as Hg. unfold NTP_GET_TIMEOUT, RT_TICK_PER_SECOND in *.
  rewrite (u32_id (start + _)) by lia.
  rewrite (quiet_turns _ _ _ _ _ _ k); [| |done|lia|unfold ntp_fuel; lia].
  - destruct (ntp_fuel - k)%nat as [|m] eqn:Em; [unfold ntp_fuel in Em; lia|]. cbn [ntp_receive].
    destruct (Z.leb_spec (tick_of (turns_of net) start k) (start + 5 * 1000)); [|lia]. rewrite Hf. cbn [mbind option_bind].
    rewrite u32_id by lia. destruct (Z.leb_spec (tick_of (turns_of net) start k + late (turns_of net k)) (start + 5 * 1000)); [done|lia].
  - intros j Hj. destruct (Hq j Hj). pose proof (tick_mono (turns_of net) start k j Htook ltac:(lia)). split; [done|lia].
Qed.

(** The first turn after the deadline. *)
Lemma deadline_turn turns start deadline : (forall j, 10 <= took (turns j)) -> start <= deadline ->
  exists k, (Z.of_nat k <= (deadline - start) / 10 + 1) /\ deadline < tick_of turns start k /\ forall j, (j < k)%nat -> tick_of turns start j <= deadline.
Proof.
  intros Ht Hs. pose proof (Z.div_mod (deadline - start) 10 ltac:(done)). pose proof (Z.mod_pos_bound (deadline - start) 10 ltac:(done)).
  set (q := (deadline - start) / 10) in *. assert (Hq : 0 <= q) by (apply Z.div_pos; lia).
  assert (Hex : forall n, deadline < tick_of turns start n -> exists k, (k <= n)%nat /\ deadline < tick_of turns start k /\ forall j, (j < k)%nat -> tick_of turns start j <= deadline).
  { induction n as [|n IH]; intros Hn; [exists 0%nat; cbn in *; lia|]. destruct (Z.le_gt_cases (tick_of turns start n) deadline) as [Hle|Hgt].
    - exists (S n). split; [lia|]. split; [done|]. intros j Hj. pose proof (tick_mono turns start n j ltac:(intros; apply Ht) ltac:(lia)). lia.
    - destruct (IH ltac:(lia)) as (k & Hk & ? & ?). exists k. split; [lia|done]. }
  destruct (Hex (Z.to_nat (q + 1))) as (k & Hk & Hd & Hj).
  - pose proof (tick_of_grows turns start (Z.to_nat (q + 1)) ltac:(intros; apply Ht)). lia.
  - exists k. split; [lia|done].
Qed.

(** Without an answer the call ends, with 0: the wait is over after at
    most 501 turns, whatever time each of them takes. *)
Theorem ntp_silence_ends host request net start : socket_ok net = true -> servers host net <> 0%nat -> 0 <= start ->
  start + NTP_GET_TIMEOUT * RT_TICK_PER_SECOND + 2 ^ 16 < 2 ^ 32 ->
  (forall j, quiet (servers host net) (turns_of net j) /\ 10 <= took (turns_of net j) <= 2 ^ 16) ->
  ntp_get_time host request net start = Some 0.
Proof.
  intros Hok Hn Hs Hd Hq. unfold ntp_get_time. rewrite Hok. cbn [negb]. destruct (Nat.eqb_spec (servers host net) 0); [done|].
  unfold NTP_GET_TIMEOUT, RT_TICK_PER_SECOND in *. rewrite (u32_id (start + _)) by lia. set (deadline := start + 5 * 1000).
  destruct (deadline_turn (turns_of net) start deadline) as (k & Hk & Hlate & Hj); [intros j; apply Hq|lia|].
  replace ((deadline - start) / 10 + 1) with 501 in Hk by (unfold deadline; replace (start + 5 * 1000 - start) with 5000 by lia; done).
  assert (Hw : tick_of (turns_of net) start k < 2 ^ 32).
  { destruct k as [|k]; [cbn in *; lia|]. cbn [tick_of]. pose proof (Hj k ltac:(lia)). pose proof (Hq k). lia. }
  rewrite (quiet_turns _ _ _ _ _ _ k); [|intros j Hjk; split; [apply Hq|split; [apply Hq|by apply Hj]]|done|done|unfold ntp_fuel; lia].
  destruct (ntp_fuel - k)%nat as [|m] eqn:Em; [unfold ntp_fuel in Em; lia|]. cbn [ntp_receive].
  destruct (Z.leb_spec (tick_of (turns_of net) start k) deadline); [lia|]. cbn [mbind option_bind].
  destruct (Z.leb_spec (tick_of (turns_of net) start k) deadline); [lia|done].
Qed.

(** The timestamp a server sends at [t] seconds from 1970: it goes around in 2036. *)
Definition timestamp (t : Z) : list Z :=
  let s := u32 (t + NTP_TIMESTAMP_DELTA) in [s / 2 ^ 24; (s / 2 ^ 16) `mod` 256; (s / 2 ^ 8) `mod` 256; s `mod` 256].

Lemma timestamp_read t : be32 (timestamp t) = u32 (t + NTP_TIMESTAMP_DELTA).
Proof.
  unfold timestamp. cbn zeta. pose proof (u32_range (t + NTP_TIMESTAMP_DELTA)) as H. set (s := u32 _) in *. clearbody s. cbn [be32].
  change (2 ^ 24) with (2 ^ 16 * 256). change (2 ^ 16) with (2 ^ 8 * 256) at 1 4.
  rewrite <- !Z.div_div by lia. change (2 ^ 16) with (2 ^ 8 * 256). rewrite <- !Z.div_div by lia. change (2 ^ 8) with 256.
  pose proof (Z.div_mod s 256). pose proof (Z.div_mod (s / 256) 256). pose proof (Z.div_mod (s / 256 / 256) 256). lia.
Qed.

(** The timestamp is read from a datagram that reaches it. *)
Lemma packet_time_of request head t rest : zlen head = 40 -> 0 <= t < 2 ^ 31 -> packet_time (receive request (head ++ timestamp t ++ rest)) = t.
Proof.
  intros Hh Ht. unfold packet_time, receive. set (ts := timestamp t).
  assert (Hts : length ts = 4%nat) by done.
  assert (E : exists rest', take (Z.to_nat NTP_PACKET) (head ++ ts ++ rest) = head ++ ts ++ rest').
  { exists (take 4 rest). change (Z.to_nat NTP_PACKET) with 48%nat. rewrite take_app_ge by (unfold zlen in Hh; lia).
    replace (48 - length head)%nat with 8%nat by (unfold zlen in Hh; lia). by rewrite take_app_ge by (rewrite Hts; lia). }
  destruct E as [rest' ->]. rewrite <- !app_assoc.
  assert (Esub : buf_sub (head ++ ts ++ rest' ++ drop (length (head ++ ts ++ rest')) request) 40 4 = ts).
  { rewrite buf_sub_skip, Hh, Z.sub_diag by lia. by apply buf_sub_here. }
  rewrite Esub. unfold ts. rewrite timestamp_read. unfold i32, u32, NTP_TIMESTAMP_DELTA.
  replace ((t + 2208988800) `mod` 2 ^ 32 - 2208988800 + 2 ^ 31) with ((t + 2208988800) `mod` 2 ^ 32 + (2 ^ 31 - 2208988800)) by lia.
  rewrite Zplus_mod_idemp_l. replace (t + 2208988800 + (2 ^ 31 - 2208988800)) with (t + 2 ^ 31) by lia. rewrite Z.mod_small; lia.
Qed.

(** ** Setting the clock *)

Lemma mktime_of d s w y : date_ok d -> 0 <= s ->
  mktime (Tm (s `mod` 60) ((s / 60) `mod` 60) (s / 3600) (day d) (Z.of_nat (month d)) (1970 + Z.of_nat (years d) - 1900) w y) = i32 (day_number d * SPD + s).
Proof.
  intros _ Hs. unfold mktime, tm_date. cbn [tm_year tm_mon tm_mday tm_hour tm_min tm_sec].
  replace (Z.to_nat (1970 + Z.of_nat (years d) - 1900 + 1900 - 1970)) with (years d) by lia. rewrite Nat2Z.id.
  replace (Date (years d) (month d) (day d)) with d by (by destruct d).
  f_equal. change 3600 with (60 * 60). rewrite <- Z.div_div by lia. pose proof (Z.div_mod s 60). pose proof (Z.div_mod (s / 60) 60). lia.
Qed.

Lemma elapsed_range rtc t : 0 <= elapsed rtc t <= 4294967.
Proof.
  unfold elapsed, RT_TICK_PER_SECOND. pose proof (u32_range (t - init_tick rtc)).
  split; [apply Z.div_pos; lia|]. apply Z.lt_succ_r, Z.div_lt_upper_bound; lia.
Qed.

(** [set_time] keeps the day of the clock, [set_date] its time of day. *)
Lemma time_set rtc t t' s : 0 <= rtc_get_time rtc t -> 0 <= s < SPD ->
  let new := rtc_get_time rtc t / SPD * SPD + s in
  new < 2 ^ 31 -> set_time rtc t t' (s / 3600) ((s / 60) `mod` 60) (s `mod` 60) = Some (rtc_set_time rtc t' new).
Proof.
  intros Hn Hs new Hnew. unfold set_time, localtime. destruct (gmtime_found _ Hn) as (d & Hok & Hd & ->). cbn [mbind option_bind].
  unfold broken_down at 1 2 3. cbn [tm_mday tm_mon tm_year]. rewrite mktime_of, Hd by (done || lia). rewrite i32_id; [done|].
  fold new. pose proof (Z.div_pos (rtc_get_time rtc t) SPD Hn ltac:(done)). unfold new, SPD in *. lia.
Qed.

Lemma date_set rtc t t' d : 0 <= rtc_get_time rtc t -> date_ok d ->
  let new := day_number d * SPD + rtc_get_time rtc t `mod` SPD in
  - 2 ^ 31 <= new < 2 ^ 31 ->
  set_date rtc t t' (1970 + Z.of_nat (years d)) (Z.of_nat (month d) + 1) (day d) = Some (rtc_set_time rtc t' new).
Proof.
  intros Hn Hok new Hnew. unfold set_date, localtime. destruct (gmtime_found _ Hn) as (d0 & _ & _ & ->). cbn [mbind option_bind].
  unfold broken_down. cbn [tm_sec tm_min tm_hour]. replace (Z.of_nat (month d) + 1 - 1) with (Z.of_nat (month d)) by lia.
  pose proof (Z.mod_pos_bound (rtc_get_time rtc t) SPD ltac:(done)). rewrite mktime_of by (done || lia). by rewrite i32_id.
Qed.

(** The clock after it was set. *)
Lemma get_set rtc t time t' : - 2 ^ 30 <= time -> time + elapsed rtc t' < 2 ^ 31 -> time - elapsed rtc t + elapsed rtc t' < 2 ^ 31 ->
  rtc_get_time (rtc_set_time rtc t time) t' = time - elapsed rtc t + elapsed rtc t'.
Proof.
  intros H1 H2 H3. pose proof (elapsed_range rtc t). pose proof (elapsed_range rtc t').
  unfold rtc_get_time, rtc_set_time. cbn [init_time]. change (elapsed (SoftRtc (init_tick rtc) _) t') with (elapsed rtc t').
  rewrite (i32_id (time - elapsed rtc t)) by lia. by rewrite i32_id by lia.
Qed.

Lemma set_again rtc t x t' y : rtc_set_time (rtc_set_time rtc t x) t' y = rtc_set_time rtc t' y.
Proof. reflexivity. Qed.

Lemma clock_set rtc t1 t1' t2 t2' cur d passed : passed = elapsed rtc t2 - elapsed rtc t1' ->
  0 <= cur -> cur + 2 ^ 24 < 2 ^ 31 -> 0 <= rtc_get_time rtc t1 < 2 ^ 31 - 2 ^ 24 -> 0 <= passed -> cur `mod` SPD + passed < SPD ->
  date_ok d -> day_number d = cur / SPD ->
  set_clock rtc t1 t1' t2 t2' (broken_down d (cur `mod` SPD)) = Some (rtc_set_time rtc t2' (cur + passed)).
Proof.
  intros Ep Hc0 Hc Hnow Hp Hmid Hd Hnum. pose proof (elapsed_range rtc t1'). pose proof (elapsed_range rtc t2).
  pose proof (Z.mod_pos_bound cur SPD ltac:(done)) as Hs. pose proof (Z.div_mod cur SPD ltac:(done)) as Hcur.
  pose proof (Z.mul_div_le (rtc_get_time rtc t1) SPD ltac:(done)). pose proof (Z.div_pos (rtc_get_time rtc t1) SPD ltac:(lia) ltac:(done)).
  set (s := cur `mod` SPD) in *. set (day0 := rtc_get_time rtc t1 / SPD) in *. clearbody s.
  unfold set_clock, broken_down. cbn [tm_hour tm_min tm_sec tm_year tm_mon tm_mday].
  rewrite time_set by (fold day0; unfold SPD in *; lia). fold day0. cbn [mbind option_bind].
  replace (1970 + Z.of_nat (years d) - 1900 + 1900) with (1970 + Z.of_nat (years d)) by lia.
  assert (Hget : rtc_get_time (rtc_set_time rtc t1' (day0 * SPD + s)) t2 = s + passed + day0 * SPD).
  { rewrite get_set; unfold SPD in *; lia. }
  assert (Hsod : rtc_get_time (rtc_set_time rtc t1' (day0 * SPD + s)) t2 `mod` SPD = s + passed)
    by (rewrite Hget, Z.mod_add by done; apply Z.mod_small; lia).
  rewrite date_set; [|rewrite Hget; unfold SPD in *; lia|done|rewrite Hsod, Hnum; lia].
  rewrite set_again, Hsod, Hnum. do 2 f_equal. lia.
Qed.

(** [C29] A synchronisation with an answer sets the clock to the server's time
    in the device's zone: when the first datagram in time carries the timestamp
    of [T], the call returns [T] and eight hours, and from then on the clock
    shows that and the seconds that have passed since it was set, unless
    midnight passes between the two steps of the setting. *)
Theorem ntp_sync_sets_clock host request net start rtc t1 t1' t2 t2' k head T rest :
  socket_ok net = true -> servers host net <> 0%nat ->
  answered (servers host net) (turns_of net) start k (head ++ timestamp T ++ rest) -> zlen head = 40 -> 0 < T ->
  T + 8 * 3600 + 2 ^ 24 < 2 ^ 31 -> 0 <= rtc_get_time rtc t1 < 2 ^ 31 - 2 ^ 24 ->
  elapsed rtc t1' <= elapsed rtc t2 -> (T + 8 * 3600) `mod` SPD + (elapsed rtc t2 - elapsed rtc t1') < SPD ->
  exists rtc', ntp_sync_to_rtc host request net start rtc t1 t1' t2 t2' = Some (T + 8 * 3600, rtc') /\
    forall t, elapsed rtc t2' <= elapsed rtc t ->
      rtc_get_time rtc' t = T + 8 * 3600 + (elapsed rtc t2 - elapsed rtc t1') + (elapsed rtc t - elapsed rtc t2').
Proof.
  intros Hok Hn Ha Hh HT Hc Hnow Hp Hmid. unfold ntp_sync_to_rtc, ntp_get_local_time.
  rewrite (answer_received _ _ _ _ _ _ Hok Hn Ha), packet_time_of by (done || lia). cbn [mbind option_bind].
  unfold NTP_TIMEZONE. destruct (Z.eqb_spec T 0); [lia|]. set (cur := T + 8 * 3600) in *. assert (Hcur0 : 0 < cur) by (unfold cur; lia). clearbody cur.
  rewrite i32_id by lia. destruct (Z.eqb_spec cur 0); [lia|]. unfold localtime.
  destruct (gmtime_found cur ltac:(lia)) as (d & Hd & Hnum & ->). cbn [mbind option_bind].
  pose proof (clock_set rtc t1 t1' t2 t2' cur d _ eq_refl ltac:(lia) Hc Hnow ltac:(lia) Hmid Hd Hnum) as Hset.
  rewrite Hset. cbn [mbind option_bind].
  eexists. split; [reflexivity|]. intros t Ht. pose proof (elapsed_range rtc t). pose proof (elapsed_range rtc t1').
  pose proof (elapsed_range rtc t2). pose proof (elapsed_range rtc t2'). rewrite get_set; lia.
Qed.

(** ** Examples *)

Definition demo_request : list Z := default [] (ntp_request [1; 2; 3; 4; 5; 6] (str "Jun  1 2019")).

(** Two quiet turns, then a reply of the second server. *)
Definition demo_net (T : Z) : network :=
  Network true [true; true; false]
    (fun k => if (k <? 2)%nat then Turn [None; None] 0 10 else Turn [None; Some (replicate 40 0 ++ timestamp T ++ [0; 0; 0; 0])] 3 10).

Lemma demo_answered T : answered 2 (turns_of (demo_net T)) 100 2 (replicate 40 0 ++ timestamp T ++ [0; 0; 0; 0]).
Proof.
  split; [split; [lia|done]| |reflexivity|cbn; lia|cbn; unfold NTP_GET_TIMEOUT, RT_TICK_PER_SECOND; lia].
  intros j Hj. destruct j as [|[|j]]; [split; [done|cbn; lia]|split; [done|cbn; lia]|lia].
Qed.

(** 1 June 2019, 12:00:00 UTC; the clock ran for a minute. *)
Lemma ntp_sync_sets_clock_witness :
  exists rtc', ntp_sync_to_rtc false demo_request (demo_net 1559390400) 100 (rt_soft_rtc_init 0) 60500 60500 60500 60501 = Some (1559419200, rtc') /\
    rtc_get_time rtc' 65000 = 1559419205.
Proof.
  destruct (ntp_sync_sets_clock false demo_request (demo_net 1559390400) 100 (rt_soft_rtc_init 0) 60500 60500 60500 60501 2 (replicate 40 0) 1559390400 [0; 0; 0; 0])
    as (rtc' & E & Hg).
  - reflexivity.
  - discriminate.
  - exact (demo_answered 1559390400).
  - reflexivity.
  - reflexivity.
  - vm_compute. reflexivity.
  - vm_compute. split; [discriminate|reflexivity].
  - vm_compute. discriminate.
  - vm_compute. reflexivity.
  - exists rtc'. split; [exact E|]. exact (Hg 65000 ltac:(vm_compute; discriminate)).
Defined.

Lemma ntp_silence_ends_witness :
  ntp_get_time true demo_request (Network true [true] (fun _ => Turn [None] 0 12)) 1000 = Some 0.
Proof.
  apply ntp_silence_ends.
  - reflexivity.
  - discriminate.
  - discriminate.
  - vm_compute. reflexivity.
  - intros j. split; [reflexivity|split; [discriminate|discriminate]].
Defined.

(** Any datagram is an answer: one that does not reach the timestamp sets the
    clock to 7 February 2036, 06:28:16 UTC. *)
Example short_answer :
  packet_time (receive demo_request [28]) = 2085978496 /\
  option_map (fun t => (tm_year t, tm_mon t, tm_mday t)) (gmtime_r 2085978496) = Some (136, 1, 7).
Proof. split; vm_compute; reflexivity. Qed.

(** Near the wrap of the tick counter the wait is over at once, answer or not. *)
Example wait_wraps :
  ntp_get_time true demo_request (Network true [true] (fun _ => Turn [Some (replicate 40 0 ++ timestamp 1559390400)] 0 10)) (2 ^ 32 - 4000) = Some 0.
Proof. vm_compute. reflexivity. Qed.

(** A second that passes at midnight takes a day from the clock. *)
Example midnight :
  option_map (fun rtc => rtc_get_time rtc 60999) (d ← gmtime_r (1559433600 - 1); set_clock (rt_soft_rtc_init 0) 59999 59999 60000 60000 d)
    = Some (1559433600 - 86400).
Proof. vm_compute. reflexivity. Qed.

(** The request carries the hardware address. *)
Example request_tells_address : buf_sub demo_request 5 6 = map (fun x => x + 6) [1; 2; 3; 4; 5; 6].
Proof. vm_compute. reflexivity. Qed.
