(* ===== verification/AppModules.v ===== *)
(** * Application modules

    Models the modules of the application that act on the data of the board:
    the mail alarm of src/module/smtp/smtp_module.c on top of the SMTP client,
    the history of the temperature sensor of src/module/sensors/aht10_module.c
    and the lamps of src/module/board/board_module.c.  A thread with an endless
    loop is the function of one turn, iterated over the turns.  Floating-point
    values are a parameter: the modules copy and compare them. *)

From S2P Require Import Prelude CLib Base64 SmtpClient.

Local Open Scope Z_scope.

(** ** The mail alarm *)
Module Alarm.

Definition WARNING_COLD_TIME : Z := 300.

(** The name of a field of the module ends in 0 where the client has a field
    of the same name; the character arrays hold their texts. *)
Record smtp_module_t := SmtpModule {
  enable : bool;
  cold_time : Z;
  server_addr0 : list Z;
  server_port0 : list Z;
  username0 : list Z;
  password0 : list Z;
  receiver : list Z
}.

(** [rt_memset(&w601_smtp, 0, sizeof(smtp_module_t))] *)
Definition cleared : smtp_module_t := SmtpModule false 0 [] [] [] [] [].

Definition set_enable (b : bool) (m : smtp_module_t) : smtp_module_t :=
  SmtpModule b (cold_time m) (server_addr0 m) (server_port0 m) (username0 m) (password0 m)
    (receiver m).

Definition set_cold (t : Z) (m : smtp_module_t) : smtp_module_t :=
  SmtpModule (enable m) t (server_addr0 m) (server_port0 m) (username0 m) (password0 m)
    (receiver m).

Definition smtp_enable : smtp_module_t -> smtp_module_t := set_enable true.

Definition smtp_disable : smtp_module_t -> smtp_module_t := set_enable false.

(** The decision of one turn of [smtp_thread]: [hot] is whether the current
    temperature exceeds the limit; the boolean is whether a mail is sent. *)
Definition alarm_turn (hot : bool) (m : smtp_module_t) : bool * smtp_module_t :=
  let m := if cold_time m =? 0 then m else set_cold (cold_time m - 1) m in
  if enable m && hot then
    if negb (cold_time m =? 0) then (false, m)
    else (true, set_cold WARNING_COLD_TIME m)
  else (false, m).

Section Mail.
Context {N A : Type} (ops : net_ops N A).

Definition SMTP_SUBJECT : list Z := str "W601 MONITOR WARNING".

(** One whole turn of [smtp_thread]: the result of the mail is not looked at. *)
Definition smtp_thread (hot : bool) (content : list Z) (m : smtp_module_t) (w : world N)
  : option (smtp_module_t * world N) :=
  let '(mail, m) := alarm_turn hot m in
  if mail
  then '(_, w) ← smtp_send_mail ops (Some SMTP_SUBJECT) (Some content) w; Some (m, w)
  else Some (m, w).
End Mail.

(** [strcpy] of a text into a character array of [n] bytes. *)
Definition strcpy (n : Z) (s : list Z) : option (list Z) :=
  if zlen s <? n then Some s else None.

(** [smtp_data_config] without the limit; every allocation of the client
    succeeds when [mem] does. *)
Definition smtp_data_config (mem : bool) (server_addr server_port username password rcpt : list Z)
    (m : smtp_module_t) (s : smtp_session_t) : option (smtp_module_t * smtp_session_t) :=
  let s := match receiver m with [] => s | _ => snd (smtp_delete_receiver (receiver m) s) end in
  a ← strcpy 100 server_addr;
  p ← strcpy 10 server_port;
  u ← strcpy 50 username;
  pw ← strcpy 50 password;
  r ← strcpy 100 rcpt;
  let m := SmtpModule (enable m) (cold_time m) a p u pw r in
  let '(_, s) := smtp_set_server_addr mem mem (Some a) ADDRESS_TYPE_DOMAIN p s in
  '(_, s) ← smtp_set_auth u pw s;
  '(_, s) ← smtp_add_receiver mem mem (Some rcpt) s;
  Some (m, s).

(** The turns of the thread; before each the module may be switched. *)
Fixpoint alarm_turns (m : smtp_module_t) (inputs : list (bool * bool)) : list bool :=
  match inputs with
  | [] => []
  | (en, hot) :: inputs =>
      let '(mail, m) := alarm_turn hot (set_enable en m) in mail :: alarm_turns m inputs
  end.

Definition wants_mail (inputs : list (bool * bool)) (k : nat) : Prop :=
  inputs !! k = Some (true, true).

(** No mail in the 299 turns before turn [k]. *)
Definition quiet (mails : list bool) (k : nat) : Prop :=
  forall i, (i < k)%nat -> Z.of_nat k - Z.of_nat i < WARNING_COLD_TIME -> mails !! i <> Some true.

Lemma quiet_cons x l k :
  quiet (x :: l) (S k) <-> (x = true -> WARNING_COLD_TIME <= Z.of_nat (S k)) /\ quiet l k.
Proof.
  unfold quiet. split.
  - intros H. split.
    + intros ->. destruct (Z.le_gt_cases WARNING_COLD_TIME (Z.of_nat (S k))) as [|Hlt]; [done|].
      by destruct (H 0%nat); [lia|lia|].
    + intros i Hi Hk. apply (H (S i)); lia.
  - intros [Hx H] [|i] Hi Hk; [|apply (H i); lia]. intros [= ->]. specialize (Hx eq_refl). lia.
Qed.

(** One turn as a function of the cool-down. *)
Lemma alarm_turn_cold en hot m :
  0 <= cold_time m ->
  let c := Z.max 0 (cold_time m - 1) in
  let fire := en && hot && (c =? 0) in
  exists m', alarm_turn hot (set_enable en m) = (fire, m') /\
    cold_time m' = if fire then WARNING_COLD_TIME else c.
Proof.
  intros Hc c fire. unfold alarm_turn. cbn [set_enable cold_time enable].
  assert (Ec : cold_time (if cold_time m =? 0 then set_enable en m
    else set_cold (cold_time m - 1) (set_enable en m)) = c).
  { unfold c. destruct (Z.eqb_spec (cold_time m) 0); cbn [cold_time set_cold set_enable]; lia. }
  assert (Ee : enable (if cold_time m =? 0 then set_enable en m
    else set_cold (cold_time m - 1) (set_enable en m)) = en) by by destruct (cold_time m =? 0).
  rewrite Ec, Ee. unfold fire.
  destruct en, hot; cbn [andb]; try (by eexists). by destruct (c =? 0); cbn [negb]; eexists.
Qed.

(** From any cool-down: when the mails go out. *)
Lemma alarm_turns_spec inputs : forall m k,
  0 <= cold_time m ->
  alarm_turns m inputs !! k = Some true <->
  wants_mail inputs k /\ cold_time m <= Z.of_nat k + 1 /\ quiet (alarm_turns m inputs) k.
Proof.
  induction inputs as [|[en hot] inputs IH]; intros m k Hc; [by split; [|intros [? _]]|].
  cbn [alarm_turns].
  destruct (alarm_turn_cold en hot m Hc) as (m' & -> & Hm').
  set (fire := en && hot && (Z.max 0 (cold_time m - 1) =? 0)) in *.
  assert (Hfire : fire = true <-> en = true /\ hot = true /\ cold_time m <= 1).
  { unfold fire. rewrite !andb_true_iff, Z.eqb_eq. split; [intros [[? ?] ?]|intros (? & ? & ?)];
      split_and!; try done; lia. }
  destruct k as [|k].
  - change (Some fire = Some true <-> Some (en, hot) = Some (true, true) /\ cold_time m <= 1 /\
      quiet (fire :: alarm_turns m' inputs) 0).
    split.
    + intros [= H]. apply Hfire in H as (-> & -> & H). split_and!; [done|done|]. intros i Hi. lia.
    + intros ([= -> ->] & H & _). f_equal. by apply Hfire.
  - change (alarm_turns m' inputs !! k = Some true <-> wants_mail inputs k /\
      cold_time m <= Z.of_nat (S k) + 1 /\ quiet (fire :: alarm_turns m' inputs) (S k)).
    rewrite quiet_cons, IH, Hm' by (rewrite Hm'; unfold WARNING_COLD_TIME; case_match; lia).
    unfold WARNING_COLD_TIME. destruct fire.
    + destruct Hfire as [Hf _]. destruct (Hf eq_refl) as (_ & _ & H1).
      split; [intros (? & ? & ?)|intros (? & ? & Hx & ?); specialize (Hx eq_refl)]; split_and!; (done || lia).
    + split; [intros (? & ? & ?)|intros (? & ? & _ & ?)]; split_and!; (done || lia).
Qed.

(** The alarm and its cool-down: from the cleared module, whatever the
    switching and the temperature, a mail goes out on a turn exactly when the
    module is enabled, the temperature is above the limit and no mail went out
    in the 299 turns before; so two mails are at least 300 turns apart, and a
    lasting alarm is repeated every 300 turns. *)
Theorem alarm_cool_down inputs k :
  alarm_turns cleared inputs !! k = Some true <->
  wants_mail inputs k /\ quiet (alarm_turns cleared inputs) k.
Proof.
  rewrite alarm_turns_spec by done. cbn [cleared cold_time].
  split; [intros (? & _ & ?)|intros (? & ?)]; split_and!; (done || lia).
Qed.

(** Configuring the mail.  When the texts fit the character arrays, the
    user name and the password are not empty and the old receiver is in the
    list of the client, the configuration replaces that receiver by the new
    one and leaves the other receivers, and the client gets the server, the
    port and credentials that decode to the user name; a text that does not
    fit overflows its array. *)
Theorem smtp_data_config_spec sa sp u pw r m s rest :
  cstring sa -> cstring sp -> cstring u -> cstring pw -> cstring r -> cstring (receiver m) ->
  receiver m <> [] -> address_to s = receiver m :: rest ->
  0 < zlen sp -> 0 < zlen u -> 0 < zlen pw ->
  if decide (zlen sa < 100 /\ zlen sp < 10 /\ zlen u < 50 /\ zlen pw < 50 /\ zlen r < 100) then
    exists m' s', smtp_data_config true sa sp u pw r m s = Some (m', s') /\
      m' = SmtpModule (enable m) (cold_time m) sa sp u pw r /\
      address_to s' = rest ++ [r] /\ server_domain s' = Some sa /\ server_port s' = Some sp /\
      exists t, buf_cstr (username s') = Some t /\ Wifi.str_base64_decode t = Some (zlen u, u)
  else smtp_data_config true sa sp u pw r m s = None.
Proof.
  intros Hsa Hsp Hu Hpw Hr Hrm Hne Hto Lsp Lu Lpw. unfold smtp_data_config, strcpy.
  case_decide as Hfit.
  - destruct Hfit as (H1 & H2 & H3 & H4 & H5).
    destruct (Z.ltb_spec (zlen sa) 100); [|lia]. destruct (Z.ltb_spec (zlen sp) 10); [|lia].
    destruct (Z.ltb_spec (zlen u) 50); [|lia]. destruct (Z.ltb_spec (zlen pw) 50); [|lia].
    destruct (Z.ltb_spec (zlen r) 100); [|lia]. cbn [mbind option_bind].
    assert (Hdel : match receiver m with [] => s | _ => snd (smtp_delete_receiver (receiver m) s) end
      = set_receivers rest s).
    { unfold smtp_delete_receiver. rewrite Hto, (remove_first_spec [] (receiver m) rest) by done.
      by destruct (receiver m). }
    rewrite Hdel. unfold smtp_set_server_addr. rewrite Z.eqb_refl. cbn [negb andb].
    destruct (Z.leb_spec (zlen sp) 0); [lia|]. rewrite set_auth_run by (done || lia).
    cbn [mbind option_bind smtp_add_receiver negb]. eexists _, _. split; [reflexivity|].
    cbn [address_to set_receivers set_auth set_server server_domain server_port username].
    split_and!; try done. eexists. by apply stored_decodes; [|lia].
  - destruct (Z.ltb_spec (zlen sa) 100); [cbn [mbind option_bind]|done].
    destruct (Z.ltb_spec (zlen sp) 10); [cbn [mbind option_bind]|done].
    destruct (Z.ltb_spec (zlen u) 50); [cbn [mbind option_bind]|done].
    destruct (Z.ltb_spec (zlen pw) 50); [cbn [mbind option_bind]|done].
    destruct (Z.ltb_spec (zlen r) 100); [|done]. by destruct Hfit.
Qed.

Lemma alarm_every_300 :
  alarm_turns cleared (replicate 601 (true, true)) !! 600%nat = Some true /\
  alarm_turns cleared (replicate 601 (true, true)) !! 599%nat = Some false.
Proof. by vm_compute. Qed.

Lemma smtp_data_config_spec_witness :
  exists m' s', smtp_data_config true (str "smtp.qq.com") (str "25") (str "me") (str "pw")
      (str "new@x.org") (SmtpModule true 0 [] [] [] [] (str "bob@example.com")) sample_session
    = Some (m', s') /\
    m' = SmtpModule true 0 (str "smtp.qq.com") (str "25") (str "me") (str "pw") (str "new@x.org") /\
    address_to s' = [str "bo"; str "new@x.org"] /\ server_domain s' = Some (str "smtp.qq.com") /\
    server_port s' = Some (str "25") /\
    exists t, buf_cstr (username s') = Some t /\ Wifi.str_base64_decode t = Some (2, str "me").
Proof.
  exact (smtp_data_config_spec (str "smtp.qq.com") (str "25") (str "me") (str "pw")
    (str "new@x.org") (SmtpModule true 0 [] [] [] [] (str "bob@example.com")) sample_session [str "bo"]
    ltac:(by_decide) ltac:(by_decide) ltac:(by_decide) ltac:(by_decide) ltac:(by_decide)
    ltac:(by_decide) ltac:(done) eq_refl ltac:(by_decide) ltac:(by_decide) ltac:(by_decide)).
Defined.
End Alarm.

(** ** The history of the temperature sensor *)
Module Aht10.
Section Aht10.
Context {R : Type} (zero : R).

(** One of the two series of [w601_aht10_t]: 24 slots and an index. *)
Record series := Series { slots : list R; index : Z }.

Definition cleared : series := Series (replicate 24 zero) 0.

(** [for (i = 1; i <= 23; i++) data[i - 1] = data[i]] *)
Fixpoint shift_down (n : nat) (i : Z) (data : list R) : option (list R) :=
  match n with
  | O => Some data
  | S n => x ← buf_get data i; data ← buf_set data (i - 1) x; shift_down n (i + 1) data
  end.

(** The hourly store of [aht10_thread_entry]. *)
Definition store (cur : R) (s : series) : option series :=
  if index s <? 23 then
    d ← buf_set (slots s) (index s) cur; Some (Series d (u8 (index s + 1)))
  else
    d ← shift_down 23 1 (slots s);
    d ← buf_set d 23 cur; Some (Series d (index s)).

(** One turn of the thread: the counter, and the two series. *)
Definition aht10_thread_entry (sec_count : Z) (temp humi : R) (ts hs : series)
  : option (Z * series * series) :=
  '(sec_count, ts, hs) ←
    (if sec_count =? 3600 then
       hs ← store humi hs; ts ← store temp ts; Some (1, ts, hs)
     else Some (sec_count, ts, hs));
  Some (sec_count + 1, ts, hs).

(** The values [json_create_aht10_saved_data] prints. *)
Definition saved_data (s : series) : list R := take (Z.to_nat (index s)) (slots s).

(** The counter alone, over [n] turns. *)
Fixpoint stores_at (n : nat) (sec_count : Z) : list bool :=
  match n with
  | O => []
  | S n => (sec_count =? 3600) ::
           stores_at n ((if sec_count =? 3600 then 1 else sec_count) + 1)
  end.

Fixpoint store_all (rs : list R) (s : series) : option series :=
  match rs with
  | [] => Some s
  | r :: rs => s ← store r s; store_all rs s
  end.

Lemma shift_down_spec rest : forall (pre : list R) x i,
  i = zlen pre + 1 ->
  exists z, shift_down (length rest) i (pre ++ x :: rest) = Some (pre ++ rest ++ [z]).
Proof.
  induction rest as [|y rest IH]; intros pre x i ->; [by exists x|].
  cbn [shift_down length].
  assert (Hget : buf_get (pre ++ x :: y :: rest) (zlen pre + 1) = Some y)
    by by rewrite buf_get_app_r by lia.
  rewrite Hget. cbn [mbind option_bind]. replace (zlen pre + 1 - 1) with (zlen pre) by lia.
  rewrite buf_set_next. cbn [mbind option_bind].
  destruct (IH (pre ++ [y]) y (zlen pre + 1 + 1)) as [z ->];
    [rewrite zlen_app; change (zlen [y]) with 1; lia|]. exists z. by rewrite <- app_assoc.
Qed.

Lemma store_full x xs cur :
  length xs = 23%nat -> store cur (Series (x :: xs) 23) = Some (Series (xs ++ [cur]) 23).
Proof.
  intros Hl. unfold store. cbn [index slots Z.ltb Z.compare]. rewrite <- Hl.
  destruct (shift_down_spec xs [] x 1) as [z E]; [done|]. cbn [app] in E. rewrite E.
  cbn [mbind option_bind].
  assert (Hset : buf_set (xs ++ [z]) 23 cur = Some (xs ++ [cur])).
  { replace 23 with (zlen xs) by (unfold zlen; lia). rewrite buf_set_next. by rewrite app_nil_r. }
  by rewrite Hset.
Qed.

Lemma store_first k rs cur :
  length rs = k -> (k < 23)%nat ->
  store cur (Series (rs ++ replicate (24 - k) zero) (Z.of_nat k))
  = Some (Series ((rs ++ [cur]) ++ replicate (24 - S k) zero) (Z.of_nat (S k))).
Proof.
  intros Hk Hlt. unfold store. cbn [index slots]. destruct (Z.ltb_spec (Z.of_nat k) 23); [|lia].
  replace (24 - k)%nat with (S (24 - S k)) by lia. cbn [replicate].
  replace (Z.of_nat k) with (zlen rs) at 1 by by subst k. rewrite buf_set_next.
  cbn [mbind option_bind]. rewrite u8_id by lia. do 2 f_equal. lia.
Qed.

(** The readings as the device keeps them: a zero that was never measured
    comes after the 23rd. *)
Definition with_phantom (rs : list R) : list R := take 23 rs ++ [zero] ++ drop 23 rs.

Lemma store_all_app a b s :
  store_all (a ++ b) s = (s' ← store_all a s; store_all b s').
Proof.
  revert s. induction a as [|r a IH]; intros s; [done|]. cbn [app store_all].
  destruct (store r s); [|done]. apply IH.
Qed.

Lemma store_all_first rs : (length rs <= 23)%nat ->
  store_all rs cleared = Some (Series (rs ++ replicate (24 - length rs) zero) (zlen rs)).
Proof.
  induction rs as [|r rs IH] using rev_ind; intros Hl; [done|]. rewrite length_app in Hl. simpl in Hl.
  rewrite store_all_app, IH by lia. cbn [mbind option_bind store_all].
  unfold zlen. rewrite (store_first (length rs)) by (done || lia). cbn [mbind option_bind].
  rewrite length_app. simpl. by rewrite Nat.add_1_r.
Qed.

Lemma store_all_full rs : forall xs, length xs = 24%nat ->
  store_all rs (Series xs 23) = Some (Series (drop (length rs) (xs ++ rs)) 23).
Proof.
  induction rs as [|r rs IH]; intros xs Hl; [by rewrite app_nil_r, drop_0|].
  destruct xs as [|x xs]; [done|]. injection Hl as Hl. cbn [store_all].
  rewrite store_full by done. cbn [mbind option_bind]. rewrite IH by (rewrite length_app; simpl; lia).
  cbn [length app drop]. by rewrite <- app_assoc.
Qed.

Lemma seqZ_S n : seqZ 0 (Z.of_nat (S n)) = 0 :: map (Z.add 1) (seqZ 0 (Z.of_nat n)).
Proof.
  rewrite seqZ_cons by lia. f_equal. rewrite Nat2Z.inj_succ, Z.pred_succ.
  change (map (Z.add 1) (seqZ 0 (Z.of_nat n))) with (Z.add 1 <$> seqZ 0 (Z.of_nat n)).
  by rewrite fmap_add_seqZ.
Qed.

Lemma stores_at_spec n : forall c, 2 <= c <= 3600 ->
  stores_at n c = map (fun k => bool_decide ((k + c - 3600) `mod` 3599 = 0)) (seqZ 0 (Z.of_nat n)).
Proof.
  induction n as [|n IH]; intros c Hc; [done|]. rewrite seqZ_S. cbn [stores_at map]. f_equal.
  - destruct (Z.eqb_spec c 3600) as [->|]; [done|]. symmetry. apply bool_decide_false.
    rewrite <- (Z.mod_add _ 1) by lia. rewrite Z.mod_small; lia.
  - rewrite IH by (case_bool; lia). rewrite map_map. apply map_ext. intros k.
    apply bool_decide_ext. destruct (Z.eqb_spec c 3600) as [->|].
    + replace (1 + k + 3600 - 3600) with (k + (1 + 1) - 3600 + 1 * 3599) by lia.
      by rewrite Z.mod_add by lia.
    + by replace (k + (c + 1) - 3600) with (1 + k + c - 3600) by lia.
Qed.

(** The history of a series.  Up to 23 readings, the saved data are the
    readings.  From the 24th on they are 23 of the last 24 readings, the
    newest missing, as if a zero had been measured between the 23rd and the
    24th reading.  The thread stores a reading on its first turn and then on
    every 3599th. *)
Theorem aht10_history rs n :
  (exists s, store_all rs cleared = Some s /\ zlen (slots s) = 24 /\
    saved_data s = if decide (length rs <= 23)%nat then rs
      else take 23 (drop (length rs - 23) (with_phantom rs))) /\
  stores_at n 3600 = map (fun k => bool_decide (k `mod` 3599 = 0)) (seqZ 0 (Z.of_nat n)).
Proof.
  split.
  - destruct (decide (length rs <= 23)%nat) as [Hl|Hl].
    + rewrite store_all_first by done. eexists. split_and!; [done| |].
      * cbn [slots]. rewrite zlen_app, zlen_replicate. unfold zlen. lia.
      * unfold saved_data. cbn [index slots]. unfold zlen. by rewrite Nat2Z.id, take_app_length.
    + assert (E : store_all rs cleared = store_all (take 23 rs ++ drop 23 rs) cleared)
        by by rewrite take_drop.
      rewrite E, store_all_app.
      assert (Ht : length (take 23 rs) = 23%nat) by (rewrite length_take; lia).
      rewrite store_all_first by lia. unfold zlen. rewrite Ht. cbn [mbind option_bind].
      rewrite store_all_full by (rewrite length_app, Ht; done). eexists. split_and!; [done| |].
      * cbn [slots]. rewrite length_drop, !length_app, Ht, length_replicate, length_drop. lia.
      * unfold saved_data, with_phantom. cbn [index slots]. rewrite length_drop, <- app_assoc.
        done.
  - rewrite stores_at_spec by lia. apply map_ext. intros k. by rewrite Z.add_simpl_r.
Qed.

End Aht10.

(** After 25 readings: the third to the 23rd, a zero, and the 24th. *)
Lemma aht10_history_sample :
  saved_data <$> store_all (seqZ 1 25) (cleared 0) = Some (seqZ 3 21 ++ [0; 24]).
Proof. reflexivity. Qed.
End Aht10.

(** ** The lamps *)
Module Board.

Definition LED_ON : Z := 0.
Definition LED_OFF : Z := 1.

Inductive led_id_e := RED | GREEN | BLUE.

(** The level of the three pins, and the bits of [w601.rgb]. *)
Record lamps := Lamps {
  pin_r : Z; pin_g : Z; pin_b : Z;
  red : Z; green : Z; blue : Z
}.

(** [led_module_init]: the pins become outputs at the level they have. *)
Definition led_module_init (l : lamps) : lamps :=
  Lamps (pin_r l) (pin_g l) (pin_b l) 0 0 0.

Definition led_write (led : led_id_e) (status : Z) (l : lamps) : lamps :=
  let bit := if status =? LED_ON then 1 else 0 in
  match led with
  | RED => Lamps status (pin_g l) (pin_b l) bit (green l) (blue l)
  | GREEN => Lamps (pin_r l) status (pin_b l) (red l) bit (blue l)
  | BLUE => Lamps (pin_r l) (pin_g l) status (red l) (green l) bit
  end.

(** The fields of [json_create_device_status] in their order. *)
Definition json_create_device_status (l : lamps) : list (list Z * list Z) :=
  let text bit := if bit =? LED_ON then str "ON" else str "OFF" in
  [(str "redLedStatus", text (red l)); (str "greenLedStatus", text (green l));
   (str "blueLedStatus", text (blue l))].

(** [cgi_led_toggle] of src/module/web/web_module.c: [status] is the state
    the page shows. *)
Definition cgi_led_toggle (id status : list Z) (l : lamps) : lamps :=
  let level := if bool_decide (status = str "OFF") then LED_ON else LED_OFF in
  if bool_decide (id = str "red") then led_write RED level l
  else if bool_decide (id = str "green") then led_write GREEN level l
  else if bool_decide (id = str "blue") then led_write BLUE level l
  else l.

Definition pin (led : led_id_e) (l : lamps) : Z :=
  match led with RED => pin_r l | GREEN => pin_g l | BLUE => pin_b l end.

Definition name_of (led : led_id_e) : list Z :=
  match led with RED => str "red" | GREEN => str "green" | BLUE => str "blue" end.

Definition shown (led : led_id_e) (l : lamps) : option (list Z) :=
  snd <$> json_create_device_status l !! match led with RED => 0%nat | GREEN => 1%nat | BLUE => 2%nat end.

(** The status shown is the opposite of the lamp, so toggling the status that
    is shown leaves the lamp as it is. *)
Lemma status_inverted led status l :
  let l' := led_write led status l in
  (shown led l' = Some (str "ON") <-> pin led l' <> LED_ON) /\
  (forall t, shown led l' = Some t -> status = LED_ON \/ status = LED_OFF ->
     pin led (cgi_led_toggle (name_of led) t l') = pin led l').
Proof.
  intros l'. unfold l'.
  destruct led; cbn; unfold LED_ON, LED_OFF; destruct (Z.eqb_spec status 0) as [->|Hs];
    (split; [by split|]); intros t [= <-] [E|E]; subst; done.
Qed.
End Board.
