(* ===== verification/Json.v ===== *)
(** * JSON trees and their text

    Models the data and the printing side of src/packages/cJSON-latest/cJSON.c:
    the node, its constructors, the list operations and the rendering of a tree
    into buffers that are allocated with computed sizes.  [Double] is what the
    library uses of the type [double].  The theorems show that every rendering
    stays inside its buffer and is the text of a reference printer. *)

From S2P Require Import Prelude CLib.

Local Open Scope Z_scope.

(** ** Doubles

    The operations of the C library on [double] that the code uses, and what
    holds of them on integers that a double holds exactly. *)
Class Double (D : Type) := {
  d_of_Z : Z -> D;                  (* the conversion of an integer *)
  d_digit : D -> Z -> D;            (* [n * 10.0 + c] *)
  d_scale : bool -> D -> Z -> D;    (* [sign * n * pow(10.0, e)] *)
  d_to_int : D -> Z;                (* [(int) d] *)
  d_is_zero : D -> bool;            (* [d == 0] *)
  d_near : Z -> D -> bool;          (* [fabs((double) i - d) <= DBL_EPSILON] *)
  d_in_int : D -> bool;             (* [d <= INT_MAX && d >= INT_MIN] *)
  d_text : D -> list Z              (* "%.0f", "%e" or "%.2f", as the size demands *)
}.

Class DoubleLaws (D : Type) `{!Double D} := {
  digit_exact : forall k c, 0 <= k -> 0 <= c <= 9 -> 10 * k + c <= 2 ^ 53 ->
    d_digit (d_of_Z k) c = d_of_Z (10 * k + c);
  scale_exact : forall neg k, 0 <= k <= 2 ^ 53 -> (neg = true -> 0 < k) ->
    d_scale neg (d_of_Z k) 0 = d_of_Z (if neg then - k else k);
  to_int_exact : forall k, - 2 ^ 31 <= k < 2 ^ 31 -> d_to_int (d_of_Z k) = k;
  is_zero_exact : forall k, - 2 ^ 31 <= k < 2 ^ 31 -> d_is_zero (d_of_Z k) = (k =? 0);
  near_exact : forall k, - 2 ^ 31 <= k < 2 ^ 31 -> d_near k (d_of_Z k) = true;
  in_int_exact : forall k, - 2 ^ 31 <= k < 2 ^ 31 -> d_in_int (d_of_Z k) = true;
  text_fits : forall d, zlen (d_text d) < 64;
  text_chars : forall d, cstring (d_text d)
}.

(** Exact decimal numbers, mantissa and exponent, meet the interface. *)
Definition decimal : Type := Z * Z.

Definition decimal_digit (d : decimal) (c : Z) : decimal :=
  let '(m, e) := d in
  if 0 <=? e then (10 * m * 10 ^ e + c, 0) else (10 * m + c * 10 ^ (- e), e).

Definition decimal_floor (d : decimal) : Z :=
  let '(m, e) := d in if 0 <=? e then m * 10 ^ e else m / 10 ^ (- e).

#[export] Instance decimal_double : Double decimal := {
  d_of_Z k := (k, 0);
  d_digit := decimal_digit;
  d_scale neg d e := (if neg then - fst d else fst d, snd d + e);
  d_to_int := decimal_floor;
  d_is_zero d := fst d =? 0;
  d_near i d := (0 <=? snd d) && (i =? decimal_floor d);
  d_in_int d := (- 2 ^ 31 <=? decimal_floor d) && (decimal_floor d <=? 2 ^ 31 - 1);
  d_text d := take 63 (sprintf_d (decimal_floor d))
}.

#[export] Instance decimal_laws : DoubleLaws decimal.
Proof.
  split; cbn.
  - intros k c _ _ _. f_equal. lia.
  - by intros [] k _ _.
  - intros k _. lia.
  - done.
  - intros k _. rewrite Z.mul_1_r. apply Z.eqb_refl.
  - intros k Hk. rewrite Z.mul_1_r. apply andb_true_iff. rewrite !Z.leb_le. lia.
  - intros d. rewrite zlen_take. lia.
  - intros d. apply Forall_take, sprintf_d_cstring.
Qed.

Definition cJSON_False : Z := 0.
Definition cJSON_True : Z := 1.
Definition cJSON_NULL : Z := 2.
Definition cJSON_Number : Z := 3.
Definition cJSON_String : Z := 4.
Definition cJSON_Array : Z := 5.
Definition cJSON_Object : Z := 6.
Definition cJSON_IsReference : Z := 256.
Definition cJSON_StringIsConst : Z := 512.

Section Json.
Context {D : Type} `{!Double D}.

(** ** [struct cJSON]: the chain of children as a list *)
#[local] Unset Elimination Schemes.

Inductive cJSON := Node {
  type : Z;
  valuestring : option (list Z);
  valueint : Z;
  valuedouble : D;
  string : option (list Z);
  child : list cJSON
}.

#[local] Set Elimination Schemes.

(** Induction with the hypothesis for every child. *)
Lemma cJSON_nested_ind (P : cJSON -> Prop) :
  (forall t vs vi vd s ch, Forall P ch -> P (Node t vs vi vd s ch)) -> forall c, P c.
Proof.
  intros H. fix IH 1. intros [t vs vi vd s ch]. apply H. induction ch as [|c ch IHl]; constructor; auto.
Qed.

(** [cJSON_New_Item]: an allocated node is cleared. *)
Definition cJSON_New_Item : cJSON := Node 0 None 0 (d_of_Z 0) None [].

Definition set_string (s : option (list Z)) (c : cJSON) : cJSON :=
  Node (type c) (valuestring c) (valueint c) (valuedouble c) s (child c).

Definition set_child (ch : list cJSON) (c : cJSON) : cJSON :=
  Node (type c) (valuestring c) (valueint c) (valuedouble c) (string c) ch.

Definition set_type (t : Z) (c : cJSON) : cJSON :=
  Node t (valuestring c) (valueint c) (valuedouble c) (string c) (child c).

(** ** Constructors, with memory for the node and its text *)
Definition cJSON_CreateNull : cJSON := set_type cJSON_NULL cJSON_New_Item.
Definition cJSON_CreateTrue : cJSON := set_type cJSON_True cJSON_New_Item.
Definition cJSON_CreateFalse : cJSON := set_type cJSON_False cJSON_New_Item.
Definition cJSON_CreateBool (b : bool) : cJSON :=
  set_type (if b then cJSON_True else cJSON_False) cJSON_New_Item.
Definition cJSON_CreateNumber (num : D) : cJSON :=
  Node cJSON_Number None (d_to_int num) num None [].
Definition cJSON_CreateString (s : list Z) : cJSON :=
  Node cJSON_String (Some s) 0 (d_of_Z 0) None [].
Definition cJSON_CreateArray : cJSON := set_type cJSON_Array cJSON_New_Item.
Definition cJSON_CreateObject : cJSON := set_type cJSON_Object cJSON_New_Item.
Definition cJSON_CreateIntArray (numbers : list Z) : cJSON :=
  set_child (map (fun n => cJSON_CreateNumber (d_of_Z n)) numbers) cJSON_CreateArray.
Definition cJSON_CreateStringArray (strings : list (list Z)) : cJSON :=
  set_child (map cJSON_CreateString strings) cJSON_CreateArray.

(** ** The chain of children *)
Definition cJSON_GetArraySize (array : cJSON) : Z := zlen (child array).

Definition cJSON_GetArrayItem (array : cJSON) (item : Z) : option cJSON :=
  child array !! Z.to_nat item.

(** [cJSON_strcasecmp]: [tolower] of the C locale; [s1] may be a null
    pointer. *)
Definition tolower (c : Z) : Z := if (65 <=? c) && (c <=? 90) then c + 32 else c.

Definition cJSON_strcasecmp_eq (s1 : option (list Z)) (s2 : list Z) : bool :=
  match s1 with
  | None => false
  | Some s1 => bool_decide (map tolower s1 = map tolower s2)
  end.

(** The index of the first child of that name, and the child. *)
Fixpoint find_name (ch : list cJSON) (name : list Z) (i : nat) : option (nat * cJSON) :=
  match ch with
  | [] => None
  | c :: ch => if cJSON_strcasecmp_eq (string c) name then Some (i, c) else find_name ch name (S i)
  end.

Definition cJSON_GetObjectItem (object : cJSON) (name : list Z) : option cJSON :=
  snd <$> find_name (child object) name 0.

Definition cJSON_AddItemToArray (array item : cJSON) : cJSON :=
  set_child (child array ++ [item]) array.

Definition cJSON_AddItemToObject (object : cJSON) (name : list Z) (item : cJSON) : cJSON :=
  cJSON_AddItemToArray object (set_string (Some name) item).

(** [create_reference]: the copy shares the children of the item. *)
Definition create_reference (item : cJSON) : cJSON :=
  set_type (Z.lor (type item) cJSON_IsReference) (set_string None item).

Definition cJSON_AddItemReferenceToArray (array item : cJSON) : cJSON :=
  cJSON_AddItemToArray array (create_reference item).

Definition cJSON_AddItemReferenceToObject (object : cJSON) (name : list Z) (item : cJSON) : cJSON :=
  cJSON_AddItemToObject object name (create_reference item).

(** The detached item and what is left; a negative index is the first. *)
Definition cJSON_DetachItemFromArray (array : cJSON) (which : Z) : option cJSON * cJSON :=
  let i := Z.to_nat which in
  match child array !! i with
  | None => (None, array)
  | Some c => (Some c, set_child (take i (child array) ++ drop (S i) (child array)) array)
  end.

Definition cJSON_DetachItemFromObject (object : cJSON) (name : list Z) : option cJSON * cJSON :=
  match find_name (child object) name 0 with
  | None => (None, object)
  | Some (i, _) => cJSON_DetachItemFromArray object (Z.of_nat i)
  end.

Definition cJSON_DeleteItemFromArray (array : cJSON) (which : Z) : cJSON :=
  snd (cJSON_DetachItemFromArray array which).

Definition cJSON_DeleteItemFromObject (object : cJSON) (name : list Z) : cJSON :=
  snd (cJSON_DetachItemFromObject object name).

Definition cJSON_InsertItemInArray (array : cJSON) (which : Z) (newitem : cJSON) : cJSON :=
  let i := Z.to_nat which in
  match child array !! i with
  | None => cJSON_AddItemToArray array newitem
  | Some _ => set_child (take i (child array) ++ newitem :: drop i (child array)) array
  end.

Definition cJSON_ReplaceItemInArray (array : cJSON) (which : Z) (newitem : cJSON) : cJSON :=
  let i := Z.to_nat which in
  match child array !! i with
  | None => array
  | Some _ => set_child (take i (child array) ++ newitem :: drop (S i) (child array)) array
  end.

Definition cJSON_ReplaceItemInObject (object : cJSON) (name : list Z) (newitem : cJSON) : cJSON :=
  match find_name (child object) name 0 with
  | None => object
  | Some (i, _) =>
      cJSON_ReplaceItemInArray object (Z.of_nat i) (set_string (Some name) newitem)
  end.

(** [cJSON_Duplicate], with memory. *)
Fixpoint cJSON_Duplicate (recurse : bool) (item : cJSON) : cJSON :=
  Node (Z.land (type item) (Z.lnot cJSON_IsReference)) (valuestring item) (valueint item)
    (valuedouble item) (string item)
    (if recurse then map (cJSON_Duplicate true) (child item) else []).

(** ** Printing *)

(** A fresh buffer of [cap] bytes that is filled from its start. *)
Record writer := Writer { cap : Z; text : list Z }.

Definition put (d : list Z) (w : writer) : option writer :=
  if zlen (text w) + zlen d <=? cap w then Some (Writer (cap w) (text w ++ d)) else None.

(** [mem n] is whether [cJSON_malloc(n)] succeeds.  A printing function
    returns the string, or nothing for a null pointer; [None] is undefined
    behaviour. *)
Context (mem : Z -> bool).

Definition printed : Type := option (option (list Z)).

(** [malloc(n)], then [fill]; the text ends at the terminator. *)
Definition with_buffer (n : Z) (fill : writer -> option writer) : printed :=
  if mem n then w ← fill (Writer n []); s ← buf_cstr (text w); Some (Some s) else Some None.

Definition cJSON_strdup (s : list Z) : printed :=
  with_buffer (zlen s + 1) (put (s ++ [0])).

Definition print_number (item : cJSON) : printed :=
  let d := valuedouble item in
  if d_is_zero d then with_buffer 2 (put (str "0" ++ [0]))
  else if d_near (valueint item) d && d_in_int d
  then with_buffer 21 (put (sprintf_d (valueint item) ++ [0]))
  else with_buffer 64 (put (d_text d ++ [0])).

(** The characters that [flag] marks. *)
Definition needs_escape (c : Z) : bool :=
  ((0 <? c) && (c <? 32)) || (c =? 34) || (c =? 92).

(** How many bytes the length pass counts for a character. *)
Definition escape_len (c : Z) : Z :=
  if bool_decide (c ∈ [34; 92; 8; 12; 10; 13; 9]) then 2 else if c <? 32 then 6 else 1.

Definition hex_digit (d : Z) : Z := if d <? 10 then 48 + d else 87 + d.

(** [sprintf("%04x")] of a byte. *)
Definition hex4 (c : Z) : list Z := [48; 48; hex_digit (c / 16); hex_digit (c `mod` 16)].

(** What the second pass writes for a character. *)
Definition escape (c : Z) : list Z :=
  if (31 <? c) && negb (c =? 34) && negb (c =? 92) then [c]
  else 92 :: (if c =? 92 then [92] else if c =? 34 then [34]
              else if c =? 8 then [98] else if c =? 12 then [102] else if c =? 10 then [110]
              else if c =? 13 then [114] else if c =? 9 then [116]
              else 117 :: hex4 c).

Fixpoint put_escaped (s : list Z) (w : writer) : option writer :=
  match s with
  | [] => Some w
  | c :: s => w ← put (escape c) w; put_escaped s w
  end.

(** [print_string_ptr]: a null pointer is dereferenced by the first loop. *)
Definition print_string_ptr (s : option (list Z)) : printed :=
  s ← s;
  if negb (existsb needs_escape s)
  then with_buffer (zlen s + 3) (fun w =>
         w ← put [34] w; w ← put s w; put [34; 0] w)
  else
    let len := foldr (fun c n => escape_len c + n) 0 s in
    with_buffer (len + 3) (fun w =>
      w ← put [34] w; w ← put_escaped s w; put [34; 0] w).

(** The collecting loop of [print_array] stops at the first failure. *)
Fixpoint collect (rs : list printed) : option (option (list (list Z))) :=
  match rs with
  | [] => Some (Some [])
  | r :: rs =>
      r ← r;
      match r with
      | None => Some None
      | Some t => l ← collect rs; Some (match l with Some l => Some (t :: l) | None => None end)
      end
  end.

Fixpoint put_entries (fmt : bool) (entries : list (list Z)) (w : writer) : option writer :=
  match entries with
  | [] => Some w
  | e :: es =>
      w ← put e w;
      w ← (match es with [] => Some w | _ => put (if fmt then [44; 32] else [44]) w end);
      put_entries fmt es w
  end.

(** [print_array] for the results of its children. *)
Definition print_array (fmt : bool) (rs : list printed) : printed :=
  match rs with
  | [] => with_buffer 3 (put (str "[]" ++ [0]))
  | _ =>
      if negb (mem (4 * zlen rs)) then Some None else
      entries ← collect rs;
      match entries with
      | None => Some None
      | Some entries =>
          let len := foldr (fun e n => zlen e + 2 + (if fmt then 1 else 0) + n) 5 entries in
          with_buffer len (fun w =>
            w ← put [91] w; w ← put_entries fmt entries w; put [93; 0] w)
      end
  end.

(** The loop of [print_object] prints all names and values. *)
Fixpoint collect_pairs (rs : list (printed * printed)) : option (option (list (list Z * list Z))) :=
  match rs with
  | [] => Some (Some [])
  | (n, v) :: rs =>
      n ← n; v ← v; l ← collect_pairs rs;
      Some (match n, v, l with
            | Some n, Some v, Some l => Some ((n, v) :: l)
            | _, _, _ => None
            end)
  end.

Definition tabs (n : Z) : list Z := replicate (Z.to_nat n) 9.

Fixpoint put_pairs (fmt : bool) (depth : Z) (ps : list (list Z * list Z)) (w : writer)
  : option writer :=
  match ps with
  | [] => Some w
  | (n, v) :: ps =>
      w ← put ((if fmt then tabs depth else []) ++ n) w;
      w ← put (if fmt then [58; 9] else [58]) w;
      w ← put v w;
      w ← put (match ps with [] => [] | _ => [44] end ++ (if fmt then [10] else [])) w;
      put_pairs fmt depth ps w
  end.

(** [print_object] at [depth] for the results of its children, which are at
    depth + 1. *)
Definition print_object (fmt : bool) (depth : Z) (rs : list (printed * printed)) : printed :=
  match rs with
  | [] => with_buffer (if fmt then depth + 4 else 3) (fun w =>
            w ← put [123] w; w ← put (if fmt then 10 :: tabs (depth - 1) else []) w; put [125; 0] w)
  | _ =>
      if negb (mem (4 * zlen rs)) then Some None else
      let depth := depth + 1 in
      ps ← collect_pairs rs;
      match ps with
      | None => Some None
      | Some ps =>
          let len := foldr (fun '(n, v) k => zlen v + zlen n + 2 + (if fmt then 2 + depth else 0) + k)
                       (if fmt then 7 + depth else 7) ps in
          with_buffer len (fun w =>
            w ← put [123] w; w ← put (if fmt then [10] else []) w;
            w ← put_pairs fmt depth ps w;
            w ← put (if fmt then tabs (depth - 1) else []) w; put [125; 0] w)
      end
  end.

(** [print_value] without a print buffer; an unknown type prints nothing. *)
Fixpoint print_value (fmt : bool) (depth : Z) (item : cJSON) : printed :=
  let t := Z.land (type item) 255 in
  if t =? cJSON_NULL then cJSON_strdup (str "null")
  else if t =? cJSON_False then cJSON_strdup (str "false")
  else if t =? cJSON_True then cJSON_strdup (str "true")
  else if t =? cJSON_Number then print_number item
  else if t =? cJSON_String then print_string_ptr (valuestring item)
  else if t =? cJSON_Array then print_array fmt (map (print_value fmt (depth + 1)) (child item))
  else if t =? cJSON_Object
  then print_object fmt depth
         (map (fun c => (print_string_ptr (string c), print_value fmt (depth + 1) c)) (child item))
  else Some None.

Definition cJSON_Print (item : cJSON) : printed := print_value true 0 item.

Definition cJSON_PrintUnformatted (item : cJSON) : printed := print_value false 0 item.

(** ** Reference: JSON values and their text *)
#[local] Unset Elimination Schemes.

Inductive json :=
  | JNull
  | JBool (b : bool)
  | JNum (n : Z)
  | JStr (s : list Z)
  | JArr (l : list json)
  | JObj (l : list (list Z * json)).

#[local] Set Elimination Schemes.

Lemma json_nested_ind (P : json -> Prop) :
  P JNull -> (forall b, P (JBool b)) -> (forall n, P (JNum n)) -> (forall s, P (JStr s)) ->
  (forall l, Forall P l -> P (JArr l)) -> (forall l, Forall (fun p => P (snd p)) l -> P (JObj l)) ->
  forall v, P v.
Proof.
  intros H1 H2 H3 H4 H5 H6. fix IH 1. intros [|b|n|s|l|l]; [done|auto..| |].
  - apply H5. induction l; constructor; auto.
  - apply H6. induction l; constructor; auto.
Qed.

Definition is_int (n : Z) : Prop := - 2 ^ 31 <= n < 2 ^ 31.

(** The tree [c] holds the value [v]; numbers are integers of the machine. *)
Fixpoint repr (v : json) (c : cJSON) : Prop :=
  let t := Z.land (type c) 255 in
  match v with
  | JNull => t = cJSON_NULL
  | JBool b => t = if b then cJSON_True else cJSON_False
  | JNum n => t = cJSON_Number /\ valueint c = n /\ valuedouble c = d_of_Z n /\ is_int n
  | JStr s => t = cJSON_String /\ valuestring c = Some s /\ cstring s
  | JArr l =>
      t = cJSON_Array /\
      (fix all (l : list json) (ch : list cJSON) : Prop :=
         match l, ch with
         | [], [] => True
         | v :: l, c :: ch => repr v c /\ all l ch
         | _, _ => False
         end) l (child c)
  | JObj l =>
      t = cJSON_Object /\
      (fix all (l : list (list Z * json)) (ch : list cJSON) : Prop :=
         match l, ch with
         | [], [] => True
         | (n, v) :: l, c :: ch => (string c = Some n /\ cstring n /\ repr v c) /\ all l ch
         | _, _ => False
         end) l (child c)
  end.

Lemma repr_arr l c :
  repr (JArr l) c <-> Z.land (type c) 255 = cJSON_Array /\ Forall2 repr l (child c).
Proof.
  cbn [repr]. apply and_iff_compat_l. generalize (child c) as ch. induction l as [|v l IH]; intros [|x ch].
  - by split.
  - split; [done|]. inversion 1.
  - split; [done|]. inversion 1.
  - rewrite IH. split; [intros [? ?]; by constructor|]. by inversion 1.
Qed.

Definition repr_field (p : list Z * json) (c : cJSON) : Prop :=
  string c = Some (fst p) /\ cstring (fst p) /\ repr (snd p) c.

Lemma repr_obj l c :
  repr (JObj l) c <-> Z.land (type c) 255 = cJSON_Object /\ Forall2 repr_field l (child c).
Proof.
  cbn [repr]. apply and_iff_compat_l. generalize (child c) as ch.
  induction l as [|[n v] l IH]; intros [|x ch].
  - by split.
  - split; [done|]. inversion 1.
  - split; [done|]. inversion 1.
  - rewrite IH. split; [intros [? ?]; by constructor|]. by inversion 1.
Qed.

Definition str_text (s : list Z) : list Z := [34] ++ concat (map escape s) ++ [34].

Fixpoint join (sep : list Z) (l : list (list Z)) : list Z :=
  match l with
  | [] => []
  | [x] => x
  | x :: l => x ++ sep ++ join sep l
  end.

(** The lines of an object, one per field. *)
Fixpoint fields (fmt : bool) (depth : Z) (ps : list (list Z * list Z)) : list Z :=
  match ps with
  | [] => []
  | (n, v) :: ps =>
      (if fmt then tabs depth else []) ++ n ++ (if fmt then [58; 9] else [58]) ++ v ++
      match ps with [] => [] | _ => [44] end ++ (if fmt then [10] else []) ++ fields fmt depth ps
  end.

Fixpoint json_text (fmt : bool) (depth : Z) (v : json) : list Z :=
  match v with
  | JNull => str "null"
  | JBool b => if b then str "true" else str "false"
  | JNum n => sprintf_d n
  | JStr s => str_text s
  | JArr l => [91] ++ join (if fmt then [44; 32] else [44]) (map (json_text fmt (depth + 1)) l) ++ [93]
  | JObj l =>
      [123] ++ (if fmt then [10] else []) ++
      fields fmt (depth + 1) (map (fun p => (str_text (fst p), json_text fmt (depth + 1) (snd p))) l) ++
      (if fmt then match l with [] => tabs (depth - 1) | _ => tabs depth end else []) ++ [125]
  end.

(** ** Writing *)
Lemma put_ok d w :
  zlen (text w) + zlen d <= cap w -> put d w = Some (Writer (cap w) (text w ++ d)).
Proof. intros H. unfold put. by destruct (Z.leb_spec (zlen (text w) + zlen d) (cap w)); [|lia]. Qed.

Lemma put_escaped_ok s : forall w,
  zlen (text w) + zlen (concat (map escape s)) <= cap w ->
  put_escaped s w = Some (Writer (cap w) (text w ++ concat (map escape s))).
Proof.
  induction s as [|c s IH]; intros w H; cbn [put_escaped map concat].
  - rewrite app_nil_r. by destruct w.
  - cbn [map concat] in H. rewrite zlen_app in H. pose proof (zlen_nonneg (concat (map escape s))).
    rewrite put_ok by lia. cbn [mbind option_bind]. rewrite IH; cbn [text cap].
    + by rewrite <- app_assoc.
    + rewrite zlen_app. lia.
Qed.

Lemma join_cons sep x y l : join sep (x :: y :: l) = x ++ sep ++ join sep (y :: l).
Proof. done. Qed.

Lemma put_entries_ok (fmt : bool) es : forall w,
  let t := join (if fmt then [44; 32] else [44]) es in
  zlen (text w) + zlen t <= cap w -> put_entries fmt es w = Some (Writer (cap w) (text w ++ t)).
Proof.
  set (sep := if fmt then [44; 32] else [44]).
  induction es as [|e es IH]; intros w t H; cbn [put_entries].
  - unfold t. rewrite app_nil_r. by destruct w.
  - fold sep. destruct es as [|e' es].
    + unfold t in *. cbn [join] in *. by rewrite put_ok.
    + unfold t in *. rewrite join_cons in *. rewrite !zlen_app in H.
      pose proof (zlen_nonneg (join sep (e' :: es))). pose proof (zlen_nonneg sep).
      rewrite put_ok by lia.
      cbn [mbind option_bind]. rewrite put_ok by (cbn [text cap]; rewrite zlen_app; lia).
      cbn [mbind option_bind text cap]. rewrite IH by (cbn [text cap]; rewrite !zlen_app; lia).
      cbn [text cap]. by rewrite <- !app_assoc.
Qed.

Lemma put_pairs_ok (fmt : bool) depth ps : forall w,
  let t := fields fmt depth ps in
  zlen (text w) + zlen t <= cap w -> put_pairs fmt depth ps w = Some (Writer (cap w) (text w ++ t)).
Proof.
  induction ps as [|[n v] ps IH]; intros w t H; cbn [put_pairs].
  - unfold t. cbn [fields]. rewrite app_nil_r. by destruct w.
  - unfold t in *. cbn [fields] in *. rewrite !zlen_app in H.
    set (tb := if fmt then tabs depth else @nil Z) in *. set (co := if fmt then [58; 9] else [58]) in *.
    set (cm := match ps with [] => @nil Z | _ => [44] end) in *.
    set (nl := if fmt then [10] else @nil Z) in *.
    pose proof (zlen_nonneg (fields fmt depth ps)). pose proof (zlen_nonneg nl).
    pose proof (zlen_nonneg cm). pose proof (zlen_nonneg v). pose proof (zlen_nonneg co).
    do 4 (rewrite put_ok by (cbn [text cap]; rewrite !zlen_app; lia); cbn [mbind option_bind text cap]).
    rewrite IH by (cbn [text cap]; rewrite !zlen_app; lia). cbn [text cap]. by rewrite <- !app_assoc.
Qed.

(** ** Lengths and characters *)
Lemma escape_len_ok c : is_cchar c -> zlen (escape c) = escape_len c.
Proof.
  intros H. refine (forall_range_eq (fun c => zlen (escape c)) escape_len 256 _ c _);
    [by vm_compute|unfold is_cchar in H; lia].
Qed.

Lemma escapes_len s : cstring s ->
  zlen (concat (map escape s)) = foldr (fun c n => escape_len c + n) 0 s.
Proof.
  induction 1 as [|c s Hc Hs IH]; [done|]. cbn [map concat foldr].
  by rewrite zlen_app, IH, escape_len_ok.
Qed.

Lemma escape_plain c : is_cchar c -> needs_escape c = false -> escape c = [c].
Proof.
  unfold is_cchar, needs_escape, escape. intros Hc H.
  apply orb_false_iff in H as [H ->]. apply orb_false_iff in H as [H ->].
  destruct (Z.ltb_spec 31 c); [done|]. revert H. repeat case_bool.
Qed.

Lemma escapes_plain s : cstring s -> existsb needs_escape s = false -> concat (map escape s) = s.
Proof.
  induction 1 as [|c s Hc Hs IH]; [done|]. cbn [map concat existsb]. intros H.
  apply orb_false_iff in H as [H1 H2]. by rewrite escape_plain, IH.
Qed.

Lemma escape_cstring c : is_cchar c -> cstring (escape c).
Proof.
  intros H. assert (Hb : forallb (fun x => bool_decide (is_cchar x)) (escape c) = true).
  { refine (forall_range_eq (fun c => forallb (fun x => bool_decide (is_cchar x)) (escape c))
      (fun _ => true) 256 _ c _); [by vm_compute|unfold is_cchar in H; lia]. }
  apply List.Forall_forall. intros x Hx. rewrite forallb_forall in Hb.
  specialize (Hb x Hx). by apply bool_decide_eq_true in Hb.
Qed.

Lemma str_text_cstring s : cstring s -> cstring (str_text s).
Proof.
  intros H. unfold str_text. rewrite !Forall_app. split_and!; [by_decide| |by_decide].
  induction H as [|c s Hc Hs IH]; [constructor|]. cbn [map concat]. apply Forall_app.
  split; [by apply escape_cstring|done].
Qed.

Lemma tabs_cstring n : cstring (tabs n).
Proof. apply Forall_replicate. by_decide. Qed.

Lemma zlen_tabs n : 0 <= n -> zlen (tabs n) = n.
Proof. intros H. unfold tabs. rewrite zlen_replicate. lia. Qed.

Lemma join_cstring sep l : cstring sep -> Forall cstring l -> cstring (join sep l).
Proof.
  intros Hs. induction 1 as [|x l Hx H IH]; [constructor|].
  destruct l as [|y l]; [done|]. rewrite join_cons, !Forall_app. done.
Qed.

Lemma fields_cstring (fmt : bool) d ps :
  Forall (fun p => cstring (fst p) /\ cstring (snd p)) ps -> cstring (fields fmt d ps).
Proof.
  induction 1 as [|[n v] ps [Hn Hv] H IH]; [constructor|]. cbn [fields fst snd] in *.
  rewrite !Forall_app. split_and!; try done; [destruct fmt; [apply tabs_cstring|constructor]|
    destruct fmt; by_decide|destruct ps; by_decide|destruct fmt; by_decide].
Qed.

(** The values that have a text. *)
Fixpoint json_ok (v : json) : Prop :=
  match v with
  | JNum n => is_int n
  | JStr s => cstring s
  | JArr l => (fix all l := match l with [] => True | v :: l => json_ok v /\ all l end) l
  | JObj l => (fix all l := match l with
                            | [] => True
                            | (n, v) :: l => (cstring n /\ json_ok v) /\ all l
                            end) l
  | _ => True
  end.

Lemma json_ok_arr l : json_ok (JArr l) <-> Forall json_ok l.
Proof.
  cbn [json_ok]. induction l as [|v l IH]; [by split; [constructor|]|]. by rewrite IH, Forall_cons.
Qed.

Lemma json_ok_obj l : json_ok (JObj l) <-> Forall (fun p => cstring (fst p) /\ json_ok (snd p)) l.
Proof.
  cbn [json_ok]. induction l as [|[n v] l IH]; [by split; [constructor|]|]. by rewrite IH, Forall_cons.
Qed.

Lemma json_text_cstring fmt v : forall depth, json_ok v -> cstring (json_text fmt depth v).
Proof.
  induction v as [|b|n|s|l IH|l IH] using json_nested_ind; intros depth Hv.
  - by_decide.
  - destruct b; by_decide.
  - apply sprintf_d_cstring.
  - by apply str_text_cstring.
  - apply json_ok_arr in Hv. cbn [json_text]. rewrite !Forall_app. split_and!; [by_decide| |by_decide].
    apply join_cstring; [destruct fmt; by_decide|]. apply Forall_map.
    eapply Forall_impl; [apply Forall_and; split; [exact IH|exact Hv]|].
    intros x [H1 H2]. by apply H1.
  - apply json_ok_obj in Hv. cbn [json_text]. rewrite !Forall_app. split_and!;
      [by_decide|destruct fmt; by_decide| |destruct fmt; [destruct l; apply tabs_cstring|constructor]|by_decide].
    apply fields_cstring, Forall_map.
    eapply Forall_impl; [apply Forall_and; split; [exact IH|exact Hv]|].
    intros x [H1 [H2 H3]]. cbn [fst snd]. split; [by apply str_text_cstring|by apply H1].
Qed.

Lemma repr_ok v : forall c, repr v c -> json_ok v.
Proof.
  induction v as [|b|n|s|l IH|l IH] using json_nested_ind; intros c Hc; try done.
  - apply Hc.
  - apply Hc.
  - apply repr_arr in Hc as [_ Hc]. apply json_ok_arr. revert Hc. generalize (child c) as ch.
    induction IH as [|v l Hv H IHl]; intros ch Hc; [constructor|].
    inversion Hc; subst. constructor; [by eapply Hv|by eapply IHl].
  - apply repr_obj in Hc as [_ Hc]. apply json_ok_obj. revert Hc. generalize (child c) as ch.
    induction IH as [|v l Hv H IHl]; intros ch Hc; [constructor|].
    inversion Hc as [|? ? ? ? (H1 & H2 & H3)]; subst. constructor; [|by eapply IHl].
    split; [done|by eapply Hv].
Qed.

(** ** Printing is the reference text, or a null pointer for want of memory *)
Definition fine (r : printed) (t : list Z) : Prop :=
  r = Some (Some t) \/ (r = Some None /\ exists n, mem n = false).

Lemma with_buffer_fine n fill t :
  fill (Writer n []) = Some (Writer n (t ++ [0])) -> cstring t -> fine (with_buffer n fill) t.
Proof.
  intros Hf Ht. unfold with_buffer, fine. destruct (mem n) eqn:E; [|right; eauto].
  left. rewrite Hf. cbn [mbind option_bind text]. by rewrite buf_cstr_app.
Qed.

Lemma put_fine n t : zlen t < n -> cstring t -> fine (with_buffer n (put (t ++ [0]))) t.
Proof.
  intros Hl Ht. apply with_buffer_fine; [|done]. rewrite put_ok; [done|].
  cbn [text cap]. rewrite zlen_app, zlen_nil. change (zlen [0]) with 1. lia.
Qed.

(** A text in brackets, written in three steps. *)
Lemma bracket_fine n o t c fill :
  is_cchar o -> is_cchar c -> cstring t -> zlen t + 3 <= n ->
  (forall w, zlen (text w) + zlen t <= cap w -> fill w = Some (Writer (cap w) (text w ++ t))) ->
  fine (with_buffer n (fun w => w ← put [o] w; w ← fill w; put [c; 0] w)) ([o] ++ t ++ [c]).
Proof.
  intros Ho Hc Ht Hn Hfill. pose proof (zlen_nonneg t). apply with_buffer_fine.
  - rewrite put_ok by (cbn [text cap]; rewrite zlen_nil; change (zlen [o]) with 1; lia).
    cbn [mbind option_bind text cap app].
    rewrite Hfill by (cbn [text cap]; change (zlen [o]) with 1; lia). cbn [mbind option_bind text cap].
    rewrite put_ok by (cbn [text cap]; rewrite zlen_app; change (zlen [o]) with 1;
      change (zlen [c; 0]) with 2; lia).
    cbn [text cap app]. do 3 f_equal. by rewrite <- !app_assoc.
  - rewrite !Forall_app, !Forall_singleton. done.
Qed.

Lemma print_string_fine s : cstring s -> fine (print_string_ptr (Some s)) (str_text s).
Proof.
  intros Hs. unfold print_string_ptr, str_text. cbn [mbind option_bind].
  destruct (existsb needs_escape s) eqn:E; cbn [negb].
  - rewrite <- escapes_len by done. apply bracket_fine; [by_decide|by_decide| |lia|].
    + pose proof (str_text_cstring s Hs) as H. unfold str_text in H. by rewrite !Forall_app in H; destruct H as (_ & H & _).
    + intros w. apply put_escaped_ok.
  - rewrite escapes_plain by done. apply bracket_fine; [by_decide|by_decide|done|lia|].
    intros w. apply put_ok.
Qed.

Lemma collect_fine rs ts : Forall2 fine rs ts ->
  collect rs = Some (Some ts) \/ (collect rs = Some None /\ exists n, mem n = false).
Proof.
  induction 1 as [|r t rs ts [-> |[-> Hm]] H IH]; [by left| |]; cbn [collect mbind option_bind].
  - destruct IH as [-> |[-> Hm]]; [by left|right; by split].
  - right. by split.
Qed.

Lemma collect_pairs_fine rs ps :
  Forall2 (fun r p => fine (fst r) (fst p) /\ fine (snd r) (snd p)) rs ps ->
  collect_pairs rs = Some (Some ps) \/ (collect_pairs rs = Some None /\ exists n, mem n = false).
Proof.
  induction 1 as [|[rn rv] [n v] rs ps [Hn Hv] H IH]; [by left|]. cbn [fst snd collect_pairs] in *.
  destruct Hn as [-> |[-> Hm]], Hv as [-> |[-> Hm']], IH as [-> |[-> Hm'']];
    cbn [mbind option_bind]; auto.
Qed.

Lemma join_len (fmt : bool) es :
  zlen (join (if fmt then [44; 32] else [44]) es) + 5 <=
  foldr (fun e n => zlen e + 2 + (if fmt then 1 else 0) + n) 5 es.
Proof.
  induction es as [|e es IH]; [done|]. cbn [foldr]. destruct es as [|e' es].
  - cbn [join foldr]. destruct fmt; lia.
  - rewrite join_cons, !zlen_app. destruct fmt; change (zlen [44; 32]) with 2 in *;
      change (zlen [44]) with 1 in *; lia.
Qed.

Lemma fields_len (fmt : bool) d base ps : 0 <= d ->
  zlen (fields fmt d ps) + base <=
  foldr (fun '(n, v) k => zlen v + zlen n + 2 + (if fmt then 2 + d else 0) + k) base ps.
Proof.
  intros Hd. induction ps as [|[n v] ps IH]; [done|]. cbn [foldr fields]. rewrite !zlen_app.
  assert (zlen (match ps with [] => [] | _ => [44] end) <= 1) by (destruct ps; by vm_compute).
  destruct fmt; [rewrite zlen_tabs by done|]; change (zlen [58; 9]) with 2 in *;
    change (zlen [58]) with 1 in *; change (zlen [10]) with 1 in *; rewrite ?zlen_nil in *; lia.
Qed.

Lemma print_number_fine `{!DoubleLaws D} c n :
  valueint c = n -> valuedouble c = d_of_Z n -> is_int n -> fine (print_number c) (sprintf_d n).
Proof.
  intros Hi Hd Hn. unfold print_number. rewrite Hi, Hd, is_zero_exact, near_exact, in_int_exact by done.
  destruct (Z.eqb_spec n 0) as [-> |Hz]; cbn [andb].
  - apply put_fine; by_decide.
  - apply put_fine; [|apply sprintf_d_cstring].
    pose proof (sprintf_d_len n). lia.
Qed.

Lemma print_array_fine fmt rs ts :
  Forall2 fine rs ts -> Forall cstring ts ->
  fine (print_array fmt rs) ([91] ++ join (if fmt then [44; 32] else [44]) ts ++ [93]).
Proof.
  intros H Hc. unfold print_array. destruct H as [|r t rs ts H0 H].
  { apply (put_fine 3 (str "[]")); by_decide. }
  destruct (mem (4 * zlen (r :: rs))) eqn:E; cbn [negb]; [|right; eauto].
  destruct (collect_fine (r :: rs) (t :: ts)) as [-> |[-> Hm]]; [by constructor| |right; by split].
  cbn [mbind option_bind]. pose proof (join_len fmt (t :: ts)).
  apply bracket_fine; [by_decide|by_decide| |lia|].
  - apply join_cstring; [destruct fmt; by_decide|done].
  - intros w. apply put_entries_ok.
Qed.


Lemma print_object_fine fmt depth rs ps :
  0 <= depth ->
  Forall2 (fun r p => fine (fst r) (fst p) /\ fine (snd r) (snd p)) rs ps ->
  Forall (fun p => cstring (fst p) /\ cstring (snd p)) ps ->
  fine (print_object fmt depth rs)
    ([123] ++ (if fmt then [10] else []) ++ fields fmt (depth + 1) ps ++
     (if fmt then match ps with [] => tabs (depth - 1) | _ => tabs depth end else []) ++ [125]).
Proof.
  intros Hd H Hc. unfold print_object. destruct H as [|r p rs ps H0 H].
  { cbn [fields app]. destruct fmt; [|by apply (put_fine 3 (str "{}")); by_decide].
    apply (bracket_fine (depth + 4) 123 (10 :: tabs (depth - 1)) 125); [by_decide|by_decide| | |].
    - constructor; [by_decide|apply tabs_cstring].
    - rewrite zlen_cons. unfold tabs. rewrite zlen_replicate. lia.
    - intros w. apply put_ok. }
  destruct (mem (4 * zlen (r :: rs))) eqn:E; cbn [negb]; [|right; eauto].
  destruct (collect_pairs_fine (r :: rs) (p :: ps)) as [-> |[-> Hm]]; [by constructor| |right; by split].
  cbn [mbind option_bind].
  pose proof (fields_len fmt (depth + 1) (if fmt then 7 + (depth + 1) else 7) (p :: ps) ltac:(lia)) as Hl.
  set (f := fields fmt (depth + 1) (p :: ps)) in *. pose proof (zlen_nonneg f).
  set (len := foldr _ _ (p :: ps)) in *.
  assert (Ht : zlen (if fmt then tabs depth else []) = if fmt then depth else 0)
    by (destruct fmt; [by apply zlen_tabs|done]).
  assert (Hn : zlen (if fmt then [10] else []) = if fmt then 1 else 0) by (by destruct fmt).
  replace (depth + 1 - 1) with depth by lia.
  set (nl := if fmt then [10] else []) in *. set (tb := if fmt then tabs depth else []) in *.
  apply with_buffer_fine.
  - do 2 (rewrite put_ok by (cbn [text cap]; rewrite ?zlen_app, ?zlen_cons, ?zlen_nil; destruct fmt; lia);
      cbn [mbind option_bind text cap]).
    rewrite put_pairs_ok by (cbn [text cap]; fold f; rewrite ?zlen_app, ?zlen_cons, ?zlen_nil; destruct fmt; lia).
    fold f. cbn [mbind option_bind text cap].
    do 2 (rewrite put_ok by (cbn [text cap]; rewrite ?zlen_app, ?zlen_cons, ?zlen_nil; destruct fmt; lia);
      cbn [mbind option_bind text cap]).
    cbn [app]. do 3 f_equal. by rewrite <- !app_assoc.
  - rewrite !Forall_app. split_and!; [by_decide|unfold nl; destruct fmt; by_decide| | |by_decide].
    + by apply fields_cstring.
    + unfold tb. destruct fmt; [apply tabs_cstring|constructor].
Qed.

Lemma print_value_fine `{!DoubleLaws D} fmt v : forall depth c,
  0 <= depth -> repr v c -> fine (print_value fmt depth c) (json_text fmt depth v).
Proof.
  induction v as [|b|n|s|l IH|l IH] using json_nested_ind; intros depth [t vs vi vd st ch] Hd Hc.
  - cbn [repr type] in Hc. cbn [print_value type]. rewrite Hc. apply (put_fine 5 (str "null")); by_decide.
  - cbn [repr type] in Hc. cbn [print_value type]. rewrite Hc.
    destruct b; [apply (put_fine 5 (str "true"))|apply (put_fine 6 (str "false"))]; by_decide.
  - cbn [repr type valueint valuedouble] in Hc. destruct Hc as (Ht & Hi & Hv & Hn).
    cbn [print_value type]. rewrite Ht. by apply print_number_fine.
  - cbn [repr type valuestring] in Hc. destruct Hc as (Ht & -> & Hs).
    cbn [print_value type valuestring]. rewrite Ht. by apply print_string_fine.
  - pose proof (repr_ok _ _ Hc) as Hok. apply json_ok_arr in Hok.
    apply repr_arr in Hc as [Ht Hc]. cbn [type child] in *. cbn [print_value type child json_text].
    rewrite Ht. apply print_array_fine.
    + apply Forall2_fmap, Forall2_flip. clear Ht Hok. revert ch Hc.
      induction IH as [|x l Hx H IHl]; intros ch Hc; inversion Hc; subst; constructor; [|by apply IHl].
      apply Hx; [lia|done].
    + apply Forall_map. eapply Forall_impl; [exact Hok|]. intros x. apply json_text_cstring.
  - pose proof (repr_ok _ _ Hc) as Hok. apply json_ok_obj in Hok.
    apply repr_obj in Hc as [Ht Hc]. cbn [type child] in *. cbn [print_value type child json_text].
    rewrite Ht.
    replace (match l with [] => tabs (depth - 1) | _ => tabs depth end) with
      (match map (fun p => (str_text (fst p), json_text fmt (depth + 1) (snd p))) l with
       | [] => tabs (depth - 1) | _ => tabs depth end) by (by destruct l).
    apply print_object_fine; [done| |].
    + apply Forall2_fmap, Forall2_flip. clear Ht Hok. revert ch Hc.
      induction IH as [|x l Hx H IHl]; intros ch Hc; inversion Hc as [|? ? ? ? (Hs & Hn & Hr)]; subst;
        constructor; [|by apply IHl].
      cbn [fst snd]. rewrite Hs. split; [by apply print_string_fine|apply Hx; [lia|done]].
    + apply Forall_map. eapply Forall_impl; [exact Hok|]. intros x [H1 H2]. cbn [fst snd].
      split; [by apply str_text_cstring|by apply json_text_cstring].
Qed.


(** ** Well-formed trees

    The type is one of the seven; a string has its text, a field its name. *)
Definition named (c : cJSON) : Prop := exists n, string c = Some n /\ cstring n.

Fixpoint well_typed (c : cJSON) : Prop :=
  let t := Z.land (type c) 255 in
  0 <= t <= 6 /\
  (t = cJSON_String -> exists s, valuestring c = Some s /\ cstring s) /\
  (t = cJSON_Object -> Forall named (child c)) /\
  (fix all (ch : list cJSON) : Prop :=
     match ch with [] => True | c :: ch => well_typed c /\ all ch end) (child c).

Lemma well_typed_unfold c :
  well_typed c <->
  let t := Z.land (type c) 255 in
  0 <= t <= 6 /\
  (t = cJSON_String -> exists s, valuestring c = Some s /\ cstring s) /\
  (t = cJSON_Object -> Forall named (child c)) /\ Forall well_typed (child c).
Proof.
  destruct c as [t vs vi vd s ch]. cbn [well_typed type valuestring child].
  do 3 apply and_iff_compat_l. clear. induction ch as [|c ch IH]; [by split; [constructor|]|].
  by rewrite IH, Forall_cons.
Qed.

(** Whether printing yields a text, or nothing for want of memory. *)
Definition printable (r : printed) : Prop := exists t, cstring t /\ fine r t.

Lemma print_number_printable `{!DoubleLaws D} c : printable (print_number c).
Proof.
  unfold print_number. destruct (d_is_zero (valuedouble c)); [exists (str "0")|destruct (_ && _);
    [exists (sprintf_d (valueint c))|exists (d_text (valuedouble c))]]; (split; [|apply put_fine]).
  1-3: by_decide.
  1,3: apply sprintf_d_cstring.
  - pose proof (sprintf_d_len (valueint c)). lia.
  - apply text_chars.
  - apply text_fits.
  - apply text_chars.
Qed.

Lemma printable_list {A} (f : A -> printed) l :
  Forall (fun a => printable (f a)) l ->
  exists ts, Forall2 fine (map f l) ts /\ Forall cstring ts.
Proof.
  induction 1 as [|a l (t & Ht & Hf) H (ts & IH1 & IH2)]; [by exists []|].
  exists (t :: ts). split; by constructor.
Qed.

Lemma printable_pairs {A} (f g : A -> printed) l :
  Forall (fun a => printable (f a) /\ printable (g a)) l ->
  exists ps, Forall2 (fun r p => fine (fst r) (fst p) /\ fine (snd r) (snd p))
               (map (fun a => (f a, g a)) l) ps /\
             Forall (fun p => cstring (fst p) /\ cstring (snd p)) ps.
Proof.
  induction 1 as [|a l ((t & Ht & Hf) & (u & Hu & Hg)) H (ps & IH1 & IH2)]; [by exists []|].
  exists ((t, u) :: ps). split; by constructor.
Qed.

Lemma print_value_printable `{!DoubleLaws D} fmt c : forall depth,
  0 <= depth -> well_typed c -> printable (print_value fmt depth c).
Proof.
  induction c as [t vs vi vd st ch IH] using cJSON_nested_ind. intros depth Hd Hw.
  apply well_typed_unfold in Hw as (Ht & Hs & Ho & Hc). cbn [type valuestring child] in *.
  assert (Hch : Forall (fun c => printable (print_value fmt (depth + 1) c)) ch).
  { eapply Forall_impl; [apply Forall_and; split; [exact IH|exact Hc]|].
    intros x [H1 H2]. apply H1; [lia|done]. }
  cbn [print_value type child valuestring].
  destruct (Z.eqb_spec (Z.land t 255) cJSON_NULL);
    [exists (str "null"); split; [by_decide|apply (put_fine 5); by_decide]|].
  destruct (Z.eqb_spec (Z.land t 255) cJSON_False);
    [exists (str "false"); split; [by_decide|apply (put_fine 6); by_decide]|].
  destruct (Z.eqb_spec (Z.land t 255) cJSON_True);
    [exists (str "true"); split; [by_decide|apply (put_fine 5); by_decide]|].
  destruct (Z.eqb_spec (Z.land t 255) cJSON_Number); [apply print_number_printable|].
  destruct (Z.eqb_spec (Z.land t 255) cJSON_String) as [E|].
  { destruct (Hs E) as (s & -> & Hcs). exists (str_text s).
    split; [by apply str_text_cstring|by apply print_string_fine]. }
  destruct (Z.eqb_spec (Z.land t 255) cJSON_Array).
  { destruct (printable_list _ _ Hch) as (ts & Hf & Hts). eexists.
    split; [|by apply print_array_fine]. rewrite !Forall_app. split_and!; [by_decide| |by_decide].
    apply join_cstring; [destruct fmt; by_decide|done]. }
  destruct (Z.eqb_spec (Z.land t 255) cJSON_Object) as [E|].
  - destruct (printable_pairs (fun c => print_string_ptr (string c)) (print_value fmt (depth + 1)) ch)
      as (ps & Hf & Hps).
    { eapply Forall_impl; [apply Forall_and; split; [exact (Ho E)|exact Hch]|].
      intros x [(nm & Hn & Hcn) Hx]. rewrite Hn. split; [|done].
      exists (str_text nm). split; [by apply str_text_cstring|by apply print_string_fine]. }
    eexists. split; [|by apply print_object_fine].
    rewrite !Forall_app. split_and!; [by_decide|destruct fmt; by_decide|by apply fields_cstring|
      destruct fmt; [destruct ps; apply tabs_cstring|constructor]|by_decide].
  - unfold cJSON_NULL, cJSON_False, cJSON_True, cJSON_Number, cJSON_String, cJSON_Array, cJSON_Object in *. lia.
Qed.


(** ** The value of a tree under construction *)
Lemma repr_set_string v n c : repr v c -> repr v (set_string n c).
Proof. by destruct v. Qed.

Lemma repr_string s : cstring s -> repr (JStr s) (cJSON_CreateString s).
Proof. by intros H. Qed.

Lemma repr_bool b : repr (JBool b) (cJSON_CreateBool b).
Proof. by destruct b. Qed.

Lemma repr_number `{!DoubleLaws D} n : is_int n -> repr (JNum n) (cJSON_CreateNumber (d_of_Z n)).
Proof. intros H. cbn. by rewrite to_int_exact. Qed.

Lemma repr_object : repr (JObj []) cJSON_CreateObject.
Proof. done. Qed.

Lemma repr_array : repr (JArr []) cJSON_CreateArray.
Proof. done. Qed.

Lemma repr_add_object l o n v c :
  repr (JObj l) o -> cstring n -> repr v c -> repr (JObj (l ++ [(n, v)])) (cJSON_AddItemToObject o n c).
Proof.
  rewrite !repr_obj. intros [Ht H] Hn Hc. split; [done|].
  apply Forall2_app; [done|]. repeat constructor; [done|by apply repr_set_string].
Qed.

(** A name given to an element of an array is not part of its value. *)
Lemma repr_add_array_named l a n v c :
  repr (JArr l) a -> repr v c -> repr (JArr (l ++ [v])) (cJSON_AddItemToObject a n c).
Proof.
  rewrite !repr_arr. intros [Ht H] Hc. split; [done|].
  apply Forall2_app; [done|]. repeat constructor. by apply repr_set_string.
Qed.

(** ** Looking a field up: the first whose name agrees but for case *)
Fixpoint lookup_field (name : list Z) (l : list (list Z * json)) : option json :=
  match l with
  | [] => None
  | (n, v) :: l => if bool_decide (map tolower n = map tolower name) then Some v else lookup_field name l
  end.

Lemma get_field name l : forall o, repr (JObj l) o ->
  match lookup_field name l with
  | Some v => exists c, cJSON_GetObjectItem o name = Some c /\ repr v c
  | None => cJSON_GetObjectItem o name = None
  end.
Proof.
  intros o [_ H]%repr_obj. unfold cJSON_GetObjectItem. revert H. generalize (child o) as ch, 0%nat as i.
  induction l as [|[n v] l IH]; intros ch i H; inversion H as [|? c ? ch' (Hs & Hn & Hc) H']; subst; [done|].
  cbn [lookup_field find_name]. rewrite Hs. unfold cJSON_strcasecmp_eq. cbn [fst].
  case_bool_decide; [by eexists|]. by apply IH.
Qed.

(** ** Trees that a program builds with the calls of the library *)
Definition is_array (c : cJSON) : Prop := Z.land (type c) 255 = cJSON_Array.
Definition is_object (c : cJSON) : Prop := Z.land (type c) 255 = cJSON_Object.

Inductive built : cJSON -> Prop :=
  | built_null : built cJSON_CreateNull
  | built_bool b : built (cJSON_CreateBool b)
  | built_number d : built (cJSON_CreateNumber d)
  | built_string s : cstring s -> built (cJSON_CreateString s)
  | built_array : built cJSON_CreateArray
  | built_object : built cJSON_CreateObject
  | built_ints l : built (cJSON_CreateIntArray l)
  | built_strings l : Forall cstring l -> built (cJSON_CreateStringArray l)
  | built_add_array a c : is_array a -> built a -> built c -> built (cJSON_AddItemToArray a c)
  | built_add_object o n c : cstring n -> built o -> built c -> built (cJSON_AddItemToObject o n c)
  | built_ref_array a c : is_array a -> built a -> built c -> built (cJSON_AddItemReferenceToArray a c)
  | built_ref_object o n c :
      cstring n -> built o -> built c -> built (cJSON_AddItemReferenceToObject o n c)
  | built_detached a i c : built a -> fst (cJSON_DetachItemFromArray a i) = Some c -> built c
  | built_delete_array a i : built a -> built (cJSON_DeleteItemFromArray a i)
  | built_delete_object o n : built o -> built (cJSON_DeleteItemFromObject o n)
  | built_insert a i c : is_array a -> built a -> built c -> built (cJSON_InsertItemInArray a i c)
  | built_replace_array a i c :
      is_array a -> built a -> built c -> built (cJSON_ReplaceItemInArray a i c)
  | built_replace_object o n c :
      cstring n -> built o -> built c -> built (cJSON_ReplaceItemInObject o n c)
  | built_duplicate r c : built c -> built (cJSON_Duplicate r c).

(** Only the children of an object need names. *)
Lemma well_typed_set_child c ch :
  well_typed c -> Forall well_typed ch -> (is_object c -> Forall named ch) ->
  well_typed (set_child ch c).
Proof.
  rewrite !well_typed_unfold. unfold is_object. intros (H1 & H2 & H3 & H4) Hw Hn.
  split; [done|]. split; [done|]. by split.
Qed.

Lemma well_typed_children c : well_typed c -> Forall well_typed (child c).
Proof. rewrite well_typed_unfold. by intros (? & ? & ? & ?). Qed.

Lemma well_typed_names c : well_typed c -> is_object c -> Forall named (child c).
Proof. rewrite well_typed_unfold. unfold is_object. by intros (? & ? & ? & ?). Qed.

Lemma well_typed_set_string c n : well_typed c -> well_typed (set_string n c).
Proof. by rewrite !well_typed_unfold. Qed.

Lemma land_lor_255 t : Z.land (Z.lor t 256) 255 = Z.land t 255.
Proof. rewrite Z.land_lor_distr_l. change (Z.land 256 255) with 0. apply Z.lor_0_r. Qed.

Lemma land_lnot_255 t : Z.land (Z.land t (Z.lnot 256)) 255 = Z.land t 255.
Proof. rewrite <- Z.land_assoc. by change (Z.land (Z.lnot 256) 255) with 255. Qed.

Lemma well_typed_reference c : well_typed c -> well_typed (create_reference c).
Proof. rewrite !well_typed_unfold. cbn. unfold cJSON_IsReference. by rewrite land_lor_255. Qed.

Lemma well_typed_duplicate r c : well_typed c -> well_typed (cJSON_Duplicate r c).
Proof.
  revert r. induction c as [t vs vi vd s ch IH] using cJSON_nested_ind. intros r.
  rewrite !well_typed_unfold. cbn [cJSON_Duplicate type valuestring child].
  unfold cJSON_IsReference. cbv zeta. rewrite land_lnot_255. intros (H1 & H2 & H3 & H4).
  split_and!; [lia|lia|done| |]; (destruct r; [|constructor]).
  - intros E. apply Forall_map. eapply Forall_impl; [exact (H3 E)|].
    intros [? ? ? ? ? ?]. by unfold named.
  - apply Forall_map. eapply Forall_impl; [apply Forall_and; split; [exact IH|exact H4]|].
    intros x [Hx Hw]. by apply Hx.
Qed.

Lemma well_typed_detach a i :
  well_typed a ->
  well_typed (cJSON_DeleteItemFromArray a i) /\
  forall c, fst (cJSON_DetachItemFromArray a i) = Some c -> well_typed c.
Proof.
  intros H. pose proof (well_typed_children _ H) as Hc.
  unfold cJSON_DeleteItemFromArray, cJSON_DetachItemFromArray.
  destruct (child a !! Z.to_nat i) as [x|] eqn:E; cbn [fst snd]; [|by split].
  split; [|intros c [= <-]; by eapply Forall_lookup_1].
  apply well_typed_set_child; [done| |].
  - apply Forall_app. split; [by apply Forall_take|by apply Forall_drop].
  - intros Ho. pose proof (well_typed_names _ H Ho) as Hn.
    apply Forall_app. split; [by apply Forall_take|by apply Forall_drop].
Qed.

Lemma well_typed_splice a l c r :
  well_typed a -> Forall well_typed l -> Forall well_typed r -> well_typed c ->
  (is_object a -> Forall named l /\ Forall named r /\ named c) ->
  well_typed (set_child (l ++ c :: r) a).
Proof.
  intros Ha Hl Hr Hc Hn. apply well_typed_set_child; [done| |].
  - apply Forall_app. split; [done|by constructor].
  - intros Ho. destruct (Hn Ho) as (? & ? & ?). apply Forall_app. split; [done|by constructor].
Qed.

Lemma well_typed_add a c :
  well_typed a -> well_typed c -> (is_object a -> named c) -> well_typed (cJSON_AddItemToArray a c).
Proof.
  intros Ha Hc Hn. apply well_typed_splice; [done|by apply well_typed_children|constructor|done|].
  intros Ho. split_and!; [by apply well_typed_names|constructor|by apply Hn].
Qed.

Lemma well_typed_replace a i c :
  well_typed a -> well_typed c -> (is_object a -> named c) ->
  well_typed (cJSON_ReplaceItemInArray a i c).
Proof.
  intros Ha Hc Hn. unfold cJSON_ReplaceItemInArray. case_match; [|done].
  pose proof (well_typed_children _ Ha).
  apply well_typed_splice; [done|by apply Forall_take|by apply Forall_drop|done|].
  intros Ho. pose proof (well_typed_names _ Ha Ho).
  split_and!; [by apply Forall_take|by apply Forall_drop|by apply Hn].
Qed.

Lemma well_typed_insert a i c :
  well_typed a -> well_typed c -> (is_object a -> named c) ->
  well_typed (cJSON_InsertItemInArray a i c).
Proof.
  intros Ha Hc Hn. unfold cJSON_InsertItemInArray. case_match; [|by apply well_typed_add].
  pose proof (well_typed_children _ Ha).
  apply well_typed_splice; [done|by apply Forall_take|by apply Forall_drop|done|].
  intros Ho. pose proof (well_typed_names _ Ha Ho).
  split_and!; [by apply Forall_take|by apply Forall_drop|by apply Hn].
Qed.

Lemma array_not_object c : is_array c -> is_object c -> False.
Proof. unfold is_array, is_object. by intros ->. Qed.

Lemma named_set_string n c : cstring n -> named (set_string (Some n) c).
Proof. by exists n. Qed.

#[local] Hint Resolve well_typed_set_string well_typed_reference named_set_string : core.
#[local] Hint Extern 3 (is_object _ -> named _) =>
  solve [by intros ?; exfalso; eapply array_not_object | intros ?; auto] : core.

Lemma well_typed_leaf c :
  child c = [] -> 0 <= Z.land (type c) 255 <= 6 -> Z.land (type c) 255 <> cJSON_String -> well_typed c.
Proof.
  intros Hc Ht Hs. rewrite well_typed_unfold, Hc. cbv zeta.
  split; [done|]. split; [done|]. by split.
Qed.

Lemma well_typed_string s : cstring s -> well_typed (cJSON_CreateString s).
Proof.
  intros Hs. rewrite well_typed_unfold. split; [done|]. split; [by exists s|]. split; [done|constructor].
Qed.

Lemma built_well_typed c : built c -> well_typed c.
Proof.
  induction 1 as [|b|d|s Hs| | |l|l Hl|a c Ha _ IHa _ IHc|o n c Hn _ IHo _ IHc|a c Ha _ IHa _ IHc|
    o n c Hn _ IHo _ IHc|a i c _ IHa Hd|a i _ IHa|o n _ IHo|a i c Ha _ IHa _ IHc|a i c Ha _ IHa _ IHc|
    o n c Hn _ IHo _ IHc|r c _ IHc].
  - by apply well_typed_leaf.
  - destruct b; by apply well_typed_leaf.
  - by apply well_typed_leaf.
  - by apply well_typed_string.
  - by apply well_typed_leaf.
  - by apply well_typed_leaf.
  - apply well_typed_set_child; [by apply well_typed_leaf| |done].
    apply Forall_map, Forall_true. intros n. by apply well_typed_leaf.
  - apply well_typed_set_child; [by apply well_typed_leaf| |done].
    apply Forall_map. eapply Forall_impl; [exact Hl|]. apply well_typed_string.
  - auto using well_typed_add.
  - apply well_typed_add; auto.
  - apply well_typed_add; auto.
  - apply well_typed_add; auto.
  - by eapply well_typed_detach.
  - by apply well_typed_detach.
  - unfold cJSON_DeleteItemFromObject, cJSON_DetachItemFromObject.
    destruct (find_name _ _ _) as [[i x]|]; [by apply well_typed_detach|done].
  - auto using well_typed_insert.
  - auto using well_typed_replace.
  - unfold cJSON_ReplaceItemInObject.
    destruct (find_name _ _ _) as [[i x]|]; [apply well_typed_replace; auto|done].
  - by apply well_typed_duplicate.
Qed.


(** A tree that holds a value is printed as the text of that value, by
    both printers, unless an allocation fails. *)
Theorem cJSON_Print_text `{!DoubleLaws D} v c :
  repr v c ->
  fine (cJSON_Print c) (json_text true 0 v) /\ fine (cJSON_PrintUnformatted c) (json_text false 0 v).
Proof. intros H. split; by apply print_value_fine. Qed.
End Json.

(** ** On a concrete tree *)
Definition sample_tree : cJSON (D:=decimal) :=
  cJSON_AddItemToObject (cJSON_AddItemToObject cJSON_CreateObject (str "id") (cJSON_CreateString (str "7")))
    (str "l") (cJSON_CreateIntArray [1; -20]).

Definition sample_value : json := JObj [(str "id", JStr (str "7")); (str "l", JArr [JNum 1; JNum (-20)])].

Lemma sample_built : built sample_tree.
Proof.
  apply built_add_object; [by_decide| |apply built_ints].
  apply built_add_object; [by_decide|apply built_object|apply built_string; by_decide].
Qed.

Example sample_text :
  cJSON_PrintUnformatted (fun _ => true) sample_tree =
  Some (Some (str "{" ++ [34] ++ str "id" ++ [34; 58; 34] ++ str "7" ++ [34; 44; 34] ++ str "l" ++ [34] ++
              str ":[1,-20]}")).
Proof. reflexivity. Qed.


Lemma cJSON_Print_text_witness :
  repr sample_value sample_tree /\
  fine (fun _ => true) (cJSON_Print (fun _ => true) sample_tree) (json_text true 0 sample_value).
Proof.
  assert (H : repr sample_value sample_tree) by (cbn; unfold is_int; split_and!; try done; by_decide).
  exact (conj H (proj1 (cJSON_Print_text (fun _ => true) sample_value sample_tree H))).
Defined.
