(* ===== verification/JsonParse.v ===== *)
(** * Reading JSON text

    Models the parser of src/packages/cJSON-latest/cJSON.c and
    [cJSON_Minify].  A pointer into the text is the list of the bytes from it
    on, the terminator being the last; reading past it is undefined behaviour,
    and so are writing past the block that [parse_string] allocates and the
    overflow of the exponent.  The theorems show that the parser ends on every
    text, that it reads back whatever the printer wrote, that its trees are
    well formed, and on which texts it stays inside its memory. *)

From S2P Require Import Prelude CLib Json.

Local Open Scope Z_scope.

(** ** Results

    A returned value; a null pointer, with the value given to the global [ep]
    if it was set; undefined behaviour; or more recursion than the fuel. *)
Inductive res (A : Type) :=
  | Ok (x : A)
  | Null (ep : option (list Z))
  | Undef
  | NoFuel.

Arguments Ok {A} x.
Arguments Null {A} ep.
Arguments Undef {A}.
Arguments NoFuel {A}.

#[export] Instance res_ret : MRet res := fun A x => Ok x.

#[export] Instance res_bind : MBind res := fun A B f m =>
  match m with
  | Ok x => f x
  | Null e => Null e
  | Undef => Undef
  | NoFuel => NoFuel
  end.

(** A result that may be undefined behaviour. *)
Definition defined {A} (o : option A) : res A :=
  match o with Some x => Ok x | None => Undef end.

(** [p[k]] and [p + k]; a pointer may be one past the end of the text. *)
Abbreviation ptr := (list Z).

Definition rd (p : ptr) (k : nat) : res Z := defined (p !! k).

Definition adv (p : ptr) (k : nat) : res ptr :=
  if (k <=? length p)%nat then Ok (drop k p) else Undef.

Section Parse.
Context {D : Type} `{!Double D} (mem : Z -> bool).

#[local] Abbreviation node := (@cJSON D).

(** [sizeof(cJSON)]: eight words and the padding of the double. *)
Definition sizeof_cJSON : Z := 40.

Definition new_item : res (node) :=
  if mem sizeof_cJSON then Ok cJSON_New_Item else Null None.

(** ** Blanks and literals *)
Fixpoint skip (p : ptr) : res ptr :=
  match p with
  | [] => Undef
  | c :: p' => if negb (c =? 0) && (c <=? 32) then skip p' else Ok p
  end.

(** [!strncmp(p, lit, strlen(lit))]. *)
Fixpoint starts (lit : list Z) (p : ptr) : res bool :=
  match lit with
  | [] => Ok true
  | l :: lit =>
      match p with
      | [] => Undef
      | c :: p => if c =? l then starts lit p else Ok false
      end
  end.

(** ** Numbers *)

(** [n = n * 10.0 + digit] while there are digits; their number. *)
Fixpoint scan (n : D) (k : Z) (p : ptr) : res (D * Z * ptr) :=
  match p with
  | [] => Undef
  | c :: p' => if is_digit c then scan (d_digit n (c - 48)) (k + 1) p' else Ok (n, k, p)
  end.

(** The digits of the exponent, in an [int]. *)
Fixpoint scan_exp (n : Z) (p : ptr) : res (Z * ptr) :=
  match p with
  | [] => Undef
  | c :: p' =>
      if is_digit c then
        let n := n * 10 + (c - 48) in
        if n <? 2 ^ 31 then scan_exp n p' else Undef
      else Ok (n, p)
  end.

Definition parse_exponent (p : ptr) : res (Z * ptr) :=
  c ← rd p 0;
  if (c =? 101) || (c =? 69) then
    p ← adv p 1;
    c ← rd p 0;
    if c =? 45
    then p ← adv p 1; r ← scan_exp 0 p; Ok (- fst r, snd r)
    else p ← adv p (if c =? 43 then 1 else 0); scan_exp 0 p
  else Ok (0, p).

(** The integer part: a zero, or digits that start with another one. *)
Definition parse_whole (num : ptr) : res (D * ptr) :=
  c ← rd num 0;
  num ← adv num (if c =? 48 then 1 else 0);
  c ← rd num 0;
  if (49 <=? c) && (c <=? 57) then '(n, _, num) ← scan (d_of_Z 0) 0 num; Ok (n, num)
  else Ok (d_of_Z 0, num).

(** The fraction, with the number of its digits. *)
Definition parse_fraction (n : D) (num : ptr) : res (D * Z * ptr) :=
  c ← rd num 0;
  if c =? 46 then
    d ← rd num 1;
    if is_digit d then num ← adv num 1; scan n 0 num else Ok (n, 0, num)
  else Ok (n, 0, num).

Definition parse_number (item : node) (num : ptr) : res (node * ptr) :=
  c ← rd num 0;
  num ← adv num (if c =? 45 then 1 else 0);
  '(n, num) ← parse_whole num;
  '(n, k, num) ← parse_fraction n num;
  '(e, num) ← parse_exponent num;
  let n := d_scale (c =? 45) n (- k + e) in
  Ok (Node cJSON_Number (valuestring item) (d_to_int n) n (string item) (child item), num).

(** ** Strings *)
Definition hex_value (c : Z) : option Z :=
  if is_digit c then Some (c - 48)
  else if (65 <=? c) && (c <=? 70) then Some (10 + c - 65)
  else if (97 <=? c) && (c <=? 102) then Some (10 + c - 97)
  else None.

(** [parse_hex4] returns zero at the first character that is no digit. *)
Fixpoint parse_hex (k : nat) (h : Z) (p : ptr) : res Z :=
  match k with
  | O => Ok h
  | S k =>
      c ← rd p 0;
      match hex_value c with
      | None => Ok 0
      | Some v => p ← adv p 1; parse_hex k (16 * h + v) p
      end
  end.

Definition parse_hex4 (p : ptr) : res Z := parse_hex 4 0 p.

(** The first loop: the bytes to allocate, before the terminator. *)
Fixpoint count_chars (p : ptr) : res Z :=
  match p with
  | [] => Undef
  | c :: p =>
      if (c =? 34) || (c =? 0) then Ok 0
      else if c =? 92 then
        match p with
        | [] => Undef
        | _ :: p => n ← count_chars p; Ok (1 + n)
        end
      else n ← count_chars p; Ok (1 + n)
  end.

(** [utf8 uc]: the bytes of a code point, as the second [switch] stores them
    from the last to the first. *)
Definition utf8_tail (uc : Z) : Z := Z.land (Z.lor uc 128) 191.

Definition utf8 (uc : Z) : list Z :=
  if uc <? 128 then [u8 uc]
  else if uc <? 2048 then [u8 (Z.lor (Z.shiftr uc 6) 192); utf8_tail uc]
  else if uc <? 65536
  then [u8 (Z.lor (Z.shiftr uc 12) 224); utf8_tail (Z.shiftr uc 6); utf8_tail uc]
  else [u8 (Z.lor (Z.shiftr uc 18) 240); utf8_tail (Z.shiftr uc 12);
        utf8_tail (Z.shiftr uc 6); utf8_tail uc].

(** The second half of a surrogate pair, [p] being at the last digit of the
    first. *)
Definition parse_surrogate (uc : Z) (p : ptr) : res (list Z * ptr) :=
  a ← rd p 1;
  if negb (a =? 92) then Ok ([], p) else
  b ← rd p 2;
  if negb (b =? 117) then Ok ([], p) else
  q ← adv p 3;
  uc2 ← parse_hex4 q;
  p ← adv p 6;
  if (uc2 <? 56320) || (57343 <? uc2) then Ok ([], p)
  else Ok (utf8 (65536 + Z.lor (Z.shiftl (Z.land uc 1023) 10) (Z.land uc2 1023)), p).

(** The case ['u'] of the [switch]: what is stored and where [ptr] is left. *)
Definition parse_u (p : ptr) : res (list Z * ptr) :=
  q ← adv p 1;
  uc ← parse_hex4 q;
  p ← adv p 4;
  if ((56320 <=? uc) && (uc <=? 57343)) || (uc =? 0) then Ok ([], p)
  else if (55296 <=? uc) && (uc <=? 56319) then parse_surrogate uc p
  else Ok (utf8 uc, p).

(** One round of the second loop at a character that is neither a quote nor
    the terminator. *)
Definition parse_char (p : ptr) : res (list Z * ptr) :=
  c ← rd p 0;
  if negb (c =? 92) then p ← adv p 1; Ok ([c], p)
  else
    p ← adv p 1;
    e ← rd p 0;
    '(d, p) ← (if e =? 98 then Ok ([8], p) else if e =? 102 then Ok ([12], p)
               else if e =? 110 then Ok ([10], p) else if e =? 114 then Ok ([13], p)
               else if e =? 116 then Ok ([9], p)
               else if e =? 117 then parse_u p
               else Ok ([e], p));
    p ← adv p 1;
    Ok (d, p).

(** The second loop fills the block; it ends at a quote or the terminator. *)
Fixpoint parse_chars (fuel : nat) (p : ptr) (w : writer) : res (writer * ptr) :=
  match fuel with
  | O => NoFuel
  | S fuel =>
      c ← rd p 0;
      if (c =? 34) || (c =? 0) then Ok (w, p)
      else
        '(d, p) ← parse_char p;
        w ← defined (put d w);
        parse_chars fuel p w
  end.

Definition parse_string (item : node) (p : ptr) : res (node * ptr) :=
  c ← rd p 0;
  if negb (c =? 34) then Null (Some p) else
  p ← adv p 1;
  len ← count_chars p;
  if negb (mem (len + 1)) then Null None else
  '(w, p) ← parse_chars (S (length p)) p (Writer (len + 1) []);
  w ← defined (put [0] w);
  c ← rd p 0;
  p ← adv p (if c =? 34 then 1 else 0);
  s ← defined (buf_cstr (text w));
  Ok (Node cJSON_String (Some s) (valueint item) (valuedouble item) (string item) (child item), p).

(** ** Values *)

(** The name of a field becomes the [string] of its node. *)
Definition name_item (c : node) : node :=
  Node (type c) None (valueint c) (valuedouble c) (valuestring c) (child c).

Section Nested.
Context (parse_value : node -> ptr -> res (node * ptr)).

(** One element: a fresh node, and the text after the element and the blanks
    behind it. *)
Definition parse_element (p : ptr) : res (node * ptr) :=
  c ← new_item;
  p ← skip p;
  '(c, p) ← parse_value c p;
  p ← skip p;
  Ok (c, p).

Definition parse_field (p : ptr) : res (node * ptr) :=
  c ← new_item;
  p ← skip p;
  '(c, p) ← parse_string c p;
  p ← skip p;
  let c := name_item c in
  x ← rd p 0;
  if negb (x =? 58) then Null (Some p) else
  p ← adv p 1;
  p ← skip p;
  '(c, p) ← parse_value c p;
  p ← skip p;
  Ok (c, p).

(** The elements after a comma each, up to the closing bracket. *)
Fixpoint parse_more (one : ptr -> res (node * ptr)) (close : Z) (fuel : nat) (p : ptr)
  : res (list node * ptr) :=
  match fuel with
  | O => NoFuel
  | S fuel =>
      x ← rd p 0;
      if x =? 44 then
        p ← adv p 1;
        '(c, p) ← one p;
        '(l, p) ← parse_more one close fuel p;
        Ok (c :: l, p)
      else if x =? close then p ← adv p 1; Ok ([], p)
      else Null (Some p)
  end.

(** The common shape of [parse_array] and [parse_object]. *)
Definition parse_list (one : ptr -> res (node * ptr)) (open close t : Z) (item : node) (p : ptr)
  : res (node * ptr) :=
  x ← rd p 0;
  if negb (x =? open) then Null (Some p) else
  p ← adv p 1;
  p ← skip p;
  x ← rd p 0;
  if x =? close then p ← adv p 1; Ok (set_type t item, p) else
  '(c, p) ← one p;
  '(l, p) ← parse_more one close (S (length p)) p;
  Ok (set_child (c :: l) (set_type t item), p).

Definition parse_array : node -> ptr -> res (node * ptr) := parse_list parse_element 91 93 cJSON_Array.

Definition parse_object : node -> ptr -> res (node * ptr) := parse_list parse_field 123 125 cJSON_Object.
End Nested.

Fixpoint parse_value (fuel : nat) (item : node) (p : ptr) : res (node * ptr) :=
  match fuel with
  | O => NoFuel
  | S fuel =>
      b ← starts (str "null") p;
      if (b : bool) then p ← adv p 4; Ok (set_type cJSON_NULL item, p) else
      b ← starts (str "false") p;
      if (b : bool) then p ← adv p 5; Ok (set_type cJSON_False item, p) else
      b ← starts (str "true") p;
      if (b : bool)
      then p ← adv p 4;
           Ok (Node cJSON_True (valuestring item) 1 (valuedouble item) (string item) (child item), p)
      else
      c ← rd p 0;
      if c =? 34 then parse_string item p
      else if (c =? 45) || is_digit c then parse_number item p
      else if c =? 91 then parse_array (parse_value fuel) item p
      else if c =? 123 then parse_object (parse_value fuel) item p
      else Null (Some p)
  end.

(** [cJSON_ParseWithOpts]: the tree and the rest of the text; [ep] is null
    unless a failure set it. *)
Definition cJSON_ParseWithOpts (value : ptr) (require_null_terminated : bool) : res (node * ptr) :=
  c ← new_item;
  p ← skip value;
  '(c, p) ← parse_value (S (length p)) c p;
  if require_null_terminated then
    p ← skip p;
    x ← rd p 0;
    if x =? 0 then Ok (c, p) else Null (Some p)
  else Ok (c, p).

Definition cJSON_Parse (value : ptr) : res node :=
  '(c, _) ← cJSON_ParseWithOpts value false; Ok c.
End Parse.

(** ** Postconditions

    [post Q u r]: a returned value meets [Q], undefined behaviour needs [u],
    and the fuel was enough. *)
Definition post {A} (Q : A -> Prop) (u : Prop) (r : res A) : Prop :=
  match r with
  | Ok x => Q x
  | Null _ => True
  | Undef => u
  | NoFuel => False
  end.

Lemma post_bind {A B} (Q : B -> Prop) u (m : res A) (f : A -> res B) :
  post (fun x => post Q u (f x)) u m -> post Q u (m ≫= f).
Proof. by destruct m. Qed.

Lemma post_unbind {A B} (Q : B -> Prop) u (m : res A) (f : A -> res B) :
  post Q u (m ≫= f) -> post (fun x => post Q u (f x)) u m.
Proof. by destruct m. Qed.

Lemma post_mono {A} (Q Q' : A -> Prop) (u u' : Prop) r :
  post Q u r -> (forall x, Q x -> Q' x) -> (u -> u') -> post Q' u' r.
Proof. destruct r; cbn; auto. Qed.

Lemma post_defined {A} (Q : A -> Prop) (u : Prop) o :
  (forall x, o = Some x -> Q x) -> (o = None -> u) -> post Q u (defined o).
Proof. destruct o; cbn; auto. Qed.

Lemma post_rd (Q : Z -> Prop) (u : Prop) (p : ptr) k :
  (forall x, p !! k = Some x -> Q x) -> (p !! k = None -> u) -> post Q u (rd p k).
Proof. apply post_defined. Qed.

Lemma post_adv (Q : ptr -> Prop) (u : Prop) (p : ptr) k :
  ((k <= length p)%nat -> Q (drop k p)) -> ((length p < k)%nat -> u) -> post Q u (adv p k).
Proof. unfold adv. intros H1 H2. destruct (Nat.leb_spec k (length p)); cbn; auto. Qed.

Ltac post_step :=
  match goal with
  | |- post _ _ (_ ≫= _) => apply post_bind
  | |- post _ _ (if ?b then _ else _) => destruct b eqn:?
  | |- post _ _ (rd _ _) => apply post_rd; [intros ? ?|intros ?]
  | |- post _ _ (adv _ _) => apply post_adv; [intros ?|intros ?]
  | |- post _ _ (defined _) => apply post_defined; [intros ? ?|intros ?]
  | |- post _ _ (let '(_, _) := ?x in _) => destruct x
  | |- post _ _ (Ok _) => cbn [post]
  | |- post _ _ (Null _) => exact I
  end.

Section Facts.
Context {D : Type} `{!Double D} (mem : Z -> bool).

#[local] Abbreviation node := (@cJSON D).

(** ** Texts on which the parser is safe

    A backslash is not the last character, [\u] is followed by four hexadecimal
    digits, an exponent has at most nine digits; the zero is at the end. *)
Definition is_hex (c : Z) : bool := bool_decide (is_Some (hex_value c)).

Fixpoint leading_digits (p : list Z) : nat :=
  match p with
  | c :: p => if is_digit c then S (leading_digits p) else O
  | [] => O
  end.

Definition after_sign (p : list Z) : list Z :=
  match p with
  | c :: q => if (c =? 43) || (c =? 45) then q else p
  | [] => []
  end.

Definition safe_at (c : Z) (q : list Z) : bool :=
  if c =? 92 then
    match q with
    | [] => false
    | e :: q =>
        negb (e =? 0) &&
        (negb (e =? 117) || ((4 <=? length (take 4 q))%nat && forallb is_hex (take 4 q)))
    end
  else if (c =? 101) || (c =? 69) then (leading_digits (after_sign q) <=? 9)%nat
  else true.

Fixpoint text_ok (p : ptr) : bool :=
  match p with
  | [] => false
  | c :: q => if c =? 0 then bool_decide (q = []) else safe_at c q && text_ok q
  end.

Lemma text_ok_cons c q : text_ok (c :: q) = true -> c <> 0 -> text_ok q = true /\ safe_at c q = true.
Proof.
  intros H Hc. cbn [text_ok] in H. destruct (Z.eqb_spec c 0); [done|].
  by apply andb_true_iff in H as [-> ->].
Qed.

Lemma text_ok_drop k : forall p : ptr,
  text_ok p = true -> Forall (fun c => c <> 0) (take k p) -> text_ok (drop k p) = true.
Proof.
  induction k as [|k IH]; intros p H Hf; [by rewrite drop_0|].
  destruct p as [|c p]; [done|]. cbn [take drop] in *. apply Forall_cons in Hf as [Hc Hf].
  apply IH; [|done]. by apply (text_ok_cons c).
Qed.

Lemma text_ok_nil : text_ok [] = true -> False.
Proof. done. Qed.

Lemma text_ok_read p k :
  text_ok p = true -> Forall (fun c => c <> 0) (take k p) -> p !! k = None -> False.
Proof.
  intros H Hf E. apply (text_ok_drop k p H) in Hf. rewrite <- (Nat.add_0_r k) in E.
  rewrite <- lookup_drop in E. by destruct (drop k p).
Qed.

(** [reach p q]: the parser went from [p] to [q]; [unsafe] texts excuse
    undefined behaviour. *)
Definition unsafe (p : ptr) : Prop := text_ok p = true -> False.

Definition reach (p q : ptr) : Prop :=
  (length q <= length p)%nat /\ (text_ok p = true -> text_ok q = true) /\ (bytes p -> bytes q).

Definition advance (p q : ptr) : Prop := reach p q /\ (length q < length p)%nat.

Lemma reach_refl p : reach p p.
Proof. by repeat split. Qed.

Lemma reach_trans p q r : reach p q -> reach q r -> reach p r.
Proof. intros (H1 & H2 & H3) (H4 & H5 & H6). split_and!; [lia|auto|auto]. Qed.

Lemma advance_reach p q : advance p q -> reach p q.
Proof. by intros [? ?]. Qed.

Lemma advance_trans_l p q r : advance p q -> reach q r -> advance p r.
Proof. intros [H1 H2] H3. split; [by eapply reach_trans|]. destruct H3. lia. Qed.

Lemma advance_trans_r p q r : reach p q -> advance q r -> advance p r.
Proof. intros H1 [H2 H3]. split; [by eapply reach_trans|]. destruct H1. lia. Qed.

Lemma unsafe_reach p q : reach p q -> unsafe q -> unsafe p.
Proof. unfold unsafe. intros (_ & H & _) Hq Hp. auto. Qed.

Lemma advance_cons c q : c <> 0 -> advance (c :: q) q.
Proof.
  intros Hc. split; [|cbn; lia]. split_and!; [cbn; lia| |].
  - intros H. by apply (text_ok_cons c q H).
  - by intros [_ H]%Forall_cons.
Qed.

Lemma reach_drop p k : (text_ok p = true -> Forall (fun c => c <> 0) (take k p)) -> reach p (drop k p).
Proof.
  intros H. split_and!.
  - rewrite length_drop. lia.
  - intros Hp. by apply text_ok_drop; auto.
  - intros Hb. by apply Forall_drop.
Qed.

(** A proof that follows one pointer: reading at it is safe. *)
Lemma unsafe_nil p : p !! 0%nat = None -> unsafe p.
Proof. by destruct p. Qed.

Lemma lookup_head (p : ptr) c : p !! 0%nat = Some c -> exists q, p = c :: q.
Proof. destruct p as [|x q]; intros [= ->]. eauto. Qed.

Lemma skip_post p : post (fun q => reach p q) (unsafe p) (skip p).
Proof.
  induction p as [|c p IH]; cbn [skip]; [done|]. post_step; [|apply reach_refl].
  assert (Hc : c <> 0) by (intros ->; done). pose proof (advance_reach _ _ (advance_cons c p Hc)) as H.
  eapply post_mono; [exact IH| |].
  - intros q. by apply reach_trans.
  - by apply unsafe_reach.
Qed.

Lemma starts_post lit : Forall (fun c => c <> 0) lit -> forall p,
  post (fun b => b = true -> exists q, p = lit ++ q) (unsafe p) (starts lit p).
Proof.
  induction 1 as [|l lit Hl H IH]; intros p; cbn [starts post]; [eauto|].
  destruct p as [|c p]; [done|]. destruct (Z.eqb_spec c l) as [-> |]; [|done].
  eapply post_mono; [apply IH| |].
  - intros b Hb E. destruct (Hb E) as [q ->]. by exists q.
  - by apply unsafe_reach, advance_reach, advance_cons.
Qed.

Lemma digit_nonzero c : is_digit c = true -> c <> 0.
Proof. by intros H ->. Qed.

Lemma scan_post p : forall n k,
  post (fun r => reach p (snd r)) (unsafe p) (scan (D:=D) n k p).
Proof.
  induction p as [|c p IH]; intros n k; cbn [scan]; [done|]. post_step; [|apply reach_refl].
  pose proof (advance_reach _ _ (advance_cons c p (digit_nonzero _ Heqb))) as H.
  eapply post_mono; [apply IH| |].
  - intros q. by apply reach_trans.
  - by apply unsafe_reach.
Qed.

(** The exponent stays an [int] while it has nine digits. *)
Lemma scan_exp_post p : forall n (j : nat), 0 <= n < 10 ^ Z.of_nat j ->
  post (fun r => reach p (snd r)) (text_ok p = true -> (leading_digits p + j <= 9)%nat -> False)
    (scan_exp n p).
Proof.
  induction p as [|c p IH]; intros n j Hn; cbn [scan_exp leading_digits]; [by intros ?|].
  destruct (is_digit c) eqn:E; [|apply reach_refl].
  pose proof (advance_reach _ _ (advance_cons c p (digit_nonzero _ E))) as H.
  unfold is_digit in E. apply andb_true_iff in E as [E1 E2]. apply Z.leb_le in E1, E2.
  assert (Hn' : 0 <= n * 10 + (c - 48) < 10 ^ Z.of_nat (S j))
    by (rewrite Nat2Z.inj_succ, Z.pow_succ_r by lia; lia).
  cbv zeta. post_step.
  - eapply post_mono; [apply (IH _ (S j) Hn')| |].
    + intros q. by apply reach_trans.
    + intros Hu Ht Hj. apply Hu; [by apply H|lia].
  - intros _ Hj. apply Z.ltb_ge in Heqb.
    assert (10 ^ Z.of_nat (S j) <= 10 ^ 9) by (apply Z.pow_le_mono_r; lia). lia.
Qed.

Lemma parse_exponent_post p : post (fun r => reach p (snd r)) (unsafe p) (parse_exponent p).
Proof.
  unfold parse_exponent. post_step. post_step; [|by apply unsafe_nil].
  apply lookup_head in H as [q ->]. post_step; [|apply reach_refl].
  assert (Hx : x <> 0) by (by intros ->). pose proof (advance_cons x q Hx) as Ha.
  assert (Hd : text_ok (x :: q) = true -> (leading_digits (after_sign q) <= 9)%nat).
  { intros H. apply text_ok_cons in H as [_ H]; [|done]. unfold safe_at in H.
    rewrite Heqb in H. destruct (Z.eqb_spec x 92) as [-> |]; [done|]. by apply Nat.leb_le. }
  post_step. post_step; [|cbn in *; lia]. rewrite skipn_cons, drop_0.
  post_step. post_step; [|by eapply unsafe_reach; [apply Ha|apply unsafe_nil]].
  apply lookup_head in H0 as [q' ->]. cbn [after_sign] in Hd.
  assert (Hs : x0 = 43 \/ x0 = 45 -> advance (x0 :: q') q') by (intros Hx0; apply advance_cons; lia).
  destruct (Z.eqb_spec x0 45) as [-> |].
  - post_step. post_step; [|cbn in *; lia]. rewrite skipn_cons, drop_0. post_step.
    rewrite orb_true_r in Hd.
    eapply post_mono; [apply (scan_exp_post q' 0 0); by vm_compute| |].
    + intros r Hr. cbn [post snd]. eapply reach_trans; [apply Ha|].
      eapply reach_trans; [apply Hs; auto|done].
    + intros Hu Ht. apply Hu; [by apply Hs; [auto|apply Ha]|]. specialize (Hd Ht). lia.
  - rewrite orb_false_r in Hd. post_step. post_step; [|destruct (x0 =? 43); cbn in *; lia].
    assert (Hq : reach (x :: x0 :: q') (drop (if x0 =? 43 then 1 else 0) (x0 :: q'))).
    { eapply reach_trans; [apply Ha|]. destruct (Z.eqb_spec x0 43); [|apply reach_refl].
      rewrite skipn_cons, drop_0. apply Hs. auto. }
    eapply post_mono; [apply (scan_exp_post _ 0 0); by vm_compute| |].
    + intros r. by apply reach_trans.
    + intros Hu Ht. apply Hu; [by apply Hq|]. specialize (Hd Ht).
      destruct (x0 =? 43); rewrite ?skipn_cons, ?drop_0; lia.
Qed.

(** Reading a character and passing it if it is of a kind. *)
Lemma post_opt {A} (f : Z -> bool) (Q : A -> Prop) u p (K : Z -> ptr -> res A) :
  f 0 = false -> (unsafe p -> u) ->
  (forall c t q, p = c :: t -> (if f c then advance p q else q = p) -> post Q u (K c q)) ->
  post Q u (c ← rd p 0; q ← adv p (if f c then 1 else 0)%nat; K c q).
Proof.
  intros Hf Hu HK. post_step. post_step; [|by apply Hu, unsafe_nil].
  apply lookup_head in H as [q ->]. post_step. post_step; [|destruct (f x); cbn in *; lia].
  apply (HK x q); [done|]. destruct (f x) eqn:E; [|done]. apply advance_cons. by intros ->; congruence.
Qed.

Lemma scan_advance c p (n : D) k : is_digit c = true ->
  post (fun r => advance (c :: p) (snd r)) (unsafe (c :: p)) (scan n k (c :: p)).
Proof.
  intros Hc. cbn [scan]. rewrite Hc. pose proof (advance_cons c p (digit_nonzero _ Hc)) as H.
  eapply post_mono; [apply scan_post| |].
  - intros r. by apply advance_trans_l.
  - apply unsafe_reach, H.
Qed.

(** The integer part passes a digit if it is at one. *)
Lemma parse_whole_post p :
  post (fun r : D * ptr => reach p (snd r) /\
          (forall c t, p = c :: t -> is_digit c = true -> advance p (snd r))) (unsafe p) (parse_whole p).
Proof.
  unfold parse_whole. apply (post_opt (fun c => c =? 48)); [done|done|]. intros c t p' -> H.
  assert (R : reach (c :: t) p') by (destruct (c =? 48); [apply H|subst; apply reach_refl]).
  post_step. post_step; [|by eapply unsafe_reach, unsafe_nil].
  apply lookup_head in H0 as [t' ->]. post_step.
  - post_step. eapply post_mono; [apply scan_advance| |by apply unsafe_reach].
    + unfold is_digit. apply andb_true_iff in Heqb as [E1 E2]. apply andb_true_iff.
      rewrite !Z.leb_le in *. lia.
    + intros [[n k] q] A. cbn [post snd] in *. pose proof (advance_trans_r _ _ _ R A) as A'.
      split; [apply A'|done].
  - cbn [post snd]. split; [done|]. intros c' t'' [= -> ->] Hd. destruct (Z.eqb_spec c' 48) as [|Hz]; [done|].
    injection H as -> ->. unfold is_digit in Hd. apply andb_true_iff in Hd as [E1 E2].
    apply andb_false_iff in Heqb. rewrite !Z.leb_le, !Z.leb_gt in *. lia.
Qed.

Lemma parse_fraction_post (n : D) p :
  post (fun r => reach p (snd r)) (unsafe p) (parse_fraction n p).
Proof.
  unfold parse_fraction. post_step. post_step; [|by apply unsafe_nil].
  apply lookup_head in H as [t ->]. destruct (Z.eqb_spec x 46) as [-> |]; [|apply reach_refl].
  assert (R : reach (46 :: t) t) by (by apply advance_reach, advance_cons).
  post_step. post_step; [|by apply (unsafe_reach _ _ R), unsafe_nil].
  post_step; [|apply reach_refl]. post_step. post_step; [|cbn in *; lia]. rewrite skipn_cons, drop_0.
  eapply post_mono; [apply scan_post| |by apply unsafe_reach]. intros r. by apply reach_trans.
Qed.

(** What an item keeps when it is filled. *)
Definition kept (item c : node) : Prop := string c = string item /\ child c = child item.

Lemma parse_number_post (item : node) p c t : p = c :: t -> c = 45 \/ is_digit c = true ->
  post (fun r => advance p (snd r) /\ type (fst r) = cJSON_Number /\ kept item (fst r)) (unsafe p)
    (parse_number item p).
Proof.
  intros E Hc. unfold parse_number.
  apply (post_opt (fun c => c =? 45)); [done|done|]. intros c1 t1 p1 E1 H1.
  assert (R1 : reach p p1) by (destruct (c1 =? 45); [apply H1|subst; apply reach_refl]).
  post_step. eapply post_mono; [apply parse_whole_post| |by apply unsafe_reach].
  intros [n p2] [R2 A2]. cbn [snd] in *.
  assert (A : advance p p2).
  { destruct (Z.eqb_spec c1 45) as [F|F]; [by eapply advance_trans_l|].
    subst p1. apply (A2 _ _ E). destruct Hc as [-> |Hc]; [congruence|done]. }
  post_step. eapply post_mono; [apply parse_fraction_post| |by apply unsafe_reach, A].
  intros [[n' k] p3] R3. cbn [snd] in *. pose proof (advance_trans_l _ _ _ A R3) as A3.
  post_step. eapply post_mono; [apply parse_exponent_post| |by apply unsafe_reach, A3].
  intros [e p4] R4. cbn [snd] in *. cbn [post fst snd type]. split; [by eapply advance_trans_l|done].
Qed.

(** ** Strings stay in their block *)
Lemma hex_range c : is_hex c = true -> c <> 0 /\ c <> 34 /\ c <> 92.
Proof.
  unfold is_hex. rewrite bool_decide_eq_true. intros H.
  split_and!; intros ->; by apply is_Some_None in H.
Qed.

Lemma parse_hex_post k : forall h p, post (fun _ => True) (unsafe p) (parse_hex k h p).
Proof.
  induction k as [|k IH]; intros h p; cbn [parse_hex]; [done|].
  post_step. post_step; [|by apply unsafe_nil]. apply lookup_head in H as [q ->].
  destruct (hex_value x) as [v|] eqn:E; [|done].
  post_step. post_step; [|cbn in *; lia]. rewrite skipn_cons, drop_0.
  eapply post_mono; [apply IH|done|]. apply unsafe_reach, advance_reach, advance_cons.
  apply hex_range. unfold is_hex. rewrite E. by apply bool_decide_eq_true.
Qed.

Lemma hex_run q : text_ok (92 :: 117 :: q) = true ->
  exists h r, q = h ++ r /\ length h = 4%nat /\ Forall (fun c => is_hex c = true) h /\ text_ok r = true.
Proof.
  intros H. destruct (text_ok_cons _ _ H) as [H1 H2]; [done|].
  destruct (text_ok_cons _ _ H1) as [H3 _]; [done|].
  change (((4 <=? length (take 4 q))%nat && forallb is_hex (take 4 q)) = true) in H2.
  apply andb_true_iff in H2 as [Hl Hh]. apply Nat.leb_le in Hl. rewrite forallb_forall in Hh.
  assert (Hf : Forall (fun c => is_hex c = true) (take 4 q)) by (by apply List.Forall_forall).
  exists (take 4 q), (drop 4 q). split_and!.
  - by rewrite take_drop.
  - rewrite length_take in *. lia.
  - done.
  - apply text_ok_drop; [done|]. eapply Forall_impl; [exact Hf|]. intros c Hc. by apply hex_range.
Qed.

Lemma utf8_bytes uc : bytes (utf8 uc) /\ zlen (utf8 uc) <= 4.
Proof.
  assert (Ht : forall x, is_byte (utf8_tail x)).
  { intros x. unfold utf8_tail. change 191 with (Z.land 255 191).
    rewrite Z.land_assoc, (land_mask _ 255 8) by done.
    assert (H := forall_byte (fun b => bool_decide (is_byte (Z.land b 191))) ltac:(by vm_compute)
      (Z.lor x 128 `mod` 2 ^ 8) (Z.mod_pos_bound (Z.lor x 128) (2 ^ 8) eq_refl)).
    by apply bool_decide_eq_true in H. }
  unfold utf8. repeat (destruct (_ <? _)); (split; [|by vm_compute]);
    repeat (constructor; [first [apply Ht|apply u8_range]|]); constructor.
Qed.

(** [\uXXXX] is left at its last digit, where [t] starts, or at that of its
    second half. *)
Definition at_digit (t : ptr) (o : list Z * ptr) : Prop :=
  bytes (fst o) /\ zlen (fst o) <= 4 /\
  (snd o = t \/ exists c h t', t = c :: 92 :: 117 :: h ++ t' /\ length h = 3%nat /\ snd o = t').

Lemma parse_surrogate_post uc c r :
  post (at_digit (c :: r)) (unsafe r) (parse_surrogate uc (c :: r)).
Proof.
  assert (Hd : at_digit (c :: r) ([], c :: r)) by (split_and!; [constructor|done|by left]).
  unfold parse_surrogate. post_step. post_step; [|by destruct r].
  post_step; [done|]. apply negb_false_iff, Z.eqb_eq in Heqb as ->.
  destruct r as [|a r]; [done|]. injection H as ->.
  post_step. post_step; [|by destruct r].
  post_step; [done|]. apply negb_false_iff, Z.eqb_eq in Heqb as ->.
  destruct r as [|b r]; [done|]. injection H as ->.
  post_step. post_step; [|cbn in *; lia]. cbn [drop] in *. post_step.
  eapply post_mono; [apply parse_hex_post| |].
  2: { by apply unsafe_reach; eapply reach_trans; apply advance_reach, advance_cons. }
  intros uc2 _. post_step. post_step.
  2: { intros Hok. destruct (hex_run _ Hok) as (h & t & -> & Hl & _). cbn [length] in *.
       rewrite length_app in *. lia. }
  assert (Hs : forall o, bytes o -> zlen o <= 4 -> at_digit (c :: 92 :: 117 :: r) (o, drop 6 (c :: 92 :: 117 :: r))).
  { intros o Hb Hl. split_and!; [done|done|right]. exists c, (take 3 r), (drop 3 r).
    rewrite take_drop, length_take. cbn [length] in *. split_and!; [done|lia|done]. }
  post_step; apply Hs; try done; apply utf8_bytes.
Qed.

Lemma parse_u_post q :
  post (fun o => exists h t, q = h ++ t /\ length h = 3%nat /\ at_digit t o)
    (unsafe (92 :: 117 :: q)) (parse_u (117 :: q)).
Proof.
  unfold parse_u. post_step. post_step; [|cbn in *; lia]. rewrite skipn_cons, drop_0. post_step.
  eapply post_mono; [apply parse_hex_post| |].
  2: { by apply unsafe_reach; eapply reach_trans; apply advance_reach, advance_cons. }
  intros uc _. post_step. post_step.
  2: { intros Hok. destruct (hex_run _ Hok) as (h & r & -> & Hl & _). cbn [length] in *.
       rewrite length_app in *. lia. }
  destruct q as [|h1 [|h2 [|h3 t]]]; try (cbn in *; lia). cbn [drop].
  assert (Hd : forall d, bytes d -> zlen d <= 4 ->
    exists h t', h1 :: h2 :: h3 :: t = h ++ t' /\ length h = 3%nat /\ at_digit t' (d, t)).
  { intros d Hb Hl. exists [h1; h2; h3], t. split_and!; [done..|split_and!; auto]. }
  post_step; [by apply Hd|]. post_step; [|by apply Hd; apply utf8_bytes].
  assert (Hok : text_ok (92 :: 117 :: h1 :: h2 :: h3 :: t) = true -> exists c r, t = c :: r /\ text_ok r = true).
  { intros Hok. destruct (hex_run _ Hok) as (h & r & E & Hl & _ & Hr).
    destruct h as [|? [|? [|? [|? [|]]]]]; try done. injection E as -> -> -> ->. eauto. }
  destruct t as [|c r]; [by intros Ht; destruct (Hok Ht) as (? & ? & ? & ?)|].
  eapply post_mono; [apply parse_surrogate_post| |].
  - intros o Ho. by exists [h1; h2; h3], (c :: r).
  - intros Hu Ht. destruct (Hok Ht) as (? & ? & [= -> ->] & ?). auto.
Qed.

(** The first loop counted at least the bytes [d] that the second stores
    between [p] and [q]. *)
Definition counted (d : list Z) (p q : ptr) : Prop :=
  text_ok p = true ->
  forall n, count_chars p = Ok n -> exists n', count_chars q = Ok n' /\ zlen d + n' <= n.

Lemma count_bind (m : res Z) n : (x ← m; Ok (1 + x)) = Ok n -> m = Ok (n - 1).
Proof. destruct m; [|done..]. cbn. intros [= <-]. f_equal. lia. Qed.

Lemma count_escape e q n : count_chars (92 :: e :: q) = Ok n -> count_chars q = Ok (n - 1).
Proof. apply count_bind. Qed.

Lemma count_plain c q n :
  c <> 0 -> c <> 34 -> c <> 92 -> count_chars (c :: q) = Ok n -> count_chars q = Ok (n - 1).
Proof.
  intros H1 H2 H3. cbn [count_chars]. apply Z.eqb_neq in H1, H2, H3. rewrite H1, H2, H3. apply count_bind.
Qed.

Lemma count_hex h q : Forall (fun c => is_hex c = true) h -> forall n,
  count_chars (h ++ q) = Ok n -> count_chars q = Ok (n - zlen h).
Proof.
  induction 1 as [|c h Hc H IH]; intros n Hn; [by rewrite zlen_nil, Z.sub_0_r|].
  destruct (hex_range c Hc) as (? & ? & ?). apply count_plain in Hn; [|done..].
  apply IH in Hn. rewrite Hn, zlen_cons. f_equal. lia.
Qed.

(** Going over [\uXXXX]. *)
Lemma pass_u h c t :
  length h = 3%nat ->
  advance (92 :: 117 :: h ++ c :: t) t /\
  forall d, zlen d <= 5 -> counted d (92 :: 117 :: h ++ c :: t) t.
Proof.
  intros Hl.
  assert (Hx : text_ok (92 :: 117 :: h ++ c :: t) = true ->
            Forall (fun c => is_hex c = true) (h ++ [c]) /\ text_ok t = true).
  { intros Hok. destruct (hex_run _ Hok) as (h' & r & E & Hl' & Hh & Hr).
    rewrite (cons_middle c), app_assoc in E. apply app_inj_1 in E as [-> ->]; [done|].
    rewrite length_app. cbn. lia. }
  split; [split; [split_and!|]|].
  - cbn [length]. rewrite length_app. cbn [length]. lia.
  - apply Hx.
  - intros Hb. rewrite !Forall_cons, Forall_app, Forall_cons in Hb. tauto.
  - cbn [length]. rewrite length_app. cbn [length]. lia.
  - intros d Hd Hok n Hn. destruct (Hx Hok) as [Hh _]. apply count_escape in Hn.
    rewrite (cons_middle c), app_assoc in Hn. apply (count_hex _ _ Hh) in Hn.
    exists (n - 1 - zlen (h ++ [c])). split; [done|].
    rewrite zlen_app. unfold zlen at 2. rewrite Hl. change (zlen [c]) with 1. lia.
Qed.

Lemma counted_trans d p q r :
  advance p q -> counted d p q -> counted [] q r -> counted d p r.
Proof.
  intros Hp H1 H2 Hok n Hn. destruct (H1 Hok n Hn) as (n1 & Hn1 & Hle).
  destruct (H2 (proj1 (proj2 (proj1 Hp)) Hok) n1 Hn1) as (n2 & Hn2 & Hle2). exists n2.
  split; [done|]. rewrite zlen_nil in Hle2. lia.
Qed.

Definition char_post (p : ptr) (o : list Z * ptr) : Prop :=
  advance p (snd o) /\ (bytes p -> bytes (fst o)) /\ counted (fst o) p (snd o).

Lemma parse_char_u_post q :
  post (char_post (92 :: 117 :: q)) (unsafe (92 :: 117 :: q))
    ('(d, p) ← parse_u (117 :: q); p ← adv p 1; Ok (d, p)).
Proof.
  post_step. eapply post_mono; [apply parse_u_post| |done].
  intros [d p] (h & t & -> & Hl & Hb & Hd & Hp). cbn [fst snd] in *. post_step. post_step.
  - cbn [post]. destruct Hp as [-> |(c & h' & t' & -> & Hl' & ->)].
    + destruct t as [|c t]; [cbn in *; lia|]. rewrite skipn_cons, drop_0.
      destruct (pass_u h c t Hl) as [H1 H2]. split_and!; [done|done|apply H2; cbn [fst]; lia].
    + destruct t' as [|c' t']; [cbn in *; lia|]. rewrite skipn_cons, drop_0. cbn [app].
      destruct (pass_u h c (92 :: 117 :: h' ++ c' :: t') Hl) as [H1 H2].
      destruct (pass_u h' c' t' Hl') as [H3 H4]. split_and!.
      * eapply advance_trans_l; [done|apply H3].
      * done.
      * eapply counted_trans; [exact H1|apply H2; cbn [fst]; lia|by apply H4].
  - intros Hok. destruct p; [|cbn in *; lia]. destruct Hp as [<- |(c & h' & t' & -> & Hl' & <-)].
    + destruct (hex_run _ Hok) as (h1 & r & E & Hl1 & _). rewrite app_nil_r in E. subst h.
      rewrite length_app in Hl. lia.
    + destruct (pass_u h c (92 :: 117 :: h' ++ []) Hl) as [H1 _].
      apply H1 in Hok. destruct (hex_run _ Hok) as (h1 & r & E & Hl1 & _). rewrite app_nil_r in E. subst h'.
      rewrite length_app in Hl'. lia.
Qed.

Lemma parse_char_post c q : c <> 0 -> c <> 34 ->
  post (char_post (c :: q)) (unsafe (c :: q)) (parse_char (c :: q)).
Proof.
  intros H0 H34. unfold parse_char. post_step. post_step; [|done]. injection H as <-.
  pose proof (advance_cons c q H0) as Ha. post_step.
  - post_step. post_step; [|cbn in *; lia]. rewrite skipn_cons, drop_0. cbn [post].
    apply negb_true_iff, Z.eqb_neq in Heqb. split_and!; [done|..]; cbn [fst snd].
    + intros [Hc _]%Forall_cons. by constructor.
    + intros _ n Hn. exists (n - 1). split; [by apply (count_plain c)|]. change (zlen [c]) with 1. lia.
  - apply negb_false_iff, Z.eqb_eq in Heqb as ->.
    post_step. post_step; [|cbn in *; lia]. rewrite skipn_cons, drop_0.
    post_step. post_step; [|by eapply unsafe_reach; [apply Ha|apply unsafe_nil]].
    destruct q as [|e t]; [done|]. injection H1 as ->.
    assert (He : forall y, (bytes (92 :: x :: t) -> is_byte y) ->
      post (char_post (92 :: x :: t)) (unsafe (92 :: x :: t)) (p ← adv (x :: t) 1; Ok ([y], p))).
    { intros y Hy. post_step. post_step; [|cbn in *; lia]. rewrite skipn_cons, drop_0. cbn [post].
      split_and!; cbn [fst snd].
      - split; [split_and!|]; cbn [length]; try lia.
        + intros Hok. destruct (text_ok_cons _ _ Hok) as [Hx Hs]; [done|].
          apply text_ok_cons in Hx; [apply Hx|]. intros ->. done.
        + by intros [_ [_ Hb]%Forall_cons]%Forall_cons.
      - intros Hb. constructor; [auto|constructor].
      - intros _ n Hn. exists (n - 1). split; [by apply (count_escape x)|]. change (zlen [y]) with 1. lia. }
    post_step. repeat (post_step; [by apply He|]). post_step.
    + apply Z.eqb_eq in Heqb4 as ->. apply post_unbind, parse_char_u_post.
    + apply He. by intros [_ [Hx _]%Forall_cons]%Forall_cons.
Qed.

Lemma count_chars_post k : forall p, (length p <= k)%nat ->
  post (fun n => 0 <= n) (unsafe p) (count_chars p).
Proof.
  induction k as [|k IH]; intros [|c p] Hk; try done; [cbn in Hk; lia|]. cbn [length] in Hk.
  cbn [count_chars]. destruct (Z.eqb_spec c 34); [done|]. destruct (Z.eqb_spec c 0); [done|]. cbn [orb].
  destruct (Z.eqb_spec c 92) as [-> |].
  - destruct p as [|e p]; [done|]. cbn [length] in Hk. post_step.
    eapply post_mono; [apply IH; lia|cbn; lia|]. intros Hu Hok.
    destruct (text_ok_cons _ _ Hok) as [Hx Hs]; [done|].
    apply text_ok_cons in Hx as [Hx _]; [by apply Hu|]. by intros ->.
  - post_step. eapply post_mono; [apply IH; lia|cbn; lia|]. by apply unsafe_reach, advance_reach, advance_cons.
Qed.

Definition fits (w : writer) (p : ptr) : Prop :=
  exists n, count_chars p = Ok n /\ zlen (text w) + n < cap w.

(** The state after the second loop: at the end of the string. *)
Record string_read (p : ptr) (w : writer) (r : writer * ptr) : Prop := {
  read_reach : reach p (snd r);
  read_end : exists c t, snd r = c :: t /\ (c = 34 \/ c = 0);
  read_cap : cap (fst r) = cap w;
  read_bytes : bytes p -> bytes (text w) -> bytes (text (fst r));
  read_fits : text_ok p = true -> fits w p -> zlen (text (fst r)) < cap w
}.

Lemma parse_chars_post fuel : forall p w, (length p < fuel)%nat ->
  post (string_read p w) (text_ok p = true -> fits w p -> False) (parse_chars fuel p w).
Proof.
  induction fuel as [|fuel IH]; intros p w Hf; [lia|]. cbn [parse_chars].
  post_step. post_step; [|by intros Hok; apply unsafe_nil in Hok].
  apply lookup_head in H as [q ->]. post_step.
  - apply orb_true_iff in Heqb as [E|E]; apply Z.eqb_eq in E; subst x; split; cbn [fst snd]; try done;
      try (by apply reach_refl); eauto; intros Ht (n & Hn & Hle);
      injection Hn as <-; lia.
  - apply orb_false_iff in Heqb as [E1 E2]. apply Z.eqb_neq in E1, E2.
    post_step. eapply post_mono; [by apply parse_char_post| |by intros Hu Hok _; apply Hu].
    intros [d q'] (Ha & Hb & Hc). cbn [fst snd] in *. post_step.
    assert (Hfit : text_ok (x :: q) = true -> fits w (x :: q) ->
      zlen (text w) + zlen d < cap w /\ fits (Writer (cap w) (text w ++ d)) q').
    { intros Hok (n & Hn & Hle). destruct (Hc Hok n Hn) as (n' & Hn' & Hle').
      pose proof (count_chars_post _ q' (le_n _)) as Hp. rewrite Hn' in Hp. cbn [post] in Hp.
      split; [lia|]. exists n'. cbn [text cap]. rewrite zlen_app. split; [done|lia]. }
    post_step.
    + unfold put in H. destruct (Z.leb_spec (zlen (text w) + zlen d) (cap w)); [|done].
      injection H as <-. eapply post_mono; [apply IH; destruct Ha; lia| |].
      * intros [w' r] [R1 R2 R3 R4 R5]. cbn [fst snd text cap] in *. split; cbn [fst snd]; try done.
        -- eapply reach_trans; [by apply advance_reach|done].
        -- intros Hp Hw. apply R4; [by apply Ha|]. apply Forall_app. auto.
        -- intros Hok Hw. apply R5; [by apply Ha|]. by apply Hfit.
      * intros Hu Hok Hw. apply Hu; [by apply Ha|by apply Hfit].
    + intros Hok Hw. destruct (Hfit Hok Hw) as [Hle _]. unfold put in H.
      destruct (Z.leb_spec (zlen (text w) + zlen d) (cap w)); [done|lia].
Qed.

Lemma buf_cstr_zero t : exists s, buf_cstr (t ++ [0]) = Some s /\ (bytes t -> cstring s).
Proof.
  induction t as [|c t (s & IH & Hs)]; [by exists []|]. cbn [app buf_cstr].
  destruct (Z.eqb_spec c 0); [by exists []|]. rewrite IH. exists (c :: s). split; [done|].
  intros [Hc Ht]%Forall_cons. constructor; [|auto]. unfold is_byte, is_cchar in *. lia.
Qed.

Definition string_item (c : node) : Prop :=
  type c = cJSON_String /\ exists s, valuestring c = Some s /\ cstring s.

Lemma parse_string_post (item : node) p :
  post (fun r => advance p (snd r) /\ (bytes p -> string_item (fst r)) /\ kept item (fst r)) (unsafe p)
    (parse_string mem item p).
Proof.
  unfold parse_string. post_step. post_step; [|by apply unsafe_nil].
  apply lookup_head in H as [q ->]. post_step; [done|]. apply negb_false_iff, Z.eqb_eq in Heqb as ->.
  post_step. post_step; [|cbn in *; lia]. rewrite skipn_cons, drop_0.
  assert (Ha : advance (34 :: q) q) by by apply advance_cons.
  pose proof (count_chars_post _ q (le_n _)) as Hp.
  destruct (count_chars q) as [len| | |] eqn:El; cbn [post mbind res_bind] in *;
    [|done|by apply (unsafe_reach _ q); [apply Ha|]|done].
  post_step; [done|]. post_step.
  assert (Hfit : fits (Writer (len + 1) []) q).
  { exists len. split; [done|]. cbn [text cap]. rewrite zlen_nil. lia. }
  eapply post_mono; [apply parse_chars_post; lia| |].
  2: { intros Hu Hok. apply Hu; [by apply Ha|done]. }
  intros [w r] [R1 (c & t & Hr & Hc) R3 R4 R5]. cbn [fst snd cap] in *. subst r. post_step. post_step.
  2: { intros Hok. apply (proj2 (proj1 Ha)) in Hok. specialize (R5 Hok Hfit). unfold put in H0.
       rewrite R3 in H0. change (zlen [0]) with 1 in H0.
       destruct (Z.leb_spec (zlen (text w) + 1) (len + 1)); [done|lia]. }
  unfold put in H0. destruct (_ <=? _); [|done]. injection H0 as <-. cbn [text].
  destruct (buf_cstr_zero (text w)) as (s & -> & Hs).
  post_step. post_step; [|done]. injection H0 as <-. post_step. post_step.
  2: { destruct (c =? 34); cbn in *; lia. }
  cbn [defined mbind res_bind post fst snd]. split_and!.
  - eapply advance_trans_l; [exact Ha|]. eapply reach_trans; [exact R1|].
    destruct (Z.eqb_spec c 34) as [-> |]; [|apply reach_refl].
    rewrite skipn_cons, drop_0. by apply advance_reach, advance_cons.
  - intros Hb. split; [done|]. exists s. split; [done|]. apply Hs, R4; [by apply Ha|constructor].
  - done.
Qed.

(** ** Values: the parser ends, stays in the text and builds a tree *)
Lemma well_typed_item (c : node) :
  child c = [] -> 0 <= type c <= 6 ->
  (type c = cJSON_String -> exists s, valuestring c = Some s /\ cstring s) -> well_typed c.
Proof.
  intros Hc Ht Hs. rewrite well_typed_unfold, Hc. cbv zeta.
  assert (E : Z.land (type c) 255 = type c)
    by (change 255 with (Z.ones 8); rewrite Z.land_ones, Z.mod_small; lia).
  rewrite E. split; [done|]. split; [done|]. by split.
Qed.

(** What is read between [p] and the returned pointer. *)
Definition reads {A} (W : A -> Prop) (p : ptr) (r : A * ptr) : Prop :=
  advance p (snd r) /\ (bytes p -> W (fst r)).

Definition value_of (item c : node) : Prop := well_typed c /\ string c = string item.

Lemma head_post {A} (Q : A -> Prop) p (K : Z -> res A) :
  (forall c t, p = c :: t -> post Q (unsafe p) (K c)) -> post Q (unsafe p) (c ← rd p 0; K c).
Proof.
  intros H. post_step. post_step; [|by apply unsafe_nil]. destruct (lookup_head _ _ H0) as [q E].
  by apply (H x q).
Qed.

Lemma next_post {A} (Q : A -> Prop) u c p (K : ptr -> res A) :
  post Q u (K p) -> post Q u (p ← adv (c :: p) 1; K p).
Proof. intros H. post_step. post_step; [|cbn in *; lia]. by rewrite skipn_cons, drop_0. Qed.

Lemma skip_then {A} (Q : A -> Prop) p (K : ptr -> res A) :
  (forall q, reach p q -> post Q (unsafe p) (K q)) -> post Q (unsafe p) (q ← skip p; K q).
Proof. intros H. post_step. eapply post_mono; [apply skip_post| |done]. done. Qed.

Section Elements.
Context (pv : node -> ptr -> res (node * ptr)) (n : nat).
Hypothesis pv_post : forall item q, (length q < n)%nat -> child item = [] ->
  post (reads (value_of item) q) (unsafe q) (pv item q).

(** A value and the blanks behind it, in a text that started at [p]. *)
Lemma value_then p q item (W : node -> Prop) :
  reach p q -> (length q < n)%nat -> child item = [] ->
  (forall c, value_of item c -> (bytes p -> W c)) ->
  post (reads W p) (unsafe p) ('(c, q) ← pv item q; q ← skip q; Ok (c, q)).
Proof.
  intros Hr Hn Hi HW. post_step. eapply post_mono; [by apply pv_post| |by apply unsafe_reach].
  intros [c r] [Ha Hc]. cbn [fst snd] in *. pose proof (advance_trans_r _ _ _ Hr Ha) as Ha'.
  post_step. eapply post_mono; [apply skip_post| |by apply unsafe_reach, Ha'].
  intros r' Hr'. split; [by eapply advance_trans_l|]. cbn [fst]. intros Hb. apply HW; [|done].
  apply Hc. by apply Hr.
Qed.

Lemma parse_element_post p : (length p < n)%nat ->
  post (reads well_typed p) (unsafe p) (parse_element mem pv p).
Proof.
  intros Hn. unfold parse_element, new_item. post_step. post_step; [|done]. cbn [post].
  apply skip_then. intros q Hq. apply value_then; [done|destruct Hq; lia|done|]. by intros c [].
Qed.

Definition field_ok (c : node) : Prop := well_typed c /\ named c.

Lemma parse_field_post p : (length p < n)%nat ->
  post (reads field_ok p) (unsafe p) (parse_field mem pv p).
Proof.
  intros Hn. unfold parse_field, new_item. post_step. post_step; [|done]. cbn [post].
  apply skip_then. intros q Hq. post_step.
  eapply post_mono; [apply parse_string_post| |by apply unsafe_reach].
  intros [c r] (Ha & Hs & Hk). cbn [fst snd] in *. pose proof (advance_trans_r _ _ _ Hq Ha) as Hr.
  post_step. eapply post_mono; [apply skip_post| |by apply unsafe_reach, Hr].
  intros r1 Hr1. pose proof (advance_trans_l _ _ _ Hr Hr1) as Ha1. cbv zeta.
  post_step. post_step; [|by eapply unsafe_reach; [apply Ha1|apply unsafe_nil]].
  apply lookup_head in H as [r2 ->]. post_step; [done|]. apply negb_false_iff, Z.eqb_eq in Heqb0 as ->.
  apply next_post. assert (Hr2 : reach p r2).
  { eapply reach_trans; [apply Ha1|]. by apply advance_reach, advance_cons. }
  assert (Hl : (length r2 < length p)%nat) by (destruct Ha1; cbn [length] in *; lia).
  post_step. eapply post_mono; [apply skip_post| |by apply unsafe_reach].
  intros r3 Hr3. apply value_then.
  - by eapply reach_trans.
  - destruct Hr3; lia.
  - apply Hk.
  - intros c' [Hw Hst] Hb. split; [done|]. cbn [name_item string] in Hst.
    destruct (Hs (proj2 (proj2 Hq) Hb)) as (_ & s & Hvs & Hcs). exists s. by rewrite Hst, Hvs.
Qed.

Context (one : ptr -> res (node * ptr)) (W : node -> Prop).
Hypothesis one_post : forall q, (length q < n)%nat -> post (reads W q) (unsafe q) (one q).

Lemma parse_more_post close fuel : close <> 0 -> forall p, (length p < fuel)%nat -> (length p < n)%nat ->
  post (reads (Forall W) p) (unsafe p) (parse_more one close fuel p).
Proof.
  intros Hz. induction fuel as [|fuel IH]; intros p Hf Hn; [lia|]. cbn [parse_more].
  apply head_post. intros c q ->. cbn [length] in *. destruct (Z.eqb_spec c 44) as [-> |].
  - apply next_post. post_step. assert (Ha : advance (44 :: q) q) by by apply advance_cons.
    eapply post_mono; [apply one_post; lia| |by apply unsafe_reach, Ha].
    intros [c r] [Hr Hc]. cbn [fst snd] in *. pose proof (advance_trans_r _ _ _ (proj1 Ha) Hr) as Hr'.
    post_step. eapply post_mono; [apply IH; destruct Hr; lia| |by apply unsafe_reach, Hr'].
    intros [l r2] [Hr2 Hl]. cbn [fst snd] in *. split; [by eapply advance_trans_l, advance_reach|].
    intros Hb. constructor; [apply Hc; by apply Ha|apply Hl; by apply Hr'].
  - destruct (Z.eqb_spec c close) as [-> |]; [|done]. apply next_post. split; [|constructor].
    by apply advance_cons.
Qed.

Lemma parse_list_post open close t (item : node) p :
  open <> 0 -> close <> 0 -> (length p <= n)%nat ->
  post (reads (fun c => string c = string item /\ type c = t /\
                        (child c = child item \/ Forall W (child c))) p)
    (unsafe p) (parse_list one open close t item p).
Proof.
  intros Ho Hz Hn. unfold parse_list. apply head_post. intros c q ->. cbn [length] in *.
  post_step; [done|]. apply negb_false_iff, Z.eqb_eq in Heqb as ->. apply next_post.
  assert (Ha : advance (open :: q) q) by by apply advance_cons.
  post_step. eapply post_mono; [apply skip_post| |by apply unsafe_reach, Ha].
  intros r Hr. pose proof (advance_trans_l _ _ _ Ha Hr) as Hr'.
  post_step. post_step; [|by eapply unsafe_reach; [apply Hr'|apply unsafe_nil]].
  apply lookup_head in H as [r2 E]. destruct (Z.eqb_spec x close) as [-> |].
  - subst r. apply next_post. split; [|by auto]. eapply advance_trans_l; [done|].
    by apply advance_reach, advance_cons.
  - post_step. eapply post_mono; [apply one_post; destruct Hr; lia| |by apply unsafe_reach, Hr'].
    intros [c r3] [Hr3 Hc]. cbn [fst snd] in *. pose proof (advance_trans_l _ _ _ Hr' (proj1 Hr3)) as Hr4.
    post_step. eapply post_mono; [apply parse_more_post; [done|lia|destruct Hr, Hr3; lia]| |
      by apply unsafe_reach, Hr4].
    intros [l r5] [Hr5 Hl]. cbn [fst snd] in *. split; [by eapply advance_trans_l, advance_reach|].
    intros Hb. split; [done|]. split; [done|]. right. constructor; [apply Hc; by apply Hr'|apply Hl; by apply Hr4].
Qed.
End Elements.

Lemma literal_post {A} (Q : A -> Prop) lit p (K1 : ptr -> res A) (K2 : res A) :
  Forall (fun c => c <> 0) lit -> (0 < length lit)%nat ->
  (forall q, advance p q -> post Q (unsafe p) (K1 q)) -> post Q (unsafe p) K2 ->
  post Q (unsafe p) (b ← starts lit p; if (b : bool) then q ← adv p (length lit); K1 q else K2).
Proof.
  intros Hl Hn H1 H2. post_step. eapply post_mono; [by apply starts_post| |done].
  intros [] Hb; [|done]. destruct (Hb eq_refl) as [q ->]. post_step. post_step; [|rewrite length_app in *; lia].
  apply H1. rewrite drop_app_length. split; [|rewrite length_app; lia]. split_and!.
  - rewrite length_app. lia.
  - intros Hok. apply (text_ok_drop (length lit)) in Hok; [by rewrite drop_app_length in Hok|].
    by rewrite take_app_length.
  - by intros [_ Hb']%Forall_app.
Qed.

Lemma well_typed_list (c : node) (W : node -> Prop) :
  (forall x, W x -> well_typed x) -> type c = cJSON_Array \/ type c = cJSON_Object /\ (forall x, W x -> named x) ->
  child c = [] \/ Forall W (child c) -> well_typed c.
Proof.
  intros HW Ht Hc. assert (Hf : Forall W (child c)) by (destruct Hc as [-> |]; [constructor|done]).
  rewrite well_typed_unfold. cbv zeta. destruct Ht as [-> |[-> Hn]]; (split; [done|]; split; [done|]; split).
  - done.
  - by eapply Forall_impl.
  - intros _. by eapply Forall_impl.
  - by eapply Forall_impl.
Qed.

Lemma parse_value_post fuel : forall (item : node) p, (length p < fuel)%nat -> child item = [] ->
  post (reads (value_of item) p) (unsafe p) (parse_value mem fuel item p).
Proof.
  induction fuel as [|fuel IH]; intros item p Hf Hi; [lia|]. cbn [parse_value].
  apply literal_post; [by_decide|cbn; lia|intros q Hq; split; [done|]; intros _; split; [by apply well_typed_item|done]|].
  apply literal_post; [by_decide|cbn; lia|intros q Hq; split; [done|]; intros _; split; [by apply well_typed_item|done]|].
  apply literal_post; [by_decide|cbn; lia|intros q Hq; split; [done|]; intros _; split; [by apply well_typed_item|done]|].
  apply head_post. intros c q E. subst p. cbn [length] in Hf.
  destruct (Z.eqb_spec c 34) as [-> |].
  { eapply post_mono; [apply parse_string_post| |done]. intros [c r] (Ha & Hs & Hk1 & Hk2).
    split; [done|]. intros Hb. split; [|done]. destruct (Hs Hb) as (Ht & Hv).
    cbn [fst] in *. apply well_typed_item; [congruence|by rewrite Ht|done]. }
  destruct (_ || _) eqn:En.
  { eapply post_mono; [eapply parse_number_post; [done|]| |done].
    - apply orb_true_iff in En as [En|En]; [left; by apply Z.eqb_eq|by right].
    - intros [c' r] (Ha & Ht & Hk1 & Hk2). split; [done|]. intros _. split; [|done].
      cbn [fst] in *. apply well_typed_item; [congruence|by rewrite Ht|by rewrite Ht]. }
  assert (Hpv : forall i q', (length q' < S (length q))%nat -> child i = [] ->
            post (reads (value_of i) q') (unsafe q') (parse_value mem fuel i q')) by (intros; apply IH; [lia|done]).
  destruct (Z.eqb_spec c 91) as [-> |].
  { eapply post_mono; [apply (parse_list_post (S (length q)) _ well_typed);
      [by apply parse_element_post|done|done|cbn; lia]| |done].
    intros [c r] [Ha Hc]. split; [done|]. intros Hb. destruct (Hc Hb) as (Hs & Ht & Hch). split; [|done].
    rewrite Hi in Hch. apply (well_typed_list _ well_typed); auto. }
  destruct (Z.eqb_spec c 123) as [-> |]; [|done].
  eapply post_mono; [apply (parse_list_post (S (length q)) _ field_ok);
    [by apply parse_field_post|done|done|cbn; lia]| |done].
  intros [c r] [Ha Hc]. split; [done|]. intros Hb. destruct (Hc Hb) as (Hs & Ht & Hch). split; [|done].
  rewrite Hi in Hch. apply (well_typed_list _ field_ok); [by intros ? []|right|done].
  split; [done|by intros ? []].
Qed.

Lemma cJSON_ParseWithOpts_post p require :
  post (fun r => bytes p -> well_typed (fst r)) (unsafe p) (cJSON_ParseWithOpts mem p require).
Proof.
  unfold cJSON_ParseWithOpts, new_item. post_step. post_step; [|done]. cbn [post].
  apply skip_then. intros q Hq. post_step.
  eapply post_mono; [apply parse_value_post; [lia|done]| |by apply unsafe_reach].
  intros [c r] [Ha Hc]. cbn [fst snd] in *. pose proof (advance_trans_r _ _ _ Hq Ha) as Hr.
  assert (Hw : bytes p -> well_typed c) by (intros Hb; apply Hc; by apply Hq).
  destruct require; [|done]. post_step. eapply post_mono; [apply skip_post| |by apply unsafe_reach, Hr].
  intros r' Hr'. post_step. post_step; [by post_step|].
  eapply unsafe_reach; [|by apply unsafe_nil]. eapply reach_trans; [apply Hr|done].
Qed.

Lemma cJSON_Parse_post p :
  post (fun c => bytes p -> well_typed c) (unsafe p) (cJSON_Parse mem p).
Proof.
  unfold cJSON_Parse. post_step. eapply post_mono; [apply cJSON_ParseWithOpts_post| |done].
  by intros [c r].
Qed.
End Facts.

(** ** Reading what was printed *)
(** Case analysis over a character of a concrete list. *)
Ltac each_control H :=
  apply elem_of_cons in H; destruct H as [-> |H]; [|try each_control H].

Section RoundTrip.
Context {D : Type} `{!Double D} `{!DoubleLaws D} (mem : Z -> bool).
Hypothesis enough : forall n, mem n = true.

#[local] Abbreviation node := (@cJSON D).

Definition blank (c : Z) : Prop := 0 < c <= 32.

#[local] Instance blank_dec c : Decision (blank c).
Proof. unfold blank. apply _. Defined.

Lemma skip_blanks ws p : Forall blank ws -> skip (ws ++ p) = skip p.
Proof.
  induction 1 as [|c ws Hc H IH]; [done|]. cbn [app skip]. unfold blank in Hc.
  destruct (Z.eqb_spec c 0); [lia|]. destruct (Z.leb_spec c 32); [done|lia].
Qed.

Lemma skip_char c p : 32 < c -> skip (c :: p) = Ok (c :: p).
Proof.
  intros H. cbn [skip]. destruct (Z.leb_spec c 32); [lia|]. by rewrite andb_false_r.
Qed.

Lemma rd_head c p : rd (c :: p) 0 = Ok c.
Proof. done. Qed.

Lemma adv_cons c p : adv (c :: p) 1 = Ok p.
Proof. unfold adv. cbn [length]. by rewrite skipn_cons, drop_0. Qed.

Lemma adv_app l p : adv (l ++ p) (length l) = Ok p.
Proof.
  unfold adv. rewrite length_app, drop_app_length.
  by destruct (Nat.leb_spec (length l) (length l + length p)); [|lia].
Qed.

Lemma starts_app lit p : starts lit (lit ++ p) = Ok true.
Proof. induction lit as [|l lit IH]; [done|]. cbn [app starts]. by rewrite Z.eqb_refl. Qed.

Lemma starts_other l lit c p : c <> l -> starts (l :: lit) (c :: p) = Ok false.
Proof. intros H. cbn [starts]. by apply Z.eqb_neq in H as ->. Qed.

(** *** Strings *)
Lemma control_char c : is_cchar c -> c < 32 -> c ∈ seqZ 1 31.
Proof. unfold is_cchar. rewrite elem_of_seqZ. lia. Qed.

Lemma escape_cases c : is_cchar c ->
  (escape c = [c] /\ c <> 34 /\ c <> 92) \/ c = 34 \/ c = 92 \/ c ∈ seqZ 1 31.
Proof.
  intros H. destruct (decide (c < 32)); [right; right; right; by apply control_char|].
  destruct (decide (c = 34)); [by auto|]. destruct (decide (c = 92)); [by auto|]. left.
  split; [|done]. unfold escape. apply Z.eqb_neq in n0, n1. rewrite n0, n1.
  by destruct (Z.ltb_spec 31 c); [|lia].
Qed.

Lemma escape_head c : is_cchar c -> exists x t, escape c = x :: t /\ x <> 34 /\ x <> 0.
Proof.
  intros H. destruct (escape_cases c H) as [(-> & H1 & H2)|[-> |[-> |Hc]]]; [|by eauto..|].
  - exists c, []. unfold is_cchar in H. split_and!; [done|done|lia].
  - unfold escape. apply elem_of_seqZ in Hc. destruct (Z.ltb_spec 31 c); [lia|]. by eauto.
Qed.

Lemma parse_char_escape c q : is_cchar c -> parse_char (escape c ++ q) = Ok ([c], q).
Proof.
  intros H. destruct (escape_cases c H) as [(-> & H1 & H2)|[-> |[-> |Hc]]].
  - unfold parse_char. cbn [app]. rewrite rd_head. cbn [mbind res_bind]. apply Z.eqb_neq in H2.
    rewrite H2. cbn [negb]. by rewrite adv_cons.
  - reflexivity.
  - reflexivity.
  - vm_compute in Hc. each_control Hc; try reflexivity. by apply elem_of_nil in Hc.
Qed.

Lemma count_escape_one c q n : is_cchar c -> count_chars q = Ok n ->
  exists n', count_chars (escape c ++ q) = Ok n' /\ n + 1 <= n'.
Proof.
  intros H Hq. destruct (escape_cases c H) as [(-> & H1 & H2)|[-> |[-> |Hc]]].
  - cbn [app count_chars]. apply Z.eqb_neq in H1, H2. rewrite H1, H2. unfold is_cchar in H.
    destruct (Z.eqb_spec c 0); [lia|]. cbn [orb]. rewrite Hq. exists (1 + n). split; [done|lia].
  - cbn. rewrite Hq. exists (1 + n). split; [done|lia].
  - cbn. rewrite Hq. exists (1 + n). split; [done|lia].
  - vm_compute in Hc. each_control Hc; try (cbn; rewrite Hq; eexists; split; [done|lia]).
    by apply elem_of_nil in Hc.
Qed.

Lemma count_escapes s q n : cstring s -> count_chars q = Ok n ->
  exists n', count_chars (concat (map escape s) ++ q) = Ok n' /\ n + zlen s <= n'.
Proof.
  intros Hs Hq. induction Hs as [|c s Hc Hs IH]; [exists n; by rewrite zlen_nil, Z.add_0_r|].
  destruct IH as (n1 & E1 & H1). cbn [map concat]. rewrite <- app_assoc.
  destruct (count_escape_one c _ n1 Hc E1) as (n2 & -> & H2). exists n2.
  rewrite zlen_cons. split; [done|lia].
Qed.

Lemma parse_chars_escapes s q : cstring s -> forall fuel w,
  (length s < fuel)%nat -> zlen (text w) + zlen s <= cap w ->
  parse_chars fuel (concat (map escape s) ++ 34 :: q) w = Ok (Writer (cap w) (text w ++ s), 34 :: q).
Proof.
  induction 1 as [|c s Hc Hs IH]; intros [|fuel] w Hf Hw; try (cbn in Hf; lia).
  - cbn [map concat app parse_chars]. rewrite rd_head. cbn. rewrite app_nil_r. by destruct w.
  - rewrite zlen_cons in Hw. pose proof (zlen_nonneg s). cbn [map concat]. rewrite <- app_assoc.
    destruct (escape_head c Hc) as (x & t & E & Hx & Hx0). cbn [parse_chars].
    replace (rd (escape c ++ concat (map escape s) ++ 34 :: q) 0) with (Ok x) by (by rewrite E).
    cbn [mbind res_bind]. apply Z.eqb_neq in Hx, Hx0. rewrite Hx, Hx0. cbn [orb].
    rewrite parse_char_escape by done. cbn [mbind res_bind].
    rewrite put_ok by (change (zlen [c]) with 1; lia). cbn [defined mbind res_bind].
    rewrite IH; cbn [text cap].
    + by rewrite <- app_assoc.
    + cbn in Hf. lia.
    + rewrite zlen_app. change (zlen [c]) with 1. lia.
Qed.

Lemma escapes_length s : cstring s -> (length s <= length (concat (map escape s)))%nat.
Proof.
  induction 1 as [|c s Hc Hs IH]; [done|]. cbn [map concat length].
  destruct (escape_head c Hc) as (x & t & -> & _). cbn [app length]. rewrite length_app. lia.
Qed.

Lemma parse_string_text (item : node) s q : cstring s ->
  parse_string mem item (str_text s ++ q) =
  Ok (Node cJSON_String (Some s) (valueint item) (valuedouble item) (string item) (child item), q).
Proof.
  intros Hs. unfold str_text. rewrite <- !app_assoc. cbn [app]. unfold parse_string.
  rewrite rd_head. cbn [mbind res_bind]. change (negb (34 =? 34)) with false. cbv iota. rewrite adv_cons.
  cbn [mbind res_bind].
  destruct (count_escapes s (34 :: q) 0 Hs) as (n & -> & Hn); [done|]. cbn [mbind res_bind].
  rewrite enough. cbn [negb].
  rewrite parse_chars_escapes; [|done| |cbn [text cap]; rewrite zlen_nil; lia].
  2: { rewrite length_app. pose proof (escapes_length s Hs). lia. }
  cbn [mbind res_bind text cap app]. rewrite put_ok by (cbn [text cap]; change (zlen [0]) with 1; lia).
  cbn [defined mbind res_bind text cap]. rewrite rd_head. cbn [mbind res_bind].
  change (34 =? 34) with true. cbv iota. rewrite adv_cons. cbn [mbind res_bind].
  by rewrite buf_cstr_app.
Qed.

(** *** Numbers *)
Definition stop (p : ptr) : Prop :=
  exists c t, p = c :: t /\ is_digit c = false /\ c <> 46 /\ c <> 101 /\ c <> 69.

Lemma atoi_digits_ge ds : Forall (fun c => is_digit c = true) ds -> forall k,
  0 <= k -> k <= atoi_digits ds k.
Proof.
  induction 1 as [|c ds Hc H IH]; intros k Hk; [done|]. cbn [atoi_digits]. rewrite Hc.
  unfold is_digit in Hc. apply andb_true_iff in Hc as [H1 H2]. apply Z.leb_le in H1, H2.
  specialize (IH (10 * k + (c - 48)) ltac:(lia)). lia.
Qed.

Lemma scan_stop (n : D) k p : stop p -> scan n k p = Ok (n, k, p).
Proof. intros (c & t & -> & Hd & _). cbn [scan]. by rewrite Hd. Qed.

Lemma scan_digits ds : Forall (fun c => is_digit c = true) ds -> forall k j p,
  0 <= k -> atoi_digits ds k <= 2 ^ 53 -> stop p ->
  exists j', scan (d_of_Z k) j (ds ++ p) = Ok (d_of_Z (atoi_digits ds k), j', p).
Proof.
  induction 1 as [|c ds Hc H IH]; intros k j p Hk Hb Hp; [exists j; by apply scan_stop|].
  cbn [app scan atoi_digits] in *. rewrite Hc in *. pose proof Hc as Hr.
  unfold is_digit in Hr. apply andb_true_iff in Hr as [H1 H2]. apply Z.leb_le in H1, H2.
  pose proof (atoi_digits_ge ds H (10 * k + (c - 48)) ltac:(lia)).
  rewrite digit_exact by lia. apply IH; [lia|done|done].
Qed.

(** A positive number does not start with a zero. *)
Lemma digits_head fuel n : 0 < n < 10 ^ Z.of_nat fuel ->
  exists c ds, digits fuel n [] = c :: ds /\ 49 <= c <= 57.
Proof.
  revert n. induction fuel as [|fuel IH]; intros n Hn; [change (10 ^ Z.of_nat 0) with 1 in Hn; lia|].
  rewrite Nat2Z.inj_succ, Z.pow_succ_r in Hn by lia. cbn [digits].
  pose proof (Z.div_mod n 10 ltac:(lia)). pose proof (Z.mod_pos_bound n 10 ltac:(lia)).
  destruct (Z.eqb_spec (n / 10) 0) as [E|E].
  - exists (digit_char (n `mod` 10)), []. split; [done|]. unfold digit_char. lia.
  - rewrite digits_acc. destruct (IH (n / 10)) as (c & ds & -> & Hc).
    + split; [|apply Z.div_lt_upper_bound; lia]. pose proof (Z.div_pos n 10 ltac:(lia) ltac:(lia)). lia.
    + by eexists c, _.
Qed.

Lemma parse_whole_digits n p : 0 <= n <= 2 ^ 31 -> stop p ->
  parse_whole (digits 10 n [] ++ p) = Ok (d_of_Z (D:=D) n, p).
Proof.
  intros Hn Hp. destruct (decide (n = 0)) as [-> |Hz].
  - change (digits 10 0 []) with [48]. cbn [app]. unfold parse_whole. rewrite rd_head.
    cbn [mbind res_bind]. rewrite adv_cons. cbn [mbind res_bind]. destruct Hp as (c & t & -> & Hd & _).
    rewrite rd_head. cbn [mbind res_bind]. destruct (_ && _) eqn:E; [|done].
    unfold is_digit in Hd. apply andb_true_iff in E as [E1 E2]. apply andb_false_iff in Hd.
    rewrite !Z.leb_le, !Z.leb_gt in *. lia.
  - destruct (digits_head 10 n ltac:(change (10 ^ Z.of_nat 10) with 10000000000; lia)) as (c & ds & E & Hc).
    pose proof (digits_digits 10 n) as Hd.
    pose proof (atoi_digits_digits 10 n ltac:(change (10 ^ Z.of_nat 10) with 10000000000; lia)) as Ha.
    rewrite E in *. unfold parse_whole. cbn [app]. rewrite rd_head. cbn [mbind res_bind].
    destruct (Z.eqb_spec c 48); [lia|]. unfold adv. cbn [Nat.leb]. rewrite drop_0. cbn [mbind res_bind].
    rewrite rd_head. cbn [mbind res_bind].
    destruct (Z.leb_spec 49 c); [|lia]. destruct (Z.leb_spec c 57); [|lia]. cbn [andb].
    destruct (scan_digits (c :: ds) Hd 0 0 p) as [j E']; [lia|lia|done|]. cbn [app] in E'.
    rewrite E'. cbn [mbind res_bind]. by rewrite Ha.
Qed.

Lemma parse_fraction_stop (n : D) p : stop p -> parse_fraction n p = Ok (n, 0, p).
Proof.
  intros (c & t & -> & Hd & H1 & H2 & H3). unfold parse_fraction. rewrite rd_head.
  cbn [mbind res_bind]. by apply Z.eqb_neq in H1 as ->.
Qed.

Lemma parse_exponent_stop p : stop p -> parse_exponent p = Ok (0, p).
Proof.
  intros (c & t & -> & Hd & H1 & H2 & H3). unfold parse_exponent. rewrite rd_head.
  cbn [mbind res_bind]. apply Z.eqb_neq in H2, H3. by rewrite H2, H3.
Qed.

Lemma sprintf_d_head n : exists x t, sprintf_d n = x :: t /\ (x = 45 \/ is_digit x = true).
Proof.
  unfold sprintf_d. destruct (n <? 0); [by eauto|].
  pose proof (digits_digits 10 n) as Hd. pose proof (digits_nonempty 10 n ltac:(lia)) as Hne.
  destruct (digits 10 n []) as [|c ds]; [done|]. apply Forall_cons in Hd as [Hc _]. eauto.
Qed.

Lemma parse_number_text (item : node) n p : is_int n -> stop p ->
  parse_number item (sprintf_d n ++ p) =
  Ok (Node cJSON_Number (valuestring item) n (d_of_Z n) (string item) (child item), p).
Proof.
  unfold is_int. intros Hn Hp. unfold sprintf_d, parse_number.
  assert (Hrest : forall neg k, n = (if neg : bool then - k else k) -> 0 <= k -> (neg = true -> 0 < k) ->
    ('(x, num) ← parse_whole (digits 10 k [] ++ p); '(x, j, num) ← parse_fraction x num;
     '(e, num) ← parse_exponent num;
     let x := d_scale neg x (- j + e) in
     Ok (Node cJSON_Number (valuestring item) (d_to_int x) x (string item) (child item), num)) =
    Ok (Node cJSON_Number (valuestring item) n (d_of_Z n) (string item) (child item), p)).
  { intros neg k Hk H0 Hneg. rewrite parse_whole_digits by (try done; destruct neg; lia).
    cbn [mbind res_bind]. rewrite parse_fraction_stop by done. cbn [mbind res_bind].
    rewrite parse_exponent_stop by done. cbn [mbind res_bind]. cbv zeta. change (- 0 + 0) with 0.
    rewrite scale_exact by (try done; destruct neg; lia). rewrite <- Hk, to_int_exact by lia. done. }
  destruct (Z.ltb_spec n 0).
  - cbn [app]. rewrite rd_head. cbn [mbind res_bind]. change (45 =? 45) with true. cbv iota.
    rewrite adv_cons. cbn [mbind res_bind]. apply (Hrest true (- n)); lia.
  - destruct (digits 10 n [] ++ p) as [|c t] eqn:E.
    + apply app_eq_nil in E as [E _]. exfalso. by eapply (digits_nonempty 10 n); [lia|].
    + rewrite rd_head. cbn [mbind res_bind].
      assert (Hc : is_digit c = true).
      { pose proof (digits_digits 10 n) as Hd. pose proof (digits_nonempty 10 n ltac:(lia)) as Hne.
        destruct (digits 10 n []) as [|c' ds]; [done|]. injection E as -> _. by apply Forall_cons in Hd as [? _]. }
      destruct (Z.eqb_spec c 45) as [-> |]; [done|]. unfold adv. cbn [Nat.leb]. rewrite drop_0.
      cbn [mbind res_bind]. rewrite <- E. apply (Hrest false n); lia.
Qed.

(** *** Arrays and objects *)
Lemma join_length (sep : list Z) ts :
  (0 < length sep)%nat -> (length ts <= S (length (join sep ts)))%nat.
Proof.
  intros Hs. induction ts as [|x [|y ts] IH]; [cbn; lia|cbn; lia|]. rewrite join_cons, !length_app.
  cbn [length] in *. lia.
Qed.

Section Lists.
Context (one : ptr -> res (node * ptr)) (close : Z).

(** The text [t] of an element is read as a node that [P] describes. *)
Definition element (t : list Z) (P : node -> Prop) : Prop :=
  forall before after y r, Forall blank before -> Forall blank after -> y = 44 \/ y = close ->
    exists c, one (before ++ t ++ after ++ y :: r) = Ok (c, y :: r) /\ P c.

Lemma elements_text {V} (R : V -> node -> Prop) pad last rest ts vs :
  close <> 44 -> Forall blank pad -> Forall blank last ->
  Forall2 (fun t v => element t (R v)) ts vs ->
  forall t v before, element t (R v) -> Forall blank before ->
  exists c p, one (before ++ join (44 :: pad) (t :: ts) ++ last ++ close :: rest) = Ok (c, p) /\ R v c /\
    (length ts < length p)%nat /\
    forall fuel, (length ts < fuel)%nat ->
      exists l, parse_more one close fuel p = Ok (l, rest) /\ Forall2 R vs l.
Proof.
  intros Hcl Hpad Hlast H. induction H as [|t2 v2 ts vs H2 H IH]; intros t v before Ht Hb.
  - cbn [join]. destruct (Ht before last close rest) as (c & E & Hc); [done|done|by right|].
    exists c, (close :: rest). split_and!; [done|done|cbn; lia|].
    intros [|fuel] Hf; [cbn in Hf; lia|]. exists []. split; [|constructor]. cbn [parse_more].
    rewrite rd_head. cbn [mbind res_bind]. apply Z.eqb_neq in Hcl. rewrite Hcl, Z.eqb_refl, adv_cons. done.
  - rewrite join_cons, <- !app_assoc. cbn [app].
    destruct (Ht before [] 44 (pad ++ join (44 :: pad) (t2 :: ts) ++ last ++ close :: rest))
      as (c & E & Hc); [done|constructor|by left|].
    destruct (IH t2 v2 pad H2 Hpad) as (c2 & p2 & E2 & Hc2 & Hl2 & Hmore).
    cbn [app] in E. eexists c, _. split; [exact E|]. split; [done|]. split.
    + cbn [length]. rewrite !length_app. cbn [join].
      pose proof (join_length (44 :: pad) (t2 :: ts) ltac:(cbn; lia)) as Hj.
      cbn [length join] in *. lia.
    + intros [|fuel] Hf; [lia|]. cbn [length] in Hf. destruct (Hmore fuel ltac:(lia)) as (l & El & Hl).
      exists (c2 :: l). split; [|by constructor]. cbn [parse_more]. rewrite rd_head. cbn [mbind res_bind].
      change (44 =? 44) with true. cbv iota. rewrite adv_cons. cbn [mbind res_bind]. rewrite E2.
      cbn [mbind res_bind]. rewrite El. done.
Qed.

Lemma list_text {V} (R : V -> node -> Prop) open ty (item : node) before pad last rest ts vs t v :
  close <> 44 -> 32 < close -> Forall blank before -> Forall blank pad -> Forall blank last ->
  (exists x s, t = x :: s /\ 32 < x /\ x <> close) ->
  Forall2 (fun t v => element t (R v)) (t :: ts) (v :: vs) ->
  exists l, parse_list one open close ty item
      (open :: before ++ join (44 :: pad) (t :: ts) ++ last ++ close :: rest) =
    Ok (set_child l (set_type ty item), rest) /\ Forall2 R (v :: vs) l.
Proof.
  intros H44 H32 Hb Hp Hl (x & s & -> & Hx & Hxc) H. apply Forall2_cons in H as [Ht H].
  destruct (elements_text R pad last rest ts vs H44 Hp Hl H _ v [] Ht) as (c & p & E & Hc & Hlen & Hm);
    [constructor|]. cbn [app] in E. destruct (Hm (S (length p)) ltac:(lia)) as (l & El & HR).
  exists (c :: l). split; [|by constructor]. unfold parse_list. rewrite rd_head. cbn [mbind res_bind].
  rewrite Z.eqb_refl. cbn [negb]. rewrite adv_cons. cbn [mbind res_bind]. rewrite skip_blanks by done.
  assert (Hj : exists s', join (44 :: pad) ((x :: s) :: ts) ++ last ++ close :: rest = x :: s').
  { destruct ts; [|rewrite join_cons]; cbn [app join]; eauto. }
  destruct Hj as [s' Hj]. rewrite Hj in *. rewrite skip_char by done. cbn [mbind res_bind].
  rewrite rd_head. cbn [mbind res_bind]. apply Z.eqb_neq in Hxc. rewrite Hxc, E. cbn [mbind res_bind].
  rewrite El. done.
Qed.

Lemma list_text_nil open ty (item : node) before rest :
  32 < close -> Forall blank before ->
  parse_list one open close ty item (open :: before ++ close :: rest) = Ok (set_type ty item, rest).
Proof.
  intros Hc Hb. unfold parse_list. rewrite rd_head. cbn [mbind res_bind]. rewrite Z.eqb_refl. cbn [negb].
  rewrite adv_cons. cbn [mbind res_bind]. rewrite skip_blanks, skip_char by done. cbn [mbind res_bind].
  rewrite rd_head. cbn [mbind res_bind]. by rewrite Z.eqb_refl, adv_cons.
Qed.
End Lists.

Lemma json_text_head fmt depth v :
  json_ok v -> exists c t, json_text fmt depth v = c :: t /\ 32 < c /\ c <> 93 /\ c <> 125.
Proof.
  intros Hv. destruct v as [|b|n|s|l|l]; cbn [json_text].
  - by eexists _, _.
  - destruct b; by eexists _, _.
  - unfold sprintf_d. destruct (Z.ltb_spec n 0); [by eexists _, _|].
    pose proof (digits_digits 10 n) as Hd. pose proof (digits_nonempty 10 n ltac:(lia)) as Hne.
    destruct (digits 10 n []) as [|c ds]; [done|]. apply Forall_cons in Hd as [Hc _].
    unfold is_digit in Hc. apply andb_true_iff in Hc as [H1 H2]. apply Z.leb_le in H1, H2.
    exists c, ds. split_and!; [done|lia..].
  - by eexists _, _.
  - by eexists _, _.
  - by eexists _, _.
Qed.

Definition field_text (fmt : bool) (p : list Z * list Z) : list Z :=
  fst p ++ (if fmt then [58; 9] else [58]) ++ snd p.

(** Between the comma and the next field. *)
Definition field_pad (fmt : bool) (d : Z) : list Z := (if fmt then [10] else []) ++ (if fmt then tabs d else []).

Lemma fields_cons (fmt : bool) d p p2 ps :
  fields fmt d (p :: p2 :: ps) =
  ((if fmt then tabs d else []) ++ field_text fmt p) ++ (44 :: (if fmt then [10] else [])) ++ fields fmt d (p2 :: ps).
Proof.
  destruct p as [n v]. unfold field_text. cbn [fst snd].
  rewrite <- !app_assoc. reflexivity.
Qed.

Lemma fields_join (fmt : bool) d ps : forall p,
  fields fmt d (p :: ps) =
  (if fmt then tabs d else []) ++
  join (44 :: field_pad fmt d) (map (field_text fmt) (p :: ps)) ++ (if fmt then [10] else []).
Proof.
  induction ps as [|p2 ps IH]; intros p.
  - destruct p as [n v]. unfold field_text. cbn [fields map join fst snd].
    rewrite <- !app_assoc. cbn [app]. by rewrite app_nil_r.
  - rewrite fields_cons, IH. cbn [map]. rewrite join_cons. unfold field_pad. cbn [app].
    rewrite <- !app_assoc. cbn [app]. by rewrite <- !app_assoc.
Qed.

Lemma blank_tabs n : Forall blank (tabs n).
Proof. unfold tabs. apply Forall_replicate. unfold blank. lia. Qed.

Lemma blank_pad fmt d : Forall blank (field_pad fmt d).
Proof.
  unfold field_pad. destruct fmt; [|constructor]. apply Forall_app.
  split; [by_decide|apply blank_tabs].
Qed.

(** What follows a value in a text. *)
Lemma stop_after after y r : Forall blank after -> y = 44 \/ y = 93 \/ y = 125 -> stop (after ++ y :: r).
Proof.
  intros H Hy. destruct H as [|c after Hc H]; cbn [app].
  - exists y, r. split; [done|]. destruct Hy as [-> |[-> | ->]]; done.
  - exists c, (after ++ y :: r). split; [done|]. unfold blank in Hc. unfold is_digit.
    split_and!; [|lia..]. destruct (Z.leb_spec 48 c); [lia|done].
Qed.

(** Only a number must be followed by a character that ends it. *)
Definition ended (v : json) (rest : ptr) : Prop :=
  match v with JNum _ => stop rest | _ => True end.

Lemma stop_ended v rest : stop rest -> ended v rest.
Proof. by destruct v. Qed.

Lemma parse_value_head fuel (item : node) c t : c <> 110 -> c <> 102 -> c <> 116 ->
  parse_value mem (S fuel) item (c :: t) =
  if c =? 34 then parse_string mem item (c :: t)
  else if (c =? 45) || is_digit c then parse_number item (c :: t)
  else if c =? 91 then parse_array mem (parse_value mem fuel) item (c :: t)
  else if c =? 123 then parse_object mem (parse_value mem fuel) item (c :: t)
  else Null (Some (c :: t)).
Proof.
  intros H1 H2 H3. cbn [parse_value].
  change (str "null") with (110 :: str "ull"). change (str "false") with (102 :: str "alse").
  change (str "true") with (116 :: str "rue").
  rewrite starts_other by done. cbn [mbind res_bind]. rewrite starts_other by done. cbn [mbind res_bind].
  rewrite starts_other by done. done.
Qed.

(** The induction hypothesis for a value that is read with [fuel]. *)
Definition reads_back (fmt : bool) (depth : Z) (fuel : nat) (v : json) : Prop :=
  forall (item : node) rest, child item = [] -> ended v rest ->
    exists c, parse_value mem fuel item (json_text fmt depth v ++ rest) = Ok (c, rest) /\
              repr v c /\ string c = string item.

Lemma value_element fmt depth fuel v close :
  json_ok v -> reads_back fmt depth fuel v -> close = 93 \/ close = 125 ->
  element (parse_element mem (parse_value mem fuel)) close (json_text fmt depth v) (repr v).
Proof.
  intros Hok H Hcl before after y r Hb Ha Hy. unfold parse_element, new_item. rewrite enough.
  cbn [mbind res_bind]. rewrite skip_blanks by done.
  destruct (json_text_head fmt depth v Hok) as (x & t & E & Hx & _).
  destruct (H cJSON_New_Item (after ++ y :: r)) as (c & Ec & Hc & _); [done|apply stop_ended, stop_after; [done|lia]|].
  exists c. split; [|done]. rewrite E in *. cbn [app] in *. rewrite skip_char by done.
  cbn [mbind res_bind]. rewrite Ec. cbn [mbind res_bind]. rewrite skip_blanks, skip_char by (try done; lia).
  done.
Qed.

Lemma field_element fmt depth fuel n v :
  cstring n -> json_ok v -> reads_back fmt depth fuel v ->
  element (parse_field mem (parse_value mem fuel)) 125
    (field_text fmt (str_text n, json_text fmt depth v)) (repr_field (n, v)).
Proof.
  intros Hn Hok H before after y r Hb Ha Hy. unfold parse_field, new_item. rewrite enough.
  cbn [mbind res_bind]. rewrite skip_blanks by done. unfold field_text. cbn [fst snd].
  rewrite <- !app_assoc.
  replace (skip (str_text n ++ _)) with
    (Ok (str_text n ++ (if fmt then [58; 9] else [58]) ++ json_text fmt depth v ++ after ++ y :: r)).
  2: { unfold str_text. cbn [app]. by rewrite skip_char. }
  cbn [mbind res_bind]. rewrite parse_string_text by done. cbn [mbind res_bind].
  set (i := name_item _).
  destruct (json_text_head fmt depth v Hok) as (x & t & E & Hx & _).
  destruct (H i (after ++ y :: r)) as (c & Ec & Hc & Hs); [done|apply stop_ended, stop_after; [done|lia]|].
  exists c. split; [|split_and!; [by rewrite Hs|done|done]].
  rewrite E in *. cbn [app] in *.
  replace (skip ((if fmt then [58; 9] else [58]) ++ x :: t ++ after ++ y :: r)) with
    (Ok (58 :: (if fmt then [9] else []) ++ x :: t ++ after ++ y :: r)) by (destruct fmt; cbn [app]; by rewrite skip_char).
  cbn [mbind res_bind]. rewrite rd_head. cbn [mbind res_bind]. change (negb (58 =? 58)) with false. cbv iota.
  rewrite adv_cons. cbn [mbind res_bind].
  rewrite skip_blanks by (destruct fmt; by_decide). rewrite skip_char by done.
  cbn [mbind res_bind]. rewrite Ec. cbn [mbind res_bind]. rewrite skip_blanks, skip_char by (try done; lia).
  done.
Qed.

Lemma join_in (sep x : list Z) l : x ∈ l -> (length x <= length (join sep l))%nat.
Proof.
  induction l as [|y l IH]; [by intros ?%elem_of_nil|]. destruct l as [|z l].
  - by intros ->%list_elem_of_singleton.
  - rewrite join_cons, !length_app. intros [-> |H]%elem_of_cons; [lia|]. specialize (IH H). lia.
Qed.

Lemma Forall2_map_l {A B} (R : B -> A -> Prop) (f : A -> B) l :
  Forall (fun x => R (f x) x) l -> Forall2 R (map f l) l.
Proof. induction 1; by constructor. Qed.

Definition round (fmt : bool) (v : json) : Prop :=
  forall depth fuel, json_ok v -> (length (json_text fmt depth v) <= fuel)%nat -> reads_back fmt depth fuel v.

Lemma round_arr fmt l : Forall (round fmt) l -> round fmt (JArr l).
Proof.
  intros IH depth [|fuel] Hok Hf item rest Hi Hrest; [cbn in Hf; lia|]. apply json_ok_arr in Hok.
  set (pad := if fmt then [32] else @nil Z).
  assert (E : json_text fmt depth (JArr l) ++ rest =
    91 :: join (44 :: pad) (map (json_text fmt (depth + 1)) l) ++ 93 :: rest).
  { unfold pad. cbn [json_text]. rewrite <- !app_assoc. by destruct fmt. }
  rewrite E, parse_value_head by done. cbn [Z.eqb orb]. change (is_digit 91) with false. cbv iota.
  change (91 =? 34) with false. change (91 =? 45) with false. change (91 =? 91) with true. cbv iota.
  unfold parse_array. destruct l as [|v l].
  - eexists. split; [by apply (list_text_nil _ 93 91 _ item [])|].
    split; [apply repr_arr; split; [done|]; cbn; rewrite Hi; constructor|done].
  - destruct (list_text (parse_element mem (parse_value mem fuel)) 93 repr 91 cJSON_Array item [] pad [] rest
      (map (json_text fmt (depth + 1)) l) l (json_text fmt (depth + 1) v) v) as (cs & Ec & Hcs);
      [done|done|constructor|unfold pad; destruct fmt; by_decide|constructor| | |].
    + apply Forall_cons in Hok as [Hv _]. destruct (json_text_head fmt (depth + 1) v Hv) as (x & t & -> & ? & ? & _).
      by exists x, t.
    + apply (Forall2_map_l _ (json_text fmt (depth + 1)) (v :: l)).
      assert (Hlen : Forall (fun x => (length (json_text fmt (depth + 1) x) <= fuel)%nat) (v :: l)).
      { apply Forall_forall. intros x Hx.
        assert (Hm : json_text fmt (depth + 1) x ∈ map (json_text fmt (depth + 1)) (v :: l))
          by (by apply list_elem_of_fmap_2).
        apply (join_in (44 :: pad)) in Hm. apply (f_equal length) in E.
        repeat (rewrite length_app in E || cbn [length] in E). lia. }
      rewrite Forall_forall in *. intros x Hx. apply value_element; [by apply Hok| |by left].
      by apply IH; [|apply Hok|apply Hlen].
    + cbn [app map] in *. eexists. split; [exact Ec|]. split; [|done].
      apply repr_arr. by split.
Qed.

Definition field_json (fmt : bool) (depth : Z) (p : list Z * json) : list Z :=
  field_text fmt (str_text (fst p), json_text fmt depth (snd p)).

Lemma obj_text_nil fmt depth rest :
  json_text fmt depth (JObj []) ++ rest = 123 :: field_pad fmt (depth - 1) ++ 125 :: rest.
Proof. unfold field_pad. cbn [json_text fields map]. rewrite <- !app_assoc. by destruct fmt. Qed.

Lemma obj_text_cons fmt depth p l rest :
  json_text fmt depth (JObj (p :: l)) ++ rest =
  123 :: field_pad fmt (depth + 1) ++
    join (44 :: field_pad fmt (depth + 1)) (map (field_json fmt (depth + 1)) (p :: l)) ++
    field_pad fmt depth ++ 125 :: rest.
Proof.
  cbn [json_text]. cbn [map]. rewrite fields_join.
  change (map (field_text fmt) _) with
    (map (field_text fmt) (map (fun p => (str_text (fst p), json_text fmt (depth + 1) (snd p))) (p :: l))).
  rewrite List.map_map. unfold field_json, field_pad. rewrite <- !app_assoc. cbn [app].
  destruct fmt; cbn [app]; by rewrite <- ?app_assoc.
Qed.

Lemma round_obj fmt l : Forall (fun p => round fmt (snd p)) l -> round fmt (JObj l).
Proof.
  intros IH depth [|fuel] Hok Hf item rest Hi Hrest; [cbn in Hf; lia|]. apply json_ok_obj in Hok.
  destruct l as [|p l].
  - rewrite obj_text_nil, parse_value_head by done. eexists.
    split; [by apply (list_text_nil _ 125 123 _ item); [|apply blank_pad]|].
    split; [apply repr_obj; split; [done|]; cbn; rewrite Hi; constructor|done].
  - pose proof (obj_text_cons fmt depth p l rest) as E. rewrite E, parse_value_head by done.
    change (123 =? 34) with false. change (123 =? 45) with false. change (is_digit 123) with false.
    change (123 =? 91) with false. change (123 =? 123) with true. cbn [orb]. cbv iota.
    destruct (list_text (parse_field mem (parse_value mem fuel)) 125 repr_field 123 cJSON_Object item
      (field_pad fmt (depth + 1)) (field_pad fmt (depth + 1)) (field_pad fmt depth) rest
      (map (field_json fmt (depth + 1)) l) l (field_json fmt (depth + 1) p) p) as (cs & Ec & Hcs);
      [done|done|apply blank_pad..| | |].
    + by eexists _, _.
    + apply (Forall2_map_l _ (field_json fmt (depth + 1)) (p :: l)).
      assert (Hlen : Forall (fun x => (length (json_text fmt (depth + 1) (snd x)) <= fuel)%nat) (p :: l)).
      { apply Forall_forall. intros x Hx.
        assert (Hm : field_json fmt (depth + 1) x ∈ map (field_json fmt (depth + 1)) (p :: l))
          by (by apply list_elem_of_fmap_2).
        apply (join_in (44 :: field_pad fmt (depth + 1))) in Hm. apply (f_equal length) in E.
        unfold field_json in Hm at 1. unfold field_text in Hm. cbn [fst snd] in Hm.
        repeat (rewrite length_app in E || cbn [length] in E). rewrite !length_app in Hm. lia. }
      rewrite Forall_forall in *. intros [n v] Hx. destruct (Hok _ Hx) as [Hn Hv].
      apply field_element; [done|done|]. apply (IH _ Hx); [done|apply (Hlen _ Hx)].
    + eexists. split; [exact Ec|]. split; [|done]. apply repr_obj. by split.
Qed.

Lemma round_leaf fmt v :
  match v with JArr _ | JObj _ => False | _ => True end -> round fmt v.
Proof.
  intros Hl depth [|fuel] Hok Hf item rest Hi Hrest.
  { destruct (json_text_head fmt depth v Hok) as (x & t & E & _). rewrite E in Hf. cbn in Hf. lia. }
  destruct v as [|b|n|s|l|l]; try done; cbn [json_ok] in Hok.
  - eexists. split; [reflexivity|done].
  - destruct b; eexists; (split; [reflexivity|done]).
  - cbn [json_text]. destruct (sprintf_d_head n) as (x & t & E & Hx).
    exists (Node cJSON_Number (valuestring item) n (d_of_Z n) (string item) (child item)).
    split; [|split; [|done]].
    + transitivity (parse_number item (sprintf_d n ++ rest)); [|by apply parse_number_text].
      rewrite E. cbn [app]. assert (Hd : (x =? 45) || is_digit x = true).
      { destruct Hx as [-> | ->]; [done|apply orb_true_r]. }
      rewrite parse_value_head; [rewrite Hd|..]; [|by intros ->; destruct Hx..].
      destruct (Z.eqb_spec x 34) as [-> |]; [by destruct Hx|done].
    + done.
  - cbn [json_text].
    exists (Node cJSON_String (Some s) (valueint item) (valuedouble item) (string item) (child item)).
    split; [|split; [|done]].
    + transitivity (parse_string mem item (str_text s ++ rest)); [|by apply parse_string_text].
      unfold str_text. cbn [app]. by rewrite parse_value_head.
    + done.
Qed.

Lemma parse_value_text fmt v : round fmt v.
Proof.
  induction v using json_nested_ind; try by apply round_leaf.
  - by apply round_arr.
  - by apply round_obj.
Qed.

Lemma cJSON_Parse_text fmt v rest : json_ok v -> ended v rest ->
  exists c, cJSON_Parse mem (json_text fmt 0 v ++ rest) = Ok c /\ repr v c.
Proof.
  intros Hok Hr. destruct (json_text_head fmt 0 v Hok) as (x & t & E & Hx & _).
  destruct (parse_value_text fmt v 0 (S (length (json_text fmt 0 v ++ rest))) Hok
              ltac:(rewrite length_app; lia) cJSON_New_Item rest eq_refl Hr) as (c & Ec & Hc & _).
  exists c. split; [|done]. unfold cJSON_Parse, cJSON_ParseWithOpts, new_item. rewrite enough.
  cbn [mbind res_bind]. rewrite E in *. cbn [app] in *. rewrite skip_char by done.
  cbn [mbind res_bind]. by rewrite Ec.
Qed.

Lemma ended_zero v : ended v [0].
Proof. apply stop_ended. by exists 0, []. Qed.
End RoundTrip.

(** ** The properties of the parser *)
Section Claims.
Context {D : Type} `{!Double D} (mem : Z -> bool).

(** [C35] Parsing ends: for every text, however deep its brackets and whether or
    not it is terminated, recursion as deep as the text is long is enough for
    [cJSON_Parse] and for [cJSON_ParseWithOpts]. *)
Theorem cJSON_Parse_ends p require :
  cJSON_Parse (D:=D) mem p <> NoFuel /\ cJSON_ParseWithOpts (D:=D) mem p require <> NoFuel.
Proof.
  pose proof (cJSON_Parse_post (D:=D) mem p) as H1.
  pose proof (cJSON_ParseWithOpts_post (D:=D) mem p require) as H2.
  split; intros E; [by rewrite E in H1|by rewrite E in H2].
Qed.

(** [C10] On a terminated text in which no backslash is last, every [\u] is
    followed by four hexadecimal digits and no exponent has more than nine
    digits, the parser neither reads past the terminator nor writes past a
    block it allocated nor overflows: it returns a tree or a null pointer. *)
Theorem cJSON_Parse_safe p : text_ok p = true ->
  (exists c, cJSON_Parse (D:=D) mem p = Ok c) \/ (exists e, cJSON_Parse (D:=D) mem p = Null e).
Proof.
  intros Hok. pose proof (cJSON_Parse_post (D:=D) mem p) as H.
  destruct (cJSON_Parse mem p); cbn [post] in H; [eauto|eauto|by destruct (H Hok)|done].
Qed.

(** [C36] Whatever bytes are parsed, a tree that comes back is well formed: every
    node has one of the seven types, a string has a text, a field a name.  So
    both printers turn it into a text and never misbehave on it. *)
Theorem cJSON_Parse_type `{!DoubleLaws D} p c : bytes p -> cJSON_Parse mem p = Ok c ->
  well_typed c /\
  (exists t, cstring t /\ fine mem (cJSON_Print mem c) t) /\
  (exists t, cstring t /\ fine mem (cJSON_PrintUnformatted mem c) t).
Proof.
  intros Hb E. pose proof (cJSON_Parse_post (D:=D) mem p) as H. rewrite E in H.
  specialize (H Hb). split; [done|]. split; by apply print_value_printable.
Qed.
End Claims.


(** ** On concrete texts *)
Definition sample : json :=
  JObj [(str "id", JStr [34; 92; 10; 1; 200]); (str "n", JArr [JNum (-2147483648); JNum 0; JNum 305; JArr []]);
        (str "o", JObj [(str "t", JBool true); (str "f", JBool false); (str "z", JNull)]); ([], JObj [])].

(** The tree of a value. *)
Fixpoint tree (v : json) : cJSON (D:=decimal) :=
  match v with
  | JNull => cJSON_CreateNull
  | JBool b => cJSON_CreateBool b
  | JNum n => cJSON_CreateNumber (n, 0)
  | JStr s => cJSON_CreateString s
  | JArr l => fold_left (fun a v => cJSON_AddItemToArray a (tree v)) l cJSON_CreateArray
  | JObj l => fold_left (fun a p => cJSON_AddItemToObject a (fst p) (tree (snd p))) l cJSON_CreateObject
  end.

Definition plenty (n : Z) : bool := true.

(** A text that is not safe overruns the block: [\u] swallows the quote. *)
Example parse_string_overruns :
  cJSON_Parse (D:=decimal) plenty ([34] ++ str "\u" ++ [34] ++ str "xyabcdefgh" ++ [34; 0]) = Undef.
Proof. reflexivity. Qed.

Example parse_reads_past_end : cJSON_Parse (D:=decimal) plenty ([34] ++ str "\" ++ [0]) = Undef.
Proof. reflexivity. Qed.

Example exponent_overflows : cJSON_Parse (D:=decimal) plenty (str "1e4294967296" ++ [0]) = Undef.
Proof. reflexivity. Qed.

Lemma sample_repr : repr sample (tree sample).
Proof. cbn. unfold is_int. split_and!; try done; by_decide. Qed.

Lemma cJSON_Parse_safe_witness :
  text_ok (str "{" ++ [34] ++ str "\u0041\\" ++ [34] ++ str ": [1, -2.5e3]}" ++ [0]) = true /\
  ((exists c : cJSON, cJSON_Parse (D:=decimal) plenty
     (str "{" ++ [34] ++ str "\u0041\\" ++ [34] ++ str ": [1, -2.5e3]}" ++ [0]) = Ok c) \/
   exists e, cJSON_Parse (D:=decimal) plenty
     (str "{" ++ [34] ++ str "\u0041\\" ++ [34] ++ str ": [1, -2.5e3]}" ++ [0]) = Null e).
Proof. split; [reflexivity|apply cJSON_Parse_safe; reflexivity]. Defined.

Lemma cJSON_Parse_type_witness :
  exists c : cJSON, cJSON_Parse (D:=decimal) plenty (str "[1,{}]" ++ [0]) = Ok c /\ well_typed c.
Proof.
  eexists. split; [reflexivity|].
  exact (proj1 (cJSON_Parse_type plenty (str "[1,{}]" ++ [0]) _ ltac:(by_decide) eq_refl)).
Defined.

