(* ===== verification/JsonMinify.v ===== *)
(** * Stripping JSON text

    Models [cJSON_Minify] of src/packages/cJSON-latest/cJSON.c.  The text is
    rewritten in place; the write pointer never passes the read pointer, so the
    text still to be read is intact and the result is what was written, up to
    the terminator.  The theorems show that the text of a formatted tree
    becomes the unformatted text of the same tree, and that the loop ends. *)

From S2P Require Import Prelude CLib Json JsonParse.

Local Open Scope Z_scope.

(** To the end of a comment of one line: a newline or the terminator. *)
Fixpoint skip_line (p : ptr) : res ptr :=
  match p with
  | [] => Undef
  | c :: q => if (c =? 0) || (c =? 10) then Ok p else skip_line q
  end.

(** To the star and slash that end a comment, or the terminator. *)
Fixpoint skip_comment (p : ptr) : res ptr :=
  match p with
  | [] => Undef
  | c :: q =>
      if c =? 0 then Ok p
      else if c =? 42 then d ← rd q 0; if d =? 47 then Ok p else skip_comment q
      else skip_comment q
  end.

(** The copy of a string behind its first quote, up to and with the last. *)
Fixpoint copy_string (p : ptr) : res (list Z * ptr) :=
  match p with
  | [] => Undef
  | c :: q =>
      if (c =? 0) || (c =? 34) then Ok ([c], q)
      else if c =? 92 then
        match q with
        | [] => Undef
        | d :: q => '(s, q) ← copy_string q; Ok (c :: d :: s, q)
        end
      else '(s, q) ← copy_string q; Ok (c :: s, q)
  end.

Definition is_blank (c : Z) : bool := (c =? 32) || (c =? 9) || (c =? 13) || (c =? 10).

(** What the main loop writes from [p] on. *)
Fixpoint minify_loop (fuel : nat) (p : ptr) : res (list Z) :=
  match fuel with
  | O => NoFuel
  | S fuel =>
      c ← rd p 0;
      if c =? 0 then Ok []
      else if is_blank c then p ← adv p 1; minify_loop fuel p
      else
        d ← (if c =? 47 then rd p 1 else Ok 0);
        if (c =? 47) && (d =? 47) then p ← skip_line p; minify_loop fuel p
        else if (c =? 47) && (d =? 42) then p ← skip_comment p; p ← adv p 2; minify_loop fuel p
        else if c =? 34 then
          p ← adv p 1;
          '(s, p) ← copy_string p;
          r ← minify_loop fuel p;
          Ok (34 :: s ++ r)
        else p ← adv p 1; r ← minify_loop fuel p; Ok (c :: r)
  end.

(** [cJSON_Minify]: the string that the buffer holds afterwards. *)
Definition cJSON_Minify (json : ptr) : res (list Z) :=
  out ← minify_loop (S (length json)) json;
  defined (buf_cstr (out ++ [0])).

(** ** The loop ends *)
Lemma skip_line_len p : post (fun q => (length q <= length p)%nat) True (skip_line p).
Proof.
  induction p as [|c p IH]; cbn [skip_line]; [done|]. post_step; [cbn; lia|].
  eapply post_mono; [exact IH| |done]. cbn. lia.
Qed.

Lemma skip_comment_len p : post (fun q => (length q <= length p)%nat) True (skip_comment p).
Proof.
  induction p as [|c p IH]; cbn [skip_comment]; [done|].
  assert (IH' : post (fun q => (length q <= S (length p))%nat) True (skip_comment p))
    by (eapply post_mono; [exact IH|cbn; lia|done]).
  post_step; [cbn; lia|]. post_step; [|done].
  post_step. post_step; [|done]. post_step; [cbn; lia|done].
Qed.

Lemma copy_string_len k : forall p, (length p <= k)%nat ->
  post (fun r => (length (snd r) < length p)%nat) True (copy_string p).
Proof.
  induction k as [|k IH]; intros [|c p] Hk; cbn [length copy_string] in *; try done; [lia|].
  post_step; [cbn; lia|]. post_step.
  - destruct p as [|d p]; [done|]. cbn [length] in *. post_step.
    eapply post_mono; [apply IH; lia| |done]. intros [s q] Hq. cbn in *. lia.
  - post_step. eapply post_mono; [apply IH; lia| |done]. intros [s q] Hq. cbn in *. lia.
Qed.

(** Two amounts of fuel above the length agree, and neither runs out. *)
Lemma minify_enough k : forall f g p, (length p <= k)%nat -> (length p < f)%nat -> (length p < g)%nat ->
  minify_loop f p = minify_loop g p /\ minify_loop f p <> NoFuel.
Proof.
  induction k as [|k IH]; intros [|f] [|g] p Hk Hf Hg; try lia; cbn [minify_loop].
  1: by destruct p; [|cbn in Hk; lia].
  destruct p as [|c p]; [done|]. cbn [length] in *. rewrite rd_head. cbn [mbind res_bind].
  destruct (c =? 0); [done|]. destruct (is_blank c).
  { rewrite adv_cons. cbn [mbind res_bind]. apply IH; lia. }
  destruct (if c =? 47 then rd (c :: p) 1 else Ok 0) as [d| | |] eqn:Ed; cbn [mbind res_bind];
    [|done|done|by destruct (c =? 47); [destruct p|]].
  destruct ((c =? 47) && (d =? 47)) eqn:E1.
  { apply andb_true_iff in E1 as [E1%Z.eqb_eq _]. subst c. cbn [skip_line].
    change ((47 =? 0) || (47 =? 10)) with false. cbv iota.
    pose proof (skip_line_len p) as Hl. destruct (skip_line p) as [q| | |]; cbn [post mbind res_bind] in *;
      [apply IH; lia|done..]. }
  destruct ((c =? 47) && (d =? 42)) eqn:E2.
  { pose proof (skip_comment_len (c :: p)) as Hl.
    destruct (skip_comment (c :: p)) as [q| | |]; cbn [post mbind res_bind length] in *; [|done..].
    unfold adv. destruct (Nat.leb_spec 2 (length q)); cbn [mbind res_bind]; [|done].
    apply IH; rewrite length_drop; lia. }
  rewrite !adv_cons. cbn [mbind res_bind]. destruct (c =? 34).
  - pose proof (copy_string_len _ p (le_n _)) as Hl.
    destruct (copy_string p) as [[s q]| | |]; cbn [post mbind res_bind snd] in *; [|done..].
    destruct (IH f g q) as [E Hn]; [lia..|]. rewrite <- E. split; [done|].
    by destruct (minify_loop f q).
  - destruct (IH f g p) as [E Hn]; [lia..|]. rewrite <- E. split; [done|]. by destruct (minify_loop f p).
Qed.

(** [mini p]: with the fuel that is always enough. *)
Definition mini (p : ptr) : res (list Z) := minify_loop (S (length p)) p.

Lemma mini_fuel f p : (length p < f)%nat -> minify_loop f p = mini p.
Proof.
  intros H. destruct (minify_enough (length p) f (S (length p)) p) as [E _]; [lia..|exact E].
Qed.

(** One round, at the character [c]. *)
Lemma mini_step c p :
  mini (c :: p) =
  if c =? 0 then Ok []
  else if is_blank c then mini p
  else
    d ← (if c =? 47 then rd (c :: p) 1 else Ok 0);
    if (c =? 47) && (d =? 47) then q ← skip_line (c :: p); minify_loop (S (length p)) q
    else if (c =? 47) && (d =? 42)
    then q ← skip_comment (c :: p); q ← adv q 2; minify_loop (S (length p)) q
    else if c =? 34 then
      '(s, q) ← copy_string p;
      r ← minify_loop (S (length p)) q;
      Ok (34 :: s ++ r)
    else r ← mini p; Ok (c :: r).
Proof.
  unfold mini at 1. change (length (c :: p)) with (S (length p)).
  transitivity (if c =? 0 then Ok (A:=list Z) [] else if is_blank c then q ← adv (c :: p) 1; minify_loop (S (length p)) q
    else d ← (if c =? 47 then rd (c :: p) 1 else Ok 0);
      if (c =? 47) && (d =? 47) then q ← skip_line (c :: p); minify_loop (S (length p)) q
      else if (c =? 47) && (d =? 42)
      then q ← skip_comment (c :: p); q ← adv q 2; minify_loop (S (length p)) q
      else if c =? 34 then
        q ← adv (c :: p) 1; '(s, q) ← copy_string q; r ← minify_loop (S (length p)) q; Ok (34 :: s ++ r)
      else q ← adv (c :: p) 1; r ← minify_loop (S (length p)) q; Ok (c :: r)); [reflexivity|].
  by rewrite !adv_cons.
Qed.

Lemma mini_blank c p : is_blank c = true -> mini (c :: p) = mini p.
Proof. intros H. rewrite mini_step, H. by destruct (Z.eqb_spec c 0) as [-> |]. Qed.

(** A character that is copied. *)
Definition is_plain (c : Z) : bool := negb ((c =? 0) || is_blank c || (c =? 47) || (c =? 34)).

Lemma mini_plain c p : is_plain c = true -> mini (c :: p) = (r ← mini p; Ok (c :: r)).
Proof.
  intros H. unfold is_plain in H. apply negb_true_iff in H.
  apply orb_false_iff in H as [H H4]. apply orb_false_iff in H as [H H3]. apply orb_false_iff in H as [H1 H2].
  by rewrite mini_step, H1, H2, H3, H4.
Qed.

Lemma mini_quote p : mini (34 :: p) = ('(s, p) ← copy_string p; r ← mini p; Ok (34 :: s ++ r)).
Proof.
  rewrite mini_step. change (34 =? 0) with false. change (is_blank 34) with false. change (34 =? 47) with false.
  change (34 =? 34) with true. cbn [mbind res_bind andb]. cbv iota.
  pose proof (copy_string_len _ p (le_n _)) as Hl.
  destruct (copy_string p) as [[s q]| | |]; cbn [post mbind res_bind snd] in *; [|done..].
  by rewrite mini_fuel by lia.
Qed.

(** ** Formatted text becomes unformatted text *)
Lemma mini_blanks ws p : Forall (fun c => is_blank c = true) ws -> mini (ws ++ p) = mini p.
Proof. induction 1 as [|c ws Hc H IH]; [done|]. cbn [app]. by rewrite mini_blank. Qed.

(** [copies t u]: going over [t], which ends outside of a string, the loop
    writes [u]. *)
Definition copies (t u : list Z) : Prop := forall p, mini (t ++ p) = (r ← mini p; Ok (u ++ r)).

Lemma copies_nil : copies [] [].
Proof. intros p. cbn [app]. by destruct (mini p). Qed.

Lemma copies_app t u t' u' : copies t u -> copies t' u' -> copies (t ++ t') (u ++ u').
Proof.
  intros H H' p. rewrite <- app_assoc, H, H'. destruct (mini p); [|done..].
  cbn [mbind res_bind]. by rewrite <- app_assoc.
Qed.

Lemma copies_blanks ws : Forall (fun c => is_blank c = true) ws -> copies ws [].
Proof. intros H p. rewrite mini_blanks by done. by destruct (mini p). Qed.

Lemma copies_plain t : Forall (fun c => is_plain c = true) t -> copies t t.
Proof.
  induction 1 as [|c t Hc H IH]; [apply copies_nil|]. intros p. cbn [app].
  rewrite mini_plain, IH by done. by destruct (mini p).
Qed.

Lemma copy_escape c q : is_cchar c ->
  copy_string (escape c ++ q) = ('(s, q) ← copy_string q; Ok (escape c ++ s, q)).
Proof.
  intros H. destruct (escape_cases c H) as [(-> & H1 & H2)|[-> |[-> |Hc]]].
  - cbn [app copy_string]. unfold is_cchar in H. apply Z.eqb_neq in H1, H2.
    destruct (Z.eqb_spec c 0); [lia|]. by rewrite H1, H2.
  - cbn. by destruct (copy_string q) as [[? ?]| | |].
  - cbn. by destruct (copy_string q) as [[? ?]| | |].
  - vm_compute in Hc. each_control Hc; try (cbn; by destruct (copy_string q) as [[? ?]| | |]).
    by apply elem_of_nil in Hc.
Qed.

Lemma copies_string s : cstring s -> copies (str_text s) (str_text s).
Proof.
  intros Hs p. unfold str_text. rewrite <- !app_assoc. cbn [app]. rewrite mini_quote.
  assert (E : copy_string (concat (map escape s) ++ 34 :: p) = Ok (concat (map escape s) ++ [34], p)).
  { induction Hs as [|c s Hc Hs IH]; [done|]. cbn [map concat]. rewrite <- app_assoc, copy_escape, IH by done.
    cbn [mbind res_bind]. by rewrite <- app_assoc. }
  rewrite E. cbn [mbind res_bind]. destruct (mini p); [|done..]. cbn [mbind res_bind].
  by rewrite <- app_assoc.
Qed.

Lemma copies_number n : copies (sprintf_d n) (sprintf_d n).
Proof.
  apply copies_plain. unfold sprintf_d.
  assert (H : forall m, Forall (fun c => is_plain c = true) (digits 10 m [])).
  { intros m. eapply Forall_impl; [apply digits_digits|]. intros c Hc. unfold is_digit in Hc.
    apply andb_true_iff in Hc as [H1 H2]. apply Z.leb_le in H1, H2.
    assert (Hr := forall_range (fun c => negb (48 <=? c) || is_plain c) 58 ltac:(by vm_compute) c ltac:(lia)).
    cbv beta in Hr. by destruct (Z.leb_spec 48 c); [|lia]. }
  destruct (n <? 0); [constructor; [done|]|]; apply H.
Qed.

Lemma copies_tabs n : copies (tabs n) [].
Proof. apply copies_blanks. unfold tabs. by apply Forall_replicate. Qed.

Lemma copies_join (ts us : list (list Z)) : Forall2 copies ts us -> copies (join [44; 32] ts) (join [44] us).
Proof.
  induction 1 as [|t u ts us H1 H IH]; [apply copies_nil|]. destruct H as [|t2 u2 ts us H2 H]; [done|].
  rewrite !join_cons. apply copies_app; [done|]. apply copies_app; [|done].
  apply (copies_app [44] [44] [32] []); [by apply copies_plain; by_decide|by apply copies_blanks; by_decide].
Qed.

Definition copies_pair (p q : list Z * list Z) : Prop := copies (fst p) (fst q) /\ copies (snd p) (snd q).

Lemma copies_fields d d' ps qs : Forall2 copies_pair ps qs -> copies (fields true d ps) (fields false d' qs).
Proof.
  induction 1 as [|[n v] [n' v'] ps qs [H1 H2] H IH]; [apply copies_nil|]. cbn [fields fst snd] in *.
  apply (copies_app (tabs d) []); [apply copies_tabs|]. apply copies_app; [done|].
  apply copies_app; [apply (copies_app [58] [58] [9] []);
    [by apply copies_plain; by_decide|by apply copies_blanks; by_decide]|].
  apply copies_app; [done|]. apply copies_app.
  { destruct H; [apply copies_nil|by apply copies_plain; by_decide]. }
  apply (copies_app [10] []); [by apply copies_blanks; by_decide|done].
Qed.

Lemma Forall2_map_same {A B C} (R : B -> C -> Prop) (f : A -> B) (g : A -> C) l :
  Forall (fun x => R (f x) (g x)) l -> Forall2 R (map f l) (map g l).
Proof. induction 1; by constructor. Qed.

Lemma copies_value v : forall d d', json_ok v -> copies (json_text true d v) (json_text false d' v).
Proof.
  induction v as [|b|n|s|l IH|l IH] using json_nested_ind; intros d d' Hv.
  - apply copies_plain. by_decide.
  - destruct b; apply copies_plain; by_decide.
  - apply copies_number.
  - by apply copies_string.
  - apply json_ok_arr in Hv. cbn [json_text]. apply copies_app; [apply copies_plain; by_decide|].
    apply copies_app; [|apply copies_plain; by_decide]. apply copies_join, Forall2_map_same.
    eapply Forall_impl; [apply Forall_and; split; [exact IH|exact Hv]|]. intros x [H1 H2]. by apply H1.
  - apply json_ok_obj in Hv. cbn [json_text]. apply copies_app; [apply copies_plain; by_decide|].
    apply copies_app; [apply copies_blanks; by_decide|]. apply copies_app.
    + apply copies_fields, Forall2_map_same.
      eapply Forall_impl; [apply Forall_and; split; [exact IH|exact Hv]|]. intros x [H1 [H2 H3]].
      split; [by apply copies_string|by apply H1].
    + apply (copies_app _ [] [125] [125]); [|apply copies_plain; by_decide]. destruct l; apply copies_tabs.
Qed.

(** ** The properties of [cJSON_Minify] *)

(** The loop ends on every text, terminated or not. *)
Theorem cJSON_Minify_ends p : cJSON_Minify p <> NoFuel.
Proof.
  unfold cJSON_Minify.
  destruct (minify_enough (length p) (S (length p)) (S (length p)) p) as [_ H]; [lia..|].
  destruct (minify_loop (S (length p)) p); [|done..]. cbn [mbind res_bind].
  by destruct (buf_cstr _).
Qed.

(** Stripping the text that [cJSON_Print] makes of a value gives the text
    that [cJSON_PrintUnformatted] makes of it. *)
Theorem cJSON_Minify_print {D} `{!Double D} `{!DoubleLaws D} (mem : Z -> bool) (v : json) (c : cJSON (D:=D)) t :
  (forall n, mem n = true) -> repr v c -> cJSON_Print mem c = Some (Some t) ->
  exists u, cJSON_Minify (t ++ [0]) = Ok u /\ cJSON_PrintUnformatted mem c = Some (Some u).
Proof.
  intros Hm Hc Ht. pose proof (repr_ok v c Hc) as Hok.
  assert (H : forall fmt, print_value mem fmt 0 c = Some (Some (json_text fmt 0 v))).
  { intros fmt. destruct (print_value_fine mem fmt v 0 c) as [?|[_ [n Hn]]]; [done|done|done|].
    by rewrite Hm in Hn. }
  unfold cJSON_Print in Ht. rewrite H in Ht. injection Ht as <-.
  exists (json_text false 0 v). split; [|apply H]. unfold cJSON_Minify.
  change (minify_loop _ ?p) with (mini p). rewrite (copies_value v 0 0 Hok).
  change (mini [0]) with (Ok (A:=list Z) []). cbn [mbind res_bind]. rewrite app_nil_r.
  rewrite buf_cstr_app; [done|]. by apply json_text_cstring.
Qed.

(** An open comment or string is read past the terminator. *)
Example minify_open_comment : cJSON_Minify (str "1/*" ++ [0]) = Undef.
Proof. reflexivity. Qed.

Example minify_open_string : cJSON_Minify ([34] ++ str "a" ++ [0]) = Undef.
Proof. reflexivity. Qed.

Example minify_sample : cJSON_Minify (str "[ 1, // one" ++ [10] ++ str "2 /* two */ ]" ++ [0]) = Ok (str "[1,2]").
Proof. reflexivity. Qed.

Lemma cJSON_Minify_print_witness :
  exists t u, cJSON_Print plenty (tree sample) = Some (Some t) /\ cJSON_Minify (t ++ [0]) = Ok u.
Proof.
  destruct (cJSON_Print plenty (tree sample)) as [[t|]|] eqn:E; [|vm_compute in E; discriminate E..].
  destruct (cJSON_Minify_print plenty sample (tree sample) t (fun _ => eq_refl) sample_repr E) as (u & Hu & _).
  exists t, u. exact (conj eq_refl Hu).
Defined.
