(* ===== verification/Replies.v ===== *)
(** * The JSON replies of the application

    Models the functions that build the replies of the web pages:
    src/module/json/json_create.c, and the [json_create_...] functions of
    src/module/board/board_module.c, src/module/sensors/aht10_module.c and
    src/module/smtp/smtp_module.c, with memory for the tree they build.  A
    number is given to [cJSON_CreateNumber] as a double; the text of a reading
    ("%.2f") is a parameter, cut to the buffer it is printed into. *)

From S2P Require Import Prelude CLib SmtpClient AppModules Json JsonParse.

Local Open Scope Z_scope.

Section Replies.
Context {D : Type} `{!Double D} (mem : Z -> bool).

#[local] Abbreviation node := (@cJSON D).

(** [cJSON_AddItemToObject] of a new text or number. *)
Definition add_text (name : list Z) (s : list Z) (o : node) : node :=
  cJSON_AddItemToObject o name (cJSON_CreateString s).

Definition add_int (name : list Z) (n : Z) (o : node) : node :=
  cJSON_AddItemToObject o name (cJSON_CreateNumber (d_of_Z n)).

Definition add_bool (name : list Z) (b : bool) (o : node) : node :=
  cJSON_AddItemToObject o name (cJSON_CreateBool b).

(** [snprintf] into a buffer of [n] bytes. *)
Definition snprintf (n : nat) (s : list Z) : list Z := take (n - 1) s.

Definition web_response_tree (code : Z) (msg : option (list Z)) : node :=
  add_text (str "msg") (default (str " ") msg) (add_int (str "code") code cJSON_CreateObject).

Definition json_create_web_response (code : Z) (msg : option (list Z)) : printed :=
  cJSON_PrintUnformatted mem (web_response_tree code msg).

(** The readings of the sensors as "%.2f" prints them. *)
Record readings := Readings { cur_temp : list Z; cur_humi : list Z; cur_light : list Z }.

Definition info_tree (used_mem : Z) (r : readings) (time : Z) : node :=
  add_int (str "ts") time (add_text (str "light") (snprintf 10 (cur_light r))
    (add_text (str "temp") (snprintf 10 (cur_temp r)) (add_text (str "humi") (snprintf 10 (cur_humi r))
      (add_int (str "used_mem") used_mem cJSON_CreateObject)))).

Definition json_create_info (used_mem : Z) (r : readings) (time : Z) : printed :=
  cJSON_PrintUnformatted mem (info_tree used_mem r time).

Definition SOFTWARE_VERSION : list Z := str "W601V1.3".

(** The inner object is filled after it was added to the outer one, which
    points to it. *)
Definition handshake_tree : node :=
  let handshake :=
    add_bool (str "support_filecheck") false (add_bool (str "support_diskfree") false
      (add_bool (str "support_diskclean") false (add_bool (str "support_directoryupload") true
        (add_bool (str "support_fileupload") false (add_bool (str "support_firmwareupload") true
          (add_text (str "version") SOFTWARE_VERSION cJSON_CreateObject)))))) in
  cJSON_AddItemToObject (add_int (str "code") 0 cJSON_CreateObject) (str "handshake") handshake.

Definition json_create_handshake : printed := cJSON_PrintUnformatted mem handshake_tree.

Definition device_status_tree (l : Board.lamps) : node :=
  fold_left (fun o f => add_text (fst f) (snd f) o) (Board.json_create_device_status l) cJSON_CreateObject.

Definition json_create_device_status (l : Board.lamps) : printed :=
  cJSON_PrintUnformatted mem (device_status_tree l).

Definition current_data_tree (r : readings) (used_mem max_mem total_mem : Z) : node :=
  add_int (str "total_mem") total_mem (add_int (str "max_mem") max_mem (add_int (str "used_mem") used_mem
    (add_text (str "humi") (snprintf 10 (cur_humi r)) (add_text (str "temp") (snprintf 10 (cur_temp r))
      cJSON_CreateObject)))).

Definition json_create_aht10_current_data (r : readings) (used_mem max_mem total_mem : Z) : printed :=
  cJSON_PrintUnformatted mem (current_data_tree r used_mem max_mem total_mem).

(** The loop that adds the saved readings to an array, each under the name of
    the series. *)
Definition add_series {R} (fmt : R -> list Z) (name : list Z) (s : Aht10.series) : node :=
  fold_left (fun a r => cJSON_AddItemToObject a name (cJSON_CreateString (snprintf 10 (fmt r))))
    (Aht10.saved_data s) cJSON_CreateArray.

Definition saved_data_tree {R} (fmt : R -> list Z) (temp humi : Aht10.series) : node :=
  cJSON_AddItemToObject
    (cJSON_AddItemToObject cJSON_CreateObject (str "temp") (add_series fmt (str "temp") temp))
    (str "humi") (add_series fmt (str "humi") humi).

Definition json_create_aht10_saved_data {R} (fmt : R -> list Z) (temp humi : Aht10.series) : printed :=
  cJSON_PrintUnformatted mem (saved_data_tree fmt temp humi).

Definition smtp_data_tree (m : Alarm.smtp_module_t) (temp_warn : list Z) : node :=
  add_int (str "enable") (if Alarm.enable m then 1 else 0)
    (add_text (str "temp_warn") (snprintf 10 temp_warn) (add_text (str "receiver") (Alarm.receiver m)
      (add_text (str "password") (Alarm.password0 m) (add_text (str "username") (Alarm.username0 m)
        (add_text (str "server_port") (Alarm.server_port0 m)
          (add_text (str "server_addr") (Alarm.server_addr0 m) cJSON_CreateObject)))))).

Definition json_create_smtp_data (m : Alarm.smtp_module_t) (temp_warn : list Z) : printed :=
  cJSON_PrintUnformatted mem (smtp_data_tree m temp_warn).

(** ** The values of the replies *)
Context `{!DoubleLaws D}.

Lemma repr_add_text l o n s :
  repr (JObj l) o -> cstring n -> cstring s -> repr (JObj (l ++ [(n, JStr s)])) (add_text n s o).
Proof. intros. apply repr_add_object; [done|done|by apply repr_string]. Qed.

Lemma repr_add_int l o n k :
  repr (JObj l) o -> cstring n -> is_int k -> repr (JObj (l ++ [(n, JNum k)])) (add_int n k o).
Proof. intros. apply repr_add_object; [done|done|by apply repr_number]. Qed.

Lemma repr_add_bool l o n b :
  repr (JObj l) o -> cstring n -> repr (JObj (l ++ [(n, JBool b)])) (add_bool n b o).
Proof. intros. apply repr_add_object; [done|done|by apply repr_bool]. Qed.

Lemma snprintf_cstring n s : cstring s -> cstring (snprintf n s).
Proof. apply Forall_take. Qed.

(** Build the value of a tree along the calls. *)
Ltac repr_calls :=
  lazymatch goal with
  | |- repr _ (add_text _ _ _) => apply repr_add_text; [repr_calls|by_decide|]
  | |- repr _ (add_int _ _ _) => apply repr_add_int; [repr_calls|by_decide|]
  | |- repr _ (add_bool _ _ _) => apply repr_add_bool; [repr_calls|by_decide]
  | |- repr _ (cJSON_AddItemToObject _ _ _) => apply repr_add_object; [repr_calls|by_decide|repr_calls]
  | |- repr _ cJSON_CreateObject => apply repr_object
  | |- _ => idtac
  end.

Ltac repr_build :=
  match goal with |- repr _ ?c =>
    let H := fresh in eassert (H : repr (JObj _) c); [repr_calls|exact H]
  end.

Lemma web_response_repr code msg :
  is_int code -> cstring (default (str " ") msg) ->
  repr (JObj [(str "code", JNum code); (str "msg", JStr (default (str " ") msg))]) (web_response_tree code msg).
Proof. intros Hc Hm. unfold web_response_tree. repr_build; done. Qed.

Definition is_reading (r : readings) : Prop :=
  cstring (cur_temp r) /\ cstring (cur_humi r) /\ cstring (cur_light r).

Lemma info_repr used_mem r time :
  is_int used_mem -> is_int time -> is_reading r ->
  repr (JObj [(str "used_mem", JNum used_mem); (str "humi", JStr (snprintf 10 (cur_humi r)));
              (str "temp", JStr (snprintf 10 (cur_temp r))); (str "light", JStr (snprintf 10 (cur_light r)));
              (str "ts", JNum time)]) (info_tree used_mem r time).
Proof.
  intros Hu Ht (H1 & H2 & H3). unfold info_tree. repr_build; first [done|by apply snprintf_cstring].
Qed.

Lemma current_data_repr r used_mem max_mem total_mem :
  is_int used_mem -> is_int max_mem -> is_int total_mem -> is_reading r ->
  repr (JObj [(str "temp", JStr (snprintf 10 (cur_temp r))); (str "humi", JStr (snprintf 10 (cur_humi r)));
              (str "used_mem", JNum used_mem); (str "max_mem", JNum max_mem); (str "total_mem", JNum total_mem)])
    (current_data_tree r used_mem max_mem total_mem).
Proof.
  intros Hu Hm Ht (H1 & H2 & H3). unfold current_data_tree.
  repr_build; first [done|by apply snprintf_cstring].
Qed.

Lemma smtp_data_repr m temp_warn :
  cstring (Alarm.server_addr0 m) -> cstring (Alarm.server_port0 m) -> cstring (Alarm.username0 m) ->
  cstring (Alarm.password0 m) -> cstring (Alarm.receiver m) -> cstring temp_warn ->
  repr (JObj [(str "server_addr", JStr (Alarm.server_addr0 m)); (str "server_port", JStr (Alarm.server_port0 m));
              (str "username", JStr (Alarm.username0 m)); (str "password", JStr (Alarm.password0 m));
              (str "receiver", JStr (Alarm.receiver m)); (str "temp_warn", JStr (snprintf 10 temp_warn));
              (str "enable", JNum (if Alarm.enable m then 1 else 0))]) (smtp_data_tree m temp_warn).
Proof.
  intros. unfold smtp_data_tree.
  repr_build; first [done|by apply snprintf_cstring|by destruct (Alarm.enable m)].
Qed.

Lemma handshake_repr :
  repr (JObj [(str "code", JNum 0); (str "handshake", JObj
    [(str "version", JStr SOFTWARE_VERSION); (str "support_firmwareupload", JBool true);
     (str "support_fileupload", JBool false); (str "support_directoryupload", JBool true);
     (str "support_diskclean", JBool false); (str "support_diskfree", JBool false);
     (str "support_filecheck", JBool false)])]) handshake_tree.
Proof. unfold handshake_tree. repr_build; by_decide. Qed.

Definition status_json (f : list Z * list Z) : list Z * json := (fst f, JStr (snd f)).

Lemma repr_add_texts fs : forall l o,
  Forall (fun f => cstring (fst f) /\ cstring (snd f)) fs -> repr (JObj l) o ->
  repr (JObj (l ++ map status_json fs)) (fold_left (fun o f => add_text (fst f) (snd f) o) fs o).
Proof.
  induction fs as [|[n t] fs IH]; intros l o H Ho; [by rewrite app_nil_r|].
  apply Forall_cons in H as [[H1 H2] H]. cbn [fold_left map].
  change (status_json (n, t) :: map status_json fs) with ([status_json (n, t)] ++ map status_json fs).
  rewrite app_assoc. apply IH; [done|]. by apply repr_add_text.
Qed.

Lemma device_status_repr l :
  repr (JObj (map status_json (Board.json_create_device_status l))) (device_status_tree l).
Proof.
  apply (repr_add_texts _ []); [|apply repr_object]. unfold Board.json_create_device_status.
  repeat (constructor; [split; [by_decide|cbn [snd]; by destruct (_ =? _); by_decide]|]). constructor.
Qed.

Lemma add_series_repr {R} (fmt : R -> list Z) name s :
  (forall r, cstring (fmt r)) ->
  repr (JArr (map (fun r => JStr (snprintf 10 (fmt r))) (Aht10.saved_data s))) (add_series fmt name s).
Proof.
  intros Hf. unfold add_series. generalize (Aht10.saved_data s) as rs. intros rs.
  assert (H : forall l a, repr (JArr l) a ->
    repr (JArr (l ++ map (fun r => JStr (snprintf 10 (fmt r))) rs))
      (fold_left (fun a r => cJSON_AddItemToObject a name (cJSON_CreateString (snprintf 10 (fmt r)))) rs a)).
  { induction rs as [|r rs IH]; intros l a Ha; [by rewrite app_nil_r|]. cbn [fold_left map].
    change (JStr (snprintf 10 (fmt r)) :: ?t) with ([JStr (snprintf 10 (fmt r))] ++ t).
    rewrite app_assoc. apply IH, repr_add_array_named; [done|]. by apply repr_string, snprintf_cstring. }
  apply (H []), repr_array.
Qed.

Lemma saved_data_repr {R} (fmt : R -> list Z) temp humi :
  (forall r, cstring (fmt r)) ->
  repr (JObj [(str "temp", JArr (map (fun r => JStr (snprintf 10 (fmt r))) (Aht10.saved_data temp)));
              (str "humi", JArr (map (fun r => JStr (snprintf 10 (fmt r))) (Aht10.saved_data humi)))])
    (saved_data_tree fmt temp humi).
Proof.
  intros Hf. unfold saved_data_tree. repr_build; by apply add_series_repr.
Qed.

(** A reply whose tree holds [v] is the text of [v], and reads back as [v]. *)
Lemma reply_text v (c : node) : repr v c ->
  fine mem (cJSON_PrintUnformatted mem c) (json_text false 0 v) /\
  ((forall n, mem n = true) -> exists c', cJSON_Parse mem (json_text false 0 v ++ [0]) = Ok c' /\ repr v c').
Proof.
  intros Hc. split; [by apply print_value_fine|]. intros Hm.
  apply cJSON_Parse_text; [done|by eapply repr_ok|apply ended_zero].
Qed.

(** The reply to a web page: whatever the message (quotes, control
    characters and bytes above 127 included; a blank if there is none), the
    reply is the text of an object of the code and the message, or nothing if
    memory is short, and a page that parses it gets both back. *)
Theorem json_create_web_response_ok code msg :
  is_int code -> cstring (default (str " ") msg) ->
  let v := JObj [(str "code", JNum code); (str "msg", JStr (default (str " ") msg))] in
  fine mem (json_create_web_response code msg) (json_text false 0 v) /\
  ((forall n, mem n = true) -> exists c, cJSON_Parse mem (json_text false 0 v ++ [0]) = Ok c /\ repr v c).
Proof. intros Hc Hm. by apply reply_text, web_response_repr. Qed.

(** The reply with the history: after any measurements the two arrays hold
    the texts of the readings that the series keep, up to 23 of them all and
    in the order of measurement, and the reply is the text of that object. *)
Theorem json_create_aht10_saved_data_ok {R} (zero : R) (fmt : R -> list Z) ts hs :
  (forall r, cstring (fmt r)) -> (length ts <= 23)%nat -> (length hs <= 23)%nat ->
  exists temp humi, Aht10.store_all ts (Aht10.cleared zero) = Some temp /\
    Aht10.store_all hs (Aht10.cleared zero) = Some humi /\
    let texts := map (fun r => JStr (snprintf 10 (fmt r))) in
    fine mem (json_create_aht10_saved_data fmt temp humi)
      (json_text false 0 (JObj [(str "temp", JArr (texts ts)); (str "humi", JArr (texts hs))])).
Proof.
  intros Hf Ht Hh.
  assert (Hs : forall rs : list R, (length rs <= 23)%nat ->
    exists s, Aht10.store_all rs (Aht10.cleared zero) = Some s /\ Aht10.saved_data s = rs).
  { intros rs Hl. rewrite Aht10.store_all_first by done. eexists. split; [done|].
    unfold Aht10.saved_data. cbn [Aht10.index Aht10.slots]. unfold zlen. by rewrite Nat2Z.id, take_app_length. }
  destruct (Hs ts Ht) as (temp & Et & St), (Hs hs Hh) as (humi & Eh & Sh).
  exists temp, humi. split_and!; [done|done|]. cbv zeta.
  pose proof (reply_text _ _ (saved_data_repr fmt temp humi Hf)) as [H _]. by rewrite St, Sh in H.
Qed.
End Replies.

(** ** On concrete data *)
Example web_response_sample :
  json_create_web_response (D:=decimal) (fun _ => true) (-1) (Some [34; 10]) =
  Some (Some (str "{" ++ [34] ++ str "code" ++ [34] ++ str ":-1," ++ [34] ++ str "msg" ++ [34; 58; 34] ++
              str "\" ++ [34] ++ str "\n" ++ [34; 125])).
Proof. reflexivity. Qed.

Lemma json_create_web_response_ok_witness :
  is_int (-1) /\
  fine (fun _ => true) (json_create_web_response (D:=decimal) (fun _ => true) (-1) None)
    (json_text false 0 (JObj [(str "code", JNum (-1)); (str "msg", JStr (str " "))])).
Proof.
  assert (H : is_int (-1)) by (unfold is_int; lia).
  exact (conj H (proj1 (json_create_web_response_ok (D:=decimal) (fun _ => true) (-1) None H ltac:(by_decide)))).
Defined.

Lemma json_create_aht10_saved_data_ok_witness :
  exists temp humi : Aht10.series, Aht10.store_all [21; 22] (Aht10.cleared 0) = Some temp /\
    Aht10.store_all [40] (Aht10.cleared 0) = Some humi /\
    fine (fun _ => true) (json_create_aht10_saved_data (D:=decimal) (fun _ => true) sprintf_d temp humi)
      (json_text false 0 (JObj [(str "temp", JArr [JStr (str "21"); JStr (str "22")]);
                                (str "humi", JArr [JStr (str "40")])])).
Proof.
  exact (json_create_aht10_saved_data_ok (D:=decimal) (fun _ => true) 0 sprintf_d [21; 22] [40]
    sprintf_d_cstring ltac:(cbn; lia) ltac:(cbn; lia)).
Defined.
