(* ===== verification/Mqtt.v ===== *)
(** * The MQTT module

    Models src/module/mqtt/mqtt_json.c and the message handling of
    src/module/mqtt/mqtt_module.c: the configuration file, the property report,
    and the property message that switches the lamps.  What is handed to
    [mqtt_publish] is an event here; [MqttApp] runs it on the client of
    [MqttClient]. *)

From S2P Require Import Prelude CLib AppModules Json JsonParse Replies.

Local Open Scope Z_scope.

(** ** Strings *)

(** [str_compare] of src/module/utils/module_utils.c; [strlen] of a null
    pointer is undefined. *)
Definition str_compare (str1 : option (list Z)) (str2 : list Z) : option Z :=
  s ← str1;
  Some (if negb (zlen s =? zlen str2) then -1 else if bool_decide (s = str2) then 0 else -1).

(** [rt_memcmp] of src/rt-thread/src/kservice.c: it reads up to the first
    difference. *)
Fixpoint rt_memcmp (cs ct : list Z) (count : nat) : option Z :=
  match count with
  | O => Some 0
  | S count =>
      match cs, ct with
      | a :: cs, b :: ct => if a =? b then rt_memcmp cs ct count else Some (a - b)
      | _, _ => None
      end
  end.

Definition MAX_TOPIC_LENGTH : nat := 100.

(** ** The configuration *)
Record mqtt_cfg_t := MqttCfg {
  host : list Z;
  port : Z;
  client_id : list Z;
  username : list Z;
  password : list Z;
  product_key : list Z;
  device_name : list Z;
  params_post_topic : list Z;
  params_set_topic : list Z
}.

Definition topic (product_key device_name last : list Z) : list Z :=
  snprintf MAX_TOPIC_LENGTH (str "/sys/" ++ product_key ++ str "/" ++ device_name ++ str "/thing/" ++ last).

Section Mqtt.
Context {D : Type} `{!Double D} (mem : Z -> bool).

#[local] Abbreviation node := (@cJSON D).

(** [rt_strdup(cJSON_GetObjectItem(root, name)->valuestring)], with memory for
    the copy: undefined if there is no such field or it is no string. *)
Definition get_text (root : node) (name : list Z) : res (list Z) :=
  c ← defined (cJSON_GetObjectItem root name); defined (valuestring c).

Definition cfg_of (root : node) : res mqtt_cfg_t :=
  host ← get_text root (str "host");
  p ← defined (cJSON_GetObjectItem root (str "port"));
  let port := u16 (valueint p) in
  client_id ← get_text root (str "client_id");
  username ← get_text root (str "username");
  password ← get_text root (str "password");
  product_key ← get_text root (str "product_key");
  device_name ← get_text root (str "device_name");
  Ok (MqttCfg host port client_id username password product_key device_name
        (topic product_key device_name (str "event/property/post"))
        (topic product_key device_name (str "service/property/set"))).

(** [mqtt_cfg_parse] for the result of [file_read], the bytes of the file
    without a terminator: -1, or 0 with the configuration. *)
Definition mqtt_cfg_parse (file : option (list Z)) : res (Z * option mqtt_cfg_t) :=
  match file with
  | None => Ok (-1, None)
  | Some json_data =>
      match cJSON_Parse mem json_data with
      | Ok root => cfg ← cfg_of root; Ok (0, Some cfg)
      | Null _ => Ok (-1, None)
      | Undef => Undef
      | NoFuel => NoFuel
      end
  end.

(** ** The report *)
Record sensors := Sensors { temperature : D; humidity : D; illumination : D }.

Definition add_num (name : list Z) (d : D) (o : node) : node :=
  cJSON_AddItemToObject o name (cJSON_CreateNumber d).

Definition params_tree (s : sensors) (l : Board.lamps) : node :=
  add_int (str "green_led") (Board.green l) (add_int (str "blue_led") (Board.blue l)
    (add_int (str "red_led") (Board.red l) (add_num (str "illumination") (illumination s)
      (add_num (str "humidity") (humidity s) (add_num (str "temperature") (temperature s) cJSON_CreateObject))))).

(** The tree of [mqtt_create_info]; [params] is filled after it was added to
    the root, which points to it.  The static [id] is never written. *)
Definition info_id : Z := 0.

Definition mqtt_info_tree (s : sensors) (l : Board.lamps) : node :=
  add_text (str "version") (str "1.0") (add_text (str "method") (str "thing.event.property.post")
    (add_text (str "id") (snprintf 50 (sprintf_d info_id))
      (cJSON_AddItemToObject cJSON_CreateObject (str "params") (params_tree s l)))).

(** [mqtt_create_info]: [root] and [params] are whether the two objects could
    be allocated; otherwise the function returns a pointer that was never
    set. *)
Definition mqtt_create_info (root params : bool) (s : sensors) (l : Board.lamps) : printed :=
  if root && params then cJSON_PrintUnformatted mem (mqtt_info_tree s l) else None.

(** ** The property message *)
Definition set_lamp (el : node) (l : Board.lamps) : option Board.lamps :=
  let level := if valueint el =? 0 then Board.LED_OFF else Board.LED_ON in
  c ← str_compare (string el) (str "wol");
  if c =? 0 then Some l else
  c ← str_compare (string el) (str "red_led");
  if c =? 0 then Some (Board.led_write Board.RED level l) else
  c ← str_compare (string el) (str "green_led");
  if c =? 0 then Some (Board.led_write Board.GREEN level l) else
  c ← str_compare (string el) (str "blue_led");
  if c =? 0 then Some (Board.led_write Board.BLUE level l) else
  Some l.

Fixpoint set_lamps (els : list node) (l : Board.lamps) : option Board.lamps :=
  match els with
  | [] => Some l
  | el :: els => l ← set_lamp el l; set_lamps els l
  end.

Definition mqtt_handle_set (buffer : ptr) (l : Board.lamps) : res (Z * Board.lamps) :=
  match cJSON_Parse mem buffer with
  | Ok root =>
      match cJSON_GetObjectItem root (str "params") with
      | None => Ok (-1, l)
      | Some params => l ← defined (set_lamps (child params) l); Ok (0, l)
      end
  | Null _ => Ok (-1, l)
  | Undef => Undef
  | NoFuel => NoFuel
  end.

(** ** Messages *)

(** What the module hands to [mqtt_publish]. *)
Record publish := Publish { pub_topic : list Z; payload : list Z }.

(** [mqtt_publish_info]: no report without memory for its text. *)
Definition mqtt_publish_info (s : sensors) (cfg : mqtt_cfg_t) (l : Board.lamps) : res (list publish) :=
  json_data ← defined (mqtt_create_info true true s l);
  Ok (match json_data with None => [] | Some t => [Publish (params_post_topic cfg) t] end).

Record message := Message { topic_name : list Z; buffer : ptr }.

(** The array that holds a topic of the configuration. *)
Definition topic_array (t : list Z) : list Z := t ++ replicate (MAX_TOPIC_LENGTH - length t) 0.

(** [mqtt_message_cb]: the lamps afterwards and what is published. *)
Definition mqtt_message_cb (s : sensors) (cfg : mqtt_cfg_t) (msg : message) (msg_done : bool) (l : Board.lamps)
  : res (Board.lamps * list publish) :=
  if msg_done then
    c ← defined (rt_memcmp (topic_name msg) (topic_array (params_set_topic cfg)) (length (topic_name msg)));
    if c =? 0 then
      '(rc, l) ← mqtt_handle_set (buffer msg) l;
      if rc =? 0 then pubs ← mqtt_publish_info s cfg l; Ok (l, pubs) else Ok (l, [])
    else Ok (l, [])
  else Ok (l, []).

(** ** Comparing strings and topics *)
Lemma str_compare_eq a b : (c ← str_compare (Some a) b; Some (c =? 0)) = Some (bool_decide (a = b)).
Proof.
  unfold str_compare. cbn [mbind option_bind]. destruct (Z.eqb_spec (zlen a) (zlen b)) as [E|E]; cbn [negb].
  - by case_bool_decide.
  - rewrite bool_decide_false; [done|]. by intros ->.
Qed.

Lemma str_compare_if {A} a b (X Y : option A) :
  (c ← str_compare (Some a) b; if c =? 0 then X else Y) = if bool_decide (a = b) then X else Y.
Proof.
  pose proof (str_compare_eq a b) as H. destruct (str_compare (Some a) b) as [c|]; [|done].
  cbn [mbind option_bind] in *. injection H as ->. done.
Qed.

(** A topic without zeros is compared with the text in the array. *)
Lemma rt_memcmp_prefix t : cstring t -> forall u pad, cstring u -> (0 < pad)%nat ->
  exists c, rt_memcmp t (u ++ replicate pad 0) (length t) = Some c /\ (c = 0 <-> t `prefix_of` u).
Proof.
  induction 1 as [|a t Ha Ht IH]; intros u pad Hu Hp.
  - exists 0. split; [done|]. split; [intros _; apply prefix_nil|done].
  - cbn [length rt_memcmp]. destruct Hu as [|b u Hb Hu]; cbn [app].
    + destruct pad as [|pad]; [lia|]. cbn [replicate]. unfold is_cchar in Ha.
      destruct (Z.eqb_spec a 0); [lia|]. exists (a - 0). split; [done|].
      split; [lia|]. intros H. by apply prefix_nil_inv in H.
    + destruct (Z.eqb_spec a b) as [-> |Hab].
      * destruct (IH u pad Hu Hp) as (c & E & Hc). exists c. split; [done|]. rewrite Hc.
        split; [apply prefix_cons|apply prefix_cons_inv_2].
      * exists (a - b). split; [done|]. split; [lia|]. intros H. by apply prefix_cons_inv_1 in H.
Qed.

Lemma topic_fits pk dn last : (length (topic pk dn last) < MAX_TOPIC_LENGTH)%nat.
Proof. unfold topic, snprintf, MAX_TOPIC_LENGTH. rewrite length_take. lia. Qed.

Lemma topic_cstring pk dn last : cstring pk -> cstring dn -> cstring last -> cstring (topic pk dn last).
Proof.
  intros. apply snprintf_cstring. rewrite !Forall_app. split_and!; try done; by_decide.
Qed.

(** ** Lamps *)
Definition led_key (led : Board.led_id_e) : list Z :=
  match led with Board.RED => str "red_led" | Board.GREEN => str "green_led" | Board.BLUE => str "blue_led" end.

Definition bit (led : Board.led_id_e) (l : Board.lamps) : Z :=
  match led with Board.RED => Board.red l | Board.GREEN => Board.green l | Board.BLUE => Board.blue l end.

(** The number given last to a name, if any. *)
Fixpoint last_set (name : list Z) (ps : list (list Z * json)) : option Z :=
  match ps with
  | [] => None
  | (n, v) :: ps =>
      match last_set name ps with
      | Some k => Some k
      | None => match v with JNum k => if bool_decide (n = name) then Some k else None | _ => None end
      end
  end.

Definition level_of (k : Z) : Z := if k =? 0 then Board.LED_OFF else Board.LED_ON.

(** [l'] is [l] after the fields [ps] were applied. *)
Definition applied (ps : list (list Z * json)) (l l' : Board.lamps) : Prop :=
  forall led, (Board.pin led l', bit led l') =
    match last_set (led_key led) ps with
    | Some k => (level_of k, if k =? 0 then 0 else 1)
    | None => (Board.pin led l, bit led l)
    end.

Definition numeric (ps : list (list Z * json)) : Prop :=
  Forall (fun p => forall led, fst p = led_key led -> exists k, snd p = JNum k) ps.

(** One write, as the last field for its lamp. *)
Lemma led_written k on l led :
  (Board.pin led (Board.led_write on (level_of k) l), bit led (Board.led_write on (level_of k) l)) =
  match last_set (led_key led) [(led_key on, JNum k)] with
  | Some k => (level_of k, if k =? 0 then 0 else 1)
  | None => (Board.pin led l, bit led l)
  end.
Proof.
  unfold level_of. cbn [last_set]. case_bool_decide as E.
  - destruct on, led; try discriminate E; cbn; by destruct (k =? 0).
  - destruct on, led; done.
Qed.

Lemma set_lamp_field (n : list Z) v c l :
  repr_field (n, v) c -> (forall led, n = led_key led -> exists k, v = JNum k) ->
  exists l', set_lamp c l = Some l' /\ applied [(n, v)] l l'.
Proof.
  intros (Hs & _ & Hc) Hn. cbn [fst snd] in *. unfold set_lamp. rewrite Hs, !str_compare_if.
  case_bool_decide as Hw; [eexists; split; [done|]; intros led; cbn [last_set];
    subst; destruct v, led; done|].
  assert (Hint : forall led, n = led_key led -> exists k, v = JNum k /\ valueint c = k).
  { intros led E. destruct (Hn led E) as [k ->]. exists k. split; [done|]. apply Hc. }
  case_bool_decide as Hr.
  { destruct (Hint Board.RED Hr) as (k & -> & ->). eexists. split; [done|].
    subst n. intros led. apply (led_written k). }
  case_bool_decide as Hg.
  { destruct (Hint Board.GREEN Hg) as (k & -> & ->). eexists. split; [done|].
    subst n. intros led. apply (led_written k). }
  case_bool_decide as Hb.
  { destruct (Hint Board.BLUE Hb) as (k & -> & ->). eexists. split; [done|].
    subst n. intros led. apply (led_written k). }
  eexists. split; [done|]. intros led. cbn [last_set].
  destruct v, led; try done; cbn [led_key]; by case_bool_decide.
Qed.

Lemma applied_trans p ps l l1 l2 : applied [p] l l1 -> applied ps l1 l2 -> applied (p :: ps) l l2.
Proof.
  intros H1 H2 led. rewrite H2. destruct p as [n v]. specialize (H1 led). cbn [last_set] in *.
  by destruct (last_set (led_key led) ps).
Qed.

Lemma set_lamps_fields ps : forall els l, Forall2 repr_field ps els -> numeric ps ->
  exists l', set_lamps els l = Some l' /\ applied ps l l'.
Proof.
  induction ps as [|[n v] ps IH]; intros els l H Hn; inversion H as [|? c ? els' Hc H']; subst.
  - exists l. split; [done|]. by intros led.
  - apply Forall_cons in Hn as [Hp Hn]. destruct (set_lamp_field n v c l Hc Hp) as (l1 & E1 & A1).
    destruct (IH els' l1 H' Hn) as (l2 & E2 & A2). exists l2. cbn [set_lamps]. rewrite E1.
    split; [done|by eapply applied_trans].
Qed.

(** ** Reading the fields of a configuration *)
Lemma get_text_field l root name s :
  repr (JObj l) root -> lookup_field name l = Some (JStr s) -> get_text root name = Ok s.
Proof.
  intros H E. unfold get_text. pose proof (get_field name l root H) as G. rewrite E in G.
  destruct G as (c & -> & _ & Hc & _). cbn [defined mbind res_bind]. by rewrite Hc.
Qed.

Lemma get_text_missing l root name :
  repr (JObj l) root -> lookup_field name l = None -> get_text root name = Undef.
Proof.
  intros H E. unfold get_text. pose proof (get_field name l root H) as G. rewrite E in G. by rewrite G.
Qed.

(** The report is built with the calls of the library, so it is printable. *)
Lemma mqtt_info_built s l : built (mqtt_info_tree s l).
Proof.
  unfold mqtt_info_tree, params_tree, add_text, add_int, add_num.
  repeat (apply built_add_object; [by_decide| |]);
    first [apply built_object|apply built_number|apply built_string; by_decide].
Qed.

Context `{!DoubleLaws D}.
Hypothesis enough : forall n, mem n = true.

Lemma mqtt_publish_info_one s cfg l :
  exists t, cstring t /\ mqtt_create_info true true s l = Some (Some t) /\
    mqtt_publish_info s cfg l = Ok [Publish (params_post_topic cfg) t].
Proof.
  destruct (print_value_printable mem false (mqtt_info_tree s l) 0) as (t & Ht & [E|[_ [n Hn]]]);
    [done|apply built_well_typed, mqtt_info_built| |by rewrite enough in Hn].
  exists t. unfold mqtt_publish_info, mqtt_create_info, cJSON_PrintUnformatted. cbn [andb]. by rewrite E.
Qed.

Lemma handle_set_lamps fmt fs ps rest l :
  json_ok (JObj fs) -> lookup_field (str "params") fs = Some (JObj ps) -> numeric ps ->
  exists l', mqtt_handle_set (json_text fmt 0 (JObj fs) ++ rest) l = Ok (0, l') /\ applied ps l l'.
Proof.
  intros Hok Hp Hn. unfold mqtt_handle_set.
  destruct (cJSON_Parse_text mem enough fmt (JObj fs) rest Hok I) as (root & -> & Hroot).
  pose proof (get_field (str "params") fs root Hroot) as G. rewrite Hp in G. destruct G as (c & -> & Hc).
  apply repr_obj in Hc as [_ Hc]. destruct (set_lamps_fields ps (child c) l Hc Hn) as (l' & -> & A).
  by exists l'.
Qed.

(** The property message.  The text of any JSON object with a field
    [params] that is an object whose lamp fields are numbers sets each lamp that
    is named to the last number given to it, zero being off, leaves the other
    lamps, and is reported as handled; the pin and the bit that the pages and
    the report show agree.  Other fields, their values and the layout of the
    text do not matter. *)
Theorem mqtt_handle_set_lamps fmt fs ps rest l :
  json_ok (JObj fs) -> lookup_field (str "params") fs = Some (JObj ps) -> numeric ps ->
  exists l', mqtt_handle_set (json_text fmt 0 (JObj fs) ++ rest) l = Ok (0, l') /\
    forall led, (Board.pin led l', bit led l') =
      match last_set (led_key led) ps with
      | Some k => (level_of k, if k =? 0 then 0 else 1)
      | None => (Board.pin led l, bit led l)
      end.
Proof. apply handle_set_lamps. Qed.

(** The message callback.  A finished message is taken as a property
    message exactly when its topic is a prefix of the topic of the
    configuration (the comparison has the length of the topic that arrived, so
    an empty topic is enough): then the lamps are set and one report goes out,
    to the reporting topic; on any other topic, and before the message is
    complete, nothing happens.  No topic makes the comparison leave the array
    of the configuration. *)
Theorem mqtt_message_cb_topic s cfg pk dn t fmt fs ps rest l :
  cstring t -> cstring pk -> cstring dn -> params_set_topic cfg = topic pk dn (str "service/property/set") ->
  json_ok (JObj fs) -> lookup_field (str "params") fs = Some (JObj ps) -> numeric ps ->
  let msg := Message t (json_text fmt 0 (JObj fs) ++ rest) in
  mqtt_message_cb s cfg msg false l = Ok (l, []) /\
  if decide (t `prefix_of` params_set_topic cfg) then
    exists l' report, mqtt_message_cb s cfg msg true l =
        Ok (l', [Publish (params_post_topic cfg) report]) /\
      applied ps l l' /\ cstring report /\ mqtt_create_info true true s l' = Some (Some report)
  else mqtt_message_cb s cfg msg true l = Ok (l, []).
Proof.
  intros Ht Hpk Hdn Hset Hok Hp Hn msg. split; [done|]. unfold mqtt_message_cb, topic_array, msg.
  assert (Hc : cstring (params_set_topic cfg)) by (rewrite Hset; apply topic_cstring; [done..|by_decide]).
  pose proof (topic_fits pk dn (str "service/property/set")) as Hl. rewrite <- Hset in Hl.
  destruct (rt_memcmp_prefix t Ht (params_set_topic cfg) (MAX_TOPIC_LENGTH - length (params_set_topic cfg)) Hc
              ltac:(lia)) as (c & E & Hpre).
  cbn [topic_name buffer]. rewrite E. cbn [defined mbind res_bind]. destruct (Z.eqb_spec c 0) as [-> |Hc0].
  - rewrite decide_True by (by apply Hpre).
    destruct (handle_set_lamps fmt fs ps rest l Hok Hp Hn) as (l' & -> & A). cbn [mbind res_bind].
    destruct (mqtt_publish_info_one s cfg l') as (r & Hr & Hi & ->). by exists l', r.
  - rewrite decide_False by (by rewrite <- Hpre). done.
Qed.

(** The configuration file.  The text of a JSON object, with or without a
    terminator behind it, is read into the configuration: each text from the
    first field of its name (letter case does not count), the port modulo
    2^16, and the two topics, cut to 99 characters.  Without the file the
    result is -1; a missing field is undefined behaviour. *)
Theorem mqtt_cfg_parse_ok fmt fs rest h p ci u pw pk dn :
  json_ok (JObj fs) ->
  lookup_field (str "host") fs = Some (JStr h) -> lookup_field (str "port") fs = Some (JNum p) ->
  lookup_field (str "client_id") fs = Some (JStr ci) -> lookup_field (str "username") fs = Some (JStr u) ->
  lookup_field (str "password") fs = Some (JStr pw) -> lookup_field (str "product_key") fs = Some (JStr pk) ->
  lookup_field (str "device_name") fs = Some (JStr dn) ->
  mqtt_cfg_parse None = Ok (-1, None) /\
  mqtt_cfg_parse (Some (json_text fmt 0 (JObj fs) ++ rest)) =
    Ok (0, Some (MqttCfg h (u16 p) ci u pw pk dn
      (take 99 (str "/sys/" ++ pk ++ str "/" ++ dn ++ str "/thing/event/property/post"))
      (take 99 (str "/sys/" ++ pk ++ str "/" ++ dn ++ str "/thing/service/property/set")))).
Proof.
  intros Hok H1 H2 H3 H4 H5 H6 H7. split; [done|]. unfold mqtt_cfg_parse.
  destruct (cJSON_Parse_text mem enough fmt (JObj fs) rest Hok I) as (root & -> & Hr).
  unfold cfg_of. rewrite (get_text_field fs root _ h Hr H1). cbn [mbind res_bind].
  pose proof (get_field (str "port") fs root Hr) as G. rewrite H2 in G. destruct G as (c & -> & _ & Hc & _).
  cbn [defined mbind res_bind]. rewrite Hc.
  rewrite (get_text_field fs root _ ci Hr H3), (get_text_field fs root _ u Hr H4),
    (get_text_field fs root _ pw Hr H5), (get_text_field fs root _ pk Hr H6),
    (get_text_field fs root _ dn Hr H7).
  reflexivity.
Qed.

Lemma mqtt_cfg_parse_missing fmt fs rest :
  json_ok (JObj fs) -> lookup_field (str "host") fs = None ->
  mqtt_cfg_parse (Some (json_text fmt 0 (JObj fs) ++ rest)) = Undef.
Proof.
  intros Hok H. unfold mqtt_cfg_parse.
  destruct (cJSON_Parse_text mem enough fmt (JObj fs) rest Hok I) as (root & -> & Hr).
  unfold cfg_of. by rewrite (get_text_missing fs root _ Hr H).
Qed.
End Mqtt.

(** ** On concrete messages *)
Definition set_message : list (list Z * json) :=
  [(str "method", JStr (str "thing.service.property.set")); (str "id", JStr (str "1"));
   (str "params", JObj [(str "red_led", JNum 1); (str "other", JNull); (str "blue_led", JNum 0)])].

Definition set_params : list (list Z * json) :=
  [(str "red_led", JNum 1); (str "other", JNull); (str "blue_led", JNum 0)].

Lemma set_params_numeric : numeric set_params.
Proof.
  unfold numeric, set_params. repeat constructor; intros []; cbn [fst snd led_key]; intros E;
    first [discriminate E|by eexists].
Qed.

Lemma set_message_ok : json_ok (JObj set_message).
Proof. cbn. unfold is_int. split_and!; try done; by_decide. Qed.

Definition dark : Board.lamps := Board.Lamps 1 1 1 0 0 0.

(** A message whose [params] is an array makes the module read a name that is
    a null pointer. *)
Example params_array_undefined :
  mqtt_handle_set (D:=decimal) plenty (str "{" ++ [34] ++ str "params" ++ [34] ++ str ":[1]}" ++ [0]) dark = Undef.
Proof. reflexivity. Qed.

Definition sample_cfg : mqtt_cfg_t :=
  MqttCfg (str "h") 1883 (str "c") (str "u") (str "p") (str "pk") (str "dn")
    (topic (str "pk") (str "dn") (str "event/property/post")) (topic (str "pk") (str "dn") (str "service/property/set")).

Definition sample_sensors : sensors (D:=decimal) := Sensors (215, -1) (40, 0) (100, 0).

(** The empty topic is taken for the topic of property messages. *)
Example empty_topic_accepted :
  fst <$> (match mqtt_message_cb plenty sample_sensors sample_cfg
             (Message [] (json_text false 0 (JObj set_message) ++ [0])) true dark with
           | Ok x => Some x | _ => None end) = Some (Board.Lamps 0 1 1 1 0 0).
Proof. reflexivity. Qed.

Lemma mqtt_handle_set_lamps_witness :
  numeric set_params /\
  exists l', mqtt_handle_set (D:=decimal) plenty (json_text true 0 (JObj set_message) ++ [0]) dark = Ok (0, l') /\
    forall led, (Board.pin led l', bit led l') =
      match last_set (led_key led) set_params with
      | Some k => (level_of k, if k =? 0 then 0 else 1)
      | None => (Board.pin led dark, bit led dark)
      end.
Proof.
  exact (conj set_params_numeric (mqtt_handle_set_lamps (D:=decimal) plenty (fun _ => eq_refl) true set_message
    set_params [0] dark set_message_ok eq_refl set_params_numeric)).
Defined.

Lemma mqtt_message_cb_topic_witness :
  cstring (params_set_topic sample_cfg) /\
  if decide (params_set_topic sample_cfg `prefix_of` params_set_topic sample_cfg) then
    exists l' report, mqtt_message_cb plenty sample_sensors sample_cfg
        (Message (params_set_topic sample_cfg) (json_text true 0 (JObj set_message) ++ [0])) true dark =
        Ok (l', [Publish (params_post_topic sample_cfg) report]) /\
      applied set_params dark l' /\ cstring report /\
      mqtt_create_info plenty true true sample_sensors l' = Some (Some report)
  else mqtt_message_cb plenty sample_sensors sample_cfg
         (Message (params_set_topic sample_cfg) (json_text true 0 (JObj set_message) ++ [0])) true dark = Ok (dark, []).
Proof.
  split; [by_decide|].
  exact (proj2 (mqtt_message_cb_topic (D:=decimal) plenty (fun _ => eq_refl) sample_sensors
    sample_cfg (str "pk") (str "dn") (params_set_topic sample_cfg) true set_message set_params [0] dark
    ltac:(by_decide) ltac:(by_decide) ltac:(by_decide) eq_refl set_message_ok eq_refl set_params_numeric)).
Defined.

Definition cfg_file : list (list Z * json) :=
  [(str "host", JStr (str "h")); (str "port", JNum 1883); (str "client_id", JStr (str "c"));
   (str "username", JStr (str "u")); (str "password", JStr (str "p")); (str "product_key", JStr (str "pk"));
   (str "device_name", JStr (str "dn"))].

Lemma cfg_file_ok : json_ok (JObj cfg_file).
Proof. cbn. unfold is_int. split_and!; try done; by_decide. Qed.

Lemma mqtt_cfg_parse_ok_witness :
  json_ok (JObj cfg_file) /\
  mqtt_cfg_parse (D:=decimal) plenty (Some (json_text true 0 (JObj cfg_file))) = Ok (0, Some sample_cfg).
Proof.
  split; [exact cfg_file_ok|].
  pose proof (proj2 (mqtt_cfg_parse_ok (D:=decimal) plenty (fun _ => eq_refl) true cfg_file [] (str "h") 1883 (str "c")
    (str "u") (str "p") (str "pk") (str "dn") cfg_file_ok eq_refl eq_refl eq_refl eq_refl eq_refl eq_refl eq_refl)) as H.
  rewrite app_nil_r in H. exact H.
Defined.
