(* ===== verification/MqttPacket.v ===== *)
(** * MQTT packets

    Models src/packages/wolfMQTT-RTT/src/mqtt_packet.c as it is configured:
    protocol 3.1.1, without the sensor network variant.  A packet is encoded
    into the transmit buffer and decoded in the receive buffer, both of which
    are lists of bytes; a write or a read outside of its buffer is undefined
    ([None]).  The theorems show that a published message is encoded as the
    protocol says, and that decoding gives it back. *)

From S2P Require Import Prelude CLib.

Local Open Scope Z_scope.

(** ** Codes and types *)
Definition MQTT_CODE_SUCCESS : Z := 0.
Definition MQTT_CODE_ERROR_BAD_ARG : Z := -1.
Definition MQTT_CODE_ERROR_OUT_OF_BUFFER : Z := -2.
Definition MQTT_CODE_ERROR_MALFORMED_DATA : Z := -3.
Definition MQTT_CODE_ERROR_PACKET_TYPE : Z := -4.
Definition MQTT_CODE_ERROR_PACKET_ID : Z := -5.
Definition MQTT_CODE_ERROR_TIMEOUT : Z := -7.
Definition MQTT_CODE_ERROR_NETWORK : Z := -8.
Definition MQTT_CODE_ERROR_STAT : Z := -10.

Definition MQTT_PACKET_TYPE_CONNECT : Z := 1.
Definition MQTT_PACKET_TYPE_CONNECT_ACK : Z := 2.
Definition MQTT_PACKET_TYPE_PUBLISH : Z := 3.
Definition MQTT_PACKET_TYPE_PUBLISH_ACK : Z := 4.
Definition MQTT_PACKET_TYPE_PUBLISH_REC : Z := 5.
Definition MQTT_PACKET_TYPE_PUBLISH_REL : Z := 6.
Definition MQTT_PACKET_TYPE_PUBLISH_COMP : Z := 7.
Definition MQTT_PACKET_TYPE_SUBSCRIBE : Z := 8.
Definition MQTT_PACKET_TYPE_SUBSCRIBE_ACK : Z := 9.
Definition MQTT_PACKET_TYPE_UNSUBSCRIBE : Z := 10.
Definition MQTT_PACKET_TYPE_UNSUBSCRIBE_ACK : Z := 11.
Definition MQTT_PACKET_TYPE_PING_REQ : Z := 12.
Definition MQTT_PACKET_TYPE_PING_RESP : Z := 13.
Definition MQTT_PACKET_TYPE_DISCONNECT : Z := 14.
Definition MQTT_PACKET_TYPE_ANY : Z := 16.

Definition MQTT_PACKET_MAX_LEN_BYTES : Z := 4.
Definition MQTT_DATA_LEN_SIZE : Z := 2.

(** ** Numbers and strings *)

(** [MqttEncode_Vbi]: the bytes for a 32-bit [x]; the loop runs five times at
    most.  Without a buffer the function returns their number. *)
Fixpoint encode_vbi (fuel : nat) (x : Z) : list Z :=
  match fuel with
  | O => []
  | S fuel =>
      let encodedByte := x `mod` 128 in
      let x := x / 128 in
      if 0 <? x then Z.lor encodedByte 128 :: encode_vbi fuel x else [encodedByte]
  end.

Definition MqttEncode_Vbi (x : Z) : list Z := encode_vbi 5 (u32 x).

(** [MqttDecode_Vbi] at [off] of the buffer: the return code and the value.
    The loop reads at most five bytes. *)
Fixpoint decode_vbi (fuel : nat) (buf : list Z) (off multiplier value rc : Z) : option (Z * Z) :=
  match fuel with
  | O => None
  | S fuel =>
      encodedByte ← buf_get buf off;
      let value := u32 (value + Z.land encodedByte 127 * multiplier) in
      if 128 * 128 * 128 <? multiplier then Some (MQTT_CODE_ERROR_MALFORMED_DATA, value)
      else
        let multiplier := multiplier * 128 in
        let rc := rc + 1 in
        if negb (Z.land encodedByte 128 =? 0) then decode_vbi fuel buf (off + 1) multiplier value rc
        else Some (rc, value)
  end.

Definition MqttDecode_Vbi (buf : list Z) (off : Z) : option (Z * Z) := decode_vbi 5 buf off 1 0 0.

(** [MqttEncode_Num] of a [word16] *)
Definition MqttEncode_Num (len : Z) : list Z := [Z.shiftr (u16 len) 8; Z.land (u16 len) 255].

Definition MqttDecode_Num (buf : list Z) (off : Z) : option Z :=
  a ← buf_get buf off;
  b ← buf_get buf (off + 1);
  Some (Z.lor (u16 (Z.shiftl a 8)) b).

Definition MqttEncode_String (s : list Z) : list Z := MqttEncode_Num (zlen s) ++ s.

Definition MqttEncode_Data (data : list Z) (data_len : Z) : list Z :=
  MqttEncode_Num data_len ++ take (Z.to_nat (u16 data_len)) data.

(** A cursor in the transmit buffer. *)
Definition put (at_ : list Z * Z) (d : list Z) : option (list Z * Z) :=
  b ← buf_write at_.1 at_.2 d; Some (b, at_.2 + zlen d).

Fixpoint puts (at_ : list Z * Z) (ds : list (list Z)) : option (list Z * Z) :=
  match ds with
  | [] => Some at_
  | d :: ds => at_ ← put at_ d; puts at_ ds
  end.

(** ** The fixed header *)
Definition MQTT_PACKET_FLAG_RETAIN : Z := 1.
Definition MQTT_PACKET_FLAG_DUPLICATE : Z := 8.
Definition MQTT_PACKET_TYPE_SET (x : Z) : Z := Z.shiftl (Z.land x 15) 4.
Definition MQTT_PACKET_FLAGS_SET_QOS (qos : Z) : Z := Z.land (Z.shiftl qos 1) 6.

Definition type_flags (type retain qos duplicate : Z) : Z :=
  let f := MQTT_PACKET_TYPE_SET type in
  let f := if retain =? 0 then f else Z.lor f MQTT_PACKET_FLAG_RETAIN in
  let f := if qos =? 0 then f else Z.lor f (MQTT_PACKET_FLAGS_SET_QOS qos) in
  if duplicate =? 0 then f else Z.lor f MQTT_PACKET_FLAG_DUPLICATE.

(** [MqttEncode_FixedHeader]: the length of the header, or an error, and the
    buffer. *)
Definition MqttEncode_FixedHeader (tx_buf : list Z) (remain_len type retain qos duplicate : Z)
  : option (Z * list Z) :=
  if zlen tx_buf <? MQTT_PACKET_MAX_LEN_BYTES + 1 then Some (MQTT_CODE_ERROR_OUT_OF_BUFFER, tx_buf)
  else
    let len := MqttEncode_Vbi remain_len in
    '(b, _) ← puts (tx_buf, 0) [[type_flags type retain qos duplicate]; len];
    Some (zlen len + 1, b).

Definition MQTT_PACKET_TYPE_GET (x : Z) : Z := Z.land (Z.shiftr x 4) 15.
Definition MQTT_PACKET_FLAGS_GET (x : Z) : Z := Z.land x 15.
Definition MQTT_PACKET_FLAGS_GET_QOS (x : Z) : Z := Z.shiftr (Z.land (MQTT_PACKET_FLAGS_GET x) 6) 1.

(** What [MqttDecode_FixedHeader] finds out. *)
Record fixed_header := FixedHeader { fh_len : Z; fh_remain : Z; fh_qos : Z; fh_retain : Z; fh_duplicate : Z }.

Definition MqttDecode_FixedHeader (rx_buf : list Z) (type : Z) : option (Z + fixed_header) :=
  '(header_len, remain_len) ← MqttDecode_Vbi rx_buf 1;
  if header_len <? 0 then Some (inl header_len)
  else
    f ← buf_get rx_buf 0;
    if negb (MQTT_PACKET_TYPE_GET f =? type) then Some (inl MQTT_CODE_ERROR_PACKET_TYPE)
    else Some (inr (FixedHeader (header_len + 1) (i32 remain_len) (MQTT_PACKET_FLAGS_GET_QOS f)
           (if Z.land (MQTT_PACKET_FLAGS_GET f) MQTT_PACKET_FLAG_RETAIN =? 0 then 0 else 1)
           (if Z.land (MQTT_PACKET_FLAGS_GET f) MQTT_PACKET_FLAG_DUPLICATE =? 0 then 0 else 1))).

(** The encoders that know the length of the whole packet: the header, the
    check for room, and the parts. *)
Definition encode_packet (tx_buf : list Z) (type qos remain_len : Z) (parts : list (list Z)) : option (Z * list Z) :=
  '(header_len, b) ← MqttEncode_FixedHeader tx_buf remain_len type 0 qos 0;
  if header_len <? 0 then Some (header_len, b)
  else if zlen tx_buf <? header_len + remain_len then Some (MQTT_CODE_ERROR_OUT_OF_BUFFER, b)
  else
    '(b, _) ← puts (b, header_len) parts;
    Some (header_len + remain_len, b).

(** ** Messages *)

(** A pointer of a message: null, to memory of the caller, or to an offset of
    the receive buffer. *)
Inductive pointer :=
  | NULL
  | Mem (b : list Z)
  | Rx (off : Z).

Inductive MqttMsgStat := MQTT_MSG_BEGIN | MQTT_MSG_WAIT | MQTT_MSG_WRITE | MQTT_MSG_WRITE_PAYLOAD
  | MQTT_MSG_READ | MQTT_MSG_READ_PAYLOAD.

(** [MqttMessage], with the packet id of its [resp]. *)
Record MqttMessage := MqttMsg {
  stat : MqttMsgStat;
  packet_id : Z;
  qos : Z;
  retain : Z;
  duplicate : Z;
  topic_name : pointer;
  topic_name_len : Z;
  total_len : Z;
  buffer : pointer;
  buffer_len : Z;
  buffer_pos : Z;
  buffer_new : Z;
  intBuf_len : Z;
  intBuf_pos : Z;
  resp_packet_id : Z
}.

Definition set_stat (st : MqttMsgStat) (p : MqttMessage) : MqttMessage :=
  MqttMsg st (packet_id p) (qos p) (retain p) (duplicate p) (topic_name p) (topic_name_len p) (total_len p)
    (buffer p) (buffer_len p) (buffer_pos p) (buffer_new p) (intBuf_len p) (intBuf_pos p) (resp_packet_id p).

Definition set_resp (id : Z) (p : MqttMessage) : MqttMessage :=
  MqttMsg (stat p) (packet_id p) (qos p) (retain p) (duplicate p) (topic_name p) (topic_name_len p) (total_len p)
    (buffer p) (buffer_len p) (buffer_pos p) (buffer_new p) (intBuf_len p) (intBuf_pos p) id.

Definition set_topic (t : pointer) (n : Z) (new : Z) (p : MqttMessage) : MqttMessage :=
  MqttMsg (stat p) (packet_id p) (qos p) (retain p) (duplicate p) t n (total_len p)
    (buffer p) (buffer_len p) (buffer_pos p) new (intBuf_len p) (intBuf_pos p) (resp_packet_id p).

(** The four fields that say how far the payload has been moved. *)
Definition set_payload (b : pointer) (len pos : Z) (p : MqttMessage) : MqttMessage :=
  MqttMsg (stat p) (packet_id p) (qos p) (retain p) (duplicate p) (topic_name p) (topic_name_len p) (total_len p)
    b len pos (buffer_new p) (intBuf_len p) (intBuf_pos p) (resp_packet_id p).

Definition set_intBuf (len pos : Z) (p : MqttMessage) : MqttMessage :=
  MqttMsg (stat p) (packet_id p) (qos p) (retain p) (duplicate p) (topic_name p) (topic_name_len p) (total_len p)
    (buffer p) (buffer_len p) (buffer_pos p) (buffer_new p) len pos (resp_packet_id p).

(** [XMEMSET(&publish, 0, sizeof(MqttPublish))] *)
Definition cleared : MqttMessage := MqttMsg MQTT_MSG_BEGIN 0 0 0 0 NULL 0 0 NULL 0 0 0 0 0 0.

Definition is_null (p : pointer) : bool := match p with NULL => true | _ => false end.

(** [MqttEncode_Publish]: the length that has been encoded or an error, the
    message and the buffer.  [topic] and [payload] are what [topic_name] and
    [buffer] point to.  The topic is written before the room is checked, and
    only if there is a payload. *)
Definition MqttEncode_Publish (tx_buf : list Z) (publish : MqttMessage) (topic payload : list Z) (use_cb : bool)
  : option (Z * MqttMessage * list Z) :=
  let variable_len := zlen topic + MQTT_DATA_LEN_SIZE in
  if (0 <? qos publish) && (packet_id publish =? 0) then Some (MQTT_CODE_ERROR_PACKET_ID, publish, tx_buf)
  else
    let variable_len := if 0 <? qos publish then variable_len + MQTT_DATA_LEN_SIZE else variable_len in
    let payload_len :=
      if (negb (is_null (buffer publish)) || use_cb) && (0 <? total_len publish) then total_len publish else 0 in
    '(header_len, b) ← MqttEncode_FixedHeader tx_buf (variable_len + payload_len) MQTT_PACKET_TYPE_PUBLISH
       (retain publish) (qos publish) (duplicate publish);
    if header_len <? 0 then Some (header_len, publish, b)
    else
      let payload_len := if use_cb then 0 else payload_len in
      '(b, off) ← puts (b, header_len)
        (MqttEncode_String topic :: if 0 <? qos publish then [MqttEncode_Num (packet_id publish)] else []);
      if 0 <? payload_len then
        if zlen tx_buf <? header_len + variable_len then Some (MQTT_CODE_ERROR_OUT_OF_BUFFER, publish, b)
        else
          let payload_len := Z.min payload_len (zlen tx_buf - (header_len + variable_len)) in
          if zlen payload <? payload_len then None
          else
            '(b, _) ← put (b, off) (take (Z.to_nat payload_len) payload);
            let p := set_payload (buffer publish)
                       (if buffer_len publish =? 0 then total_len publish else buffer_len publish)
                       payload_len publish in
            Some (header_len + variable_len + payload_len, set_intBuf payload_len 0 p, b)
      else Some (header_len + variable_len + payload_len, set_intBuf payload_len 0 publish, b).

(** [MqttDecode_Publish] of the first [rx_buf_len] bytes: the length of the
    packet or an error, and the message. *)
Definition MqttDecode_Publish (rx_buf : list Z) (rx_buf_len : Z) (p : MqttMessage) : option (Z * MqttMessage) :=
  if rx_buf_len <=? 0 then Some (MQTT_CODE_ERROR_BAD_ARG, p)
  else
    h ← MqttDecode_FixedHeader rx_buf MQTT_PACKET_TYPE_PUBLISH;
    match h with
    | inl e => Some (e, p)
    | inr h =>
        len ← MqttDecode_Num rx_buf (fh_len h);
        let variable_len := MQTT_DATA_LEN_SIZE + len in
        '(id, variable_len) ←
          (if 0 <? fh_qos h then id ← MqttDecode_Num rx_buf (fh_len h + variable_len);
                                 Some (id, variable_len + MQTT_DATA_LEN_SIZE)
           else Some (packet_id p, variable_len));
        let payload_len := fh_remain h - variable_len in
        let off := fh_len h + variable_len in
        let buffer_len := if rx_buf_len - off <? i32 (u32 payload_len) then u32 (rx_buf_len - off) else u32 payload_len in
        Some (off + payload_len,
              MqttMsg (stat p) id (fh_qos h) (fh_retain h) (fh_duplicate h) (Rx (fh_len h + MQTT_DATA_LEN_SIZE)) len
                (u32 payload_len) (Rx off) buffer_len 0 1 (intBuf_len p) (intBuf_pos p) (resp_packet_id p))
    end.

(** ** Answers to a message *)

(** [MqttEncode_PublishResp] *)
Definition MqttEncode_PublishResp (tx_buf : list Z) (type id : Z) : option (Z * list Z) :=
  let qos := if type =? MQTT_PACKET_TYPE_PUBLISH_REL then 1 else 0 in
  encode_packet tx_buf type qos MQTT_DATA_LEN_SIZE [MqttEncode_Num id].

(** The decoders of an answer that starts with a packet id, [PublishResp],
    [SubscribeAck] and [UnsubscribeAck]: the length or an error, the id and
    where the return codes are. *)
Definition decode_ack (rx_buf : list Z) (rx_buf_len type : Z) : option (Z * Z * Z) :=
  if rx_buf_len <=? 0 then Some (MQTT_CODE_ERROR_BAD_ARG, 0, 0)
  else
    h ← MqttDecode_FixedHeader rx_buf type;
    match h with
    | inl e => Some (e, 0, 0)
    | inr h =>
        id ← MqttDecode_Num rx_buf (fh_len h);
        Some (fh_len h + fh_remain h, id, fh_len h + MQTT_DATA_LEN_SIZE)
    end.

(** [MqttDecode_ConnectAck]: the length or an error, the flags and the return
    code. *)
Definition MqttDecode_ConnectAck (rx_buf : list Z) (rx_buf_len : Z) : option (Z * Z * Z) :=
  if rx_buf_len <=? 0 then Some (MQTT_CODE_ERROR_BAD_ARG, 0, 0)
  else
    h ← MqttDecode_FixedHeader rx_buf MQTT_PACKET_TYPE_CONNECT_ACK;
    match h with
    | inl e => Some (e, 0, 0)
    | inr h =>
        flags ← buf_get rx_buf (fh_len h);
        return_code ← buf_get rx_buf (fh_len h + 1);
        Some (fh_len h + fh_remain h, flags, return_code)
    end.

(** [MqttDecode_Ping] *)
Definition MqttDecode_Ping (rx_buf : list Z) (rx_buf_len : Z) : option Z :=
  if rx_buf_len <=? 0 then Some MQTT_CODE_ERROR_BAD_ARG
  else
    h ← MqttDecode_FixedHeader rx_buf MQTT_PACKET_TYPE_PING_RESP;
    Some (match h with inl e => e | inr h => fh_len h + fh_remain h end).

(** ** What the client sends *)

(** The last will of [MqttConnect]. *)
Record last_will := LastWill { lwt_qos : Z; lwt_retain : Z; lwt_topic : option (list Z); lwt_buffer : option (list Z);
  lwt_total_len : Z }.

Record MqttConnect := MkConnect {
  keep_alive_sec : Z;
  clean_session : bool;
  client_id : option (list Z);
  protocol_level : Z;
  enable_lwt : bool;
  lwt_msg : option last_will;
  username : option (list Z);
  password : option (list Z)
}.

Definition MQTT_CONNECT_PROTOCOL_LEVEL : Z := 4.

Definition opt_string (s : option (list Z)) : list (list Z) :=
  match s with Some s => [MqttEncode_String s] | None => [] end.

Definition opt_len (s : option (list Z)) : Z :=
  match s with Some s => zlen s + MQTT_DATA_LEN_SIZE | None => 0 end.

(** The parts of the last will, their counted length and the flags; [Some None]
    if a field that is needed is a null pointer. *)
Definition will_parts (c : MqttConnect) : option (option (list (list Z) * Z * Z)) :=
  if negb (enable_lwt c) then Some (Some ([], 0, 0))
  else
    match lwt_msg c with
    | Some (LastWill q r (Some t) b n) =>
        let len := zlen t + MQTT_DATA_LEN_SIZE + n + MQTT_DATA_LEN_SIZE in
        let flags := Z.lor 4 (Z.lor (Z.land (Z.shiftl q 3) 24) (if r =? 0 then 0 else 32)) in
        match b with
        | None => Some (if n =? 0 then Some ([MqttEncode_String t; MqttEncode_Num 0], len, flags) else None)
        | Some b => if zlen b <? u16 n then None
                    else Some (Some ([MqttEncode_String t; MqttEncode_Data b n], len, flags))
        end
    | _ => Some None
    end.

(** [MqttEncode_Connect].  Without a user name two bytes are written that are
    not counted. *)
Definition MqttEncode_Connect (tx_buf : list Z) (c : MqttConnect) : option (Z * list Z) :=
  will ← will_parts c;
  match client_id c, will with
  | Some id, Some (will, will_len, will_flags) =>
      let remain_len := 10 + (zlen id + MQTT_DATA_LEN_SIZE) + will_len + opt_len (username c) + opt_len (password c) in
      let flags := Z.lor (Z.lor (Z.lor (if clean_session c then 2 else 0) will_flags)
                     (if username c is Some _ then 128 else 0)) (if password c is Some _ then 64 else 0) in
      let head := [0; 4] ++ str "MQTT" ++
        [if protocol_level c =? 0 then MQTT_CONNECT_PROTOCOL_LEVEL else protocol_level c; flags] ++
        MqttEncode_Num (keep_alive_sec c) in
      let user := match username c with Some u => MqttEncode_String u | None => MqttEncode_Num 0 end in
      encode_packet tx_buf MQTT_PACKET_TYPE_CONNECT 0 remain_len
        (head :: MqttEncode_String id :: will ++ user :: opt_string (password c))
  | _, _ => Some (MQTT_CODE_ERROR_BAD_ARG, tx_buf)
  end.

(** A topic filter and the quality asked for. *)
Record MqttTopic := Topic { topic_filter : option (list Z); topic_qos : Z; topic_return_code : Z }.

Definition filters (ts : list MqttTopic) : option (list (list Z * Z)) :=
  mapM (fun t => f ← topic_filter t; Some (f, topic_qos t)) ts.

(** [MqttEncode_Subscribe], [MqttEncode_Unsubscribe] *)
Definition MqttEncode_Subscribe (tx_buf : list Z) (id : Z) (ts : list MqttTopic) : option (Z * list Z) :=
  match filters ts with
  | None => Some (MQTT_CODE_ERROR_BAD_ARG, tx_buf)
  | Some fs =>
      let parts := MqttEncode_Num id :: map (fun f => MqttEncode_String f.1 ++ [f.2]) fs in
      encode_packet tx_buf MQTT_PACKET_TYPE_SUBSCRIBE 1 (zlen (concat parts)) parts
  end.

Definition MqttEncode_Unsubscribe (tx_buf : list Z) (id : Z) (ts : list MqttTopic) : option (Z * list Z) :=
  match filters ts with
  | None => Some (MQTT_CODE_ERROR_BAD_ARG, tx_buf)
  | Some fs =>
      let parts := MqttEncode_Num id :: map (fun f => MqttEncode_String f.1) fs in
      encode_packet tx_buf MQTT_PACKET_TYPE_UNSUBSCRIBE 1 (zlen (concat parts)) parts
  end.

(** [MqttEncode_Ping] and [MqttEncode_Disconnect] of a packet that is only a
    header. *)
Definition MqttEncode_Ping (tx_buf : list Z) : option (Z * list Z) :=
  MqttEncode_FixedHeader tx_buf 0 MQTT_PACKET_TYPE_PING_REQ 0 0 0.

Definition MqttEncode_Disconnect (tx_buf : list Z) : option (Z * list Z) :=
  encode_packet tx_buf MQTT_PACKET_TYPE_DISCONNECT 0 0 [].

(** ** Numbers give back what was encoded *)
Lemma buf_get_here {A} (pre rest : list A) x : buf_get (pre ++ x :: rest) (zlen pre) = Some x.
Proof. rewrite <- (Z.add_0_r (zlen pre)), buf_get_app_r by lia. done. Qed.

Lemma buf_get_next {A} (pre rest : list A) x y : buf_get (pre ++ x :: y :: rest) (zlen pre + 1) = Some y.
Proof. by rewrite buf_get_app_r by lia. Qed.

Lemma land_127 x : 0 <= x < 128 -> Z.land x 127 = x /\ Z.land (Z.lor x 128) 127 = x /\ Z.land (Z.lor x 128) 128 = 128 /\
  Z.land x 128 = 0.
Proof.
  intros H. split_and!; [|change x with (id x) at 2| |];
    [apply (forall_range_eq (fun x => Z.land x 127) (fun x => x) 128 ltac:(by vm_compute) x H)
    |apply (forall_range_eq (fun x => Z.land (Z.lor x 128) 127) (fun x => x) 128 ltac:(by vm_compute) x H)
    |apply (forall_range_eq (fun x => Z.land (Z.lor x 128) 128) (fun x => 128) 128 ltac:(by vm_compute) x H)
    |apply (forall_range_eq (fun x => Z.land x 128) (fun x => 0) 128 ltac:(by vm_compute) x H)].
Qed.

Lemma encode_vbi_length n x : 0 <= x -> (1 <= length (encode_vbi (S n) x) <= S n)%nat.
Proof.
  revert x. induction n as [|n IH]; intros x Hx; cbn [encode_vbi]; destruct (0 <? x / 128); cbn [length]; try lia.
  specialize (IH (x / 128) ltac:(apply Z.div_pos; lia)). cbn [encode_vbi] in IH. lia.
Qed.

Lemma decode_vbi_step n pre rest b m v rc :
  decode_vbi (S n) (pre ++ b :: rest) (zlen pre) m v rc =
    let v := u32 (v + Z.land b 127 * m) in
    if 128 * 128 * 128 <? m then Some (MQTT_CODE_ERROR_MALFORMED_DATA, v)
    else if negb (Z.land b 128 =? 0) then
      decode_vbi n ((pre ++ [b]) ++ rest) (zlen (pre ++ [b])) (m * 128) v (rc + 1)
    else Some (rc + 1, v).
Proof.
  cbn [decode_vbi]. rewrite buf_get_here, <- app_assoc. autorewrite with zlen. change (zlen [b]) with 1. done.
Qed.

(** The digits that are left, read with the multiplier that is reached. *)
Lemma vbi_digits n : forall k x v rc pre rest, (1 <= n)%nat -> (n + k = 4)%nat ->
  0 <= x < 128 ^ Z.of_nat n -> 0 <= v < 128 ^ Z.of_nat k ->
  decode_vbi (S n) (pre ++ encode_vbi (S n) x ++ rest) (zlen pre) (128 ^ Z.of_nat k) v rc =
    Some (rc + zlen (encode_vbi (S n) x), v + x * 128 ^ Z.of_nat k).
Proof.
  induction n as [|n IH]; [lia|]. intros k x v rc pre rest _ Hk Hx Hv.
  assert (Hm : 1 <= 128 ^ Z.of_nat k <= 128 ^ 3).
  { split; [apply (Z.pow_le_mono_r 128 0); lia|apply Z.pow_le_mono_r; lia]. }
  assert (Hd : x = 128 * (x / 128) + x mod 128) by (apply Z.div_mod; lia).
  pose proof (Z.mod_pos_bound x 128 ltac:(lia)) as Hb.
  destruct (land_127 (x mod 128) Hb) as (L1 & L2 & L3 & L4).
  assert (Hv2 : v + x mod 128 * 128 ^ Z.of_nat k < 2 ^ 32) by nia.
  assert (Hc : (128 * 128 * 128 <? 128 ^ Z.of_nat k) = false) by (apply Z.ltb_ge; lia).
  set (m := S n). cbn [encode_vbi]. destruct (Z.ltb_spec 0 (x / 128)) as [Hq|Hq]; subst m.
  - assert (Hn : (1 <= n)%nat).
    { destruct n; [|lia]. change (128 ^ Z.of_nat 1) with 128 in Hx. rewrite Z.div_small in Hq by lia. lia. }
    cbn [app]. rewrite decode_vbi_step, L2, L3, Hc, u32_id by lia. cbn [Z.eqb negb].
    replace (128 ^ Z.of_nat k * 128) with (128 ^ Z.of_nat (S k)) by (rewrite Nat2Z.inj_succ, Z.pow_succ_r; lia).
    rewrite IH; [|done|lia| |].
    + f_equal. f_equal; [rewrite zlen_cons; lia|]. rewrite Nat2Z.inj_succ, Z.pow_succ_r by lia. nia.
    + rewrite Nat2Z.inj_succ, Z.pow_succ_r in Hx by lia. split; [lia|]. apply Z.div_lt_upper_bound; lia.
    + rewrite Nat2Z.inj_succ, Z.pow_succ_r by lia. nia.
  - assert (x / 128 = 0) by (pose proof (Z.div_pos x 128); lia).
    cbn [app]. rewrite decode_vbi_step, L1, L4, Hc, u32_id by lia. cbn. f_equal. f_equal. nia.
Qed.

Lemma vbi_decoded x pre rest : 0 <= x < 2 ^ 28 ->
  MqttDecode_Vbi (pre ++ MqttEncode_Vbi x ++ rest) (zlen pre) = Some (zlen (MqttEncode_Vbi x), x).
Proof.
  intros Hx. unfold MqttDecode_Vbi, MqttEncode_Vbi. rewrite u32_id by lia.
  rewrite (vbi_digits 4 0 x 0 0) by (lia || (change (128 ^ Z.of_nat 4) with (2 ^ 28); lia)).
  f_equal. f_equal. change (128 ^ Z.of_nat 0) with 1. lia.
Qed.

Lemma vbi_length x : 1 <= zlen (MqttEncode_Vbi x) <= 5.
Proof. unfold MqttEncode_Vbi, zlen. pose proof (encode_vbi_length 4 (u32 x)) as H. pose proof (u32_range x). lia. Qed.

Lemma vbi_length_small x : 0 <= x < 2 ^ 28 -> zlen (MqttEncode_Vbi x) <= 4.
Proof.
  intros Hx. unfold MqttEncode_Vbi. rewrite u32_id by lia.
  assert (K : forall n y, 0 <= y < 128 ^ Z.of_nat (S n) -> (length (encode_vbi (S (S n)) y) <= S n)%nat).
  { induction n as [|n IH]; intros y Hy.
    - change (128 ^ Z.of_nat 1) with 128 in Hy. cbn [encode_vbi]. rewrite Z.div_small by lia. done.
    - rewrite Nat2Z.inj_succ, Z.pow_succ_r in Hy by lia. specialize (IH (y / 128)).
      set (m := S (S n)) in *. cbn [encode_vbi]. destruct (0 <? y / 128); cbn [length]; [|lia].
      assert (0 <= y / 128 < 128 ^ Z.of_nat (S n)) by (split; [apply Z.div_pos; lia|apply Z.div_lt_upper_bound; lia]).
      specialize (IH H). lia. }
  specialize (K 3%nat x ltac:(change (128 ^ Z.of_nat 4) with (2 ^ 28); lia)). unfold zlen. lia.
Qed.

Lemma num_length n : zlen (MqttEncode_Num n) = 2.
Proof. done. Qed.

Lemma num_value n : 0 <= n < 2 ^ 16 ->
  Z.lor (u16 (Z.shiftl (Z.shiftr (u16 n) 8) 8)) (Z.land (u16 n) 255) = n.
Proof.
  intros Hn. rewrite (u16_id n) by lia. rewrite shr_div, (land_mask _ 255 8) by done.
  change (2 ^ 8) with 256. pose proof (Z.div_mod n 256). pose proof (Z.mod_pos_bound n 256).
  rewrite u16_id by (rewrite Z.shiftl_mul_pow2 by lia; change (2 ^ 8) with 256; lia).
  rewrite join_digit by lia. change (2 ^ 8) with 256. lia.
Qed.

Lemma num_decoded n pre rest : 0 <= n < 2 ^ 16 ->
  MqttDecode_Num (pre ++ MqttEncode_Num n ++ rest) (zlen pre) = Some n.
Proof.
  intros Hn. unfold MqttDecode_Num, MqttEncode_Num. cbn [app].
  rewrite buf_get_here, buf_get_next. cbn [mbind option_bind]. by rewrite num_value.
Qed.

(** ** Published messages *)

(** What the protocol says: everything of the packet but its payload of
    [total] bytes. *)
Definition publish_head (retain qos duplicate id : Z) (topic : list Z) (total : Z) : list Z :=
  [type_flags MQTT_PACKET_TYPE_PUBLISH retain qos duplicate] ++
  MqttEncode_Vbi (zlen topic + 2 + (if 0 <? qos then 2 else 0) + total) ++
  MqttEncode_String topic ++ (if 0 <? qos then MqttEncode_Num id else []).

(** A message that the protocol allows. *)
Record publishable (retain qos duplicate id : Z) (topic : list Z) (total : Z) : Prop := {
  pub_qos : 0 <= qos <= 2;
  pub_retain : 0 <= retain <= 1;
  pub_duplicate : 0 <= duplicate <= 1;
  pub_id : 0 <= id < 2 ^ 16 /\ (0 < qos -> 0 < id);
  pub_topic : zlen topic < 2 ^ 16;
  pub_total : 0 <= total /\ zlen topic + 4 + total < 2 ^ 28
}.

Lemma puts_all ds : forall p q, (length (concat ds) <= length q)%nat ->
  puts (p ++ q, zlen p) ds = Some ((p ++ concat ds) ++ drop (length (concat ds)) q, zlen (p ++ concat ds)).
Proof.
  induction ds as [|d ds IH]; intros p q Hq; cbn [puts concat].
  - by rewrite app_nil_r.
  - cbn [concat] in Hq. rewrite length_app in Hq. unfold put at 1. cbn [fst snd].
    rewrite buf_write_at by (done || (unfold zlen; lia)). cbn [mbind option_bind].
    rewrite <- zlen_app, IH by (rewrite length_drop; lia).
    by rewrite drop_drop, length_app, <- !app_assoc.
Qed.

Lemma puts_start ds b : (length (concat ds) <= length b)%nat ->
  puts (b, 0) ds = Some (concat ds ++ drop (length (concat ds)) b, zlen (concat ds)).
Proof. apply (puts_all ds []). Qed.

Lemma fixed_header_encoded b remain type retain qos duplicate :
  5 <= zlen b -> 0 <= remain < 2 ^ 28 ->
  let h := type_flags type retain qos duplicate :: MqttEncode_Vbi remain in
  MqttEncode_FixedHeader b remain type retain qos duplicate = Some (zlen h, h ++ drop (length h) b).
Proof.
  intros Hb Hr h. unfold MqttEncode_FixedHeader, MQTT_PACKET_MAX_LEN_BYTES.
  destruct (Z.ltb_spec (zlen b) (4 + 1)); [lia|].
  pose proof (vbi_length_small remain Hr) as Hv. rewrite puts_start.
  - cbn [mbind option_bind concat app]. rewrite app_nil_r. subst h. f_equal. f_equal.
    autorewrite with zlen. lia.
  - cbn [concat app length]. rewrite app_nil_r. unfold zlen in *. lia.
Qed.

(** The flags of the first byte. *)
Lemma flags_decoded type retain qos duplicate :
  1 <= type <= 14 -> 0 <= qos <= 2 -> 0 <= retain <= 1 -> 0 <= duplicate <= 1 ->
  let f := type_flags type retain qos duplicate in
  MQTT_PACKET_TYPE_GET f = type /\ MQTT_PACKET_FLAGS_GET_QOS f = qos /\
  (if Z.land (MQTT_PACKET_FLAGS_GET f) MQTT_PACKET_FLAG_RETAIN =? 0 then 0 else 1) = retain /\
  (if Z.land (MQTT_PACKET_FLAGS_GET f) MQTT_PACKET_FLAG_DUPLICATE =? 0 then 0 else 1) = duplicate.
Proof.
  intros Ht Hq Hr Hd f.
  assert (Ht' : In type (map Z.of_nat (seq 1 14))) by (apply in_map_iff; exists (Z.to_nat type); rewrite in_seq; lia).
  assert (Hq' : In qos [0; 1; 2]) by (cbn; lia). assert (Hr' : In retain [0; 1]) by (cbn; lia).
  assert (Hd' : In duplicate [0; 1]) by (cbn; lia). clear Ht Hq Hr Hd. cbn in Ht'. subst f.
  destruct Ht' as [<-|[<-|[<-|[<-|[<-|[<-|[<-|[<-|[<-|[<-|[<-|[<-|[<-|[<-|[]]]]]]]]]]]]]]];
    destruct Hq' as [<-|[<-|[<-|[]]]]; destruct Hr' as [<-|[<-|[]]]; destruct Hd' as [<-|[<-|[]]]; by vm_compute.
Qed.

Lemma fixed_header_decoded type retain qos duplicate remain rest :
  1 <= type <= 14 -> 0 <= qos <= 2 -> 0 <= retain <= 1 -> 0 <= duplicate <= 1 -> 0 <= remain < 2 ^ 28 ->
  let h := type_flags type retain qos duplicate :: MqttEncode_Vbi remain in
  MqttDecode_FixedHeader (h ++ rest) type = Some (inr (FixedHeader (zlen h) remain qos retain duplicate)).
Proof.
  intros Ht Hq Hr Hd Hn h. unfold MqttDecode_FixedHeader, h.
  pose proof (vbi_decoded remain [type_flags type retain qos duplicate] rest Hn) as Hv.
  cbn [app] in Hv |- *. change (zlen [type_flags type retain qos duplicate]) with 1 in Hv.
  rewrite Hv. cbn [mbind option_bind].
  destruct (flags_decoded type retain qos duplicate Ht Hq Hr Hd) as (E1 & E2 & E3 & E4).
  destruct (Z.ltb_spec (zlen (MqttEncode_Vbi remain)) 0); [pose proof (vbi_length remain); lia|].

  change (buf_get (type_flags type retain qos duplicate :: MqttEncode_Vbi remain ++ rest) 0)
    with (Some (type_flags type retain qos duplicate)). cbn [mbind option_bind].
  rewrite E1, Z.eqb_refl, E2, E3, E4. cbn [negb].
  rewrite i32_id by lia. do 3 f_equal. autorewrite with zlen. lia.
Qed.

(** Where the topic is in the packet. *)
Definition topic_off (qos : Z) (topic : list Z) (total : Z) : Z :=
  3 + zlen (MqttEncode_Vbi (zlen topic + 2 + (if 0 <? qos then 2 else 0) + total)).

Lemma head_length retain qos duplicate id topic total :
  zlen (publish_head retain qos duplicate id topic total) =
    topic_off qos topic total + zlen topic + (if 0 <? qos then 2 else 0).
Proof.
  unfold publish_head, topic_off, MqttEncode_String. autorewrite with zlen. rewrite num_length.
  set (v := zlen (MqttEncode_Vbi _)). clearbody v. destruct (0 <? qos); [rewrite num_length|change (@zlen Z []) with 0]; lia.
Qed.

Lemma head_positive retain qos duplicate id topic total :
  4 <= zlen (publish_head retain qos duplicate id topic total).
Proof.
  rewrite head_length. unfold topic_off. set (x := _ + total). pose proof (vbi_length x). pose proof (zlen_nonneg topic).
  destruct (0 <? qos); lia.
Qed.

Lemma topic_at retain qos duplicate id topic total rest :
  buf_sub (publish_head retain qos duplicate id topic total ++ rest) (topic_off qos topic total) (zlen topic) = topic.
Proof.
  unfold publish_head, MqttEncode_String, topic_off. set (v := MqttEncode_Vbi _).
  rewrite <- !app_assoc, (app_assoc [_] v), (app_assoc (_ ++ v)).
  set (pre := (_ ++ v) ++ MqttEncode_Num _).
  assert (E : zlen pre = 3 + zlen v) by (subst pre; autorewrite with zlen; rewrite num_length; lia).
  rewrite buf_sub_skip, E, Z.sub_diag, buf_sub_app_l by (try apply zlen_nonneg; lia). apply buf_sub_all.
Qed.

Section Publish.
Context (rt q dup id : Z) (topic : list Z) (total : Z).
Hypothesis Hp : publishable rt q dup id topic total.

Lemma remain_range : 0 <= zlen topic + 2 + (if 0 <? q then 2 else 0) + total < 2 ^ 28.
Proof. pose proof (pub_total _ _ _ _ _ _ Hp). pose proof (zlen_nonneg topic). case_match; lia. Qed.

(** Encoding a whole payload, as much of it as there is room for. *)
Lemma publish_encoded tx p payload :
  retain p = rt -> qos p = q -> duplicate p = dup -> packet_id p = id -> total_len p = total ->
  is_null (buffer p) = false -> buffer_len p = 0 -> total <= zlen payload ->
  let head := publish_head rt q dup id topic total in
  let n := Z.min total (zlen tx - zlen head) in
  let pk := head ++ take (Z.to_nat n) payload in
  zlen head <= zlen tx -> 5 <= zlen tx ->
  MqttEncode_Publish tx p topic payload false =
    Some (zlen pk, set_intBuf n 0 (if 0 <? total then set_payload (buffer p) total n p else p), pk ++ drop (length pk) tx).
Proof.
  intros Hr Hq Hd Hi Ht Hb Hl Hz head n pk Hroom H5. unfold MqttEncode_Publish. rewrite Hr, Hq, Hd, Hi, Ht, Hb, Hl.
  pose proof remain_range as Hrem. pose proof (head_length rt q dup id topic total) as Hh. fold head in Hh.
  pose proof (vbi_length (zlen topic + 2 + (if 0 <? q then 2 else 0) + total)) as Hv. unfold topic_off in Hh.
  pose proof (pub_id _ _ _ _ _ _ Hp) as Hid.
  replace ((0 <? q) && (id =? 0)) with false by (destruct (Z.ltb_spec 0 q), (Z.eqb_spec id 0); (done || lia)).
  cbn [negb orb andb].
  replace (if 0 <? total then total else 0) with total
    by (pose proof (pub_total _ _ _ _ _ _ Hp); destruct (Z.ltb_spec 0 total); lia).
  replace (if 0 <? q then zlen topic + MQTT_DATA_LEN_SIZE + MQTT_DATA_LEN_SIZE else zlen topic + MQTT_DATA_LEN_SIZE)
    with (zlen topic + 2 + (if 0 <? q then 2 else 0)) by (unfold MQTT_DATA_LEN_SIZE; case_match; lia).
  set (vh := MqttEncode_String topic :: _).
  set (h := type_flags MQTT_PACKET_TYPE_PUBLISH rt q dup :: MqttEncode_Vbi (zlen topic + 2 + (if 0 <? q then 2 else 0) + total)).
  assert (E : h ++ concat vh = head).
  { unfold h, vh, head, publish_head. cbn [concat app].
    by destruct (0 <? q); cbn [concat]; rewrite ?app_nil_r. }
  pose proof (fixed_header_encoded tx _ MQTT_PACKET_TYPE_PUBLISH rt q dup H5 Hrem) as Ef. cbv zeta in Ef. fold h in Ef.
  rewrite Ef. cbn [mbind option_bind]. destruct (Z.ltb_spec (zlen h) 0); [pose proof (zlen_nonneg h); lia|].
  assert (Hlen : zlen h + zlen (concat vh) = zlen head) by (by rewrite <- E, zlen_app).
  rewrite puts_all, E, drop_drop, <- length_app, E by (rewrite length_drop; unfold zlen in *; lia). cbn [mbind option_bind].
  replace (zlen h + (zlen topic + 2 + (if 0 <? q then 2 else 0))) with (zlen head)
    by (rewrite Hh; unfold h; rewrite zlen_cons; lia).
  fold n. assert (Hn : 0 <= n <= total) by (pose proof (pub_total _ _ _ _ _ _ Hp); lia).
  assert (Hpk : zlen pk = zlen head + n) by (unfold pk; autorewrite with zlen; lia).
  destruct (Z.ltb_spec 0 total) as [H0|H0].
  - destruct (Z.ltb_spec (zlen tx) (zlen head)); [lia|]. destruct (Z.ltb_spec (zlen payload) n); [lia|].
    unfold put. cbn [fst snd]. rewrite buf_write_at by (done || (autorewrite with zlen; unfold zlen in *; lia)).
    cbn [mbind option_bind]. fold pk. rewrite drop_drop, <- length_app, Hpk. done.
  - assert (Ep : pk = head) by (unfold pk; replace n with 0 by lia; apply app_nil_r).
    rewrite Hpk, Ep. by replace total with n by lia.
Qed.

Lemma publish_decoded body junk p : zlen body <= total ->
  let head := publish_head rt q dup id topic total in
  MqttDecode_Publish (head ++ body ++ junk) (zlen head + zlen body) p =
    Some (zlen head + total, MqttMsg (stat p) (if 0 <? q then id else packet_id p) q rt dup
      (Rx (topic_off q topic total)) (zlen topic) total (Rx (zlen head)) (zlen body) 0 1 (intBuf_len p) (intBuf_pos p)
      (resp_packet_id p)).
Proof.
  intros Hb head. unfold MqttDecode_Publish.
  pose proof remain_range as Hrem. pose proof (head_length rt q dup id topic total) as Hh. fold head in Hh.
  pose proof (vbi_length (zlen topic + 2 + (if 0 <? q then 2 else 0) + total)) as Hv.
  pose proof (zlen_nonneg body). pose proof (zlen_nonneg topic).
  pose proof (pub_id _ _ _ _ _ _ Hp) as Hid. pose proof (pub_topic _ _ _ _ _ _ Hp) as Htl.
  destruct (Z.leb_spec (zlen head + zlen body) 0);
    [unfold topic_off in Hh; destruct (0 <? q); lia|].
  set (h := type_flags MQTT_PACKET_TYPE_PUBLISH rt q dup :: MqttEncode_Vbi (zlen topic + 2 + (if 0 <? q then 2 else 0) + total)).
  assert (E : head ++ body ++ junk = h ++ MqttEncode_Num (zlen topic) ++ topic ++
    (if 0 <? q then MqttEncode_Num id else []) ++ body ++ junk).
  { unfold head, publish_head, h, MqttEncode_String. cbn [app]. rewrite <- ?app_assoc. cbn [app]. by rewrite <- ?app_assoc. }
  rewrite E. unfold h at 1.
  pose proof (fixed_header_decoded MQTT_PACKET_TYPE_PUBLISH rt q dup _
    (MqttEncode_Num (zlen topic) ++ topic ++ (if 0 <? q then MqttEncode_Num id else []) ++ body ++ junk)
    ltac:(by_decide) (pub_qos _ _ _ _ _ _ Hp) (pub_retain _ _ _ _ _ _ Hp) (pub_duplicate _ _ _ _ _ _ Hp) Hrem) as Ef.
  cbv zeta in Ef. fold h in Ef |- *. rewrite Ef. cbn [mbind option_bind fh_len fh_qos fh_remain fh_retain fh_duplicate].
  rewrite num_decoded by lia. cbn [mbind option_bind].
  assert (Hl : topic_off q topic total = zlen h + 2) by (unfold topic_off, h; rewrite zlen_cons; lia).
  set (bs := h ++ _). set (w := if 0 <? q then 2 else 0) in *.
  match goal with |- (?x ≫= _) = _ => assert (Ei : x = Some (if 0 <? q then id else packet_id p, 2 + zlen topic + w)) end.
  { unfold w. destruct (Z.ltb_spec 0 q); [|unfold MQTT_DATA_LEN_SIZE; by rewrite Z.add_0_r].
    replace (zlen h + (MQTT_DATA_LEN_SIZE + zlen topic)) with (zlen (h ++ MqttEncode_Num (zlen topic) ++ topic))
      by (autorewrite with zlen; rewrite num_length; unfold MQTT_DATA_LEN_SIZE; lia).
    replace bs with ((h ++ MqttEncode_Num (zlen topic) ++ topic) ++ MqttEncode_Num id ++ body ++ junk)
      by (unfold bs; rewrite <- ?app_assoc; done).
    rewrite num_decoded by lia. cbn [mbind option_bind]. unfold MQTT_DATA_LEN_SIZE. do 2 f_equal; lia. }
  rewrite Ei. cbn [mbind option_bind]. pose proof (pub_total _ _ _ _ _ _ Hp) as Ht.
  replace (zlen topic + 2 + w + total - (2 + zlen topic + w)) with total by lia.
  replace (zlen h + (2 + zlen topic + w)) with (zlen head) by lia.
  replace (zlen head + zlen body - zlen head) with (zlen body) by lia.
  rewrite !u32_id, i32_id, Hl by lia. unfold MQTT_DATA_LEN_SIZE. do 2 f_equal.
  destruct (Z.ltb_spec (zlen body) total); [done|]. f_equal; lia.
Qed.
End Publish.

(** ** The other packets *)
Definition packet (type qos : Z) (parts : list (list Z)) : list Z :=
  type_flags type 0 qos 0 :: MqttEncode_Vbi (zlen (concat parts)) ++ concat parts.

Lemma packet_encoded tx type qos parts :
  let pk := packet type qos parts in
  5 <= zlen tx -> zlen (concat parts) < 2 ^ 28 -> zlen pk <= zlen tx ->
  encode_packet tx type qos (zlen (concat parts)) parts = Some (zlen pk, pk ++ drop (length pk) tx).
Proof.
  intros pk H5 Hn Hroom. unfold encode_packet.
  pose proof (fixed_header_encoded tx (zlen (concat parts)) type 0 qos 0 H5 ltac:(pose proof (zlen_nonneg (concat parts)); lia)) as Ef.
  cbv zeta in Ef. rewrite Ef. set (h := type_flags type 0 qos 0 :: _). cbn [mbind option_bind].
  assert (E : pk = h ++ concat parts) by done.
  assert (Hlen : zlen pk = zlen h + zlen (concat parts)) by (by rewrite E, zlen_app).
  destruct (Z.ltb_spec (zlen h) 0); [pose proof (zlen_nonneg h); lia|].
  destruct (Z.ltb_spec (zlen tx) (zlen h + zlen (concat parts))); [lia|].
  rewrite puts_all by (rewrite length_drop; unfold zlen in *; lia). cbn [mbind option_bind].
  rewrite <- Hlen, drop_drop, <- length_app, <- E. done.
Qed.

(** An answer with its id is decoded as it was encoded. *)
Lemma ack_decoded type qos id junk : 1 <= type <= 14 -> 0 <= qos <= 2 -> 0 <= id < 2 ^ 16 ->
  let pk := packet type qos [MqttEncode_Num id] in
  decode_ack (pk ++ junk) (zlen pk) type = Some (zlen pk, id, zlen pk).
Proof.
  intros Ht Hq Hid pk. unfold decode_ack. change (zlen pk) with 4. cbn [Z.leb Z.compare].
  pose proof (fixed_header_decoded type 0 qos 0 2 (MqttEncode_Num id ++ junk) Ht Hq ltac:(lia) ltac:(lia) ltac:(lia)) as E.
  cbv zeta in E. change (pk ++ junk) with ((type_flags type 0 qos 0 :: MqttEncode_Vbi 2) ++ MqttEncode_Num id ++ junk).
  rewrite E. cbn [mbind option_bind fh_len fh_remain]. rewrite num_decoded by done. done.
Qed.

(** [C37] A published message arrives as it was sent.  Whatever is encoded for a
    message that the protocol allows and that fits into the buffer is decoded
    with the same quality, flags, identifier, topic and payload. *)
Theorem publish_roundtrip rt q dup id topic payload tx p p0 :
  publishable rt q dup id topic (zlen payload) ->
  retain p = rt -> qos p = q -> duplicate p = dup -> packet_id p = id -> total_len p = zlen payload ->
  is_null (buffer p) = false -> buffer_len p = 0 ->
  zlen (publish_head rt q dup id topic (zlen payload)) + zlen payload <= zlen tx -> 5 <= zlen tx ->
  exists n p' b m o, MqttEncode_Publish tx p topic payload false = Some (n, p', b) /\
    MqttDecode_Publish b n p0 = Some (n, m) /\
    (retain m, qos m, duplicate m, total_len m, buffer_len m) = (rt, q, dup, zlen payload, zlen payload) /\
    (0 < q -> packet_id m = id) /\
    topic_name m = Rx o /\ buf_sub b o (topic_name_len m) = topic /\
    buffer m = Rx (n - zlen payload) /\ buf_sub b (n - zlen payload) (zlen payload) = payload.
Proof.
  intros Hp Hr Hq Hd Hi Ht Hb Hl Hroom H5. pose proof (zlen_nonneg payload) as H0.
  pose proof (publish_encoded rt q dup id topic (zlen payload) Hp tx p payload Hr Hq Hd Hi Ht Hb Hl (Z.le_refl _)) as E.
  cbv zeta in E. specialize (E ltac:(lia) H5). set (head := publish_head rt q dup id topic (zlen payload)) in *.
  replace (Z.min (zlen payload) (zlen tx - zlen head)) with (zlen payload) in E by lia.
  rewrite take_ge in E by (unfold zlen; lia).
  set (b := (head ++ payload) ++ drop (length (head ++ payload)) tx) in *.
  pose proof (publish_decoded rt q dup id topic (zlen payload) Hp payload (drop (length (head ++ payload)) tx) p0 ltac:(lia)) as D.
  cbv zeta in D. fold head in D. rewrite (app_assoc head) in D. fold b in D.
  rewrite zlen_app in E. eexists _, _, b, _, _. split; [exact E|]. split; [exact D|].
  cbn [retain qos duplicate total_len buffer_len packet_id topic_name topic_name_len buffer].
  replace (zlen head + zlen payload - zlen payload) with (zlen head) by lia.
  split; [done|]. split; [intros Hlt; by destruct (Z.ltb_spec 0 q); [|lia]|]. split; [done|].
  unfold b. rewrite <- app_assoc. split; [apply topic_at|]. split; [done|].
  rewrite buf_sub_skip, Z.sub_diag by lia. rewrite buf_sub_app_l by lia. apply buf_sub_all.
Qed.

Definition sample_publish : MqttMessage :=
  MqttMsg MQTT_MSG_BEGIN 7 1 1 0 (Mem (str "t")) 0 3 (Mem (str "abc")) 0 0 0 0 0 0.

Example publish_roundtrip_witness : exists n p' b m o,
  MqttEncode_Publish (replicate 20 255) sample_publish (str "t") (str "abc") false = Some (n, p', b) /\
  MqttDecode_Publish b n cleared = Some (n, m) /\ (qos m, retain m) = (1, 1) /\ packet_id m = 7 /\
  topic_name m = Rx o /\ buf_sub b o (topic_name_len m) = str "t" /\ buf_sub b (n - 3) 3 = str "abc".
Proof.
  destruct (publish_roundtrip 1 1 0 7 (str "t") (str "abc") (replicate 20 255) sample_publish cleared
    ltac:(split; by_decide) eq_refl eq_refl eq_refl eq_refl eq_refl eq_refl eq_refl ltac:(by_decide) ltac:(by_decide))
    as (n & p' & b & m & o & E & D & Ef & Hid & Ht & Htop & _ & Hpay).
  exists n, p', b, m, o. split; [exact E|]. split; [exact D|]. injection Ef as <- <- _ _ _.
  split; [done|]. split; [apply Hid; by_decide|]. split; [exact Ht|]. split; [exact Htop|exact Hpay].
Defined.
