(* ===== verification/MqttClient.v ===== *)
(** * The MQTT client

    Models the client of src/packages/wolfMQTT-RTT as it is configured (one
    thread at a time, blocking sockets, no TLS, protocol 3.1.1): the socket
    callbacks of port/mqtt_net_port.c, src/mqtt_socket.c, the reading and
    writing of packets in src/mqtt_packet.c, src/mqtt_client.c, and the calls of
    port/wolfmqtt.c.  The network is a parameter: what arrives, in pieces, and
    how many bytes each call of [send] takes.  The theorems show that a published
    message is sent whole and as the protocol says however its sending is cut,
    and that a message that arrives in any pieces is handed to the callback
    once and whole. *)

From S2P Require Import Prelude CLib JsonParse MqttPacket.

Local Open Scope Z_scope.

(** ** The network *)

(** What [select] and [recv] find: bytes; nothing in time; or an error, which
    is known to [SO_ERROR] or not.  After the last of them the peer has closed
    the connection, or is silent for ever. *)
Inductive arrival :=
  | Data (bs : list Z)
  | Quiet
  | Failed (so_error : bool).

(** What a call of [send] does: it takes some of the bytes, at least one, or it
    fails. *)
Inductive send_result :=
  | Accepts (n : Z)
  | Refuses (so_error : bool).

Definition SOCKET_INVALID : Z := 0.

Inductive MqttPkStat := MQTT_PK_BEGIN | MQTT_PK_READ_HEAD | MQTT_PK_READ.

(** The receiving side: the fields of [MqttClient] for it with the buffer, the
    generic message and the socket. *)
Record rx_side := RxSide {
  pk_stat : MqttPkStat;
  header_len : Z;
  remain_len : Z;
  buf_len : Z;
  read_pos : Z;
  rx_buf : list Z;
  msg : MqttMessage;
  arrivals : list arrival;
  closed : bool
}.

(** The sending side, with the context of the caller, [mqtt_get_packetid]'s
    counter and the state of the application. *)
Record tx_side {A : Type} := TxSide {
  write_pos : Z;
  write_len : Z;
  tx_buf : list Z;
  sends : list send_result;
  sent : list Z;
  mPacketIdLast : Z;
  topics : list MqttTopic;
  app : A
}.
Arguments tx_side : clear implicits.
Arguments TxSide {A}.

(** The client with its context: [sock_conn] is the [SOCK_CONN] of the socket,
    [live] that the context has not been freed. *)
Record client {A : Type} := Client {
  live : bool;
  connected : bool;
  sock_conn : bool;
  fd : Z;
  rx : rx_side;
  tx : tx_side A
}.
Arguments client : clear implicits.
Arguments Client {A}.

Definition set_arrivals (l : list arrival) (r : rx_side) : rx_side :=
  RxSide (pk_stat r) (header_len r) (remain_len r) (buf_len r) (read_pos r) (rx_buf r) (msg r) l (closed r).
Definition set_rx_buf (b : list Z) (r : rx_side) : rx_side :=
  RxSide (pk_stat r) (header_len r) (remain_len r) (buf_len r) (read_pos r) b (msg r) (arrivals r) (closed r).
Definition set_read_pos (n : Z) (r : rx_side) : rx_side :=
  RxSide (pk_stat r) (header_len r) (remain_len r) (buf_len r) n (rx_buf r) (msg r) (arrivals r) (closed r).
Definition set_buf_len (n : Z) (r : rx_side) : rx_side :=
  RxSide (pk_stat r) (header_len r) (remain_len r) n (read_pos r) (rx_buf r) (msg r) (arrivals r) (closed r).
Definition set_packet (s : MqttPkStat) (h n : Z) (r : rx_side) : rx_side :=
  RxSide s h n (buf_len r) (read_pos r) (rx_buf r) (msg r) (arrivals r) (closed r).
Definition set_pk_stat (s : MqttPkStat) (r : rx_side) : rx_side := set_packet s (header_len r) (remain_len r) r.
Definition set_msg (m : MqttMessage) (r : rx_side) : rx_side :=
  RxSide (pk_stat r) (header_len r) (remain_len r) (buf_len r) (read_pos r) (rx_buf r) m (arrivals r) (closed r).

(** ** Reading from the socket *)

(** The loop of [NetRead_ex]: what it ended with ([None] if all bytes are
    there), the bytes, and what is left to arrive. *)
Fixpoint read_loop (want : Z) (arr : list arrival) (is_closed : bool) : option Z * list Z * list arrival :=
  match arr with
  | [] => (Some (if is_closed then 0 else MQTT_CODE_ERROR_TIMEOUT), [], [])
  | Quiet :: arr => (Some MQTT_CODE_ERROR_TIMEOUT, [], arr)
  | Failed so_error :: arr => (Some (if so_error : bool then MQTT_CODE_ERROR_NETWORK else 0), [], arr)
  | Data bs :: arr =>
      if want <=? zlen bs
      then (None, take (Z.to_nat want) bs,
            if want <? zlen bs then Data (drop (Z.to_nat want) bs) :: arr else arr)
      else
        let '(rc, got, arr) := read_loop (want - zlen bs) arr is_closed in
        (rc, bs ++ got, arr)
  end.

(** [NetRead] into the buffer at [off]: bytes that were read before an error
    are in the buffer, but the result does not say so. *)
Definition NetRead (fd off buf_len : Z) (r : rx_side) : res (Z * rx_side) :=
  if (buf_len <=? 0) || (fd =? SOCKET_INVALID) then Ok (MQTT_CODE_ERROR_BAD_ARG, r)
  else
    let '(rc, got, arr) := read_loop buf_len (arrivals r) (closed r) in
    b ← defined (buf_write (rx_buf r) off got);
    Ok (match rc with None => zlen got | Some rc => rc end, set_rx_buf b (set_arrivals arr r)).

(** The loop of [MqttSocket_Read]; every turn but the last one makes the rest
    shorter. *)
Fixpoint socket_read (fuel : nat) (fd off buf_len : Z) (r : rx_side) : res (Z * rx_side) :=
  match fuel with
  | O => NoFuel
  | S fuel =>
      '(rc, r) ← NetRead fd (off + read_pos r) (buf_len - read_pos r) r;
      if rc <=? 0 then Ok (rc, r)
      else
        let r := set_read_pos (read_pos r + rc) r in
        if read_pos r <? buf_len then socket_read fuel fd off buf_len r
        else Ok (read_pos r, set_read_pos 0 r)
  end.

Definition MqttSocket_Read (fd off buf_len : Z) (r : rx_side) : res (Z * rx_side) :=
  if buf_len <=? 0 then Ok (MQTT_CODE_ERROR_BAD_ARG, r)
  else if buf_len <=? read_pos r then Ok (MQTT_CODE_ERROR_OUT_OF_BUFFER, r)
  else socket_read (S (Z.to_nat buf_len)) fd off buf_len r.

(** ** Reading a packet *)

(** The loop of [MqttPacket_Read] that reads the length byte by byte; [turns]
    are left.  [Some rc] is an error that is returned. *)
Fixpoint read_length (turns : nat) (fd : Z) (r : rx_side) : res (option Z * rx_side) :=
  match turns with
  | O => Ok (Some MQTT_CODE_ERROR_MALFORMED_DATA, r)
  | S turns =>
      b ← defined (buf_get (rx_buf r) (1 + (MQTT_PACKET_MAX_LEN_BYTES - Z.of_nat (S turns))));
      if Z.land b 128 =? 0 then Ok (None, r)
      else
        '(rc, r) ← MqttSocket_Read fd (header_len r) 1 r;
        if rc <? 0 then Ok (Some rc, r)
        else if negb (rc =? 1) then Ok (Some MQTT_CODE_ERROR_NETWORK, r)
        else read_length turns fd (set_packet (pk_stat r) (header_len r + 1) (remain_len r) r)
  end.

(** From [MQTT_PK_READ] on. *)
Definition read_rest (fd : Z) (r : rx_side) : res (Z * rx_side) :=
  let r := set_pk_stat MQTT_PK_READ r in
  let rx_buf_len := zlen (rx_buf r) in
  if rx_buf_len <? header_len r then Ok (MQTT_CODE_ERROR_OUT_OF_BUFFER, r)
  else
    let remain_read := Z.min (remain_len r) (rx_buf_len - header_len r) in
    if 0 <? remain_len r then
      '(rc, r) ← MqttSocket_Read fd (header_len r) remain_read r;
      if rc <=? 0 then Ok (rc, r)
      else Ok (header_len r + rc, set_pk_stat MQTT_PK_BEGIN r)
    else Ok (header_len r + remain_read, set_pk_stat MQTT_PK_BEGIN r).

(** From [MQTT_PK_READ_HEAD] on. *)
Definition read_head (fd : Z) (r : rx_side) : res (Z * rx_side) :=
  let r := set_pk_stat MQTT_PK_READ_HEAD r in
  '(e, r) ← read_length (Z.to_nat MQTT_PACKET_MAX_LEN_BYTES) fd r;
  match e with
  | Some rc => Ok (rc, r)
  | None =>
      '(rc, remain) ← defined (MqttDecode_Vbi (rx_buf r) 1);
      let r := set_packet (pk_stat r) (header_len r) (i32 remain) r in
      if rc <? 0 then Ok (rc, r) else read_rest fd (set_packet (pk_stat r) (rc + 1) (remain_len r) r)
  end.

Definition MqttPacket_Read (fd : Z) (r : rx_side) : res (Z * rx_side) :=
  match pk_stat r with
  | MQTT_PK_BEGIN =>
      let r := set_packet (pk_stat r) 2 0 r in
      '(rc, r) ← MqttSocket_Read fd 0 2 r;
      if rc <? 0 then Ok (rc, r)
      else if negb (rc =? 2) then Ok (MQTT_CODE_ERROR_NETWORK, r)
      else read_head fd r
  | MQTT_PK_READ_HEAD => read_head fd r
  | MQTT_PK_READ => read_rest fd r
  end.

(** ** Writing to the socket *)
Section Client.
Context {A : Type}.

#[local] Abbreviation client := (client A).
#[local] Abbreviation tx_side := (tx_side A).

Definition set_write_pos (n : Z) (t : tx_side) : tx_side :=
  TxSide n (write_len t) (tx_buf t) (sends t) (sent t) (mPacketIdLast t) (topics t) (app t).
Definition set_write_len (n : Z) (t : tx_side) : tx_side :=
  TxSide (write_pos t) n (tx_buf t) (sends t) (sent t) (mPacketIdLast t) (topics t) (app t).
Definition set_tx_buf (b : list Z) (t : tx_side) : tx_side :=
  TxSide (write_pos t) (write_len t) b (sends t) (sent t) (mPacketIdLast t) (topics t) (app t).
Definition set_sends (l : list send_result) (out : list Z) (t : tx_side) : tx_side :=
  TxSide (write_pos t) (write_len t) (tx_buf t) l out (mPacketIdLast t) (topics t) (app t).
Definition set_last_id (n : Z) (t : tx_side) : tx_side :=
  TxSide (write_pos t) (write_len t) (tx_buf t) (sends t) (sent t) n (topics t) (app t).
Definition set_topics (l : list MqttTopic) (t : tx_side) : tx_side :=
  TxSide (write_pos t) (write_len t) (tx_buf t) (sends t) (sent t) (mPacketIdLast t) l (app t).
Definition set_app (a : A) (t : tx_side) : tx_side :=
  TxSide (write_pos t) (write_len t) (tx_buf t) (sends t) (sent t) (mPacketIdLast t) (topics t) a.

Definition set_rx (r : rx_side) (c : client) : client := Client (live c) (connected c) (sock_conn c) (fd c) r (tx c).
Definition set_tx (t : tx_side) (c : client) : client := Client (live c) (connected c) (sock_conn c) (fd c) (rx c) t.

(** [NetWrite] of [buf_len] bytes of the buffer from [off] on; a send that is
    not told about takes all of them. *)
Definition NetWrite (fd off buf_len : Z) (t : tx_side) : Z * tx_side :=
  if (buf_len <=? 0) || (fd =? SOCKET_INVALID) then (MQTT_CODE_ERROR_BAD_ARG, t)
  else
    match sends t with
    | Refuses so_error :: l =>
        (if so_error : bool then MQTT_CODE_ERROR_NETWORK else 0, set_sends l (sent t) t)
    | Accepts n :: l =>
        let n := Z.max 1 (Z.min n buf_len) in
        (n, set_sends l (sent t ++ buf_sub (tx_buf t) off n) t)
    | [] => (buf_len, set_sends [] (sent t ++ buf_sub (tx_buf t) off buf_len) t)
    end.

(** The loop of [MqttSocket_Write]; after an error the position stays. *)
Fixpoint socket_write (fuel : nat) (fd buf_len : Z) (t : tx_side) : res (Z * tx_side) :=
  match fuel with
  | O => NoFuel
  | S fuel =>
      let '(rc, t) := NetWrite fd (write_pos t) (buf_len - write_pos t) t in
      if rc <=? 0 then Ok (rc, t)
      else
        let t := set_write_pos (write_pos t + rc) t in
        if write_pos t <? buf_len then socket_write fuel fd buf_len t
        else Ok (write_pos t, set_write_pos 0 t)
  end.

(** [MqttSocket_Write] and [MqttPacket_Write] of the first [buf_len] bytes of
    the transmit buffer. *)
Definition MqttSocket_Write (fd buf_len : Z) (t : tx_side) : res (Z * tx_side) :=
  if buf_len <=? 0 then Ok (MQTT_CODE_ERROR_BAD_ARG, t)
  else if buf_len <=? write_pos t then Ok (MQTT_CODE_ERROR_OUT_OF_BUFFER, t)
  else if zlen (tx_buf t) <? buf_len then Undef
  else socket_write (S (Z.to_nat buf_len)) fd buf_len t.

Definition MqttPacket_Write (len : Z) (c : client) : res (Z * client) :=
  '(rc, t) ← MqttSocket_Write (fd c) len (tx c);
  Ok (rc, set_tx t c).

(** ** Handling a packet *)

(** The object of a caller that waits for an answer: [MqttConnectAck],
    [MqttSubscribeAck], [MqttUnsubscribeAck], [MqttPublishResp] or [MqttPing].
    [ack_codes] is an offset of the receive buffer. *)
Record ack := Ack {
  ack_stat : MqttMsgStat;
  ack_id : Z;
  ack_flags : Z;
  ack_return_code : Z;
  ack_codes : option Z
}.

Definition cleared_ack : ack := Ack MQTT_MSG_BEGIN 0 0 0 None.

Definition set_ack_stat (s : MqttMsgStat) (a : ack) : ack :=
  Ack s (ack_id a) (ack_flags a) (ack_return_code a) (ack_codes a).

(** The object of a packet: a local variable, the generic message of the
    client, or that of the caller. *)
Inductive object := Local | Generic (m : MqttMessage) | Given (a : ack).

(** An answer fills the object of a caller.  In the generic message, a union,
    it takes the place of fields that are not read before the next message has
    been decoded. *)
Definition fill (a : ack -> ack) (o : object) : object :=
  match o with Given x => Given (a x) | _ => o end.

(** [MqttClient_DecodePacket]: the length or an error, the type, the quality,
    the id and the object.  A message does not fit the object of an answer. *)
Definition MqttClient_DecodePacket (rx_buf : list Z) (rx_len : Z) (o : object) : res (Z * Z * Z * Z * object) :=
  if rx_len <? 2 then Ok (MQTT_CODE_ERROR_BAD_ARG, 0, 0, 0, o)
  else
    f ← defined (buf_get rx_buf 0);
    let type := MQTT_PACKET_TYPE_GET f in
    let q := MQTT_PACKET_FLAGS_GET_QOS f in
    if type =? MQTT_PACKET_TYPE_CONNECT_ACK then
      '(rc, flags, code) ← defined (MqttDecode_ConnectAck rx_buf rx_len);
      Ok (rc, type, q, 0, if 0 <=? rc then fill (fun a => Ack (ack_stat a) (ack_id a) flags code (ack_codes a)) o else o)
    else if type =? MQTT_PACKET_TYPE_PUBLISH then
      match o with
      | Given _ => Undef
      | Local =>
          '(rc, p) ← defined (MqttDecode_Publish rx_buf rx_len cleared);
          Ok (rc, type, q, if 0 <=? rc then packet_id p else 0, o)
      | Generic m =>
          '(rc, p) ← defined (MqttDecode_Publish rx_buf rx_len m);
          Ok (rc, type, q, if 0 <=? rc then packet_id p else 0, Generic p)
      end
    else if (MQTT_PACKET_TYPE_PUBLISH_ACK <=? type) && (type <=? MQTT_PACKET_TYPE_PUBLISH_COMP) ||
            (type =? MQTT_PACKET_TYPE_SUBSCRIBE_ACK) || (type =? MQTT_PACKET_TYPE_UNSUBSCRIBE_ACK) then
      '(rc, id, codes) ← defined (decode_ack rx_buf rx_len type);
      Ok (rc, type, q, if 0 <=? rc then id else 0,
          if 0 <=? rc then fill (fun a => Ack (ack_stat a) id (ack_flags a) (ack_return_code a)
            (if type =? MQTT_PACKET_TYPE_SUBSCRIBE_ACK then Some codes else ack_codes a)) o else o)
    else if type =? MQTT_PACKET_TYPE_PING_RESP then
      rc ← defined (MqttDecode_Ping rx_buf rx_len);
      Ok (rc, type, q, 0, o)
    else Ok (MQTT_CODE_ERROR_PACKET_TYPE, type, q, 0, o).

(** The function the application has given to [MqttClient_Init]. *)
Context (msg_cb : MqttMessage -> Z -> bool -> client -> res (Z * client)).

Definition on_msg (f : MqttMessage -> MqttMessage) (c : client) : client :=
  set_rx (set_msg (f (msg (rx c))) (rx c)) c.

(** A turn of the loop of [MqttClient_Publish_ReadPayload] up to the reading:
    the callback for a new message, which is told its topic. *)
Definition first_call (msg_done : bool) (c : client) : res (Z * client) :=
  if negb (buffer_new (msg (rx c)) =? 0) then
    '(rc, c) ← msg_cb (msg (rx c)) (buffer_new (msg (rx c))) msg_done c;
    if negb (rc =? MQTT_CODE_SUCCESS) then Ok (rc, c)
    else Ok (rc, on_msg (set_topic NULL 0 0) c)
  else Ok (MQTT_CODE_SUCCESS, c).

(** [MqttClient_Publish_ReadPayload].  An error of the callback or of the
    socket ends it, a read of no bytes does not. *)
Fixpoint MqttClient_Publish_ReadPayload (fuel : nat) (c : client) : res (Z * client) :=
  match fuel with
  | O => NoFuel
  | S fuel =>
      let p := msg (rx c) in
      let msg_done := total_len p <=? u32 (buffer_pos p + buffer_len p) in
      '(rc, c) ← first_call msg_done c;
      if negb (rc =? MQTT_CODE_SUCCESS) then Ok (rc, c)
      else if msg_done then Ok (rc, c)
      else
        let c := on_msg (fun p => set_stat MQTT_MSG_READ_PAYLOAD
                   (set_payload (buffer p) 0 (u32 (buffer_pos p + buffer_len p)) p)) c in
        let p := msg (rx c) in
        let msg_len := Z.min (i32 (u32 (total_len p - buffer_pos p))) (zlen (rx_buf (rx c))) in
        if 0 <? msg_len then
          '(rc, r) ← MqttSocket_Read (fd c) 0 msg_len (rx c);
          let c := set_rx r c in
          if rc <? 0 then Ok (rc, c)
          else
            let c := on_msg (fun p => set_payload (Rx 0) rc (buffer_pos p) p) c in
            let p := msg (rx c) in
            let msg_done := total_len p <=? u32 (buffer_pos p + buffer_len p) in
            '(rc, c) ← msg_cb p (buffer_new p) msg_done c;
            if negb (rc =? MQTT_CODE_SUCCESS) then Ok (rc, c)
            else if msg_done then Ok (rc, c)
            else MqttClient_Publish_ReadPayload fuel c
        else MqttClient_Publish_ReadPayload fuel c
  end.

(** The answer to a message or to an answer: encoded and sent. *)
Definition respond (type id : Z) (c : client) : res (Z * client) :=
  '(rc, b) ← defined (MqttEncode_PublishResp (tx_buf (tx c)) type id);
  let c := set_tx (set_tx_buf b (tx c)) c in
  if rc <=? 0 then Ok (rc, c)
  else MqttPacket_Write rc (set_rx (set_buf_len rc (rx c)) c).

(** The part of [MqttClient_HandlePacket] for a message. *)
Definition handle_publish (fuel : nat) (c : client) : res (Z * client) :=
  '(rc, q, id, c) ←
    (match stat (msg (rx c)) with
     | MQTT_MSG_BEGIN | MQTT_MSG_READ =>
         '(rc, _, q, id, o) ← MqttClient_DecodePacket (rx_buf (rx c)) (buf_len (rx c)) (Generic (msg (rx c)));
         Ok (rc, q, id, match o with Generic m => on_msg (fun _ => m) c | _ => c end)
     | _ => Ok (1, 0, 0, c)
     end);
  if rc <=? 0 then Ok (rc, c)
  else
    '(rc, c) ← MqttClient_Publish_ReadPayload fuel c;
    if rc <? 0 then Ok (rc, c)
    else if q =? 0 then Ok (rc, c)
    else
      respond (if q =? 1 then MQTT_PACKET_TYPE_PUBLISH_ACK else MQTT_PACKET_TYPE_PUBLISH_REC) id
        (on_msg (set_resp id) c).

(** [MqttClient_HandlePacket]: a packet is handled with the object of the
    caller, or with the generic message. *)
Definition MqttClient_HandlePacket (fuel : nat) (packet_type : Z) (o : option ack) (c : client)
  : res (Z * option ack * client) :=
  if packet_type =? MQTT_PACKET_TYPE_PUBLISH then
    match o with
    | Some _ => Undef
    | None => '(rc, c) ← handle_publish fuel c; Ok (rc, o, c)
    end
  else if (MQTT_PACKET_TYPE_PUBLISH_ACK <=? packet_type) && (packet_type <=? MQTT_PACKET_TYPE_PUBLISH_COMP) then
    '(rc, type, _, id, _) ← MqttClient_DecodePacket (rx_buf (rx c)) (buf_len (rx c)) Local;
    if rc <=? 0 then Ok (rc, o, c)
    else if negb (type =? MQTT_PACKET_TYPE_PUBLISH_REC) && negb (type =? MQTT_PACKET_TYPE_PUBLISH_REL)
    then Ok (rc, o, c)
    else '(rc, c) ← respond (type + 1) id c; Ok (rc, o, c)
  else if (packet_type =? MQTT_PACKET_TYPE_CONNECT_ACK) || (packet_type =? MQTT_PACKET_TYPE_SUBSCRIBE_ACK) ||
          (packet_type =? MQTT_PACKET_TYPE_UNSUBSCRIBE_ACK) || (packet_type =? MQTT_PACKET_TYPE_PING_RESP) then
    '(rc, _, _, _, x) ← MqttClient_DecodePacket (rx_buf (rx c)) (buf_len (rx c))
      (match o with Some a => Given a | None => Generic (msg (rx c)) end);
    Ok (rc, match x with Given a => Some a | _ => o end, c)
  else Ok (MQTT_CODE_ERROR_PACKET_TYPE, o, c).

(** ** Waiting for a packet *)
Definition wait_stat (o : option ack) (c : client) : MqttMsgStat :=
  match o with Some a => ack_stat a | None => stat (msg (rx c)) end.

Definition set_wait_stat (s : MqttMsgStat) (o : option ack) (c : client) : option ack * client :=
  match o with
  | Some a => (Some (set_ack_stat s a), c)
  | None => (None, on_msg (set_stat s) c)
  end.

(** A turn of [MqttClient_WaitType] up to [MQTT_MSG_READ]: a packet has been
    read, whose type and id are known, or [None]. *)
Definition wait_read (o : option ack) (c : client) : res (Z * option (Z * Z) * option ack * client) :=
  let c := match wait_stat o c with
           | MQTT_MSG_BEGIN => set_rx (set_read_pos 0 (set_pk_stat MQTT_PK_BEGIN (rx c))) c
           | _ => c
           end in
  let '(o, c) := set_wait_stat MQTT_MSG_WAIT o c in
  '(rc, r) ← MqttPacket_Read (fd c) (rx c);
  let c := set_rx r c in
  if rc <=? 0 then Ok (rc, None, o, c)
  else
    let c := set_rx (set_buf_len rc (rx c)) c in
    '(rc, type, _, id, _) ← MqttClient_DecodePacket (rx_buf (rx c)) (buf_len (rx c)) Local;
    if rc <? 0 then Ok (rc, None, o, c)
    else let '(o, c) := set_wait_stat MQTT_MSG_READ o c in Ok (rc, Some (type, id), o, c).

(** The rest of a turn: the result and whether it was the packet that is waited
    for. *)
Definition wait_handle (fuel : nat) (wait_type wait_packet_id type id : Z) (o : option ack) (c : client)
  : res (Z * bool * option ack * client) :=
  let type := match wait_stat o c with MQTT_MSG_READ_PAYLOAD => MQTT_PACKET_TYPE_PUBLISH | _ => type end in
  let found := ((wait_type =? MQTT_PACKET_TYPE_ANY) || (wait_type =? type)) &&
               ((wait_packet_id =? 0) || (wait_packet_id =? id)) in
  '(rc, o', c) ← MqttClient_HandlePacket fuel type (if found then o else None) c;
  Ok (if 0 <=? rc then MQTT_CODE_SUCCESS else rc, found, if found then o' else o, c).

Definition wait_turn (fuel : nat) (wait_type wait_packet_id : Z) (o : option ack) (c : client)
  : res (Z * bool * option ack * client) :=
  match wait_stat o c with
  | MQTT_MSG_BEGIN | MQTT_MSG_WAIT =>
      '(rc, packet, o, c) ← wait_read o c;
      match packet with
      | None => Ok (rc, false, o, c)
      | Some (type, id) => wait_handle fuel wait_type wait_packet_id type id o c
      end
  | MQTT_MSG_READ | MQTT_MSG_READ_PAYLOAD => wait_handle fuel wait_type wait_packet_id 0 0 o c
  | _ => Ok (MQTT_CODE_ERROR_STAT, false, o, c)
  end.

(** [MqttClient_WaitType]: packets are handled until the one that is waited for
    has come.  [payload_fuel] is that of a message. *)
Fixpoint MqttClient_WaitType (fuel payload_fuel : nat) (wait_type wait_packet_id : Z) (o : option ack) (c : client)
  : res (Z * option ack * client) :=
  match fuel with
  | O => NoFuel
  | S fuel =>
      '(rc, found, o, c) ← wait_turn payload_fuel wait_type wait_packet_id o c;
      let '(o, c) := set_wait_stat MQTT_MSG_BEGIN o c in
      if rc <? 0 then Ok (rc, o, c)
      else if found : bool then Ok (rc, o, c)
      else MqttClient_WaitType fuel payload_fuel wait_type wait_packet_id o c
  end.

(** ** The operations of the client *)

(** [MqttClient_WaitMessage] *)
Definition MqttClient_WaitMessage (fuel payload_fuel : nat) (c : client) : res (Z * client) :=
  '(rc, _, c) ← MqttClient_WaitType fuel payload_fuel MQTT_PACKET_TYPE_ANY 0 None c; Ok (rc, c).

(** An operation that sends a packet of [encode] and waits for the answer; the
    object of every caller is cleared.  Without the answer the result has no
    object. *)
Definition request (fuel payload_fuel : nat) (encode : list Z -> option (Z * list Z)) (wait_type wait_packet_id : Z)
    (c : client) : res (Z * option ack * client) :=
  '(len, b) ← defined (encode (tx_buf (tx c)));
  let c := set_tx (set_tx_buf b (tx c)) c in
  if len <=? 0 then Ok (len, None, c)
  else
    '(rc, c) ← MqttPacket_Write len c;
    if negb (rc =? len) then Ok (rc, None, c)
    else MqttClient_WaitType fuel payload_fuel wait_type wait_packet_id (Some cleared_ack) c.

Definition MqttClient_Connect (fuel payload_fuel : nat) (m : MqttConnect) (c : client) : res (Z * option ack * client) :=
  request fuel payload_fuel (fun b => MqttEncode_Connect b m) MQTT_PACKET_TYPE_CONNECT_ACK 0 c.

(** The return codes of [n] topics at the offset [codes] of the receive buffer. *)
Fixpoint return_codes (n : nat) (rx_buf : list Z) (codes : Z) : option (list Z) :=
  match n with
  | O => Some []
  | S n => x ← buf_get rx_buf codes; xs ← return_codes n rx_buf (codes + 1); Some (x :: xs)
  end.

Definition set_return_code (t : MqttTopic) (code : Z) : MqttTopic := Topic (topic_filter t) (topic_qos t) code.

Definition MqttClient_Subscribe (fuel payload_fuel : nat) (id : Z) (ts : list MqttTopic) (c : client)
  : res (Z * list MqttTopic * client) :=
  '(rc, a, c) ← request fuel payload_fuel (fun b => MqttEncode_Subscribe b id ts) MQTT_PACKET_TYPE_SUBSCRIBE_ACK id c;
  match a with
  | Some (Ack _ _ _ _ (Some codes)) =>
      if rc =? MQTT_CODE_SUCCESS then
        xs ← defined (return_codes (length ts) (rx_buf (rx c)) codes);
        Ok (rc, zip_with set_return_code ts xs, c)
      else Ok (rc, ts, c)
  | _ => Ok (rc, ts, c)
  end.

Definition MqttClient_Unsubscribe (fuel payload_fuel : nat) (id : Z) (ts : list MqttTopic) (c : client) : res (Z * client) :=
  '(rc, _, c) ← request fuel payload_fuel (fun b => MqttEncode_Unsubscribe b id ts) MQTT_PACKET_TYPE_UNSUBSCRIBE_ACK id c;
  Ok (rc, c).

Definition MqttClient_Ping (fuel payload_fuel : nat) (c : client) : res (Z * client) :=
  '(rc, _, c) ← request fuel payload_fuel MqttEncode_Ping MQTT_PACKET_TYPE_PING_RESP 0 c; Ok (rc, c).

Definition MqttClient_Disconnect (c : client) : res (Z * client) :=
  '(len, b) ← defined (MqttEncode_Disconnect (tx_buf (tx c)));
  let c := set_tx (set_tx_buf b (tx c)) c in
  if len <=? 0 then Ok (len, c)
  else
    '(rc, c) ← MqttPacket_Write len c;
    if negb (rc =? len) then Ok (rc, c) else Ok (MQTT_CODE_SUCCESS, c).

(** ** Publishing *)

(** What a pointer of a message of the caller points to. *)
Definition pointed (p : pointer) : res (list Z) := match p with Mem b => Ok b | _ => Undef end.

(** The next [len] bytes of the payload from [pos] on, copied to the start of
    the transmit buffer. *)
Definition load_payload (payload : list Z) (pos len : Z) (c : client) : res client :=
  if zlen payload <? pos + len then Undef
  else
    b ← defined (buf_write (tx_buf (tx c)) 0 (buf_sub payload pos len));
    Ok (set_tx (set_tx_buf b (tx c)) c).

(** The loop that sends the buffer and the rest of the payload. *)
Fixpoint write_payload (fuel : nat) (payload : list Z) (p : MqttMessage) (c : client) : res (Z * MqttMessage * client) :=
  match fuel with
  | O => NoFuel
  | S fuel =>
      '(rc, c) ← MqttPacket_Write (write_len (tx c)) c;
      if rc <? 0 then Ok (rc, p, c)
      else
        let p := set_intBuf 0 (u32 (intBuf_pos p + intBuf_len p)) p in
        if buffer_len p <=? intBuf_pos p then Ok (MQTT_CODE_SUCCESS, p, c)
        else
          let len := Z.min (buffer_len p - intBuf_pos p) (zlen (tx_buf (tx c))) in
          let c := set_tx (set_write_len len (tx c)) c in
          c ← load_payload payload (intBuf_pos p) len c;
          write_payload fuel payload (set_intBuf len (intBuf_pos p) p) c
  end.

Definition MQTT_CODE_CONTINUE : Z := -101.

(** [MqttClient_Publish_WritePayload] without a callback. *)
Definition MqttClient_Publish_WritePayload (fuel : nat) (payload : list Z) (p : MqttMessage) (c : client)
  : res (Z * MqttMessage * client) :=
  if buffer_pos p <? total_len p then
    '(p, c) ←
      (if 0 <? buffer_pos p then
         let len := Z.min (total_len p - buffer_pos p) (zlen (tx_buf (tx c))) in
         c ← load_payload payload (buffer_pos p) len (set_tx (set_write_len len (tx c)) c);
         Ok (set_intBuf (intBuf_len p) (u32 (intBuf_pos p + len)) p, c)
       else Ok (p, c));
    '(rc, p, c) ← write_payload fuel payload p c;
    if rc <? 0 then Ok (rc, p, c)
    else
      let p := set_payload (buffer p) (buffer_len p) (u32 (buffer_pos p + intBuf_pos p)) p in
      if buffer_pos p <? total_len p then
        let len := Z.min (total_len p - buffer_pos p) (zlen (tx_buf (tx c))) in
        Ok (MQTT_CODE_CONTINUE, p, set_tx (set_write_len len (tx c)) c)
      else Ok (rc, p, c)
  else Ok (MQTT_CODE_SUCCESS, p, c).

(** The end of [MqttClient_Publish_ex]. *)
Definition publish_done (rc : Z) (p : MqttMessage) (c : client) : res (Z * MqttMessage * client) :=
  Ok (if 0 <? rc then MQTT_CODE_SUCCESS else rc, set_stat MQTT_MSG_BEGIN p, c).

(** From [MQTT_MSG_WAIT], [MQTT_MSG_WRITE_PAYLOAD] and [MQTT_MSG_WRITE] on. *)
Definition publish_wait (fuel payload_fuel : nat) (rc : Z) (p : MqttMessage) (c : client) : res (Z * MqttMessage * client) :=
  if 0 <? qos p then
    '(rc, a, c) ← MqttClient_WaitType fuel payload_fuel
       (if qos p =? 1 then MQTT_PACKET_TYPE_PUBLISH_ACK else MQTT_PACKET_TYPE_PUBLISH_COMP) (packet_id p)
       (Some cleared_ack) c;
    publish_done rc p c
  else publish_done rc p c.

Definition publish_payload (fuel payload_fuel : nat) (payload : list Z) (p : MqttMessage) (c : client)
  : res (Z * MqttMessage * client) :=
  '(rc, p, c) ← MqttClient_Publish_WritePayload payload_fuel payload p c;
  if rc <? 0 then publish_done rc p c
  else if qos p =? 0 then publish_done rc p c
  else publish_wait fuel payload_fuel rc (set_stat MQTT_MSG_WAIT p) c.

Definition publish_write (fuel payload_fuel : nat) (payload : list Z) (p : MqttMessage) (c : client)
  : res (Z * MqttMessage * client) :=
  '(rc, c) ← MqttPacket_Write (write_len (tx c)) c;
  if rc <? 0 then Ok (rc, p, c)
  else publish_payload fuel payload_fuel payload (set_stat MQTT_MSG_WRITE_PAYLOAD p) c.

(** [MqttClient_Publish]: the result and the message. *)
Definition MqttClient_Publish (fuel payload_fuel : nat) (p : MqttMessage) (c : client) : res (Z * MqttMessage * client) :=
  payload ← (match buffer p with NULL => Ok [] | b => pointed b end);
  match stat p with
  | MQTT_MSG_BEGIN =>
      topic ← pointed (topic_name p);
      '(rc, p, b) ← defined (MqttEncode_Publish (tx_buf (tx c)) p topic payload false);
      let c := set_tx (set_tx_buf b (tx c)) c in
      if rc <=? 0 then Ok (rc, p, c)
      else
        publish_write fuel payload_fuel payload (set_stat MQTT_MSG_WRITE p) (set_tx (set_write_len rc (tx c)) c)
  | MQTT_MSG_WRITE => publish_write fuel payload_fuel payload p c
  | MQTT_MSG_WRITE_PAYLOAD => publish_payload fuel payload_fuel payload p c
  | MQTT_MSG_WAIT => publish_wait fuel payload_fuel MQTT_CODE_SUCCESS p c
  | _ => publish_done MQTT_CODE_ERROR_STAT p c
  end.

(** ** The connection *)

(** What name resolution, [socket] and [connect] answer: the result of
    [getaddrinfo], whether there is an address of the right kind, the new
    descriptor, and the result of [connect]. *)
Record dialing := Dialing { resolved : Z; has_address : bool; socket : Z; connect_rc : Z }.

Definition MQTT_DEFAULT_PORT : Z := 1883.

Context (dial : list Z -> Z -> dialing).

(** [NetConnect]: a socket that was opened before is used again. *)
Definition NetConnect (host : list Z) (port : Z) (c : client) : Z * client :=
  let d := dial host port in
  if negb (sock_conn c) && negb (resolved d =? 0) then (resolved d, c)
  else if negb (sock_conn c) && negb (has_address d) then (-1, c)
  else
    let c := if sock_conn c then c else Client (live c) (connected c) false (socket d) (rx c) (tx c) in
    if negb (sock_conn c) && (fd c =? SOCKET_INVALID) then (-1, c)
    else
      (if connect_rc d <? 0 then MQTT_CODE_ERROR_NETWORK else connect_rc d,
       Client (live c) (connected c) true (fd c) (rx c) (tx c)).

(** [MqttSocket_Connect] without TLS. *)
Definition MqttClient_NetConnect (host : list Z) (port : Z) (c : client) : Z * client :=
  if connected c then (MQTT_CODE_SUCCESS, c)
  else
    let '(rc, c) := NetConnect host (if port =? 0 then MQTT_DEFAULT_PORT else port) c in
    if rc <? 0 then (rc, c) else (rc, Client (live c) true (sock_conn c) (fd c) (rx c) (tx c)).

(** [NetDisconnect] and [MqttSocket_Disconnect] *)
Definition MqttClient_NetDisconnect (c : client) : Z * client :=
  (0, Client (live c) false false (if fd c =? SOCKET_INVALID then fd c else -1) (rx c) (tx c)).

(** ** The context *)

(** The configuration that [mqtt_ctx_create] stores.  The port is never set. *)
Record ctx_cfg := CtxCfg {
  ctx_host : list Z;
  ctx_port : Z;
  ctx_client_id : list Z;
  ctx_username : option (list Z);
  ctx_password : option (list Z);
  ctx_qos : Z;
  ctx_keep_alive_sec : Z
}.

Definition MAX_BUFFER_SIZE : nat := 1024.
Definition MAX_PACKET_ID : Z := 65535.

(** The client of [mqtt_ctx_create], with the bytes that the buffers happen to
    hold. *)
Definition mqtt_ctx_create (arr : list arrival) (is_closed : bool) (out : list send_result) (a : A)
    (junk_tx junk_rx : list Z) (last_id : Z) : client :=
  Client true false false SOCKET_INVALID
    (RxSide MQTT_PK_BEGIN 0 0 0 0 (take MAX_BUFFER_SIZE (junk_rx ++ replicate MAX_BUFFER_SIZE 0)) cleared arr is_closed)
    (TxSide 0 0 (take MAX_BUFFER_SIZE (junk_tx ++ replicate MAX_BUFFER_SIZE 0)) out [] last_id [] a).

(** [mqtt_ctx_connect].  The return code in the answer of the broker is only
    printed. *)
Definition mqtt_ctx_connect (fuel payload_fuel : nat) (cfg : ctx_cfg) (c : client) : res (Z * client) :=
  let '(rc, c) := MqttClient_NetConnect (ctx_host cfg) (ctx_port cfg) c in
  if negb (rc =? MQTT_CODE_SUCCESS) then Ok (-1, c)
  else
    '(rc, _, c) ← MqttClient_Connect fuel payload_fuel
       (MkConnect (ctx_keep_alive_sec cfg) true (Some (ctx_client_id cfg)) 0 false (Some (LastWill 0 0 None None 0))
          (ctx_username cfg) (ctx_password cfg)) c;
    Ok (if negb (rc =? MQTT_CODE_SUCCESS) then -1 else rc, c).

(** [mqtt_get_packetid] *)
Definition mqtt_get_packetid (c : client) : Z * client :=
  let last := mPacketIdLast (tx c) in
  let last := if MAX_PACKET_ID <=? last then 0 else last in
  (u16 (last + 1), set_tx (set_last_id (last + 1) (tx c)) c).

(** [mqtt_subscribe].  The array of the topics has one element, but ten are
    allowed. *)
Definition mqtt_subscribe (fuel payload_fuel : nat) (topic : list Z) (q : Z) (c : client) : res (Z * client) :=
  if 10 <=? zlen (topics (tx c)) then Ok (-1, c)
  else if 1 <=? zlen (topics (tx c)) then Undef
  else
    let '(id, c) := mqtt_get_packetid c in
    '(rc, ts, c) ← MqttClient_Subscribe fuel payload_fuel id [Topic (Some topic) q 0] c;
    Ok (rc, set_tx (set_topics ts (tx c)) c).

(** [mqtt_publish]; [data_len] is a 16-bit number. *)
Definition mqtt_publish (fuel payload_fuel : nat) (q : Z) (data : list Z) (data_len : Z) (topic : list Z) (c : client)
  : res (Z * client) :=
  if negb (live c) then Undef
  else
    let '(id, c) := mqtt_get_packetid c in
    '(rc, _, c) ← MqttClient_Publish fuel payload_fuel
       (MqttMsg MQTT_MSG_BEGIN id q 0 0 (Mem topic) 0 (u16 data_len) (Mem data) 0 0 0 0 0 0) c;
    Ok (if negb (rc =? MQTT_CODE_SUCCESS) then -1 else rc, c).

(** [mqtt_unsubscribe].  Without any topic the array is a null pointer, which
    the encoder refuses. *)
Definition mqtt_unsubscribe (fuel payload_fuel : nat) (topic : list Z) (c : client) : res (Z * client) :=
  let '(id, c) := mqtt_get_packetid c in
  match topics (tx c) with
  | [] =>
      '(rc, c) ← MqttClient_Unsubscribe fuel payload_fuel id [Topic None 0 0] c;
      Ok (if negb (rc =? MQTT_CODE_SUCCESS) then -1 else 0, c)
  | ts =>
      match List.find (fun t => bool_decide (topic_filter t = Some topic)) ts with
      | None => Ok (-1, c)
      | Some t =>
          '(rc, c) ← MqttClient_Unsubscribe fuel payload_fuel id [t] c;
          Ok (if negb (rc =? MQTT_CODE_SUCCESS) then -1 else 0, c)
      end
  end.

(** [mqtt_unsubscribe_all] *)
Definition mqtt_unsubscribe_all (fuel payload_fuel : nat) (c : client) : res (Z * client) :=
  let '(id, c) := mqtt_get_packetid c in
  '(rc, c) ← MqttClient_Unsubscribe fuel payload_fuel id (topics (tx c)) c;
  Ok (if negb (rc =? MQTT_CODE_SUCCESS) then -1 else 0, c).

(** [mqtt_ctx_free] *)
Definition mqtt_ctx_free (c : client) : client := Client false (connected c) (sock_conn c) (fd c) (rx c) (tx c).

(** [mqtt_close]: the context is freed only if the message could be sent. *)
Definition mqtt_close (c : client) : res (Z * client) :=
  '(rc, c) ← MqttClient_Disconnect c;
  if negb (rc =? MQTT_CODE_SUCCESS) then Ok (-1, c)
  else
    let '(rc, c) := MqttClient_NetDisconnect c in
    Ok (rc, mqtt_ctx_free c).

(** The loop of [matt_thread]: a message, or a ping when none came in time. *)
Fixpoint matt_loop (fuel wait_fuel payload_fuel : nat) (c : client) : res client :=
  match fuel with
  | O => NoFuel
  | S fuel =>
      '(rc, c) ← MqttClient_WaitMessage wait_fuel payload_fuel c;
      if rc =? MQTT_CODE_ERROR_TIMEOUT then
        '(rc, c) ← MqttClient_Ping wait_fuel payload_fuel c;
        if negb (rc =? MQTT_CODE_SUCCESS) then Ok c else matt_loop fuel wait_fuel payload_fuel c
      else if negb (rc =? MQTT_CODE_SUCCESS) then Ok c
      else matt_loop fuel wait_fuel payload_fuel c
  end.

Definition matt_thread (fuel wait_fuel payload_fuel : nat) (c : client) : res client :=
  c ← matt_loop fuel wait_fuel payload_fuel c;
  '(_, c) ← mqtt_unsubscribe_all wait_fuel payload_fuel c;
  '(_, c) ← mqtt_close c;
  Ok c.
End Client.

(** ** Sending *)
Section Sending.
Context {A : Type}.
Implicit Types (t : tx_side A) (c : client A).

Definition accepting (l : list send_result) : Prop :=
  Forall (fun s => match s with Accepts _ => True | Refuses _ => False end) l.

(** Nothing of an earlier packet is left, and the network takes what it is
    given. *)
Record tx_ready t : Prop := {
  ready_pos : write_pos t = 0;
  ready_sends : accepting (sends t);
  ready_room : 5 <= zlen (tx_buf t)
}.

Lemma set_write_pos_id t : write_pos t = 0 -> set_write_pos 0 t = t.
Proof. destruct t. by cbn; intros ->. Qed.

Lemma buf_sub_split {B} (b : list B) i n m : 0 <= i -> 0 <= n -> 0 <= m -> i + n + m <= zlen b ->
  buf_sub b i n ++ buf_sub b (i + n) m = buf_sub b i (n + m).
Proof.
  intros Hi Hn Hm Hb. unfold buf_sub. rewrite !Z2Nat.inj_add by lia. rewrite <- drop_drop, take_take_drop. done.
Qed.

(** However the sending is cut, all bytes from the position on go out once and
    in order. *)
Lemma socket_write_all fd len fuel : fd <> SOCKET_INVALID -> forall t,
  0 <= write_pos t < len -> len <= zlen (tx_buf t) -> accepting (sends t) ->
  (Z.to_nat (len - write_pos t) <= fuel)%nat ->
  exists l, accepting l /\ socket_write fuel fd len t =
    Ok (len, set_write_pos 0 (set_sends l (sent t ++ buf_sub (tx_buf t) (write_pos t) (len - write_pos t)) t)).
Proof.
  intros Hfd. induction fuel as [|fuel IH]; intros t Hp Hl Hs Hf; [lia|].
  cbn [socket_write]. unfold NetWrite. destruct (Z.leb_spec (len - write_pos t) 0); [lia|].
  destruct (Z.eqb_spec fd SOCKET_INVALID) as [|_]; [done|]. cbn [orb].
  destruct (sends t) as [|[n|e] l] eqn:El; [| |by apply Forall_cons in Hs as [[] _]].
  - cbn beta iota. destruct (Z.leb_spec (len - write_pos t) 0); [lia|].
    unfold set_write_pos at 1; cbn [write_pos set_sends].
    destruct (Z.ltb_spec (write_pos t + (len - write_pos t)) len); [lia|].
    exists []. split; [done|]. f_equal. f_equal. cbn. lia.
  - apply Forall_cons in Hs as [_ Hs]. set (k := Z.max 1 (Z.min n (len - write_pos t))).
    assert (Hk : 1 <= k <= len - write_pos t) by lia. cbn beta iota. destruct (Z.leb_spec k 0); [lia|].
    set (t1 := set_write_pos _ _). assert (E1 : write_pos t1 = write_pos t + k) by done.
    rewrite E1. destruct (Z.ltb_spec (write_pos t + k) len).
    + destruct (IH t1) as (l' & Hl' & E); [rewrite E1; lia|done|done|rewrite E1; lia|].
      exists l'. split; [done|]. rewrite E, E1. unfold t1. cbn [tx_buf sent set_write_pos set_sends].
      do 2 f_equal. rewrite <- app_assoc, buf_sub_split by lia. unfold set_sends, set_write_pos. cbn.
      repeat f_equal; lia.
    + exists l. split; [done|]. replace (write_pos t + k) with len by lia. unfold t1, set_write_pos, set_sends. cbn.
      by replace k with (len - write_pos t) by lia.
Qed.

(** A packet in the buffer is sent. *)
Lemma write_sent c len : fd c <> SOCKET_INVALID -> tx_ready (tx c) -> 0 < len <= zlen (tx_buf (tx c)) ->
  exists l, accepting l /\ MqttPacket_Write len c =
    Ok (len, set_tx (set_sends l (sent (tx c) ++ buf_sub (tx_buf (tx c)) 0 len) (tx c)) c).
Proof.
  intros Hfd [Hp Hs _] Hl. unfold MqttPacket_Write, MqttSocket_Write.
  destruct (Z.leb_spec len 0); [lia|]. rewrite Hp. destruct (Z.leb_spec len 0); [lia|].
  destruct (Z.ltb_spec (zlen (tx_buf (tx c))) len); [lia|].
  destruct (socket_write_all (fd c) len (S (Z.to_nat len)) Hfd (tx c)) as (l & Ha & E); [lia..|done|lia|].
  exists l. split; [done|]. rewrite E. cbn [mbind res_bind]. rewrite Hp, Z.sub_0_r. by rewrite set_write_pos_id.
Qed.

(** The sending side after packets have been sent. *)
Definition after (n : Z) (b : list Z) (l : list send_result) (out : list Z) t : tx_side A :=
  TxSide 0 n b l out (mPacketIdLast t) (topics t) (app t).

Lemma after_write l t bs : tx_ready t ->
  set_sends l (sent t ++ bs) t = after (write_len t) (tx_buf t) l (sent t ++ bs) t.
Proof. intros [Hp _ _]. unfold set_sends, after. by rewrite Hp. Qed.

Lemma loaded payload pos len c : 0 <= pos -> 0 <= len -> pos + len <= zlen payload -> len <= zlen (tx_buf (tx c)) ->
  exists b, zlen b = zlen (tx_buf (tx c)) /\ buf_sub b 0 len = buf_sub payload pos len /\
    load_payload payload pos len c = Ok (set_tx (set_tx_buf b (tx c)) c).
Proof.
  intros Hp Hl Hz Hr. unfold load_payload. destruct (Z.ltb_spec (zlen payload) (pos + len)); [lia|].
  pose proof (buf_sub_len payload pos len Hp Hl Hz) as Hd.
  destruct (buf_write (tx_buf (tx c)) 0 (buf_sub payload pos len)) as [b|] eqn:E.
  - exists b. split; [unfold zlen; by rewrite (buf_write_len _ _ _ _ E)|]. split; [|done].
    rewrite <- Hd at 1. by apply (buf_sub_write_eq (tx_buf (tx c))).
  - by rewrite buf_write_some in E by lia.
Qed.

(** The rest of the payload follows what is in the buffer. *)
Lemma payload_written payload total fuel : total <= zlen payload -> forall p c,
  fd c <> SOCKET_INVALID -> tx_ready (tx c) -> buffer_len p = total -> total < 2 ^ 28 ->
  0 <= intBuf_pos p + intBuf_len p <= total ->
  0 < write_len (tx c) <= zlen (tx_buf (tx c)) ->
  (Z.to_nat (total - (intBuf_pos p + intBuf_len p)) < fuel)%nat ->
  exists n b l, accepting l /\ zlen b = zlen (tx_buf (tx c)) /\
    write_payload fuel payload p c = Ok (MQTT_CODE_SUCCESS, set_intBuf 0 (total) p,
      set_tx (after n b l (sent (tx c) ++ buf_sub (tx_buf (tx c)) 0 (write_len (tx c)) ++
        buf_sub payload (intBuf_pos p + intBuf_len p) (total - (intBuf_pos p + intBuf_len p))) (tx c)) c).
Proof.
  intros Ht. induction fuel as [|fuel IH]; intros p c Hfd Hr Hb Hz Hk Hw Hf; [lia|]. set (k := intBuf_pos p + intBuf_len p) in *.
  destruct (write_sent c (write_len (tx c)) Hfd Hr Hw) as (l & Hl & E). cbn [write_payload]. rewrite E.
  cbn [mbind res_bind]. destruct (Z.ltb_spec (write_len (tx c)) 0); [lia|].
  fold k. rewrite u32_id by lia. cbn [intBuf_pos buffer_len set_intBuf]. rewrite Hb.
  rewrite after_write by done. destruct (Z.leb_spec (total) k).
  - exists (write_len (tx c)), (tx_buf (tx c)), l. split_and!; [done..|].
    replace k with (total) by lia. rewrite Z.sub_diag. by rewrite app_nil_r.
  - set (bs := buf_sub (tx_buf (tx c)) 0 (write_len (tx c))).
    set (len := Z.min (total - k) (zlen (tx_buf (tx c)))).
    assert (Hlen : 0 < len <= zlen (tx_buf (tx c))) by (destruct Hr; lia).
    set (c0 := set_tx (after _ _ _ _ _) c). change (zlen (tx_buf (tx c0))) with (zlen (tx_buf (tx c))). fold len.
    destruct (loaded payload k len (set_tx (set_write_len len (tx c0)) c0)) as (b & Hbl & Hbs & ->); [lia|lia|lia|exact (proj2 Hlen)|]. cbn [mbind res_bind].
    change (zlen b = zlen (tx_buf (tx c))) in Hbl.
    set (c1 := set_tx _ _). set (p1 := set_intBuf len k _).
    destruct (IH p1 c1) as (n & b' & l' & Hl' & Hb' & E1); try done.
    + split; [done|done|]. change (tx_buf (tx c1)) with b. destruct Hr; lia.
    + change (intBuf_pos p1 + intBuf_len p1) with (k + len). lia.
    + change (write_len (tx c1)) with len. change (tx_buf (tx c1)) with b. lia.
    + change (intBuf_pos p1 + intBuf_len p1) with (k + len). lia.
    + exists n, b', l'. split; [done|]. change (tx_buf (tx c1)) with b in Hb'. split; [lia|]. rewrite E1.
      change (intBuf_pos p1 + intBuf_len p1) with (k + len). change (sent (tx c1)) with (sent (tx c) ++ bs).
      change (write_len (tx c1)) with len. change (tx_buf (tx c1)) with b.
      rewrite Hbs, <- !app_assoc, buf_sub_split by lia. by replace (len + (total - (k + len))) with (total - k) by lia.
Qed.

Lemma after_same t : tx_ready t -> t = after (write_len t) (tx_buf t) (sends t) (sent t ++ []) t.
Proof. intros [Hp _ _]. unfold after. rewrite app_nil_r. rewrite <- Hp. by destruct t. Qed.

(** The rest of the payload, after the first [n] bytes of it. *)
Lemma payload_sent msg_cb fuel payload_fuel c p data total n :
  fd c <> SOCKET_INVALID -> tx_ready (tx c) -> total <= zlen data -> 0 <= n <= total -> total < 2 ^ 28 ->
  (Z.to_nat total < payload_fuel)%nat -> qos p = 0 -> total_len p = total -> buffer_pos p = n ->
  (n < total -> 0 < n /\ buffer_len p = total /\ intBuf_len p = n /\ intBuf_pos p = 0) ->
  exists p' m b l, accepting l /\ zlen b = zlen (tx_buf (tx c)) /\
    publish_payload msg_cb fuel payload_fuel data p c = Ok (MQTT_CODE_SUCCESS, p',
      set_tx (after m b l (sent (tx c) ++ buf_sub data n (total - n)) (tx c)) c).
Proof.
  intros Hfd Hr Hd Hn Ht Hf Hq Etot Epos Hmore. unfold publish_payload, MqttClient_Publish_WritePayload.
  rewrite Epos, Etot. destruct (Z.ltb_spec n total) as [Hlt|Hge].
  2:{ cbn [mbind res_bind]. rewrite Hq. eexists _, _, _, _. split; [apply (ready_sends _ Hr)|]. split; [done|].
      replace (total - n) with 0 by lia. change (buf_sub data n 0) with (@nil Z). rewrite <- after_same by done.
      destruct c; done. }
  destruct (Hmore Hlt) as (H0 & El & Eil & Eip). destruct (Z.ltb_spec 0 n); [|lia].
  set (len := Z.min (total - n) (zlen (tx_buf (tx c)))). pose proof (ready_room _ Hr) as H5.
  set (c0 := set_tx (set_write_len len (tx c)) c).
  destruct (loaded data n len c0) as (b & Hb & Hbs & ->); [lia|lia|lia|change (len <= zlen (tx_buf (tx c))); lia|].
  change (zlen b = zlen (tx_buf (tx c))) in Hb. cbn [mbind res_bind]. rewrite Eil, Eip, Z.add_0_l, u32_id by lia.
  set (p1 := set_intBuf n len p). set (c1 := set_tx _ c0).
  destruct (payload_written data total payload_fuel Hd p1 c1) as (m & b' & l & Hl & Hb' & E); try done.
  - destruct Hr. split; [done|done|]. change (5 <= zlen b). lia.
  - change (0 <= len + n <= total). lia.
  - change (0 < len <= zlen b). lia.
  - change (Z.to_nat (total - (len + n)) < payload_fuel)%nat. lia.
  - change (intBuf_pos p1 + intBuf_len p1) with (len + n) in E. rewrite E. cbn [mbind res_bind].
    change (MQTT_CODE_SUCCESS <? 0) with false. cbn iota. set (p3 := set_payload _ _ _ _).
    assert (E3 : buffer_pos p3 = n + total).
    { unfold p3. cbn. rewrite Epos. apply u32_id. lia. }
    rewrite E3. change (total_len p3) with (total_len p). rewrite Etot.
    destruct (Z.ltb_spec (n + total) total); [lia|]. cbn [mbind res_bind].
    change (MQTT_CODE_SUCCESS <? 0) with false. cbn iota. change (qos p3) with (qos p). rewrite Hq.
    eexists _, m, b', l. split; [done|]. change (tx_buf (tx c1)) with b in Hb'. split; [lia|].
    change (write_len (tx c1)) with len.
    change (tx_buf (tx c1)) with b. rewrite Hbs, (Z.add_comm len n), buf_sub_split by lia.
    by replace (len + (total - (n + len))) with (total - n) by lia.
Qed.

(** A message as [mqtt_publish] fills it. *)
Record fresh (p : MqttMessage) (q id : Z) (topic data : list Z) (total : Z) : Prop := {
  fresh_stat : stat p = MQTT_MSG_BEGIN;
  fresh_id : packet_id p = id;
  fresh_flags : (qos p, retain p, duplicate p) = (q, 0, 0);
  fresh_topic : topic_name p = Mem topic;
  fresh_buffer : buffer p = Mem data;
  fresh_total : total_len p = total;
  fresh_len : buffer_len p = 0;
  fresh_pos : buffer_pos p = 0
}.

(** [MqttClient_Publish] at quality 0.  At least one byte of the payload has to
    fit beside the topic. *)
Lemma publish_sent msg_cb fuel payload_fuel c p topic data total id :
  fd c <> SOCKET_INVALID -> tx_ready (tx c) -> publishable 0 0 0 id topic total -> total <= zlen data ->
  zlen (publish_head 0 0 0 id topic total) + Z.min 1 total <= zlen (tx_buf (tx c)) ->
  (Z.to_nat total < payload_fuel)%nat -> fresh p 0 id topic data total ->
  exists p' n b l, accepting l /\ zlen b = zlen (tx_buf (tx c)) /\
    MqttClient_Publish msg_cb fuel payload_fuel p c = Ok (MQTT_CODE_SUCCESS, p',
      set_tx (after n b l (sent (tx c) ++ publish_head 0 0 0 id topic total ++ take (Z.to_nat total) data) (tx c)) c).
Proof.
  intros Hfd Hr Hp Hd Hroom Hf [Es Ei Ef Et Eb En El Ep]. injection Ef as Eq Er Ed.
  unfold MqttClient_Publish. rewrite Eb, Es, Et. cbn [pointed mbind res_bind].
  pose proof (pub_total _ _ _ _ _ _ Hp) as Ht. pose proof (ready_room _ Hr) as H5.
  pose proof (publish_encoded 0 0 0 id topic total Hp (tx_buf (tx c)) p data Er Eq Ed Ei En ltac:(by rewrite Eb)
    El Hd) as E.
  cbv zeta in E. specialize (E ltac:(lia) H5). set (head := publish_head 0 0 0 id topic total) in *.
  set (n := Z.min total (zlen (tx_buf (tx c)) - zlen head)) in *.
  set (pk := head ++ take (Z.to_nat n) data) in *. rewrite E. cbn [defined mbind res_bind].
  set (p1 := set_intBuf n 0 _). set (b1 := pk ++ drop (length pk) (tx_buf (tx c))).
  assert (Hpk : zlen pk = zlen head + n) by (unfold pk; autorewrite with zlen; lia).
  assert (Hh : 4 <= zlen head) by apply head_positive.
  assert (Hb1 : zlen b1 = zlen (tx_buf (tx c))) by (unfold b1; autorewrite with zlen; unfold zlen in *; lia).
  destruct (Z.leb_spec (zlen pk) 0); [lia|].
  unfold publish_write. set (c1 := set_tx (set_write_len _ _) _).
  destruct (write_sent c1 (zlen pk)) as (l & Hl & Ew); [done| |change (0 < zlen pk <= zlen b1); lia|].
  { destruct Hr. split; [done|done|]. change (5 <= zlen b1). lia. }
  change (write_len (tx c1)) with (zlen pk). rewrite Ew. cbn [mbind res_bind].
  destruct (Z.ltb_spec (zlen pk) 0); [lia|].
  change (tx_buf (tx c1)) with b1. unfold b1 at 1. rewrite buf_sub_here by done.
  set (p2 := set_stat MQTT_MSG_WRITE_PAYLOAD _). set (c2 := set_tx (set_sends l _ _) c1).
  destruct (payload_sent msg_cb fuel payload_fuel c2 p2 data total n) as (p' & m & b & l' & Hl' & Hb & E2);
    try done; try lia.
  - split; [exact (ready_pos _ Hr)|exact Hl|]. change (5 <= zlen b1). lia.
  - pose proof (zlen_nonneg topic). lia.
  - unfold p2, p1. by destruct (0 <? total).
  - unfold p2, p1. by destruct (0 <? total).
  - unfold p2, p1. cbn [buffer_pos set_stat set_intBuf]. destruct (Z.ltb_spec 0 total); [done|]. rewrite Ep. lia.
  - intros Hn. assert (0 < total) by lia. unfold p2, p1. destruct (Z.ltb_spec 0 total); [|lia]. cbn. split_and!; (done || lia).
  - exists p', m, b, l'. split; [done|]. change (tx_buf (tx c2)) with b1 in Hb. split; [lia|]. rewrite E2.
    change (sent (tx c2)) with (sent (tx c) ++ pk). unfold pk. rewrite <- !app_assoc. unfold buf_sub.
    rewrite Z2Nat.inj_sub by lia. rewrite take_drop_commute.
    replace (Z.to_nat n + (Z.to_nat total - Z.to_nat n))%nat with (Z.to_nat total) by lia.
    assert (Es2 : take (Z.to_nat n) data ++ drop (Z.to_nat n) (take (Z.to_nat total) data) = take (Z.to_nat total) data).
    { replace (take (Z.to_nat n) data) with (take (Z.to_nat n) (take (Z.to_nat total) data)) by
        (rewrite take_take; f_equal; lia). apply take_drop. }
    by rewrite Es2.
Qed.

(** [bs] has been sent from [c], and nothing else is different. *)
Record only_sent (bs : list Z) c (c' : client A) : Prop := {
  os_same : (live c', connected c', sock_conn c', fd c', rx c') = (live c, connected c, sock_conn c, fd c, rx c);
  os_app : (topics (tx c'), app (tx c')) = (topics (tx c), app (tx c));
  os_sent : sent (tx c') = sent (tx c) ++ bs;
  os_ready : tx_ready (tx c');
  os_room : zlen (tx_buf (tx c')) = zlen (tx_buf (tx c))
}.

(** The packet of a message without answer. *)
Definition plain_publish (topic payload : list Z) : list Z :=
  publish_head 0 0 0 0 topic (zlen payload) ++ payload.

Lemma report_sent msg_cb fuel payload_fuel c topic data data_len :
  live c = true -> fd c <> SOCKET_INVALID -> tx_ready (tx c) -> zlen topic < 2 ^ 16 ->
  u16 data_len <= zlen data -> zlen topic + 8 <= zlen (tx_buf (tx c)) ->
  (Z.to_nat (u16 data_len) < payload_fuel)%nat ->
  exists c', mqtt_publish msg_cb fuel payload_fuel 0 data data_len topic c = Ok (0, c') /\
    only_sent (plain_publish topic (take (Z.to_nat (u16 data_len)) data)) c c'.
Proof.
  intros Hlive Hfd Hr Ht Hd Hroom Hf. unfold mqtt_publish, mqtt_get_packetid. rewrite Hlive. cbn [negb].
  set (last := if MAX_PACKET_ID <=? mPacketIdLast (tx c) then 0 else mPacketIdLast (tx c)).
  set (id := u16 (last + 1)). set (total := u16 data_len) in *. set (c1 := set_tx _ c).
  pose proof (u16_range data_len) as Hn. fold total in Hn. pose proof (zlen_nonneg topic).
  assert (Hp : publishable 0 0 0 id topic total).
  { split; try lia. split; [apply u16_range|lia]. }
  destruct (publish_sent msg_cb fuel payload_fuel c1 (MqttMsg MQTT_MSG_BEGIN id 0 0 0 (Mem topic) 0 total (Mem data) 0 0 0 0 0 0)
    topic data total id) as (p' & n & b & l & Hl & Hb & E); try done.
  - destruct Hr. by split.
  - change (zlen (publish_head 0 0 0 id topic total) + Z.min 1 total <= zlen (tx_buf (tx c))).
    rewrite head_length. unfold topic_off. cbn [Z.ltb Z.compare].
    pose proof (vbi_length_small (zlen topic + 2 + 0 + total)). lia.
  - rewrite E. cbn [mbind res_bind]. change (negb (MQTT_CODE_SUCCESS =? MQTT_CODE_SUCCESS)) with false. cbn iota.
    eexists. split; [reflexivity|]. split; try done.
    + unfold plain_publish. rewrite zlen_take.
      replace (Z.min (Z.of_nat (Z.to_nat total)) (zlen data)) with total by lia. done.
    + split; [done|exact Hl|]. change (5 <= zlen b). change (zlen b = zlen (tx_buf (tx c))) in Hb. destruct Hr. lia.
Qed.

(** [C28] A message that is published is sent whole.  When the network takes what
    it is given, in pieces of any size, [mqtt_publish] returns 0 after it has
    sent exactly the packet of the protocol with the topic and the first
    [data_len] bytes of the data, however much longer than the transmit buffer
    they are, and nothing else of the client has changed. *)
Theorem mqtt_publish_sent msg_cb fuel payload_fuel c topic data data_len :
  live c = true -> fd c <> SOCKET_INVALID -> tx_ready (tx c) -> zlen topic < 2 ^ 16 ->
  u16 data_len <= zlen data -> zlen topic + 8 <= zlen (tx_buf (tx c)) ->
  (Z.to_nat (u16 data_len) < payload_fuel)%nat ->
  exists c', mqtt_publish msg_cb fuel payload_fuel 0 data data_len topic c = Ok (0, c') /\
    sent (tx c') = sent (tx c) ++ publish_head 0 0 0 0 topic (u16 data_len) ++ take (Z.to_nat (u16 data_len)) data /\
    rx c' = rx c /\ app (tx c') = app (tx c) /\ tx_ready (tx c').
Proof.
  intros Hl Hfd Hr Ht Hd Hroom Hf.
  destruct (report_sent msg_cb fuel payload_fuel c topic data data_len Hl Hfd Hr Ht Hd Hroom Hf) as (c' & E & [Hs Ha Hsent Hr' _]).
  exists c'. split; [done|]. injection Hs. injection Ha. intros. rewrite Hsent. unfold plain_publish. rewrite zlen_take.
  pose proof (u16_range data_len). by replace (Z.min (Z.of_nat (Z.to_nat (u16 data_len))) (zlen data)) with (u16 data_len) by lia.
Qed.
End Sending.

(** ** Receiving *)

(** The bytes [bs] arrive, in pieces, and leave what arrives afterwards. *)
Inductive arrives : list Z -> list arrival -> list arrival -> Prop :=
  | arrives_nil arr : arrives [] arr arr
  | arrives_last bs arr : bs <> [] -> arrives bs (Data bs :: arr) arr
  | arrives_part bs more arr : bs <> [] -> more <> [] -> arrives bs (Data (bs ++ more) :: arr) (Data more :: arr)
  | arrives_more bs cs arr arr' : cs <> [] -> arrives cs arr arr' -> arrives (bs ++ cs) (Data bs :: arr) arr'.

Ltac arrive := first [apply arrives_nil|by apply arrives_last|by apply arrives_part|by apply arrives_more].

Lemma arrives_pieces pieces arr : Forall (fun p => p <> []) pieces -> arrives (concat pieces) (map Data pieces ++ arr) arr.
Proof.
  induction 1 as [|p [|q ps] Hp Hps IH]; cbn [concat map app] in *; [arrive|rewrite app_nil_r; arrive|].
  apply arrives_more; [|done]. apply Forall_cons in Hps as [Hq _]. by destruct q.
Qed.

(** Bytes that arrive can be waited for one part after the other. *)
Lemma arrives_split bs arr arr' : arrives bs arr arr' -> forall a b, bs = a ++ b ->
  exists mid, arrives a arr mid /\ arrives b mid arr'.
Proof.
  induction 1 as [arr|bs arr Hb|bs more arr Hb Hm|bs cs arr arr' Hc H IH]; intros a b E.
  - symmetry in E. apply app_eq_nil in E as [-> ->]. exists arr. split; arrive.
  - destruct a as [|x a]; [exists (Data bs :: arr); cbn in E; subst b; split; arrive|].
    destruct b as [|y b]; [exists arr; rewrite app_nil_r in E; rewrite <- E; split; arrive|].
    exists (Data (y :: b) :: arr). rewrite E. split; arrive.
  - destruct a as [|x a]; [exists (Data (bs ++ more) :: arr); cbn in E; subst b; split; arrive|].
    destruct b as [|y b]; [rewrite app_nil_r in E; exists (Data more :: arr); rewrite <- E; split; arrive|].
    exists (Data ((y :: b) ++ more) :: arr). rewrite E, <- app_assoc. split; arrive.
  - destruct a as [|x a]; [exists (Data bs :: arr); cbn in E; subst b; split; [arrive|arrive]|].
    destruct (decide (length (x :: a) < length bs)%nat) as [Hlt|Hge].
    + assert (Eb : bs = (x :: a) ++ drop (length (x :: a)) bs).
      { rewrite <- (take_drop (length (x :: a)) bs) at 1. f_equal.
        apply (f_equal (take (length (x :: a)))) in E. rewrite take_app_le, take_app_length in E by lia. done. }
      set (more := drop (length (x :: a)) bs) in *. assert (more <> []) by (intros Hn; apply (f_equal length) in Eb;
        rewrite Hn, app_nil_r in Eb; lia).
      exists (Data more :: arr). rewrite Eb at 1. split; [arrive|].
      assert (Eb2 : b = more ++ cs).
      { rewrite Eb, <- app_assoc in E. by apply app_inv_head in E. }
      rewrite Eb2. arrive.
    + assert (Ea : x :: a = bs ++ drop (length bs) (x :: a)).
      { rewrite <- (take_drop (length bs) (x :: a)) at 1. f_equal.
        apply (f_equal (take (length bs))) in E. rewrite take_app_length, take_app_le in E by lia. done. }
      set (a1 := drop (length bs) (x :: a)) in *. rewrite Ea, <- app_assoc in E. apply app_inv_head in E.
      destruct (IH a1 b E) as (mid & H1 & H2). destruct a1 as [|z a1].
      * rewrite app_nil_r in Ea. rewrite Ea. destruct bs as [|? bs]; [done|]. exists arr. split; [arrive|].
        cbn in E. by subst b.
      * exists mid. rewrite Ea. split; [arrive|done].
Qed.

Lemma read_arrived bs arr arr' is_closed : arrives bs arr arr' -> bs <> [] ->
  read_loop (zlen bs) arr is_closed = (None, bs, arr').
Proof.
  induction 1 as [arr|bs arr Hb|bs more arr Hb Hm|bs cs arr arr' Hc H IH]; intros Hne; cbn [read_loop]; [done|..].
  - rewrite Z.leb_refl, Z.ltb_irrefl. unfold zlen. by rewrite Nat2Z.id, take_ge.
  - rewrite zlen_app. pose proof (zlen_nonneg more). destruct (Z.leb_spec (zlen bs) (zlen bs + zlen more)); [|lia].
    assert (0 < zlen more) by (destruct more; [done|rewrite zlen_cons; pose proof (zlen_nonneg more); lia]).
    destruct (Z.ltb_spec (zlen bs) (zlen bs + zlen more)); [|lia].
    unfold zlen. by rewrite Nat2Z.id, take_app_length, drop_app_length.
  - rewrite zlen_app. assert (0 < zlen cs) by (destruct cs; [done|rewrite zlen_cons; pose proof (zlen_nonneg cs); lia]).
    destruct (Z.leb_spec (zlen bs + zlen cs) (zlen bs)); [lia|].
    replace (zlen bs + zlen cs - zlen bs) with (zlen cs) by lia. by rewrite IH.
Qed.

(** The bytes that are waited for are in the buffer, behind [h]. *)
Lemma socket_read_arrived fd st hl rl bl h q m arr arr' cl bs :
  fd <> SOCKET_INVALID -> bs <> [] -> arrives bs arr arr' -> zlen bs <= zlen q ->
  MqttSocket_Read fd (zlen h) (zlen bs) (RxSide st hl rl bl 0 (h ++ q) m arr cl) =
    Ok (zlen bs, RxSide st hl rl bl 0 ((h ++ bs) ++ drop (length bs) q) m arr' cl).
Proof.
  intros Hfd Hbs Ha Hq. assert (0 < zlen bs) by (destruct bs; [done|rewrite zlen_cons; pose proof (zlen_nonneg bs); lia]).
  unfold MqttSocket_Read. cbn [read_pos]. destruct (Z.leb_spec (zlen bs) 0); [lia|].
  cbn [socket_read read_pos]. unfold NetRead. rewrite Z.sub_0_r, Z.add_0_r.
  destruct (Z.leb_spec (zlen bs) 0); [lia|]. destruct (Z.eqb_spec fd SOCKET_INVALID) as [|_]; [done|].
  cbn [orb arrivals closed rx_buf]. rewrite (read_arrived bs arr arr' cl Ha Hbs), buf_write_at by done.
  cbn [defined mbind res_bind]. destruct (Z.leb_spec (zlen bs) 0); [lia|].
  cbn [set_read_pos read_pos set_rx_buf set_arrivals]. rewrite Z.add_0_l.
  by destruct (Z.ltb_spec (zlen bs) (zlen bs)); [lia|].
Qed.

(** The same at the start of the buffer. *)
Lemma socket_read_start fd r bs arr' :
  fd <> SOCKET_INVALID -> bs <> [] -> arrives bs (arrivals r) arr' -> zlen bs <= zlen (rx_buf r) -> read_pos r = 0 ->
  MqttSocket_Read fd 0 (zlen bs) r = Ok (zlen bs, RxSide (pk_stat r) (header_len r) (remain_len r) (buf_len r) 0
    (bs ++ drop (length bs) (rx_buf r)) (msg r) arr' (closed r)).
Proof.
  intros Hfd Hbs Ha Hq Hp. destruct r as [st hl rl bl rp q m arr cl]. cbn in *. subst rp.
  exact (socket_read_arrived fd st hl rl bl [] q m arr arr' cl bs Hfd Hbs Ha Hq).
Qed.

(** All bytes of a length but the last one are marked. *)
Fixpoint marked (ds : list Z) : Prop :=
  match ds with
  | [] => False
  | [d] => Z.land d 128 = 0
  | d :: ds => Z.land d 128 <> 0 /\ marked ds
  end.

Lemma vbi_marked n x : 0 <= x < 128 ^ Z.of_nat (S n) -> marked (encode_vbi (S (S n)) x).
Proof.
  revert x. induction n as [|n IH]; intros x Hx; pose proof (Z.mod_pos_bound x 128 ltac:(lia)) as Hb;
    destruct (land_127 (x mod 128) Hb) as (_ & _ & L3 & L4).
  - change (128 ^ Z.of_nat 1) with 128 in Hx. cbn [encode_vbi]. by rewrite Z.div_small by lia.
  - rewrite Nat2Z.inj_succ, Z.pow_succ_r in Hx by lia. specialize (IH (x / 128)).
    set (k := S (S n)) in *. cbn [encode_vbi]. destruct (0 <? x / 128) eqn:E; [|done].
    assert (Hm : marked (encode_vbi k (x / 128)))
      by (apply IH; split; [apply Z.div_pos; lia|apply Z.div_lt_upper_bound; lia]).
    destruct (encode_vbi k (x / 128)); [done|]. split; [by rewrite L3|done].
Qed.

Lemma arrives_none arr arr' : arrives [] arr arr' -> arr' = arr.
Proof.
  intros H. remember [] as bs eqn:E. destruct H as [| | |bs cs]; try done. by apply app_eq_nil in E as [_ ->].
Qed.

Lemma snoc_app {B} (f : B) pre d q : (f :: pre ++ [d]) ++ q = (f :: pre) ++ d :: q.
Proof. by rewrite app_comm_cons, <- app_assoc. Qed.

Lemma length_read fd st rl bl m arr' cl ds : forall f pre d q arr turns,
  fd <> SOCKET_INVALID -> marked (d :: ds) -> arrives ds arr arr' -> zlen ds <= zlen q ->
  turns = (4 - length pre)%nat -> (length pre + length ds < 4)%nat ->
  read_length turns fd (RxSide st (zlen (f :: pre ++ [d])) rl bl 0 ((f :: pre ++ [d]) ++ q) m arr cl) =
    Ok (None, RxSide st (zlen (f :: pre ++ d :: ds)) rl bl 0 ((f :: pre ++ d :: ds) ++ drop (length ds) q) m arr' cl).
Proof.
  induction ds as [|e ds IH]; intros f pre d q arr turns Hfd Hm Ha Hq Ht Hl;
    (destruct turns as [|turns]; [lia|]); cbn [read_length rx_buf];
    replace (1 + (MQTT_PACKET_MAX_LEN_BYTES - Z.of_nat (S turns))) with (zlen (f :: pre))
      by (rewrite zlen_cons; unfold zlen, MQTT_PACKET_MAX_LEN_BYTES; lia);
    rewrite snoc_app at 1; rewrite buf_get_here; cbn [defined mbind res_bind].
  - cbn in Hm. rewrite Hm. apply arrives_none in Ha as ->. done.
  - destruct Hm as [Hd Hm]. destruct (Z.eqb_spec (Z.land d 128) 0); [done|].
    destruct (arrives_split _ _ _ Ha [e] ds eq_refl) as (mid & H1 & H2). rewrite zlen_cons in Hq.
    change 1 with (zlen [e]) at 1. cbn [header_len].
    rewrite (socket_read_arrived fd st _ rl bl _ q m arr mid cl [e]) by (done || (pose proof (zlen_nonneg ds); rewrite zlen_cons, zlen_nil; lia)).
    cbn [mbind res_bind]. change (zlen [e]) with 1. cbn [Z.ltb Z.compare Z.eqb negb Pos.eqb set_packet pk_stat header_len remain_len
      buf_len read_pos rx_buf msg arrivals closed].
    replace ((f :: pre ++ [d]) ++ [e]) with (f :: (pre ++ [d]) ++ [e]) by done.
    replace (zlen (f :: pre ++ [d]) + 1) with (zlen (f :: (pre ++ [d]) ++ [e])) by (autorewrite with zlen; lia).
    etransitivity; [apply (IH f (pre ++ [d]) e (drop 1 q) mid turns); try done|].
    + rewrite zlen_drop. pose proof (zlen_nonneg ds). lia.
    + rewrite length_app. cbn. lia.
    + rewrite length_app. cbn in *. lia.
    + by rewrite drop_drop, <- app_assoc.
Qed.

(** A packet is read up to the end of the receive buffer, however it arrives. *)
Lemma packet_read fd hl rl bl q m arr arr' cl f n body :
  fd <> SOCKET_INVALID -> 0 <= n < 2 ^ 28 -> 6 <= zlen q ->
  zlen body = Z.min n (zlen q - (1 + zlen (MqttEncode_Vbi n))) ->
  let pk := f :: MqttEncode_Vbi n ++ body in
  arrives pk arr arr' ->
  MqttPacket_Read fd (RxSide MQTT_PK_BEGIN hl rl bl 0 q m arr cl) =
    Ok (zlen pk, RxSide MQTT_PK_BEGIN (1 + zlen (MqttEncode_Vbi n)) n bl 0 (pk ++ drop (length pk) q) m arr' cl).
Proof.
  intros Hfd Hn Hq Hbody pk Ha. pose proof (vbi_length_small n Hn) as Hv.
  assert (Hm : marked (MqttEncode_Vbi n)).
  { unfold MqttEncode_Vbi. rewrite u32_id by lia. apply (vbi_marked 3). change (128 ^ Z.of_nat 4) with (2 ^ 28). lia. }
  pose proof (vbi_decoded n [f]) as Hd. unfold pk in *. destruct (MqttEncode_Vbi n) as [|d ds] eqn:Ev; [done|].
  change (f :: (d :: ds) ++ body) with ([f; d] ++ ds ++ body) in Ha.
  destruct (arrives_split _ _ _ Ha _ _ eq_refl) as (mid & H1 & H2).
  destruct (arrives_split _ _ _ H2 _ _ eq_refl) as (mid2 & H3 & H4).
  rewrite zlen_cons in Hv, Hbody. pose proof (zlen_nonneg ds) as Hds. pose proof (zlen_nonneg body) as Hb0.
  assert (E1 : MqttSocket_Read fd 0 2 (RxSide MQTT_PK_BEGIN 2 0 bl 0 q m arr cl) =
    Ok (2, RxSide MQTT_PK_BEGIN 2 0 bl 0 ([f; d] ++ drop 2 q) m mid cl))
    by exact (socket_read_arrived fd MQTT_PK_BEGIN 2 0 bl [] q m arr mid cl [f; d] Hfd ltac:(done) H1
      ltac:(rewrite !zlen_cons, zlen_nil; lia)).
  unfold MqttPacket_Read, set_packet. cbn [pk_stat buf_len read_pos rx_buf msg arrivals closed]. rewrite E1.
  cbn [mbind res_bind Z.ltb Z.compare Z.eqb Pos.eqb negb].
  unfold read_head, set_pk_stat, set_packet. cbn [header_len remain_len buf_len read_pos rx_buf msg arrivals closed].
  assert (E2 : read_length (Z.to_nat MQTT_PACKET_MAX_LEN_BYTES) fd
      (RxSide MQTT_PK_READ_HEAD 2 0 bl 0 ([f; d] ++ drop 2 q) m mid cl) =
    Ok (None, RxSide MQTT_PK_READ_HEAD (zlen (f :: d :: ds)) 0 bl 0 ((f :: d :: ds) ++ drop (length ds) (drop 2 q)) m mid2 cl))
    by exact (length_read fd MQTT_PK_READ_HEAD 0 bl m mid2 cl ds f [] d (drop 2 q) mid 4 Hfd Hm H3
      ltac:(rewrite zlen_drop; lia) eq_refl ltac:(cbn; unfold zlen in *; lia)).
  rewrite E2. cbn [mbind res_bind rx_buf].
  set (q2 := drop (length ds) (drop 2 q)) in *.
  assert (Ed : MqttDecode_Vbi ((f :: d :: ds) ++ q2) 1 = Some (zlen (d :: ds), n)) by exact (Hd q2 Hn). rewrite Ed.
  cbn [defined mbind res_bind pk_stat header_len remain_len buf_len read_pos rx_buf msg arrivals closed].
  rewrite i32_id by lia. destruct (Z.ltb_spec (zlen (d :: ds)) 0); [rewrite zlen_cons in *; lia|].
  assert (Hq2 : zlen q2 = zlen q - 2 - zlen ds) by (unfold q2; rewrite !zlen_drop; unfold zlen in *; lia).
  assert (Hh : zlen (f :: d :: ds) = 2 + zlen ds) by (rewrite !zlen_cons; lia).
  replace (zlen (d :: ds) + 1) with (zlen (f :: d :: ds)) by (rewrite !zlen_cons; lia).
  unfold read_rest, set_pk_stat, set_packet. cbn [header_len remain_len buf_len read_pos rx_buf msg arrivals closed].
  rewrite zlen_app, Hq2, Hh. destruct (Z.ltb_spec (2 + zlen ds + (zlen q - 2 - zlen ds)) (2 + zlen ds)); [lia|].
  replace (Z.min n (2 + zlen ds + (zlen q - 2 - zlen ds) - (2 + zlen ds))) with (zlen body) by lia.
  assert (El : zlen (f :: (d :: ds) ++ body) = 2 + zlen ds + zlen body) by (autorewrite with zlen; lia).
  assert (Eq : (f :: (d :: ds) ++ body) ++ drop (length (f :: (d :: ds) ++ body)) q = ((f :: d :: ds) ++ body) ++ drop (length body) q2).
  { unfold q2. rewrite !drop_drop.
    by replace (length (f :: (d :: ds) ++ body)) with (2 + length ds + length body)%nat by (cbn; rewrite length_app; lia). }
  rewrite El, Eq, zlen_cons. replace (1 + (1 + zlen ds)) with (2 + zlen ds) by lia. destruct (Z.ltb_spec 0 n).
  - rewrite <- Hh. rewrite (socket_read_arrived fd MQTT_PK_READ _ n bl (f :: d :: ds) q2 m mid2 arr' cl body)
      by (try done; try lia; intros ->; rewrite zlen_nil in *; lia).
    cbn [mbind res_bind]. destruct (Z.leb_spec (zlen body) 0); [lia|]. by rewrite Hh.
  - assert (body = []) as -> by (apply nil_length_inv; unfold zlen in *; lia). apply arrives_none in H4 as ->.
    rewrite app_nil_r. cbn [length]. by rewrite drop_0, zlen_nil.
Qed.

(** ** Answers *)

Lemma connect_ack_decoded flags code junk o :
  MqttClient_DecodePacket (packet MQTT_PACKET_TYPE_CONNECT_ACK 0 [[flags; code]] ++ junk) 4 o =
    Ok (4, MQTT_PACKET_TYPE_CONNECT_ACK, 0, 0, fill (fun a => Ack (ack_stat a) (ack_id a) flags code (ack_codes a)) o).
Proof. reflexivity. Qed.

Lemma subscribe_ack_decoded id code junk o : 0 <= id < 2 ^ 16 ->
  MqttClient_DecodePacket (packet MQTT_PACKET_TYPE_SUBSCRIBE_ACK 0 [MqttEncode_Num id; [code]] ++ junk) 5 o =
    Ok (5, MQTT_PACKET_TYPE_SUBSCRIBE_ACK, 0, id,
      fill (fun a => Ack (ack_stat a) id (ack_flags a) (ack_return_code a) (Some 4)) o).
Proof.
  intros Hid. pose proof (num_value id Hid) as E. set (n := Z.lor _ _) in E.
  transitivity (Ok (5, MQTT_PACKET_TYPE_SUBSCRIBE_ACK, 0, n,
    fill (fun a => Ack (ack_stat a) n (ack_flags a) (ack_return_code a) (Some 4)) o)); [reflexivity|by rewrite E].
Qed.

Section Answers.
Context {A : Type} (msg_cb : MqttMessage -> Z -> bool -> client A -> res (Z * client A)).
Implicit Types (t : tx_side A) (c : client A).

(** An answer that can be read into the object of a caller. *)
Record answer (type id : Z) (parts : list (list Z)) (f : ack -> ack) : Prop := {
  an_type : type = MQTT_PACKET_TYPE_CONNECT_ACK \/ type = MQTT_PACKET_TYPE_SUBSCRIBE_ACK;
  an_decoded : forall junk o, MqttClient_DecodePacket (packet type 0 parts ++ junk) (zlen (packet type 0 parts)) o =
    Ok (zlen (packet type 0 parts), type, 0, id, fill f o);
  an_stat : forall s a, f (set_ack_stat s a) = set_ack_stat s (f a)
}.

(** The receiving side after an answer. *)
Record answered_from (pk : list Z) (arr' : list arrival) (r r' : rx_side) : Prop := {
  af_buf : rx_buf r' = pk ++ drop (length pk) (rx_buf r);
  af_msg : msg r' = msg r;
  af_closed : closed r' = closed r;
  af_arrivals : arrivals r' = arr'
}.

(** An answer that arrives in any pieces ends the waiting for it. *)
Lemma answer_awaited fuel payload_fuel type id parts f c arr' :
  answer type id parts f -> let pk := packet type 0 parts in
  zlen pk <= zlen (rx_buf (rx c)) -> 6 <= zlen (rx_buf (rx c)) < 2 ^ 28 -> fd c <> SOCKET_INVALID ->
  arrives pk (arrivals (rx c)) arr' ->
  exists r', MqttClient_WaitType msg_cb (S fuel) payload_fuel type id (Some cleared_ack) c =
      Ok (MQTT_CODE_SUCCESS, Some (f cleared_ack), set_rx r' c) /\
    answered_from pk arr' (rx c) r'.
Proof.
  intros [Ht Hd Hs] pk Hroom H6 Hfd Ha. pose proof (zlen_nonneg (concat parts)) as H0.
  assert (Hpk : zlen pk = 1 + zlen (MqttEncode_Vbi (zlen (concat parts))) + zlen (concat parts))
    by (unfold pk, packet; autorewrite with zlen; lia).
  pose proof (vbi_length (zlen (concat parts))) as Hv.
  destruct c as [lv cn sc fdn [st hl rl bl rp b m arr cl] t]. cbn [rx fd rx_buf msg arrivals closed] in *.
  cbn [MqttClient_WaitType]. unfold wait_turn, wait_read. cbn [wait_stat ack_stat cleared_ack].
  unfold set_rx, set_msg, set_read_pos, set_pk_stat, set_packet, set_buf_len. cbn [set_wait_stat].
  cbn [rx fd msg pk_stat header_len remain_len buf_len read_pos rx_buf arrivals closed live connected sock_conn tx].
  pose proof (packet_read fdn hl rl bl b m arr arr' cl (type_flags type 0 0 0) (zlen (concat parts)) (concat parts) Hfd ltac:(lia) ltac:(lia)
    ltac:(lia)) as E. cbv zeta in E. fold (packet type 0 parts) in E. fold pk in E. rewrite (E Ha).
  cbn [mbind res_bind rx rx_buf buf_len arrivals closed msg fd pk_stat header_len remain_len read_pos].
  destruct (Z.leb_spec (zlen pk) 0); [lia|]. unfold pk at 2 3 4. rewrite (Hd _ Local). fold pk.
  cbn [mbind res_bind fill set_wait_stat]. destruct (Z.ltb_spec (zlen pk) 0); [lia|].
  cbn [mbind res_bind]. unfold wait_handle. cbn [wait_stat ack_stat set_ack_stat]. rewrite !Z.eqb_refl, !orb_true_r. cbn [andb].
  set (c1 := Client _ _ _ _ _ _). assert (Eh : forall o, MqttClient_HandlePacket msg_cb payload_fuel type (Some o) c1 =
    Ok (zlen pk, Some (f o), c1)).
  { intros o. unfold MqttClient_HandlePacket. destruct Ht as [-> | ->];
      cbn [Z.eqb Pos.eqb Z.leb Z.compare Pos.compare Pos.compare_cont andb orb MQTT_PACKET_TYPE_PUBLISH MQTT_PACKET_TYPE_PUBLISH_ACK
        MQTT_PACKET_TYPE_PUBLISH_COMP MQTT_PACKET_TYPE_CONNECT_ACK MQTT_PACKET_TYPE_SUBSCRIBE_ACK];
      unfold c1; cbn [rx rx_buf buf_len]; unfold pk; by rewrite (Hd _ (Given o)). }
  rewrite Eh. cbn [mbind res_bind]. destruct (Z.leb_spec 0 (zlen pk)); [|lia]. cbn [set_wait_stat].
  change (MQTT_CODE_SUCCESS <? 0) with false. cbn iota. eexists. split; [by rewrite <- !Hs|done].
Qed.

(** A request that fits in the buffer is sent, and its answer is awaited. *)
Lemma request_answered fuel payload_fuel encode sent_type q ds type id parts f c arr' :
  encode (tx_buf (tx c)) = encode_packet (tx_buf (tx c)) sent_type q (zlen (concat ds)) ds ->
  let req := packet sent_type q ds in let pk := packet type 0 parts in
  zlen (concat ds) < 2 ^ 28 -> zlen req <= zlen (tx_buf (tx c)) -> tx_ready (tx c) -> answer type id parts f ->
  zlen pk <= zlen (rx_buf (rx c)) -> 6 <= zlen (rx_buf (rx c)) < 2 ^ 28 -> fd c <> SOCKET_INVALID ->
  arrives pk (arrivals (rx c)) arr' ->
  exists r' c', request msg_cb (S fuel) payload_fuel encode type id c = Ok (MQTT_CODE_SUCCESS, Some (f cleared_ack), set_rx r' c') /\
    answered_from pk arr' (rx c) r' /\ only_sent req c c' /\ mPacketIdLast (tx c') = mPacketIdLast (tx c).
Proof.
  intros He req pk Hn Hfit Hr Han Hroom H6 Hfd Ha. pose proof (ready_room _ Hr) as H5.
  unfold request. rewrite He, packet_encoded by done. fold req. cbn [defined mbind res_bind].
  set (b := req ++ _). assert (Hb : zlen b = zlen (tx_buf (tx c))).
  { unfold b. rewrite zlen_app, zlen_drop. unfold zlen in *. lia. }
  assert (Hp : 0 < zlen req) by (unfold req, packet; rewrite zlen_cons; pose proof (zlen_nonneg (MqttEncode_Vbi (zlen (concat ds)) ++ concat ds)); lia).
  destruct (Z.leb_spec (zlen req) 0); [lia|]. set (c1 := set_tx _ c).
  assert (Hr1 : tx_ready (tx c1)) by (destruct Hr; split; [done..|change (5 <= zlen b); lia]).
  destruct (write_sent c1 (zlen req) Hfd Hr1) as (l & Hl & Ew); [change (0 < zlen req <= zlen b); lia|].
  rewrite Ew. cbn [mbind res_bind]. rewrite Z.eqb_refl. cbn [negb]. set (c2 := set_tx _ c1).
  destruct (answer_awaited fuel payload_fuel type id parts f c2 arr' Han Hroom H6 Hfd Ha) as (r' & E & Hf).
  exists r', c2. split; [exact E|]. split; [exact Hf|]. split; [|done]. split; try done.
  - change (sent (tx c) ++ buf_sub b 0 (zlen req) = sent (tx c) ++ req). unfold b. by rewrite buf_sub_here.
  - destruct Hr1. by split.
Qed.
End Answers.

(** ** The callback *)

(** What a call of the callback sees: the topic, the memory from the payload on,
    how much of it is payload, its place in the message, and the two flags. *)
Record call := Call {
  c_topic : list Z;
  c_memory : list Z;
  c_len : Z;
  c_pos : Z;
  c_total : Z;
  c_new : bool;
  c_done : bool
}.

Definition pointer_at (p : pointer) (b : list Z) : list Z :=
  match p with NULL => [] | Mem m => m | Rx off => drop (Z.to_nat off) b end.

Definition call_of (m : MqttMessage) (new : Z) (done : bool) (b : list Z) : call :=
  Call (take (Z.to_nat (topic_name_len m)) (pointer_at (topic_name m) b)) (pointer_at (buffer m) b)
    (buffer_len m) (buffer_pos m) (total_len m) (negb (new =? 0)) done.

(** The call for the piece [p] of a message: the topic is told with the first
    one only. *)
Record piece_call (topic : list Z) (pos total : Z) (p : list Z) (new done : bool) (x : call) : Prop := {
  pc_topic : c_topic x = if new then topic else [];
  pc_memory : take (length p) (c_memory x) = p;
  pc_len : c_len x = zlen p;
  pc_pos : c_pos x = pos;
  pc_total : c_total x = total;
  pc_new : c_new x = new;
  pc_done : c_done x = done
}.

Fixpoint piece_calls (topic : list Z) (pos total : Z) (new : bool) (ps : list (list Z)) (xs : list call) : Prop :=
  match ps, xs with
  | [], [] => True
  | p :: ps, x :: xs =>
      piece_call topic pos total p new (match ps with [] => true | _ => false end) x /\
      piece_calls topic (pos + zlen p) total false ps xs
  | _, _ => False
  end.

(** Pieces of the size of the buffer, but for the last one. *)
Fixpoint cut (L : Z) (ps : list (list Z)) : Prop :=
  match ps with
  | [] => True
  | [p] => 0 < zlen p <= L
  | p :: ps => zlen p = L /\ cut L ps
  end.

Lemma cut_tail L p ps : cut L (p :: ps) -> cut L ps.
Proof. destruct ps; [done|]. by intros [_ H]. Qed.

(** Only the last piece leaves nothing. *)
Lemma cut_ends L ps n : 0 < L -> cut L ps -> (n + zlen (concat ps) <=? n) = match ps with [] => true | _ => false end.
Proof.
  intros HL Hc. destruct ps as [|p ps]; [apply Z.leb_le; change (zlen (concat [])) with 0; lia|].
  apply Z.leb_gt. cbn [cut concat] in *. rewrite zlen_app. pose proof (zlen_nonneg (concat ps)). destruct ps; [|destruct Hc]; lia.
Qed.

(** ** A message in the buffer *)
Section Message.
Context {A : Type} (topic : list Z) (L rt q dup id : Z) (payload : list Z).
Implicit Types (t : tx_side A) (c : client A).
Hypothesis Hp : publishable rt q dup id topic (zlen payload).

#[local] Abbreviation head := (publish_head rt q dup id topic (zlen payload)).

(** A message that has been decoded: the first piece is in the buffer. *)
Record decoded (p : list Z) (total : Z) (b : list Z) (m : MqttMessage) : Prop := {
  dc_pos : buffer_pos m = 0;
  dc_len : buffer_len m = zlen p;
  dc_total : total_len m = total;
  dc_new : buffer_new m = 1;
  dc_topic : take (Z.to_nat (topic_name_len m)) (pointer_at (topic_name m) b) = topic;
  dc_memory : take (length p) (pointer_at (buffer m) b) = p
}.

Lemma message_decoded body junk m : zlen body <= zlen payload ->
  let b := head ++ body ++ junk in
  exists m' id' id'', decoded body (zlen payload) b m' /\ stat m' = stat m /\ (0 < q -> id' = id) /\
    MqttClient_DecodePacket b (zlen head + zlen body) (Generic m) =
      Ok (zlen head + zlen payload, MQTT_PACKET_TYPE_PUBLISH, q, id', Generic m') /\
    MqttClient_DecodePacket b (zlen head + zlen body) Local =
      Ok (zlen head + zlen payload, MQTT_PACKET_TYPE_PUBLISH, q, id'', Local).
Proof.
  intros Hb b. pose proof (head_positive rt q dup id topic (zlen payload)) as Hh. pose proof (zlen_nonneg body).
  pose proof (zlen_nonneg payload).
  pose proof (publish_decoded rt q dup id topic (zlen payload) Hp body junk m Hb) as D. cbv zeta in D. fold b in D.
  pose proof (publish_decoded rt q dup id topic (zlen payload) Hp body junk cleared Hb) as D2. cbv zeta in D2. fold b in D2.
  destruct (flags_decoded MQTT_PACKET_TYPE_PUBLISH rt q dup ltac:(by_decide) (pub_qos _ _ _ _ _ _ Hp)
    (pub_retain _ _ _ _ _ _ Hp) (pub_duplicate _ _ _ _ _ _ Hp)) as (F1 & F2 & _).
  assert (Hg : buf_get b 0 = Some (type_flags MQTT_PACKET_TYPE_PUBLISH rt q dup)) by done.
  eexists _, _, _. split; [|split; [|split; [|split]]]; cycle 3.
  - unfold MqttClient_DecodePacket. destruct (Z.ltb_spec (zlen head + zlen body) 2); [lia|].
    rewrite Hg. cbn [defined mbind res_bind]. rewrite F1, F2. cbn [Z.eqb Pos.eqb MQTT_PACKET_TYPE_PUBLISH
      MQTT_PACKET_TYPE_CONNECT_ACK]. rewrite D. cbn [defined mbind res_bind packet_id].
    destruct (Z.leb_spec 0 (zlen head + zlen payload)); [|lia]. reflexivity.
  - unfold MqttClient_DecodePacket. destruct (Z.ltb_spec (zlen head + zlen body) 2); [lia|].
    rewrite Hg. cbn [defined mbind res_bind]. rewrite F1, F2. cbn [Z.eqb Pos.eqb MQTT_PACKET_TYPE_PUBLISH
      MQTT_PACKET_TYPE_CONNECT_ACK]. rewrite D2. cbn [defined mbind res_bind packet_id]. reflexivity.
  - split; cbn [buffer_pos buffer_len total_len buffer_new topic_name topic_name_len buffer pointer_at]; try done.
    + apply (topic_at rt q dup id topic (zlen payload) (body ++ junk)).
    + unfold b, zlen. by rewrite Nat2Z.id, drop_app_length, take_app_length.
  - done.
  - intros Hq. destruct (Z.ltb_spec 0 q); [done|lia].
Qed.

(** The answer to a message. *)
Lemma responded type c : fd c <> SOCKET_INVALID -> tx_ready (tx c) -> 0 <= id < 2 ^ 16 -> 4 <= type <= 5 ->
  exists t', respond type id c = Ok (4, set_tx t' (set_rx (set_buf_len 4 (rx c)) c)) /\ tx_ready t' /\
    app t' = app (tx c) /\ sent t' = sent (tx c) ++ packet type 0 [MqttEncode_Num id] /\
    zlen (tx_buf t') = zlen (tx_buf (tx c)).
Proof.
  intros Hfd Hr Hid Ht. pose proof (ready_room _ Hr) as H5. set (pk := packet type 0 [MqttEncode_Num id]).
  pose proof (packet_encoded (tx_buf (tx c)) type 0 [MqttEncode_Num id]) as E. cbv zeta in E. fold pk in E.
  change (zlen pk) with 4 in E. change (zlen (concat [MqttEncode_Num id])) with 2 in E.
  unfold respond, MqttEncode_PublishResp. destruct (Z.eqb_spec type MQTT_PACKET_TYPE_PUBLISH_REL) as [E6|_];
    [unfold MQTT_PACKET_TYPE_PUBLISH_REL in E6; lia|]. change MQTT_DATA_LEN_SIZE with 2. rewrite E by lia.
  cbn [defined mbind res_bind Z.leb Z.compare]. set (b := pk ++ _). set (c1 := set_rx _ _).
  assert (Hb : zlen b = zlen (tx_buf (tx c))) by (unfold b; autorewrite with zlen; unfold zlen in *; change (length pk) with 4%nat; lia).
  destruct (write_sent c1 4) as (l & Hl & Ew).
  - done.
  - split; [exact (ready_pos _ Hr)|exact (ready_sends _ Hr)|]. change (5 <= zlen b). lia.
  - change (0 < 4 <= zlen b). lia.
  - rewrite Ew. eexists. split; [reflexivity|]. split; [split; [exact (ready_pos _ Hr)|exact Hl|change (5 <= zlen b); lia]|].
    split; [done|]. split; [|exact Hb]. change (tx_buf (tx c1)) with b. change 4 with (zlen pk). unfold b. by rewrite buf_sub_here.
Qed.

(** The first part of a message, which ends with the buffer, is read. *)
Lemma message_read c body mid : stat (msg (rx c)) = MQTT_MSG_BEGIN -> zlen (rx_buf (rx c)) = L -> 6 <= L ->
  zlen body = Z.min (zlen payload) (L - zlen head) -> zlen head <= L -> fd c <> SOCKET_INVALID ->
  arrives (head ++ body) (arrivals (rx c)) mid ->
  exists rc id' junk r', wait_read None c = Ok (rc, Some (MQTT_PACKET_TYPE_PUBLISH, id'), None, set_rx r' c) /\ 0 <= rc /\
    rx_buf r' = head ++ body ++ junk /\ buf_len r' = zlen head + zlen body /\ stat (msg r') = MQTT_MSG_READ /\
    read_pos r' = 0 /\ arrivals r' = mid /\ closed r' = closed (rx c) /\ zlen (rx_buf r') = L.
Proof.
  intros Hst Hroom H6 Hbody Hhead Hfd Ha. destruct c as [lv cn sc fdn [st hl rl bl rp b m arr cl] t].
  cbn [rx fd rx_buf msg arrivals closed] in *.
  set (w := if 0 <? q then 2 else 0). set (n := zlen topic + 2 + w + zlen payload).
  set (vh := MqttEncode_String topic ++ if 0 <? q then MqttEncode_Num id else []).
  set (f := type_flags MQTT_PACKET_TYPE_PUBLISH rt q dup).
  assert (Eh : head = f :: MqttEncode_Vbi n ++ vh) by done.
  pose proof (zlen_nonneg payload). pose proof (zlen_nonneg body).
  assert (Hvh : zlen vh = zlen topic + 2 + w).
  { unfold vh, w, MqttEncode_String. rewrite !zlen_app, num_length. destruct (0 <? q); [rewrite num_length|change (@zlen Z []) with 0]; lia. }
  assert (Hl : zlen head = 1 + zlen (MqttEncode_Vbi n) + zlen vh) by (rewrite Eh, zlen_cons, zlen_app; lia).
  pose proof (remain_range rt q dup id topic (zlen payload) Hp) as Hn. fold w in Hn. fold n in Hn.
  unfold wait_read. cbn [wait_stat rx msg fd set_wait_stat]. rewrite Hst.
  pose proof (packet_read fdn hl rl bl b (set_stat MQTT_MSG_WAIT m) arr mid cl f n (vh ++ body) Hfd Hn ltac:(lia)
    ltac:(rewrite zlen_app; lia)) as E. cbv zeta in E.
  replace (f :: MqttEncode_Vbi n ++ vh ++ body) with (head ++ body) in E by (by rewrite Eh, <- app_comm_cons, <- app_assoc).
  specialize (E Ha). unfold on_msg, set_rx, set_msg, set_read_pos, set_pk_stat, set_packet.
  cbn [rx fd msg pk_stat header_len remain_len buf_len read_pos rx_buf arrivals closed live connected sock_conn tx].
  rewrite E. cbn [mbind res_bind]. pose proof (head_positive rt q dup id topic (zlen payload)).
  rewrite zlen_app. destruct (Z.leb_spec (zlen head + zlen body) 0); [lia|].
  unfold set_buf_len. cbn [rx rx_buf buf_len pk_stat header_len remain_len read_pos msg arrivals closed].
  rewrite <- app_assoc. set (junk := drop _ b).
  destruct (message_decoded body junk cleared ltac:(lia)) as (m' & id' & id'' & _ & _ & _ & _ & E2). rewrite E2.
  cbn [mbind res_bind]. destruct (Z.ltb_spec (zlen head + zlen payload) 0); [lia|].
  eexists _, id'', junk, _. split; [reflexivity|]. split; [done|].
  split_and!; try done. change (zlen (head ++ body ++ junk) = L). unfold junk. rewrite !zlen_app, zlen_drop, length_app. unfold zlen in *. lia.
Qed.

End Message.

(** Once a new message has been told, its rest is read like any other. *)
Lemma after_first_call {A} (msg_cb : MqttMessage -> Z -> bool -> client A -> res (Z * client A)) fuel c c1 :
  let m := msg (rx c) in
  (total_len m <=? u32 (buffer_pos m + buffer_len m)) = false ->
  first_call msg_cb false c = Ok (MQTT_CODE_SUCCESS, c1) -> msg (rx c1) = set_topic NULL 0 0 m ->
  MqttClient_Publish_ReadPayload msg_cb (S fuel) c = MqttClient_Publish_ReadPayload msg_cb (S fuel) c1.
Proof.
  intros m Hm E Em. cbn [MqttClient_Publish_ReadPayload]. rewrite Em.
  cbn [set_topic total_len buffer_pos buffer_len]. fold m. rewrite Hm, E.
  unfold first_call at 1. by rewrite Em.
Qed.

Section Delivery.
Context {A : Type} (msg_cb : MqttMessage -> Z -> bool -> client A -> res (Z * client A)).
Implicit Types (t : tx_side A) (c : client A).

(** A callback that returns, changes nothing on the receiving side, and takes
    the sending side from a state with [inv] to one, as [step] says; the calls
    it gets are [allowed]. *)
Context (inv : tx_side A -> Prop) (step : call -> tx_side A -> tx_side A -> Prop) (allowed : call -> Prop).
Hypothesis Hcb : forall m new done c, live c = true -> fd c <> SOCKET_INVALID -> inv (tx c) ->
  allowed (call_of m new done (rx_buf (rx c))) ->
  exists t', msg_cb m new done c = Ok (MQTT_CODE_SUCCESS, set_tx t' c) /\ inv t' /\
    step (call_of m new done (rx_buf (rx c))) (tx c) t'.
Hypothesis Hready : forall t, inv t -> tx_ready t.

Inductive steps : list call -> tx_side A -> tx_side A -> Prop :=
  | steps_nil t : steps [] t t
  | steps_cons x xs t t1 t2 : step x t t1 -> steps xs t1 t2 -> steps (x :: xs) t t2.

Context (topic : list Z) (ps : list (list Z)) (L : Z).
Hypothesis HL : 0 < L < 2 ^ 28.
Hypothesis Hlen : zlen (concat ps) < 2 ^ 28.
Hypothesis Hall : forall pre p post x, ps = pre ++ p :: post ->
  piece_call topic (zlen (concat pre)) (zlen (concat ps)) p (match pre with [] => true | _ => false end)
    (match post with [] => true | _ => false end) x -> allowed x.

(** The message is in the state between two pieces. *)
Record between (pre : list (list Z)) (m : MqttMessage) : Prop := {
  bt_pos : buffer_pos m + buffer_len m = zlen (concat pre);
  bt_total : total_len m = zlen (concat ps);
  bt_new : buffer_new m = 0;
  bt_topic : topic_name_len m = 0;
  bt_range : 0 <= buffer_pos m /\ 0 <= buffer_len m
}.

Lemma rest_delivered fuel : forall suf pre c arr',
  ps = pre ++ suf -> pre <> [] -> suf <> [] -> cut L suf -> between pre (msg (rx c)) ->
  live c = true -> fd c <> SOCKET_INVALID -> inv (tx c) -> read_pos (rx c) = 0 -> zlen (rx_buf (rx c)) = L ->
  arrives (concat suf) (arrivals (rx c)) arr' -> (length suf <= fuel)%nat ->
  exists xs t' r', MqttClient_Publish_ReadPayload msg_cb fuel c = Ok (MQTT_CODE_SUCCESS, set_tx t' (set_rx r' c)) /\
    piece_calls topic (zlen (concat pre)) (zlen (concat ps)) false suf xs /\ steps xs (tx c) t' /\ inv t' /\
    arrivals r' = arr' /\ closed r' = closed (rx c) /\ zlen (rx_buf r') = L.
Proof.
  induction fuel as [|fuel IH]; intros [|p suf] pre c arr' Hps Hpre Hsuf Hcut Hb Hlive Hfd Hinv Hrp Hbuf Ha Hf;
    try done; [cbn in Hf; lia|].
  destruct Hb as [Bp Bt Bn Btn Br]. cbn [concat] in Ha.
  assert (Htot : zlen (concat ps) = zlen (concat pre) + zlen p + zlen (concat suf))
    by (rewrite Hps, concat_app; cbn [concat]; rewrite !zlen_app; lia).
  pose proof (zlen_nonneg (concat pre)) as H0. pose proof (zlen_nonneg (concat suf)) as H1.
  assert (Hp : 0 < zlen p <= L /\ Z.min (zlen p + zlen (concat suf)) L = zlen p).
  { destruct suf as [|s suf]; [cbn [cut concat] in *; change (@zlen Z []) with 0 in *; lia|]. destruct Hcut as [Hc _]. lia. }
  destruct Hp as [Hp0 Hp1].
  cbn [MqttClient_Publish_ReadPayload]. rewrite Bp, Bt, u32_id by lia.
  destruct (Z.leb_spec (zlen (concat ps)) (zlen (concat pre))); [lia|].
  unfold first_call. rewrite Bn. cbn [Z.eqb negb mbind res_bind]. cbn beta iota.
  change (negb (MQTT_CODE_SUCCESS =? MQTT_CODE_SUCCESS)) with false. cbn iota.
  set (c1 := on_msg _ c). set (m1 := msg (rx c1)).
  assert (Em : buffer_pos m1 = zlen (concat pre) /\ total_len m1 = zlen (concat ps) /\ buffer_new m1 = 0 /\ topic_name_len m1 = 0).
  { unfold m1, c1. cbn. rewrite Bp, u32_id by lia. done. }
  destruct Em as (E1 & E2 & E3 & E4). rewrite E1, E2.
  rewrite u32_id, i32_id by lia. change (zlen (rx_buf (rx c1))) with (zlen (rx_buf (rx c))). rewrite Hbuf.
  replace (Z.min (zlen (concat ps) - zlen (concat pre)) L) with (zlen p) by lia.
  destruct (Z.ltb_spec 0 (zlen p)); [|lia].
  destruct (arrives_split _ _ _ Ha p (concat suf) eq_refl) as (mid & Ha1 & Ha2).
  assert (Hpne : p <> []) by (intros ->; change (@zlen Z []) with 0 in *; lia).
  rewrite (socket_read_start (fd c1) (rx c1) p mid Hfd Hpne Ha1) by (done || (change (zlen p <= zlen (rx_buf (rx c))); lia)).
  cbn [mbind res_bind]. destruct (Z.ltb_spec (zlen p) 0); [lia|].
  set (r1 := RxSide _ _ _ _ _ _ _ _ _). set (c2 := on_msg _ (set_rx r1 c1)). set (m2 := msg (rx c2)).
  assert (Em : buffer_pos m2 = zlen (concat pre) /\ total_len m2 = zlen (concat ps) /\ buffer_new m2 = 0 /\
    buffer_len m2 = zlen p /\ topic_name_len m2 = 0) by (unfold m2; done).
  destruct Em as (F1 & F2 & F3 & F4 & F5). rewrite F1, F2, F3, F4, u32_id by lia.
  set (done := zlen (concat ps) <=? zlen (concat pre) + zlen p).
  assert (Hdone : done = match suf with [] => true | _ => false end).
  { unfold done. rewrite Htot. apply (cut_ends L); [lia|by apply cut_tail in Hcut]. }
  assert (Hx : piece_call topic (zlen (concat pre)) (zlen (concat ps)) p false (match suf with [] => true | _ => false end)
    (call_of m2 0 done (rx_buf (rx c2)))).
  { split; unfold call_of; cbn [c_topic c_memory c_len c_pos c_total c_new c_done]; try done; [by rewrite F5|apply take_app_length]. }
  destruct (Hcb m2 0 done c2) as (t1 & Ec & Hi1 & Hst); [done..| |].
  { apply (Hall pre p suf); [done|]. by destruct pre. }
  rewrite Ec. cbn [mbind res_bind]. change (negb (MQTT_CODE_SUCCESS =? MQTT_CODE_SUCCESS)) with false. cbn iota.
  rewrite Hdone. destruct suf as [|s suf].
  - apply arrives_none in Ha2 as ->. eexists [_], t1, (rx c2). split; [reflexivity|].
    split; [split; [exact Hx|done]|]. split; [by eapply steps_cons, steps_nil|]. split; [done|].
    split; [done|]. split; [done|]. cbn. rewrite zlen_app, zlen_drop. unfold zlen in *. lia.
  - destruct Hcut as [Hcp Hcut]. set (c3 := set_tx t1 c2).
    assert (Ecat : zlen (concat (pre ++ [p])) = zlen (concat pre) + zlen p)
      by (rewrite concat_app; cbn [concat]; rewrite app_nil_r; apply zlen_app).
    destruct (IH (s :: suf) (pre ++ [p]) c3 arr') as (xs & t' & r' & E & Hxs & Hsts & Hi' & Harr & Hcl & Hbl); try done.
    + by rewrite <- app_assoc.
    + by destruct pre.
    + split; [change (msg (rx c3)) with m2; lia|done|done|done|]. change (msg (rx c3)) with m2. rewrite F1, F4. lia.
    + change (zlen (p ++ drop (length p) (rx_buf (rx c))) = L). rewrite zlen_app, zlen_drop. unfold zlen in *. lia.
    + cbn [length] in *. lia.
    + rewrite E. eexists (_ :: xs), t', r'. split; [reflexivity|]. rewrite Ecat in Hxs.
      split; [by split|]. split; [by eapply steps_cons|]. done.
Qed.

Lemma payload_delivered fuel p suf c arr' :
  ps = p :: suf -> cut L suf -> decoded topic p (zlen (concat ps)) (rx_buf (rx c)) (msg (rx c)) ->
  live c = true -> fd c <> SOCKET_INVALID -> inv (tx c) -> read_pos (rx c) = 0 -> zlen (rx_buf (rx c)) = L ->
  arrives (concat suf) (arrivals (rx c)) arr' -> (length suf < fuel)%nat ->
  exists xs t' r', MqttClient_Publish_ReadPayload msg_cb fuel c = Ok (MQTT_CODE_SUCCESS, set_tx t' (set_rx r' c)) /\
    piece_calls topic 0 (zlen (concat ps)) true ps xs /\ steps xs (tx c) t' /\ inv t' /\
    arrivals r' = arr' /\ closed r' = closed (rx c) /\ zlen (rx_buf r') = L.
Proof.
  intros Hps Hcut [Dp Dl Dt Dn Dtop Dm] Hlive Hfd Hinv Hrp Hbuf Ha Hf.
  set (m := msg (rx c)) in *. set (total := zlen (concat ps)) in *.
  assert (Htot : total = zlen p + zlen (concat suf)) by (unfold total; rewrite Hps; apply zlen_app).
  pose proof (zlen_nonneg p) as H0. pose proof (zlen_nonneg (concat suf)) as H1.
  set (last := total <=? zlen p).
  assert (Hlast : last = match suf with [] => true | _ => false end).
  { unfold last. rewrite Htot. apply (cut_ends L); [lia|done]. }
  assert (Hx : piece_call topic 0 total p true (match suf with [] => true | _ => false end) (call_of m 1 last (rx_buf (rx c)))).
  { split; unfold call_of; cbn [c_topic c_memory c_len c_pos c_total c_new c_done]; done. }
  destruct (Hcb m 1 last c) as (t1 & Ec & Hi1 & Hst); [done..|by apply (Hall [] p suf)|].
  destruct fuel as [|fuel]; [lia|]. set (c1 := on_msg (set_topic NULL 0 0) (set_tx t1 c)).
  assert (Efirst : first_call msg_cb last c = Ok (MQTT_CODE_SUCCESS, c1)).
  { unfold first_call. fold m. rewrite Dn. cbn [Z.eqb negb]. rewrite Ec. done. }
  destruct suf as [|s suf].
  - apply arrives_none in Ha as ->. eexists [_], t1, (rx c1). split.
    + cbn [MqttClient_Publish_ReadPayload]. fold m. rewrite Dp, Dl, Dt, Z.add_0_l, u32_id by lia. fold last.
      rewrite Efirst. cbn [mbind res_bind]. change (negb (MQTT_CODE_SUCCESS =? MQTT_CODE_SUCCESS)) with false. cbn iota.
      rewrite Hlast. reflexivity.
    + split; [rewrite Hps; split; [exact Hx|done]|]. split; [by eapply steps_cons, steps_nil|done].
  - destruct (rest_delivered (S fuel) (s :: suf) [p] c1 arr') as (xs & t' & r' & E & Hxs & Hsts & Hi' & Harr & Hcl & Hbl); try done.
    + split; try done; change (msg (rx c1)) with (set_topic NULL 0 0 m); cbn [buffer_pos buffer_len set_topic]; rewrite Dp, Dl;
        cbn [concat]; rewrite ?app_nil_r; lia.
    + cbn [length] in *. lia.
    + exists (call_of m 1 last (rx_buf (rx c)) :: xs), t', r'. split; [|].
      * rewrite (after_first_call msg_cb fuel c c1); [exact E| |by rewrite <- Hlast|done].
        fold m. rewrite Dp, Dl, Dt, Z.add_0_l, u32_id by lia. exact Hlast.
      * split; [rewrite Hps; split; [exact Hx|]|]; [|split; [by eapply steps_cons|done]].
        cbn [concat] in Hxs. rewrite app_nil_r in Hxs. exact Hxs.
Qed.

(** ** A whole message *)
Context (rt q dup id : Z) (payload : list Z).
Hypothesis Hp : publishable rt q dup id topic (zlen payload).

#[local] Abbreviation head := (publish_head rt q dup id topic (zlen payload)).

(** The receiving side between two packets. *)
Record rx_ready (r : rx_side) : Prop := {
  rr_stat : stat (msg r) = MQTT_MSG_BEGIN;
  rr_room : zlen (rx_buf r) = L
}.

(** What is sent after the message has been handed over. *)
Definition answered t t' : Prop :=
  if q =? 0 then t' = t
  else tx_ready t' /\ app t' = app t /\
       sent t' = sent t ++ packet (if q =? 1 then MQTT_PACKET_TYPE_PUBLISH_ACK else MQTT_PACKET_TYPE_PUBLISH_REC) 0
                            [MqttEncode_Num id] /\
       zlen (tx_buf t') = zlen (tx_buf t).

Lemma publish_handled fuel c body suf junk arr' :
  ps = body :: suf -> payload = concat ps -> cut L suf ->
  rx_buf (rx c) = head ++ body ++ junk -> buf_len (rx c) = zlen head + zlen body -> stat (msg (rx c)) = MQTT_MSG_READ ->
  live c = true -> fd c <> SOCKET_INVALID -> inv (tx c) -> read_pos (rx c) = 0 -> zlen (rx_buf (rx c)) = L ->
  arrives (concat suf) (arrivals (rx c)) arr' -> (length suf < fuel)%nat ->
  exists rc xs t1 t' r', handle_publish msg_cb fuel c = Ok (rc, set_tx t' (set_rx r' c)) /\ 0 <= rc /\
    piece_calls topic 0 (zlen payload) true ps xs /\ steps xs (tx c) t1 /\ inv t1 /\ answered t1 t' /\
    arrivals r' = arr' /\ closed r' = closed (rx c) /\ zlen (rx_buf r') = L.
Proof.
  intros Hps Hpay Hcut Hbuf Hlen' Hst Hlive Hfd Hinv Hrp HL' Ha Hf.
  assert (Hbody : zlen body <= zlen payload) by (rewrite Hpay, Hps; cbn [concat]; rewrite zlen_app;
    pose proof (zlen_nonneg (concat suf)); lia).
  destruct (message_decoded topic rt q dup id payload Hp body junk (msg (rx c)) Hbody) as (m' & id' & id'' & Hdc & Hst' & Hid & E & _).
  unfold handle_publish. rewrite Hst, Hbuf, Hlen', E. cbn [mbind res_bind].
  pose proof (head_positive rt q dup id topic (zlen payload)). pose proof (zlen_nonneg payload).
  destruct (Z.leb_spec (zlen head + zlen payload) 0); [lia|]. set (c1 := on_msg (fun _ => m') c).
  destruct (payload_delivered fuel body suf c1 arr') as (xs & t1 & r1 & E1 & Hxs & Hsts & Hi & Harr & Hcl & Hb1); try done.
  { change (rx_buf (rx c1)) with (rx_buf (rx c)). rewrite Hbuf. rewrite <- Hpay. exact Hdc. }
  rewrite E1. cbn [mbind res_bind]. change (MQTT_CODE_SUCCESS <? 0) with false. cbn iota.
  rewrite <- Hpay in Hxs. unfold answered. destruct (Z.eqb_spec q 0) as [Hq|Hq].
  - eexists _, xs, t1, t1, r1. split; [reflexivity|]. split; [done|]. done.
  - pose proof (pub_qos _ _ _ _ _ _ Hp). rewrite Hid by lia. set (c2 := on_msg (set_resp id) _).
    set (ty := if q =? 1 then MQTT_PACKET_TYPE_PUBLISH_ACK else MQTT_PACKET_TYPE_PUBLISH_REC).
    destruct (responded id ty c2) as (t' & E2 & Hr' & Ha' & Hs' & Hz'); [done|by apply Hready|apply Hp|unfold ty; by destruct (q =? 1)|].
    rewrite E2. eexists _, xs, t1, t', _. split; [reflexivity|]. split; [done|]. done.
Qed.

(** A message that arrives in any pieces is handed over piece by piece, each of
    the size of the buffer but for the first and the last one, and answered. *)
Lemma message_received fuel payload_fuel c body suf arr' :
  ps = body :: suf -> payload = concat ps -> cut L suf ->
  zlen body = Z.min (zlen payload) (L - zlen head) -> zlen head <= L -> 6 <= L ->
  live c = true -> fd c <> SOCKET_INVALID -> inv (tx c) -> rx_ready (rx c) ->
  arrives (head ++ payload) (arrivals (rx c)) arr' -> (length suf < payload_fuel)%nat ->
  exists xs t1 t' r', MqttClient_WaitMessage msg_cb (S fuel) payload_fuel c = Ok (MQTT_CODE_SUCCESS, set_tx t' (set_rx r' c)) /\
    piece_calls topic 0 (zlen payload) true ps xs /\ steps xs (tx c) t1 /\ inv t1 /\ answered t1 t' /\
    rx_ready r' /\ arrivals r' = arr' /\ closed r' = closed (rx c).
Proof.
  intros Hps Hpay Hcut Hbody Hhead H6 Hlive Hfd Hinv [Hst Hroom] Ha Hf.
  assert (Epay : payload = body ++ concat suf) by (by rewrite Hpay, Hps).
  rewrite Epay in Ha at 2. rewrite (app_assoc head) in Ha.
  destruct (arrives_split _ _ _ Ha _ _ eq_refl) as (mid & Ha1 & Ha2).
  unfold MqttClient_WaitMessage. cbn [MqttClient_WaitType]. unfold wait_turn. cbn [wait_stat]. rewrite Hst.
  destruct (message_read topic L rt q dup id payload Hp c body mid Hst Hroom H6 Hbody Hhead Hfd Ha1) as
    (rc & id' & junk & r1 & -> & Hrc & Hb1 & Hl1 & Hs1 & Hp1 & Ha3 & Hc1 & Hz1). cbn [mbind res_bind].
  destruct (publish_handled payload_fuel (set_rx r1 c) body suf junk arr') as
    (rc2 & xs & t1 & t' & r2 & E2 & Hrc2 & Hxs & Hsts & Hi & Hans & Harr & Hcl & Hz2); try done.
  { change (arrivals (rx (set_rx r1 c))) with (arrivals r1). by rewrite Ha3. }
  unfold wait_handle. cbn [wait_stat]. change (msg (rx (set_rx r1 c))) with (msg r1). rewrite Hs1.
  unfold MqttClient_HandlePacket. cbn [Z.eqb Pos.eqb MQTT_PACKET_TYPE_PUBLISH MQTT_PACKET_TYPE_ANY orb andb].
  rewrite E2. cbn [mbind res_bind]. destruct (Z.leb_spec 0 rc2); [|lia]. cbn [set_wait_stat mbind res_bind].
  change (MQTT_CODE_SUCCESS <? 0) with false. cbn iota.
  eexists xs, t1, t', _. split; [reflexivity|]. split; [done|]. split; [done|]. split; [done|]. split; [done|].
  split; [split; [done|exact Hz2]|]. split; [done|]. by rewrite <- Hc1.
Qed.
End Delivery.

(** ** Messages that arrive *)

(** The rest of a payload, in pieces of the size of the buffer. *)
Fixpoint chunks (fuel : nat) (L : Z) (l : list Z) : list (list Z) :=
  match fuel, l with
  | S fuel, _ :: _ => take (Z.to_nat L) l :: chunks fuel L (drop (Z.to_nat L) l)
  | _, _ => []
  end.

Lemma chunks_ok L fuel : 0 < L -> forall l, (length l <= fuel)%nat ->
  concat (chunks fuel L l) = l /\ cut L (chunks fuel L l) /\ (length (chunks fuel L l) <= length l)%nat.
Proof.
  intros HL. induction fuel as [|fuel IH]; intros [|x l] Hl; try done; [cbn in Hl; lia|].
  cbn [chunks]. set (l0 := x :: l) in *. assert (Hd : (length (drop (Z.to_nat L) l0) < length l0)%nat)
    by (rewrite length_drop; unfold l0; cbn [length]; lia).
  destruct (IH (drop (Z.to_nat L) l0)) as (H1 & H2 & H3); [lia|].
  assert (Ht : 0 < zlen (take (Z.to_nat L) l0) <= L) by (rewrite zlen_take; unfold l0; rewrite zlen_cons; pose proof (zlen_nonneg l); lia).
  cbn [concat cut length]. rewrite H1, take_drop. split; [done|]. split; [|lia].
  destruct (chunks fuel L (drop (Z.to_nat L) l0)) as [|p ps] eqn:E; [done|]. split; [|done].
  rewrite zlen_take. destruct (decide (L <= zlen l0)) as [|Hlt]; [lia|]. exfalso.
  rewrite drop_ge in E by (unfold zlen in *; lia). by destruct fuel.
Qed.

(** A callback that keeps what it has been called with. *)
Definition recorder (m : MqttMessage) (new : Z) (done : bool) (c : client (list call)) : res (Z * client (list call)) :=
  Ok (MQTT_CODE_SUCCESS, set_tx (set_app (app (tx c) ++ [call_of m new done (rx_buf (rx c))]) (tx c)) c).

Definition records (x : call) (t t' : tx_side (list call)) : Prop := t' = set_app (app t ++ [x]) t.

Lemma recorded xs t t' : steps records xs t t' -> t' = set_app (app t ++ xs) t.
Proof.
  induction 1 as [t|x xs t t1 t2 H _ IH]; [rewrite app_nil_r; by destruct t|].
  rewrite IH, H. cbn. by rewrite <- app_assoc.
Qed.

(** [C27] A message that arrives is handed to the callback whole.  In whatever
    pieces its packet arrives, one wait takes exactly its bytes from the network
    and returns 0; the callback has been called for one piece of the payload
    after the other, with the topic in the first call only and the mark for the
    end in the last one only, and then the answer of the quality has been
    sent.  The payload may be longer than the receive buffer. *)
Theorem message_delivered fuel payload_fuel c rt q dup id topic payload arr' :
  publishable rt q dup id topic (zlen payload) ->
  zlen (publish_head rt q dup id topic (zlen payload)) <= zlen (rx_buf (rx c)) ->
  6 <= zlen (rx_buf (rx c)) < 2 ^ 28 -> live c = true -> fd c <> SOCKET_INVALID -> tx_ready (tx c) ->
  stat (msg (rx c)) = MQTT_MSG_BEGIN ->
  arrives (publish_head rt q dup id topic (zlen payload) ++ payload) (arrivals (rx c)) arr' ->
  (length payload < payload_fuel)%nat ->
  exists ps xs c', MqttClient_WaitMessage recorder (S fuel) payload_fuel c = Ok (0, c') /\
    app (tx c') = app (tx c) ++ xs /\ piece_calls topic 0 (zlen payload) true ps xs /\ concat ps = payload /\
    arrivals (rx c') = arr' /\ stat (msg (rx c')) = MQTT_MSG_BEGIN /\ tx_ready (tx c') /\
    sent (tx c') = sent (tx c) ++
      (if q =? 0 then [] else packet (if q =? 1 then MQTT_PACKET_TYPE_PUBLISH_ACK else MQTT_PACKET_TYPE_PUBLISH_REC) 0
                                 [MqttEncode_Num id]).
Proof.
  intros Hp Hhead HL Hlive Hfd Hr Hst Ha Hf. set (L := zlen (rx_buf (rx c))) in *.
  set (head := publish_head rt q dup id topic (zlen payload)) in *. pose proof (zlen_nonneg payload).
  set (body := take (Z.to_nat (L - zlen head)) payload). set (rest := drop (Z.to_nat (L - zlen head)) payload).
  destruct (chunks_ok L (length rest) ltac:(lia) rest (le_n _)) as (H1 & H2 & H3).
  assert (Hcat : concat (body :: chunks (length rest) L rest) = payload) by (cbn [concat]; rewrite H1; apply take_drop).
  pose proof (pub_total _ _ _ _ _ _ Hp) as Htot. pose proof (zlen_nonneg topic).
  destruct (message_received recorder tx_ready records (fun _ => True)
    ltac:(intros m new d c0 _ _ Hc0 _; eexists; split; [reflexivity|split; [by destruct Hc0|done]])
    ltac:(done) topic (body :: chunks (length rest) L rest) L ltac:(lia) ltac:(rewrite Hcat; lia) ltac:(done)
    rt q dup id payload Hp fuel payload_fuel c body (chunks (length rest) L rest) arr')
    as (xs & t1 & t' & r' & E & Hxs & Hsts & Hi & Hans & [Hs Hroom] & Harr & Hcl); try done.
  - fold head. unfold body. rewrite zlen_take. lia.
  - lia.
  - unfold rest in H3 at 3. rewrite length_drop in H3. lia.
  - apply recorded in Hsts. exists (body :: chunks (length rest) L rest), xs, (set_tx t' (set_rx r' c)).
    split; [exact E|]. unfold answered in Hans. destruct (Z.eqb_spec q 0) as [Hq|Hq].
    + subst t'. cbn [tx set_tx rx set_rx]. rewrite app_nil_r. subst t1. done.
    + destruct Hans as (Hr' & Ha' & Hs' & _). cbn [tx set_tx rx set_rx]. rewrite Ha', Hs'. subst t1. done.
Qed.

(** ** A connection that is closed within a message *)
Section Closed.
Context {A : Type} (msg_cb : MqttMessage -> Z -> bool -> client A -> res (Z * client A)).
Hypothesis Hquiet : forall m new c, msg_cb m new false c = Ok (MQTT_CODE_SUCCESS, c).

Lemma payload_never_ends fuel : forall c,
  closed (rx c) = true -> arrivals (rx c) = [] -> fd c <> SOCKET_INVALID -> read_pos (rx c) = 0 ->
  buffer_new (msg (rx c)) = 0 -> 0 <= buffer_pos (msg (rx c)) -> 0 <= buffer_len (msg (rx c)) ->
  buffer_pos (msg (rx c)) + buffer_len (msg (rx c)) < total_len (msg (rx c)) < 2 ^ 28 -> 0 < zlen (rx_buf (rx c)) ->
  MqttClient_Publish_ReadPayload msg_cb fuel c = NoFuel.
Proof.
  induction fuel as [|fuel IH]; intros c Hc Ha Hfd Hrp Hn Hp Hl Ht Hb; [done|].
  cbn [MqttClient_Publish_ReadPayload]. rewrite u32_id by lia.
  destruct (Z.leb_spec (total_len (msg (rx c))) (buffer_pos (msg (rx c)) + buffer_len (msg (rx c)))); [lia|].
  unfold first_call. rewrite Hn. cbn [Z.eqb negb mbind res_bind]. cbn beta iota.
  change (negb (MQTT_CODE_SUCCESS =? MQTT_CODE_SUCCESS)) with false. cbn iota.
  set (c1 := on_msg _ c). set (pos := buffer_pos (msg (rx c)) + buffer_len (msg (rx c))) in *.
  assert (E1 : buffer_pos (msg (rx c1)) = pos) by (unfold c1; cbn; apply u32_id; unfold pos; lia).
  change (total_len (msg (rx c1))) with (total_len (msg (rx c))). rewrite E1.
  rewrite u32_id, i32_id by lia. change (zlen (rx_buf (rx c1))) with (zlen (rx_buf (rx c))).
  set (len := Z.min _ _). destruct (Z.ltb_spec 0 len); [|lia].
  assert (E2 : MqttSocket_Read (fd c1) 0 len (rx c1) = Ok (0, rx c1)).
  { unfold MqttSocket_Read. destruct (Z.leb_spec len 0); [lia|]. change (read_pos (rx c1)) with (read_pos (rx c)). rewrite Hrp.
    destruct (Z.leb_spec len 0); [lia|]. cbn [socket_read]. unfold NetRead.
    change (read_pos (rx c1)) with (read_pos (rx c)). rewrite Hrp, Z.sub_0_r. destruct (Z.leb_spec len 0); [lia|].
    change (fd c1) with (fd c). destruct (Z.eqb_spec (fd c) SOCKET_INVALID); [done|].
    change (arrivals (rx c1)) with (arrivals (rx c)). change (closed (rx c1)) with (closed (rx c)). rewrite Ha, Hc.
    cbn [orb read_loop]. rewrite buf_write_some by (lia || (rewrite (@zlen_nil Z); pose proof (zlen_nonneg (rx_buf (rx c1))); lia)).
    cbn. rewrite drop_0. unfold set_rx_buf, set_arrivals. cbn. rewrite <- Ha. by destruct (rx c). }
  rewrite E2. cbn [mbind res_bind Z.ltb Z.compare]. set (c2 := on_msg _ _).
  change (total_len (msg (rx c2))) with (total_len (msg (rx c))). change (buffer_pos (msg (rx c2))) with (buffer_pos (msg (rx c1))).
  change (buffer_len (msg (rx c2))) with 0. rewrite E1, u32_id by lia.
  destruct (Z.leb_spec (total_len (msg (rx c))) (pos + 0)); [lia|]. rewrite Hquiet. cbn [mbind res_bind].
  change (negb (MQTT_CODE_SUCCESS =? MQTT_CODE_SUCCESS)) with false. cbn iota.
  apply IH; try done; change (buffer_pos (msg (rx c2))) with (buffer_pos (msg (rx c1)));
    change (buffer_len (msg (rx c2))) with 0; change (total_len (msg (rx c2))) with (total_len (msg (rx c))); lia.
Qed.

End Closed.

(** ** On a small client *)
Definition sample_client (tb rb : nat) (arr : list arrival) (is_closed : bool) (l : list send_result) : client (list call) :=
  Client true true true 3 (RxSide MQTT_PK_BEGIN 0 0 0 0 (replicate rb 0) cleared arr is_closed)
    (TxSide 0 0 (replicate tb 0) l [] 0 [] []).

(** Forty bytes. *)
Definition long_payload : list Z := str "abcdefghijklmnopqrstuvwxyz0123456789ABCD".

(** What [mqtt_publish] of [data] to the topic [t] returns, and what it has
    sent. *)
Definition published (data : list Z) (c : client (list call)) : option (Z * client (list call)) :=
  match mqtt_publish recorder 9 99 0 data (zlen data) (str "t") c with Ok x => Some x | _ => None end.

Example mqtt_publish_sent_witness : exists c',
  mqtt_publish recorder 9 99 0 long_payload 40 (str "t") (sample_client 16 16 [] false [Accepts 3; Accepts 1; Accepts 99]) = Ok (0, c') /\
  sent (tx c') = [48; 43; 0; 1; 116] ++ long_payload.
Proof.
  destruct (mqtt_publish_sent recorder 9 99 (sample_client 16 16 [] false [Accepts 3; Accepts 1; Accepts 99]) (str "t") long_payload 40
    eq_refl ltac:(done) ltac:(split; [done|by repeat constructor|by_decide]) ltac:(by_decide) ltac:(by_decide) ltac:(by_decide)
    ltac:(by_decide)) as (c' & E & Hs & _).
  exists c'. split; [exact E|]. rewrite Hs. reflexivity.
Defined.

(** A message with its answer, in five pieces, and the start of the next one. *)
Definition sample_arrivals : list arrival :=
  [Data [50]; Data [45; 0; 1]; Data (str "t" ++ [0]); Data ([7] ++ str "abcdefghijklmnopqrst");
   Data (str "uvwxyz0123456789ABCD" ++ [48])].

Lemma sample_arrives :
  arrives (publish_head 0 1 0 7 (str "t") (zlen long_payload) ++ long_payload) sample_arrivals [Data [48]].
Proof.
  change (publish_head 0 1 0 7 (str "t") (zlen long_payload) ++ long_payload) with
    ([50] ++ [45; 0; 1] ++ (str "t" ++ [0]) ++ ([7] ++ str "abcdefghijklmnopqrst") ++ str "uvwxyz0123456789ABCD").
  do 4 (apply arrives_more; [done|]). by apply arrives_part.
Qed.

Example message_delivered_witness : exists ps xs c',
  MqttClient_WaitMessage recorder 1 99 (sample_client 16 16 sample_arrivals false []) = Ok (0, c') /\
  app (tx c') = xs /\ piece_calls (str "t") 0 40 true ps xs /\ concat ps = long_payload /\
  arrivals (rx c') = [Data [48]] /\ sent (tx c') = [64; 2; 0; 7].
Proof.
  destruct (message_delivered 0 99 (sample_client 16 16 sample_arrivals false []) 0 1 0 7 (str "t") long_payload [Data [48]]
    ltac:(split; by_decide) ltac:(by_decide) ltac:(by_decide) eq_refl ltac:(done)
    ltac:(split; [done|constructor|by_decide]) eq_refl sample_arrives ltac:(by_decide))
    as (ps & xs & c' & E & Ha & Hx & Hc & Harr & _ & _ & Hs).
  exists ps, xs, c'. split; [exact E|]. split; [exact Ha|]. split; [exact Hx|]. split; [exact Hc|]. split; [exact Harr|exact Hs].
Defined.

(** A callback that waits for the end of a message. *)
Definition at_end (m : MqttMessage) (new : Z) (done : bool) (c : client (list call)) : res (Z * client (list call)) :=
  if done then recorder m new done c else Ok (MQTT_CODE_SUCCESS, c).


(** If the topic fills the transmit buffer, the first part of the packet is
    sent twice. *)
Example first_part_twice :
  (fun x => (x.1, sent (tx x.2))) <$> published (str "ab") (sample_client 5 16 [] false []) =
    Some (0, [48; 5; 0; 1; 116] ++ [48; 5; 0; 1; 116] ++ str "ab").
Proof. by vm_compute. Qed.

(** After a send that failed half way, the next packet is sent from the middle
    on. *)
Example next_packet_cut :
  (fun x => sent (tx x.2)) <$>
    ('(_, c) ← published (str "ab") (sample_client 16 16 [] false [Accepts 3; Refuses true]); published (str "xy") c) =
    Some ([48; 5; 0] ++ [1; 116] ++ str "xy").
Proof. by vm_compute. Qed.

(** The results of some waits, one after the other. *)
Fixpoint waits (n : nat) (c : client (list call)) : list Z :=
  match n with
  | O => []
  | S n => match MqttClient_WaitMessage recorder 9 99 c with Ok (rc, c) => rc :: waits n c | _ => [] end
  end.

(** Bytes that were read before a timeout are lost: the next wait starts in the
    middle of the packet. *)
Example bytes_lost : waits 2 (sample_client 16 16 [Data [48]; Quiet; Data ([5; 0; 1] ++ str "tab")] false []) =
  [MQTT_CODE_ERROR_TIMEOUT; MQTT_CODE_ERROR_PACKET_TYPE].
Proof. by vm_compute. Qed.

(** A long message that arrives while the client waits for a ping leaves its
    state behind: the message after it is not handed over. *)
Example message_not_told :
  let long := [48; 43; 0; 1] ++ str "t" ++ long_payload in
  let short := [48; 5; 0; 1] ++ str "txy" in
  match MqttClient_Ping recorder 9 99 (sample_client 16 16 [Data (long ++ short ++ [208; 0])] false []) with
  | Ok (rc, c) => Some (rc, map c_total (app (tx c)))
  | _ => None
  end = Some (0, [40; 40; 40]).
Proof. by vm_compute. Qed.

(** Without a user name two bytes are written in front of the password that the
    length does not count. *)
Example connect_not_counted :
  match MqttEncode_Connect (replicate 40 0) (MkConnect 60 true (Some (str "c")) 0 false None None (Some (str "p"))) with
  | Some (n, b) => Some (n, take (Z.to_nat n + 2) b)
  | None => None
  end = Some (18, [16; 16; 0; 4] ++ str "MQTT" ++ [4; 66; 0; 60; 0; 1] ++ str "c" ++ [0; 0] ++ [0; 1] ++ str "p").
Proof. by vm_compute. Qed.
