(* ===== verification/MqttApp.v ===== *)
(** * MQTT from the network to the lamps

    Models the part of src/module/mqtt/mqtt_module.c that [Mqtt] leaves out: the
    callback and the report on the client of [MqttClient], and [mqtt_init].
    The theorems show that the module connects and subscribes, and that a
    property message that arrives in any pieces sets the lamps and is answered
    with a report. *)

From S2P Require Import Prelude CLib AppModules Json JsonParse Replies Mqtt MqttPacket MqttClient.

Local Open Scope Z_scope.

Definition DEFAULT_KEEP_ALIVE_SEC : Z := 60.
Definition DEFAULT_MQTT_QOS : Z := 0.

Section App.
Context {D : Type} `{!Double D} (mem : Z -> bool).

#[local] Abbreviation sensors := (@sensors D).

(** What the module works on: the lamps and the last readings. *)
Record module := Module_ { lamps_of : Board.lamps; readings : sensors }.

#[local] Abbreviation client := (client module).

Definition set_module_lamps (l : Board.lamps) (c : client) : client :=
  set_tx (set_app (Module_ l (readings (app (tx c)))) (tx c)) c.

Context (cfg : mqtt_cfg_t).

(** The reports that [Mqtt] hands over, sent with [mqtt_publish], whose result
    is not looked at by the callback. *)
Fixpoint publish_all (msg_cb : MqttMessage -> Z -> bool -> client -> res (Z * client)) (fuel payload_fuel : nat)
    (ps : list publish) (rc : Z) (c : client) : res (Z * client) :=
  match ps with
  | [] => Ok (rc, c)
  | p :: ps =>
      '(rc, c) ← mqtt_publish msg_cb fuel payload_fuel DEFAULT_MQTT_QOS (Mqtt.payload p) (zlen (Mqtt.payload p)) (Mqtt.pub_topic p) c;
      publish_all msg_cb fuel payload_fuel ps rc c
  end.

(** [mqtt_publish_info]: -1 without memory for the text. *)
Definition publish_info (msg_cb : MqttMessage -> Z -> bool -> client -> res (Z * client)) (fuel payload_fuel : nat) (c : client)
  : res (Z * client) :=
  let a := app (tx c) in
  ps ← mqtt_publish_info mem (readings a) cfg (lamps_of a);
  publish_all msg_cb fuel payload_fuel ps (-1) c.

(** [mqtt_message_cb].  [depth] bounds how often the callback runs within
    itself, which a report of quality 0 never makes it do. *)
Fixpoint message_cb (depth fuel payload_fuel : nat) (m : MqttMessage) (msg_new : Z) (msg_done : bool) (c : client)
  : res (Z * client) :=
  match depth with
  | O => NoFuel
  | S depth =>
      let a := app (tx c) in
      let x := call_of m msg_new msg_done (rx_buf (rx c)) in
      '(l, ps) ← Mqtt.mqtt_message_cb mem (readings a) cfg (Message (c_topic x) (c_memory x)) msg_done (lamps_of a);
      '(_, c) ← publish_all (message_cb depth fuel payload_fuel) fuel payload_fuel ps 0 (set_module_lamps l c);
      Ok (MQTT_CODE_SUCCESS, c)
  end.

End App.

(** ** Starting the module *)
Section Init.
Context {D : Type} `{!Double D} (mem : Z -> bool) (dial : list Z -> Z -> dialing).

#[local] Abbreviation client := (client (module (D:=D))).

(** What the start leaves: the configuration, the client, and whether the
    thread that waits for messages and the one that reports run. *)
Record started := Started { st_cfg : mqtt_cfg_t; st_client : client; st_waits : bool; st_reports : bool }.

Definition ctx_of (cfg : mqtt_cfg_t) : ctx_cfg :=
  CtxCfg (host cfg) 0 (Mqtt.client_id cfg) (Some (Mqtt.username cfg)) (Some (Mqtt.password cfg)) DEFAULT_MQTT_QOS DEFAULT_KEEP_ALIVE_SEC.

(** [mqtt_init] for the bytes of the configuration file.  [create] is the
    context that [mqtt_ctx_create] makes if there is memory; [threads] says
    which of the two threads can be created.  The result of [mqtt_start] is not
    looked at. *)
Definition mqtt_init (depth fuel payload_fuel : nat) (file : option (list Z)) (create : option client) (threads : bool * bool)
  : res (Z * option started) :=
  '(rc, cfg) ← mqtt_cfg_parse mem file;
  match cfg, create with
  | Some cfg, Some c =>
      if rc <? 0 then Ok (-1, None)
      else
        let msg_cb := message_cb mem cfg depth fuel payload_fuel in
        '(rc, c) ← mqtt_ctx_connect msg_cb dial fuel payload_fuel (ctx_of cfg) c;
        if rc <? 0 then Ok (-1, Some (Started cfg (mqtt_ctx_free c) false false))
        else
          '(rc, c) ← mqtt_subscribe msg_cb fuel payload_fuel (params_set_topic cfg) DEFAULT_MQTT_QOS c;
          if rc <? 0 then
            '(_, c) ← mqtt_close c;
            Ok (-1, Some (Started cfg c false false))
          else
            let '(waits, reports) := threads in
            Ok (if reports then 0 else -1, Some (Started cfg c waits reports))
  | _, _ => Ok (-1, None)
  end.

(** [n] turns of [mqtt_thread_entry]; the result of a report is not looked at. *)
Fixpoint mqtt_thread_entry (n : nat) (cfg : mqtt_cfg_t) (msg_cb : MqttMessage -> Z -> bool -> client -> res (Z * client))
    (fuel payload_fuel : nat) (c : client) : res client :=
  match n with
  | O => Ok c
  | S n =>
      '(_, c) ← publish_info mem cfg msg_cb fuel payload_fuel c;
      mqtt_thread_entry n cfg msg_cb fuel payload_fuel c
  end.
End Init.

(** ** Theorems *)
Section Proofs.
Context {D : Type} `{!Double D, !DoubleLaws D} (mem : Z -> bool) (cfg : mqtt_cfg_t).

#[local] Abbreviation sensors := (@sensors D).
#[local] Abbreviation module := (@module D).
#[local] Abbreviation client := (client module).
#[local] Abbreviation publish_info := (publish_info mem cfg).
#[local] Abbreviation message_cb := (message_cb mem cfg).

Hypothesis enough : forall n, mem n = true.
Context (pk dn : list Z).
Hypothesis Hpk : cstring pk.
Hypothesis Hdn : cstring dn.
Hypothesis Hset : params_set_topic cfg = topic pk dn (str "service/property/set").
Hypothesis Hpost : params_post_topic cfg = topic pk dn (str "event/property/post").

(** The sending side of the module. *)
Record tx_inv (t : tx_side module) : Prop := {
  inv_ready : tx_ready t;
  inv_room : 108 <= zlen (tx_buf t)
}.

(** The report as it is sent. *)
Definition report_packet (report : list Z) : list Z :=
  plain_publish (params_post_topic cfg) (take (Z.to_nat (u16 (zlen report))) report).

Lemma info_sent msg_cb fuel payload_fuel (c : client) :
  live c = true -> fd c <> SOCKET_INVALID -> tx_inv (tx c) -> (Z.to_nat (2 ^ 16) <= payload_fuel)%nat ->
  exists c' report, publish_info msg_cb fuel payload_fuel c = Ok (0, c') /\
    mqtt_create_info mem true true (readings (app (tx c))) (lamps_of (app (tx c))) = Some (Some report) /\
    only_sent (report_packet report) c c'.
Proof.
  intros Hl Hfd [Hr Hroom] Hf. unfold publish_info.
  destruct (mqtt_publish_info_one mem enough (readings (app (tx c))) cfg (lamps_of (app (tx c)))) as (t & _ & Et & Ep).
  rewrite Ep. cbn [mbind res_bind publish_all]. cbn [Mqtt.payload Mqtt.pub_topic].
  pose proof (topic_fits pk dn (str "event/property/post")) as Hfit. rewrite <- Hpost in Hfit. unfold MAX_TOPIC_LENGTH in Hfit.
  pose proof (u16_range (zlen t)) as Hu. pose proof (zlen_nonneg t).
  destruct (report_sent msg_cb fuel payload_fuel c (params_post_topic cfg) t (zlen t)) as (c' & E & Hs);
    try done; [unfold zlen; lia| |unfold zlen in *; lia|lia|].
  { unfold u16. apply Z.mod_le; lia. }
  change DEFAULT_MQTT_QOS with 0. rewrite E. by exists c', t.
Qed.

(** A call that sets the lamps and sends a report. *)
Definition handles_set (ps : list (list Z * json)) (x : call) (t t' : tx_side module) : Prop :=
  exists l report, applied ps (lamps_of (app t)) l /\
    mqtt_create_info mem true true (readings (app t)) l = Some (Some report) /\
    app t' = Module_ l (readings (app t)) /\ sent t' = sent t ++ report_packet report.

(** A finished property message, with anything behind its text. *)
Definition set_call (fmt : bool) (fs : list (list Z * json)) (x : call) : Prop :=
  c_done x = true /\ (exists tp, cstring tp /\ tp `prefix_of` params_set_topic cfg /\ c_topic x = tp) /\
  exists rest, c_memory x = json_text fmt 0 (JObj fs) ++ rest.

Lemma set_message_handled depth fuel payload_fuel fmt fs ps m new done (c : client) :
  json_ok (JObj fs) -> lookup_field (str "params") fs = Some (JObj ps) -> numeric ps ->
  (Z.to_nat (2 ^ 16) <= payload_fuel)%nat ->
  live c = true -> fd c <> SOCKET_INVALID -> tx_inv (tx c) -> set_call fmt fs (call_of m new done (rx_buf (rx c))) ->
  exists t', message_cb (S depth) fuel payload_fuel m new done c = Ok (MQTT_CODE_SUCCESS, set_tx t' c) /\
    tx_inv t' /\ handles_set ps (call_of m new done (rx_buf (rx c))) (tx c) t'.
Proof.
  intros Hok Hps Hnum Hf Hl Hfd Hi (Hdone & (tp & Htp & Hpre & Etp) & rest & Emem).
  cbn [message_cb]. set (x := call_of m new done (rx_buf (rx c))) in *. change (c_done x) with done in Hdone. subst done.
  unfold Mqtt.mqtt_message_cb, topic_array. cbn [Mqtt.topic_name Mqtt.buffer]. rewrite Etp, Emem.
  assert (Hc : cstring (params_set_topic cfg)) by (rewrite Hset; apply topic_cstring; [done..|by_decide]).
  pose proof (topic_fits pk dn (str "service/property/set")) as Hlen. rewrite <- Hset in Hlen.
  destruct (rt_memcmp_prefix tp Htp (params_set_topic cfg) (MAX_TOPIC_LENGTH - length (params_set_topic cfg)) Hc
    ltac:(lia)) as (d & Ed & Hd).
  rewrite Ed. cbn [defined mbind res_bind]. rewrite (proj2 Hd Hpre). cbn [Z.eqb].
  destruct (handle_set_lamps mem enough fmt fs ps rest (lamps_of (app (tx c))) Hok Hps Hnum) as (l & El & Al).
  rewrite El. cbn [mbind res_bind Z.eqb].
  set (c1 := set_module_lamps l c).
  destruct (info_sent (message_cb depth fuel payload_fuel) fuel payload_fuel c1 Hl Hfd) as (c' & report & E & Er & [Hs Ha Hsent Hr Hroom]);
    [by destruct Hi; split; [split; apply inv_ready0|]|done|].
  unfold publish_info in E. change (readings (app (tx c1))) with (readings (app (tx c))) in E, Er.
  change (lamps_of (app (tx c1))) with l in E, Er.
  destruct (mqtt_publish_info_one mem enough (readings (app (tx c))) cfg l) as (t & _ & Et & Ep).
  rewrite Ep in E |- *. cbn [mbind res_bind publish_all] in E |- *.
  fold c1. destruct (mqtt_publish _ _ _ _ _ _ _ c1) as [[rc c2]| | |]; try discriminate E.
  cbn [mbind res_bind] in E |- *. injection E as -> ->. exists (tx c'). split; [|split].
  - f_equal. f_equal. destruct c', c. cbn in Hs |- *. injection Hs as -> -> -> -> ->. done.
  - destruct Hi. split; [done|]. rewrite Hroom. done.
  - exists l, report. split; [done|]. split; [done|]. injection Ha as _ Ha. rewrite Hsent. split; [done|done].
Qed.
(** The one piece of a message that fits in the buffer. *)
Lemma whole_set_call fmt fs t total text pre p post x :
  text = json_text fmt 0 (JObj fs) -> cstring t -> t `prefix_of` params_set_topic cfg -> [text] = pre ++ p :: post ->
  piece_call t (zlen (concat pre)) total p (match pre with [] => true | _ => false end)
    (match post with [] => true | _ => false end) x -> set_call fmt fs x.
Proof.
  intros Et Ht Hpre E Hx. destruct pre as [|p' [|]]; try discriminate E. injection E as -> <-.
  destruct Hx as [Htop Hmem _ _ _ _ Hdone]. split; [done|]. split; [by exists t|].
  exists (drop (length p) (c_memory x)). by rewrite <- Et, <- Hmem at 1; rewrite take_drop.
Qed.

(** A client that waits for the next packet. *)
Record client_ready (c : client) : Prop := {
  cr_live : live c = true;
  cr_open : fd c <> SOCKET_INVALID;
  cr_tx : tx_inv (tx c);
  cr_begin : stat (msg (rx c)) = MQTT_MSG_BEGIN;
  cr_room : 6 <= zlen (rx_buf (rx c)) < 2 ^ 28
}.

(** [C5] A property message from the network to the lamps.  The packet of a
    message on a prefix of the configured topic, whose text is any JSON object
    with an object [params] whose lamp fields are numbers, may arrive in any
    pieces: if it fits in the receive buffer, one wait takes exactly its bytes
    and returns 0; each lamp that is named has been set and the others left,
    the report on the new state has been sent to the reporting topic, then the
    answer of the message's quality, and the client is ready for the next
    packet. *)
Theorem property_message depth fuel payload_fuel rt q dup id t fmt fs ps c arr' :
  let text := json_text fmt 0 (JObj fs) in
  json_ok (JObj fs) -> lookup_field (str "params") fs = Some (JObj ps) -> numeric ps ->
  cstring t -> t `prefix_of` params_set_topic cfg -> publishable rt q dup id t (zlen text) -> client_ready c ->
  zlen (publish_head rt q dup id t (zlen text)) + zlen text <= zlen (rx_buf (rx c)) ->
  arrives (publish_head rt q dup id t (zlen text) ++ text) (arrivals (rx c)) arr' ->
  (Z.to_nat (2 ^ 16) <= payload_fuel)%nat ->
  exists c' l report,
    MqttClient_WaitMessage (message_cb (S depth) fuel payload_fuel) (S fuel) payload_fuel c = Ok (0, c') /\
    app (tx c') = Module_ l (readings (app (tx c))) /\
    (forall led, (Board.pin led l, bit led l) =
       match last_set (led_key led) ps with
       | Some k => (level_of k, if k =? 0 then 0 else 1)
       | None => (Board.pin led (lamps_of (app (tx c))), bit led (lamps_of (app (tx c))))
       end) /\
    mqtt_create_info mem true true (readings (app (tx c))) l = Some (Some report) /\
    sent (tx c') = sent (tx c) ++ report_packet report ++
      (if q =? 0 then [] else packet (if q =? 1 then MQTT_PACKET_TYPE_PUBLISH_ACK else MQTT_PACKET_TYPE_PUBLISH_REC) 0
                                 [MqttEncode_Num id]) /\
    arrivals (rx c') = arr' /\ client_ready c'.
Proof.
  intros text Hok Hps Hnum Ht Hpre Hp [Hlive Hfd Hi Hst HL] Hfit Ha Hf.
  set (L := zlen (rx_buf (rx c))) in *. pose proof (zlen_nonneg text) as H0.
  pose proof (pub_total _ _ _ _ _ _ Hp) as Htot. pose proof (zlen_nonneg t) as H1.
  destruct (message_received (message_cb (S depth) fuel payload_fuel) tx_inv (handles_set ps) (set_call fmt fs)
    ltac:(intros m new d c0; by apply set_message_handled) inv_ready t [text] L ltac:(lia)
    ltac:(cbn [concat]; rewrite app_nil_r; lia)
    ltac:(intros pre p post x E Hx; by eapply (whole_set_call fmt fs t _ text)) rt q dup id text Hp fuel payload_fuel c text [] arr')
    as (xs & t1 & t' & r' & E & Hxs & Hsts & Hi1 & Hans & [Hs Hroom] & Harr & Hcl);
    try done; [by cbn [concat]; rewrite app_nil_r|lia..|cbn [length]; lia|].
  destruct xs as [|x xs]; [done|]. destruct Hxs as [_ Hxs]. destruct xs; [|done].
  inversion Hsts as [|? ? ? t0 ? Hx Hnil]; subst. inversion Hnil; subst.
  destruct Hx as (l & report & Hal & Er & Ea & Esent).
  exists (set_tx t' (set_rx r' c)), l, report. split; [exact E|]. cbn [tx rx set_tx set_rx]. unfold answered in Hans.
  assert (Ht' : app t' = app t1 /\ tx_inv t').
  { destruct (Z.eqb_spec q 0); [by subst t'|]. destruct Hans as (Hr' & Ha' & _ & Hz). destruct Hi1. split; [done|]. by split; [|lia]. }
  destruct Ht' as [-> Hi']. split; [done|]. split; [exact Hal|]. split; [done|]. split.
  - destruct (Z.eqb_spec q 0); [by subst t'; rewrite app_nil_r|]. destruct Hans as (_ & _ & -> & _). by rewrite Esent, <- app_assoc.
  - split; [done|]. split; try done. change (6 <= zlen (rx_buf r') < 2 ^ 28). lia.
Qed.
(** ** The start *)

(** The parts of the request for a connection with a name and a password. *)
Definition connect_parts (id user pass : list Z) : list (list Z) :=
  [[0; 4] ++ str "MQTT" ++ [MQTT_CONNECT_PROTOCOL_LEVEL; 194] ++ MqttEncode_Num DEFAULT_KEEP_ALIVE_SEC;
   MqttEncode_String id; MqttEncode_String user; MqttEncode_String pass].

(** The broker can be dialed. *)
Record dialed (d : dialing) : Prop := {
  di_resolved : resolved d = 0;
  di_address : has_address d = true;
  di_socket : socket d <> SOCKET_INVALID;
  di_connect : connect_rc d = 0
}.

Lemma connect_answer flags code : answer MQTT_PACKET_TYPE_CONNECT_ACK 0 [[flags; code]]
  (fun a => Ack (ack_stat a) (ack_id a) flags code (ack_codes a)).
Proof. split; [by left|intros; apply connect_ack_decoded|done]. Qed.

Lemma subscribe_answer id code : 0 <= id < 2 ^ 16 ->
  answer MQTT_PACKET_TYPE_SUBSCRIBE_ACK id [MqttEncode_Num id; [code]]
    (fun a => Ack (ack_stat a) id (ack_flags a) (ack_return_code a) (Some 4)).
Proof. intros Hid. split; [by right|intros; by apply subscribe_ack_decoded|done]. Qed.

Lemma string_length s : zlen (MqttEncode_String s) = 2 + zlen s.
Proof. unfold MqttEncode_String. by rewrite zlen_app, num_length. Qed.

Lemma connected_to msg_cb dial fuel payload_fuel h ci u pw q (c : client) flags code arr' :
  dialed (dial h MQTT_DEFAULT_PORT) -> connected c = false -> sock_conn c = false -> tx_ready (tx c) ->
  zlen ci + zlen u + zlen pw + 21 <= zlen (tx_buf (tx c)) < 2 ^ 28 -> 6 <= zlen (rx_buf (rx c)) < 2 ^ 28 ->
  arrives (packet MQTT_PACKET_TYPE_CONNECT_ACK 0 [[flags; code]]) (arrivals (rx c)) arr' ->
  exists r' t', mqtt_ctx_connect msg_cb dial (S fuel) payload_fuel (CtxCfg h 0 ci (Some u) (Some pw) q DEFAULT_KEEP_ALIVE_SEC) c =
      Ok (0, Client (live c) true true (socket (dial h MQTT_DEFAULT_PORT)) r' t') /\
    msg r' = msg (rx c) /\ arrivals r' = arr' /\ zlen (rx_buf r') = zlen (rx_buf (rx c)) /\
    sent t' = sent (tx c) ++ packet MQTT_PACKET_TYPE_CONNECT 0 (connect_parts ci u pw) /\
    tx_ready t' /\ zlen (tx_buf t') = zlen (tx_buf (tx c)) /\
    (mPacketIdLast t', topics t', app t') = (mPacketIdLast (tx c), topics (tx c), app (tx c)).
Proof.
  intros [Dr Da Ds Dc] Hcn Hsc Hr Htx Hrx Ha. unfold mqtt_ctx_connect, MqttClient_NetConnect, NetConnect.
  cbn [ctx_host ctx_port ctx_keep_alive_sec ctx_client_id ctx_username ctx_password Z.eqb]. rewrite Hcn, Hsc, Dr, Da, Dc.
  cbn [negb andb Z.eqb live fd rx tx connected sock_conn].
  destruct (Z.eqb_spec (socket (dial h MQTT_DEFAULT_PORT)) SOCKET_INVALID); [done|]. cbn [Z.ltb Z.compare].
  change (negb (0 =? MQTT_CODE_SUCCESS)) with false. cbn iota. set (c1 := Client _ _ _ _ _ _).
  set (ds := connect_parts ci u pw).
  assert (Hds : zlen (concat ds) = 16 + zlen ci + zlen u + zlen pw).
  { unfold ds, connect_parts. cbn [concat]. rewrite app_nil_r, !zlen_app, !string_length. change (zlen (str "MQTT")) with 4.
    rewrite num_length. change (zlen [0; 4]) with 2. change (zlen [MQTT_CONNECT_PROTOCOL_LEVEL; 194]) with 2. lia. }
  pose proof (zlen_nonneg ci). pose proof (zlen_nonneg u). pose proof (zlen_nonneg pw).
  unfold MqttClient_Connect.
  destruct (request_answered msg_cb fuel payload_fuel (fun b => MqttEncode_Connect b
      (MkConnect DEFAULT_KEEP_ALIVE_SEC true (Some ci) 0 false (Some (LastWill 0 0 None None 0)) (Some u) (Some pw)))
    MQTT_PACKET_TYPE_CONNECT 0 ds MQTT_PACKET_TYPE_CONNECT_ACK 0 [[flags; code]]
    (fun a => Ack (ack_stat a) (ack_id a) flags code (ack_codes a)) c1 arr') as (r' & c' & -> & [Fb Fm _ Fa] & [Os Oa Osent Or Oroom] & Oid);
    try apply connect_answer; try done.
  - unfold MqttEncode_Connect. cbn [will_parts enable_lwt negb mbind option_bind client_id username password opt_len].
    rewrite Hds. replace (10 + (zlen ci + MQTT_DATA_LEN_SIZE) + 0 + (zlen u + MQTT_DATA_LEN_SIZE) + (zlen pw + MQTT_DATA_LEN_SIZE))
      with (16 + zlen ci + zlen u + zlen pw) by (unfold MQTT_DATA_LEN_SIZE; lia). reflexivity.
  - lia.
  - change (zlen (packet MQTT_PACKET_TYPE_CONNECT 0 ds) <= zlen (tx_buf (tx c))).
    unfold packet. rewrite zlen_cons, zlen_app, Hds. pose proof (vbi_length_small (16 + zlen ci + zlen u + zlen pw)). lia.
  - change (4 <= zlen (rx_buf (rx c))). lia.
  - cbn [mbind res_bind]. change (negb (MQTT_CODE_SUCCESS =? MQTT_CODE_SUCCESS)) with false. cbn iota.
    exists r', (tx c'). split; [destruct c'; cbn in Os |- *; by injection Os as -> -> -> -> _|].
    split; [done|]. split; [done|]. split; [rewrite Fb, zlen_app, zlen_drop; change (zlen (packet _ _ _)) with 4;
      change (length (packet _ _ _)) with 4%nat; change (rx c1) with (rx c); lia|].
    split; [done|]. split; [done|]. split; [done|]. injection Oa as -> ->. by rewrite Oid.
Qed.
(** The identifier after [last]. *)
Definition next_id (last : Z) : Z := u16 ((if MAX_PACKET_ID <=? last then 0 else last) + 1).

Definition subscribe_parts (id : Z) (filter : list Z) (q : Z) : list (list Z) := [MqttEncode_Num id; MqttEncode_String filter ++ [q]].

Lemma subscribed msg_cb fuel payload_fuel filter q (c : client) code arr' :
  let id := next_id (mPacketIdLast (tx c)) in
  topics (tx c) = [] -> fd c <> SOCKET_INVALID -> tx_ready (tx c) ->
  zlen filter + 10 <= zlen (tx_buf (tx c)) < 2 ^ 28 -> 6 <= zlen (rx_buf (rx c)) < 2 ^ 28 ->
  arrives (packet MQTT_PACKET_TYPE_SUBSCRIBE_ACK 0 [MqttEncode_Num id; [code]]) (arrivals (rx c)) arr' ->
  exists r' t', mqtt_subscribe msg_cb (S fuel) payload_fuel filter q c =
      Ok (0, Client (live c) (connected c) (sock_conn c) (fd c) r' t') /\
    msg r' = msg (rx c) /\ arrivals r' = arr' /\ zlen (rx_buf r') = zlen (rx_buf (rx c)) /\
    sent t' = sent (tx c) ++ packet MQTT_PACKET_TYPE_SUBSCRIBE 1 (subscribe_parts id filter q) /\
    tx_ready t' /\ zlen (tx_buf t') = zlen (tx_buf (tx c)) /\ topics t' = [Topic (Some filter) q code] /\ app t' = app (tx c).
Proof.
  intros id Htop Hfd Hr Htx Hrx Ha. unfold mqtt_subscribe. rewrite Htop, zlen_nil. cbn [Z.leb Z.compare].
  unfold mqtt_get_packetid. fold (next_id (mPacketIdLast (tx c))). fold id. set (c1 := set_tx _ c).
  assert (Hid : 0 <= id < 2 ^ 16) by apply u16_range. set (ds := subscribe_parts id filter q).
  assert (Hds : zlen (concat ds) = 5 + zlen filter).
  { unfold ds, subscribe_parts. cbn [concat]. rewrite app_nil_r, !zlen_app, string_length, num_length. change (zlen [q]) with 1. lia. }
  pose proof (zlen_nonneg filter). unfold MqttClient_Subscribe.
  destruct (request_answered msg_cb fuel payload_fuel (fun b => MqttEncode_Subscribe b id [Topic (Some filter) q 0])
    MQTT_PACKET_TYPE_SUBSCRIBE 1 ds MQTT_PACKET_TYPE_SUBSCRIBE_ACK id [MqttEncode_Num id; [code]]
    (fun a => Ack (ack_stat a) id (ack_flags a) (ack_return_code a) (Some 4)) c1 arr')
    as (r' & c' & -> & [Fb Fm _ Fa] & [Os Oa Osent Or Oroom] & Oid); try by apply subscribe_answer.
  - reflexivity.
  - lia.
  - change (zlen (packet MQTT_PACKET_TYPE_SUBSCRIBE 1 ds) <= zlen (tx_buf (tx c))).
    unfold packet. rewrite zlen_cons, zlen_app, Hds. pose proof (vbi_length_small (5 + zlen filter)). lia.
  - destruct Hr. by split.
  - change (5 <= zlen (rx_buf (rx c))). lia.
  - done.
  - done.
  - exact Ha.
  - cbn [mbind res_bind cleared_ack ack_stat]. change (MQTT_CODE_SUCCESS =? MQTT_CODE_SUCCESS) with true. cbn iota.
    change (rx_buf (rx (set_rx r' c'))) with (rx_buf r'). rewrite Fb.
    cbn [return_codes length]. change (buf_get _ 4) with (Some code). cbn [mbind option_bind defined res_bind zip_with].
    exists r', (set_topics [Topic (Some filter) q code] (tx c')). split; [destruct c'; cbn in Os |- *; by injection Os as -> -> -> -> _|].
    split; [done|]. split; [done|]. split; [rewrite Fb, zlen_app, zlen_drop; change (zlen (packet _ _ _)) with 5;
      change (length (packet _ _ _)) with 5%nat; change (rx c1) with (rx c); lia|].
    injection Oa as _ Oa. split; [exact Osent|]. split; [by destruct Or; split|]. done.
Qed.
Lemma created_room junk : zlen (take MAX_BUFFER_SIZE (junk ++ replicate MAX_BUFFER_SIZE 0)) = 1024.
Proof. unfold zlen. rewrite length_take, length_app, length_replicate. unfold MAX_BUFFER_SIZE. lia. Qed.

(** [C26] The start of the module.  With a configuration that can be read, a
    broker that can be dialed on the standard port and answers both requests,
    in any pieces and with any codes, the start returns 0: exactly the request
    for the connection and the subscription to the configured topic have been
    sent, with the next identifier, the lamps and readings are as they were,
    both threads run, and the client is ready for messages. *)
Theorem mqtt_started dial depth fuel payload_fuel file arr out a jtx jrx last flags code granted mid arr' :
  mqtt_cfg_parse mem file = Ok (0, Some cfg) -> dialed (dial (host cfg) MQTT_DEFAULT_PORT) -> accepting out ->
  zlen (Mqtt.client_id cfg) + zlen (Mqtt.username cfg) + zlen (Mqtt.password cfg) + 21 <= 1024 ->
  let id := next_id last in
  arrives (packet MQTT_PACKET_TYPE_CONNECT_ACK 0 [[flags; code]]) arr mid ->
  arrives (packet MQTT_PACKET_TYPE_SUBSCRIBE_ACK 0 [MqttEncode_Num id; [granted]]) mid arr' ->
  exists c, mqtt_init mem dial depth (S fuel) payload_fuel file (Some (mqtt_ctx_create arr false out a jtx jrx last)) (true, true) =
      Ok (0, Some (Started cfg c true true)) /\
    client_ready c /\ app (tx c) = a /\ arrivals (rx c) = arr' /\
    sent (tx c) = packet MQTT_PACKET_TYPE_CONNECT 0 (connect_parts (Mqtt.client_id cfg) (Mqtt.username cfg) (Mqtt.password cfg)) ++
      packet MQTT_PACKET_TYPE_SUBSCRIBE 1 (subscribe_parts id (params_set_topic cfg) DEFAULT_MQTT_QOS).
Proof.
  intros Hcfg Hdial Hout Hfit id Hc Hs. unfold mqtt_init. rewrite Hcfg. cbn [mbind res_bind Z.ltb Z.compare].
  set (msg_cb := MqttApp.message_cb _ _ _ _ _). unfold ctx_of. set (c0 := mqtt_ctx_create _ _ _ _ _ _ _).
  pose proof (topic_fits pk dn (str "service/property/set")) as Htop. rewrite <- Hset in Htop. unfold MAX_TOPIC_LENGTH in Htop.
  assert (Htx : zlen (tx_buf (tx c0)) = 1024) by apply created_room. assert (Hrx : zlen (rx_buf (rx c0)) = 1024) by apply created_room.
  destruct (connected_to msg_cb dial fuel payload_fuel (host cfg) (Mqtt.client_id cfg) (Mqtt.username cfg) (Mqtt.password cfg)
    DEFAULT_MQTT_QOS c0 flags code mid) as (r1 & t1 & -> & Em & Ea & Eb & Es & Hr & Eroom & Eapp); try done; try lia.
  { split; [done..|lia]. }
  injection Eapp as Elast Etop Eapp. cbn [mbind res_bind Z.ltb Z.compare]. set (c1 := Client _ _ _ _ r1 t1).
  assert (Hid : next_id (mPacketIdLast (tx c1)) = id) by (change (tx c1) with t1; by rewrite Elast).
  destruct (subscribed msg_cb fuel payload_fuel (params_set_topic cfg) DEFAULT_MQTT_QOS c1 granted arr')
    as (r2 & t2 & -> & Em2 & Ea2 & Eb2 & Es2 & Hr2 & Eroom2 & _ & Eapp2); try done; try by destruct Hdial.
  - change (tx c1) with t1. rewrite Eroom, Htx. unfold zlen. lia.
  - change (rx c1) with r1. rewrite Eb, Hrx. lia.
  - rewrite Hid. change (arrivals (rx c1)) with (arrivals r1). by rewrite Ea.
  - cbn [mbind res_bind Z.ltb Z.compare]. eexists. split; [reflexivity|]. cbn [tx rx]. split.
    + split; try done; [by destruct Hdial|split; [done|]| |]; cbn [rx tx].
      * rewrite Eroom2. change (tx c1) with t1. lia.
      * rewrite Em2. change (rx c1) with r1. by rewrite Em.
      * rewrite Eb2. change (rx c1) with r1. lia.
    + split; [by rewrite Eapp2|]. split; [done|]. rewrite Es2, Hid. change (tx c1) with t1. by rewrite Es.
Qed.
End Proofs.

(** ** A message in pieces *)
Definition set_text : list Z := json_text false 0 (JObj set_message).

Definition set_packet_bytes : list Z := publish_head 0 1 0 7 (params_set_topic sample_cfg) (zlen set_text) ++ set_text.

Definition set_pieces : list (list Z) := [take 1 set_packet_bytes; take 40 (drop 1 set_packet_bytes); drop 41 set_packet_bytes].

Definition set_arrivals : list arrival := map Data set_pieces ++ [Quiet].

Definition connect_answers : list arrival := [Data [32]; Data [2; 0; 0; 144; 3]; Data [0; 1; 0]].

Definition dark_module : module (D:=decimal) := Module_ dark sample_sensors.

Definition waiting_client : client (module (D:=decimal)) :=
  Client true true true 3 (RxSide MQTT_PK_BEGIN 0 0 0 0 (replicate 1024 0) cleared set_arrivals false)
    (TxSide 0 0 (replicate 1024 0) [Accepts 3; Accepts 50] [] 1 [] dark_module).

Lemma property_message_witness : exists c' l report,
  MqttClient_WaitMessage (message_cb plenty sample_cfg 1 0 (Z.to_nat (2 ^ 16))) 1 (Z.to_nat (2 ^ 16)) waiting_client = Ok (0, c') /\
  app (tx c') = Module_ l sample_sensors /\ l = Board.Lamps 0 1 1 1 0 0 /\
  sent (tx c') = report_packet sample_cfg report ++ packet MQTT_PACKET_TYPE_PUBLISH_ACK 0 [MqttEncode_Num 7] /\
  arrivals (rx c') = [Quiet].
Proof.
  destruct (property_message (D:=decimal) plenty sample_cfg (fun _ => eq_refl) (str "pk") (str "dn")
    ltac:(by_decide) ltac:(by_decide) eq_refl eq_refl 0 0 (Z.to_nat (2 ^ 16)) 0 1 0 7 (params_set_topic sample_cfg)
    false set_message set_params waiting_client [Quiet] set_message_ok eq_refl set_params_numeric
    ltac:(by_decide) ltac:(done) ltac:(split; by_decide)
    ltac:(split; [done|done|split; [split; [done|by repeat constructor|by_decide]|by_decide]|done|by_decide])
    ltac:(by_decide)
    ltac:(exact (arrives_pieces set_pieces [Quiet] ltac:(by repeat constructor)))
    (le_n _)) as (c' & l & report & E & Ea & Hl & _ & Es & Er & _).
  exists c', l, report. split; [exact E|]. split; [exact Ea|]. split; [|by split].
  pose proof (Hl Board.RED) as H1. pose proof (Hl Board.GREEN) as H2. pose proof (Hl Board.BLUE) as H3. destruct l. cbn in H1, H2, H3.
  by injection H1 as -> ->; injection H2 as -> ->; injection H3 as -> ->.
Defined.

Lemma mqtt_started_witness : exists c,
  mqtt_init plenty (fun _ _ => Dialing 0 true 3 0) 1 1 0 (Some (json_text true 0 (JObj cfg_file)))
    (Some (mqtt_ctx_create connect_answers false [Accepts 7] dark_module [] [] 0)) (true, true) =
      Ok (0, Some (Started sample_cfg c true true)) /\
  client_ready c /\ app (tx c) = dark_module /\ arrivals (rx c) = [] /\
  sent (tx c) = packet MQTT_PACKET_TYPE_CONNECT 0 (connect_parts (str "c") (str "u") (str "p")) ++
    packet MQTT_PACKET_TYPE_SUBSCRIBE 1 (subscribe_parts 1 (params_set_topic sample_cfg) 0).
Proof.
  exact (mqtt_started (D:=decimal) plenty sample_cfg (str "pk") (str "dn") eq_refl (fun _ _ => Dialing 0 true 3 0) 1 0 0
    (Some (json_text true 0 (JObj cfg_file))) connect_answers [Accepts 7] dark_module [] [] 0 0 0 0 [Data [144; 3]; Data [0; 1; 0]] []
    eq_refl ltac:(by split) ltac:(by repeat constructor) ltac:(by_decide)
    ltac:(exact (arrives_more [32] [2; 0; 0] _ _ ltac:(done) (arrives_part [2; 0; 0] [144; 3] _ ltac:(done) ltac:(done))))
    ltac:(exact (arrives_more [144; 3] [0; 1; 0] _ _ ltac:(done) (arrives_last [0; 1; 0] [] ltac:(done))))).
Defined.
