(* ===== verification/Record.v ===== *)
(** * The data recorder

    Models src/module/record/record_module.c: the choice of the directory and
    the file of the day, the lines that are appended to it, and the averages.
    The averages of floating-point readings are a parameter, given as the text
    "%.2f" prints; the average of the used memory is computed on its 16 bits.
    The file system is an interface: [FileSys] and the ways to open a file that
    the recorder uses, on a disk with room. *)

From S2P Require Import Prelude CLib FileSys.

Local Open Scope Z_scope.

(** ** Opening files to read, to replace and to append *)
Class FileModes (F : Type) `{!FileSys F} := {
  fs_open_read : F -> path -> Z * F;      (* [O_RDONLY] *)
  fs_open_trunc : F -> path -> Z * F;     (* [O_WRONLY | O_CREAT | O_TRUNC] *)
  fs_open_append : F -> path -> Z * F     (* [O_WRONLY | O_CREAT | O_APPEND] *)
}.

Class FileModesLaws (F : Type) `{!FileSys F} `{!FileModes F} := {
  open_read_ok : forall f p fd f', fs_open_read f p = (fd, f') ->
    (0 <= fd <-> is_Some (fs_data f p)) /\ forall q, fs_data f' q = fs_data f q;
  open_trunc_ok : forall f p fd f', fs_open_trunc f p = (fd, f') ->
    0 < fd /\ fs_cursor f' fd = Some (p, 0) /\ fs_data f' p = Some [] /\
    forall q, q <> p -> fs_data f' q = fs_data f q;
  open_append_ok : forall f p fd f', fs_open_append f p = (fd, f') ->
    let old := default [] (fs_data f p) in
    fs_cursor f' fd = Some (p, zlen old) /\ fs_data f' p = Some old /\
    forall q, q <> p -> fs_data f' q = fs_data f q;
  write_all : forall f fd d p off, fs_cursor f fd = Some (p, off) -> fst (fs_write f fd d) = zlen d
}.

(** ** The recorder *)
Definition DATA_RECORD_ROOT_PATH : list Z := str "/webnet/data".

Definition DATA_RECORD_HEAD : list Z := str "time,temp,humi,used_mem,light" ++ [13; 10].

Definition DATA_FILTER_TIMES : nat := 60.

(** The fields of [struct tm] that the recorder looks at. *)
Record tm := Tm { tm_year : Z; tm_mon : Z; tm_mday : Z }.

Record record_t := Rec { cur_tm : tm; rec_path : list Z }.

(** [rt_memset(&record, 0, sizeof(record_t))] *)
Definition cleared : record_t := Rec (Tm 0 0 0) [].

(** The averages of one line. *)
Record averages := Averages { temp_aver : list Z; humi_aver : list Z; used_mem_aver : Z; light_aver : list Z }.

(** [used_mem_sum += used_mem] on 16 bits, in each round of the filter. *)
Definition used_mem_average (used_mem : Z) : Z :=
  fold_left (fun sum _ => u16 (sum + used_mem)) (seq 0 DATA_FILTER_TIMES) 0 / Z.of_nat DATA_FILTER_TIMES.

(** The line of a record; [cur_time] is printed as an [int], into 200 bytes. *)
Definition record_line (cur_time : Z) (a : averages) : list Z :=
  take 199 (sprintf_d (i32 cur_time) ++ [44] ++ temp_aver a ++ [44] ++ humi_aver a ++ [44] ++
            sprintf_d (used_mem_aver a) ++ [44] ++ light_aver a ++ [13; 10]).

Section Recorder.
Context {F : Type} `{!FileSys F} `{!FileModes F}.

(** [opendir], then [mkdir] if there is no such directory. *)
Definition ensure_dir (p : list Z) (f : F) : F :=
  if fs_opendir f p then f else snd (fs_mkdir f p).

Definition _module_init (f : F) : record_t * F := (cleared, ensure_dir DATA_RECORD_ROOT_PATH f).

(** [dir_change]: [sprintf] appends to the path in place. *)
Definition dir_change (local_time : tm) (r : record_t) (f : F) : Z * record_t * F :=
  if negb (tm_mday local_time =? tm_mday (cur_tm r)) then
    let p := DATA_RECORD_ROOT_PATH ++ [47] ++ sprintf_d (tm_year local_time + 1900) in
    let f := ensure_dir p f in
    let p := p ++ [47] ++ sprintf_d (tm_mon local_time + 1) in
    let f := ensure_dir p f in
    (1, Rec local_time p, f)
  else (0, r, f).

(** [data_record] at the local time [local_time], the time stamp [cur_time]. *)
Definition data_record (local_time : tm) (cur_time : Z) (a : averages) (r : record_t) (f : F)
  : Z * record_t * F :=
  let '(c, r, f) := dir_change local_time r f in
  let r := if c =? 1
           then Rec (cur_tm r) (rec_path r ++ [47] ++ sprintf_d (tm_mday (cur_tm r)) ++ str ".csv") else r in
  let '(fd, f) := fs_open_read f (rec_path r) in
  let '(rc, f) :=
    if fd <? 0 then
      let '(fd, f) := fs_open_trunc f (rec_path r) in
      if negb (fd =? 0) then (0, fs_close (snd (fs_write f fd DATA_RECORD_HEAD)) fd) else (-1, f)
    else (0, fs_close f fd) in
  if rc <? 0 then (-1, r, f) else
  let '(fd, f) := fs_open_append f (rec_path r) in
  let '(_, f) := fs_write f fd (record_line cur_time a) in
  (0, r, fs_close f fd).

(** The rounds of [record_thread_entry]: what is recorded when. *)
Fixpoint record_all (es : list (tm * Z * averages)) (r : record_t) (f : F) : record_t * F :=
  match es with
  | [] => (r, f)
  | (t, time, a) :: es => let '(_, r, f) := data_record t time a r f in record_all es r f
  end.
End Recorder.

(** ** The average of the used memory *)

(** The sum wraps at 2^16, so the average is right up to 1092 bytes only. *)
Lemma used_mem_sum used n start :
  fold_left (fun sum _ => u16 (sum + used)) (seq start n) 0 = u16 (Z.of_nat n * used).
Proof.
  revert start. induction n as [|n IH] using nat_ind; intros start; [done|].
  rewrite seq_S, fold_left_app, IH. cbn [fold_left]. unfold u16.
  rewrite Zplus_mod_idemp_l. f_equal. lia.
Qed.

(** The recorded average of the used memory is the used memory taken sixty
    times modulo 2^16, divided by sixty: it is the used memory up to 1092
    bytes, and a smaller number for every larger value. *)
Theorem used_mem_average_spec used : 0 <= used ->
  used_mem_average used = (60 * used) `mod` 2 ^ 16 / 60 /\
  (used <= 1092 -> used_mem_average used = used) /\ (1092 < used -> used_mem_average used < used).
Proof.
  intros Hu. unfold used_mem_average. rewrite used_mem_sum. change (Z.of_nat DATA_FILTER_TIMES) with 60.
  unfold u16. split; [done|].
  pose proof (Z.mod_pos_bound (60 * used) (2 ^ 16) ltac:(lia)) as Hm. split; intros H.
  - rewrite Z.mod_small by lia. rewrite Z.mul_comm. by apply Z.div_mul.
  - apply Z.div_lt_upper_bound; [lia|]. pose proof (Z.mod_le (60 * used) (2 ^ 16)). lia.
Qed.

(** ** The files of the days *)
Definition day_path (t : tm) : list Z :=
  DATA_RECORD_ROOT_PATH ++ [47] ++ sprintf_d (tm_year t + 1900) ++ [47] ++ sprintf_d (tm_mon t + 1) ++ [47] ++
  sprintf_d (tm_mday t) ++ str ".csv".

(** What the records [es] make of the contents [old] of the file [p]. *)
Fixpoint logged (es : list (tm * Z * averages)) (p : list Z) (old : option (list Z)) : option (list Z) :=
  match es with
  | [] => old
  | (t, time, a) :: es =>
      logged es p (if bool_decide (day_path t = p)
                   then Some (default DATA_RECORD_HEAD old ++ record_line time a) else old)
  end.

(** No two records in a row are on the same day of different months. *)
Fixpoint steady (t0 : tm) (es : list (tm * Z * averages)) : Prop :=
  match es with
  | [] => True
  | (t, _, _) :: es => (tm_mday t = tm_mday t0 -> day_path t = day_path t0) /\ steady t es
  end.

Section Files.
Context {F : Type} `{!FileSys F} `{!FileSysLaws F} `{!FileModes F} `{!FileModesLaws F}.

Lemma ensure_dir_data p (f : F) q : fs_data (ensure_dir p f) q = fs_data f q.
Proof. unfold ensure_dir. destruct (fs_opendir f p); [done|apply mkdir_data]. Qed.

(** Writing all of [d] behind the contents of a file. *)
Lemma write_end (f : F) fd d p old :
  fs_cursor f fd = Some (p, zlen old) -> fs_data f p = Some old ->
  fs_data (snd (fs_write f fd d)) p = Some (old ++ d) /\
  forall q, q <> p -> fs_data (snd (fs_write f fd d)) q = fs_data f q.
Proof.
  intros Hc Hd. pose proof (write_all f fd d p (zlen old) Hc) as Hw.
  destruct (fs_write f fd d) as [n f'] eqn:E. cbn [fst snd] in *. subst n. split.
  - destruct (write_ok f fd d f' p (zlen old) old E Hc Hd) as [-> _]; [pose proof (zlen_nonneg old); lia|].
    f_equal. unfold overwrite, zlen. rewrite Nat2Z.id, take_ge, drop_ge by lia. by rewrite app_nil_r.
  - intros q Hq. pose proof (write_frame f fd d p (zlen old) q Hc Hq) as H. by rewrite E in H.
Qed.

Definition appended (p line : list Z) (f f' : F) : Prop :=
  fs_data f' p = Some (default DATA_RECORD_HEAD (fs_data f p) ++ line) /\
  forall q, q <> p -> fs_data f' q = fs_data f q.

(** The head is written when the file cannot be opened for reading. *)
Lemma head_written (f : F) p :
  let '(fd, f1) := fs_open_read f p in
  exists f2,
    (if fd <? 0 then
       let '(fd, f) := fs_open_trunc f1 p in
       if negb (fd =? 0) then (0, fs_close (snd (fs_write f fd DATA_RECORD_HEAD)) fd) else (-1, f)
     else (0, fs_close f1 fd)) = (0, f2) /\
    fs_data f2 p = Some (default DATA_RECORD_HEAD (fs_data f p)) /\
    forall q, q <> p -> fs_data f2 q = fs_data f q.
Proof.
  destruct (fs_open_read f p) as [fd f1] eqn:E1. destruct (open_read_ok f p fd f1 E1) as [Hfd H1].
  destruct (Z.ltb_spec fd 0) as [Hneg|Hpos].
  - assert (Hn : fs_data f p = None).
    { destruct (fs_data f p) eqn:E; [|done]. destruct Hfd as [_ Hfd]. specialize (Hfd (mk_is_Some _ _ eq_refl)). lia. }
    destruct (fs_open_trunc f1 p) as [fd2 f2] eqn:E2. destruct (open_trunc_ok f1 p fd2 f2 E2) as (Hp & Hc & Hd & Hq).
    destruct (Z.eqb_spec fd2 0); [lia|]. cbn [negb]. eexists. split; [done|].
    destruct (write_end f2 fd2 DATA_RECORD_HEAD p [] Hc Hd) as [W1 W2]. split.
    + by rewrite close_data, W1, Hn.
    + intros q Hqp. by rewrite close_data, W2, Hq, H1.
  - eexists. split; [done|]. split.
    + rewrite close_data, H1. apply Hfd in Hpos as [x Hx]. by rewrite Hx.
    + intros q _. by rewrite close_data, H1.
Qed.

Lemma record_at t time a r (f : F) :
  exists f', data_record t time a r f =
    (0, let '(c, r', _) := dir_change t r f in
        if c =? 1 then Rec t (day_path t) else r, f') /\
    appended (if tm_mday t =? tm_mday (cur_tm r) then rec_path r else day_path t) (record_line time a) f f'.
Proof.
  unfold data_record, dir_change. set (f0 := ensure_dir _ (ensure_dir _ f)).
  assert (H0 : forall q, fs_data f0 q = fs_data f q) by (intros q; unfold f0; by rewrite !ensure_dir_data).
  assert (Hgo : forall r' (f0 : F), (forall q, fs_data f0 q = fs_data f q) -> exists f',
    (let '(fd, f) := fs_open_read f0 (rec_path r') in
     let '(rc, f) :=
       if fd <? 0 then
         let '(fd, f) := fs_open_trunc f (rec_path r') in
         if negb (fd =? 0) then (0, fs_close (snd (fs_write f fd DATA_RECORD_HEAD)) fd) else (-1, f)
       else (0, fs_close f fd) in
     if rc <? 0 then (-1, r', f) else
     let '(fd, f) := fs_open_append f (rec_path r') in
     let '(_, f) := fs_write f fd (record_line time a) in (0, r', fs_close f fd)) = (0, r', f') /\
    appended (rec_path r') (record_line time a) f f').
  { clear f0 H0. intros r' f0 H0. pose proof (head_written f0 (rec_path r')) as Hh.
    destruct (fs_open_read f0 (rec_path r')) as [fd f1]. destruct Hh as (f2 & -> & Hd & Hq).
    cbn [Z.ltb Z.compare]. destruct (fs_open_append f2 (rec_path r')) as [fd3 f3] eqn:E3.
    destruct (open_append_ok f2 _ fd3 f3 E3) as (Hc3 & Hd3 & Hq3). rewrite Hd in Hc3, Hd3. cbn [default] in *.
    destruct (write_end f3 fd3 (record_line time a) _ _ Hc3 Hd3) as [W1 W2].
    destruct (fs_write f3 fd3 (record_line time a)) as [n f4]. cbn [snd] in *. eexists. split; [done|]. split.
    - by rewrite close_data, W1, H0.
    - intros q Hqp. by rewrite close_data, W2, Hq3, Hq, H0. }
  destruct (Z.eqb_spec (tm_mday t) (tm_mday (cur_tm r))) as [E|E]; cbn [negb].
  - cbn [Z.eqb]. by apply Hgo.
  - cbn [Z.eqb Pos.eqb]. destruct (Hgo (Rec t (day_path t)) f0 H0) as (f' & E' & A). exists f'.
    split; [|done]. rewrite <- E'. unfold day_path. cbn [rec_path cur_tm]. by rewrite <- !app_assoc.
Qed.

Lemma record_all_files es : forall t0 r (f : F) p,
  tm_mday (cur_tm r) = tm_mday t0 -> (tm_mday t0 = 0 \/ rec_path r = day_path t0) ->
  Forall (fun e => tm_mday (fst (fst e)) <> 0) es -> steady t0 es ->
  fs_data (snd (record_all es r f)) p = logged es p (fs_data f p).
Proof.
  induction es as [|[[t time] a] es IH]; intros t0 r f p Hd Hp Hv Hs; [done|].
  apply Forall_cons in Hv as [Ht Hv]. cbn [fst] in Ht. destruct Hs as [Hs0 Hs]. cbn [record_all logged].
  destruct (record_at t time a r f) as (f' & -> & A1 & A2).
  destruct (Z.eqb_spec (tm_mday t) (tm_mday (cur_tm r))) as [E|E].
  - assert (Et : day_path t = day_path t0) by (apply Hs0; congruence).
    destruct Hp as [?|Hp]; [congruence|]. rewrite Hp, <- Et in *.
    unfold dir_change. rewrite E, Z.eqb_refl. cbn [negb Z.eqb].
    rewrite (IH t r f' p); [|congruence|right; congruence|done|done]. f_equal.
    case_bool_decide as Hpp; [by subst p|]. apply A2. congruence.
  - unfold dir_change. destruct (Z.eqb_spec (tm_mday t) (tm_mday (cur_tm r))); [done|]. cbn [negb Z.eqb Pos.eqb].
    rewrite (IH t (Rec t (day_path t)) f' p); [|done|by right|done|done]. f_equal.
    case_bool_decide as Hpp; [by subst p|]. apply A2. congruence.
Qed.

(** The files of the recorder.  On a disk with room, from the start of the
    recorder on, the file of a day (year/month/day.csv) holds what it held
    before, or the head line if there was none, and then the lines of the
    records of that day in order; no other file changes.  The days are valid
    ones and no two records in a row are on the same day of different months,
    which the recorder does not tell apart. *)
Theorem record_files es (f : F) p :
  Forall (fun e => tm_mday (fst (fst e)) <> 0) es -> steady (Tm 0 0 0) es ->
  fs_data (snd (let '(r, f) := _module_init f in record_all es r f)) p = logged es p (fs_data f p).
Proof.
  intros Hv Hs. unfold _module_init.
  rewrite (record_all_files es (Tm 0 0 0) cleared); [|done|by left|done|done].
  by rewrite ensure_dir_data.
Qed.
End Files.

(** ** An in-memory disk with room *)
Definition next_fd (f : mem_fs) : Z := 1 + Z.abs (mf_next f).

Definition mem_open_at (f : mem_fs) (p : path) (d : list Z) : Z * mem_fs :=
  (next_fd f, MemFs (mf_dirs f) (<[p := d]> (mf_files f))
     (<[next_fd f := (p, zlen d)]> (mf_fds f)) (next_fd f)).

#[export] Instance mem_modes : FileModes mem_fs := {
  fs_open_read f p := match mf_files f !! p with
                      | Some _ => (next_fd f, MemFs (mf_dirs f) (mf_files f) (mf_fds f) (next_fd f))
                      | None => (-1, f)
                      end;
  fs_open_trunc f p := mem_open_at f p [];
  fs_open_append f p := mem_open_at f p (default [] (mf_files f !! p))
}.

#[export] Instance mem_modes_laws : FileModesLaws mem_fs.
Proof.
  split; cbn.
  - intros f p fd f' E. destruct (mf_files f !! p) eqn:Ep; injection E as <- <-; cbn.
    + split; [|done]. split; [by eexists|]. unfold next_fd. lia.
    + split; [|done]. split; [lia|]. intros [x Hx]. done.
  - intros f p fd f' [= <- <-]. cbn. rewrite !lookup_insert_eq. split_and!; [unfold next_fd; lia|done|done|].
    intros q Hq. by rewrite lookup_insert_ne.
  - intros f p fd f' [= <- <-]. cbn. rewrite !lookup_insert_eq. split_and!; [done|done|].
    intros q Hq. by rewrite lookup_insert_ne.
  - intros f fd d p off H. unfold mem_write. by rewrite H.
Qed.

(** ** On concrete records *)
Definition sample_averages : averages := Averages (str "21.50") (str "40.00") 1000 (str "3.10").

Definition sample_days : list (tm * Z * averages) :=
  [(Tm 120 4 17, 1589700000, sample_averages); (Tm 120 4 17, 1589700600, sample_averages);
   (Tm 120 4 18, 1589760000, sample_averages)].

Definition empty_disk : mem_fs := MemFs [] ∅ ∅ 1.

Example day_path_sample : day_path (Tm 120 4 17) = str "/webnet/data/2020/5/17.csv".
Proof. reflexivity. Qed.

Lemma record_files_witness :
  steady (Tm 0 0 0) sample_days /\
  fs_data (snd (let '(r, f) := _module_init empty_disk in record_all sample_days r f)) (day_path (Tm 120 4 17)) =
  Some (DATA_RECORD_HEAD ++ record_line 1589700000 sample_averages ++ record_line 1589700600 sample_averages).
Proof.
  assert (Hs : steady (Tm 0 0 0) sample_days) by (cbn; split_and!; try done; lia).
  split; [exact Hs|].
  rewrite (record_files sample_days empty_disk (day_path (Tm 120 4 17)) ltac:(repeat constructor; done) Hs).
  reflexivity.
Defined.

(** The same day of the next month goes into the old file. *)
Example month_not_noticed :
  let es := [(Tm 120 4 17, 0, sample_averages); (Tm 120 5 17, 0, sample_averages)] in
  fs_data (snd (record_all es cleared empty_disk)) (day_path (Tm 120 5 17)) = None.
Proof. reflexivity. Qed.

Lemma used_mem_average_spec_witness : used_mem_average 65536 = 0 /\ used_mem_average 65536 < 65536.
Proof.
  split; [exact (proj1 (used_mem_average_spec 65536 ltac:(lia)))|].
  exact (proj2 (proj2 (used_mem_average_spec 65536 ltac:(lia))) ltac:(lia)).
Defined.
