(* ===== verification/Wol.v ===== *)
(** * Wake on LAN

    Models src/packages/wol-v1.0.0/wol.c and its call in
    src/module/wol/wol_app.c: a hardware address in one of three notations is
    read with [sscanf], and the magic packet for it is sent as a broadcast.
    The socket is a parameter. *)

From S2P Require Import Prelude CLib Json JsonParse.

Local Open Scope Z_scope.

(** ** [sscanf] *)
Definition is_space (c : Z) : bool := (c =? 32) || ((9 <=? c) && (c <=? 13)).

Fixpoint skip_space (s : list Z) : list Z :=
  match s with
  | c :: s' => if is_space c then skip_space s' else s
  | [] => []
  end.

(** The hexadecimal digits at the start: how many, their value, the rest. *)
Fixpoint scan_digits (s : list Z) (n : nat) (v : Z) : nat * Z * list Z :=
  match s with
  | c :: s' => match hex_value c with Some d => scan_digits s' (S n) (16 * v + d) | None => (n, v, s) end
  | [] => (n, v, s)
  end.

(** The sign and the prefix that [%x] accepts. *)
Definition skip_sign (s : list Z) : bool * list Z :=
  match s with
  | c :: s' => if c =? 45 then (true, s') else if c =? 43 then (false, s') else (false, s)
  | [] => (false, [])
  end.

Definition skip_prefix (s : list Z) : list Z :=
  match s with
  | z :: c :: s' => if (z =? 48) && ((c =? 120) || (c =? 88)) then s' else s
  | _ => s
  end.

(** [%hhx]: a value that is no byte is undefined. *)
Definition scan_hhx (s : list Z) : res (option (Z * list Z)) :=
  let '(neg, s) := skip_sign (skip_space s) in
  let '(n, v, s) := scan_digits (skip_prefix s) 0 0 in
  if (n =? 0)%nat then Ok None
  else if (255 <? v) || (neg && negb (v =? 0)) then Undef
  else Ok (Some (v, s)).

(** A separator of the format: a blank stands for any blanks. *)
Definition scan_char (c : Z) (s : list Z) : option (list Z) :=
  if c =? 32 then Some (skip_space s)
  else match s with
       | x :: s => if x =? c then Some s else None
       | [] => None
       end.

(** [sscanf] of [n] more bytes with a separator between two; nothing if not
    all are there. *)
Fixpoint scan_bytes (sep : Z) (n : nat) (s : list Z) : res (option (list Z)) :=
  r ← scan_hhx s;
  match r with
  | None => Ok None
  | Some (v, s) =>
      match n with
      | O => Ok (Some [v])
      | S n =>
          match scan_char sep s with
          | None => Ok None
          | Some s => r ← scan_bytes sep n s; Ok (option_map (cons v) r)
          end
      end
  end.

(** ** The magic packet *)
Definition MAGIC_OFFSET : Z := 6.

(** [n] more copies of the address, from copy [index]. *)
Fixpoint copy_mac (n : nat) (index : Z) (mac data : list Z) : option (list Z) :=
  match n with
  | O => Some data
  | S n => data ← buf_write data (MAGIC_OFFSET + index * 6) mac; copy_mac n (index + 1) mac data
  end.

(** What the network does: whether there is a socket, and whether [sendto]
    takes a whole packet. *)
Record udp := Udp { has_socket : bool; sends_all : bool }.

(** The result, the packets sent and whether the socket stays open. *)
Definition do_wol (net : udp) (mac : list Z) : option (Z * list (list Z) * bool) :=
  magic_data ← copy_mac 16 0 mac (replicate 102 255);
  Some (if negb (has_socket net) then (-1, [], false)
        else if negb (sends_all net) then (-1, [], true)
        else (0, [magic_data], false)).

Definition wol_str (net : udp) (mac_str : list Z) : res (Z * list (list Z) * bool) :=
  a ← scan_bytes 58 5 mac_str;
  match a with
  | Some mac => defined (do_wol net mac)
  | None =>
      b ← scan_bytes 45 5 mac_str;
      match b with
      | Some mac => defined (do_wol net mac)
      | None =>
          c ← scan_bytes 32 5 mac_str;
          match c with
          | Some mac => defined (do_wol net mac)
          | None => Ok (-1, [], false)
          end
      end
  end.

(** [wol_process] of src/module/wol/wol_app.c; a null pointer is read. *)
Definition wol_process (net : udp) (value : option (list Z)) : res (Z * list (list Z) * bool) :=
  value ← defined value;
  wol_str net value.

(** ** Addresses *)
Definition hex2 (b : Z) : list Z := [hex_digit (b / 16); hex_digit (b `mod` 16)].

Fixpoint mac_text (sep : Z) (mac : list Z) : list Z :=
  match mac with
  | [] => []
  | [b] => hex2 b
  | b :: mac => hex2 b ++ sep :: mac_text sep mac
  end.

Definition magic_packet (mac : list Z) : list Z := replicate 6 255 ++ concat (replicate 16 mac).

Definition separator (c : Z) : Prop := c = 58 \/ c = 45 \/ c = 32.

(** No digit, blank or sign follows. *)
Definition ends (s : list Z) : Prop := match s with c :: _ => hex_value c = None | [] => True end.

Lemma hex_digit_value d : 0 <= d < 16 -> hex_value (hex_digit d) = Some d.
Proof.
  intros H. assert (E : forallb (fun d => bool_decide (hex_value (hex_digit d) = Some d)) (seqZ 0 16) = true)
    by (by vm_compute).
  apply (forall_range (fun d => bool_decide (hex_value (hex_digit d) = Some d)) 16 E d) in H.
  by apply bool_decide_eq_true in H.
Qed.

(** The first characters of two digits are no blank, sign or prefix. *)
Lemma hex2_start b s : is_byte b ->
  skip_space (hex2 b ++ s) = hex2 b ++ s /\ skip_sign (hex2 b ++ s) = (false, hex2 b ++ s) /\
  skip_prefix (hex2 b ++ s) = hex2 b ++ s.
Proof.
  intros H. set (ok := fun b => match hex2 b with
    | [x; y] => negb (is_space x) && negb (x =? 45) && negb (x =? 43) && negb (y =? 120) && negb (y =? 88)
    | _ => false end).
  assert (E : forallb ok (seqZ 0 256) = true) by (by vm_compute).
  pose proof (forall_range ok 256 E b H) as Hb. unfold ok, hex2 in Hb.
  set (x := hex_digit (b / 16)) in *. set (y := hex_digit (b `mod` 16)) in *.
  rewrite !andb_true_iff, !negb_true_iff, !Z.eqb_neq in Hb. destruct Hb as [[[[H1 H2] H3] H4] H5].
  unfold hex2. fold x y. cbn [app skip_space]. rewrite H1. split; [done|]. split.
  - unfold skip_sign. by rewrite (proj2 (Z.eqb_neq x 45)), (proj2 (Z.eqb_neq x 43)).
  - unfold skip_prefix. cbn [app]. rewrite (proj2 (Z.eqb_neq y 120)), (proj2 (Z.eqb_neq y 88)) by done.
    cbn [orb]. by rewrite andb_false_r.
Qed.

Lemma scan_hex2 b s : is_byte b -> ends s -> scan_hhx (hex2 b ++ s) = Ok (Some (b, s)).
Proof.
  intros H He. unfold scan_hhx. destruct (hex2_start b s H) as (-> & -> & ->).
  unfold hex2. cbn [app scan_digits].
  rewrite !hex_digit_value by (unfold is_byte in H; Z.div_mod_to_equations; lia).
  assert (E : scan_digits s 2 (16 * (16 * 0 + b / 16) + b `mod` 16) = (2%nat, b, s)).
  { replace (16 * (16 * 0 + b / 16) + b `mod` 16) with b by (Z.div_mod_to_equations; lia).
    destruct s as [|c s]; [done|]. cbn [scan_digits]. by rewrite He. }
  rewrite E. cbn [Nat.eqb]. unfold is_byte in H. destruct (Z.ltb_spec 255 b); [lia|done].
Qed.

Lemma scan_bytes_text sep n : forall mac, separator sep -> length mac = S n -> Forall is_byte mac ->
  scan_bytes sep n (mac_text sep mac) = Ok (Some mac).
Proof.
  intros mac Hs. revert mac. induction n as [|n IH]; intros mac Hl Hm.
  - destruct mac as [|b [|]]; try done. apply Forall_inv in Hm. cbn [scan_bytes mac_text].
    rewrite <- (app_nil_r (hex2 b)), scan_hex2 by done. done.
  - destruct mac as [|b [|c mac]]; try done. apply Forall_cons in Hm as [Hb Hm]. injection Hl as Hl.
    change (mac_text sep (b :: c :: mac)) with (hex2 b ++ sep :: mac_text sep (c :: mac)).
    cbn [scan_bytes]. rewrite scan_hex2 by (done || by destruct Hs as [->|[->| ->]]). cbn [mbind res_bind].
    assert (Hc : scan_char sep (sep :: mac_text sep (c :: mac)) = Some (mac_text sep (c :: mac))).
    { unfold scan_char. destruct (Z.eqb_spec sep 32) as [->|E]; [|by rewrite Z.eqb_refl].
      cbn [skip_space]. change (is_space 32) with true. cbv iota. f_equal.
      apply Forall_inv in Hm. destruct mac; [|apply (hex2_start c (32 :: mac_text 32 (z :: mac)) Hm)].
      destruct (hex2_start c [] Hm) as [E _]. by rewrite app_nil_r in E. }
    by rewrite Hc, IH by (done || (cbn; lia)).
Qed.

(** Another separator is refused after the first byte. *)
Lemma scan_bytes_other sep sep' n mac : sep <> sep' -> sep' <> 32 -> ends [sep] ->
  length mac = S (S n) -> Forall is_byte mac -> scan_bytes sep' (S n) (mac_text sep mac) = Ok None.
Proof.
  intros Hne H32 He Hl Hm. destruct mac as [|b [|c mac]]; try done. apply Forall_inv in Hm.
  change (mac_text sep (b :: c :: mac)) with (hex2 b ++ sep :: mac_text sep (c :: mac)).
  cbn [scan_bytes]. rewrite scan_hex2 by done. cbn [mbind res_bind]. unfold scan_char.
  by rewrite (proj2 (Z.eqb_neq sep' 32)), (proj2 (Z.eqb_neq sep sep')).
Qed.

Lemma copy_mac_spec mac n : forall k, length mac = 6%nat ->
  copy_mac n (Z.of_nat k) mac ((replicate 6 255 ++ concat (replicate k mac)) ++ replicate (6 * n) 255) =
  Some (replicate 6 255 ++ concat (replicate (k + n) mac)).
Proof.
  induction n as [|n IH]; intros k Hm; [by rewrite Nat.add_0_r, app_nil_r|]. cbn [copy_mac].
  set (p := replicate 6 255 ++ concat (replicate k mac)).
  assert (Hp : zlen p = MAGIC_OFFSET + Z.of_nat k * 6).
  { unfold p, MAGIC_OFFSET, zlen. rewrite length_app. change (length (replicate 6 255)) with 6%nat.
    assert (E : length (concat (replicate k mac)) = (6 * k)%nat); [|lia]. clear -Hm.
    induction k as [|k IH]; [done|]. cbn [replicate concat]. rewrite length_app, IH, Hm. lia. }
  replace (6 * S n)%nat with (6 + 6 * n)%nat by lia. rewrite replicate_add.
  rewrite (buf_write_at p (replicate 6 255 ++ replicate (6 * n) 255) _ mac) by (unfold zlen; rewrite ?length_app, ?Hm; (done || cbn [length replicate]; lia)).
  rewrite Hm. change (drop 6 _) with (replicate (6 * n) 255). cbn [mbind option_bind].
  replace (Z.of_nat k + 1) with (Z.of_nat (S k)) by lia.
  rewrite <- (Nat.add_succ_comm k n), <- IH by done. do 2 f_equal.
  rewrite (replicate_S_end k mac), concat_app. cbn [concat]. rewrite app_nil_r. unfold p. by rewrite <- !app_assoc.
Qed.

(** An address in any of the three notations, written with two digits for
    each byte, wakes exactly the device with that address: one broadcast of six
    bytes 255 and sixteen copies of the address is sent, if the network takes
    it. *)
Theorem wol_wakes net sep mac : separator sep -> length mac = 6%nat -> Forall is_byte mac ->
  wol_process net (Some (mac_text sep mac)) =
  Ok (if has_socket net && sends_all net then (0, [magic_packet mac], false)
      else (-1, [], has_socket net)).
Proof.
  intros Hs Hl Hm. unfold wol_process. cbn [defined mbind res_bind].
  assert (Hd : do_wol net mac = Some (if has_socket net && sends_all net then (0, [magic_packet mac], false)
    else (-1, [], has_socket net))).
  { unfold do_wol. pose proof (copy_mac_spec mac 16 0 Hl) as E. cbn [replicate concat] in E.
    rewrite app_nil_r in E. change (_ ++ replicate (6 * 16) 255) with (replicate 102 255) in E.
    change (Z.of_nat 0) with 0 in E. rewrite E. cbn [mbind option_bind Nat.add].
    by destruct net as [[] []]. }
  unfold wol_str. destruct Hs as [->|[->| ->]].
  - rewrite scan_bytes_text by (done || by left). cbn [mbind res_bind]. by rewrite Hd.
  - rewrite (scan_bytes_other 45 58) by done. cbn [mbind res_bind].
    rewrite scan_bytes_text by (done || (by right; left)). cbn [mbind res_bind]. by rewrite Hd.
  - rewrite (scan_bytes_other 32 58), (scan_bytes_other 32 45) by done. cbn [mbind res_bind].
    rewrite scan_bytes_text by (done || (by right; right)). cbn [mbind res_bind]. by rewrite Hd.
Qed.

Example wol_wakes_witness :
  wol_process (Udp true true) (Some (str "0a-1b-2c-3d-4e-ff")) = Ok (0, [magic_packet [10; 27; 44; 61; 78; 255]], false).
Proof.
  apply (wol_wakes (Udp true true) 45 [10; 27; 44; 61; 78; 255]); [by right; left|done|by_decide].
Defined.

(** A packet that is not sent leaves the socket open, and an address with a
    byte of three digits is undefined. *)
Example wol_problems :
  wol_process (Udp true false) (Some (str "0a:1b:2c:3d:4e:ff")) = Ok (-1, [], true) /\
  wol_process (Udp true true) (Some (str "0a:1b:2c:3d:4e:fff")) = Undef /\
  wol_process (Udp true true) None = Undef.
Proof. by vm_compute. Qed.
