(* ===== verification/WebQuery.v ===== *)
(** * Query strings of the web server

    Models [urlencode] and [urldecode] of
    src/packages/webnet-latest/src/wn_utils.c and the parsing of a query in
    src/packages/webnet-latest/src/wn_request.c.  A query is parsed in place:
    every equals sign decodes all that follows it.  An item is held by the texts
    its two pointers see when the parsing is over; an item that the parser
    counted but did not reach is uninitialised memory. *)

From S2P Require Import Prelude CLib Json JsonParse.

Local Open Scope Z_scope.

(** ** Percent encoding *)
Definition isxdigit (c : Z) : bool := is_hex c.

(** The value of a digit after [tolower]. *)
Definition xvalue (c : Z) : Z := default 0 (hex_value c).

(** [urldecode] of the text of the given length; [len >= 2] is whether two
    characters follow. *)
Fixpoint urldecode (s : list Z) : list Z :=
  match s with
  | [] => []
  | c :: s' =>
      if c =? 43 then 32 :: urldecode s'
      else if c =? 37 then
        match s' with
        | a :: b :: s'' =>
            if isxdigit a && isxdigit b then u8 (xvalue a * 16 + xvalue b) :: urldecode s''
            else c :: urldecode s'
        | _ => c :: urldecode s'
        end
      else c :: urldecode s'
  end.

Definition hexchars : list Z := str "0123456789ABCDEF".

(** The characters that [urlencode] replaces; [char] is unsigned. *)
Definition encoded (c : Z) : bool :=
  ((c <? 48) && negb (c =? 45) && negb (c =? 46)) || (c =? 32) || ((c <? 65) && (57 <? c)) ||
  ((90 <? c) && (c <? 97) && negb (c =? 95)) || (122 <? c).

Fixpoint urlencode (s : list Z) : list Z :=
  match s with
  | [] => []
  | c :: s =>
      (if encoded c
       then [37; nth (Z.to_nat (c / 16)) hexchars 0; nth (Z.to_nat (c `mod` 16)) hexchars 0]
       else [c]) ++ urlencode s
  end.

(** ** Parsing a query *)

(** The C string at the start of a memory. *)
Fixpoint cut (s : list Z) : list Z :=
  match s with
  | [] => []
  | c :: s => if c =? 0 then [] else c :: cut s
  end.

(** The counter: one, and one more for every run of [&] that is not at the
    end. *)
Fixpoint drop_amps (s : list Z) : list Z :=
  match s with
  | c :: s' => if c =? 38 then drop_amps s' else s
  | [] => []
  end.

Fixpoint count_items (fuel : nat) (s : list Z) : Z :=
  match fuel, s with
  | S fuel, c :: s' =>
      if c =? 38 then
        match drop_amps s' with
        | [] => 0
        | _ :: s'' => 1 + count_items fuel s''
        end
      else count_items fuel s'
  | _, _ => 0
  end.

(** The items of a query: the counter is 16 bits wide. *)
Definition query_counter (s : list Z) : Z := u16 (1 + count_items (length s) s).

(** The scan of one item: its name once it is known, the piece that is being
    read, and the text still to be read.  It ends at [&] or the terminator. *)
Fixpoint scan_item (fuel : nat) (name : option (list Z)) (piece rest : list Z)
  : list Z * option (list Z) * list Z :=
  let stop := match name with
              | None => (piece, None, rest)
              | Some n => (n, Some piece, rest)
              end in
  match fuel, rest with
  | S fuel, c :: rest =>
      if c =? 38 then stop
      else if c =? 61
      then scan_item fuel (Some (default piece name)) [] (cut (urldecode rest))
      else scan_item fuel name (piece ++ [c]) rest
  | _, _ => stop
  end.

Definition item : Type := list Z * option (list Z).

(** [n] items are to be filled; [None] is one that was not. *)
Fixpoint parse_items (n : nat) (rest : list Z) : list (option item) :=
  match n with
  | O => []
  | S n =>
      let '(name, value, rest) := scan_item (length rest) None [] rest in
      Some (name, value) ::
      match drop_amps rest with
      | [] => replicate n None
      | rest => parse_items n rest
      end
  end.

(** [_webnet_request_parse_query], with memory for the items. *)
Definition _webnet_request_parse_query (query : list Z) : list (option item) :=
  match query with
  | [] => []
  | _ => parse_items (Z.to_nat (query_counter query)) query
  end.

(** [webnet_request_get_query]: the value of the first item of that name, or a
    null pointer; an item that was not filled is undefined. *)
Fixpoint webnet_request_get_query (items : list (option item)) (name : list Z) : option (option (list Z)) :=
  match items with
  | [] => Some None
  | None :: _ => None
  | Some (n, v) :: items =>
      if bool_decide (n = name) then Some v else webnet_request_get_query items name
  end.

(** [webnet_request_has_query]: a prefix is enough. *)
Fixpoint webnet_request_has_query (items : list (option item)) (name : list Z) : option bool :=
  match items with
  | [] => Some false
  | None :: _ => None
  | Some (n, _) :: items =>
      if bool_decide (take (length name) n = name) then Some true else webnet_request_has_query items name
  end.

(** ** Percent encoding is decoded back *)

(** The characters that stand for themselves in the text [urlencode] makes. *)
Lemma hexchars_digit d : 0 <= d < 16 ->
  isxdigit (nth (Z.to_nat d) hexchars 0) = true /\ xvalue (nth (Z.to_nat d) hexchars 0) = d.
Proof.
  intros Hd.
  pose proof (forall_range
    (fun d => isxdigit (nth (Z.to_nat d) hexchars 0) && (xvalue (nth (Z.to_nat d) hexchars 0) =? d)) 16
    eq_refl d Hd) as H. cbv beta in H.
  apply andb_true_iff in H as [H1 H2]. by apply Z.eqb_eq in H2.
Qed.

Lemma not_encoded c : encoded c = false -> c <> 43 /\ c <> 37.
Proof. intros H. by split; intros ->. Qed.

(** What [urlencode] makes of any bytes, [urldecode] turns back. *)
Lemma urldecode_urlencode_bytes (s : list Z) : bytes s -> urldecode (urlencode s) = s.
Proof.
  induction 1 as [|c s Hc Hs IH]; [done|]. cbn [urlencode].
  destruct (encoded c) eqn:E; cbn [app urldecode].
  - pose proof (hexchars_digit (c / 16)) as [H1 V1]; [unfold is_byte in Hc; zify_divmod|].
    pose proof (hexchars_digit (c `mod` 16)) as [H2 V2]; [zify_divmod|].
    change (37 =? 43) with false. change (37 =? 37) with true. cbv iota.
    rewrite H1, H2. cbn [andb]. rewrite V1, V2, IH.
    f_equal. rewrite u8_id by (unfold is_byte in Hc; zify_divmod). zify_divmod.
  - apply not_encoded in E as [E1 E2].
    rewrite (proj2 (Z.eqb_neq _ _) E1), (proj2 (Z.eqb_neq _ _) E2). by rewrite IH.
Qed.

(** ** The items of a query *)

(** A separator is decoded to itself and splits what is decoded. *)
Lemma urldecode_sep (x : Z) (a b : list Z) :
  x <> 43 -> x <> 37 -> isxdigit x = false ->
  urldecode (a ++ x :: b) = urldecode a ++ x :: urldecode b.
Proof.
  intros H1 H2 Hx. remember (length a) as n eqn:En. revert a En.
  induction (lt_wf n) as [n _ IH]. intros a ->.
  assert (Hrec : forall a', (length a' < length a)%nat ->
    urldecode (a' ++ x :: b) = urldecode a' ++ x :: urldecode b) by (intros; by eapply IH).
  destruct a as [|c a]; cbn [app urldecode].
  - by rewrite (proj2 (Z.eqb_neq _ _) H1), (proj2 (Z.eqb_neq _ _) H2).
  - case_match; [by rewrite Hrec by (simpl; lia)|].
    case_match; [|by rewrite Hrec by (simpl; lia)].
    destruct a as [|d [|e a]]; cbn [app].
    + destruct b as [|y b]; cbn [urldecode app];
        rewrite ?Hx, ?(proj2 (Z.eqb_neq _ _) H1), ?(proj2 (Z.eqb_neq _ _) H2); done.
    + rewrite Hx, andb_false_r. exact (f_equal (cons c) (Hrec [d] ltac:(simpl; lia))).
    + case_match; [by rewrite Hrec by (simpl; lia)|].
      exact (f_equal (cons c) (Hrec (d :: e :: a) ltac:(simpl; lia))).
Qed.

(** [0], [&] and [=] do not occur. *)
Definition clean (s : list Z) : Prop := Forall (fun c => c <> 0 /\ c <> 38 /\ c <> 61) s.

(** No percent sign and no plus: decoding changes nothing. *)
Definition literal (s : list Z) : Prop := Forall (fun c => c <> 37 /\ c <> 43) s.

#[export] Instance clean_dec s : Decision (clean s) := ltac:(unfold clean; apply _).
#[export] Instance literal_dec s : Decision (literal s) := ltac:(unfold literal; apply _).

Lemma urldecode_literal s : literal s -> urldecode s = s.
Proof.
  induction 1 as [|c s [H1 H2] Hs IH]; [done|]. cbn [urldecode].
  by rewrite (proj2 (Z.eqb_neq _ _) H2), (proj2 (Z.eqb_neq _ _) H1), IH.
Qed.

(** The text of a list of items, as a browser sends it. *)
Fixpoint query_text (items : list (list Z * list Z)) : list Z :=
  match items with
  | [] => []
  | [(n, v)] => n ++ 61 :: v
  | (n, v) :: items => n ++ 61 :: v ++ 38 :: query_text items
  end.

Definition map_items (f : list Z -> list Z) : list (list Z * list Z) -> list (list Z * list Z) :=
  fmap (fun p => (f p.1, f p.2)).

Definition clean_items (items : list (list Z * list Z)) : Prop :=
  Forall (fun '(n, v) => clean n /\ clean v) items.

#[export] Instance clean_items_dec items : Decision (clean_items items).
Proof. unfold clean_items. apply Forall_dec. intros [n v]. apply _. Defined.

(** Decoding a query decodes its items. *)
Lemma urldecode_query items : urldecode (query_text items) = query_text (map_items urldecode items).
Proof.
  induction items as [|[n v] [|i items] IH]; [done| |].
  - by apply urldecode_sep.
  - change (query_text ((n, v) :: i :: items)) with (n ++ 61 :: v ++ 38 :: query_text (i :: items)).
    rewrite urldecode_sep by done. rewrite urldecode_sep by done. by rewrite IH.
Qed.

Lemma cut_clean s rest : clean s -> cut (s ++ rest) = s ++ cut rest.
Proof.
  induction 1 as [|c s (H0 & _) Hs IH]; [done|]. cbn [app cut].
  by rewrite (proj2 (Z.eqb_neq _ _) H0), IH.
Qed.

Lemma cut_clean_nil s : clean s -> cut s = s.
Proof. intros H. pose proof (cut_clean s [] H) as E. by rewrite !app_nil_r in E. Qed.

Lemma cut_query items : clean_items items -> cut (query_text items) = query_text items.
Proof.
  induction 1 as [|[n v] items [Hn Hv] Hs IH]; [done|].
  destruct items as [|i items].
  - cbn [query_text]. rewrite cut_clean by done. cbn. by rewrite cut_clean_nil.
  - change (query_text ((n, v) :: i :: items)) with (n ++ 61 :: v ++ 38 :: query_text (i :: items)).
    rewrite cut_clean by done. cbn [cut]. change (61 =? 0) with false. cbv iota.
    rewrite cut_clean by done. cbn [cut]. change (38 =? 0) with false. cbv iota. by rewrite IH.
Qed.

(** ** Counting *)
Lemma query_head items : items <> [] -> clean_items items ->
  exists c s, query_text items = c :: s /\ c <> 38.
Proof.
  intros Hne H. destruct H as [|[n v] items [Hn _] _]; [done|].
  destruct Hn as [|c n (_ & Hc & _) _].
  - destruct items; eexists _, _; (split; [reflexivity|done]).
  - destruct items; eexists _, _; (split; [reflexivity|done]).
Qed.

Lemma query_drop items : clean_items items -> drop_amps (query_text items) = query_text items.
Proof.
  intros H. destruct (decide (items = [])) as [->|Hne]; [done|].
  destruct (query_head items Hne H) as (c & s & -> & Hc). cbn.
  by rewrite (proj2 (Z.eqb_neq _ _) Hc).
Qed.

Lemma count_unseparated s fuel rest : Forall (fun c => c <> 38) s ->
  count_items (length s + fuel) (s ++ rest) = count_items fuel rest.
Proof.
  induction 1 as [|c s Hc Hs IH]; [done|]. cbn [length Nat.add app count_items].
  by rewrite (proj2 (Z.eqb_neq _ _) Hc), IH.
Qed.

Lemma clean_no_amp s : clean s -> Forall (fun c => c <> 38) s.
Proof. intros H. eapply Forall_impl; [exact H|]. cbv beta. tauto. Qed.

Lemma count_query items fuel : items <> [] -> clean_items items ->
  (length (query_text items) <= fuel)%nat ->
  count_items fuel (query_text items) = zlen items - 1.
Proof.
  intros Hne H. revert fuel Hne. induction H as [|[n v] items [Hn Hv] Hs IH]; intros fuel Hne Hf; [done|].
  assert (Hp : Forall (fun c => c <> 38) (n ++ 61 :: v)).
  { apply Forall_app. split; [by apply clean_no_amp|].
    constructor; [done|by apply clean_no_amp]. }
  set (p := n ++ 61 :: v) in *.
  assert (Hk : forall rest, (length p <= fuel)%nat -> count_items fuel (p ++ rest) = count_items (fuel - length p) rest).
  { intros rest Hle. rewrite <- (count_unseparated p (fuel - length p)) by done. f_equal. lia. }
  destruct items as [|i items].
  - change (query_text [(n, v)]) with p in *. rewrite <- (app_nil_r p) at 1. rewrite Hk by done.
    by destruct (fuel - length p)%nat.
  - assert (Et : query_text ((n, v) :: i :: items) = p ++ 38 :: query_text (i :: items))
      by (unfold p; by cbn [query_text]; rewrite <- app_assoc).
    rewrite Et in *. rewrite length_app in Hf. cbn [length] in Hf. rewrite Hk by lia.
    destruct (fuel - length p)%nat as [|f] eqn:Ef; [lia|].
    cbn [count_items]. change (38 =? 38) with true. cbv iota. rewrite query_drop by done.
    destruct (query_head (i :: items) ltac:(done) Hs) as (c & s & Es & Hc).
    specialize (IH (S f) ltac:(done)). rewrite Es in *. cbn [count_items length] in IH, Hf.
    rewrite (proj2 (Z.eqb_neq _ _) Hc) in IH. rewrite IH by lia. autorewrite with zlen. lia.
Qed.

Lemma query_counter_text items : clean_items items -> 0 < zlen items < 2 ^ 16 ->
  query_counter (query_text items) = zlen items.
Proof.
  intros H Hl. unfold query_counter.
  rewrite count_query; [rewrite u16_id by lia; lia| |done|lia].
  intros ->. unfold zlen in Hl. simpl in Hl. lia.
Qed.

(** ** Parsing *)

(** The items that a text of clean items is parsed to: the value of the item
    at position [k] has been decoded [S k] times. *)
Definition parsed_items : list (list Z * list Z) -> list (option item) :=
  imap (fun k p => Some (Nat.iter k urldecode p.1, Some (Nat.iter (S k) urldecode p.2))).

(** Every decoding leaves the items it reaches clean. *)
Definition stays_clean (items : list (list Z * list Z)) : Prop :=
  forall k, clean_items (map_items (Nat.iter k urldecode) (drop (pred k) items)).

Lemma urldecode_length s : (length (urldecode s) <= length s)%nat.
Proof.
  remember (length s) as n eqn:En. revert s En. induction (lt_wf n) as [n _ IH]. intros s ->.
  assert (Hrec : forall s', (length s' < length s)%nat -> (length (urldecode s') <= length s')%nat)
    by (intros; by eapply IH).
  destruct s as [|c s]; [done|]. cbn [urldecode]. case_match.
  { specialize (Hrec s). simpl in *. lia. }
  case_match; [|specialize (Hrec s); simpl in *; lia].
  destruct s as [|a [|b s]]; [simpl; lia| |].
  { pose proof (Hrec [a]). simpl length in *. lia. }
  case_match; [specialize (Hrec s)|specialize (Hrec (a :: b :: s))]; simpl length in *; lia.
Qed.

Lemma cut_length s : (length (cut s) <= length s)%nat.
Proof. induction s as [|c s IH]; [done|]. cbn [cut]. case_match; simpl; lia. Qed.

Lemma scan_name n fuel piece rest : clean n ->
  scan_item (S (length n + fuel)) None piece (n ++ 61 :: rest) =
  scan_item fuel (Some (piece ++ n)) [] (cut (urldecode rest)).
Proof.
  intros H. revert piece. induction H as [|c n (H0 & H1 & H2) Hn IH]; intros piece.
  - cbn. by rewrite app_nil_r.
  - cbn [length Nat.add app scan_item] in *.
    rewrite (proj2 (Z.eqb_neq _ _) H1), (proj2 (Z.eqb_neq _ _) H2), IH. by rewrite <- app_assoc.
Qed.

Lemma scan_value v n fuel piece rest : clean v -> (length v <= fuel)%nat ->
  (rest = [] \/ exists s, rest = 38 :: s) ->
  scan_item fuel (Some n) piece (v ++ rest) = (n, Some (piece ++ v), rest).
Proof.
  intros H. revert fuel piece. induction H as [|c v (H0 & H1 & H2) Hv IH]; intros fuel piece Hf Hr.
  - rewrite app_nil_r. destruct Hr as [->|[s ->]]; by destruct fuel.
  - destruct fuel as [|fuel]; simpl length in Hf; [lia|]. cbn [app scan_item].
    rewrite (proj2 (Z.eqb_neq _ _) H1), (proj2 (Z.eqb_neq _ _) H2), IH by (done || lia).
    by rewrite <- app_assoc.
Qed.

Lemma stays_clean_now items : stays_clean items -> clean_items items.
Proof.
  intros H. specialize (H O). unfold clean_items, map_items in *. cbn [pred] in H.
  rewrite drop_0, Forall_fmap in H. eapply Forall_impl; [exact H|]. by intros [n v].
Qed.

Lemma stays_clean_tail p items : stays_clean (p :: items) -> stays_clean (map_items urldecode items).
Proof.
  intros H k. specialize (H (S k)). unfold clean_items, map_items in *.
  destruct k as [|k]; cbn [pred drop] in *.
  - rewrite fmap_cons, Forall_cons in H. rewrite drop_0, <- list_fmap_compose. apply H.
  - rewrite <- fmap_drop, <- list_fmap_compose.
    revert H. rewrite !Forall_fmap. intros H. eapply Forall_impl; [exact H|]. intros [n v].
    cbn [compose fst snd]. by rewrite !Nat.iter_succ_r.
Qed.

Lemma scan_first n v items fuel : stays_clean ((n, v) :: items) ->
  (length (query_text ((n, v) :: items)) <= fuel)%nat ->
  scan_item fuel None [] (query_text ((n, v) :: items)) =
  (n, Some (urldecode v),
   match items with [] => [] | _ => 38 :: query_text (map_items urldecode items) end).
Proof.
  intros H Hf. pose proof (H O) as H0. pose proof (H 1%nat) as H1.
  unfold clean_items, map_items in H0, H1. cbn [pred] in H0, H1. rewrite drop_0, fmap_cons in H0, H1.
  apply Forall_cons in H0 as [[Hn _] _]. apply Forall_cons in H1 as [[_ Hv] H1].
  cbn [fst snd Nat.iter nat_rect] in Hn, Hv.
  set (tail := match items with [] => [] | _ => 38 :: query_text items end).
  assert (Et : query_text ((n, v) :: items) = n ++ 61 :: v ++ tail).
  { subst tail. destruct items; cbn [query_text]; by rewrite ?app_nil_r. }
  assert (Ed : cut (urldecode (v ++ tail)) = urldecode v ++
    match items with [] => [] | _ => 38 :: query_text (map_items urldecode items) end).
  { subst tail. destruct items as [|i items].
    - rewrite !app_nil_r. by apply cut_clean_nil.
    - rewrite urldecode_sep, urldecode_query, cut_clean by done. f_equal.
      cbn [cut]. change (38 =? 0) with false. cbv iota. f_equal. by apply cut_query. }
  rewrite Et in *. rewrite length_app in Hf. cbn [length] in Hf. rewrite length_app in Hf.
  pose proof (urldecode_length v).
  destruct fuel as [|fuel]; [lia|].
  replace (S fuel) with (S (length n + (fuel - length n))) by lia.
  rewrite scan_name by done. rewrite Ed. apply scan_value; [done|lia|].
  destruct items; eauto.
Qed.

Lemma parse_items_text items : items <> [] -> stays_clean items ->
  parse_items (length items) (query_text items) = parsed_items items.
Proof.
  remember (length items) as m eqn:Em. revert items Em.
  induction m as [|m IH]; intros items Em Hne H; [by destruct items|].
  destruct items as [|[n v] items]; [done|]. injection Em as Em.
  cbn [parse_items]. rewrite (scan_first n v items) by done. unfold parsed_items.
  rewrite imap_cons. f_equal. apply stays_clean_tail in H.
  destruct items as [|i items]; [by subst m|]. cbn [drop_amps].
  change (38 =? 38) with true. cbv iota.
  pose proof (stays_clean_now _ H) as H0.
  rewrite query_drop by done.
  destruct (query_head (map_items urldecode (i :: items)) ltac:(done) H0) as (c & s & Es & _).
  rewrite Es, <- Es. rewrite IH; [|by unfold map_items; rewrite length_fmap|done|done].
  unfold parsed_items, map_items. rewrite imap_fmap. apply imap_ext.
  intros k p Hp. cbn [compose fst snd]. by rewrite <- !Nat.iter_succ_r.
Qed.

Lemma query_parse items : items <> [] -> zlen items < 2 ^ 16 -> stays_clean items ->
  _webnet_request_parse_query (query_text items) = parsed_items items.
Proof.
  intros Hne Hl H.
  pose proof (stays_clean_now _ H) as H0.
  assert (Hpos : 0 < zlen items) by (destruct items; [done|rewrite zlen_cons; pose proof (zlen_nonneg items); lia]).
  destruct (query_head items Hne H0) as (c & s & Es & _).
  unfold _webnet_request_parse_query. rewrite Es, <- Es, query_counter_text by (done || lia).
  unfold zlen. rewrite Nat2Z.id. by apply parse_items_text.
Qed.

(** ** A form that a browser sends *)

(** The values are percent encoded, the names are sent as they are. *)
Definition form_text (items : list (list Z * list Z)) : list Z :=
  query_text ((fun p => (p.1, urlencode p.2)) <$> items).

(** Names and values that the parser gives back: no [&], [=], [%] or [+]. *)
Definition form_ok (items : list (list Z * list Z)) : Prop :=
  Forall (fun p => (clean p.1 /\ literal p.1) /\ clean p.2 /\ literal p.2 /\ bytes p.2) items.

#[export] Instance form_ok_dec items : Decision (form_ok items).
Proof. unfold form_ok. apply Forall_dec. intros [n v]. apply _. Defined.

Lemma hexchars_clean d : 0 <= d < 16 ->
  let c := nth (Z.to_nat d) hexchars 0 in c <> 0 /\ c <> 38 /\ c <> 61.
Proof.
  intros Hd.
  pose proof (forall_range
    (fun d => let c := nth (Z.to_nat d) hexchars 0 in
       bool_decide (c <> 0 /\ c <> 38 /\ c <> 61)) 16 eq_refl d Hd) as H.
  by apply bool_decide_eq_true in H.
Qed.

Lemma urlencode_clean s : bytes s -> clean (urlencode s).
Proof.
  induction 1 as [|c s Hc Hs IH]; [constructor|]. cbn [urlencode].
  apply Forall_app. split; [|done]. destruct (encoded c) eqn:E.
  - unfold is_byte in Hc. repeat constructor; try done; apply hexchars_clean; zify_divmod.
  - constructor; [|constructor]. split_and!; by intros ->.
Qed.

Lemma iter_literal k s : literal s -> Nat.iter k urldecode s = s.
Proof. intros H. induction k as [|k IH]; [done|]. simpl. rewrite IH. by apply urldecode_literal. Qed.

Lemma iter_urlencode k s : literal s -> bytes s -> Nat.iter (S k) urldecode (urlencode s) = s.
Proof.
  intros H Hb. rewrite Nat.iter_succ_r, urldecode_urlencode_bytes by done. by apply iter_literal.
Qed.

Lemma form_stays_clean items : form_ok items ->
  stays_clean ((fun p => (p.1, urlencode p.2)) <$> items).
Proof.
  intros H k. unfold clean_items, map_items. rewrite <- fmap_drop, <- list_fmap_compose, Forall_fmap.
  apply Forall_drop. eapply Forall_impl; [exact H|].
  intros [n v] ((Cn & Ln) & Cv & Lv & Bv). cbn [compose fst snd] in *.
  rewrite iter_literal by done. split; [done|].
  destruct k as [|k]; [by apply urlencode_clean|by rewrite iter_urlencode].
Qed.

Lemma form_parsed items : form_ok items ->
  parsed_items ((fun p => (p.1, urlencode p.2)) <$> items) = (fun p => Some (p.1, Some p.2)) <$> items.
Proof.
  intros H. unfold parsed_items. rewrite imap_fmap, <- imap_const. apply imap_ext.
  intros k p Hp. unfold form_ok in H. rewrite Forall_lookup in H.
  destruct (H k p Hp) as ((Cn & Ln) & Cv & Lv & Bv). cbn [compose fst snd] in *.
  by rewrite iter_literal, iter_urlencode.
Qed.

Lemma get_query_items (items : list (list Z * list Z)) name :
  webnet_request_get_query ((fun p => Some (p.1, Some p.2)) <$> items) name =
  Some (snd <$> find (fun p => bool_decide (p.1 = name)) items).
Proof.
  induction items as [|[n v] items IH]; [done|]. cbn. case_match; [done|]. exact IH.
Qed.

Lemma form_items_parsed items : items <> [] -> zlen items < 2 ^ 16 -> form_ok items ->
  _webnet_request_parse_query (form_text items) = (fun p => Some (p.1, Some p.2)) <$> items.
Proof.
  intros Hne Hl H. unfold form_text.
  rewrite query_parse; [by apply form_parsed| | |by apply form_stays_clean].
  - by destruct items.
  - unfold zlen in *. by rewrite length_fmap.
Qed.

Lemma form_text_length items : zlen items <= zlen (form_text items).
Proof.
  unfold form_text. induction items as [|[n v] [|i items] IH]; [done| |].
  - cbn. unfold zlen. rewrite length_app. cbn [length]. lia.
  - cbn [fmap list_fmap query_text fst snd] in *. autorewrite with zlen in *.
    pose proof (zlen_nonneg n). pose proof (zlen_nonneg (urlencode v)). lia.
Qed.

(** A form sent by a browser is read back: for fewer than 65536 fields
    whose names and values hold no [&], [=], [%], [+] or terminator, the items
    parsed from the percent encoded text are the fields, and looking a name up
    gives the value of the first field of that name, or nothing if there is
    none. *)
Theorem form_roundtrip (items : list (list Z * list Z)) :
  items <> [] -> zlen items < 2 ^ 16 -> form_ok items ->
  _webnet_request_parse_query (form_text items) = (fun p => Some (p.1, Some p.2)) <$> items /\
  forall name, webnet_request_get_query (_webnet_request_parse_query (form_text items)) name =
    Some (snd <$> find (fun p => bool_decide (p.1 = name)) items).
Proof.
  intros Hne Hl H.
  pose proof (form_items_parsed items Hne Hl H) as E.
  rewrite E. split; [done|apply get_query_items].
Qed.

Definition smtp_form : list (list Z * list Z) :=
  [(str "server_addr", str "smtp.qq.com:25"); (str "username", str "me@qq.com");
   (str "password", str "a b/c#d!")].

Example form_roundtrip_witness :
  form_ok smtp_form /\
  webnet_request_get_query (_webnet_request_parse_query (form_text smtp_form)) (str "password") =
    Some (Some (str "a b/c#d!")).
Proof.
  assert (H : form_ok smtp_form) by by_decide.
  exact (conj H (proj2 (form_roundtrip smtp_form ltac:(done) ltac:(reflexivity) H) (str "password"))).
Defined.

(** ** What the parser does to other texts *)

(** The second value has been decoded twice: a password [100%41] arrives as
    [100A], and a plus becomes a blank. *)
Example second_value_decoded_twice :
  webnet_request_get_query
    (_webnet_request_parse_query (query_text [(str "a", str "1"); (str "p", urlencode (str "100%41+"))]))
    (str "p") = Some (Some (str "100A ")).
Proof. reflexivity. Qed.

(** The first value has been decoded once. *)
Example first_value_decoded_once :
  webnet_request_get_query
    (_webnet_request_parse_query (query_text [(str "p", urlencode (str "100%41+")); (str "a", str "1")]))
    (str "p") = Some (Some (str "100%41+")).
Proof. reflexivity. Qed.

(** An encoded [&] or [=] in a value splits it. *)
Example encoded_separators_split :
  _webnet_request_parse_query (query_text [(str "p", urlencode (str "x&y=z")); (str "a", str "1")]) =
    [Some (str "p", Some (str "x")); Some (str "y", Some (str "z"))].
Proof. reflexivity. Qed.

(** A decoded zero ends the query: the items that were counted after it are
    never filled, and looking up a name reads uninitialised memory. *)
Example decoded_zero_leaves_items :
  let items := _webnet_request_parse_query (str "p=%00&a=1") in
  items = [Some (str "p", Some []); None] /\ webnet_request_get_query items (str "a") = None.
Proof. by split. Qed.

(** A name of which the asked one is a prefix is taken for it. *)
Example has_query_takes_prefixes :
  let items := _webnet_request_parse_query (str "username=x") in
  webnet_request_has_query items (str "user") = Some true /\
  webnet_request_get_query items (str "user") = Some None.
Proof. by split. Qed.
