(* ===== verification/WebRequest.v ===== *)
(** * Requests of the web server

    Models src/packages/webnet-latest/src/wn_request.c
    ([webnet_request_parse_method], [webnet_request_parse_header],
    [webnet_request_parse_post]) and the reading side of wn_session.c
    ([_webnet_session_handle_read]): the buffer of 4096 bytes is kept byte by
    byte, with the bytes that earlier requests and moves left in it, because
    the parsers look for the end of a line past the bytes that were received.
    [webnet.h] turns on ranges, keep-alive and cookies; [rtconfig.h] turns on
    authorization, compression and the first cache level.

    Undefined behaviour (a null pointer read, a write outside the buffer, a
    string without terminator) is [Undef].  Allocations succeed. *)

From S2P Require Import Prelude CLib Json JsonParse WebQuery.

Local Open Scope Z_scope.

(** ** Strings *)
Definition str_begin_with (s t : list Z) : bool :=
  bool_decide (map tolower (take (length t) s) = map tolower t).

(** The position that [strstr] and [strchr] find. *)
Fixpoint strstr (s t : list Z) : option nat :=
  if bool_decide (take (length t) s = t) then Some O
  else match s with
       | [] => None
       | _ :: s => S <$> strstr s t
       end.

Fixpoint strchr (s : list Z) (x : Z) : option nat :=
  match s with
  | [] => None
  | c :: s => if c =? x then Some O else S <$> strchr s x
  end.

Fixpoint skip_blanks (s : list Z) : list Z :=
  match s with
  | c :: s' => if c =? 32 then skip_blanks s' else s
  | [] => []
  end.

Definition crlf : list Z := [13; 10].

(** ** The request *)
Inductive webnet_method :=
  | WEBNET_UNKNOWN | WEBNET_GET | WEBNET_POST | WEBNET_HEADER | WEBNET_HEAD
  | WEBNET_PUT | WEBNET_OPTIONS | WEBNET_PROPFIND | WEBNET_PROPPATCH
  | WEBNET_DELETE | WEBNET_CONNECT | WEBNET_MKCOL | WEBNET_MOVE
  | WEBNET_SUBSCRIBE | WEBNET_UNSUBSCRIBE | WEBNET_NOTIFY.

Inductive webnet_session_phase :=
  | WEB_PHASE_METHOD | WEB_PHASE_HEADER | WEB_PHASE_QUERY
  | WEB_PHASE_RESPONSE | WEB_PHASE_CLOSE.

#[export] Instance method_eq_dec : EqDecision webnet_method.
Proof. solve_decision. Defined.
#[export] Instance phase_eq_dec : EqDecision webnet_session_phase.
Proof. solve_decision. Defined.

(** The members of the structure that are strings. *)
Inductive member :=
  | m_path | m_host | m_authorization | m_modified | m_user_agent | m_accept_language
  | m_cookie | m_referer | m_Range | m_soap_action | m_callback | m_content_type.

#[export] Instance member_eq_dec : EqDecision member.
Proof. solve_decision. Defined.

Definition member_code (m : member) : nat :=
  match m with
  | m_path => 0 | m_host => 1 | m_authorization => 2 | m_modified => 3 | m_user_agent => 4
  | m_accept_language => 5 | m_cookie => 6 | m_referer => 7 | m_Range => 8
  | m_soap_action => 9 | m_callback => 10 | m_content_type => 11
  end%nat.

Definition member_of (n : nat) : option member :=
  [m_path; m_host; m_authorization; m_modified; m_user_agent; m_accept_language;
   m_cookie; m_referer; m_Range; m_soap_action; m_callback; m_content_type] !! n.

#[export] Program Instance member_countable : Countable member :=
  inj_countable member_code member_of _.
Next Obligation. by intros []. Qed.

(** A member that is absent from the map is a null pointer.  [query] holds the
    text before it is split in place, [query_items] what it was split into;
    [None] among these is memory that is not, or no longer, valid. *)
Record webnet_request := Request {
  method : webnet_method;
  result_code : Z;
  content_length : Z;
  members : gmap member (list Z);
  support_gzip : bool;
  keepalive : bool;
  query : option (list Z);
  query_offset : Z;
  query_items : list (option item) }.

(** [webnet_request_create] clears the structure; the session sets the result
    to 200. *)
Definition webnet_request_create : webnet_request :=
  Request WEBNET_UNKNOWN 200 0 ∅ false false None 0 [].

Definition set_method (m : webnet_method) (r : webnet_request) : webnet_request :=
  Request m (result_code r) (content_length r) (members r) (support_gzip r) (keepalive r)
    (query r) (query_offset r) (query_items r).

Definition set_result (n : Z) (r : webnet_request) : webnet_request :=
  Request (method r) n (content_length r) (members r) (support_gzip r) (keepalive r)
    (query r) (query_offset r) (query_items r).

Definition set_length (n : Z) (r : webnet_request) : webnet_request :=
  Request (method r) (result_code r) n (members r) (support_gzip r) (keepalive r)
    (query r) (query_offset r) (query_items r).

Definition set_member (m : member) (s : list Z) (r : webnet_request) : webnet_request :=
  Request (method r) (result_code r) (content_length r) (<[m := s]> (members r)) (support_gzip r)
    (keepalive r) (query r) (query_offset r) (query_items r).

Definition set_gzip (r : webnet_request) : webnet_request :=
  Request (method r) (result_code r) (content_length r) (members r) true (keepalive r)
    (query r) (query_offset r) (query_items r).

Definition set_keepalive (b : bool) (r : webnet_request) : webnet_request :=
  Request (method r) (result_code r) (content_length r) (members r) (support_gzip r) b
    (query r) (query_offset r) (query_items r).

Definition set_query (q : option (list Z)) (n : Z) (l : list (option item)) (r : webnet_request)
  : webnet_request :=
  Request (method r) (result_code r) (content_length r) (members r) (support_gzip r) (keepalive r)
    q n l.

(** The parsing of the request's own query; an empty one leaves the items. *)
Definition parse_query (r : webnet_request) : webnet_request :=
  match query r with
  | None => r
  | Some q =>
      match cut q with
      | [] => r
      | text => set_query (Some q) (query_offset r) (_webnet_request_parse_query text) r
      end
  end.

(** ** The request line *)
Definition methods : list (list Z * webnet_method) :=
  [(str "GET ", WEBNET_GET); (str "POST ", WEBNET_POST); (str "HEADER ", WEBNET_HEADER);
   (str "HEAD ", WEBNET_HEAD); (str "PUT ", WEBNET_PUT); (str "OPTIONS ", WEBNET_OPTIONS);
   (str "PROPFIND ", WEBNET_PROPFIND); (str "PROPPATCH ", WEBNET_PROPPATCH);
   (str "DELETE ", WEBNET_DELETE); (str "CONNECT ", WEBNET_CONNECT);
   (str "MKCOL ", WEBNET_MKCOL); (str "MOVE ", WEBNET_MOVE);
   (str "SUBSCRIBE ", WEBNET_SUBSCRIBE); (str "UNSUBSCRIBE ", WEBNET_UNSUBSCRIBE);
   (str "NOTIFY ", WEBNET_NOTIFY)].

Definition find_method (s : list Z) : option (list Z * webnet_method) :=
  find (fun m => str_begin_with s m.1) methods.

(** The path, and the query behind its first question mark. *)
Definition set_path (t : list Z) (r : webnet_request) : webnet_request :=
  match strchr t 63 with
  | None => set_member m_path t r
  | Some i =>
      parse_query (set_query (Some (skip_blanks (drop (S i) t))) (query_offset r) (query_items r)
        (set_member m_path (take i t) r))
  end.

(** Two terminators over the end of a line. *)
Definition end_line (b : list Z) (i : nat) : list Z := <[S i := 0]> (<[i := 0]> b).

(** The request, the buffer, the bytes used and the phase after the method
    phase. *)
Definition webnet_request_parse_method (r : webnet_request) (b : list Z)
  : res (webnet_request * list Z * nat * webnet_session_phase) :=
  s ← defined (buf_cstr b);
  match strstr s crlf with
  | None => Ok (r, b, 0%nat, WEB_PHASE_METHOD)
  | Some _ =>
      match find_method s with
      | None => Ok (set_result 501 r, b, 0%nat, WEB_PHASE_METHOD)
      | Some (name, m) =>
          let r := set_method m r in
          let k := length name in
          let t := drop k s in
          match strchr t 32 with
          | None => Ok (set_result 400 r, b, k, WEB_PHASE_METHOD)
          | Some i =>
              let b := <[(k + i)%nat := 0]> b in
              let r := set_path (take i t) r in
              let k := (k + i + 1)%nat in
              let t := drop (S i) t in
              if str_begin_with t (str "HTTP/1") then
                match strstr t crlf with
                | None => Undef
                | Some j => Ok (r, end_line b (k + j), (k + j + 2)%nat, WEB_PHASE_HEADER)
                end
              else Ok (set_result 501 r, b, k, WEB_PHASE_METHOD)
          end
      end
  end.

(** ** The header *)
Definition field (line : list Z) (n : nat) : list Z := skip_blanks (drop n line).

(** [atoi] of a number that is no [int] is undefined. *)
Definition header_length (v : list Z) (r : webnet_request) : res webnet_request :=
  let n := atoi v in
  if (- 2 ^ 31 <=? n) && (n <? 2 ^ 31) then Ok (set_length n r) else Undef.

Definition header_connection (v : list Z) (r : webnet_request) : webnet_request :=
  let r := set_keepalive true r in
  if str_begin_with v (str "close") then set_keepalive false r
  else if str_begin_with v (str "Keep-Alive") then set_keepalive true r
  else r.

Definition header_line (line : list Z) (r : webnet_request) : res webnet_request :=
  let begins name := str_begin_with line name in
  let keep m n := Ok (set_member m (field line n) r) in
  if begins (str "Host:") then keep m_host 5%nat
  else if begins (str "User-Agent:") then keep m_user_agent 11%nat
  else if begins (str "Accept-Language:") then keep m_accept_language 16%nat
  else if begins (str "Content-Length:") then header_length (field line 15) r
  else if begins (str "Content-Type:") then keep m_content_type 13%nat
  else if begins (str "Referer:") then keep m_referer 8%nat
  else if begins (str "Range:") then keep m_Range 6%nat
  else if begins (str "Connection:") then Ok (header_connection (field line 11) r)
  else if begins (str "Cookie:") then keep m_cookie 7%nat
  else if begins (str "Authorization: Basic") then keep m_authorization 20%nat
  else if begins (str "If-Modified-Since:") then keep m_modified 18%nat
  else if begins (str "Accept-Encoding:")
  then Ok (match strstr line (str "gzip") with Some _ => set_gzip r | None => r end)
  else if begins (str "SOAPACTION:") then keep m_soap_action 11%nat
  else if begins (str "CALLBACK:") then keep m_callback 9%nat
  else Ok r.

Definition POST_BUFSZ_MAX : Z := 8 * 1024.

(** The empty line: a POST with a body that is not multipart and is short
    enough gets memory for it.  The items of a query that is freed are no
    longer valid.  [malloc] of nothing is a null pointer, and clearing one of
    a negative length writes through it. *)
Definition end_of_header (r : webnet_request) : res (webnet_request * webnet_session_phase) :=
  if negb (content_length r =? 0) && bool_decide (method r = WEBNET_POST) then
    ty ← defined (members r !! m_content_type);
    if negb (str_begin_with ty (str "multipart/form-data")) && (content_length r <? POST_BUFSZ_MAX)
    then
      let items := match query r with
                   | Some _ => (fun _ => None) <$> query_items r
                   | None => query_items r
                   end in
      if content_length r <? -1 then Undef
      else Ok (set_query (if content_length r =? -1 then None
                          else Some (replicate (Z.to_nat (content_length r + 1)) 0)) 0 items r,
               WEB_PHASE_QUERY)
    else Ok (r, WEB_PHASE_RESPONSE)
  else Ok (set_result 200 r, WEB_PHASE_RESPONSE).

(** The loop over the lines, from position [pos] of the buffer. *)
Fixpoint header_lines (fuel : nat) (r : webnet_request) (b : list Z) (pos : nat)
  : res (webnet_request * list Z * nat * webnet_session_phase) :=
  match fuel with
  | O => NoFuel
  | S fuel =>
      s ← defined (buf_cstr (drop pos b));
      if str_begin_with s crlf then
        '(r, ph) ← end_of_header r; Ok (r, b, (pos + 2)%nat, ph)
      else
        match s with
        | [] => Ok (r, b, pos, WEB_PHASE_HEADER)
        | _ =>
            match strstr s crlf with
            | None => Ok (r, b, pos, WEB_PHASE_HEADER)
            | Some k =>
                r ← header_line (take k s) r;
                header_lines fuel r (end_line b (pos + k)) (pos + k + 2)%nat
            end
        end
  end.

Definition webnet_request_parse_header (r : webnet_request) (b : list Z)
  : res (webnet_request * list Z * nat * webnet_session_phase) :=
  header_lines (S (length b)) r b 0.

(** ** The body *)
Definition WEBNET_SESSION_BUFSZ : Z := 4 * 1024.

(** The terminator is set in the session's buffer: a body that is not shorter
    than the buffer puts it outside. *)
Definition webnet_request_parse_post (r : webnet_request) (b : list Z) (length : Z)
  : res (webnet_request * list Z * nat * webnet_session_phase) :=
  match query r with
  | None => Ok (r, b, Z.to_nat length, WEB_PHASE_QUERY)
  | Some q =>
      if length =? 0 then Ok (r, b, 0%nat, WEB_PHASE_QUERY)
      else
        let length := if content_length r <? query_offset r + length
                      then content_length r - query_offset r else length in
        q ← defined (buf_write q (query_offset r) (take (Z.to_nat length) b));
        let offset := query_offset r + length in
        let r := set_query (Some q) offset (query_items r) r in
        if offset =? content_length r then
          b ← defined (buf_set b (content_length r) 0);
          ty ← defined (members r !! m_content_type);
          let r := if str_begin_with ty (str "application/x-www-form-urlencoded")
                   then parse_query r else r in
          Ok (set_result 200 r, b, Z.to_nat length, WEB_PHASE_RESPONSE)
        else Ok (r, b, Z.to_nat length, WEB_PHASE_QUERY)
  end.

(** ** The session *)
Record webnet_session := Session {
  buffer : list Z;
  buffer_offset : Z;
  session_phase : webnet_session_phase;
  request : webnet_request }.

(** [used] bytes are taken out of the buffer: what follows is moved to its
    beginning, and the bytes behind that stay. *)
Definition consume (r : webnet_request) (b : list Z) (offset : Z) (used : nat) (ph : webnet_session_phase)
  : webnet_session :=
  if (used =? 0)%nat then Session b offset ph r
  else if Z.of_nat used <? offset then
    let n := Z.to_nat (offset - Z.of_nat used) in
    Session (take n (drop used b) ++ drop n b) (Z.of_nat n) ph r
  else Session b 0 ph r.

Definition method_phase (s : webnet_session) : res webnet_session :=
  if bool_decide (session_phase s = WEB_PHASE_METHOD) then
    '(r, b, used, ph) ← webnet_request_parse_method (request s) (buffer s);
    Ok (consume r b (buffer_offset s) used ph)
  else Ok s.

Definition header_phase (s : webnet_session) : res webnet_session :=
  if bool_decide (session_phase s = WEB_PHASE_HEADER) then
    '(r, b, used, ph) ← webnet_request_parse_header (request s) (buffer s);
    Ok (consume r b (buffer_offset s) used ph)
  else Ok s.

Definition query_phase (s : webnet_session) : res webnet_session :=
  if bool_decide (session_phase s = WEB_PHASE_QUERY) then
    '(r, b, used, ph) ← webnet_request_parse_post (request s) (buffer s) (buffer_offset s);
    Ok (consume r b (buffer_offset s) used ph)
  else Ok s.

(** [webnet_session_read]: nothing read, because of an error, the end of the
    stream or a full buffer, closes the session. *)
Definition webnet_session_read (s : webnet_session) (recv : list Z) : res webnet_session :=
  match recv with
  | [] => Ok (Session (buffer s) (buffer_offset s) WEB_PHASE_CLOSE (request s))
  | _ =>
      b ← defined (buf_write (buffer s) (buffer_offset s) recv);
      Ok (Session b (buffer_offset s + zlen recv) (session_phase s) (request s))
  end.

(** [recv] is what the socket gives: not more than there is room for, and
    nothing if the read fails. *)
Definition _webnet_session_handle_read (s : webnet_session) (recv : list Z) : res webnet_session :=
  s ← webnet_session_read s recv;
  if buffer_offset s =? 0 then Ok s
  else
    s ← method_phase s;
    s ← header_phase s;
    query_phase s.

(** A session that was accepted, with its request created. *)
Definition webnet_session_create : webnet_session :=
  Session (replicate (Z.to_nat WEBNET_SESSION_BUFSZ) 0) 0 WEB_PHASE_METHOD webnet_request_create.

(** The pieces that arrive one after the other. *)
Fixpoint receive (s : webnet_session) (pieces : list (list Z)) : res webnet_session :=
  match pieces with
  | [] => Ok s
  | p :: pieces => s ← _webnet_session_handle_read s p; receive s pieces
  end.

(** ** Finding the end of a line *)
Lemma buf_cstr_prefix (s t : list Z) : Forall (fun c => c <> 0) s ->
  buf_cstr (s ++ t) = app s <$> buf_cstr t.
Proof.
  induction 1 as [|c s Hc Hs IH]; simpl; [by destruct (buf_cstr t)|].
  rewrite (proj2 (Z.eqb_neq _ _) Hc), IH. by destruct (buf_cstr t).
Qed.

Lemma buf_cstr_ended (b : list Z) : 0 ∈ b -> exists t, buf_cstr b = Some t.
Proof.
  induction b as [|c b IH]; intros H; [by apply not_elem_of_nil in H|].
  simpl. destruct (Z.eqb_spec c 0) as [E|E]; [by eexists|].
  apply elem_of_cons in H as [H|H]; [done|]. destruct (IH H) as [t ->]. by eexists.
Qed.

(** A line, without its end: not empty, and no carriage return in it. *)
Definition plain (s : list Z) : Prop := Forall (fun c => c <> 0 /\ c <> 13) s.

#[export] Instance plain_dec s : Decision (plain s) := ltac:(unfold plain; apply _).

Lemma plain_nonzero s : plain s -> Forall (fun c => c <> 0) s.
Proof. intros H. eapply Forall_impl; [exact H|]. cbv beta. tauto. Qed.

Lemma strstr_unfold c s : strstr (c :: s) crlf =
  if (c =? 13) && bool_decide (take 1 s = [10]) then Some O else S <$> strstr s crlf.
Proof.
  unfold crlf. cbn [strstr length take].
  destruct (Z.eqb_spec c 13) as [->|E]; cbn [andb].
  - rewrite (bool_decide_ext (13 :: take 1 s = [13; 10]) (take 1 s = [10])); [done|].
    split; [by intros [= ->]|by intros ->].
  - by rewrite bool_decide_eq_false_2 by congruence.
Qed.

Lemma strstr_line s t : plain s -> strstr (s ++ crlf ++ t) crlf = Some (length s).
Proof.
  induction 1 as [|c s (H0 & Hc) Hs IH].
  - cbn [app]. change (crlf ++ t) with (13 :: 10 :: t). by rewrite strstr_unfold.
  - cbn [app length]. rewrite strstr_unfold, (proj2 (Z.eqb_neq _ _) Hc). cbn [andb]. by rewrite IH.
Qed.

Lemma strstr_plain s : plain s -> strstr s crlf = None.
Proof.
  induction 1 as [|c s (H0 & Hc) Hs IH]; [done|].
  by rewrite strstr_unfold, (proj2 (Z.eqb_neq _ _) Hc), IH.
Qed.

Lemma strchr_found x s t : Forall (fun c => c <> x) s -> strchr (s ++ x :: t) x = Some (length s).
Proof.
  induction 1 as [|c s Hc Hs IH]; cbn [app strchr length].
  - by rewrite Z.eqb_refl.
  - by rewrite (proj2 (Z.eqb_neq _ _) Hc), IH.
Qed.

Lemma strchr_none x s : Forall (fun c => c <> x) s -> strchr s x = None.
Proof.
  induction 1 as [|c s Hc Hs IH]; cbn [strchr]; [done|].
  by rewrite (proj2 (Z.eqb_neq _ _) Hc), IH.
Qed.

Lemma str_begin_with_app s t u : map tolower s = map tolower u -> str_begin_with (s ++ t) u = true.
Proof.
  intros E. apply bool_decide_eq_true. rewrite <- E. do 1 f_equal.
  pose proof (f_equal length E) as El. rewrite !length_map in El.
  by rewrite <- El, take_app_length.
Qed.

(** The first letters decide that a text does not begin with another. *)
Lemma str_begin_with_differ s t u :
  bool_decide (map tolower (take (length u) s) = map tolower (take (length s) u)) = false ->
  str_begin_with (s ++ t) u = false.
Proof.
  intros H. apply bool_decide_eq_false in H. apply bool_decide_eq_false. intros E. apply H.
  apply (f_equal (take (length s))) in E. rewrite !firstn_map, take_take in E.
  rewrite <- E. f_equal.
  destruct (le_lt_dec (length s) (length u)) as [Hl|Hl].
  - rewrite Nat.min_l, take_app_length by done. by apply take_ge.
  - rewrite Nat.min_r by lia. by rewrite take_app_le by lia.
Qed.

Lemma find_method_app name m rest : (name, m) ∈ methods -> find_method (name ++ rest) = Some (name, m).
Proof.
  intros H. unfold methods in H.
  repeat (apply elem_of_cons in H as [[= -> ->]|H];
    [unfold find_method, methods; cbn [find fst];
     repeat rewrite (str_begin_with_differ _ rest _) by reflexivity;
     by rewrite (str_begin_with_app _ rest) by reflexivity|]).
  by apply not_elem_of_nil in H.
Qed.

(** ** The request line *)
Lemma drop_next {A} (l k : list A) x : drop (S (length l)) (l ++ x :: k) = k.
Proof. induction l as [|y l IH]; [done|exact IH]. Qed.

Lemma end_line_length b i : length (end_line b i) = length b.
Proof. unfold end_line. by rewrite !length_insert. Qed.

Lemma drop_end_line b i n : (S i < n)%nat -> drop n (end_line b i) = drop n b.
Proof. intros H. unfold end_line. by rewrite !drop_insert_lt by lia. Qed.

(** A target has no blank and no carriage return. *)
Definition target_ok (t : list Z) : Prop := plain t /\ Forall (fun c => c <> 32) t.

Definition http_version : list Z := str "HTTP/1.1".

Definition request_line (name target : list Z) : list Z := name ++ target ++ 32 :: http_version.

Definition start_request (m : webnet_method) (target : list Z) (r : webnet_request) : webnet_request :=
  set_path target (set_method m r).

Lemma methods_plain name m : (name, m) ∈ methods -> plain name.
Proof.
  intros H. unfold methods in H.
  repeat (apply elem_of_cons in H as [[= -> ->]|H]; [by_decide|]). by apply not_elem_of_nil in H.
Qed.

Lemma plain_app s t : plain s -> plain t -> plain (s ++ t).
Proof. intros H1 H2. by apply Forall_app. Qed.

Lemma http_version_plain : plain (32 :: http_version).
Proof. by_decide. Qed.

Lemma http_begin rest : str_begin_with (http_version ++ rest) (str "HTTP/1") = true.
Proof. exact (str_begin_with_app (str "HTTP/1") (str ".1" ++ rest) _ eq_refl). Qed.

Lemma request_line_plain name m target : (name, m) ∈ methods -> target_ok target ->
  plain (request_line name target).
Proof.
  intros Hm [Ht _]. unfold request_line.
  repeat apply plain_app; [by eapply methods_plain|done|apply http_version_plain].
Qed.

(** A complete request line is parsed, and used up. *)
Lemma parse_method_line r name m target rest :
  (name, m) ∈ methods -> target_ok target -> 0 ∈ rest ->
  let line := request_line name target in
  exists b, length b = length (line ++ crlf ++ rest) /\
    drop (length (line ++ crlf)) b = rest /\
    webnet_request_parse_method r (line ++ crlf ++ rest) =
      Ok (start_request m target r, b, length (line ++ crlf), WEB_PHASE_HEADER).
Proof.
  intros Hm Ht Hz line. pose proof (request_line_plain _ _ _ Hm Ht) as Hp.
  destruct (buf_cstr_ended rest Hz) as [t Et]. destruct Ht as [_ Ht].
  set (k := (length name + length target + 1)%nat).
  assert (Hk : length line = (k + length http_version)%nat).
  { unfold line, request_line, k. rewrite !length_app. cbn [length]. lia. }
  exists (end_line (<[(length name + length target)%nat := 0]> (line ++ crlf ++ rest)) (length line)).
  split; [by rewrite end_line_length, length_insert|]. split.
  { rewrite drop_end_line by (rewrite length_app; cbn; lia).
    rewrite drop_insert_lt by (rewrite length_app; lia).
    by rewrite app_assoc, drop_app_length. }
  unfold webnet_request_parse_method.
  rewrite buf_cstr_prefix by (by apply plain_nonzero).
  rewrite buf_cstr_prefix by by_decide. rewrite Et. cbn [fmap option_fmap option_map defined].
  cbn [mbind res_bind]. rewrite strstr_line by done.
  unfold line, request_line. rewrite <- !app_assoc, (find_method_app name m) by done.
  rewrite drop_app_length. cbn [app]. rewrite strchr_found by done.
  rewrite take_app_length, drop_next, http_begin.
  rewrite strstr_line by by_decide.
  repeat f_equal; rewrite ?length_app; cbn [length]; rewrite ?length_app;
    cbn [length crlf]; lia.
Qed.

(** ** The header *)
Definition line_ok (l : list Z) : Prop := l <> [] /\ plain l.

#[export] Instance line_ok_dec l : Decision (line_ok l) := ltac:(unfold line_ok; apply _).

(** The lines one after the other. *)
Fixpoint read_header (lines : list (list Z)) (r : webnet_request) : res webnet_request :=
  match lines with
  | [] => Ok r
  | l :: lines => r ← header_line l r; read_header lines r
  end.

Definition header_text (lines : list (list Z)) : list Z :=
  concat (map (fun l => l ++ crlf) lines) ++ crlf.

Lemma begin_crlf_no c s : c <> 13 -> str_begin_with (c :: s) crlf = false.
Proof.
  intros Hc. apply bool_decide_eq_false. unfold crlf. cbn [length take map]. intros H.
  apply (f_equal head) in H. cbn [head] in H. injection H as H.
  change (tolower 13) with 13 in H. unfold tolower in H.
  destruct (Z.leb_spec 65 c), (Z.leb_spec c 90); cbn in H; lia.
Qed.

(** The lines of the header are used up, with the empty one, and read in their
    order. *)
Lemma header_lines_text lines : forall fuel r r' b pos rest,
  Forall line_ok lines -> 0 ∈ rest -> (length lines < fuel)%nat ->
  drop pos b = header_text lines ++ rest -> read_header lines r = Ok r' ->
  exists b', length b' = length b /\
    drop (pos + length (header_text lines)) b' = rest /\
    header_lines fuel r b pos =
      ('(r, ph) ← end_of_header r'; Ok (r, b', (pos + length (header_text lines))%nat, ph)).
Proof.
  induction lines as [|l lines IH]; intros fuel r r' b pos rest Hl Hz Hf Hb Hr;
    (destruct fuel as [|fuel]; [cbn in Hf; lia|]); cbn [header_lines]; rewrite Hb.
  - injection Hr as <-. exists b. split; [done|]. split.
    { by rewrite <- drop_drop, Hb. }
    destruct (buf_cstr_ended rest Hz) as [t Et].
    rewrite buf_cstr_prefix by by_decide. rewrite Et. cbn [fmap option_fmap option_map defined].
    cbn [mbind res_bind]. by rewrite (str_begin_with_app _ t crlf) by done.
  - apply Forall_cons in Hl as [[Hne Hp] Hl]. cbn in Hr.
    assert (Et : header_text (l :: lines) ++ rest = l ++ crlf ++ header_text lines ++ rest)
      by (unfold header_text; cbn [map concat]; by rewrite <- !app_assoc).
    assert (En : length (header_text (l :: lines)) = (length l + 2 + length (header_text lines))%nat)
      by (unfold header_text; cbn [map concat]; rewrite !length_app; cbn [length crlf]; lia).
    assert (Hz' : 0 ∈ header_text lines ++ rest) by (apply elem_of_app; by right).
    destruct (buf_cstr_ended _ Hz') as [t Et'].
    rewrite Et in Hb |- *.
    rewrite buf_cstr_prefix by (by apply plain_nonzero). rewrite buf_cstr_prefix by by_decide.
    rewrite Et'. cbn [fmap option_fmap option_map defined]. cbn [mbind res_bind].
    destruct (header_line l r) as [r1| | |] eqn:E1; try done. cbn in Hr.
    destruct l as [|c l]; [done|]. set (l' := c :: l) in *.
    assert (Hc : c <> 13) by (apply Forall_cons in Hp; tauto).
    change (l' ++ crlf ++ t) with (c :: l ++ crlf ++ t) at 1. rewrite begin_crlf_no by done.
    change (l' ++ crlf ++ t) with (c :: l ++ crlf ++ t) at 1. cbv iota.
    rewrite strstr_line by done. rewrite take_app_length, E1. cbn [mbind res_bind].
    destruct (IH fuel r1 r' (end_line b (pos + length l')) (pos + length l' + 2)%nat rest)
      as (b' & Hlen & Hdrop & ->); [done|done|cbn in Hf; lia| |done|].
    { rewrite drop_end_line by lia. replace (pos + length l' + 2)%nat with (pos + (length l' + 2))%nat by lia.
      rewrite <- drop_drop, Hb.
      replace (l' ++ crlf ++ header_text lines ++ rest) with ((l' ++ crlf) ++ header_text lines ++ rest)
        by (by rewrite <- app_assoc).
      apply drop_app_length'. rewrite length_app. done. }
    exists b'. rewrite end_line_length in Hlen. split; [done|]. rewrite En.
    replace (pos + (length l' + 2 + length (header_text lines)))%nat
      with (pos + length l' + 2 + length (header_text lines))%nat by lia. done.
Qed.

(** ** The session *)
Lemma in_drop (x : Z) n (l : list Z) : x ∈ drop n l -> x ∈ l.
Proof. intros H. rewrite <- (take_drop n l). apply elem_of_app. by right. Qed.

(** What is left of the data comes to the beginning of the buffer; behind it
    there is still a terminator. *)
Lemma consume_text r b used ph rest junk :
  (0 < used)%nat -> drop used b = rest ++ junk -> 0 ∈ junk ->
  exists junk', consume r b (Z.of_nat used + zlen rest) used ph = Session (rest ++ junk') (zlen rest) ph r /\
    length (rest ++ junk') = length b /\ 0 ∈ junk'.
Proof.
  intros Hu Hd Hz. unfold consume.
  rewrite (proj2 (Nat.eqb_neq _ _)) by lia.
  assert (Hlen : (length b = used + length rest + length junk)%nat).
  { pose proof (f_equal length Hd) as E. rewrite length_drop, length_app in E.
    assert (junk <> []) by (intros ->; by apply not_elem_of_nil in Hz).
    destruct junk; [done|]. cbn [length] in *. lia. }
  destruct (Z.ltb_spec (Z.of_nat used) (Z.of_nat used + zlen rest)) as [Hl|Hl].
  - exists (drop (length rest) b).
    replace (Z.to_nat (Z.of_nat used + zlen rest - Z.of_nat used)) with (length rest) by (unfold zlen; lia).
    rewrite Hd, take_app_length. split_and!.
    + f_equal.
    + rewrite length_app, length_drop. lia.
    + apply (in_drop _ used). rewrite drop_drop, Nat.add_comm, <- drop_drop, Hd.
      by rewrite drop_app_length.
  - assert (rest = []) as -> by (apply length_zero_iff_nil; unfold zlen in Hl; lia).
    exists b. split_and!; [done|done|]. apply (in_drop _ used). by rewrite Hd.
Qed.

(** The buffer after the pieces of a request line that is not complete. *)
Definition waiting (data : list Z) : webnet_session :=
  Session (data ++ replicate (Z.to_nat WEBNET_SESSION_BUFSZ - length data) 0) (zlen data)
    WEB_PHASE_METHOD webnet_request_create.

Lemma waiting_nil : waiting [] = webnet_session_create.
Proof. reflexivity. Qed.

Lemma waiting_write data p : zlen (data ++ p) <= WEBNET_SESSION_BUFSZ -> p <> [] ->
  webnet_session_read (waiting data) p = Ok (waiting (data ++ p)).
Proof.
  intros Hl Hp. unfold webnet_session_read. destruct p as [|c p]; [done|].
  assert (Hn : (length data + length (c :: p) <= Z.to_nat WEBNET_SESSION_BUFSZ)%nat).
  { autorewrite with zlen in Hl. unfold zlen in Hl. cbn [length]. lia. }
  cbn [waiting buffer buffer_offset]. rewrite buf_write_some;
    [|apply zlen_nonneg| unfold zlen in *; rewrite length_app in *; rewrite length_replicate; lia].
  cbn [defined mbind res_bind session_phase request]. unfold waiting.
  unfold zlen at 1 2. rewrite Nat2Z.id, take_app_length, zlen_app, drop_app_ge by lia.
  rewrite drop_replicate, length_app, <- app_assoc. do 5 f_equal. lia.
Qed.

(** Less than a line: the session waits. *)
Lemma waiting_piece data p : zlen (data ++ p) < WEBNET_SESSION_BUFSZ -> p <> [] -> plain (data ++ p) ->
  _webnet_session_handle_read (waiting data) p = Ok (waiting (data ++ p)).
Proof.
  intros Hl Hp Hd. unfold _webnet_session_handle_read. rewrite waiting_write by (done || lia).
  cbn [mbind res_bind]. case_match; [done|].
  unfold method_phase. cbn [waiting session_phase]. rewrite bool_decide_eq_true_2 by done.
  unfold webnet_request_parse_method. cbn [buffer request waiting].
  assert (Hn : (length (data ++ p) < Z.to_nat WEBNET_SESSION_BUFSZ)%nat) by (unfold zlen in Hl; lia).
  rewrite buf_cstr_prefix by (by apply plain_nonzero).
  destruct (Z.to_nat WEBNET_SESSION_BUFSZ - length (data ++ p))%nat as [|n] eqn:En; [lia|].
  cbn [replicate buf_cstr]. change (0 =? 0) with true. cbv iota.
  cbn [fmap option_fmap option_map defined mbind res_bind]. rewrite app_nil_r, strstr_plain by done.
  cbn [mbind res_bind]. unfold consume, header_phase, query_phase. cbn. unfold waiting. rewrite En. done.
Qed.

Lemma waiting_pieces pieces rest : forall data, Forall (fun p => p <> []) pieces ->
  plain (data ++ concat pieces) -> zlen (data ++ concat pieces) < WEBNET_SESSION_BUFSZ ->
  receive (waiting data) (pieces ++ rest) = receive (waiting (data ++ concat pieces)) rest.
Proof.
  induction pieces as [|p pieces IH]; intros data Hne Hp Hl.
  - cbn [concat app]. by rewrite app_nil_r.
  - apply Forall_cons in Hne as [Hp1 Hne]. cbn [concat app receive] in *.
    rewrite app_assoc in Hp, Hl. pose proof Hp as Hp'. apply Forall_app in Hp' as [Hp' _].
    rewrite waiting_piece by (done || (autorewrite with zlen in *; pose proof (zlen_nonneg (concat pieces)); lia)).
    cbn [mbind res_bind]. rewrite IH by done. by rewrite <- app_assoc.
Qed.

Definition head_text (name target : list Z) (lines : list (list Z)) : list Z :=
  request_line name target ++ crlf ++ header_text lines.

Lemma header_text_length lines : (length lines < length (header_text lines))%nat.
Proof.
  unfold header_text. rewrite length_app. cbn [length crlf].
  induction lines as [|l lines IH]; cbn [map concat length]; [lia|].
  rewrite !length_app. cbn [length crlf]. lia.
Qed.

(** The head of a request, and what came with its end: the request line and
    the header are read, and what follows them is left at the beginning of the
    buffer. *)
Lemma head_phases name m target lines body r r' ph :
  (name, m) ∈ methods -> target_ok target -> Forall line_ok lines ->
  zlen (head_text name target lines ++ body) < WEBNET_SESSION_BUFSZ ->
  read_header lines (start_request m target webnet_request_create) = Ok r ->
  end_of_header r = Ok (r', ph) -> ph <> WEB_PHASE_METHOD ->
  exists junk, zlen (body ++ junk) = WEBNET_SESSION_BUFSZ /\
    (s ← method_phase (waiting (head_text name target lines ++ body)); header_phase s) =
      Ok (Session (body ++ junk) (zlen body) ph r').
Proof.
  intros Hm Ht Hl Hlen Hr He Hph.
  set (head := head_text name target lines) in *.
  destruct (Z.to_nat WEBNET_SESSION_BUFSZ - length (head ++ body))%nat as [|n] eqn:En;
    [unfold zlen in Hlen; lia|].
  set (zeros := replicate (S n) 0).
  assert (Hz : 0 ∈ zeros) by (apply elem_of_cons; by left).
  assert (Hlz : length (head ++ body ++ zeros) = Z.to_nat WEBNET_SESSION_BUFSZ).
  { unfold zeros. rewrite app_assoc, length_app, length_replicate. lia. }
  destruct (parse_method_line webnet_request_create name m target (header_text lines ++ body ++ zeros)
    Hm Ht ltac:(rewrite !elem_of_app; tauto)) as (b1 & Hb1 & Hd1 & E1).
  set (line := request_line name target) in *.
  assert (Eb : buffer (waiting (head ++ body)) = line ++ crlf ++ header_text lines ++ body ++ zeros).
  { unfold waiting. cbn [buffer]. rewrite En. unfold head, head_text. by rewrite <- !app_assoc. }
  unfold method_phase at 1. cbn [waiting session_phase]. rewrite bool_decide_eq_true_2 by done.
  rewrite Eb. cbn [waiting request buffer_offset]. rewrite E1. cbn [mbind res_bind].
  assert (Hb : length b1 = Z.to_nat WEBNET_SESSION_BUFSZ).
  { rewrite Hb1, <- Hlz. unfold head, head_text. fold line. by rewrite <- !app_assoc. }
  destruct (consume_text (start_request m target webnet_request_create) b1 (length (line ++ crlf))
    WEB_PHASE_HEADER (header_text lines ++ body) zeros) as (j1 & E2 & Hj1 & Hz1);
    [rewrite length_app; cbn; lia|by rewrite <- app_assoc|done|].
  replace (zlen (head ++ body)) with (Z.of_nat (length (line ++ crlf)) + zlen (header_text lines ++ body))
    by (unfold head, head_text; fold line; autorewrite with zlen; unfold zlen; rewrite ?length_app; lia).
  rewrite E2. unfold header_phase. cbn [session_phase]. rewrite bool_decide_eq_true_2 by done.
  cbn [request buffer buffer_offset].
  destruct (header_lines_text lines (S (length ((header_text lines ++ body) ++ j1)))
    (start_request m target webnet_request_create) r ((header_text lines ++ body) ++ j1) 0 (body ++ j1))
    as (b2 & Hb2 & Hd2 & E3); [done|rewrite elem_of_app; tauto| |by rewrite drop_0, <- app_assoc|done|].
  { rewrite !length_app. pose proof (header_text_length lines). lia. }
  unfold webnet_request_parse_header. rewrite E3, He. cbn [mbind res_bind].
  destruct (consume_text r' b2 (0 + length (header_text lines)) ph body j1) as (j2 & E4 & Hj2 & Hz2);
    [pose proof (header_text_length lines); lia|done|done|].
  exists j2. split; [unfold zlen; rewrite Hj2, Hb2, Hj1, Hb; lia|].
  rewrite <- E4. do 2 f_equal. autorewrite with zlen. unfold zlen. lia.
Qed.

(** Pieces of the request line are plain text. *)
Lemma head_plain pieces last name m target lines :
  (name, m) ∈ methods -> target_ok target -> concat pieces ++ last = head_text name target lines ->
  zlen (concat pieces) <= zlen (request_line name target) -> plain (concat pieces).
Proof.
  intros Hm Ht Hc Hcl. pose proof (request_line_plain _ _ _ Hm Ht) as Hp.
  assert (Epre : concat pieces = take (length (concat pieces)) (request_line name target)).
  { rewrite <- (take_app_length (concat pieces) last) at 1. rewrite Hc. unfold head_text.
    apply take_app_le. unfold zlen in Hcl. lia. }
  rewrite Epre. by apply Forall_take.
Qed.

Lemma head_read pieces last body name m target lines ps r r' ph :
  (name, m) ∈ methods -> target_ok target -> Forall line_ok lines ->
  Forall (fun p => p <> []) pieces -> concat pieces ++ last = head_text name target lines ->
  zlen (concat pieces) <= zlen (request_line name target) ->
  zlen (head_text name target lines ++ body) < WEBNET_SESSION_BUFSZ ->
  read_header lines (start_request m target webnet_request_create) = Ok r ->
  end_of_header r = Ok (r', ph) -> ph <> WEB_PHASE_METHOD ->
  exists junk, zlen (body ++ junk) = WEBNET_SESSION_BUFSZ /\
    receive webnet_session_create (pieces ++ (last ++ body) :: ps) =
      (s ← query_phase (Session (body ++ junk) (zlen body) ph r'); receive s ps).
Proof.
  intros Hm Ht Hl Hne Hc Hcl Hlen Hr He Hph.
  destruct (head_phases name m target lines body r r' ph) as (junk & Hj & E); [done..|].
  exists junk. split; [done|].
  assert (Hp : plain (concat pieces)) by by eapply head_plain.
  assert (Hlast : last <> []).
  { intros ->. rewrite app_nil_r in Hc. rewrite Hc in Hcl. unfold head_text in Hcl.
    autorewrite with zlen in Hcl. pose proof (zlen_nonneg (header_text lines)).
    change (zlen crlf) with 2 in Hcl. lia. }
  rewrite <- waiting_nil, waiting_pieces; [|done|done|]; cycle 1.
  { cbn [app]. rewrite <- Hc in Hlen. autorewrite with zlen in Hlen.
    pose proof (zlen_nonneg last). pose proof (zlen_nonneg body). lia. }
  cbn [app receive]. unfold _webnet_session_handle_read.
  rewrite waiting_write by (rewrite ?app_assoc, ?Hc; by (lia || destruct last)).
  cbn [mbind res_bind]. rewrite app_assoc, Hc.
  replace (buffer_offset _ =? 0) with false; cycle 1.
  { symmetry. apply Z.eqb_neq. cbn [waiting buffer_offset]. rewrite <- Hc.
    autorewrite with zlen. pose proof (zlen_nonneg (concat pieces)). pose proof (zlen_nonneg body).
    destruct last as [|x l]; [done|]. autorewrite with zlen. pose proof (zlen_nonneg l). lia. }
  cbv iota. destruct (method_phase _) as [s| | |]; try done. cbn [mbind res_bind] in *. by rewrite E.
Qed.

(** ** The body *)

(** The request when [got] of its body has arrived. *)
Definition body_so_far (got : list Z) (r : webnet_request) : webnet_request :=
  set_query (Some (got ++ replicate (Z.to_nat (content_length r + 1) - length got) 0)) (zlen got)
    (query_items r) r.

(** The request with its whole body, for its type. *)
Definition with_body (body ty : list Z) (r : webnet_request) : webnet_request :=
  let r := set_query (Some (body ++ [0])) (zlen body) (query_items r) r in
  set_result 200 (if str_begin_with ty (str "application/x-www-form-urlencoded")
                  then parse_query r else r).

Lemma write_progress (got p : list Z) n : zlen got + zlen p <= n ->
  buf_write (got ++ replicate (Z.to_nat (n + 1) - length got) 0) (zlen got) p =
  Some ((got ++ p) ++ replicate (Z.to_nat (n + 1) - length (got ++ p)) 0).
Proof.
  intros H. rewrite buf_write_some;
    [|apply zlen_nonneg|autorewrite with zlen; unfold zlen in *; lia].
  unfold zlen at 1 2. rewrite Nat2Z.id, take_app_length, <- app_assoc, drop_app_ge by lia.
  rewrite drop_replicate, length_app. do 4 f_equal. lia.
Qed.

Lemma query_step r got p junk ty :
  members r !! m_content_type = Some ty ->
  p <> [] -> zlen got + zlen p <= content_length r < WEBNET_SESSION_BUFSZ ->
  zlen (p ++ junk) = WEBNET_SESSION_BUFSZ ->
  exists b, zlen b = WEBNET_SESSION_BUFSZ /\
    query_phase (Session (p ++ junk) (zlen p) WEB_PHASE_QUERY (body_so_far got r)) =
    Ok (if zlen (got ++ p) =? content_length r
        then Session b 0 WEB_PHASE_RESPONSE (with_body (got ++ p) ty r)
        else Session b 0 WEB_PHASE_QUERY (body_so_far (got ++ p) r)).
Proof.
  intros Hty Hp Hl Hb.
  assert (Hp1 : 1 <= zlen p).
  { destruct p as [|c p]; [done|]. rewrite zlen_cons. pose proof (zlen_nonneg p). lia. }
  pose proof (zlen_nonneg got).
  unfold query_phase. cbn [session_phase]. rewrite bool_decide_eq_true_2 by done.
  unfold webnet_request_parse_post. cbn [request body_so_far set_query query buffer buffer_offset
    content_length query_offset query_items members].
  rewrite (proj2 (Z.eqb_neq _ _)) by lia.
  destruct (Z.ltb_spec (content_length r) (zlen got + zlen p)) as [?|_]; [lia|].
  replace (take (Z.to_nat (zlen p)) (p ++ junk)) with p
    by (unfold zlen; by rewrite Nat2Z.id, take_app_length).
  rewrite write_progress by lia. cbn [defined mbind res_bind].
  rewrite <- zlen_app. rewrite <- zlen_app in Hl.
  destruct (Z.eqb_spec (zlen (got ++ p)) (content_length r)) as [E|E].
  - cbn [content_length set_query members].
    rewrite buf_set_some by (autorewrite with zlen in *; lia). cbn [defined mbind res_bind].
    rewrite Hty. cbn [defined mbind res_bind].
    exists (<[Z.to_nat (content_length r) := 0]> (p ++ junk)).
    split; [by rewrite <- Hb; unfold zlen; rewrite length_insert|]. unfold with_body, consume.
    rewrite (proj2 (Nat.eqb_neq _ _)) by lia. rewrite Z2Nat.id, Z.ltb_irrefl by lia.
    replace (Z.to_nat (content_length r + 1) - length (got ++ p))%nat with 1%nat
      by (unfold zlen in *; lia).
    done.
  - cbn [mbind res_bind]. exists (p ++ junk). split; [exact Hb|]. unfold consume.
    rewrite (proj2 (Nat.eqb_neq _ _)) by lia.
    rewrite Z2Nat.id, Z.ltb_irrefl by lia. done.
Qed.

Lemma read_body_piece b p r : p <> [] -> zlen p <= zlen b ->
  _webnet_session_handle_read (Session b 0 WEB_PHASE_QUERY r) p =
  query_phase (Session (p ++ drop (length p) b) (zlen p) WEB_PHASE_QUERY r).
Proof.
  intros Hp Hl. unfold _webnet_session_handle_read, webnet_session_read.
  destruct p as [|c p]; [done|]. cbn [buffer buffer_offset].
  rewrite buf_write_some by lia. cbn [defined mbind res_bind buffer_offset session_phase request].
  change (Z.to_nat 0) with O. cbn [take app Nat.add]. rewrite Z.add_0_l.
  replace (zlen (c :: p) =? 0) with false
    by (symmetry; apply Z.eqb_neq; rewrite zlen_cons; pose proof (zlen_nonneg p); lia).
  done.
Qed.

Lemma body_read ps : forall r got b ty,
  members r !! m_content_type = Some ty -> Forall (fun p => p <> []) ps -> ps <> [] ->
  zlen b = WEBNET_SESSION_BUFSZ -> zlen (got ++ concat ps) = content_length r ->
  content_length r < WEBNET_SESSION_BUFSZ ->
  exists b', receive (Session b 0 WEB_PHASE_QUERY (body_so_far got r)) ps =
    Ok (Session b' 0 WEB_PHASE_RESPONSE (with_body (got ++ concat ps) ty r)).
Proof.
  induction ps as [|p ps IH]; intros r got b ty Hty Hne Hps Hb Hl Hc; [done|].
  apply Forall_cons in Hne as [Hp Hne]. cbn [receive concat] in *.
  rewrite !zlen_app in Hl. pose proof (zlen_nonneg (concat ps)). pose proof (zlen_nonneg got).
  rewrite read_body_piece by (done || lia).
  destruct (query_step r got p (drop (length p) b) ty) as (b1 & Hb1 & E); [done|done|lia| |].
  { rewrite zlen_app, zlen_drop. unfold zlen in *. lia. }
  rewrite E. cbn [mbind res_bind].
  destruct ps as [|q ps].
  - cbn [concat] in *. change (zlen (@nil Z)) with 0 in Hl. rewrite zlen_app.
    rewrite (proj2 (Z.eqb_eq _ _)) by lia. cbn [receive]. rewrite app_nil_r. by eexists.
  - assert (1 <= zlen (concat (q :: ps))).
    { apply Forall_cons in Hne as [Hq _]. destruct q as [|c q]; [done|].
      cbn [concat app]. rewrite zlen_cons. pose proof (zlen_nonneg (q ++ concat ps)). lia. }
    rewrite (proj2 (Z.eqb_neq _ _)) by (rewrite zlen_app; lia).
    rewrite app_assoc. apply IH; try done. rewrite !zlen_app. lia.
Qed.

(** The request whose header is read, with the items of a query in its path no
    longer valid. *)
Definition without_query (r : webnet_request) : webnet_request :=
  set_query None 0
    (match query r with Some _ => (fun _ => None) <$> query_items r | None => query_items r end) r.

Lemma post_end_of_header r ty :
  method r = WEBNET_POST -> members r !! m_content_type = Some ty ->
  str_begin_with ty (str "multipart/form-data") = false ->
  0 < content_length r < POST_BUFSZ_MAX ->
  end_of_header r = Ok (body_so_far [] (without_query r), WEB_PHASE_QUERY).
Proof.
  intros Hm Hty Hb Hl. unfold end_of_header.
  rewrite (proj2 (Z.eqb_neq _ _)) by lia. rewrite bool_decide_eq_true_2 by done.
  cbn [negb andb]. rewrite Hty. cbn [defined mbind res_bind]. rewrite Hb.
  rewrite (proj2 (Z.ltb_lt _ _)) by lia. cbn [negb andb].
  rewrite (proj2 (Z.ltb_ge _ _)) by lia. rewrite (proj2 (Z.eqb_neq _ (-1))) by lia.
  unfold body_so_far, without_query. cbn [content_length set_query query_items length app].
  by rewrite Nat.sub_0_r.
Qed.

(** Everything that is asked of a request with a body that is sent in pieces:
    the pieces before the last one of the head end within the request line. *)
Record posted (pieces : list (list Z)) (last body : list Z) (ps : list (list Z)) (name : list Z)
    (m : webnet_method) (target : list Z) (lines : list (list Z)) (r : webnet_request) : Prop := {
  posted_method : (name, m) ∈ methods;
  posted_target : target_ok target;
  posted_lines : Forall line_ok lines;
  posted_pieces : Forall (fun p => p <> []) (pieces ++ ps);
  posted_head : concat pieces ++ last = head_text name target lines;
  posted_cut : zlen (concat pieces) <= zlen (request_line name target);
  posted_room : zlen (head_text name target lines ++ body) < WEBNET_SESSION_BUFSZ;
  posted_request : read_header lines (start_request m target webnet_request_create) = Ok r }.

Lemma post_received pieces last body ps name m target lines r ty :
  posted pieces last body ps name m target lines r ->
  method r = WEBNET_POST -> members r !! m_content_type = Some ty ->
  str_begin_with ty (str "multipart/form-data") = false ->
  zlen (body ++ concat ps) = content_length r -> 0 < content_length r < WEBNET_SESSION_BUFSZ ->
  exists b, receive webnet_session_create (pieces ++ (last ++ body) :: ps) =
    Ok (Session b 0 WEB_PHASE_RESPONSE (with_body (body ++ concat ps) ty (without_query r))).
Proof.
  intros [Hm Ht Hl Hne Hh Hcut Hroom Hr] Hpost Hty Hmp Hlen Hcl.
  apply Forall_app in Hne as [Hne Hps].
  assert (Hcl' : 0 < content_length r < POST_BUFSZ_MAX)
    by (unfold POST_BUFSZ_MAX, WEBNET_SESSION_BUFSZ in *; lia).
  destruct (head_read pieces last body name m target lines ps r _ WEB_PHASE_QUERY Hm Ht Hl Hne Hh Hcut
    Hroom Hr (post_end_of_header r ty Hpost Hty Hmp Hcl') ltac:(done)) as (junk & Hj & ->).
  set (r' := without_query r). assert (Hty' : members r' !! m_content_type = Some ty) by done.
  destruct (decide (body = [])) as [->|Hb].
  - change (query_phase _) with (Ok (Session ([] ++ junk) 0 WEB_PHASE_QUERY (body_so_far [] r'))).
    cbn [mbind res_bind]. apply body_read; try done; [|cbn; lia].
    intros ->. cbn in Hlen. change (zlen (@nil Z)) with 0 in Hlen. lia.
  - pose proof Hlen as Hlen'. rewrite zlen_app in Hlen'. pose proof (zlen_nonneg (concat ps)).
    destruct (query_step r' [] body junk ty Hty' Hb ltac:(change (content_length r') with (content_length r);
      change (zlen (@nil Z)) with 0; lia) Hj) as (b1 & Hb1 & ->).
    cbn [mbind res_bind app]. change (content_length r') with (content_length r).
    destruct (Z.eqb_spec (zlen body) (content_length r)) as [E|E].
    + assert (ps = []) as ->.
      { destruct ps as [|p ps]; [done|]. apply Forall_cons in Hps as [Hp _].
        destruct p as [|c p]; [done|]. cbn [concat app] in *. rewrite zlen_cons in *.
        pose proof (zlen_nonneg (p ++ concat ps)). lia. }
      cbn [receive concat]. rewrite app_nil_r. by eexists.
    + apply body_read; try done. { intros ->. cbn in Hlen'. change (zlen (@nil Z)) with 0 in Hlen'. lia. }
      change (content_length r') with (content_length r). lia.
Qed.

(** ** What is read *)

(** A multipart request: the pieces of its request line are waited for, and
    with the end of its header what has come of the body is in the buffer. *)
Lemma multipart_head pieces last y name m target lines r ty :
  posted pieces last y [] name m target lines r ->
  method r = WEBNET_POST -> members r !! m_content_type = Some ty ->
  str_begin_with ty (str "multipart/form-data") = true -> content_length r <> 0 ->
  exists junk, zlen (y ++ junk) = WEBNET_SESSION_BUFSZ /\
    receive webnet_session_create pieces = Ok (waiting (concat pieces)) /\
    _webnet_session_handle_read (waiting (concat pieces)) (last ++ y) =
      Ok (Session (y ++ junk) (zlen y) WEB_PHASE_RESPONSE r).
Proof.
  intros [Hm Ht Hl Hne Hh Hcut Hroom Hr] Hpost Hty Hmp Hcl. rewrite app_nil_r in Hne.
  assert (He : end_of_header r = Ok (r, WEB_PHASE_RESPONSE)).
  { unfold end_of_header. rewrite (proj2 (Z.eqb_neq (content_length r) 0)), Hpost, bool_decide_eq_true_2, Hty by done.
    cbn [negb andb defined mbind res_bind]. by rewrite Hmp. }
  destruct (head_read pieces last y name m target lines [] r _ _ Hm Ht Hl Hne Hh Hcut Hroom Hr He ltac:(done))
    as (junk & Hj & E).
  assert (Ew : forall rest, receive webnet_session_create (pieces ++ rest) = receive (waiting (concat pieces)) rest).
  { intros rest. rewrite <- waiting_nil, waiting_pieces; [done|done|by eapply head_plain|].
    rewrite <- Hh in Hroom. autorewrite with zlen in Hroom. cbn [app].
    pose proof (zlen_nonneg last). pose proof (zlen_nonneg y). lia. }
  exists junk. split; [done|]. split; [rewrite <- (app_nil_r pieces) at 1; by rewrite Ew|].
  rewrite Ew in E. cbn [receive] in E. by destruct (_webnet_session_handle_read _ _).
Qed.

Lemma request_received pieces last name m target lines r :
  posted pieces last [] [] name m target lines r ->
  content_length r = 0 \/ method r <> WEBNET_POST ->
  exists b, receive webnet_session_create (pieces ++ [last]) =
    Ok (Session b 0 WEB_PHASE_RESPONSE (set_result 200 r)).
Proof.
  intros [Hm Ht Hl Hne Hh Hcut Hroom Hr] Hnb. rewrite app_nil_r in Hne.
  assert (He : end_of_header r = Ok (set_result 200 r, WEB_PHASE_RESPONSE)).
  { unfold end_of_header. destruct Hnb as [->|Hnb]; [done|].
    rewrite (bool_decide_eq_false_2 _ Hnb), andb_false_r. done. }
  destruct (head_read pieces last [] name m target lines [] r _ _ Hm Ht Hl Hne Hh Hcut Hroom Hr He
    ltac:(done)) as (junk & Hj & E).
  rewrite app_nil_r in E. rewrite E. by eexists.
Qed.

(** A request without a body is read however its request line is cut into
    pieces: with the request line and the header as sent, not longer than the
    buffer, the session comes to the response phase with the result 200, and
    its request is the path and the query of the request line and then the
    lines of the header in their order. *)
Theorem request_read pieces last name m target lines r :
  posted pieces last [] [] name m target lines r ->
  content_length r = 0 \/ method r <> WEBNET_POST ->
  exists b, receive webnet_session_create (pieces ++ [last]) =
    Ok (Session b 0 WEB_PHASE_RESPONSE (set_result 200 r)).
Proof. apply request_received. Qed.

Definition sample_lines : list (list Z) :=
  [str "Host: 192.168.1.1"; str "User-Agent: curl"; str "Accept-Encoding: gzip, deflate"].

Definition sample_request : webnet_request :=
  Request WEBNET_GET 200 0
    (<[m_user_agent := str "curl"]> (<[m_host := str "192.168.1.1"]>
      (<[m_path := str "/cgi-bin/state"]> ∅)))
    true false (Some (str "id=1")) 0 [Some (str "id", Some (str "1"))].

Example request_read_witness :
  exists b, receive webnet_session_create
    [str "GE"; str "T /cgi-bin/state?id=1 HT";
     str "TP/1.1" ++ crlf ++ header_text sample_lines] =
    Ok (Session b 0 WEB_PHASE_RESPONSE sample_request).
Proof.
  apply (request_read [str "GE"; str "T /cgi-bin/state?id=1 HT"]
    (str "TP/1.1" ++ crlf ++ header_text sample_lines) (str "GET ") WEBNET_GET
    (str "/cgi-bin/state?id=1") sample_lines sample_request); [|by left].
  split; [by_decide|by_decide|by_decide|by_decide|reflexivity|by_decide|by_decide|].
  apply (f_equal Ok). vm_compute. reflexivity.
Defined.

(** A POST with a body is answered: whatever pieces the body comes in, the
    first of them with the end of the head, a body that is shorter than the
    buffer and is not multipart brings the session to the response phase with
    exactly its last byte, and the request holds the whole body. *)
Theorem post_read pieces last body ps name m target lines r ty :
  posted pieces last body ps name m target lines r ->
  method r = WEBNET_POST -> members r !! m_content_type = Some ty ->
  str_begin_with ty (str "multipart/form-data") = false ->
  zlen (body ++ concat ps) = content_length r -> 0 < content_length r < WEBNET_SESSION_BUFSZ ->
  exists b, receive webnet_session_create (pieces ++ (last ++ body) :: ps) =
    Ok (Session b 0 WEB_PHASE_RESPONSE (with_body (body ++ concat ps) ty (without_query r))).
Proof. apply post_received. Qed.

Definition text_lines : list (list Z) :=
  [str "Content-Type: text/plain"; str "Content-Length: 5"].

Definition text_request : webnet_request :=
  Request WEBNET_POST 200 5
    (<[m_content_type := str "text/plain"]> (<[m_path := str "/cgi-bin/run"]> ∅))
    false false None 0 [].

Example post_read_witness :
  exists b, receive webnet_session_create
    [str "POST /cgi-bin/run HTTP/1.1" ++ crlf ++ header_text text_lines ++ str "he"; str "l"; str "lo"] =
    Ok (Session b 0 WEB_PHASE_RESPONSE
      (with_body (str "hello") (str "text/plain") (without_query text_request))).
Proof.
  apply (post_read [] (str "POST /cgi-bin/run HTTP/1.1" ++ crlf ++ header_text text_lines) (str "he")
    [str "l"; str "lo"] (str "POST ") WEBNET_POST (str "/cgi-bin/run") text_lines text_request
    (str "text/plain")); try reflexivity; [|by_decide].
  split; [by_decide|by_decide|by_decide|by_decide|reflexivity|by_decide|by_decide|reflexivity].
Defined.

Lemma cut_zero s t : cut s = s -> cut (s ++ 0 :: t) = s.
Proof.
  induction s as [|c s IH]; [done|]. cbn [cut app]. case_match; [done|].
  intros [= E]. by rewrite IH.
Qed.

Lemma members_parse_query r : members (parse_query r) = members r.
Proof. unfold parse_query. destruct (query r) as [q|]; [|done]. by destruct (cut q). Qed.

Lemma form_received pieces last body ps name m target lines r ty items :
  posted pieces last body ps name m target lines r ->
  method r = WEBNET_POST -> members r !! m_content_type = Some ty ->
  str_begin_with ty (str "multipart/form-data") = false ->
  str_begin_with ty (str "application/x-www-form-urlencoded") = true ->
  body ++ concat ps = form_text items -> items <> [] -> form_ok items ->
  zlen (form_text items) = content_length r -> content_length r < WEBNET_SESSION_BUFSZ ->
  exists b r', receive webnet_session_create (pieces ++ (last ++ body) :: ps) =
    Ok (Session b 0 WEB_PHASE_RESPONSE r') /\ result_code r' = 200 /\ members r' = members r /\
    forall n, webnet_request_get_query (query_items r') n =
      Some (snd <$> find (fun p => bool_decide (p.1 = n)) items).
Proof.
  intros Hp Hm Hty Hmp Hurl Hb Hne Hok Hlen Hl.
  pose proof (stays_clean_now _ (form_stays_clean items Hok)) as Hc.
  destruct (query_head ((fun p => (p.1, urlencode p.2)) <$> items) ltac:(by destruct items) Hc) as (c & t & Et & _).
  fold (form_text items) in Et.
  assert (Hpos : 0 < content_length r)
    by (rewrite <- Hlen, Et, zlen_cons; pose proof (zlen_nonneg t); lia).
  destruct (post_received _ _ _ _ _ _ _ _ _ _ Hp Hm Hty Hmp ltac:(by rewrite Hb) ltac:(lia)) as [b E].
  rewrite Hb in E. eexists b, _. split; [exact E|].
  unfold with_body. rewrite Hurl. split; [done|]. split; [cbn [set_result members]; by rewrite members_parse_query|]. intros n.
  cbn [set_result query_items]. unfold parse_query. cbn [set_query query].
  rewrite cut_zero by (by apply cut_query). rewrite Et, <- Et. cbn [set_query query_items].
  rewrite form_items_parsed; [apply get_query_items|done| |done].
  enough (zlen items <= zlen (form_text items)) by (unfold WEBNET_SESSION_BUFSZ in Hl; lia).
  apply form_text_length.
Qed.

(** The lines of a header leave the request line alone. *)
Lemma header_line_keeps l r r' : header_line l r = Ok r' ->
  method r' = method r /\ members r' !! m_path = members r !! m_path /\ query_items r' = query_items r.
Proof.
  unfold header_line, header_length, header_connection. intros H.
  repeat case_match; try discriminate; injection H as <-; (split_and!; [done| |done]); cbn;
    try done; by rewrite lookup_insert_ne.
Qed.

Lemma read_header_keeps lines : forall r r', read_header lines r = Ok r' ->
  method r' = method r /\ members r' !! m_path = members r !! m_path /\ query_items r' = query_items r.
Proof.
  induction lines as [|l lines IH]; intros r r' H; [by injection H as <-|].
  cbn [read_header] in H. destruct (header_line l r) as [r1| | |] eqn:E; try done. cbn [mbind res_bind] in H.
  destruct (IH _ _ H) as (-> & -> & ->). by apply header_line_keeps in E.
Qed.

Lemma strchr_skip (a b : list Z) x : Forall (fun c => c <> x) a -> strchr (a ++ x :: b) x = Some (length a).
Proof.
  induction 1 as [|c a Hc H IH]; cbn [app strchr length]; [by rewrite Z.eqb_refl|].
  by rewrite (proj2 (Z.eqb_neq c x)), IH.
Qed.

(** A form in the target of the request line is there under its names. *)
Lemma form_in_target m path items lines r :
  target_ok (path ++ 63 :: form_text items) -> Forall (fun c => c <> 63) path ->
  items <> [] -> form_ok items -> zlen items < 2 ^ 16 ->
  read_header lines (start_request m (path ++ 63 :: form_text items) webnet_request_create) = Ok r ->
  method r = m /\ members r !! m_path = Some path /\
  forall n, webnet_request_get_query (query_items r) n = Some (snd <$> find (fun p => bool_decide (p.1 = n)) items).
Proof.
  intros [_ Ht] Hp Hne Hok Hl H. apply read_header_keeps in H as (-> & -> & ->).
  pose proof (stays_clean_now _ (form_stays_clean items Hok)) as Hc.
  destruct (query_head ((fun p => (p.1, urlencode p.2)) <$> items) ltac:(by destruct items) Hc) as (c & t & Et & _).
  fold (form_text items) in Et.
  assert (Hb : skip_blanks (drop (S (length path)) (path ++ 63 :: form_text items)) = form_text items).
  { rewrite <- Nat.add_1_r, <- drop_drop, drop_app_length. cbn [drop]. apply Forall_app in Ht as [_ Ht].
    apply Forall_cons in Ht as [_ Ht]. rewrite Et in Ht |- *. apply Forall_cons in Ht as [Hc0 _].
    rewrite drop_0. cbn [skip_blanks]. by rewrite (proj2 (Z.eqb_neq c 32)). }
  unfold start_request, set_path. rewrite strchr_skip, Hb, take_app_length by done.
  split.
  { unfold parse_query. cbn [set_query query]. by destruct (cut _). }
  rewrite members_parse_query. split; [cbn; by rewrite lookup_insert_eq|].
  intros n. unfold parse_query. cbn [set_query query].
  assert (Hcut : cut (form_text items) = form_text items) by exact (cut_query _ Hc).
  rewrite Hcut, Et, <- Et. cbn [set_query query_items].
  rewrite form_items_parsed by done. apply get_query_items.
Qed.


Definition login_items : list (list Z * list Z) :=
  [(str "username", str "me@qq.com"); (str "password", str "a b/c")].

Definition login_lines : list (list Z) :=
  [str "Content-Type: application/x-www-form-urlencoded"; str "Content-Length: 39"].

Definition login_request : webnet_request :=
  Request WEBNET_POST 200 39
    (<[m_content_type := str "application/x-www-form-urlencoded"]>
      (<[m_path := str "/cgi-bin/smtp"]> ∅))
    false false None 0 [].


(** ** The parsers end *)
Lemma strstr_bound s k : strstr s crlf = Some k -> (k + 2 <= length s)%nat.
Proof.
  revert k. induction s as [|c s IH]; intros k; [done|]. rewrite strstr_unfold. case_match eqn:E.
  - intros [= <-]. apply andb_true_iff in E as [_ E]. apply bool_decide_eq_true in E.
    destruct s; cbn in *; [done|lia].
  - destruct (strstr s crlf) as [j|]; [|done]. intros [= <-]. specialize (IH j eq_refl). cbn. lia.
Qed.

Lemma buf_cstr_bound b s : buf_cstr b = Some s -> (length s < length b)%nat.
Proof.
  revert s. induction b as [|c b IH]; intros s; [done|]. cbn [buf_cstr].
  case_match; [intros [= <-]; cbn; lia|].
  destruct (buf_cstr b) as [t|]; [|done]. intros [= <-]. specialize (IH t eq_refl). cbn. lia.
Qed.

Definition ends {A} (x : res A) : Prop := x <> NoFuel.

Lemma ends_bind {A B} (x : res A) (f : A -> res B) :
  ends x -> (forall a, x = Ok a -> ends (f a)) -> ends (x ≫= f).
Proof. intros H1 H2. destruct x; [by apply H2|done..]. Qed.

Lemma ends_defined {A} (o : option A) : ends (defined o).
Proof. by destruct o. Qed.

Create HintDb ends.
#[export] Hint Resolve ends_defined : ends.

(** Every branch is a value, undefined, or one of the steps that are known to
    end. *)
Ltac ends_tac :=
  repeat first
    [ done
    | apply ends_bind; [auto with ends|intros]
    | match goal with
      | |- context [match ?x with _ => _ end] => destruct x eqn:?
      end ].

Lemma header_line_ends l r : ends (header_line l r).
Proof. unfold header_line, header_length. cbv zeta. ends_tac. Qed.

Lemma end_of_header_ends r : ends (end_of_header r).
Proof. unfold end_of_header. cbv zeta. ends_tac. Qed.

#[export] Hint Resolve header_line_ends end_of_header_ends : ends.

Lemma header_lines_ends fuel : forall r b pos,
  (pos <= length b)%nat -> (length b < pos + fuel)%nat -> ends (header_lines fuel r b pos).
Proof.
  induction fuel as [|fuel IH]; intros r b pos Hp Hf; [lia|]. cbn [header_lines].
  apply ends_bind; [auto with ends|]. intros s Es.
  case_match; [ends_tac|]. destruct s as [|c s]; [done|].
  destruct (strstr (c :: s) crlf) as [k|] eqn:Ek; [|done].
  apply ends_bind; [auto with ends|]. intros r1 _.
  destruct (buf_cstr (drop pos b)) as [s'|] eqn:E; [|done]. injection Es as ->.
  apply buf_cstr_bound in E. apply strstr_bound in Ek. rewrite length_drop in E.
  apply IH; rewrite end_line_length; lia.
Qed.

Lemma parse_method_ends r b : ends (webnet_request_parse_method r b).
Proof. unfold webnet_request_parse_method. cbv zeta. ends_tac. Qed.

Lemma parse_header_ends r b : ends (webnet_request_parse_header r b).
Proof. apply header_lines_ends; lia. Qed.

Lemma parse_post_ends r b n : ends (webnet_request_parse_post r b n).
Proof. unfold webnet_request_parse_post. cbv zeta. ends_tac. Qed.

#[export] Hint Resolve parse_method_ends parse_header_ends parse_post_ends : ends.

(** Reading ends: whatever is in the buffer and whatever arrives, the
    loops over the lines of the header use up the buffer, so that handling a
    readable session comes to an end. *)
Theorem handle_read_ends s recv : _webnet_session_handle_read s recv <> NoFuel.
Proof.
  change (ends (_webnet_session_handle_read s recv)).
  unfold _webnet_session_handle_read, webnet_session_read, method_phase, header_phase, query_phase.
  repeat (apply ends_bind; [ends_tac|intros ? _]). ends_tac.
Qed.

(** ** The state that is kept *)

(** The memory of a body that is being received: one byte longer than the body,
    with room for what is missing. *)
Definition body_ok (r : webnet_request) : Prop :=
  (exists ty, members r !! m_content_type = Some ty) /\
  match query r with
  | Some q => zlen q = content_length r + 1 /\ 0 <= query_offset r < content_length r
  | None => True
  end.

Record session_ok (s : webnet_session) : Prop := {
  ok_buffer : zlen (buffer s) = WEBNET_SESSION_BUFSZ;
  ok_offset : 0 <= buffer_offset s <= WEBNET_SESSION_BUFSZ;
  ok_body : session_phase s = WEB_PHASE_QUERY -> body_ok (request s) }.

Lemma consume_ok r b offset used ph :
  zlen b = WEBNET_SESSION_BUFSZ -> 0 <= offset <= WEBNET_SESSION_BUFSZ ->
  (ph = WEB_PHASE_QUERY -> body_ok r) -> session_ok (consume r b offset used ph).
Proof.
  intros Hb Ho Hq. unfold consume.
  destruct (Nat.eqb_spec used 0) as [E1|E1]; [by split|].
  destruct (Z.ltb_spec (Z.of_nat used) offset) as [E2|E2];
    split; cbn [buffer buffer_offset session_phase request]; try done; try lia.
  unfold zlen in *. rewrite length_app, length_take, !length_drop. lia.
Qed.

Lemma Ok_bind {A B} (x : res A) (f : A -> res B) y :
  x ≫= f = Ok y -> exists a, x = Ok a /\ f a = Ok y.
Proof. destruct x; [by eexists|done..]. Qed.

Lemma defined_Ok {A} (o : option A) x : defined o = Ok x -> o = Some x.
Proof. destruct o; [by intros [= ->]|done]. Qed.

Ltac res_inv :=
  repeat match goal with
    | H : (_ ≫= _) = Ok _ |- _ => apply Ok_bind in H as (? & ? & H)
    | H : (let '(_, _) := ?x in _) = Ok _ |- _ => destruct x; cbv beta iota in H
    | H : defined _ = Ok _ |- _ => apply defined_Ok in H
    | H : Ok _ = Ok _ |- _ => injection H; clear H; intros; subst
    | H : Undef = Ok _ |- _ => discriminate H
    | H : NoFuel = Ok _ |- _ => discriminate H
    end.

Lemma method_phase_ok s s' : session_ok s -> method_phase s = Ok s' -> session_ok s'.
Proof.
  intros [Hb Ho Hq]. unfold method_phase. case_bool_decide as E; [|by intros [= <-]].
  intros H. res_inv.
  assert (zlen l = zlen (buffer s) /\ w <> WEB_PHASE_QUERY) as [Hl Hw].
  { unfold webnet_request_parse_method in H0. res_inv.
    repeat (case_match; res_inv; try done); unfold zlen; by rewrite ?end_line_length, ?length_insert. }
  apply consume_ok; [congruence|done|done].
Qed.

Lemma end_of_header_body r r' ph : end_of_header r = Ok (r', ph) ->
  ph = WEB_PHASE_QUERY -> body_ok r'.
Proof.
  unfold end_of_header. intros H ->.
  case_match eqn:E; [|congruence].
  res_inv. case_match eqn:E1; [|congruence].
  case_match eqn:E2; [done|]. injection H as <-.
  split; [by eexists|]. cbn [query set_query content_length query_offset].
  destruct (content_length r =? -1) eqn:E3; [done|].
  apply andb_true_iff in E as [E _]. apply negb_true_iff, Z.eqb_neq in E.
  apply Z.ltb_ge in E2. apply Z.eqb_neq in E3.
  unfold zlen. rewrite length_replicate. lia.
Qed.

Lemma header_lines_ok fuel : forall r b pos r' b' used ph,
  header_lines fuel r b pos = Ok (r', b', used, ph) ->
  length b' = length b /\ (ph = WEB_PHASE_QUERY -> body_ok r').
Proof.
  induction fuel as [|fuel IH]; intros r b pos r' b' used ph H; [done|]. cbn [header_lines] in H.
  apply Ok_bind in H as (s & _ & H). destruct (str_begin_with s crlf).
  { apply Ok_bind in H as ([r1 ph1] & E & H). injection H as <- <- <- <-.
    split; [done|]. by eapply end_of_header_body. }
  destruct s as [|c s]; [by injection H as <- <- <- <-|].
  destruct (strstr (c :: s) crlf); [|by injection H as <- <- <- <-].
  apply Ok_bind in H as (r1 & _ & H). apply IH in H. by rewrite end_line_length in H.
Qed.

Lemma header_phase_ok s s' : session_ok s -> header_phase s = Ok s' -> session_ok s'.
Proof.
  intros [Hb Ho Hq]. unfold header_phase. case_bool_decide as E; [|by intros [= <-]].
  intros H. res_inv. apply header_lines_ok in H0 as [Hl Hw].
  apply consume_ok; [unfold zlen in *; congruence|done|done].
Qed.

Lemma query_phase_ok s s' : session_ok s -> query_phase s = Ok s' -> session_ok s'.
Proof.
  intros [Hb Ho Hq]. unfold query_phase. case_bool_decide as E; [|by intros [= <-]].
  specialize (Hq E). destruct Hq as [[ty Hty] Hq].
  intros H. apply Ok_bind in H as ([[[r b] used] ph] & Hp & H). injection H as <-.
  unfold webnet_request_parse_post in Hp.
  destruct (query (request s)) as [q|] eqn:Eq; cycle 1.
  { injection Hp as <- <- <- <-. apply consume_ok; [done|done|]. intros _. split; [by eexists|by rewrite Eq]. }
  destruct Hq as [Hlq Hoq].
  destruct (Z.eqb_spec (buffer_offset s) 0) as [E0|E0].
  { injection Hp as <- <- <- <-. apply consume_ok; [done|done|].
    intros _. split; [by eexists|by rewrite Eq]. }
  set (n := if content_length (request s) <? query_offset (request s) + buffer_offset s
            then content_length (request s) - query_offset (request s) else buffer_offset s) in *.
  apply Ok_bind in Hp as (q' & Hw & Hp). apply defined_Ok, buf_write_len in Hw.
  change (content_length (set_query _ _ _ _)) with (content_length (request s)) in Hp.
  destruct (Z.eqb_spec (query_offset (request s) + n) (content_length (request s))) as [E1|E1].
  - apply Ok_bind in Hp as (b' & Hs & Hp). apply defined_Ok in Hs.
    apply Ok_bind in Hp as (ty' & _ & Hp). injection Hp as <- <- <- <-.
    apply consume_ok; [|done|done]. unfold buf_set in Hs. case_match; [|done]. injection Hs as <-.
    unfold zlen in *. by rewrite length_insert.
  - injection Hp as <- <- <- <-. apply consume_ok; [done|done|]. intros _.
    split; [by eexists|]. cbn [query set_query content_length query_offset] in *.
    unfold zlen in *. rewrite Hw. split; [done|]. subst n.
    destruct (Z.ltb_spec (content_length (request s)) (query_offset (request s) + buffer_offset s)); lia.
Qed.

Lemma handle_read_ok s p s' : session_ok s -> _webnet_session_handle_read s p = Ok s' -> session_ok s'.
Proof.
  intros H0 H1. unfold _webnet_session_handle_read in H1. apply Ok_bind in H1 as (s2 & H2 & H1).
  assert (Hs2 : session_ok s2).
  { unfold webnet_session_read in H2. destruct H0 as [Hb Ho Hq].
    destruct p as [|c p]; [injection H2 as <-; by split|].
    apply Ok_bind in H2 as (b & Hw & H2). apply defined_Ok in Hw. injection H2 as <-.
    pose proof (buf_write_len _ _ _ _ Hw) as Hlen. unfold buf_write in Hw.
    destruct (_ && _) eqn:E in Hw; [|done]. apply andb_true_iff in E as [E1 E2]. apply Z.leb_le in E1, E2.
    pose proof (zlen_nonneg (c :: p)).
    split; cbn [buffer buffer_offset session_phase request]; [|lia|done].
    unfold zlen in *. congruence. }
  case_match; [by injection H1 as <-|].
  apply Ok_bind in H1 as (s3 & H3 & H1). apply Ok_bind in H1 as (s4 & H4 & H1).
  eapply query_phase_ok; [|exact H1]. eapply header_phase_ok; [|exact H4].
  by eapply method_phase_ok.
Qed.

Lemma receive_ok pieces : forall s s', session_ok s -> receive s pieces = Ok s' -> session_ok s'.
Proof.
  induction pieces as [|p pieces IH]; intros s s' H0 H; [by injection H as <-|].
  cbn [receive] in H. apply Ok_bind in H as (s1 & H1 & H). refine (IH s1 _ _ H). by eapply handle_read_ok.
Qed.

Lemma created_ok : session_ok webnet_session_create.
Proof. split; [reflexivity|by_decide|done]. Qed.

(** What a session keeps: from the moment it is accepted, whatever
    arrives, the position in the buffer stays within the buffer, so that the
    room offered to the socket is never negative, and while a body is being
    received the request has a content type and memory of the announced length
    and one byte, with the next byte inside it. *)
Theorem session_kept pieces s :
  receive webnet_session_create pieces = Ok s -> session_ok s.
Proof. apply receive_ok, created_ok. Qed.

Example session_kept_witness :
  receive webnet_session_create [str "GE"; str "T /"] = Ok (waiting (str "GET /")) /\
  session_ok (waiting (str "GET /")).
Proof.
  assert (H : receive webnet_session_create [str "GE"; str "T /"] = Ok (waiting (str "GET /")))
    by (vm_compute; reflexivity).
  exact (conj H (session_kept [str "GE"; str "T /"] (waiting (str "GET /")) H)).
Defined.

(** ** What goes wrong *)

(** The phase and the members a session has come to. *)
Definition outcome (s : res webnet_session) (m : member) : option (webnet_session_phase * Z * option (list Z)) :=
  match s with
  | Ok s => Some (session_phase s, result_code (request s), members (request s) !! m)
  | _ => None
  end.

(** What earlier data left behind the received bytes is taken for the rest of
    the request.  Here the first piece ends with a line that is two characters
    shorter than the request line: the end of the line before it is found
    again, behind the last line, and taken for the end of the header.  The
    request is answered without the lines that come next. *)
Example header_ended_by_old_bytes :
  outcome (receive webnet_session_create
    [str "GET /abcdefgh HTTP/1.1" ++ crlf ++ str "A: " ++ crlf ++ str "Cookie: 890123456789" ++ crlf;
     str "User-Agent: me" ++ crlf ++ crlf]) m_user_agent =
    Some (WEB_PHASE_RESPONSE, 200, None) /\
  outcome (receive webnet_session_create
    [str "GET /abcdefgh HTTP/1.1" ++ crlf ++ str "A: " ++ crlf ++ str "Cookie: 890123456789" ++ crlf ++
     str "User-Agent: me" ++ crlf ++ crlf]) m_user_agent =
    Some (WEB_PHASE_RESPONSE, 200, Some (str "me")).
Proof. by split; vm_compute. Qed.

(** A line that is cut between two pieces is joined with old bytes, here with
    the end of the line before, and what was missing is taken for a line. *)
Example cut_line_joined_with_old_bytes :
  outcome (receive webnet_session_create
    [str "GET /a HTTP/1.1" ++ crlf ++ str "Host: 123456789" ++ crlf ++ str "Cookie: abc";
     str "defgh" ++ crlf ++ crlf]) m_cookie =
    Some (WEB_PHASE_RESPONSE, 200, Some (str "abc6789")) /\
  outcome (receive webnet_session_create
    [str "GET /a HTTP/1.1" ++ crlf ++ str "Host: 123456789" ++ crlf ++ str "Cookie: abcdefgh" ++
     crlf ++ crlf]) m_cookie =
    Some (WEB_PHASE_RESPONSE, 200, Some (str "abcdefgh")).
Proof. by split; vm_compute. Qed.

(** A method that is not known sets the result, but the session stays in the
    method phase: nothing is answered until the other side closes. *)
Example unknown_method_not_answered :
  outcome (receive webnet_session_create [str "TRACE / HTTP/1.1" ++ crlf ++ crlf]) m_path =
    Some (WEB_PHASE_METHOD, 501, None).
Proof. by vm_compute. Qed.

(** A blank that only comes after the end of the line: no end of line is left
    to terminate, and a null pointer is written. *)
Example line_end_in_path :
  receive webnet_session_create [str "GET /" ++ crlf ++ str " HTTP/1.1"] = Undef.
Proof. by vm_compute. Qed.

(** A POST without a content type reads a null pointer. *)
Example post_without_type :
  receive webnet_session_create
    [str "POST /a HTTP/1.1" ++ crlf ++ str "Content-Length: 2" ++ crlf ++ crlf] = Undef.
Proof. by vm_compute. Qed.

(** A negative length clears memory through a null pointer. *)
Example negative_length :
  receive webnet_session_create
    [str "POST /a HTTP/1.1" ++ crlf ++ str "Content-Type: a" ++ crlf ++ str "Content-Length: -2" ++
     crlf ++ crlf] = Undef.
Proof. by vm_compute. Qed.

(** A body of the size of the buffer, below the limit of 8192: the terminator
    is written behind the session's buffer. *)
Example body_of_buffer_size :
  receive webnet_session_create
    [str "POST /a HTTP/1.1" ++ crlf ++ str "Content-Type: a" ++ crlf ++ str "Content-Length: 4096" ++
     crlf ++ crlf; replicate 4096 65] = Undef.
Proof. by vm_compute. Qed.

(** The query of the path is freed when a body is to come, but its items are
    kept: unless the body is a form, they point into freed memory. *)
Example items_of_freed_query :
  (s ← receive webnet_session_create
    [str "POST /a?k=1 HTTP/1.1" ++ crlf ++ str "Content-Type: text/plain" ++ crlf ++
     str "Content-Length: 2" ++ crlf ++ crlf ++ str "hi"];
   Ok (webnet_request_get_query (query_items (request s)) (str "k"))) = Ok None.
Proof. by vm_compute. Qed.
