(* ===== verification/WebMultipart.v ===== *)
(** * Multipart upload

    Models src/packages/webnet-latest/module/wn_module_upload.c: the body of a
    multipart POST is taken apart in the buffer of the session while it
    arrives, and the handlers of an upload entry (of which [WebUpload] models
    two) are called with the pieces of the file.  The calls are recorded in
    their order.

    Memory is the list of the bytes from a position to the end of the session's
    buffer; of these, as many as the given length have been received, and a
    terminator follows them. *)

From S2P Require Import Prelude CLib Json JsonParse WebQuery WebRequest.

Local Open Scope Z_scope.

(** ** The upload session *)

(** [boundary] starts with the two dashes; [name_entries] in order of
    appearance, with a null pointer for a value that has not come. *)
Record upload_session := Upload {
  boundary : list Z;
  filename : option (list Z);
  content_type : option (list Z);
  name_entries : list (list Z * option (list Z));
  file_opened : bool }.

(** The calls of the upload entry; the functions of the entry ask the session
    for the name of the file. *)
Inductive upload_call :=
  | upload_open (name : list Z)
  | upload_write (name data : list Z)
  | upload_close
  | upload_done.

Definition COMMON_BOUNDARY (u : upload_session) : list Z := crlf ++ boundary u.
Definition FIRST_BOUNDARY (u : upload_session) : list Z := boundary u ++ crlf.
Definition NORMAL_BOUNDARY (u : upload_session) : list Z := crlf ++ boundary u ++ crlf.
Definition LAST_BOUNDARY (u : upload_session) : list Z := crlf ++ boundary u ++ str "--" ++ crlf.

(** [memstr] and [memstrs]: the first occurrence within the given length. *)
Definition memstr (mem : list Z) (length : nat) (needle : list Z) : option nat :=
  strstr (take length mem) needle.

(** [memrchr] looks at the positions from [n], one past the end, down to 1. *)
Fixpoint memrchr (mem : list Z) (c : Z) (n : nat) : option nat :=
  match n with
  | O => None
  | S m => if bool_decide (mem !! n = Some c) then Some n else memrchr mem c m
  end.

(** ** The header of a section *)
Fixpoint count_while (f : Z -> bool) (mem : list Z) : nat :=
  match mem with
  | c :: mem => if f c then S (count_while f mem) else O
  | [] => O
  end.

Definition is_blank (c : Z) : bool := c =? 32.
Definition is_blank_or_semicolon (c : Z) : bool := (c =? 32) || (c =? 59).

(** What the lines have given so far: the positions of the strings. *)
Record header_fields := Fields {
  f_name : option nat;
  f_filename : option nat;
  f_type : option nat }.

(** A quoted string from [pos]: the closing quote is looked for without a
    limit ([buffer - ptr] is not positive), and replaced by a terminator.  The
    memory and the position behind it. *)
Definition quoted (mem : list Z) (pos : nat) : res (list Z * nat) :=
  k ← defined (strchr (drop pos mem) 34);
  Ok (<[(pos + k)%nat := 0]> mem, (pos + k + 1)%nat).

Definition begins (mem : list Z) (pos : nat) (s : list Z) : bool := str_begin_with (drop pos mem) s.

Definition FIELDNAME_STRING : list Z := str "name=" ++ [34].
Definition FILENAME_STRING : list Z := str "filename=" ++ [34].

(** [name="..."] *)
Definition disposition_name (mem : list Z) (pos : nat) (h : header_fields)
  : res (list Z * nat * header_fields) :=
  if begins mem pos FIELDNAME_STRING then
    let pos := (pos + 6)%nat in
    let h := Fields (Some pos) (f_filename h) (f_type h) in
    '(mem, pos) ← quoted mem pos;
    Ok (mem, (pos + count_while is_blank_or_semicolon (drop pos mem))%nat, h)
  else Ok (mem, pos, h).

(** [filename="..."] *)
Definition disposition_filename (mem : list Z) (pos : nat) (h : header_fields)
  : res (list Z * nat * header_fields) :=
  if begins mem pos FILENAME_STRING then
    let pos := (pos + 10)%nat in
    let h := Fields (f_name h) (Some pos) (f_type h) in
    '(mem, pos) ← quoted mem pos;
    Ok (mem, pos, h)
  else Ok (mem, pos, h).

(** Behind [Content-Disposition:]. *)
Definition disposition (mem : list Z) (pos : nat) (h : header_fields)
  : res (list Z * nat * header_fields) :=
  let pos := (pos + count_while is_blank (drop pos mem))%nat in
  if begins mem pos (str "form-data") then
    let pos := (pos + 9)%nat in
    let pos := (pos + count_while is_blank_or_semicolon (drop pos mem))%nat in
    '(mem, pos, h) ← disposition_name mem pos h;
    disposition_filename mem pos h
  else Ok (mem, pos, h).

(** [strdup] of the string at a position. *)
Definition copy_at (mem : list Z) (pos : option nat) : res (option (list Z)) :=
  match pos with
  | None => Ok None
  | Some pos => s ← defined (buf_cstr (drop pos mem)); Ok (Some s)
  end.

(** The empty line: the strings are copied into the upload session. *)
Definition end_of_section_header (u : upload_session) (mem : list Z) (h : header_fields) : res upload_session :=
  filename ← copy_at mem (f_filename h);
  content_type ← copy_at mem (f_type h);
  name ← copy_at mem (f_name h);
  Ok (Upload (boundary u) filename content_type
        (name_entries u ++ match name with Some n => [(n, None)] | None => [] end) (file_opened u)).

(** The lines from [pos] on, to the end of the received bytes; a line without
    end is a write through a null pointer. *)
Fixpoint section_lines (fuel : nat) (u : upload_session) (mem : list Z) (length pos : nat) (h : header_fields)
  : res (upload_session * list Z * nat) :=
  match fuel with
  | O => NoFuel
  | S fuel =>
      if (pos <? length)%nat then
        let next mem pos h :=
          if (length <? pos)%nat then Undef
          else
            k ← defined (memstr (drop pos mem) (length - pos) crlf);
            section_lines fuel u (end_line mem (pos + k)) length (pos + k + 2) h in
        if begins mem pos (str "Content-Disposition:") then
          '(mem, pos, h) ← disposition mem (pos + 20)%nat h; next mem pos h
        else if begins mem pos (str "Content-Type:") then
          let pos := (pos + 13)%nat in
          let pos := (pos + count_while is_blank (drop pos mem))%nat in
          next mem pos (Fields (f_name h) (f_filename h) (Some pos))
        else if begins mem pos (str "Content-Range:") then
          let pos := (pos + 14)%nat in
          next mem (pos + count_while is_blank (drop pos mem))%nat h
        else if str_begin_with (drop pos mem) crlf then
          u ← end_of_section_header u mem h; Ok (u, mem, (pos + 2)%nat)
        else next mem pos h
      else Ok (u, mem, pos)
  end.

(** The strings of the section before are dropped if it was a file. *)
Definition end_of_file_section (u : upload_session) : upload_session :=
  match filename u, content_type u with
  | Some _, Some _ => Upload (boundary u) None None (name_entries u) (file_opened u)
  | _, _ => u
  end.

(** A null pointer if the memory does not begin with a boundary; the upload
    session, the memory and the bytes used otherwise. *)
Definition _webnet_module_upload_parse_header (u : upload_session) (mem : list Z) (length : nat)
  : res (option (upload_session * list Z * nat)) :=
  if str_begin_with mem (LAST_BOUNDARY u)
  then Ok (Some (u, mem, List.length (LAST_BOUNDARY u)))
  else
    let start := if str_begin_with mem (NORMAL_BOUNDARY u) then List.length (NORMAL_BOUNDARY u)
                 else if str_begin_with mem (FIRST_BOUNDARY u) then List.length (FIRST_BOUNDARY u)
                 else O in
    if (start =? 0)%nat then Ok None
    else r ← section_lines (S length) (end_of_file_section u) mem length start (Fields None None None);
         Ok (Some r).

(** ** The data of a section *)

(** [memcmp(mem, boundary, n) == 0]; reading behind the terminator of the
    boundary is undefined. *)
Definition boundary_starts (u : upload_session) (mem : list Z) (n : nat) : res bool :=
  if (n <=? S (length (boundary u)))%nat
  then Ok (bool_decide (take n mem = take n (boundary u ++ [0])))
  else if bool_decide (take (S (length (boundary u))) mem = boundary u ++ [0]) then Undef
  else Ok false.

(** Where a boundary starts, or might start with what has been received. *)
Definition _next_possible_boundary (u : upload_session) (mem : list Z) (length : nat) : res (option nat) :=
  if str_begin_with mem (COMMON_BOUNDARY u) then Ok (Some O)
  else
    match memstr mem length (COMMON_BOUNDARY u) with
    | Some p => Ok (Some p)
    | None =>
        match memrchr mem 13 length with
        | None => Ok None
        | Some p =>
            if (p + 1 =? length)%nat then Ok (Some p)
            else if bool_decide (mem !! S p = Some 10) && (p + 2 =? length)%nat then Ok None
            else b ← boundary_starts u (drop (p + 2) mem) (length - (p + 2));
                 Ok (if (b : bool) then Some p else None)
        end
    end.

(** The value of the last name entry; without an entry, a write in front of
    the array. *)
Definition set_value (v : list Z) (l : list (list Z * option (list Z))) : option (list (list Z * option (list Z))) :=
  match rev l with
  | [] => None
  | (n, _) :: l => Some (rev ((n, Some v) :: l))
  end.

Definition _handle_section (u : upload_session) (mem : list Z) (length : nat)
  : res (upload_session * list upload_call) :=
  match filename u, content_type u, length with
  | Some f, Some _, S _ => Ok (u, [upload_write f (take length mem)])
  | _, _, _ =>
      match memstr mem length crlf with
      | None => Ok (u, [])
      | Some k =>
          l ← defined (set_value (take k mem) (name_entries u));
          Ok (Upload (boundary u) (filename u) (content_type u) l (file_opened u), [])
      end
  end.

(** The bytes up to the next possible boundary; how many they are. *)
Definition data_section (u : upload_session) (mem : list Z) (length : nat)
  : res (upload_session * list upload_call * nat) :=
  p ← _next_possible_boundary u mem length;
  let n := default length p in
  '(u, calls) ← _handle_section u mem n;
  Ok (u, calls, n).

(** Opening and closing when a header has been read. *)
Definition open_or_close (u : upload_session) : upload_session * list upload_call :=
  let set b := Upload (boundary u) (filename u) (content_type u) (name_entries u) b in
  match filename u, content_type u with
  | Some f, Some _ => if file_opened u then (u, []) else (set true, [upload_open f])
  | _, _ => if file_opened u then (set false, [upload_close]) else (u, [])
  end.

(** ** The handler *)
Definition buffer_third : nat := Z.to_nat (WEBNET_SESSION_BUFSZ / 3).

(** The loop from position [pos] of the buffer to [stop]: the upload session,
    the buffer, its offset, whether the upload is done, and the calls.  The
    offset is left as it was when the upload is done. *)
Fixpoint upload_loop (fuel : nat) (offset : nat) (u : upload_session) (b : list Z) (pos stop : nat)
  : res (upload_session * list Z * nat * bool * list upload_call) :=
  match fuel with
  | O => NoFuel
  | S fuel =>
      if (pos <? stop)%nat then
        let mem := drop pos b in
        let length := (stop - pos)%nat in
        if str_begin_with mem (LAST_BOUNDARY u) then Ok (u, b, offset, true, [upload_done])
        else if (length <? buffer_third)%nat && bool_decide (memstr mem length (LAST_BOUNDARY u) = None)
        then Ok (u, take length mem ++ drop length b, length, false, [])
        else
          r ← _webnet_module_upload_parse_header u mem length;
          match r with
          | None =>
              '(u, calls, n) ← data_section u mem length;
              '(u, b, offset, fin, calls') ← upload_loop fuel offset u b (pos + n) stop;
              Ok (u, b, offset, fin, calls ++ calls')
          | Some (u, mem, used) =>
              let '(u, calls1) := open_or_close u in
              '(u, calls, n) ← data_section u (drop used mem) (length - used);
              '(u, b, offset, fin, calls') ← upload_loop fuel offset u (take pos b ++ mem) (pos + used + n) stop;
              Ok (u, b, offset, fin, calls1 ++ calls ++ calls')
          end
      else Ok (u, b, 0%nat, false, [])
  end.

(** The part of the session that the upload uses. *)
Record transfer := Transfer {
  t_buffer : list Z;
  t_offset : nat;
  t_closed : bool;
  t_upload : upload_session }.

(** The bytes to look at: what is in the buffer if it holds the last boundary,
    and what the socket gives otherwise; [recv] is nothing if reading fails,
    which closes the session. *)
Definition upload_read (t : transfer) (recv : list Z) : res (list Z * nat * bool) :=
  match memstr (t_buffer t) (t_offset t) (LAST_BOUNDARY (t_upload t)) with
  | Some _ => Ok (t_buffer t, t_offset t, t_closed t)
  | None =>
      match recv with
      | [] => Ok (t_buffer t, t_offset t, true)
      | _ =>
          if (length recv + t_offset t <? length (t_buffer t))%nat then
            b ← defined (buf_write (t_buffer t) (Z.of_nat (t_offset t)) recv);
            Ok (b, (t_offset t + length recv)%nat, t_closed t)
          else Undef
      end
  end.

Definition _webnet_module_upload_handle (t : transfer) (recv : list Z) : res (transfer * list upload_call) :=
  '(b, stop, closed) ← upload_read t recv;
  if (stop =? 0)%nat then Ok (Transfer b (t_offset t) true (t_upload t), [])
  else
    b ← defined (buf_set b (Z.of_nat stop) 0);
    '(u, b, offset, fin, calls) ← upload_loop (S stop) (t_offset t) (t_upload t) b 0 stop;
    Ok (Transfer b offset (closed || fin) u, calls).

(** [_webnet_module_upload_close], called when the session is closed. *)
Definition _webnet_module_upload_close (u : upload_session) : list upload_call :=
  if file_opened u then [upload_close] else [].

(** The pieces that arrive, until the session is closed. *)
Fixpoint upload_all (t : transfer) (pieces : list (list Z)) : res (transfer * list upload_call) :=
  if t_closed t then Ok (t, _webnet_module_upload_close (t_upload t))
  else
    match pieces with
    | [] => Ok (t, [])
    | p :: pieces =>
        '(t, calls) ← _webnet_module_upload_handle t p;
        '(t, calls') ← upload_all t pieces;
        Ok (t, calls ++ calls')
    end.

(** [webnet_module_upload_open]: the boundary is what follows [boundary=] in
    the content type; without one it is not initialised. *)
Definition webnet_module_upload_open (type : list Z) : res upload_session :=
  k ← defined (strstr type (str "boundary="));
  Ok (Upload (str "--" ++ drop (k + 9) type) None None [] false).

(** ** The header of a file *)
Definition quote : Z := 34.

Definition disposition_start : list Z := str " form-data; name=" ++ [quote].
Definition disposition_middle : list Z := str "; filename=" ++ [quote].

(** The lines in front of a file, as a browser sends them. *)
Definition file_header (bd field file type : list Z) : list Z :=
  bd ++ crlf ++ str "Content-Disposition:" ++ disposition_start ++ field ++ quote ::
  disposition_middle ++ file ++ quote :: crlf ++ str "Content-Type:" ++ str " " ++ type ++ crlf ++ crlf.

(** A string in quotes: no quote, end of line or terminator in it. *)
Definition quotable (s : list Z) : Prop := plain s /\ Forall (fun c => c <> quote) s.

#[export] Instance quotable_dec s : Decision (quotable s) := ltac:(unfold quotable; apply _).

(** Lengths of concatenations with constant texts, for [lia]. *)
Ltac lengths :=
  unfold disposition_start, disposition_middle, crlf in *;
  repeat (progress (rewrite ?length_app in *; cbn [length] in *));
  repeat match goal with
    | H : context [length (str ?x)] |- _ =>
        let n := eval vm_compute in (length (str x)) in change (length (str x)) with n in H
    | |- context [length (str ?x)] =>
        let n := eval vm_compute in (length (str x)) in change (length (str x)) with n
    end; idtac; lia.

Lemma insert_next {A} (p s : list A) x y : <[length p := x]> (p ++ y :: s) = p ++ x :: s.
Proof. rewrite insert_app_r_alt by done. by rewrite Nat.sub_diag. Qed.

Lemma end_line_next (p s : list Z) : end_line (p ++ crlf ++ s) (length p) = p ++ 0 :: 0 :: s.
Proof.
  unfold end_line. cbn [crlf app]. rewrite insert_next.
  change (p ++ 0 :: 10 :: s) with (p ++ [0] ++ 10 :: s). rewrite app_assoc.
  replace (S (length p)) with (length (p ++ [0])) by (rewrite length_app; cbn; lia).
  by rewrite insert_next, <- app_assoc.
Qed.

Lemma begins_at p s x : begins (p ++ s) (length p) x = str_begin_with s x.
Proof. unfold begins. by rewrite drop_app_length. Qed.

Lemma quoted_next p q s : Forall (fun c => c <> quote) q ->
  quoted (p ++ q ++ quote :: s) (length p) = Ok ((p ++ q ++ [0]) ++ s, length (p ++ q ++ [0])).
Proof.
  intros H. unfold quoted. rewrite drop_app_length, strchr_found by done.
  cbn [defined mbind res_bind]. do 2 f_equal.
  - rewrite app_assoc. replace (length p + length q)%nat with (length (p ++ q)) by apply length_app.
    rewrite insert_next. by rewrite <- !app_assoc.
  - rewrite !length_app. cbn [length]. lia.
Qed.

(** What is known behind [Content-Disposition:]. *)
Lemma disposition_next p field file s h :
  Forall (fun c => c <> quote) field -> Forall (fun c => c <> quote) file ->
  let p1 := p ++ disposition_start in
  let p2 := (p1 ++ field ++ [0]) ++ disposition_middle in
  let p3 := p2 ++ file ++ [0] in
  disposition (p ++ disposition_start ++ field ++ quote :: disposition_middle ++ file ++ quote :: s) (length p) h =
  Ok (p3 ++ s, length p3, Fields (Some (length p1)) (Some (length p2)) (f_type h)).
Proof.
  intros Hn Hf p1 p2 p3. unfold disposition.
  set (rest := field ++ quote :: disposition_middle ++ file ++ quote :: s).
  rewrite drop_app_length. change (count_while is_blank (disposition_start ++ rest)) with 1%nat.
  assert (E : forall l r, disposition_start = l ++ r ->
    (length p + length l)%nat = length (p ++ l) /\ p ++ disposition_start ++ rest = (p ++ l) ++ r ++ rest)
    by (intros l r ->; by rewrite length_app, <- !app_assoc).
  destruct (E (str " ") (str "form-data; name=" ++ [quote]) eq_refl) as [El Em].
  change (length (str " ")) with 1%nat in El. rewrite El, Em, begins_at.
  change (str_begin_with ((str "form-data; name=" ++ [quote]) ++ rest) (str "form-data")) with true. cbv iota.
  rewrite <- Em, <- El.
  destruct (E (str " form-data") (str "; name=" ++ [quote]) eq_refl) as [El1 Em1].
  replace (length p + 1 + 9)%nat with (length (p ++ str " form-data")) by (rewrite <- El1; cbn; lia).
  rewrite Em1, drop_app_length.
  change (count_while is_blank_or_semicolon ((str "; name=" ++ [quote]) ++ rest)) with 2%nat.
  rewrite <- Em1, <- El1.
  destruct (E (str " form-data; ") (str "name=" ++ [quote]) eq_refl) as [El2 Em2].
  replace (length p + length (str " form-data") + 2)%nat with (length (p ++ str " form-data; "))
    by (rewrite <- El2; cbn; lia).
  rewrite Em2. unfold disposition_name. rewrite begins_at.
  change (str_begin_with ((str "name=" ++ [quote]) ++ rest) FIELDNAME_STRING) with true. cbv iota.
  rewrite <- Em2, <- El2.
  replace (length p + length (str " form-data; ") + 6)%nat with (length p1)
    by (unfold p1; rewrite length_app; cbn; lia).
  rewrite app_assoc. fold p1. unfold rest. rewrite quoted_next by done. cbn [mbind res_bind].
  set (p1' := p1 ++ field ++ [0]) in *. rewrite drop_app_length.
  change (count_while is_blank_or_semicolon (disposition_middle ++ file ++ quote :: s)) with 2%nat.
  unfold disposition_filename.
  replace (length p1' + 2)%nat with (length (p1' ++ str "; ")) by (rewrite length_app; cbn; lia).
  replace (p1' ++ disposition_middle ++ file ++ quote :: s)
    with ((p1' ++ str "; ") ++ FILENAME_STRING ++ file ++ quote :: s) by (by rewrite <- app_assoc).
  rewrite begins_at.
  change (str_begin_with (FILENAME_STRING ++ file ++ quote :: s) FILENAME_STRING) with true. cbv iota.
  replace (length (p1' ++ str "; ") + 10)%nat with (length p2)
    by (unfold p2; rewrite !length_app; cbn; lia).
  replace ((p1' ++ str "; ") ++ FILENAME_STRING ++ file ++ quote :: s) with (p2 ++ file ++ quote :: s)
    by (unfold p2; by rewrite <- !app_assoc).
  rewrite quoted_next by done. done.
Qed.

Lemma copy_next p q s : Forall (fun c => c <> 0) q -> copy_at (p ++ q ++ 0 :: s) (Some (length p)) = Ok (Some q).
Proof.
  intros H. unfold copy_at. rewrite drop_app_length, buf_cstr_prefix by done. cbn. by rewrite app_nil_r.
Qed.

(** A boundary: two dashes, and no end of line. *)
Definition boundary_ok (bd : list Z) : Prop := take 2 bd = str "--" /\ plain bd.

#[export] Instance boundary_ok_dec bd : Decision (boundary_ok bd) := ltac:(unfold boundary_ok; apply _).

(** A type that is sent after one blank. *)
Definition type_ok (type : list Z) : Prop := plain type /\ head type <> Some 32.

#[export] Instance type_ok_dec type : Decision (type_ok type) := ltac:(unfold type_ok; apply _).

Lemma memstr_line p q s n : plain q -> (length p + length q + 2 <= n)%nat ->
  memstr (drop (length p) (p ++ q ++ crlf ++ s)) (n - length p) crlf = Some (length q).
Proof.
  intros Hq Hn. unfold memstr. rewrite drop_app_length, !take_app.
  rewrite (take_ge q) by lia. rewrite (take_ge crlf) by (cbn; lia). by apply strstr_line.
Qed.

(** The last two lines: the type and the empty line. *)
Lemma section_lines_type fuel u mem p type rest n h :
  type_ok type -> mem = p ++ str "Content-Type:" ++ str " " ++ type ++ crlf ++ crlf ++ rest ->
  (length (p ++ str "Content-Type:" ++ str " " ++ type ++ crlf ++ crlf) <= n)%nat ->
  let p5 := p ++ str "Content-Type:" ++ str " " in
  let mem' := p5 ++ type ++ 0 :: 0 :: crlf ++ rest in
  section_lines (S (S fuel)) u mem n (length p) h =
    (u ← end_of_section_header u mem' (Fields (f_name h) (f_filename h) (Some (length p5)));
     Ok (u, mem', length (p5 ++ type ++ [0; 0] ++ crlf))).
Proof.
  intros [Ht Hh] -> Hn p5 mem'. set (fuel' := S fuel). cbn [section_lines]. subst fuel'.
  rewrite !length_app in Hn. change (length crlf) with 2%nat in Hn.
  rewrite (proj2 (Nat.ltb_lt _ _)) by lia. rewrite !begins_at.
  change (str_begin_with (str "Content-Type:" ++ _) (str "Content-Disposition:")) with false.
  change (str_begin_with (str "Content-Type:" ++ _) (str "Content-Type:")) with true. cbv iota.
  replace (length p + 13)%nat with (length (p ++ str "Content-Type:")) by (rewrite length_app; cbn; lia).
  rewrite (app_assoc p (str "Content-Type:")), drop_app_length.
  assert (Ec : count_while is_blank (str " " ++ type ++ crlf ++ crlf ++ rest) = 1%nat).
  { cbn [str app count_while]. change (is_blank _) with true at 1. cbv iota. f_equal.
    destruct type as [|c t]; [done|]. cbn [app count_while]. unfold is_blank.
    destruct (Z.eqb_spec c 32) as [->|]; [by cbn in Hh|done]. }
  rewrite Ec.
  replace (length (p ++ str "Content-Type:") + 1)%nat with (length p5)
    by (unfold p5; rewrite !length_app; cbn; lia).
  replace ((p ++ str "Content-Type:") ++ str " " ++ type ++ crlf ++ crlf ++ rest)
    with (p5 ++ type ++ crlf ++ crlf ++ rest) by (unfold p5; by rewrite <- !app_assoc).
  assert (Hp5 : length p5 = (length p + 14)%nat) by (unfold p5; rewrite !length_app; cbn; lia).
  change (length (str "Content-Type:")) with 13%nat in Hn. change (length (str " ")) with 1%nat in Hn.
  rewrite (proj2 (Nat.ltb_ge _ _)) by lia.
  rewrite memstr_line by (done || lia). cbn [defined mbind res_bind].
  replace (end_line (p5 ++ type ++ crlf ++ crlf ++ rest) (length p5 + length type)) with mem'.
  2:{ rewrite <- length_app, app_assoc, end_line_next. unfold mem'. by rewrite <- app_assoc. }
  replace (length p5 + length type + 2)%nat with (length (p5 ++ type ++ [0; 0]))
    by (rewrite !length_app; cbn; lia).
  cbn [section_lines].  rewrite (proj2 (Nat.ltb_lt _ _)) by (rewrite !length_app; cbn; lia).
  assert (Em : mem' = (p5 ++ type ++ [0; 0]) ++ crlf ++ rest) by (unfold mem'; by rewrite <- !app_assoc).
  unfold begins. replace (drop (length (p5 ++ type ++ [0; 0])) mem') with (crlf ++ rest)
    by (by rewrite Em, drop_app_length).
  rewrite !(str_begin_with_differ crlf rest) by reflexivity.
  rewrite (str_begin_with_app crlf rest crlf) by done.
  destruct (end_of_section_header _ _ _); try done. cbn [mbind res_bind]. do 2 f_equal.
  rewrite !length_app. cbn. lia.
Qed.

Lemma boundary_cases bd : boundary_ok bd -> exists b, bd = 45 :: 45 :: b /\ plain b.
Proof.
  intros [H Hp]. destruct bd as [|x [|y b]]; [done..|]. injection H as -> ->.
  exists b. split; [done|]. do 2 apply Forall_inv_tail in Hp. done.
Qed.

Lemma begin_cr_boundary bd s t : boundary_ok bd -> str_begin_with (bd ++ s) (crlf ++ t) = false.
Proof.
  intros H. apply boundary_cases in H as (b & -> & _). apply bool_decide_eq_false.
  cbn [app crlf length take map]. intros E. apply (f_equal head) in E. by vm_compute in E.
Qed.

Lemma begin_same s t : str_begin_with (s ++ t) s = true.
Proof. by apply str_begin_with_app. Qed.

(** The upload session when the header of a file has been read. *)
Definition file_session (u : upload_session) (field file type : list Z) : upload_session :=
  Upload (boundary u) (Some file) (Some type) (name_entries u ++ [(field, None)]) (file_opened u).

(** The header of a file is read, and used up. *)
Lemma parse_file_header u field file type rest n :
  boundary_ok (boundary u) -> quotable field -> quotable file -> type_ok type ->
  let header := file_header (boundary u) field file type in
  (length header <= n)%nat ->
  exists front, length front = length header /\
    _webnet_module_upload_parse_header u (header ++ rest) n =
      Ok (Some (file_session u field file type, front ++ rest, length header)).
Proof.
  intros Hb [Hf0 Hf] [Hn0 Hn] Ht header Hlen. set (bd := boundary u) in *.
  set (p0 := bd ++ crlf). set (p := p0 ++ str "Content-Disposition:").
  set (p1 := p ++ disposition_start). set (p2 := (p1 ++ field ++ [0]) ++ disposition_middle).
  set (p3 := p2 ++ file ++ [0]). set (p4 := p3 ++ [0; 0]).
  set (p5 := p4 ++ str "Content-Type:" ++ str " ").
  exists (p5 ++ type ++ [0; 0] ++ crlf).
  assert (Hh : header = p ++ disposition_start ++ field ++ quote :: disposition_middle ++ file ++
    quote :: crlf ++ str "Content-Type:" ++ str " " ++ type ++ crlf ++ crlf)
    by (unfold header, file_header, p, p0; by rewrite <- !app_assoc).
  assert (Hl : length header = length (p5 ++ type ++ [0; 0] ++ crlf)).
  { rewrite Hh. unfold p5, p4, p3, p2, p1. lengths. }
  split; [by rewrite Hl|].
  unfold _webnet_module_upload_parse_header, LAST_BOUNDARY, NORMAL_BOUNDARY, FIRST_BOUNDARY. fold bd.
  assert (Hc : forall t, str_begin_with (header ++ rest) (crlf ++ t) = false)
    by (intros t; unfold header, file_header; rewrite <- app_assoc; by apply begin_cr_boundary).
  assert (Hfirst : str_begin_with (header ++ rest) (bd ++ crlf) = true).
  { unfold header, file_header. rewrite (app_assoc bd crlf), <- (app_assoc (bd ++ crlf)). apply begin_same. }
  rewrite (Hc (bd ++ str "--" ++ crlf)), (Hc (bd ++ crlf)), Hfirst. cbv zeta.
  replace (length (bd ++ crlf) =? 0)%nat with false
    by (symmetry; apply Nat.eqb_neq; rewrite length_app; cbn; lia).
  set (u' := end_of_file_section u).
  assert (Hu : Upload (boundary u') (Some file) (Some type) (name_entries u' ++ [(field, None)])
    (file_opened u') = file_session u field file type)
    by (unfold u', end_of_file_section; by destruct (filename u), (content_type u)).
  set (lines := str "Content-Type:" ++ str " " ++ type ++ crlf ++ crlf ++ rest).
  replace (header ++ rest) with (p0 ++ str "Content-Disposition:" ++ disposition_start ++ field ++
    quote :: disposition_middle ++ file ++ quote :: crlf ++ lines)
    by (unfold header, file_header, p0, lines; by repeat (rewrite <- !app_assoc; cbn [app])).
  assert (Hn3 : (length p3 + 20 + length type <= n)%nat /\ (length p0 + 20 <= n)%nat).
  { rewrite Hl in Hlen. unfold p5, p4, p3, p2, p1, p in *. clear -Hlen. lengths. }
  destruct n as [|[|[|n]]]; [lia..|]. set (k := S (S (S n))) in *.
  assert (Ek : k = S (S (S n))) by done. clearbody k.
  fold p0. cbn [section_lines]. rewrite (proj2 (Nat.ltb_lt _ _)) by lia. rewrite begins_at.
  change (str_begin_with (str "Content-Disposition:" ++ _) (str "Content-Disposition:")) with true.
  cbv iota. replace (length p0 + 20)%nat with (length p) by (unfold p; rewrite length_app; cbn; lia).
  rewrite (app_assoc p0). fold p. rewrite disposition_next by done. fold p1 p2 p3.
  cbn [mbind res_bind f_type]. rewrite (proj2 (Nat.ltb_ge _ _)) by lia.
  change (p3 ++ crlf ++ lines) with (p3 ++ [] ++ crlf ++ lines).
  rewrite (memstr_line p3 [] lines k (List.Forall_nil _)) by (cbn [length]; lia).
  cbn [defined mbind res_bind length app].
  rewrite Nat.add_0_r, end_line_next.
  replace (p3 ++ 0 :: 0 :: lines) with (p4 ++ lines) by (unfold p4; by rewrite <- app_assoc).
  replace (length p3 + 2)%nat with (length p4) by (unfold p4; rewrite length_app; cbn; lia).
  replace (section_lines k) with (section_lines (S (S (S n)))) by (by rewrite Ek).
  rewrite (section_lines_type (S n) u' (p4 ++ lines) p4 type rest k _ Ht eq_refl); cycle 1.
  { unfold p4. clear -Hn3. lengths. }
  fold p5. unfold end_of_section_header. cbn [f_filename f_type f_name].
  replace (copy_at (p5 ++ type ++ 0 :: 0 :: crlf ++ rest) (Some (length p2))) with (Ok (Some file)); cycle 1.
  { symmetry. unfold p5, p4, p3. rewrite <- !app_assoc. cbn [app]. apply copy_next.
    by apply plain_nonzero. }
  replace (copy_at (p5 ++ type ++ 0 :: 0 :: crlf ++ rest) (Some (length p5))) with (Ok (Some type)); cycle 1.
  { symmetry. apply copy_next. by apply plain_nonzero, Ht. }
  replace (copy_at (p5 ++ type ++ 0 :: 0 :: crlf ++ rest) (Some (length p1))) with (Ok (Some field)); cycle 1.
  { symmetry. unfold p5, p4, p3, p2. rewrite <- !app_assoc. cbn [app]. apply copy_next.
    by apply plain_nonzero. }
  cbn [mbind res_bind]. rewrite Hu, Hl. do 4 f_equal. by rewrite <- !app_assoc.
Qed.

(** ** Where the boundary is not *)

(** The boundary, in any case of its letters, does not occur. *)
Fixpoint clear (bd s : list Z) : bool :=
  negb (str_begin_with s bd) && match s with [] => true | _ :: s => clear bd s end.

Lemma clear_drop bd i : forall s, clear bd s = true -> clear bd (drop i s) = true.
Proof.
  induction i as [|i IH]; intros [|c s] H; try done. apply IH. cbn in H.
  by apply andb_true_iff in H as [_ H].
Qed.

Lemma clear_begin bd s : clear bd s = true -> str_begin_with s bd = false.
Proof. destruct s; cbn [clear]; intros [H _]%andb_true_iff; by apply negb_true_iff. Qed.

Lemma clear_at bd s i : clear bd s = true -> str_begin_with (drop i s) bd = false.
Proof. intros H. by apply clear_begin, clear_drop. Qed.

Lemma begin_long s t : str_begin_with s t = true -> (length t <= length s)%nat.
Proof.
  intros H. apply bool_decide_eq_true in H. apply (f_equal length) in H.
  rewrite !length_map, length_take in H. lia.
Qed.

Lemma begin_prefix s r t : str_begin_with s t = true -> str_begin_with (s ++ r) t = true.
Proof.
  intros H. pose proof (begin_long _ _ H). apply bool_decide_eq_true in H. apply bool_decide_eq_true.
  by rewrite take_app_le.
Qed.

Lemma begin_weaken s t r : str_begin_with s (t ++ r) = true -> str_begin_with s t = true.
Proof.
  intros H. apply bool_decide_eq_true in H. apply bool_decide_eq_true.
  apply (f_equal (take (length t))) in H. rewrite !firstn_map, take_take, take_app_length in H.
  rewrite <- H. do 2 f_equal. rewrite length_app. lia.
Qed.

Lemma tolower_control c d : (d = 0 \/ d = 13 \/ d = 10) -> tolower c = d -> c = d.
Proof.
  unfold tolower. intros Hd. destruct (Z.leb_spec 65 c), (Z.leb_spec c 90); cbn; lia.
Qed.

(** A match does not reach over an end of line or a terminator. *)
Lemma begin_sep bd s c r : plain bd -> c = 0 \/ c = 13 ->
  str_begin_with (s ++ c :: r) bd = true -> str_begin_with s bd = true.
Proof.
  intros Hp Hc H. apply bool_decide_eq_true in H.
  destruct (le_lt_dec (length bd) (length s)) as [Hl|Hl].
  { apply bool_decide_eq_true. by rewrite take_app_le in H. }
  exfalso. assert (Hin : tolower c ∈ map tolower bd).
  { rewrite <- H. rewrite take_app_ge by lia. rewrite map_app. apply elem_of_app. right.
    destruct (length bd - length s)%nat eqn:E; [lia|]. cbn [take map]. apply elem_of_cons. by left. }
  apply list_elem_of_In, in_map_iff in Hin as (d & Ed & Hd). apply list_elem_of_In in Hd.
  unfold plain in Hp. rewrite Forall_forall in Hp. specialize (Hp d Hd).
  assert (Ec : tolower c = c) by (destruct Hc as [-> | ->]; done). rewrite Ec in Ed.
  apply tolower_control in Ed; lia.
Qed.

Lemma clear_take bd i : forall s, clear bd s = true -> clear bd (take i s) = true.
Proof.
  induction i as [|i IH]; intros s H.
  - destruct s as [|c s]; [done|]. cbn [take clear]. rewrite andb_true_r. apply negb_true_iff.
    destruct (str_begin_with [] bd) eqn:E; [|done].
    apply (begin_prefix [] (c :: s)) in E. apply clear_begin in H. cbn [app] in E. congruence.
  - destruct s as [|c s]; [done|]. cbn [take clear]. apply andb_true_iff. split.
    + apply negb_true_iff. destruct (str_begin_with (c :: take i s) bd) eqn:E; [|done].
      apply (begin_prefix _ (drop i s)) in E. cbn [app] in E. rewrite take_drop in E.
      apply clear_begin in H. congruence.
    + apply IH. exact (clear_drop bd 1 _ H).
Qed.

Lemma clear_app bd s c r : plain bd -> c = 0 \/ c = 13 ->
  clear bd s = true -> clear bd (c :: r) = true -> clear bd (s ++ c :: r) = true.
Proof.
  intros Hp Hc. induction s as [|d s IH]; intros Hs Hr; [done|].
  cbn [app clear] in *. apply andb_true_iff in Hs as [H1 H2]. apply andb_true_iff.
  split; [|by apply IH]. apply negb_true_iff in H1. apply negb_true_iff.
  destruct (str_begin_with (d :: s ++ c :: r) bd) eqn:E; [|done].
  apply (begin_sep bd (d :: s)) in E; [congruence|done|done].
Qed.

Lemma clear_short bd s : (length s < length bd)%nat -> clear bd s = true.
Proof.
  induction s as [|c s IH]; intros H; cbn [clear]; apply andb_true_iff; split; try done;
    try (apply IH; cbn in H; lia);
    apply negb_true_iff; destruct (str_begin_with _ _) eqn:E; try done; apply begin_long in E; lia.
Qed.

Lemma strstr_some s t k : strstr s t = Some k -> take (length t) (drop k s) = t.
Proof.
  revert k. induction s as [|c s IH]; intros k; cbn [strstr]; case_bool_decide as E;
    try (intros [= <-]; exact E); try done.
  destruct (strstr s t) as [j|]; [|done]. intros [= <-]. by apply IH.
Qed.

Lemma take_eq_app {A} (t l : list A) : take (length t) l = t -> l = t ++ drop (length t) l.
Proof. intros H. rewrite <- H at 1. by rewrite take_drop. Qed.

(** Where there is no boundary, no end of line with a boundary is found. *)
Lemma strstr_clear bd s r : clear bd (drop 1 s) = true -> strstr s (crlf ++ bd ++ r) = None.
Proof.
  intros H. destruct (strstr s (crlf ++ bd ++ r)) as [k|] eqn:E; [|done]. exfalso.
  apply strstr_some, take_eq_app in E.
  pose proof (clear_at bd (drop 1 s) (k + 1) H) as Hc. rewrite drop_drop in Hc.
  replace (1 + (k + 1))%nat with (k + 2)%nat in Hc by lia. rewrite <- drop_drop, E in Hc.
  rewrite <- !app_assoc in Hc. unfold crlf in Hc at 1. cbn [app drop] in Hc.
  by rewrite drop_0, begin_same in Hc.
Qed.

Lemma strstr_present p t : strstr (p ++ t) t <> None.
Proof.
  induction p as [|c p IH]; cbn [app].
  - destruct t; cbn [strstr]; by rewrite bool_decide_eq_true_2 by (by rewrite take_ge by (cbn; lia)).
  - cbn [strstr]. case_bool_decide; [done|]. by destruct (strstr (p ++ t) t).
Qed.

(** The first boundary behind data without one. *)
Lemma strstr_boundary bd s r : plain bd -> clear bd s = true ->
  strstr (s ++ crlf ++ bd ++ r) (crlf ++ bd) = Some (length s).
Proof.
  intros Hp. induction s as [|c s IH]; intros Hc.
  - cbn [app length]. unfold crlf. cbn [app strstr length take].
    by rewrite bool_decide_eq_true_2 by (by rewrite take_app_length).
  - pose proof (clear_drop bd 1 _ Hc) as Hs. cbn [drop] in Hs; rewrite ?drop_0 in Hs.
    cbn [app strstr length]. rewrite IH by done. cbn [fmap option_fmap option_map].
    rewrite bool_decide_eq_false_2; [done|]. intros E.
    unfold crlf in E. cbn [app length take] in E. injection E as Ec E. subst c.
    destruct s as [|d s]; cbn [app take] in E; [done|]. injection E as Ed E. subst d.
    assert (Hb : str_begin_with (s ++ 13 :: 10 :: bd ++ r) bd = true)
      by (apply bool_decide_eq_true; by rewrite E).
    apply begin_sep in Hb; [|done|by right].
    pose proof (clear_at bd (10 :: s) 1 Hs) as H1. cbn [drop] in H1; rewrite ?drop_0 in H1. congruence.
Qed.

(** ** The pieces of the data *)

(** Memory with [s] received: a terminator or more data follows. *)
Lemma begin_common_no bd s c r : plain bd -> c = 0 \/ c = 13 -> s <> [] -> clear bd s = true ->
  str_begin_with (s ++ c :: r) (crlf ++ bd) = false.
Proof.
  intros Hp Hc Hne H. destruct (str_begin_with _ _) eqn:E; [|done]. exfalso.
  destruct s as [|a s]; [done|]. unfold crlf in E. cbn [app] in E.
  apply bool_decide_eq_true in E. cbn [length take map] in E. injection E as Ea E.
  destruct s as [|b s]; cbn [app take map] in E.
  - injection E as Eb _. by destruct Hc as [-> | ->].
  - injection E as Eb E. assert (Hb : str_begin_with (s ++ c :: r) bd = true) by (by apply bool_decide_eq_true).
    apply begin_sep in Hb; [|done|done].
    pose proof (clear_at bd (a :: b :: s) 2 H) as H2. cbn [drop] in H2; rewrite ?drop_0 in H2. congruence.
Qed.

Lemma begin_boundary_no bd s c r : plain bd -> c = 0 \/ c = 13 -> clear bd s = true ->
  str_begin_with (s ++ c :: r) bd = false.
Proof.
  intros Hp Hc H. destruct (str_begin_with _ _) eqn:E; [|done]. apply begin_sep in E; [|done|done].
  apply clear_begin in H. congruence.
Qed.

Lemma begin_no_more s t r : str_begin_with s t = false -> str_begin_with s (t ++ r) = false.
Proof.
  intros H. destruct (str_begin_with s (t ++ r)) eqn:E; [|done]. apply begin_weaken in E. congruence.
Qed.

(** Data is no header. *)
Lemma parse_header_data u s c r n : plain (boundary u) -> c = 0 \/ c = 13 -> s <> [] ->
  clear (boundary u) s = true ->
  _webnet_module_upload_parse_header u (s ++ c :: r) n = Ok None /\
  str_begin_with (s ++ c :: r) (LAST_BOUNDARY u) = false.
Proof.
  intros Hp Hc Hne H. pose proof (begin_common_no _ s c r Hp Hc Hne H) as H1.
  pose proof (begin_boundary_no _ s c r Hp Hc H) as H2.
  assert (HL : str_begin_with (s ++ c :: r) (LAST_BOUNDARY u) = false)
    by (unfold LAST_BOUNDARY; rewrite app_assoc; by apply begin_no_more).
  split; [|done]. unfold _webnet_module_upload_parse_header. rewrite HL.
  unfold NORMAL_BOUNDARY, FIRST_BOUNDARY. rewrite app_assoc. by rewrite !begin_no_more by done.
Qed.

Lemma memrchr_some mem n p : memrchr mem 13 n = Some p -> (1 <= p <= n)%nat /\ mem !! p = Some 13.
Proof.
  induction n as [|n IH]; [done|]. cbn [memrchr]. case_bool_decide as E.
  - intros [= <-]. split; [lia|done].
  - intros H. apply IH in H as [H1 H2]. split; [lia|done].
Qed.

(** Within data without a boundary, everything is data, or all but an end that
    is not longer than a boundary. *)
Lemma next_boundary_data u s r : plain (boundary u) -> s <> [] -> clear (boundary u) s = true ->
  exists p, _next_possible_boundary u (s ++ 0 :: r) (length s) = Ok p /\
    match p with
    | None => True
    | Some p => (1 <= p < length s)%nat /\ (length s - p <= length (boundary u) + 2)%nat
    end.
Proof.
  intros Hp Hne H. unfold _next_possible_boundary, COMMON_BOUNDARY.
  rewrite begin_common_no by (by try left). unfold memstr. rewrite take_app_length.
  assert (Hs : strstr s (crlf ++ boundary u) = None)
    by (rewrite <- (app_nil_r (boundary u)); by apply strstr_clear, clear_drop).
  rewrite Hs. clear Hs.
  destruct (memrchr (s ++ 0 :: r) 13 (length s)) as [p|] eqn:Em; [|by exists None].
  apply memrchr_some in Em as [Hp1 Ep].
  assert (p < length s)%nat.
  { destruct (decide (p = length s)) as [->|]; [|lia].
    rewrite lookup_app_r, Nat.sub_diag in Ep by lia. done. }
  destruct (Nat.eqb_spec (p + 1) (length s)); [exists (Some p); split; [done|lia]|].
  destruct (_ && _); [by exists None|].
  assert (Hno : take (length (boundary u)) (drop (p + 2) (s ++ 0 :: r)) <> boundary u).
  { intros E. rewrite drop_app_le in E by lia.
    assert (Hb : str_begin_with (drop (p + 2) s ++ 0 :: r) (boundary u) = true)
      by (apply bool_decide_eq_true; by rewrite E).
    apply begin_sep in Hb; [|done|by left]. rewrite clear_at in Hb; done. }
  assert (Hno' : take (S (length (boundary u))) (drop (p + 2) (s ++ 0 :: r)) <> boundary u ++ [0]).
  { intros E. apply Hno. apply (f_equal (take (length (boundary u)))) in E.
    rewrite take_take, take_app_length in E. by rewrite Nat.min_l in E by lia. }
  unfold boundary_starts. destruct (Nat.leb_spec (length s - (p + 2)) (S (length (boundary u)))) as [Hl|Hl].
  - cbn [mbind res_bind]. case_bool_decide as E; [|by exists None].
    exists (Some p). split; [done|]. split; [lia|].
    destruct (decide (length s - (p + 2) = S (length (boundary u)))%nat) as [El|]; [|lia].
    exfalso. apply Hno'. rewrite El in E. rewrite E. apply take_ge. rewrite length_app. cbn. lia.
  - rewrite (bool_decide_eq_false_2 _ Hno'). by exists None.
Qed.

(** A session that is receiving a file. *)
Definition receiving (u : upload_session) (file : list Z) : Prop :=
  filename u = Some file /\ is_Some (content_type u).

Lemma handle_section_data u file mem n : receiving u file ->
  exists W, _handle_section u mem n = Ok (u, map (upload_write file) W) /\ concat W = take n mem /\
    Forall (fun d => d <> []) W \/ n <> O /\ mem = [].
Proof.
  intros [Hf [ty Hty]]. unfold _handle_section. rewrite Hf, Hty. destruct n as [|n].
  - exists []. left. unfold memstr. cbn [take]. by split_and!.
  - destruct mem as [|c mem]; [exists []; right; done|].
    exists [take (S n) (c :: mem)]. left. cbn [map concat]. rewrite app_nil_r. split_and!; try done.
    by repeat constructor.
Qed.

Lemma section_data u file s r : receiving u file -> plain (boundary u) -> s <> [] -> clear (boundary u) s = true ->
  exists W n, data_section u (s ++ 0 :: r) (length s) = Ok (u, map (upload_write file) W, n) /\
    concat W = take n s /\ Forall (fun d => d <> []) W /\ (1 <= n <= length s)%nat /\
    (length s - n <= length (boundary u) + 2)%nat.
Proof.
  intros Hu Hp Hne H. destruct (next_boundary_data u s r Hp Hne H) as (p & E & Hrange).
  assert (1 <= length s)%nat by (destruct s; [done|cbn; lia]).
  unfold data_section. rewrite E. cbn [mbind res_bind].
  set (n := default (length s) p).
  assert (Hn : (1 <= n <= length s)%nat /\ (length s - n <= length (boundary u) + 2)%nat)
    by (destruct p; cbn in n; lia).
  destruct (handle_section_data u file (s ++ 0 :: r) n Hu) as (W & [(EW & Hc & HW)|[_ Hnil]]);
    [|by destruct s].
  rewrite EW. cbn [mbind res_bind]. exists W, n. rewrite take_app_le in Hc by lia. destruct Hn as [[? ?] ?]. split_and!; done.
Qed.

(** The data in front of the last boundary, all of it in the buffer. *)
Lemma section_last u file s r : receiving u file -> plain (boundary u) -> clear (boundary u) s = true ->
  exists W, data_section u (s ++ LAST_BOUNDARY u ++ r) (length (s ++ LAST_BOUNDARY u)) =
      Ok (u, map (upload_write file) W, length s) /\ concat W = s /\ Forall (fun d => d <> []) W.
Proof.
  intros Hu Hp H. unfold data_section.
  assert (E : _next_possible_boundary u (s ++ LAST_BOUNDARY u ++ r) (length (s ++ LAST_BOUNDARY u)) =
    Ok (Some (length s))).
  { unfold _next_possible_boundary, COMMON_BOUNDARY, memstr. destruct s as [|c s].
    - cbn [app length]. unfold LAST_BOUNDARY at 1. rewrite <- !app_assoc, (app_assoc crlf (boundary u)).
      by rewrite begin_same.
    - assert (Hb : str_begin_with ((c :: s) ++ LAST_BOUNDARY u ++ r) (crlf ++ boundary u) = false)
        by exact (begin_common_no _ (c :: s) 13 (10 :: (boundary u ++ str "--" ++ crlf) ++ r) Hp
          (or_intror eq_refl) ltac:(done) H).
      rewrite Hb, app_assoc, take_app_length. unfold LAST_BOUNDARY. by rewrite strstr_boundary. }
  rewrite E. cbn [mbind res_bind].
  change (default (length (s ++ LAST_BOUNDARY u)) (Some (length s))) with (length s). cbv zeta.
  destruct (handle_section_data u file (s ++ LAST_BOUNDARY u ++ r) (length s) Hu) as (W & [(EW & Hc & HW)|[_ Hnil]]).
  - exists W. rewrite EW. cbn [mbind res_bind]. rewrite take_app_length in Hc. done.
  - by destruct s.
Qed.

(** ** The loop *)
Lemma upload_loop_end fuel off u b stop : upload_loop (S fuel) off u b stop stop = Ok (u, b, 0%nat, false, []).
Proof. cbn [upload_loop]. by rewrite Nat.ltb_irrefl. Qed.

(** Too little to look at. *)
Lemma upload_loop_wait fuel off u b pos s r : s <> [] -> drop pos b = s ++ r ->
  str_begin_with (s ++ r) (LAST_BOUNDARY u) = false -> (length s < buffer_third)%nat ->
  strstr s (LAST_BOUNDARY u) = None ->
  upload_loop (S fuel) off u b pos (pos + length s) = Ok (u, s ++ drop (length s) b, length s, false, []).
Proof.
  intros Hne Hb HL Hlen HN. cbn [upload_loop].
  assert (1 <= length s)%nat by (destruct s; [done|cbn; lia]).
  rewrite (proj2 (Nat.ltb_lt _ _)) by lia. rewrite Hb, HL.
  replace (pos + length s - pos)%nat with (length s) by lia.
  unfold memstr. rewrite take_app_length, HN, (proj2 (Nat.ltb_lt _ _) Hlen). done.
Qed.

(** Data goes to the entry, but for an end that is kept in the buffer. *)
Lemma upload_loop_data u file off : receiving u file -> plain (boundary u) ->
  (length (boundary u) + 2 < buffer_third)%nat ->
  forall m fuel s b pos r, (length s <= m)%nat -> (m < fuel)%nat ->
  drop pos b = s ++ 0 :: r -> clear (boundary u) s = true ->
  exists W k b', upload_loop fuel off u b pos (pos + length s) = Ok (u, b', length k, false, map (upload_write file) W) /\
    concat W ++ k = s /\ Forall (fun d => d <> []) W /\ (length k < buffer_third)%nat /\
    take (length k) b' = k /\ length b' = length b.
Proof.
  intros Hu Hp Hbd m. induction m as [|m IH]; intros fuel s b pos r Hm Hf Hb H;
    (destruct fuel as [|fuel]; [lia|]).
  { destruct s; [|cbn in Hm; lia]. exists [], [], b. cbn [length]. rewrite Nat.add_0_r, upload_loop_end.
    split_and!; try done. unfold buffer_third in *. lia. }
  destruct (decide (s = [])) as [->|Hne].
  { exists [], [], b. cbn [length]. rewrite Nat.add_0_r, upload_loop_end.
    split_and!; try done. lia. }
  destruct (parse_header_data u s 0 r (length s) Hp ltac:(by left) Hne H) as [Eh HL].
  assert (HN : strstr s (LAST_BOUNDARY u) = None) by (by apply strstr_clear, clear_drop).
  pose proof (f_equal length Hb) as Hlen. rewrite length_drop, length_app in Hlen. cbn [length] in Hlen.
  destruct (le_lt_dec buffer_third (length s)) as [Hlong|Hshort].
  2:{ exists [], s, (s ++ drop (length s) b). rewrite (upload_loop_wait _ _ _ _ _ s (0 :: r)) by done.
      split_and!; try done; [by rewrite take_app_length|].
      rewrite length_app, length_drop. lia. }
  assert (1 <= length s)%nat by (destruct s; [done|cbn; lia]).
  cbn [upload_loop]. rewrite (proj2 (Nat.ltb_lt _ _)) by lia. rewrite Hb, HL.
  replace (pos + length s - pos)%nat with (length s) by lia.
  rewrite (proj2 (Nat.ltb_ge _ _) Hlong). cbn [andb]. rewrite Eh. cbn [mbind res_bind].
  destruct (section_data u file s r Hu Hp Hne H) as (W & n & ES & HW & HWne & Hn & Hrest).
  rewrite ES. cbn [mbind res_bind].
  destruct (IH fuel (drop n s) b (pos + n)%nat r) as (W' & k & b' & EL & Hk & HWne' & Hk1 & Hk2 & Hk3).
  { rewrite length_drop. lia. } { lia. }
  { rewrite <- drop_drop, Hb. by rewrite drop_app_le by lia. } { by apply clear_drop. }
  replace (pos + length s)%nat with (pos + n + length (drop n s))%nat by (rewrite length_drop; lia).
  rewrite EL. cbn [mbind res_bind]. exists (W ++ W'), k, b'.
  rewrite map_app, concat_app, <- app_assoc, Hk, HW, take_drop, Forall_app. done.
Qed.

Lemma upload_loop_last u file off fuel s b pos r : receiving u file -> plain (boundary u) ->
  drop pos b = s ++ LAST_BOUNDARY u ++ r -> clear (boundary u) s = true ->
  exists W, upload_loop (S (S fuel)) off u b pos (pos + length (s ++ LAST_BOUNDARY u)) =
      Ok (u, b, off, true, map (upload_write file) W ++ [upload_done]) /\
    concat W = s /\ Forall (fun d => d <> []) W.
Proof.
  intros Hu Hp Hb H.
  assert (Hdone : forall fuel pos', drop pos' b = LAST_BOUNDARY u ++ r ->
    upload_loop (S fuel) off u b pos' (pos' + length (LAST_BOUNDARY u)) = Ok (u, b, off, true, [upload_done])).
  { intros fuel' pos' Hb'. cbn [upload_loop]. rewrite (proj2 (Nat.ltb_lt _ _)) by (cbn; lia).
    by rewrite Hb', begin_same. }
  destruct (decide (s = [])) as [->|Hne]; [exists []; by rewrite Hdone|].
  destruct (parse_header_data u s 13 (10 :: boundary u ++ str "--" ++ crlf ++ r) (length (s ++ LAST_BOUNDARY u)) Hp
    ltac:(by right) Hne H) as [Eh HL].
  assert (Em : s ++ 13 :: 10 :: boundary u ++ str "--" ++ crlf ++ r = s ++ LAST_BOUNDARY u ++ r)
    by (unfold LAST_BOUNDARY; by rewrite <- !app_assoc).
  rewrite Em in Eh, HL. remember (S fuel) as fuel' eqn:Ef.
  cbn [upload_loop]. rewrite (proj2 (Nat.ltb_lt _ _)) by (rewrite length_app; cbn; lia).
  rewrite Hb, HL. replace (pos + length (s ++ LAST_BOUNDARY u) - pos)%nat with (length (s ++ LAST_BOUNDARY u)) by lia.
  rewrite (bool_decide_eq_false_2 (memstr _ _ _ = None)), andb_false_r; cycle 1.
  { unfold memstr. rewrite app_assoc, take_app_length. apply strstr_present. }
  rewrite Eh. cbn [mbind res_bind].
  destruct (section_last u file s r Hu Hp H) as (W & ES & HW & HWne). rewrite ES. cbn [mbind res_bind].
  subst fuel'. replace (pos + length (s ++ LAST_BOUNDARY u))%nat with (pos + length s + length (LAST_BOUNDARY u))%nat
    by (rewrite length_app; lia).
  rewrite Hdone by (by rewrite <- drop_drop, Hb, drop_app_length). cbn [mbind res_bind].
  by exists W.
Qed.

(** ** The first pieces *)
Definition opened_session (u : upload_session) (field file type : list Z) : upload_session :=
  Upload (boundary u) (Some file) (Some type) (name_entries u ++ [(field, None)]) true.

Lemma begin_last_no u s : boundary_ok (boundary u) -> str_begin_with (boundary u ++ s) (LAST_BOUNDARY u) = false.
Proof. intros H. by apply begin_cr_boundary. Qed.

Lemma section_empty u r : data_section u (0 :: r) 0 = Ok (u, [], 0%nat).
Proof.
  unfold data_section, _next_possible_boundary, _handle_section, memstr.
  replace (str_begin_with (0 :: r) (COMMON_BOUNDARY u)) with false; cycle 1.
  { symmetry. apply bool_decide_eq_false. intros E. apply (f_equal head) in E. by vm_compute in E. }
  cbn [take memrchr]. unfold COMMON_BOUNDARY, crlf. cbn [app strstr length take].
  rewrite bool_decide_eq_false_2 by done. cbn. by destruct (filename u), (content_type u).
Qed.

Section First.
Context (u : upload_session) (field file type : list Z).
Context (Hb : boundary_ok (boundary u)) (Hshort : (length (boundary u) + 2 < buffer_third)%nat).
Context (Hfield : quotable field) (Hfile : quotable file) (Htype : type_ok type).
Context (Hclosed : file_opened u = false).

#[local] Abbreviation header := (file_header (boundary u) field file type).
#[local] Abbreviation u' := (opened_session u field file type).

Lemma receiving_opened : receiving u' file.
Proof. split; [done|by eexists]. Qed.

(** The iteration that reads the header. *)
Lemma upload_loop_header off fuel s r :
  (buffer_third <= length (header ++ s))%nat \/ strstr (header ++ s) (LAST_BOUNDARY u) <> None ->
  exists front, length front = length header /\
    upload_loop (S fuel) off u (header ++ s ++ r) 0 (length (header ++ s)) =
      ('(u, calls, n) ← data_section u' (s ++ r) (length s);
       '(u, b, offset, fin, calls') ←
         upload_loop fuel off u (front ++ s ++ r) (length header + n) (length header + length s);
       Ok (u, b, offset, fin, (upload_open file :: calls) ++ calls')).
Proof.
  intros Hnow. destruct (parse_file_header u field file type (s ++ r) (length (header ++ s)) Hb Hfield Hfile Htype)
    as (front & Hfr & Eh); [rewrite length_app; lia|].
  exists front. split; [done|]. cbn [upload_loop]. rewrite drop_0, Nat.sub_0_r.
  rewrite (proj2 (Nat.ltb_lt _ _)); cycle 1.
  { unfold file_header. rewrite !length_app. apply boundary_cases in Hb as (b & -> & _). cbn. lia. }
  assert (HL : str_begin_with (header ++ s ++ r) (LAST_BOUNDARY u) = false)
    by (unfold file_header; rewrite <- app_assoc; by apply begin_last_no).
  rewrite HL. unfold memstr. rewrite app_assoc, take_app_length.
  replace ((_ <? _)%nat && _) with false; cycle 1.
  { symmetry. apply andb_false_iff. destruct Hnow as [H|H]; [left; by apply Nat.ltb_ge|right].
    by apply bool_decide_eq_false_2. }
  rewrite <- app_assoc, Eh. cbn [mbind res_bind]. unfold open_or_close, file_session.
  cbn [filename content_type file_opened boundary name_entries]. rewrite Hclosed.
  replace (length (header ++ s) - length header)%nat with (length s) by (rewrite length_app; lia).
  rewrite <- (length_app header s), (drop_app_length' front) by done.
  fold (opened_session u field file type).
  destruct (data_section _ _ _) as [[[u1 calls] n]| | |]; done.
Qed.

Lemma upload_loop_first off s r :
  (buffer_third <= length (header ++ s))%nat -> clear (boundary u) s = true ->
  exists W k b', upload_loop (S (length (header ++ s))) off u (header ++ s ++ 0 :: r) 0 (length (header ++ s)) =
      Ok (u', b', length k, false, upload_open file :: map (upload_write file) W) /\
    concat W ++ k = s /\ Forall (fun d => d <> []) W /\ (length k < buffer_third)%nat /\
    take (length k) b' = k /\ length b' = length (header ++ s ++ 0 :: r).
Proof.
  intros Hlong Hs. pose proof (proj2 Hb) as Hp.
  destruct (upload_loop_header off (length (header ++ s)) s (0 :: r)) as (front & Hfr & ->); [by left|].
  assert (Hlen : length (header ++ s ++ 0 :: r) = length (front ++ s ++ 0 :: r))
    by (rewrite !(length_app _ (s ++ 0 :: r)); lia).
  assert (Hh : (length header <> 0)%nat)
    by (unfold file_header; apply boundary_cases in Hb as (b & -> & _); cbn; lia).
  destruct (decide (s = [])) as [->|Hne].
  { cbn [app length]. rewrite section_empty. cbn [mbind res_bind]. rewrite Nat.add_0_r, app_nil_r.
    destruct (length header) as [|n] eqn:E; [done|]. rewrite upload_loop_end. cbn [mbind res_bind app].
    exists [], [], (front ++ 0 :: r). cbn [app length] in *. split_and!; try done; lia. }
  destruct (section_data u' file s r receiving_opened Hp Hne Hs) as (W & n & ES & HW & HWne & Hn & Hrest).
  rewrite ES. cbn [mbind res_bind].
  destruct (upload_loop_data u' file off receiving_opened Hp Hshort (length (drop n s)) (length (header ++ s)) (drop n s)
    (front ++ s ++ 0 :: r) (length header + n) r) as (W' & k & b' & EL & Hk & HWne' & Hk1 & Hk2 & Hk3).
  { done. } { rewrite length_drop, length_app. lia. }
  { rewrite <- drop_drop, <- Hfr, drop_app_length. by rewrite drop_app_le by lia. } { by apply clear_drop. }
  replace (length header + n + length (drop n s))%nat with (length header + length s)%nat in EL
    by (rewrite length_drop; lia).
  rewrite EL. cbn [mbind res_bind]. exists (W ++ W'), k, b'.
  rewrite map_app, concat_app, <- app_assoc, Hk, HW, take_drop, Forall_app. split_and!; try done. lia.
Qed.

Lemma upload_loop_all off s r : clear (boundary u) s = true ->
  exists W b', upload_loop (S (length (header ++ s ++ LAST_BOUNDARY u))) off u
      (header ++ s ++ LAST_BOUNDARY u ++ r) 0 (length (header ++ s ++ LAST_BOUNDARY u)) =
      Ok (u', b', off, true, upload_open file :: map (upload_write file) W ++ [upload_done]) /\
    concat W = s /\ Forall (fun d => d <> []) W.
Proof.
  intros Hs. pose proof (proj2 Hb) as Hp.
  destruct (upload_loop_header off (length (header ++ s ++ LAST_BOUNDARY u)) (s ++ LAST_BOUNDARY u) r)
    as (front & Hfr & E); [right; rewrite app_assoc; apply strstr_present|].
  rewrite <- !app_assoc in E. rewrite E. clear E.
  change (LAST_BOUNDARY u) with (LAST_BOUNDARY u').
  destruct (section_last u' file s r receiving_opened Hp Hs) as (W & ES & HW & HWne).
  rewrite ES. cbn [mbind res_bind].
  destruct (length (header ++ s ++ LAST_BOUNDARY u')) as [|[|n]] eqn:En;
    [rewrite !length_app in En; cbn in En; lia..|].
  destruct (upload_loop_last u' file off n [] (front ++ s ++ LAST_BOUNDARY u' ++ r) (length header + length s) r
    receiving_opened Hp) as (W' & EL & HW' & HWne').
  { rewrite <- Hfr, <- length_app, app_assoc, drop_app_length. done. } { by apply (clear_drop _ (length s) s) in Hs; rewrite drop_ge in Hs. }
  cbn [app] in EL. rewrite length_app.
  replace (length header + (length s + length (LAST_BOUNDARY u')))%nat
    with (length header + length s + length (LAST_BOUNDARY u'))%nat by lia.
  rewrite EL. cbn [mbind res_bind]. exists W, (front ++ s ++ LAST_BOUNDARY u' ++ r).
  destruct W' as [|w W']; [done|]. cbn in HW'. apply Forall_cons in HWne' as [Hw _]. by destruct w.
Qed.
End First.

(** ** All pieces *)
Definition session_size : nat := Z.to_nat WEBNET_SESSION_BUFSZ.

Lemma session_size_z : Z.of_nat session_size = WEBNET_SESSION_BUFSZ.
Proof. reflexivity. Qed.

(** A piece is added to what is in the buffer, and looked at. *)
Lemma handle_piece u y b p : take (length y) b = y -> length b = session_size -> p <> [] ->
  (length y + length p < session_size)%nat -> strstr y (LAST_BOUNDARY u) = None ->
  exists r, length ((y ++ p) ++ 0 :: r) = session_size /\
    _webnet_module_upload_handle (Transfer b (length y) false u) p =
      ('(u, b, offset, fin, calls) ←
         upload_loop (S (length (y ++ p))) (length y) u ((y ++ p) ++ 0 :: r) 0 (length (y ++ p));
       Ok (Transfer b offset fin u, calls)).
Proof.
  intros Hy Hb Hp Hroom HN.
  assert (Ew : buf_write b (Z.of_nat (length y)) p = Some (y ++ p ++ drop (length y + length p) b)).
  { rewrite buf_write_some by (unfold zlen; lia). by rewrite Nat2Z.id, Hy. }
  destruct (drop (length y + length p) b) as [|x r] eqn:Er.
  { apply (f_equal length) in Er. rewrite length_drop in Er. cbn in Er. lia. }
  exists r. pose proof (f_equal length Er) as El. rewrite length_drop in El. cbn [length] in El.
  split; [rewrite !length_app; cbn [length]; lia|].
  unfold _webnet_module_upload_handle, upload_read. cbn [t_buffer t_offset t_upload t_closed].
  unfold memstr. rewrite Hy, HN. destruct p as [|c p]; [done|]. set (p' := c :: p) in *.
  rewrite (proj2 (Nat.ltb_lt _ _)) by lia. rewrite Ew. cbn [defined mbind res_bind].
  rewrite (proj2 (Nat.eqb_neq _ _)) by (cbn; lia).
  replace (length y + length p')%nat with (length (y ++ p')) by apply length_app.
  rewrite buf_set_some by (unfold zlen; rewrite !length_app; cbn [length]; lia).
  cbn [defined mbind res_bind]. rewrite Nat2Z.id, app_assoc, insert_next. done.
Qed.

Lemma prefix_of_data (p q d tail : list Z) : p ++ q = d ++ tail -> (length tail <= length q)%nat ->
  exists d', d = p ++ d' /\ q = d' ++ tail.
Proof.
  intros E Hl. pose proof (f_equal length E) as El. rewrite !length_app in El.
  exists (drop (length p) d). split.
  - rewrite <- (take_drop (length p) d) at 1. f_equal.
    apply (f_equal (take (length p))) in E. rewrite take_app_length, take_app_le in E by lia. done.
  - apply (f_equal (drop (length p))) in E. by rewrite drop_app_length, drop_app_le in E by lia.
Qed.

(** The pieces that the socket gives: never empty, and with what can be left in
    the buffer they fit into it. *)
Definition pieces_ok (pieces : list (list Z)) : Prop :=
  Forall (fun p => p <> [] /\ (length p + buffer_third < session_size)%nat) pieces.

#[export] Instance pieces_ok_dec pieces : Decision (pieces_ok pieces).
Proof. unfold pieces_ok. apply Forall_dec. intros p. apply _. Defined.

Section Pieces.
Context (u : upload_session) (field file type : list Z).
Context (Hb : boundary_ok (boundary u)) (Hshort : (length (boundary u) + 2 < buffer_third)%nat).
Context (Hfield : quotable field) (Hfile : quotable file) (Htype : type_ok type).
Context (Hclosed : file_opened u = false).
Context (last : list Z) (Hlast : (length (LAST_BOUNDARY u) <= length last)%nat).

#[local] Abbreviation header := (file_header (boundary u) field file type).
#[local] Abbreviation u' := (opened_session u field file type).

Lemma upload_data_pieces ps : forall k d b,
  pieces_ok (ps ++ [last]) -> concat ps ++ last = d ++ LAST_BOUNDARY u ->
  take (length k) b = k -> (length k <= buffer_third)%nat -> length b = session_size ->
  clear (boundary u) (k ++ d) = true ->
  exists W t, upload_all (Transfer b (length k) false u') (ps ++ [last]) =
      Ok (t, map (upload_write file) W ++ [upload_done; upload_close]) /\
    concat W = k ++ d /\ Forall (fun w => w <> []) W /\ t_closed t = true.
Proof.
  pose proof (proj2 Hb) as Hp. pose proof (receiving_opened u field file type) as Hu.
  induction ps as [|p ps IH]; intros k d b Hok Hcat Hk Hkl Hbl Hc; cbn [app concat upload_all t_closed] in *.
  - apply Forall_cons in Hok as [[Hp1 Hp2] _].
    assert (HN : strstr k (LAST_BOUNDARY u') = None).
    { apply strstr_clear. rewrite <- (take_app_length k d). by apply clear_drop, clear_take. }
    destruct (handle_piece u' k b last Hk Hbl Hp1 ltac:(lia) HN) as (r & Hr & ->).
    rewrite Hcat, app_assoc. change (LAST_BOUNDARY u) with (LAST_BOUNDARY u').
    assert (En : exists n, length ((k ++ d) ++ LAST_BOUNDARY u') = S n)
      by (exists (length ((k ++ d) ++ LAST_BOUNDARY u') - 1)%nat; rewrite length_app; cbn; lia).
    destruct En as [n En].
    replace (upload_loop (S (length ((k ++ d) ++ LAST_BOUNDARY u')))) with (upload_loop (S (S n)))
      by (by rewrite En).
    destruct (upload_loop_last u' file (length k) n (k ++ d) (((k ++ d) ++ LAST_BOUNDARY u') ++ 0 :: r) 0 (0 :: r) Hu Hp)
      as (W & EL & HW & HWne); [by rewrite drop_0, <- app_assoc|done|].
    cbn [Nat.add] in EL. rewrite EL. cbn [mbind res_bind upload_all t_closed orb].
    eexists W, _. split; [rewrite <- (app_assoc (map (upload_write file) W)); reflexivity|by split_and!].
  - apply Forall_cons in Hok as [[Hp1 Hp2] Hok].
    rewrite <- app_assoc in Hcat. apply prefix_of_data in Hcat as (d' & -> & Hcat);
      [|rewrite length_app; lia].
    rewrite app_assoc in Hc.
    assert (Hkp : clear (boundary u) (k ++ p) = true).
    { rewrite <- (take_app_length (k ++ p) d'). by apply clear_take. }
    assert (HN : strstr k (LAST_BOUNDARY u') = None).
    { apply strstr_clear. rewrite <- (take_app_length k p). by apply clear_drop, clear_take. }
    destruct (handle_piece u' k b p Hk Hbl Hp1 ltac:(lia) HN) as (r & Hr & ->).
    destruct (upload_loop_data u' file (length k) Hu Hp Hshort (length (k ++ p)) (S (length (k ++ p))) (k ++ p)
      ((k ++ p) ++ 0 :: r) 0 r) as (W & k' & b' & EL & Hk' & HWne & Hk1 & Hk2 & Hk3);
      [done|lia|by rewrite drop_0|done|].
    cbn [Nat.add] in EL. rewrite EL. cbn [mbind res_bind].
    destruct (IH k' d' b' Hok Hcat Hk2 ltac:(lia) ltac:(lia)) as (W' & t & EA & HW' & HWne' & Ht).
    { rewrite <- Hk' in Hc. rewrite <- app_assoc in Hc.
      pose proof (clear_drop (boundary u) (length (concat W)) _ Hc) as Hc'.
      by rewrite drop_app_length in Hc'. }
    rewrite EA. cbn [mbind res_bind]. exists (W ++ W'), t.
    split; [by rewrite map_app, <- app_assoc|].
    split; [by rewrite concat_app, HW', (app_assoc (concat W)), Hk', <- app_assoc|].
    split; [by apply Forall_app|done].
Qed.

Lemma upload_first_pieces D ps : forall y e b,
  (length header <= buffer_third)%nat -> clear (boundary u) (drop 1 (header ++ D)) = true ->
  pieces_ok (ps ++ [last]) -> header ++ D = y ++ e -> concat ps ++ last = e ++ LAST_BOUNDARY u ->
  take (length y) b = y -> (length y <= buffer_third)%nat -> length b = session_size ->
  exists W t, upload_all (Transfer b (length y) false u) (ps ++ [last]) =
      Ok (t, upload_open file :: map (upload_write file) W ++ [upload_done; upload_close]) /\
    concat W = D /\ Forall (fun w => w <> []) W /\ t_closed t = true.
Proof.
  intros y e b Hh Hc. revert y e b.
  assert (Hh1 : (1 <= length header)%nat)
    by (unfold file_header; apply boundary_cases in Hb as (x & -> & _); cbn; lia).
  assert (HD : clear (boundary u) D = true).
  { pose proof (clear_drop _ (length header - 1) _ Hc) as H. rewrite drop_drop in H.
    replace (1 + (length header - 1))%nat with (length header) in H by lia.
    by rewrite drop_app_length in H. }
  assert (HN : forall y e, header ++ D = y ++ e -> strstr y (LAST_BOUNDARY u) = None).
  { intros y e E. apply strstr_clear. rewrite <- (take_app_length y e), <- E, List.skipn_firstn_comm.
    by apply clear_take. }
  induction ps as [|p ps IH]; intros y e b Hok Hsplit Hcat Hy Hyl Hbl; cbn [app concat upload_all t_closed] in *;
    apply Forall_cons in Hok as [[Hp1 Hp2] Hok];
    [destruct (handle_piece u y b last Hy Hbl Hp1 ltac:(lia) (HN _ _ Hsplit)) as (r & Hr & ->)
    |destruct (handle_piece u y b p Hy Hbl Hp1 ltac:(lia) (HN _ _ Hsplit)) as (r & Hr & ->)].
  - rewrite Hcat, app_assoc, <- Hsplit, <- app_assoc.
    destruct (upload_loop_all u field file type Hb Hshort Hfield Hfile Htype Hclosed (length y) D (0 :: r) HD)
      as (W & b' & EL & HW & HWne).
    rewrite <- !app_assoc, EL. cbn [mbind res_bind upload_all t_closed].
    eexists W, _. split; [cbn [app]; rewrite <- (app_assoc (map (upload_write file) W)); reflexivity|by split_and!].
  - rewrite <- app_assoc in Hcat. apply prefix_of_data in Hcat as (e' & -> & Hcat);
      [|rewrite length_app; lia].
    rewrite app_assoc in Hsplit.
    destruct (le_lt_dec buffer_third (length (y ++ p))) as [Hlong|Hlow].
    + destruct (prefix_of_data header D (y ++ p) e') as (s & Es & ->); [done| |].
      { apply (f_equal length) in Hsplit. rewrite (length_app header), (length_app _ e') in Hsplit. lia. }
      rewrite Es in Hlong, Hr |- *. rewrite <- app_assoc.
      assert (Hs : clear (boundary u) s = true)
        by (rewrite <- (take_app_length s e'); by apply clear_take).
      destruct (upload_loop_first u field file type Hb Hshort Hfield Hfile Htype Hclosed (length y) s r Hlong Hs)
        as (W & k & b' & EL & Hk & HWne & Hk1 & Hk2 & Hk3).
      rewrite EL. cbn [mbind res_bind]. rewrite <- app_assoc in Hr.
      destruct (upload_data_pieces ps k e' b' Hok Hcat Hk2 ltac:(lia) ltac:(lia)) as (W' & t & EA & HW' & HWne' & Ht).
      { rewrite <- Hk, <- app_assoc in HD. pose proof (clear_drop (boundary u) (length (concat W)) _ HD) as Hc'.
        by rewrite drop_app_length in Hc'. }
      rewrite EA. cbn [mbind res_bind]. exists (W ++ W'), t.
      split; [cbn [app]; by rewrite map_app, <- app_assoc|].
      split; [by rewrite concat_app, HW', (app_assoc (concat W)), Hk|].
      split; [by apply Forall_app|done].
    + destruct (y ++ p) as [|c z] eqn:Ez; [by apply app_nil in Ez as [_ ->]|]. rewrite <- Ez in *.
      assert (Hc45 : c = 45).
      { rewrite Ez in Hsplit. unfold file_header in Hsplit. apply boundary_cases in Hb as (x & Ex & _).
        rewrite Ex in Hsplit. by injection Hsplit. }
      pose proof (upload_loop_wait (length (y ++ p)) (length y) u ((y ++ p) ++ 0 :: r) 0 (y ++ p) (0 :: r)) as EL.
      cbn [Nat.add] in EL. rewrite EL; [|by rewrite Ez|by rewrite drop_0| |done|by eapply HN]; cycle 1.
      { rewrite Ez, Hc45. apply bool_decide_eq_false. intros E. apply (f_equal head) in E. by vm_compute in E. }
      cbn [mbind res_bind]. rewrite drop_app_length.
      destruct (IH (y ++ p) e' ((y ++ p) ++ 0 :: r) Hok Hsplit Hcat ltac:(by rewrite take_app_length) ltac:(lia) Hr)
        as (W & t & EA & HW). rewrite EA. cbn [mbind res_bind app]. by exists W, t.
Qed.
End Pieces.

(** ** What arrives *)

(** Everything that is asked of the upload of one file: a boundary of which
    nothing in the part is a copy, names and a type as a browser sends them,
    and pieces that fit, the last of which holds the whole last boundary.  [y]
    is what came with the head of the request, at the start of the buffer
    [b]. *)
Record file_upload (u : upload_session) (field file type data y b : list Z)
    (pieces : list (list Z)) (last : list Z) : Prop := {
  up_boundary : boundary_ok (boundary u) /\ (length (boundary u) + 2 < buffer_third)%nat;
  up_fields : quotable field /\ quotable file /\ type_ok type;
  up_header : (length (file_header (boundary u) field file type) <= buffer_third)%nat;
  up_clear : clear (boundary u) (drop 1 (file_header (boundary u) field file type ++ data)) = true;
  up_buffer : take (length y) b = y /\ (length y <= buffer_third)%nat /\ length b = session_size;
  up_pieces : pieces_ok (pieces ++ [last]) /\ (length (LAST_BOUNDARY u) <= length last)%nat;
  up_body : y ++ concat pieces ++ last =
    file_header (boundary u) field file type ++ data ++ LAST_BOUNDARY u }.

(** A buffer that begins with [y]. *)
Definition buffer_with (y : list Z) : list Z := y ++ replicate (session_size - length y) 0.

Lemma file_upload_buffer u field file type data y b b' pieces last :
  take (length y) b' = y -> zlen b' = WEBNET_SESSION_BUFSZ ->
  file_upload u field file type data y b pieces last -> file_upload u field file type data y b' pieces last.
Proof.
  intros Hy Hb []. split; try done. split; [done|]. split; [tauto|]. unfold session_size. unfold zlen in Hb. lia.
Qed.

Lemma file_upload_received ty u field file type data y b pieces last :
  webnet_module_upload_open ty = Ok u -> file_upload u field file type data y b pieces last ->
  exists W t, upload_all (Transfer b (length y) false u) (pieces ++ [last]) =
      Ok (t, upload_open file :: map (upload_write file) W ++ [upload_done; upload_close]) /\
    concat W = data /\ Forall (fun w => w <> []) W /\ t_closed t = true.
Proof.
  intros Ho [[Hb Hs] (Hf & Hn & Ht) Hh Hc (Hy & Hyl & Hbl) [Hok Hlast] Hbody].
  assert (Hclosed : file_opened u = false).
  { unfold webnet_module_upload_open in Ho. destruct (strstr ty _); [|done]. by injection Ho as <-. }
  destruct (prefix_of_data y (concat pieces ++ last) (file_header (boundary u) field file type ++ data)
    (LAST_BOUNDARY u)) as (e & He & Hcat).
  { rewrite Hbody. by rewrite <- app_assoc. } { rewrite length_app. lia. }
  by apply (upload_first_pieces u field file type Hb Hs Hf Hn Ht Hclosed last Hlast data pieces y e b).
Qed.

(** A file is received as it was sent: whatever pieces the body of a
    multipart upload comes in, as long as the last boundary is not cut, the
    upload entry is opened with the name of the file, given bytes that put
    together are exactly the bytes of the file, and then told that the upload
    is done and closed, and the session is closed. *)
Theorem multipart_file_received ty u field file type data y b pieces last :
  webnet_module_upload_open ty = Ok u -> file_upload u field file type data y b pieces last ->
  exists W t, upload_all (Transfer b (length y) false u) (pieces ++ [last]) =
      Ok (t, upload_open file :: map (upload_write file) W ++ [upload_done; upload_close]) /\
    concat W = data /\ Forall (fun w => w <> []) W /\ t_closed t = true.
Proof.
  intros Ho H. exact (file_upload_received ty u field file type data y b pieces last Ho H).
Qed.

(** *** A file in three pieces *)
Definition sample_type : list Z := str "multipart/form-data; boundary=XyZ".

Definition sample_session : upload_session := Upload (str "--XyZ") None None [] false.

Definition sample_header : list Z := file_header (str "--XyZ") (str "f") (str "a.txt") (str "text/plain").

Definition sample_data : list Z := replicate 1400 65 ++ crlf ++ replicate 1300 66 ++ [13].

Definition sample_body : list Z := sample_header ++ sample_data ++ LAST_BOUNDARY sample_session.

Lemma sample_upload :
  file_upload sample_session (str "f") (str "a.txt") (str "text/plain") sample_data
    (take 40 sample_body) (take 40 sample_body ++ replicate 4056 7)
    [take 1500 (drop 40 sample_body)] (drop 1540 sample_body).
Proof.
  split; [by_decide|by_decide|by_decide|by vm_compute|by_decide|by_decide|].
  cbn [concat]. rewrite app_nil_r. replace (drop 1540 sample_body) with (drop 1500 (drop 40 sample_body))
    by (rewrite drop_drop; reflexivity).
  by rewrite !take_drop.
Defined.

Example multipart_file_received_witness :
  exists W t, upload_all (Transfer (take 40 sample_body ++ replicate 4056 7) 40 false sample_session)
      [take 1500 (drop 40 sample_body); drop 1540 sample_body] =
      Ok (t, upload_open (str "a.txt") :: map (upload_write (str "a.txt")) W ++ [upload_done; upload_close]) /\
    concat W = sample_data /\ Forall (fun w => w <> []) W /\ t_closed t = true.
Proof.
  exact (multipart_file_received sample_type sample_session (str "f") (str "a.txt") (str "text/plain")
    sample_data (take 40 sample_body) (take 40 sample_body ++ replicate 4056 7)
    [take 1500 (drop 40 sample_body)] (drop 1540 sample_body) eq_refl sample_upload).
Defined.

(** ** The buffer keeps its length *)
Lemma quoted_length mem pos mem' pos' : quoted mem pos = Ok (mem', pos') -> length mem' = length mem.
Proof.
  unfold quoted. intros E. apply Ok_bind in E as (k & _ & [= <- _]). by rewrite length_insert.
Qed.

Lemma name_length mem pos h mem' pos' h' :
  disposition_name mem pos h = Ok (mem', pos', h') -> length mem' = length mem.
Proof.
  unfold disposition_name. destruct (begins _ _ _); [|by intros [= <- _ _]].
  intros E. apply Ok_bind in E as ([m n] & Hq & [= <- _ _]). by eapply quoted_length.
Qed.

Lemma filename_length mem pos h mem' pos' h' :
  disposition_filename mem pos h = Ok (mem', pos', h') -> length mem' = length mem.
Proof.
  unfold disposition_filename. destruct (begins _ _ _); [|by intros [= <- _ _]].
  intros E. apply Ok_bind in E as ([m n] & Hq & [= <- _ _]). by eapply quoted_length.
Qed.

Lemma disposition_length mem pos h mem' pos' h' : disposition mem pos h = Ok (mem', pos', h') ->
  length mem' = length mem.
Proof.
  unfold disposition. destruct (begins _ _ _); [|by intros [= <- _ _]].
  intros E. apply Ok_bind in E as ([[m n] h1] & H1 & H2).
  apply name_length in H1. apply filename_length in H2. congruence.
Qed.

Lemma section_lines_length fuel : forall u mem n pos h u' mem' pos',
  section_lines fuel u mem n pos h = Ok (u', mem', pos') -> length mem' = length mem.
Proof.
  induction fuel as [|fuel IH]; intros u mem n pos h u' mem' pos' H; [done|]. cbn [section_lines] in H.
  case_match; [|by injection H as _ <- _].
  assert (K : forall mem pos h,
    (if (n <? pos)%nat then Undef
     else k ← defined (memstr (drop pos mem) (n - pos) crlf);
          section_lines fuel u (end_line mem (pos + k)) n (pos + k + 2) h) = Ok (u', mem', pos') ->
    length mem' = length mem).
  { intros m q g E. case_match; [done|]. apply Ok_bind in E as (k & _ & E). apply IH in E.
    by rewrite E, end_line_length. }
  destruct (begins mem pos (str "Content-Disposition:")).
  { apply Ok_bind in H as ([[m q] g] & Hd & H). apply K in H. by rewrite H, (disposition_length _ _ _ _ _ _ Hd). }
  destruct (begins mem pos (str "Content-Type:")); [by apply K in H|].
  destruct (begins mem pos (str "Content-Range:")); [by apply K in H|].
  destruct (str_begin_with (drop pos mem) crlf); [|by apply K in H].
  apply Ok_bind in H as (u1 & _ & H). by injection H as _ <- _.
Qed.

Lemma upload_loop_length stop fuel : forall offset u b pos u' b' offset' fin calls, (stop <= length b)%nat ->
  upload_loop fuel offset u b pos stop = Ok (u', b', offset', fin, calls) -> length b' = length b.
Proof.
  induction fuel as [|fuel IH]; intros offset u b pos u' b' offset' fin calls Hs H; [done|]. cbn [upload_loop] in H.
  destruct (Nat.ltb_spec pos stop) as [Hp|Hp]; [|by injection H as _ <- _ _ _].
  case_match; [by injection H as _ <- _ _ _|].
  case_match.
  { injection H as _ <- _ _ _. rewrite length_app, length_take, !length_drop. lia. }
  apply Ok_bind in H as (r & Hh & H). destruct r as [[[u1 mem] used]|].
  - assert (Hm : length mem = length (drop pos b)).
    { unfold _webnet_module_upload_parse_header in Hh.
      destruct (str_begin_with _ (LAST_BOUNDARY u)); [by injection Hh as _ <- _|].
      destruct (_ =? 0)%nat; [done|]. apply Ok_bind in Hh as ([[u2 m] k] & Hl & Hh). injection Hh as <- <- <-.
      by eapply section_lines_length. }
    assert (Hb : length (take pos b ++ mem) = length b)
      by (rewrite length_app, Hm, length_take, length_drop; lia).
    destruct (open_or_close u1) as [u2 calls1]. apply Ok_bind in H as ([[u3 calls2] k] & _ & H).
    apply Ok_bind in H as ([[[[u4 b4] off4] fin4] calls4] & Hl & H). injection H as _ <- _ _ _.
    apply IH in Hl; [congruence|lia].
  - apply Ok_bind in H as ([[u3 calls2] k] & _ & H).
    apply Ok_bind in H as ([[[[u4 b4] off4] fin4] calls4] & Hl & H). injection H as _ <- _ _ _.
    by apply IH in Hl.
Qed.

Lemma upload_handle_length t recv t' calls :
  _webnet_module_upload_handle t recv = Ok (t', calls) -> length (t_buffer t') = length (t_buffer t).
Proof.
  intros H. unfold _webnet_module_upload_handle in H. apply Ok_bind in H as ([[b stop] closed] & Hr & H).
  assert (Hb : length b = length (t_buffer t)).
  { unfold upload_read in Hr. destruct (memstr _ _ _); [by injection Hr as <- _ _|].
    destruct recv as [|c recv]; [by injection Hr as <- _ _|].
    destruct (_ <? _)%nat; [|done]. apply Ok_bind in Hr as (b1 & Hw & Hr). injection Hr as <- _ _.
    by eapply buf_write_len, defined_Ok. }
  destruct (stop =? 0)%nat; [by injection H as <- _|].
  apply Ok_bind in H as (b1 & Hs & H). apply defined_Ok in Hs. unfold buf_set in Hs.
  destruct (_ && _) eqn:E; [|done]. injection Hs as <-. apply Ok_bind in H as ([[[[u2 b2] off2] fin2] calls2] & Hl & H). injection H as <- _.
  cbn [t_buffer]. apply andb_true_iff in E as [_ E]. apply Z.ltb_lt in E. unfold zlen in E.
  apply upload_loop_length in Hl; rewrite length_insert in *; lia.
Qed.

(** ** The upload is done at its end only *)
Lemma handle_section_not_done u mem n u' calls : _handle_section u mem n = Ok (u', calls) -> upload_done ∉ calls.
Proof.
  unfold _handle_section. intros E.
  assert (K : forall x : res (upload_session * list upload_call),
    (x = match memstr mem n crlf with
         | None => Ok (u, [])
         | Some k =>
             l ← defined (set_value (take k mem) (name_entries u));
             Ok (Upload (boundary u) (filename u) (content_type u) l (file_opened u), [])
         end) -> x = Ok (u', calls) -> upload_done ∉ calls).
  { intros x -> Hx. destruct (memstr _ _ _); [|injection Hx as _ <-; apply not_elem_of_nil].
    apply Ok_bind in Hx as (l & _ & [= _ <-]). apply not_elem_of_nil. }
  destruct (filename u), (content_type u), n; try (by eapply K).
  injection E as _ <-. by intros H%list_elem_of_singleton.
Qed.

Lemma data_section_not_done u mem n u' calls k : data_section u mem n = Ok (u', calls, k) -> upload_done ∉ calls.
Proof.
  unfold data_section. intros E. apply Ok_bind in E as (p & _ & E). apply Ok_bind in E as ([u1 c] & H & [= _ <- _]).
  by eapply handle_section_not_done.
Qed.

Lemma open_or_close_not_done u : upload_done ∉ (open_or_close u).2.
Proof.
  unfold open_or_close. destruct (filename u), (content_type u), (file_opened u); cbn;
    intros H; repeat (apply elem_of_cons in H as [H|H]; [done|]); by apply not_elem_of_nil in H.
Qed.

Lemma upload_loop_not_done stop fuel : forall offset u b pos u' b' offset' calls,
  upload_loop fuel offset u b pos stop = Ok (u', b', offset', false, calls) -> upload_done ∉ calls.
Proof.
  induction fuel as [|fuel IH]; intros offset u b pos u' b' offset' calls H; [done|]. cbn [upload_loop] in H.
  destruct (pos <? stop)%nat; [|injection H as _ _ _ <-; apply not_elem_of_nil].
  case_match; [done|]. case_match; [injection H as _ _ _ <-; apply not_elem_of_nil|].
  apply Ok_bind in H as (r & _ & H). destruct r as [[[u1 mem] used]|].
  - pose proof (open_or_close_not_done u1) as Ho. destruct (open_or_close u1) as [u2 calls1].
    apply Ok_bind in H as ([[u3 calls2] k] & Hd & H).
    apply Ok_bind in H as ([[[[u4 b4] off4] fin4] calls4] & Hl & H). injection H as _ _ _ -> <-.
    rewrite !elem_of_app. apply data_section_not_done in Hd. apply IH in Hl. cbn in Ho. tauto.
  - apply Ok_bind in H as ([[u3 calls2] k] & Hd & H).
    apply Ok_bind in H as ([[[[u4 b4] off4] fin4] calls4] & Hl & H). injection H as _ _ _ -> <-.
    rewrite elem_of_app. apply data_section_not_done in Hd. apply IH in Hl. tauto.
Qed.

Lemma upload_handle_not_done t recv t' calls :
  _webnet_module_upload_handle t recv = Ok (t', calls) -> t_closed t' = false -> upload_done ∉ calls.
Proof.
  unfold _webnet_module_upload_handle. intros H Hc. apply Ok_bind in H as ([[b stop] closed] & _ & H).
  destruct (stop =? 0)%nat; [injection H as <- <-; apply not_elem_of_nil|].
  apply Ok_bind in H as (b1 & _ & H). apply Ok_bind in H as ([[[[u2 b2] off2] fin2] calls2] & Hl & H).
  injection H as <- <-. cbn in Hc. apply orb_false_iff in Hc as [_ ->]. by eapply upload_loop_not_done.
Qed.

(** ** What goes wrong *)

(** An upload can hang the server: if the bytes that are looked at begin
    with an end of line and the boundary, but neither an end of line nor two
    dashes and an end of line follow, they are no header and no data, and the
    loop looks at them again forever. *)
Theorem upload_hangs u b pos stop r fuel off :
  (pos + buffer_third <= stop)%nat ->
  drop pos b = COMMON_BOUNDARY u ++ r -> str_begin_with r crlf = false ->
  str_begin_with r (str "--" ++ crlf) = false ->
  boundary_ok (boundary u) -> is_Some (filename u) -> is_Some (content_type u) ->
  upload_loop fuel off u b pos stop = NoFuel.
Proof.
  intros Hstop Hb Hr1 Hr2 Hbd [f Hf] [ty Hty]. induction fuel as [|fuel IH]; [done|].
  assert (Hl : forall t, str_begin_with r t = false -> str_begin_with (COMMON_BOUNDARY u ++ r) (COMMON_BOUNDARY u ++ t) = false).
  { intros t Ht. apply bool_decide_eq_false. apply bool_decide_eq_false in Ht. intros E. apply Ht.
    rewrite length_app, take_app, (take_ge (COMMON_BOUNDARY u)), !map_app in E by lia.
    apply app_inv_head in E. rewrite <- E. do 2 f_equal. lia. }
  assert (Hpos : (1 <= buffer_third)%nat) by (by apply Nat.leb_le).
  cbn [upload_loop]. rewrite (proj2 (Nat.ltb_lt _ _)) by lia.
  rewrite Hb. replace (LAST_BOUNDARY u) with (COMMON_BOUNDARY u ++ str "--" ++ crlf)
    by (unfold LAST_BOUNDARY, COMMON_BOUNDARY; by rewrite <- app_assoc).
  rewrite Hl by done.
  rewrite (proj2 (Nat.ltb_ge (stop - pos) buffer_third)) by lia.
  cbn [andb]. unfold _webnet_module_upload_parse_header.
  replace (LAST_BOUNDARY u) with (COMMON_BOUNDARY u ++ str "--" ++ crlf)
    by (unfold LAST_BOUNDARY, COMMON_BOUNDARY; by rewrite <- app_assoc).
  replace (NORMAL_BOUNDARY u) with (COMMON_BOUNDARY u ++ crlf)
    by (unfold NORMAL_BOUNDARY, COMMON_BOUNDARY; by rewrite <- app_assoc).
  rewrite !Hl by done. unfold FIRST_BOUNDARY.
  rewrite begin_no_more; cycle 1.
  { apply boundary_cases in Hbd as (x & -> & _). apply bool_decide_eq_false. intros E.
    apply (f_equal head) in E. by vm_compute in E. }
  cbn [mbind res_bind Nat.eqb]. unfold data_section, _next_possible_boundary. rewrite begin_same.
  cbn [mbind res_bind default]. unfold _handle_section.
  rewrite Hf, Hty.
  change (id 0%nat) with 0%nat. cbv iota.
  change (memstr (COMMON_BOUNDARY u ++ r) 0 crlf) with (@None nat).
  cbn [mbind res_bind]. by rewrite Nat.add_0_r, IH.
Qed.

Example upload_hangs_witness :
  let u := file_session sample_session (str "f") (str "a.txt") (str "text/plain") in
  let b := COMMON_BOUNDARY u ++ str "-" ++ replicate 4000 65 in
  upload_loop 4001 0 u b 0 4000 = NoFuel.
Proof.
  apply (upload_hangs (file_session sample_session (str "f") (str "a.txt") (str "text/plain"))
    (COMMON_BOUNDARY sample_session ++ str "-" ++ replicate 4000 65) 0 4000 (str "-" ++ replicate 4000 65)
    4001 0).
  - by apply Nat.leb_le.
  - done.
  - by vm_compute.
  - by vm_compute.
  - by_decide.
  - by eexists.
  - by eexists.
Defined.

(** A piece that ends between the end of line and the last boundary: the end of
    line is given to the entry as data, the last boundary is not recognised,
    and the upload is never done. *)
Example last_boundary_cut :
  let pieces := [sample_header ++ replicate 1400 65 ++ crlf; str "--XyZ--" ++ crlf] in
  exists t, upload_all (Transfer (replicate 4096 0) 0 false sample_session) pieces =
    Ok (t, [upload_open (str "a.txt"); upload_write (str "a.txt") (replicate 1400 65 ++ crlf)]) /\
  t_closed t = false.
Proof. eexists. split; [vm_compute; reflexivity|done]. Qed.

(** Two files in one form: the entry is not opened for the second. *)
Example second_file_not_opened :
  exists t, upload_all (Transfer (replicate 4096 0) 0 false sample_session)
    [sample_header ++ str "one" ++ crlf ++
     file_header (str "--XyZ") (str "g") (str "b.txt") (str "text/plain") ++ str "two" ++
     LAST_BOUNDARY sample_session] =
    Ok (t, [upload_open (str "a.txt"); upload_write (str "a.txt") (str "one");
      upload_write (str "b.txt") (str "two"); upload_done;
            upload_close]).
Proof. eexists. vm_compute. reflexivity. Qed.

(** Data in front of the first header: the value of a field that does not
    exist is written. *)
Example body_without_boundary :
  _webnet_module_upload_handle (Transfer (replicate 4096 0) 0 false sample_session)
    (str "x" ++ crlf ++ replicate 1400 65) = Undef.
Proof. by vm_compute. Qed.

(** A content type without a boundary leaves the boundary uninitialised. *)
Example type_without_boundary : webnet_module_upload_open (str "multipart/form-data") = Undef.
Proof. reflexivity. Qed.
