(* ===== verification/WebStored.v ===== *)
(** * From the network to the file

    The multipart upload of [WebMultipart] with the directory upload of
    [WebUpload] as its entry: the calls that taking a body apart makes are the
    calls of src/module/web/wn_dir_upload.c. *)

From S2P Require Import Prelude Flash Fal CLib WebPath FileSys WebUpload.
From S2P Require Import Json JsonParse WebQuery WebRequest WebMultipart.

Local Open Scope Z_scope.

Section Stored.
Context {F : Type} `{!FileSys F}.

(** The entry [upload_dir_upload]: [query] is the [path] parameter of the
    request, and [stack] what the local buffer of [upload_write] holds before
    it is filled. *)
Definition entry_call (stack : list Z) (query : option (list Z)) (c : upload_call) (s : DirUpload.dir_state)
  : option (@DirUpload.dir_state F) :=
  match c with
  | upload_open _ => Some (DirUpload.upload_open true query s)
  | upload_write name data => snd <$> DirUpload.upload_write stack name data s
  | upload_done => snd <$> DirUpload.upload_done s
  | upload_close => Some (DirUpload.upload_close s)
  end.

Fixpoint entry_calls (stack : list Z) (query : option (list Z)) (cs : list upload_call) (s : DirUpload.dir_state)
  : option (@DirUpload.dir_state F) :=
  match cs with
  | [] => Some s
  | c :: cs => s ← entry_call stack query c s; entry_calls stack query cs s
  end.

Lemma entry_calls_app stack query cs cs' s :
  entry_calls stack query (cs ++ cs') s =
  (s ← entry_calls stack query cs s; entry_calls stack query cs' s).
Proof.
  revert s. induction cs as [|c cs IH]; intros s; [done|]. cbn [app entry_calls].
  destruct (entry_call stack query c s) as [s1|]; [apply IH|done].
Qed.

Lemma entry_writes stack query name ds s :
  entry_calls stack query (map (upload_write name) ds) s = snd <$> DirUpload.upload_pieces stack name ds s.
Proof.
  revert s. induction ds as [|d ds IH]; intros s; [done|].
  cbn [map entry_calls entry_call DirUpload.upload_pieces].
  destruct (DirUpload.upload_write stack name d s) as [[r s1]|]; [|done].
  cbn [fmap option_fmap option_map mbind option_bind snd]. rewrite IH.
  by destruct (DirUpload.upload_pieces stack name ds s1) as [[rs s2]|].
Qed.

Context `{!FileSysLaws F}.

(** A file that is opened and written, piece by piece. *)
Lemma stored_calls stack p base file n st W fd f1 s :
  concat W <> [] -> DirUpload.old_filename s <> file -> cstring file -> cstring p ->
  zlen stack = MAX_FILENAME_LENGTH -> zlen file + zlen p + 2 <= MAX_FILENAME_LENGTH ->
  normal (p ++ [slash]) = Some base -> resolve base (names file) = Some (n :: st) -> n <> [] ->
  DirUpload.make_and_open (DirUpload.dirs_of st) (render (n :: st)) (DirUpload.files s) = (fd, f1) -> 0 < fd ->
  (forall f d, fs_cursor f fd <> None -> fst (fs_write f fd d) = zlen d) -> zlen (concat W) < 2 ^ 31 ->
  let old := default [] (fs_data (DirUpload.files s) (render (n :: st))) in
  exists f', entry_calls stack (Some p) (upload_open file :: map (upload_write file) W) s =
      Some (DirUpload.DirState file (Some (DirUpload.UploadMgr fd (zlen (concat W)) (Some p))) f') /\
    fs_data f' (render (n :: st)) = Some (concat W ++ drop (length (concat W)) old) /\
    forall q, q <> render (n :: st) -> fs_data f' q = fs_data (DirUpload.files s) q.
Proof.
  intros Hne Hold Hcf Hcp Hst Hfit Hbase Hres Hn Hopen Hfd Hw Hsum old.
  destruct W as [|w W]; [done|]. set (s0 := DirUpload.upload_open true (Some p) s).
  destruct (DirUpload.file_stored stack file p base n st w W s0 (DirUpload.UploadMgr 0 0 (Some p)) fd f1)
    as (f' & EP & Hd & Hq); try done.
  exists f'. cbn [entry_calls entry_call mbind option_bind]. fold s0.
  by rewrite entry_writes, EP.
Qed.

(** An uploaded file is stored: when its path resolves below the base
    path, fits the buffer and can be opened, every write succeeds, and it is
    not empty and not named as the file before, the bytes that a browser sends
    for it, in whatever pieces they arrive, end up in the file at that path,
    followed by what an older, longer file held there; no other file
    changes. *)
Theorem uploaded_file_stored ty u field file type data y b pieces last stack p base n st fd f1 s :
  webnet_module_upload_open ty = Ok u -> file_upload u field file type data y b pieces last -> data <> [] ->
  DirUpload.old_filename s <> file -> cstring file -> cstring p -> zlen stack = MAX_FILENAME_LENGTH ->
  zlen file + zlen p + 2 <= MAX_FILENAME_LENGTH ->
  normal (p ++ [slash]) = Some base -> resolve base (names file) = Some (n :: st) -> n <> [] ->
  DirUpload.make_and_open (DirUpload.dirs_of st) (render (n :: st)) (DirUpload.files s) = (fd, f1) -> 0 < fd ->
  (forall f d, fs_cursor f fd <> None -> fst (fs_write f fd d) = zlen d) -> zlen data < 2 ^ 31 ->
  let old := default [] (fs_data (DirUpload.files s) (render (n :: st))) in
  exists t calls s', upload_all (Transfer b (length y) false u) (pieces ++ [last]) = Ok (t, calls) /\
    entry_calls stack (Some p) calls s = Some s' /\
    fs_data (DirUpload.files s') (render (n :: st)) = Some (data ++ drop (length data) old) /\
    forall q, q <> render (n :: st) -> fs_data (DirUpload.files s') q = fs_data (DirUpload.files s) q.
Proof.
  intros Ho Hup Hne Hold Hcf Hcp Hst Hfit Hbase Hres Hn Hopen Hfd Hw Hsum old.
  destruct (file_upload_received ty u field file type data y b pieces last Ho Hup)
    as (W & t & E & HW & HWne & _). subst data.
  destruct (stored_calls stack p base file n st W fd f1 s) as (f' & EC & Hd & Hq); try done.
  eexists t, _, _. split; [exact E|]. change (upload_open file :: ?l ++ ?r) with ((upload_open file :: l) ++ r).
  rewrite entry_calls_app, EC. split; [reflexivity|]. cbn. split.
  - rewrite close_data. exact Hd.
  - intros q Hqn. rewrite close_data. by apply Hq.
Qed.
End Stored.

(** The file of [sample_upload], in three pieces, over an older file of ten
    bytes. *)
Example uploaded_file_stored_witness :
  exists t calls s', upload_all (Transfer (take 40 sample_body ++ replicate 4056 7) 40 false sample_session)
      [take 1500 (drop 40 sample_body); drop 1540 sample_body] = Ok (t, calls) /\
    entry_calls (replicate 128 7) (Some (str "/webnet")) calls (DirUpload.DirState [] None DirUpload.sample_files)
      = Some s' /\
    fs_data (DirUpload.files s') (str "/webnet/a.txt") = Some sample_data /\
    forall q, q <> str "/webnet/a.txt" ->
      fs_data (DirUpload.files s') q = fs_data DirUpload.sample_files q.
Proof.
  assert (H1 : sample_data <> []) by by_decide.
  assert (H2 : [] <> str "a.txt") by by_decide.
  assert (H3 : cstring (str "a.txt")) by by_decide.
  assert (H4 : cstring (str "/webnet")) by by_decide.
  assert (H5 : zlen (str "a.txt") + zlen (str "/webnet") + 2 <= MAX_FILENAME_LENGTH) by by_decide.
  assert (H6 : forall (f : mem_fs) d, fs_cursor f 3 <> None -> fst (fs_write f 3 d) = zlen d).
  { intros f d Hc. cbn in *. unfold mem_write. by destruct (mf_fds f !! 3) as [[]|]. }
  assert (H7 : zlen sample_data < 2 ^ 31) by by_decide.
  destruct (uploaded_file_stored sample_type sample_session (str "f") (str "a.txt") (str "text/plain")
    sample_data (take 40 sample_body) (take 40 sample_body ++ replicate 4056 7)
    [take 1500 (drop 40 sample_body)] (drop 1540 sample_body) (replicate 128 7) (str "/webnet")
    [str "webnet"; []] (str "a.txt") [str "webnet"; []] 3
    (snd (mem_open DirUpload.sample_files (str "/webnet/a.txt")))
    (DirUpload.DirState [] None DirUpload.sample_files) eq_refl sample_upload H1 H2 H3 H4 eq_refl H5
    eq_refl eq_refl ltac:(discriminate) eq_refl eq_refl H6 H7) as (t & calls & s' & E1 & E2 & E3 & E4).
  exists t, calls, s'. refine (conj E1 (conj E2 (conj _ E4))).
  rewrite <- (app_nil_r sample_data) at 1. exact E3.
Defined.
