(* ===== verification/WebServe.v ===== *)
(** * Answers of the web server

    Models what src/packages/webnet-latest does with a request that has been
    read: the modules of wn_module.c (authorization, CGI, upload, files) in the
    order of [rtconfig.h], the printing into the buffer of the session and the
    handling of a readable or writable socket in wn_session.c, and the types of
    wn_mimetype.c.

    The world is the state of the application with a file system.  CGI
    functions and upload entries are the application's; their tables are what
    [webnet_cgi_register] and [webnet_upload_add] have collected.  [ctime] and
    the [strftime] of the C library are parameters.  The bytes given to [send]
    are recorded in their order. *)

From S2P Require Import Prelude CLib WebPath FileSys Json JsonParse WebQuery WebRequest WebMultipart.

Local Open Scope Z_scope.

(** ** Reading files *)
Inductive whence := SEEK_SET | SEEK_END.

(** [stat] gives whether a path is a directory, and its time; [read] its
    result and the bytes. *)
Class FileRead (F : Type) := {
  fs_stat : F -> path -> option (bool * Z);
  fs_open_ro : F -> path -> Z * F;
  fs_lseek : F -> Z -> Z -> whence -> Z * F;
  fs_read : F -> Z -> Z -> Z * list Z * F
}.

Class FileReadLaws (F : Type) `{!FileSys F, !FileRead F} := {
  stat_file : forall f p t, fs_stat f p = Some (false, t) -> is_Some (fs_data f p);
  open_ro_ok : forall f p fd f', fs_open_ro f p = (fd, f') -> 0 <= fd ->
    fs_cursor f' fd = Some (p, 0) /\ forall q, fs_data f' q = fs_data f q;
  lseek_ok : forall f fd p off d n wh, fs_cursor f fd = Some (p, off) -> fs_data f p = Some d ->
    let to := match wh with SEEK_SET => n | SEEK_END => zlen d + n end in
    0 <= to <= zlen d ->
    exists f', fs_lseek f fd n wh = (to, f') /\ fs_cursor f' fd = Some (p, to) /\
      forall q, fs_data f' q = fs_data f q;
  lseek_path : forall f fd p off n wh, fs_cursor f fd = Some (p, off) ->
    exists off', fs_cursor (fs_lseek f fd n wh).2 fd = Some (p, off');
  read_ok : forall f fd p off d n r bs f', fs_cursor f fd = Some (p, off) -> fs_data f p = Some d ->
    0 <= off <= zlen d -> 0 < n -> fs_read f fd n = (r, bs, f') -> 0 <= r ->
    bs = take (Z.to_nat r) (drop (Z.to_nat off) d) /\ r <= n /\ off + r <= zlen d /\
    (r = 0 -> off = zlen d) /\ fs_cursor f' fd = Some (p, off + r) /\
    forall q, fs_data f' q = fs_data f q;
  close_cursor : forall f fd, fs_cursor (fs_close f fd) fd = None
}.

(** ** Printing into the buffer *)

(** [rt_snprintf(b + off, size, ...)] up to the end of the buffer, for the whole
    text: the new buffer and the length of the text. *)
Definition snprintf_at (b : list Z) (off : Z) (text : list Z) : res (list Z * Z) :=
  let size := zlen b - off in
  if size <? 0 then Undef
  else if size =? 0 then Ok (b, zlen text)
  else b ← defined (buf_write b off (take (Z.to_nat (size - 1)) text ++ [0])); Ok (b, zlen text).

(** [send] of the first bytes of the buffer. *)
Definition sent_bytes (b : list Z) (length : Z) : res (list Z) :=
  if length <=? zlen b then Ok (take (Z.to_nat length) b) else Undef.

(** A format without arguments: of the conversions only [%%] is defined. *)
Fixpoint formatted (fmt : list Z) : option (list Z) :=
  match fmt with
  | [] => Some []
  | 37 :: 37 :: fmt => cons 37 <$> formatted fmt
  | 37 :: _ => None
  | c :: fmt => cons c <$> formatted fmt
  end.

Inductive session_ops :=
  | no_ops
  | default_ops
  | dofile_ops (fd : Z)
  | upload_ops (entry : nat) (u : upload_session).

(** [s_web] is the part that reads requests, [s_write] whether the session
    waits to write, [s_range] the positions of a range, [s_sent] what was sent,
    and [s_open] whether the socket is open. *)
Record session := Sess {
  s_web : webnet_session;
  s_ops : session_ops;
  s_write : bool;
  s_range : Z * Z;
  s_sent : list (list Z);
  s_open : bool }.

Definition set_web (web : webnet_session) (s : session) : session :=
  Sess web (s_ops s) (s_write s) (s_range s) (s_sent s) (s_open s).

Definition set_buffer (b : list Z) (s : session) : session :=
  set_web (Session b (buffer_offset (s_web s)) (session_phase (s_web s)) (request (s_web s))) s.

Definition set_phase (ph : webnet_session_phase) (s : session) : session :=
  set_web (Session (buffer (s_web s)) (buffer_offset (s_web s)) ph (request (s_web s))) s.

Definition set_request (r : webnet_request) (s : session) : session :=
  set_web (Session (buffer (s_web s)) (buffer_offset (s_web s)) (session_phase (s_web s)) r) s.

Definition set_code (n : Z) (s : session) : session := set_request (set_result n (request (s_web s))) s.

Definition set_ops (o : session_ops) (s : session) : session :=
  Sess (s_web s) o (s_write s) (s_range s) (s_sent s) (s_open s).

Definition set_write (b : bool) (s : session) : session :=
  Sess (s_web s) (s_ops s) b (s_range s) (s_sent s) (s_open s).

Definition set_range (p : Z * Z) (s : session) : session :=
  Sess (s_web s) (s_ops s) (s_write s) p (s_sent s) (s_open s).

Definition send (d : list Z) (s : session) : session :=
  Sess (s_web s) (s_ops s) (s_write s) (s_range s) (s_sent s ++ [d]) (s_open s).

Definition close_socket (s : session) : session :=
  Sess (s_web s) (s_ops s) (s_write s) (s_range s) (s_sent s) false.

(** [webnet_session_printf] of a formatted text: [vsnprintf] keeps 4094
    characters of it, and returns its whole length. *)
Definition webnet_session_printf (text : list Z) (s : session) : res session :=
  b ← defined (buf_write (buffer (s_web s)) 0 (take (Z.to_nat (WEBNET_SESSION_BUFSZ - 2)) text ++ [0]));
  b ← defined (buf_set b (zlen text) 0);
  d ← sent_bytes b (zlen text);
  Ok (send d (set_buffer b s)).

(** The text as the format. *)
Definition webnet_session_print (fmt : list Z) (s : session) : res session :=
  text ← defined (formatted fmt);
  webnet_session_printf text s.

Fixpoint prints (texts : list (list Z)) (s : session) : res session :=
  match texts with
  | [] => Ok s
  | t :: texts => s ← webnet_session_printf t s; prints texts s
  end.

Definition WEBNET_SERVER : list Z := str "Server: webnet 2.0.3" ++ crlf.

(** The texts of [webnet_session_set_header]; [length] is negative if it is not
    known. *)
Definition header_texts (r : webnet_request) (mimetype : list Z) (code : Z) (title : list Z) (length : Z)
  : list (list Z) :=
  [str "HTTP/1.1 " ++ sprintf_d code ++ str " " ++ title ++ crlf ++ WEBNET_SERVER] ++
  (if code =? 401
   then [str "WWW-Authenticate: Basic realm=" ++ default (str "(NULL)") (members r !! m_host) ++ crlf]
   else []) ++
  [str "Content-Type: " ++ mimetype ++ crlf ++
   (if 0 <=? length
    then str "Content-Length: " ++ sprintf_d length ++ crlf ++
      str "Connection: " ++ (if keepalive r then str "Keep-Alive" else str "close") ++ crlf ++ crlf
    else str "Connection: close" ++ crlf ++ crlf)].

Fixpoint snprintf_all (b : list Z) (off : Z) (texts : list (list Z)) : res (list Z * Z) :=
  match texts with
  | [] => Ok (b, off)
  | t :: texts => '(b, n) ← snprintf_at b off t; snprintf_all b (off + n) texts
  end.

Definition webnet_session_set_header (mimetype : list Z) (code : Z) (title : list Z) (length : Z) (s : session)
  : res session :=
  '(b, n) ← snprintf_all (buffer (s_web s)) 0 (header_texts (request (s_web s)) mimetype code title length);
  d ← sent_bytes b n;
  Ok (send d (set_buffer b s)).

(** ** Types of files *)
Definition mime_tables : list (list Z * list Z) :=
  [(str "any", str "application/binary"); (str "html", str "text/html"); (str "htm", str "text/html");
   (str "css", str "text/css"); (str "txt", str "text/plain"); (str "pdf", str "application/pdf");
   (str "gif", str "image/gif"); (str "png", str "image/png"); (str "jpeg", str "image/jpeg");
   (str "jpg", str "image/jpeg"); (str "svg", str "image/svg+xml"); (str "avi", str "video/x-msvideo");
   (str "mp3", str "audio/mpeg"); (str "ogg", str "audio/x-oggvorbis"); (str "wav", str "audio/x-wav");
   (str "class", str "application/octet-stream"); (str "js", str "application/x-javascript");
   (str "tar", str "application/x-tar"); (str "zip", str "application/zip"); (str "xml", str "text/xml")].

Definition str_end_with (s t : list Z) : bool :=
  (length t <=? length s)%nat && bool_decide (map tolower (drop (length s - length t) s) = map tolower t).

Definition mime_get_type (url : list Z) : list Z :=
  match find (fun e => str_end_with url e.1) mime_tables with
  | Some e => e.2
  | None => str "application/binary"
  end.

(** ** Ranges *)

(** [atoi] of a number that is no [int] is undefined. *)
Definition int_of (s : list Z) : res Z :=
  let n := atoi s in if (- 2 ^ 31 <=? n) && (n <? 2 ^ 31) then Ok n else Undef.

Inductive range := Refused (code : Z) | Range (first last : Z).

(** The first and the last position of a range of a file; 0 as the last one
    stands for the end. *)
Definition parse_range (text : list Z) (gzip : bool) (file_length : Z) : res range :=
  let check a b :=
    let a := if gzip then 0 else a in
    if (file_length <=? u32 a) || (file_length <=? b) then Refused 416
    else Range a (if b =? 0 then u32 (file_length - 1) else b) in
  match strstr text (str "bytes=") with
  | None => Ok (check 0 (u32 (file_length - 1)))
  | Some k =>
      let text := drop (k + 6) text in
      let minus := strstr text (str "-") in
      a ← (match minus with Some O => Ok 0 | _ => int_of text end);
      match minus, strstr text (str ",") with
      | Some i, None => b ← int_of (drop (S i) text); Ok (check a (u32 b))
      | _, _ => Ok (Refused 400)
      end
  end.

(** ** The modules *)
Record world (F A : Type) := World { w_app : A; w_fs : F }.
Arguments World {F A} _ _.
Arguments w_app {F A} _.
Arguments w_fs {F A} _.

Section Server.
Context {F A : Type} `{!FileSys F, !FileRead F}.

#[local] Abbreviation world := (world F A).

(** The functions of the application: [webnet_cgi_register],
    [webnet_upload_add] and [webnet_auth_set] have filled these tables. *)
Context (cgi_items : list (list Z * (world -> session -> res (world * session)))).
Context (upload_entries : list (list Z * (upload_call -> world -> session -> res (world * session)))).
Context (auth_items : list (list Z * list Z)).
(** [ctime] and the [strftime] of [localtime]. *)
Context (ctime gmtime : Z -> list Z).

Definition set_fs (f : F) (w : world) : world := World (w_app w) f.

Definition webnet_root : list Z := str "/webnet".
Definition cgi_root : list Z := str "/cgi-bin/".

Definition str_path_with (s t : list Z) : bool :=
  str_begin_with s t && ((length s =? length t)%nat || bool_decide (s !! length t = Some slash)).

(** Every module tells whether the request is finished. *)
Definition webnet_module_auth (s : session) : res (session * bool) :=
  let r := request (s_web s) in
  path ← defined (members r !! m_path);
  Ok (match find (fun i => str_path_with path i.1) auth_items with
      | None => (s, false)
      | Some (_, up) =>
          if bool_decide (members r !! m_authorization = Some up)
          then (set_code 200 s, false) else (set_code 401 s, true)
      end).

Definition webnet_module_cgi (w : world) (s : session) : res (world * session * bool) :=
  path ← defined (members (request (s_web s)) !! m_path);
  match strstr path cgi_root with
  | None => Ok (w, s, false)
  | Some k =>
      let cgi_name := drop (k + length cgi_root) path in
      match find (fun i => bool_decide (map tolower cgi_name = map tolower i.1)) cgi_items with
      | Some (_, handler) => '(w, s) ← handler w s; Ok (w, s, true)
      | None => Ok (w, set_code 404 s, false)
      end
  end.

Fixpoint run_calls (handle : upload_call -> world -> session -> res (world * session))
    (calls : list upload_call) (w : world) (s : session) : res (world * session) :=
  match calls with
  | [] => Ok (w, s)
  | c :: calls => '(w, s) ← handle c w s; run_calls handle calls w s
  end.

(** The handler of an upload with the bytes that [recv] gives. *)
Definition upload_event (w : world) (s : session) (entry : nat) (u : upload_session) (recv : list Z)
  : res (world * session) :=
  handle ← defined (snd <$> upload_entries !! entry);
  let web := s_web s in
  '(t, calls) ← _webnet_module_upload_handle
    (Transfer (buffer web) (Z.to_nat (buffer_offset web)) false u) recv;
  let ph := if t_closed t then WEB_PHASE_CLOSE else session_phase web in
  run_calls handle calls w
    (set_ops (upload_ops entry (t_upload t))
       (set_web (Session (t_buffer t) (Z.of_nat (t_offset t)) ph (request web)) s)).

Definition is_entry_url (path url : list Z) : bool :=
  str_begin_with path url &&
  match path !! length url with None => true | Some c => c =? 63 end.

Definition find_entry (path : list Z) : option nat :=
  fst <$> list_find (fun e => is_entry_url path e.1 = true) upload_entries.

(** The upload is created, and its handler is called at once. *)
Definition webnet_module_upload (w : world) (s : session) (recv : list Z) : res (world * session * bool) :=
  let r := request (s_web s) in
  if negb (bool_decide (method r = WEBNET_POST)) then Ok (w, s, false)
  else
    path ← defined (members r !! m_path);
    match find_entry path with
    | None => Ok (w, s, false)
    | Some entry =>
        type ← defined (members r !! m_content_type);
        u ← webnet_module_upload_open type;
        '(w, s) ← upload_event w s entry u recv;
        Ok (w, s, true)
    end.

Definition _webnet_module_system_uri_physical (w : world) (s : session) (recv : list Z)
  : res (world * session * bool) :=
  '(s, fin) ← webnet_module_auth s;
  if (fin : bool) then Ok (w, s, true)
  else
    '(w, s, fin) ← webnet_module_cgi w s;
    if (fin : bool) then Ok (w, s, true) else webnet_module_upload w s recv.

(** *** Files *)

(** [ctime_str]: without the end of line. *)
Definition ctime_str (t : Z) : list Z := take (length (ctime t) - 1) (ctime t).

(** Whether the file has not been modified, and its time otherwise.  With
    compression the first [stat] is of the same path. *)
Definition modified_since (r : webnet_request) (f : F) : res (option Z + unit) :=
  path ← defined (members r !! m_path);
  let modified := members r !! m_modified in
  match fs_stat f path with
  | None => Ok (inl None)
  | Some (_, t) =>
      if bool_decide (modified = Some (ctime_str t)) ||
         (negb (support_gzip r) && bool_decide (modified = Some (gmtime t)))
      then Ok (inr tt) else Ok (inl (Some t))
  end.

Definition clear_gzip (r : webnet_request) : webnet_request :=
  Request (method r) (result_code r) (content_length r) (members r) false (keepalive r)
    (query r) (query_offset r) (query_items r).

(** The compressed file if it is asked for and there, the file itself
    otherwise. *)
Definition open_file (r : webnet_request) (path : list Z) (f : F) : Z * F * webnet_request :=
  let '(fd, f, r) :=
    if support_gzip r then
      let '(fd, f) := fs_open_ro f (path ++ str ".gz") in
      (fd, f, if fd <? 0 then clear_gzip r else r)
    else (-1, f, r) in
  if fd <? 0 then
    match fs_stat f path with
    | Some (false, _) => let '(fd, f) := fs_open_ro f path in (fd, f, r)
    | _ => (fd, f, r)
    end
  else (fd, f, r).

Definition status_line (code : Z) (reason : list Z) : list (list Z) :=
  [str "HTTP/1.1 " ++ sprintf_d code ++ str " "; reason; crlf; WEBNET_SERVER].

(** What follows the status line; the length is printed as a [long]. *)
Definition file_header_texts (r : webnet_request) (time : Z) (path : list Z) (length : Z) : list (list Z) :=
  [str "Last-Modified: " ++ ctime_str time ++ crlf; str "Content-Type: " ++ mime_get_type path ++ crlf;
   str "Content-Length: " ++ sprintf_d (i32 length) ++ crlf;
   str "Connection: " ++ (if keepalive r then str "Keep-Alive" else str "close") ++ crlf] ++
  (if support_gzip r then [str "Content-Encoding: gzip" ++ crlf] else []) ++
  [str "Access-Control-Allow-Origin:*" ++ crlf; crlf].

(** The headers of an opened file; the session then waits to write.  A file
    whose time is not known prints an array that was not filled. *)
Definition send_header (w : world) (s : session) (fd : Z) (path : list Z) (time : option Z) (length : Z)
  : res (world * session) :=
  time ← defined time;
  let r := request (s_web s) in
  s ← prints (file_header_texts r time path length) s;
  if length =? 0 then Ok (set_fs (fs_close (w_fs w) fd) w, s)
  else if bool_decide (method r = WEBNET_HEADER) then Ok (w, s)
  else Ok (w, set_ops (dofile_ops fd) (set_write true s)).

Definition refuse (code : Z) (w : world) (s : session) (fd : Z) : res (world * session) :=
  let s := set_code code s in
  s ← (if code =? 416 then prints (status_line 416 (str "Requested Range Not Satisfiable")) s else Ok s);
  Ok (set_fs (fs_close (w_fs w) fd) w, s).

(** The status line of a range, with the length of the range as the size of the
    file. *)
Definition range_texts (a b : Z) : list (list Z) :=
  status_line 216 (str "Partial Content") ++
  [str "Content-Range: " ++ sprintf_d (i32 a) ++ str "-" ++ sprintf_d (i32 b) ++ str "/" ++
   sprintf_d (i32 (u32 (b - a + 1))) ++ crlf].

(** Once the file is open and its length known: all of it, or a range. *)
Definition send_file (w : world) (s : session) (fd : Z) (path : list Z) (time : option Z) (file_length : Z)
  : res (world * session) :=
  let r := request (s_web s) in
  match members r !! m_Range with
  | None =>
      s ← prints (status_line 200 (str "OK")) (set_code 200 s);
      send_header w s fd path time file_length
  | Some text =>
      g ← parse_range text (support_gzip r) file_length;
      match g with
      | Refused code => refuse code w s fd
      | Range a b =>
          let '(at_, f) := fs_lseek (w_fs w) fd a SEEK_SET in
          if negb (at_ =? a) then refuse 500 (set_fs f w) s fd
          else
            let file_length := u32 (b - a + 1) in
            s ← prints (range_texts a b) (set_range (u32 a, b) (set_code 216 s));
            send_header (set_fs f w) s fd path time file_length
      end
  end.

Definition webnet_module_system_dofile (w : world) (s : session) : res (world * session) :=
  path ← defined (members (request (s_web s)) !! m_path);
  m ← modified_since (request (s_web s)) (w_fs w);
  match m with
  | inr _ => Ok (w, set_code 304 s)
  | inl time =>
      let '(fd, f, r) := open_file (request (s_web s)) path (w_fs w) in
      let s := set_request r s in
      if fd <? 0 then Ok (set_fs f w, set_code 404 s)
      else
        let '(n, f) := fs_lseek f fd 0 SEEK_END in
        let file_length := u32 n in
        let '(_, f) := fs_lseek f fd 0 SEEK_SET in
        send_file (set_fs f w) s fd path time file_length
  end.

(** *** From the path of the request to the file *)
Definition default_files : list (list Z) := [[]; str "/index.html"; str "/index.htm"].

Definition WEBNET_PATH_MAX : Z := 256.

(** The normalised path in its block; what [str_normalize_path] returns is not
    looked at.  Behind the terminator nothing is read. *)
Definition full_path (path file : list Z) : res (list Z) :=
  '(_, b) ← defined (_str_normalize_path
    (take (Z.to_nat (WEBNET_PATH_MAX - 1)) (webnet_root ++ [slash] ++ path ++ file) ++ [0]));
  defined (buf_cstr b).

(** The first default file that is a file; the path alone if there is none. *)
Fixpoint try_files (f : F) (path : list Z) (files : list (list Z)) : res (list Z) :=
  match files with
  | [] => full_path path []
  | file :: files =>
      p ← full_path path file;
      match fs_stat f p with
      | Some (false, _) => Ok p
      | _ => try_files f path files
      end
  end.

Definition physical_path (m : webnet_method) (f : F) (path : list Z) : res (list Z) :=
  try_files f path (if bool_decide (m = WEBNET_GET) || bool_decide (m = WEBNET_POST)
                    then default_files else []).

Definition webnet_module_handle_uri (w : world) (s : session) (recv : list Z) : res (world * session) :=
  '(w, s, fin) ← _webnet_module_system_uri_physical w s recv;
  if (fin : bool) then Ok (w, s)
  else
    let r := request (s_web s) in
    path ← defined (members r !! m_path);
    p ← physical_path (method r) (w_fs w) path;
    let s := set_request (set_member m_path p r) s in
    if negb (str_begin_with p webnet_root) then Ok (w, set_code 404 s)
    else webnet_module_system_dofile w s.

(** ** Events *)

(** The end of a file session. *)
Definition dofile_exit (w : world) (s : session) (fd : Z) : world * session :=
  (set_fs (fs_close (w_fs w) fd) w, set_write false (set_phase WEB_PHASE_CLOSE s)).

(** [RT_ALIGN_DOWN(WEBNET_SESSION_BUFSZ, 4)] bytes, or what is left of the
    range; an error of [read] is a length that is sent. *)
Definition dofile_write (w : world) (s : session) (fd : Z) : res (world * session) :=
  let read_and_send f length s :=
    let '(r, bs, f) := fs_read f fd length in
    if r =? 0 then Ok (dofile_exit (set_fs f w) s fd)
    else
      d ← (if r <? 0 then Undef else
           b ← defined (buf_write (buffer (s_web s)) 0 bs); Ok (b, take (Z.to_nat r) b));
      Ok (set_fs f w, send d.2 (set_buffer d.1 s)) in
  match members (request (s_web s)) !! m_Range with
  | None => read_and_send (w_fs w) WEBNET_SESSION_BUFSZ s
  | Some _ =>
      let '(a, b) := s_range s in
      let length := u32 (b - a) in
      if length =? 0 then Ok (dofile_exit w s fd)
      else
        let length := Z.min length WEBNET_SESSION_BUFSZ in
        let '(_, f) := fs_lseek (w_fs w) fd a SEEK_SET in
        read_and_send f length (set_range (u32 (a + length), b) s)
  end.

(** [session_handle] for a readable socket; [recvs] is what the socket gives,
    read by read. *)
Definition handle_read (w : world) (s : session) (recvs : list (list Z)) : res (world * session) :=
  match s_ops s with
  | no_ops => Ok (w, s)
  | default_ops =>
      web ← _webnet_session_handle_read (s_web s) (hd [] recvs);
      let s := set_web web s in
      if bool_decide (session_phase web = WEB_PHASE_RESPONSE)
      then webnet_module_handle_uri w (set_ops no_ops s) (hd [] (tl recvs))
      else Ok (w, s)
  | dofile_ops fd => Ok (dofile_exit w s fd)
  | upload_ops entry u => upload_event w s entry u (hd [] recvs)
  end.

Definition handle_write (w : world) (s : session) : res (world * session) :=
  match s_ops s with
  | dofile_ops fd => dofile_write w s fd
  | _ => Ok (w, s)
  end.

Definition badrequest_title (code : Z) : list Z :=
  if code =? 304 then str "Not Modified" else if code =? 400 then str "Bad Request"
  else if code =? 401 then str "Authorization Required" else if code =? 403 then str "Forbidden"
  else if code =? 404 then str "Not Found" else if code =? 405 then str "Method Not Allowed"
  else if code =? 500 then str "Internal Server Error" else if code =? 501 then str "Not Implemented"
  else if code =? 505 then str "HTTP Version Not Supported" else str "Unknown".

Definition _webnet_session_badrequest (code : Z) (s : session) : res session :=
  let title := badrequest_title code in
  let s := if 400 <=? code then set_request (set_keepalive false (request (s_web s))) s else s in
  s ← webnet_session_set_header (str "text/html") code title (-1) s;
  webnet_session_printf
    (str "<html><head><title>" ++ sprintf_d code ++ str " " ++ title ++ str "</title></head><body>" ++
     sprintf_d code ++ str " " ++ title ++ str "</body></html>" ++ crlf) s.

(** [webnet_session_close], with the close of an upload. *)
Definition webnet_session_close (w : world) (s : session) : res (world * session) :=
  '(w, s) ← (match s_ops s with
             | upload_ops entry u =>
                 handle ← defined (snd <$> upload_entries !! entry);
                 run_calls handle (_webnet_module_upload_close u) w s
             | _ => Ok (w, s)
             end);
  Ok (w, close_socket s).

Definition closing (s : session) : bool :=
  bool_decide (session_phase (s_web s) = WEB_PHASE_CLOSE) ||
  match s_ops s with no_ops => true | _ => false end.

(** The session is closed after the event, with an answer if the result is not
    200. *)
Definition finish_read (w : world) (s : session) : res (world * session) :=
  if closing s then
    let code := result_code (request (s_web s)) in
    s ← (if code =? 200 then Ok s else _webnet_session_badrequest code s);
    webnet_session_close w s
  else Ok (w, s).

(** [webnet_sessions_handle_fds] for one session.  On the first event the
    session gets its request. *)
Definition readable (w : world) (s : session) (recvs : list (list Z)) : res (world * session) :=
  let s := match s_ops s with
           | no_ops => set_ops default_ops (set_web (Session (buffer (s_web s)) (buffer_offset (s_web s))
               WEB_PHASE_METHOD webnet_request_create) s)
           | _ => s
           end in
  '(w, s) ← handle_read w s recvs;
  finish_read w s.

Definition writable (w : world) (s : session) : res (world * session) :=
  '(w, s) ← handle_write w s;
  if closing s then webnet_session_close w s else Ok (w, s).

(** A session that was accepted. *)
Definition accepted : session :=
  Sess (Session (replicate (Z.to_nat WEBNET_SESSION_BUFSZ) 0) 0 WEB_PHASE_METHOD webnet_request_create)
    no_ops false (0, 0) [] true.

Inductive event := Readable (recvs : list (list Z)) | Writable.

(** Events until the socket is closed. *)
Fixpoint serve (w : world) (s : session) (events : list event) : res (world * session) :=
  if negb (s_open s) then Ok (w, s)
  else
    match events with
    | [] => Ok (w, s)
    | Readable recvs :: events => '(w, s) ← readable w s recvs; serve w s events
    | Writable :: events => '(w, s) ← writable w s; serve w s events
    end.

(** ** Reading the request *)

(** A session that is still reading its request. *)
Definition reading (web : webnet_session) : Prop :=
  session_phase web <> WEB_PHASE_RESPONSE /\ session_phase web <> WEB_PHASE_CLOSE.

(** What is read after the request stays in the buffer. *)
Lemma read_past web p web' :
  0 <= buffer_offset web -> ~ reading web -> _webnet_session_handle_read web p = Ok web' ->
  ~ reading web' /\ 0 <= buffer_offset web' /\
  (session_phase web' = WEB_PHASE_RESPONSE -> 0 < buffer_offset web').
Proof.
  intros H0 Hr. unfold _webnet_session_handle_read, webnet_session_read.
  assert (Hph : session_phase web = WEB_PHASE_RESPONSE \/ session_phase web = WEB_PHASE_CLOSE).
  { unfold reading in Hr. destruct (session_phase web); auto; destruct Hr; by split. }
  assert (Hskip : forall s, session_phase s = WEB_PHASE_RESPONSE \/ session_phase s = WEB_PHASE_CLOSE ->
    (if buffer_offset s =? 0 then Ok s else
     s ← method_phase s; s ← header_phase s; query_phase s) = Ok s).
  { intros s Hs. case_match; [done|]. unfold method_phase. rewrite bool_decide_eq_false_2
      by (destruct Hs as [->| ->]; done). cbn [mbind res_bind].
    unfold header_phase. rewrite bool_decide_eq_false_2
      by (destruct Hs as [->| ->]; done). cbn [mbind res_bind].
    unfold query_phase. by rewrite bool_decide_eq_false_2 by (destruct Hs as [->| ->]; done). }
  destruct p as [|c p].
  - cbn [mbind res_bind]. rewrite Hskip by (by right). intros [= <-]. cbn. unfold reading. cbn.
    split_and!; [tauto|done|done].
  - destruct (defined _) as [b| | |] eqn:E; try done. cbn [mbind res_bind].
    rewrite Hskip by done. intros [= <-]. cbn. pose proof (zlen_nonneg p).
    unfold reading. cbn [session_phase]. rewrite zlen_cons. split_and!; [|lia|lia].
    destruct Hph as [->| ->]; tauto.
Qed.

Lemma receive_past pieces : forall web web',
  0 <= buffer_offset web -> ~ reading web -> receive web pieces = Ok web' ->
  ~ reading web' /\ (pieces <> [] -> session_phase web' = WEB_PHASE_RESPONSE -> 0 < buffer_offset web').
Proof.
  induction pieces as [|p pieces IH]; intros web web' H0 Hr H; [by injection H as <-|].
  cbn [receive] in H. apply Ok_bind in H as (web1 & H1 & H).
  destruct (read_past _ _ _ H0 Hr H1) as (Hr1 & H01 & Hp).
  destruct (IH _ _ H01 Hr1 H) as [Hr' Hp']. split; [done|]. intros _.
  destruct pieces; [injection H as <-; done|by apply Hp'].
Qed.

(** Before a session comes to the response phase it reads. *)
Lemma still_reading pieces web1 web' : session_ok web1 -> receive web1 pieces = Ok web' ->
  reading web' \/ pieces <> [] /\ session_phase web' = WEB_PHASE_RESPONSE /\ buffer_offset web' = 0 -> reading web1.
Proof.
  intros Hok H Hr. destruct (decide (session_phase web1 = WEB_PHASE_RESPONSE \/ session_phase web1 = WEB_PHASE_CLOSE)) as [E|E];
    [|unfold reading; tauto]. exfalso.
  assert (Hnr : ~ reading web1) by (unfold reading; destruct E as [->| ->]; tauto).
  destruct (receive_past _ _ _ (proj1 (ok_offset _ Hok)) Hnr H) as [H1 H2].
  destruct Hr as [Hr|(Hne & Hph & H0)]; [done|]. specialize (H2 Hne Hph). lia.
Qed.

Lemma readable_waits w s p web1 : s_ops s = default_ops -> _webnet_session_handle_read (s_web s) p = Ok web1 ->
  reading web1 -> readable w s [p] = Ok (w, set_web web1 s).
Proof.
  intros Hops H1 Hr1. unfold readable. rewrite Hops. unfold handle_read. rewrite Hops. cbn [hd]. rewrite H1.
  cbn [mbind res_bind]. rewrite bool_decide_eq_false_2 by apply Hr1. cbn [mbind res_bind].
  unfold finish_read, closing. cbn [s_web set_web s_ops]. by rewrite Hops, bool_decide_eq_false_2 by apply Hr1.
Qed.

(** A request that is read when its last piece has arrived is handled then. *)
Lemma serve_received events b r pieces : forall w s,
  s_open s = true -> s_ops s = default_ops -> session_ok (s_web s) -> reading (s_web s) -> pieces <> [] ->
  receive (s_web s) pieces = Ok (Session b 0 WEB_PHASE_RESPONSE r) ->
  serve w s (map (fun p => Readable [p]) pieces ++ events) =
  ('(w, s) ← webnet_module_handle_uri w
      (set_ops no_ops (set_web (Session b 0 WEB_PHASE_RESPONSE r) s)) [];
   '(w, s) ← finish_read w s; serve w s events).
Proof.
  induction pieces as [|p pieces IH]; intros w s Hopen Hops Hok Hr Hne H; [done|].
  cbn [receive] in H. apply Ok_bind in H as (web1 & H1 & H).
  cbn [map app serve]. rewrite Hopen. cbn [negb]. pose proof (handle_read_ok _ _ _ Hok H1) as Hok1.
  destruct pieces as [|p' pieces].
  - injection H as ->. unfold readable. rewrite Hops. unfold handle_read. rewrite Hops. cbn [hd tl]. rewrite H1.
    cbn [mbind res_bind session_phase]. rewrite bool_decide_eq_true_2 by done. cbn [map app].
    by destruct (webnet_module_handle_uri _ _ _) as [[w1 s1]| | |].
  - assert (Hr1 : reading web1) by (eapply still_reading; [done|exact H|by right]).
    rewrite (readable_waits w s p web1) by done. cbn [mbind res_bind].
    rewrite (IH w (set_web web1 s)); done.
Qed.

Lemma serve_accepted w e events : serve w accepted (e :: events) = serve w (set_ops default_ops accepted) (e :: events) \/ e = Writable.
Proof. destruct e; [by left|by right]. Qed.

(** ** What is sent *)

(** The texts are sent; the buffer holds what it may. *)
Definition sends (texts : list (list Z)) (b : list Z) (s : session) : session :=
  Sess (Session b (buffer_offset (s_web s)) (session_phase (s_web s)) (request (s_web s)))
    (s_ops s) (s_write s) (s_range s) (s_sent s ++ texts) (s_open s).

Definition room (s : session) : Prop := zlen (buffer (s_web s)) = WEBNET_SESSION_BUFSZ.

Lemma printf_sent text s : room s -> zlen text <= WEBNET_SESSION_BUFSZ - 2 ->
  exists b, webnet_session_printf text s = Ok (sends [text] b s) /\ zlen b = WEBNET_SESSION_BUFSZ.
Proof.
  intros Hb Ht. unfold room in Hb. unfold webnet_session_printf.
  pose proof (zlen_nonneg text) as H0.
  rewrite take_ge by (unfold zlen in *; lia).
  assert (Hw : forall b : list Z, zlen b = WEBNET_SESSION_BUFSZ -> exists r, zlen (text ++ 0 :: r) = WEBNET_SESSION_BUFSZ /\
    buf_write b 0 (text ++ [0]) = Some (text ++ 0 :: r)).
  { intros b Hl. exists (drop (length (text ++ [0])) b).
    assert (Hz : zlen (text ++ [0]) <= zlen b) by (rewrite zlen_app, Hl; unfold zlen at 2; cbn [length]; lia).
    unfold buf_write. rewrite (proj2 (Z.leb_le 0 0)), (proj2 (Z.leb_le _ _)) by lia. cbn [andb Z.to_nat take app].
    split; [|by rewrite <- app_assoc].
    unfold zlen in *. rewrite length_app, length_cons, length_drop, length_app in *. cbn [length] in *. lia. }
  destruct (Hw _ Hb) as (r & Hr & ->). cbn [defined mbind res_bind].
  assert (Hset : buf_set (text ++ 0 :: r) (zlen text) 0 = Some (text ++ 0 :: r)).
  { unfold buf_set. rewrite (proj2 (Z.leb_le 0 (zlen text))), (proj2 (Z.ltb_lt _ _)) by (try rewrite Hr; lia). cbn [andb].
    unfold zlen. rewrite Nat2Z.id, insert_app_r_alt by lia. by rewrite Nat.sub_diag. }
  rewrite Hset. cbn [defined mbind res_bind]. unfold sent_bytes.
  rewrite (proj2 (Z.leb_le _ _)) by (rewrite Hr; lia). cbn [mbind res_bind].
  rewrite take_zlen_app. by exists (text ++ 0 :: r).
Qed.

Lemma prints_sent texts : forall s, room s -> Forall (fun t => zlen t <= WEBNET_SESSION_BUFSZ - 2) texts ->
  exists b, prints texts s = Ok (sends texts b s) /\ zlen b = WEBNET_SESSION_BUFSZ.
Proof.
  induction texts as [|t texts IH]; intros s Hb Ht.
  - exists (buffer (s_web s)). split; [|done]. destruct s as [[] ? ? ? ? ?]. unfold sends. cbn. by rewrite app_nil_r.
  - apply Forall_cons in Ht as [Ht Hts]. cbn [prints].
    destruct (printf_sent t s Hb Ht) as (b & -> & Hb1). cbn [mbind res_bind].
    destruct (IH (sends [t] b s) Hb1 Hts) as (b' & -> & Hb'). exists b'. split; [|done].
    unfold sends. cbn. by rewrite <- app_assoc.
Qed.

Lemma snprintf_sent texts : forall b off,
  0 <= off -> off + zlen (concat texts) < zlen b -> (off = 0 \/ texts <> []) ->
  exists r, snprintf_all b off texts = Ok (take (Z.to_nat off) b ++ concat texts ++ r, off + zlen (concat texts)) /\
    zlen (take (Z.to_nat off) b ++ concat texts ++ r) = zlen b.
Proof.
  induction texts as [|t texts IH]; intros b off H0 Hl Hne.
  - destruct Hne as [->|Hne]; [|done]. exists b. cbn. by rewrite Z.add_0_r.
  - cbn [snprintf_all concat] in *. rewrite zlen_app in Hl. pose proof (zlen_nonneg t) as Ht.
    pose proof (zlen_nonneg (concat texts)) as Hts. unfold snprintf_at.
    rewrite (proj2 (Z.ltb_ge (zlen b - off) 0)), (proj2 (Z.eqb_neq (zlen b - off) 0)) by lia.
    rewrite (take_ge t) by (unfold zlen in *; lia).
    assert (Hz : zlen (t ++ [0]) = zlen t + 1) by (rewrite zlen_app; by unfold zlen at 2).
    rewrite buf_write_some by (try rewrite Hz; lia). cbn [defined mbind res_bind].
    set (b1 := take _ b ++ (t ++ [0]) ++ _).
    assert (Hb1 : zlen b1 = zlen b).
    { unfold b1, zlen in *. rewrite ?length_app, ?length_take, ?length_drop, ?length_app in *. cbn [length] in *. lia. }
    assert (Ht1 : take (Z.to_nat (off + zlen t)) b1 = take (Z.to_nat off) b ++ t).
    { unfold b1. rewrite <- app_assoc, app_assoc. rewrite take_app_length'; [done|].
      unfold zlen in *. rewrite length_app, length_take. lia. }
    destruct texts as [|t' texts].
    + cbn [snprintf_all concat]. rewrite !app_nil_r. eexists. split; [|unfold b1 in Hb1; rewrite <- app_assoc in Hb1; exact Hb1].
      unfold b1. by rewrite <- app_assoc.
    + destruct (IH b1 (off + zlen t) ltac:(lia) ltac:(rewrite Hb1; lia) ltac:(by right)) as (r & -> & Hr).
      exists r. rewrite Ht1, <- !app_assoc in *. rewrite zlen_app, Z.add_assoc. by rewrite Hr.
Qed.

Lemma set_header_sent mimetype code title length s : room s ->
  let texts := header_texts (request (s_web s)) mimetype code title length in
  zlen (concat texts) < WEBNET_SESSION_BUFSZ ->
  exists b, webnet_session_set_header mimetype code title length s = Ok (sends [concat texts] b s) /\
    zlen b = WEBNET_SESSION_BUFSZ.
Proof.
  intros Hb texts Ht. unfold room in Hb. unfold webnet_session_set_header. fold texts.
  destruct (snprintf_sent texts (buffer (s_web s)) 0 ltac:(lia) ltac:(rewrite Hb; lia) ltac:(by left)) as (r & -> & Hr).
  cbn [mbind res_bind Z.to_nat take app] in *. rewrite Z.add_0_l. unfold sent_bytes.
  rewrite (proj2 (Z.leb_le _ _)) by (rewrite Hr, Hb; lia). cbn [mbind res_bind].
  change (take (Z.to_nat 0) _) with (@nil Z) in *. rewrite app_nil_l in *. rewrite take_zlen_app. eexists. split; [reflexivity|]. by rewrite Hr.
Qed.

(** ** Sending a file *)
Context `{!FileSysLaws F, !FileReadLaws F}.

Lemma serve_closed w s events : s_open s = false -> serve w s events = Ok (w, s).
Proof. intros H. destruct events; cbn [serve]; by rewrite H. Qed.

(** Reading an open file does not fail. *)
Definition reads (f : F) (fd : Z) : Prop := forall n, 0 <= (fs_read f fd n).1.1.

Lemma file_written p d fd n : forall w s off,
  (forall f, fs_cursor f fd <> None -> reads f fd) ->
  s_ops s = dofile_ops fd -> s_open s = true -> room s -> session_phase (s_web s) <> WEB_PHASE_CLOSE ->
  members (request (s_web s)) !! m_Range = None ->
  fs_cursor (w_fs w) fd = Some (p, off) -> fs_data (w_fs w) p = Some d -> 0 <= off <= zlen d ->
  (length d < n + Z.to_nat off)%nat ->
  exists w' s', serve w s (replicate n Writable) = Ok (w', s') /\ s_open s' = false /\
    concat (s_sent s') = concat (s_sent s) ++ drop (Z.to_nat off) d /\ w_app w' = w_app w /\
    fs_cursor (w_fs w') fd = None /\ forall q, fs_data (w_fs w') q = fs_data (w_fs w) q.
Proof.
  intros w s off Hreads. revert w s off.
  induction n as [|n IH]; intros w s off Hops Hopen Hroom Hph Hrg Hc Hd Hoff Hn; [unfold zlen in *; lia|].
  cbn [replicate serve]. rewrite Hopen. cbn [negb]. unfold writable, handle_write. rewrite Hops.
  unfold dofile_write. rewrite Hrg.
  destruct (fs_read (w_fs w) fd WEBNET_SESSION_BUFSZ) as [[k bs] f'] eqn:Er.
  pose proof (Hreads (w_fs w) ltac:(by rewrite Hc) WEBNET_SESSION_BUFSZ) as Hk. rewrite Er in Hk. cbn in Hk.
  destruct (read_ok _ _ _ _ _ WEBNET_SESSION_BUFSZ k bs f' Hc Hd Hoff ltac:(done) Er Hk)
    as (Hbs & Hk1 & Hk2 & Hk0 & Hc' & Hdata).
  destruct (Z.eqb_spec k 0) as [->|Hk3].
  - rewrite (Hk0 eq_refl) in *. cbn [dofile_exit mbind res_bind].
    unfold closing. cbn [s_web set_write set_phase set_web session_phase]. rewrite bool_decide_eq_true_2 by done.
    cbn [orb]. unfold webnet_session_close. cbn [s_ops set_write set_phase set_web]. rewrite Hops.
    cbn [mbind res_bind]. rewrite serve_closed by done. eexists _, _. split; [reflexivity|].
    split; [done|]. cbn [close_socket s_sent set_write set_phase set_web set_fs w_app w_fs].
    split; [unfold zlen; by rewrite Nat2Z.id, drop_all, app_nil_r|]. split; [done|].
    split; [apply close_cursor|]. intros q. rewrite close_data. apply Hdata.
  - assert (Hz : zlen bs = k).
    { rewrite Hbs. unfold zlen in *. rewrite length_take, length_drop. lia. }
    unfold room in Hroom.
    rewrite (proj2 (Z.ltb_ge k 0)), buf_write_some by lia.
    cbn [defined mbind res_bind fst snd Z.to_nat take Nat.add]. rewrite app_nil_l.
    set (b1 := bs ++ _).
    assert (Hb1 : zlen b1 = WEBNET_SESSION_BUFSZ).
    { unfold b1. rewrite <- Hroom. unfold zlen in *. rewrite length_app, length_drop. lia. }
    assert (Ht : take (Z.to_nat k) b1 = bs) by (rewrite <- Hz; apply take_zlen_app).
    rewrite Ht. assert (Hnc : closing (send bs (set_buffer b1 s)) = false).
    { unfold closing. cbn [s_web send set_buffer set_web session_phase s_ops].
      by rewrite Hops, bool_decide_eq_false_2. }
    rewrite Hnc. cbn [mbind res_bind].
    destruct (IH (set_fs f' w) (send bs (set_buffer b1 s)) (off + k)) as (w' & s' & E & Ho & Hs & Ha & Hcl & Hq); try done.
    + cbn [w_fs set_fs]. by rewrite Hdata.
    + lia.
    + lia.
    + rewrite E. eexists _, _. split; [reflexivity|]. split; [done|]. rewrite Hs. cbn [s_sent send set_buffer set_web].
      split; [|split_and!; [done|done|intros q; rewrite Hq; apply Hdata]].
      rewrite concat_app. cbn [concat]. rewrite app_nil_r, <- app_assoc. f_equal.
      rewrite Hbs, Z2Nat.inj_add, <- drop_drop by lia. apply take_drop.
Qed.

Lemma mime_length url : zlen (mime_get_type url) <= 40.
Proof.
  unfold mime_get_type. destruct (find _ mime_tables) as [e|] eqn:E; [|done].
  apply find_some in E as [E _]. revert e E. apply List.Forall_forall. unfold mime_tables.
  repeat (constructor; [by apply Z.leb_le|]). constructor.
Qed.

(** A GET of the file at [p], which no module takes, with its time and its
    bytes: it can be opened and read, and is not compressed, or asked for only
    when it has changed. *)
Record is_file (w : world) (r : webnet_request) (path p : list Z) (t : Z) (d : list Z) : Prop := {
  if_method : method r = WEBNET_GET;
  if_path : members r !! m_path = Some path;
  if_auth : find (fun i => str_path_with path i.1) auth_items = None;
  if_cgi : strstr path cgi_root = None;
  if_plain : members r !! m_modified = None /\ support_gzip r = false;
  if_physical : physical_path WEBNET_GET (w_fs w) path = Ok p /\ str_begin_with p webnet_root = true;
  if_stat : fs_stat (w_fs w) p = Some (false, t) /\ zlen (ctime t) <= 32;
  if_data : fs_data (w_fs w) p = Some d /\ zlen d < 2 ^ 31;
  if_open : 0 <= (fs_open_ro (w_fs w) p).1;
  if_reads : forall f fd, fs_cursor f fd <> None -> reads f fd }.

Lemma uri_to_dofile w s recv r path p t d :
  request (s_web s) = r -> is_file w r path p t d ->
  webnet_module_handle_uri w s recv =
  webnet_module_system_dofile w (set_request (set_member m_path p r) s).
Proof.
  intros Hr [Hm Hp Ha Hc _ [Hph Hroot] _ _ _ _].
  unfold webnet_module_handle_uri, _webnet_module_system_uri_physical, webnet_module_auth.
  rewrite Hr, Hp. cbn [defined mbind res_bind]. rewrite Ha. cbn [mbind res_bind].
  unfold webnet_module_cgi. rewrite Hr, Hp. cbn [defined mbind res_bind]. rewrite Hc. cbn [mbind res_bind].
  unfold webnet_module_upload. rewrite Hr, Hm, bool_decide_eq_false_2 by done. cbn [negb mbind res_bind].
  rewrite Hr, Hp. cbn [defined mbind res_bind]. rewrite Hm, Hph. cbn [mbind res_bind]. by rewrite Hroot.
Qed.

(** The texts in front of a file. *)
Definition file_texts (r : webnet_request) (t : Z) (p : list Z) (length : Z) : list (list Z) :=
  status_line 200 (str "OK") ++ file_header_texts r t p length.

Lemma file_texts_fit r t p length : zlen (ctime t) <= 32 -> support_gzip r = false ->
  Forall (fun x => zlen x <= WEBNET_SESSION_BUFSZ - 2) (status_line 200 (str "OK")) /\
  Forall (fun x => zlen x <= WEBNET_SESSION_BUFSZ - 2) (file_header_texts r t p length).
Proof.
  intros Ht Hg. split; [by_decide|]. unfold file_header_texts. rewrite Hg.
  pose proof (mime_length p). pose proof (sprintf_d_len (i32 length)).
  assert (zlen (ctime_str t) <= 32) by (unfold ctime_str, zlen in *; rewrite length_take; lia).
  change (WEBNET_SESSION_BUFSZ - 2) with 4094.
  repeat constructor; rewrite ?zlen_app; try (by apply Z.leb_le);
    try (destruct (keepalive r); by apply Z.leb_le);
    match goal with |- zlen ?a + (?b + zlen ?c) <= _ =>
      let x := eval vm_compute in (zlen a) in let y := eval vm_compute in (zlen c) in
      change (zlen a) with x; change (zlen c) with y; lia end.
Qed.

Lemma zlen_u32 {X} (d : list X) : zlen d < 2 ^ 31 -> u32 (zlen d) = zlen d /\ i32 (zlen d) = zlen d.
Proof. pose proof (zlen_nonneg d). split; [apply u32_id; lia|apply i32_id; lia]. Qed.

(** The file is opened. *)
Lemma dofile_opened w s r path p t d :
  request (s_web s) = set_member m_path p r -> is_file w r path p t d ->
  exists f fd, fs_cursor f fd = Some (p, 0) /\ (forall q, fs_data f q = fs_data (w_fs w) q) /\
    webnet_module_system_dofile w s = send_file (set_fs f w) s fd p (Some t) (zlen d).
Proof.
  intros Hr [Hm Hp _ _ (Hmod & Hgz) [Hph Hroot] [Hst Hct] [Hd Hds] Ho _].
  unfold webnet_module_system_dofile. rewrite Hr. cbn [set_member members].
  rewrite lookup_insert_eq. cbn [defined mbind res_bind]. unfold modified_since.
  cbn [set_member members support_gzip]. rewrite lookup_insert_eq, lookup_insert_ne by done.
  cbn [defined mbind res_bind]. rewrite Hst, Hmod, Hgz. rewrite !bool_decide_eq_false_2 by done.
  cbn [orb andb negb]. unfold open_file. cbn [set_member support_gzip]. rewrite Hgz.
  change (-1 <? 0) with true. cbv iota. rewrite Hst.
  destruct (fs_open_ro (w_fs w) p) as [fd f1] eqn:Eo. cbn in Ho.
  destruct (open_ro_ok _ _ _ _ Eo Ho) as [Hc1 Hd1].
  rewrite (proj2 (Z.ltb_ge fd 0)) by done.
  assert (Hdp : fs_data f1 p = Some d) by by rewrite Hd1.
  pose proof (zlen_nonneg d) as Hz.
  destruct (lseek_ok f1 fd p 0 d 0 SEEK_END Hc1 Hdp ltac:(cbn; lia)) as (f2 & -> & Hc2 & Hd2).
  cbn [mbind res_bind].
  destruct (lseek_ok f2 fd p (zlen d + 0) d 0 SEEK_SET Hc2 ltac:(by rewrite Hd2) ltac:(cbn; lia)) as (f3 & -> & Hc3 & Hd3).
  rewrite Z.add_0_r. destruct (zlen_u32 d Hds) as [-> _].
  exists f3, fd. split; [done|]. split; [intros q; by rewrite Hd3, Hd2|]. f_equal.
  unfold set_request. rewrite <- Hr. by destruct s as [[] ? ? ? ? ?].
Qed.

(** The headers, and a session that waits to write or has nothing to write. *)
Lemma header_sent w s fd p t n :
  room s -> s_ops s = no_ops -> method (request (s_web s)) = WEBNET_GET ->
  zlen (ctime t) <= 32 -> support_gzip (request (s_web s)) = false ->
  exists b, let s' := sends (file_header_texts (request (s_web s)) t p n) b s in
    zlen b = WEBNET_SESSION_BUFSZ /\
    send_header w s fd p (Some t) n =
      Ok (if n =? 0 then (set_fs (fs_close (w_fs w) fd) w, s')
          else (w, set_ops (dofile_ops fd) (set_write true s'))).
Proof.
  intros Hroom Hops Hm Hct Hgz. unfold send_header. cbn [defined mbind res_bind].
  destruct (file_texts_fit (request (s_web s)) t p n Hct Hgz) as [_ Hf].
  destruct (prints_sent _ s Hroom Hf) as (b & -> & Hb). exists b. split; [done|]. cbn [mbind res_bind].
  rewrite Hm, (bool_decide_eq_false_2 (WEBNET_GET = WEBNET_HEADER)) by done. by destruct (n =? 0).
Qed.

Lemma sends_sends a c b1 b2 s : sends c b2 (sends a b1 s) = sends (a ++ c) b2 s.
Proof. unfold sends. cbn. by rewrite app_assoc. Qed.

Lemma room_received pieces web : receive webnet_session_create pieces = Ok web -> zlen (buffer web) = WEBNET_SESSION_BUFSZ.
Proof. intros H. apply (receive_ok _ _ _ created_ok) in H. apply H. Qed.

(** A request that is received from the start. *)
Lemma serve_from_start w pieces events b r : pieces <> [] ->
  receive webnet_session_create pieces = Ok (Session b 0 WEB_PHASE_RESPONSE r) ->
  serve w accepted (map (fun p => Readable [p]) pieces ++ events) =
  ('(w, s) ← webnet_module_handle_uri w
      (Sess (Session b 0 WEB_PHASE_RESPONSE r) no_ops false (0, 0) [] true) [];
   '(w, s) ← finish_read w s; serve w s events).
Proof.
  intros Hne H. destruct pieces as [|p ps]; [done|].
  replace (serve w accepted _) with
    (serve w (set_ops default_ops accepted) (map (fun p => Readable [p]) (p :: ps) ++ events)) by done.
  rewrite (serve_received events b r (p :: ps) w (set_ops default_ops accepted)); try done.
Qed.

(** Up to the opened file. *)
Lemma served_start w pieces last name m target lines r path p t d events :
  posted pieces last [] [] name m target lines r -> is_file w r path p t d ->
  exists f fd s, fs_cursor f fd = Some (p, 0) /\ (forall q, fs_data f q = fs_data (w_fs w) q) /\
    request (s_web s) = set_member m_path p (set_result 200 r) /\ room s /\ s_ops s = no_ops /\
    s_open s = true /\ s_sent s = [] /\ session_phase (s_web s) = WEB_PHASE_RESPONSE /\
    serve w accepted (map (fun p => Readable [p]) (pieces ++ [last]) ++ events) =
      ('(w, s) ← send_file (set_fs f w) s fd p (Some t) (zlen d);
       '(w, s) ← finish_read w s; serve w s events).
Proof.
  intros Hp Hf. assert (Hm : method r = WEBNET_GET) by apply Hf.
  assert (Hnp : content_length r = 0 \/ method r <> WEBNET_POST) by (right; by rewrite Hm).
  destruct (request_received _ _ _ _ _ _ _ Hp Hnp) as [b E].
  rewrite (serve_from_start _ (pieces ++ [last]) _ _ _ (not_eq_sym (app_cons_not_nil pieces [] last)) E).
  assert (Hf' : is_file w (set_result 200 r) path p t d) by (destruct Hf; by split).
  set (s0 := Sess _ _ _ _ _ _).
  rewrite (uri_to_dofile w s0 [] (set_result 200 r) path p t d eq_refl Hf').
  destruct (dofile_opened w (set_request (set_member m_path p (set_result 200 r)) s0) (set_result 200 r) path p t d
    eq_refl Hf') as (f & fd & Hc & Hq & ->).
  exists f, fd, (set_request (set_member m_path p (set_result 200 r)) s0).
  split_and!; try done. exact (room_received _ _ E).
Qed.

(** A finished session is closed. *)
Lemma served_ends w s :
  s_ops s = no_ops -> result_code (request (s_web s)) = 200 -> finish_read w s = Ok (w, close_socket s).
Proof.
  intros Hops Hc. unfold finish_read, closing, webnet_session_close. by rewrite Hops, orb_true_r, Hc; cbn; rewrite Hops.
Qed.

(** A session that sends a file is kept. *)
Lemma served_goes_on w s fd :
  session_phase (s_web s) <> WEB_PHASE_CLOSE -> s_ops s = dofile_ops fd -> finish_read w s = Ok (w, s).
Proof. intros Hph Hops. unfold finish_read, closing. by rewrite Hops, bool_decide_eq_false_2. Qed.


(** ** Which file is served *)

(** The path below the root of the server. *)
Definition below_root (ns : list (list Z)) : list Z := webnet_root ++ concat (map (cons slash) ns).

Definition no_dots (ns : list (list Z)) : list (list Z) := List.filter (fun n => negb (bool_decide (n = [dot]))) ns.

Lemma resolve_no_up ns : forall st, ([dot; dot] : list Z) ∉ ns -> resolve st ns = Some (rev (no_dots ns) ++ st).
Proof.
  induction ns as [|n ns IH]; intros st H; [done|]. apply not_elem_of_cons in H as [Hn H].
  cbn [resolve no_dots List.filter]. destruct (bool_decide_reflect (n = [dot])) as [->|Hd]; cbn [negb].
  - by apply IH.
  - rewrite bool_decide_eq_false_2 by done. rewrite IH by done. cbn [rev]. by rewrite <- app_assoc.
Qed.

Definition root_stack : list (list Z) := [str "webnet"; []].

Lemma below_root_snoc l n : below_root (l ++ [n]) = below_root l ++ slash :: n.
Proof. unfold below_root. by rewrite map_app, concat_app, <- app_assoc; cbn; rewrite app_nil_r. Qed.

Lemma closed_below l : closed (rev l ++ root_stack) = below_root l ++ [slash].
Proof.
  induction l as [|n l IH] using rev_ind; [done|].
  rewrite rev_app_distr. cbn [rev app]. by rewrite closed_cons, IH, below_root_snoc, <- !app_assoc.
Qed.

Lemma render_below l : Forall (fun n => n <> []) l -> render (rev l ++ root_stack) = below_root l.
Proof.
  destruct l as [|n l _] using rev_ind; [done|]. intros H. apply Forall_app in H as [_ H].
  apply Forall_inv in H. rewrite rev_app_distr. cbn [rev app].
  rewrite render_open by done. rewrite closed_below, below_root_snoc, <- app_assoc. done.
Qed.

Lemma names_file path file : file ∈ default_files -> names (path ++ file) = names path ++ names file.
Proof.
  intros H. unfold default_files in H. apply elem_of_cons in H as [->|H]; [by rewrite !app_nil_r|].
  assert (exists f, file = slash :: f) as [f ->].
  { apply elem_of_cons in H as [->|H]; [by eexists|]. apply list_elem_of_singleton in H as ->. by eexists. }
  by rewrite names_join.
Qed.

Lemma full_path_below path file :
  cstring path -> file ∈ default_files -> ([dot; dot] : list Z) ∉ names path ->
  zlen path + zlen file + 8 <= WEBNET_PATH_MAX - 1 ->
  full_path path file = Ok (below_root (no_dots (names (path ++ file)))).
Proof.
  intros Hc Hf Hup Hl. unfold full_path. rewrite take_ge; cycle 1.
  { change (length _) with (length (webnet_root ++ [slash] ++ path ++ file)). unfold zlen in Hl.
    rewrite !length_app. change (length webnet_root) with 7%nat. cbn [length]. lia. }
  assert (Hfile : cstring file /\ ([dot; dot] : list Z) ∉ names file).
  { unfold default_files in Hf. repeat (apply elem_of_cons in Hf as [->|Hf]; [split; by_decide|]).
    by apply not_elem_of_nil in Hf. }
  destruct Hfile as [Hcf Hupf].
  assert (Hcs : cstring (webnet_root ++ [slash] ++ path ++ file)).
  { apply Forall_app. split; [by_decide|]. apply Forall_app. split; [by_decide|]. by apply Forall_app. }
  pose proof (normalize_run _ [] Hcs) as H. unfold norm_result in H.
  cbn [app] in H. rewrite (normal_join webnet_root (path ++ file)) in H.
  change (normal (webnet_root ++ [slash])) with (Some root_stack) in H. cbn [mbind option_bind] in H.
  rewrite resolve_no_up in H by (rewrite names_file by done; rewrite elem_of_app; tauto).
  assert (Hok : Forall (fun n => cstring n /\ no_slash n /\ n <> []) (no_dots (names (path ++ file)))).
  { apply List.Forall_forall. intros n Hn. apply filter_In in Hn as [Hn _].
    refine (proj1 (List.Forall_forall _ _) (names_ok (path ++ file) _) n Hn). by apply Forall_app. }
  assert (Hne : Forall (fun n => n <> []) (no_dots (names (path ++ file))))
    by (eapply Forall_impl; [exact Hok|by intros ? (_ & _ & ?)]).
  pose proof (render_below _ Hne) as Hr.
  destruct (rev (no_dots (names (path ++ file))) ++ root_stack) as [|n st] eqn:Est; [by destruct (rev _) in Est|].
  destruct H as (junk & Hrun & _). unfold full_path. cbn [app] in Hrun |- *.
  rewrite Hrun. cbn [defined mbind res_bind]. rewrite Hr.
  rewrite buf_cstr_app; [done|].
  unfold below_root. apply Forall_app. split; [by_decide|]. apply Forall_concat, Forall_map.
  eapply Forall_impl; [exact Hok|]. intros m Hm. constructor; [by_decide|apply Hm].
Qed.

Lemma try_files_below f path files :
  cstring path -> ([dot; dot] : list Z) ∉ names path -> zlen path <= 236 -> (forall x, x ∈ files -> x ∈ default_files) ->
  exists file, file ∈ default_files /\ try_files f path files = Ok (below_root (no_dots (names (path ++ file)))).
Proof.
  intros Hc Hup Hl Hsub.
  assert (Hfit : forall file, file ∈ default_files -> zlen path + zlen file + 8 <= WEBNET_PATH_MAX - 1).
  { intros file H. change (WEBNET_PATH_MAX - 1) with 255. assert (zlen file <= 11); [|lia].
    unfold default_files in H. repeat (apply elem_of_cons in H as [->|H]; [by apply Z.leb_le|]).
    by apply not_elem_of_nil in H. }
  assert (H0 : ([] : list Z) ∈ default_files) by by_decide.
  induction files as [|file files IH].
  - exists []. split; [done|]. cbn [try_files]. by apply full_path_below; [..|apply Hfit].
  - assert (Hf : file ∈ default_files) by apply Hsub, list_elem_of_here. cbn [try_files].
    rewrite full_path_below by auto. cbn [mbind res_bind].
    destruct (fs_stat f _) as [[[] t]|]; [|by exists file|]; apply IH; intros x Hx; by apply Hsub, list_elem_of_further.
Qed.

Lemma physical_below m f path :
  cstring path -> ([dot; dot] : list Z) ∉ names path -> zlen path <= 236 ->
  exists file, file ∈ default_files /\ physical_path m f path = Ok (below_root (no_dots (names (path ++ file)))).
Proof.
  intros Hc Hup Hl. apply try_files_below; [done..|]. intros x. case_match; [done|]. by intros Hx%not_elem_of_nil.
Qed.

Lemma prints_ops texts : forall s s', prints texts s = Ok s' -> s_ops s' = s_ops s.
Proof.
  induction texts as [|t texts IH]; intros s s' H; [by injection H as <-|].
  cbn [prints] in H. apply Ok_bind in H as (s1 & H1 & H). rewrite (IH _ _ H).
  unfold webnet_session_printf in H1. by repeat (apply Ok_bind in H1 as (? & _ & H1)); injection H1 as <-.
Qed.

(** A file that is being sent is at the path or its compressed variant. *)
Definition serves (path : list Z) (w : world) (s : session) : Prop :=
  forall fd, s_ops s = dofile_ops fd ->
  exists q off, fs_cursor (w_fs w) fd = Some (q, off) /\ (q = path \/ q = path ++ str ".gz").

Lemma refuse_ops code w s fd w' s' : refuse code w s fd = Ok (w', s') -> s_ops s' = s_ops s.
Proof.
  unfold refuse. intros H. apply Ok_bind in H as (s1 & H1 & H). injection H as _ <-.
  case_match; [by apply prints_ops in H1 as ->|by injection H1 as <-].
Qed.

Lemma send_header_serves w s fd path time n w' s' q :
  s_ops s = no_ops -> (exists off, fs_cursor (w_fs w) fd = Some (q, off)) -> q = path \/ q = path ++ str ".gz" ->
  forall mime, send_header w s fd mime time n = Ok (w', s') -> serves path w' s'.
Proof.
  intros Hops [off Hc] Hq mime H. unfold send_header in H.
  apply Ok_bind in H as (t & _ & H). apply Ok_bind in H as (s1 & H1 & H). apply prints_ops in H1.
  intros fd' Hfd. repeat case_match; injection H as <- <-; [congruence|congruence|].
  cbn in Hfd. injection Hfd as <-. by exists q, off.
Qed.

Lemma open_file_path r path f fd f' r' : open_file r path f = (fd, f', r') -> 0 <= fd ->
  exists q, fs_cursor f' fd = Some (q, 0) /\ (q = path \/ q = path ++ str ".gz").
Proof.
  unfold open_file. intros H Hfd. destruct (support_gzip r).
  - destruct (fs_open_ro f (path ++ str ".gz")) as [fd1 f1] eqn:E1. destruct (Z.ltb_spec fd1 0).
    + destruct (fs_stat f1 path) as [[[] t]|]; try (injection H as <- <- <-; lia).
      destruct (fs_open_ro f1 path) as [fd2 f2] eqn:E2. injection H as -> -> _.
      exists path. split; [by eapply (open_ro_ok f1)|by left].
    + injection H as -> -> _. exists (path ++ str ".gz"). split; [by eapply (open_ro_ok f)|by right].
  - change (-1 <? 0) with true in H. cbv iota in H.
    destruct (fs_stat f path) as [[[] t]|]; try (injection H as <- <- <-; lia).
    destruct (fs_open_ro f path) as [fd2 f2] eqn:E2. injection H as -> -> _.
    exists path. split; [by eapply (open_ro_ok f)|by left].
Qed.

Lemma send_file_serves w s fd mime time n w' s' path q :
  s_ops s = no_ops -> (exists off, fs_cursor (w_fs w) fd = Some (q, off)) -> q = path \/ q = path ++ str ".gz" ->
  send_file w s fd mime time n = Ok (w', s') -> serves path w' s'.
Proof.
  intros Hops [o Hc] Hq H. unfold send_file in H.
  assert (Hno : forall w s, s_ops s = no_ops -> serves path w s) by (intros w1 s1 E fd'; by rewrite E).
  destruct (members _ !! m_Range) as [text|].
  - apply Ok_bind in H as (g & _ & H). destruct g as [code|a b]; [by apply Hno; apply refuse_ops in H as ->|].
    destruct (lseek_path _ _ _ _ a SEEK_SET Hc) as [o4 Hc4].
    destruct (fs_lseek (w_fs w) fd a SEEK_SET) as [n4 f4]. cbn [snd] in Hc4.
    case_match; [by apply Hno; apply refuse_ops in H as ->|].
    apply Ok_bind in H as (s1 & H1 & H). apply prints_ops in H1.
    refine (send_header_serves _ _ fd path _ _ _ _ q _ _ Hq _ H); [by rewrite H1|exists o4; exact Hc4].
  - apply Ok_bind in H as (s1 & H1 & H). apply prints_ops in H1.
    refine (send_header_serves _ _ fd path _ _ _ _ q _ _ Hq _ H); [by rewrite H1|by exists o].
Qed.

Lemma dofile_serves w s w' s' path :
  s_ops s = no_ops -> members (request (s_web s)) !! m_path = Some path ->
  webnet_module_system_dofile w s = Ok (w', s') -> serves path w' s'.
Proof.
  intros Hops Hpath H. unfold webnet_module_system_dofile in H. rewrite Hpath in H. cbn [defined mbind res_bind] in H.
  apply Ok_bind in H as (m & _ & H).
  assert (Hno : forall w s, s_ops s = no_ops -> serves path w s) by (intros w1 s1 E fd; by rewrite E).
  destruct m as [time|]; [|injection H as <- <-; by apply Hno].
  destruct (open_file _ _ _) as [[fd f1] r] eqn:Eo.
  destruct (Z.ltb_spec fd 0) as [|Hfd]; [injection H as <- <-; by apply Hno|].
  destruct (open_file_path _ _ _ _ _ _ Eo Hfd) as (q & Hc & Hq).
  destruct (lseek_path _ _ _ _ 0 SEEK_END Hc) as [o2 Hc2]. destruct (fs_lseek f1 fd 0 SEEK_END) as [n f2].
  destruct (lseek_path _ _ _ _ 0 SEEK_SET Hc2) as [o3 Hc3]. cbn [snd] in *.
  destruct (fs_lseek f2 fd 0 SEEK_SET) as [n3 f3]. cbn [snd] in Hc3.
  by eapply send_file_serves; [..|exact Hq|exact H]; [|exists o3].
Qed.

(** A request that no module of the application takes. *)
Definition untaken (r : webnet_request) (path : list Z) : Prop :=
  members r !! m_path = Some path /\ find (fun i => str_path_with path i.1) auth_items = None /\
  strstr path cgi_root = None /\ (method r = WEBNET_POST -> find_entry path = None).

Lemma untaken_uri w s recv path : untaken (request (s_web s)) path ->
  _webnet_module_system_uri_physical w s recv = Ok (w, s, false).
Proof.
  intros (Hp & Ha & Hc & He). unfold _webnet_module_system_uri_physical, webnet_module_auth.
  rewrite Hp. cbn [defined mbind res_bind]. rewrite Ha. cbn [mbind res_bind].
  unfold webnet_module_cgi. rewrite Hp. cbn [defined mbind res_bind]. rewrite Hc. cbn [mbind res_bind].
  unfold webnet_module_upload. case_bool_decide; cbn [negb]; [|done].
  rewrite Hp. cbn [defined mbind res_bind]. by rewrite He.
Qed.

(** [C16] Only files below the root are served, as long as the path of the
    request does not go up: whatever the method and the header, if no module of
    the application takes the request, and the path fits, the file that the
    session begins to send is, up to the suffix of a compressed file, the one
    with the names of the path, and of a default file, below the root. *)
Theorem uri_confined w s recv path w' s' fd :
  s_ops s = no_ops -> untaken (request (s_web s)) path ->
  cstring path -> ([dot; dot] : list Z) ∉ names path -> zlen path <= 236 ->
  webnet_module_handle_uri w s recv = Ok (w', s') -> s_ops s' = dofile_ops fd ->
  exists file q off, file ∈ default_files /\ fs_cursor (w_fs w') fd = Some (q, off) /\
    let p := below_root (no_dots (names path) ++ names file) in q = p \/ q = p ++ str ".gz".
Proof.
  intros Hops Hu Hc Hup Hl H Hfd. unfold webnet_module_handle_uri in H.
  rewrite (untaken_uri w s recv path Hu) in H. cbn [mbind res_bind] in H.
  destruct Hu as [Hp _]. rewrite Hp in H. cbn [defined mbind res_bind] in H.
  destruct (physical_below (method (request (s_web s))) (w_fs w) path Hc Hup Hl) as (file & Hf & E).
  rewrite E in H. cbn [mbind res_bind] in H.
  assert (Hn : no_dots (names (path ++ file)) = no_dots (names path) ++ names file).
  { rewrite names_file by done. unfold no_dots. rewrite List.filter_app. f_equal.
    unfold default_files in Hf. repeat (apply elem_of_cons in Hf as [->|Hf]; [done|]).
    by apply not_elem_of_nil in Hf. }
  rewrite Hn in H. destruct (negb _) in H; [injection H as <- <-; cbn in Hfd; congruence|].
  eapply dofile_serves in H; [|done|cbn; by rewrite lookup_insert_eq].
  destruct (H fd Hfd) as (q & off & Hq & Hor). by exists file, q, off.
Qed.

(** ** Ranges *)

(** Reading gives all bytes there are. *)
Definition full_reads (f : F) (fd : Z) : Prop := forall p off d n,
  fs_cursor f fd = Some (p, off) -> fs_data f p = Some d -> 0 <= off <= zlen d -> 0 < n ->
  (fs_read f fd n).1.1 = Z.min n (zlen d - off).

Lemma range_written p d fd b text n : forall w s a o,
  (forall f, full_reads f fd) -> zlen d < 2 ^ 31 ->
  s_ops s = dofile_ops fd -> s_open s = true -> room s -> session_phase (s_web s) <> WEB_PHASE_CLOSE ->
  members (request (s_web s)) !! m_Range = Some text -> s_range s = (a, b) ->
  fs_cursor (w_fs w) fd = Some (p, o) -> fs_data (w_fs w) p = Some d -> 0 <= a <= b -> b < zlen d ->
  b - a < Z.of_nat n ->
  exists w' s', serve w s (replicate n Writable) = Ok (w', s') /\ s_open s' = false /\
    concat (s_sent s') = concat (s_sent s) ++ take (Z.to_nat (b - a)) (drop (Z.to_nat a) d).
Proof.
  intros w s a o Hreads Hds. revert w s a o.
  induction n as [|n IH]; intros w s a o Hops Hopen Hroom Hph Hrg Hab Hc Hd Ha Hb Hn; [lia|].
  cbn [replicate serve]. rewrite Hopen. cbn [negb]. unfold writable, handle_write. rewrite Hops.
  unfold dofile_write. rewrite Hrg, Hab. rewrite u32_id by lia.
  destruct (Z.eqb_spec (b - a) 0) as [Hz|Hz].
  - rewrite Hz. cbn [dofile_exit mbind res_bind].
    unfold closing. cbn [s_web set_write set_phase set_web session_phase]. rewrite bool_decide_eq_true_2 by done.
    cbn [orb]. unfold webnet_session_close. cbn [s_ops set_write set_phase set_web]. rewrite Hops.
    cbn [mbind res_bind]. rewrite serve_closed by done. eexists _, _. split; [reflexivity|].
    split; [done|]. cbn. by rewrite app_nil_r.
  - set (k := Z.min (b - a) WEBNET_SESSION_BUFSZ).
    assert (Hk : 0 < k <= b - a /\ k <= WEBNET_SESSION_BUFSZ) by (unfold k, WEBNET_SESSION_BUFSZ; lia).
    destruct (lseek_ok _ fd p o d a SEEK_SET Hc Hd ltac:(cbn; lia)) as (f1 & -> & Hc1 & Hd1).
    assert (Hdp : fs_data f1 p = Some d) by by rewrite Hd1.
    pose proof (Hreads f1 p a d k Hc1 Hdp ltac:(lia) ltac:(lia)) as Hr.
    destruct (fs_read f1 fd k) as [[r bs] f2] eqn:Er. cbn in Hr.
    replace (Z.min k (zlen d - a)) with k in Hr by lia. subst r.
    destruct (read_ok _ _ _ _ _ k k bs f2 Hc1 Hdp ltac:(lia) ltac:(lia) Er ltac:(lia))
      as (Hbs & _ & _ & _ & Hc2 & Hd2).
    rewrite (proj2 (Z.eqb_neq k 0)), (proj2 (Z.ltb_ge k 0)) by lia.
    assert (Hz1 : zlen bs = k).
    { rewrite Hbs. unfold zlen in *. rewrite length_take, length_drop. lia. }
    unfold room in Hroom. cbn [set_range s_web]. rewrite buf_write_some by lia.
    cbn [defined mbind res_bind fst snd Z.to_nat take Nat.add]. rewrite app_nil_l.
    set (b1 := bs ++ _).
    assert (Hb1 : zlen b1 = WEBNET_SESSION_BUFSZ).
    { unfold b1. rewrite <- Hroom. unfold zlen in *. rewrite length_app, length_drop. lia. }
    assert (Ht : take (Z.to_nat k) b1 = bs) by (rewrite <- Hz1; apply take_zlen_app).
    rewrite Ht. rewrite u32_id by lia.
    set (s1 := send bs _). assert (Hnc : closing s1 = false).
    { unfold closing, s1. cbn. by rewrite Hops, bool_decide_eq_false_2. }
    rewrite Hnc. cbn [mbind res_bind].
    destruct (IH (set_fs f2 w) s1 (a + k) (a + k)) as (w' & s' & E & Ho & Hs); try done; try lia.
    + cbn [w_fs set_fs]. by rewrite Hd2, Hd1.
    + rewrite E. eexists _, _. split; [reflexivity|]. split; [done|]. rewrite Hs. unfold s1.
      cbn [s_sent send set_buffer set_web set_range].
      rewrite concat_app. cbn [concat]. rewrite app_nil_r, <- app_assoc. f_equal.
      rewrite Hbs, Z2Nat.inj_add, <- drop_drop by lia.
      replace (Z.to_nat (b - a)) with (Z.to_nat k + Z.to_nat (b - (a + k)))%nat by lia.
      apply take_take_drop.
Qed.

(** A range comes without its last byte: the headers that answer a GET of
    the bytes from [a] to [b] of a file announce a content of [b - a + 1]
    bytes, but only the [b - a] bytes before the last are sent before the
    socket is closed. *)
Theorem range_one_short w pieces last name m target lines r path p t d text a b :
  posted pieces last [] [] name m target lines r -> is_file w r path p t d ->
  members r !! m_Range = Some text -> parse_range text false (zlen d) = Ok (Range a b) ->
  0 <= a <= b -> b < zlen d -> (forall f fd, full_reads f fd) ->
  exists w' s', serve w accepted
      (map (fun p => Readable [p]) (pieces ++ [last]) ++ replicate (S (length d)) Writable) = Ok (w', s') /\
    s_open s' = false /\
    concat (s_sent s') = concat (range_texts a b ++ file_header_texts r t p (b - a + 1)) ++
      take (Z.to_nat (b - a)) (drop (Z.to_nat a) d).
Proof.
  intros Hp Hf Hrg Hpr Ha Hb Hfull. destruct (served_start w pieces last name m target lines r path p t d
    (replicate (S (length d)) Writable) Hp Hf) as (f & fd & s0 & Hc & Hq & Hr & Hroom & Hops & Hopen & Hsent & Hph & ->).
  destruct Hf as [Hm _ _ _ (_ & Hgz) _ [_ Hct] [Hd Hds] _ _].
  unfold send_file. rewrite Hr. cbn [set_member set_result members support_gzip].
  rewrite lookup_insert_ne, Hrg, Hgz, Hpr by done. cbn [mbind res_bind].
  assert (Hdp : fs_data f p = Some d) by by rewrite Hq.
  destruct (lseek_ok _ fd p 0 d a SEEK_SET Hc Hdp ltac:(cbn; lia)) as (f1 & E1 & Hc1 & Hd1).
  cbn [w_fs set_fs]. rewrite E1, Z.eqb_refl. cbn [negb]. rewrite !u32_id by lia.
  destruct (prints_sent (range_texts a b) (set_range (a, b) (set_code 216 s0)) Hroom) as (b1 & -> & Hb1).
  { change (WEBNET_SESSION_BUFSZ - 2) with 4094. repeat (constructor; [by apply Z.leb_le|]). constructor; [|constructor].
    pose proof (sprintf_d_len (i32 a)). pose proof (sprintf_d_len (i32 b)).
    pose proof (sprintf_d_len (i32 (u32 (b - a + 1)))). rewrite !zlen_app.
    change (zlen (str "Content-Range: ")) with 15. change (zlen (str "-")) with 1. change (zlen (str "/")) with 1.
    change (zlen crlf) with 2. lia. }
  cbn [mbind res_bind].
  match goal with |- context [send_header ?w1 ?s1 fd p (Some t) ?n] =>
    destruct (header_sent w1 s1 fd p t n) as (b2 & Hb2 & ->) end; try done; [cbn; by rewrite Hr..|].
  rewrite sends_sends, (proj2 (Z.eqb_neq _ 0)) by lia. cbn [mbind res_bind].
  rewrite (served_goes_on _ _ fd) by (done || (cbn; by rewrite Hph)). cbn [mbind res_bind].
  match goal with |- context [serve ?w1 ?s1 (replicate ?n Writable)] =>
    destruct (range_written p d fd b text n w1 s1 a a) as (w' & s' & -> & Ho & Hs) end; try done.
  - cbn. by rewrite Hph.
  - cbn. rewrite Hr. cbn. by rewrite lookup_insert_ne.
  - cbn. by rewrite Hd1.
  - unfold zlen in *. lia.
  - eexists _, _. split; [reflexivity|]. split; [done|]. rewrite Hs. cbn -[range_texts]. rewrite Hsent, Hr. done.
Qed.
End Server.

(** ** Reading the in-memory file system *)
Definition mem_stat (f : mem_fs) (p : path) : option (bool * Z) :=
  if bool_decide (p ∈ mf_dirs f) then Some (true, 0)
  else match mf_files f !! p with Some _ => Some (false, 0) | None => None end.

Definition mem_open_ro (f : mem_fs) (p : path) : Z * mem_fs :=
  match mf_files f !! p with
  | Some _ => (mf_next f, MemFs (mf_dirs f) (mf_files f) (<[mf_next f := (p, 0)]> (mf_fds f)) (mf_next f + 1))
  | None => (-1, f)
  end.

Definition mem_seek (f : mem_fs) (fd : Z) (p : path) (off : Z) : mem_fs :=
  MemFs (mf_dirs f) (mf_files f) (<[fd := (p, off)]> (mf_fds f)) (mf_next f).

Definition mem_lseek (f : mem_fs) (fd n : Z) (wh : whence) : Z * mem_fs :=
  match mf_fds f !! fd with
  | Some (p, _) =>
      let to := match wh with SEEK_SET => n | SEEK_END => zlen (default [] (mf_files f !! p)) + n end in
      (to, mem_seek f fd p to)
  | None => (-1, f)
  end.

Definition mem_read (f : mem_fs) (fd n : Z) : Z * list Z * mem_fs :=
  match mf_fds f !! fd with
  | Some (p, off) =>
      let bs := take (Z.to_nat n) (drop (Z.to_nat off) (default [] (mf_files f !! p))) in
      (zlen bs, bs, mem_seek f fd p (off + zlen bs))
  | None => (-1, [], f)
  end.

#[export] Instance mem_file_read : FileRead mem_fs := {
  fs_stat := mem_stat;
  fs_open_ro := mem_open_ro;
  fs_lseek := mem_lseek;
  fs_read := mem_read
}.

Lemma mem_read_length f fd p off d n : mf_fds f !! fd = Some (p, off) -> mf_files f !! p = Some d ->
  0 <= off <= zlen d -> 0 < n -> (mem_read f fd n).1.1 = Z.min n (zlen d - off).
Proof.
  intros Hc Hd Ho Hn. unfold mem_read. rewrite Hc, Hd. cbn. unfold zlen in *.
  rewrite length_take, length_drop. lia.
Qed.

#[export] Instance mem_file_read_laws : FileReadLaws mem_fs.
Proof.
  split; cbn.
  - intros f p t. unfold mem_stat. case_bool_decide; [done|]. destruct (mf_files f !! p); [by eexists|done].
  - intros f p fd f'. unfold mem_open_ro. destruct (mf_files f !! p); intros [= <- <-]; [|lia].
    intros _. cbn. by rewrite lookup_insert_eq.
  - intros f fd p off d n wh Hc Hd. unfold mem_lseek. rewrite Hc, Hd. cbn. intros _.
    destruct wh; (eexists; split; [reflexivity|]); cbn; by rewrite lookup_insert_eq.
  - intros f fd p off n wh Hc. unfold mem_lseek. rewrite Hc. cbn. rewrite lookup_insert_eq. by eexists.
  - intros f fd p off d n r bs f' Hc Hd Ho Hn E Hr. pose proof (mem_read_length f fd p off d n Hc Hd Ho Hn) as Hl.
    unfold mem_read in *. rewrite Hc, Hd in *. cbn in *. injection E as <- <- <-. rewrite Hl.
    split_and!; [|lia|lia|lia| |done].
    { destruct (Z.le_ge_cases n (zlen d - off)); [by rewrite Z.min_l by lia|].
      rewrite Z.min_r, !take_ge by (try lia; rewrite length_drop; unfold zlen in *; lia). done. }
    cbn. by rewrite lookup_insert_eq.
  - intros f fd. by rewrite lookup_delete_eq.
Qed.

(** ** A page and a range of it *)
Definition no_time (_ : Z) : list Z := str "Thu Jan  1 00:00:00 1970" ++ [10].

Definition page : list Z := str "<html>W601</html>".

Definition page_world : world mem_fs unit :=
  World tt (MemFs [str "/"; str "/webnet"] {[str "/webnet/index.html" := page]} ∅ 3).

Definition page_lines : list (list Z) := [str "Host: 192.168.1.1"; str "Connection: Keep-Alive"].

Definition page_request (lines : list (list Z)) : webnet_request :=
  match read_header lines (start_request WEBNET_GET (str "/") webnet_request_create) with
  | Ok r => r
  | _ => webnet_request_create
  end.

Lemma page_posted lines : Forall line_ok lines ->
  zlen (head_text (str "GET ") (str "/") lines ++ []) < WEBNET_SESSION_BUFSZ ->
  read_header lines (start_request WEBNET_GET (str "/") webnet_request_create) = Ok (page_request lines) ->
  posted [str "GE"] (str "T / HTTP/1.1" ++ crlf ++ header_text lines) [] [] (str "GET ") WEBNET_GET (str "/")
    lines (page_request lines).
Proof. intros Hl Hz Hr. split; [by_decide|by_decide|done|by_decide|reflexivity|by_decide|done|done]. Qed.

Lemma page_is_file lines : method (page_request lines) = WEBNET_GET ->
  members (page_request lines) !! m_path = Some (str "/") ->
  members (page_request lines) !! m_modified = None -> support_gzip (page_request lines) = false ->
  is_file [] no_time page_world (page_request lines) (str "/") (str "/webnet/index.html") 0 page.
Proof.
  intros Hm Hp Hmod Hg. split; try done.
  intros f fd Hc n. cbn in *. unfold mem_read.
  destruct (mf_fds f !! fd) as [[p off]|]; [apply zlen_nonneg|done].
Qed.


Definition range_lines : list (list Z) := [str "Range: bytes=6-9"].

Example range_one_short_witness :
  exists w' s', serve [] [] [] no_time no_time page_world accepted
      (map (fun p => Readable [p]) [str "GE"; str "T / HTTP/1.1" ++ crlf ++ header_text range_lines] ++
       replicate 18 Writable) = Ok (w', s') /\
    s_open s' = false /\
    concat (s_sent s') = concat (range_texts 6 9 ++
      file_header_texts no_time (page_request range_lines) 0 (str "/webnet/index.html") 4) ++ str "W60".
Proof.
  apply (range_one_short [] [] [] no_time no_time page_world [str "GE"]
    (str "T / HTTP/1.1" ++ crlf ++ header_text range_lines) (str "GET ") WEBNET_GET (str "/") range_lines
    (page_request range_lines) (str "/") (str "/webnet/index.html") 0 page (str "bytes=6-9") 6 9).
  - apply page_posted; [by_decide|by_decide|by vm_compute].
  - apply page_is_file; by vm_compute.
  - by vm_compute.
  - by vm_compute.
  - done.
  - by vm_compute.
  - intros f fd p off d n. apply mem_read_length.
Defined.

(** A session that has read a request. *)
Definition with_request (r : webnet_request) : session :=
  Sess (Session (replicate (Z.to_nat WEBNET_SESSION_BUFSZ) 0) 0 WEB_PHASE_RESPONSE r) no_ops false (0, 0) [] true.

Definition request_of (m : webnet_method) (path : list Z) : webnet_request :=
  set_member m_path path (set_method m webnet_request_create).

(** The outcome of a request: the code, what was sent, and the file that is
    being sent. *)
Definition answer (w : world mem_fs unit) (r : webnet_request) : option (Z * list Z * option (path * Z)) :=
  match webnet_module_handle_uri [] [] [] no_time no_time w (with_request r) [] with
  | Ok (w, s) => Some (result_code (request (s_web s)), concat (s_sent s),
      match s_ops s with dofile_ops fd => fs_cursor (w_fs w) fd | _ => None end)
  | _ => None
  end.

(** The page under another name of its directory. *)
Definition confined_result : res (world mem_fs unit * session) :=
  webnet_module_handle_uri [] [] [] no_time no_time page_world (with_request (request_of WEBNET_GET (str "/./"))) [].

Definition confined_world : world mem_fs unit := match confined_result with Ok (w, _) => w | _ => page_world end.

Definition confined_session : session := match confined_result with Ok (_, s) => s | _ => accepted end.

Lemma confined_eq : confined_result = Ok (confined_world, confined_session).
Proof.
  unfold confined_world, confined_session.
  assert (H : match confined_result with Ok _ => true | _ => false end = true) by (vm_compute; reflexivity).
  by destruct confined_result as [[]| | |].
Qed.

Example uri_confined_witness :
  exists file q off, file ∈ default_files /\ fs_cursor (w_fs confined_world) 3 = Some (q, off) /\
    let p := below_root (no_dots (names (str "/./")) ++ names file) in q = p \/ q = p ++ str ".gz".
Proof.
  assert (Hs : s_ops confined_session = dofile_ops 3) by (vm_compute; reflexivity).
  assert (Hp : cstring (str "/./")) by by_decide.
  assert (Hup : ([46; 46] : list Z) ∉ names (str "/./")) by by_decide.
  assert (Hu : untaken (F := mem_fs) (A := unit) [] [] (request_of WEBNET_GET (str "/./")) (str "/./")).
  { split; [reflexivity|]. split; [reflexivity|]. split; [reflexivity|]. intros _. reflexivity. }
  assert (Hl : zlen (str "/./") <= 236) by by apply Z.leb_le.
  exact (uri_confined [] [] [] no_time no_time page_world
    (with_request (request_of WEBNET_GET (str "/./"))) [] (str "/./") confined_world confined_session 3
    eq_refl Hu Hp Hup Hl confined_eq Hs).
Defined.

(** ** What goes wrong *)

(** [dfs_normalize_path] of src/rt-thread/components/dfs/src/dfs.c, the same
    loops on a copy of the path, as [open] and [stat] resolve it. *)
Definition dfs_normalize_path (filename : list Z) : option (list Z) :=
  '(ok, b) ← _str_normalize_path (filename ++ [0]);
  if (ok : bool) then p ← buf_cstr b; Some (match p with [] => [slash] | _ => p end) else None.

(** The root can be left.  A path that goes up too far makes the normalisation
    fail, which leaves in the buffer the names written so far in front of what
    was not read: here this begins with the root, and the file system resolves
    it to [/secret].  And a name that begins with [webnet] next to the root is
    taken for the root. *)
Example root_escaped :
  match full_path (str "/../webnet/a/b/c/../../../../../../../../secret") [] with
  | Ok p => str_begin_with p webnet_root = true /\ dfs_normalize_path p = Some (str "/secret")
  | _ => False
  end /\
  full_path (str "/../webnet_logs/today") [] = Ok (str "/webnet_logs/today") /\
  str_begin_with (str "/webnet_logs/today") webnet_root = true.
Proof. by vm_compute. Qed.

(** A file that is there in its compressed form only: the time that is printed
    was never set. *)
Example compressed_without_original :
  answer (World tt (MemFs [] {[str "/webnet/a.js.gz" := str "xyz"]} ∅ 3))
    (set_gzip (request_of WEBNET_GET (str "/a.js"))) = None.
Proof. by vm_compute. Qed.

(** A last part of a file, [bytes=-5], is read as its first bytes; a range that
    ends at 0 is the whole file. *)
Example range_from_the_end :
  parse_range (str "bytes=-5") false 17 = Ok (Range 0 5) /\
  parse_range (str "bytes=0-0") false 17 = Ok (Range 0 16).
Proof. by vm_compute. Qed.

(** The method HEADER leaves the file open when the session is closed; HEAD is
    answered with the file. *)
Example header_leaks_file :
  match webnet_module_handle_uri [] [] [] no_time no_time page_world
    (with_request (request_of WEBNET_HEADER (str "/index.html"))) [] with
  | Ok (w, s) => closing s = true /\ fs_cursor (w_fs w) 3 = Some (str "/webnet/index.html", 0)
  | _ => False
  end /\
  snd <$> answer page_world (request_of WEBNET_HEAD (str "/index.html")) = Some (Some (str "/webnet/index.html", 0)).
Proof. by vm_compute. Qed.

(** A POST to an upload without a content type reads a null pointer. *)
Example upload_without_type (handle : upload_call -> world mem_fs unit -> session -> res (world mem_fs unit * session)) :
  webnet_module_handle_uri [] [(str "/upload", handle)] [] no_time no_time page_world
    (with_request (request_of WEBNET_POST (str "/upload"))) [] = Undef.
Proof. by vm_compute. Qed.

(** A text with a percent sign, printed as a format. *)
Example percent_in_answer :
  webnet_session_print (str "{'password':'50%d'}") (with_request webnet_request_create) = Undef.
Proof. by vm_compute. Qed.

(** Any byte that arrives while a file is sent ends the sending. *)
Example sending_cut_short :
  match serve [] [] [] no_time no_time page_world accepted
    [Readable [str "GET / HTTP/1.1" ++ crlf ++ crlf]; Readable [str "x"]; Writable] with
  | Ok (_, s) => s_open s = false /\ concat (s_sent s) = concat (file_texts no_time (page_request []) 0 (str "/webnet/index.html") 17)
  | _ => False
  end.
Proof. by vm_compute. Qed.
