(* ===== verification/WebApp.v ===== *)
(** * The web pages of the application

    Models src/module/web/web_module.c: the CGI functions and the tables that
    [web_module_init] fills, on top of the web server of [WebServe], with the
    lamps, the mail alarm and the temperature history of [AppModules], the
    replies of [Replies], the uploads of [WebUpload] and the wake-up packet of
    [Wol].  [web_file_init], which the start calls first, is in [AppStart].

    Numbers that C prints or reads as floating point, the memory statistics and
    the time are part of the state as texts and integers. *)

From S2P Require Import Prelude Flash Fal CLib WebPath FileSys WebUpload SmtpClient AppModules.
From S2P Require Import Json JsonParse Replies Wol WebQuery WebRequest WebMultipart WebStored WebServe.

Local Open Scope Z_scope.

(** ** The state of the application *)

(** [limit] is the text that [atof] was given; [packets] are the broadcasts
    sent; the last three are the static data of the two uploads. *)
Record app_state (R Fl : Type) := App {
  lamps : Board.lamps;
  smtp : Alarm.smtp_module_t;
  client : smtp_session_t;
  limit : list Z;
  sensors : readings;
  used_mem : Z; max_mem : Z; total_mem : Z;
  now : Z;
  temp_data : @Aht10.series R;
  humi_data : @Aht10.series R;
  packets : list (list Z);
  old_name : list Z;
  manager : option DirUpload.upload_mgr;
  firm : @FirmUpload.firm_state Fl }.

Arguments App {R Fl}.
Arguments lamps {R Fl} _.
Arguments smtp {R Fl} _.
Arguments client {R Fl} _.
Arguments limit {R Fl} _.
Arguments sensors {R Fl} _.
Arguments used_mem {R Fl} _.
Arguments max_mem {R Fl} _.
Arguments total_mem {R Fl} _.
Arguments now {R Fl} _.
Arguments temp_data {R Fl} _.
Arguments humi_data {R Fl} _.
Arguments packets {R Fl} _.
Arguments old_name {R Fl} _.
Arguments manager {R Fl} _.
Arguments firm {R Fl} _.

Section Pages.
Context {D F R Fl : Type} `{!Double D, !FileSys F, !FileRead F}.
(** [cJSON]'s memory; the other allocations succeed. *)
Context (mem : Z -> bool).
(** "%.2f" of a reading, and of [atof] of a text. *)
Context (fmt : R -> list Z) (print_limit : list Z -> list Z).
(** The flash of the firmware, the network, and what a local buffer holds. *)
Context (device_table : list (fal_flash_dev Fl)) (fal : fal_state) (net : udp) (stack : list Z).
Context (ctime gmtime : Z -> list Z).

#[local] Abbreviation app := (app_state R Fl).
#[local] Abbreviation state := (WebServe.world F app).
#[local] Abbreviation handler := (state -> WebServe.session -> res (state * WebServe.session)).

Definition set_app (a : app) (w : state) : state := World a (w_fs w).

Definition set_lamps (l : Board.lamps) (a : app) : app :=
  App l (smtp a) (client a) (limit a) (sensors a) (used_mem a) (max_mem a) (total_mem a) (now a)
    (temp_data a) (humi_data a) (packets a) (old_name a) (manager a) (firm a).

Definition set_smtp (m : Alarm.smtp_module_t) (c : smtp_session_t) (l : list Z) (a : app) : app :=
  App (lamps a) m c l (sensors a) (used_mem a) (max_mem a) (total_mem a) (now a)
    (temp_data a) (humi_data a) (packets a) (old_name a) (manager a) (firm a).

Definition add_packets (ps : list (list Z)) (a : app) : app :=
  App (lamps a) (smtp a) (client a) (limit a) (sensors a) (used_mem a) (max_mem a) (total_mem a) (now a)
    (temp_data a) (humi_data a) (packets a ++ ps) (old_name a) (manager a) (firm a).

Definition set_upload (old : list Z) (mgr : option DirUpload.upload_mgr) (a : app) : app :=
  App (lamps a) (smtp a) (client a) (limit a) (sensors a) (used_mem a) (max_mem a) (total_mem a) (now a)
    (temp_data a) (humi_data a) (packets a) old mgr (firm a).

Definition set_firm (f : @FirmUpload.firm_state Fl) (a : app) : app :=
  App (lamps a) (smtp a) (client a) (limit a) (sensors a) (used_mem a) (max_mem a) (total_mem a) (now a)
    (temp_data a) (humi_data a) (packets a) (old_name a) (manager a) f.

(** ** The CGI functions *)

(** [cgi_head]: the header with the type of a page. *)
Definition cgi_head (s : WebServe.session) : res WebServe.session :=
  webnet_session_set_header (mime_get_type (str ".html")) 200 (str "Ok") (-1) (set_code 200 s).

(** The reply is printed as a format; no reply is a null pointer. *)
Definition cgi_reply (body : app -> printed) : handler := fun w s =>
  s ← cgi_head s;
  text ← defined (body (w_app w));
  text ← defined text;
  s ← webnet_session_print text s;
  Ok (w, s).

Definition code_text (n : Z) : list Z := str "{" ++ quote :: str "code" ++ quote :: str ":" ++ sprintf_d n ++ str "}".

Definition query_of (s : WebServe.session) (name : list Z) : res (option (list Z)) :=
  defined (webnet_request_get_query (query_items (request (s_web s))) name).

(** A parameter that is read: a null pointer if it is missing. *)
Definition param (s : WebServe.session) (name : list Z) : res (list Z) :=
  v ← query_of s name; defined v.

Definition cgi_get_aht10_data : handler :=
  cgi_reply (fun a => json_create_aht10_current_data mem (sensors a) (used_mem a) (max_mem a) (total_mem a)).

Definition cgi_get_info : handler :=
  cgi_reply (fun a => json_create_info mem (used_mem a) (sensors a) (now a)).

Definition cgi_get_aht10_saved_data : handler :=
  cgi_reply (fun a => json_create_aht10_saved_data mem fmt (temp_data a) (humi_data a)).

Definition cgi_get_device_status : handler :=
  cgi_reply (fun a => json_create_device_status mem (lamps a)).

Definition cgi_smtp_get_data : handler :=
  cgi_reply (fun a => json_create_smtp_data mem (smtp a) (print_limit (limit a))).

Definition cgi_handshake : handler := cgi_reply (fun _ => json_create_handshake mem).

(** The status is looked at for a lamp that exists only. *)
Definition cgi_led_toggle : handler := fun w s =>
  s ← cgi_head s;
  id ← param s (str "id");
  status ← query_of s (str "status");
  a ← (if bool_decide (id = str "red") || bool_decide (id = str "green") || bool_decide (id = str "blue")
       then status ← defined status; Ok (set_lamps (Board.cgi_led_toggle id status (lamps (w_app w))) (w_app w))
       else Ok (w_app w));
  s ← webnet_session_print (code_text 0) s;
  Ok (set_app a w, s).

Definition cgi_switch (f : Alarm.smtp_module_t -> Alarm.smtp_module_t) : handler := fun w s =>
  s ← cgi_head s;
  let a := w_app w in
  let a := set_smtp (f (smtp a)) (client a) (limit a) a in
  s ← webnet_session_print (code_text 0) s;
  Ok (set_app a w, s).

Definition cgi_smtp_disable : handler := cgi_switch Alarm.smtp_disable.
Definition cgi_smtp_enable : handler := cgi_switch Alarm.smtp_enable.

Definition cgi_smtp_save : handler := fun w s =>
  s ← cgi_head s;
  server_addr ← param s (str "server_addr");
  server_port ← param s (str "server_port");
  username ← param s (str "username");
  password ← param s (str "password");
  receiver ← param s (str "receiver");
  temp_warn ← param s (str "temp_warn");
  let a := w_app w in
  '(m, c) ← defined (Alarm.smtp_data_config true server_addr server_port username password receiver (smtp a) (client a));
  let a := set_smtp (Alarm.smtp_enable m) c temp_warn a in
  s ← webnet_session_print (code_text 0) s;
  Ok (set_app a w, s).

Definition cgi_wol : handler := fun w s =>
  s ← cgi_head s;
  value ← query_of s (str "value");
  '(r, ps, _) ← wol_process net value;
  s ← webnet_session_print (code_text (if r =? 0 then 0 else -1)) s;
  Ok (set_app (add_packets ps (w_app w)) w, s).

(** ** The upload entries *)

(** The reply of both: [status_text] is the body, printed as a format. *)
Definition upload_reply (status : list Z) (s : WebServe.session) : res WebServe.session :=
  s ← webnet_session_set_header (mime_get_type (str ".html")) 200 (str "Ok") (zlen status) (set_code 200 s);
  webnet_session_print status s.

(** [upload_dir_upload] of wn_dir_upload.c. *)
Definition upload_dir (c : upload_call) : handler := fun w s =>
  path ← (match c with upload_open _ => query_of s (str "path") | _ => Ok None end);
  let a := w_app w in
  d ← defined (entry_call stack path c (DirUpload.DirState (old_name a) (manager a) (w_fs w)));
  s ← (match c with
       | upload_done =>
           status ← defined (fst <$> DirUpload.upload_done (DirUpload.DirState (old_name a) (manager a) (w_fs w)));
           upload_reply status s
       | _ => Ok s
       end);
  Ok (World (set_upload (DirUpload.old_filename d) (DirUpload.user_mgr d) a) (DirUpload.files d), s).

(** [upload_bin_upload] of wn_firm_upload.c; without a partition the session is
    freed while it is handled. *)
Definition upload_bin (c : upload_call) : handler := fun w s =>
  let f := firm (w_app w) in
  '(f, s) ← (match c with
    | upload_open name =>
        f ← defined (FirmUpload.upload_open fal (Some name) f);
        match FirmUpload.part f with Some _ => Ok (f, s) | None => Undef end
    | upload_write _ data => Ok (snd (FirmUpload.upload_write device_table data f), s)
    | upload_done =>
        let '(status, f) := FirmUpload.upload_done f in s ← upload_reply status s; Ok (f, s)
    | upload_close => Ok (snd (FirmUpload.upload_close f), s)
    end);
  Ok (set_app (set_firm f (w_app w)) w, s).

(** ** [web_module_init] *)
Definition webnet_cgi_register (name : list Z) (h : handler) (items : list (list Z * handler)) : list (list Z * handler) :=
  items ++ [(name, h)].

Definition webnet_upload_add (e : list Z * (upload_call -> handler)) (entries : list (list Z * (upload_call -> handler)))
  : list (list Z * (upload_call -> handler)) := entries ++ [e].

Definition app_cgi : list (list Z * handler) :=
  webnet_cgi_register (str "mystery") cgi_wol
  (webnet_cgi_register (str "get_aht_saved_data") cgi_get_aht10_saved_data
  (webnet_cgi_register (str "led_toggle") cgi_led_toggle
  (webnet_cgi_register (str "get_aht_data") cgi_get_aht10_data
  (webnet_cgi_register (str "get_device_status") cgi_get_device_status
  (webnet_cgi_register (str "get_info") cgi_get_info
  (webnet_cgi_register (str "smtp_diasble") cgi_smtp_disable
  (webnet_cgi_register (str "smtp_enable") cgi_smtp_enable
  (webnet_cgi_register (str "smtp_get_data") cgi_smtp_get_data
  (webnet_cgi_register (str "smtp_save") cgi_smtp_save
  (webnet_cgi_register (str "handshake") cgi_handshake [])))))))))).

Definition app_uploads : list (list Z * (upload_call -> handler)) :=
  webnet_upload_add (str "/upload/directory", upload_dir)
  (webnet_upload_add (str "/upload/app", upload_bin) []).

(** The request is on a page if its path is the name behind the root of the
    CGI functions. *)
Definition page_path (name : list Z) : list Z := cgi_root ++ name.

(** The server with these tables; nobody sets an authorization. *)
Definition app_serve : state -> WebServe.session -> list event -> res (state * WebServe.session) :=
  serve app_cgi app_uploads [] ctime gmtime.

(** ** A request on a page *)

(** The pieces as they are read. *)
Definition arrive (pieces : list (list Z)) : list event := map (fun p => Readable [p]) pieces.

Lemma strstr_prefix (a b : list Z) : strstr (a ++ b) a = Some 0%nat.
Proof.
  assert (E : bool_decide (take (length a) (a ++ b) = a) = true)
    by (apply bool_decide_eq_true; by rewrite take_app_length).
  destruct (a ++ b); cbn [strstr]; by rewrite E.
Qed.

Lemma page_handled w s recv name n h w' s' :
  members (request (s_web s)) !! m_path = Some (page_path name) ->
  find (fun i => bool_decide (map tolower name = map tolower i.1)) app_cgi = Some (n, h) ->
  h w s = Ok (w', s') ->
  webnet_module_handle_uri app_cgi app_uploads [] ctime gmtime w s recv = Ok (w', s').
Proof.
  intros Hp Hf Hh. unfold webnet_module_handle_uri, _webnet_module_system_uri_physical, webnet_module_auth.
  rewrite Hp. cbn [defined mbind res_bind find].
  unfold webnet_module_cgi. rewrite Hp. cbn [defined mbind res_bind]. unfold page_path at 1.
  rewrite strstr_prefix. cbn [Nat.add].
  replace (drop (length cgi_root) (page_path name)) with name by (unfold page_path; by rewrite drop_app_length).
  rewrite Hf, Hh. done.
Qed.

(** The session when the request has been read. *)
Definition requested (b : list Z) (r : webnet_request) : WebServe.session :=
  Sess (Session b 0 WEB_PHASE_RESPONSE r) no_ops false (0, 0) [] true.

Lemma page_served w pieces b r name n h w' s' : pieces <> [] ->
  receive webnet_session_create pieces = Ok (Session b 0 WEB_PHASE_RESPONSE r) ->
  members r !! m_path = Some (page_path name) ->
  find (fun i => bool_decide (map tolower name = map tolower i.1)) app_cgi = Some (n, h) ->
  h w (requested b r) = Ok (w', s') -> s_ops s' = no_ops -> result_code (request (s_web s')) = 200 ->
  app_serve w accepted (arrive pieces) = Ok (w', close_socket s').
Proof.
  intros Hne E Hp Hf Hh Hops Hc. unfold app_serve, arrive. rewrite <- (app_nil_r (map _ pieces)).
  rewrite (serve_from_start _ _ _ _ _ w pieces [] b r Hne E).
  fold (requested b r).
  rewrite (page_handled w (requested b r) [] name n h w' s') by done. cbn [mbind res_bind].
  by rewrite served_ends.
Qed.

(** ** What a page answers *)
Definition page_head : list Z := concat (header_texts webnet_request_create (str "text/html") 200 (str "Ok") (-1)).

Definition no_percent (t : list Z) : Prop := Forall (fun c => c <> 37) t.

#[export] Instance no_percent_dec t : Decision (no_percent t) := ltac:(unfold no_percent; apply _).

Lemma formatted_plain t : no_percent t -> formatted t = Some t.
Proof.
  induction 1 as [|c t Hc H IH]; [done|].
  assert (E : forall x : Z, x <> 37 -> formatted (x :: t) = cons x <$> formatted t).
  { intros x Hx. cbn [formatted]. destruct x as [|p|p]; try done. do 6 (try destruct p as [p|p|]; try done). }
  by rewrite E, IH.
Qed.

Lemma cgi_head_sent s : room s ->
  exists b, cgi_head s = Ok (sends [page_head] b (set_code 200 s)) /\ zlen b = WEBNET_SESSION_BUFSZ.
Proof.
  intros Hb. unfold cgi_head.
  exact (set_header_sent (mime_get_type (str ".html")) 200 (str "Ok") (-1) (set_code 200 s) Hb eq_refl).
Qed.

Lemma print_sent t s : room s -> no_percent t -> zlen t <= WEBNET_SESSION_BUFSZ - 2 ->
  exists b, webnet_session_print t s = Ok (sends [t] b s) /\ zlen b = WEBNET_SESSION_BUFSZ.
Proof.
  intros Hb Ht Hl. unfold webnet_session_print. rewrite formatted_plain by done. by apply printf_sent.
Qed.

(** A page that only prints. *)
Lemma reply_sent body w s text : room s -> body (w_app w) = Some (Some text) ->
  no_percent text -> zlen text <= WEBNET_SESSION_BUFSZ - 2 ->
  exists b, cgi_reply body w s = Ok (w, sends [page_head; text] b (set_code 200 s)).
Proof.
  intros Hb Ht Hp Hl. unfold cgi_reply. destruct (cgi_head_sent s Hb) as (b & -> & Hb1).
  cbn [mbind res_bind]. rewrite Ht. cbn [defined mbind res_bind].
  destruct (print_sent text (sends [page_head] b (set_code 200 s)) Hb1 Hp Hl) as (b' & -> & _).
  cbn [mbind res_bind]. rewrite sends_sends. by exists b'.
Qed.

(** ** Pages that show the state *)
Context `{!DoubleLaws D} (mem_all : forall n, mem n = true).

Definition alarm_json (m : Alarm.smtp_module_t) (l : list Z) : json :=
  JObj [(str "server_addr", JStr (Alarm.server_addr0 m)); (str "server_port", JStr (Alarm.server_port0 m));
        (str "username", JStr (Alarm.username0 m)); (str "password", JStr (Alarm.password0 m));
        (str "receiver", JStr (Alarm.receiver m)); (str "temp_warn", JStr (snprintf 10 (print_limit l)));
        (str "enable", JNum (if Alarm.enable m then 1 else 0))].

Definition series_json (s : @Aht10.series R) : json := JArr (map (fun r => JStr (snprintf 10 (fmt r))) (Aht10.saved_data s)).

(** The pages and the values they show. *)
Definition pages (a : app) : list (list Z * json) :=
  [(str "handshake", JObj [(str "code", JNum 0); (str "handshake", JObj
      [(str "version", JStr SOFTWARE_VERSION); (str "support_firmwareupload", JBool true);
       (str "support_fileupload", JBool false); (str "support_directoryupload", JBool true);
       (str "support_diskclean", JBool false); (str "support_diskfree", JBool false);
       (str "support_filecheck", JBool false)])]);
   (str "smtp_get_data", alarm_json (smtp a) (limit a));
   (str "get_info", JObj [(str "used_mem", JNum (used_mem a)); (str "humi", JStr (snprintf 10 (cur_humi (sensors a))));
      (str "temp", JStr (snprintf 10 (cur_temp (sensors a)))); (str "light", JStr (snprintf 10 (cur_light (sensors a))));
      (str "ts", JNum (now a))]);
   (str "get_device_status", JObj (map status_json (Board.json_create_device_status (lamps a))));
   (str "get_aht_data", JObj [(str "temp", JStr (snprintf 10 (cur_temp (sensors a))));
      (str "humi", JStr (snprintf 10 (cur_humi (sensors a)))); (str "used_mem", JNum (used_mem a));
      (str "max_mem", JNum (max_mem a)); (str "total_mem", JNum (total_mem a))]);
   (str "get_aht_saved_data", JObj [(str "temp", series_json (temp_data a)); (str "humi", series_json (humi_data a))])].

(** Texts are C strings and numbers are [int]s. *)
Record app_ok (a : app) : Prop := {
  ok_alarm : cstring (Alarm.server_addr0 (smtp a)) /\ cstring (Alarm.server_port0 (smtp a)) /\
    cstring (Alarm.username0 (smtp a)) /\ cstring (Alarm.password0 (smtp a)) /\
    cstring (Alarm.receiver (smtp a)) /\ cstring (print_limit (limit a));
  ok_sensors : is_reading (sensors a) /\ forall r, cstring (fmt r);
  ok_numbers : is_int (used_mem a) /\ is_int (max_mem a) /\ is_int (total_mem a) /\ is_int (now a) }.

Lemma printed_page v c : repr v c -> cJSON_PrintUnformatted mem c = Some (Some (json_text false 0 v)).
Proof.
  intros Hc. destruct (reply_text mem v c Hc) as [[E|[E [n Hn]]] _]; [done|]. by rewrite mem_all in Hn.
Qed.

(** Every page is registered with a function that prints its value. *)
Lemma page_registered a name v : (name, v) ∈ pages a -> app_ok a ->
  exists body, find (fun i => bool_decide (map tolower name = map tolower i.1)) app_cgi = Some (name, cgi_reply body) /\
    body a = Some (Some (json_text false 0 v)) /\ exists c, repr v c.
Proof.
  intros Hin [(H1 & H2 & H3 & H4 & H5 & H6) [Hs Hf] (Hu & Hm & Ht & Hn)].
  assert (K : forall body c, body a = cJSON_PrintUnformatted mem c -> repr v c ->
    body a = Some (Some (json_text false 0 v)) /\ exists c, repr v c).
  { intros body c E Hc. split; [by rewrite E, (printed_page v c)|by exists c]. }
  unfold pages in Hin.
  repeat (apply elem_of_cons in Hin as [[= -> ->]|Hin];
    [eexists; split; [reflexivity|]; eapply K; [reflexivity|]|]); [..|by apply not_elem_of_nil in Hin].
  - apply handshake_repr.
  - by apply smtp_data_repr.
  - by apply info_repr.
  - apply device_status_repr.
  - by apply current_data_repr.
  - by apply saved_data_repr.
Qed.

Lemma page_shown w pieces last mname m target lines r name v :
  posted pieces last [] [] mname m target lines r -> content_length r = 0 \/ method r <> WEBNET_POST ->
  members r !! m_path = Some (page_path name) -> (name, v) ∈ pages (w_app w) -> app_ok (w_app w) ->
  no_percent (json_text false 0 v) -> zlen (json_text false 0 v) <= WEBNET_SESSION_BUFSZ - 2 ->
  exists s', app_serve w accepted (arrive (pieces ++ [last])) = Ok (w, s') /\ s_open s' = false /\
    concat (s_sent s') = page_head ++ json_text false 0 v /\
    exists c, cJSON_Parse mem (json_text false 0 v ++ [0]) = Ok c /\ repr v c.
Proof.
  intros Hp Hnb Hpath Hin Hok Hpc Hl.
  destruct (request_received _ _ _ _ _ _ _ Hp Hnb) as [b E].
  destruct (page_registered _ _ _ Hin Hok) as (body & Hf & Hb & c & Hc).
  assert (Hroom : room (requested b (set_result 200 r))) by exact (room_received _ _ E).
  destruct (reply_sent body w (requested b (set_result 200 r)) _ Hroom Hb Hpc Hl) as (b' & Eh).
  eexists. split.
  { refine (page_served w (pieces ++ [last]) b (set_result 200 r) name name (cgi_reply body) w _ _ E Hpath Hf Eh _ _);
      [by destruct pieces|done|done]. }
  split; [done|]. split; [change (page_head ++ json_text false 0 v ++ [] = page_head ++ json_text false 0 v); by rewrite app_nil_r|].
  by apply (reply_text mem v c Hc).
Qed.


(** ** Switching a lamp *)
Definition toggle_items (led : Board.led_id_e) (status : list Z) : list (list Z * list Z) :=
  [(str "id", Board.name_of led); (str "status", status)].

Lemma code_texts_fit n : In n [0; -1] -> no_percent (code_text n) /\ zlen (code_text n) <= WEBNET_SESSION_BUFSZ - 2.
Proof. intros [<-|[<-|[]]]; split; by_decide. Qed.

Lemma code_sent n s b : room s -> zlen b = WEBNET_SESSION_BUFSZ -> In n [0; -1] ->
  exists b', webnet_session_print (code_text n) (sends [page_head] b s) = Ok (sends [page_head; code_text n] b' s).
Proof.
  intros Hs Hb Hn. destruct (code_texts_fit n Hn) as [Hp Hl].
  destruct (print_sent (code_text n) (sends [page_head] b s) Hb Hp Hl) as (b' & -> & _).
  rewrite sends_sends. by exists b'.
Qed.

(** A lamp is switched from a browser: a request for the page
    [led_toggle] with the name of a lamp and the status shown, in pieces,
    writes the pin and the status of this lamp (on if the status is OFF, off
    otherwise), changes nothing else, and is answered with the code 0. *)
Theorem led_switched w pieces last mname m lines r led status :
  posted pieces last [] [] mname m
    (page_path (str "led_toggle") ++ 63 :: form_text (toggle_items led status)) lines r ->
  content_length r = 0 \/ m <> WEBNET_POST -> form_ok (toggle_items led status) ->
  exists s', app_serve w accepted (arrive (pieces ++ [last])) =
      Ok (set_app (set_lamps (Board.led_write led
            (if bool_decide (status = str "OFF") then Board.LED_ON else Board.LED_OFF) (lamps (w_app w))) (w_app w)) w, s') /\
    s_open s' = false /\ concat (s_sent s') = page_head ++ code_text 0.
Proof.
  intros Hp Hnb Hok. pose proof Hp as [_ Ht _ _ _ _ _ Hr].
  destruct (form_in_target m _ _ lines r Ht ltac:(by_decide) ltac:(done) Hok ltac:(by_decide) Hr) as (Hm & Hpath & Hq).
  assert (Hnb' : content_length r = 0 \/ method r <> WEBNET_POST) by by rewrite Hm.
  destruct (request_received _ _ _ _ _ _ _ Hp Hnb') as [b E].
  assert (Hroom : room (requested b (set_result 200 r))) by exact (room_received _ _ E).
  destruct (cgi_head_sent (requested b (set_result 200 r)) Hroom) as (b1 & Eh & Hb1).
  destruct (code_sent 0 (set_code 200 (requested b (set_result 200 r))) b1 Hroom Hb1 ltac:(by left)) as (b2 & E2).
  eexists. split.
  { refine (page_served w (pieces ++ [last]) b (set_result 200 r) (str "led_toggle") (str "led_toggle")
      cgi_led_toggle _ _ _ E Hpath eq_refl _ _ _); [by destruct pieces|..].
    - unfold cgi_led_toggle. rewrite Eh. cbn [mbind res_bind]. unfold param, query_of.
      cbn [sends s_web request requested set_code set_request set_web set_result query_items]. rewrite !Hq.
      unfold toggle_items. cbn [find fst].
      rewrite (bool_decide_eq_true_2 (str "id" = str "id")) by done.
      rewrite (bool_decide_eq_false_2 (str "id" = str "status")), (bool_decide_eq_true_2 (str "status" = str "status")) by done.
      cbn [fmap option_fmap option_map snd defined mbind res_bind].
      assert (Hl : bool_decide (Board.name_of led = str "red") || bool_decide (Board.name_of led = str "green") ||
        bool_decide (Board.name_of led = str "blue") = true) by by destruct led.
      rewrite Hl. cbn [defined mbind res_bind]. rewrite E2. cbn [mbind res_bind].
      do 2 f_equal. unfold Board.cgi_led_toggle. by destruct led.
    - done.
    - done. }
  split; [done|]. change (page_head ++ code_text 0 ++ [] = page_head ++ code_text 0). by rewrite app_nil_r.
Qed.

(** ** Configuring the alarm *)
Definition alarm_items (addr port user pass rcpt limit : list Z) : list (list Z * list Z) :=
  [(str "server_addr", addr); (str "server_port", port); (str "username", user); (str "password", pass);
   (str "receiver", rcpt); (str "temp_warn", limit)].

Definition fits_alarm (addr port user pass rcpt : list Z) : Prop :=
  zlen addr < 100 /\ zlen port < 10 /\ zlen user < 50 /\ zlen pass < 50 /\ zlen rcpt < 100.

#[export] Instance fits_alarm_dec a b c d e : Decision (fits_alarm a b c d e) := ltac:(unfold fits_alarm; apply _).

Lemma strcpy_fits n t : zlen t < n -> Alarm.strcpy n t = Some t.
Proof. intros H. unfold Alarm.strcpy. by rewrite (proj2 (Z.ltb_lt _ _)). Qed.

Lemma auth_fits user pass s : cstring user -> cstring pass -> zlen user < 50 -> zlen pass < 50 ->
  exists n s', smtp_set_auth user pass s = Some (n, s').
Proof.
  intros Hu Hp Hlu Hlp. pose proof (zlen_nonneg user). pose proof (zlen_nonneg pass).
  destruct (decide (zlen user = 0 \/ zlen pass = 0)) as [E|E].
  - unfold smtp_set_auth. assert (Ez : (zlen user =? 0) || (zlen pass =? 0) = true)
      by (apply orb_true_iff; rewrite !Z.eqb_eq; tauto).
    rewrite Ez. by eexists _, _.
  - eexists _, _. apply set_auth_run; [done|done|lia|lia].
Qed.

Lemma alarm_configured addr port user pass rcpt m c : fits_alarm addr port user pass rcpt ->
  cstring user -> cstring pass ->
  exists c', Alarm.smtp_data_config true addr port user pass rcpt m c =
    Some (Alarm.SmtpModule (Alarm.enable m) (Alarm.cold_time m) addr port user pass rcpt, c').
Proof.
  intros (H1 & H2 & H3 & H4 & H5) Hu Hp. unfold Alarm.smtp_data_config.
  rewrite !strcpy_fits by done. cbn [mbind option_bind].
  destruct (smtp_set_server_addr _ _ _ _ _ _) as [n1 c1].
  destruct (auth_fits user pass c1 Hu Hp H3 H4) as (n2 & c2 & ->). cbn [mbind option_bind].
  by eexists.
Qed.

Lemma form_value_cstring items n v : form_ok items -> (n, v) ∈ items -> cstring v.
Proof.
  intros Hok Hin. unfold form_ok in Hok. rewrite Forall_forall in Hok. destruct (Hok _ Hin) as (_ & Hc & _ & Hb).
  cbn [snd] in *. apply Forall_forall. intros x Hx. unfold clean in Hc. rewrite Forall_forall in Hc, Hb.
  specialize (Hc x Hx). specialize (Hb x Hx). cbv beta in Hc. unfold is_byte, is_cchar in *. lia.
Qed.

(** The state after the form has been saved. *)
Definition alarm_saved (addr port user pass rcpt limit : list Z) (c : smtp_session_t) (a : app) : app :=
  set_smtp (Alarm.SmtpModule true (Alarm.cold_time (smtp a)) addr port user pass rcpt) c limit a.

Lemma alarm_form_served w pieces last body ps mname m lines r ty addr port user pass rcpt limit :
  posted pieces last body ps mname m (page_path (str "smtp_save")) lines r ->
  method r = WEBNET_POST -> members r !! m_content_type = Some ty ->
  str_begin_with ty (str "multipart/form-data") = false ->
  str_begin_with ty (str "application/x-www-form-urlencoded") = true ->
  body ++ concat ps = form_text (alarm_items addr port user pass rcpt limit) ->
  form_ok (alarm_items addr port user pass rcpt limit) -> fits_alarm addr port user pass rcpt ->
  zlen (form_text (alarm_items addr port user pass rcpt limit)) = content_length r ->
  content_length r < WEBNET_SESSION_BUFSZ ->
  exists c s, app_serve w accepted (arrive (pieces ++ (last ++ body) :: ps)) =
      Ok (set_app (alarm_saved addr port user pass rcpt limit c (w_app w)) w, s) /\
    s_open s = false /\ concat (s_sent s) = page_head ++ code_text 0.
Proof.
  intros Hp Hm Hty Hmp Hurl Hb Hok Hfit Hlen Hl. pose proof Hp as [_ _ _ _ _ _ _ Hr].
  destruct (form_received _ _ _ _ _ _ _ _ _ _ _ Hp Hm Hty Hmp Hurl Hb ltac:(done) Hok Hlen Hl)
    as (b & r' & E & Hcode & Hmem & Hq).
  assert (Hpath : members r' !! m_path = Some (page_path (str "smtp_save"))).
  { rewrite Hmem. apply read_header_keeps in Hr as (_ & -> & _). reflexivity. }
  assert (Hroom : room (requested b r')) by exact (room_received _ _ E).
  destruct (cgi_head_sent (requested b r') Hroom) as (b1 & Eh & Hb1).
  destruct (code_sent 0 (set_code 200 (requested b r')) b1 Hroom Hb1 ltac:(by left)) as (b2 & E2).
  assert (Hcs : forall n v, (n, v) ∈ alarm_items addr port user pass rcpt limit -> cstring v)
    by (intros n v; by apply form_value_cstring).
  destruct (alarm_configured addr port user pass rcpt (smtp (w_app w)) (client (w_app w)) Hfit) as (c & Ec).
  { apply (Hcs (str "username")). do 2 apply list_elem_of_further. apply list_elem_of_here. }
  { apply (Hcs (str "password")). do 3 apply list_elem_of_further. apply list_elem_of_here. }
  assert (Hg : forall n v,
    snd <$> find (fun p => bool_decide (p.1 = n)) (alarm_items addr port user pass rcpt limit) = Some v ->
    webnet_request_get_query (query_items r') n = Some (Some v)) by (intros n v Hv; by rewrite Hq, Hv).
  eexists c, _. split.
  { refine (page_served w (pieces ++ (last ++ body) :: ps) b r' (str "smtp_save") (str "smtp_save")
      cgi_smtp_save _ _ _ E Hpath eq_refl _ _ _); [by destruct pieces|..].
    - unfold cgi_smtp_save. rewrite Eh. cbn [mbind res_bind]. unfold param, query_of.
      cbn [sends s_web request requested set_code set_request set_web set_result query_items].
      rewrite (Hg (str "server_addr") addr eq_refl), (Hg (str "server_port") port eq_refl),
        (Hg (str "username") user eq_refl), (Hg (str "password") pass eq_refl),
        (Hg (str "receiver") rcpt eq_refl), (Hg (str "temp_warn") limit eq_refl).
      cbn [defined mbind res_bind].
      rewrite Ec. cbn [defined mbind res_bind]. rewrite E2. reflexivity.
    - done.
    - done. }
  split; [done|]. change (page_head ++ code_text 0 ++ [] = page_head ++ code_text 0). by rewrite app_nil_r.
Qed.

End Pages.

(** ** A board and its pages *)
Definition sample_app : app_state Z (Z -> Z) :=
  App (Board.led_module_init (Board.Lamps 0 0 0 0 0 0)) Alarm.cleared smtp_client_init (str "30.00")
    (Readings (str "21.50") (str "40.00") (str "12.00")) 12345 23456 65536 1612345678
    (Aht10.Series [21; 22] 2) (Aht10.Series [40; 41] 2) [] [] None (FirmUpload.FirmState 0 None (fun _ => 255) false).

Definition sample_state : world mem_fs (app_state Z (Z -> Z)) := World sample_app (w_fs page_world).

Definition two_digits (n : Z) : list Z := sprintf_d n ++ str ".00".

Lemma two_digits_cstring n : cstring (two_digits n).
Proof. apply Forall_app. split; [apply sprintf_d_cstring|by_decide]. Qed.

Lemma sample_ok : app_ok two_digits (fun t => t) sample_app.
Proof. split; [by_decide|split; [by_decide|apply two_digits_cstring]|by_decide]. Qed.

(** A browser that asks for a page, in two pieces. *)
Definition asked (target : list Z) : webnet_request :=
  match read_header page_lines (start_request WEBNET_GET target webnet_request_create) with
  | Ok r => r
  | _ => webnet_request_create
  end.

Definition rest_of_head (target : list Z) : list Z :=
  str "T " ++ target ++ str " HTTP/1.1" ++ crlf ++ header_text page_lines.

#[local] Abbreviation sample_serve :=
  (app_serve (D := decimal) (F := mem_fs) (fun _ => true) two_digits (fun t => t) [sample_dev] FirmUpload.sample_fal
    (Udp true true) (replicate 128 7) no_time no_time).

Lemma asked_posted target : target_ok target ->
  zlen (head_text (str "GET ") target page_lines ++ []) < WEBNET_SESSION_BUFSZ ->
  read_header page_lines (start_request WEBNET_GET target webnet_request_create) = Ok (asked target) ->
  posted [str "GE"] (rest_of_head target) [] [] (str "GET ") WEBNET_GET target page_lines (asked target).
Proof.
  intros Ht Hz Hr. split; [by_decide|done|by_decide|by_decide| | |done|done].
  - unfold head_text, request_line, rest_of_head. rewrite <- !app_assoc. reflexivity.
  - unfold request_line. rewrite !zlen_app. pose proof (zlen_nonneg target). pose proof (zlen_nonneg (32 :: http_version)).
    change (zlen (concat [str "GE"])) with 2. change (zlen (str "GET ")) with 4. lia.
Qed.


(** The red lamp is off and becomes on. *)
Example led_switched_witness :
  exists s', sample_serve sample_state accepted
      (arrive [str "GE"; rest_of_head (page_path (str "led_toggle?id=red&status=OFF"))]) =
      Ok (set_app (set_lamps (Board.Lamps Board.LED_ON 0 0 1 0 0) sample_app) sample_state, s') /\
    s_open s' = false /\ concat (s_sent s') = page_head ++ code_text 0.
Proof.
  apply (led_switched (D := decimal) (F := mem_fs) (fun _ => true) two_digits (fun t => t) [sample_dev] FirmUpload.sample_fal
    (Udp true true) (replicate 128 7) no_time no_time sample_state [str "GE"]
    (rest_of_head (page_path (str "led_toggle?id=red&status=OFF"))) (str "GET ") WEBNET_GET page_lines
    (asked (page_path (str "led_toggle?id=red&status=OFF"))) Board.RED (str "OFF")).
  - apply asked_posted; [by_decide|by_decide|by vm_compute].
  - by left.
  - by_decide.
Defined.

Definition sample_form : list (list Z * list Z) :=
  alarm_items (str "smtp.qq.com") (str "25") (str "me@qq.com") (str "secret") (str "you@qq.com") (str "31").

Definition form_lines : list (list Z) :=
  [str "Content-Type: application/x-www-form-urlencoded"; str "Content-Length: 110"].

Definition form_posted : webnet_request :=
  match read_header form_lines (start_request WEBNET_POST (page_path (str "smtp_save")) webnet_request_create) with
  | Ok r => r
  | _ => webnet_request_create
  end.


(** The page that switches the alarm off is registered under a misspelled
    name. *)
Example alarm_not_switched_off :
  find (fun i => bool_decide (map tolower (str "smtp_disable") = map tolower i.1))
    (app_cgi (D := decimal) (F := mem_fs) (Fl := Z -> Z) (fun _ => true) two_digits (fun t => t) (Udp true true)) = None.
Proof. reflexivity. Qed.
