(* ===== verification/WebAppUpload.v ===== *)
(** * Uploads from a browser

    A directory upload from the first byte of its request to the stored file:
    the request is read by [WebRequest], given to the upload entry by
    [WebServe], taken apart by [WebMultipart], and written by the entry of
    [WebApp], which is src/module/web/wn_dir_upload.c behind [WebStored]. *)

From S2P Require Import Prelude Flash Fal CLib WebPath FileSys WebUpload SmtpClient AppModules.
From S2P Require Import Json JsonParse Replies Wol WebQuery WebRequest WebMultipart WebStored WebServe WebApp.

Local Open Scope Z_scope.

Section Uploads.
Context {D F R Fl : Type} `{!Double D, !FileSys F, !FileRead F}.
Context (mem : Z -> bool) (fmt : R -> list Z) (print_limit : list Z -> list Z).
Context (device_table : list (fal_flash_dev Fl)) (fal : fal_state) (net : udp) (stack : list Z).
Context (ctime gmtime : Z -> list Z).

#[local] Abbreviation state := (WebServe.world F (app_state R Fl)).
#[local] Abbreviation app_serve := (WebApp.app_serve mem fmt print_limit device_table fal net stack ctime gmtime).
#[local] Abbreviation upload_dir := (WebApp.upload_dir (F := F) (R := R) (Fl := Fl) stack).
#[local] Abbreviation app_uploads := (WebApp.app_uploads (F := F) (R := R) device_table fal stack).

(** The static data of the entry with the files, and the way back. *)
Definition dir (w : state) : @DirUpload.dir_state F :=
  DirUpload.DirState (old_name (w_app w)) (manager (w_app w)) (w_fs w).

Definition set_dir (d : @DirUpload.dir_state F) (w : state) : state :=
  World (set_upload (DirUpload.old_filename d) (DirUpload.user_mgr d) (w_app w)) (DirUpload.files d).

Lemma dir_set d w : dir (set_dir d w) = d.
Proof. by destruct d. Qed.

(** The calls of the entry with the replies they send. *)
Definition replies (c : upload_call) (d : @DirUpload.dir_state F) : list (list Z) :=
  match c with
  | upload_done => match DirUpload.upload_done d with Some (status, _) => [status] | None => [] end
  | _ => []
  end.

Fixpoint dir_calls (query : option (list Z)) (cs : list upload_call) (d : DirUpload.dir_state)
  : option (@DirUpload.dir_state F * list (list Z)) :=
  match cs with
  | [] => Some (d, [])
  | c :: cs =>
      d1 ← entry_call stack query c d;
      '(d2, rs) ← dir_calls query cs d1;
      Some (d2, replies c d ++ rs)
  end.

Lemma dir_calls_app query cs cs' d :
  dir_calls query (cs ++ cs') d =
  ('(d1, rs) ← dir_calls query cs d; '(d2, rs') ← dir_calls query cs' d1; Some (d2, rs ++ rs')).
Proof.
  revert d. induction cs as [|c cs IH]; intros d; cbn [app dir_calls].
  - cbn [mbind option_bind]. by destruct (dir_calls query cs' d) as [[]|].
  - destruct (entry_call stack query c d) as [d1|]; [|done]. cbn [mbind option_bind]. rewrite IH.
    destruct (dir_calls query cs d1) as [[d2 rs]|]; [|done]. cbn [mbind option_bind].
    destruct (dir_calls query cs' d2) as [[d3 rs']|]; [|done]. cbn [mbind option_bind]. by rewrite app_assoc.
Qed.

Lemma dir_calls_entry query cs d d' rs : dir_calls query cs d = Some (d', rs) ->
  entry_calls stack query cs d = Some d'.
Proof.
  revert d rs. induction cs as [|c cs IH]; intros d rs; cbn [dir_calls entry_calls]; [by intros [= <- _]|].
  destruct (entry_call stack query c d) as [d1|]; [|done]. cbn [mbind option_bind].
  destruct (dir_calls query cs d1) as [[d2 rs2]|] eqn:E; [|done]. intros [= <- _]. by eapply IH.
Qed.

Lemma no_replies query cs d d' rs : upload_done ∉ cs -> dir_calls query cs d = Some (d', rs) -> rs = [].
Proof.
  revert d rs. induction cs as [|c cs IH]; intros d rs Hn; cbn [dir_calls]; [by intros [= _ <-]|].
  rewrite not_elem_of_cons in Hn. destruct Hn as [Hc Hn].
  destruct (entry_call stack query c d) as [d1|]; [|done]. cbn [mbind option_bind].
  destruct (dir_calls query cs d1) as [[d2 rs2]|] eqn:E; [|done]. intros [= -> <-].
  rewrite (IH _ _ Hn E). by destruct c.
Qed.

Lemma entry_replies query cs d d' : upload_done ∉ cs -> entry_calls stack query cs d = Some d' ->
  dir_calls query cs d = Some (d', []).
Proof.
  revert d. induction cs as [|c cs IH]; intros d Hn; cbn [dir_calls entry_calls]; [by intros [= <-]|].
  rewrite not_elem_of_cons in Hn. destruct Hn as [Hc Hn].
  destruct (entry_call stack query c d) as [d1|]; [|done]. cbn [mbind option_bind]. intros E.
  rewrite (IH _ Hn E). by destruct c.
Qed.

(** ** The session and the replies *)

(** The header of a reply of [n] bytes. *)
Definition reply_head (r : webnet_request) (n : Z) : list Z :=
  concat (header_texts r (str "text/html") 200 (str "Ok") n).

Definition reply_texts (r : webnet_request) (rs : list (list Z)) : list (list Z) :=
  concat (map (fun status => [reply_head r (zlen status); status]) rs).

Definition reply_ok (status : list Z) : Prop := no_percent status /\ zlen status <= 100.

(** What the calls leave of the session: a session that has not replied is the
    same. *)
Record follows (rs : list (list Z)) (s s' : WebServe.session) : Prop := {
  fol_same : rs = [] -> s' = s;
  fol_room : room s';
  fol_sent : s_sent s' = s_sent s ++ reply_texts (request (s_web s)) rs;
  fol_query : query_items (request (s_web s')) = query_items (request (s_web s));
  fol_keep : keepalive (request (s_web s')) = keepalive (request (s_web s));
  fol_code : rs <> [] -> result_code (request (s_web s')) = 200;
  fol_open : s_open s' = s_open s;
  fol_ops : s_ops s' = s_ops s;
  fol_phase : session_phase (s_web s') = session_phase (s_web s) }.

Lemma reply_head_keep r r' n : keepalive r = keepalive r' -> reply_head r n = reply_head r' n.
Proof. intros E. unfold reply_head, header_texts. cbn. by rewrite E. Qed.

Lemma reply_texts_keep r r' rs : keepalive r = keepalive r' -> reply_texts r rs = reply_texts r' rs.
Proof.
  intros E. unfold reply_texts. f_equal. apply map_ext. intros st. by rewrite (reply_head_keep r r').
Qed.

Lemma reply_texts_app r rs rs' : reply_texts r (rs ++ rs') = reply_texts r rs ++ reply_texts r rs'.
Proof. unfold reply_texts. by rewrite map_app, concat_app. Qed.

Lemma follows_refl s : room s -> follows [] s s.
Proof. intros H. split; try done. cbn. by rewrite app_nil_r. Qed.

Lemma follows_trans rs rs' s1 s2 s3 : follows rs s1 s2 -> follows rs' s2 s3 -> follows (rs ++ rs') s1 s3.
Proof.
  intros [] []. split; try congruence.
  - intros [E1 E2]%app_nil. rewrite fol_same1, fol_same0 by done. done.
  - rewrite fol_sent1, fol_sent0, <- app_assoc, reply_texts_app. do 2 f_equal. by apply reply_texts_keep.
  - intros H. destruct rs' as [|st rs']; [|by apply fol_code1]. rewrite fol_same1 by done.
    apply fol_code0. by rewrite app_nil_r in H.
Qed.

Lemma head_fits r n : 0 <= n -> zlen (reply_head r n) < WEBNET_SESSION_BUFSZ.
Proof.
  intros Hn. unfold reply_head, header_texts. pose proof (sprintf_d_len n).
  rewrite (proj2 (Z.leb_le 0 n)) by done. change (200 =? 401) with false. cbv iota. cbn [app concat].
  rewrite app_nil_r, !zlen_app. destruct (keepalive r); change WEBNET_SESSION_BUFSZ with 4096;
    change (zlen (sprintf_d 200)) with 3; change (zlen crlf) with 2; change (zlen WEBNET_SERVER) with 22;
    repeat match goal with |- context [zlen (str ?x)] =>
      let k := eval vm_compute in (zlen (str x)) in change (zlen (str x)) with k end; lia.
Qed.

Lemma replied status s : room s -> reply_ok status ->
  exists s', upload_reply status s = Ok s' /\ follows [status] s s'.
Proof.
  intros Hs [Hp Hl]. unfold upload_reply.
  destruct (set_header_sent (mime_get_type (str ".html")) 200 (str "Ok") (zlen status) (set_code 200 s) Hs)
    as (b & -> & Hb); [by apply head_fits, zlen_nonneg|]. cbn [mbind res_bind].
  destruct (print_sent status (sends [reply_head (request (s_web s)) (zlen status)] b (set_code 200 s)) Hb Hp)
    as (b' & E & Hb'); [unfold WEBNET_SESSION_BUFSZ; lia|].
  eexists. split; [exact E|]. rewrite sends_sends. by split.
Qed.

Lemma upload_dir_run c w s d query : query_of s (str "path") = Ok query -> room s ->
  entry_call stack query c (dir w) = Some d -> Forall reply_ok (replies c (dir w)) ->
  exists s', upload_dir c w s = Ok (set_dir d w, s') /\ follows (replies c (dir w)) s s'.
Proof.
  intros Hq Hs Hc Hr. unfold WebApp.upload_dir. fold (dir w).
  assert (Hq' : (match c with upload_open _ => query_of s (str "path") | _ => Ok None end) =
    Ok (match c with upload_open _ => query | _ => None end)) by (by destruct c).
  rewrite Hq'. cbn [mbind res_bind].
  assert (Hc' : entry_call stack (match c with upload_open _ => query | _ => None end) c (dir w) = Some d)
    by (by destruct c). rewrite Hc'. cbn [defined mbind res_bind].
  destruct c; try (exists s; by split; [|apply follows_refl]).
  cbn [replies entry_call] in *. destruct (DirUpload.upload_done (dir w)) as [[status d1]|]; [|done].
  apply Forall_cons in Hr as [Hr _]. cbn [fmap option_fmap option_map fst defined mbind res_bind].
  destruct (replied status s Hs Hr) as (s' & -> & Hf). by exists s'.
Qed.

Lemma run_dir query cs : forall w s d rs, query_of s (str "path") = Ok query -> room s ->
  dir_calls query cs (dir w) = Some (d, rs) -> Forall reply_ok rs ->
  exists s', run_calls upload_dir cs w s = Ok (set_dir d w, s') /\ follows rs s s'.
Proof.
  induction cs as [|c cs IH]; intros w s d rs Hq Hs H Hr; cbn [dir_calls] in H.
  - injection H as <- <-. exists s. split; [|by apply follows_refl]. by destruct w as [[] ?].
  - destruct (entry_call stack query c (dir w)) as [d1|] eqn:Ec; [|done]. cbn [mbind option_bind] in H.
    destruct (dir_calls query cs d1) as [[d2 rs2]|] eqn:Ed; [|done]. injection H as <- <-.
    apply Forall_app in Hr as [Hr1 Hr2].
    destruct (upload_dir_run c w s d1 query Hq Hs Ec Hr1) as (s1 & E1 & Hf1).
    assert (Hq1 : query_of s1 (str "path") = Ok query).
    { unfold query_of in *. by rewrite (fol_query _ _ _ Hf1). }
    destruct (IH (set_dir d1 w) s1 d2 rs2 Hq1 (fol_room _ _ _ Hf1)) as (s2 & E2 & Hf2); [by rewrite dir_set|done|].
    cbn [run_calls]. rewrite E1. cbn [mbind res_bind]. rewrite E2. exists s2.
    split; [done|by eapply follows_trans].
Qed.

(** ** The events of an upload *)
Definition after_handle (t : transfer) (ph : webnet_session_phase) (r : webnet_request) (s : WebServe.session)
  : WebServe.session :=
  set_ops (upload_ops 1 (t_upload t))
    (set_web (Session (t_buffer t) (Z.of_nat (t_offset t)) (if t_closed t then WEB_PHASE_CLOSE else ph) r) s).

Lemma upload_event_run w s u b off ph r p t calls :
  s_web s = Session b (Z.of_nat off) ph r ->
  _webnet_module_upload_handle (Transfer b off false u) p = Ok (t, calls) ->
  upload_event app_uploads w s 1 u p = run_calls upload_dir calls w (after_handle t ph r s).
Proof.
  intros Hs E. unfold upload_event. cbn [lookup list_lookup app_uploads webnet_upload_add fmap option_fmap option_map snd app
    defined mbind res_bind]. rewrite Hs. cbn [buffer buffer_offset session_phase request]. rewrite Nat2Z.id, E. done.
Qed.

Lemma after_room t ph r s b off u p calls : zlen b = WEBNET_SESSION_BUFSZ ->
  _webnet_module_upload_handle (Transfer b off false u) p = Ok (t, calls) -> room (after_handle t ph r s).
Proof. intros Hb E%upload_handle_length. unfold room, zlen in *. cbn in *. by rewrite E. Qed.

(** The event that ends the upload: the socket is closed. *)
Lemma upload_ended query w s u b off ph r p t calls d rs : s_web s = Session b (Z.of_nat off) ph r ->
  zlen b = WEBNET_SESSION_BUFSZ -> webnet_request_get_query (query_items r) (str "path") = Some query ->
  _webnet_module_upload_handle (Transfer b off false u) p = Ok (t, calls) -> t_closed t = true ->
  dir_calls query (calls ++ _webnet_module_upload_close (t_upload t)) (dir w) = Some (d, rs) ->
  rs <> [] -> Forall reply_ok rs ->
  exists s', ('(w, s) ← upload_event app_uploads w s 1 u p; finish_read app_uploads w s) = Ok (set_dir d w, s') /\
    s_open s' = false /\ s_sent s' = s_sent s ++ reply_texts r rs.
Proof.
  intros Hs Hb Hq E Ht Hc Hne Hr. rewrite (upload_event_run w s u b off ph r p t calls Hs E).
  rewrite dir_calls_app in Hc. destruct (dir_calls query calls (dir w)) as [[d1 rs1]|] eqn:Hc1; [|done].
  cbn [mbind option_bind] in Hc.
  destruct (dir_calls query (_webnet_module_upload_close (t_upload t)) d1) as [[d2 rs2]|] eqn:Hc2; [|done].
  injection Hc as <- <-. apply Forall_app in Hr as [Hr1 _].
  assert (rs2 = []) as ->.
  { refine (no_replies query _ _ _ _ _ Hc2). unfold _webnet_module_upload_close.
    destruct (file_opened _); [|apply not_elem_of_nil]. by intros H%list_elem_of_singleton. }
  rewrite app_nil_r in *.
  destruct (run_dir query calls w (after_handle t ph r s) d1 rs1) as (s1 & -> & Hf); try done.
  { unfold query_of. change (request (s_web (after_handle t ph r s))) with r. by rewrite Hq. } { by eapply after_room. }
  cbn [mbind res_bind]. destruct Hf as [_ Hroom Hsent Hqs _ Hcode _ Hops Hphase]. cbn in Hsent, Hqs, Hops, Hphase.
  unfold finish_read, closing. rewrite Hphase, Ht, bool_decide_eq_true_2 by done. cbn [orb].
  rewrite (Hcode Hne). cbn [Z.eqb Pos.eqb mbind res_bind]. unfold webnet_session_close. rewrite Hops.
  cbn [lookup list_lookup app_uploads webnet_upload_add fmap option_fmap option_map snd app defined mbind res_bind].
  destruct (run_dir query (_webnet_module_upload_close (t_upload t)) (set_dir d1 w) s1 d2 []) as (s2 & -> & Hf2); try done.
  { unfold query_of. rewrite Hqs, Hq. done. } { by rewrite dir_set. }
  cbn [mbind res_bind]. rewrite (fol_same _ _ _ Hf2 eq_refl). by exists (close_socket s1).
Qed.

Lemma upload_served query ps : forall p w s u b off ph t calls d rs r,
  s_web s = Session b (Z.of_nat off) ph r -> ph <> WEB_PHASE_CLOSE -> s_open s = true ->
  zlen b = WEBNET_SESSION_BUFSZ -> webnet_request_get_query (query_items r) (str "path") = Some query ->
  upload_all (Transfer b off false u) (p :: ps) = Ok (t, calls) -> t_closed t = true ->
  dir_calls query calls (dir w) = Some (d, rs) -> rs <> [] -> Forall reply_ok rs ->
  exists s', ('(w, s) ← upload_event app_uploads w s 1 u p; '(w, s) ← finish_read app_uploads w s;
      app_serve w s (arrive ps)) = Ok (set_dir d w, s') /\
    s_open s' = false /\ s_sent s' = s_sent s ++ reply_texts r rs.
Proof.
  induction ps as [|p' ps IH]; intros p w s u b off ph t calls d rs r Hs Hph Hopen Hb Hq E Ht Hc Hne Hr;
    cbn [upload_all t_closed] in E; apply Ok_bind in E as ([t1 c1] & E1 & E);
    apply Ok_bind in E as ([t2 c2] & E2 & E); injection E as -> <-;
    destruct (t_closed t1) eqn:Ht1; [|congruence| |].
  1, 2: injection E2 as <- <-;
    destruct (upload_ended query w s u b off ph r p t1 c1 d rs) as (s' & E' & Hs1 & Hs2); try done;
    exists s'; split; [|done];
    apply Ok_bind in E' as ([w1 s1] & E1' & E'); rewrite E1'; cbn [mbind res_bind]; rewrite E';
    cbn [mbind res_bind]; by apply serve_closed.
  rewrite (upload_event_run w s u b off ph r p t1 c1 Hs E1).
  rewrite dir_calls_app in Hc. destruct (dir_calls query c1 (dir w)) as [[d1 rs1]|] eqn:Hc1; [|done].
  cbn [mbind option_bind] in Hc. destruct (dir_calls query c2 d1) as [[d2 rs2]|] eqn:Hc2; [|done].
  injection Hc as <- <-. pose proof (upload_handle_not_done _ _ _ _ E1 Ht1) as Hnd.
  pose proof (no_replies _ _ _ _ _ Hnd Hc1) as ->. cbn [app] in *.
  pose proof (after_room t1 ph r s b off u p c1 Hb E1) as Hroom.
  destruct (run_dir query c1 w (after_handle t1 ph r s) d1 []) as (s1 & -> & Hf); try done.
  { unfold query_of. change (request (s_web (after_handle t1 ph r s))) with r. by rewrite Hq. }
  cbn [mbind res_bind]. rewrite (fol_same _ _ _ Hf eq_refl).
  assert (Hcl : closing (after_handle t1 ph r s) = false).
  { unfold closing, after_handle. rewrite Ht1. cbn. by rewrite bool_decide_eq_false_2. }
  unfold finish_read at 1. rewrite Hcl. cbn [mbind res_bind].
  destruct (IH p' (set_dir d1 w) (after_handle t1 ph r s) (t_upload t1) (t_buffer t1) (t_offset t1) ph t c2 d2 rs2 r)
    as (s' & E' & Hs1 & Hs2); try done.
  - unfold after_handle. by rewrite Ht1.
  - destruct t1 as [b1 o1 cl u1]. cbn in Ht1 |- *. subst cl. exact E2.
  - by rewrite dir_set.
  - exists s'. split; [|done]. etransitivity; [|exact E'].
    unfold WebApp.app_serve, arrive. cbn [map serve]. change (s_open (after_handle t1 ph r s)) with (s_open s).
    rewrite Hopen. cbn [negb]. unfold readable. change (s_ops (after_handle t1 ph r s)) with (upload_ops 1 (t_upload t1)).
    cbn [handle_read hd]. unfold handle_read. change (s_ops (after_handle t1 ph r s)) with (upload_ops 1 (t_upload t1)).
    cbn [hd]. by destruct (upload_event app_uploads (set_dir d1 w) (after_handle t1 ph r s) 1 (t_upload t1) p') as [[]| | |].
Qed.

(** ** The request *)

(** The pieces of a request that is not complete are read. *)
Lemma serve_reading w events pieces : forall s web',
  s_open s = true -> s_ops s = default_ops -> session_ok (s_web s) ->
  receive (s_web s) pieces = Ok web' -> reading web' ->
  app_serve w s (arrive pieces ++ events) = app_serve w (set_web web' s) events.
Proof.
  induction pieces as [|p pieces IH]; intros s web' Hopen Hops Hok H Hr.
  - injection H as <-. by destruct s.
  - cbn [receive] in H. apply Ok_bind in H as (web1 & H1 & H). pose proof (handle_read_ok _ _ _ Hok H1) as Hok1.
    assert (Hr1 : reading web1) by (eapply still_reading; [exact ctime|exact gmtime|done|exact H|by left]).
    unfold WebApp.app_serve, arrive. cbn [map List.app serve]. rewrite Hopen. cbn [negb].
    rewrite (readable_waits _ _ _ _ _ w s p web1) by done. exact (IH (set_web web1 s) web' Hopen Hops Hok1 H Hr).
Qed.

Definition upload_url : list Z := str "/upload/directory".

(** The entry of the request. *)
Lemma upload_found w s recv type u : method (request (s_web s)) = WEBNET_POST ->
  members (request (s_web s)) !! m_path = Some upload_url ->
  members (request (s_web s)) !! m_content_type = Some type -> webnet_module_upload_open type = Ok u ->
  webnet_module_handle_uri (app_cgi mem fmt print_limit net) app_uploads [] ctime gmtime w s recv =
  upload_event app_uploads w s 1 u recv.
Proof.
  intros Hm Hp Ht Hu. unfold webnet_module_handle_uri, _webnet_module_system_uri_physical, webnet_module_auth.
  rewrite Hp. cbn [defined mbind res_bind find].
  unfold webnet_module_cgi. rewrite Hp. cbn [defined mbind res_bind].
  change (strstr upload_url cgi_root) with (@None nat). cbn [mbind res_bind].
  unfold webnet_module_upload. rewrite Hm, bool_decide_eq_true_2 by done. cbn [negb].
  rewrite Hp. cbn [defined mbind res_bind].
  change (find_entry app_uploads upload_url) with (Some 1%nat). rewrite Ht. cbn [defined mbind res_bind].
  rewrite Hu. cbn [mbind res_bind].
  by destruct (upload_event app_uploads w s 1 u recv) as [[]| | |].
Qed.

Lemma form_item path : form_ok [(str "path", path)] -> zlen [(str "path", path)] < 2 ^ 16.
Proof. done. Qed.

(** The events of a browser that sends the head of a request in [pieces] and
    then [last] with the start [y] of the body, of which [p] is read at
    once. *)
Definition upload_events (pieces : list (list Z)) (last y p : list Z) (ps : list (list Z)) : list event :=
  arrive pieces ++ Readable [last ++ y; p] :: arrive ps.

Lemma head_served w pieces last y mname lines r ty u path p ps :
  posted pieces last y [] mname WEBNET_POST (upload_url ++ 63 :: form_text [(str "path", path)]) lines r ->
  form_ok [(str "path", path)] -> members r !! m_content_type = Some ty ->
  str_begin_with ty (str "multipart/form-data") = true -> content_length r <> 0 ->
  webnet_module_upload_open ty = Ok u ->
  webnet_request_get_query (query_items r) (str "path") = Some (Some path) /\
  exists b s, take (length y) b = y /\ zlen b = WEBNET_SESSION_BUFSZ /\
    s_web s = Session b (zlen y) WEB_PHASE_RESPONSE r /\ s_open s = true /\ s_sent s = [] /\
    app_serve w accepted (upload_events pieces last y p ps) =
    ('(w, s) ← upload_event app_uploads w s 1 u p; '(w, s) ← finish_read app_uploads w s; app_serve w s (arrive ps)).
Proof.
  intros Hp Hok Hty Hmp Hcl Hu. pose proof Hp as [_ Ht _ _ _ _ _ Hr].
  destruct (form_in_target WEBNET_POST upload_url _ lines r Ht ltac:(by_decide) ltac:(done) Hok ltac:(done) Hr)
    as (Hm & Hpath & Hq). split; [by rewrite Hq|].
  destruct (multipart_head _ _ _ _ _ _ _ _ _ Hp Hm Hty Hmp Hcl) as (junk & Hj & E1 & E2).
  set (s0 := set_ops no_ops (set_web (Session (y ++ junk) (zlen y) WEB_PHASE_RESPONSE r) accepted)).
  exists (y ++ junk), s0. split; [by rewrite take_app_length|]. do 4 (split; [done|]).
  assert (Hs : app_serve w accepted (upload_events pieces last y p ps) =
    app_serve w (set_web (waiting (concat pieces)) (set_ops default_ops accepted)) (Readable [last ++ y; p] :: arrive ps)).
  { rewrite <- (serve_reading w (Readable [last ++ y; p] :: arrive ps) pieces (set_ops default_ops accepted)
      (waiting (concat pieces))); try done. by destruct pieces. }
  rewrite Hs. unfold WebApp.app_serve. cbn [serve]. unfold readable, handle_read. cbn [s_open s_ops set_web set_ops accepted negb hd tl].
  change (s_web (set_web (waiting (concat pieces)) _)) with (waiting (concat pieces)).
  rewrite E2. cbn [mbind res_bind session_phase]. rewrite bool_decide_eq_true_2 by done.
  change (set_ops no_ops _) with s0. rewrite (upload_found w s0 p ty u Hm Hpath Hty Hu).
  by destruct (upload_event app_uploads w s0 1 u p) as [[]| | |].
Qed.

Context `{!FileSysLaws F}.

Lemma status_ok n : reply_ok (status_text n).
Proof.
  unfold reply_ok, status_text. split.
  - unfold no_percent. rewrite !Forall_app. split_and!; lazymatch goal with |- Forall _ (sprintf_d _) => idtac | |- _ => by_decide end.
    eapply Forall_impl; [apply sprintf_d_chars|]. cbn. intros c [->|Hc]; [done|]. by intros ->.
  - pose proof (sprintf_d_len n). rewrite !zlen_app. change (zlen [WebUpload.quote]) with 1.
    repeat match goal with |- context [zlen (str ?x)] =>
      let k := eval vm_compute in (zlen (str x)) in change (zlen (str x)) with k end. lia.
Qed.

Lemma open_write_not_done file W : upload_done ∉ upload_open file :: map (upload_write file) W.
Proof.
  intros H. apply elem_of_cons in H as [H|H]; [done|]. apply list_elem_of_In, in_map_iff in H as (w & H & _). done.
Qed.

End Uploads.

(** ** A browser that stores a page *)
Definition upload_target : list Z := upload_url ++ 63 :: form_text [(str "path", str "/webnet")].

Definition upload_lines : list (list Z) :=
  [str "Host: 192.168.1.1"; str "Content-Type: " ++ sample_type; str "Content-Length: 2809"].

Definition upload_request : webnet_request :=
  match read_header upload_lines (start_request WEBNET_POST upload_target webnet_request_create) with
  | Ok r => r
  | _ => webnet_request_create
  end.

(** The request line in two pieces, the second with the head and the start of
    the body, and two more pieces of the body. *)
Definition upload_head : list Z :=
  str "T " ++ upload_target ++ str " HTTP/1.1" ++ crlf ++ header_text upload_lines.

Lemma upload_posted :
  posted [str "POS"] upload_head (take 40 sample_body) [] (str "POST ") WEBNET_POST upload_target upload_lines
    upload_request.
Proof.
  split; [by_decide|by_decide|by_decide|by_decide|reflexivity|by_decide|by_decide|].
  apply (f_equal Ok). vm_compute. reflexivity.
Qed.

