(* ===== verification/WebNet.v ===== *)
(** * The thread of the web server

    Models the loop of [webnet_thread] in src/packages/webnet-latest/src/webnet.c
    and the list of sessions of wn_session.c: a turn of the loop waits in
    [select], accepts a connection, and handles every session whose socket is
    ready, in the order of the list.  The results of [select], [accept] and
    [recv] are the data of a turn. *)

From S2P Require Import Prelude Flash Fal CLib WebPath FileSys WebUpload SmtpClient AppModules.
From S2P Require Import Json JsonParse Replies Wol WebQuery WebRequest WebMultipart WebStored WebServe WebApp.

Local Open Scope Z_scope.

(** What the network does in a turn: the results of [accept] if a connection
    is waiting (it is called again if the first fails), the sockets that can be
    read, and what reading them gives. *)
Record turn := Turn {
  t_accepts : list Z;
  t_ready : list Z;
  t_recvs : Z -> list (list Z) }.

(** A connection: its socket and its session.  The list of sessions holds the
    connections that are open; one that has been closed stays at its place as
    the record of what it has sent. *)
Abbreviation connection := (Z * WebServe.session)%type.

Definition is_open (c : connection) : bool := s_open c.2.

Definition _session_list (l : list connection) : list connection := List.filter is_open l.

(** [webnet_session_create]: at the head of the list. *)
Definition webnet_session_create (socket : Z) (l : list connection) : list connection :=
  if socket <? 0 then l else (socket, accepted) :: l.

(** [webnet_sessions_set_fds]: the sockets to be read and those to be
    written. *)
Definition webnet_sessions_set_fds (l : list connection) : list Z * list Z :=
  (map fst (_session_list l), map fst (List.filter (fun c => s_write c.2) (_session_list l))).

Definition is_set (socket : Z) (fds : list Z) : bool := bool_decide (socket ∈ fds).

Lemma Forall2_in {A B} (P : A -> B -> Prop) l k : Forall2 P l k -> Forall2 (fun x y => P x y /\ x ∈ l) l k.
Proof.
  rewrite !Forall2_same_length_lookup. intros [Hl H]. split; [done|]. intros i x y Hx Hy.
  split; [by eapply H|by eapply list_elem_of_lookup_2].
Qed.

Section Net.
Context {F A : Type} `{!FileSys F, !FileRead F}.
Context (cgi_items : list (list Z * (world F A -> session -> res (world F A * session)))).
Context (upload_entries : list (list Z * (upload_call -> world F A -> session -> res (world F A * session)))).
Context (auth_items : list (list Z * list Z)) (ctime gmtime : Z -> list Z).

#[local] Abbreviation readable := (WebServe.readable cgi_items upload_entries auth_items ctime gmtime).
#[local] Abbreviation writable := (WebServe.writable upload_entries).

(** [webnet_sessions_handle_fds]: a session that is closed is taken out of the
    list, after the next one has been noted. *)
Fixpoint webnet_sessions_handle_fds (readset writeset : list Z) (recvs : Z -> list (list Z))
    (w : world F A) (l : list connection) : res (world F A * list connection) :=
  match l with
  | [] => Ok (w, [])
  | (socket, s) :: l =>
      '(w, s) ← (if negb (s_open s) then Ok (w, s)
                 else if is_set socket readset then readable w s (recvs socket)
                 else if is_set socket writeset then writable w s
                 else Ok (w, s));
      '(w, l) ← webnet_sessions_handle_fds readset writeset recvs w l;
      Ok (w, (socket, s) :: l)
  end.

(** One turn of [webnet_thread].  After a failed [accept] the next connection
    is accepted and closed.  The sockets to be written are those that were
    asked for, whether they are ready or not. *)
Definition webnet_turn (t : turn) (w : world F A) (l : list connection) : res (world F A * list connection) :=
  let '(readset, writeset) := webnet_sessions_set_fds l in
  let tempfds := List.filter (fun k => is_set k (t_ready t)) readset in
  let l := match t_accepts t with socket :: _ => webnet_session_create socket l | [] => l end in
  webnet_sessions_handle_fds tempfds writeset (t_recvs t) w l.

Fixpoint webnet_thread (ts : list turn) (w : world F A) (l : list connection) : res (world F A * list connection) :=
  match ts with
  | [] => Ok (w, l)
  | t :: ts => '(w, l) ← webnet_turn t w l; webnet_thread ts w l
  end.

(** ** A session alone *)

(** What a turn does to one session. *)
Definition session_turn (t : turn) (socket : Z) (w : world F A) (s : session) : res (world F A * session) :=
  if negb (s_open s) then Ok (w, s)
  else if is_set socket (t_ready t) then readable w s (t_recvs t socket)
  else if s_write s then writable w s
  else Ok (w, s).

(** A session that is handled alone, with the world as it is. *)
Inductive alone (w : world F A) (socket : Z) : session -> list turn -> session -> Prop :=
  | alone_nil s : alone w socket s [] s
  | alone_turn s t ts s1 s2 : session_turn t socket w s = Ok (w, s1) -> alone w socket s1 ts s2 ->
      alone w socket s (t :: ts) s2.

(** The connections that are accepted, the last one first, with the turns that
    follow. *)
Definition arrival (t : turn) : list Z :=
  match t_accepts t with socket :: _ => if socket <? 0 then [] else [socket] | [] => [] end.

Fixpoint arrivals (ts : list turn) : list (Z * list turn) :=
  match ts with
  | [] => []
  | t :: ts => arrivals ts ++ map (fun socket => (socket, ts)) (arrival t)
  end.

(** [accept] gives a socket that is not in use. *)
Definition fresh (t : turn) (l : list connection) : bool :=
  forallb (fun socket => negb (is_set socket (map fst (_session_list l)))) (arrival t).

Fixpoint all_fresh (ts : list turn) (w : world F A) (l : list connection) : bool :=
  match ts with
  | [] => true
  | t :: ts =>
      fresh t l && match webnet_turn t w l with Ok (w, l) => all_fresh ts w l | _ => true end
  end.

(** No two open connections have the same socket. *)
Definition distinct (l : list connection) : Prop := NoDup (map fst (_session_list l)).

Lemma open_listed (c : connection) l : c ∈ l -> s_open c.2 = true -> c.1 ∈ map fst (_session_list l).
Proof.
  intros Hc Ho. apply list_elem_of_In, in_map, filter_In. split; [by apply list_elem_of_In|done].
Qed.

Lemma writeset_listed k l : k ∈ (webnet_sessions_set_fds l).2 -> k ∈ map fst (_session_list l).
Proof.
  intros H. apply list_elem_of_In, in_map_iff in H as (c & <- & H). apply filter_In in H as [H _].
  by apply list_elem_of_In, in_map.
Qed.

Lemma is_set_true k l : is_set k l = true <-> k ∈ l.
Proof. apply bool_decide_eq_true. Qed.

Lemma is_set_false k l : is_set k l = false <-> k ∉ l.
Proof. apply bool_decide_eq_false. Qed.

(** Only its own wish to write makes a session writable. *)
Lemma writeset_own l c : distinct l -> c ∈ l -> s_open c.2 = true ->
  is_set c.1 (webnet_sessions_set_fds l).2 = s_write c.2.
Proof.
  intros Hd Hc Ho. destruct (s_write c.2) eqn:Hw.
  - apply is_set_true, list_elem_of_In, in_map, filter_In. split; [|done]. apply filter_In.
    split; [by apply list_elem_of_In|done].
  - apply is_set_false. intros H. apply list_elem_of_In, in_map_iff in H as (c' & E & H).
    apply filter_In in H as [H Hw']. cbv beta in Hw'.
    assert (c' = c) as ->; [|congruence].
    assert (Hin : c ∈ _session_list l) by (apply list_elem_of_In, filter_In; split; [by apply list_elem_of_In|done]).
    apply list_elem_of_In in H. unfold distinct in Hd. revert Hd H Hin E.
    generalize (_session_list l). clear. induction l as [|x l IH]; intros Hd H Hin E; [by apply not_elem_of_nil in H|].
    cbn [map] in Hd. apply NoDup_cons in Hd as [Hx Hd].
    apply elem_of_cons in H as [->|H]; apply elem_of_cons in Hin as [->|Hin]; [done| | |by apply IH].
    + destruct Hx. rewrite E. apply list_elem_of_In, in_map. by apply list_elem_of_In.
    + destruct Hx. rewrite <- E. apply list_elem_of_In, in_map. by apply list_elem_of_In.
Qed.

(** The handled sessions, when each leaves the world as it is. *)
Lemma handle_fds_all readset writeset recvs w l l' :
  Forall2 (fun (c c' : connection) => c.1 = c'.1 /\
    (if negb (s_open c.2) then Ok (w, c.2)
     else if is_set c.1 readset then readable w c.2 (recvs c.1)
     else if is_set c.1 writeset then writable w c.2 else Ok (w, c.2)) = Ok (w, c'.2)) l l' ->
  webnet_sessions_handle_fds readset writeset recvs w l = Ok (w, l').
Proof.
  induction 1 as [|[k s] [k' s'] l l' [Ek E] _ IH]; [done|]. cbn [fst snd] in *. subst k'.
  cbn [webnet_sessions_handle_fds]. rewrite E. cbn [mbind res_bind]. by rewrite IH.
Qed.

Definition newcomers (t : turn) : list connection := map (fun socket => (socket, accepted)) (arrival t).

Lemma created t l :
  match t_accepts t with socket :: _ => webnet_session_create socket l | [] => l end = newcomers t ++ l.
Proof.
  unfold newcomers, arrival, webnet_session_create. destruct (t_accepts t) as [|k ks]; [done|]. by destruct (k <? 0).
Qed.

(** A turn in which every session leaves the world as it is. *)
Lemma turn_quiet t w l l2 : distinct l -> fresh t l = true ->
  Forall2 (fun c c' : connection => c.1 = c'.1 /\ session_turn t c.1 w c.2 = Ok (w, c'.2)) l l2 ->
  webnet_turn t w l = Ok (w, newcomers t ++ l2).
Proof.
  intros Hd Hf H. unfold webnet_turn. destruct (webnet_sessions_set_fds l) as [readset writeset] eqn:Es.
  rewrite created. apply handle_fds_all, Forall2_app.
  - unfold newcomers, fresh in *. rewrite forallb_forall in Hf. clear H. induction (arrival t) as [|k ks IH]; [constructor|].
    constructor; [|apply IH; intros x Hx; apply Hf; by right].
    split; [done|]. cbn [fst snd]. change (s_open accepted) with true. cbn [negb].
    specialize (Hf k ltac:(by left)). apply negb_true_iff, is_set_false in Hf.
    rewrite (proj2 (is_set_false _ _)).
    + rewrite (proj2 (is_set_false k writeset)); [done|]. intros Hk. apply Hf, writeset_listed. by rewrite Es.
    + intros Hk. apply Hf. apply list_elem_of_In, filter_In in Hk as [Hk _]. injection Es as <- _. by apply list_elem_of_In.
  - apply Forall2_in in H. eapply Forall2_impl; [exact H|]. intros c c' [[Ek E] Hc]. split; [done|].
    unfold session_turn in E. destruct (s_open c.2) eqn:Ho; [|done]. cbn [negb] in *.
    pose proof (writeset_own l c Hd Hc Ho) as Hw. rewrite Es in Hw. cbn [snd] in Hw. rewrite Hw.
    assert (Hr : is_set c.1 (List.filter (fun k => is_set k (t_ready t)) readset) = is_set c.1 (t_ready t)).
    { destruct (is_set c.1 (t_ready t)) eqn:Er.
      - apply is_set_true, list_elem_of_In, filter_In. split; [|done]. apply list_elem_of_In.
        injection Es as <- _. by apply open_listed.
      - apply is_set_false. intros Hk. apply list_elem_of_In, filter_In in Hk as [_ Hk]. congruence. }
    by rewrite Hr.
Qed.

(** The sockets of the open connections, from turn to turn. *)
Lemma handle_fds_open readset writeset recvs l : forall w w' l',
  webnet_sessions_handle_fds readset writeset recvs w l = Ok (w', l') ->
  sublist (map fst (_session_list l')) (map fst (_session_list l)).
Proof.
  induction l as [|[k s] l IH]; intros w w' l' H; cbn [webnet_sessions_handle_fds] in H.
  - by injection H as _ <-.
  - apply Ok_bind in H as ([w1 s1] & E1 & H). apply Ok_bind in H as ([w2 l2] & E2 & H). injection H as _ <-.
    apply IH in E2. unfold _session_list in *. cbn [List.filter].
    change (is_open (k, s1)) with (s_open s1). change (is_open (k, s)) with (s_open s).
    destruct (s_open s) eqn:Ho.
    + destruct (s_open s1); [by apply sublist_skip|by apply sublist_cons].
    + cbn [negb] in E1. injection E1 as _ <-. by rewrite Ho.
Qed.

Lemma newcomers_distinct t l : distinct l -> fresh t l = true -> distinct (newcomers t ++ l).
Proof.
  intros Hd Hf. unfold newcomers, fresh, arrival in *.
  destruct (t_accepts t) as [|k ks]; [done|]. destruct (k <? 0); [done|].
  cbn in Hf. rewrite andb_true_r in Hf. apply negb_true_iff, is_set_false in Hf.
  unfold distinct. cbn. by apply NoDup_cons.
Qed.

Lemma turn_distinct t w l w' l' : distinct l -> fresh t l = true -> webnet_turn t w l = Ok (w', l') -> distinct l'.
Proof.
  intros Hd Hf E. unfold webnet_turn in E. destruct (webnet_sessions_set_fds l) as [readset writeset].
  rewrite created in E. apply handle_fds_open in E.
  eapply sublist_NoDup; [|exact E]. by apply newcomers_distinct.
Qed.

(** The sockets of the sessions stay different: whatever arrives in
    whatever order, no two open connections of the list have the same socket,
    as long as [accept] gives a socket that is not in use. *)
Lemma sockets_distinct ts : forall w l w' l', distinct l -> all_fresh ts w l = true ->
  webnet_thread ts w l = Ok (w', l') -> distinct l'.
Proof.
  induction ts as [|t ts IH]; intros w l w' l' Hd Hf H; cbn [webnet_thread all_fresh] in *; [by injection H as _ <-|].
  apply Ok_bind in H as ([w1 l1] & E & H). apply andb_true_iff in Hf as [Hf Hfs]. rewrite E in Hfs.
  refine (IH w1 l1 w' l' _ Hfs H). by eapply turn_distinct.
Qed.

Lemma newcomers_alone w t ts news :
  Forall2 (fun a (c : connection) => a.1 = c.1 /\ alone w a.1 accepted a.2 c.2)
    (map (fun socket => (socket, ts)) (arrival t)) news ->
  Forall2 (fun c c' : connection => c.1 = c'.1 /\ alone w c.1 c.2 ts c'.2) (newcomers t) news.
Proof.
  unfold newcomers. revert news. generalize (arrival t). intros ks.
  induction ks as [|k ks IH]; intros news H; cbn [map] in *; inversion H as [|a c l1 l2 H1 H2]; subst; [constructor|].
  constructor; [done|by apply IH].
Qed.

Lemma split_turn w t ts l outs :
  Forall2 (fun c c' : connection => c.1 = c'.1 /\ alone w c.1 c.2 (t :: ts) c'.2) l outs ->
  exists l2, Forall2 (fun c c' : connection => c.1 = c'.1 /\ session_turn t c.1 w c.2 = Ok (w, c'.2)) l l2 /\
    Forall2 (fun c c' : connection => c.1 = c'.1 /\ alone w c.1 c.2 ts c'.2) l2 outs.
Proof.
  induction 1 as [|[k s] [k' s'] l outs [Ek E] _ (l2 & H1 & H2)]; [by exists []|].
  cbn [fst snd] in *. subst k'. inversion E as [|? ? ? s1 ? Et Ea]; subst.
  exists ((k, s1) :: l2). by split; constructor.
Qed.

Lemma thread_quiet ts : forall w l outs news, distinct l -> all_fresh ts w l = true ->
  Forall2 (fun c c' : connection => c.1 = c'.1 /\ alone w c.1 c.2 ts c'.2) l outs ->
  Forall2 (fun a (c : connection) => a.1 = c.1 /\ alone w a.1 accepted a.2 c.2) (arrivals ts) news ->
  webnet_thread ts w l = Ok (w, news ++ outs).
Proof.
  induction ts as [|t ts IH]; intros w l outs news Hd Hf Hl Hn; cbn [webnet_thread all_fresh arrivals] in *.
  - inversion Hn; subst. cbn [app]. do 2 f_equal. clear - Hl.
    induction Hl as [|[k s] [k' s'] l outs [Ek E] _ IH]; [done|].
    cbn in *. inversion E; by subst.
  - apply andb_true_iff in Hf as [Hf Hfs]. apply split_turn in Hl as (l2 & H1 & H2).
    pose proof (turn_quiet t w l l2 Hd Hf H1) as E. rewrite E in Hfs |- *. cbn [mbind res_bind].
    apply Forall2_app_inv_l in Hn as (n1 & n2 & Hn1 & Hn2 & ->). apply newcomers_alone in Hn2.
    rewrite <- app_assoc. apply IH; [|done|by apply Forall2_app|done].
    by eapply turn_distinct.
Qed.
End Net.

(** ** Pages for several browsers *)
Section Browsers.
Context {D F R Fl : Type} `{!Double D, !DoubleLaws D, !FileSys F, !FileRead F}.
Context (mem : Z -> bool) (fmt : R -> list Z) (print_limit : list Z -> list Z).
Context (device_table : list (fal_flash_dev Fl)) (fal : fal_state) (net : udp) (stack : list Z).
Context (ctime gmtime : Z -> list Z) (mem_all : forall n, mem n = true).

#[local] Abbreviation state := (WebServe.world F (app_state R Fl)).
#[local] Abbreviation app_cgi := (WebApp.app_cgi mem fmt print_limit net).
#[local] Abbreviation app_uploads := (WebApp.app_uploads device_table fal stack).
#[local] Abbreviation app_serve := (WebApp.app_serve mem fmt print_limit device_table fal net stack ctime gmtime).
#[local] Abbreviation alone := (alone app_cgi app_uploads [] ctime gmtime).
#[local] Abbreviation readable := (WebServe.readable app_cgi app_uploads [] ctime gmtime).
#[local] Abbreviation pages := (WebApp.pages fmt print_limit).

(** The thread with the tables of the application. *)
Definition app_thread : list turn -> state -> list connection -> res (state * list connection) :=
  webnet_thread app_cgi app_uploads [] ctime gmtime.

(** What is read from a socket, turn by turn. *)
Fixpoint reads (socket : Z) (ts : list turn) : list (list (list Z)) :=
  match ts with
  | [] => []
  | t :: ts => (if is_set socket (t_ready t) then [t_recvs t socket] else []) ++ reads socket ts
  end.

(** A session that reads pieces and is closed then, and leaves the world as it
    is all the time. *)
Inductive quiet (w : state) : WebServe.session -> list (list Z) -> WebServe.session -> Prop :=
  | quiet_nil s : s_open s = false -> quiet w s [] s
  | quiet_piece s p ps s1 s2 : s_open s = true -> s_write s = false -> readable w s [p] = Ok (w, s1) ->
      quiet w s1 ps s2 -> quiet w s (p :: ps) s2.

Lemma alone_closed w k ts s : s_open s = false -> alone w k s ts s.
Proof.
  intros Hs. induction ts as [|t ts IH]; econstructor; [|exact IH]. unfold session_turn. by rewrite Hs.
Qed.

Lemma alone_quiet w k ts : forall pieces more s s', reads k ts = map (fun p => [p]) pieces ++ more ->
  quiet w s pieces s' -> alone w k s ts s'.
Proof.
  induction ts as [|t ts IH]; intros pieces more s s' Hr Hq.
  - destruct pieces; [|done]. inversion Hq; subst. constructor.
  - inversion Hq as [? Ho|? p ps s1 ? Ho Hw E Hq']; subst; [by apply alone_closed|].
    cbn [reads map List.app] in Hr. destruct (is_set k (t_ready t)) eqn:Hk.
    + cbn [List.app] in Hr. injection Hr as E1 Hr. econstructor; [|by eapply IH].
      unfold session_turn. rewrite Ho, Hk, E1. exact E.
    + cbn [List.app] in Hr. econstructor; [|exact (IH (p :: ps) more _ _ Hr Hq)]. unfold session_turn. by rewrite Ho, Hk, Hw.
Qed.

Lemma readable_served w s p w' s' : s_open s = true -> app_serve w s (arrive [p]) = Ok (w', s') ->
  readable w s [p] = Ok (w', s').
Proof.
  intros Ho. unfold WebApp.app_serve, arrive. cbn [map serve]. rewrite Ho. cbn [negb].
  destruct (readable w s [p]) as [[w1 s1]| | |]; [|done..]. cbn [mbind res_bind]. by destruct (s_open s1).
Qed.

(** A request that is read, handled and closed without a change. *)
Lemma quiet_received w b r pieces : forall s s',
  s_open s = true -> s_write s = false -> s_ops s = default_ops -> session_ok (s_web s) -> reading (s_web s) ->
  pieces <> [] -> receive (s_web s) pieces = Ok (Session b 0 WEB_PHASE_RESPONSE r) ->
  app_serve w s (arrive pieces) = Ok (w, s') -> s_open s' = false -> quiet w s pieces s'.
Proof.
  induction pieces as [|p pieces IH]; intros s s' Ho Hw Hops Hok Hr Hne H E Hc; [done|].
  destruct pieces as [|p' pieces].
  - apply readable_served in E; [|done]. econstructor; [done|done|exact E|by constructor].
  - change (receive (s_web s) (p :: p' :: pieces)) with (s1 ← _webnet_session_handle_read (s_web s) p; receive s1 (p' :: pieces)) in H.
    apply Ok_bind in H as (web1 & H1 & H). pose proof (handle_read_ok _ _ _ Hok H1) as Hok1.
    assert (Hr1 : reading web1) by (eapply still_reading; [exact ctime|exact gmtime|done|exact H|by right]).
    pose proof (readable_waits app_cgi app_uploads [] ctime gmtime w s p web1 Hops H1 Hr1) as E1.
    econstructor; [done|done|exact E1|]. apply IH; try done.
    revert E. unfold WebApp.app_serve, arrive. cbn [map serve]. rewrite Ho. cbn [negb]. rewrite E1. done.
Qed.

(** A browser asks for a page: everything that is asked of one whose request
    is among the first bytes that are read from its socket. *)
Definition asks (w : state) (rs : list (list (list Z))) (page : list Z * json) : Prop :=
  exists pieces last more mname m target lines r,
    rs = map (fun p => [p]) (pieces ++ [last]) ++ more /\
    posted pieces last [] [] mname m target lines r /\ (content_length r = 0 \/ method r <> WEBNET_POST) /\
    members r !! m_path = Some (page_path page.1) /\ page ∈ pages (w_app w) /\
    no_percent (json_text false 0 page.2) /\ zlen (json_text false 0 page.2) <= WEBNET_SESSION_BUFSZ - 2.

Definition answered (page : list Z * json) (c : connection) : Prop :=
  s_open c.2 = false /\ concat (s_sent c.2) = page_head ++ json_text false 0 page.2.

Lemma page_alone w k ts page : app_ok fmt print_limit (w_app w) -> asks w (reads k ts) page ->
  exists s, alone w k accepted ts s /\ answered page (k, s).
Proof.
  intros Hok (pieces & last & more & mname & m & target & lines & r & Hr & Hp & Hnb & Hpath & Hin & Hpc & Hl).
  destruct (request_received _ _ _ _ _ _ _ Hp Hnb) as [b E].
  destruct page as [name v]. cbn [fst snd] in *.
  destruct (page_shown mem fmt print_limit device_table fal net stack ctime gmtime mem_all w _ _ _ _ _ _ _ name v
    Hp Hnb Hpath Hin Hok Hpc Hl) as (s' & Es & Hc & Hs & _).
  exists s'. split; [|done]. eapply alone_quiet; [exact Hr|].
  assert (Hq : quiet w (set_ops default_ops accepted) (pieces ++ [last]) s').
  { eapply quiet_received; try done; [by destruct pieces|]. rewrite <- Es. by destruct pieces. }
  inversion Hq as [|? p ps s1 ? _ _ E1 Hq' Eps]; [by destruct pieces|]. by econstructor.
Qed.

End Browsers.

(** ** Two browsers whose requests arrive interleaved *)
Definition status_page : list Z * json :=
  (str "get_device_status", JObj (map status_json (Board.json_create_device_status (lamps sample_app)))).

Definition smtp_page : list Z * json := (str "smtp_get_data", alarm_json (fun t => t) Alarm.cleared (str "30.00")).

Definition status_rest : list Z := rest_of_head (page_path (str "get_device_status")).
Definition smtp_rest : list Z := rest_of_head (page_path (str "smtp_get_data")).

Definition sample_turns : list turn :=
  [Turn [5] [] (fun _ => []); Turn [6] [5] (fun _ => [str "GE"]);
   Turn [] [6; 5] (fun k => [if k =? 5 then status_rest else str "GE"]); Turn [] [6] (fun _ => [smtp_rest])].

Lemma sample_asks name v rs more : rs = map (fun p => [p]) [str "GE"; rest_of_head (page_path name)] ++ more ->
  target_ok (page_path name) -> zlen (head_text (str "GET ") (page_path name) page_lines ++ []) < WEBNET_SESSION_BUFSZ ->
  read_header page_lines (start_request WEBNET_GET (page_path name) webnet_request_create) = Ok (asked (page_path name)) ->
  content_length (asked (page_path name)) = 0 -> members (asked (page_path name)) !! m_path = Some (page_path name) ->
  (name, v) ∈ pages two_digits (fun t => t) sample_app ->
  no_percent (json_text false 0 v) -> zlen (json_text false 0 v) <= WEBNET_SESSION_BUFSZ - 2 ->
  asks (F := mem_fs) two_digits (fun t => t) sample_state rs (name, v).
Proof.
  intros Hrs Ht Hz Hr Hc Hp Hin Hpc Hl.
  exists [str "GE"], (rest_of_head (page_path name)), more, (str "GET "), WEBNET_GET, (page_path name), page_lines,
    (asked (page_path name)).
  split; [exact Hrs|]. split; [by apply asked_posted|]. split; [by left|]. done.
Qed.


(** A session that waits to write is written in every turn, whether its socket
    is ready or not: the set that was given to [select] is used. *)
Example written_when_not_ready :
  match serve [] [] [] no_time no_time page_world accepted [Readable [str "GET / HTTP/1.1" ++ crlf ++ crlf]] with
  | Ok (w, s) =>
      match webnet_turn [] [] [] no_time no_time (Turn [] [] (fun _ => [])) w [(5, s)] with
      | Ok (_, [(_, s')]) => concat (s_sent s') = concat (s_sent s) ++ page
      | _ => False
      end
  | _ => False
  end.
Proof. by vm_compute. Qed.

(** If accepting a connection fails, the next one is accepted and closed. *)
Example next_connection_lost :
  webnet_turn [] [] [] no_time no_time (Turn [-1; 7] [] (fun _ => [])) page_world [] = Ok (page_world, []).
Proof. reflexivity. Qed.
