(* ===== verification/AppStart.v ===== *)
(** * The start of the application

    Models src/applications/W601_app.c from reset to the running modules, with
    src/module/system/system.c, src/module/wifi/wifi_module.c,
    [check_create_path], [get_disk_free] and [check_disk_free] of
    src/module/utils/module_utils.c and [web_file_init] of
    src/module/web/web_utils.c.  The settings in flash are those of [EfStore]
    on the partitions of [Fal]; the card with the file system is a device of its
    own.  Mounting and formatting it are parameters. *)

From S2P Require Import Prelude Flash Fal EfEnv EfStore FileSys Record AppModules.

Local Open Scope Z_scope.

(** ** The system monitor *)
Module Monitor.

Record sys_mem := SysMem { max_mem : Z; used_mem : Z; max_used_mem : Z }.

(** [mem_monitor]: whether the processor is reset; [used_per] is never
    computed from the statistics. *)
Definition mem_monitor (info : sys_mem) : bool := let used_per := 0 in 95 <? used_per.

Definition sys_reset_check (reset : Z) : bool := reset =? 1.

(** [system_reset]: the new value of [reset]. *)
Definition system_reset : Z := 1.

(** [system_monitor_thread] over turns: the statistics of a turn, and whether
    [system_reset] has been called since the last one.  The result is the turn
    in which the processor is reset. *)
Fixpoint system_monitor_thread (reset : Z) (turns : list (sys_mem * bool)) : option nat :=
  match turns with
  | [] => None
  | (info, called) :: turns =>
      let reset := if called : bool then system_reset else reset in
      if mem_monitor info || sys_reset_check reset then Some O
      else S <$> system_monitor_thread reset turns
  end.

(** The board is reset in the turn after [system_reset], however much memory
    is used. *)
Lemma monitor_resets turns :
  system_monitor_thread 0 turns = fst <$> list_find (fun t => t.2 = true) turns.
Proof.
  induction turns as [|[info []] turns IH]; [done..|]. cbn. rewrite IH. by destruct (list_find _ turns) as [[]|].
Qed.
End Monitor.

(** ** The network *)
Module Wlan.

(** The manager calls the handler that is registered for an event. *)
Inductive wlan_event := RT_WLAN_EVT_READY | RT_WLAN_EVT_STA_DISCONNECTED.

Record wlan := MkWlan { wifi_ready_status : Z; net_ready : Z; on_ready : bool; on_disconnect : bool }.

Definition wlan_ready_handler (w : wlan) : wlan := MkWlan 1 (net_ready w + 1) (on_ready w) (on_disconnect w).

Definition wlan_station_disconnect_handler (w : wlan) : wlan :=
  MkWlan 0 (net_ready w) (on_ready w) (on_disconnect w).

Definition handle (e : wlan_event) (w : wlan) : wlan :=
  match e with
  | RT_WLAN_EVT_READY => if on_ready w then wlan_ready_handler w else w
  | RT_WLAN_EVT_STA_DISCONNECTED => if on_disconnect w then wlan_station_disconnect_handler w else w
  end.

Definition handles (es : list wlan_event) (w : wlan) : wlan := fold_left (fun w e => handle e w) es w.

(** [wifi_start]: [connected] is the result of [rt_wlan_connect], [es] are the
    events while it runs and is waited for.  The handler of the ready event is
    taken away if the connection was made. *)
Definition wifi_start (connected : bool) (es : list wlan_event) (w : wlan) : Z * wlan :=
  let w := handles es (MkWlan (wifi_ready_status w) 0 true true) in
  (0, if connected then MkWlan (wifi_ready_status w) (net_ready w) false true else w).

Definition boot : wlan := MkWlan 0 0 false false.

(** Once the connection has been lost, the status stays 0, although the
    manager connects again. *)
Lemma ready_status_lost es es' :
  RT_WLAN_EVT_STA_DISCONNECTED ∈ es' -> wifi_ready_status (handles es' (wifi_start true es boot).2) = 0.
Proof.
  unfold wifi_start. cbn [snd]. generalize (handles es (MkWlan (wifi_ready_status boot) 0 true true)). intros w.
  unfold handles. generalize (wifi_ready_status w), (net_ready w). clear w. intros st n.
  assert (K : forall l n, wifi_ready_status (fold_left (fun w e => handle e w) l (MkWlan 0 n false true)) = 0).
  { intros l. induction l as [|[] l IH]; intros n'; [done|apply IH..]. }
  revert st n. induction es' as [|[] es' IH]; intros st n; rewrite ?elem_of_nil, ?elem_of_cons; [done|..].
  - intros [|H]; [done|]. by apply IH.
  - intros _. apply K.
Qed.
End Wlan.

(** ** The flash and the card *)
Section Start.
Context {F C : Type} `{!FileSys C, !FileModes C}.
Context (device_table : list (fal_flash_dev F)).
Context (dfs_mount dfs_mkfs : C -> Z * C).

(** [w601_filesystem_init]; [fuel], [buf_ok] and [alloc] are those of
    [fal_init].  Without the partition [download] the null pointer that is
    erased stops the board. *)
Definition w601_filesystem_init (fuel : nat) (buf_ok : bool) (alloc : nat -> bool) (fal : fal_state)
    (f : F) (c : C) : option (Z * fal_state * F * C) :=
  '(result, fal) ← fal_init device_table fuel buf_ok alloc f fal;
  if result <? 0 then Some (-1, fal, f, c)
  else
    found ← fal_partition_find fal (str "download");
    part ← found;
    let '(_, f) := fal_partition_erase_all device_table part f in
    let '(mounted, c) := dfs_mount c in
    if mounted <? 0
    then let '(_, c) := dfs_mkfs c in Some (-1, fal, f, c)
    else Some (0, fal, f, c).

(** The statics of EasyFlash after a reset. *)
Definition env_statics : env_state :=
  EnvState (replicate (Z.to_nat ENV_USER_SETTING_SIZE) 0) 0 false false 0 0 0.

(** The first half of [w601_app_init]: what a reset leaves is the flash and the
    card.  The result of [w601_filesystem_init] is not looked at. *)
Definition settings_start (fuel : nat) (buf_ok : bool) (alloc : nat -> bool) (junk : nat -> list Z)
    (f : F) (c : C) : option (EfErrCode * env_state * fal_state * F * C) :=
  '(_, fal, f, c) ← w601_filesystem_init fuel buf_ok alloc fal_boot f c;
  '(result, s, f) ← easyflash_init device_table fal junk env_statics f;
  Some (result, s, fal, f, c).

(** Restarts one after the other, with what the uninitialised locals of
    [ef_load_env] hold in each. *)
Fixpoint restarts (fuel : nat) (junks : list (nat -> list Z)) (f : F) (c : C)
  : option (EfErrCode * env_state * fal_state * F * C) :=
  match junks with
  | [] => None
  | [junk] => settings_start fuel true (fun _ => true) junk f c
  | junk :: junks =>
      '(_, _, _, f, c) ← settings_start fuel true (fun _ => true) junk f c;
      restarts fuel junks f c
  end.

(** ** The files of the server *)
Definition WEBNET_ROOT : list Z := str "/webnet".
Definition WEB_INDEX_PATH : list Z := str "/webnet/$upload$.html".

(** [check_create_path] *)
Definition check_create_path (p : list Z) (c : C) : Z * C :=
  if fs_opendir c p then (0, c)
  else
    let '(r, c) := fs_mkdir c p in
    if r <? 0 then (-1, c) else (if fs_opendir c p then 0 else -1, c).

(** [web_file_init]; [fwrite] reports an item if all of it has been written. *)
Definition web_file_init (upload_page : list Z) (c : C) : Z * C :=
  let '(_, c) := check_create_path WEBNET_ROOT c in
  let '(fp, c) := fs_open_trunc c WEB_INDEX_PATH in
  if fp <? 0 then (-1, c)
  else
    let '(n, c) := fs_write c fp upload_page in
    (if negb (n =? zlen upload_page) then -1 else 0, fs_close c fp).

(** [get_disk_free] for the result of [dfs_statfs]: block size and free
    blocks; [check_disk_free] *)
Definition get_disk_free (statfs : option (Z * Z)) : Z :=
  match statfs with Some (f_bsize, f_bfree) => f_bsize * f_bfree / 1024 | None => -1 end.

Definition DISK_MIN_FREE_SPACE_KB : Z := 512.

Definition check_disk_free (statfs : option (Z * Z)) (c : C) : Z * C :=
  (0, if get_disk_free statfs <? DISK_MIN_FREE_SPACE_KB then snd (dfs_mkfs c) else c).

(** ** The whole start *)
Record started := Started {
  st_env : env_state;
  st_fal : fal_state;
  st_flash : F;
  st_card : C;
  st_wlan : Wlan.wlan;
  st_lamps : Board.lamps;
  st_record : record_t;
  st_polls : nat
}.

(** The loop that waits for the network, over what [rt_wlan_is_ready] answers:
    how often it has slept; [None] while it still waits. *)
Fixpoint wait_ready (answers : list bool) : option nat :=
  match answers with
  | [] => None
  | ready :: answers => if ready : bool then Some O else S <$> wait_ready answers
  end.

(** [check_time_valid] of src/module/record/record_module.c, over the years since
    1900 that the clock shows. *)
Definition check_time_valid (years : list Z) : option nat := wait_ready (map (Z.ltb 100) years).

(** [w601_app_init] up to the last module.  The threads of the modules are
    those of [AppModules], [UlogTcp], [Record] and [WebNet]. *)
Definition w601_app_init (fuel : nat) (junk : nat -> list Z) (connected : bool) (es : list Wlan.wlan_event)
    (answers : list bool) (years : list Z) (upload_page : list Z) (lamps : Board.lamps) (f : F) (c : C) : option started :=
  '(_, s, fal, f, c) ← settings_start fuel true (fun _ => true) junk f c;
  let '(_, w) := Wlan.wifi_start connected es Wlan.boot in
  n ← wait_ready answers;
  let '(_, c) := web_file_init upload_page c in
  let lamps := Board.led_module_init lamps in
  let '(r, c) := _module_init c in
  _ ← check_time_valid years;
  Some (Started s fal f c w lamps r n).
End Start.

(** ** Settings and restarts *)
Section Settings.
Context {F C : Type}.
Context (device_table : list (fal_flash_dev F)).
Context (dfs_mount dfs_mkfs : C -> Z * C).
Context (part down : fal_partition) (d dev : fal_flash_dev F) (ps : list fal_partition) (off : Z).
Context `{!FlashDevice (dev_ops d) (dev_len d) (dev_blk_size d)}.
Hypothesis Hdev : find_device device_table (flash_name part) = Some d.
Hypothesis Hfit : 0 <= part_offset part /\ part_offset part + part_len part <= dev_len d.
Hypothesis Hdevlen : dev_len d < 2 ^ 31.
Hypothesis Hblk : dev_blk_size d = EF_ERASE_MIN_SIZE.
Hypothesis Haligned : part_offset part `mod` EF_ERASE_MIN_SIZE = 0.
Hypothesis Hsize : ENV_AREA_SIZE <= part_len part.

#[local] Abbreviation saved := (EfStore.saved device_table part).
#[local] Abbreviation store_inv := (EfStore.store_inv device_table part).
#[local] Abbreviation restarts := (restarts device_table dfs_mount dfs_mkfs).

(** The table of the partitions [ps] lies at [off] of the device [dev]; the
    variables and the download lie apart on the device [d], whose operations do
    not reach [dev]. *)
Record flash_layout : Prop := {
  lay_table_dev : find_device device_table FAL_PART_TABLE_FLASH_DEV_NAME = Some dev;
  lay_table_len : FAL_PART_TABLE_END_OFFSET < dev_len dev < 2 ^ 31;
  lay_table_room : sizeof_fal_partition * zlen ps <= off <= FAL_PART_TABLE_END_OFFSET;
  lay_entries : forallb (entry_ok device_table) ps = true;
  lay_env : List.find (fun p => strcmp_mem FAL_EF_PART_NAME (part_name_mem p)) ps = Some part;
  lay_download : List.find (fun p => strcmp_mem (str "download") (part_name_mem p)) ps = Some down;
  lay_download_dev : find_device device_table (flash_name down) = Some d;
  lay_download_in : 0 < part_len down /\ 0 <= part_offset down /\ part_offset down + part_len down <= dev_len d;
  lay_download_aligned : part_offset down `mod` EF_ERASE_MIN_SIZE = 0;
  lay_disjoint : part_offset down + part_len down <= part_offset part \/
    part_offset part + part_len part <= part_offset down;
  lay_apart : forall f a n x b m,
    op_read (dev_ops dev) (snd (op_erase (dev_ops d) f a n)) b m = op_read (dev_ops dev) f b m /\
    op_read (dev_ops dev) (snd (op_write (dev_ops d) f a x)) b m = op_read (dev_ops dev) f b m
}.

Context (Hlay : flash_layout).

(** What the table device shows. *)
Definition same_table (f f' : F) : Prop :=
  forall b m, op_read (dev_ops dev) f' b m = op_read (dev_ops dev) f b m.

Lemma erase_table p f a n : find_device device_table (flash_name p) = Some d ->
  same_table f (snd (fal_partition_erase device_table p f a n)).
Proof.
  intros Hp b m. unfold fal_partition_erase. rewrite Hp. case_match; [done|].
  apply (lay_apart Hlay f _ _ [] b m).
Qed.

Lemma write_table p f a x : find_device device_table (flash_name p) = Some d ->
  same_table f (snd (fal_partition_write device_table p f a x)).
Proof.
  intros Hp b m. unfold fal_partition_write. rewrite Hp. case_match; [done|].
  apply (lay_apart Hlay f _ 0 _ b m).
Qed.

Lemma save_table s f r s' f' : ef_save_env device_table part s f = Some (r, s', f') -> same_table f f'.
Proof.
  unfold ef_save_env, ef_port_erase, ef_port_write. destruct (negb _); [by intros [= _ _ <-]|].
  destruct (save_prepare s) as [s1|]; [|done]. cbn [mbind option_bind]. destruct (negb _); [done|].
  pose proof (erase_table part f (next_save_area_addr s) (get_env_user_used_size s) Hdev) as He.
  destruct (fal_partition_erase _ _ _ _ _) as [r1 f1]. cbn [snd mbind option_bind] in *.
  destruct (r1 <? 0); [by intros [= _ _ <-]|]. rewrite decide_False by done. destruct (_ <? _); [done|].
  pose proof (write_table part f1 (next_save_area_addr s) (buf_sub (env_cache s1) 0 (get_env_user_used_size s)) Hdev) as Hw.
  destruct (fal_partition_write _ _ _ _ _) as [r2 f2]. cbn [snd] in Hw. intros Hs b m. injection Hs as _ _ <-.
  by rewrite Hw, He.
Qed.

Lemma set_and_save_table s f k v r s' f' :
  ef_set_and_save_env device_table part s f k v = Some (r, s', f') -> same_table f f'.
Proof.
  unfold ef_set_and_save_env. destruct (ef_set_env s k v) as [[r1 s1]|]; [|done]. cbn [mbind option_bind].
  case_decide; [apply save_table|by intros [= _ _ <-]].
Qed.

(** Erasing the download keeps the table and the variables. *)
Lemma download_erased f :
  let f' := snd (fal_partition_erase_all device_table down f) in
  same_table f f' /\ reads_same device_table part f f'.
Proof.
  destruct (lay_download_in Hlay) as (Hl & Hin). split; [apply erase_table, (lay_download_dev Hlay)|].
  intros j n Hj Hn Hjn. unfold part_read.
  apply (fal_partition_isolated device_table d down part f 0 (part_len down) (replicate (Z.to_nat (part_len down)) 0));
    try done; rewrite ?Hblk; try done; try lia; try apply Hlay.
  autorewrite with zlen. lia.
Qed.

Lemma statics_cold : cold_start (set_lock env_statics 1).
Proof. split; [split; by_decide|done]. Qed.

Lemma part_found name p : List.find (fun p => strcmp_mem name (part_name_mem p)) ps = Some p ->
  fal_partition_find (FalState true true ps (zlen ps) true) name = Some (Some p).
Proof.
  intros H. unfold fal_partition_find, zlen. cbn [part_init_ok partition_table partition_table_len].
  by rewrite Nat2Z.id, take_ge, H.
Qed.

(** The card after the start. *)
Definition mounted_card (c : C) : C :=
  let '(mounted, c) := dfs_mount c in if mounted <? 0 then snd (dfs_mkfs c) else c.

Lemma settings_started fuel junk f c m : (length ps < fuel)%nat ->
  table_stored dev f off ps -> saved f m -> junk_ok junk ->
  exists s es f', settings_start device_table dfs_mount dfs_mkfs fuel true (fun _ => true) junk f c =
      Some (EF_NO_ERR, s, FalState true true ps (zlen ps) true, f', mounted_card c) /\
    store_inv s f' m es /\ table_stored dev f' off ps /\ saved f' m.
Proof.
  intros Hfuel Ht Hs Hj.
  assert (Hps : ps <> []) by (pose proof (lay_env Hlay); by destruct ps).
  unfold settings_start, w601_filesystem_init.
  rewrite (fal_init_table device_table dev f off ps fuel (lay_table_dev Hlay) (lay_table_len Hlay)
    (lay_table_room Hlay) Ht Hps (lay_entries Hlay) Hfuel).
  cbn [mbind option_bind]. destruct (Z.ltb_spec (zlen ps) 0); [pose proof (zlen_nonneg ps); lia|].
  rewrite (part_found _ _ (lay_download Hlay)). cbn [mbind option_bind].
  destruct (download_erased f) as [Htf Hrf].
  destruct (fal_partition_erase_all device_table down f) as [r1 f1]. cbn [snd] in *.
  pose proof (table_stored_same dev f f1 off ps Htf Ht) as Ht1.
  pose proof (saved_same device_table part Hsize f f1 m Hrf Hs) as Hs1.
  destruct (saved_restart device_table part d Hdev Hfit Hdevlen Hsize f1 m
    (set_lock env_statics 1) junk Hs1 statics_cold Hj) as (s & es & E & Hi).
  assert (K : exists r2, (let '(mounted, c) := dfs_mount c in
      if mounted <? 0 then let '(_, c) := dfs_mkfs c in Some (-1, FalState true true ps (zlen ps) true, f1, c)
      else Some (0, FalState true true ps (zlen ps) true, f1, c)) =
      Some (r2, FalState true true ps (zlen ps) true, f1, mounted_card c)).
  { unfold mounted_card. destruct (dfs_mount c) as [mounted c1]. case_match; [destruct (dfs_mkfs c1)|]; by eexists. }
  destruct K as (r2 & ->). cbn [mbind option_bind].
  unfold easyflash_init, ef_port_init. rewrite (part_found _ _ (lay_env Hlay)). cbn [mbind option_bind]. rewrite E.
  cbn [mbind option_bind]. by exists s, es, f1.
Qed.

Lemma restarts_keep fuel junks f c m : (length ps < fuel)%nat -> junks <> [] ->
  table_stored dev f off ps -> saved f m -> Forall junk_ok junks ->
  exists s es f' c', restarts fuel junks f c =
      Some (EF_NO_ERR, s, FalState true true ps (zlen ps) true, f', c') /\
    store_inv s f' m es /\ table_stored dev f' off ps /\ saved f' m.
Proof.
  intros Hfuel Hne Ht Hs Hj. revert f c Ht Hs. induction Hj as [|junk junks Hj Hjs IH]; [done|].
  intros f c Ht Hs. destruct (settings_started fuel junk f c m Hfuel Ht Hs Hj) as (s & es & f1 & E & Hi & Ht1 & Hs1).
  destruct junks as [|junk' junks]; [by exists s, es, f1, (mounted_card c)|].
  destruct (IH ltac:(done) f1 (mounted_card c) Ht1 Hs1) as (s' & es' & f' & c' & E' & H').
  exists s', es', f', c'. split; [|done]. cbn [AppStart.restarts]. rewrite E. exact E'.
Qed.

(** [C4] What has been saved stays: after a variable has been set and saved,
    the board may be restarted any number of times; every start, which loads
    the table of the partitions, erases the download, mounts or formats the
    card and loads the variables, succeeds, and in the end the variable has the
    value that was saved and every other variable the one it had. *)
Theorem settings_survive_restarts fuel s f m es0 k v s' f' junks c :
  (length ps < fuel)%nat -> table_stored dev f off ps ->
  store_inv s f m es0 -> saved_count s + 1 < 2 ^ 32 ->
  key_ok k -> cstring v -> zlen k + zlen v < 2 ^ 30 ->
  ef_set_and_save_env device_table part s f k (Some v) = Some (EF_NO_ERR, s', f') ->
  junks <> [] -> Forall junk_ok junks ->
  exists s1 fal f1 c1, restarts fuel junks f' c = Some (EF_NO_ERR, s1, fal, f1, c1) /\
    ef_get_env s1 k = Some (Some v) /\
    forall k', key_ok k' -> k' <> k -> ef_get_env s1 k' = Some (m !! k').
Proof.
  intros Hfuel Ht Hi Hc Hk Hv Hl E Hne Hj.
  destruct (set_and_save_saved device_table part d Hdev Hfit Hdevlen Hblk Haligned Hsize s f m es0 k v Hi Hc Hk Hv Hl)
    as (r & s2 & f2 & E2 & Hok & _).
  rewrite E in E2. injection E2 as <- <- <-. destruct (Hok eq_refl) as [_ Hs].
  pose proof (table_stored_same dev f f' off ps (set_and_save_table _ _ _ _ _ _ _ E) Ht) as Ht'.
  destruct (restarts_keep fuel junks f' c _ Hfuel Hne Ht' Hs Hj) as (s1 & es1 & f1 & c1 & E1 & [(Hr & Hin & _) _ _] & _).
  eexists s1, _, f1, c1. split; [exact E1|]. split.
  - rewrite (get_env_refines s1 _ k Hr Hin Hk). by rewrite lookup_insert_eq.
  - intros k' Hk' Hn. rewrite (get_env_refines s1 _ k' Hr Hin Hk'). by rewrite lookup_insert_ne.
Qed.

(** ** The running application *)
Context `{!FileSys C, !FileModes C, !FileSysLaws C, !FileModesLaws C}.

Lemma check_create_data p c q : fs_data (check_create_path p c).2 q = fs_data c q.
Proof.
  unfold check_create_path. destruct (fs_opendir c p); [done|].
  pose proof (mkdir_data c p q) as H. destruct (fs_mkdir c p) as [r c1]. by case_match.
Qed.

(** [web_file_init] writes the page and nothing else. *)
Lemma web_file_written page c :
  (web_file_init page c).1 = 0 /\ fs_data (web_file_init page c).2 WEB_INDEX_PATH = Some page /\
  forall q, q <> WEB_INDEX_PATH -> fs_data (web_file_init page c).2 q = fs_data c q.
Proof.
  unfold web_file_init. pose proof (check_create_data WEBNET_ROOT c) as Hc.
  destruct (check_create_path WEBNET_ROOT c) as [r c1]. cbn [snd] in Hc.
  destruct (fs_open_trunc c1 WEB_INDEX_PATH) as [fp c2] eqn:Eo.
  destruct (open_trunc_ok c1 _ fp c2 Eo) as (Hfp & Hcur & Hd & Hq).
  destruct (Z.ltb_spec fp 0); [lia|].
  pose proof (write_all c2 fp page _ _ Hcur) as Hn. pose proof (fun q => write_frame c2 fp page _ _ q Hcur) as Hf.
  destruct (fs_write c2 fp page) as [n c3] eqn:Ew. cbn [fst snd] in *. subst n. rewrite Z.eqb_refl.
  destruct (write_ok c2 fp page c3 _ 0 [] Ew Hcur Hd ltac:(done)) as [Hw _].
  split_and!; [done| |].
  - rewrite close_data, Hw. f_equal. unfold overwrite. cbn. by rewrite drop_nil, app_nil_r.
  - intros q Hne. by rewrite close_data, Hf, Hq, Hc.
Qed.

Lemma wait_ends answers : true ∈ answers -> exists n, wait_ready answers = Some n /\ answers !! n = Some true.
Proof.
  induction answers as [|[] answers IH]; rewrite ?elem_of_nil, ?elem_of_cons; [done|by exists 0%nat|].
  intros [|H]; [done|]. destruct (IH H) as (n & E & Hn). exists (S n). cbn. by rewrite E.
Qed.

Lemma time_valid years : Exists (Z.lt 100) years -> exists n, check_time_valid years = Some n.
Proof.
  intros H. destruct (wait_ends (map (Z.ltb 100) years)) as (n & E & _); [|by exists n].
  apply Exists_exists in H as (y & Hy & Hlt). apply list_elem_of_In, in_map_iff. exists y.
  split; [by apply Z.ltb_lt|by apply list_elem_of_In].
Qed.

End Settings.

(** ** A board with two chips *)
Section Pair.
Context {A B : Type}.

Definition on_first (ops : flash_ops A) : flash_ops (A * B) :=
  FlashOps (fun f => op_read ops f.1)
    (fun f a x => let '(r, g) := op_write ops f.1 a x in (r, (g, f.2)))
    (fun f a n => let '(r, g) := op_erase ops f.1 a n in (r, (g, f.2))).

Definition on_second (ops : flash_ops B) : flash_ops (A * B) :=
  FlashOps (fun f => op_read ops f.2)
    (fun f a x => let '(r, g) := op_write ops f.2 a x in (r, (f.1, g)))
    (fun f a n => let '(r, g) := op_erase ops f.2 a n in (r, (f.1, g))).

#[export] Instance second_device ops size blk : FlashDevice ops size blk -> FlashDevice (on_second ops) size blk.
Proof.
  intros []. split; cbn [op_read op_write op_erase on_second]; try done.
  - intros [x f]. apply fd_read_len.
  - intros [x f]. apply fd_read_sub.
  - intros [x f] a dd. cbn. specialize (fd_write_result f a dd). by destruct (op_write ops f a dd).
  - intros [x f] a n. cbn. specialize (fd_erase_result f a n). by destruct (op_erase ops f a n).
  - intros [x f] [x1 f1] [x2 f2] a n dd Ha Hal Hn Hf Hb Hz. cbn [fst snd].
    destruct (op_erase ops f a n) as [r1 g1] eqn:E1. intros [= -> <- <-]. cbn [fst snd].
    destruct (op_write ops g1 a dd) as [r2 g2] eqn:E2. intros [= -> <- <-]. by eapply fd_program.
  - intros [x f] [x1 f1] a dd r j m Ha Hs. cbn [fst snd].
    destruct (op_write ops f a dd) as [r1 g1] eqn:E1. intros [= <- <- <-]. by eapply fd_write_frame.
  - intros [x f] [x1 f1] a n r j m Ha Hal Hn Hs. cbn [fst snd].
    destruct (op_erase ops f a n) as [r1 g1] eqn:E1. intros [= <- <- <-]. by eapply fd_erase_frame.
Qed.

(** The chips are apart. *)
Lemma chips_apart (ops1 : flash_ops A) (ops2 : flash_ops B) f a n x b m :
  op_read (on_first ops1) (snd (op_erase (on_second ops2) f a n)) b m = op_read (on_first ops1) f b m /\
  op_read (on_first ops1) (snd (op_write (on_second ops2) f a x)) b m = op_read (on_first ops1) f b m.
Proof.
  destruct f as [f g]. cbn. destruct (op_erase ops2 g a n), (op_write ops2 g a x). done.
Qed.
End Pair.

(** The table of src/ports/fal/fal_cfg.h. *)
Definition board_table : list fal_partition :=
  [mk_partition (str "app") (str "w60x_onchip") 0 (959 * 1024);
   mk_partition (str "easyflash") (str "norflash") 0 (1024 * 1024);
   mk_partition (str "download") (str "norflash") (1024 * 1024) (1024 * 1024);
   mk_partition (str "font") (str "norflash") (2 * 1024 * 1024) (7 * 1024 * 1024);
   mk_partition (str "filesystem1") (str "norflash") ((1024 + 1024 + 7 * 1024) * 1024) (7 * 1024 * 1024)].

Definition board_onchip : fal_flash_dev ((Z -> Z) * (Z -> Z)) :=
  FalFlashDev (str "w60x_onchip") FLASH_BASE_ADDR 0x100000 FLASH_SECTOR (on_first (nor_ops 4096)).

Definition board_nor : fal_flash_dev ((Z -> Z) * (Z -> Z)) :=
  FalFlashDev (str "norflash") 0 (16 * 1024 * 1024) 4096 (on_second (nor_ops 4096)).

Definition board_devices := [board_onchip; board_nor].

(** The table below 65600 of the first chip, the saved defaults at the start of
    the second. *)
Definition board_flash : (Z -> Z) * (Z -> Z) :=
  (fun k => if (65280 <=? k) && (k <? 65600)
            then nth (Z.to_nat ((k - 65280) `mod` 64)) (nth (Z.to_nat (4 - (k - 65280) / 64)) board_table []) 0
            else 255,
   fun k => if (0 <=? k) && (k <? zlen store_image) then nth (Z.to_nat k) store_image 0 else 255).

Definition board_env : fal_partition := nth 1 board_table [].
Definition board_download : fal_partition := nth 2 board_table [].

#[export] Instance board_nor_device : FlashDevice (dev_ops board_nor) (dev_len board_nor) (dev_blk_size board_nor).
Proof. apply second_device, (nor_device (16 * 1024 * 1024) 4096). lia. Qed.

Lemma board_nor_in p : strncmp_eq FAL_DEV_NAME_MAX (flash_name p) (str "w60x_onchip") = false ->
  strncmp_eq FAL_DEV_NAME_MAX (flash_name p) (str "norflash") = true ->
  find_device board_devices (flash_name p) = Some board_nor.
Proof. intros H1 H2. unfold board_devices. rewrite find_device_next by done. by apply find_device_head. Qed.

Lemma board_layout : flash_layout board_devices board_env board_download board_nor board_onchip board_table 65536.
Proof.
  split; [apply find_device_head; by vm_compute|by_decide|by_decide|by vm_compute|by vm_compute|by vm_compute
    |apply board_nor_in; by vm_compute|by_decide..|].
  intros f a n x b m. apply chips_apart.
Qed.

Lemma board_table_stored : table_stored board_onchip board_flash 65536 board_table.
Proof.
  split.
  - intros k Hk. unfold FAL_PART_TABLE_END_OFFSET in Hk. lia.
  - by vm_compute.
  - by vm_compute.
  - split.
    + intros i p H. do 5 (destruct i as [|i]; [injection H as <-; split; by vm_compute|]). done.
    + eexists. split; [by vm_compute|by vm_compute].
Qed.

Lemma board_consistent :
  store_inv board_devices board_env store_state board_flash (list_to_map default_env_set) default_env_set.
Proof.
  split; [exact (inv_ready _ _ _ _ _ _ store_consistent)| |done].
  exists (Some (default_env_set, 1)), None.
  split_and!; [|left; by vm_compute|by vm_compute].
  split; [by vm_compute|by_decide|by_decide|repeat constructor; by_decide|by_decide].
Qed.

Definition card_mount (ok : bool) (c : mem_fs) : Z * mem_fs := (if ok then 0 else -1, c).
Definition card_format (c : mem_fs) : Z * mem_fs := (0, empty_disk).

(** A name is saved, then the board starts three times. *)
Example settings_survive_restarts_witness : exists s' f' s1 fal f1 c1,
  ef_set_and_save_env board_devices board_env store_state board_flash (str "name") (Some (str "lab")) =
    Some (EF_NO_ERR, s', f') /\
  restarts board_devices (card_mount false) card_format 6 (replicate 3 (fun _ => [0; 0; 0; 0])) f' empty_disk =
    Some (EF_NO_ERR, s1, fal, f1, c1) /\
  ef_get_env s1 (str "name") = Some (Some (str "lab")) /\
  ef_get_env s1 (str "boot_times") = Some (Some (str "0")).
Proof.
  assert (H1 : find_device board_devices (flash_name board_env) = Some board_nor)
    by (apply board_nor_in; by vm_compute).
  destruct (ef_set_and_save_env board_devices board_env store_state board_flash (str "name") (Some (str "lab")))
    as [[[r s'] f']|] eqn:E.
  2:{ exfalso. apply (f_equal (fun x => match x with Some _ => true | None => false end)) in E.
      vm_compute in E. discriminate. }
  assert (Hr : r = EF_NO_ERR).
  { apply (f_equal (fun x => match x with Some (r, _, _) => r | None => EF_NO_ERR end)) in E.
    vm_compute in E. congruence. }
  subst r. exists s', f'.
  destruct (settings_survive_restarts board_devices (card_mount false) card_format board_env board_download
    board_nor board_onchip board_table 65536 H1 ltac:(by_decide) ltac:(by_decide) eq_refl eq_refl ltac:(by_decide)
    board_layout 6 store_state board_flash (list_to_map default_env_set) default_env_set (str "name") (str "lab") s' f'
    (replicate 3 (fun _ => [0; 0; 0; 0])) empty_disk ltac:(by_decide) board_table_stored board_consistent
    ltac:(by_decide) ltac:(by_decide) ltac:(by_decide) ltac:(by_decide) E ltac:(done)
    ltac:(by repeat constructor)) as (s1 & fal & f1 & c1 & Hs & Hk & Hother).
  exists s1, fal, f1, c1. split; [done|]. split; [exact Hs|]. split; [exact Hk|].
  rewrite (Hother (str "boot_times")); [reflexivity|by_decide|by_decide].
Defined.


(** Without a table [fal_init] returns 0, which is taken for success; looking
    for the partition then stops the board. *)
Example start_without_table :
  fst <$> fal_init [sample_dev] 3 false (fun _ => true) sample_flash fal_boot = Some 0 /\
  w601_filesystem_init [sample_dev] (card_mount true) card_format 3 false (fun _ => true) fal_boot sample_flash empty_disk = None.
Proof. by vm_compute. Qed.

(** A table without the download stops the board, too. *)
Example start_without_download :
  w601_filesystem_init [sample_dev] (card_mount true) card_format 3 true (fun _ => true) fal_boot sample_flash empty_disk = None.
Proof. by vm_compute. Qed.

(** A card that is formatted is not mounted afterwards: the function has
    failed. *)
Example formatted_not_mounted :
  (fun r => r.1.1.1) <$> w601_filesystem_init board_devices (card_mount false) card_format 6 true (fun _ => true)
    fal_boot board_flash empty_disk = Some (-1).
Proof. by vm_compute. Qed.
